(* ===== verification/_CoqProject ===== *)
-Q . S2P
Prelude.v
Handler.v
JsValue.v
Number.v
Json.v
Runtime.v
Data.v
Api.v
Services.v
SettingsData.v
Messages.v
Net.v
Regex.v
Validators.v
Sorting.v
Forms.v
Fields.v
NodeMng.v
Policy.v
Catalog.v
Alerts.v
Notifications.v
AddNode.v
AgentData.v
Agents.v
AgentDialogs.v
TextEditor.v
RuleEditor.v
Scale.v
IndexManagement.v
ConfigMap.v
KitSettings.v
AddMip.v
MipMng.v
ConfirmDialog.v
Rebuild.v
ModalDialog.v
ProgressBar.v
Passwords.v
MipSettings.v
GeneralSettings.v
SystemSettings.v
VMWareSettings.v
HiveSettings.v
ColdLog.v
AddKitToken.v
HealthData.v
KitTokens.v
Datastores.v
NodeTable.v
PodTable.v
Health.v
ServerStdout.v
RuleSetDialog.v
RulesUpload.v
KitPassword.v
NodeMaintenance.v
UpdateDocs.v
EsLicense.v
ReplayDialog.v
PcapForm.v
Navigation.v
TopNavbar.v
Portal.v
CatalogList.v
PmoSupport.v
DockerRegistry.v
AlertDrilldown.v
Browser.v
DateTime.v
DisplayDialogs.v
