(* ===== verification/Prelude.v ===== *)
(** * The front end of the TFPlenum controller

    A verification development for the Angular application of the repository,
    src/web/frontend/src/app: the pages a maintainer uses to set up a kit of
    nodes, install applications on it and watch it.  The server side (Python,
    Ansible, shell) is outside of this development; its answers are inputs.

    ** How the program is modelled

    A component class becomes a [Record] of its fields and one [Definition] per
    method, under the name of the method; the callback of a subscription is
    named after the method that subscribes, with the suffix [_answer] (requests)
    or [_closed] (dialogs).  Methods are handlers (Handler.v): functions from the
    state to an outcome (a value or a JavaScript exception), the state that is
    left and the list of effects that were made; a handler that throws keeps
    both.  What is subscribed to is data, a constructor of [call] that holds what
    the callback captured.  Runtime.v puts a component into the event loop: a
    [world] is the state with the subscriptions that wait, a [step] is an event of
    the page or the answer to one waiting subscription, in any order, and a
    [trace] is a finite run from the initial state.  Theorems about ordering
    quantify over traces; [trace_invariant], [answered_subscribed] and
    [trace_refines] are the inductions they use.  What the template allows (a
    disabled button, a row that is not shown) is a guard of the event.

    - Objects that several holders share (table rows, config maps, notifications)
      live in a [store] (end of this file) and are passed as references.
    - Numbers the source only counts with are [Z]; where rounding matters they
      are IEEE doubles (Number.v).  The bit operations on addresses work on 32-bit
      integers and wrap as the language wraps them (Net.v).
    - Values of unknown shape (form values, JSON) are [jsval] (JsValue.v).
    - A child component is composed with its parent by [zoom] (its handlers run on
      a part of the parent's state) or, for the text editor, by [listen] (its
      outputs run handlers of the parent, synchronously).  Change detection, which
      hands the inputs down, runs after every turn through [finally].

    ** The parts

    - Prelude.v, Handler.v, JsValue.v, Number.v, Json.v, Runtime.v: the language
      and the framework, as far as the source uses them.
    - Data.v, Api.v, Services.v: the classes shared by the pages, the error
      handling of services/abstract/api.service.ts and the requests.
    - Net.v, Regex.v, Validators.v: the address arithmetic, regular expressions
      with a verified matcher, and the form validators with their pattern
      constants.  Group of theorems: what a subnet test, a password, an address or
      a hostname field accepts, as equivalences with a description.
    - Sorting.v: the table orders over a locale's collation, [Array.sort].
    - Forms.v: reactive forms as an interface with laws and an implementation.
    - NodeMng.v and AddNode.v: modules/node-mng, the page and its dialog;
      MipMng.v and AddMip.v: modules/mip-mng, likewise.
    - ConfirmDialog.v, ModalDialog.v, ProgressBar.v: modules/global-components.
      Rebuild.v composes the confirm dialog with the node management page.
    - Policy.v, RuleEditor.v, RuleSetDialog.v, RulesUpload.v: modules/policy-management,
      the page and its dialogs; the one that edits a rule is composed with
      TextEditor.v.
    - ServerStdout.v: modules/server-stdout, the output of a job.
    - ReplayDialog.v, PcapForm.v: modules/pcap-form, composed.
    - Navigation.v, TopNavbar.v: the user, the guards, the routes and top-navbar;
      Portal.v: modules/portal, composed with ModalDialog.v.
    - KitPassword.v, NodeMaintenance.v, UpdateDocs.v, EsLicense.v: the forms of
      modules/tools; Passwords.v: the groups of repeated passwords that
      KitPassword.v and MipSettings.v share.
    - Catalog.v: modules/catalog/components/catalog-page, the wizard;
      CatalogList.v: modules/catalog, the list and the cards.
    - PmoSupport.v, DockerRegistry.v: modules/pmo-support and docker-registry.
    - Alerts.v, AlertDrilldown.v: modules/security-alerts.
    - Notifications.v: modules/notifications and its service.
    - AgentData.v, Agents.v, AgentDialogs.v: modules/agent-builder-chooser.
    - HealthData.v, Datastores.v, NodeTable.v, PodTable.v, Health.v:
      modules/health-dashboard, four components composed by the last file.
    - Browser.v: the services between the components and the browser, with the
      interceptor; DateTime.v: modules/date-time; DisplayDialogs.v: the dialogs
      that show what they are given.
    - TextEditor.v: modules/ngx-monaco-text-editor and ConfirmActionPopup.
    - Scale.v, IndexManagement.v, ConfigMap.v: modules/elasticsearch-scale,
      elasticsearch-index-management and config-map; ColdLog.v:
      elasticsearch-cold-log-ingest.
    - SettingsData.v, Messages.v, Fields.v: the classes, the texts of validation
      errors and the form groups that keep the verdict of every control; used by
      the settings forms KitSettings.v, MipSettings.v, GeneralSettings.v,
      VMWareSettings.v, HiveSettings.v, the page SystemSettings.v and the tokens
      of the kits with their dialogs, AddKitToken.v and KitTokens.v
      (modules/system-settings).

    ** What the theorems show

    Safety over all traces (a node, rule, application, config map or index is
    touched only by the confirmed action of the user, with the data that was
    shown); invariants (the tables agree with what was received, the wizard keeps
    values locked, the form follows the editor); functional behaviour on every
    branch; equivalences of validators and groupings with their descriptions; a
    refinement of the notification feed; termination of the unit search and
    completion of the dialog that waits for its addresses; bounds of addresses,
    times and pod counts; the error handling of requests.  Where the code fails
    its purpose the theorem states what it does, and the manifest lists it.
    Where a page is composed with its dialog (Rebuild.v, PcapForm.v, Portal.v), the
    theorem speaks of the run of the very dialog whose answer the page receives
    ([answered_by], [closed_after]); KitTokens.v takes the answers its dialog can
    give; elsewhere the answers of dialogs are arbitrary unless a theorem says so.

    ** Parameters, and why they are fair

    [Collation] (localeCompare: antisymmetric, transitive), [Controls]/[Groups]
    and [NgValidators] (@angular/forms), [JSON] (parse after stringify), [Dates]
    and [Platform] (dates and the date pipe), [CookieStore] (document.cookie), the
    clock, and the reports of Material's stepper.  Each has an
    instance the witnesses evaluate.  Only documented behaviour is assumed.

    ** Bounds and fuel

    [SPACE_FUEL] of Datastores.v is 5, the number of units the loop can reach;
    [calculate_space_terminates] shows that it never runs out.  The printing of
    numbers (Number.v) searches at most 17 digits, which suffices for doubles.
    Every other recursion is structural.

    ** Not modelled

    Presentation (templates beyond the guards they put on events, styles, the
    theme), Angular's and Material's code (of the router only the table of routes
    and its matching), the wiring of modules, the environments (their URLs appear
    in the services), static-data (sample objects of the unit tests) and the unit
    tests. *)
From stdpp Require Export base tactics option list strings gmap.
From Stdlib Require Export ZArith Lia.

Declare Scope s2js_scope.
Delimit Scope s2js_scope with js.
Open Scope s2js_scope.

(** Lemmas that settle the routine goals: [js] on lists, options and objects,
    [handler] on the safety of handlers. *)
Create HintDb js.
Create HintDb js_rewrite.
Create HintDb handler.

(** ** JavaScript primitives the source uses *)

(** [ObjectUtilitiesClass.notUndefNull] is modelled on optional values: a field
    that may be undefined or null is an [option]. *)
Definition notUndefNull {A} (data : option A) : bool :=
  match data with Some _ => true | None => false end.

(** A possibly undefined boolean read in a condition: undefined is falsy. *)
Definition truthy (b : option bool) : bool :=
  match b with Some true => true | _ => false end.

(** [===] on strings. *)
Definition seqb (a b : string) : bool := String.eqb a b.
Infix "===" := seqb (at level 70, no associativity) : s2js_scope.
Notation "a !== b" := (negb (seqb a b)) (at level 70, no associativity) : s2js_scope.

(** [===] between a string and a possibly undefined string. *)
Definition oseqb (a : option string) (b : string) : bool :=
  match a with Some s => String.eqb s b | None => false end.
Infix "?===" := oseqb (at level 70, no associativity) : s2js_scope.

Lemma seqb_eq a b : (a === b) = true <-> a = b.
Proof. apply String.eqb_eq. Qed.

Lemma seqb_neq a b : (a === b) = false <-> a <> b.
Proof. apply String.eqb_neq. Qed.

Lemma seqb_refl a : (a === a) = true.
Proof. apply String.eqb_refl. Qed.

Lemma oseqb_eq a b : (a ?=== b) = true <-> a = Some b.
Proof.
  destruct a as [s|]; simpl; [rewrite String.eqb_eq|]; split; congruence.
Qed.

(** [Array.prototype.includes] on strings. *)
Definition includes (l : list string) (x : string) : bool :=
  existsb (fun y => y === x) l.

Lemma includes_elem_of l x : includes l x = true <-> x ∈ l.
Proof.
  unfold includes. rewrite existsb_exists, list_elem_of_In.
  setoid_rewrite seqb_eq. split; [intros (y & ? & ->); done | eauto].
Qed.

Lemma includes_false l x : includes l x = false <-> x ∉ l.
Proof. rewrite <- includes_elem_of. destruct (includes l x); naive_solver. Qed.

(** [Array.prototype.findIndex]: [-1] when no element satisfies the test. *)
Fixpoint findIndex {A} (p : A -> bool) (l : list A) : Z :=
  match l with
  | [] => (-1)%Z
  | x :: r => if p x then 0%Z
              else let i := findIndex p r in if Z.eqb i (-1) then (-1)%Z else (i + 1)%Z
  end.

Definition indexOf (l : list string) (x : string) : Z := findIndex (fun y => y === x) l.

(** [arr.splice(start, 1)] for an integer [start]: a negative start counts
    from the end (clamped at zero), a start past the end removes nothing. *)
Definition splice1 {A} (start : Z) (l : list A) : list A :=
  let n := Z.of_nat (length l) in
  let s := if Z.ltb start 0 then Z.max 0 (n + start) else Z.min start n in
  take (Z.to_nat s) l ++ drop (S (Z.to_nat s)) l.

(** [arr[i]] read for an integer [i]: undefined out of range. *)
Definition at_index {A} (l : list A) (i : Z) : option A :=
  if Z.ltb i 0 then None else l !! Z.to_nat i.

Lemma findIndex_bounds {A} (p : A -> bool) l :
  (-1 <= findIndex p l < Z.of_nat (length l))%Z.
Proof.
  induction l as [|x l IH]; simpl; [lia|].
  destruct (p x); [lia|]. destruct (Z.eqb_spec (findIndex p l) (-1)); lia.
Qed.

Lemma findIndex_none {A} (p : A -> bool) l :
  findIndex p l = (-1)%Z <-> Forall (fun x => p x = false) l.
Proof.
  induction l as [|x l IH]; simpl; [split; [constructor | done]|].
  rewrite Forall_cons. destruct (p x) eqn:E; [split; [lia | naive_solver]|].
  pose proof (findIndex_bounds p l).
  destruct (Z.eqb_spec (findIndex p l) (-1)); rewrite <- IH; split; intuition lia.
Qed.

Lemma findIndex_some {A} (p : A -> bool) l i :
  findIndex p l = Z.of_nat i ->
  exists x, l !! i = Some x /\ p x = true /\
            forall j y, (j < i)%nat -> l !! j = Some y -> p y = false.
Proof.
  revert i; induction l as [|x l IH]; simpl; intros i; [lia|].
  destruct (p x) eqn:E.
  - intros Hi. assert (i = 0%nat) as -> by lia. exists x; simpl; split_and!; auto; lia.
  - destruct (Z.eqb_spec (findIndex p l) (-1)) as [?|Hne]; [lia|]. intros Hi.
    pose proof (findIndex_bounds p l).
    destruct i as [|i]; [lia|]. destruct (IH i ltac:(lia)) as (y & Hy & Hp & Hlt).
    exists y; split_and!; auto.
    intros [|j] z; simpl; [naive_solver|]. intros; eapply Hlt; [|done]; lia.
Qed.

Lemma findIndex_ext {A} (p q : A -> bool) l :
  (forall x, x ∈ l -> p x = q x) -> findIndex p l = findIndex q l.
Proof.
  induction l as [|x l IH]; intros H; simpl; [done|].
  rewrite (H x) by left. rewrite IH; [done|]. intros y Hy. apply H. by right.
Qed.

Lemma splice1_nat {A} (i : nat) (l : list A) :
  (i < length l)%nat -> splice1 (Z.of_nat i) l = take i l ++ drop (S i) l.
Proof.
  intros Hi. unfold splice1.
  destruct (Z.ltb_spec (Z.of_nat i) 0); [lia|].
  by replace (Z.to_nat (Z.min (Z.of_nat i) (Z.of_nat (length l)))) with i by lia.
Qed.

Lemma splice1_minus_one {A} (l : list A) (x : A) :
  splice1 (-1) (l ++ [x]) = l.
Proof.
  unfold splice1. simpl. rewrite length_app. simpl.
  replace (Z.to_nat (Z.max 0 (Z.of_nat (length l + 1) + -1))) with (length l) by lia.
  rewrite take_app_length. rewrite drop_ge by (rewrite length_app; simpl; lia).
  by rewrite app_nil_r.
Qed.

Lemma filter_ne_id (l : list string) x : x ∉ l -> filter (fun y => y <> x) l = l.
Proof.
  induction l as [|a l IH]; [done|]. intros [? ?]%not_elem_of_cons.
  rewrite filter_cons_True by congruence. f_equal; auto.
Qed.

(** Removing by [splice] the position [indexOf] found is removing the first
    occurrence; on a list without duplicates it is removing the value. *)
Lemma splice1_indexOf l x :
  NoDup l -> x ∈ l -> splice1 (indexOf l x) l = filter (fun y => y <> x) l.
Proof.
  intros Hnd Hx.
  assert (exists i, indexOf l x = Z.of_nat i) as [i Hi].
  { pose proof (findIndex_bounds (fun y => y === x) l).
    exists (Z.to_nat (indexOf l x)). unfold indexOf.
    destruct (Z.eq_dec (findIndex (fun y => y === x) l) (-1)) as [E|]; [|lia].
    apply findIndex_none in E. rewrite Forall_forall in E.
    specialize (E x Hx). simpl in E. by rewrite seqb_refl in E. }
  rewrite Hi. destruct (findIndex_some _ _ _ Hi) as (y & Hy & Hp & _).
  apply seqb_eq in Hp as ->.
  rewrite splice1_nat by (eapply lookup_lt_Some; eauto).
  clear Hi Hx. revert i Hy. induction Hnd as [|z l Hz Hnd IH]; intros i Hy; [done|].
  destruct i as [|i]; simpl in *.
  - injection Hy as ->. rewrite filter_cons_False by naive_solver.
    by rewrite filter_ne_id.
  - rewrite filter_cons_True; [by rewrite <- (IH i Hy)|].
    intros ->. apply Hz. by apply list_elem_of_lookup_2 in Hy.
Qed.

(** A line feed. *)
Definition newline : string := String (Ascii.ascii_of_nat 10) "".

(** [Array.prototype.join]. *)
Fixpoint join_with (sep : string) (l : list string) : string :=
  match l with
  | [] => ""
  | [x] => x
  | x :: r => x +:+ sep +:+ join_with sep r
  end.

Lemma text_app_nil (a : string) : a +:+ "" = a.
Proof. induction a as [|x a IH]; [done | exact (f_equal (String x) IH)]. Qed.

Lemma text_app_assoc (a b c : string) : a +:+ (b +:+ c) = (a +:+ b) +:+ c.
Proof. induction a as [|x a IH]; [done | exact (f_equal (String x) IH)]. Qed.

Lemma text_length_app (a b : string) : String.length (a +:+ b) = (String.length a + String.length b)%nat.
Proof. induction a as [|x a IH]; [done | exact (f_equal S IH)]. Qed.

Lemma text_substring_app (a b : string) : String.substring 0 (String.length a) (a +:+ b) = a.
Proof. induction a as [|x a IH]; [by destruct b | exact (f_equal (String x) IH)]. Qed.

(** ** Objects and references

    Objects that several holders share (table rows that dialogs and callbacks
    also hold) live in a store; what the code passes around are references. *)
Definition loc : Type := nat.

Record store (A : Type) := Store { objects : gmap loc A; next_loc : loc }.
Arguments Store {A} objects next_loc.
Arguments objects {A} s.
Arguments next_loc {A} s.

Definition store_empty {A} : store A := Store ∅ 0.

Definition alloc {A} (x : A) (h : store A) : loc * store A :=
  (next_loc h, Store (<[next_loc h := x]> (objects h)) (S (next_loc h))).

Fixpoint alloc_list {A} (l : list A) (h : store A) : list loc * store A :=
  match l with
  | [] => ([], h)
  | x :: r =>
      let '(p, h1) := alloc x h in
      let '(ps, h2) := alloc_list r h1 in (p :: ps, h2)
  end.

Definition load {A} (h : store A) (p : loc) : option A := objects h !! p.
Definition update {A} (p : loc) (f : A -> A) (h : store A) : store A :=
  Store (alter f p (objects h)) (next_loc h).

(** Every object of the store has a reference below the next fresh one. *)
Definition store_wf {A} (h : store A) : Prop :=
  forall p, is_Some (load h p) -> (p < next_loc h)%nat.

(** The same as a test. *)
Definition store_wfb {A} (h : store A) : bool :=
  forallb (fun x => Nat.ltb (fst x) (next_loc h)) (map_to_list (objects h)).

Section Store.
Context {A : Type}.
Implicit Types (h : store A) (p q : loc).

Lemma store_empty_wf : store_wf (@store_empty A).
Proof. intros p. unfold load; simpl. rewrite lookup_empty. by intros [? ?]. Qed.

Lemma store_wfb_wf h : store_wfb h = true -> store_wf h.
Proof.
  unfold store_wfb. rewrite forallb_forall. intros H p [x Hx].
  apply Nat.ltb_lt, (H (p, x)), list_elem_of_In, elem_of_map_to_list, Hx.
Qed.

Lemma update_wf p f h : store_wf h -> store_wf (update p f h).
Proof.
  intros H q. unfold load, update; simpl. rewrite lookup_alter.
  intros [y Hy]. apply H. unfold load. case_decide; simplify_eq; [|by eauto].
  destruct (objects h !! q) eqn:E; [by eauto | done].
Qed.

Lemma load_update_eq p f h : load (update p f h) p = f <$> load h p.
Proof. unfold load, update; simpl. by rewrite lookup_alter_eq. Qed.

Lemma load_update_ne p q f h : p <> q -> load (update p f h) q = load h q.
Proof. intros. unfold load, update; simpl. by rewrite lookup_alter_ne. Qed.

Lemma alloc_list_fresh l h ps h' :
  alloc_list l h = (ps, h') -> ps = seq (next_loc h) (length l) /\ next_loc h' = (next_loc h + length l)%nat.
Proof.
  revert h ps h'; induction l as [|x l IH]; intros h ps h'; simpl.
  - intros [= <- <-]. split; [done | lia].
  - destruct (alloc_list l _) as [ps1 h2] eqn:E. intros [= <- <-].
    destruct (IH _ _ _ E) as [-> ->]. simpl. split; [done | lia].
Qed.

(** Allocation does not touch the objects that exist. *)
Lemma alloc_list_old l h ps h' p :
  alloc_list l h = (ps, h') -> (p < next_loc h)%nat -> load h' p = load h p.
Proof.
  revert h ps h'; induction l as [|x l IH]; intros h ps h'; simpl.
  - by intros [= <- <-].
  - destruct (alloc_list l _) as [ps1 h2] eqn:E. intros [= <- <-] Hp.
    rewrite (IH _ _ _ E) by (simpl; lia). unfold load; simpl.
    by rewrite lookup_insert_ne by lia.
Qed.

Lemma alloc_list_new l h ps h' i x :
  alloc_list l h = (ps, h') -> l !! i = Some x -> load h' (next_loc h + i)%nat = Some x.
Proof.
  revert h ps h' i; induction l as [|y l IH]; intros h ps h' i; simpl; [done|].
  destruct (alloc_list l _) as [ps1 h2] eqn:E. intros [= <- <-] Hi.
  destruct i as [|i]; simpl in Hi.
  - injection Hi as ->. rewrite Nat.add_0_r.
    rewrite (alloc_list_old _ _ _ _ _ E) by (simpl; lia).
    unfold load; simpl. by rewrite lookup_insert_eq.
  - specialize (IH _ _ _ i E Hi). simpl in IH.
    by replace (next_loc h + S i)%nat with (S (next_loc h) + i)%nat by lia.
Qed.

Lemma alloc_list_loads l h ps h' :
  alloc_list l h = (ps, h') -> omap (load h') ps = l.
Proof.
  intros E. destruct (alloc_list_fresh _ _ _ _ E) as [-> _].
  revert h h' E. induction l as [|x l IH]; intros h h' E; [done|]. simpl.
  rewrite <- (Nat.add_0_r (next_loc h)) at 1.
  rewrite (alloc_list_new _ _ _ _ 0 x E eq_refl). f_equal.
  simpl in E. destruct (alloc_list l _) as [ps1 h2] eqn:E1. injection E as _ <-.
  destruct (alloc_list_fresh _ _ _ _ E1) as [-> _]. apply (IH _ _ E1).
Qed.

Lemma alloc_list_wf l h ps h' :
  alloc_list l h = (ps, h') -> store_wf h -> store_wf h'.
Proof.
  revert h ps h'; induction l as [|x l IH]; intros h ps h'; simpl.
  - by intros [= <- <-].
  - destruct (alloc_list l _) as [ps1 h2] eqn:E. intros [= <- <-] Hwf.
    apply (IH _ _ _ E). intros p [y Hy]. unfold load in Hy; simpl in *.
    apply lookup_insert_Some in Hy as [[<- _]|[_ Hy]]; [lia|].
    specialize (Hwf p (ex_intro _ _ Hy)). lia.
Qed.
End Store.
