(* ===== verification/Handler.v ===== *)
(** Event handlers of the components: a state monad with an ordered log of
    effects and JavaScript exceptions.  A handler that throws keeps the state
    changes and the effects it made before the throw, as the browser does. *)
From S2P Require Import Prelude.

Inductive outcome (A : Type) : Type :=
| Ret (a : A)
| Exn (e : string).
Arguments Ret {A} a.
Arguments Exn {A} e.

(** [response.map((x) => new C(x))] for a constructor that may throw. *)
Fixpoint construct_all {A B} (f : A -> outcome B) (l : list A) : outcome (list B) :=
  match l with
  | [] => Ret []
  | x :: r => match f x with
              | Ret y => match construct_all f r with
                         | Ret ys => Ret (y :: ys)
                         | Exn e => Exn e
                         end
              | Exn e => Exn e
              end
  end.

(** A handler over component state [S] with effects [E]. *)
Definition handler (S E A : Type) : Type := S -> outcome A * S * list E.

Section Handler.
Context {S E : Type}.
Implicit Types s : S.

Definition ret {A} (a : A) : handler S E A := fun s => (Ret a, s, []).

Definition throw {A} (e : string) : handler S E A := fun s => (Exn e, s, []).

Definition bind {A B} (m : handler S E A) (k : A -> handler S E B) : handler S E B :=
  fun s =>
    match m s with
    | (Ret a, s1, es1) => let '(r, s2, es2) := k a s1 in (r, s2, es1 ++ es2)
    | (Exn e, s1, es1) => (Exn e, s1, es1)
    end.

Definition gets {A} (f : S -> A) : handler S E A := fun s => (Ret (f s), s, []).
Definition modify (f : S -> S) : handler S E unit := fun s => (Ret tt, f s, []).
Definition emit (e : E) : handler S E unit := fun s => (Ret tt, s, [e]).

(** [if (b) { m }] *)
Definition when (b : bool) (m : handler S E unit) : handler S E unit :=
  if b then m else ret tt.

(** [l.forEach(f)] *)
Fixpoint for_each {A} (l : list A) (f : A -> handler S E unit) : handler S E unit :=
  match l with
  | [] => ret tt
  | x :: r => bind (f x) (fun _ => for_each r f)
  end.

(** Reading a property of undefined or null throws a TypeError. *)
Definition deref {A} (o : option A) : handler S E A :=
  match o with Some a => ret a | None => throw "TypeError" end.

Definition state_of {A} (x : outcome A * S * list E) : S := snd (fst x).
Definition effects_of {A} (x : outcome A * S * list E) : list E := snd x.

(** Running a sequence, one handler at a time. *)
Lemma bind_run {A B} (m : handler S E A) (k : A -> handler S E B) s a s1 es1 :
  m s = (Ret a, s1, es1) ->
  bind m k s = (let '(r, s2, es2) := k a s1 in (r, s2, es1 ++ es2)).
Proof. unfold bind. by intros ->. Qed.

Lemma bind_run_silent {A B} (m : handler S E A) (k : A -> handler S E B) s a s1 :
  m s = (Ret a, s1, []) -> bind m k s = k a s1.
Proof. intros H. rewrite (bind_run _ _ _ _ _ _ H). by destruct (k a s1) as [[? ?] ?]. Qed.

Lemma bind_state {A B} (m : handler S E A) (k : A -> handler S E B) s a s1 es1 :
  m s = (Ret a, s1, es1) -> state_of (bind m k s) = state_of (k a s1).
Proof. intros H. rewrite (bind_run _ _ _ _ _ _ H). by destruct (k a s1) as [[? ?] ?]. Qed.

Lemma bind_run_throw {A B} (m : handler S E A) (k : A -> handler S E B) s e s1 es1 :
  m s = (Exn e, s1, es1) -> bind m k s = (Exn e, s1, es1).
Proof. unfold bind. by intros ->. Qed.

(** Handlers are compared by their runs, not as functions. *)
Definition heq {A} (m n : handler S E A) : Prop := forall s, m s = n s.

#[export] Instance heq_equiv {A} : Equivalence (@heq A).
Proof.
  split; [intros m s; done | intros m n H s; done | intros m n p H1 H2 s].
  by rewrite H1, H2.
Qed.

#[export] Instance bind_proper {A B} :
  Proper (heq ==> pointwise_relation A heq ==> heq) (@bind A B).
Proof.
  intros m n Hm k k' Hk s. unfold bind. rewrite (Hm s).
  destruct (n s) as [[[a|e] s1] es]; [by rewrite (Hk a s1) | done].
Qed.

#[export] Instance for_each_proper {A} :
  Proper (eq ==> pointwise_relation A heq ==> heq) (@for_each A).
Proof.
  intros l l' -> f g Hfg. induction l' as [|x l IH]; [done|]; simpl.
  apply bind_proper; [apply Hfg | intros _; exact IH].
Qed.

Lemma bind_ret_l {A B} (a : A) (k : A -> handler S E B) : heq (bind (ret a) k) (k a).
Proof. intros s. unfold bind, ret. by destruct (k a s) as [[? ?] ?]. Qed.

Lemma bind_ret_r {A} (m : handler S E A) : heq (bind m ret) m.
Proof.
  intros s. unfold bind, ret. destruct (m s) as [[[a|e] s1] es]; [|done].
  by rewrite app_nil_r.
Qed.

Lemma bind_assoc {A B C} (m : handler S E A) (k : A -> handler S E B) (h : B -> handler S E C) :
  heq (bind (bind m k) h) (bind m (fun a => bind (k a) h)).
Proof.
  intros s. unfold bind. destruct (m s) as [[[a|e] s1] es1]; [|done].
  destruct (k a s1) as [[[b|e] s2] es2]; [|done].
  destruct (h b s2) as [[r s3] es3]. by rewrite app_assoc.
Qed.

Lemma bind_throw {A B} e (k : A -> handler S E B) : heq (bind (throw e) k) (throw e).
Proof. done. Qed.

Lemma for_each_app {A} (l1 l2 : list A) f :
  heq (for_each (l1 ++ l2) f) (bind (for_each l1 f) (fun _ => for_each l2 f)).
Proof.
  induction l1 as [|x l IH]; simpl; [by rewrite bind_ret_l|].
  rewrite bind_assoc. apply bind_proper; [done|]. intros _; exact IH.
Qed.

(** ** Safety of a handler

    [safe I P m]: from a state where [I] holds, [m] ends in a state where [I]
    holds and every effect it makes satisfies [P], whether it returns or
    throws. *)
Definition safe (I : S -> Prop) (P : E -> Prop) {A} (m : handler S E A) : Prop :=
  forall s, I s -> I (state_of (m s)) /\ Forall P (effects_of (m s)).

Section Safe.
Variables (I : S -> Prop) (P : E -> Prop).

Lemma safe_ret {A} (a : A) : safe I P (ret a).
Proof. intros s Hs; simpl; auto. Qed.

Lemma safe_throw {A} e : safe I P (@throw A e).
Proof. intros s Hs; simpl; auto. Qed.

Lemma safe_gets {A} (f : S -> A) : safe I P (gets f).
Proof. intros s Hs; simpl; auto. Qed.

Lemma safe_modify f : (forall s, I s -> I (f s)) -> safe I P (modify f).
Proof. intros Hf s Hs. split; [apply Hf, Hs | constructor]. Qed.

Lemma safe_emit e : P e -> safe I P (emit e).
Proof. intros He s Hs. split; [done | by repeat constructor]. Qed.

Lemma safe_bind {A B} (m : handler S E A) (k : A -> handler S E B) :
  safe I P m -> (forall a, safe I P (k a)) -> safe I P (bind m k).
Proof.
  intros Hm Hk s Hs. unfold bind. specialize (Hm s Hs).
  destruct (m s) as [[[a|e] s1] es1]; simpl in *; [|done].
  destruct Hm as [Hs1 He1]. specialize (Hk a s1 Hs1).
  destruct (k a s1) as [[r s2] es2]; simpl in *. rewrite Forall_app. tauto.
Qed.

Lemma safe_deref {A} (o : option A) : safe I P (deref o).
Proof. destruct o; [apply safe_ret | apply safe_throw]. Qed.

Lemma safe_when b m : (b = true -> safe I P m) -> safe I P (when b m).
Proof. destruct b; simpl; auto using safe_ret. Qed.

Lemma safe_for_each {A} (l : list A) f :
  (forall x, x ∈ l -> safe I P (f x)) -> safe I P (for_each l f).
Proof.
  induction l as [|x l IH]; intros H; [apply safe_ret|]. simpl.
  apply safe_bind; [apply H; left | intros _; apply IH; intros; apply H; by right].
Qed.
End Safe.

(** The same with a post-condition [J] of its own. *)
Definition leads (I : S -> Prop) (P : E -> Prop) {A} (m : handler S E A) (J : S -> Prop) : Prop :=
  forall s, I s -> J (state_of (m s)) /\ Forall P (effects_of (m s)).

Lemma leads_bind (I J K : S -> Prop) (P : E -> Prop) {A B} (m : handler S E A) (k : A -> handler S E B) :
  leads I P m J -> (forall s, J s -> K s) -> (forall a, leads J P (k a) K) -> leads I P (bind m k) K.
Proof.
  intros Hm HJ Hk s Hs. unfold bind. specialize (Hm s Hs).
  destruct (m s) as [[[a|e] s1] es1]; simpl in *; [|intuition].
  destruct Hm as [Hs1 He1]. specialize (Hk a s1 Hs1).
  destruct (k a s1) as [[r s2] es2]; simpl in *. rewrite Forall_app. tauto.
Qed.

(** Whatever [m] does from [I], [J] holds after it. *)
Lemma leads_weaken (I J K : S -> Prop) (P : E -> Prop) {A} (m : handler S E A) :
  leads J P m K -> (forall s, I s -> J s) -> leads I P m K.
Proof. intros Hm HI s Hs. by apply Hm, HI. Qed.

Lemma leads_safe (I J K : S -> Prop) (P : E -> Prop) {A} (m : handler S E A) :
  (forall s, I s -> J s) -> safe J P m -> (forall s, J s -> K s) -> leads I P m K.
Proof. intros HI Hm HK s Hs. destruct (Hm s (HI s Hs)). auto. Qed.

Lemma leads_modify (I J : S -> Prop) (P : E -> Prop) f :
  (forall s, I s -> J (f s)) -> leads I P (modify f) J.
Proof. intros Hf s Hs. split; [by apply Hf | constructor]. Qed.
End Handler.

Notation "x <- m ;; k" := (bind m (fun x => k))
  (at level 100, m at next level, right associativity) : s2js_scope.
Notation "m ;;; k" := (bind m (fun _ => k))
  (at level 100, right associativity) : s2js_scope.

#[export] Hint Resolve safe_ret safe_throw safe_gets safe_deref : handler.

(** Walks a handler built from the combinators; leaves the state updates and
    the effects whose obligations the automation does not settle. *)
Ltac safe_step :=
  match goal with
  | |- safe _ _ (bind _ _) => apply safe_bind; [|intros ?]
  | |- safe _ _ (when _ _) => apply safe_when; intros ?
  | |- safe _ _ (for_each _ _) => apply safe_for_each; intros ? ?
  | |- safe _ _ (modify _) => apply safe_modify; intros ? ?
  | |- safe _ _ (emit _) => apply safe_emit
  | |- safe _ _ (if ?b then _ else _) => destruct b eqn:?
  | |- safe _ _ (match ?x with _ => _ end) => destruct x eqn:?
  | |- safe _ _ (let '(_, _) := ?x in _) => destruct x eqn:?
  | |- safe _ _ _ => solve [eauto with handler]
  end.
Ltac safe_auto := repeat safe_step.
