(* ===== verification/JsValue.v ===== *)
(** Untyped JavaScript values, for the parts of the source that are written
    against [any] or [Object]: the values of form controls, the rows of the
    alert table, the chart values.  Numbers are the integers the source uses;
    an object keeps its properties in insertion order. *)
From stdpp Require Export pretty.
From S2P Require Import Prelude.

Inductive jsval : Type :=
| JUndefined
| JNull
| JBool (b : bool)
| JNum (n : Z)
| JStr (s : string)
| JArr (l : list jsval)
| JObj (fields : list (string * jsval)).

(** Induction with hypotheses for the elements and the properties. *)
Section JsvalInd.
Variable P : jsval -> Prop.
Hypotheses (HU : P JUndefined) (HN : P JNull) (HB : forall b, P (JBool b))
  (HZ : forall n, P (JNum n)) (HS : forall s, P (JStr s))
  (HA : forall l, Forall P l -> P (JArr l))
  (HO : forall fs, Forall (fun f => P (snd f)) fs -> P (JObj fs)).

Fixpoint jsval_induction (v : jsval) : P v :=
  match v with
  | JUndefined => HU
  | JNull => HN
  | JBool b => HB b
  | JNum n => HZ n
  | JStr s => HS s
  | JArr l =>
      HA l ((fix go (l : list jsval) : Forall P l :=
        match l with
        | [] => Forall_nil_2 _
        | x :: r => Forall_cons_2 _ _ _ (jsval_induction x) (go r)
        end) l)
  | JObj fs =>
      HO fs ((fix go (fs : list (string * jsval)) : Forall (fun f => P (snd f)) fs :=
        match fs with
        | [] => Forall_nil_2 _
        | x :: r => Forall_cons_2 _ _ _ (jsval_induction (snd x)) (go r)
        end) fs)
  end.
End JsvalInd.

(** Decidable equality through a boolean test. *)
Fixpoint jsval_eqb (x y : jsval) {struct x} : bool :=
  match x, y with
  | JUndefined, JUndefined => true
  | JNull, JNull => true
  | JBool a, JBool b => Bool.eqb a b
  | JNum a, JNum b => Z.eqb a b
  | JStr a, JStr b => String.eqb a b
  | JArr a, JArr b =>
      (fix go (a b : list jsval) : bool :=
         match a, b with
         | [], [] => true
         | x :: a', y :: b' => jsval_eqb x y && go a' b'
         | _, _ => false
         end) a b
  | JObj a, JObj b =>
      (fix go (a b : list (string * jsval)) : bool :=
         match a, b with
         | [], [] => true
         | (k, x) :: a', (k', y) :: b' => String.eqb k k' && jsval_eqb x y && go a' b'
         | _, _ => false
         end) a b
  | _, _ => false
  end.

Lemma jsval_eqb_eq x y : jsval_eqb x y = true <-> x = y.
Proof.
  revert y. induction x as [| |b|n|s|l IH|fs IH] using jsval_induction; intros y;
    destruct y as [| |b'|n'|s'|l'|fs']; simpl; try (split; congruence).
  - rewrite Bool.eqb_true_iff. split; congruence.
  - rewrite Z.eqb_eq. split; congruence.
  - rewrite String.eqb_eq. split; congruence.
  - revert l'. induction IH as [|x l Hx _ IHl]; intros [|y l']; try (split; congruence).
    rewrite andb_true_iff, Hx, IHl. split; [intros [-> [= ->]]; done | intros [= -> ->]; done].
  - revert fs'. induction IH as [|[k x] fs Hx _ IHl]; intros [|[k' y] fs']; try (split; congruence).
    rewrite !andb_true_iff, String.eqb_eq, IHl. simpl in Hx. rewrite Hx.
    split; [intros [[-> ->] [= ->]]; done | intros [= -> -> ->]; done].
Qed.

#[export] Instance jsval_eq_dec : EqDecision jsval.
Proof.
  intros x y. destruct (jsval_eqb x y) eqn:E; [left; by apply jsval_eqb_eq|].
  right. intros H. apply jsval_eqb_eq in H. congruence.
Defined.

(** ** Operations *)

(** [x === y] on values: objects and arrays are compared by reference in
    JavaScript; the source only compares primitive values. *)
Definition strict_eq (x y : jsval) : bool :=
  match x, y with
  | JArr _, _ | JObj _, _ => false
  | _, _ => jsval_eqb x y
  end.

(** A value in a boolean position. *)
Definition js_truthy (v : jsval) : bool :=
  match v with
  | JUndefined | JNull => false
  | JBool b => b
  | JNum n => negb (Z.eqb n 0)
  | JStr s => negb (s === "")
  | JArr _ | JObj _ => true
  end.

(** [ObjectUtilitiesClass.notUndefNull] on a value. *)
Definition defined (v : jsval) : bool :=
  match v with JUndefined | JNull => false | _ => true end.

Fixpoint assoc (k : string) (fs : list (string * jsval)) : option jsval :=
  match fs with
  | [] => None
  | (k', v) :: r => if k' === k then Some v else assoc k r
  end.

(** [obj[k] = v]: a new property goes to the end. *)
Fixpoint assoc_set (k : string) (v : jsval) (fs : list (string * jsval)) : list (string * jsval) :=
  match fs with
  | [] => [(k, v)]
  | (k', v') :: r => if k' === k then (k', v) :: r else (k', v') :: assoc_set k v r
  end.

(** [v[k]] where [v] is an object; undefined for a missing property; [None] is
    the TypeError of reading a property of undefined or null. *)
Definition get_property (v : jsval) (k : string) : option jsval :=
  match v with
  | JUndefined | JNull => None
  | JObj fs => Some (default JUndefined (assoc k fs))
  | _ => Some JUndefined
  end.

(** [v[k]] on a value known to be an object. *)
Definition prop (v : jsval) (k : string) : jsval := default JUndefined (get_property v k).

(** [Object.keys] *)
Definition object_keys (v : jsval) : list string :=
  match v with JObj fs => fst <$> fs | _ => [] end.

(** [Object.assign({}, a, b)] *)
Definition object_assign (a b : list (string * jsval)) : list (string * jsval) :=
  fold_left (fun acc f => assoc_set (fst f) (snd f) acc) b
    (fold_left (fun acc f => assoc_set (fst f) (snd f) acc) a []).

Lemma assoc_set_eq k v fs : assoc k (assoc_set k v fs) = Some v.
Proof.
  induction fs as [|[k' v'] r IH]; simpl; [by rewrite seqb_refl|].
  destruct (k' === k) eqn:E; simpl; rewrite E; done.
Qed.

Lemma assoc_set_ne k j v fs : j <> k -> assoc j (assoc_set k v fs) = assoc j fs.
Proof.
  intros Hne. induction fs as [|[k' v'] r IH]; simpl.
  - destruct (k === j) eqn:E; [apply seqb_eq in E; congruence | done].
  - destruct (k' === k) eqn:E; simpl; destruct (k' === j) eqn:E'; auto.
    apply seqb_eq in E, E'. congruence.
Qed.

Lemma assoc_elem_of k v fs : assoc k fs = Some v -> (k, v) ∈ fs.
Proof.
  induction fs as [|[k' v'] r IH]; simpl; [done|].
  destruct (k' === k) eqn:E; [apply seqb_eq in E as ->; intros [= ->]; left | right; auto].
Qed.

Lemma assoc_Some k v fs : NoDup fs.*1 -> (k, v) ∈ fs -> assoc k fs = Some v.
Proof.
  induction fs as [|[j w] fs IH]; [by intros _ ?%not_elem_of_nil|]. simpl.
  intros [Hj Hnd]%NoDup_cons [[= <- <-]|Hin]%elem_of_cons; [by rewrite seqb_refl|].
  rewrite (proj2 (seqb_neq j k)); [by apply IH|]. intros ->. apply Hj, list_elem_of_fmap. by exists (k, v).
Qed.

Lemma assoc_None k fs : assoc k fs = None <-> k ∉ fs.*1.
Proof.
  induction fs as [|[k' v'] r IH]; simpl; [by split; [intros _; apply not_elem_of_nil|]|].
  rewrite not_elem_of_cons. destruct (k' === k) eqn:E.
  - apply seqb_eq in E as ->. split; [done | intros [? _]; done].
  - apply seqb_neq in E. rewrite IH. split; [intros; split; [congruence | done] | tauto].
Qed.

Lemma assoc_set_keys_old k v fs : k ∈ fs.*1 -> (assoc_set k v fs).*1 = fs.*1.
Proof.
  induction fs as [|[k' v'] r IH]; simpl; [by intros ?%not_elem_of_nil|].
  destruct (k' === k) eqn:E; [done|]. apply seqb_neq in E.
  intros [->|?]%elem_of_cons; [done|]. simpl. f_equal. auto.
Qed.

Lemma assoc_set_keys_new k v fs : k ∉ fs.*1 -> (assoc_set k v fs).*1 = fs.*1 ++ [k].
Proof.
  induction fs as [|[k' v'] r IH]; simpl; [done|].
  intros [? ?]%not_elem_of_cons. destruct (k' === k) eqn:E; [apply seqb_eq in E; congruence|].
  simpl. f_equal. auto.
Qed.

Lemma assoc_set_NoDup k v fs : NoDup fs.*1 -> NoDup (assoc_set k v fs).*1.
Proof.
  intros H. destruct (decide (k ∈ fs.*1)).
  - by rewrite assoc_set_keys_old.
  - rewrite assoc_set_keys_new by done. apply NoDup_app. split_and!; [done | | ].
    + intros x Hx Hx'. apply list_elem_of_singleton in Hx' as ->. done.
    + apply NoDup_singleton.
Qed.

#[export] Hint Resolve assoc_set_NoDup : js.
#[export] Hint Rewrite assoc_set_eq : js_rewrite.

(** A value in a template literal: [`${v}`]. *)
Fixpoint js_to_string (v : jsval) : string :=
  match v with
  | JUndefined => "undefined"
  | JNull => "null"
  | JBool true => "true"
  | JBool false => "false"
  | JNum n => pretty n
  | JStr s => s
  | JArr l =>
      join_with "," ((fun x => match x with
                          | JUndefined | JNull => ""
                          | _ => js_to_string x
                          end) <$> l)
  | JObj _ => "[object Object]"
  end.

(** ** JSON

    The contract of the JSON functions of the language's library that the source
    relies on: parsing what was printed gives the value back, for the values
    JSON can carry. *)
Fixpoint json_safe (v : jsval) : bool :=
  match v with
  | JUndefined => false
  | JArr l => forallb json_safe l
  | JObj fs => forallb (fun f => json_safe (snd f)) fs && bool_decide (NoDup fs.*1)
  | _ => true
  end.

Class JSON := {
  stringify : jsval -> string;
  stringify_indented : jsval -> string;
  parse : string -> option jsval;
}.

Class JSONLaws (J : JSON) := {
  parse_stringify v : json_safe v = true -> parse (stringify v) = Some v;
  parse_stringify_indented v : json_safe v = true -> parse (stringify_indented v) = Some v;
}.

(** [String.prototype.toLowerCase] on 8-bit characters. *)
Definition lower_char (c : Ascii.ascii) : Ascii.ascii :=
  let n := Ascii.nat_of_ascii c in
  if (((65 <=? n) && (n <=? 90)) || ((192 <=? n) && (n <=? 222) && negb (n =? 215)))%nat
  then Ascii.ascii_of_nat (n + 32) else c.

Fixpoint toLowerCase (s : string) : string :=
  match s with
  | EmptyString => EmptyString
  | String c r => String (lower_char c) (toLowerCase r)
  end.

(** [s.includes(t)] *)
Definition includes_text (s t : string) : bool :=
  match String.index 0 t s with Some _ => true | None => false end.

(** [s.endsWith(suffix)] *)
Definition endsWith (s suffix : string) : bool :=
  Nat.leb (String.length suffix) (String.length s) &&
  (String.substring (String.length s - String.length suffix) (String.length suffix) s === suffix).
