(* ===== verification/Number.v ===== *)
(** The numbers of the language: IEEE 754 doubles, on the executable
    specification of the standard library, with [Math.round] and the printing
    of a number in a template literal. *)
From Stdlib Require Import SpecFloat.
From S2P Require Import Prelude JsValue.

Declare Scope number_scope.
Delimit Scope number_scope with number.

Definition number : Type := spec_float.

Definition NaN : number := S754_nan.

Definition number_of_Z (z : Z) : number := binary_normalize 53 1024 z 0 false.

Definition number_add (x y : number) : number := SFadd 53 1024 x y.
Definition number_sub (x y : number) : number := SFsub 53 1024 x y.
Definition number_mul (x y : number) : number := SFmul 53 1024 x y.
Definition number_div (x y : number) : number := SFdiv 53 1024 x y.
Infix "+" := number_add : number_scope.
Infix "-" := number_sub : number_scope.
Infix "*" := number_mul : number_scope.
Infix "/" := number_div : number_scope.
(** A comparison with NaN is false. *)
Infix "<=?" := SFleb : number_scope.
Infix "<?" := SFltb : number_scope.

(** The quotient of two integers. *)
Definition quotient (a b : Z) : number := (number_of_Z a / number_of_Z b)%number.

(** [Number.EPSILON], two to the power of minus 52. *)
Definition EPSILON : number := S754_finite false 4503599627370496 (-104).

(** [Math.round]: the closest integer, the greater one of two. *)
Definition Math_round (x : number) : number :=
  match x with
  | S754_finite sign m e =>
      if (0 <=? e)%Z then x
      else
        let v := if sign then Z.neg m else Z.pos m in
        match ((2 * v + 2 ^ (- e)) / 2 ^ (1 - e))%Z with
        | Z0 => S754_zero sign
        | z => number_of_Z z
        end
  | _ => x
  end.

(** ** Printing *)

(** The double closest to the decimal [n * 10 ^ q]. *)
Definition decimal (n : positive) (q : Z) : number :=
  let '(a, b) := if (0 <=? q)%Z then (Z.pos n * 10 ^ q, 1)%Z else (Z.pos n, 10 ^ (- q))%Z in
  let '(mz, ez, lz) := SFdiv_core_binary 53 1024 a 0 b 0 in
  binary_round_aux 53 1024 false mz ez lz.

(** The least [p] with [num / den < 10 ^ p]. *)
Fixpoint scale_up (fuel : nat) (num den p : Z) : Z :=
  match fuel with
  | O => p
  | S k => if (num <? den)%Z then p else scale_up k num (den * 10) (p + 1)
  end.
Fixpoint scale_down (fuel : nat) (num den p : Z) : Z :=
  match fuel with
  | O => p
  | S k => if (num * 10 <? den)%Z then scale_down k (num * 10) den (p - 1) else p
  end.
Definition decimal_point (num den : Z) : Z :=
  if (num <? den)%Z then scale_down 400 num den 0 else scale_up 400 num den 0.

(** The integer just below [num / den * 10 ^ - q], and whether the next one is
    closer (the lower one of two, which cannot both read back). *)
Definition digits_below (num den q : Z) : Z * bool :=
  let '(a, b) := if (0 <=? q)%Z then (num, den * 10 ^ q)%Z else (num * 10 ^ (- q), den)%Z in
  ((a / b)%Z, (b <? 2 * (a mod b))%Z).

Definition reads_back (x : number) (q : Z) (n : Z) : bool :=
  match n with Z.pos n' => SFeqb (decimal n' q) x | _ => false end.

(** The digits [n] and the position [p] of the decimal point of the shortest
    decimal that reads back as [x], which is [num / den]: [d] digits are tried
    from [d] on, the closer of the two neighbours first. *)
Fixpoint shortest (fuel : nat) (d : Z) (x : number) (num den p : Z) : Z * Z :=
  let q := (p - d)%Z in
  let '(low, up) := digits_below num den q in
  let '(first, second) := if up then (low + 1, low)%Z else (low, low + 1)%Z in
  let found n := (n, if (n =? 10 ^ d)%Z then (p + 1)%Z else p) in
  if reads_back x q first then found first
  else if reads_back x q second then found second
  else match fuel with
       | O => found first
       | S k => shortest k (d + 1) x num den p
       end.

Fixpoint zeros (n : nat) : string := match n with O => "" | S k => "0" +:+ zeros k end.

(** The four forms of the decimal of [digits] with its point after [p] digits. *)
Definition place_point (digits : string) (p : Z) : string :=
  let k := Z.of_nat (String.length digits) in
  let at_ i j := String.substring i j digits in
  if (k <=? p)%Z && (p <=? 21)%Z then digits +:+ zeros (Z.to_nat (p - k))
  else if (0 <? p)%Z && (p <=? 21)%Z then
    at_ 0 (Z.to_nat p) +:+ "." +:+ at_ (Z.to_nat p) (Z.to_nat (k - p))
  else if (-6 <? p)%Z && (p <=? 0)%Z then "0." +:+ zeros (Z.to_nat (- p)) +:+ digits
  else
    let e := (p - 1)%Z in
    let exponent := (if (0 <? e)%Z then "e+" else "e-") +:+ pretty (Z.abs e) in
    if (k =? 1)%Z then digits +:+ exponent
    else at_ 0 1 +:+ "." +:+ at_ 1 (Z.to_nat (k - 1)) +:+ exponent.

(** Without the zeros at the end of an integer. *)
Fixpoint strip_zeros (fuel : nat) (n : Z) : Z :=
  match fuel with
  | O => n
  | S k => if (n mod 10 =? 0)%Z then strip_zeros k (n / 10) else n
  end.

Definition number_to_string (x : number) : string :=
  match x with
  | S754_nan => "NaN"
  | S754_zero _ => "0"
  | S754_infinity sign => if sign then "-Infinity" else "Infinity"
  | S754_finite sign m e =>
      let '(num, den) := if (0 <=? e)%Z then (Z.pos m * 2 ^ e, 1)%Z else (Z.pos m, 2 ^ (- e))%Z in
      let '(n, p) := shortest 16 1 (S754_finite false m e) num den (decimal_point num den) in
      (if sign then "-" else "") +:+ place_point (pretty (strip_zeros 17 n)) p
  end.

Example prints_halves : number_to_string (quotient 3 2) = "1.5".
Proof. vm_compute. reflexivity. Qed.
Example prints_tenths : number_to_string (quotient 1 10 + quotient 2 10)%number = "0.30000000000000004".
Proof. vm_compute. reflexivity. Qed.
Example prints_large : number_to_string (number_of_Z (10 ^ 21)) = "1e+21" /\
  number_to_string (number_of_Z (2 ^ 53)) = "9007199254740992" /\
  number_to_string (number_of_Z 123456789012345680000) = "123456789012345680000".
Proof. vm_compute. done. Qed.
Example prints_small : number_to_string (quotient (-1) 10000000) = "-1e-7" /\
  number_to_string (quotient 125 100000) = "0.00125".
Proof. vm_compute. done. Qed.
Example prints_neighbours : number_to_string (number_of_Z (10 ^ 23)) = "1e+23" /\
  number_to_string (quotient 1 (2 ^ 44)) = "5.684341886080802e-14" /\
  number_to_string (S754_finite false 1 (-1074)) = "5e-324" /\
  number_to_string (S754_finite false 9007199254740991 971) = "1.7976931348623157e+308".
Proof. vm_compute. done. Qed.
Example rounds_halves_up : number_to_string (Math_round (quotient 5 2)) = "3" /\
  number_to_string (Math_round (quotient (-5) 2)) = "-2" /\ Math_round (quotient (-1) 3) = S754_zero true.
Proof. vm_compute. done. Qed.
