(* ===== verification/Json.v ===== *)
(** An implementation of the [JSON] interface, to evaluate the definitions with
    and to show that the laws can be met: a value is printed as the bits of a
    number that encodes it.  It is not the text JSON.stringify prints; no theorem
    depends on it. *)
From S2P Require Import Prelude JsValue.
From stdpp Require Import countable.
From Stdlib Require Import Ascii.

Abbreviation tree := (gen_tree (bool + Z + string)).

Fixpoint to_tree (v : jsval) : tree :=
  match v with
  | JUndefined => GenNode 0 []
  | JNull => GenNode 1 []
  | JBool b => GenLeaf (inl (inl b))
  | JNum n => GenLeaf (inl (inr n))
  | JStr s => GenLeaf (inr s)
  | JArr l => GenNode 2 (to_tree <$> l)
  | JObj fs => GenNode 3 ((fun f => GenNode 4 [GenLeaf (inr (fst f)); to_tree (snd f)]) <$> fs)
  end.

Fixpoint of_tree (t : tree) : jsval :=
  match t with
  | GenLeaf (inl (inl b)) => JBool b
  | GenLeaf (inl (inr n)) => JNum n
  | GenLeaf (inr s) => JStr s
  | GenNode 1 _ => JNull
  | GenNode 2 l => JArr (of_tree <$> l)
  | GenNode 3 l =>
      JObj ((fun t => match t with
                      | GenNode _ [GenLeaf (inr k); v] => (k, of_tree v)
                      | _ => (EmptyString, JUndefined)
                      end) <$> l)
  | GenNode _ _ => JUndefined
  end.

Lemma of_to_tree v : of_tree (to_tree v) = v.
Proof.
  induction v as [| | | | |l IH|fs IH] using jsval_induction; simpl; try done; f_equal.
  - rewrite <- list_fmap_compose. induction IH as [|x l Hx _ IH]; [done|]. rewrite fmap_cons, IH. simpl. by rewrite Hx.
  - rewrite <- list_fmap_compose. induction IH as [|[k x] l Hx _ IH]; [done|]. rewrite fmap_cons, IH. simpl in *. by rewrite Hx.
Qed.

(** The bits of a number, the lowest one first. *)
Fixpoint print_bits (p : positive) : string :=
  match p with
  | xH => "1"
  | xO p => String "0"%char (print_bits p)
  | xI p => String "1"%char (print_bits p)
  end.

Fixpoint parse_bits (s : string) : option positive :=
  match s with
  | EmptyString => None
  | String c r =>
      if ascii_dec c "0"%char then xO <$> parse_bits r
      else if ascii_dec c "1"%char then match r with EmptyString => Some xH | _ => xI <$> parse_bits r end
      else None
  end.

Lemma parse_print_bits p : parse_bits (print_bits p) = Some p.
Proof.
  induction p as [p IH|p IH|]; simpl; [|by rewrite IH|done].
  rewrite IH. by destruct p.
Qed.

#[export] Instance bits_json : JSON := {|
  stringify v := print_bits (encode (to_tree v));
  stringify_indented v := print_bits (encode (to_tree v));
  parse s := of_tree <$> (parse_bits s ≫= decode);
|}.

#[export] Instance bits_json_laws : JSONLaws bits_json.
Proof.
  split; intros v _; simpl; rewrite parse_print_bits; simpl; rewrite decode_encode; simpl; by rewrite of_to_tree.
Qed.
