(* ===== verification/Runtime.v ===== *)
(** The asynchronous life of a component.

    A component reacts to events (calls of its public methods, socket messages,
    timer ticks) and to the answers of the observables it subscribed to (REST
    calls, dialogs that close).  A subscription is data: the call with the
    variables its callback captured.  Answers arrive in any order; each
    subscription is answered at most once.  A world is the component's state
    with the subscriptions that wait; the traces of worlds are what the theorems
    about ordering quantify over. *)
From S2P Require Import Prelude Handler JsValue.

(** The configuration of a snackbar, classes/mat-snackbar-configuration.class.ts:
    [action] is only tested for presence. *)
Record MatSnackbarConfigurationClass := {
  timeInMS : option Z;
  actionLabel : option string;
  action : option string;
  panelClass : option string;
}.

Definition MAT_SNACKBAR_CONFIGURATION_60000_DUR : MatSnackbarConfigurationClass :=
  {| timeInMS := Some 60000%Z; actionLabel := Some "Close"; action := None; panelClass := None |}.

Definition MAT_SNACKBAR_CONFIGURATION_60000_DUR_OK : MatSnackbarConfigurationClass :=
  {| timeInMS := Some 60000%Z; actionLabel := Some "OK"; action := None; panelClass := None |}.

Definition MAT_SNACKBAR_CONFIGURATION_60000_DUR_DISMISS : MatSnackbarConfigurationClass :=
  {| timeInMS := Some 60000%Z; actionLabel := Some "Dismiss"; action := None; panelClass := None |}.

(** interfaces/confirm-dialog-mat-dialog-data: what a confirm dialog shows. *)
Record ConfirmDialogMatDialogDataInterface := {
  title : string;
  message : string;
  option1 : string;
  option2 : string;
  message_double_confirm : option string;
}.

Definition CANCEL_DIALOG_OPTION : string := "Cancel".
Definition CONFIRM_DIALOG_OPTION : string := "Confirm".

(** Effects: [C] are the subscriptions of the component, [D] its own calls on
    the page (dialogs it opens without listening, change detection, ...). *)
Inductive effect (C D : Type) : Type :=
| DisplaySnackBar (message : string) (configuration : option MatSnackbarConfigurationClass)
| Subscribe (c : C)
| SetTitle (title : string)
| Navigate (path : string)
| OpenInNewTab (url : string)
| SetCookie (key value : string)
| Page (d : D).
Arguments DisplaySnackBar {C D} message configuration.
Arguments Subscribe {C D} c.
Arguments SetTitle {C D} title.
Arguments Navigate {C D} path.
Arguments OpenInNewTab {C D} url.
Arguments SetCookie {C D} key value.
Arguments Page {C D} d.

Section Snackbar.
Context {S C D : Type}.

(** services/mat-snackbar.service.ts, the calls the components make. *)
Definition displaySnackBar (message : string)
    (configuration : option MatSnackbarConfigurationClass) : handler S (effect C D) unit :=
  emit (DisplaySnackBar message configuration).

Definition generate_return_success_snackbar_message (message : string)
    (configuration : option MatSnackbarConfigurationClass) : handler S (effect C D) unit :=
  displaySnackBar ("Successfully " +:+ message) configuration.

Definition generate_return_fail_snackbar_message (message : string)
    (configuration : option MatSnackbarConfigurationClass) : handler S (effect C D) unit :=
  displaySnackBar ("Failed " +:+ message) configuration.

Definition generate_return_error_snackbar_message (message : string)
    (configuration : option MatSnackbarConfigurationClass) : handler S (effect C D) unit :=
  displaySnackBar ("Error " +:+ message) configuration.
End Snackbar.

(** An [HttpErrorResponse] of @angular/common/http as the source reads it: its
    body [error], which for a network failure is an [ErrorEvent] with a [type]. *)
Record HttpErrorResponse := {
  error : jsval;
  error_event : option string;
  http_status : jsval;
  statusText : jsval;
  http_message : jsval;
}.

(** The values an [ApiService] observable can fail with. *)
Inductive api_error : Type :=
| ErrorMessageClass (error_message : jsval)
| PostValidationClass (post_validation : jsval)
| ValidationErrorClass (status messages : jsval)
| HttpFailure (response : option HttpErrorResponse).

(** The answer of a REST call: the converted response or the error thrown. *)
Inductive answer (A : Type) : Type :=
| Next (a : A)
| Error (e : api_error).
Arguments Next {A} a.
Arguments Error {A} e.

(** An answer whose class the callback tests: [None] is an object of another one. *)
Definition instance (A : Type) : Type := option A.

Section OnError.
Context {S C D : Type}.

(** The error callback of most subscriptions: an [ErrorMessageClass] shows the
    server's text, anything else a message naming the operation. *)
Definition on_error_message (message : string) (e : api_error) : handler S (effect C D) unit :=
  match e with
  | ErrorMessageClass error_message =>
      displaySnackBar (js_to_string error_message) (Some MAT_SNACKBAR_CONFIGURATION_60000_DUR)
  | _ => generate_return_error_snackbar_message message (Some MAT_SNACKBAR_CONFIGURATION_60000_DUR)
  end.

(** The error callback that does not look at the error. *)
Definition on_error (message : string) (e : api_error) : handler S (effect C D) unit :=
  generate_return_error_snackbar_message message (Some MAT_SNACKBAR_CONFIGURATION_60000_DUR).
End OnError.

Section SafeEffects.
Context {S C D : Type} (I : S -> Prop) (P : effect C D -> Prop).
Hypothesis snack_ok : forall m c, P (DisplaySnackBar m c).

Lemma safe_displaySnackBar m c : safe I P (displaySnackBar m c).
Proof using snack_ok. apply safe_emit, snack_ok. Qed.
Lemma safe_success m c : safe I P (generate_return_success_snackbar_message m c).
Proof using snack_ok. apply safe_emit, snack_ok. Qed.
Lemma safe_fail m c : safe I P (generate_return_fail_snackbar_message m c).
Proof using snack_ok. apply safe_emit, snack_ok. Qed.
Lemma safe_error m c : safe I P (generate_return_error_snackbar_message m c).
Proof using snack_ok. apply safe_emit, snack_ok. Qed.
Lemma safe_on_error m e : safe I P (on_error m e).
Proof using snack_ok. apply safe_emit, snack_ok. Qed.
Lemma safe_on_error_message m e : safe I P (on_error_message m e).
Proof using snack_ok. destruct e; apply safe_emit, snack_ok. Qed.
End SafeEffects.
#[export] Hint Resolve safe_displaySnackBar safe_success safe_fail safe_error
  safe_on_error safe_on_error_message : handler.

(** [only Q]: the subscriptions among the effects satisfy [Q]. *)
Definition only {C D} (Q : C -> Prop) (e : effect C D) : Prop := forall c, e = Subscribe c -> Q c.

Section Only.
Context {S C D : Type} (I : S -> Prop) (Q : C -> Prop).

Lemma only_snack m c : safe I (@only C D Q) (displaySnackBar m c).
Proof. apply safe_emit. by intros ?. Qed.
Lemma only_success m c : safe I (@only C D Q) (generate_return_success_snackbar_message m c).
Proof. apply safe_emit. by intros ?. Qed.
Lemma only_fail m c : safe I (@only C D Q) (generate_return_fail_snackbar_message m c).
Proof. apply safe_emit. by intros ?. Qed.
Lemma only_error m c : safe I (@only C D Q) (generate_return_error_snackbar_message m c).
Proof. apply safe_emit. by intros ?. Qed.
Lemma only_on_error m e : safe I (@only C D Q) (on_error m e).
Proof. apply safe_emit. by intros ?. Qed.
Lemma only_on_error_message m e : safe I (@only C D Q) (on_error_message m e).
Proof. destruct e; apply safe_emit; by intros ?. Qed.
End Only.
#[export] Hint Resolve only_snack only_success only_fail only_error only_on_error
  only_on_error_message : handler.

(** A handler of a part that is shown inside another component: [get] finds the
    part's state in the whole and [set] puts it back; reading a part that is not
    shown is a TypeError. *)
Definition map_effect {C C' D} (f : C' -> C) (e : effect C' D) : effect C D :=
  match e with
  | DisplaySnackBar m c => DisplaySnackBar m c
  | Subscribe c => Subscribe (f c)
  | SetTitle t => SetTitle t
  | Navigate p => Navigate p
  | OpenInNewTab u => OpenInNewTab u
  | SetCookie k v => SetCookie k v
  | Page d => Page d
  end.

Definition zoom {S C S' C' D A} (get : S -> option S') (set : S' -> S -> S) (f : C' -> C)
    (m : handler S' (effect C' D) A) : handler S (effect C D) A :=
  fun s => match get s with
           | None => (Exn "TypeError", s, [])
           | Some x => let '(r, y, es) := m x in (r, set y s, map_effect f <$> es)
           end.

Lemma safe_zoom {S C S' C' D A} (get : S -> option S') (set : S' -> S -> S) (f : C' -> C)
    (I : S -> Prop) (P : effect C D -> Prop) (J : S' -> Prop) (m : handler S' (effect C' D) A) :
  (forall s x, I s -> get s = Some x -> J x) ->
  (forall s x y, I s -> get s = Some x -> J y -> I (set y s)) ->
  safe J (fun e => P (map_effect f e)) m -> safe I P (zoom get set f m).
Proof.
  intros HJ HI Hm s Hs. unfold zoom. destruct (get s) as [x|] eqn:E; [|by split].
  destruct (Hm x (HJ s x Hs E)) as [H1 H2]. destruct (m x) as [[r y] es]. simpl in *.
  split; [by apply (HI s x)|]. by apply Forall_fmap.
Qed.

(** The second handler runs whether the first one returns or throws. *)
Definition finally {S E A} (m : handler S E A) (k : handler S E unit) : handler S E A :=
  fun s => let '(r, s1, es1) := m s in let '(_, s2, es2) := k s1 in (r, s2, es1 ++ es2).

Lemma safe_finally {S E A} (I : S -> Prop) (P : E -> Prop) (m : handler S E A) k :
  safe I P m -> safe I P k -> safe I P (finally m k).
Proof.
  intros Hm Hk s Hs. unfold finally. specialize (Hm s Hs).
  destruct (m s) as [[r s1] es1]; simpl in *. destruct Hm as [Hs1 He1]. specialize (Hk s1 Hs1).
  destruct (k s1) as [[r2 s2] es2]; simpl in *. rewrite Forall_app. tauto.
Qed.

Lemma leads_finally {S E A} (I J K : S -> Prop) (P : E -> Prop) (m : handler S E A) k :
  leads I P m J -> leads J P k K -> leads I P (finally m k) K.
Proof.
  intros Hm Hk s Hs. unfold finally. specialize (Hm s Hs).
  destruct (m s) as [[r s1] es1]; simpl in *. destruct Hm as [Hs1 He1]. specialize (Hk s1 Hs1).
  destruct (k s1) as [[r2 s2] es2]; simpl in *. rewrite Forall_app. tauto.
Qed.

(** ** Components and their traces *)

(** What a component promises to the runtime: its initial state, its reaction
    to events and to the answers of its subscriptions. *)
Class Component (S C D Ev : Type) (Ans : C -> Type) := {
  initial : S;
  on_event : Ev -> handler S (effect C D) unit;
  on_answer : forall c : C, Ans c -> handler S (effect C D) unit;
}.

Section Runtime.
Context {S C D Ev : Type} {Ans : C -> Type} `{K : !Component S C D Ev Ans}.

Inductive label : Type :=
| Event (e : Ev)
| Answered (c : C) (a : Ans c).

Definition react (l : label) : handler S (effect C D) unit :=
  match l with
  | Event e => on_event e
  | Answered c a => on_answer c a
  end.

Record world := World { component : S; pending : list C }.

Definition subscriptions (es : list (effect C D)) : list C :=
  omap (fun e => match e with Subscribe c => Some c | _ => None end) es.

Definition after (l : label) (waiting : list C) (w : world) : world :=
  let x := react l (component w) in
  World (state_of x) (waiting ++ subscriptions (effects_of x)).

Definition made (l : label) (w : world) : list (effect C D) :=
  effects_of (react l (component w)).

(** One turn of the event loop. *)
Inductive step (w : world) : label -> world -> Prop :=
| step_event e :
    step w (Event e) (after (Event e) (pending w) w)
| step_answer p1 c p2 (a : Ans c) :
    pending w = p1 ++ c :: p2 ->
    step w (Answered c a) (after (Answered c a) (p1 ++ p2) w).

Definition entry : Type := label * list (effect C D).

(** [trace tr w]: from the initial state, the turns [tr] lead to [w].  [env]
    restricts what the environment may send. *)
Inductive trace (env : label -> Prop) : list entry -> world -> Prop :=
| trace_start : trace env [] (World initial [])
| trace_step tr w l w' :
    trace env tr w -> env l -> step w l w' -> trace env (tr ++ [(l, made l w)]) w'.

(** Building a trace forwards. *)
Lemma trace_event env tr w e :
  trace env tr w -> env (Event e) ->
  trace env (tr ++ [(Event e, made (Event e) w)]) (after (Event e) (pending w) w).
Proof. intros Htr He. by apply (trace_step _ _ w); [| |constructor]. Qed.

Lemma trace_answer env tr w p1 c p2 (a : Ans c) :
  trace env tr w -> env (Answered c a) -> pending w = p1 ++ c :: p2 ->
  trace env (tr ++ [(Answered c a, made (Answered c a) w)]) (after (Answered c a) (p1 ++ p2) w).
Proof. intros Htr He Hp. by apply (trace_step _ _ w); [| |constructor]. Qed.

Lemma step_component w l w' :
  step w l w' -> component w' = state_of (react l (component w)).
Proof. by destruct 1. Qed.

(** Only a subscription that waits is answered. *)
Lemma answered_pending w l w' :
  step w l w' -> match l with Answered c _ => c ∈ pending w | Event _ => True end.
Proof. destruct 1 as [|p1 c p2 a ->]; [done|]. apply elem_of_app. right. left. Qed.

(** What waits after a turn waited before or was made by it. *)
Lemma step_waiting w l w' c : step w l w' -> c ∈ pending w' -> c ∈ pending w \/ Subscribe c ∈ made l w.
Proof.
  intros Hstep Hc. assert (Hcase : c ∈ pending w \/ c ∈ subscriptions (made l w)).
  { destruct Hstep as [e|p1 c' p2 a Hp]; unfold after in Hc; simpl in Hc; [by apply elem_of_app in Hc|].
    rewrite !elem_of_app in Hc. rewrite Hp, elem_of_app, elem_of_cons. destruct Hc as [[?|?]|?]; auto. }
  destruct Hcase as [Hw|Hn]; [by left|right]. unfold subscriptions in Hn.
  apply list_elem_of_omap in Hn as (e & He & Heq). destruct e; simplify_eq. done.
Qed.

(** Invariants by induction on the trace: every turn from a state of [I] ends
    in [I] and makes only effects that [P] allows for its label. *)
Theorem trace_invariant (env : label -> Prop) (I : S -> Prop) (P : label -> effect C D -> Prop) :
  I initial ->
  (forall l, env l -> safe I (P l) (react l)) ->
  forall tr w, trace env tr w ->
  I (component w) /\ Forall (fun x => Forall (P (fst x)) (snd x)) tr.
Proof.
  intros H0 Hl tr w. induction 1 as [|tr w l w' Htr [IH1 IH2] Henv Hstep]; [done|].
  destruct (Hl l Henv _ IH1) as [HI HP]. rewrite (step_component _ _ _ Hstep).
  split; [done|]. apply Forall_app. split; [done|].
  constructor; [exact HP | constructor].
Qed.

(** Invariants that speak of the subscriptions that wait. *)
Lemma trace_worlds (env : label -> Prop) (J : world -> Prop) :
  J (World initial []) -> (forall w l w', J w -> env l -> step w l w' -> J w') ->
  forall tr w, trace env tr w -> J w.
Proof. intros H0 Hs tr w. induction 1 as [|tr w l w' _ IH Henv Hstep]; eauto. Qed.

(** Traces in which what the environment may send depends on the world: a modal
    dialog that waits keeps the keys from the page. *)
Inductive guarded (env : world -> label -> Prop) : list entry -> world -> Prop :=
| guarded_start : guarded env [] (World initial [])
| guarded_step tr w l w' :
    guarded env tr w -> env w l -> step w l w' -> guarded env (tr ++ [(l, made l w)]) w'.

Lemma guarded_worlds (env : world -> label -> Prop) (J : world -> Prop) :
  J (World initial []) -> (forall w l w', J w -> env w l -> step w l w' -> J w') ->
  forall tr w, guarded env tr w -> J w.
Proof. intros H0 Hs tr w. induction 1 as [|tr w l w' _ IH Henv Hstep]; eauto. Qed.

Lemma guarded_event env tr w e :
  guarded env tr w -> env w (Event e) ->
  guarded env (tr ++ [(Event e, made (Event e) w)]) (after (Event e) (pending w) w).
Proof. intros Htr He. by apply (guarded_step _ _ w); [| |constructor]. Qed.

(** A turn of a trace was made in a world the trace had led to. *)
Lemma trace_entry env tr w l es : trace env tr w -> (l, es) ∈ tr ->
  exists tr0 w0, trace env tr0 w0 /\ es = made l w0.
Proof.
  induction 1 as [|tr w k w' Htr IH _ _]; [by intros ?%not_elem_of_nil|].
  intros [Hin|Hin]%elem_of_app; [by apply IH|]. apply list_elem_of_singleton in Hin as [= -> ->]. by exists tr, w.
Qed.

(** Refinement: when every turn moves [R]-related states as the abstract
    machine [spec] does for its label, a trace is a run of that machine. *)
Theorem trace_refines {A} (env : label -> Prop) (spec : A -> label -> A) (R : S -> A -> Prop) (a0 : A) :
  R initial a0 ->
  (forall l s a, env l -> R s a -> R (state_of (react l s)) (spec a l)) ->
  forall tr w, trace env tr w -> R (component w) (fold_left spec (fst <$> tr) a0).
Proof.
  intros H0 Hl tr w. induction 1 as [|tr w l w' Htr IH Henv Hstep]; [done|].
  rewrite fmap_app, fold_left_app, (step_component _ _ _ Hstep). by apply Hl.
Qed.

(** [causes l c]: only a turn with label [l] subscribes to [c]. *)
Lemma trace_caused (env : label -> Prop) (I : S -> Prop) (causes : label -> C -> Prop) tr w :
  I initial ->
  (forall l, env l -> safe I (fun e => forall c, e = Subscribe c -> causes l c) (react l)) ->
  trace env tr w ->
  forall l es c, (l, es) ∈ tr -> Subscribe c ∈ es -> causes l c.
Proof.
  intros H0 Hl Htr l es c Hin Hc.
  destruct (trace_invariant env I _ H0 Hl tr w Htr) as [_ HF].
  rewrite Forall_forall in HF. specialize (HF _ Hin). simpl in HF.
  rewrite Forall_forall in HF. by apply (HF _ Hc).
Qed.

(** A subscription that waits was made by an earlier turn. *)
Lemma pending_subscribed env tr w c :
  trace env tr w -> c ∈ pending w ->
  exists tr1 l es tr2, tr = tr1 ++ (l, es) :: tr2 /\ Subscribe c ∈ es.
Proof.
  intros Htr. revert c. induction Htr as [|tr w l w' Htr IH Henv Hstep]; intros c Hc;
    [by apply not_elem_of_nil in Hc|].
  destruct (step_waiting _ _ _ _ Hstep Hc) as [Hw|Hn].
  - destruct (IH c Hw) as (tr1 & l' & es & tr2 & -> & Hin).
    exists tr1, l', es, (tr2 ++ [(l, made l w)]). by rewrite <- app_assoc.
  - exists tr, l, (made l w), []. done.
Qed.

(** Every answer that a trace delivers answers a subscription an earlier turn
    of the trace made. *)
Theorem answered_subscribed env tr w tr1 c (a : Ans c) es tr2 :
  trace env tr w -> tr = tr1 ++ (Answered c a, es) :: tr2 ->
  exists u l es' v, tr1 = u ++ (l, es') :: v /\ Subscribe c ∈ es'.
Proof.
  intros Htr. revert tr1 es tr2.
  induction Htr as [|tr w l w' Htr IH Henv Hstep]; intros tr1 es tr2 Heq;
    [by destruct tr1|].
  destruct tr2 as [|x tr2 _] using rev_ind.
  - apply app_inj_tail in Heq as [-> Heq]. injection Heq as -> _.
    inversion Hstep as [|p1 c' p2 a' Hp]; subst.
    apply (pending_subscribed env _ w c); [done|].
    rewrite Hp, elem_of_app, elem_of_cons. auto.
  - rewrite app_comm_cons, app_assoc in Heq. apply app_inj_tail in Heq as [-> _].
    by apply (IH tr1 es tr2).
Qed.
End Runtime.
Arguments label {C} Ev Ans.
Arguments world S C : clear implicits.
