(* ===== verification/Data.v ===== *)
(** The data classes of src/app/classes the components exchange with the
    controller.  An optional or nullable field is an [option]; a class whose
    constructor copies every field is the record of its fields; a constructor
    that computes is a function from the interface it receives. *)
From S2P Require Import Prelude Handler JsValue.

(** classes/job.class.ts *)
Record JobClass := {
  j_complete : bool;
  j_description : string;
  j_error : bool;
  j_exec_type : string;
  j_inprogress : bool;
  j_job_id : string;
  j_message : bool;
  j_name : string;
  j_node_id : string;
  j_pending : bool;
  j__id : string;
}.

(** classes/status.class.ts; a status without host name has [hostname] null. *)
Record StatusClass := {
  s_appVersion : string;
  s_application : string;
  s_deployment_name : string;
  s_hostname : option string;
  s_node_type : string;
  s_status : string;
}.

(** classes/default-ipv4-settings.class.ts *)
Record DefaultIPV4SettingsClass := {
  d_address : string;
  d_alias : string;
  d_broadcast : string;
  d_gateway : string;
  d_interface : string;
  d_macaddress : string;
  d_mtu : Z;
  d_netmask : string;
  d_network : string;
  d_type : string;
}.

(** classes/disks.class.ts *)
Record DisksClass := {
  has_root : bool;
  disk_name : string;
  size_gb : Z;
  size_tb : Z;
  disk_rotation : string;
}.

(** classes/interfaces.class.ts *)
Record InterfacesClass := {
  i_ip_address : string;
  i_mac_address : string;
  i_name : string;
  i_speed : Z;
}.

(** interfaces/device-facts.interface.ts; the arrays may be missing. *)
Record DeviceFactsInterface := {
  dfi_cpus_available : Z;
  dfi_default_ipv4_settings : option DefaultIPV4SettingsClass;
  dfi_disks : option (list DisksClass);
  dfi_hostname : string;
  dfi_interfaces : option (list InterfacesClass);
  dfi_management_ip : string;
  dfi_memory_available : Z;
  dfi_memory_gb : Z;
  dfi_memory_mb : Z;
  dfi_potential_monitor_interfaces : list string;
  dfi_product_name : string;
}.

Record DeviceFactsClass := {
  cpus_available : Z;
  default_ipv4_settings : DefaultIPV4SettingsClass;
  disks : list DisksClass;
  df_hostname : string;
  interfaces : list InterfacesClass;
  management_ip : string;
  memory_available : Z;
  memory_gb : Z;
  memory_mb : Z;
  potential_monitor_interfaces : list string;
  product_name : string;
}.

(** [new DeviceFactsClass(...)]: the nested constructor reads fields of
    [default_ipv4_settings], a TypeError when it is undefined. *)
Definition new_DeviceFactsClass (f : DeviceFactsInterface) : outcome DeviceFactsClass :=
  match dfi_default_ipv4_settings f with
  | None => Exn "TypeError"
  | Some settings =>
      Ret {| cpus_available := dfi_cpus_available f;
             default_ipv4_settings := settings;
             disks := match dfi_disks f with Some d => d | None => [] end;
             df_hostname := dfi_hostname f;
             interfaces := match dfi_interfaces f with Some i => i | None => [] end;
             management_ip := dfi_management_ip f;
             memory_available := dfi_memory_available f;
             memory_gb := dfi_memory_gb f;
             memory_mb := dfi_memory_mb f;
             potential_monitor_interfaces := dfi_potential_monitor_interfaces f;
             product_name := dfi_product_name f |}
  end.

(** The [deviceFacts] a node arrives with: missing, an object without own
    properties, or the facts. *)
Inductive raw_facts : Type :=
| FactsUndefined
| FactsEmpty
| Facts (f : DeviceFactsInterface).

(** interfaces/node.interface.ts *)
Record NodeInterface := {
  ni__id : option string;
  ni_deployment_name : option string;
  ni_deployment_type : string;
  ni_hostname : string;
  ni_ip_address : string;
  ni_is_remote : option bool;
  ni_jobs : option (list JobClass);
  ni_mac_address : string;
  ni_node_type : string;
  ni_raid0_override : option bool;
  ni_virtual_cpu : Z;
  ni_virtual_data : option Z;
  ni_virtual_mem : Z;
  ni_virtual_os : Z;
  ni_vpn_status : option string;
  ni_deviceFacts : raw_facts;
}.

(** classes/node.class.ts *)
Record NodeClass := {
  _id : option string;
  deployment_name : option string;
  deployment_type : string;
  hostname : string;
  ip_address : string;
  is_remote : option bool;
  jobs : option (list JobClass);
  mac_address : string;
  node_type : string;
  raid0_override : option bool;
  virtual_cpu : Z;
  virtual_data : option Z;
  virtual_mem : Z;
  virtual_os : Z;
  vpn_status : option string;
  isDeployed : option bool;
  isRemoving : option bool;
  status : option StatusClass;
  deviceFacts : option DeviceFactsClass;
}.

(** [new NodeClass(...)]: [Object.keys(undefined)] throws; [raid0_override] is
    declared but the constructor never assigns it. *)
Definition new_NodeClass (n : NodeInterface) : outcome NodeClass :=
  let mk facts :=
    {| _id := ni__id n;
       deployment_name := ni_deployment_name n;
       deployment_type := ni_deployment_type n;
       hostname := ni_hostname n;
       ip_address := ni_ip_address n;
       is_remote := ni_is_remote n;
       jobs := ni_jobs n;
       mac_address := ni_mac_address n;
       node_type := ni_node_type n;
       raid0_override := None;
       virtual_cpu := ni_virtual_cpu n;
       virtual_data := ni_virtual_data n;
       virtual_mem := ni_virtual_mem n;
       virtual_os := ni_virtual_os n;
       vpn_status := ni_vpn_status n;
       isDeployed := None;
       isRemoving := None;
       status := None;
       deviceFacts := facts |} in
  match ni_deviceFacts n with
  | FactsUndefined => Exn "TypeError"
  | FactsEmpty => Ret (mk None)
  | Facts f =>
      match new_DeviceFactsClass f with
      | Ret d => Ret (mk (Some d))
      | Exn e => Exn e
      end
  end.

(** Assignments to the fields of a node object. *)
Definition set_isDeployed (b : bool) (n : NodeClass) : NodeClass :=
  {| _id := _id n; deployment_name := deployment_name n; deployment_type := deployment_type n;
     hostname := hostname n; ip_address := ip_address n; is_remote := is_remote n; jobs := jobs n;
     mac_address := mac_address n; node_type := node_type n; raid0_override := raid0_override n;
     virtual_cpu := virtual_cpu n; virtual_data := virtual_data n; virtual_mem := virtual_mem n;
     virtual_os := virtual_os n; vpn_status := vpn_status n; isDeployed := Some b;
     isRemoving := isRemoving n; status := status n; deviceFacts := deviceFacts n |}.

Definition set_isRemoving (b : bool) (n : NodeClass) : NodeClass :=
  {| _id := _id n; deployment_name := deployment_name n; deployment_type := deployment_type n;
     hostname := hostname n; ip_address := ip_address n; is_remote := is_remote n; jobs := jobs n;
     mac_address := mac_address n; node_type := node_type n; raid0_override := raid0_override n;
     virtual_cpu := virtual_cpu n; virtual_data := virtual_data n; virtual_mem := virtual_mem n;
     virtual_os := virtual_os n; vpn_status := vpn_status n; isDeployed := isDeployed n;
     isRemoving := Some b; status := status n; deviceFacts := deviceFacts n |}.

Definition set_status (st : option StatusClass) (n : NodeClass) : NodeClass :=
  {| _id := _id n; deployment_name := deployment_name n; deployment_type := deployment_type n;
     hostname := hostname n; ip_address := ip_address n; is_remote := is_remote n; jobs := jobs n;
     mac_address := mac_address n; node_type := node_type n; raid0_override := raid0_override n;
     virtual_cpu := virtual_cpu n; virtual_data := virtual_data n; virtual_mem := virtual_mem n;
     virtual_os := virtual_os n; vpn_status := vpn_status n; isDeployed := isDeployed n;
     isRemoving := isRemoving n; status := st; deviceFacts := deviceFacts n |}.

Definition set_hostname (h : string) (n : NodeClass) : NodeClass :=
  {| _id := _id n; deployment_name := deployment_name n; deployment_type := deployment_type n;
     hostname := h; ip_address := ip_address n; is_remote := is_remote n; jobs := jobs n;
     mac_address := mac_address n; node_type := node_type n; raid0_override := raid0_override n;
     virtual_cpu := virtual_cpu n; virtual_data := virtual_data n; virtual_mem := virtual_mem n;
     virtual_os := virtual_os n; vpn_status := vpn_status n; isDeployed := isDeployed n;
     isRemoving := isRemoving n; status := status n; deviceFacts := deviceFacts n |}.

Definition set_deployment_name (d : option string) (n : NodeClass) : NodeClass :=
  {| _id := _id n; deployment_name := d; deployment_type := deployment_type n;
     hostname := hostname n; ip_address := ip_address n; is_remote := is_remote n; jobs := jobs n;
     mac_address := mac_address n; node_type := node_type n; raid0_override := raid0_override n;
     virtual_cpu := virtual_cpu n; virtual_data := virtual_data n; virtual_mem := virtual_mem n;
     virtual_os := virtual_os n; vpn_status := vpn_status n; isDeployed := isDeployed n;
     isRemoving := isRemoving n; status := status n; deviceFacts := deviceFacts n |}.

(** classes/generic-job-and-key.class.ts *)
Record GenericJobAndKeyClass := { gj_job_id : string; redis_key : string }.

(** classes/success-message.class.ts *)
Record SuccessMessageClass := { success_message : string }.

(** classes/app.class.ts *)
Record AppClass := { a_application : string; a_deployment_name : string }.

(** classes/kit-status.class.ts, as [Partial<KitStatusClass>]. *)
Record KitStatusClass := {
  esxi_settings_configured : option bool;
  kit_settings_configured : option bool;
  general_settings_configured : option bool;
  control_plane_deployed : option bool;
  base_kit_deployed : option bool;
  ready_to_deploy : option bool;
  jobs_running : option bool;
  deploy_kit_running : option bool;
}.

(** The kit status before the first answer, [{}]. *)
Definition empty_kit_status : KitStatusClass :=
  {| esxi_settings_configured := None; kit_settings_configured := None;
     general_settings_configured := None; control_plane_deployed := None;
     base_kit_deployed := None; ready_to_deploy := None;
     jobs_running := None; deploy_kit_running := None |}.

(** classes/kit-settings.class.ts *)
Record KitSettingsClass := {
  ks__id : string;
  kubernetes_services_cidr : string;
  ks_password : string;
  upstream_dns : string;
  upstream_ntp : string;
  ks_job_id : string;
  job_completed : bool;
  is_gip : option bool;
  controller_interface : option string;
  netmask : option string;
  gateway : option string;
  domain : option string;
  dhcp_range : option string;
}.

(** classes/chart.class.ts *)
Record ChartInterface := {
  chi_appVersion : string;
  chi_version : string;
  chi_application : string;
  chi_description : string;
  chi_pmoSupported : bool;
  chi_isSensorApp : bool;
  chi_nodes : option (list StatusClass);
}.

Record ChartClass := {
  ch_appVersion : string;
  ch_version : string;
  ch_application : string;
  ch_description : string;
  pmoSupported : bool;
  isSensorApp : bool;
  ch_nodes : list StatusClass;
}.

Definition new_ChartClass (c : ChartInterface) : ChartClass :=
  {| ch_appVersion := chi_appVersion c;
     ch_version := chi_version c;
     ch_application := chi_application c;
     ch_description := chi_description c;
     pmoSupported := chi_pmoSupported c;
     isSensorApp := chi_isSensorApp c;
     ch_nodes := match chi_nodes c with Some n => n | None => [] end |}.

(** classes/form-control.class.ts *)
Record FormControlClass := {
  default_value : jsval;
  dependent_app : option string;
  fc_description : option string;
  fc_error_message : option string;
  falseValue : jsval;
  regexp : option string;
  fc_required : option bool;
  fc_name : string;
  trueValue : jsval;
  fc_type : string;
}.

(** classes/chart-info.class.ts *)
Record ChartInfoClass := {
  ci_appVersion : string;
  ci_description : string;
  formControls : list FormControlClass;
  ci_id : string;
  node_affinity : string;
  ci_type : string;
  ci_version : string;
  devDependent : option string;
}.

(** classes/saved-value.class.ts *)
Record SavedValueClass := {
  sv_application : string;
  sv_deployment_name : string;
  values : list (string * jsval);
  sv__id : string;
}.

(** classes/iface-state.class.ts *)
Record IFACEStateClass := {
  if_name : string;
  if_state : string;
  link_up : bool;
}.

(** classes/portal-link.class.ts *)
Record PortalLinkClass := { dns : string; pl_ip : string; logins : string }.

(** classes/user-portal-link.class.ts *)
Record UserPortalLinkClass := {
  up_name : string;
  up_url : string;
  up_description : string;
  up__id : string;
}.

(** classes/hive-settings.class.ts *)
Record HiveSettingsClass := { admin_api_key : string; org_admin_api_key : string }.

(** classes/rule.class.ts *)
Record RuleClass := {
  r__id : Z;
  ruleName : string;
  rule : string;
  r_createdDate : string;
  r_lastModifiedDate : string;
  r_isEnabled : bool;
  byPassValidation : bool;
  rule_set_id : Z;
}.

(** classes/host-info.class.ts *)
Record HostInfoClass := { hi_hostname : string; hi_management_ip : string; mac : string }.

(** classes/sensor-state.class.ts *)
Record SensorStateClass := { ss_hostname : string; ss_state : string }.

(** interfaces/rule-set.interface.ts, with the arrays that may be missing. *)
Record RuleSetInterface := {
  rsi__id : Z;
  rsi_rules : option (list RuleClass);
  rsi_appType : string;
  rsi_clearance : string;
  rsi_name : string;
  rsi_sensors : option (list HostInfoClass);
  rsi_state : string;
  rsi_sensor_states : option (list SensorStateClass);
  rsi_createdDate : string;
  rsi_lastModifiedDate : string;
  rsi_isEnabled : bool;
}.

(** classes/rule-set.class.ts.  [R] is the array of rules: its content in a
    response, a reference to it where the array is shared; the component sets
    [rules] to null. *)
Record RuleSetOf (R : Type) := RuleSet {
  rs__id : Z;
  rs_rules : option R;
  appType : string;
  clearance : string;
  rs_name : string;
  sensors : list HostInfoClass;
  rs_state : string;
  sensor_states : list SensorStateClass;
  rs_createdDate : string;
  rs_lastModifiedDate : string;
  rs_isEnabled : bool;
}.
Arguments RuleSet {R}.
Arguments rs__id {R}.
Arguments rs_rules {R}.
Arguments appType {R}.
Arguments clearance {R}.
Arguments rs_name {R}.
Arguments sensors {R}.
Arguments rs_state {R}.
Arguments sensor_states {R}.
Arguments rs_createdDate {R}.
Arguments rs_lastModifiedDate {R}.
Arguments rs_isEnabled {R}.

Definition RuleSetClass : Type := RuleSetOf (list RuleClass).

Definition new_RuleSetClass (r : RuleSetInterface) : RuleSetClass :=
  {| rs__id := rsi__id r;
     rs_rules := Some (match rsi_rules r with Some l => l | None => [] end);
     appType := rsi_appType r;
     clearance := rsi_clearance r;
     rs_name := rsi_name r;
     sensors := match rsi_sensors r with Some l => l | None => [] end;
     rs_state := rsi_state r;
     sensor_states := match rsi_sensor_states r with Some l => l | None => [] end;
     rs_createdDate := rsi_createdDate r;
     rs_lastModifiedDate := rsi_lastModifiedDate r;
     rs_isEnabled := rsi_isEnabled r |}.

Definition set_rules {R Q} (l : option Q) (r : RuleSetOf R) : RuleSetOf Q :=
  RuleSet (rs__id r) l (appType r) (clearance r) (rs_name r) (sensors r) (rs_state r)
    (sensor_states r) (rs_createdDate r) (rs_lastModifiedDate r) (rs_isEnabled r).

Definition set_state {R} (st : string) (r : RuleSetOf R) : RuleSetOf R :=
  RuleSet (rs__id r) (rs_rules r) (appType r) (clearance r) (rs_name r) (sensors r) st
    (sensor_states r) (rs_createdDate r) (rs_lastModifiedDate r) (rs_isEnabled r).

Definition set_isEnabled {R} (b : bool) (r : RuleSetOf R) : RuleSetOf R :=
  RuleSet (rs__id r) (rs_rules r) (appType r) (clearance r) (rs_name r) (sensors r) (rs_state r)
    (sensor_states r) (rs_createdDate r) (rs_lastModifiedDate r) b.

(** classes/rule-sync.class.ts *)
Record RuleSyncClass := { ry_job_id : string; ry_redis_key : string }.

(** modules/policy-management/classes/catalog-status.class.ts *)
Record CatalogStatusClass := {
  cs_application : string;
  cs_appVersion : string;
  cs_status : string;
  cs_deployment_name : string;
  cs_hostname : string;
  cs_node_type : string;
}.

(** modules/policy-management/classes/job.class.ts: a job of the queue. *)
Record QueueJobClass := {
  qj_job_id : string;
  qj_redis_key : string;
  created_at : string;
  enqueued_at : string;
  started_at : string;
  ended_at : string;
  origin : string;
  qj_description : string;
  timeout : Z;
  qj_status : string;
  ttl : string;
  result_ttl : Z;
  queued_position : Z;
}.

(** modules/security-alerts/classes/alert-list-hits.class.ts *)
Record AlertListHitsClass := {
  total_value : Z;
  total_relation : string;
  max_score : Z;
  hits : list jsval;
}.

(** modules/security-alerts/classes/alert-list.class.ts *)
Record AlertListClass := {
  took : Z;
  timed_out : bool;
  shards_total : Z;
  shards_successful : Z;
  shards_skipped : Z;
  shards_failed : Z;
  alert_hits : AlertListHitsClass;
}.

(** modules/security-alerts/classes/modify-remove-return.class.ts *)
Record ModifyRemoveReturnClass := {
  batches : Z;
  deleted : Z;
  failures : list string;
  noops : Z;
  requests_per_second : Z;
  retries_bulk : Z;
  retries_search : Z;
  throttled_millis : Z;
  throttled_until_millis : Z;
  mr_timed_out : bool;
  mr_took : Z;
  total : Z;
  updated : Z;
  version_conflicts : Z;
}.

(** interfaces/confirm-action-configuration.interface.ts: what a dialog that asks
    before it closes shows; the action functions of the source do nothing. *)
Record ConfirmActionConfigurationInterface := {
  ca_title : string;
  ca_message : string;
  confirmButtonText : string;
  successText : string;
  failText : string;
  useGeneralActionFunc : bool;
}.

(** interfaces/text-editor-configuration.interface.ts *)
Record TextEditorConfigurationInterface := {
  show_options : bool;
  is_read_only : bool;
  te_title : string;
  te_text : string;
  use_language : string;
  display_save : jsval;
  disable_save : option bool;
  confirm_save : option ConfirmActionConfigurationInterface;
  confirm_close : option ConfirmActionConfigurationInterface;
}.

(** A file of the browser: its name and its bytes. *)
Record File := { file_name : string; file_content : list Byte.byte }.
