(* ===== verification/Api.v ===== *)
(** The REST layer: services/abstract/api.service.ts and the services that
    extend it.  A service method is the request it issues with the conversion it
    maps over the response; [respond] is what an observer of it receives, the
    errors going through [handleError] as in every [catchError] of the source. *)
From S2P Require Import Prelude Handler JsValue Runtime Data.

(** The calls [ApiService] makes on the snackbar and the console. *)
Inductive api_effect : Type :=
| ApiSnack (message : string) (configuration : option MatSnackbarConfigurationClass)
| ConsoleError (text : string).

Section ApiService.
Context `{J : JSON}.
(** [environment.test] of the build *)
Variable environment_test : bool.

Definition api : Type -> Type := handler unit api_effect.

Definition console_error (text : string) : api unit :=
  if environment_test then ret tt else emit (ConsoleError text).

(** [error && error[k]] *)
Definition error_field (r : HttpErrorResponse) (k : string) : jsval :=
  if js_truthy (error r) then prop (error r) k else error r.

(** [notUndefNull(error) && notUndefNull(error[k])] *)
Definition has_field (r : HttpErrorResponse) (k : string) : bool :=
  defined (error r) && defined (prop (error r) k).

Definition handleErrorConsole (r : HttpErrorResponse) : api unit :=
  match error_event r with
  | Some type => console_error ("An error occurred: " +:+ type)
  | None =>
      let error_message :=
        if has_field r "error_message" then prop (error r) "error_message"
        else if has_field r "post_validation" then prop (error r) "post_validation"
        else if has_field r "status" && has_field r "messages" then JStr (stringify (error r))
        else error r in
      console_error ("Backend returned code " +:+ js_to_string (http_status r) +:+ ", error: " +:+
                     js_to_string error_message +:+ ", message: " +:+ js_to_string (http_message r))
  end.

Definition api_snack (message : string) (c : option MatSnackbarConfigurationClass) : api unit :=
  emit (ApiSnack message c).

(** [handleError]: shows one snackbar and says what the observable fails with. *)
Definition handleError (operation : string) (response : option HttpErrorResponse) : api api_error :=
  match response with
  | Some r =>
      handleErrorConsole r ;;;
      if js_truthy (error_field r "error_message") then
        (api_snack (js_to_string (error_field r "error_message")) None ;;;
         ret (ErrorMessageClass (prop (error r) "error_message")))
      else if js_truthy (error_field r "post_validation") then
        (api_snack (js_to_string (error_field r "post_validation")) None ;;;
         ret (PostValidationClass (prop (error r) "post_validation")))
      else if js_truthy (error_field r "status") && js_truthy (error_field r "messages") then
        (api_snack (stringify (error r)) None ;;;
         ret (ValidationErrorClass (prop (error r) "status") (prop (error r) "messages")))
      else if js_truthy (error_field r "message") then
        (api_snack (js_to_string (error_field r "message")) None ;;;
         ret (HttpFailure (Some r)))
      else
        (api_snack ("An error has occurred: " +:+ js_to_string (http_status r) +:+ "-" +:+
                    js_to_string (statusText r))
                   (Some MAT_SNACKBAR_CONFIGURATION_60000_DUR_DISMISS) ;;;
         ret (HttpFailure (Some r)))
  | None =>
      api_snack ("An error has occurred: " +:+ operation)
                (Some MAT_SNACKBAR_CONFIGURATION_60000_DUR_DISMISS) ;;;
      ret (HttpFailure None)
  end.

(** [handleErrorAlt]: shows one snackbar; the observable it returns never
    emits, completes or fails, so nothing is returned to the observer. *)
Definition handleErrorAlt (operation : string) (r : HttpErrorResponse) : api unit :=
  let dismiss := Some MAT_SNACKBAR_CONFIGURATION_60000_DUR_DISMISS in
  (if has_field r "error_message" then
     api_snack (js_to_string (prop (error r) "error_message")) dismiss
   else if has_field r "post_validation" then
     api_snack (js_to_string (prop (error r) "post_validation")) dismiss
   else if has_field r "status" && has_field r "messages" then
     api_snack (stringify (error r)) dismiss
   else if defined (http_message r) then
     api_snack (js_to_string (http_message r)) dismiss
   else api_snack ("An error has occurred: " +:+ operation) dismiss) ;;;
  handleErrorConsole r.

(** The messages shown. *)
Definition snacks (es : list api_effect) : list (string * option MatSnackbarConfigurationClass) :=
  omap (fun e => match e with ApiSnack m c => Some (m, c) | ConsoleError _ => None end) es.

(** What an observer of a failed request learns. *)
Definition thrown (response : option HttpErrorResponse) (e : api_error) (message : string) : Prop :=
  let field k := match response with Some r => error_field r k | None => JUndefined end in
  match e with
  | ErrorMessageClass v => v = field "error_message" /\ js_truthy v = true /\ message = js_to_string v
  | PostValidationClass v =>
      v = field "post_validation" /\ js_truthy v = true /\ js_truthy (field "error_message") = false /\
      message = js_to_string v
  | ValidationErrorClass st ms =>
      st = field "status" /\ ms = field "messages" /\ js_truthy st && js_truthy ms = true /\
      js_truthy (field "error_message") = false /\ js_truthy (field "post_validation") = false
  | HttpFailure r =>
      r = response /\ js_truthy (field "error_message") = false /\ js_truthy (field "post_validation") = false /\
      js_truthy (field "status") && js_truthy (field "messages") = false
  end.

Lemma error_field_prop r k : js_truthy (error_field r k) = true -> prop (error r) k = error_field r k.
Proof using. unfold error_field. destruct (js_truthy (error r)) eqn:E; [done | congruence]. Qed.

Lemma console_silent r : exists es, handleErrorConsole r tt = (Ret tt, tt, es) /\ snacks es = [].
Proof using.
  unfold handleErrorConsole, console_error. destruct (error_event r), environment_test; by eexists.
Qed.

(** C40: a failed request is reported once.  For every response [handleError]
    returns an error and shows exactly one message; the server's own text wins
    over its validation messages, these over the list of messages by field, and
    only without any of them the response itself is thrown. *)
Theorem handleError_reports_once operation response :
  exists es e m c, handleError operation response tt = (Ret e, tt, es) /\ snacks es = [(m, c)] /\
  thrown response e m.
Proof using.
  destruct response as [r|]; [|by eexists _, _, _, _].
  destruct (console_silent r) as (es & E & Hes). unfold handleError, thrown.
  pose proof (error_field_prop r) as Hp. rewrite (bind_run _ _ _ _ _ _ E).
  assert (Hsnack : forall m c, snacks (es ++ [ApiSnack m c]) = [(m, c)])
    by (intros; unfold snacks in *; by rewrite omap_app, Hes).
  destruct (js_truthy (error_field r "error_message")) eqn:E1.
  { rewrite (Hp "error_message" E1). do 4 eexists. split; [reflexivity|]. by split; [apply Hsnack|]. }
  destruct (js_truthy (error_field r "post_validation")) eqn:E2.
  { rewrite (Hp "post_validation" E2). do 4 eexists. split; [reflexivity|]. by split; [apply Hsnack|]. }
  destruct (js_truthy (error_field r "status") && js_truthy (error_field r "messages")) eqn:E3.
  { pose proof E3 as [H1 H2]%andb_true_iff. rewrite (Hp "status" H1), (Hp "messages" H2).
    do 4 eexists. split; [reflexivity|]. by split; [apply Hsnack|]. }
  destruct (js_truthy (error_field r "message")); do 4 eexists; (split; [reflexivity|]); by split; [apply Hsnack|].
Qed.

(** ** Service methods *)
Inductive verb := GET | POST | PUT | DELETE.

Record service (B Raw A : Type) := Service {
  method : verb;
  url : string;
  body : B;
  operation : string;
  convert : Raw -> outcome A;
}.
Arguments Service {B Raw A}.
Arguments convert {B Raw A}.
Arguments operation {B Raw A}.

(** What the browser reports for a request. *)
Inductive http_result (Raw : Type) : Type :=
| Received (raw : Raw)
| Failed (r : HttpErrorResponse).
Arguments Received {Raw}.
Arguments Failed {Raw}.

(** A TypeError thrown by the conversion reaches [catchError] too: it has a
    message and none of the other fields. *)
Definition type_error (e : string) : HttpErrorResponse :=
  {| error := JUndefined; error_event := None; http_status := JUndefined;
     statusText := JUndefined; http_message := JStr e |}.

Definition respond {B Raw A} (s : service B Raw A) (x : http_result Raw) : api (answer A) :=
  let failed r := e <- handleError (operation s) (Some r) ;; ret (Error e) in
  match x with
  | Received raw => match convert s raw with
                    | Ret a => ret (Next a)
                    | Exn e => failed (type_error e)
                    end
  | Failed r => failed r
  end.
End ApiService.
Arguments Service {B Raw A}.
Arguments convert {B Raw A}.
Arguments operation {B Raw A}.
Arguments url {B Raw A}.
Arguments method {B Raw A}.
Arguments body {B Raw A}.
Arguments Received {Raw}.
Arguments Failed {Raw}.

(** A response the service hands on as it is, or copies field by field. *)
Definition copied {A} (x : A) : outcome A := Ret x.
