(* ===== verification/Services.v ===== *)
(** The services of the modelled components: each method's request and the
    conversion of its response.  URLs are those of environments/environment.ts. *)
From S2P Require Import Prelude Handler JsValue Runtime Data Api.

(** ** services/kit-settings.service.ts *)

Definition getUnusedIPAddresses (mng_ip netmask : string) : service unit (list string) (list string) :=
  Service GET ("/api/unused-ip-addrs/" +:+ mng_ip +:+ "/" +:+ netmask) tt "get unused ip addresses" copied.

Definition get_used_ip_addresses (mng_ip netmask : string) : service unit (list string) (list string) :=
  Service GET ("/api/used-ip-addrs/" +:+ mng_ip +:+ "/" +:+ netmask) tt "get used ip addresses" copied.

(** A null response is not an error: [throwError(...)] only builds an observable
    that nobody subscribes to, and the map returns undefined. *)
Definition get_kit_settings : service unit (option KitSettingsClass) (option KitSettingsClass) :=
  Service GET "/api/settings/kit" tt "get kit settings"
    (fun response => Ret (match response with Some r => Some r | None => None end)).

Definition update_kit_settings {B} (kit_settings : B)
    : service B GenericJobAndKeyClass GenericJobAndKeyClass :=
  Service POST "/api/settings/kit" kit_settings "update kit settings" copied.

Definition setup_control_plane : service unit GenericJobAndKeyClass GenericJobAndKeyClass :=
  Service POST "/api/kit/control-plane" tt "refresh kit" copied.

Definition refresh_kit : service unit GenericJobAndKeyClass GenericJobAndKeyClass :=
  Service POST "/api/kit/rebuild" tt "refresh kit" copied.

Definition update_device_facts (node : string) : service unit SuccessMessageClass SuccessMessageClass :=
  Service PUT ("/api/kit/node/" +:+ node +:+ "/update") tt "update device facts" copied.

Definition add_node (payload : jsval) : service jsval GenericJobAndKeyClass GenericJobAndKeyClass :=
  Service POST "/api/kit/node" payload "delete node" copied.

Definition get_nodes : service unit (list NodeInterface) (list NodeClass) :=
  Service GET "/api/kit/nodes" tt "get nodes" (construct_all new_NodeClass).

Definition delete_node (hostname : string) : service unit GenericJobAndKeyClass GenericJobAndKeyClass :=
  Service DELETE ("/api/kit/node/" +:+ hostname) tt "delete node" copied.

Definition addMip (payload : jsval) : service jsval GenericJobAndKeyClass GenericJobAndKeyClass :=
  Service POST "/api/kit/mip" payload "add mip" copied.

Definition deploy_kit : service unit GenericJobAndKeyClass GenericJobAndKeyClass :=
  Service GET "/api/kit/deploy" tt "deploy kit" copied.

Definition get_kit_status : service unit KitStatusClass KitStatusClass :=
  Service GET "/api/kit/status" tt "get kit status" copied.

(** The certificate archive is a blob; the component only saves it. *)
Definition get_open_vpn_certs (node_hostname : string) : service unit string string :=
  Service GET ("/api/kit/node/" +:+ node_hostname +:+ "/generate-vpn") tt " get open vpn certs" copied.

(** ** services/catalog.service.ts *)

(** CatalogHelmActionInterface: [values] are set for install and reinstall. *)
Record ProcessFromFormGroup := {
  selectedProcess : jsval;
  selectedNodes : list NodeClass;
  p_node_affinity : jsval;
}.

Record CatalogHelmActionInterface := {
  cha_role : string;
  cha_process : ProcessFromFormGroup;
  cha_values : option (list jsval);
}.

Record GenerateFileInterface := {
  gf_role : string;
  gf_process : ProcessFromFormGroup;
  configs : list jsval;
}.

Definition get_catalog_nodes : service unit (list NodeInterface) (list NodeClass) :=
  Service GET "/api/catalog/nodes" tt "get catalog nodes" (construct_all new_NodeClass).

Definition get_chart_info (path_value : string) : service unit ChartInfoClass ChartInfoClass :=
  Service GET ("/api/catalog/chart/" +:+ path_value +:+ "/info") tt "get chart info" copied.

Definition get_chart_statuses (path_value : string) : service unit (list StatusClass) (list StatusClass) :=
  Service GET ("/api/catalog/chart/" +:+ path_value +:+ "/status") tt "get statuses" copied.

Definition get_saved_values (path_value : string) : service unit (list SavedValueClass) (list SavedValueClass) :=
  Service GET ("/api/catalog/" +:+ path_value +:+ "/saved-values") tt "get saved values" copied.

Definition get_installed_apps (path_value : string) : service unit (list AppClass) (list AppClass) :=
  Service GET ("/api/catalog/" +:+ path_value +:+ "/apps") tt "get installed apps" copied.

Definition get_all_application_statuses : service unit (list ChartInterface) (list ChartClass) :=
  Service GET "/api/catalog/charts/status" tt "get all application statuses"
    (fun response => Ret (new_ChartClass <$> response)).

Definition generate_values_file (generate_file : GenerateFileInterface)
    : service GenerateFileInterface (list jsval) (list jsval) :=
  Service POST "/api/catalog/generate_values" generate_file "generate values file" copied.

Definition catalog_install (a : CatalogHelmActionInterface)
    : service CatalogHelmActionInterface GenericJobAndKeyClass GenericJobAndKeyClass :=
  Service POST "/api/catalog/install" a "catalog install" copied.

Definition catalog_reinstall (a : CatalogHelmActionInterface)
    : service CatalogHelmActionInterface GenericJobAndKeyClass GenericJobAndKeyClass :=
  Service POST "/api/catalog/reinstall" a "catalog reinstall" copied.

Definition catalog_uninstall (a : CatalogHelmActionInterface)
    : service CatalogHelmActionInterface GenericJobAndKeyClass GenericJobAndKeyClass :=
  Service POST "/api/catalog/uninstall" a "catalog uninstall" copied.

Definition get_configured_ifaces (sensor_hostname : string) : service unit (list string) (list string) :=
  Service GET ("/api/catalog/configured-ifaces/" +:+ sensor_hostname) tt "retrieving configured ifaces" copied.

(** ** services/global-tools.service.ts *)

Definition get_spaces : service unit (list string) (list string) :=
  Service GET "/api/tools/spaces" tt "get spaces" copied.

Definition get_iface_states (hostname : string) : service unit (list IFACEStateClass) (list IFACEStateClass) :=
  Service GET ("/api/tools/ifaces/" +:+ hostname) tt "get iface states" copied.

(** ** services/portal.service.ts *)

Definition get_portal_links : service unit (list PortalLinkClass) (list PortalLinkClass) :=
  Service GET "/api/portal/links" tt "get portal links" copied.

Definition get_user_links : service unit (list UserPortalLinkClass) (list UserPortalLinkClass) :=
  Service GET "/api/portal/user/links" tt "get user portal links" copied.

Definition add_user_link (l : UserPortalLinkClass)
    : service UserPortalLinkClass (list UserPortalLinkClass) (list UserPortalLinkClass) :=
  Service POST "/api/portal/user/links" l "add user portal link" copied.

Definition remove_user_link (l : UserPortalLinkClass) : service unit SuccessMessageClass SuccessMessageClass :=
  Service DELETE ("/api/portal/user/links/" +:+ up__id l) tt "delete user portal link" copied.

(** ** services/global-hive-settings.service.ts *)

Definition get_hive_settings : service unit HiveSettingsClass HiveSettingsClass :=
  Service GET "/api/alerts/settings" tt "get hive settings" copied.

(** ** services/rules.service.ts *)

Definition get_rule_sets : service unit (list RuleSetInterface) (list RuleSetClass) :=
  Service GET "/api/policy/ruleset" tt "get rule sets" (fun response => Ret (new_RuleSetClass <$> response)).

Definition create_rule_set {B} (rule_set : B) : service B RuleSetInterface RuleSetClass :=
  Service POST "/api/policy/ruleset" rule_set "create rule set" (fun response => Ret (new_RuleSetClass response)).

Definition update_rule_set {B} (rule_set : B) : service B RuleSetInterface RuleSetClass :=
  Service PUT "/api/policy/ruleset" rule_set "update rule set" (fun response => Ret (new_RuleSetClass response)).

Definition delete_rule_set (rule_set_id : Z) : service unit SuccessMessageClass SuccessMessageClass :=
  Service DELETE ("/api/policy/ruleset/" +:+ pretty rule_set_id) tt "delete rule set" copied.

Definition sync_rule_sets : service unit RuleSyncClass RuleSyncClass :=
  Service GET "/api/policy/rulesets/sync" tt "sync rule sets" copied.

Definition get_rules (rule_set_id : Z) : service unit (list RuleClass) (list RuleClass) :=
  Service GET ("/api/policy/rules/" +:+ pretty rule_set_id) tt "get rules" copied.

Definition create_rule (r : RuleClass) : service RuleClass RuleClass RuleClass :=
  Service POST "/api/policy/rule" r "create rule" copied.

Definition update_rule (r : RuleClass) : service RuleClass RuleClass RuleClass :=
  Service PUT "/api/policy/rule" r "update rule" copied.

Definition delete_rule (rule_id : Z) : service unit SuccessMessageClass SuccessMessageClass :=
  Service DELETE ("/api/policy/rule/" +:+ pretty rule_id) tt "delete rule" copied.

(** [map_rule_list_or_rule_]: an upload answers with one rule or with an array. *)
Inductive rule_or_rules : Type :=
| OneRule (r : RuleClass)
| Rules (l : list RuleClass).

Definition map_rule_list_or_rule_ (response : rule_or_rules) : rule_or_rules :=
  match response with
  | Rules l => Rules ((fun r => r) <$> l)
  | OneRule r => OneRule r
  end.

Definition upload_rule_file {B} (form_data : B) : service B rule_or_rules rule_or_rules :=
  Service POST "/api/policy/rule/upload" form_data "upload rule file"
    (fun response => Ret (map_rule_list_or_rule_ response)).

Definition get_rule_content (rule_id : Z) : service unit RuleClass RuleClass :=
  Service GET ("/api/policy/rule/" +:+ pretty rule_id +:+ "/content") tt "get rule content" copied.

Definition validate_rule (r : RuleClass) : service RuleClass SuccessMessageClass SuccessMessageClass :=
  Service POST "/api/policy/rule/validate" r "validate rule" copied.

(** The request options, constants/cvah.constants.ts. *)
Record HttpOptions := { headers : list (string * string) }.
Definition HTTP_OPTIONS : HttpOptions := {| headers := [("Content-Type", "application/json")] |}.

(** The options are passed where [put] expects the body. *)
Definition toggle_rule (rule_id : Z) : service HttpOptions RuleClass RuleClass :=
  Service PUT ("/api/policy/rule/" +:+ pretty rule_id +:+ "/toggle") HTTP_OPTIONS "toggle rule" copied.

(** ** modules/policy-management/services/policy-management.service.ts *)

Definition check_catalog_status (application : string)
    : service unit (list CatalogStatusClass) (list CatalogStatusClass) :=
  Service GET ("/api/catalog/chart/" +:+ application +:+ "/status") tt "check catalog status" copied.

Definition get_jobs : service unit (list QueueJobClass) (list QueueJobClass) :=
  Service GET "/api/jobs" tt "get jobs" copied.

(** ** modules/security-alerts/services/alerts.service.ts *)

Definition get_fields : service unit (list string) (list string) :=
  Service GET "/api/alerts/fields" tt "get fields" copied.

Definition get_alerts (fields start_time end_time : string) (acknowledged escalated show_closed : bool)
    : service unit (list jsval) (list jsval) :=
  let yes_no (b : bool) := if b then "yes" else "no" in
  Service GET ("/api/alerts/" +:+ yes_no acknowledged +:+ "/" +:+ yes_no escalated +:+ "/" +:+
               yes_no show_closed +:+ "/" +:+ start_time +:+ "/" +:+ end_time +:+ "/" +:+ fields)
    tt "get alerts" copied.

Definition get_alert_list (update_alert : jsval) (size : Z) : service jsval AlertListClass AlertListClass :=
  Service POST ("/api/alerts/list/" +:+ pretty size) update_alert "get alert list" copied.

Definition modify_alert (update_alert : jsval)
    : service jsval ModifyRemoveReturnClass ModifyRemoveReturnClass :=
  Service POST "/api/alerts/modify" update_alert "modify alert" copied.

Definition remove_alerts (update_alert : jsval)
    : service jsval ModifyRemoveReturnClass ModifyRemoveReturnClass :=
  Service POST "/api/alerts/remove" update_alert "remove alerts" copied.
