(* ===== verification/SettingsData.v ===== *)
(** The data and the requests of the settings pages: the classes of
    kit-settings.service.ts and global-job.service.ts. *)
From S2P Require Import Prelude Handler JsValue Runtime Data Api.

(** classes/general-settings.class.ts; the pages start with an empty object. *)
Record GeneralSettingsClass := {
  gs__id : option string;
  controller_interface : option string;
  gs_netmask : option string;
  gs_gateway : option string;
  gs_domain : option string;
  gs_job_id : option string;
  gs_job_completed : option bool;
  gs_dhcp_range : option string;
}.

Definition empty_settings : GeneralSettingsClass :=
  {| gs__id := None; controller_interface := None; gs_netmask := None; gs_gateway := None; gs_domain := None;
     gs_job_id := None; gs_job_completed := None; gs_dhcp_range := None |}.

(** classes/ip-set-first-last.class.ts *)
Record IPSetFirstLastClass := { first : string; last : string }.

(** classes/controller-info.class.ts, as [Partial<ControllerInfoClass>]. *)
Record ControllerInfoClass := {
  ci_ip_address : option string;
  ci_gateway : option string;
  ci_netmask : option string;
  ci_name : option string;
  cidrs : option (list string);
  ci_dhcp_range : option string;
  cidr_ranges : option (gmap string IPSetFirstLastClass);
}.

Definition empty_controller_info : ControllerInfoClass :=
  {| ci_ip_address := None; ci_gateway := None; ci_netmask := None; ci_name := None; cidrs := None;
     ci_dhcp_range := None; cidr_ranges := None |}.

(** classes/background-job.class.ts: an answer without properties stays an empty
    object. *)
Record BackgroundJobClass := {
  bj_job_id : option string;
  bj_redis_key : option string;
  created_at : option string;
  enqueued_at : option string;
  started_at : option string;
  ended_at : option string;
  origin : option string;
  bj_description : option string;
  bj_timeout : option Z;
  bj_status : option string;
  ttl : option string;
  result_ttl : option Z;
  queued_position : option Z;
  meta : option string;
  worker_name : option string;
}.

(** A job of which only the status matters. *)
Definition job_with_status (st : option string) : BackgroundJobClass :=
  {| bj_job_id := None; bj_redis_key := None; created_at := None; enqueued_at := None; started_at := None;
     ended_at := None; origin := None; bj_description := None; bj_timeout := None; bj_status := st; ttl := None;
     result_ttl := None; queued_position := None; meta := None; worker_name := None |}.

(** classes/kit-settings.class.ts: the object the settings page makes from its
    form lacks some of the properties. *)
Record PartialKitSettingsClass := {
  pk__id : option string;
  pk_kubernetes_services_cidr : option string;
  pk_password : option string;
  pk_upstream_dns : option string;
  pk_upstream_ntp : option string;
  pk_job_id : option string;
  pk_job_completed : option bool;
  pk_is_gip : option bool;
  pk_controller_interface : option string;
  pk_netmask : option string;
  pk_gateway : option string;
  pk_domain : option string;
  pk_dhcp_range : option string;
}.

(** [kit_settings.job_id = v] *)
Definition set_pk_job_id v (k : PartialKitSettingsClass) : PartialKitSettingsClass :=
  {| pk__id := pk__id k; pk_kubernetes_services_cidr := pk_kubernetes_services_cidr k; pk_password := pk_password k;
     pk_upstream_dns := pk_upstream_dns k; pk_upstream_ntp := pk_upstream_ntp k; pk_job_id := v;
     pk_job_completed := pk_job_completed k; pk_is_gip := pk_is_gip k;
     pk_controller_interface := pk_controller_interface k; pk_netmask := pk_netmask k; pk_gateway := pk_gateway k;
     pk_domain := pk_domain k; pk_dhcp_range := pk_dhcp_range k |}.

(** ** services/kit-settings.service.ts and services/global-job.service.ts *)

(** A null response becomes undefined, as in [get_kit_settings]. *)
Definition get_general_settings : service unit (option GeneralSettingsClass) (option GeneralSettingsClass) :=
  Service GET "/api/settings/general" tt "get general settings" (fun response => Ret response).

Definition update_general_settings (general_settings : GeneralSettingsClass)
    : service GeneralSettingsClass GenericJobAndKeyClass GenericJobAndKeyClass :=
  Service POST "/api/settings/general" general_settings "refresh kit" copied.

Definition get_controller_info : service unit ControllerInfoClass ControllerInfoClass :=
  Service GET "/api/controller/info" tt "get controller info" copied.

Definition job_get (job_id : string) : service unit BackgroundJobClass BackgroundJobClass :=
  Service GET ("/api/jobs/" +:+ job_id) tt "job get" copied.

Definition job_retry (job_id : string) : service unit GenericJobAndKeyClass GenericJobAndKeyClass :=
  Service PUT ("/api/jobs/" +:+ job_id +:+ "/retry") tt "job retry" copied.

(** ** MIP settings *)

(** classes/mip-settings.class.ts *)
Record MipSettingsClass := {
  mp__id : option string;
  mp_password : option string;
  user_password : option string;
  luks_password : option string;
}.

Definition get_mip_settings : service unit (option MipSettingsClass) (option MipSettingsClass) :=
  Service GET "/api/settings/mip" tt "get mip settings" (fun response => Ret response).

Definition update_mip_settings (mip_settings : MipSettingsClass)
    : service MipSettingsClass SuccessMessageClass SuccessMessageClass :=
  Service POST "/api/settings/mip" mip_settings "update mip settings" copied.

(** ** Two states of the kit *)

Definition configured : KitStatusClass :=
  {| esxi_settings_configured := None; kit_settings_configured := None; general_settings_configured := Some true;
     control_plane_deployed := None; base_kit_deployed := None; ready_to_deploy := None;
     jobs_running := None; deploy_kit_running := None |}.

Definition deployed : KitStatusClass :=
  {| esxi_settings_configured := None; kit_settings_configured := None; general_settings_configured := Some true;
     control_plane_deployed := Some true; base_kit_deployed := None; ready_to_deploy := None;
     jobs_running := None; deploy_kit_running := None |}.

(** ** VMware settings *)

(** classes/vmware-settings.class.ts; an answer without properties stays an empty
    object. *)
Record VMWareSettingsClass := {
  vm__id : option string;
  vm_ip_address : option string;
  username : option string;
  vm_password : option string;
  datastore : option string;
  vcenter : option bool;
  folder : option string;
  datacenter : option string;
  portgroup : option string;
  cluster : option string;
}.

(** classes/vmware-data.class.ts, as [Partial<VMWareDataInterface>]. *)
Record VMWareDataClass := {
  portgroups : option (list string);
  datacenters : option (list string);
  datastores : option (list string);
  folders : option (list string);
  clusters : option (list string);
}.

Definition get_vmware_settings : service unit VMWareSettingsClass VMWareSettingsClass :=
  Service GET "/api/settings/esxi" tt "get vmware settings" copied.
Definition save_vmware_settings (v : VMWareSettingsClass) : service VMWareSettingsClass bool bool :=
  Service POST "/api/settings/esxi" v "get vmware settings" copied.
Definition test_vmware_settings (v : VMWareSettingsClass) : service VMWareSettingsClass VMWareDataClass VMWareDataClass :=
  Service POST "/api/settings/esxi/test" v "test vmware settings" copied.
