(* ===== verification/Messages.v ===== *)
(** The messages that the forms make of the validation errors of the server: the
    same loops stand in the add-node and add-MIP dialogs and in the VMware and MIP
    settings. *)
From S2P Require Import Prelude Handler JsValue Runtime.
From stdpp Require Import pretty.

Definition error_line (key : string) (error : jsval) : string := key +:+ ":     " +:+ js_to_string error.

(** ** The errors after the validation, by key *)

(** The inner and the outer [forEach], with the position in the array. *)
Fixpoint append_errors (key : string) (errors : list jsval) (message : string) : string :=
  match errors with
  | [] => message
  | e :: r =>
      let message := message +:+ error_line key e in
      append_errors key r (match r with [] => message | _ => message +:+ newline end)
  end.
Fixpoint append_keys (fields : list (string * jsval)) (message : string) : outcome string :=
  match fields with
  | [] => Ret message
  | (key, JArr errors) :: r =>
      let message := append_errors key errors message in
      append_keys r (match r with [] => message | _ => message +:+ newline +:+ newline end)
  | _ => Exn "TypeError"
  end.
Definition construct_post_validation_error_message_ (fields : list (string * jsval)) : outcome string :=
  append_keys fields "".

(** [error_message] is declared without a value, and [+=] appends to undefined;
    [None] is undefined. *)
Fixpoint append_messages (l : list jsval) (error_message : option string) : option string :=
  match l with
  | [] => error_message
  | m :: r =>
      let s := default "undefined" error_message +:+ js_to_string m in
      append_messages r (Some (match r with [] => s | _ => s +:+ newline end))
  end.

Section Show.
Context {S C D : Type}.
Abbreviation M := (handler S (effect C D)).

(** The snackbar shows undefined as the empty text. *)
Definition show_post_validation (post_validation : jsval) : M unit :=
  match post_validation with
  | JArr l => displaySnackBar (default "" (append_messages l None)) (Some MAT_SNACKBAR_CONFIGURATION_60000_DUR)
  | JObj fields =>
      match construct_post_validation_error_message_ fields with
      | Ret message => displaySnackBar message (Some MAT_SNACKBAR_CONFIGURATION_60000_DUR)
      | Exn e => throw e
      end
  | JNull => throw "TypeError"
  | _ => displaySnackBar "Post validation message was not returned in correct format"
           (Some MAT_SNACKBAR_CONFIGURATION_60000_DUR)
  end.

(** ** The errors of the fields *)

(** One line for each message; [more] tells whether another key follows. *)
Fixpoint append_field (key : string) (more : bool) (messages : list jsval) (message : string) : string :=
  match messages with
  | [] => message
  | m :: r =>
      let message := message +:+ key +:+ ": " +:+ js_to_string m in
      append_field key more r (if notUndefNull (head r) || more then message +:+ newline else message)
  end.

(** A snackbar for each key, with the messages of the keys so far. *)
Fixpoint show_fields (fields : list (string * jsval)) (message : string) : M unit :=
  match fields with
  | [] => ret tt
  | (key, JArr messages) :: r =>
      let message := append_field key (notUndefNull (head r)) messages message in
      displaySnackBar message (Some MAT_SNACKBAR_CONFIGURATION_60000_DUR) ;;;
      show_fields r message
  | _ => throw "TypeError"
  end.

(** [Object.keys(error.messages)] and the [forEach] of each property. *)
Definition show_validation_errors (messages : jsval) : M unit :=
  match messages with
  | JObj fields => show_fields fields ""
  | JUndefined | JNull => throw "TypeError"
  | JArr l => show_fields (imap (fun i x => (pretty i, x)) l) ""
  | JNum _ | JBool _ => ret tt
  | JStr t => if t === "" then ret tt else throw "TypeError"
  end.

Lemma safe_show_post_validation (I : S -> Prop) (P : effect C D -> Prop) v :
  (forall m c, P (DisplaySnackBar m c)) -> safe I P (show_post_validation v).
Proof. intros H. unfold show_post_validation. safe_auto; apply H. Qed.

Lemma safe_show_fields (I : S -> Prop) (P : effect C D -> Prop) fields message :
  (forall m c, P (DisplaySnackBar m c)) -> safe I P (show_fields fields message).
Proof.
  intros H. revert message. induction fields as [|[k v] l IH]; intros message; simpl; [apply safe_ret|].
  destruct v; try apply safe_throw. apply safe_bind; [by apply safe_emit | intros _; apply IH].
Qed.

Lemma safe_show_validation_errors (I : S -> Prop) (P : effect C D -> Prop) v :
  (forall m c, P (DisplaySnackBar m c)) -> safe I P (show_validation_errors v).
Proof. intros H. unfold show_validation_errors. destruct v; safe_auto; by apply safe_show_fields. Qed.
End Show.

(** ** The texts *)

Lemma append_errors_join key errors m :
  append_errors key errors m = m +:+ join_with newline (error_line key <$> errors).
Proof.
  revert m. induction errors as [|e errors IH]; intros m; [by rewrite text_app_nil|]. cbn [append_errors].
  rewrite IH. destruct errors as [|e' errors]; [by rewrite text_app_nil|].
  cbn [fmap list_fmap join_with]. by rewrite <- !text_app_assoc.
Qed.

Lemma append_keys_join (fields : list (string * list jsval)) m :
  append_keys ((fun x : string * list jsval => (fst x, JArr (snd x))) <$> fields) m =
  Ret (m +:+ join_with (newline +:+ newline)
    ((fun x : string * list jsval => join_with newline (error_line (fst x) <$> snd x)) <$> fields)).
Proof.
  revert m. induction fields as [|[key errors] fields IH]; intros m; [by rewrite text_app_nil|].
  cbn [fmap list_fmap append_keys fst snd]. rewrite append_errors_join. fold (@list_fmap). rewrite IH.
  destruct fields as [|x fields]; cbn [fmap list_fmap join_with]; [by rewrite text_app_nil|].
  by rewrite <- !text_app_assoc.
Qed.

Lemma append_messages_join l m :
  append_messages l (Some m) = Some (m +:+ join_with newline (js_to_string <$> l)).
Proof.
  revert m. induction l as [|x l IH]; intros m; [by rewrite text_app_nil|]. cbn [append_messages default].
  rewrite IH. f_equal. destruct l as [|y l]; [by rewrite text_app_nil|].
  cbn [fmap list_fmap join_with]. by rewrite <- !text_app_assoc.
Qed.

(** One line for each message of each key. *)
Lemma append_field_join key more messages m : messages <> [] ->
  append_field key more messages m =
  m +:+ join_with newline ((fun x => key +:+ ": " +:+ js_to_string x) <$> messages) +:+ (if more then newline else "").
Proof.
  revert m. induction messages as [|x l IH]; intros m H; [done|]. cbn [append_field].
  destruct l as [|y l].
  - cbn [append_field head notUndefNull fmap list_fmap join_with]. destruct more; simpl; by rewrite <- ?text_app_assoc, ?text_app_nil.
  - cbn [head]. rewrite IH by done. cbn [fmap list_fmap join_with]. simpl notUndefNull. cbv iota. simpl orb. cbv iota.
    by rewrite <- !text_app_assoc.
Qed.
