(* ===== verification/Net.v ===== *)
(** classes/data-methods.class.ts: IPv4 arithmetic on JavaScript numbers.

    A number is an integer or NaN ([None]); the operators [<<], [>>>], [~] and
    [&] wrap their operands to 32 bits as the language does.  Strings are
    sequences of 8-bit characters. *)
From S2P Require Import Prelude.
From stdpp Require Import pretty.
From Stdlib Require Import Ascii.

(** ** The language *)

Definition jsnum : Type := option Z.

Definition to_uint32 (x : jsnum) : Z :=
  match x with Some n => (n mod 2 ^ 32)%Z | None => 0%Z end.

Definition to_int32 (x : jsnum) : Z :=
  let u := to_uint32 x in if Z.ltb u (2 ^ 31) then u else (u - 2 ^ 32)%Z.

Definition js_shl (x : jsnum) (k : Z) : jsnum := Some (to_int32 (Some (Z.shiftl (to_int32 x) k))).
Definition js_add (x y : jsnum) : jsnum :=
  match x, y with Some a, Some b => Some (a + b)%Z | _, _ => None end.
Definition js_not (x : jsnum) : Z := Z.lnot (to_int32 x).
Definition js_and (x y : jsnum) : Z := Z.land (to_int32 x) (to_int32 y).

Definition is_space (c : ascii) : bool :=
  let n := nat_of_ascii c in (n =? 32)%nat || ((9 <=? n) && (n <=? 13))%nat || (n =? 160)%nat.

Definition digit_value (c : ascii) : option Z :=
  let n := Z.of_nat (nat_of_ascii c) in
  if (48 <=? n)%Z && (n <=? 57)%Z then Some (n - 48)%Z
  else if (97 <=? n)%Z && (n <=? 122)%Z then Some (n - 87)%Z
  else if (65 <=? n)%Z && (n <=? 90)%Z then Some (n - 55)%Z
  else None.

Definition digit_in (base : Z) (c : ascii) : option Z :=
  match digit_value c with Some d => if (d <? base)%Z then Some d else None | None => None end.

Fixpoint trim_start (s : string) : string :=
  match s with
  | String c r => if is_space c then trim_start r else s
  | EmptyString => EmptyString
  end.

(** The longest prefix of digits: its value, and what follows; [None] when
    there is no digit. *)
Fixpoint digits (base : Z) (acc : jsnum) (s : string) : jsnum * string :=
  match s with
  | String c r =>
      match digit_in base c with
      | Some d => digits base (Some (base * default 0 acc + d)%Z) r
      | None => (acc, s)
      end
  | EmptyString => (acc, EmptyString)
  end.

Definition sign (s : string) : Z * string :=
  match s with
  | String "-" r => ((-1)%Z, r)
  | String "+" r => (1%Z, r)
  | _ => (1%Z, s)
  end.

(** [parseInt(s, 10)] *)
Definition parseInt10 (s : string) : jsnum :=
  let '(sg, r) := sign (trim_start s) in Z.mul sg <$> fst (digits 10 None r).

Fixpoint rev_string (s acc : string) : string :=
  match s with
  | EmptyString => acc
  | String c r => rev_string r (String c acc)
  end.

Definition trim (s : string) : string :=
  rev_string (trim_start (rev_string (trim_start s) "")) "".

(** [Number(s)] of a string without a decimal point, of which only the integer
    part matters: its only use is as an operand of [>>>].  Infinity is [None]
    too, [>>>] makes 0 of both. *)
Definition Number (s : string) : jsnum :=
  let whole base r := match digits base None r with (v, EmptyString) => v | _ => None end in
  match trim s with
  | EmptyString => Some 0%Z
  | String "0" (String "x" r) | String "0" (String "X" r) => whole 16%Z r
  | String "0" (String "o" r) | String "0" (String "O" r) => whole 8%Z r
  | String "0" (String "b" r) | String "0" (String "B" r) => whole 2%Z r
  | t =>
      let '(sg, r) := sign t in
      match digits 10 None r with
      | (Some v, EmptyString) => Some (sg * v)%Z
      | (Some v, String "e" r') | (Some v, String "E" r') =>
          let '(sg', r'') := sign r' in
          match digits 10 None r'' with
          | (Some e, EmptyString) =>
              Some (sg * (if (sg' <? 0)%Z then v / 10 ^ e else v * 10 ^ e))%Z
          | _ => None
          end
      | _ => None
      end
  end.

(** [s.split(c)] *)
Fixpoint split_on (c : ascii) (s : string) : list string :=
  match s with
  | EmptyString => [""]
  | String x r =>
      if Ascii.eqb x c then "" :: split_on c r
      else match split_on c r with
           | [] => [String x ""]
           | w :: ws => String x w :: ws
           end
  end.

Fixpoint binary_of_positive (p : positive) (acc : string) : string :=
  match p with
  | xH => String "1" acc
  | xO q => binary_of_positive q (String "0" acc)
  | xI q => binary_of_positive q (String "1" acc)
  end.

(** [n.toString(2)] for a natural [n] *)
Definition to_string_2 (n : Z) : string :=
  match n with Zpos p => binary_of_positive p "" | _ => "0" end.

(** ** DataMethodsClass *)

Definition netmask_to_cidr (netmask : string) : Z :=
  let ret_val :=
    join_with "" ((fun part => to_string_2 (to_uint32 part)) <$> (Number <$> split_on "." netmask)) in
  (Z.of_nat (length (split_on "1" ret_val)) - 1)%Z.

Definition ipv4_to_int (ip : string) : Z :=
  to_uint32 (fold_left (fun int oct => js_add (js_shl int 8) (parseInt10 oct)) (split_on "." ip) (Some 0%Z)).

(** [2 ** (32 - bits) - 1]; the fraction for more than 32 bits lies between -1
    and 0, [~] takes its integer part. *)
Definition host_bits (bits : Z) : Z := if (bits <=? 32)%Z then (2 ^ (32 - bits) - 1)%Z else 0%Z.

Definition is_ipv4_in_subnet (ip network_ip netmask : string) : bool :=
  let bits := netmask_to_cidr netmask in
  let mask := js_not (Some (host_bits bits)) in
  Z.eqb (js_and (Some (ipv4_to_int ip)) (Some mask)) (js_and (Some (ipv4_to_int network_ip)) (Some mask)).

(** ** The dotted notation *)

Definition octet (x i : Z) : Z := ((x / 2 ^ (8 * i)) mod 256)%Z.
Definition octets (x : Z) : list Z := [octet x 3; octet x 2; octet x 1; octet x 0].
Definition dotted (x : Z) : string := join_with "." (pretty <$> octets x).

(** The netmask of the first [n] bits. *)
Definition prefix_mask (n : Z) : Z := (2 ^ 32 - 2 ^ (32 - n))%Z.

Definition contains (c : ascii) (s : string) : bool := existsb (Ascii.eqb c) (String.list_ascii_of_string s).

Lemma split_on_none c s : contains c s = false -> split_on c s = [s].
Proof.
  unfold contains. induction s as [|x s IH]; simpl; [done|].
  rewrite Ascii.eqb_sym. destruct (Ascii.eqb x c); simpl; [done|].
  intros H. by rewrite (IH H).
Qed.

Lemma split_on_app c s t :
  contains c s = false -> split_on c (s +:+ String c t) = s :: split_on c t.
Proof.
  unfold contains. induction s as [|x s IH]; simpl; [by rewrite Ascii.eqb_refl|].
  rewrite Ascii.eqb_sym. destruct (Ascii.eqb x c); simpl; [done|].
  intros H. by rewrite (IH H).
Qed.

Lemma split_on_join c l :
  l <> [] -> Forall (fun s => contains c s = false) l -> split_on c (join_with (String c "") l) = l.
Proof.
  intros Hl. induction 1 as [|s l Hs Hr IH]; [done|].
  destruct l as [|t l]; [by apply split_on_none|].
  change (split_on c (s +:+ String c (join_with (String c "") (t :: l))) = s :: t :: l).
  rewrite split_on_app by done. by rewrite IH.
Qed.

Lemma forall_below (P : Z -> bool) (n : nat) x :
  forallb P (Z.of_nat <$> seq 0 n) = true -> (0 <= x < Z.of_nat n)%Z -> P x = true.
Proof.
  intros H Hx. rewrite forallb_forall in H. apply H, list_elem_of_In, list_elem_of_fmap.
  exists (Z.to_nat x). split; [lia | apply elem_of_seq; lia].
Qed.

(** What the functions read off the decimal notation of an octet. *)
Lemma octet_reads o :
  (0 <= o < 256)%Z ->
  contains "." (pretty o) = false /\ parseInt10 (pretty o) = Some o /\ Number (pretty o) = Some o.
Proof.
  intros Ho.
  pose proof (forall_below (fun o => negb (contains "." (pretty o)) &&
    bool_decide (parseInt10 (pretty o) = Some o) && bool_decide (Number (pretty o) = Some o)) 256 o) as H.
  cbv beta in H.
  rewrite !andb_true_iff, !bool_decide_eq_true, negb_true_iff in H.
  destruct H as [[? ?] ?]; [vm_compute; reflexivity | done | auto].
Qed.

Lemma octets_range x : Forall (fun o => 0 <= o < 256)%Z (octets x).
Proof. unfold octets, octet. repeat constructor; apply Z.mod_pos_bound; lia. Qed.

Lemma split_dotted x : split_on "." (dotted x) = pretty <$> octets x.
Proof.
  apply split_on_join; [done|]. apply Forall_fmap.
  eapply Forall_impl; [apply octets_range|]. intros o Ho. by apply octet_reads.
Qed.

Lemma to_uint32_id x : (0 <= x < 2 ^ 32)%Z -> to_uint32 (Some x) = x.
Proof. intros. by apply Z.mod_small. Qed.

Lemma to_int32_mod x : (to_int32 (Some x) mod 2 ^ 32 = x mod 2 ^ 32)%Z.
Proof.
  unfold to_int32, to_uint32. destruct (_ <? _)%Z.
  - by rewrite Z.mod_mod.
  - rewrite <- (Z.mod_add (x mod 2 ^ 32 - 2 ^ 32) 1 (2 ^ 32)) by lia.
    replace (x mod 2 ^ 32 - 2 ^ 32 + 1 * 2 ^ 32)%Z with (x mod 2 ^ 32)%Z by lia.
    by rewrite Z.mod_mod.
Qed.

Lemma to_int32_range x : (- 2 ^ 31 <= to_int32 (Some x) < 2 ^ 31)%Z.
Proof.
  unfold to_int32, to_uint32. pose proof (Z.mod_pos_bound x (2 ^ 32) ltac:(lia)).
  destruct (Z.ltb_spec (x mod 2 ^ 32) (2 ^ 31)); lia.
Qed.

Lemma to_int32_id x : (- 2 ^ 31 <= x < 2 ^ 31)%Z -> to_int32 (Some x) = x.
Proof.
  intros H. unfold to_int32, to_uint32. destruct (Z.leb_spec 0 x).
  - rewrite Z.mod_small by lia. destruct (Z.ltb_spec x (2 ^ 31)); lia.
  - rewrite <- (Z.mod_add _ 1) by lia. rewrite Z.mod_small by lia.
    destruct (Z.ltb_spec (x + 1 * 2 ^ 32) (2 ^ 31)); lia.
Qed.

(** One octet more: the accumulator may wrap, its residue does not. *)
Lemma shift_add_mod x o :
  (to_uint32 (js_add (js_shl (Some x) 8) (Some o)) = (x * 256 + o) mod 2 ^ 32)%Z.
Proof.
  cbn -[Z.pow Z.shiftl to_int32 Z.modulo]. rewrite Z.add_mod, to_int32_mod, <- Z.add_mod by lia.
  rewrite Z.shiftl_mul_pow2 by lia. change (2 ^ 8)%Z with 256%Z.
  rewrite Z.add_mod, Z.mul_mod, to_int32_mod, <- Z.mul_mod, <- Z.add_mod by lia. done.
Qed.

Lemma fold_octets l x :
  (exists y, fold_left (fun int oct => js_add (js_shl int 8) (Some oct)) l (Some x) = Some y /\
   (y mod 2 ^ 32 = fold_left (fun a o => a * 256 + o) l x mod 2 ^ 32)%Z)%Z.
Proof.
  revert x. induction l as [|o l IH]; intros x; [by exists x|].
  cbn [fold_left].
  destruct (js_add (js_shl (Some x) 8) (Some o)) as [z|] eqn:Ez; [|discriminate Ez].
  destruct (IH z) as (y & Hy & Hm). exists y. split; [done|]. rewrite Hm.
  assert (Hz : (z mod 2 ^ 32 = (x * 256 + o) mod 2 ^ 32)%Z).
  { pose proof (shift_add_mod x o) as Hz. by rewrite Ez in Hz. }
  clear -Hz. revert z x o Hz.
  assert (G : forall (l : list Z) a b, (a mod 2 ^ 32 = b mod 2 ^ 32)%Z ->
    (fold_left (fun a o => a * 256 + o) l a mod 2 ^ 32 =
     fold_left (fun a o => a * 256 + o) l b mod 2 ^ 32)%Z).
  { clear. induction l as [|o l IH]; intros a b Hab; [done|]. simpl. apply IH.
    rewrite Z.add_mod, Z.mul_mod, Hab, <- Z.mul_mod, <- Z.add_mod by lia. done. }
  intros. by apply G.
Qed.

Lemma octets_value x :
  (0 <= x < 2 ^ 32)%Z -> fold_left (fun a o => a * 256 + o)%Z (octets x) 0%Z = x.
Proof.
  intros Hx. cbv [octets octet fold_left].
  change (8 * 3)%Z with 24%Z. change (8 * 2)%Z with 16%Z. change (8 * 1)%Z with 8%Z.
  change (8 * 0)%Z with 0%Z. rewrite Z.pow_0_r, Z.div_1_r.
  assert (H1 : (x / 2 ^ 16 = x / 2 ^ 8 / 256)%Z) by (rewrite Z.div_div by lia; done).
  assert (H2 : (x / 2 ^ 24 = x / 2 ^ 16 / 256)%Z) by (rewrite Z.div_div by lia; done).
  change (2 ^ 8)%Z with 256%Z in *.
  rewrite (Z.mod_small (x / 2 ^ 24)) by (split; [apply Z.div_pos | apply Z.div_lt_upper_bound]; lia).
  pose proof (Z.div_mod x 256 ltac:(lia)). pose proof (Z.div_mod (x / 256) 256 ltac:(lia)).
  pose proof (Z.div_mod (x / 2 ^ 16) 256 ltac:(lia)). lia.
Qed.

(** Reading back an address that was written in the dotted notation. *)
Lemma ipv4_to_int_dotted x : (0 <= x < 2 ^ 32)%Z -> ipv4_to_int (dotted x) = x.
Proof.
  intros Hx. unfold ipv4_to_int. rewrite split_dotted.
  assert (E : forall (l : list Z) a, Forall (fun o => 0 <= o < 256)%Z l ->
    fold_left (fun int oct => js_add (js_shl int 8) (parseInt10 oct)) (pretty <$> l) a =
    fold_left (fun int oct => js_add (js_shl int 8) (Some oct)) l a).
  { intros l a H. revert a. induction H as [|o l Ho _ IH]; intros a; [done|]. simpl fold_left.
    destruct (octet_reads o Ho) as (_ & E & _). rewrite E. apply IH. }
  rewrite (E _ _ (octets_range x)). destruct (fold_octets (octets x) 0) as (y & -> & Hy).
  unfold to_uint32. rewrite Hy, octets_value by done. by apply Z.mod_small.
Qed.

Lemma netmask_to_cidr_prefix n : (0 <= n <= 32)%Z -> netmask_to_cidr (dotted (prefix_mask n)) = n.
Proof.
  intros Hn. apply Z.eqb_eq.
  apply (forall_below (fun n => Z.eqb (netmask_to_cidr (dotted (prefix_mask n))) n) 33); [|lia].
  vm_compute. reflexivity.
Qed.

(** ** What the bitwise operators compute *)

Lemma mask_of_cidr n :
  (0 < n <= 32)%Z -> js_not (Some (host_bits n)) = Z.lnot (Z.ones (32 - n)).
Proof.
  intros Hn. unfold js_not, host_bits. destruct (Z.leb_spec n 32); [|lia].
  rewrite Z.ones_equiv, to_int32_id; [by rewrite Z.sub_1_r|].
  assert (2 ^ (32 - n) <= 2 ^ 31)%Z by (apply Z.pow_le_mono_r; lia).
  pose proof (Z.pow_pos_nonneg 2 (32 - n)). lia.
Qed.

Lemma land_lnot_ones a k : (0 <= k)%Z -> Z.land a (Z.lnot (Z.ones k)) = (a / 2 ^ k * 2 ^ k)%Z.
Proof.
  intros Hk. rewrite <- Z.ldiff_land, Z.ldiff_ones_r by done.
  by rewrite Z.shiftl_mul_pow2, Z.shiftr_div_pow2 by done.
Qed.

(** Comparing the high bits of the signed views of two words compares those of
    the words. *)
Lemma to_int32_high a b k :
  (0 <= k < 32)%Z -> (0 <= a < 2 ^ 32)%Z -> (0 <= b < 2 ^ 32)%Z ->
  (to_int32 (Some a) / 2 ^ k = to_int32 (Some b) / 2 ^ k <-> a / 2 ^ k = b / 2 ^ k)%Z.
Proof.
  intros Hk Ha Hb.
  assert (H2 : (2 ^ 32 = 2 ^ (32 - k) * 2 ^ k)%Z) by (rewrite <- Z.pow_add_r by lia; f_equal; lia).
  pose proof (Z.pow_pos_nonneg 2 k ltac:(lia) ltac:(lia)) as Hp.
  assert (V : forall x, (0 <= x < 2 ^ 32)%Z ->
    (to_int32 (Some x) / 2 ^ k = x / 2 ^ k - (if x <? 2 ^ 31 then 0 else 2 ^ (32 - k)))%Z).
  { intros x Hx. unfold to_int32. rewrite to_uint32_id by done.
    destruct (x <? 2 ^ 31)%Z; [lia|].
    replace (x - 2 ^ 32)%Z with (x + - (2 ^ (32 - k)) * 2 ^ k)%Z by lia.
    rewrite Z.div_add by lia. lia. }
  assert (R : forall x, (0 <= x < 2 ^ 32)%Z -> (0 <= x / 2 ^ k < 2 ^ (32 - k))%Z).
  { intros x Hx. split; [apply Z.div_pos; lia | apply Z.div_lt_upper_bound; lia]. }
  assert (T : (2 ^ 31 = 2 ^ (31 - k) * 2 ^ k)%Z) by (rewrite <- Z.pow_add_r by lia; f_equal; lia).
  assert (L : forall x, (0 <= x < 2 ^ 32)%Z -> (x <? 2 ^ 31)%Z = (x / 2 ^ k <? 2 ^ (31 - k))%Z).
  { intros x Hx. destruct (Z.ltb_spec x (2 ^ 31)), (Z.ltb_spec (x / 2 ^ k) (2 ^ (31 - k))); auto.
    - assert (x / 2 ^ k < 2 ^ (31 - k))%Z by (apply Z.div_lt_upper_bound; lia). lia.
    - assert (2 ^ (31 - k) <= x / 2 ^ k)%Z by (apply Z.div_le_lower_bound; lia). lia. }
  rewrite !V, !L by done. pose proof (R a Ha). pose proof (R b Hb).
  destruct (Z.ltb_spec (a / 2 ^ k) (2 ^ (31 - k))), (Z.ltb_spec (b / 2 ^ k) (2 ^ (31 - k))); lia.
Qed.

(** Two addresses are in the same subnet of [n] bits when their first [n] bits
    agree. *)
Definition same_subnet (n a b : Z) : Prop := (a / 2 ^ (32 - n) = b / 2 ^ (32 - n))%Z.

Lemma in_subnet_by_bits ip network_ip netmask a b n :
  ipv4_to_int ip = a -> ipv4_to_int network_ip = b -> netmask_to_cidr netmask = n ->
  (0 <= n <= 32)%Z -> (0 <= a < 2 ^ 32)%Z -> (0 <= b < 2 ^ 32)%Z ->
  is_ipv4_in_subnet ip network_ip netmask = true <-> same_subnet n a b.
Proof.
  intros Ea Eb En Hn Ha Hb. unfold is_ipv4_in_subnet, js_and, same_subnet.
  rewrite Ea, Eb, En, Z.eqb_eq. destruct (Z.eq_dec n 0%Z) as [->|].
  - change (to_int32 (Some (js_not (Some (host_bits 0))))) with 0%Z.
    rewrite !Z.land_0_r. change (32 - 0)%Z with 32%Z. by rewrite !Z.div_small by lia.
  - rewrite mask_of_cidr, (to_int32_id (Z.lnot _)); [|..].
    + rewrite !land_lnot_ones by lia. rewrite Z.mul_cancel_r by (apply Z.pow_nonzero; lia).
      apply to_int32_high; [lia | done | done].
    + rewrite <- mask_of_cidr by lia. unfold js_not.
      pose proof (to_int32_range (host_bits n)). unfold Z.lnot. lia.
    + lia.
Qed.

(** C5: for addresses and a prefix mask written in the dotted notation the
    subnet test is the mathematical one: it answers true exactly when the two
    addresses agree on the first [n] bits, for every prefix length from 0 to 32
    and all 32-bit addresses, although the code computes on signed 32-bit words
    that wrap. *)
Theorem is_ipv4_in_subnet_correct a b n :
  (0 <= a < 2 ^ 32)%Z -> (0 <= b < 2 ^ 32)%Z -> (0 <= n <= 32)%Z ->
  is_ipv4_in_subnet (dotted a) (dotted b) (dotted (prefix_mask n)) = true <-> same_subnet n a b.
Proof.
  intros Ha Hb Hn. apply in_subnet_by_bits;
    auto using ipv4_to_int_dotted, netmask_to_cidr_prefix.
Qed.

(** 192.168.1.7 and 192.168.1.200 share their first 24 bits, not their first 25. *)
Example is_ipv4_in_subnet_correct_witness :
  is_ipv4_in_subnet "192.168.1.7" "192.168.1.200" "255.255.255.0" = true /\
  is_ipv4_in_subnet "192.168.1.7" "192.168.1.200" "255.255.255.128" = false.
Proof.
  split.
  - apply (is_ipv4_in_subnet_correct 3232235783 3232235976 24); [lia | lia | lia | reflexivity].
  - apply not_true_iff_false.
    rewrite (is_ipv4_in_subnet_correct 3232235783 3232235976 25) by lia. by intros [=].
Defined.

(** ** Masks that are not prefixes *)

Definition popcount (width : nat) (x : Z) : Z :=
  fold_right Z.add 0%Z ((fun i => Z.b2z (Z.testbit x (Z.of_nat i))) <$> seq 0 width).

Definition count (c : ascii) (s : string) : nat :=
  length (base.filter (fun x => Ascii.eqb x c = true) (String.list_ascii_of_string s)).

Lemma split_on_length c s : length (split_on c s) = S (count c s).
Proof.
  unfold count. induction s as [|x s IH]; [done|]. simpl split_on.
  simpl String.list_ascii_of_string. rewrite filter_cons.
  destruct (Ascii.eqb x c); simpl; [by rewrite IH|].
  destruct (split_on c s); simpl in *; lia.
Qed.

Lemma list_ascii_app s t :
  String.list_ascii_of_string (s +:+ t) =
  String.list_ascii_of_string s ++ String.list_ascii_of_string t.
Proof. induction s as [|x s IH]; [done | exact (f_equal (cons x) IH)]. Qed.

Lemma list_ascii_inj s t : String.list_ascii_of_string s = String.list_ascii_of_string t -> s = t.
Proof.
  intros E. rewrite <- (String.string_of_list_ascii_of_string s), E.
  apply String.string_of_list_ascii_of_string.
Qed.

Lemma count_app c s t : count c (s +:+ t) = (count c s + count c t)%nat.
Proof. unfold count. by rewrite list_ascii_app, filter_app, length_app. Qed.

Lemma join_empty s l : join_with "" (s :: l) = s +:+ join_with "" l.
Proof.
  destruct l; simpl; [|done]. induction s as [|x s IH]; [done | exact (f_equal (String x) IH)].
Qed.

Lemma count_octet o :
  (0 <= o < 256)%Z -> Z.of_nat (count "1" (to_string_2 (to_uint32 (Some o)))) = popcount 8 o.
Proof.
  intros Ho. apply Z.eqb_eq.
  apply (forall_below (fun o => Z.eqb (Z.of_nat (count "1" (to_string_2 (to_uint32 (Some o)))))
                                      (popcount 8 o)) 256); [|done].
  vm_compute. reflexivity.
Qed.

Lemma count_octets l :
  Forall (fun o => 0 <= o < 256)%Z l ->
  Z.of_nat (count "1" (join_with ""
    ((fun part => to_string_2 (to_uint32 part)) <$> (Number <$> (pretty <$> l))))) =
  fold_right Z.add 0%Z (popcount 8 <$> l).
Proof.
  induction 1 as [|o l Ho _ IH]; [done|]. rewrite !fmap_cons.
  rewrite join_empty, count_app, Nat2Z.inj_add, IH.
  destruct (octet_reads o Ho) as (_ & _ & ->). by rewrite count_octet.
Qed.

Lemma popcount_octets x : fold_right Z.add 0%Z (popcount 8 <$> octets x) = popcount 32 x.
Proof.
  assert (T : forall i j, (0 <= i)%Z -> (0 <= j < 8)%Z ->
    Z.testbit (octet x i) j = Z.testbit x (8 * i + j)).
  { intros i j Hi Hj. unfold octet. change 256%Z with (2 ^ 8)%Z.
    rewrite Z.mod_pow2_bits_low, <- Z.shiftr_div_pow2, Z.shiftr_spec by lia. f_equal; lia. }
  cbv [octets popcount fmap list_fmap seq fold_right Z.of_nat Pos.of_succ_nat Pos.succ].
  rewrite !T by lia. cbn -[Z.add Z.testbit Z.b2z].
  repeat match goal with |- context [Z.testbit x (?a + ?b)] =>
    let v := eval vm_compute in (a + b)%Z in change (a + b)%Z with v end.
  lia.
Qed.

Lemma netmask_to_cidr_popcount m : netmask_to_cidr (dotted m) = popcount 32 m.
Proof.
  unfold netmask_to_cidr. rewrite split_dotted, split_on_length, <- popcount_octets.
  rewrite <- count_octets by apply octets_range. lia.
Qed.

Lemma popcount_bounds w x : (0 <= popcount w x <= Z.of_nat w)%Z.
Proof.
  unfold popcount. rewrite <- (length_seq w 0) at 3. generalize (seq 0 w).
  induction l as [|i l IH]; [simpl; lia|].
  cbn [fmap list_fmap fold_right length]. destruct (Z.testbit x (Z.of_nat i)); simpl Z.b2z; lia.
Qed.

(** Of a netmask only the number of bits counts, not where they are: for
    every 32-bit mask in the dotted notation, contiguous or not, the test
    compares the first bits of the addresses, as many as the mask has in all. *)
Theorem is_ipv4_in_subnet_counts_bits a b m :
  (0 <= a < 2 ^ 32)%Z -> (0 <= b < 2 ^ 32)%Z ->
  is_ipv4_in_subnet (dotted a) (dotted b) (dotted m) = true <-> same_subnet (popcount 32 m) a b.
Proof.
  intros Ha Hb. apply in_subnet_by_bits; auto using ipv4_to_int_dotted, netmask_to_cidr_popcount.
  apply (popcount_bounds 32).
Qed.

(** 255.0.255.0 selects the first and the third octet; the addresses agree on
    them and differ in the second, and the answer is the one for 255.255.0.0. *)
Example is_ipv4_in_subnet_counts_bits_witness :
  is_ipv4_in_subnet "10.1.5.1" "10.2.5.9" "255.0.255.0" = false /\
  is_ipv4_in_subnet "10.1.5.1" "10.2.5.9" "255.255.0.0" = false /\
  Z.land 167838977 4278255360 = Z.land 167904521 4278255360.
Proof.
  split; [|split; [vm_compute; reflexivity | vm_compute; reflexivity]].
  apply not_true_iff_false.
  rewrite (is_ipv4_in_subnet_counts_bits 167838977 167904521 4278255360) by lia. by intros [=].
Defined.
