(* ===== verification/Regex.v ===== *)
(** The regular expressions of the source: their language, a matcher by
    derivatives with its correctness, and the enumeration of the finite
    languages the address patterns are made of.

    [test] is [RegExp.prototype.test]: a pattern is a list of alternatives, each
    with its own anchors, because [^a|b$] anchors [a] at the start only and [b]
    at the end only. *)
From S2P Require Import Prelude.
From Stdlib Require Import Ascii.

(** A class of characters is kept as the list of its members. *)
Inductive regex : Type :=
| Empty
| Epsilon
| Class_ (cs : list ascii)
| Cat (r1 r2 : regex)
| Or (r1 r2 : regex)
| Many (r : regex).

Abbreviation word := (list ascii).

(** The words of a pattern. *)
Inductive matches : regex -> word -> Prop :=
| m_epsilon : matches Epsilon []
| m_class cs c : c ∈ cs -> matches (Class_ cs) [c]
| m_cat r1 r2 w1 w2 : matches r1 w1 -> matches r2 w2 -> matches (Cat r1 r2) (w1 ++ w2)
| m_or_l r1 r2 w : matches r1 w -> matches (Or r1 r2) w
| m_or_r r1 r2 w : matches r2 w -> matches (Or r1 r2) w
| m_many_nil r : matches (Many r) []
| m_many_cons r w1 w2 : matches r w1 -> matches (Many r) w2 -> matches (Many r) (w1 ++ w2).

(** ** The matcher *)

Fixpoint nullable (r : regex) : bool :=
  match r with
  | Empty | Class_ _ => false
  | Epsilon | Many _ => true
  | Cat a b => nullable a && nullable b
  | Or a b => nullable a || nullable b
  end.

Definition mk_cat (a b : regex) : regex :=
  match a, b with
  | Empty, _ | _, Empty => Empty
  | Epsilon, _ => b
  | _, _ => Cat a b
  end.

Definition mk_or (a b : regex) : regex :=
  match a, b with
  | Empty, _ => b
  | _, Empty => a
  | _, _ => Or a b
  end.

Fixpoint derive (c : ascii) (r : regex) : regex :=
  match r with
  | Empty | Epsilon => Empty
  | Class_ cs => if existsb (Ascii.eqb c) cs then Epsilon else Empty
  | Cat a b =>
      if nullable a then mk_or (mk_cat (derive c a) b) (derive c b) else mk_cat (derive c a) b
  | Or a b => mk_or (derive c a) (derive c b)
  | Many a => mk_cat (derive c a) (Many a)
  end.

Fixpoint matchb (r : regex) (w : word) : bool :=
  match w with
  | [] => nullable r
  | c :: w' => matchb (derive c r) w'
  end.

#[local] Hint Constructors matches : regex.

Lemma matches_cat a b w :
  matches (Cat a b) w <-> exists w1 w2, w = w1 ++ w2 /\ matches a w1 /\ matches b w2.
Proof. split; [inversion 1; subst; eauto | intros (w1 & w2 & -> & ? & ?); eauto with regex]. Qed.

Lemma matches_or a b w : matches (Or a b) w <-> matches a w \/ matches b w.
Proof. split; [inversion 1; subst; auto | intros [?|?]; eauto with regex]. Qed.

Lemma matches_class cs w : matches (Class_ cs) w <-> exists c, w = [c] /\ c ∈ cs.
Proof. split; [inversion 1; subst; eauto | intros (c & -> & ?); eauto with regex]. Qed.

Lemma matches_epsilon w : matches Epsilon w <-> w = [].
Proof. split; [by inversion 1 | intros ->; constructor]. Qed.

Lemma matches_empty w : matches Empty w <-> False.
Proof. split; [by inversion 1 | done]. Qed.

Lemma matches_cat_empty a b w : a = Empty \/ b = Empty -> matches (Cat a b) w <-> matches Empty w.
Proof.
  rewrite matches_cat, matches_empty. split; [|done].
  by intros (w1 & w2 & _ & H1 & H2); destruct H as [-> | ->]; [inversion H1 | inversion H2].
Qed.

Lemma matches_cat_epsilon b w : matches (Cat Epsilon b) w <-> matches b w.
Proof.
  rewrite matches_cat. split; [by intros (w1 & w2 & -> & ->%matches_epsilon & H)|].
  intros H. exists [], w. by split_and!; [|constructor|].
Qed.

Lemma matches_mk_cat a b w : matches (mk_cat a b) w <-> matches (Cat a b) w.
Proof.
  unfold mk_cat. destruct a, b; try done;
    first [by rewrite matches_cat_epsilon | symmetry; apply matches_cat_empty; auto].
Qed.

Lemma matches_mk_or a b w : matches (mk_or a b) w <-> matches (Or a b) w.
Proof.
  rewrite matches_or. unfold mk_or.
  destruct a, b; rewrite ?matches_or, ?matches_empty; tauto.
Qed.

Lemma nullable_spec r : nullable r = true <-> matches r [].
Proof.
  induction r as [| |cs|a IHa b IHb|a IHa b IHb|a IHa]; simpl.
  - rewrite matches_empty. by split.
  - split; [constructor | done].
  - rewrite matches_class. split; [done | intros (c & ? & _); done].
  - rewrite andb_true_iff, IHa, IHb, matches_cat. split.
    + intros [? ?]. by exists [], [].
    + intros (w1 & w2 & E & ? & ?). symmetry in E. apply app_nil in E as [-> ->]. done.
  - by rewrite orb_true_iff, IHa, IHb, matches_or.
  - split; [constructor | done].
Qed.

(** A word of a repetition that is not empty starts with a word of the repeated
    pattern that is not empty. *)
Lemma matches_many_cons r c w :
  matches (Many r) (c :: w) ->
  exists w1 w2, w = w1 ++ w2 /\ matches r (c :: w1) /\ matches (Many r) w2.
Proof.
  remember (Many r) as m eqn:Em. remember (c :: w) as u eqn:Eu.
  intros H. revert c w Eu. induction H as [| | | | | |r' w1 w2 H1 _ H2 IH]; try done.
  injection Em as ->. intros c w Eu. destruct w1 as [|c' w1]; simpl in Eu.
  - apply IH; auto.
  - injection Eu as -> <-. exists w1, w2. auto.
Qed.

Lemma derive_spec c r w : matches (derive c r) w <-> matches r (c :: w).
Proof.
  revert w. induction r as [| |cs|a IHa b IHb|a IHa b IHb|a IHa]; intros w; simpl.
  - by rewrite !matches_empty.
  - rewrite matches_empty, matches_epsilon. split; [done | congruence].
  - rewrite matches_class. destruct (existsb (Ascii.eqb c) cs) eqn:E.
    + apply existsb_exists in E as (c' & Hin & ->%Ascii.eqb_eq). rewrite matches_epsilon.
      split; [intros ->; eexists; split; [done | by apply list_elem_of_In] | intros (? & ? & _); congruence].
    + rewrite matches_empty. split; [done|]. intros (c' & [= -> ->] & Hin).
      assert (existsb (Ascii.eqb c') cs = true); [|congruence].
      apply existsb_exists. exists c'. rewrite Ascii.eqb_refl. split; [by apply list_elem_of_In | done].
  - assert (Hl : matches (mk_cat (derive c a) b) w <->
        exists w1 w2, w = w1 ++ w2 /\ matches a (c :: w1) /\ matches b w2).
    { rewrite matches_mk_cat, matches_cat. by setoid_rewrite IHa. }
    assert (Hr : matches (Cat a b) (c :: w) <->
        (exists w1 w2, w = w1 ++ w2 /\ matches a (c :: w1) /\ matches b w2) \/
        (matches a [] /\ matches b (c :: w))).
    { rewrite matches_cat. split.
      - intros ([|c' w1] & w2 & E & H1 & H2); simpl in E; [right; by subst|].
        injection E as -> ->. left. eauto.
      - intros [(w1 & w2 & -> & H1 & H2) | [H1 H2]]; [by exists (c :: w1), w2 | by exists [], (c :: w)]. }
    rewrite Hr, <- nullable_spec. destruct (nullable a).
    + rewrite matches_mk_or, matches_or, Hl, IHb. intuition.
    + rewrite Hl. intuition congruence.
  - by rewrite matches_mk_or, !matches_or, IHa, IHb.
  - rewrite matches_mk_cat, matches_cat. setoid_rewrite IHa. split.
    + intros (w1 & w2 & -> & H1 & H2). change (c :: w1 ++ w2) with ((c :: w1) ++ w2).
      by constructor.
    + intros (w1 & w2 & ? & ? & ?)%matches_many_cons. eauto.
Qed.

Lemma matchb_spec r w : matchb r w = true <-> matches r w.
Proof.
  revert r. induction w as [|c w IH]; intros r; simpl; [apply nullable_spec|].
  by rewrite IH, derive_spec.
Qed.

(** ** Patterns *)

Definition all_ascii : list ascii := ascii_of_nat <$> seq 0 256.
Definition Any : regex := Class_ all_ascii.

Lemma elem_of_all_ascii c : c ∈ all_ascii.
Proof.
  apply list_elem_of_fmap. exists (nat_of_ascii c). split; [by rewrite ascii_nat_embedding|].
  apply elem_of_seq. pose proof (nat_ascii_bounded c). lia.
Qed.

Lemma matches_any_star w : matches (Many Any) w.
Proof.
  induction w as [|c w IH]; [constructor|].
  apply (m_many_cons _ [c]); [constructor; apply elem_of_all_ascii | done].
Qed.

(** One alternative of a pattern: anchored at the start, at the end. *)
Record alternative := Alternative { bol : bool; eol : bool; pat : regex }.
Definition RegExp : Type := list alternative.

Definition test_alternative (a : alternative) (s : string) : bool :=
  matchb (Cat (if bol a then Epsilon else Many Any)
              (Cat (pat a) (if eol a then Epsilon else Many Any)))
         (String.list_ascii_of_string s).

Definition test (p : RegExp) (s : string) : bool := existsb (fun a => test_alternative a s) p.

(** What [test] searches for. *)
Lemma test_alternative_spec a s :
  test_alternative a s = true <->
  exists u w v, String.list_ascii_of_string s = u ++ w ++ v /\ matches (pat a) w /\
    (bol a = true -> u = []) /\ (eol a = true -> v = []).
Proof.
  unfold test_alternative. rewrite matchb_spec, matches_cat. setoid_rewrite matches_cat.
  destruct a as [[] [] r]; simpl; (setoid_rewrite matches_epsilon || idtac); split.
  all: try (intros (u & v' & E & Hu & w & v & -> & Hw & Hv); exists u, w, v;
            rewrite ?matches_epsilon in *; by split_and!).
  all: intros (u & w & v & E & Hw & Hu & Hv); exists u, (w ++ v); split_and!;
       [done | first [by apply Hu | apply matches_any_star] |];
       exists w, v; split_and!; [done | done | first [by apply Hv | apply matches_any_star]].
Qed.

(** The words of a pattern without repetition. *)
Fixpoint words (r : regex) : list word :=
  match r with
  | Empty => []
  | Epsilon => [[]]
  | Class_ cs => (fun c => [c]) <$> cs
  | Cat a b => w1 ← words a; app w1 <$> words b
  | Or a b => words a ++ words b
  | Many _ => []
  end.

Fixpoint finite (r : regex) : bool :=
  match r with
  | Empty | Epsilon | Class_ _ => true
  | Cat a b | Or a b => finite a && finite b
  | Many _ => false
  end.

Lemma words_spec r w : finite r = true -> w ∈ words r <-> matches r w.
Proof.
  revert w. induction r as [| |cs|a IHa b IHb|a IHa b IHb|a IHa]; intros w; simpl; intros F.
  - rewrite matches_empty. split; [by intros ?%not_elem_of_nil | done].
  - by rewrite matches_epsilon, list_elem_of_singleton.
  - rewrite matches_class, list_elem_of_fmap. naive_solver.
  - apply andb_true_iff in F as [Fa Fb]. rewrite matches_cat, list_elem_of_bind.
    setoid_rewrite list_elem_of_fmap. split.
    + intros (w1 & (w2 & -> & H2) & H1). exists w1, w2. rewrite <- IHa, <- IHb by done. auto.
    + intros (w1 & w2 & -> & H1 & H2). exists w1.
      split; [exists w2; split; [done | by apply IHb] | by apply IHa].
  - apply andb_true_iff in F as [Fa Fb]. by rewrite matches_or, elem_of_app, IHa, IHb.
  - done.
Qed.

(** Notation of the source's patterns. *)
Fixpoint lit (s : string) : regex :=
  match s with
  | EmptyString => Epsilon
  | String c r => mk_cat (Class_ [c]) (lit r)
  end.

Definition range (a b : ascii) : list ascii :=
  ascii_of_nat <$> seq (nat_of_ascii a) (S (nat_of_ascii b - nat_of_ascii a)).

Definition span (a b : ascii) : regex := Class_ (range a b).
Definition digit : regex := span "0" "9".
Definition opt (r : regex) : regex := Or r Epsilon.

(** [r{n}], [r{n,}] and [r{n,m}] *)
Fixpoint times (n : nat) (r : regex) : regex :=
  match n with O => Epsilon | S k => Cat r (times k r) end.
Definition at_least (n : nat) (r : regex) : regex := Cat (times n r) (Many r).
Fixpoint up_to (n : nat) (r : regex) : regex :=
  match n with O => Epsilon | S k => opt (Cat r (up_to k r)) end.
Definition from_to (n m : nat) (r : regex) : regex := Cat (times n r) (up_to (m - n) r).

Definition alts (l : list regex) : regex := foldr Or Empty l.
Definition cats (l : list regex) : regex := foldr Cat Epsilon l.

Lemma matches_alts l w : matches (alts l) w <-> Exists (fun r => matches r w) l.
Proof.
  induction l as [|r l IH]; simpl; [rewrite matches_empty, Exists_nil; done|].
  by rewrite matches_or, Exists_cons, IH.
Qed.

Lemma matches_times n r w :
  matches (times n r) w <-> exists l, length l = n /\ w = concat l /\ Forall (matches r) l.
Proof.
  revert w. induction n as [|n IH]; intros w; simpl.
  - rewrite matches_epsilon. split; [intros ->; by exists [] | by intros ([|] & ? & -> & _)].
  - rewrite matches_cat. setoid_rewrite IH. split.
    + intros (w1 & w2 & -> & H1 & l & <- & -> & Hl). exists (w1 :: l). by split_and!; [..|constructor].
    + intros ([|w1 l] & [= <-] & -> & Hl); inversion Hl; subst. exists w1, (concat l).
      split_and!; [done | done |]. by exists l.
Qed.
