(* ===== verification/Validators.v ===== *)
(** validators/: the form validators, with the pattern constants of
    constants/cvah.constants.ts, validators/add-node.validator.ts and
    modules/system-settings/validators/kit-settings.validator.ts.

    A validator reads a control and returns an error, no error, or throws a
    TypeError, e.g. on the length of null. *)
From S2P Require Import Prelude Handler JsValue Net Regex.
From stdpp Require Import pretty.
From Stdlib Require Import Ascii.

(** ** Controls and validator objects *)

Inductive ControlStatus := VALID | INVALID | PENDING | DISABLED.

Record AbstractControl := {
  value : jsval;
  touched : bool;
  status : ControlStatus;
}.

(** What a form group's [get] returns when it is not null. *)
Inductive group_entry : Type :=
| GControl (c : AbstractControl)
| GArray (l : list AbstractControl).

(** [error_message] is a text, or a function of the value. *)
Inductive error_text : Type :=
| Text (s : string)
| Builder (f : string -> string).

(** interfaces/validator-object.interface.ts, with the [ops] the source gives. *)
Record ValidatorObjectInterface := {
  validatorFn : string;
  error_message : error_text;
  pattern : option RegExp;
  ip_range : option (list (string * string));
  testRange : bool;
}.

Inductive unique_array : Type :=
| UArray (l : list jsval)
| UFormArray (value : list jsval)
| UOther.

(** The [ops] of [validateFromArray]. *)
Record validator_ops := {
  uniqueArray : unique_array;
  formControlName : option string;
  index : option Z;
  parentControl : option AbstractControl;
  parentFormGroup : option (string -> option group_entry);
  minRequiredArray : option unique_array;
  minRequireControl : string;
  minRequiredValue : jsval;
  minRequired : Z;
  error_message_subject : option string;
}.

Inductive validation_error : Type :=
| PatternError (value : jsval) (error_message : error_text)
| PasswordError (password : error_text) (error_message : string)
| ErrorObject (error_message : error_text).

(** [new errorObject(...)] *)
Definition errorObject (m : error_text) : validation_error :=
  match m with
  | Text s => ErrorObject (Text (if s === "" then "Invalid Input" else s))
  | Builder _ => ErrorObject m
  end.

(** ** Results that may throw *)

Definition obind {A B} (x : outcome A) (k : A -> outcome B) : outcome B :=
  match x with Ret a => k a | Exn e => Exn e end.
Notation "'let*' x := m 'in' k" := (obind m (fun x => k))
  (at level 200, x name, m at level 100, k at level 200) : s2js_scope.

Definition TypeError {A} : outcome A := Exn "TypeError".

(** [v.length]: undefined for a number, a boolean and an object. *)
Definition length_of (v : jsval) : outcome (option Z) :=
  match v with
  | JUndefined | JNull => TypeError
  | JStr s => Ret (Some (Z.of_nat (String.length s)))
  | JArr l => Ret (Some (Z.of_nat (length l)))
  | _ => Ret None
  end.

(** Comparisons with undefined are false. *)
Definition positive (n : option Z) : bool := match n with Some n => (0 <? n)%Z | None => false end.

(** [v.split(...)] exists on strings only. *)
Definition text_of (v : jsval) : outcome string :=
  match v with JStr s => Ret s | _ => TypeError end.

Definition deref_o {A} (o : option A) : outcome A :=
  match o with Some a => Ret a | None => TypeError end.

(** ** Patterns *)

Definition dot : regex := lit ".".
Definition first_octet : regex :=
  alts [cats [lit "2"; span "0" "2"; span "0" "3"]; cats [lit "1"; digit; digit]; cats [opt (span "1" "9"); digit]].
Definition middle_octet : regex :=
  alts [cats [lit "25"; span "0" "5"]; cats [lit "2"; span "0" "4"; digit]; cats [lit "1"; digit; digit];
        cats [opt (span "1" "9"); digit]].
Definition last_octet : regex :=
  alts [cats [lit "25"; span "0" "4"]; cats [lit "2"; span "0" "4"; digit]; cats [lit "1"; digit; digit];
        cats [opt (span "1" "9"); digit]].

Definition IP_CONSTRAINT : RegExp :=
  [Alternative true true (cats [first_octet; times 2 (Cat dot middle_octet); dot; last_octet])].

(** The first bits of an octet of a netmask: 128, 192, ..., 254. *)
Definition partial_octet : list string := ["128"; "192"; "224"; "240"; "248"; "252"; "254"].
Definition partial_octet_or_0 : regex := alts (lit <$> ("0" :: partial_octet)).

Definition masks_1_to_7 : regex := Cat (alts (lit <$> partial_octet)) (lit ".0.0.0").
Definition masks_8_to_31 : regex :=
  Cat (lit "255.")
    (Or (Cat partial_octet_or_0 (lit ".0.0"))
        (Cat (lit "255.")
           (Or (Cat partial_octet_or_0 (lit ".0"))
               (Cat (lit "255.") partial_octet_or_0)))).

Definition netmask_pattern : RegExp :=
  [Alternative true false masks_1_to_7; Alternative false true masks_8_to_31].

Definition lower : list ascii := range "a" "z".
Definition digits10 : list ascii := range "0" "9".

Definition hostname_pattern : RegExp :=
  [Alternative true true (Cat (Class_ lower) (from_to 4 39 (Class_ (lower ++ digits10 ++ ["-"; "."]%char))))].

Definition domain_pattern : RegExp :=
  [Alternative true true (Cat (Class_ lower) (from_to 2 39 (Class_ (lower ++ digits10 ++ ["-"%char]))))].

Definition hex_digit : regex := Class_ (digits10 ++ range "a" "f" ++ range "A" "F").
Definition mac_pattern : RegExp :=
  [Alternative true true (Cat (times 5 (cats [hex_digit; hex_digit; lit ":"])) (Cat hex_digit hex_digit))].

Definition cpu_pattern : RegExp :=
  [Alternative false false (span "8" "9"); Alternative false false (Cat (span "1" "9") (at_least 1 digit))].

Definition drive_pattern : RegExp :=
  [Alternative false false (Cat (span "5" "9") digit);
   Alternative false false (Cat (span "1" "9") (at_least 2 digit))].

(** ** The validators *)

Definition patternValidator (v : ValidatorObjectInterface) (c : AbstractControl)
    : outcome (option validation_error) :=
  let error := Some (PatternError (value c) (error_message v)) in
  if js_truthy (value c) then
    let* n := length_of (value c) in
    if positive n then
      let* p := deref_o (pattern v) in
      Ret (if test p (js_to_string (value c)) then None else error)
    else Ret None
  else Ret None.

Definition requiredField (v : ValidatorObjectInterface) (c : AbstractControl)
    : outcome (option validation_error) :=
  let error := Ret (Some (errorObject (error_message v))) in
  let rest :=
    if negb (defined (value c)) || touched c then error
    else let* n := length_of (value c) in
         match n with Some 0%Z => error | _ => Ret None end in
  if touched c then
    let* n := length_of (value c) in if positive n then Ret None else rest
  else rest.

(** [arr.find(...)] of [uniqueValidator], from position [i]. *)
Fixpoint find_duplicate (key : option string) (v : jsval) (skip : option Z) (i : Z) (l : list jsval)
    : outcome bool :=
  match l with
  | [] => Ret false
  | obj :: r =>
      let* n := length_of v in
      if positive n then
        let* x := match key with Some k => deref_o (get_property obj k) | None => Ret obj end in
        if strict_eq x v && negb (bool_decide (skip = Some i)) then Ret true
        else find_duplicate key v skip (i + 1) r
      else find_duplicate key v skip (i + 1) r
  end.

Definition uniqueValidator (v : ValidatorObjectInterface) (c : AbstractControl) (ops : option validator_ops)
    : outcome (option validation_error) :=
  if negb (defined (value c)) then Ret None
  else
    let* o := deref_o ops in
    let named := match formControlName o with Some k => k !== "" | None => false end in
    let* isUnique :=
      match uniqueArray o with
      | UArray l => find_duplicate (if named then formControlName o else None) (value c) (index o) 0 l
      | UFormArray l =>
          find_duplicate (Some (default "undefined" (formControlName o))) (value c) (index o) 0 l
      | UOther => Ret false
      end in
    if isUnique then
      match error_message v with
      | Builder f => Ret (Some (errorObject (Text (f (js_to_string (value c))))))
      | Text _ => TypeError
      end
    else Ret None.

Definition inputFieldMatch (v : ValidatorObjectInterface) (c : AbstractControl) (ops : option validator_ops)
    : outcome (option validation_error) :=
  let* o := deref_o ops in
  let* parent := deref_o (parentControl o) in
  Ret (match status parent with
       | VALID => if strict_eq (value c) (value parent) then None else Some (errorObject (error_message v))
       | _ => Some (errorObject (Text "Unable to validate when parent control invalid"))
       end).

(** Characters of a string, elements of an array: what iterates. *)
Definition chars (s : string) : list jsval :=
  (fun c => JStr (String c "")) <$> String.list_ascii_of_string s.

Definition iterate (v : jsval) : outcome (list jsval) :=
  match v with
  | JStr s => Ret (chars s)
  | JArr l => Ret l
  | _ => TypeError
  end.

(** [new Set(l).size] *)
Fixpoint set_size (l : list jsval) : nat :=
  match l with
  | [] => 0
  | x :: r => if existsb (strict_eq x) r then set_size r else S (set_size r)
  end.

(** The loop of [consecutive] after its first round. *)
Fixpoint consecutive_loop (c : jsval) (same : nat) (l : list jsval) : bool :=
  match l with
  | [] => false
  | x :: r =>
      if strict_eq c x then consecutive_loop c (S same) r
      else if Nat.ltb 2 same then true else consecutive_loop x 1 r
  end.

(** The index runs to [password.length], where the element is undefined. *)
Definition consecutive (password : list jsval) : bool :=
  match password ++ [JUndefined] with
  | [] => false
  | c :: r => consecutive_loop c 1 r
  end.

Definition searches (cs : list ascii) (v : jsval) : bool :=
  test [Alternative false false (Class_ cs)] (js_to_string v).

Definition alphanumeric : list ascii := range "0" "9" ++ range "a" "z" ++ range "A" "Z".
Definition symbols : list ascii := base.filter (fun c => c ∉ alphanumeric) all_ascii.

Definition passwordValidator (v : ValidatorObjectInterface) (c : AbstractControl) (ops : option validator_ops)
    : outcome (option validation_error) :=
  let x := value c in
  if negb (js_truthy x) then Ret None
  else
    let subject := match o ← ops; error_message_subject o with
                   | Some s => if s === "" then "The password" else s
                   | None => "The password"
                   end in
    let error text := Ret (Some (PasswordError (error_message v) (subject +:+ text))) in
    let* n := length_of x in
    if match n with Some n => (n <? 15)%Z | None => false end then error " must be at least 15 characters"
    else if negb (searches digits10 x) then error " must have at least 1 digit"
    else if negb (searches lower x) then error " must have at least 1 lowercase letter"
    else if negb (searches (range "A" "Z") x) then error " must have at least 1 uppercase letter"
    else if negb (searches symbols x) then error " must have at least 1 symbol"
    else
      let* l := iterate x in
      if Nat.ltb (set_size l) 8 then error " must have at least 8 unique characters."
      else if consecutive l then error " must not have 3 consecutive characters that are the same"
      else Ret None.

(** [c[ops.minRequireControl] !== undefined] for the first such element: what
    [find] returns, as a boolean. *)
Fixpoint find_defined (key : string) (l : list jsval) : outcome bool :=
  match l with
  | [] => Ret false
  | c :: r =>
      let* x := deref_o (get_property c key) in
      if bool_decide (x = JUndefined) then find_defined key r else Ret (js_truthy c)
  end.

(** [l.filter(c => c[key] === v)] *)
Fixpoint filter_property (key : string) (v : jsval) (l : list jsval) : outcome (list jsval) :=
  match l with
  | [] => Ret []
  | c :: r =>
      let* x := deref_o (get_property c key) in
      let* k := filter_property key v r in
      Ret (if strict_eq x v then c :: k else k)
  end.

Definition minInArray (v : ValidatorObjectInterface) (c : AbstractControl) (ops : option validator_ops)
    : outcome (option validation_error) :=
  let* o := deref_o ops in
  let* a := deref_o (minRequiredArray o) in
  let check l key :=
    let* found := find_defined (minRequireControl o) l in
    if negb found then Ret None
    else
      let* k := filter_property key (minRequiredValue o) l in
      Ret (if (Z.of_nat (length k) <? minRequired o)%Z then Some (errorObject (error_message v)) else None) in
  match a with
  | UFormArray l => check l (minRequireControl o)
  | UArray l => check l "value"
  | UOther => TypeError
  end.

Definition has_value (c : AbstractControl) : outcome bool :=
  if js_truthy (value c) then let* n := length_of (value c) in Ret (positive n) else Ret false.

Definition entry_value (e : group_entry) : jsval :=
  match e with GControl c => value c | GArray l => JArr (value <$> l) end.

(** The body of the loop over [ip_range], with the variables [error] and
    [unfilledControls]. *)
Definition check_range_ip (v : ValidatorObjectInterface) (get : string -> option group_entry)
    (c : AbstractControl) (label_value : string * string)
    (acc : option validation_error * list string) : outcome (option validation_error * list string) :=
  let '(error, unfilled) := acc in
  let* entry := deref_o (get (snd label_value)) in
  let* fgIP := match entry with GControl k => Ret k | GArray l => deref_o (head l) end in
  match status fgIP with
  | INVALID => Ret (error, unfilled ++ [fst label_value])
  | _ =>
      let* filled := has_value c in
      if negb filled then Ret acc
      else if negb (test IP_CONSTRAINT (js_to_string (value c))) then
        (* the error is the result of the callback, which map drops *)
        Ret acc
      else
        let* parsedIP := let* s := text_of (value fgIP) in Ret (split_on "." s) in
        let* parsedInput := let* s := text_of (value c) in Ret (split_on "." s) in
        if Nat.ltb (length parsedInput) 3 then
          Ret (Some (errorObject (Text "Invalid Input")), unfilled)
        else if testRange v && negb (bool_decide (parsedInput !! 0 = parsedIP !! 0 /\
                  parsedInput !! 1 = parsedIP !! 1 /\ parsedInput !! 2 = parsedIP !! 2)) then
          Ret (Some (errorObject (Text "IP is not within the correct range")), unfilled)
        else Ret acc
  end.

Fixpoint check_range (v : ValidatorObjectInterface) (get : string -> option group_entry)
    (c : AbstractControl) (l : list (string * string))
    (acc : option validation_error * list string) : outcome (option validation_error * list string) :=
  match l with
  | [] => Ret acc
  | x :: r => let* acc' := check_range_ip v get c x acc in check_range v get c r acc'
  end.

(** The test [findValue(...) && findValue(...)] is about two arrays, which are
    always truthy. *)
Definition validateIPAddress (v : ValidatorObjectInterface) (c : AbstractControl) (ops : option validator_ops)
    : outcome (option validation_error) :=
  if negb (touched c) then Ret None
  else
    let* range := deref_o (ip_range v) in
    let get := match ops with
               | Some o => parentFormGroup o
               | None => None
               end in
    let* r := match range, get with
              | [], _ => Ret (None, [])
              | _, Some g => check_range v g c range (None, [])
              | _, None => TypeError
              end in
    let '(error, unfilled) := r in
    let* g := deref_o get in
    let controller_interface := g "controller_interface" in
    let netmask := g "netmask" in
    let* ci := deref_o controller_interface in
    let* error' :=
      if negb (bool_decide (entry_value ci = JUndefined)) && test IP_CONSTRAINT (js_to_string (value c)) then
        let* nm := deref_o netmask in
        let* mask := text_of (entry_value nm) in
        let* ip := text_of (value c) in
        let* net := text_of (entry_value ci) in
        Ret (if is_ipv4_in_subnet ip net mask then error
             else Some (errorObject (Text ("The value " +:+ ip +:+ " is not in the correct subnet"))))
      else Ret error in
    Ret (if Nat.ltb 0 (length unfilled)
         then Some (errorObject (Text ("Please fill out " +:+ join_with " & " unfilled)))
         else error').

Definition validate_one (ops : option validator_ops) (c : AbstractControl) (v : ValidatorObjectInterface)
    : outcome (option validation_error) :=
  if validatorFn v === "pattern" then patternValidator v c
  else if validatorFn v === "password" then passwordValidator v c ops
  else if validatorFn v === "unique" then uniqueValidator v c ops
  else if validatorFn v === "ip&subnet" then validateIPAddress v c ops
  else if validatorFn v === "required" then requiredField v c
  else if validatorFn v === "fieldMatch" then inputFieldMatch v c ops
  else if validatorFn v === "minInArray" then minInArray v c ops
  else Ret None.

(** All the validators of the list run; the first error is the answer. *)
Definition validateFromArray (validators : list ValidatorObjectInterface) (ops : option validator_ops)
    (c : AbstractControl) : outcome (option validation_error) :=
  let* errors := construct_all (validate_one ops c) validators in
  Ret (head (omap id errors)).

(** ** The validator tables of the forms *)

Definition plain (fn : string) (m : error_text) (p : option RegExp) : ValidatorObjectInterface :=
  {| validatorFn := fn; error_message := m; pattern := p; ip_range := None; testRange := false |}.

Definition addNodeValidators_hostname : list ValidatorObjectInterface :=
  [plain "unique" (Builder (fun value =>
     "Duplicate hostnames found: " +:+ value +:+ ". Node must have a unique hostname.")) None;
   plain "pattern" (Text "The Hostname must be alphanumeric between 5 and 40 characters. Special characters are not allowed except for the minus sign (-) and the period (.). The Hostname may not begin or end with either special character.")
     (Some hostname_pattern);
   plain "required" (Text "Hostname is required") None].

Definition addNodeValidators_ip_address : list ValidatorObjectInterface :=
  [plain "unique" (Builder (fun value =>
     "Used IP Address found: " +:+ value +:+ ". Node must have a unique IP Address.")) None;
   plain "required" (Text "IP Address is required.") None;
   plain "pattern" (Text "You must enter a valid IP address.") (Some IP_CONSTRAINT)].

Definition addNodeValidators_mac_address : list ValidatorObjectInterface :=
  [plain "unique" (Builder (fun value =>
     "Duplicate MAC Address found: " +:+ value +:+ ". Node must have a unique MAC Address.")) None;
   plain "required" (Text "Mac Address is required") None;
   plain "pattern" (Text "You must enter a valid MAC Address.") (Some mac_pattern)].

Definition addNodeValidators_virtual_cpu : list ValidatorObjectInterface :=
  [plain "required" (Text "CPU is required") None;
   plain "pattern" (Text "You must enter a valid number for CPU. A minimum of 8 cores is required for each node.")
     (Some cpu_pattern)].

Definition addNodeValidators_virtual_mem : list ValidatorObjectInterface :=
  [plain "required" (Text "Memory is required") None;
   plain "pattern" (Text "You must enter a valid number for memory. A minimum of 8 GB of RAM is required.")
     (Some cpu_pattern)].

Definition addNodeValidators_virtual_os_drive : list ValidatorObjectInterface :=
  [plain "required" (Text "OS drive is required") None;
   plain "pattern" (Text "You must enter a valid number for disk. A minimum of 50GB is required.")
     (Some drive_pattern)].

(** [COMMON_VALIDATORS] of constants/cvah.constants.ts *)
Definition COMMON_VALIDATORS_required : list ValidatorObjectInterface :=
  [plain "required" (Text "Required field") None].

Definition COMMON_VALIDATORS_isValidIP : list ValidatorObjectInterface :=
  [plain "required" (Text "Required field") None;
   plain "pattern" (Text "You must enter a valid IP address.") (Some IP_CONSTRAINT)].

Definition kitSettingsValidators_root_password : list ValidatorObjectInterface :=
  [plain "required" (Text "Required field") None;
   plain "password" (Text "Root password did not meet the password requirements.") None].

Definition kitSettingsValidators_re_password : list ValidatorObjectInterface :=
  [plain "required" (Text "Required field") None;
   plain "fieldMatch" (Text "The passwords you entered do not match.  Please retype them carefully.") None].

Definition kitSettingsValidators_netmask : list ValidatorObjectInterface :=
  [plain "pattern" (Text "Must be a valid subnet mask such as 255.255.255.0") (Some netmask_pattern);
   plain "required" (Text "Netmask is required") None].

Definition kitSettingsValidators_domain : list ValidatorObjectInterface :=
  [plain "pattern" (Text "The Domain must be alphanumeric between 3 and 40 characters. Special characters are not allowed except for the minus sign (-) and the period (.). The Domain may not begin or end with either special character.")
     (Some domain_pattern);
   plain "required" (Text "Domain is required") None].

Definition kitSettingsValidators_gateway : list ValidatorObjectInterface :=
  [plain "required" (Text "Gateway is required") None;
   plain "pattern" (Text "You must enter a valid IP address.") (Some IP_CONSTRAINT)].

Definition kitSettingsValidators_controller_interface : list ValidatorObjectInterface :=
  [plain "required" (Text "Controller Interface is required") None].

Definition kitSettingsValidators_upstream_dns : list ValidatorObjectInterface :=
  [plain "pattern" (Text "You must enter a valid IP address.") (Some IP_CONSTRAINT)].

Definition kitSettingsValidators_upstream_ntp : list ValidatorObjectInterface :=
  [plain "pattern" (Text "You must enter a valid IP address.") (Some IP_CONSTRAINT)].

Definition kitSettingsValidators_kubernetes_services_cidr : list ValidatorObjectInterface :=
  [plain "required" (Text "Kubernetetes Service IP is required") None].

(** ** The address pattern *)

Lemma test_anchored r s :
  test [Alternative true true r] s = true <-> matches r (String.list_ascii_of_string s).
Proof.
  unfold test. simpl existsb. rewrite orb_false_r, test_alternative_spec. simpl. split.
  - intros (u & w & v & E & Hw & Hu & Hv). rewrite (Hu eq_refl), (Hv eq_refl) in E.
    rewrite app_nil_r in E. simpl in E. by rewrite E.
  - intros H. exists [], (String.list_ascii_of_string s), []. rewrite app_nil_r. by split_and!.
Qed.

Lemma matches_lit s w : matches (lit s) w <-> w = String.list_ascii_of_string s.
Proof.
  revert w. induction s as [|c s IH]; intros w;
    cbn [lit String.list_ascii_of_string]; [apply matches_epsilon|].
  rewrite matches_mk_cat, matches_cat. setoid_rewrite matches_class. setoid_rewrite IH. split.
  - by intros (w1 & w2 & -> & (c' & -> & ->%list_elem_of_singleton) & ->).
  - intros ->. exists [c], (String.list_ascii_of_string s). split_and!; [done| |done].
    exists c. split; [done | by apply list_elem_of_singleton].
Qed.

(** The words of an octet pattern are the decimal notations of its octets:
    checked on the finite languages. *)
Definition octet_language (r : regex) (ok : Z -> bool) : bool :=
  let all := base.filter (fun o => ok o = true) (Z.of_nat <$> seq 0 256) in
  let language := (fun o => String.list_ascii_of_string (pretty o)) <$> all in
  finite r && forallb (fun w => bool_decide (w ∈ language)) (words r) &&
  forallb (fun w => bool_decide (w ∈ words r)) language.

Lemma octet_language_spec r ok w :
  octet_language r ok = true ->
  matches r w <-> exists o, (0 <= o < 256)%Z /\ ok o = true /\ w = String.list_ascii_of_string (pretty o).
Proof.
  unfold octet_language. rewrite !andb_true_iff, !forallb_forall. intros [[F H1] H2].
  rewrite <- words_spec by done. split.
  - intros Hw. specialize (H1 w). rewrite <- list_elem_of_In, bool_decide_eq_true in H1.
    apply H1 in Hw as (o & -> & [? (n & -> & ?%elem_of_seq)%list_elem_of_fmap]%list_elem_of_filter)%list_elem_of_fmap.
    exists (Z.of_nat n). split_and!; [lia | lia | done | done].
  - intros (o & Ho & Hok & ->). specialize (H2 (String.list_ascii_of_string (pretty o))).
    rewrite <- list_elem_of_In, bool_decide_eq_true in H2. apply H2.
    apply list_elem_of_fmap. exists o. split; [done|]. apply list_elem_of_filter. split; [done|].
    apply list_elem_of_fmap. exists (Z.to_nat o). split; [lia | apply elem_of_seq; lia].
Qed.

(** The first octets the pattern lets through. *)
Definition first_octet_ok (o : Z) : bool :=
  (o <? 200)%Z || ((o <? 224)%Z && (o mod 10 <=? 3)%Z).
Definition last_octet_ok (o : Z) : bool := (o <? 255)%Z.

Lemma first_octet_language : octet_language first_octet first_octet_ok = true.
Proof. vm_compute. reflexivity. Qed.
Lemma middle_octet_language : octet_language middle_octet (fun _ => true) = true.
Proof. vm_compute. reflexivity. Qed.
Lemma last_octet_language : octet_language last_octet last_octet_ok = true.
Proof. vm_compute. reflexivity. Qed.

Definition of_octets (a b c d : Z) : Z := (((a * 256 + b) * 256 + c) * 256 + d)%Z.

Lemma octets_of_octets a b c d :
  (0 <= a < 256)%Z -> (0 <= b < 256)%Z -> (0 <= c < 256)%Z -> (0 <= d < 256)%Z ->
  octets (of_octets a b c d) = [a; b; c; d] /\ (0 <= of_octets a b c d < 2 ^ 32)%Z.
Proof.
  intros. unfold octets, octet, of_octets.
  assert (E : forall x y, (0 <= y < 256)%Z -> ((x * 256 + y) / 256 = x /\ (x * 256 + y) mod 256 = y)%Z).
  { intros x y Hy. rewrite Z.add_comm, Z.div_add, Z.mod_add by lia.
    rewrite Z.div_small, Z.mod_small by lia. lia. }
  change (8 * 3)%Z with (8 + 8 + 8)%Z. change (8 * 2)%Z with (8 + 8)%Z.
  change (2 ^ (8 * 1))%Z with 256%Z. change (2 ^ (8 * 0))%Z with 1%Z.
  rewrite !Z.pow_add_r by lia. change (2 ^ 8)%Z with 256%Z.
  rewrite <- !Z.div_div by lia. rewrite Z.div_1_r.
  pose proof (E ((a * 256 + b) * 256 + c)%Z d) as [-> ->]; [lia|].
  pose proof (E (a * 256 + b)%Z c) as [-> ->]; [lia|].
  pose proof (E a b) as [-> ->]; [lia|].
  rewrite (Z.mod_small a) by lia. split; [done | lia].
Qed.

Local Ltac solve_octet :=
  eexists; split_and!; cycle -1; [reflexivity | first [assumption | lia | reflexivity] ..].

Lemma ip_constraint_words w :
  matches (cats [first_octet; times 2 (Cat dot middle_octet); dot; last_octet]) w <->
  exists a b c d, (0 <= a < 256)%Z /\ (0 <= b < 256)%Z /\ (0 <= c < 256)%Z /\ (0 <= d < 256)%Z /\
    first_octet_ok a = true /\ last_octet_ok d = true /\
    w = String.list_ascii_of_string (join_with "." [pretty a; pretty b; pretty c; pretty d]).
Proof.
  assert (E : forall a b c d : Z,
    String.list_ascii_of_string (join_with "." [pretty a; pretty b; pretty c; pretty d]) =
    String.list_ascii_of_string (pretty a) ++
    ((["."%char] ++ String.list_ascii_of_string (pretty b)) ++
     ((["."%char] ++ String.list_ascii_of_string (pretty c)) ++ [])) ++
    ["."%char] ++ String.list_ascii_of_string (pretty d) ++ []).
  { intros. cbn [join_with]. rewrite !list_ascii_app, !app_nil_r, <- !app_assoc. done. }
  setoid_rewrite E. simpl cats. simpl times. split.
  - intros H.
    repeat match goal with
      | H : matches (Cat _ _) _ |- _ => apply matches_cat in H as (? & ? & -> & ? & ?)
      | H : matches Epsilon _ |- _ => apply matches_epsilon in H as ->
      | H : matches dot _ |- _ => apply matches_lit in H as ->
      | H : matches first_octet _ |- _ =>
          apply (octet_language_spec _ _ _ first_octet_language) in H as (? & ? & ? & ->)
      | H : matches middle_octet _ |- _ =>
          apply (octet_language_spec _ _ _ middle_octet_language) in H as (? & ? & _ & ->)
      | H : matches last_octet _ |- _ =>
          apply (octet_language_spec _ _ _ last_octet_language) in H as (? & ? & ? & ->)
      end.
    do 4 eexists. split_and!; cycle -1; [reflexivity | first [assumption | lia] ..].
  - intros (a & b & c & d & ? & ? & ? & ? & ? & ? & ->).
    repeat first
      [ apply m_cat | apply matches_epsilon; reflexivity | apply matches_lit; reflexivity
      | apply (octet_language_spec _ _ _ first_octet_language); solve_octet
      | apply (octet_language_spec _ _ _ middle_octet_language); solve_octet
      | apply (octet_language_spec _ _ _ last_octet_language); solve_octet ].
Qed.

(** C20: the address pattern accepts the dotted notations of the 32-bit
    addresses, without leading zeros, and nothing else, except that it refuses
    the addresses whose first octet is 204 to 209, 214 to 219 or above 223, and
    those that end in 255. *)
Theorem ip_constraint_accepts s :
  test IP_CONSTRAINT s = true <->
  exists x, (0 <= x < 2 ^ 32)%Z /\ s = dotted x /\
            first_octet_ok (octet x 3) = true /\ octet x 0 <> 255%Z.
Proof.
  unfold IP_CONSTRAINT. rewrite test_anchored, ip_constraint_words. split.
  - intros (a & b & c & d & Ha & Hb & Hc & Hd & H1 & H2 & ->%list_ascii_inj).
    destruct (octets_of_octets a b c d) as [E Hx]; try done.
    exists (of_octets a b c d). unfold dotted. rewrite E. injection E as -> E1 E2 ->.
    split_and!; [lia | lia | done | done |]. unfold last_octet_ok in H2. lia.
  - intros (x & Hx & -> & H1 & H2). pose proof (octets_range x) as R.
    apply Forall_cons in R as [? R]. apply Forall_cons in R as [? R].
    apply Forall_cons in R as [? R]. apply Forall_cons in R as [? _].
    exists (octet x 3), (octet x 2), (octet x 1), (octet x 0). unfold last_octet_ok.
    split_and!; lia || done.
Qed.

(** ** Passwords *)

Definition occurs (cs l : list ascii) : Prop := exists c, c ∈ l /\ c ∈ cs.

Lemma searches_string cs s : searches cs (JStr s) = true <-> occurs cs (String.list_ascii_of_string s).
Proof.
  unfold searches, test, occurs. simpl existsb. rewrite orb_false_r, test_alternative_spec. simpl.
  setoid_rewrite matches_class. split.
  - intros (u & w & v & -> & (c & -> & Hc) & _). exists c. split; [|done].
    apply elem_of_app. right. left.
  - intros (c & (u & v & ->)%list_elem_of_split & Hc). exists u, [c], v.
    split_and!; [done | by exists c | done | done].
Qed.

(** Three equal elements in a row. *)
Fixpoint triple {A} (l : list A) : Prop :=
  match l with
  | x :: r => match r with y :: z :: _ => (x = y /\ y = z) \/ triple r | _ => False end
  | [] => False
  end.

Lemma triple_cons {A} (x y z : A) l : triple (x :: y :: z :: l) <-> (x = y /\ y = z) \/ triple (y :: z :: l).
Proof. done. Qed.

Lemma triple_lookup {A} (l : list A) :
  triple l <-> exists i x, l !! i = Some x /\ l !! S i = Some x /\ l !! S (S i) = Some x.
Proof.
  induction l as [|x l IH]; [split; [done | by intros (i & y & H & _)]|].
  destruct l as [|y [|z l]]; [split; [done | by intros (i & a & _ & H & _)] |
    split; [done | by intros ([|i] & a & _ & H1 & H2)] |].
  rewrite triple_cons, IH. split.
  - intros [[-> ->] | (i & a & H)]; [by exists 0, z | by exists (S i), a].
  - intros ([|i] & a & H1 & H2 & H3); simpl in *; [left; split; congruence | right; eauto].
Qed.

Definition is_string (v : jsval) : Prop := exists s, v = JStr s.

Lemma strict_eq_string x y : is_string x -> strict_eq x y = true <-> x = y.
Proof. intros [s ->]. apply jsval_eqb_eq. Qed.

Lemma triple_replicate {A} n (c : A) : triple (replicate n c) <-> (2 < n)%nat.
Proof.
  rewrite triple_lookup. split.
  - intros (i & x & _ & _ & H). apply lookup_lt_Some in H. rewrite length_replicate in H. lia.
  - intros. exists 0, c. rewrite !lookup_replicate_2 by lia. done.
Qed.

Lemma triple_run {A} n (c x : A) l :
  (0 < n)%nat -> c <> x -> triple (replicate n c ++ x :: l) <-> (2 < n)%nat \/ triple (x :: l).
Proof.
  intros Hn Hc. destruct n as [|[|[|n]]]; [lia | | |]; simpl replicate; simpl app.
  - destruct l; rewrite ?triple_cons; [simpl; intuition lia | intuition (lia || congruence)].
  - rewrite triple_cons. destruct l; rewrite ?triple_cons; simpl; intuition (lia || congruence).
  - rewrite triple_cons. split; [left; lia | auto].
Qed.

Lemma consecutive_loop_spec l c n :
  Forall is_string (c :: l) -> (0 < n)%nat ->
  consecutive_loop c n (l ++ [JUndefined]) = true <-> triple (replicate n c ++ l).
Proof.
  revert c n. induction l as [|x l IH]; intros c n Hs Hn; apply Forall_cons in Hs as [Hc Hl].
  - rewrite app_nil_r, triple_replicate. destruct Hc as [s ->]. simpl.
    destruct (Nat.ltb_spec 2 n); split; done || lia.
  - simpl. destruct (strict_eq c x) eqn:E.
    + apply strict_eq_string in E as ->; [|done]. rewrite IH by (done || lia).
      rewrite replicate_S_end, <- app_assoc. done.
    + assert (c <> x) by (intros ->; rewrite (proj2 (strict_eq_string x x Hc) eq_refl) in E; done).
      rewrite triple_run by done. destruct (Nat.ltb_spec 2 n); [split; auto|].
      rewrite (IH x 1) by (done || lia). simpl. intuition lia.
Qed.

Lemma triple_fmap {A B} (f : A -> B) `{!Inj (=) (=) f} (l : list A) : triple (f <$> l) <-> triple l.
Proof.
  rewrite !triple_lookup. setoid_rewrite list_lookup_fmap. split.
  - intros (i & x & H1 & H2 & H3).
    apply fmap_Some in H1 as (a & H1 & ->).
    apply fmap_Some in H2 as (b & H2 & ->%(inj f)). apply fmap_Some in H3 as (c & H3 & ->%(inj f)).
    by exists i, c.
  - intros (i & x & H1 & H2 & H3). exists i, (f x). by rewrite H1, H2, H3.
Qed.

#[local] Instance char_inj : Inj (=) (=) (fun c => JStr (String c "")).
Proof. intros a b [= E]. done. Qed.

Lemma chars_strings s : Forall is_string (chars s).
Proof. apply Forall_fmap, Forall_true. intros c. by eexists. Qed.

Lemma consecutive_spec s : consecutive (chars s) = true <-> triple (String.list_ascii_of_string s).
Proof.
  rewrite <- (triple_fmap (fun c => JStr (String c ""))). fold (chars s).
  pose proof (chars_strings s) as H. unfold consecutive. destruct (chars s) as [|c l]; [done|].
  simpl. by rewrite (consecutive_loop_spec l c 1) by (done || lia).
Qed.

Lemma set_size_spec l :
  Forall is_string l -> exists k, NoDup k /\ length k = set_size l /\ (forall x, x ∈ k <-> x ∈ l).
Proof.
  induction 1 as [|x l Hx _ (k & Hk & El & E)]; [exists []; by repeat constructor|]. simpl.
  destruct (existsb (strict_eq x) l) eqn:Ex.
  - apply existsb_exists in Ex as (y & Hy & Exy). apply strict_eq_string in Exy as <-; [|done].
    exists k. split_and!; [done | done |]. intros z. rewrite elem_of_cons, E.
    apply list_elem_of_In in Hy. naive_solver.
  - exists (x :: k). split_and!; [|by simpl; f_equal|]; [|intros z; by rewrite !elem_of_cons, E].
    constructor; [|done]. rewrite E. intros Hin. enough (existsb (strict_eq x) l = true) by congruence.
    apply existsb_exists. exists x. split; [by apply list_elem_of_In | by apply strict_eq_string].
Qed.

(** [n] different characters. *)
Definition distinct (n : nat) (l : list ascii) : Prop :=
  exists k, NoDup k /\ length k = n /\ k ⊆ l.

Lemma set_size_distinct n s :
  (n <= set_size (chars s))%nat <-> distinct n (String.list_ascii_of_string s).
Proof.
  destruct (set_size_spec _ (chars_strings s)) as (k & Hk & <- & E). split.
  - intros Hn.
    assert (exists j, k = (fun c => JStr (String c "")) <$> j) as [j ->].
    { assert (Forall (fun x => exists c, x = JStr (String c "")) k) as F.
      { apply Forall_forall. intros x Hx%E. apply list_elem_of_fmap in Hx as (c & -> & _). by exists c. }
      clear -F. induction F as [|x k [c ->] _ [j ->]]; [by exists [] | by exists (c :: j)]. }
    exists (take n j). rewrite length_fmap in Hn. split_and!.
    + apply NoDup_fmap_1 in Hk. by apply (sublist_NoDup _ j), sublist_take.
    + rewrite length_take. lia.
    + intros c Hc. assert (Hj : c ∈ j) by (rewrite <- (take_drop n j), elem_of_app; by left).
      assert (Hc' : JStr (String c "") ∈ chars s) by (apply E, list_elem_of_fmap; eauto).
      apply list_elem_of_fmap in Hc' as (c' & [= ->] & ?). done.
  - intros (j & Hj & <- & Hsub).
    rewrite <- (length_fmap (fun c => JStr (String c ""))).
    apply submseteq_length, NoDup_submseteq; [by apply NoDup_fmap_2; [apply _|]|].
    intros x (c & -> & Hc)%list_elem_of_fmap. apply E, list_elem_of_fmap. eauto.
Qed.

(** The requirements on a password. *)
Definition strong (s : string) : Prop :=
  let l := String.list_ascii_of_string s in
  (15 <= length l)%nat /\ occurs digits10 l /\ occurs lower l /\ occurs (range "A" "Z") l /\
  occurs symbols l /\ distinct 8 l /\
  ~ exists i c, l !! i = Some c /\ l !! S i = Some c /\ l !! S (S i) = Some c.

Lemma length_list_ascii s : String.length s = length (String.list_ascii_of_string s).
Proof. induction s as [|c s IH]; [done | exact (f_equal S IH)]. Qed.

Lemma strong_checks s :
  strong s <->
  (Z.of_nat (String.length s) <? 15)%Z = false /\ searches digits10 (JStr s) = true /\
  searches lower (JStr s) = true /\ searches (range "A" "Z") (JStr s) = true /\
  searches symbols (JStr s) = true /\ Nat.ltb (set_size (chars s)) 8 = false /\
  consecutive (chars s) = false.
Proof.
  unfold strong. rewrite !searches_string, <- set_size_distinct, <- triple_lookup, <- consecutive_spec.
  rewrite Nat.ltb_ge, Z.ltb_ge, length_list_ascii, not_true_iff_false.
  assert (forall n : nat, (15 <= n)%nat <-> (15 <= Z.of_nat n)%Z) as -> by lia. tauto.
Qed.

Lemma password_verdict v c ops s :
  value c = JStr s -> s <> "" ->
  (passwordValidator v c ops = Ret None /\ strong s) \/
  (~ strong s /\ exists text, passwordValidator v c ops = Ret (Some (PasswordError (error_message v) text))).
Proof.
  intros Hv Hs. unfold passwordValidator. rewrite Hv, strong_checks.
  assert (js_truthy (JStr s) = true) as -> by (simpl; destruct s; done). simpl negb.
  cbn [length_of obind iterate]. cbv iota.
  repeat match goal with
    | |- context [if ?b then _ else _] =>
        match b with negb ?b' => destruct b' eqn:? | _ => destruct b eqn:? end;
        simpl negb; cbv iota
    end;
  ((left; split; [done | intuition congruence]) || (right; split; [intuition congruence | by eexists])).
Qed.

(** C6: the password validator lets a text through exactly when it is empty, which
    is left to [required], or has 15 characters, a digit, a lowercase letter, an
    uppercase letter, a symbol, eight different characters and nowhere three equal
    characters in a row; it never throws on a text, and every refusal is a password
    error. *)
Theorem passwordValidator_correct v c ops s :
  value c = JStr s ->
  (passwordValidator v c ops = Ret None <-> s = "" \/ strong s) /\
  (passwordValidator v c ops <> Ret None ->
   exists text, passwordValidator v c ops = Ret (Some (PasswordError (error_message v) text))).
Proof.
  intros Hv. destruct (decide (s = "")) as [->|Hs].
  - assert (E : passwordValidator v c ops = Ret None) by (unfold passwordValidator; by rewrite Hv).
    rewrite E. split; [|done]. split; [by left | done].
  - destruct (password_verdict v c ops s Hv Hs) as [[-> H] | [H [t ->]]].
    + split; [|done]. split; [by right | done].
    + split; [|by exists t]. split; [done | by intros [|]].
Qed.

Definition text_control (s : string) : AbstractControl :=
  {| value := JStr s; touched := true; status := VALID |}.

Example passwordValidator_correct_witness :
  strong "Correct-Horse-42" /\ ~ strong "Coorrect-Horrse" /\
  passwordValidator (plain "password" (Text "Weak") None) (text_control "") None = Ret None /\
  passwordValidator (plain "password" (Text "Weak") None) (text_control "aaa") None =
    Ret (Some (PasswordError (Text "Weak") "The password must be at least 15 characters")).
Proof.
  split; [|split; [|split; [|reflexivity]]].
  - destruct (passwordValidator_correct (plain "password" (Text "Weak") None)
      (text_control "Correct-Horse-42") None "Correct-Horse-42" eq_refl) as [[H _] _].
    destruct H as [H|H]; [vm_compute; reflexivity | discriminate H | exact H].
  - intros H. destruct (passwordValidator_correct (plain "password" (Text "Weak") None)
      (text_control "Coorrect-Horrse") None "Coorrect-Horrse" eq_refl) as [[_ H'] _].
    specialize (H' (or_intror H)). vm_compute in H'. discriminate.
  - apply (passwordValidator_correct (plain "password" (Text "Weak") None) (text_control "") None "" eq_refl). by left.
Defined.

(** ** Host names *)

Lemma find_duplicate_strings v skip l i :
  v <> "" -> exists b, find_duplicate None (JStr v) skip i (JStr <$> l) = Ret b /\
    (b = true <-> exists k, l !! k = Some v /\ skip <> Some (i + Z.of_nat k)%Z).
Proof.
  intros Hv. revert i. induction l as [|x l IH]; intros i.
  - exists false. split; [done|]. split; [done | by intros (k & H & _)].
  - cbn [fmap list_fmap find_duplicate length_of obind].
    assert (positive (Some (Z.of_nat (String.length v))) = true) as ->
      by (destruct v; done). cbn [obind].
    destruct (strict_eq (JStr x) (JStr v) && negb (bool_decide (skip = Some i))) eqn:E.
    + exists true. split; [done|]. split; [intros _ | done].
      apply andb_true_iff in E as [->%seqb_eq E%negb_true_iff%bool_decide_eq_false].
      exists 0. by rewrite Z.add_0_r.
    + destruct (IH (i + 1)%Z) as (b & -> & Hb). exists b. split; [done|]. rewrite Hb. split.
      * intros (k & Hk & Hs). exists (S k). split; [done|]. by replace (i + Z.of_nat (S k))%Z with (i + 1 + Z.of_nat k)%Z by lia.
      * intros ([|k] & Hk & Hs).
        -- exfalso. injection Hk as ->. rewrite Z.add_0_r in Hs.
           rewrite bool_decide_eq_false_2 in E by done. simpl in E. by rewrite String.eqb_refl in E.
        -- exists k. split; [done|]. by replace (i + 1 + Z.of_nat k)%Z with (i + Z.of_nat (S k))%Z by lia.
Qed.

Lemma matches_up_to n cs w :
  matches (up_to n (Class_ cs)) w <-> (length w <= n)%nat /\ Forall (fun c => c ∈ cs) w.
Proof.
  revert w. induction n as [|n IH]; intros w; cbn [up_to].
  - rewrite matches_epsilon. split; [intros ->; by split; [|constructor]|].
    intros [H _]. destruct w; [done | simpl in H; lia].
  - unfold opt. rewrite matches_or, matches_epsilon, matches_cat. setoid_rewrite matches_class.
    setoid_rewrite IH. split.
    + intros [(w1 & w2 & -> & (c & -> & Hc) & Hl & Hw) | ->]; [|split; [simpl; lia | constructor]].
      split; [simpl; lia | by constructor].
    + intros [Hl Hw]. destruct w as [|c w]; [by right|]. left. apply Forall_cons in Hw as [Hc Hw].
      exists [c], w. split_and!; [done | by exists c | simpl in Hl; lia | done].
Qed.

Lemma matches_from_to n m cs w :
  (n <= m)%nat ->
  matches (from_to n m (Class_ cs)) w <-> (n <= length w <= m)%nat /\ Forall (fun c => c ∈ cs) w.
Proof.
  intros Hnm. unfold from_to. rewrite matches_cat. setoid_rewrite matches_times.
  setoid_rewrite matches_up_to. split.
  - intros (w1 & w2 & -> & (l & Hl & -> & Hw1) & Hlen & Hw2).
    assert (length (concat l) = n /\ Forall (fun c => c ∈ cs) (concat l)) as [E F].
    { clear -Hl Hw1. revert n Hl. induction Hw1 as [|x l (c & -> & Hc)%matches_class _ IH]; intros n <-; [done|].
      destruct (IH (length l) eq_refl) as [E F]. simpl. split; [by f_equal | by constructor]. }
    rewrite length_app, Forall_app. split; [lia | done].
  - intros [Hlen Hw]. exists (take n w), (drop n w).
    split_and!; [by rewrite take_drop | | rewrite length_drop; lia | by apply Forall_drop].
    exists ((fun c => [c]) <$> take n w). split_and!.
    + rewrite length_fmap, length_take. lia.
    + clear. induction (take n w) as [|c u IH]; [done|]. cbn. by rewrite <- IH.
    + apply Forall_fmap. eapply Forall_impl; [by apply Forall_take|]. intros c Hc. apply matches_class. eauto.
Qed.

(** The host names the pattern is for. *)
Definition hostname_ok (s : string) : Prop :=
  exists c w, String.list_ascii_of_string s = c :: w /\ c ∈ lower /\ (4 <= length w <= 39)%nat /\
    Forall (fun x => x ∈ lower ++ digits10 ++ ["-"; "."]%char) w.

Lemma hostname_pattern_spec s : test hostname_pattern s = true <-> hostname_ok s.
Proof.
  unfold hostname_pattern. rewrite test_anchored, matches_cat. setoid_rewrite matches_class.
  setoid_rewrite matches_from_to; [|lia]. unfold hostname_ok. split.
  - intros (w1 & w2 & E & (c & -> & Hc) & Hl & Hw). exists c, w2. by rewrite E.
  - intros (c & w & E & Hc & Hl & Hw). exists [c], w. rewrite E. split_and!; [done | by exists c | lia | lia | done].
Qed.

(** The options of a field whose values must be unique among [names]: the value
    at position [skip] is the field's own. *)
Definition unique_among (names : list string) (skip : option Z) : validator_ops :=
  {| uniqueArray := UArray (JStr <$> names); formControlName := None; index := skip;
     parentControl := None; parentFormGroup := None; minRequiredArray := None;
     minRequireControl := ""; minRequiredValue := JUndefined; minRequired := 0;
     error_message_subject := None |}.

Definition unused (names : list string) (skip : option Z) (s : string) : Prop :=
  forall k, names !! k = Some s -> skip = Some (Z.of_nat k).

Lemma head_omap_none {A} (l : list (option A)) : head (omap id l) = None <-> Forall (fun x => x = None) l.
Proof.
  induction l as [|[x|] l IH]; simpl; [split; [constructor | done] | |].
  - split; [done | by intros [? _]%Forall_cons].
  - rewrite IH, Forall_cons. tauto.
Qed.

Lemma unique_strings f names skip c s :
  value c = JStr s -> s <> "" ->
  exists e, uniqueValidator (plain "unique" (Builder f) None) c (Some (unique_among names skip)) = Ret e /\
            (e = None <-> unused names skip s).
Proof.
  intros Hv Hs. unfold uniqueValidator. rewrite Hv. cbn -[find_duplicate].
  destruct (find_duplicate_strings s skip names 0 Hs) as ([] & -> & Hb); cbn.
  - eexists; split; [done|]. split; [done|]. intros Hu.
    destruct (proj1 Hb eq_refl) as (k & Hk%Hu & Hne). done.
  - exists None. split; [done|]. split; [|done]. intros _ k Hk.
    destruct (decide (skip = Some (Z.of_nat k))) as [|Hne]; [done|].
    assert (false = true); [apply Hb; eauto | done].
Qed.

Lemma pattern_string m p c s :
  value c = JStr s -> s <> "" ->
  patternValidator (plain "pattern" m (Some p)) c =
    Ret (if test p s then None else Some (PatternError (JStr s) m)).
Proof. intros Hv Hs. unfold patternValidator. rewrite Hv. destruct s; done. Qed.

Lemma required_string m c s :
  value c = JStr s -> s <> "" -> requiredField (plain "required" m None) c = Ret None.
Proof. intros Hv Hs. unfold requiredField. rewrite Hv. destruct s, (touched c); done. Qed.

(** C9: the host name field of the add-node form is valid exactly when its text
    has five to forty characters, a lowercase letter and then lowercase letters,
    digits, minus signs and periods, and no other node has the name. *)
Theorem hostname_field_correct names skip c s :
  value c = JStr s ->
  validateFromArray addNodeValidators_hostname (Some (unique_among names skip)) c = Ret None <->
  hostname_ok s /\ unused names skip s.
Proof.
  intros Hv. destruct (decide (s = "")) as [->|Hs].
  - unfold validateFromArray, validate_one, requiredField, uniqueValidator, patternValidator. simpl.
    rewrite Hv. simpl.
    assert (find_duplicate None (JStr "") skip 0 (JStr <$> names) = Ret false) as ->.
    { generalize 0%Z. induction names as [|x l IH]; intros i; [done|]. apply (IH (i + 1)%Z). }
    split; [|intros [(c' & w & E & _) _]; done]. simpl. by destruct (touched c).
  - destruct (unique_strings (fun value => "Duplicate hostnames found: " +:+ value +:+
      ". Node must have a unique hostname.") names skip c s Hv Hs) as (e & Ee & Hu).
    unfold validateFromArray, addNodeValidators_hostname, validate_one. simpl construct_all.
    rewrite Ee, (pattern_string _ _ _ s), (required_string _ _ s) by done.
    rewrite <- hostname_pattern_spec, <- Hu. cbn [obind].
    assert (G : forall l : list (option validation_error),
      Ret (head (omap id l)) = Ret None <-> Forall (fun x => x = None) l).
    { intros l. rewrite <- head_omap_none. split; congruence. }
    rewrite G, !Forall_cons, Forall_nil. destruct (test hostname_pattern s); intuition done.
Qed.

Example hostname_field_correct_witness :
  validateFromArray addNodeValidators_hostname (Some (unique_among ["sensor1"; "server1"] None))
    (text_control "sensor2-") = Ret None /\
  ~ (hostname_ok "sensor1" /\ unused ["sensor1"; "server1"] None "sensor1").
Proof.
  split.
  - apply (hostname_field_correct ["sensor1"; "server1"] None (text_control "sensor2-") "sensor2-"); [done|].
    split; [apply hostname_pattern_spec; vm_compute; reflexivity|].
    intros [|[|[|k]]]; simpl; congruence.
  - rewrite <- (hostname_field_correct ["sensor1"; "server1"] None (text_control "sensor1")) by done.
    vm_compute. discriminate.
Defined.

(** ** Netmasks *)

Definition mask_language (r : regex) (first last : nat) : bool :=
  let language := (fun n => String.list_ascii_of_string (dotted (prefix_mask (Z.of_nat n)))) <$>
                  seq first (S last - first) in
  finite r && forallb (fun w => bool_decide (w ∈ language)) (words r) &&
  forallb (fun w => bool_decide (w ∈ words r)) language.

Lemma mask_language_spec r first last w :
  mask_language r first last = true ->
  matches r w <-> exists n, (first <= n <= last)%nat /\
                            w = String.list_ascii_of_string (dotted (prefix_mask (Z.of_nat n))).
Proof.
  unfold mask_language. rewrite !andb_true_iff, !forallb_forall. intros [[F H1] H2].
  rewrite <- words_spec by done. split.
  - intros Hw. specialize (H1 w). rewrite <- list_elem_of_In, bool_decide_eq_true in H1.
    apply H1 in Hw as (n & -> & ?%elem_of_seq)%list_elem_of_fmap. exists n. split; [lia | done].
  - intros (n & Hn & ->). specialize (H2 (String.list_ascii_of_string (dotted (prefix_mask (Z.of_nat n))))).
    rewrite <- list_elem_of_In, bool_decide_eq_true in H2. apply H2.
    apply list_elem_of_fmap. exists n. split; [done | apply elem_of_seq; lia].
Qed.

Lemma masks_1_to_7_words w :
  matches masks_1_to_7 w <->
  exists n, (1 <= n <= 7)%nat /\ w = String.list_ascii_of_string (dotted (prefix_mask (Z.of_nat n))).
Proof. apply mask_language_spec. vm_compute. reflexivity. Qed.

Lemma masks_8_to_31_words w :
  matches masks_8_to_31 w <->
  exists n, (8 <= n <= 31)%nat /\ w = String.list_ascii_of_string (dotted (prefix_mask (Z.of_nat n))).
Proof. apply mask_language_spec. vm_compute. reflexivity. Qed.

(** The netmask pattern accepts the texts that begin with the dotted prefix
    mask of 1 to 7 bits or end with the one of 8 to 31 bits: its anchors belong
    to one alternative each, so anything may follow the former and precede the
    latter. *)
Theorem netmask_pattern_accepts s :
  test netmask_pattern s = true <->
  (exists n t, (1 <= n <= 7)%nat /\ s = dotted (prefix_mask (Z.of_nat n)) +:+ t) \/
  (exists n t, (8 <= n <= 31)%nat /\ s = t +:+ dotted (prefix_mask (Z.of_nat n))).
Proof.
  assert (S1 : forall u w, String.list_ascii_of_string s = u ++ w <->
    exists t t', u = String.list_ascii_of_string t /\ w = String.list_ascii_of_string t' /\ s = t +:+ t').
  { intros u w. split; [|intros (t & t' & -> & -> & ->); apply list_ascii_app].
    intros E. exists (String.string_of_list_ascii u), (String.string_of_list_ascii w).
    rewrite !String.list_ascii_of_string_of_list_ascii. split_and!; [done | done |].
    apply list_ascii_inj. by rewrite list_ascii_app, !String.list_ascii_of_string_of_list_ascii. }
  unfold netmask_pattern, test. simpl existsb. rewrite orb_false_r, orb_true_iff, !test_alternative_spec.
  cbn [bol eol pat].
  setoid_rewrite masks_1_to_7_words. setoid_rewrite masks_8_to_31_words.
  f_equiv; split.
  - intros (u & w & v & E & (n & Hn & ->) & Hu & _). rewrite (Hu eq_refl) in E. simpl in E.
    apply S1 in E as (t & t' & <-%list_ascii_inj & -> & ->). eauto.
  - intros (n & t & Hn & ->). eexists [], _, (String.list_ascii_of_string t).
    split_and!; [apply list_ascii_app | eauto | done | done].
  - intros (u & w & v & E & (n & Hn & ->) & _ & Hv). rewrite (Hv eq_refl), app_nil_r in E.
    apply S1 in E as (t & t' & -> & <-%list_ascii_inj & ->). eauto.
  - intros (n & t & Hn & ->). eexists (String.list_ascii_of_string t), _, [].
    rewrite app_nil_r. split_and!; [apply list_ascii_app | eauto | done | done].
Qed.

(** ** The subnet validator *)

Lemma check_range_malformed v g c s l acc :
  value c = JStr s -> test IP_CONSTRAINT s = false ->
  Forall (fun x => exists k, g (snd x) = Some (GControl k) /\ status k <> INVALID) l ->
  check_range v g c l acc = Ret acc.
Proof.
  intros Hv Ht. induction 1 as [|x l (k & Hg & Hk) _ IH]; [done|]. cbn [check_range].
  unfold check_range_ip, has_value. destruct acc as [error unfilled]. rewrite Hg, Hv. cbn [deref_o obind].
  cbn [js_to_string]. rewrite Ht.
  assert (H : forall b : bool, (if negb b then Ret (error, unfilled) else Ret (error, unfilled)) =
    Ret (error, unfilled)) by (by intros []).
  destruct (js_truthy (JStr s)); cbn -[check_range]; rewrite ?H; destruct (status k); done.
Qed.

(** The subnet validator does not report a malformed address.  When the
    controls it depends on are filled in, a text the address pattern refuses
    passes: the error made for it is the result of a callback of [map], which is
    dropped, and the subnet is only checked for addresses the pattern accepts. *)
Theorem validateIPAddress_passes_malformed v c o s l g ci :
  value c = JStr s -> test IP_CONSTRAINT s = false ->
  ip_range v = Some l -> parentFormGroup o = Some g -> g "controller_interface" = Some ci ->
  Forall (fun x => exists k, g (snd x) = Some (GControl k) /\ status k <> INVALID) l ->
  validateIPAddress v c (Some o) = Ret None.
Proof.
  intros Hv Ht Hl Hg Hci Hr. unfold validateIPAddress. destruct (touched c); [|done].
  rewrite Hl, Hg. cbn [deref_o obind negb].
  destruct l as [|x l]; [|rewrite (check_range_malformed v g c s) by done]; cbn [obind];
    rewrite Hci; cbn [deref_o obind]; rewrite Hv; cbn [js_to_string]; rewrite Ht, andb_false_r; done.
Qed.

Example validateIPAddress_passes_malformed_witness :
  validateIPAddress
    {| validatorFn := "ip&subnet"; error_message := Text ""; pattern := None;
       ip_range := Some [("Netmask", "netmask")]; testRange := true |}
    (text_control "not an address")
    (Some {| uniqueArray := UOther; formControlName := None; index := None; parentControl := None;
             parentFormGroup := Some (fun k => Some (GControl (text_control
               (if k === "netmask" then "255.255.255.0" else "10.0.0.1"))));
             minRequiredArray := None; minRequireControl := ""; minRequiredValue := JUndefined;
             minRequired := 0; error_message_subject := None |}) = Ret None.
Proof.
  eapply validateIPAddress_passes_malformed;
    [reflexivity | vm_compute; reflexivity | reflexivity | reflexivity | reflexivity |].
  repeat constructor. eexists. split; [reflexivity | done].
Defined.
