(* ===== verification/Sorting.v ===== *)
(** services/sorting.service.ts: the orders of the tables.

    The comparison of two texts is [String.prototype.localeCompare] with the
    locale of the browser, numeric and ignoring punctuation: a parameter, with
    the contract of a collation (ECMA-402): the sign is antisymmetric and the
    order it gives is transitive.  [js_sort] is [Array.prototype.sort], which is
    stable. *)
From S2P Require Import Prelude JsValue Data.
From stdpp Require Export sorting.

(** The locale's comparison of texts. *)
Class Collation := {
  localeCompare : string -> string -> Z;
  localeCompare_antisym a b : Z.sgn (localeCompare a b) = (- Z.sgn (localeCompare b a))%Z;
  localeCompare_trans a b c :
    (localeCompare a b <= 0)%Z -> (localeCompare b c <= 0)%Z -> (localeCompare a c <= 0)%Z;
}.

Section Sort.
Context {A : Type}.
Variable compare : A -> A -> Z.

(** An element goes behind the elements that are not greater. *)
Fixpoint sort_insert (x : A) (l : list A) : list A :=
  match l with
  | [] => [x]
  | y :: r => if (compare y x <=? 0)%Z then y :: sort_insert x r else x :: l
  end.

Definition js_sort (l : list A) : list A := fold_left (fun acc x => sort_insert x acc) l [].

Definition cmp_le (x y : A) : Prop := (compare x y <= 0)%Z.

Hypothesis antisym : forall x y, Z.sgn (compare x y) = (- Z.sgn (compare y x))%Z.
Hypothesis trans : forall x y z, cmp_le x y -> cmp_le y z -> cmp_le x z.

Lemma sort_insert_permutation x l : sort_insert x l ≡ₚ x :: l.
Proof using.
  induction l as [|y l IH]; simpl; [done|]. destruct (_ <=? _)%Z; [|done].
  rewrite IH. apply perm_swap.
Qed.

Lemma js_sort_permutation l : js_sort l ≡ₚ l.
Proof using.
  unfold js_sort.
  assert (G : forall acc, fold_left (fun acc x => sort_insert x acc) l acc ≡ₚ acc ++ l).
  { induction l as [|x l IH]; intros acc; simpl; [by rewrite app_nil_r|].
    rewrite IH, sort_insert_permutation. simpl. apply Permutation_middle. }
  apply (G []).
Qed.

Lemma sort_insert_sorted x l :
  StronglySorted cmp_le l -> StronglySorted cmp_le (sort_insert x l).
Proof using antisym trans.
  induction 1 as [|y l Hl IH Hy]; simpl; [by repeat constructor|].
  destruct (Z.leb_spec (compare y x) 0) as [Hle|Hlt].
  - constructor; [done|]. rewrite sort_insert_permutation. by constructor.
  - assert (Hxy : cmp_le x y) by (unfold cmp_le; specialize (antisym x y); lia).
    constructor; [by constructor|]. constructor; [done|].
    eapply Forall_impl; [exact Hy|]. intros z Hz. by apply (trans x y z).
Qed.

Lemma js_sort_sorted l : StronglySorted cmp_le (js_sort l).
Proof using antisym trans.
  unfold js_sort.
  assert (G : forall acc, StronglySorted cmp_le acc ->
    StronglySorted cmp_le (fold_left (fun acc x => sort_insert x acc) l acc)).
  { induction l as [|x l IH]; intros acc H; [done|]. apply IH, sort_insert_sorted, H. }
  apply G. constructor.
Qed.

(** Stability: the elements that compare as equal to [k] keep their order. *)
Definition same_rank (k x : A) : Prop := compare k x = 0%Z.
#[export] Instance same_rank_dec k x : Decision (same_rank k x) := Z.eq_dec (compare k x) 0%Z.

Lemma same_rank_le k x y : same_rank k x -> same_rank k y -> cmp_le x y.
Proof using antisym trans.
  intros Hx Hy. apply (trans x k y); unfold cmp_le, same_rank in *; [|lia].
  specialize (antisym x k). lia.
Qed.

Lemma sort_insert_stable k x l :
  StronglySorted cmp_le l ->
  filter (same_rank k) (sort_insert x l) = filter (same_rank k) (l ++ [x]).
Proof using antisym trans.
  induction 1 as [|y l Hl IH Hy]; simpl; [done|].
  destruct (Z.leb_spec (compare y x) 0) as [Hle|Hlt].
  - rewrite !filter_cons. by rewrite IH.
  - change (x :: y :: l) with ([x] ++ (y :: l)). change (y :: l ++ [x]) with ((y :: l) ++ [x]).
    rewrite !filter_app. destruct (decide (same_rank k x)) as [Hx|Hx].
    + replace (filter (same_rank k) (y :: l)) with (@nil A); [by rewrite app_nil_r|].
      symmetry.
      assert (F : Forall (fun z => ~ same_rank k z) (y :: l)).
      { assert (Hy' : ~ same_rank k y).
        { intros Hk. pose proof (same_rank_le k y x Hk Hx). unfold cmp_le in *. lia. }
        constructor; [done|]. eapply Forall_impl; [exact Hy|]. intros z Hz Hk.
        pose proof (same_rank_le k z x Hk Hx) as Hzx.
        pose proof (trans y z x Hz Hzx). unfold cmp_le in *. lia. }
      clear -F. induction F as [|z l' Hz _ IH]; [done|]. by rewrite filter_cons_False.
    + rewrite filter_cons_False by done. by rewrite app_nil_r.
Qed.

Lemma js_sort_stable k l : filter (same_rank k) (js_sort l) = filter (same_rank k) l.
Proof using antisym trans.
  unfold js_sort.
  assert (G : forall acc, StronglySorted cmp_le acc ->
    filter (same_rank k) (fold_left (fun acc x => sort_insert x acc) l acc) =
    filter (same_rank k) (acc ++ l)).
  { induction l as [|x l IH]; intros acc H; simpl; [by rewrite app_nil_r|].
    rewrite IH by (by apply sort_insert_sorted). rewrite !filter_app.
    rewrite sort_insert_stable by done. rewrite !filter_app, <- app_assoc, <- filter_app. done. }
  apply (G []). constructor.
Qed.
End Sort.

(** Sorting references by what they refer to. *)
Section Related.
Context {A B : Type} (R : A -> B -> Prop) (f : A -> A -> Z) (g : B -> B -> Z).
Hypothesis related : forall a a' b b', R a b -> R a' b' -> f a a' = g b b'.

Lemma sort_insert_related a b l k :
  R a b -> Forall2 R l k -> Forall2 R (sort_insert f a l) (sort_insert g b k).
Proof using related.
  intros Hab. induction 1 as [|x y l k Hxy Hlk IH]; simpl; [by repeat constructor|].
  rewrite (related x a y b) by done. destruct (_ <=? _)%Z; by repeat constructor.
Qed.

Lemma js_sort_related l k : Forall2 R l k -> Forall2 R (js_sort f l) (js_sort g k).
Proof using related.
  intros H. unfold js_sort.
  assert (G : forall acc acc', Forall2 R acc acc' ->
    Forall2 R (fold_left (fun acc x => sort_insert f x acc) l acc)
              (fold_left (fun acc x => sort_insert g x acc) k acc')).
  { induction H as [|x y l k Hxy _ IH]; intros acc acc' Hacc; [done|]. simpl.
    apply IH. by apply sort_insert_related. }
  apply G. constructor.
Qed.
End Related.

Section Service.
Context `{Col : Collation}.

Definition naturalSort (a b : string) : Z := localeCompare a b.

Definition alphanum (a b : string) : Z := naturalSort a b.
Definition node_alphanum (a b : NodeClass) : Z := naturalSort (hostname a) (hostname b).
Definition rule_alphanum (a b : RuleClass) : Z := naturalSort (ruleName a) (ruleName b).
Definition rule_set_alphanum {R} (a b : RuleSetOf R) : Z := naturalSort (rs_name a) (rs_name b).
Definition chart_application_alphanum (a b : ChartClass) : Z :=
  naturalSort (ch_application a) (ch_application b).

(** Any comparison by a text inherits the contract. *)
Lemma by_text_antisym {A} (f : A -> string) x y :
  Z.sgn (naturalSort (f x) (f y)) = (- Z.sgn (naturalSort (f y) (f x)))%Z.
Proof. apply localeCompare_antisym. Qed.

Lemma by_text_trans {A} (f : A -> string) x y z :
  cmp_le (fun a b => naturalSort (f a) (f b)) x y -> cmp_le (fun a b => naturalSort (f a) (f b)) y z ->
  cmp_le (fun a b => naturalSort (f a) (f b)) x z.
Proof. apply localeCompare_trans. Qed.
End Service.

(** A collation to evaluate the definitions with: the order of the characters. *)
Definition code_compare (a b : string) : Z :=
  match String.compare a b with Lt => (-1)%Z | Eq => 0%Z | Gt => 1%Z end.

Lemma code_compare_antisym a b : Z.sgn (code_compare a b) = (- Z.sgn (code_compare b a))%Z.
Proof.
  unfold code_compare. rewrite String.compare_antisym. by destruct (String.compare b a).
Qed.

Lemma code_compare_trans a b c :
  (code_compare a b <= 0)%Z -> (code_compare b c <= 0)%Z -> (code_compare a c <= 0)%Z.
Proof.
  unfold code_compare. revert b c. induction a as [|x a IH]; intros [|y b] [|z c]; simpl; try lia.
  specialize (IH b c). unfold Ascii.compare.
  destruct (N.compare_spec (Ascii.N_of_ascii x) (Ascii.N_of_ascii y)) as [E1|L1|L1]; try lia;
    destruct (N.compare_spec (Ascii.N_of_ascii y) (Ascii.N_of_ascii z)) as [E2|L2|L2]; try lia;
    destruct (N.compare_spec (Ascii.N_of_ascii x) (Ascii.N_of_ascii z)) as [E3|L3|L3]; try lia.
Qed.

#[export] Instance code_collation : Collation := {|
  localeCompare := code_compare;
  localeCompare_antisym := code_compare_antisym;
  localeCompare_trans := code_compare_trans;
|}.

(** [Object.keys]: the array indices in ascending order before the other keys. *)
Fixpoint digits_value (s : string) (acc : Z) : option Z :=
  match s with
  | EmptyString => Some acc
  | String c r => let n := Z.of_nat (Ascii.nat_of_ascii c) in
                  if (48 <=? n)%Z && (n <=? 57)%Z then digits_value r (10 * acc + (n - 48))%Z else None
  end.
Definition array_index (k : string) : option Z :=
  match digits_value k 0 with
  | Some n => if (pretty n === k) && (n <? 4294967295)%Z then Some n else None
  | None => None
  end.
Definition is_index (k : string) : bool := notUndefNull (array_index k).
Definition index_order (a b : string) : Z := (default 0 (array_index a) - default 0 (array_index b))%Z.
Definition keys_in_order (keys : list string) : list string :=
  js_sort index_order (List.filter is_index keys) ++ List.filter (fun k => negb (is_index k)) keys.

Lemma keys_in_order_permutation keys : keys_in_order keys ≡ₚ keys.
Proof.
  unfold keys_in_order. rewrite js_sort_permutation.
  induction keys as [|k keys IH]; [done|]. simpl. destruct (is_index k); simpl.
  - by rewrite IH.
  - by rewrite <- Permutation_middle, IH.
Qed.
