(* ===== verification/Forms.v ===== *)
(** The reactive forms of @angular/forms as the source uses them: an interface
    with the laws the components rely on, which its documentation states, and an
    implementation to evaluate the definitions with.

    A control has a value, is enabled or disabled, and has a validator; a group
    maps names to its controls, which may be groups, in insertion order. *)
From S2P Require Import Prelude JsValue.

Class Controls (control : Type -> Type) := {
  (** [new FormControl({ value, disabled }, validator)] *)
  new_control {A} : A -> bool -> (A -> bool) -> control A;
  control_value {A} : control A -> A;
  control_disabled {A} : control A -> bool;
  control_valid {A} : control A -> bool;
  setValue {A} : A -> control A -> control A;
  set_disabled {A} : bool -> control A -> control A;
  setValidators {A} : (A -> bool) -> control A -> control A;
}.

Class Groups (group : Type -> Type) := {
  empty_group {B} : group B;
  (** [group.controls[name]] *)
  controls {B} : group B -> string -> option B;
  (** [Object.keys(group.controls)] *)
  control_keys {B} : group B -> list string;
  addControl {B} : string -> B -> group B -> group B;
  removeControl {B} : string -> group B -> group B;
  (** The group after a method of the control [name] was called. *)
  update_control {B} : string -> (B -> B) -> group B -> group B;
}.

(** The validators of @angular/forms: [Validators.pattern(p)] and
    [Validators.required] as predicates on the value of a control. *)
Class NgValidators := {
  Validators_pattern : string -> jsval -> bool;
  Validators_required : jsval -> bool;
}.

Definition enable {A} `{Controls control} : control A -> control A := set_disabled false.
Definition disable {A} `{Controls control} : control A -> control A := set_disabled true.

(** What the documentation promises: a control keeps what is set; a name that is
    taken is not replaced by [addControl]; operations on one control leave the
    others alone. *)
Class ControlsLaws `(C : Controls control) := {
  value_new {A} (v : A) d p : control_value (new_control v d p) = v;
  disabled_new {A} (v : A) d p : control_disabled (new_control v d p) = d;
  valid_new {A} (v : A) d p : control_valid (new_control v d p) = negb d && p v;
  value_setValue {A} (v : A) c : control_value (setValue v c) = v;
  disabled_setValue {A} (v : A) c : control_disabled (setValue v c) = control_disabled c;
  value_set_disabled {A} b (c : control A) : control_value (set_disabled b c) = control_value c;
  disabled_set_disabled {A} b (c : control A) : control_disabled (set_disabled b c) = b;
  value_setValidators {A} p (c : control A) : control_value (setValidators p c) = control_value c;
}.

Class GroupsLaws `(G : Groups group) := {
  controls_empty {B} k : controls (empty_group (B := B)) k = None;
  keys_empty {B} : control_keys (empty_group (B := B)) = [];
  keys_controls {B} (g : group B) k : k ∈ control_keys g <-> is_Some (controls g k);
  keys_NoDup {B} (g : group B) : NoDup (control_keys g);
  controls_add {B} k j (c : B) g :
    controls (addControl k c g) j =
    if k === j then match controls g k with Some c' => Some c' | None => Some c end else controls g j;
  keys_add {B} k (c : B) g :
    control_keys (addControl k c g) =
    match controls g k with Some _ => control_keys g | None => control_keys g ++ [k] end;
  controls_remove {B} k j (g : group B) :
    controls (removeControl k g) j = if k === j then None else controls g j;
  controls_update {B} k j f (g : group B) :
    controls (update_control k f g) j = if k === j then f <$> controls g j else controls g j;
  keys_update {B} k f (g : group B) : control_keys (update_control k f g) = control_keys g;
}.

(** ** An implementation *)

Record form_control (A : Type) := FormControl { fv : A; fd : bool; fp : A -> bool }.
Arguments FormControl {A}.
Arguments fv {A}.
Arguments fd {A}.
Arguments fp {A}.

(** An association list without duplicate names. *)
Fixpoint lookup_name {B} (k : string) (l : list (string * B)) : option B :=
  match l with
  | [] => None
  | (j, b) :: r => if j === k then Some b else lookup_name k r
  end.

Record form_group (B : Type) := FormGroupOf {
  entries : list (string * B);
  entries_NoDup : bool_decide (NoDup entries.*1) = true;
}.
Arguments FormGroupOf {B}.
Arguments entries {B}.
Arguments entries_NoDup {B}.

Definition mk_group {B} (l : list (string * B)) (H : NoDup l.*1) : form_group B :=
  FormGroupOf l (bool_decide_eq_true_2 _ H).

Lemma group_NoDup {B} (g : form_group B) : NoDup (entries g).*1.
Proof. exact (bool_decide_eq_true_1 _ (entries_NoDup g)). Qed.

Lemma lookup_name_keys {B} k (l : list (string * B)) : k ∈ l.*1 <-> is_Some (lookup_name k l).
Proof.
  induction l as [|[j b] l IH]; simpl; [split; [by intros ?%not_elem_of_nil | by intros [? ?]]|].
  rewrite elem_of_cons. destruct (j === k) eqn:E.
  - apply seqb_eq in E as ->. split; [by eexists | by left].
  - apply seqb_neq in E. rewrite IH. split; [by intros [->|?] | auto].
Qed.

Definition add_entry {B} (k : string) (b : B) (l : list (string * B)) : list (string * B) :=
  match lookup_name k l with Some _ => l | None => l ++ [(k, b)] end.

Lemma add_entry_NoDup {B} k (b : B) l : NoDup l.*1 -> NoDup (add_entry k b l).*1.
Proof.
  unfold add_entry. intros H. destruct (lookup_name k l) eqn:E; [done|].
  rewrite fmap_app. apply NoDup_app. split_and!; [done | | apply NoDup_singleton].
  intros x Hx Hx'. apply list_elem_of_singleton in Hx' as ->.
  apply lookup_name_keys in Hx as [? ?]. simpl in *. congruence.
Qed.

Definition remove_entry {B} (k : string) (l : list (string * B)) : list (string * B) :=
  base.filter (fun x => fst x <> k) l.

Lemma remove_entry_NoDup {B} k (l : list (string * B)) : NoDup l.*1 -> NoDup (remove_entry k l).*1.
Proof.
  unfold remove_entry. induction l as [|[j b] l IH]; [done|]. intros [Hj H]%NoDup_cons.
  rewrite filter_cons. destruct (decide _); [|by apply IH]. simpl. constructor; [|by apply IH].
  intros (x & -> & [_ Hx]%list_elem_of_filter)%list_elem_of_fmap. apply Hj, list_elem_of_fmap.
  by exists x.
Qed.

Definition update_entry {B} (k : string) (f : B -> B) (l : list (string * B)) : list (string * B) :=
  (fun x => if fst x === k then (fst x, f (snd x)) else x) <$> l.

Lemma update_entry_keys {B} k (f : B -> B) l : (update_entry k f l).*1 = l.*1.
Proof.
  unfold update_entry. rewrite <- list_fmap_compose. apply list_fmap_ext. intros _ [j b] _. simpl.
  by destruct (j === k).
Qed.

Lemma update_entry_NoDup {B} k (f : B -> B) l : NoDup l.*1 -> NoDup (update_entry k f l).*1.
Proof. by rewrite update_entry_keys. Qed.

#[export] Instance plain_controls : Controls form_control := {|
  new_control A v d p := FormControl v d p;
  control_value A c := fv c;
  control_disabled A c := fd c;
  control_valid A c := negb (fd c) && fp c (fv c);
  setValue A v c := FormControl v (fd c) (fp c);
  set_disabled A b c := FormControl (fv c) b (fp c);
  setValidators A p c := FormControl (fv c) (fd c) p;
|}.

#[export] Instance plain_controls_laws : ControlsLaws plain_controls.
Proof. by split. Qed.

#[export] Instance association_groups : Groups form_group := {|
  empty_group B := FormGroupOf [] eq_refl;
  controls B g k := lookup_name k (entries g);
  control_keys B g := (entries g).*1;
  addControl B k c g := mk_group _ (add_entry_NoDup k c (entries g) (group_NoDup g));
  removeControl B k g := mk_group _ (remove_entry_NoDup k (entries g) (group_NoDup g));
  update_control B k f g := mk_group _ (update_entry_NoDup k f (entries g) (group_NoDup g));
|}.

Lemma lookup_name_app {B} k (l1 l2 : list (string * B)) :
  lookup_name k (l1 ++ l2) = match lookup_name k l1 with Some b => Some b | None => lookup_name k l2 end.
Proof. induction l1 as [|[j b] l IH]; simpl; [done|]. by destruct (j === k). Qed.

Lemma lookup_add_entry {B} k j (c : B) l :
  lookup_name j (add_entry k c l) =
  if k === j then match lookup_name k l with Some c' => Some c' | None => Some c end else lookup_name j l.
Proof.
  unfold add_entry. destruct (k === j) eqn:E.
  - apply seqb_eq in E as ->. destruct (lookup_name j l) eqn:El; [done|].
    rewrite lookup_name_app, El. simpl. by rewrite seqb_refl.
  - destruct (lookup_name k l); [done|]. rewrite lookup_name_app. simpl. rewrite E.
    by destruct (lookup_name j l).
Qed.

Lemma lookup_remove_entry {B} k j (l : list (string * B)) :
  lookup_name j (remove_entry k l) = if k === j then None else lookup_name j l.
Proof.
  unfold remove_entry. induction l as [|[i b] l IH]; simpl; [by destruct (k === j)|].
  rewrite filter_cons. destruct (decide _) as [Hi|Hi]; simpl in *.
  - rewrite IH. destruct (i === j) eqn:Ei; [|done]. apply seqb_eq in Ei as ->.
    destruct (k === j) eqn:Ek; [apply seqb_eq in Ek; congruence | done].
  - rewrite IH. assert (i = k) as -> by (by destruct (decide (i = k))).
    by destruct (k === j).
Qed.

Lemma lookup_update_entry {B} k j (f : B -> B) l :
  lookup_name j (update_entry k f l) = if k === j then f <$> lookup_name j l else lookup_name j l.
Proof.
  unfold update_entry. induction l as [|[i b] l IH]; simpl; [by destruct (k === j)|].
  destruct (i === k) eqn:Ei; simpl; destruct (i === j) eqn:Ej; rewrite ?IH; try done;
    destruct (k === j) eqn:Ek; try done;
    rewrite ?seqb_eq, ?seqb_neq in *; congruence.
Qed.

#[export] Instance association_groups_laws : GroupsLaws association_groups.
Proof.
  split; try done; intros B; simpl.
  - intros g k. apply lookup_name_keys.
  - intros g. apply group_NoDup.
  - intros k j c g. apply lookup_add_entry.
  - intros k c g. unfold add_entry. destruct (lookup_name k (entries g)); [done | by rewrite fmap_app].
  - intros k j g. apply lookup_remove_entry.
  - intros k j f g. apply lookup_update_entry.
  - intros k f g. apply update_entry_keys.
Qed.

(** Validators to evaluate the definitions with: no pattern is checked. *)
#[export] Instance plain_validators : NgValidators := {|
  Validators_pattern _ _ := true;
  Validators_required v := js_truthy v;
|}.
