(* ===== verification/Fields.v ===== *)
(** Form groups of @angular/forms with the verdicts of their controls, as the
    settings forms use them.

    A control keeps the verdict its validator gave when it last ran: when it was
    made, when its value was set, when it was enabled, or when
    [updateValueAndValidity] was called.  A validator that reads another control
    (a retyped password) is not run again when that one changes. *)
From S2P Require Import Prelude Handler JsValue Regex Validators.

Record field := {
  fc_value : jsval;
  fc_disabled : bool;
  fc_touched : bool;
  fc_dirty : bool;
  fc_errors : option validation_error;
}.

Definition with_value v (f : field) : field :=
  {| fc_value := v; fc_disabled := fc_disabled f; fc_touched := fc_touched f; fc_dirty := fc_dirty f;
     fc_errors := fc_errors f |}.
Definition with_disabled b (f : field) : field :=
  {| fc_value := fc_value f; fc_disabled := b; fc_touched := fc_touched f; fc_dirty := fc_dirty f;
     fc_errors := fc_errors f |}.
Definition with_marks t d (f : field) : field :=
  {| fc_value := fc_value f; fc_disabled := fc_disabled f; fc_touched := t; fc_dirty := d;
     fc_errors := fc_errors f |}.
Definition with_errors e (f : field) : field :=
  {| fc_value := fc_value f; fc_disabled := fc_disabled f; fc_touched := fc_touched f; fc_dirty := fc_dirty f;
     fc_errors := e |}.

(** A control before its validator has run. *)
Definition raw_field (v : jsval) : field :=
  {| fc_value := v; fc_disabled := false; fc_touched := false; fc_dirty := false; fc_errors := None |}.

Definition field_status (f : field) : ControlStatus :=
  if fc_disabled f then DISABLED else match fc_errors f with None => VALID | Some _ => INVALID end.
Definition control_of (f : field) : AbstractControl :=
  {| value := fc_value f; touched := fc_touched f; status := field_status f |}.

(** A disabled control has no errors. *)
Definition disabled_field (f : field) : field := with_errors None (with_disabled true f).

(** ** Groups *)

Section Group.
Context {N : Type} {names_eq : EqDecision N}.

(** The controls by name. *)
Definition form : Type := N -> field.

Definition put (k : N) (f : field) (g : form) : form := fun j => if decide (j = k) then f else g j.

(** The validator of a control, which may read the others. *)
Variable rule : form -> N -> AbstractControl -> outcome (option validation_error).

Definition updateValueAndValidity (k : N) (g : form) : outcome form :=
  if fc_disabled (g k) then Ret g
  else let* e := rule g k (control_of (g k)) in Ret (put k (with_errors e (g k)) g).

Definition setValue (k : N) (v : jsval) (g : form) : outcome form :=
  updateValueAndValidity k (put k (with_value v (g k)) g).
Definition enable_control (k : N) (g : form) : outcome form :=
  updateValueAndValidity k (put k (with_disabled false (g k)) g).
Definition disable_control (k : N) (g : form) : form := put k (disabled_field (g k)) g.

(** What a key does: the value is set and the control is marked as changed. *)
Definition type_in (k : N) (v : jsval) (g : form) : outcome form :=
  setValue k v (put k (with_marks (fc_touched (g k)) true (g k)) g).
Definition markAsTouched (k : N) (g : form) : form := put k (with_marks true (fc_dirty (g k)) (g k)) g.

(** The methods of the group, on the names of its controls in their order. *)
Fixpoint each (op : N -> form -> outcome form) (names : list N) (g : form) : outcome form :=
  match names with
  | [] => Ret g
  | k :: l => let* g' := op k g in each op l g'
  end.
(** [new FormGroup(...)]: the verdicts of the new controls. *)
Definition new_group : list N -> form -> outcome form := each updateValueAndValidity.
Definition enable : list N -> form -> outcome form := each enable_control.
Definition disable (g : form) : form := fun k => disabled_field (g k).

Definition field_valid (f : field) : bool := match field_status f with VALID => true | _ => false end.
Definition field_invalid (f : field) : bool := match field_status f with INVALID => true | _ => false end.
(** A group is disabled when all its controls are. *)
Definition group_valid (names : list N) (g : form) : bool :=
  existsb (fun k => negb (fc_disabled (g k))) names && negb (existsb (fun k => field_invalid (g k)) names).
Definition group_invalid (names : list N) (g : form) : bool := existsb (fun k => field_invalid (g k)) names.
Definition group_touched (names : list N) (g : form) : bool := existsb (fun k => fc_touched (g k)) names.
Definition group_dirty (names : list N) (g : form) : bool := existsb (fun k => fc_dirty (g k)) names.

Lemma put_same k f g : put k f g k = f.
Proof. unfold put. by rewrite decide_True. Qed.
Lemma put_other k j f g : j <> k -> put k f g j = g j.
Proof. intros H. unfold put. by rewrite decide_False. Qed.

Lemma group_valid_field names g k :
  group_valid names g = true -> k ∈ names -> fc_disabled (g k) = false -> fc_errors (g k) = None.
Proof.
  unfold group_valid. rewrite andb_true_iff, negb_true_iff. intros [_ H] Hk Hd.
  destruct (fc_errors (g k)) eqn:E; [|done]. enough (existsb (fun k => field_invalid (g k)) names = true) by congruence.
  apply existsb_exists. exists k. split; [by apply list_elem_of_In|]. unfold field_invalid, field_status. by rewrite Hd, E.
Qed.

(** ** Verdicts that are up to date *)

Definition checked (g : form) (k : N) : Prop :=
  fc_disabled (g k) = false -> rule g k (control_of (g k)) = Ret (fc_errors (g k)).

(** Rules that do not look at their own verdict, and read of the others only
    those of [reads]. *)
Variable reads : N -> list N.
Hypothesis rule_reads : forall g g' k c c',
  (forall j, j ∈ reads k -> control_of (g j) = control_of (g' j)) ->
  value c = value c' -> touched c = touched c' -> rule g k c = rule g' k c'.
Hypothesis reads_others : forall k, k ∉ reads k.

Lemma update_checked k g g' : updateValueAndValidity k g = Ret g' -> checked g' k.
Proof using names_eq rule_reads reads_others.
  unfold updateValueAndValidity. destruct (fc_disabled (g k)) eqn:Ed; [intros [= <-]; by intros ?; congruence|].
  destruct (rule g k (control_of (g k))) as [e|] eqn:E; [|done]. intros [= <-]. unfold checked. rewrite put_same. simpl.
  intros _. rewrite <- E. apply rule_reads; [|done|done]. intros j Hj. rewrite put_other; [done|].
  intros ->. by apply (reads_others k).
Qed.

Lemma update_other k j g g' : updateValueAndValidity k g = Ret g' -> j <> k -> g' j = g j.
Proof.
  unfold updateValueAndValidity. destruct (fc_disabled (g k)); [by intros [= <-]|].
  destruct (rule g k _); [|done]. intros [= <-] Hj. by apply put_other.
Qed.

Lemma update_same k g g' : updateValueAndValidity k g = Ret g' ->
  fc_value (g' k) = fc_value (g k) /\ fc_disabled (g' k) = fc_disabled (g k) /\ fc_touched (g' k) = fc_touched (g k).
Proof.
  unfold updateValueAndValidity. destruct (fc_disabled (g k)) eqn:E; [by intros [= <-]|].
  destruct (rule g k _); [|done]. intros [= <-]. by rewrite put_same.
Qed.

(** An operation on [k] leaves the verdict of [j] up to date unless [j] reads [k]. *)
Lemma checked_agree g g' j :
  g' j = g j -> (forall i, i ∈ reads j -> g' i = g i) -> checked g j -> checked g' j.
Proof using names_eq rule_reads.
  intros Ej Er H. unfold checked. rewrite Ej. intros Hd. rewrite <- (H Hd). apply rule_reads; [|done|done].
  intros i Hi. by rewrite Er.
Qed.

Lemma setValue_other k j v g g' : setValue k v g = Ret g' -> j <> k -> g' j = g j.
Proof. intros H Hj. rewrite (update_other _ _ _ _ H Hj). by apply put_other. Qed.
Lemma setValue_same k v g g' : setValue k v g = Ret g' ->
  fc_value (g' k) = v /\ fc_disabled (g' k) = fc_disabled (g k) /\ fc_touched (g' k) = fc_touched (g k).
Proof. intros H%update_same. by rewrite put_same in H. Qed.

Lemma enable_other k j g g' : enable_control k g = Ret g' -> j <> k -> g' j = g j.
Proof. intros H Hj. rewrite (update_other _ _ _ _ H Hj). by apply put_other. Qed.
Lemma enable_same k g g' : enable_control k g = Ret g' ->
  fc_value (g' k) = fc_value (g k) /\ fc_disabled (g' k) = false /\ fc_touched (g' k) = fc_touched (g k).
Proof. intros H%update_same. by rewrite put_same in H. Qed.

(** [op] on [k] changes [k] only and leaves its verdict up to date. *)
Definition refreshes (op : N -> form -> outcome form) : Prop :=
  forall k g g', op k g = Ret g' -> checked g' k /\ (forall j, j <> k -> g' j = g j) /\ fc_value (g' k) = fc_value (g k).

Lemma refreshes_update : refreshes updateValueAndValidity.
Proof using names_eq rule_reads reads_others.
  intros k g g' H. split_and!; [by eapply update_checked | intros j; by eapply update_other | by apply (update_same k g g')].
Qed.
Lemma refreshes_enable : refreshes enable_control.
Proof using names_eq rule_reads reads_others.
  intros k g g' H. split_and!; [by eapply update_checked | intros j; by eapply enable_other | by apply (enable_same k g g')].
Qed.

(** Names that are listed after those they read. *)
Fixpoint ordered (names : list N) : Prop :=
  match names with
  | [] => True
  | k :: l => k ∉ l /\ (forall j, j ∈ reads k -> j ∉ l) /\ ordered l
  end.

Lemma each_other op names g g' j : refreshes op -> each op names g = Ret g' -> j ∉ names -> g' j = g j.
Proof.
  intros Hop. revert g. induction names as [|k l IH]; simpl; intros g H Hj; [by injection H as <-|].
  destruct (op k g) as [g1|] eqn:E; [|done]. simpl in H. rewrite not_elem_of_cons in Hj. destruct Hj as [Hk Hl].
  rewrite (IH g1 H Hl). destruct (Hop _ _ _ E) as (_ & H2 & _). by apply H2.
Qed.

Lemma each_checked op names g g' : refreshes op -> ordered names -> each op names g = Ret g' ->
  forall k, k ∈ names -> checked g' k.
Proof using names_eq rule_reads.
  intros Hop. revert g. induction names as [|k l IH]; simpl; intros g Ho H j Hj; [by apply not_elem_of_nil in Hj|].
  destruct (op k g) as [g1|] eqn:E; [|done]. simpl in H. destruct Ho as (Hk & Hr & Ho).
  destruct (decide (j ∈ l)) as [Hl|Hl]; [by eapply IH|]. apply elem_of_cons in Hj as [->|?]; [|done].
  destruct (Hop _ _ _ E) as (Hc & _ & _).
  apply (checked_agree g1); [by apply (each_other op l)| |done].
  intros i Hi. apply (each_other op l); auto.
Qed.

Lemma each_values op names g g' : refreshes op -> each op names g = Ret g' -> forall k, fc_value (g' k) = fc_value (g k).
Proof.
  intros Hop. revert g. induction names as [|k l IH]; simpl; intros g H j; [by injection H as <-|].
  destruct (op k g) as [g1|] eqn:E; [|done]. simpl in H. rewrite (IH g1 H).
  destruct (Hop _ _ _ E) as (_ & H2 & H3). destruct (decide (j = k)) as [->|Hj]; [done|]. by rewrite H2.
Qed.

(** The methods of the group return when the rules do, for values the controls
    may have. *)
Lemma each_returns op names g (ok : N -> jsval -> Prop) : refreshes op ->
  (forall k g, (forall j, ok j (fc_value (g j))) -> exists g', op k g = Ret g') ->
  (forall j, ok j (fc_value (g j))) -> exists g', each op names g = Ret g'.
Proof.
  intros Hop Hr. revert g. induction names as [|k l IH]; intros g Hg; [by eexists|]. simpl.
  destruct (Hr k g Hg) as [g1 E]. rewrite E. simpl. apply IH. intros j.
  destruct (Hop _ _ _ E) as (_ & H2 & H3). destruct (decide (j = k)) as [->|Hj]; [by rewrite H3|]. by rewrite H2.
Qed.

Lemma each_update_disabled l g g' j : each updateValueAndValidity l g = Ret g' -> fc_disabled (g' j) = fc_disabled (g j).
Proof.
  revert g. induction l as [|i l IH]; simpl; intros g E; [by injection E as <-|].
  destruct (updateValueAndValidity i g) as [g1|] eqn:E1; [|done]. simpl in E. rewrite (IH g1 E).
  destruct (decide (j = i)) as [->|Hj]; [by apply (update_same i g g1)|]. by rewrite (update_other _ _ _ _ E1).
Qed.

Lemma enable_enables l g g' k : enable l g = Ret g' -> k ∈ l \/ fc_disabled (g k) = false -> fc_disabled (g' k) = false.
Proof.
  unfold enable. revert g. induction l as [|j l IH]; simpl; intros g E Hk.
  - injection E as <-. destruct Hk as [?%not_elem_of_nil|]; done.
  - destruct (enable_control j g) as [g1|] eqn:E1; [|done]. simpl in E. apply (IH g1 E).
    destruct (decide (k = j)) as [->|Hj]; [right; by apply (enable_same j g g1)|].
    destruct Hk as [[->|Hk]%elem_of_cons|Hk]; [done|by left|]. right. by rewrite (enable_other _ _ _ _ E1).
Qed.

(** [markAsTouched] leaves the values, the locks and the verdicts. *)
Lemma markAsTouched_fields k g j :
  fc_value (markAsTouched k g j) = fc_value (g j) /\ fc_disabled (markAsTouched k g j) = fc_disabled (g j) /\
  fc_errors (markAsTouched k g j) = fc_errors (g j).
Proof. unfold markAsTouched. destruct (decide (j = k)) as [->|Hj]; [by rewrite put_same | by rewrite put_other]. Qed.

Lemma each_app op l1 l2 g : each op (l1 ++ l2) g = obind (each op l1 g) (each op l2).
Proof. revert g. induction l1 as [|k l IH]; intros g; simpl; [done|]. by destruct (op k g) as [g1|]; simpl. Qed.

Lemma update_returns k g : (exists e, rule g k (control_of (g k)) = Ret e) -> exists g', updateValueAndValidity k g = Ret g'.
Proof. intros [e E]. unfold updateValueAndValidity. rewrite E. destruct (fc_disabled (g k)); by eexists. Qed.
End Group.
Arguments form : clear implicits.

(** ** What the rules of a list say *)

(** A handler that runs an operation on a form. *)
Definition lift {S E A} (x : outcome A) : handler S E A :=
  match x with Ret a => ret a | Exn e => fun s => (Exn e, s, []) end.

Lemma required_text m (c : AbstractControl) s : value c = JStr s ->
  requiredField (plain "required" m None) c = Ret (if s === "" then Some (errorObject m) else None).
Proof.
  intros E. unfold requiredField. rewrite E. simpl. destruct s as [|a s]; simpl; [by destruct (touched c)|].
  by destruct (touched c).
Qed.

Lemma required_one m ops (c : AbstractControl) s : value c = JStr s ->
  validate_one ops c (plain "required" m None) = Ret (if s === "" then Some (errorObject m) else None).
Proof. apply required_text. Qed.

Lemma pattern_text m p (c : AbstractControl) s : value c = JStr s ->
  patternValidator (plain "pattern" m (Some p)) c =
  Ret (if (s === "") || test p s then None else Some (PatternError (JStr s) m)).
Proof. intros E. unfold patternValidator. rewrite E. destruct s as [|a s]; simpl; [done|]. by destruct (test p _). Qed.

Lemma pattern_null m p (c : AbstractControl) : value c = JNull -> patternValidator (plain "pattern" m (Some p)) c = Ret None.
Proof. intros E. unfold patternValidator. by rewrite E. Qed.

Lemma validate_required m ops (c : AbstractControl) s : value c = JStr s ->
  validateFromArray [plain "required" m None] ops c = Ret (if s === "" then Some (errorObject m) else None).
Proof.
  intros E. unfold validateFromArray. cbn [construct_all]. rewrite (required_one m ops c s E). simpl.
  by destruct (s === "").
Qed.

Lemma validate_pattern m p ops (c : AbstractControl) :
  (forall s, value c = JStr s ->
    validateFromArray [plain "pattern" m (Some p)] ops c =
    Ret (if (s === "") || test p s then None else Some (PatternError (JStr s) m))) /\
  (value c = JNull -> validateFromArray [plain "pattern" m (Some p)] ops c = Ret None).
Proof.
  unfold validateFromArray. simpl. change (validate_one ops c (plain "pattern" m (Some p))) with
    (patternValidator (plain "pattern" m (Some p)) c). split.
  - intros s E. rewrite (pattern_text m p c s E). simpl. by destruct (_ || _).
  - intros E. by rewrite (pattern_null m p c E).
Qed.

(** A list with two rules gives the first error. *)
Lemma validate_two v1 v2 ops c e1 e2 : validate_one ops c v1 = Ret e1 -> validate_one ops c v2 = Ret e2 ->
  validateFromArray [v1; v2] ops c = Ret (match e1 with Some e => Some e | None => e2 end).
Proof. intros E1 E2. unfold validateFromArray. simpl. rewrite E1. simpl. rewrite E2. simpl. by destruct e1, e2. Qed.

(** ** Passwords and their repetition *)

(** [ops] of a password is an array, which has none of the properties the
    validators read; the repetition is given its parent. *)
Definition no_ops : validator_ops :=
  {| uniqueArray := UOther; formControlName := None; index := None; parentControl := None;
     parentFormGroup := None; minRequiredArray := None; minRequireControl := ""; minRequiredValue := JUndefined;
     minRequired := 0; error_message_subject := None |}.
Definition parent_ops (p : AbstractControl) : validator_ops :=
  {| uniqueArray := UOther; formControlName := None; index := None; parentControl := Some p;
     parentFormGroup := None; minRequiredArray := None; minRequireControl := ""; minRequiredValue := JUndefined;
     minRequired := 0; error_message_subject := None |}.

Definition root_password (c : AbstractControl) : outcome (option validation_error) :=
  validateFromArray kitSettingsValidators_root_password (Some no_ops) c.
Definition repeated (p c : AbstractControl) : outcome (option validation_error) :=
  validateFromArray kitSettingsValidators_re_password (Some (parent_ops p)) c.

Lemma root_password_strong c t : value c = JStr t -> exists e, root_password c = Ret e /\ (e = None -> strong t).
Proof.
  intros E. unfold root_password, kitSettingsValidators_root_password.
  assert (E1 := required_text (Text "Required field") c t E).
  destruct (t === "") eqn:Et.
  - apply seqb_eq in Et as ->.
    assert (E2 : passwordValidator (plain "password" (Text "Root password did not meet the password requirements.") None)
      c (Some no_ops) = Ret None) by (unfold passwordValidator; by rewrite E).
    eexists. split; [by erewrite validate_two; [| exact E1 | exact E2] | done].
  - apply seqb_neq in Et.
    destruct (password_verdict (plain "password" (Text "Root password did not meet the password requirements.") None)
      c (Some no_ops) t E Et) as [[E2 H]|[H [x E2]]];
      eexists; (split; [by erewrite validate_two; [| exact E1 | exact E2] | done]).
Qed.

Lemma repeated_same p c t : value c = JStr t ->
  exists e, repeated p c = Ret e /\ (e = None -> status p = VALID /\ value p = JStr t).
Proof.
  intros E. unfold repeated, kitSettingsValidators_re_password.
  assert (E1 := required_text (Text "Required field") c t E).
  eexists. split; [erewrite validate_two; [reflexivity | exact E1 | reflexivity]|].
  destruct (t === ""); [done|]. simpl. destruct (status p); try done.
  destruct (strict_eq (value c) (value p)) eqn:Es; [|done]. intros _. split; [done|].
  rewrite E in Es. symmetry. by apply strict_eq_string; [eexists|].
Qed.

(** The mark [touched] makes no difference for texts. *)
Lemma root_password_marks c c' t : value c = JStr t -> value c' = JStr t -> root_password c = root_password c'.
Proof.
  destruct c as [v x st], c' as [v' x' st']. simpl. intros -> ->.
  unfold root_password, kitSettingsValidators_root_password, validateFromArray. cbn [construct_all].
  erewrite !required_one by reflexivity. reflexivity.
Qed.
Lemma repeated_marks p p' c c' t : value p = value p' -> status p = status p' ->
  value c = JStr t -> value c' = JStr t -> repeated p c = repeated p' c'.
Proof.
  destruct p as [pv pt ps], p' as [pv' pt' ps'], c as [v x st], c' as [v' x' st']. simpl. intros -> -> -> ->.
  unfold repeated, kitSettingsValidators_re_password, validateFromArray. cbn [construct_all].
  erewrite !required_one by reflexivity. reflexivity.
Qed.
