(* ===== verification/NodeMng.v ===== *)
(** modules/node-mng/node-mng.component.ts: the node management page.

    The nodes of a response are fresh objects of the component's store; the
    tables, the dialogs and the callbacks hold references to them.  Captured
    variables of the callbacks are the arguments of the constructors of [call];
    host names that go into a URL are read when the request is made. *)
From S2P Require Import Prelude Handler JsValue Runtime Data Api Services.

Definition SERVER : string := "Server".
Definition SENSOR : string := "Sensor".
Definition SERVICE : string := "Service".
Definition MIP : string := "MIP".
Definition MINIO : string := "MinIO".
Definition CONTROL_PLANE : string := "Control-Plane".
Definition ISO : string := "Iso".
Definition DEPLOY : string := "deploy".
Definition REMOVE : string := "remove".

Definition NODE_MANAGEMENT_TITLE : string := "Node Management".
Definition NODE_TABLE_COLUMNS : list string :=
  ["hostname"; "ip_address"; "node_type"; "deployment_type"; "state"; "actions"].
Definition SETUP_NODE_TABLE_COLUMNS : list string := ["hostname"; "node_type"; "state"].

Definition MAT_DIALOG_CONFIG__REFRESH_KIT : ConfirmDialogMatDialogDataInterface :=
  {| title := "Refresh Kit Operation";
     message := "This operation will destroy the control plane nodes and rebuild them.  " +:+
       "              The Kubernetes cluster will start fresh after this operation is completed. " +:+
       newline +:+ newline +:+ " " +:+
       "              **All sensors will be removed during this process.** " +:+
       newline +:+ newline +:+ " " +:+
       "              Are you sure you want to do this? It so, please type REFRESH and then click Confirm to perform this operation";
     option1 := CANCEL_DIALOG_OPTION;
     option2 := CONFIRM_DIALOG_OPTION;
     message_double_confirm := Some "REFRESH" |}.

Definition MAT_DIALOG_CONFIG__REDEPLOY_KIT : ConfirmDialogMatDialogDataInterface :=
  {| title := "Redeploy Kit Operation";
     message := "This operation will destroy the cluster and rebuild it.  " +:+
       newline +:+ newline +:+ " " +:+
       "              The cluster will start fresh after this operation is completed. " +:+
       newline +:+ newline +:+ " " +:+
       "              Are you sure you want to do this? It so, please type REDEPLOY and then click Confirm to perform this operation";
     option1 := CANCEL_DIALOG_OPTION;
     option2 := CONFIRM_DIALOG_OPTION;
     message_double_confirm := Some "REDEPLOY" |}.

(** What the component subscribes to. *)
Inductive call : Type :=
| CGetNodes
| CGetKitStatus
| CGetKitSettings
| CUpdateDeviceFacts (node : loc) (hostname : string)
| CGetOpenVpnCerts (node : loc) (hostname : string)
| CDeployKit
| CRefreshKit
| CSetupControlPlane
| CDeleteNode (node : loc) (hostname : string)
| CGetInstalledApps (node : loc) (hostname : string)
| DRefreshKit (data : ConfirmDialogMatDialogDataInterface)
| DRedeployKit (data : ConfirmDialogMatDialogDataInterface)
| DDeleteNode (node : loc) (data : ConfirmDialogMatDialogDataInterface).

(** A dialog closes with the label of the chosen option, or undefined. *)
Definition Ans (c : call) : Type :=
  match c with
  | CGetNodes => answer (list NodeClass)
  | CGetKitStatus => answer KitStatusClass
  | CGetKitSettings => answer (option KitSettingsClass)
  | CUpdateDeviceFacts _ _ => answer SuccessMessageClass
  | CGetOpenVpnCerts _ _ => answer string
  | CDeployKit | CRefreshKit | CSetupControlPlane | CDeleteNode _ _ => answer GenericJobAndKeyClass
  | CGetInstalledApps _ _ => answer (list AppClass)
  | DRefreshKit _ | DRedeployKit _ | DDeleteNode _ _ => option string
  end.

Inductive page : Type :=
| OpenNodeInfoDialog (node : loc)
| OpenAddNodeDialog (kit_settings : option KitSettingsClass) (nodes setup_nodes : list loc)
| OpenServerStdout (job_id : string)
| DownloadFile (href download : string)
| SaveAs (content filename : string).

Record NodeManagementComponent := {
  setup_node_columns : list string;
  node_columns : list string;
  setup_nodes : list loc;
  nodes : list loc;
  iso_sensor_detected : bool;
  kit_status_ : KitStatusClass;
  kit_settings_ : option KitSettingsClass;
  heap : store NodeClass;
}.

Definition with_nodes (v : list loc) (s : NodeManagementComponent) :=
  {| setup_node_columns := setup_node_columns s; node_columns := node_columns s;
     setup_nodes := setup_nodes s; nodes := v; iso_sensor_detected := iso_sensor_detected s;
     kit_status_ := kit_status_ s; kit_settings_ := kit_settings_ s; heap := heap s |}.
Definition with_setup_nodes (v : list loc) (s : NodeManagementComponent) :=
  {| setup_node_columns := setup_node_columns s; node_columns := node_columns s;
     setup_nodes := v; nodes := nodes s; iso_sensor_detected := iso_sensor_detected s;
     kit_status_ := kit_status_ s; kit_settings_ := kit_settings_ s; heap := heap s |}.
Definition with_iso_sensor_detected (v : bool) (s : NodeManagementComponent) :=
  {| setup_node_columns := setup_node_columns s; node_columns := node_columns s;
     setup_nodes := setup_nodes s; nodes := nodes s; iso_sensor_detected := v;
     kit_status_ := kit_status_ s; kit_settings_ := kit_settings_ s; heap := heap s |}.
Definition with_kit_status (v : KitStatusClass) (s : NodeManagementComponent) :=
  {| setup_node_columns := setup_node_columns s; node_columns := node_columns s;
     setup_nodes := setup_nodes s; nodes := nodes s; iso_sensor_detected := iso_sensor_detected s;
     kit_status_ := v; kit_settings_ := kit_settings_ s; heap := heap s |}.
Definition with_kit_settings (v : option KitSettingsClass) (s : NodeManagementComponent) :=
  {| setup_node_columns := setup_node_columns s; node_columns := node_columns s;
     setup_nodes := setup_nodes s; nodes := nodes s; iso_sensor_detected := iso_sensor_detected s;
     kit_status_ := kit_status_ s; kit_settings_ := v; heap := heap s |}.
Definition with_heap (v : store NodeClass) (s : NodeManagementComponent) :=
  {| setup_node_columns := setup_node_columns s; node_columns := node_columns s;
     setup_nodes := setup_nodes s; nodes := nodes s; iso_sensor_detected := iso_sensor_detected s;
     kit_status_ := kit_status_ s; kit_settings_ := kit_settings_ s; heap := v |}.

Abbreviation M := (handler NodeManagementComponent (effect call page)).

Definition constructor : NodeManagementComponent :=
  {| setup_node_columns := SETUP_NODE_TABLE_COLUMNS; node_columns := NODE_TABLE_COLUMNS;
     setup_nodes := []; nodes := []; iso_sensor_detected := false;
     kit_status_ := empty_kit_status; kit_settings_ := None; heap := store_empty |}.

(** Reading an object through a reference. *)
Definition node_at (p : loc) : M NodeClass :=
  s <- gets (fun s => s) ;; deref (load (heap s) p).

Definition assign (p : loc) (f : NodeClass -> NodeClass) : M unit :=
  modify (fun s => with_heap (update p f (heap s)) s).

(** ** Questions the template asks *)

Definition disable_refresh_kit_button (s : NodeManagementComponent) : bool :=
  let k := kit_status_ s in
  if negb (truthy (base_kit_deployed k)) && truthy (jobs_running k) then true
  else negb (truthy (base_kit_deployed k)).

Definition disable_setup_control_plane_button (s : NodeManagementComponent) : bool :=
  let k := kit_status_ s in
  negb ((negb (truthy (control_plane_deployed k)) && truthy (esxi_settings_configured k) &&
         truthy (kit_settings_configured k)) && negb (truthy (jobs_running k))).

(** Undefined until a kit status arrives. *)
Definition disable_add_node_button (s : NodeManagementComponent) : option bool :=
  deploy_kit_running (kit_status_ s).

Definition disable_deploy_kit_button (s : NodeManagementComponent) : bool :=
  let k := kit_status_ s in
  negb (negb (truthy (jobs_running k)) && truthy (ready_to_deploy k)).

Definition can_refresh_device_facts (node : NodeClass) : option bool := isDeployed node.

Definition is_iso_button_group (node : NodeClass) : bool :=
  (node_type node === SENSOR) && (deployment_type node === ISO).

Definition is_iso_node_deployed (node : option NodeClass) : bool :=
  match node with
  | Some n => if notUndefNull (isDeployed n) then truthy (isDeployed n) else false
  | None => false
  end.

Definition can_delete_node (node : NodeClass) : bool :=
  ((node_type node === SENSOR) || (node_type node === SERVICE) || (node_type node === MINIO)) ||
  ((node_type node === SERVER) && negb (truthy (isDeployed node))).

Definition get_vpn_status (node : NodeClass) : bool :=
  if (node_type node === SENSOR) && (deployment_type node === ISO)
  then notUndefNull (vpn_status node) else false.

(** ** Subscriptions *)

Definition api_get_nodes_ : M unit := emit (Subscribe CGetNodes).
Definition api_get_kit_status_ : M unit := emit (Subscribe CGetKitStatus).
Definition api_get_kit_settings_ : M unit := emit (Subscribe CGetKitSettings).

Definition api_update_device_facts_ (node : loc) : M unit :=
  n <- node_at node ;; emit (Subscribe (CUpdateDeviceFacts node (hostname n))).

Definition api_get_open_vpn_certs_ (node : loc) : M unit :=
  n <- node_at node ;; emit (Subscribe (CGetOpenVpnCerts node (hostname n))).

Definition api_deploy_kit_ : M unit := emit (Subscribe CDeployKit).
Definition api_refresh_kit_ : M unit := emit (Subscribe CRefreshKit).
Definition api_setup_control_plane_ : M unit := emit (Subscribe CSetupControlPlane).

Definition api_delete_node_ (node : loc) : M unit :=
  n <- node_at node ;; emit (Subscribe (CDeleteNode node (hostname n))).

Definition api_get_catalog_apps_ (node : loc) : M unit :=
  n <- node_at node ;; emit (Subscribe (CGetInstalledApps node (hostname n))).

(** ** Node tables *)

Definition set_nodes_ (v : list loc) : M unit := modify (with_nodes v).
Definition set_setup_nodes_ (v : list loc) : M unit := modify (with_setup_nodes v).
Definition set_iso_sensor_detected_ (v : bool) : M unit := modify (with_iso_sensor_detected v).

(** The body of the loop over the jobs of a node. *)
Definition apply_job (p : loc) (job : JobClass) : M unit :=
  when (j_name job === DEPLOY) (assign p (set_isDeployed (j_complete job))) ;;;
  when (j_name job === REMOVE) (assign p (set_isRemoving true)).

(** The loop over the nodes, with its three local variables. *)
Fixpoint update_nodes_loop (ps : list loc) (setup new_nodes : list loc) (iso : bool)
    : M (list loc * list loc * bool) :=
  match ps with
  | [] => ret (setup, new_nodes, iso)
  | p :: r =>
      node <- node_at p ;;
      for_each (default [] (jobs node)) (apply_job p) ;;;
      let iso' := if deployment_type node === ISO then true else iso in
      if node_type node === CONTROL_PLANE
      then update_nodes_loop r (setup ++ [p]) new_nodes iso'
      else update_nodes_loop r setup (new_nodes ++ [p]) iso'
  end.

Definition type_is (s : NodeManagementComponent) (t : string) (p : loc) : bool :=
  match load (heap s) p with Some n => node_type n === t | None => false end.

Definition update_nodes_data_ (ps : list loc) : M unit :=
  x <- update_nodes_loop ps [] [] false ;;
  let '(setup, new_nodes, iso) := x in
  s <- gets (fun s => s) ;;
  let new_nodes := base.filter (fun p => type_is s MIP p = false) new_nodes in
  let new_nodes := base.filter (fun p => type_is s CONTROL_PLANE p = false) new_nodes in
  set_nodes_ new_nodes ;;;
  set_setup_nodes_ setup ;;;
  set_iso_sensor_detected_ iso.

(** The objects of a response come into existence when it arrives. *)
Definition receive (l : list NodeClass) : M (list loc) :=
  fun s => let '(ps, h) := alloc_list l (heap s) in (Ret ps, with_heap h s, []).

(** ** Dialogs *)

Definition refresh_kit : M unit := emit (Subscribe (DRefreshKit MAT_DIALOG_CONFIG__REFRESH_KIT)).
Definition redeploy_kit_ : M unit := emit (Subscribe (DRedeployKit MAT_DIALOG_CONFIG__REDEPLOY_KIT)).

(** The second argument holds [AppClass] objects in its declared type; its only
    caller passes their names, strings whose [application] is undefined. *)
Definition open_delete_node_dialog_window_ (node : loc) (apps : list jsval) : M unit :=
  n <- node_at node ;;
  let message0 := "Are you sure you want delete " +:+ hostname n +:+ "?" in
  let message1 :=
    if bool_decide (apps = []) then message0
    else
      let applications := (fun app => prop app "application") <$> apps in
      message0 +:+ newline +:+ newline +:+ " " +:+
      "      The following applications will be uninstalled: " +:+ newline +:+ " " +:+
      join_with ", " ((fun v => if defined v then js_to_string v else "") <$> applications) in
  emit (Subscribe (DDeleteNode node
    {| title := "Delete " +:+ hostname n +:+ "?"; message := message1;
       option1 := CANCEL_DIALOG_OPTION; option2 := CONFIRM_DIALOG_OPTION;
       message_double_confirm := None |})).

Definition open_node_info_dialog_window (node : loc) : M unit :=
  emit (Page (OpenNodeInfoDialog node)).

Definition open_add_node_dialog_window : M unit :=
  s <- gets (fun s => s) ;;
  emit (Page (OpenAddNodeDialog (kit_settings_ s) (nodes s) (setup_nodes s))).

Definition open_job_server_std_out_console (job_id : string) : M unit :=
  emit (Page (OpenServerStdout job_id)).

Definition download_iso : M unit :=
  emit (Page (DownloadFile "/assets/dip-virtual-sensor.iso" "dip-virtual-sensor.iso")).

(** ** Actions *)

Definition ngOnInit : M unit :=
  api_get_nodes_ ;;; api_get_kit_status_ ;;; api_get_kit_settings_.

Definition refresh_device_facts (node : loc) : M unit := api_update_device_facts_ node.
Definition download_open_vpn_certs (node : loc) : M unit := api_get_open_vpn_certs_ node.

Definition deploy_kit : M unit :=
  s <- gets (fun s => s) ;;
  if truthy (base_kit_deployed (kit_status_ s)) then redeploy_kit_ else api_deploy_kit_.

Definition setup_control_plane : M unit := api_setup_control_plane_.
Definition delete_node (node : loc) : M unit := api_get_catalog_apps_ node.

(** ** Answers *)

Definition api_get_nodes_answer (a : answer (list NodeClass)) : M unit :=
  match a with
  | Next response => ps <- receive response ;; update_nodes_data_ ps
  | Error e => on_error_message "retrieving nodes" e
  end.

Definition api_get_kit_status_answer (a : answer KitStatusClass) : M unit :=
  match a with
  | Next response => modify (with_kit_status response)
  | Error e => on_error_message "retrieving kit status" e
  end.

Definition api_get_kit_settings_answer (a : answer (option KitSettingsClass)) : M unit :=
  match a with
  | Next response => modify (with_kit_settings response)
  | Error e => on_error_message "retrieving kit settings" e
  end.

Definition api_update_device_facts_answer (node : loc) (a : answer SuccessMessageClass) : M unit :=
  match a with
  | Next _ =>
      n <- node_at node ;;
      displaySnackBar ("Device facts job started for " +:+ hostname n +:+ "  Check Notifications for results.") None
  | Error e => on_error_message "updating device facts" e
  end.

Definition api_get_open_vpn_certs_answer (node : loc) (a : answer string) : M unit :=
  match a with
  | Next response =>
      n <- node_at node ;;
      emit (Page (SaveAs response (hostname n +:+ ".conf"))) ;;;
      displaySnackBar ("Downloading VPN Config for " +:+ hostname n) None
  | Error e => on_error_message "downloading open vpn certs" e
  end.

Definition api_deploy_kit_answer (a : answer GenericJobAndKeyClass) : M unit :=
  match a with
  | Next response => open_job_server_std_out_console (gj_job_id response)
  | Error e => on_error_message "downloading open vpn certs" e
  end.

Definition api_refresh_kit_answer (a : answer GenericJobAndKeyClass) : M unit :=
  match a with
  | Next _ => generate_return_success_snackbar_message " started refresh kit job" None
  | Error e => on_error "starting refresh kit" e
  end.

Definition api_setup_control_plane_answer (a : answer GenericJobAndKeyClass) : M unit :=
  match a with
  | Next _ => generate_return_success_snackbar_message " started setup control plane job" None
  | Error e => on_error "starting setup control plane" e
  end.

Definition api_delete_node_answer (node : loc) (a : answer GenericJobAndKeyClass) : M unit :=
  match a with
  | Next _ =>
      assign node (set_isRemoving true) ;;;
      generate_return_success_snackbar_message " started delete node job" None
  | Error e => on_error_message "deleting node" e
  end.

Definition api_get_catalog_apps_answer (node : loc) (a : answer (list AppClass)) : M unit :=
  match a with
  | Next response =>
      let installed_apps :=
        if Nat.ltb 0 (length response) then (fun app => JStr (a_application app)) <$> response else [] in
      open_delete_node_dialog_window_ node installed_apps
  | Error e => on_error "retrieving catalog applications" e
  end.

Definition confirmed (response : option string) : bool := response ?=== CONFIRM_DIALOG_OPTION.

Definition refresh_kit_closed (response : option string) : M unit :=
  when (confirmed response) api_refresh_kit_.

Definition redeploy_kit_closed (response : option string) : M unit :=
  when (confirmed response) api_deploy_kit_.

Definition delete_node_closed (node : loc) (response : option string) : M unit :=
  when (confirmed response) (api_delete_node_ node).

(** ** The component *)

Inductive event : Type :=
| NgOnInit
| RefreshDeviceFacts (node : loc)
| OpenNodeInfo (node : loc)
| OpenAddNode
| DownloadIso
| DownloadCerts (node : loc)
| OpenConsole (job_id : string)
| DeployKit
| SetupControlPlane
| DeleteNode (node : loc)
| RefreshKit
| NodeStateChange (response : list NodeClass)
| KitStatusChange (response : KitStatusClass).

Definition on_ev (e : event) : M unit :=
  match e with
  | NgOnInit => ngOnInit
  | RefreshDeviceFacts n => refresh_device_facts n
  | OpenNodeInfo n => open_node_info_dialog_window n
  | OpenAddNode => open_add_node_dialog_window
  | DownloadIso => download_iso
  | DownloadCerts n => download_open_vpn_certs n
  | OpenConsole j => open_job_server_std_out_console j
  | DeployKit => deploy_kit
  | SetupControlPlane => setup_control_plane
  | DeleteNode n => delete_node n
  | RefreshKit => refresh_kit
  | NodeStateChange l => ps <- receive l ;; update_nodes_data_ ps
  | KitStatusChange k => modify (with_kit_status k)
  end.

Definition on_ans (c : call) : Ans c -> M unit :=
  match c return Ans c -> M unit with
  | CGetNodes => api_get_nodes_answer
  | CGetKitStatus => api_get_kit_status_answer
  | CGetKitSettings => api_get_kit_settings_answer
  | CUpdateDeviceFacts n _ => api_update_device_facts_answer n
  | CGetOpenVpnCerts n _ => api_get_open_vpn_certs_answer n
  | CDeployKit => api_deploy_kit_answer
  | CRefreshKit => api_refresh_kit_answer
  | CSetupControlPlane => api_setup_control_plane_answer
  | CDeleteNode n _ => api_delete_node_answer n
  | CGetInstalledApps n _ => api_get_catalog_apps_answer n
  | DRefreshKit _ => refresh_kit_closed
  | DRedeployKit _ => redeploy_kit_closed
  | DDeleteNode n _ => delete_node_closed n
  end.

#[export] Instance NodeManagement : Component NodeManagementComponent call page event Ans :=
  {| initial := constructor; on_event := on_ev; on_answer := on_ans |}.

(** ** The node tables *)

(** What the jobs of a node make of it. *)
Definition settle_job (n : NodeClass) (job : JobClass) : NodeClass :=
  let n1 := if j_name job === DEPLOY then set_isDeployed (j_complete job) n else n in
  if j_name job === REMOVE then set_isRemoving true n1 else n1.

Definition settle (n : NodeClass) : NodeClass := fold_left settle_job (default [] (jobs n)) n.

Lemma settle_job_frame n j :
  node_type (settle_job n j) = node_type n /\ deployment_type (settle_job n j) = deployment_type n /\
  hostname (settle_job n j) = hostname n /\ jobs (settle_job n j) = jobs n.
Proof.
  unfold settle_job. destruct (_ === DEPLOY), (_ === REMOVE); done.
Qed.

Lemma settle_frame n :
  node_type (settle n) = node_type n /\ deployment_type (settle n) = deployment_type n /\
  hostname (settle n) = hostname n.
Proof.
  unfold settle. generalize (default [] (jobs n)). intros l. revert n.
  induction l as [|j l IH]; intros n; [done|]. simpl.
  destruct (IH (settle_job n j)) as (-> & -> & ->).
  destruct (settle_job_frame n j) as (-> & -> & -> & _). done.
Qed.

(** [h'] is [h] with the objects of [ps] changed by [f]. *)
Definition touched (ps : list loc) (f : NodeClass -> NodeClass) (h h' : store NodeClass) : Prop :=
  (forall q, q ∈ ps -> load h' q = f <$> load h q) /\
  (forall q, q ∉ ps -> load h' q = load h q) /\ next_loc h' = next_loc h.

Lemma touched_id h f : touched [] f h h.
Proof. split_and!; [by intros q ?%not_elem_of_nil | done | done]. Qed.

Lemma touched_update p f h : touched [p] f h (update p f h).
Proof.
  split_and!; [| |done].
  - intros q ->%list_elem_of_singleton. apply load_update_eq.
  - intros q Hq. apply load_update_ne. intros ->. apply Hq. by apply list_elem_of_singleton.
Qed.

Lemma touched_same p f g h h1 h2 :
  touched [p] f h h1 -> touched [p] g h1 h2 -> touched [p] (fun n => g (f n)) h h2.
Proof.
  intros (A1 & B1 & C1) (A2 & B2 & C2). split_and!; [| |congruence]; intros q Hq.
  - rewrite (A2 q Hq), (A1 q Hq). by destruct (load h q).
  - rewrite (B2 q Hq). apply (B1 q Hq).
Qed.

Lemma touched_cons p ps f h h1 h2 :
  p ∉ ps -> touched [p] f h h1 -> touched ps f h1 h2 -> touched (p :: ps) f h h2.
Proof.
  intros Hp (A1 & B1 & C1) (A2 & B2 & C2). split_and!; [| |congruence]; intros q Hq.
  - apply elem_of_cons in Hq as [->|Hq].
    + rewrite (B2 p Hp). apply A1. by left.
    + rewrite (A2 q Hq). f_equal. apply B1. intros ->%list_elem_of_singleton. done.
  - apply not_elem_of_cons in Hq as [? Hq]. rewrite (B2 q Hq). apply B1.
    by intros ?%list_elem_of_singleton.
Qed.

Lemma touched_ext ps f g h h' : (forall n, f n = g n) -> touched ps f h h' -> touched ps g h h'.
Proof.
  intros E (A & B & C). split_and!; auto. intros q Hq. rewrite (A q Hq).
  destruct (load h q); simpl; [by rewrite E | done].
Qed.

Lemma with_heap_id s : with_heap (heap s) s = s.
Proof. by destruct s. Qed.

Lemma run_node_at p s n : load (heap s) p = Some n -> node_at p s = (Ret n, s, []).
Proof. unfold node_at, bind, gets. by intros ->. Qed.

Lemma run_apply_job p j s :
  exists h', apply_job p j s = (Ret tt, with_heap h' s, []) /\
             touched [p] (fun n => settle_job n j) (heap s) h'.
Proof.
  unfold apply_job, settle_job, assign.
  destruct (j_name j === DEPLOY), (j_name j === REMOVE).
  - eexists; split; [reflexivity|]. simpl. eapply touched_same; apply touched_update.
  - eexists; split; [reflexivity|]. simpl. apply touched_update.
  - eexists; split; [reflexivity|]. simpl. apply touched_update.
  - exists (heap s). rewrite with_heap_id. split; [done|].
    split_and!; [|done|done]. intros q _. by destruct (load _ q).
Qed.

Lemma run_apply_jobs p l s :
  exists h', for_each l (apply_job p) s = (Ret tt, with_heap h' s, []) /\
             touched [p] (fun n => fold_left settle_job l n) (heap s) h'.
Proof.
  revert s; induction l as [|j l IH]; intros s; simpl.
  - exists (heap s). rewrite with_heap_id. split; [done|].
    split_and!; [|done|done]. intros q _. by destruct (load _ q).
  - destruct (run_apply_job p j s) as (h1 & E1 & T1).
    destruct (IH (with_heap h1 s)) as (h2 & E2 & T2).
    exists h2. unfold bind. rewrite E1, E2. split; [done|].
    exact (touched_same _ _ _ _ _ _ T1 T2).
Qed.

(** The loop: what it returns, and that it settles every node it visits. *)
Lemma run_update_nodes_loop ps l setup new_nodes iso s :
  NoDup ps -> Forall2 (fun p n => load (heap s) p = Some n) ps l ->
  exists h',
    update_nodes_loop ps setup new_nodes iso s =
      (Ret (setup ++ (filter (fun x => node_type (snd x) = CONTROL_PLANE) (zip ps l)).*1,
            new_nodes ++ (filter (fun x => node_type (snd x) <> CONTROL_PLANE) (zip ps l)).*1,
            iso || existsb (fun n => deployment_type n === ISO) l), with_heap h' s, []) /\
    (forall q n, (q, n) ∈ zip ps l -> load h' q = Some (settle n)) /\
    (forall q, q ∉ ps -> load h' q = load (heap s) q) /\ next_loc h' = next_loc (heap s).
Proof.
  intros Hnd HF. revert setup new_nodes iso s Hnd HF.
  revert l; induction ps as [|p ps IH]; intros l setup new_nodes iso s Hnd HF.
  - apply Forall2_nil_inv_l in HF as ->. exists (heap s). rewrite with_heap_id. simpl.
    rewrite !app_nil_r, orb_false_r. split_and!; [done | by intros q n ?%not_elem_of_nil | done | done].
  - apply Forall2_cons_inv_l in HF as (n & l' & Hn & HF & ->).
    apply NoDup_cons in Hnd as [Hp Hnd]. simpl.
    destruct (run_apply_jobs p (default [] (jobs n)) s) as (h1 & E1 & A1 & B1 & C1).
    assert (HF' : Forall2 (fun p n => load (heap (with_heap h1 s)) p = Some n) ps l').
    { apply Forall2_same_length_lookup. apply Forall2_same_length_lookup in HF as [Hlen HF].
      split; [done|]. intros i q m Hq Hm. simpl. rewrite B1; [by apply (HF i)|].
      intros ->%list_elem_of_singleton. apply Hp. by apply list_elem_of_lookup_2 in Hq. }
    set (iso' := if deployment_type n === ISO then true else iso).
    assert (Hiso : iso' || existsb (fun n => deployment_type n === ISO) l' =
                   iso || ((deployment_type n === ISO) || existsb (fun n => deployment_type n === ISO) l')).
    { subst iso'. destruct (deployment_type n === ISO), iso; done. }
    assert (Hrun : forall sp np,
      exists h', update_nodes_loop ps sp np iso' (with_heap h1 s) =
        (Ret (sp ++ (filter (fun x => node_type (snd x) = CONTROL_PLANE) (zip ps l')).*1,
              np ++ (filter (fun x => node_type (snd x) <> CONTROL_PLANE) (zip ps l')).*1,
              iso || ((deployment_type n === ISO) || existsb (fun n => deployment_type n === ISO) l')),
         with_heap h' s, []) /\
        (forall q m, (q, m) ∈ (p, n) :: zip ps l' -> load h' q = Some (settle m)) /\
        (forall q, q ∉ p :: ps -> load h' q = load (heap s) q) /\ next_loc h' = next_loc (heap s)).
    { intros sp np. destruct (IH l' sp np iso' (with_heap h1 s) Hnd HF') as (h' & E & A & B & C).
      exists h'. rewrite E, Hiso. split_and!; [done | | |by rewrite C].
      - intros q m [[= -> ->]|Hq]%elem_of_cons; [|by apply A].
        rewrite (B p Hp). simpl. rewrite A1 by (by apply list_elem_of_singleton). by rewrite Hn.
      - intros q [Hq1 Hq2]%not_elem_of_cons. rewrite (B q Hq2). simpl. apply B1.
        by intros ?%list_elem_of_singleton. }
    rewrite (bind_run_silent _ _ _ _ _ (run_node_at _ _ _ Hn)).
    rewrite (bind_run_silent _ _ _ _ _ E1). fold iso'.
    destruct (node_type n === CONTROL_PLANE) eqn:Ecp.
    + apply seqb_eq in Ecp. rewrite filter_cons_True, filter_cons_False by (simpl; naive_solver).
      destruct (Hrun (setup ++ [p]) new_nodes) as (h' & E & Hrest).
      exists h'. rewrite E. simpl. by rewrite <- app_assoc.
    + apply seqb_neq in Ecp. rewrite filter_cons_False, filter_cons_True by (simpl; naive_solver).
      destruct (Hrun setup (new_nodes ++ [p])) as (h' & E & Hrest).
      exists h'. rewrite E. simpl. by rewrite <- app_assoc.
Qed.

(** Reading back the rows of a table. *)
Definition rows (s : NodeManagementComponent) (ps : list loc) : list NodeClass :=
  omap (load (heap s)) ps.

Lemma rows_zip (P : NodeClass -> Prop) `{forall n, Decision (P n)} s xs :
  (forall q n, (q, n) ∈ xs -> load (heap s) q = Some (settle n)) ->
  (forall n, P (settle n) <-> P n) ->
  rows s (filter (fun x : loc * NodeClass => P (snd x)) xs).*1 = filter P (settle <$> xs.*2).
Proof.
  intros Hl HP. induction xs as [|[q n] xs IH]; [done|].
  assert (IH' := IH (fun q' n' Hin => Hl q' n' (list_elem_of_further _ _ _ Hin))). clear IH.
  specialize (Hl q n (list_elem_of_here _ _)). rewrite !fmap_cons. simpl.
  destruct (decide (P n)) as [Hn|Hn].
  - rewrite filter_cons_True by exact Hn. rewrite filter_cons_True by (by apply HP).
    rewrite fmap_cons. unfold rows in *. simpl. rewrite Hl. by f_equal.
  - rewrite filter_cons_False by exact Hn. rewrite filter_cons_False by (by rewrite HP). done.
Qed.

Lemma filter_fst_type (Q : NodeClass -> Prop) `{forall n, Decision (Q n)} (P : loc -> Prop)
    `{forall p, Decision (P p)} (xs : list (loc * NodeClass)) :
  (forall q n, (q, n) ∈ xs -> P q <-> Q n) ->
  filter P xs.*1 = (filter (fun x => Q (snd x)) xs).*1.
Proof.
  intros HPQ. induction xs as [|[q n] xs IH]; [done|].
  assert (IH' := IH (fun q' n' Hin => HPQ q' n' (list_elem_of_further _ _ _ Hin))). clear IH.
  specialize (HPQ q n (list_elem_of_here _ _)). rewrite fmap_cons. simpl.
  destruct (decide (Q n)) as [Hn|Hn].
  - rewrite filter_cons_True by (by apply HPQ). rewrite filter_cons_True by exact Hn.
    rewrite fmap_cons. by f_equal.
  - rewrite filter_cons_False by (by rewrite HPQ). rewrite filter_cons_False by exact Hn. done.
Qed.

(** The nodes of a response are split over the two tables. *)
Definition is_control_plane (n : NodeClass) : Prop := node_type n = CONTROL_PLANE.
Definition is_listed (n : NodeClass) : Prop :=
  node_type n <> CONTROL_PLANE /\ node_type n <> MIP.

#[export] Instance is_control_plane_dec n : Decision (is_control_plane n).
Proof. unfold is_control_plane. apply _. Defined.
#[export] Instance is_listed_dec n : Decision (is_listed n).
Proof. unfold is_listed. apply _. Defined.

Lemma run_receive l s :
  exists ps h, receive l s = (Ret ps, with_heap h s, []) /\ NoDup ps /\ length ps = length l /\
    Forall2 (fun p n => load h p = Some n) ps l /\
    (forall p, (p < next_loc (heap s))%nat -> load h p = load (heap s) p /\ p ∉ ps) /\
    next_loc h = (next_loc (heap s) + length l)%nat /\ Forall (fun p => p < next_loc h)%nat ps.
Proof.
  unfold receive. destruct (alloc_list l (heap s)) as [ps h] eqn:E.
  destruct (alloc_list_fresh _ _ _ _ E) as [-> Hnext].
  exists (seq (next_loc (heap s)) (length l)), h. split_and!; [done| | | | |done|].
  - apply NoDup_seq.
  - by rewrite length_seq.
  - apply Forall2_same_length_lookup. rewrite length_seq. split; [done|].
    intros i p n Hp Hn. apply lookup_seq in Hp as [-> _]. by apply (alloc_list_new _ _ _ _ _ _ E).
  - intros p Hp. split; [by apply (alloc_list_old _ _ _ _ _ E)|]. rewrite elem_of_seq. lia.
  - apply Forall_forall. intros p Hp%elem_of_seq. lia.
Qed.

(** The whole effect of a response on the component. *)
Lemma run_show_nodes l s :
  exists h ps,
    (ps <- receive l ;; update_nodes_data_ ps) s =
      (Ret tt,
       with_iso_sensor_detected (existsb (fun n => deployment_type n === ISO) l)
        (with_setup_nodes (filter (fun x => is_control_plane (snd x)) (zip ps l)).*1
          (with_nodes (filter (fun x => is_listed (snd x)) (zip ps l)).*1
            (with_heap h s))), []) /\
    length ps = length l /\ NoDup ps /\ Forall (fun p => p < next_loc h)%nat ps /\
    (forall q n, (q, n) ∈ zip ps l -> load h q = Some (settle n)) /\
    (forall p, (p < next_loc (heap s))%nat -> load h p = load (heap s) p /\ p ∉ ps) /\
    (next_loc (heap s) <= next_loc h)%nat.
Proof.
  destruct (run_receive l s) as (ps & h1 & E1 & Hnd & Hlen & HF & Hold & Hnext & Hlt).
  destruct (run_update_nodes_loop ps l [] [] false (with_heap h1 s) Hnd HF)
    as (h & E2 & A & B & C).
  exists h, ps. simpl in B, C.
  split_and!; [|done|done|by rewrite C|done| |lia].
  - rewrite (bind_run_silent _ _ _ _ _ E1). unfold update_nodes_data_.
    rewrite (bind_run_silent _ _ _ _ _ E2). simpl.
    unfold set_nodes_, set_setup_nodes_, set_iso_sensor_detected_, bind, gets, modify. simpl.
    assert (Htype : forall t q n, (q, n) ∈ zip ps l ->
      type_is (with_heap h s) t q = (node_type n === t)).
    { intros t q n Hq. unfold type_is. simpl. rewrite (A q n Hq).
      by destruct (settle_frame n) as (-> & _ & _). }
    rewrite (filter_fst_type (fun n => node_type n <> MIP)).
    2: { intros q n Hq. apply list_elem_of_filter in Hq as [_ Hq].
         rewrite (Htype _ _ _ Hq). apply seqb_neq. }
    rewrite (filter_fst_type (fun n => node_type n <> CONTROL_PLANE)).
    2: { intros q n Hq. rewrite !list_elem_of_filter in Hq. destruct Hq as (_ & _ & Hq).
         rewrite (Htype _ _ _ Hq). apply seqb_neq. }
    rewrite !list_filter_filter.
    repeat f_equal. apply list_filter_iff. intros [q n]. unfold is_listed. simpl. tauto.
  - intros p Hp. destruct (Hold p Hp) as [Hp1 Hp2]. split; [|done]. by rewrite (B p Hp2).
Qed.

(** C1: a response to the node query replaces both tables.  The setup table
    shows exactly the control-plane nodes of the response and the node table
    exactly the others without the MIPs, in the order of the response, each with
    [isDeployed] and [isRemoving] computed from its jobs; the ISO flag tells
    whether some node has the Iso deployment type; nothing is shown to the user
    and no object an earlier response created is changed. *)
Theorem get_nodes_fills_the_tables (l : list NodeClass) (s : NodeManagementComponent) :
  let x := api_get_nodes_answer (Next l) s in
  let s' := state_of x in
  fst (fst x) = Ret tt /\ effects_of x = [] /\
  rows s' (setup_nodes s') = filter is_control_plane (settle <$> l) /\
  rows s' (nodes s') = filter is_listed (settle <$> l) /\
  iso_sensor_detected s' = existsb (fun n => deployment_type n === ISO) l /\
  (forall p, (p < next_loc (heap s))%nat -> load (heap s') p = load (heap s) p).
Proof.
  destruct (run_show_nodes l s) as (h & ps & E & Hlen & _ & _ & A & B & _).
  unfold api_get_nodes_answer. rewrite E. unfold state_of, effects_of; simpl.
  assert (Hz : (zip ps l).*2 = l) by (apply snd_zip; lia).
  split_and!; [done|done| | |done|intros p Hp; by apply B].
  - rewrite rows_zip; [by rewrite Hz | done |].
    intros n. unfold is_control_plane. by destruct (settle_frame n) as (-> & _ & _).
  - rewrite rows_zip; [by rewrite Hz | done |].
    intros n. unfold is_listed. by destruct (settle_frame n) as (-> & _ & _).
Qed.

(** ** Confirmation of the operations that destroy something *)

(** Which turn can subscribe to what. *)
Definition causes (l : label event Ans) (c : call) : Prop :=
  match c with
  | CGetInstalledApps n _ => l = Event (DeleteNode n)
  | DDeleteNode n _ => exists h apps, l = Answered (Ans := Ans) (CGetInstalledApps n h) (Next apps)
  | CDeleteNode n _ => exists d, l = Answered (Ans := Ans) (DDeleteNode n d) (Some CONFIRM_DIALOG_OPTION)
  | DRedeployKit _ => l = Event DeployKit
  | CDeployKit => l = Event DeployKit \/
                  exists d, l = Answered (Ans := Ans) (DRedeployKit d) (Some CONFIRM_DIALOG_OPTION)
  | DRefreshKit _ => l = Event RefreshKit
  | CRefreshKit => exists d, l = Answered (Ans := Ans) (DRefreshKit d) (Some CONFIRM_DIALOG_OPTION)
  | CSetupControlPlane => l = Event SetupControlPlane
  | _ => True
  end.

Section Causes.
Variable P : effect call page -> Prop.
Hypothesis quiet : forall e, (forall c, e <> Subscribe c) -> P e.

Lemma safe_node_at (I : NodeManagementComponent -> Prop) p : safe I P (node_at p).
Proof using. unfold node_at. safe_auto. Qed.

Lemma safe_show_nodes (I : NodeManagementComponent -> Prop) l :
  (forall s, I s -> I (state_of ((ps <- receive l ;; update_nodes_data_ ps) s))) ->
  safe I P (ps <- receive l ;; update_nodes_data_ ps).
Proof using.
  intros HI s Hs. split; [by apply HI|]. destruct (run_show_nodes l s) as (h & ps & E & _).
  rewrite E. constructor.
Qed.

Lemma safe_snackbar (I : NodeManagementComponent -> Prop) m c : safe I P (displaySnackBar m c).
Proof using quiet. apply safe_emit, quiet. done. Qed.
Lemma safe_success' (I : NodeManagementComponent -> Prop) m c :
  safe I P (generate_return_success_snackbar_message m c).
Proof using quiet. apply safe_emit, quiet. done. Qed.
Lemma safe_on_error' (I : NodeManagementComponent -> Prop) m e : safe I P (on_error m e).
Proof using quiet. apply safe_emit, quiet. done. Qed.
Lemma safe_on_error_message' (I : NodeManagementComponent -> Prop) m e :
  safe I P (on_error_message m e).
Proof using quiet. destruct e; apply safe_emit, quiet; done. Qed.
End Causes.

#[export] Hint Resolve safe_node_at safe_snackbar safe_success' safe_on_error' safe_on_error_message' : handler.

Create HintDb node_mng.
#[export] Hint Unfold
  ngOnInit api_get_nodes_ api_get_kit_status_ api_get_kit_settings_ refresh_device_facts
  api_update_device_facts_ download_open_vpn_certs api_get_open_vpn_certs_ deploy_kit
  redeploy_kit_ api_deploy_kit_ setup_control_plane api_setup_control_plane_ delete_node
  api_get_catalog_apps_ refresh_kit api_refresh_kit_ open_node_info_dialog_window
  open_add_node_dialog_window download_iso open_job_server_std_out_console api_get_nodes_answer
  api_get_kit_status_answer api_get_kit_settings_answer api_update_device_facts_answer
  api_get_open_vpn_certs_answer api_deploy_kit_answer api_refresh_kit_answer
  api_setup_control_plane_answer api_delete_node_answer api_get_catalog_apps_answer
  open_delete_node_dialog_window_ refresh_kit_closed redeploy_kit_closed delete_node_closed
  api_delete_node_ assign : node_mng.

Lemma react_causes l :
  safe (fun _ => True) (fun e => forall c, e = Subscribe c -> causes l c) (react l).
Proof.
  assert (Hq : forall e : effect call page, (forall c, e <> Subscribe c) ->
                 forall c, e = Subscribe c -> causes l c) by (intros e He c ->; by destruct (He c)).
  destruct l as [e|c a]; [destruct e | destruct c]; simpl in *; repeat autounfold with node_mng;
    repeat first
      [ apply safe_show_nodes; done
      | safe_step
      | intros ? [= <-]; simpl; eauto
      | match goal with
        | H : confirmed _ = true |- _ => apply oseqb_eq in H; subst; simpl; eauto
        end ]; try done.
Qed.

Definition anything (l : label event Ans) : Prop := True.

Lemma caused tr w l es c :
  trace anything tr w -> (l, es) ∈ tr -> Subscribe c ∈ es -> causes l c.
Proof.
  intros Htr. apply (trace_caused anything (fun _ => True) causes tr w); [done| |done].
  intros l' _. apply react_causes.
Qed.

(** C2: a node is deleted only by a user who asked for it and confirmed.  In
    every interleaving of user actions, answers and socket messages, the turn
    that issues the DELETE request for a node answers a confirm dialog for that
    very node with Confirm; that dialog was opened by an earlier turn, when the
    list of the node's applications arrived; and that list was asked for by a
    still earlier turn, in which the user pressed delete on the node. *)
Theorem delete_needs_confirmation tr w tr1 l es tr2 n h :
  trace anything tr w -> tr = tr1 ++ (l, es) :: tr2 -> Subscribe (CDeleteNode n h) ∈ es ->
  exists d, l = Answered (DDeleteNode n d) (Some CONFIRM_DIALOG_OPTION) /\
  exists u h' apps es' v, tr1 = u ++ (Answered (CGetInstalledApps n h') (Next apps), es') :: v /\
    Subscribe (DDeleteNode n d) ∈ es' /\
  exists u' es'' v', u = u' ++ (Event (DeleteNode n), es'') :: v' /\
    Subscribe (CGetInstalledApps n h') ∈ es''.
Proof.
  intros Htr Heq Hin.
  assert (Hc := fun l0 es0 c => caused tr w l0 es0 c Htr).
  destruct (Hc l es (CDeleteNode n h)) as [d ->]; [rewrite Heq; set_solver | done |].
  exists d. split; [done|].
  destruct (answered_subscribed _ _ _ _ _ _ _ _ Htr Heq) as (u & l' & es' & v & E1 & Hd).
  destruct (Hc l' es' (DDeleteNode n d)) as (h' & apps & ->);
    [rewrite Heq, E1; set_solver | done |].
  exists u, h', apps, es', v. split_and!; [done|done|].
  assert (Heq2 : tr = u ++ (Answered (CGetInstalledApps n h') (Next apps), es') ::
                        (v ++ (Answered (DDeleteNode n d) (Some CONFIRM_DIALOG_OPTION), es) :: tr2)).
  { by rewrite Heq, E1, <- app_assoc. }
  destruct (answered_subscribed _ _ _ _ _ _ _ _ Htr Heq2) as (u' & l2 & es'' & v' & E2 & Hd2).
  assert (Hl2 : causes l2 (CGetInstalledApps n h')).
  { apply (Hc l2 es''); [rewrite Heq, E1, E2; set_solver | done]. }
  simpl in Hl2. subst l2. by exists u', es'', v'.
Qed.

Definition witness_node (t : string) (j : option (list JobClass)) (h : string) : NodeClass :=
  {| _id := Some h; deployment_name := None; deployment_type := "Baremetal"; hostname := h;
     ip_address := "10.0.0.1"; is_remote := None; jobs := j; mac_address := ""; node_type := t;
     raid0_override := None; virtual_cpu := 0; virtual_data := None; virtual_mem := 0; virtual_os := 0;
     vpn_status := None; isDeployed := None; isRemoving := None; status := None; deviceFacts := None |}.

Lemma delete_needs_confirmation_witness :
  exists tr w tr1 es d, trace anything tr w /\
    tr = tr1 ++ (Answered (DDeleteNode 0 d) (Some CONFIRM_DIALOG_OPTION), es) :: [] /\
    Subscribe (CDeleteNode 0 "s1") ∈ es /\
    exists d', Answered (Ans := Ans) (Ev := event) (DDeleteNode 0 d) (Some CONFIRM_DIALOG_OPTION) =
               Answered (DDeleteNode 0 d') (Some CONFIRM_DIALOG_OPTION) /\
    exists u h' apps es' v, tr1 = u ++ (Answered (CGetInstalledApps 0 h') (Next apps), es') :: v /\
      Subscribe (DDeleteNode 0 d') ∈ es' /\
    exists u' es'' v', u = u' ++ (Event (DeleteNode 0), es'') :: v' /\
      Subscribe (CGetInstalledApps 0 h') ∈ es''.
Proof.
  pose proof (trace_start (K := NodeManagement) anything) as T.
  apply (trace_event _ _ _ (NodeStateChange [witness_node SENSOR None "s1"])) in T; [|exact I].
  apply (trace_event _ _ _ (DeleteNode 0)) in T; [|exact I].
  apply (trace_answer _ _ _ [] (CGetInstalledApps 0 "s1") [] (Next [])) in T; [|exact I|reflexivity].
  match type of T with trace _ ?tr ?w =>
    assert (exists d, pending w = [DDeleteNode 0 d]) as [d Hd] by (eexists; reflexivity) end.
  apply (trace_answer _ _ _ [] (DDeleteNode 0 d) [] (Some CONFIRM_DIALOG_OPTION)) in T;
    [|exact I|exact Hd].
  match type of T with trace _ (?tr1 ++ [(_, ?es)]) ?w =>
    assert (Hin : Subscribe (CDeleteNode 0 "s1") ∈ es) by (vm_compute; left);
    exists (tr1 ++ [(Answered (DDeleteNode 0 d) (Some CONFIRM_DIALOG_OPTION), es)]), w, tr1, es, d end.
  split_and!; [exact T|reflexivity|exact Hin|].
  exact (delete_needs_confirmation _ _ _ _ _ [] 0 "s1" T eq_refl Hin).
Defined.

(** Rebuilding or redeploying a cluster that is deployed needs a typed
    confirmation.  A turn that issues the deploy request either is the deploy
    button pressed while the kit status says the base kit is not deployed, or
    answers the redeploy dialog with Confirm; a turn that issues the rebuild
    request answers the refresh dialog with Confirm. *)
Theorem redeploy_needs_confirmation (w : world NodeManagementComponent call) (l : label event Ans) :
  (Subscribe CDeployKit ∈ made l w ->
     (l = Event DeployKit /\ truthy (base_kit_deployed (kit_status_ (component w))) = false) \/
     exists d, l = Answered (DRedeployKit d) (Some CONFIRM_DIALOG_OPTION)) /\
  (Subscribe CRefreshKit ∈ made l w ->
     exists d, l = Answered (DRefreshKit d) (Some CONFIRM_DIALOG_OPTION)).
Proof.
  assert (H : forall c, Subscribe c ∈ made l w -> causes l c).
  { intros c Hc. destruct (react_causes l (component w) I) as [_ HF].
    rewrite Forall_forall in HF. by apply (HF _ Hc). }
  split; intros Hin; specialize (H _ Hin); simpl in H; [|done].
  destruct H as [->|Hd]; [left | by right]. split; [done|].
  unfold made in Hin. simpl in Hin. unfold deploy_kit, bind, gets in Hin. simpl in Hin.
  destruct (truthy (base_kit_deployed (kit_status_ (component w)))); [|done].
  simpl in Hin. apply list_elem_of_singleton in Hin. discriminate.
Qed.

(** The confirm dialog of a deletion does not show the applications that
    will be uninstalled.  Whatever the names of the installed applications are,
    the dialog that opens depends only on how many there are: the caller passes
    their names where the dialog reads the [application] of each element. *)
Theorem delete_dialog_hides_the_applications n (apps1 apps2 : list AppClass) s :
  length apps1 = length apps2 ->
  api_get_catalog_apps_answer n (Next apps1) s = api_get_catalog_apps_answer n (Next apps2) s.
Proof.
  intros Hlen. unfold api_get_catalog_apps_answer. rewrite <- Hlen.
  destruct (Nat.ltb_spec 0 (length apps1)) as [Hpos|]; [|done].
  unfold open_delete_node_dialog_window_. unfold bind. destruct (node_at n s) as [[[node|e] s1] es]; [|done].
  rewrite !bool_decide_eq_false_2; [| |]; cycle 1.
  - destruct apps2; simpl in *; [lia | done].
  - destruct apps1; simpl in *; [lia | done].
  - assert (E : forall l : list AppClass,
      (fun v => if defined v then js_to_string v else "") <$>
        ((fun app => prop app "application") <$> ((fun app => JStr (a_application app)) <$> l)) =
      replicate (length l) "").
    { induction l as [|a l IH]; [done|]. rewrite !fmap_cons. simpl. by f_equal. }
    by rewrite !E, Hlen.
Qed.

Lemma delete_dialog_hides_the_applications_witness :
  length [ {| a_application := "zeek"; a_deployment_name := "s1-zeek" |} ] =
  length [ {| a_application := "suricata"; a_deployment_name := "s1-suricata" |} ] /\
  api_get_catalog_apps_answer 0 (Next [ {| a_application := "zeek"; a_deployment_name := "s1-zeek" |} ]) constructor =
  api_get_catalog_apps_answer 0 (Next [ {| a_application := "suricata"; a_deployment_name := "s1-suricata" |} ]) constructor.
Proof.
  split; [reflexivity|].
  apply (delete_dialog_hides_the_applications 0
    [ {| a_application := "zeek"; a_deployment_name := "s1-zeek" |} ]
    [ {| a_application := "suricata"; a_deployment_name := "s1-suricata" |} ]). reflexivity.
Defined.

(** ** The tables in every reachable state *)

(** A reference of a table names an object of the right kind. *)
Definition shows (P : NodeClass -> Prop) (s : NodeManagementComponent) (p : loc) : Prop :=
  exists n, load (heap s) p = Some n /\ P n.

Definition tables_ok (s : NodeManagementComponent) : Prop :=
  Forall (shows is_control_plane s) (setup_nodes s) /\
  Forall (shows is_listed s) (nodes s) /\
  NoDup (setup_nodes s ++ nodes s) /\
  Forall (fun p => p < next_loc (heap s))%nat (setup_nodes s ++ nodes s).

Lemma tables_ok_assign s p f :
  (forall n, node_type (f n) = node_type n) ->
  tables_ok s -> tables_ok (with_heap (update p f (heap s)) s).
Proof.
  intros Hf (H1 & H2 & H3 & H4).
  assert (Hs : forall P, (forall n, P (f n) <-> P n) ->
            forall q, shows P s q -> shows P (with_heap (update p f (heap s)) s) q).
  { intros P HP q (n & Hn & HPn). destruct (decide (p = q)) as [->|Hne].
    - exists (f n). simpl. rewrite load_update_eq, Hn. split; [done | by apply HP].
    - exists n. simpl. by rewrite load_update_ne. }
  split_and!; simpl; [eapply Forall_impl; [exact H1|] | eapply Forall_impl; [exact H2|] | done | done];
    apply Hs; intros n; unfold is_control_plane, is_listed; by rewrite Hf.
Qed.

Lemma tables_ok_show l s :
  tables_ok s -> tables_ok (state_of ((ps <- receive l ;; update_nodes_data_ ps) s)).
Proof.
  intros _. destruct (run_show_nodes l s) as (h & ps & E & Hlen & Hnd & Hlt & A & _).
  rewrite E. unfold state_of; simpl. unfold tables_ok; simpl.
  set (zs := zip ps l) in *.
  assert (Hps : zs.*1 = ps) by (apply fst_zip; lia).
  assert (Hshow : forall P (D : forall n, Decision (P n)) s',
      heap s' = h -> (forall n, P (settle n) <-> P n) ->
      Forall (shows P s') (filter (fun x : loc * NodeClass => P (snd x)) zs).*1).
  { intros P D s' Hh HP. apply Forall_forall. intros q Hq.
    apply list_elem_of_fmap in Hq as ([q' n] & -> & Hq). apply list_elem_of_filter in Hq as [Hn Hq].
    exists (settle n). rewrite Hh. split; [by apply A | by apply HP]. }
  assert (Hsub : forall (P : NodeClass -> Prop) (D : forall n, Decision (P n)),
      (filter (fun x : loc * NodeClass => P (snd x)) zs).*1 `sublist_of` ps).
  { intros P D. rewrite <- Hps. apply fmap_sublist, sublist_filter. }
  split_and!.
  - apply Hshow; [done|]. intros n. unfold is_control_plane. by destruct (settle_frame n) as (-> & _).
  - apply Hshow; [done|]. intros n. unfold is_listed. by destruct (settle_frame n) as (-> & _).
  - apply NoDup_app. split_and!.
    + eapply sublist_NoDup; [exact Hnd | apply Hsub; apply _].
    + intros q Hq1 Hq2. apply list_elem_of_fmap in Hq1 as ([q1 n1] & -> & Hq1).
      apply list_elem_of_fmap in Hq2 as ([q2 n2] & Heq & Hq2). simpl in Heq. subst q2.
      apply list_elem_of_filter in Hq1 as [Hn1 Hq1]. apply list_elem_of_filter in Hq2 as [Hn2 Hq2].
      assert (settle n1 = settle n2) as Hs.
      { specialize (A _ _ Hq1) as A1. specialize (A _ _ Hq2) as A2. congruence. }
      apply (f_equal node_type) in Hs. destruct (settle_frame n1) as (E1 & _), (settle_frame n2) as (E2 & _).
      unfold is_control_plane, is_listed in *. simpl in *. naive_solver congruence.
    + eapply sublist_NoDup; [exact Hnd | apply Hsub; apply _].
  - rewrite Forall_forall in Hlt. apply Forall_forall. intros q Hq. apply Hlt.
    apply elem_of_app in Hq as [Hq|Hq]; eapply elem_of_sublist; [exact Hq | apply Hsub; apply _ |
      exact Hq | apply Hsub; apply _].
Qed.

(** In every state the component can reach, whatever the order of the
    answers and the messages, the setup table holds only control-plane nodes,
    the node table holds neither control-plane nodes nor MIPs, every row refers
    to an existing object, and no node is in the tables twice. *)
Theorem reachable_tables_ok tr w : trace anything tr w -> tables_ok (component w).
Proof.
  intros Htr. apply (trace_invariant anything tables_ok (fun _ _ => True)) in Htr as [H _]; [done| |].
  - split_and!; simpl; constructor.
  - intros l _. destruct l as [e|c a]; [destruct e | destruct c]; simpl;
      repeat autounfold with node_mng;
      repeat first
        [ apply safe_show_nodes; intros; by apply tables_ok_show
        | apply safe_modify; intros s Hs; first
            [ apply tables_ok_assign; [done | exact Hs] | exact Hs ]
        | safe_step | done ].
Qed.

Lemma reachable_tables_ok_witness :
  exists tr w, trace anything tr w /\ nodes (component w) <> [] /\ tables_ok (component w).
Proof.
  pose proof (trace_start (K := NodeManagement) anything) as T.
  apply (trace_event _ _ _ (NodeStateChange
    [witness_node SENSOR None "s1"; witness_node CONTROL_PLANE None "c1"])) in T; [|exact I].
  match type of T with trace _ ?tr ?w => exists tr, w end.
  split_and!; [exact T | vm_compute; discriminate | exact (reachable_tables_ok _ _ T)].
Defined.

(** ** A refresh between the confirmation and its answer *)

Lemma omap_ext_in {A B} (f g : A -> option B) (l : list A) :
  (forall x, x ∈ l -> f x = g x) -> omap f l = omap g l.
Proof.
  induction l as [|x l IH]; intros H; [done|]. simpl.
  rewrite (H x) by left. destruct (g x); [f_equal|]; apply IH; intros y Hy; apply H; by right.
Qed.

(** The answer to a DELETE marks the object its callback captured.  While
    the tables still show that object, its row turns to removing and every other
    row stays; but when a response with new node objects was shown in the
    meantime, the rows the user sees are left as they are, although the node may
    be among them: only the stale object is marked. *)
Theorem delete_answer_marks_the_captured_object s p n j l :
  tables_ok s -> p ∈ nodes s -> load (heap s) p = Some n ->
  let marked := state_of (api_delete_node_answer p (Next j) s) in
  load (heap marked) p = Some (set_isRemoving true n) /\
  (forall q, q <> p -> load (heap marked) q = load (heap s) q) /\
  nodes marked = nodes s /\ setup_nodes marked = setup_nodes s /\
  let refreshed := state_of (api_get_nodes_answer (Next l) s) in
  let late := state_of (api_delete_node_answer p (Next j) refreshed) in
  rows late (nodes late) = rows refreshed (nodes refreshed) /\
  rows late (setup_nodes late) = rows refreshed (setup_nodes refreshed).
Proof.
  intros Hok Hp Hn. unfold api_delete_node_answer, assign, bind, modify, state_of. simpl.
  split_and!; [by rewrite load_update_eq, Hn | intros q Hq; by apply load_update_ne | done | done | |].
  all: destruct (run_show_nodes l s) as (h & ps & E & Hlen & _ & _ & _ & Hold & _); rewrite E; simpl;
    assert (Hps : p ∉ ps) by
      (destruct Hok as (_ & _ & _ & Hlt); rewrite Forall_forall in Hlt;
       apply Hold; apply Hlt; apply elem_of_app; by right);
    apply omap_ext_in; intros q Hq; simpl; apply load_update_ne; intros <-;
    apply Hps; apply list_elem_of_fmap in Hq as ([q n'] & Heq & Hq);
    apply list_elem_of_filter in Hq as [_ Hq]; simpl in Heq; rewrite Heq; by eapply elem_of_zip_l.
Qed.

Lemma delete_answer_marks_the_captured_object_witness :
  exists s p n j l, (tables_ok s /\ p ∈ nodes s /\ load (heap s) p = Some n) /\
  let marked := state_of (api_delete_node_answer p (Next j) s) in
  load (heap marked) p = Some (set_isRemoving true n) /\
  (forall q, q <> p -> load (heap marked) q = load (heap s) q) /\
  nodes marked = nodes s /\ setup_nodes marked = setup_nodes s /\
  let refreshed := state_of (api_get_nodes_answer (Next l) s) in
  let late := state_of (api_delete_node_answer p (Next j) refreshed) in
  rows late (nodes late) = rows refreshed (nodes refreshed) /\
  rows late (setup_nodes late) = rows refreshed (setup_nodes refreshed).
Proof.
  exists (state_of (api_get_nodes_answer (Next [witness_node SENSOR None "s1"]) constructor)), 0%nat,
    (witness_node SENSOR None "s1"), {| gj_job_id := "1"; redis_key := "k" |}, [witness_node SENSOR None "s1"].
  assert (H : tables_ok (state_of (api_get_nodes_answer (Next [witness_node SENSOR None "s1"]) constructor)))
    by (apply tables_ok_show; split_and!; simpl; constructor).
  assert (Hp : 0%nat ∈ nodes (state_of (api_get_nodes_answer (Next [witness_node SENSOR None "s1"]) constructor)))
    by (vm_compute; left).
  split; [split_and!; [exact H | exact Hp | reflexivity]|].
  apply (delete_answer_marks_the_captured_object _ _ _ _ _ H Hp). reflexivity.
Defined.

(** Which buttons the page enables.  The control plane can be set up only
    before it is deployed, with ESXi and kit settings configured and no job
    running; the kit can be deployed only when it is ready and no job runs; and
    the refresh button looks at [base_kit_deployed] alone: whether jobs are
    running does not change it, although its condition reads [jobs_running]. *)
Theorem button_guards s :
  let k := kit_status_ s in
  (disable_setup_control_plane_button s = false <->
     control_plane_deployed k <> Some true /\ esxi_settings_configured k = Some true /\
     kit_settings_configured k = Some true /\ jobs_running k <> Some true) /\
  (disable_deploy_kit_button s = false <-> ready_to_deploy k = Some true /\ jobs_running k <> Some true) /\
  (disable_refresh_kit_button s = false <-> base_kit_deployed k = Some true).
Proof.
  unfold disable_setup_control_plane_button, disable_deploy_kit_button, disable_refresh_kit_button, truthy.
  destruct (kit_status_ s) as [e1 e2 e3 e4 e5 e6 e7 e8]; simpl.
  destruct e1 as [[]|], e2 as [[]|], e4 as [[]|], e5 as [[]|], e6 as [[]|], e7 as [[]|]; simpl;
    naive_solver.
Qed.
