(* ===== verification/Policy.v ===== *)
(** modules/policy-management/policy-management.component.ts: rule sets and
    their rules.

    Rule sets are objects of a store, mutated in place by the component; the
    array of the rules shown is an array of a second store, because a rule set's
    [rules] and the table's [data] are the same array after the rules are
    fetched.  Rules are never mutated, they are values. *)
From S2P Require Import Prelude Handler JsValue Runtime Data Api Services Sorting Net.

Definition RULE_SETS_TITLE : string := "Rule Sets".
Definition SURICATA : string := "suricata".
Definition ZEEK : string := "zeek".

(** What a [FormGroup] that a dialog returns is read for. *)
Record FormGroup := { fg_valid : bool; fg_value : RuleSetInterface }.

Record RulesGroupUploadInterface := {
  form_group : option FormGroup;
  file_to_upload : string;
}.

(** interfaces/notification.interface.ts, the fields that are read. *)
Record NotificationInterface := { nf_role : string; nf_status : string }.

(** The rule set an update sends: a row, or the value of a form. *)
Inductive update_target : Type :=
| Row (rule_set : loc)
| FormValue (v : RuleSetInterface).

Inductive upload_response : Type :=
| UploadedRule (r : RuleClass)
| UploadedArray (l : list (instance RuleClass))
| UploadedOther.

Inductive call : Type :=
| CSyncRuleSets
| CGetRuleSets
| CGetRules (rule_set : loc) (index : Z) (_id : Z)
| CCreateRuleSet (rule_set : RuleSetInterface)
| CUpdateRuleSet (rule_set : update_target) (enabling_rule_set isEnabled : bool)
| CUploadRuleFile (upload_file : string) (ruleSetForm : RuleSetInterface)
| CToggleRule (rule : RuleClass) (rule_set : loc)
| CDeleteRule (rule : RuleClass) (index : Z)
| CDeleteRuleSet (rule_set : loc) (_id : Z)
| CCheckSuricata
| CCheckZeek
| CGetJobs
| DEditRule (rule_set : loc) (rule : RuleClass)
| DDeleteRule (rule : RuleClass) (rule_set : loc) (data : ConfirmDialogMatDialogDataInterface)
| DDeleteRuleSet (rule_set : loc) (data : ConfirmDialogMatDialogDataInterface)
| DEditRuleSet (rule_set : loc)
| DAddRule (rule_set : loc)
| DAddRuleSet
| DUploadRules (rule_set : loc).

Definition Ans (c : call) : Type :=
  match c with
  | CSyncRuleSets => answer RuleSyncClass
  | CGetRuleSets => answer (list RuleSetClass)
  | CGetRules _ _ _ => answer (list RuleClass)
  | CCreateRuleSet _ => answer RuleSetClass
  | CUpdateRuleSet _ _ _ => answer (instance RuleSetClass)
  | CUploadRuleFile _ _ => answer upload_response
  | CToggleRule _ _ => answer (instance RuleClass)
  | CDeleteRule _ _ | CDeleteRuleSet _ _ => answer (instance SuccessMessageClass)
  | CCheckSuricata | CCheckZeek => answer (option (list CatalogStatusClass))
  | CGetJobs => answer (list QueueJobClass)
  | DEditRule _ _ | DAddRule _ => option RuleClass
  | DDeleteRule _ _ _ | DDeleteRuleSet _ _ => option string
  | DEditRuleSet _ | DAddRuleSet => option FormGroup
  | DUploadRules _ => option RulesGroupUploadInterface
  end.

(** No calls of its own on the page. *)
Definition page : Type := Empty_set.

(** [rules_visible_] maps the indexes of the array to its elements; an index of
    -1 writes a property beside the elements. *)
Record PolicyManagementComponent := {
  rule_sets_data : list loc;
  rule_sets_filter : string;
  rules_data : loc;
  job_status : bool;
  rulesetchange : bool;
  rules_visible_ : gmap Z bool;
  sets : store (RuleSetOf loc);
  arrays : store (list RuleClass);
}.

Definition with_rule_sets_data (v : list loc) (s : PolicyManagementComponent) :=
  {| rule_sets_data := v; rule_sets_filter := rule_sets_filter s; rules_data := rules_data s;
     job_status := job_status s; rulesetchange := rulesetchange s; rules_visible_ := rules_visible_ s;
     sets := sets s; arrays := arrays s |}.
Definition with_rule_sets_filter (v : string) (s : PolicyManagementComponent) :=
  {| rule_sets_data := rule_sets_data s; rule_sets_filter := v; rules_data := rules_data s;
     job_status := job_status s; rulesetchange := rulesetchange s; rules_visible_ := rules_visible_ s;
     sets := sets s; arrays := arrays s |}.
Definition with_rules_data (v : loc) (s : PolicyManagementComponent) :=
  {| rule_sets_data := rule_sets_data s; rule_sets_filter := rule_sets_filter s; rules_data := v;
     job_status := job_status s; rulesetchange := rulesetchange s; rules_visible_ := rules_visible_ s;
     sets := sets s; arrays := arrays s |}.
Definition with_job_status (v : bool) (s : PolicyManagementComponent) :=
  {| rule_sets_data := rule_sets_data s; rule_sets_filter := rule_sets_filter s; rules_data := rules_data s;
     job_status := v; rulesetchange := rulesetchange s; rules_visible_ := rules_visible_ s;
     sets := sets s; arrays := arrays s |}.
Definition with_rulesetchange (v : bool) (s : PolicyManagementComponent) :=
  {| rule_sets_data := rule_sets_data s; rule_sets_filter := rule_sets_filter s; rules_data := rules_data s;
     job_status := job_status s; rulesetchange := v; rules_visible_ := rules_visible_ s;
     sets := sets s; arrays := arrays s |}.
Definition with_rules_visible (v : gmap Z bool) (s : PolicyManagementComponent) :=
  {| rule_sets_data := rule_sets_data s; rule_sets_filter := rule_sets_filter s; rules_data := rules_data s;
     job_status := job_status s; rulesetchange := rulesetchange s; rules_visible_ := v;
     sets := sets s; arrays := arrays s |}.
Definition with_sets (v : store (RuleSetOf loc)) (s : PolicyManagementComponent) :=
  {| rule_sets_data := rule_sets_data s; rule_sets_filter := rule_sets_filter s; rules_data := rules_data s;
     job_status := job_status s; rulesetchange := rulesetchange s; rules_visible_ := rules_visible_ s;
     sets := v; arrays := arrays s |}.
Definition with_arrays (v : store (list RuleClass)) (s : PolicyManagementComponent) :=
  {| rule_sets_data := rule_sets_data s; rule_sets_filter := rule_sets_filter s; rules_data := rules_data s;
     job_status := job_status s; rulesetchange := rulesetchange s; rules_visible_ := rules_visible_ s;
     sets := sets s; arrays := v |}.

Abbreviation M := (handler PolicyManagementComponent (effect call page)).

(** The two tables start with an empty array each. *)
Definition constructor : PolicyManagementComponent :=
  let '(p, a) := alloc [] store_empty in
  {| rule_sets_data := []; rule_sets_filter := ""; rules_data := p; job_status := false;
     rulesetchange := false; rules_visible_ := ∅; sets := store_empty; arrays := a |}.

Definition set_at (p : loc) : M (RuleSetOf loc) :=
  s <- gets (fun s => s) ;; deref (load (sets s) p).

Definition assign (p : loc) (f : RuleSetOf loc -> RuleSetOf loc) : M unit :=
  modify (fun s => with_sets (update p f (sets s)) s).

Definition new_array (l : list RuleClass) : M loc :=
  fun s => let '(p, a) := alloc l (arrays s) in (Ret p, with_arrays a s, []).

(** The objects of a response. *)
Definition receive_set (r : RuleSetClass) : M loc :=
  rules <- match rs_rules r with
           | Some l => p <- new_array l ;; ret (Some p)
           | None => ret None
           end ;;
  fun s => let '(p, h) := alloc (set_rules rules r) (sets s) in (Ret p, with_sets h s, []).

Fixpoint receive_sets (l : list RuleSetClass) : M (list loc) :=
  match l with
  | [] => ret []
  | r :: rest => p <- receive_set r ;; ps <- receive_sets rest ;; ret (p :: ps)
  end.

(** [this.rules_data_source.data] and its assignment. *)
Definition table (s : PolicyManagementComponent) : list RuleClass := default [] (load (arrays s) (rules_data s)).
Definition show_rules (l : list RuleClass) : M unit := p <- new_array l ;; modify (with_rules_data p).

(** [arr[i] = x] for an index that [findIndex] found, or -1, which is not an
    element. *)
Definition store_at {A} (i : Z) (x : A) (l : list A) : list A :=
  if Z.ltb i 0 then l else <[Z.to_nat i := x]> l.

Section Policy.
Context {Col : Collation}.

Definition get_rule_set_index (_id : Z) (s : PolicyManagementComponent) : Z :=
  findIndex (fun p => match load (sets s) p with Some rs => Z.eqb (rs__id rs) _id | None => false end)
            (rule_sets_data s).

Definition get_rule_set_index_ (p : loc) : M Z :=
  rs <- set_at p ;; gets (get_rule_set_index (rs__id rs)).

Definition get_rule_index_ (r : RuleClass) (s : PolicyManagementComponent) : Z :=
  findIndex (fun x => Z.eqb (r__id x) (r__id r)) (table s).

(** ** Requests *)

Definition api_sync_rule_sets_ : M unit := emit (Subscribe CSyncRuleSets).
Definition api_get_rule_sets_ : M unit := emit (Subscribe CGetRuleSets).
Definition api_get_rules_ (rule_set : loc) (index : Z) : M unit :=
  rs <- set_at rule_set ;; emit (Subscribe (CGetRules rule_set index (rs__id rs))).
Definition api_create_rule_set_ (rule_set : RuleSetInterface) : M unit :=
  emit (Subscribe (CCreateRuleSet rule_set)).

Definition api_update_rule_set_ (rule_set : update_target) (enabling_rule_set : bool) : M unit :=
  isEnabled <- match rule_set with
               | Row p => rs <- set_at p ;; ret (rs_isEnabled rs)
               | FormValue v => ret (rsi_isEnabled v)
               end ;;
  emit (Subscribe (CUpdateRuleSet rule_set enabling_rule_set isEnabled)).

Definition api_upload_rule_file_ (upload_file : string) (ruleSetForm : RuleSetInterface) : M unit :=
  emit (Subscribe (CUploadRuleFile upload_file ruleSetForm)).
Definition api_toggle_rule_ (r : RuleClass) (rule_set : loc) : M unit :=
  emit (Subscribe (CToggleRule r rule_set)).
Definition api_delete_rule_ (r : RuleClass) (index : Z) : M unit :=
  emit (Subscribe (CDeleteRule r index)).
Definition api_delete_rule_set_ (rule_set : loc) : M unit :=
  rs <- set_at rule_set ;; emit (Subscribe (CDeleteRuleSet rule_set (rs__id rs))).
Definition api_check_catalog_status_suricata_ : M unit := emit (Subscribe CCheckSuricata).
Definition api_check_catalog_status_zeek_ : M unit := emit (Subscribe CCheckZeek).
Definition api_get_jobs_ : M unit := emit (Subscribe CGetJobs).

(** ** Actions *)

Definition check_rule_sync_status_ : M unit := modify (with_job_status true) ;;; api_get_jobs_.

Definition ngOnInit : M unit :=
  emit (SetTitle RULE_SETS_TITLE) ;;;
  check_rule_sync_status_ ;;;
  api_get_rule_sets_ ;;;
  api_check_catalog_status_suricata_.

(** New data sources over the same arrays: the filter of the old one is lost. *)
Definition ngOnChanges : M unit := modify (with_rule_sets_filter "").

Definition apply_filter (filter : string) : M unit :=
  modify (with_rule_sets_filter (toLowerCase (trim filter))).

(** [new Array(n).fill(false)] *)
Definition all_hidden (n : nat) : gmap Z bool :=
  list_to_map ((fun i => (Z.of_nat i, false)) <$> seq 0 n).

Definition get_rules (rule_set : loc) : M unit :=
  index <- get_rule_set_index_ rule_set ;;
  s <- gets (fun s => s) ;;
  let rules_visible := truthy (rules_visible_ s !! index) in
  modify (with_rules_visible (all_hidden (length (rule_sets_data s)))) ;;;
  for_each (rule_sets_data s) (fun p => assign p (set_rules None)) ;;;
  when (negb rules_visible)
    (modify (fun s => with_rules_visible
       (<[index := negb (truthy (rules_visible_ s !! index))]> (rules_visible_ s)) s)) ;;;
  api_get_rules_ rule_set index.

Definition rules_visible (_id : Z) (s : PolicyManagementComponent) : option bool :=
  rules_visible_ s !! get_rule_set_index _id s.

Definition edit_rule (rule_set : loc) (r : RuleClass) : M unit := emit (Subscribe (DEditRule rule_set r)).

Definition enable_rule_set (rule_set : loc) : M unit :=
  rs <- set_at rule_set ;;
  assign rule_set (set_isEnabled (negb (rs_isEnabled rs))) ;;;
  api_update_rule_set_ (Row rule_set) true.

Definition is_rule_enabled (r : RuleClass) : bool := r_isEnabled r.
Definition enable_rule (r : RuleClass) (rule_set : loc) : M unit := api_toggle_rule_ r rule_set.

Definition delete_rule_confirm_dialog (r : RuleClass) (rule_set : loc) : M unit :=
  emit (Subscribe (DDeleteRule r rule_set
    {| message := "Are you sure you want to permanently remove rule: " +:+ ruleName r +:+ "?";
       title := "Remove Rule"; option1 := CANCEL_DIALOG_OPTION; option2 := CONFIRM_DIALOG_OPTION;
       message_double_confirm := None |})).

Definition delete_rule_set_confirm_dialog (rule_set : loc) : M unit :=
  rs <- set_at rule_set ;;
  emit (Subscribe (DDeleteRuleSet rule_set
    {| title := "Remove Rule Set";
       message := "Are you sure you want to permanently remove rule set: " +:+ rs_name rs +:+ "?";
       option1 := CANCEL_DIALOG_OPTION; option2 := CONFIRM_DIALOG_OPTION;
       message_double_confirm := None |})).

Definition edit_rule_set (rule_set : loc) : M unit := emit (Subscribe (DEditRuleSet rule_set)).
Definition add_rule (rule_set : loc) : M unit := emit (Subscribe (DAddRule rule_set)).
Definition does_rule_set_contain_rules (s : PolicyManagementComponent) : bool :=
  Nat.ltb 0 (length (table s)).

Definition is_array (some_obj : jsval) : bool :=
  match some_obj with JArr _ => true | _ => false end.

Definition rule_sync : M unit :=
  modify (with_job_status true) ;;; modify (with_rulesetchange true) ;;; api_sync_rule_sets_.

Definition add_rule_set : M unit := emit (Subscribe DAddRuleSet).
Definition upload_rules_file (rule_set : loc) : M unit := emit (Subscribe (DUploadRules rule_set)).

(** ** Socket messages *)

Definition socket_refresh_broadcast_ (notification : NotificationInterface) : M unit :=
  when (nf_role notification === "rulesync")
    (when (nf_status notification === "STARTED") (modify (with_job_status true)) ;;;
     when (nf_status notification === "COMPLETED") (modify (with_job_status false)) ;;;
     when (nf_status notification === "ERROR")
       (generate_return_error_snackbar_message
          "performing rule sync. Try operation again, and if problem persists notify servicenow."
          (Some MAT_SNACKBAR_CONFIGURATION_60000_DUR) ;;;
        modify (with_job_status false) ;;;
        modify (with_rulesetchange false))).

Definition socket_refresh_rule_set_change_ : M unit := api_get_rule_sets_.

(** ** Answers *)

Abbreviation DUR := (Some MAT_SNACKBAR_CONFIGURATION_60000_DUR).

Definition api_sync_rule_sets_answer (a : answer RuleSyncClass) : M unit :=
  match a with
  | Next _ =>
      displaySnackBar "Started Rule Sync. Open the notification dialog on the left to see its progress." DUR
  | Error e => on_error "syncing rule sets. Check logs in /var/log/tfplenum/ for more details." e
  end.

(** The comparison reads the objects through their references. *)
Definition compare_rows (s : PolicyManagementComponent) (p q : loc) : Z :=
  match load (sets s) p, load (sets s) q with
  | Some a, Some b => rule_set_alphanum a b
  | _, _ => 0%Z
  end.

Definition api_get_rule_sets_answer (a : answer (list RuleSetClass)) : M unit :=
  match a with
  | Next response =>
      ps <- receive_sets response ;;
      modify (with_rules_visible (all_hidden (length ps))) ;;;
      modify (fun s => with_rule_sets_data (js_sort (compare_rows s) ps) s) ;;;
      modify (with_rulesetchange false)
  | Error e => on_error "getting rule sets" e
  end.

(** [sort] works in place: the array given to the rule set is sorted too. *)
Definition api_get_rules_answer (rule_set : loc) (a : answer (list RuleClass)) : M unit :=
  match a with
  | Next response =>
      p <- new_array response ;;
      assign rule_set (set_rules (Some p)) ;;;
      modify (fun s => with_arrays (update p (js_sort rule_alphanum) (arrays s)) s) ;;;
      modify (with_rules_data p)
  | Error e => on_error "getting rule set rules" e
  end.

Definition api_create_rule_set_answer (a : answer RuleSetClass) : M unit :=
  match a with
  | Next response =>
      p <- receive_set response ;;
      modify (fun s => with_rule_sets_data (rule_sets_data s ++ [p]) s) ;;;
      api_get_rule_sets_ ;;;
      generate_return_success_snackbar_message "added rule set file" DUR
  | Error e => on_error_message "adding rule set file" e
  end.

Definition target_id (rule_set : update_target) : M Z :=
  match rule_set with
  | Row p => rs <- set_at p ;; ret (rs__id rs)
  | FormValue v => ret (rsi__id v)
  end.

Definition api_update_rule_set_answer (rule_set : update_target) (enabling_rule_set isEnabled : bool)
    (a : answer (instance RuleSetClass)) : M unit :=
  let enabled_disabled := if isEnabled then "enabled" else "disabled" in
  let enabling_disabling := if isEnabled then "enabling" else "disabling" in
  let doing := (if enabling_rule_set then enabling_disabling else "updating") +:+ " rule set" in
  match a with
  | Next (Some response) =>
      (if enabling_rule_set then
         p <- receive_set response ;;
         _id <- target_id rule_set ;;
         index <- gets (get_rule_set_index _id) ;;
         modify (fun s => with_rule_sets_data (store_at index p (rule_sets_data s)) s)
       else api_get_rule_sets_) ;;;
      generate_return_success_snackbar_message
        ((if enabling_rule_set then enabled_disabled else "updated") +:+ " rule set") DUR
  | Next None => generate_return_fail_snackbar_message doing DUR
  | Error e => on_error_message doing e
  end.

Definition api_upload_rule_file_answer (a : answer upload_response) : M unit :=
  match a with
  | Next (UploadedRule r) =>
      s <- gets (fun s => s) ;;
      show_rules (table s ++ [r]) ;;;
      displaySnackBar "uploaded ruleset file" DUR
  | Next (UploadedArray l) =>
      match mapM id l with
      | Some rules =>
          s <- gets (fun s => s) ;;
          show_rules (table s ++ rules) ;;;
          displaySnackBar "uploaded ruleset file" DUR
      | None => generate_return_fail_snackbar_message "uploading rule set file" DUR
      end
  | Next UploadedOther => generate_return_fail_snackbar_message "uploading rule set file" DUR
  | Error e => on_error_message "uploading rule set file" e
  end.

(** [this.rules_data_source.data[i] = r], on the array itself. *)
Definition replace_rule (i : Z) (r : RuleClass) : M unit :=
  modify (fun s => with_arrays (update (rules_data s) (store_at i r) (arrays s)) s).

Definition api_toggle_rule_answer (r : RuleClass) (rule_set : loc) (a : answer (instance RuleClass)) : M unit :=
  let enable_disable := if negb (r_isEnabled r) then "enabled" else "disabled" in
  let enabling_disabling := if negb (r_isEnabled r) then "enabling" else "disabling" in
  match a with
  | Next (Some response) =>
      rule_index <- gets (get_rule_index_ r) ;;
      replace_rule rule_index response ;;;
      assign rule_set (set_state "Dirty") ;;;
      rule_set_index <- get_rule_set_index_ rule_set ;;
      modify (fun s => with_rule_sets_data (store_at rule_set_index rule_set (rule_sets_data s)) s) ;;;
      generate_return_success_snackbar_message (enable_disable +:+ " rule") DUR
  | Next None => generate_return_fail_snackbar_message (enabling_disabling +:+ " rule") DUR
  | Error e => on_error_message (enabling_disabling +:+ " rule") e
  end.

Definition api_delete_rule_answer (index : Z) (a : answer (instance SuccessMessageClass)) : M unit :=
  match a with
  | Next (Some response) =>
      s <- gets (fun s => s) ;;
      show_rules (splice1 index (table s)) ;;;
      displaySnackBar (success_message response) DUR
  | Next None => generate_return_fail_snackbar_message "deleting rule" DUR
  | Error e => on_error_message "deleting rule" e
  end.

Definition has_id (s : PolicyManagementComponent) (_id : Z) (p : loc) : bool :=
  match load (sets s) p with Some rs => Z.eqb (rs__id rs) _id | None => false end.

Definition api_delete_rule_set_answer (rule_set : loc) (a : answer (instance SuccessMessageClass)) : M unit :=
  match a with
  | Next (Some response) =>
      rs <- set_at rule_set ;;
      modify (fun s => with_rule_sets_data
        (base.filter (fun p => has_id s (rs__id rs) p = false) (rule_sets_data s)) s) ;;;
      displaySnackBar (success_message response) DUR
  | Next None => generate_return_fail_snackbar_message "deleting rule set" DUR
  | Error e => on_error_message "deleting rule set" e
  end.

Definition is_empty (response : option (list CatalogStatusClass)) : bool :=
  match response with Some [] => true | _ => false end.

Definition api_check_catalog_status_suricata_answer (a : answer (option (list CatalogStatusClass))) : M unit :=
  match a with
  | Next response => when (is_empty response) api_check_catalog_status_zeek_
  | Error e => on_error "getting catalog status for suricata" e
  end.

Definition api_check_catalog_status_zeek_answer (a : answer (option (list CatalogStatusClass))) : M unit :=
  match a with
  | Next response =>
      when (is_empty response)
        (displaySnackBar ("Before using this page, you need to have at least one sensor that has either " +:+
           "                                     Zeek or Suricata installed. Go to the catalog page and install one or both of those applications.") DUR)
  | Error e => on_error "getting catalog status for zeek" e
  end.

(** The [map]s of the pipe. *)
Definition rulesync_running (jobs : list QueueJobClass) : bool :=
  match head (base.filter (fun job => includes_text (qj_description job) "perform_rulesync" = true) jobs) with
  | None => false
  | Some job => qj_status job !== "finished"
  end.

Definition api_get_jobs_answer (a : answer (list QueueJobClass)) : M unit :=
  match a with
  | Next jobs => modify (with_job_status (rulesync_running jobs))
  | Error e => on_error "getting jobs" e
  end.

(** ** Dialogs that close *)

Definition edit_rule_closed (r : RuleClass) (response : option RuleClass) : M unit :=
  match response with
  | Some x =>
      rule_index <- gets (get_rule_index_ r) ;;
      replace_rule rule_index x ;;;
      api_get_rule_sets_
  | None => ret tt
  end.

Definition confirmed (response : option string) : bool := response ?=== CONFIRM_DIALOG_OPTION.

(** The index is the rule's position in the [rules] of its rule set. *)
Definition delete_rule_closed (r : RuleClass) (rule_set : loc) (response : option string) : M unit :=
  when (confirmed response)
    (rs <- set_at rule_set ;;
     p <- deref (rs_rules rs) ;;
     s <- gets (fun s => s) ;;
     rules <- deref (load (arrays s) p) ;;
     api_delete_rule_ r (findIndex (fun x => Z.eqb (r__id x) (r__id r)) rules)).

Definition delete_rule_set_closed (rule_set : loc) (response : option string) : M unit :=
  when (confirmed response) (api_delete_rule_set_ rule_set).

Definition edit_rule_set_closed (response : option FormGroup) : M unit :=
  match response with
  | Some f => when (fg_valid f) (api_update_rule_set_ (FormValue (fg_value f)) false)
  | None => ret tt
  end.

(** [push] and [sort] work on the array itself. *)
Definition add_rule_closed (response : option RuleClass) : M unit :=
  match response with
  | Some r =>
      modify (fun s => with_arrays (update (rules_data s) (fun l => js_sort rule_alphanum (l ++ [r])) (arrays s)) s)
  | None => ret tt
  end.

Definition add_rule_set_closed (response : option FormGroup) : M unit :=
  match response with
  | Some f => when (fg_valid f) (api_create_rule_set_ (fg_value f))
  | None => ret tt
  end.

Definition upload_rules_closed (response : option RulesGroupUploadInterface) : M unit :=
  match response with
  | Some u =>
      match form_group u with
      | Some f =>
          when (fg_valid f)
            (displaySnackBar "Uploading rules file. Please wait for a confirmation message." DUR ;;;
             api_upload_rule_file_ (file_to_upload u) (fg_value f))
      | None => ret tt
      end
  | None => ret tt
  end.

(** ** The component *)

Inductive event : Type :=
| NgOnInit
| NgOnChanges
| ApplyFilter (filter : string)
| GetRules (rule_set : loc)
| EditRule (rule_set : loc) (r : RuleClass)
| EnableRuleSet (rule_set : loc)
| EnableRule (r : RuleClass) (rule_set : loc)
| DeleteRule (r : RuleClass) (rule_set : loc)
| DeleteRuleSet (rule_set : loc)
| EditRuleSet (rule_set : loc)
| AddRule (rule_set : loc)
| RuleSync
| AddRuleSet
| UploadRulesFile (rule_set : loc)
| Broadcast (notification : NotificationInterface)
| RuleSetChange.

Definition on_ev (e : event) : M unit :=
  match e with
  | NgOnInit => ngOnInit
  | NgOnChanges => ngOnChanges
  | ApplyFilter f => apply_filter f
  | GetRules p => get_rules p
  | EditRule p r => edit_rule p r
  | EnableRuleSet p => enable_rule_set p
  | EnableRule r p => enable_rule r p
  | DeleteRule r p => delete_rule_confirm_dialog r p
  | DeleteRuleSet p => delete_rule_set_confirm_dialog p
  | EditRuleSet p => edit_rule_set p
  | AddRule p => add_rule p
  | RuleSync => rule_sync
  | AddRuleSet => add_rule_set
  | UploadRulesFile p => upload_rules_file p
  | Broadcast n => socket_refresh_broadcast_ n
  | RuleSetChange => socket_refresh_rule_set_change_
  end.

Definition on_ans (c : call) : Ans c -> M unit :=
  match c with
  | CSyncRuleSets => api_sync_rule_sets_answer
  | CGetRuleSets => api_get_rule_sets_answer
  | CGetRules p _ _ => api_get_rules_answer p
  | CCreateRuleSet _ => api_create_rule_set_answer
  | CUpdateRuleSet t enabling isEnabled => api_update_rule_set_answer t enabling isEnabled
  | CUploadRuleFile _ _ => api_upload_rule_file_answer
  | CToggleRule r p => api_toggle_rule_answer r p
  | CDeleteRule _ index => api_delete_rule_answer index
  | CDeleteRuleSet p _ => api_delete_rule_set_answer p
  | CCheckSuricata => api_check_catalog_status_suricata_answer
  | CCheckZeek => api_check_catalog_status_zeek_answer
  | CGetJobs => api_get_jobs_answer
  | DEditRule _ r => edit_rule_closed r
  | DDeleteRule r p _ => delete_rule_closed r p
  | DDeleteRuleSet p _ => delete_rule_set_closed p
  | DEditRuleSet _ => edit_rule_set_closed
  | DAddRule _ => add_rule_closed
  | DAddRuleSet => add_rule_set_closed
  | DUploadRules _ => upload_rules_closed
  end.

#[export] Instance PolicyManagement : Component PolicyManagementComponent call page event Ans := {|
  initial := constructor;
  on_event := on_ev;
  on_answer := on_ans;
|}.

Create HintDb policy.
#[local] Hint Unfold
  ngOnInit check_rule_sync_status_ ngOnChanges apply_filter get_rules edit_rule enable_rule_set
  enable_rule delete_rule_confirm_dialog delete_rule_set_confirm_dialog edit_rule_set add_rule
  rule_sync add_rule_set upload_rules_file socket_refresh_broadcast_ socket_refresh_rule_set_change_
  api_sync_rule_sets_ api_get_rule_sets_ api_get_rules_ api_create_rule_set_ api_update_rule_set_
  api_upload_rule_file_ api_toggle_rule_ api_delete_rule_ api_delete_rule_set_
  api_check_catalog_status_suricata_ api_check_catalog_status_zeek_ api_get_jobs_
  api_sync_rule_sets_answer api_get_rule_sets_answer api_get_rules_answer api_create_rule_set_answer
  api_update_rule_set_answer api_upload_rule_file_answer api_toggle_rule_answer api_delete_rule_answer
  api_delete_rule_set_answer api_check_catalog_status_suricata_answer
  api_check_catalog_status_zeek_answer api_get_jobs_answer edit_rule_closed delete_rule_closed
  delete_rule_set_closed edit_rule_set_closed add_rule_closed add_rule_set_closed upload_rules_closed
  get_rule_set_index_ set_at assign target_id replace_rule show_rules : policy.

Lemma safe_new_array I P l :
  (forall s a, I s -> I (with_arrays a s)) -> safe I P (new_array l).
Proof using. intros H s Hs. split; [by apply H | constructor]. Qed.

Lemma safe_receive_set I P r :
  (forall s a, I s -> I (with_arrays a s)) -> (forall s h, I s -> I (with_sets h s)) ->
  safe I P (receive_set r).
Proof using.
  intros Ha Hh. unfold receive_set. apply safe_bind.
  - destruct (rs_rules r); [apply safe_bind; [by apply safe_new_array | intros ?; apply safe_ret] | apply safe_ret].
  - intros rules s Hs. split; [by apply Hh | constructor].
Qed.

Lemma safe_receive_sets I P l :
  (forall s a, I s -> I (with_arrays a s)) -> (forall s h, I s -> I (with_sets h s)) ->
  safe I P (receive_sets l).
Proof using.
  intros Ha Hh. induction l as [|r l IH]; [apply safe_ret|]. simpl.
  apply safe_bind; [by apply safe_receive_set | intros p]. apply safe_bind; [done | intros ps; apply safe_ret].
Qed.

(** Walks a handler of the component. *)
Local Ltac walk :=
  repeat autounfold with policy;
  repeat first [apply safe_receive_sets | apply safe_receive_set | apply safe_new_array | safe_step].

(** ** When rules and rule sets are deleted *)

Definition causes (l : label event Ans) (c : call) : Prop :=
  match c with
  | CDeleteRule r _ => exists p d, l = Answered (Ans := Ans) (DDeleteRule r p d) (Some CONFIRM_DIALOG_OPTION)
  | CDeleteRuleSet p _ => exists d, l = Answered (Ans := Ans) (DDeleteRuleSet p d) (Some CONFIRM_DIALOG_OPTION)
  | DDeleteRule r p _ => l = Event (DeleteRule r p)
  | DDeleteRuleSet p _ => l = Event (DeleteRuleSet p)
  | _ => True
  end.

Lemma policy_react_causes l : safe (fun _ => True) (only (causes l)) (react l).
Proof using.
  destruct l as [e|c a]; [destruct e | destruct c]; simpl in *; walk; try done;
    try (intros ? [= <-]; simpl;
         repeat match goal with H : confirmed _ = true |- _ => apply oseqb_eq in H end; subst; eauto).
Qed.

Definition anything (l : label event Ans) : Prop := True.

Lemma policy_caused tr w l es c :
  trace anything tr w -> (l, es) ∈ tr -> Subscribe c ∈ es -> causes l c.
Proof using.
  intros Htr. apply (trace_caused anything (fun _ => True) causes tr w); [done| |done].
  intros l' _. apply policy_react_causes.
Qed.

(** C8: rules and rule sets are deleted only by a user who asked for it and
    confirmed.  In every interleaving of user actions, answers and socket
    messages, the turn that sends the DELETE of a rule answers the confirm
    dialog of that very rule with Confirm, and that dialog was opened by an
    earlier turn in which the user pressed delete on the rule; likewise for rule
    sets. *)
Theorem rule_delete_needs_confirmation tr w tr1 l es tr2 :
  trace anything tr w -> tr = tr1 ++ (l, es) :: tr2 ->
  (forall r i, Subscribe (CDeleteRule r i) ∈ es ->
     exists p d, l = Answered (DDeleteRule r p d) (Some CONFIRM_DIALOG_OPTION) /\
     exists u es' v, tr1 = u ++ (Event (DeleteRule r p), es') :: v) /\
  (forall p i, Subscribe (CDeleteRuleSet p i) ∈ es ->
     exists d, l = Answered (DDeleteRuleSet p d) (Some CONFIRM_DIALOG_OPTION) /\
     exists u es' v, tr1 = u ++ (Event (DeleteRuleSet p), es') :: v).
Proof using.
  intros Htr Heq. assert (Hc := fun l0 es0 c => policy_caused tr w l0 es0 c Htr).
  assert (Hin : (l, es) ∈ tr) by (rewrite Heq, elem_of_app, elem_of_cons; auto).
  split.
  - intros r i Hs. destruct (Hc _ _ _ Hin Hs) as (p & d & ->). exists p, d. split; [done|].
    destruct (answered_subscribed _ _ _ _ _ _ _ _ Htr Heq) as (u & l' & es' & v & E1 & Hd).
    assert (l' = Event (DeleteRule r p)) as ->.
    { apply (Hc l' es' (DDeleteRule r p d)); [|done].
      rewrite Heq, E1, !elem_of_app, elem_of_cons. auto. }
    eauto.
  - intros p i Hs. destruct (Hc _ _ _ Hin Hs) as (d & ->). exists d. split; [done|].
    destruct (answered_subscribed _ _ _ _ _ _ _ _ Htr Heq) as (u & l' & es' & v & E1 & Hd).
    assert (l' = Event (DeleteRuleSet p)) as ->.
    { apply (Hc l' es' (DDeleteRuleSet p d)); [|done].
      rewrite Heq, E1, !elem_of_app, elem_of_cons. auto. }
    eauto.
Qed.

(** ** Which rules are visible *)

Definition one_visible (s : PolicyManagementComponent) : Prop :=
  forall i j, truthy (rules_visible_ s !! i) = true -> truthy (rules_visible_ s !! j) = true -> i = j.

Lemma all_hidden_lookup n i : truthy (all_hidden n !! i) = false.
Proof using.
  unfold all_hidden. destruct (_ !! i) as [b|] eqn:E; [|done].
  apply elem_of_list_to_map_2, list_elem_of_fmap in E as (k & [= -> ->] & _). done.
Qed.

Lemma one_visible_hidden n s : one_visible (with_rules_visible (all_hidden n) s).
Proof using. intros i j. simpl. by rewrite all_hidden_lookup. Qed.

Definition none_visible (s : PolicyManagementComponent) : Prop :=
  forall i, truthy (rules_visible_ s !! i) = false.

Lemma none_one s : none_visible s -> one_visible s.
Proof using. intros H i j Hi. by rewrite H in Hi. Qed.

Lemma safe_get_rules P p : (forall c, P (Subscribe c)) -> safe one_visible P (get_rules p).
Proof using.
  intros HP. unfold get_rules.
  apply safe_bind; [walk; done | intros index]. apply safe_bind; [walk | intros s0].
  apply (leads_bind _ none_visible); [|apply none_one|intros _].
  { apply leads_modify. intros s _ i. apply all_hidden_lookup. }
  apply (leads_bind _ none_visible); [|apply none_one|intros _].
  { apply (leads_safe _ none_visible); [done | walk; done | done]. }
  apply (leads_bind _ one_visible); [|done|intros _; apply leads_safe with one_visible; [done | walk; auto | done]].
  destruct (negb _); simpl; [|apply leads_safe with none_visible; [done | walk | apply none_one]].
  apply leads_modify. intros s Hs i j. simpl.
  destruct (decide (i = index)) as [->|]; destruct (decide (j = index)) as [->|]; auto;
    rewrite ?(lookup_insert_ne _ index i), ?(lookup_insert_ne _ index j), ?Hs by done; done.
Qed.

(** Whatever the user, the server and the socket do, in every state the
    page can reach the rules of at most one rule set are visible. *)
Theorem at_most_one_visible tr w : trace anything tr w -> one_visible (component w).
Proof using.
  intros Htr. apply (trace_invariant anything one_visible (fun _ _ => True)) in Htr as [H _]; [done| |].
  - intros i j. simpl. by rewrite lookup_empty.
  - intros l _. destruct l as [e|c a]; [destruct e | destruct c]; simpl in *;
      try (by apply safe_get_rules);
      walk; try done; try (intros ? ? H; exact H); apply one_visible_hidden.
Qed.

(** ** The synchronisation flag *)

(** What ends a running synchronisation: a message that it completed or failed,
    or a job list without a running one. *)
Definition ends_sync (l : label event Ans) : bool :=
  match l with
  | Event (Broadcast n) =>
      (nf_role n === "rulesync") && ((nf_status n === "COMPLETED") || (nf_status n === "ERROR"))
  | Event _ => false
  | Answered c a =>
      match c return Ans c -> bool with
      | CGetJobs => fun a => match a with Next jobs => negb (rulesync_running jobs) | Error _ => false end
      | _ => fun _ => false
      end a
  end.

Lemma status_kept l :
  ends_sync l = false -> safe (fun s => job_status s = true) (fun _ => True) (react l).
Proof using.
  intros Hl. destruct l as [e|c a]; [destruct e | destruct c]; simpl in *; walk; simpl in *; try done;
    repeat match goal with H : (_ === _) = true |- _ => rewrite H in * end; simpl in *; try done.
  - by rewrite orb_true_r in Hl.
  - by apply negb_false_iff in Hl.
Qed.

Lemma status_cleared l s : ends_sync l = true -> job_status (state_of (react l s)) = false.
Proof using.
  destruct l as [e|c a]; [destruct e as [| | | | | | | | | | | | | |n|] | destruct c]; simpl; try done.
  - intros [Hr Hs]%andb_true_iff. unfold socket_refresh_broadcast_. rewrite Hr.
    destruct (nf_status n === "STARTED") eqn:E1.
    { apply seqb_eq in E1. by rewrite E1 in Hs. }
    apply orb_true_iff in Hs as [Hs|Hs]; rewrite Hs; apply seqb_eq in Hs; rewrite Hs; done.
  - destruct a as [jobs|e]; [|done]. intros H%negb_true_iff. exact H.
Qed.

(** While the page shows a running rule synchronisation, exactly two kinds
    of turns end it: a rulesync message with status COMPLETED or ERROR, and a
    job list in which the first rule synchronisation is missing or finished.  In
    particular the failure of the request that was to start it does not: it
    leaves the whole state as it is, and the page keeps showing a
    synchronisation that never began. *)
Theorem sync_ends_only_by_message w l w' :
  step w l w' -> job_status (component w) = true ->
  (job_status (component w') = false <-> ends_sync l = true) /\
  (forall e, l = Answered CSyncRuleSets (Error e) -> component w' = component w).
Proof using.
  intros Hstep Hj. rewrite (step_component _ _ _ Hstep). split; [split|].
  - intros Hf. destruct (ends_sync l) eqn:E; [done|]. exfalso.
    destruct (status_kept l E _ Hj) as [H _]. congruence.
  - apply status_cleared.
  - by intros e ->.
Qed.

(** ** Fetching the rule sets *)

Definition resolve (s : PolicyManagementComponent) (o : RuleSetOf loc) : RuleSetClass :=
  set_rules (p ← rs_rules o; load (arrays s) p) o.

(** The rule sets the table shows. *)
Definition shown (s : PolicyManagementComponent) : list RuleSetClass :=
  omap (fun p => resolve s <$> load (sets s) p) (rule_sets_data s).

(** [s'] has the objects of [s], perhaps more, and is else the same. *)
Definition grows (s s' : PolicyManagementComponent) : Prop :=
  (exists h a, s' = with_arrays a (with_sets h s)) /\
  (next_loc (sets s) <= next_loc (sets s'))%nat /\ (next_loc (arrays s) <= next_loc (arrays s'))%nat /\
  (forall p, (p < next_loc (sets s))%nat -> load (sets s') p = load (sets s) p) /\
  (forall p, (p < next_loc (arrays s))%nat -> load (arrays s') p = load (arrays s) p).

Lemma grows_refl s : grows s s.
Proof using. split_and!; auto. exists (sets s), (arrays s). by destruct s. Qed.

Lemma grows_trans s1 s2 s3 : grows s1 s2 -> grows s2 s3 -> grows s1 s3.
Proof using.
  intros ((h & a & ->) & H1 & H2 & H3 & H4) ((h' & a' & ->) & G1 & G2 & G3 & G4). simpl in *.
  split_and!; simpl; [by exists h', a' | lia | lia | |]; intros p Hp.
  - rewrite G3 by lia. auto.
  - rewrite G4 by lia. auto.
Qed.

(** The row [p] shows [r]. *)
Definition holds (s : PolicyManagementComponent) (p : loc) (r : RuleSetClass) : Prop :=
  (p < next_loc (sets s))%nat /\ exists o, load (sets s) p = Some o /\ resolve s o = r /\
  forall q, rs_rules o = Some q -> (q < next_loc (arrays s))%nat.

Lemma holds_grows s s' p r : grows s s' -> holds s p r -> holds s' p r.
Proof using.
  intros (_ & H1 & H2 & H3 & H4) (Hp & o & Ho & Hr & Hq). split; [lia|]. exists o.
  rewrite H3 by done. split_and!; [done | | intros q E; specialize (Hq q E); lia].
  rewrite <- Hr. unfold resolve. f_equal. destruct (rs_rules o) as [q|]; [|done]. simpl. auto.
Qed.

Lemma run_receive_set r s :
  exists p s', receive_set r s = (Ret p, s', []) /\ grows s s' /\ holds s' p r.
Proof using.
  unfold receive_set. destruct r as [i [l|] ap cl nm se st ss cd lm en]; cbn [rs_rules]; eexists _, _;
    (split; [reflexivity|]); unfold holds, grows; cbn.
  - split_and!; try lia.
    + eexists _, _. reflexivity.
    + intros p Hp. unfold load; simpl. by rewrite lookup_insert_ne by lia.
    + intros p Hp. unfold load; simpl. by rewrite lookup_insert_ne by lia.
    + eexists. unfold load; simpl. rewrite lookup_insert_eq. split_and!; [done | |].
      * unfold resolve; simpl. unfold load; simpl. by rewrite lookup_insert_eq.
      * intros q [= <-]. lia.
  - split_and!; try lia; try done.
    + eexists _, (arrays s). reflexivity.
    + intros p Hp. unfold load; simpl. by rewrite lookup_insert_ne by lia.
    + eexists. unfold load; simpl. by rewrite lookup_insert_eq.
Qed.

Lemma run_receive_sets l s :
  exists ps s', receive_sets l s = (Ret ps, s', []) /\ grows s s' /\ Forall2 (holds s') ps l.
Proof using.
  revert s. induction l as [|r l IH]; intros s; simpl.
  - exists [], s. split_and!; [done | apply grows_refl | constructor].
  - destruct (run_receive_set r s) as (p & s1 & E1 & G1 & H1).
    destruct (IH s1) as (ps & s2 & E2 & G2 & H2). exists (p :: ps), s2.
    rewrite (bind_run_silent _ _ _ _ _ E1), (bind_run_silent _ _ _ _ _ E2). split_and!; [done | |].
    + by apply (grows_trans s s1).
    + constructor; [by apply (holds_grows s1) | done].
Qed.

Lemma holds_compare s p q r r' :
  holds s p r -> holds s q r' -> compare_rows s p q = rule_set_alphanum r r'.
Proof using.
  intros (_ & o & Ho & <- & _) (_ & o' & Ho' & <- & _). unfold compare_rows. by rewrite Ho, Ho'.
Qed.

Lemma holds_shown s l : Forall2 (holds s) (rule_sets_data s) l -> shown s = l.
Proof using.
  unfold shown. induction 1 as [|p r ps l (_ & o & Ho & Hr & _) _ IH]; [done|].
  simpl. rewrite Ho. simpl. rewrite Hr. f_equal. exact IH.
Qed.

(** A response to the rule set query replaces the table by the rule sets of
    the response, sorted by name in the order of the locale, hides every rule
    list, ends the pending change, and keeps the synchronisation flag and the
    shown rules; equal names keep the order of the response. *)
Theorem get_rule_sets_sorts response s :
  let x := api_get_rule_sets_answer (Next response) s in
  let s' := state_of x in
  fst (fst x) = Ret tt /\ effects_of x = [] /\
  shown s' ≡ₚ response /\ StronglySorted (cmp_le rule_set_alphanum) (shown s') /\
  (forall k, filter (same_rank rule_set_alphanum k) (shown s') =
             filter (same_rank rule_set_alphanum k) response) /\
  none_visible s' /\ rulesetchange s' = false /\ job_status s' = job_status s /\
  rules_data s' = rules_data s.
Proof using.
  destruct (run_receive_sets response s) as (ps & s1 & E & ((h & a & ->) & _) & H).
  simpl. unfold api_get_rule_sets_answer. rewrite (bind_run_silent _ _ _ _ _ E).
  cbv zeta. unfold bind, modify. cbn [state_of effects_of fst snd app].
  match goal with |- context [shown ?s'] =>
    assert (S' : shown s' = js_sort rule_set_alphanum response) end.
  { apply holds_shown. simpl. apply (js_sort_related _ _ rule_set_alphanum); [|exact H].
    intros p q r r' Hp Hq. by apply (holds_compare (with_arrays a (with_sets h s))). }
  rewrite S'. split_and!; try done.
  - apply js_sort_permutation.
  - apply js_sort_sorted; intros *; [apply (by_text_antisym rs_name) | apply (by_text_trans rs_name)].
  - intros k. apply js_sort_stable; intros *; [apply (by_text_antisym rs_name) | apply (by_text_trans rs_name)].
  - intros i. apply all_hidden_lookup.
Qed.

(** ** Deleting rules *)

(** The table shows the rules [l] of the rule set [p], whose [rules] is the
    array [q]. *)
Definition opened (s : PolicyManagementComponent) (p q : loc) (l : list RuleClass) : Prop :=
  exists rs, load (sets s) p = Some rs /\ rs_rules rs = Some q /\ load (arrays s) q = Some l.

(** Fetching the rules opens their rule set: the table is its [rules]. *)
Lemma get_rules_opens p response s :
  is_Some (load (sets s) p) ->
  let s' := state_of (api_get_rules_answer p (Next response) s) in
  exists q, opened s' p q (js_sort rule_alphanum response) /\ rules_data s' = q.
Proof using.
  intros [rs Hrs]. exists (next_loc (arrays s)). split; [|done].
  exists (set_rules (Some (next_loc (arrays s))) rs). cbn -[load update].
  split_and!; [by rewrite load_update_eq, Hrs | done |].
  rewrite load_update_eq. unfold load; simpl. by rewrite lookup_insert_eq.
Qed.

Lemma findIndex_unique l i r :
  NoDup (r__id <$> l) -> l !! i = Some r ->
  findIndex (fun x => Z.eqb (r__id x) (r__id r)) l = Z.of_nat i.
Proof using.
  revert i. induction l as [|x l IH]; intros i Hnd Hi; [done|]. simpl in *.
  apply NoDup_cons in Hnd as [Hx Hnd]. destruct i as [|i]; simpl in *.
  - injection Hi as ->. by rewrite Z.eqb_refl.
  - destruct (Z.eqb_spec (r__id x) (r__id r)) as [E|_].
    + exfalso. apply Hx. rewrite E. apply list_elem_of_fmap. exists r. split; [done|].
      by apply list_elem_of_lookup_2 in Hi.
    + rewrite (IH i) by done. destruct (Z.eqb_spec (Z.of_nat i) (-1)); lia.
Qed.

(** Confirming the deletion of the rule at position [i] of an opened rule set
    asks the server to delete that rule, with the index [i]. *)
Lemma confirmed_deletes s p q l i r :
  opened s p q l -> NoDup (r__id <$> l) -> l !! i = Some r ->
  delete_rule_closed r p (Some CONFIRM_DIALOG_OPTION) s =
    (Ret tt, s, [Subscribe (CDeleteRule r (Z.of_nat i))]).
Proof using.
  intros (rs & Hrs & Hq & Hl) Hnd Hi. unfold delete_rule_closed, confirmed. cbn [when].
  unfold set_at, bind, gets, deref, ret, api_delete_rule_, emit. simpl.
  rewrite Hrs, Hq, Hl. by rewrite (findIndex_unique l i r).
Qed.

Lemma splice1_delete {A} (i : nat) (l : list A) : splice1 (Z.of_nat i) l = delete i l.
Proof using.
  rewrite delete_take_drop. destruct (decide (i < length l)%nat) as [Hi|Hi]; [by apply splice1_nat|].
  unfold splice1. destruct (Z.ltb_spec (Z.of_nat i) 0); [lia|].
  replace (Z.to_nat (Z.min (Z.of_nat i) (Z.of_nat (length l)))) with (length l) by lia.
  by rewrite !take_ge, !drop_ge by lia.
Qed.

(** The answer: the table gets a new array; the rule set keeps the old one. *)
Lemma delete_answer_run s m i :
  store_wf (arrays s) ->
  let s' := state_of (api_delete_rule_answer (Z.of_nat i) (Next (Some m)) s) in
  table s' = delete i (table s) /\ store_wf (arrays s') /\ rule_sets_data s' = rule_sets_data s /\
  forall p q l, opened s p q l -> opened s' p q l.
Proof using.
  intros Hwf. cbn -[load splice1]. rewrite splice1_delete. split_and!.
  - unfold table; simpl. unfold load; simpl. by rewrite lookup_insert_eq.
  - intros q. unfold load; simpl. intros [x [[<- _]|[_ Hx]]%lookup_insert_Some]; [lia|].
    specialize (Hwf q (ex_intro _ _ Hx)). lia.
  - done.
  - intros p q l (rs & Hrs & Hq & Hl). exists rs. split_and!; [done | done |].
    specialize (Hwf q (ex_intro _ _ Hl)). unfold load; simpl. by rewrite lookup_insert_ne by lia.
Qed.

(** Deleting rules one after the other.  On a rule set whose rules were
    just fetched, the confirmed deletion of a rule removes exactly that rule
    from the table when the server acknowledges it.  A second deletion, of a
    rule further down, sends the right rule to the server but removes the wrong
    row: the index is taken from the rule set's own array, which still holds the
    first rule.  The deleted rule stays in the table and the rule below it, if
    there is one, disappears. *)
Theorem second_delete_removes_wrong_row s p q l i j r1 r2 m1 m2 :
  store_wf (arrays s) -> opened s p q l -> rules_data s = q -> NoDup (r__id <$> l) ->
  l !! i = Some r1 -> l !! j = Some r2 -> (i < j)%nat ->
  delete_rule_closed r1 p (Some CONFIRM_DIALOG_OPTION) s =
    (Ret tt, s, [Subscribe (CDeleteRule r1 (Z.of_nat i))]) /\
  let s1 := state_of (api_delete_rule_answer (Z.of_nat i) (Next (Some m1)) s) in
  table s1 = delete i l /\ r1 ∉ table s1 /\
  delete_rule_closed r2 p (Some CONFIRM_DIALOG_OPTION) s1 =
    (Ret tt, s1, [Subscribe (CDeleteRule r2 (Z.of_nat j))]) /\
  let s2 := state_of (api_delete_rule_answer (Z.of_nat j) (Next (Some m2)) s1) in
  r2 ∈ table s2 /\ (forall r3, l !! S j = Some r3 -> r3 ∉ table s2).
Proof using.
  intros Hwf Hop Hq Hnd H1 H2 Hij. split; [by apply (confirmed_deletes s p q l)|].
  assert (Ht : table s = l).
  { destruct Hop as (rs & _ & _ & Hl). unfold table. by rewrite Hq, Hl. }
  destruct (delete_answer_run s m1 i Hwf) as (T1 & Hwf1 & _ & O1). rewrite Ht in T1. cbv zeta in *.
  set (s1 := state_of _) in *. apply O1 in Hop as Hop1.
  destruct (delete_answer_run s1 m2 j Hwf1) as (T2 & _). cbv zeta in T2. rewrite T1 in T2.
  assert (Hl : NoDup l) by (by apply NoDup_fmap_1 in Hnd).
  assert (Hi : (i < length l)%nat) by (by eapply lookup_lt_Some).
  assert (D : forall k r, l !! k = Some r -> forall n, (delete i l) !! n = Some r -> k = if decide (n < i) then n else S n).
  { intros k r Hk n Hn. destruct (decide (n < i)).
    - rewrite list_lookup_delete_lt in Hn by done. by eapply NoDup_lookup.
    - rewrite list_lookup_delete_ge in Hn by lia. by eapply NoDup_lookup. }
  split_and!; [done | | by apply (confirmed_deletes s1 p q l) | |].
  - rewrite T1. intros (n & Hn)%list_elem_of_lookup. apply (D i r1 H1) in Hn.
    destruct (decide (n < i)); lia.
  - rewrite T2. apply (list_elem_of_lookup_2 _ (j - 1)).
    rewrite list_lookup_delete_lt by lia. rewrite list_lookup_delete_ge by lia.
    by replace (S (j - 1)) with j by lia.
  - intros r3 H3. rewrite T2. intros (n & Hn)%list_elem_of_lookup.
    destruct (decide (n < j)).
    + rewrite list_lookup_delete_lt in Hn by done. apply (D _ r3 H3) in Hn.
      destruct (decide (n < i)); lia.
    + rewrite list_lookup_delete_ge in Hn by lia. apply (D _ r3 H3) in Hn.
      destruct (decide (S n < i)); lia.
Qed.

(** ** Enabling a rule set *)

(** Enabling or disabling a rule set is optimistic.  The row is flipped
    before the request, which carries the new value; when the server answers,
    the row is replaced, in its place, by the rule set the server sent; when the
    request fails, nothing takes the flip back: the row keeps showing the value
    the server did not accept. *)
Theorem enable_rule_set_is_optimistic s p rs :
  load (sets s) p = Some rs ->
  let x := enable_rule_set p s in
  let s1 := state_of x in
  load (sets s1) p = Some (set_isEnabled (negb (rs_isEnabled rs)) rs) /\
  effects_of x = [Subscribe (CUpdateRuleSet (Row p) true (negb (rs_isEnabled rs)))] /\
  (forall e, state_of (api_update_rule_set_answer (Row p) true (negb (rs_isEnabled rs)) (Error e) s1) = s1) /\
  (forall i response, findIndex (fun k => has_id s (rs__id rs) k) (rule_sets_data s) = Z.of_nat i ->
     store_wf (sets s) -> Forall (fun k => is_Some (load (sets s) k)) (rule_sets_data s) ->
     let s2 := state_of (api_update_rule_set_answer (Row p) true (negb (rs_isEnabled rs))
                           (Next (Some response)) s1) in
     exists k, rule_sets_data s2 = <[i := k]> (rule_sets_data s) /\ holds s2 k response).
Proof using.
  intros Hp.
  assert (E : enable_rule_set p s =
    (Ret tt, with_sets (update p (set_isEnabled (negb (rs_isEnabled rs))) (sets s)) s,
     [Subscribe (CUpdateRuleSet (Row p) true (negb (rs_isEnabled rs)))])).
  { unfold enable_rule_set, set_at, assign, api_update_rule_set_, set_at, bind, gets, deref, ret, modify, emit.
    rewrite Hp. cbn -[load update]. by rewrite load_update_eq, Hp. }
  rewrite E. cbn [state_of effects_of fst snd]. set (s1 := with_sets _ s).
  assert (L : load (sets s1) p = Some (set_isEnabled (negb (rs_isEnabled rs)) rs)).
  { subst s1. simpl sets. by rewrite load_update_eq, Hp. }
  split_and!; [done | done | by intros [] |].
  intros i response Hi Hwf Hall.
  destruct (run_receive_set response s1) as (k & s1' & Ek & G & Hk).
  exists k. unfold api_update_rule_set_answer.
  assert (Lk : load (sets s1') p = Some (set_isEnabled (negb (rs_isEnabled rs)) rs)).
  { destruct G as (_ & _ & _ & G3 & _). rewrite G3; [done|]. apply (Hwf p). by eexists. }
  assert (Ix : get_rule_set_index (rs__id rs) s1' = Z.of_nat i).
  { rewrite <- Hi. unfold get_rule_set_index. destruct G as ((h & a & ->) & _ & _ & G3 & _).
    apply findIndex_ext. intros r Hr. rewrite Forall_forall in Hall. specialize (Hall r Hr).
    rewrite G3 by (apply (Hwf r), Hall). unfold has_id, s1. simpl sets.
    destruct (decide (r = p)) as [->|]; [by rewrite load_update_eq, Hp | by rewrite load_update_ne]. }
  assert (Run : (p0 <- receive_set response ;; _id <- target_id (Row p) ;;
      index <- gets (get_rule_set_index _id) ;;
      modify (fun s => with_rule_sets_data (store_at index p0 (rule_sets_data s)) s)) s1 =
    (Ret tt, with_rule_sets_data (<[i := k]> (rule_sets_data s)) s1', [])).
  { rewrite (bind_run_silent _ _ _ _ _ Ek). unfold target_id, set_at, bind, gets, deref, ret, modify.
    rewrite Lk. cbn [app]. destruct rs as [id ru ap cl nm se st ss cd lm en].
    cbn [set_isEnabled rs__id] in *. rewrite Ix. unfold store_at.
    destruct (Z.ltb_spec (Z.of_nat i) 0); [lia|]. rewrite Nat2Z.id.
    by destruct G as ((h & a & ->) & _). }
  rewrite (bind_run_silent _ _ _ _ _ Run). split; [done|]. exact Hk.
Qed.
End Policy.

(** ** Witnesses *)

Definition witness_rule (i : Z) (name : string) : RuleClass :=
  {| r__id := i; ruleName := name; rule := ""; r_createdDate := ""; r_lastModifiedDate := "";
     r_isEnabled := true; byPassValidation := false; rule_set_id := 1 |}.

Definition witness_set (i : Z) (name : string) : RuleSetClass :=
  RuleSet i (Some []) "Suricata" "Secret" name [] "Synced" [] "" "" true.

(** Two rule sets, the rules of the second one fetched. *)
Definition witness_state : PolicyManagementComponent :=
  state_of (api_get_rules_answer 1 (Next [witness_rule 1 "a"; witness_rule 2 "b"; witness_rule 3 "c"])
    (state_of (api_get_rule_sets_answer (Next [witness_set 7 "x"; witness_set 8 "y"]) constructor))).

Lemma witness_opened :
  opened witness_state 1 3 [witness_rule 1 "a"; witness_rule 2 "b"; witness_rule 3 "c"].
Proof. eexists. split_and!; vm_compute; reflexivity. Qed.

(** Deleting a and then b leaves b in the table and removes c. *)
Example second_delete_removes_wrong_row_witness :
  let s1 := state_of (api_delete_rule_answer 0 (Next (Some (Build_SuccessMessageClass "done"))) witness_state) in
  let s2 := state_of (api_delete_rule_answer 1 (Next (Some (Build_SuccessMessageClass "done"))) s1) in
  table s2 = [witness_rule 2 "b"] /\ witness_rule 2 "b" ∈ table s2 /\ witness_rule 3 "c" ∉ table s2.
Proof.
  split; [vm_compute; reflexivity|].
  destruct (second_delete_removes_wrong_row witness_state 1 3
    [witness_rule 1 "a"; witness_rule 2 "b"; witness_rule 3 "c"] 0 1 (witness_rule 1 "a") (witness_rule 2 "b")
    (Build_SuccessMessageClass "done") (Build_SuccessMessageClass "done")) as (_ & _ & _ & _ & H1 & H2).
  - apply store_wfb_wf. vm_compute. reflexivity.
  - apply witness_opened.
  - vm_compute. reflexivity.
  - apply (proj1 (bool_decide_eq_true (NoDup [1; 2; 3]%Z))). vm_compute. reflexivity.
  - reflexivity.
  - reflexivity.
  - lia.
  - split; [exact H1 | exact (H2 _ eq_refl)].
Defined.

Example at_most_one_visible_witness : exists tr w, trace anything tr w /\
  rules_visible_ (component w) !! 1%Z = Some true /\ one_visible (component w).
Proof.
  pose proof (trace_start (K := PolicyManagement) anything) as T.
  apply (trace_event _ _ _ RuleSetChange) in T; [|exact I].
  apply (trace_answer _ _ _ [] CGetRuleSets [] (Next [witness_set 7 "x"; witness_set 8 "y"])) in T;
    [|exact I|reflexivity].
  apply (trace_event _ _ _ (GetRules 0)) in T; [|exact I].
  apply (trace_event _ _ _ (GetRules 1)) in T; [|exact I].
  match type of T with trace _ ?tr ?w => exists tr, w end.
  split; [exact T|]. split; [vm_compute; reflexivity | exact (at_most_one_visible _ _ T)].
Defined.

(** The synchronisation that could not be started keeps running on the page. *)
Example sync_ends_only_by_message_witness :
  let w := after (K := PolicyManagement) (Event RuleSync) [] (World initial []) in
  let failed := after (K := PolicyManagement) (Answered CSyncRuleSets (Error (HttpFailure None))) [] w in
  step w (Answered CSyncRuleSets (Error (HttpFailure None))) failed /\
  job_status (component w) = true /\ component failed = component w.
Proof.
  intros w failed.
  assert (H : step w (Answered CSyncRuleSets (Error (HttpFailure None))) failed)
    by exact (step_answer w [] CSyncRuleSets [] _ eq_refl).
  split; [exact H|]. split; [reflexivity|].
  exact (proj2 (sync_ends_only_by_message w _ failed H eq_refl) _ eq_refl).
Defined.

Example enable_rule_set_is_optimistic_witness :
  let s1 := state_of (enable_rule_set 1 witness_state) in
  rs_isEnabled <$> load (sets s1) 1 = Some false /\
  state_of (api_update_rule_set_answer (Row 1) true false (Error (HttpFailure None)) s1) = s1.
Proof.
  destruct (load (sets witness_state) 1) as [rs|] eqn:E; [|discriminate E].
  pose proof (enable_rule_set_is_optimistic witness_state 1 rs E) as (H1 & _ & H3 & _).
  injection E as <-. split; [cbv zeta; rewrite H1; reflexivity | apply H3].
Defined.

Example rule_delete_needs_confirmation_witness : exists tr w es d r,
  trace anything tr w /\ Subscribe (CDeleteRule r 0) ∈ es /\
  exists tr1, tr = tr1 ++ [(Answered (DDeleteRule r 1 d) (Some CONFIRM_DIALOG_OPTION), es)] /\
  exists u es' v, tr1 = u ++ (Event (DeleteRule r 1), es') :: v.
Proof.
  set (r := witness_rule 1 "a").
  pose proof (trace_start (K := PolicyManagement) anything) as T.
  apply (trace_event _ _ _ RuleSetChange) in T; [|exact I].
  apply (trace_answer _ _ _ [] CGetRuleSets [] (Next [witness_set 7 "x"; witness_set 8 "y"])) in T;
    [|exact I|reflexivity].
  apply (trace_event _ _ _ (GetRules 1)) in T; [|exact I].
  apply (trace_answer _ _ _ [] (CGetRules 1 1 8) [] (Next [r])) in T; [|exact I|reflexivity].
  apply (trace_event _ _ _ (DeleteRule r 1)) in T; [|exact I].
  match type of T with trace _ _ ?w =>
    assert (exists d, pending w = [DDeleteRule r 1 d]) as [d Hd] by (eexists; reflexivity) end.
  apply (trace_answer _ _ _ [] (DDeleteRule r 1 d) [] (Some CONFIRM_DIALOG_OPTION)) in T; [|exact I|exact Hd].
  match type of T with trace _ (?tr1 ++ [(_, ?es)]) ?w =>
    assert (Hin : Subscribe (CDeleteRule r 0) ∈ es) by (vm_compute; left);
    exists (tr1 ++ [(Answered (DDeleteRule r 1 d) (Some CONFIRM_DIALOG_OPTION), es)]), w, es, d, r;
    split; [exact T|]; split; [exact Hin|]; exists tr1; split; [reflexivity|];
    destruct (proj1 (rule_delete_needs_confirmation _ _ tr1 _ es [] T eq_refl) r 0%Z Hin)
      as (p & d' & Hl & u & es' & v & E)
  end.
  injection Hl as <- <- || (inversion Hl; subst). exists u, es', v. exact E.
Defined.
