(* ===== verification/Catalog.v ===== *)
(** modules/catalog/components/catalog-page/catalog-page.component.ts: the page
    that installs, reinstalls and uninstalls an application of the catalog.

    Nodes are objects of a store; the children of the processes and the node
    list are arrays of a store, shared between the processes and the page; the
    form groups of the hosts are objects too, because the callbacks that check
    the dependencies of a checkbox hold them. *)
From S2P Require Import Prelude Sorting Handler JsValue Json Runtime Data Api Services Forms Net.
From Stdlib Require Import Ascii.

Definition ROUTER_CATALOG : string := "/catalog".
Definition DEPLOYED : string := "DEPLOYED".
Definition UNKNOWN : string := "UNKNOWN".
Definition INSTALL : string := "install".
Definition REINSTALL : string := "reinstall".
Definition UNINSTALL : string := "uninstall".
Definition SERVER_ANY_VALUE : string := "Server - Any".
Definition SERVER_VALUE : string := "Server".
Definition SERVICE_VALUE : string := "Service".
Definition SENSOR_VALUE : string := "Sensor".
Definition TAKE_ME_BACK_DIALOG_OPTION : string := "Take Me Back".
Definition CONTINUE_DIALOG_OPTION : string := "Continue".

(** interfaces/process.interface.ts *)
Record ProcessInterface := {
  process : string;
  pi_name : string;
  children : loc;
}.

(** What the text editor dialog is opened with. *)
Record TextEditorConfigurationInterface := {
  te_title : string;
  te_text : jsval;
  use_language : string;
}.

Inductive call : Type :=
| CGetChartInfo (application : string)
| CGetChartStatuses (chart_info_dev_dependent : bool) (pass_value : string)
| CGetCatalogNodes
| CGetSavedValues (application : string)
| CGenerateValuesFile (generate_file : GenerateFileInterface)
| CInstall (a : CatalogHelmActionInterface)
| CReinstall (a : CatalogHelmActionInterface)
| CUninstall (a : CatalogHelmActionInterface)
| CGetIfaceStates (node : loc) (hostname : string)
| CCheckDependencies (key : string) (checkbox_dependent_app : string) (hostname_form_group : loc)
| DConfirmDependency (data : ConfirmDialogMatDialogDataInterface)
| DTextEditor (node : loc) (data : TextEditorConfigurationInterface).

Definition Ans (c : call) : Type :=
  match c with
  | CGetChartInfo _ => answer ChartInfoClass
  | CGetChartStatuses _ _ => answer (list StatusClass)
  | CGetCatalogNodes => answer (list NodeClass)
  | CGetSavedValues _ => answer (list SavedValueClass)
  | CGenerateValuesFile _ => answer (list jsval)
  | CInstall _ | CReinstall _ | CUninstall _ => answer GenericJobAndKeyClass
  | CGetIfaceStates _ _ => answer (list IFACEStateClass)
  | CCheckDependencies _ _ _ => answer (list ChartClass)
  | DConfirmDependency _ => option string
  | DTextEditor _ _ => option string
  end.

Inductive page : Type := DetectChanges.

(** [s.match('([^\/]+$)')]: the last segment of the address. *)
Definition last_segment (url : string) : option string :=
  match List.rev (split_on "/"%char url) with
  | s :: _ => if s === "" then None else Some s
  | [] => None
  end.

Definition upper_char (c : Ascii.ascii) : Ascii.ascii :=
  let n := Ascii.nat_of_ascii c in
  if ((97 <=? n) && (n <=? 122))%nat then Ascii.ascii_of_nat (n - 32) else c.

(** [s.charAt(0).toUpperCase() + s.slice(1)] *)
Definition upper_first (s : string) : string :=
  match s with EmptyString => EmptyString | String c r => String (upper_char c) r end.

Definition is_lower (c : Ascii.ascii) : bool :=
  let n := Ascii.nat_of_ascii c in ((97 <=? n) && (n <=? 122))%nat.
Definition is_upper (c : Ascii.ascii) : bool :=
  let n := Ascii.nat_of_ascii c in ((65 <=? n) && (n <=? 90))%nat.

(** [s.replace(/([a-z](?=[A-Z]))/g, '$1_')] *)
Fixpoint break_camel (s : string) : string :=
  match s with
  | String c (String d _ as r) =>
      if is_lower c && is_upper d then String c (String "_"%char (break_camel r)) else String c (break_camel r)
  | _ => s
  end.

Definition get_label_or_placeholder (control_name : string) : string :=
  join_with " " (upper_first <$> split_on "_"%char (toLowerCase (break_camel control_name))).

(** [new Map(l.map(x => [key(x), x]))]: a key keeps its first position and gets
    its last value. *)
Fixpoint map_set {K A} `{EqDecision K} (k : K) (x : A) (m : list (K * A)) : list (K * A) :=
  match m with
  | [] => [(k, x)]
  | (j, y) :: r => if decide (j = k) then (j, x) :: r else (j, y) :: map_set k x r
  end.

Definition dedupe {K A} `{EqDecision K} (key : A -> K) (l : list A) : list A :=
  (fold_left (fun m x => map_set (key x) x m) l []).*2.

(** A property name made of a possibly undefined text. *)
Definition key_of (o : option string) : string := default "undefined" o.

(** The first status of the application says DEPLOYED. *)
Definition dependency_deployed (checkbox_dependent_app : string) (response : list ChartClass) : bool :=
  let appValues :=
    head (ch_nodes <$> base.filter (fun c => (ch_application c === checkbox_dependent_app) = true) response) in
  match appValues with Some (st :: _) => s_status st === "DEPLOYED" | _ => false end.

(** One object per property. *)
Definition singletons (fs : list (string * jsval)) : list jsval := (fun f => JObj [f]) <$> fs.

Section Catalog.
Context {Col : Collation} {J : JSON} `{Ctl : Controls control} `{Grp : Groups group} {V : NgValidators}.

(** The process form: three controls. *)
Record process_form := {
  pf_selectedProcess : control string;
  pf_selectedNodes : control (list loc);
  pf_node_affinity : control string;
}.

(** [value_form_group] is never undefined: the constructor sets it. *)
Record CatalogPageComponent := {
  process_form_group : option process_form;
  config_form_group : option (group loc);
  value_form_group : group (control jsval);
  node_list : loc;
  process_list : list ProcessInterface;
  chart_info : option ChartInfoClass;
  nodes : option (list loc);
  set_children_called_ : bool;
  saved_values_ : option (list SavedValueClass);
  statuses_ : option (list StatusClass);
  config_array_ : list jsval;
  service_node_available_ : bool;
  sensor_interface_states_ : gmap string (gmap string IFACEStateClass);
  heap : store NodeClass;
  arrays : store (list loc);
  groups : store (group (control jsval));
}.

Abbreviation M := (handler CatalogPageComponent (effect call page)).

Definition with_process_form_group (v : option process_form) (s : CatalogPageComponent) :=
  {| process_form_group := v; config_form_group := config_form_group s;
     value_form_group := value_form_group s; node_list := node_list s;
     process_list := process_list s; chart_info := chart_info s; nodes := nodes s;
     set_children_called_ := set_children_called_ s; saved_values_ := saved_values_ s;
     statuses_ := statuses_ s; config_array_ := config_array_ s;
     service_node_available_ := service_node_available_ s;
     sensor_interface_states_ := sensor_interface_states_ s; heap := heap s; arrays := arrays s;
     groups := groups s |}.
Definition with_config_form_group (v : option (group loc)) (s : CatalogPageComponent) :=
  {| process_form_group := process_form_group s; config_form_group := v;
     value_form_group := value_form_group s; node_list := node_list s;
     process_list := process_list s; chart_info := chart_info s; nodes := nodes s;
     set_children_called_ := set_children_called_ s; saved_values_ := saved_values_ s;
     statuses_ := statuses_ s; config_array_ := config_array_ s;
     service_node_available_ := service_node_available_ s;
     sensor_interface_states_ := sensor_interface_states_ s; heap := heap s; arrays := arrays s;
     groups := groups s |}.
Definition with_value_form_group (v : group (control jsval)) (s : CatalogPageComponent) :=
  {| process_form_group := process_form_group s; config_form_group := config_form_group s;
     value_form_group := v; node_list := node_list s; process_list := process_list s;
     chart_info := chart_info s; nodes := nodes s; set_children_called_ := set_children_called_ s;
     saved_values_ := saved_values_ s; statuses_ := statuses_ s; config_array_ := config_array_ s;
     service_node_available_ := service_node_available_ s;
     sensor_interface_states_ := sensor_interface_states_ s; heap := heap s; arrays := arrays s;
     groups := groups s |}.
Definition with_node_list (v : loc) (s : CatalogPageComponent) :=
  {| process_form_group := process_form_group s; config_form_group := config_form_group s;
     value_form_group := value_form_group s; node_list := v; process_list := process_list s;
     chart_info := chart_info s; nodes := nodes s; set_children_called_ := set_children_called_ s;
     saved_values_ := saved_values_ s; statuses_ := statuses_ s; config_array_ := config_array_ s;
     service_node_available_ := service_node_available_ s;
     sensor_interface_states_ := sensor_interface_states_ s; heap := heap s; arrays := arrays s;
     groups := groups s |}.
Definition with_process_list (v : list ProcessInterface) (s : CatalogPageComponent) :=
  {| process_form_group := process_form_group s; config_form_group := config_form_group s;
     value_form_group := value_form_group s; node_list := node_list s; process_list := v;
     chart_info := chart_info s; nodes := nodes s; set_children_called_ := set_children_called_ s;
     saved_values_ := saved_values_ s; statuses_ := statuses_ s; config_array_ := config_array_ s;
     service_node_available_ := service_node_available_ s;
     sensor_interface_states_ := sensor_interface_states_ s; heap := heap s; arrays := arrays s;
     groups := groups s |}.
Definition with_chart_info (v : option ChartInfoClass) (s : CatalogPageComponent) :=
  {| process_form_group := process_form_group s; config_form_group := config_form_group s;
     value_form_group := value_form_group s; node_list := node_list s;
     process_list := process_list s; chart_info := v; nodes := nodes s;
     set_children_called_ := set_children_called_ s; saved_values_ := saved_values_ s;
     statuses_ := statuses_ s; config_array_ := config_array_ s;
     service_node_available_ := service_node_available_ s;
     sensor_interface_states_ := sensor_interface_states_ s; heap := heap s; arrays := arrays s;
     groups := groups s |}.
Definition with_nodes (v : option (list loc)) (s : CatalogPageComponent) :=
  {| process_form_group := process_form_group s; config_form_group := config_form_group s;
     value_form_group := value_form_group s; node_list := node_list s;
     process_list := process_list s; chart_info := chart_info s; nodes := v;
     set_children_called_ := set_children_called_ s; saved_values_ := saved_values_ s;
     statuses_ := statuses_ s; config_array_ := config_array_ s;
     service_node_available_ := service_node_available_ s;
     sensor_interface_states_ := sensor_interface_states_ s; heap := heap s; arrays := arrays s;
     groups := groups s |}.
Definition with_set_children_called (v : bool) (s : CatalogPageComponent) :=
  {| process_form_group := process_form_group s; config_form_group := config_form_group s;
     value_form_group := value_form_group s; node_list := node_list s;
     process_list := process_list s; chart_info := chart_info s; nodes := nodes s;
     set_children_called_ := v; saved_values_ := saved_values_ s; statuses_ := statuses_ s;
     config_array_ := config_array_ s; service_node_available_ := service_node_available_ s;
     sensor_interface_states_ := sensor_interface_states_ s; heap := heap s; arrays := arrays s;
     groups := groups s |}.
Definition with_saved_values (v : option (list SavedValueClass)) (s : CatalogPageComponent) :=
  {| process_form_group := process_form_group s; config_form_group := config_form_group s;
     value_form_group := value_form_group s; node_list := node_list s;
     process_list := process_list s; chart_info := chart_info s; nodes := nodes s;
     set_children_called_ := set_children_called_ s; saved_values_ := v; statuses_ := statuses_ s;
     config_array_ := config_array_ s; service_node_available_ := service_node_available_ s;
     sensor_interface_states_ := sensor_interface_states_ s; heap := heap s; arrays := arrays s;
     groups := groups s |}.
Definition with_statuses (v : option (list StatusClass)) (s : CatalogPageComponent) :=
  {| process_form_group := process_form_group s; config_form_group := config_form_group s;
     value_form_group := value_form_group s; node_list := node_list s;
     process_list := process_list s; chart_info := chart_info s; nodes := nodes s;
     set_children_called_ := set_children_called_ s; saved_values_ := saved_values_ s;
     statuses_ := v; config_array_ := config_array_ s;
     service_node_available_ := service_node_available_ s;
     sensor_interface_states_ := sensor_interface_states_ s; heap := heap s; arrays := arrays s;
     groups := groups s |}.
Definition with_config_array (v : list jsval) (s : CatalogPageComponent) :=
  {| process_form_group := process_form_group s; config_form_group := config_form_group s;
     value_form_group := value_form_group s; node_list := node_list s;
     process_list := process_list s; chart_info := chart_info s; nodes := nodes s;
     set_children_called_ := set_children_called_ s; saved_values_ := saved_values_ s;
     statuses_ := statuses_ s; config_array_ := v;
     service_node_available_ := service_node_available_ s;
     sensor_interface_states_ := sensor_interface_states_ s; heap := heap s; arrays := arrays s;
     groups := groups s |}.
Definition with_service_node_available (v : bool) (s : CatalogPageComponent) :=
  {| process_form_group := process_form_group s; config_form_group := config_form_group s;
     value_form_group := value_form_group s; node_list := node_list s;
     process_list := process_list s; chart_info := chart_info s; nodes := nodes s;
     set_children_called_ := set_children_called_ s; saved_values_ := saved_values_ s;
     statuses_ := statuses_ s; config_array_ := config_array_ s; service_node_available_ := v;
     sensor_interface_states_ := sensor_interface_states_ s; heap := heap s; arrays := arrays s;
     groups := groups s |}.
Definition with_sensor_interface_states (v : gmap string (gmap string IFACEStateClass)) (s : CatalogPageComponent) :=
  {| process_form_group := process_form_group s; config_form_group := config_form_group s;
     value_form_group := value_form_group s; node_list := node_list s;
     process_list := process_list s; chart_info := chart_info s; nodes := nodes s;
     set_children_called_ := set_children_called_ s; saved_values_ := saved_values_ s;
     statuses_ := statuses_ s; config_array_ := config_array_ s;
     service_node_available_ := service_node_available_ s; sensor_interface_states_ := v;
     heap := heap s; arrays := arrays s; groups := groups s |}.
Definition with_heap (v : store NodeClass) (s : CatalogPageComponent) :=
  {| process_form_group := process_form_group s; config_form_group := config_form_group s;
     value_form_group := value_form_group s; node_list := node_list s;
     process_list := process_list s; chart_info := chart_info s; nodes := nodes s;
     set_children_called_ := set_children_called_ s; saved_values_ := saved_values_ s;
     statuses_ := statuses_ s; config_array_ := config_array_ s;
     service_node_available_ := service_node_available_ s;
     sensor_interface_states_ := sensor_interface_states_ s; heap := v; arrays := arrays s;
     groups := groups s |}.
Definition with_arrays (v : store (list loc)) (s : CatalogPageComponent) :=
  {| process_form_group := process_form_group s; config_form_group := config_form_group s;
     value_form_group := value_form_group s; node_list := node_list s;
     process_list := process_list s; chart_info := chart_info s; nodes := nodes s;
     set_children_called_ := set_children_called_ s; saved_values_ := saved_values_ s;
     statuses_ := statuses_ s; config_array_ := config_array_ s;
     service_node_available_ := service_node_available_ s;
     sensor_interface_states_ := sensor_interface_states_ s; heap := heap s; arrays := v;
     groups := groups s |}.
Definition with_groups (v : store (group (control jsval))) (s : CatalogPageComponent) :=
  {| process_form_group := process_form_group s; config_form_group := config_form_group s;
     value_form_group := value_form_group s; node_list := node_list s;
     process_list := process_list s; chart_info := chart_info s; nodes := nodes s;
     set_children_called_ := set_children_called_ s; saved_values_ := saved_values_ s;
     statuses_ := statuses_ s; config_array_ := config_array_ s;
     service_node_available_ := service_node_available_ s;
     sensor_interface_states_ := sensor_interface_states_ s; heap := heap s; arrays := arrays s;
     groups := v |}.

(** [PROCESS_LIST] deep-copied, and the empty node list: four new arrays. *)
Definition constructor : CatalogPageComponent :=
  let '(ps, a) := alloc_list [[]; []; []; []] store_empty in
  {| process_form_group := None; config_form_group := None; value_form_group := empty_group;
     node_list := ps !!! 3;
     process_list := [{| process := INSTALL; pi_name := "Install"; children := ps !!! 0 |};
                      {| process := REINSTALL; pi_name := "Reinstall"; children := ps !!! 1 |};
                      {| process := UNINSTALL; pi_name := "Uninstall"; children := ps !!! 2 |}];
     chart_info := None; nodes := None; set_children_called_ := false; saved_values_ := None;
     statuses_ := None; config_array_ := []; service_node_available_ := false;
     sensor_interface_states_ := ∅; heap := store_empty; arrays := a; groups := store_empty |}.

(** ** Reading the state: an undefined member throws when it is read further *)

Definition get : M CatalogPageComponent := gets (fun s => s).
Definition info : M ChartInfoClass := s <- get ;; deref (chart_info s).
Definition form : M process_form := s <- get ;; deref (process_form_group s).
Definition node_at (p : loc) : M NodeClass := s <- get ;; deref (load (heap s) p).
Definition assign (p : loc) (f : NodeClass -> NodeClass) : M unit :=
  modify (fun s => with_heap (update p f (heap s)) s).
Definition set_form (f : process_form) : M unit := modify (with_process_form_group (Some f)).

(** [this.process_form_group.getRawValue().selectedNodes] *)
Definition selected_nodes : M (list loc) := f <- form ;; ret (control_value (pf_selectedNodes f)).
Definition selected_process : M string := f <- form ;; ret (control_value (pf_selectedProcess f)).

Definition with_selectedNodes (g : control (list loc) -> control (list loc)) (f : process_form) : process_form :=
  {| pf_selectedProcess := pf_selectedProcess f; pf_selectedNodes := g (pf_selectedNodes f);
     pf_node_affinity := pf_node_affinity f |}.
Definition with_selectedProcess (g : control string -> control string) (f : process_form) : process_form :=
  {| pf_selectedProcess := g (pf_selectedProcess f); pf_selectedNodes := pf_selectedNodes f;
     pf_node_affinity := pf_node_affinity f |}.

(** [this.process_form_group.getRawValue()] as it is sent. *)
Definition raw_process : M ProcessFromFormGroup :=
  f <- form ;;
  s <- get ;;
  ret {| Services.selectedProcess := JStr (control_value (pf_selectedProcess f));
         Services.selectedNodes := omap (load (heap s)) (control_value (pf_selectedNodes f));
         Services.p_node_affinity := JStr (control_value (pf_node_affinity f)) |}.

(** [group.getRawValue()] of a host's group, as an object. *)
Definition raw_value (c : option (control jsval)) : jsval :=
  match c with Some c => control_value c | None => JUndefined end.
Definition raw_entries (g : group (control jsval)) : list (string * jsval) :=
  (fun k => (k, raw_value (controls g k))) <$> control_keys g.
Definition raw_group (g : group (control jsval)) : jsval := JObj (raw_entries g).

Definition group_at (p : loc) : M (group (control jsval)) := s <- get ;; deref (load (groups s) p).
Definition set_group (p : loc) (f : group (control jsval) -> group (control jsval)) : M unit :=
  modify (fun s => with_groups (update p f (groups s)) s).
Definition new_group (g : group (control jsval)) : M loc :=
  fun s => let '(p, h) := alloc g (groups s) in (Ret p, with_groups h s, []).
Definition new_array (l : list loc) : M loc :=
  fun s => let '(p, h) := alloc l (arrays s) in (Ret p, with_arrays h s, []).

(** [this.config_form_group.controls[hostname]] *)
Definition hostname_form_group (hostname : string) : M loc :=
  s <- get ;; g <- deref (config_form_group s) ;; deref (controls g hostname).

(** ** Requests *)

Definition navigate_to_catalog : M unit := emit (Navigate ROUTER_CATALOG).
Definition api_get_chart_info_ (application : string) : M unit := emit (Subscribe (CGetChartInfo application)).
Definition api_get_chart_statuses_ (chart_info_dev_dependent : bool) : M unit :=
  ci <- info ;;
  emit (Subscribe (CGetChartStatuses chart_info_dev_dependent
    (if chart_info_dev_dependent then key_of (devDependent ci) else ci_id ci))).
Definition api_get_catalog_nodes_ : M unit := emit (Subscribe CGetCatalogNodes).
Definition api_get_saved_values_ : M unit := ci <- info ;; emit (Subscribe (CGetSavedValues (ci_id ci))).
Definition check_chart_dependencies_ (key checkbox_dependent_app : string) (p : loc) : M unit :=
  emit (Subscribe (CCheckDependencies key checkbox_dependent_app p)).

Definition api_generate_values_file_ : M unit :=
  ci <- info ;;
  process <- raw_process ;;
  s <- get ;;
  emit (Subscribe (CGenerateValuesFile
    {| gf_role := ci_id ci; gf_process := process; configs := config_array_ s |})).

Definition api_catalog_install_ (a : CatalogHelmActionInterface) : M unit := emit (Subscribe (CInstall a)).
Definition api_catalog_reinstall_ (a : CatalogHelmActionInterface) : M unit := emit (Subscribe (CReinstall a)).
Definition api_catalog_uninstall_ (a : CatalogHelmActionInterface) : M unit := emit (Subscribe (CUninstall a)).
Definition api_get_iface_states_ (node : loc) : M unit :=
  n <- node_at node ;; emit (Subscribe (CGetIfaceStates node (hostname n))).

(** ** Questions of the template *)

Definition filter_nodes_by_process (selected : string) : M (list loc) :=
  s <- get ;;
  for_each (process_list s) (fun pr =>
    when (process pr === selected) (modify (with_node_list (children pr)))) ;;;
  s <- get ;;
  ret (default [] (load (arrays s) (node_list s))).

Definition is_config_ready : M bool :=
  p <- selected_process ;;
  if (p === INSTALL) || (p === REINSTALL) then
    (l <- selected_nodes ;;
     if Nat.ltb 0 (length l) then ret true
     else (ci <- info ;; ret (node_affinity ci === SERVER_ANY_VALUE)))
  else ret false.

Definition control_of (node : loc) (form_control : FormControlClass) : M (control jsval) :=
  n <- node_at node ;;
  p <- hostname_form_group (hostname n) ;;
  g <- group_at p ;;
  deref (controls g (fc_name form_control)).

Definition checkbox_value (node : loc) (form_control : FormControlClass) : M bool :=
  c <- control_of node form_control ;; ret (strict_eq (control_value c) (trueValue form_control)).

Definition checkbox_set_value (node : loc) (form_control : FormControlClass) : M unit :=
  c <- control_of node form_control ;;
  n <- node_at node ;;
  p <- hostname_form_group (hostname n) ;;
  set_group p (update_control (fc_name form_control)
    (setValue (if js_truthy (control_value c) then trueValue form_control else falseValue form_control))).

Definition is_form_control_invalid (node : loc) (form_control : FormControlClass) : M bool :=
  c <- control_of node form_control ;;
  ret (negb (control_valid c) && negb (control_disabled c)).

Definition check_interface (hostname iface : string) : M bool :=
  s <- get ;;
  match sensor_interface_states_ s !! hostname with
  | None => ret false
  | Some ifaces => i <- deref (ifaces !! iface) ;; ret (negb (link_up i))
  end.

Definition check_form_group {B} (g : option (group B)) : bool :=
  match g with Some g => Nat.ltb 0 (length (control_keys g)) | None => false end.

Definition get_error_message (form_control : FormControlClass) : option string := fc_error_message form_control.

Definition get_value_form_group_json_object (node : loc) : M jsval :=
  n <- node_at node ;;
  s <- get ;;
  c <- deref (controls (value_form_group s) (key_of (deployment_name n))) ;;
  ret (control_value c).

Definition get_iface_states : M unit :=
  l <- selected_nodes ;;
  for_each l (fun node => n <- node_at node ;; when (node_type n === SENSOR_VALUE) (api_get_iface_states_ node)).

(** ** The steps of the wizard *)

(** A new process form: the process is chosen among those that have nodes. *)
Definition initialize_process_form_group_ : M unit :=
  s <- get ;;
  ci <- info ;;
  set_form {| pf_selectedProcess := new_control "" (negb (set_children_called_ s)) (fun v => v !== "");
              pf_selectedNodes := new_control [] true (fun _ => true);
              pf_node_affinity := new_control (node_affinity ci) false (fun _ => true) |} ;;;
  emit (Page DetectChanges).

(** [this.process_form_group.get('selectedNodes').setValue(l)] *)
Definition set_selected_nodes (l : list loc) : M unit :=
  f <- form ;; set_form (with_selectedNodes (setValue l) f).

(** The loop over the nodes, with the nodes selected so far. *)
Fixpoint select_control_plane (ps selected : list loc) : M unit :=
  match ps with
  | [] => ret tt
  | p :: r =>
      n <- node_at p ;;
      if node_type n === "Control-Plane" then
        (assign p (set_hostname (toLowerCase SERVER_VALUE)) ;;;
         set_selected_nodes (selected ++ [p]) ;;;
         select_control_plane r (selected ++ [p]))
      else select_control_plane r selected
  end.

(** The Control-Plane nodes stand for the server, under the host name of the
    chart's values. *)
Definition server_any_value_check_ : M unit :=
  ci <- info ;;
  when (node_affinity ci === SERVER_ANY_VALUE)
    (s <- get ;; l <- deref (nodes s) ;; select_control_plane l []).

(** The deployment name of a node is that of its status. *)
Definition set_deployment_name_ : M unit :=
  l <- selected_nodes ;;
  for_each l (fun p =>
    s <- get ;;
    sts <- deref (statuses_ s) ;;
    for_each sts (fun st =>
      n <- node_at p ;;
      when (match s_hostname st with Some h => h === hostname n | None => true end)
        (assign p (set_deployment_name (Some (s_deployment_name st)))))).

Definition get_deployment_name_ (application node_hostname : string) (value : option (list (string * jsval)))
    : M jsval :=
  ci <- info ;;
  let new_hostname := default "" (head (split_on "."%char node_hostname)) in
  let deployment_name :=
    if node_affinity ci === SERVER_ANY_VALUE then application
    else new_hostname +:+ "-" +:+ application in
  match v ← value; assoc "deployment_name" v with
  | Some dn => ret (if defined dn && negb (strict_eq dn (JStr deployment_name)) then dn
                    else JStr deployment_name)
  | None => ret (JStr deployment_name)
  end.

(** [get_validators_] *)
Definition get_validators_ (form_control : FormControlClass) (v : jsval) : bool :=
  match regexp form_control with Some p => Validators_pattern p v | None => true end &&
  (if truthy (fc_required form_control) then Validators_required v else true).

(** The value [new FormControl(x)] starts with: undefined selects the default,
    null. *)
Definition form_state (v : jsval) : jsval := match v with JUndefined => JNull | _ => v end.

Definition get_form_control_ (form_control : FormControlClass) (hostname : string)
    (value : option (list (string * jsval))) (service_node_available : bool) : control jsval :=
  let saved := match value with Some v => default JUndefined (assoc (fc_name form_control) v)
                              | None => JUndefined end in
  let valid_control := defined saved in
  let or_default d := if valid_control then saved else d in
  let validators := get_validators_ form_control in
  let no_validator := fun _ => true in
  let type := fc_type form_control in
  if (type === "textinput") || (type === "textbox") then
    new_control (form_state (or_default (default_value form_control))) false validators
  else if type === "textinputlist" then
    match value, saved with
    | None, _ | Some _, JStr _ =>
        new_control (form_state (or_default (default_value form_control))) false validators
    | Some _, _ =>
        new_control (form_state (if valid_control then JStr (stringify saved)
                                 else default_value form_control)) false validators
    end
  else if type === "invisible" then new_control (form_state (or_default (JStr hostname))) false no_validator
  else if type === "checkbox" then
    new_control (form_state (or_default (default_value form_control))) false no_validator
  else if type === "interface" then new_control (or_default (JArr [])) false validators
  else if (type === "suricata-list") || (type === "zeek-list") then
    new_control (form_state (or_default (default_value form_control))) false validators
  else if type === "service-node-checkbox" then
    new_control (or_default (JBool service_node_available)) (negb service_node_available) validators
  else new_control (JArr []) false no_validator.

(** The form of a host and the applications its checkboxes depend on. *)
Definition initialize_config_form_control (hostname : string) (value : option (list (string * jsval)))
    : M (loc * list (string * jsval)) :=
  s <- get ;;
  ci <- info ;;
  let add '(g, apps) form_control :=
    (addControl (fc_name form_control)
       (get_form_control_ form_control hostname value (service_node_available_ s)) g,
     match dependent_app form_control with
     | Some app => if fc_type form_control === "checkbox"
                   then assoc_set (fc_name form_control) (JStr app) apps else apps
     | None => apps
     end) in
  let '(g, apps) := fold_left add (formControls ci) (empty_group, []) in
  deployment_name <- get_deployment_name_ (ci_id ci) hostname value ;;
  p <- new_group (addControl "deployment_name" (new_control deployment_name true (fun _ => true)) g) ;;
  ret (p, apps).

(** The same group loses its controls, or there is a first one. *)
Definition reset_config_form_group_ : M unit :=
  s <- get ;;
  match config_form_group s with
  | Some g => modify (with_config_form_group (Some (fold_left (fun g k => removeControl k g) (control_keys g) g)))
  | None => modify (with_config_form_group (Some empty_group))
  end.

Definition handle_checkbox_dependent_apps_ (hostname : string) (apps : list (string * jsval)) : M unit :=
  match apps with
  | [] => ret tt
  | _ => p <- hostname_form_group hostname ;;
         for_each apps (fun app => check_chart_dependencies_ (fst app) (js_to_string (snd app)) p)
  end.

(** A saved value belongs to a node by its host name. *)
Definition saved_for (sv : SavedValueClass) (hostname : string) : bool :=
  match assoc "node_hostname" (values sv) with Some h => strict_eq h (JStr hostname) | None => false end.

Definition initialize_config_form_group_ : M unit :=
  reset_config_form_group_ ;;;
  l <- selected_nodes ;;
  for_each l (fun node =>
    set_deployment_name_ ;;;
    n <- node_at node ;;
    first <- initialize_config_form_control (hostname n) None ;;
    s <- get ;;
    last <- (fix loop (svs : list SavedValueClass) acc : M (loc * list (string * jsval)) :=
               match svs with
               | [] => ret acc
               | sv :: r =>
                   if saved_for sv (hostname n)
                   then (x <- initialize_config_form_control (hostname n) (Some (values sv)) ;; loop r x)
                   else loop r acc
               end) (default [] (saved_values_ s)) first ;;
    s <- get ;;
    g <- deref (config_form_group s) ;;
    modify (with_config_form_group (Some (addControl (hostname n) (fst last) g))) ;;;
    handle_checkbox_dependent_apps_ (hostname n) (snd last)) ;;;
  emit (Page DetectChanges).

(** The text of a node's values; a text that is there is replaced. *)
Definition set_value_form_group_ (hostname_object : jsval) (node : loc) : M unit :=
  let text := JStr (stringify_indented hostname_object) in
  dn <- deref (get_property hostname_object "deployment_name") ;;
  let key := js_to_string dn in
  modify (fun s => with_value_form_group
    match controls (value_form_group s) key with
    | Some _ => update_control key (setValue text) (value_form_group s)
    | None => addControl key (disable (new_control text false (fun _ => true))) (value_form_group s)
    end s) ;;;
  assign node (set_deployment_name (match dn with JUndefined => None | _ => Some key end)).

(** [Object.assign({}, values, config)]: undefined has no properties. *)
Definition merge_values (values : list (string * jsval)) (config_object : jsval) : jsval :=
  JObj (object_assign values (match config_object with JObj fs => fs | _ => [] end)).

Definition compare_values_ : M unit :=
  l <- selected_nodes ;;
  for_each l (fun node =>
    s <- get ;;
    svs <- deref (saved_values_ s) ;;
    for_each svs (fun sv =>
      for_each (config_array_ s) (fun config =>
        n <- node_at node ;;
        ci <- info ;;
        let config_object := prop config (hostname n) in
        let matching :=
          match config_object with
          | JUndefined => false
          | _ => saved_for sv (hostname n) &&
                 strict_eq (prop config_object "node_hostname") (JStr (hostname n))
          end in
        when (matching || (node_affinity ci === SERVER_ANY_VALUE))
          (set_value_form_group_ (merge_values (values sv) config_object) node)))).

(** [home_net] and [external_net] are parsed from their texts. *)
Definition parse_net (key : string) (fields : list (string * jsval)) : M (list (string * jsval)) :=
  match assoc key fields with
  | Some v =>
      if defined v && negb (strict_eq v (JStr "")) then
        match parse (js_to_string v) with
        | Some x => ret (assoc_set key x fields)
        | None => throw "SyntaxError"
        end
      else ret fields
  | None => ret fields
  end.

Fixpoint config_objects (g : group loc) (keys : list string) : M (list jsval) :=
  match keys with
  | [] => ret []
  | k :: r =>
      p <- deref (controls g k) ;;
      h <- group_at p ;;
      fields <- parse_net "home_net" (raw_entries h) ;;
      fields <- parse_net "external_net" fields ;;
      rest <- config_objects g r ;;
      ret (JObj [(k, JObj fields)] :: rest)
  end.

Definition get_values_file_ : M unit :=
  s <- get ;;
  g <- deref (config_form_group s) ;;
  l <- config_objects g (control_keys g) ;;
  modify (with_config_array l) ;;;
  match saved_values_ s with
  | Some svs =>
      for_each svs (fun sv =>
        ps <- selected_nodes ;;
        for_each ps (fun node =>
          n <- node_at node ;;
          ci <- info ;;
          if saved_for sv (hostname n) || (node_affinity ci === SERVER_ANY_VALUE)
          then compare_values_ else api_generate_values_file_))
  | None => api_generate_values_file_
  end.

Definition selection_change_stepper (selectedIndex : Z) : M unit :=
  if Z.eqb selectedIndex 1 then
    (server_any_value_check_ ;;;
     ready <- is_config_ready ;;
     when ready initialize_config_form_group_)
  else if Z.eqb selectedIndex 2 then get_values_file_
  else initialize_process_form_group_.

Definition selection_change_process : M unit :=
  f <- form ;;
  when (control_valid (pf_selectedProcess f))
    (set_form (with_selectedNodes enable f) ;;;
     when (control_value (pf_node_affinity f) !== SERVER_ANY_VALUE)
       (f <- form ;;
        set_form (with_selectedNodes (setValidators (fun l => Nat.ltb 0 (length l))) f))).

Definition open_text_editor (node : loc) : M unit :=
  ci <- info ;;
  text <- get_value_form_group_json_object node ;;
  emit (Subscribe (DTextEditor node
    {| te_title := "Advanced Configuration: " +:+ upper_first (ci_id ci); te_text := text;
       use_language := "json" |})).

(** ** The action *)

(** [JSON.parse(x.toString())] *)
Definition parse_text (v : jsval) : M jsval :=
  match v with
  | JUndefined | JNull => throw "TypeError"
  | _ => match parse (js_to_string v) with Some x => ret x | None => throw "SyntaxError" end
  end.

(** The body of the loop over the nodes: the text of the node's values becomes
    the object it denotes. *)
Definition parse_value_of (node : loc) : M unit :=
  n <- node_at node ;;
  let key := key_of (deployment_name n) in
  s <- get ;;
  c <- deref (controls (value_form_group s) key) ;;
  modify (fun s => with_value_form_group (update_control key disable (value_form_group s)) s) ;;;
  x <- parse_text (control_value c) ;;
  modify (fun s => with_value_form_group (update_control key (setValue x) (value_form_group s)) s).

Definition make_values_array_ : M (list jsval) :=
  l <- selected_nodes ;;
  for_each l parse_value_of ;;;
  s <- get ;;
  ret (singletons (raw_entries (value_form_group s))).

Definition run_chart_action : M unit :=
  ci <- info ;;
  process <- raw_process ;;
  p <- selected_process ;;
  if p === INSTALL then
    (values <- make_values_array_ ;;
     api_catalog_install_ {| cha_role := ci_id ci; cha_process := process; cha_values := Some values |})
  else if p === REINSTALL then
    (values <- make_values_array_ ;;
     api_catalog_reinstall_ {| cha_role := ci_id ci; cha_process := process; cha_values := Some values |})
  else if p === UNINSTALL then
    (server_any_value_check_ ;;;
     set_deployment_name_ ;;;
     process <- raw_process ;;
     api_catalog_uninstall_ {| cha_role := ci_id ci; cha_process := process; cha_values := None |})
  else navigate_to_catalog.

(** ** The nodes of the processes *)

(** [process.children.push(node)] and its replacement by an array without
    duplicate ids: the old array got the node too. *)
Definition push_child (node : loc) (p : ProcessInterface) : M ProcessInterface :=
  modify (fun s => with_arrays (update (children p) (fun l => l ++ [node]) (arrays s)) s) ;;;
  s <- get ;;
  let id_of q := match load (heap s) q with Some n => Data._id n | None => None end in
  a <- new_array (dedupe id_of (default [] (load (arrays s) (children p)))) ;;
  ret {| process := process p; pi_name := pi_name p; children := a |}.

(** The children of a process are a member of the process object. *)
Fixpoint push_children (wanted : string -> bool) (node : loc) (l : list ProcessInterface)
    : M (list ProcessInterface) :=
  match l with
  | [] => ret []
  | p :: r =>
      p' <- (if wanted (process p) then push_child node p else ret p) ;;
      r' <- push_children wanted node r ;;
      ret (p' :: r')
  end.

(** Which processes a node with the status is a child of. *)
Definition offered (status : string) (process : string) : bool :=
  if status === DEPLOYED then process !== INSTALL
  else if status === UNKNOWN then (process !== REINSTALL) && (process !== UNINSTALL)
  else true.

Definition set_children_ (status : string) (node : loc) : M unit :=
  s <- get ;;
  l <- push_children (offered status) node (process_list s) ;;
  modify (with_process_list l) ;;;
  f <- form ;;
  set_form (with_selectedProcess enable f) ;;;
  modify (with_set_children_called true).

(** The status of a node: the first one of its host; nodes that are not sensors
    also take a status whose host name is part of theirs ([includes(null)] looks
    for the text null). *)
Definition status_for (sts : list StatusClass) (n : NodeClass) : option StatusClass :=
  let same st := match s_hostname st with Some h => hostname n === h | None => false end in
  head (base.filter (fun st =>
    (if toLowerCase (node_type n) === toLowerCase SENSOR_VALUE then same st
     else same st || includes_text (hostname n) (default "null" (s_hostname st))) = true) sts).

Definition in_affinity (ci : ChartInfoClass) (n : NodeClass) : bool :=
  includes_text (node_affinity ci) (node_type n) ||
  ((node_affinity ci === SERVER_ANY_VALUE) && (node_type n === SERVER_VALUE)).

Definition compare_nodes (s : CatalogPageComponent) (p q : loc) : Z :=
  match load (heap s) p, load (heap s) q with
  | Some a, Some b => node_alphanum a b
  | _, _ => 0%Z
  end.

(** The body of the loop over the nodes. *)
Definition place_node (node : loc) : M unit :=
  s <- get ;;
  sts <- deref (statuses_ s) ;;
  n <- node_at node ;;
  assign node (set_status (status_for sts n)) ;;;
  ci <- info ;;
  when (in_affinity ci n)
    (set_children_ (match status_for sts n with Some st => s_status st | None => UNKNOWN end) node) ;;;
  when (node_type n === SERVICE_VALUE) (modify (with_service_node_available true)).

Definition has_children (s : CatalogPageComponent) (p : ProcessInterface) : bool :=
  Nat.ltb 0 (length (default [] (load (arrays s) (children p)))).

Definition set_process_list_children_ (ps : list loc) : M (list ProcessInterface) :=
  modify (fun s => with_nodes (Some (js_sort (compare_nodes s) ps)) s) ;;;
  s <- get ;;
  for_each (default [] (nodes s)) place_node ;;;
  s <- get ;;
  ret (base.filter (fun p => has_children s p = true) (process_list s)).

(** The objects of a response. *)
Definition receive (l : list NodeClass) : M (list loc) :=
  fun s => let '(ps, h) := alloc_list l (heap s) in (Ret ps, with_heap h s, []).

(** ** Answers *)

Abbreviation DUR := (Some MAT_SNACKBAR_CONFIGURATION_60000_DUR).
Abbreviation DUR_OK := (Some MAT_SNACKBAR_CONFIGURATION_60000_DUR_OK).

Definition open_confirm_mat_dialog_ : M unit :=
  ci <- info ;;
  let dependency := key_of (devDependent ci) in
  emit (Subscribe (DConfirmDependency
    {| title := ci_id ci +:+ " is dependent on " +:+ dependency;
       message := "This chart is dependent on " +:+ dependency +:+
                  " and it is not installed, are you sure you want to continue.";
       option1 := TAKE_ME_BACK_DIALOG_OPTION; option2 := CONTINUE_DIALOG_OPTION;
       message_double_confirm := None |})).

Definition confirm_dependency_closed (response : option string) : M unit :=
  if response ?=== TAKE_ME_BACK_DIALOG_OPTION then navigate_to_catalog else api_get_chart_statuses_ false.

Definition text_editor_closed (node : loc) (response : option string) : M unit :=
  match response with
  | Some text =>
      n <- node_at node ;;
      s <- get ;;
      c <- deref (controls (value_form_group s) (key_of (deployment_name n))) ;;
      modify (fun s => with_value_form_group
        (update_control (key_of (deployment_name n)) (setValue (JStr text)) (value_form_group s)) s)
  | None => ret tt
  end.

Definition api_get_catalog_nodes_answer (a : answer (list NodeClass)) : M unit :=
  match a with
  | Next response =>
      ps <- receive response ;;
      l <- set_process_list_children_ ps ;;
      modify (with_process_list l)
  | Error e => on_error "getting kit nodes" e
  end.

Definition api_get_chart_info_answer (a : answer ChartInfoClass) : M unit :=
  match a with
  | Next response =>
      modify (with_chart_info (Some response)) ;;;
      when (notUndefNull (devDependent response)) (api_get_chart_statuses_ true) ;;;
      api_get_chart_statuses_ false ;;;
      initialize_process_form_group_
  | Error e => on_error "getting chart info" e
  end.

Definition api_get_chart_statuses_answer (chart_info_dev_dependent : bool) (a : answer (list StatusClass)) : M unit :=
  match a with
  | Next response =>
      if chart_info_dev_dependent then
        when (Nat.eqb (length response) 0) open_confirm_mat_dialog_
      else
        (modify (with_statuses (Some response)) ;;;
         api_get_catalog_nodes_ ;;;
         api_get_saved_values_)
  | Error e => on_error "getting chart statuses" e
  end.

(** There is no error callback. *)
Definition check_chart_dependencies_answer (key checkbox_dependent_app : string) (p : loc)
    (a : answer (list ChartClass)) : M unit :=
  match a with
  | Next response =>
      g <- group_at p ;;
      c <- deref (controls g key) ;;
      if dependency_deployed checkbox_dependent_app response then set_group p (update_control key enable)
      else (set_group p (update_control key (setValue (JBool false))) ;;;
            set_group p (update_control key disable))
  | Error _ => ret tt
  end.

Definition api_get_saved_values_answer (a : answer (list SavedValueClass)) : M unit :=
  match a with
  | Next response =>
      modify (with_saved_values (if Nat.ltb 0 (length response) then Some response else None))
  | Error e => on_error "getting saved values" e
  end.

(** The values of a node's host in one object of the response;
    [undefined.hasOwnProperty] throws. *)
Definition receive_values (node : loc) (object : jsval) : M unit :=
  n <- node_at node ;;
  match object with
  | JObj fs => match assoc (hostname n) fs with
               | Some JNull | None => ret tt
               | Some hostname_object => set_value_form_group_ hostname_object node
               end
  | JUndefined | JNull => throw "TypeError"
  | _ => ret tt
  end.

Definition api_generate_values_file_answer (a : answer (list jsval)) : M unit :=
  match a with
  | Next response =>
      l <- selected_nodes ;;
      for_each l (fun node => for_each response (receive_values node))
  | Error e => on_error "generating values file" e
  end.

Definition queued (what doing : string) (a : answer GenericJobAndKeyClass) : M unit :=
  ci <- info ;;
  match a with
  | Next _ => displaySnackBar (ci_id ci +:+ " " +:+ what +:+ " Queued") DUR_OK ;;; navigate_to_catalog
  | Error e => on_error_message ("catalog application " +:+ ci_id ci +:+ " " +:+ doing) e
  end.

Definition api_catalog_install_answer : answer GenericJobAndKeyClass -> M unit := queued "Installation" "install".
Definition api_catalog_reinstall_answer : answer GenericJobAndKeyClass -> M unit := queued "Reinstallation" "reinstall".
Definition api_catalog_uninstall_answer : answer GenericJobAndKeyClass -> M unit := queued "Uninstall" "uninstall".

Definition api_get_iface_states_answer (node : loc) (a : answer (list IFACEStateClass)) : M unit :=
  match a with
  | Next response =>
      let ifaces := fold_left (fun m i => <[if_name i := i]> m) response ∅ in
      n <- node_at node ;;
      modify (fun s => with_sensor_interface_states (<[hostname n := ifaces]> (sensor_interface_states_ s)) s)
  | Error e => on_error "getting interface states" e
  end.

Definition ngOnInit (url : string) : M unit :=
  match last_segment url with
  | None => navigate_to_catalog
  | Some application => api_get_chart_info_ application
  end.

(** ** The component: [Choose...] and [Edit...] are the inputs of the forms *)

Inductive event : Type :=
| NgOnInit (url : string)
| NavigateToCatalog
| SelectionChangeStepper (selectedIndex : Z)
| ChooseProcess (p : string)
| SelectionChangeProcess
| FilterNodes (p : string)
| ChooseNodes (l : list loc)
| CheckboxSetValue (node : loc) (form_control : FormControlClass)
| EditConfig (hostname name : string) (v : jsval)
| EditValues (deployment_name : string) (v : jsval)
| GetIfaceStates
| OpenTextEditor (node : loc)
| RunChartAction.

Definition on_ev (e : event) : M unit :=
  match e with
  | NgOnInit url => ngOnInit url
  | NavigateToCatalog => navigate_to_catalog
  | SelectionChangeStepper i => selection_change_stepper i
  | ChooseProcess p => f <- form ;; set_form (with_selectedProcess (setValue p) f)
  | SelectionChangeProcess => selection_change_process
  | FilterNodes p => filter_nodes_by_process p ;;; ret tt
  | ChooseNodes l => set_selected_nodes l
  | CheckboxSetValue n fc => checkbox_set_value n fc
  | EditConfig h name v => p <- hostname_form_group h ;; set_group p (update_control name (setValue v))
  | EditValues d v => modify (fun s => with_value_form_group (update_control d (setValue v) (value_form_group s)) s)
  | GetIfaceStates => get_iface_states
  | OpenTextEditor n => open_text_editor n
  | RunChartAction => run_chart_action
  end.

Definition on_ans (c : call) : Ans c -> M unit :=
  match c with
  | CGetChartInfo _ => api_get_chart_info_answer
  | CGetChartStatuses dev _ => api_get_chart_statuses_answer dev
  | CGetCatalogNodes => api_get_catalog_nodes_answer
  | CGetSavedValues _ => api_get_saved_values_answer
  | CGenerateValuesFile _ => api_generate_values_file_answer
  | CInstall _ => api_catalog_install_answer
  | CReinstall _ => api_catalog_reinstall_answer
  | CUninstall _ => api_catalog_uninstall_answer
  | CGetIfaceStates n _ => api_get_iface_states_answer n
  | CCheckDependencies k app p => check_chart_dependencies_answer k app p
  | DConfirmDependency _ => confirm_dependency_closed
  | DTextEditor n _ => text_editor_closed n
  end.

#[export] Instance CatalogPage : Component CatalogPageComponent call page event Ans := {|
  initial := constructor;
  on_event := on_ev;
  on_answer := on_ans;
|}.

(** ** Reading the state *)

Lemma run_info s ci : chart_info s = Some ci -> info s = (Ret ci, s, []).
Proof using. intros H. unfold info, get, gets, bind. by rewrite H. Qed.

Lemma run_form s f : process_form_group s = Some f -> form s = (Ret f, s, []).
Proof using. intros H. unfold form, get, gets, bind. by rewrite H. Qed.

Lemma run_selected_nodes s f :
  process_form_group s = Some f -> selected_nodes s = (Ret (control_value (pf_selectedNodes f)), s, []).
Proof using. intros H. unfold selected_nodes. by rewrite (bind_run_silent _ _ _ _ _ (run_form s f H)). Qed.

Lemma run_selected_process s f :
  process_form_group s = Some f -> selected_process s = (Ret (control_value (pf_selectedProcess f)), s, []).
Proof using. intros H. unfold selected_process. by rewrite (bind_run_silent _ _ _ _ _ (run_form s f H)). Qed.

Lemma run_catalog_node s p n : load (heap s) p = Some n -> node_at p s = (Ret n, s, []).
Proof using. intros H. unfold node_at, get, gets, bind. by rewrite H. Qed.

Lemma run_get s : get s = (Ret s, s, []).
Proof using. done. Qed.

Definition raw_of (s : CatalogPageComponent) (f : process_form) : ProcessFromFormGroup :=
  {| Services.selectedProcess := JStr (control_value (pf_selectedProcess f));
     Services.selectedNodes := omap (load (heap s)) (control_value (pf_selectedNodes f));
     Services.p_node_affinity := JStr (control_value (pf_node_affinity f)) |}.

Lemma run_raw_process s f :
  process_form_group s = Some f -> raw_process s = (Ret (raw_of s f), s, []).
Proof using. intros H. unfold raw_process. by rewrite (bind_run_silent _ _ _ _ _ (run_form s f H)). Qed.

(** ** What an installation sends *)

Section Install.
Context {CL : ControlsLaws Ctl} {GL : GroupsLaws Grp}.

(** The control of a node's values holds a text that denotes [x]. *)
Definition holds_text (s : CatalogPageComponent) (p : loc) (kx : string * jsval) : Prop :=
  exists n c t, load (heap s) p = Some n /\ key_of (deployment_name n) = fst kx /\
    controls (value_form_group s) (fst kx) = Some c /\ control_value c = JStr t /\ parse t = Some (snd kx).

Definition parse_entry (g : group (control jsval)) (kx : string * jsval) : group (control jsval) :=
  update_control (fst kx) (setValue (snd kx)) (update_control (fst kx) disable g).

Lemma run_parse_value_of p kx s :
  holds_text s p kx ->
  parse_value_of p s = (Ret tt, with_value_form_group (parse_entry (value_form_group s) kx) s, []).
Proof using.
  intros (n & c & t & Hn & Hk & Hc & Hv & Hx).
  unfold parse_value_of, node_at, get, bind, gets, deref, ret, modify, parse_text. simpl.
  rewrite Hn. cbn [fst snd app]. rewrite Hk, Hc, Hv. cbn [fst snd app js_to_string]. by rewrite Hx.
Qed.

Lemma controls_parse_entry g kx k :
  controls (parse_entry g kx) k =
  if fst kx === k then (fun c : control jsval => setValue (snd kx) (disable c)) <$> controls g k else controls g k.
Proof using GL.
  unfold parse_entry. rewrite !controls_update. destruct (fst kx === k); [|done].
  by destruct (controls g k).
Qed.

Lemma keys_parse_entry g kx : control_keys (parse_entry g kx) = control_keys g.
Proof using GL. unfold parse_entry. by rewrite !keys_update. Qed.

Lemma holds_text_other s p kx kx' :
  fst kx <> fst kx' -> holds_text s p kx ->
  holds_text (with_value_form_group (parse_entry (value_form_group s) kx') s) p kx.
Proof using GL.
  intros Hne (n & c & t & Hn & Hk & Hc & Hv & Hx). exists n, c, t. split_and!; try done. simpl.
  rewrite controls_parse_entry. destruct (fst kx' === fst kx) eqn:E; [|done].
  apply seqb_eq in E. congruence.
Qed.

Lemma run_parse_values ps kxs s :
  Forall2 (holds_text s) ps kxs -> NoDup kxs.*1 ->
  for_each ps parse_value_of s =
    (Ret tt, with_value_form_group (fold_left parse_entry kxs (value_form_group s)) s, []).
Proof using GL.
  revert ps s. induction kxs as [|kx kxs IH]; intros ps s H Hnd; inversion H as [|p ? ps' ? Hp Hps]; subst.
  - simpl. by destruct s.
  - apply NoDup_cons in Hnd as [Hkx Hnd]. simpl.
    rewrite (bind_run_silent _ _ _ _ _ (run_parse_value_of p kx s Hp)).
    rewrite IH; [done | | done].
    clear -Hps Hkx GL. induction Hps as [|p kx' ps kxs Hp Hps IH]; constructor.
    + apply holds_text_other; [|done]. intros E. apply Hkx. rewrite <- E. left.
    + apply IH. intros Hin. apply Hkx. by right.
Qed.

(** The values after the texts were parsed. *)
Lemma raw_parse_entries g kxs k :
  NoDup kxs.*1 -> k ∈ control_keys g ->
  raw_value (controls (fold_left parse_entry kxs g) k) =
  default (raw_value (controls g k)) (assoc k kxs).
Proof using CL GL.
  revert g. induction kxs as [|[j x] kxs IH]; intros g Hnd Hk; [done|]. simpl.
  apply NoDup_cons in Hnd as [Hj Hnd]. rewrite IH by (rewrite ?keys_parse_entry; done).
  rewrite controls_parse_entry. simpl. destruct (j === k) eqn:E; [|done].
  apply seqb_eq in E as ->. rewrite (proj2 (assoc_None k kxs)) by done. simpl.
  apply keys_controls in Hk as [c Hc]. rewrite Hc. simpl. apply value_setValue.
Qed.

Lemma keys_parse_entries g kxs : control_keys (fold_left parse_entry kxs g) = control_keys g.
Proof using GL. revert g. induction kxs as [|kx kxs IH]; intros g; [done|]. simpl. by rewrite IH, keys_parse_entry. Qed.

(** The page is ready to run [action] on the nodes [ps], whose texts denote
    [kxs]. *)
Definition ready (s : CatalogPageComponent) (action : string) (ci : ChartInfoClass) (f : process_form)
    (ps : list loc) (kxs : list (string * jsval)) : Prop :=
  chart_info s = Some ci /\ process_form_group s = Some f /\
  control_value (pf_selectedProcess f) = action /\ control_value (pf_selectedNodes f) = ps /\
  Forall2 (holds_text s) ps kxs /\ NoDup kxs.*1.

Definition helm_action (s : CatalogPageComponent) (ci : ChartInfoClass) (f : process_form)
    (kxs : list (string * jsval)) : CatalogHelmActionInterface :=
  let g := value_form_group s in
  {| cha_role := ci_id ci;
     cha_process :=
       {| Services.selectedProcess := JStr (control_value (pf_selectedProcess f));
          Services.selectedNodes := omap (load (heap s)) (control_value (pf_selectedNodes f));
          Services.p_node_affinity := JStr (control_value (pf_node_affinity f)) |};
     cha_values := Some (singletons ((fun k => (k, default (raw_value (controls g k)) (assoc k kxs)))
                                     <$> control_keys g)) |}.

Lemma run_make_values s f ps kxs :
  process_form_group s = Some f -> control_value (pf_selectedNodes f) = ps ->
  Forall2 (holds_text s) ps kxs -> NoDup kxs.*1 ->
  make_values_array_ s =
    (Ret (singletons (raw_entries (fold_left parse_entry kxs (value_form_group s)))),
     with_value_form_group (fold_left parse_entry kxs (value_form_group s)) s, []).
Proof using GL.
  intros Hf Hps Ht Hnd. unfold make_values_array_.
  rewrite (bind_run_silent _ _ _ _ _ (run_selected_nodes s f Hf)), Hps.
  by rewrite (bind_run_silent _ _ _ _ _ (run_parse_values ps kxs s Ht Hnd)).
Qed.

Lemma raw_entries_parsed g kxs :
  NoDup kxs.*1 ->
  raw_entries (fold_left parse_entry kxs g) =
  (fun k => (k, default (raw_value (controls g k)) (assoc k kxs))) <$> control_keys g.
Proof using CL GL.
  intros Hnd. unfold raw_entries. rewrite keys_parse_entries.
  apply list_fmap_ext. intros i k Hk%list_elem_of_lookup_2. by rewrite raw_parse_entries.
Qed.

Lemma run_install s ci f ps kxs :
  ready s INSTALL ci f ps kxs ->
  run_chart_action s =
    (Ret tt, with_value_form_group (fold_left parse_entry kxs (value_form_group s)) s,
     [Subscribe (CInstall (helm_action s ci f kxs))]).
Proof using CL GL.
  intros (Hci & Hf & Ha & Hps & Ht & Hnd). unfold run_chart_action.
  rewrite (bind_run_silent _ _ _ _ _ (run_info s ci Hci)).
  rewrite (bind_run_silent _ _ _ _ _ (run_raw_process s f Hf)).
  rewrite (bind_run_silent _ _ _ _ _ (run_selected_process s f Hf)), Ha, seqb_refl.
  rewrite (bind_run_silent _ _ _ _ _ (run_make_values s f ps kxs Hf Hps Ht Hnd)).
  unfold helm_action, raw_of. by rewrite raw_entries_parsed.
Qed.

(** C21: running the installation when the values of every selected node are
    texts that denote objects sends exactly one request: the chart, the process
    form (its process, the objects of the selected nodes and its affinity), and for
    every deployment of the values form, in its order, its value: the object its
    text denotes for the deployment of a selected node, the value of its control as
    it is, a text, for a deployment of no selected node. *)
Theorem install_sends_the_values s ci f ps kxs :
  ready s INSTALL ci f ps kxs ->
  let x := run_chart_action s in
  fst (fst x) = Ret tt /\ exists a, effects_of x = [Subscribe (CInstall a)] /\
  cha_role a = ci_id ci /\
  cha_process a = {| Services.selectedProcess := JStr INSTALL; Services.selectedNodes := omap (load (heap s)) ps;
                     Services.p_node_affinity := JStr (control_value (pf_node_affinity f)) |} /\
  cha_values a = Some (singletons
    ((fun k => (k, match assoc k kxs with Some x => x | None => raw_value (controls (value_form_group s) k) end))
     <$> control_keys (value_form_group s))).
Proof using CL GL.
  intros H. cbv zeta. rewrite (run_install s ci f ps kxs H). split; [done|].
  exists (helm_action s ci f kxs). destruct H as (_ & _ & Hp & <- & _). split; [done|]. split; [done|]. split.
  - unfold helm_action. cbn [cha_process]. by rewrite Hp.
  - done.
Qed.

(** ** From the generated values to the installation *)

(** What the server generated for the host of a node, and the deployment name
    it chose. *)
Definition generated (s : CatalogPageComponent) (answers : list (string * jsval)) (p : loc)
    (kx : string * jsval) : Prop :=
  exists n, load (heap s) p = Some n /\ (hostname n, snd kx) ∈ answers /\ snd kx <> JNull /\
    get_property (snd kx) "deployment_name" = Some (JStr (fst kx)) /\ json_safe (snd kx) = true.

Definition responses (answers : list (string * jsval)) : list jsval := (fun x => JObj [x]) <$> answers.

(** The page after the values [kx] of the node [p] were received. *)
Definition stored (p : loc) (kx : string * jsval) (s : CatalogPageComponent) : CatalogPageComponent :=
  let text := JStr (stringify_indented (snd kx)) in
  let g := value_form_group s in
  with_heap (update p (set_deployment_name (Some (fst kx))) (heap s))
    (with_value_form_group
      (match controls g (fst kx) with
       | Some _ => update_control (fst kx) (setValue text) g
       | None => addControl (fst kx) (disable (new_control text false (fun _ => true))) g
       end) s).

Lemma receive_others p n answers s :
  load (heap s) p = Some n -> hostname n ∉ answers.*1 ->
  for_each (responses answers) (receive_values p) s = (Ret tt, s, []).
Proof using.
  intros Hn. induction answers as [|[h o] answers IH]; [done|]. simpl. intros [Hh Hrest]%not_elem_of_cons.
  assert (E : receive_values p (JObj [(h, o)]) s = (Ret tt, s, [])).
  { unfold receive_values. rewrite (bind_run_silent _ _ _ _ _ (run_catalog_node s p n Hn)). simpl.
    rewrite (proj2 (seqb_neq h (hostname n)) (not_eq_sym Hh)). done. }
  rewrite (bind_run_silent _ _ _ _ _ E). by apply IH.
Qed.

Lemma receive_own p n kx s :
  load (heap s) p = Some n -> snd kx <> JNull ->
  get_property (snd kx) "deployment_name" = Some (JStr (fst kx)) ->
  receive_values p (JObj [(hostname n, snd kx)]) s = (Ret tt, stored p kx s, []).
Proof using.
  intros Hn Hnull Hd. unfold receive_values. rewrite (bind_run_silent _ _ _ _ _ (run_catalog_node s p n Hn)). simpl.
  rewrite seqb_refl.
  assert (E : set_value_form_group_ (snd kx) p s = (Ret tt, stored p kx s, []))
    by (unfold set_value_form_group_; by rewrite Hd).
  by destruct (snd kx).
Qed.

Lemma receive_node p answers kx s :
  generated s answers p kx -> NoDup answers.*1 ->
  for_each (responses answers) (receive_values p) s = (Ret tt, stored p kx s, []).
Proof using.
  intros (n & Hn & Hin & Hnull & Hd & _) Hnd.
  apply list_elem_of_split in Hin as (a1 & a2 & ->). rewrite fmap_app in Hnd. simpl in Hnd.
  apply NoDup_app in Hnd as (_ & H1 & [H2 _]%NoDup_cons).
  unfold responses. rewrite fmap_app, fmap_cons, for_each_app.
  rewrite (bind_run_silent _ _ _ _ _ (receive_others p n a1 s Hn (fun H => H1 _ H (list_elem_of_here _ _)))).
  simpl. rewrite (bind_run_silent _ _ _ _ _ (receive_own p n kx s Hn Hnull Hd)).
  apply (receive_others p (set_deployment_name (Some (fst kx)) n)); [|done].
  simpl. by rewrite load_update_eq, Hn.
Qed.
Lemma stored_holds {JL : JSONLaws J} answers p kx s : generated s answers p kx -> holds_text (stored p kx s) p kx.
Proof using CL GL.
  intros (n & Hn & _ & _ & _ & Hsafe). unfold holds_text.
  assert (Hc : exists c, controls (value_form_group (stored p kx s)) (fst kx) = Some c /\
    control_value c = JStr (stringify_indented (snd kx))).
  { simpl. destruct (controls (value_form_group s) (fst kx)) as [c0|] eqn:Hc.
    - rewrite controls_update, seqb_refl, Hc. eexists. split; [done | apply value_setValue].
    - rewrite controls_add, seqb_refl, Hc. eexists. split; [done|].
      unfold disable. by rewrite value_set_disabled, value_new. }
  destruct Hc as (c & Hc & Hv). eexists _, c, _. split; [simpl; by rewrite load_update_eq, Hn|].
  split; [done|]. split; [exact Hc|]. split; [exact Hv | by apply parse_stringify_indented].
Qed.

Lemma stored_other p kx s q jx :
  p <> q -> fst kx <> fst jx -> holds_text s q jx -> holds_text (stored p kx s) q jx.
Proof using GL.
  intros Hp Hk (n & c & t & Hn & Hj & Hc & Hv). exists n, c, t.
  split; [simpl; by rewrite load_update_ne|]. split; [done|]. split; [|done]. simpl.
  destruct (controls (value_form_group s) (fst kx)) eqn:E;
    rewrite ?controls_update, ?controls_add, (proj2 (seqb_neq (fst kx) (fst jx)) Hk); done.
Qed.

Lemma stored_generated answers p kx s q jx :
  p <> q -> generated s answers q jx -> generated (stored p kx s) answers q jx.
Proof using. intros Hp (n & Hn & H). exists n. split; [simpl; by rewrite load_update_ne | done]. Qed.

Lemma receive_nodes {JL : JSONLaws J} answers ps kxs s :
  NoDup answers.*1 -> NoDup ps -> NoDup kxs.*1 -> Forall2 (generated s answers) ps kxs ->
  exists s', for_each ps (fun node => for_each (responses answers) (receive_values node)) s = (Ret tt, s', []) /\
    chart_info s' = chart_info s /\ process_form_group s' = process_form_group s /\
    Forall2 (holds_text s') ps kxs /\
    (forall q jx, q ∉ ps -> fst jx ∉ kxs.*1 -> holds_text s q jx -> holds_text s' q jx).
Proof using CL GL.
  intros Ha. revert kxs s.
  induction ps as [|p ps IH]; intros kxs s Hps Hkxs H; inversion H as [|? kx ? kxs' Hp Hrest]; subst.
  { exists s. split; [done|]. split; [done|]. split; [done|]. split; [constructor | done]. }
  apply NoDup_cons in Hps as [Hpn Hps]. apply NoDup_cons in Hkxs as [Hkn Hkxs].
  destruct (IH kxs' (stored p kx s) Hps Hkxs) as (s' & E & Hc & Hf & Hall & Hkeep).
  { clear -Hrest Hpn. induction Hrest as [|q jx ps kxs Hq _ IH]; constructor.
    - apply stored_generated; [|done]. intros ->. apply Hpn. left.
    - apply IH. intros Hin. apply Hpn. by right. }
  exists s'. simpl. rewrite (bind_run_silent _ _ _ _ _ (receive_node p answers kx s Hp Ha)).
  split; [exact E|]. split; [exact Hc|]. split; [exact Hf|]. split.
  - constructor; [|done]. apply Hkeep; [done | done | by apply (stored_holds answers)].
  - intros q jx [Hq1 Hq2]%not_elem_of_cons [Hk1 Hk2]%not_elem_of_cons Hj.
    apply Hkeep; [done | done |]. apply stored_other; [done | by apply not_eq_sym | done].
Qed.

(** C3: what the server generated is what is installed.  If every selected node
    has values among the generated ones, for distinct hosts and distinct
    deployment names, then receiving them and running the installation sends one
    request, whose values hold for each node, under its deployment name, the
    very object that was generated for its host: printing the values for the
    editor and parsing them back loses nothing. *)
Theorem generated_values_are_installed {JL : JSONLaws J} s ci f answers ps kxs :
  chart_info s = Some ci -> process_form_group s = Some f ->
  control_value (pf_selectedProcess f) = INSTALL -> control_value (pf_selectedNodes f) = ps ->
  NoDup answers.*1 -> NoDup ps -> NoDup kxs.*1 -> Forall2 (generated s answers) ps kxs ->
  let s1 := state_of (api_generate_values_file_answer (Next (responses answers)) s) in
  exists a l, effects_of (run_chart_action s1) = [Subscribe (CInstall a)] /\ cha_values a = Some l /\
    forall kx, kx ∈ kxs -> JObj [kx] ∈ l.
Proof using CL GL.
  intros Hci Hf Hp Hps Ha Hnd Hkxs Hgen. cbv zeta.
  destruct (receive_nodes answers ps kxs s Ha Hnd Hkxs Hgen) as (s1 & E & Hci1 & Hf1 & Htext & _).
  assert (E1 : api_generate_values_file_answer (Next (responses answers)) s = (Ret tt, s1, [])).
  { unfold api_generate_values_file_answer.
    by rewrite (bind_run_silent _ _ _ _ _ (run_selected_nodes s f Hf)), Hps. }
  rewrite E1. cbn [state_of fst snd].
  assert (Hready : ready s1 INSTALL ci f ps kxs) by (unfold ready; rewrite Hci1, Hf1; done).
  rewrite (run_install s1 ci f ps kxs Hready). eexists _, _. split; [done|]. split; [done|].
  intros [k x] Hin. unfold singletons. apply list_elem_of_fmap. exists (k, x). split; [done|].
  apply list_elem_of_fmap. exists k. split.
  - f_equal. by rewrite (assoc_Some k x kxs Hkxs Hin).
  - apply list_elem_of_lookup in Hin as [i Hi].
    destruct (Forall2_lookup_r _ _ _ _ _ Htext Hi) as (q & _ & (n & c & t & _ & _ & Hc & _)).
    apply keys_controls. by exists c.
Qed.

(** ** Installing again *)

(** The control of the node's values holds an object. *)
Definition holds_object (s : CatalogPageComponent) (key : string) : Prop :=
  exists c fs, controls (value_form_group s) key = Some c /\ control_value c = JObj fs.

Lemma parse_value_of_object p n s :
  parse "[object Object]" = None -> load (heap s) p = Some n -> holds_object s (key_of (deployment_name n)) ->
  exists s', parse_value_of p s = (Exn "SyntaxError", s', []).
Proof using.
  intros Hp Hn (c & fs & Hc & Hv). unfold parse_value_of.
  rewrite (bind_run_silent _ _ _ _ _ (run_catalog_node s p n Hn)), (bind_run_silent _ _ _ _ _ (run_get s)).
  unfold deref. rewrite Hc. unfold bind, ret, modify, parse_text. rewrite Hv. cbn [js_to_string].
  rewrite Hp. by eexists.
Qed.

(** An installation that the server refused cannot be tried again.  The
    first attempt replaced the texts of the values by the objects they denote;
    a second attempt parses the text of an object and throws a SyntaxError, and
    no request is sent, whatever the error of the first attempt was. *)
Theorem install_cannot_be_retried s ci f p ps kx kxs e :
  parse "[object Object]" = None -> ready s INSTALL ci f (p :: ps) (kx :: kxs) ->
  (exists fs, snd kx = JObj fs) ->
  let s1 := state_of (run_chart_action s) in
  let s2 := state_of (api_catalog_install_answer (Error e) s1) in
  fst (fst (run_chart_action s2)) = Exn "SyntaxError" /\ effects_of (run_chart_action s2) = [].
Proof using CL GL.
  intros Hparse H [fs Hfs]. cbv zeta. rewrite (run_install s ci f _ _ H). cbn [state_of fst snd].
  destruct H as (Hci & Hf & Ha & Hps & Ht & Hnd).
  set (s1 := with_value_form_group _ s).
  assert (E2 : state_of (api_catalog_install_answer (Error e) s1) = s1).
  { unfold api_catalog_install_answer, queued.
    rewrite (bind_run_silent _ _ _ _ _ (run_info s1 ci Hci)). by destruct e. }
  rewrite E2. inversion Ht as [|? ? ? ? (n & c & t & Hn & Hk & Hc & Hv & Hx) _]; subst.
  assert (Hobj : holds_object s1 (key_of (deployment_name n))).
  { rewrite Hk. unfold holds_object, s1. simpl value_form_group.
    assert (Hin : fst kx ∈ control_keys (value_form_group s)) by (apply keys_controls; eauto).
    pose proof (raw_parse_entries (value_form_group s) (kx :: kxs) (fst kx) Hnd Hin) as R.
    pose proof Hin as Hin'. rewrite <- (keys_parse_entries _ (kx :: kxs)), keys_controls in Hin'.
    destruct Hin' as [c' Hc']. exists c', fs. split; [done|]. rewrite Hc' in R. simpl in R.
    destruct kx as [k x]; simpl in *. rewrite seqb_refl in R. simpl in R. congruence. }
  destruct (parse_value_of_object p n s1 Hparse Hn Hobj) as (s' & Es').
  assert (Em : make_values_array_ s1 = (Exn "SyntaxError", s', [])).
  { unfold make_values_array_. rewrite (bind_run_silent _ _ _ _ _ (run_selected_nodes s1 f Hf)), Hps.
    apply bind_run_throw. simpl. by apply bind_run_throw. }
  assert (Er : run_chart_action s1 = (Exn "SyntaxError", s', [])); [|by rewrite Er].
  unfold run_chart_action. rewrite (bind_run_silent _ _ _ _ _ (run_info s1 ci Hci)).
  rewrite (bind_run_silent _ _ _ _ _ (run_raw_process s1 f Hf)).
  rewrite (bind_run_silent _ _ _ _ _ (run_selected_process s1 f Hf)), Ha, seqb_refl.
  by apply bind_run_throw.
Qed.
End Install.

(** ** The nodes a process offers *)

Lemma map_set_keys {K A} `{EqDecision K} (k : K) (x : A) m : k ∉ m.*1 -> map_set k x m = m ++ [(k, x)].
Proof using.
  induction m as [|[j y] m IH]; [done|]. simpl. intros [? ?]%not_elem_of_cons.
  destruct (decide (j = k)); [congruence|]. f_equal. auto.
Qed.

Lemma dedupe_id {K A} `{EqDecision K} (key : A -> K) (l : list A) : NoDup (key <$> l) -> dedupe key l = l.
Proof using.
  intros Hnd. unfold dedupe.
  assert (G : forall m : list (K * A), NoDup (m.*1 ++ (key <$> l)) ->
    fold_left (fun m x => map_set (key x) x m) l m = m ++ ((fun x => (key x, x)) <$> l)).
  { clear Hnd. induction l as [|x l IH]; intros m Hm; simpl; [by rewrite app_nil_r|].
    simpl in Hm. apply NoDup_app in Hm as Hm'. destruct Hm' as (_ & Hd & _).
    rewrite map_set_keys by (intros Hin; apply (Hd _ Hin); left).
    rewrite IH; [by rewrite <- app_assoc|].
    rewrite fmap_app, <- app_assoc. exact Hm. }
  rewrite (G []) by done. simpl. rewrite <- list_fmap_compose. apply list_fmap_id.
Qed.

Definition kids (s : CatalogPageComponent) (p : ProcessInterface) : list loc :=
  default [] (load (arrays s) (children p)).

(** The processes with the references they offer. *)
Definition view (s : CatalogPageComponent) (l : list ProcessInterface) : list (string * list loc) :=
  (fun p => (process p, kids s p)) <$> l.

(** The arrays of the processes are different arrays that exist. *)
Definition apart (s : CatalogPageComponent) (l : list ProcessInterface) : Prop :=
  NoDup (children <$> l) /\ Forall (fun p => (children p < next_loc (arrays s))%nat /\ 
                                             is_Some (load (arrays s) (children p))) l.

Definition id_at (s : CatalogPageComponent) (q : loc) : option string :=
  match load (heap s) q with Some n => Data._id n | None => None end.

(** Only arrays changed, and those of [l] or new ones at that. *)
Definition only_arrays (s s' : CatalogPageComponent) (l : list ProcessInterface) : Prop :=
  (exists a, s' = with_arrays a s) /\ (next_loc (arrays s) <= next_loc (arrays s'))%nat /\
  forall q, (q < next_loc (arrays s))%nat -> q ∉ (children <$> l) -> load (arrays s') q = load (arrays s) q.

Lemma run_push_child node p s :
  apart s [p] -> NoDup (id_at s <$> kids s p ++ [node]) ->
  exists p' s', push_child node p s = (Ret p', s', []) /\ process p' = process p /\
    children p' = next_loc (arrays s) /\ load (arrays s') (children p') = Some (kids s p ++ [node]) /\
    next_loc (arrays s') = S (next_loc (arrays s)) /\ only_arrays s s' [p].
Proof using.
  intros [_ [[Hp [l Hl]] _]%Forall_cons] Hnd. unfold kids in *. rewrite Hl in *. simpl in Hnd.
  eexists _, _. split; [unfold push_child, get, gets, modify, new_array, bind, ret; cbn; reflexivity|].
  cbn -[load update dedupe]. rewrite load_update_eq, Hl. simpl default.
  rewrite dedupe_id by exact Hnd. split_and!; try done.
  - unfold load; simpl. by rewrite lookup_insert_eq.
  - split_and!; simpl; [by eexists | lia |]. intros q Hq Hne.
    unfold load; simpl. rewrite lookup_insert_ne by lia.
    apply (load_update_ne (children p) q (fun l => l ++ [node]) (arrays s)).
    intros E. apply Hne. simpl. rewrite E. left.
Qed.

Lemma run_push_children wanted node l s :
  apart s l -> Forall (fun p => NoDup (id_at s <$> kids s p ++ [node])) l ->
  exists l' s', push_children wanted node l s = (Ret l', s', []) /\
    view s' l' = (fun x => (fst x, if wanted (fst x) then snd x ++ [node] else snd x)) <$> view s l /\
    apart s' l' /\ only_arrays s s' l /\
    (forall q, q ∈ (children <$> l') -> q ∈ (children <$> l) \/ (next_loc (arrays s) <= q)%nat).
Proof using.
  revert s. induction l as [|p l IH]; intros s [Hnd Hall] Hids.
  { exists [], s. split; [done|]. split; [done|]. split; [split; constructor|].
    split; [|intros q Hq; simpl in Hq; by apply not_elem_of_nil in Hq].
    split; [exists (arrays s); by destruct s | done]. }
  apply NoDup_cons in Hnd as [Hp Hnd]. apply Forall_cons in Hall as [Hpa Hall].
  apply Forall_cons in Hids as [Hid Hids].
  assert (Step : exists p' s1, (if wanted (process p) then push_child node p else ret p) s = (Ret p', s1, []) /\
    process p' = process p /\ only_arrays s s1 [p] /\
    kids s1 p' = (if wanted (process p) then kids s p ++ [node] else kids s p) /\
    (children p' < next_loc (arrays s1))%nat /\ is_Some (load (arrays s1) (children p')) /\
    (children p' = children p \/ (next_loc (arrays s) <= children p')%nat)).
  { destruct (wanted (process p)).
    - destruct (run_push_child node p s) as (p' & s1 & E & Hn & Hc & Hl & Hx & Ho); [|done|].
      { split; [apply NoDup_singleton | by constructor]. }
      exists p', s1. split; [exact E|]. split; [exact Hn|]. split; [exact Ho|].
      split; [unfold kids; by rewrite Hl|]. split; [lia|]. split; [by eexists | right; lia].
    - exists p, s. split; [done|]. split; [done|].
      split; [split; [exists (arrays s); by destruct s | done]|].
      split; [done|]. split; [apply Hpa|]. split; [apply Hpa | by left]. }
  destruct Step as (p' & s1 & E & Hn & Ho & Hk & Hc & Hl & Hold).
  destruct Ho as ((a & ->) & Hle & Hkeep).
  assert (Hsame : forall q, q ∈ l -> load a (children q) = load (arrays s) (children q)).
  { intros q Hq. rewrite Forall_forall in Hall. apply Hkeep; [apply (Hall q Hq)|].
    intros Hx%list_elem_of_singleton. apply Hp. rewrite <- Hx. by apply list_elem_of_fmap_2. }
  destruct (IH (with_arrays a s)) as (l' & s' & E' & Hv & [Hnd' Hall'] & ((a' & ->) & Hle' & Hkeep') & Hold').
  { split; [done|]. rewrite Forall_forall in Hall |- *. intros q Hq. simpl in *. rewrite Hsame by done.
    destruct (Hall q Hq). split; [lia | done]. }
  { rewrite Forall_forall in Hids |- *. intros q Hq. unfold kids. simpl. rewrite Hsame by done. by apply Hids. }
  simpl in *.
  assert (Hp' : children p' ∉ (children <$> l)).
  { destruct Hold as [->|Hge]; [done|]. intros (q & Heq & Hq)%list_elem_of_fmap.
    rewrite Forall_forall in Hall. specialize (Hall q Hq). lia. }
  exists (p' :: l'), (with_arrays a' s). rewrite (bind_run_silent _ _ _ _ _ E), (bind_run_silent _ _ _ _ _ E').
  split; [done|]. split; [|split; [|split]].
  - simpl. rewrite Hn. f_equal.
    + f_equal. rewrite <- Hk. unfold kids. simpl. rewrite Hkeep' by done. done.
    + etransitivity; [exact Hv|]. unfold view, kids. rewrite <- !list_fmap_compose. apply list_fmap_ext.
      intros i q Hq%list_elem_of_lookup_2. simpl. by rewrite Hsame.
  - split; simpl.
    + constructor; [|done]. intros Hin. apply Hold' in Hin as [Hin|Hge]; [done | lia].
    + constructor; [|done]. rewrite Hkeep' by done. split; [lia | done].
  - split; [by eexists|]. simpl. split; [lia|]. intros q Hq [Hq1 Hq2]%not_elem_of_cons.
    rewrite Hkeep' by (done || lia). apply Hkeep; [done|]. by intros ?%list_elem_of_singleton.
  - intros q [->|Hin]%elem_of_cons.
    + destruct Hold as [->|Hge]; [left; left | by right].
    + apply Hold' in Hin as [Hin|Hge]; [left; by right | right; lia].
Qed.

(** What can be done with an application in the status: it is installed where it
    is not deployed, and reinstalled or removed where something is known of it. *)
Definition allowed (status process : string) : bool :=
  if process === INSTALL then status !== DEPLOYED else status !== UNKNOWN.

(** The status of the application on a node. *)
Definition status_on (sts : list StatusClass) (n : NodeClass) : string :=
  match status_for sts n with Some st => s_status st | None => UNKNOWN end.

(** Whether the page offers a node for a process. *)
Definition wanted (ci : ChartInfoClass) (sts : list StatusClass) (process : string) (n : NodeClass) : bool :=
  in_affinity ci n && allowed (status_on sts n) process.

Definition is_process (p : string) : Prop := p = INSTALL \/ p = REINSTALL \/ p = UNINSTALL.

Lemma offered_allowed st p : is_process p -> offered st p = allowed st p.
Proof using.
  unfold offered, allowed.
  destruct (st === DEPLOYED) eqn:E1; [apply seqb_eq in E1; subst st | destruct (st === UNKNOWN) eqn:E2;
    [apply seqb_eq in E2; subst st|]]; intros [-> | [-> | ->]]; done.
Qed.

Lemma offered_view st node (l : list (string * list loc)) :
  Forall (fun x => is_process (fst x)) l ->
  (fun x => (fst x, if offered st (fst x) then snd x ++ [node] else snd x)) <$> l =
  (fun x => (fst x, if allowed st (fst x) then snd x ++ [node] else snd x)) <$> l.
Proof using.
  intros H. apply list_fmap_ext. intros i x Hx%list_elem_of_lookup_2. rewrite Forall_forall in H.
  by rewrite (offered_allowed st (fst x) (H x Hx)).
Qed.

(** The page can place nodes. *)
Definition placing (s : CatalogPageComponent) (ci : ChartInfoClass) (sts : list StatusClass) : Prop :=
  statuses_ s = Some sts /\ chart_info s = Some ci /\ is_Some (process_form_group s) /\
  apart s (process_list s) /\ Forall (fun x => is_process (fst x)) (view s (process_list s)).

Lemma run_set_children st p s :
  is_Some (process_form_group s) -> apart s (process_list s) ->
  Forall (fun q => NoDup (id_at s <$> kids s q ++ [p])) (process_list s) ->
  exists s', set_children_ st p s = (Ret tt, s', []) /\
    statuses_ s' = statuses_ s /\ chart_info s' = chart_info s /\ is_Some (process_form_group s') /\
    heap s' = heap s /\ apart s' (process_list s') /\
    view s' (process_list s') =
      (fun x => (fst x, if offered st (fst x) then snd x ++ [p] else snd x)) <$> view s (process_list s).
Proof using.
  intros [f Hf] Ha Hids.
  destruct (run_push_children (offered st) p (process_list s) s Ha Hids)
    as (l' & s1 & E & Hv & Ha' & ((a & ->) & _) & _).
  unfold set_children_. rewrite (bind_run_silent _ _ _ _ _ (run_get s)), (bind_run_silent _ _ _ _ _ E).
  eexists. split; [unfold bind, modify, form, get, gets, deref, set_form; cbn; rewrite Hf; reflexivity|].
  simpl. repeat (split; [done|]). exact Hv.
Qed.

Lemma id_at_status s p st q :
  id_at (with_heap (update p (set_status st) (heap s)) s) q = id_at s q.
Proof using.
  unfold id_at. simpl. destruct (decide (p = q)) as [->|Hne].
  - rewrite load_update_eq. by destruct (load (heap s) q).
  - by rewrite load_update_ne.
Qed.

Lemma run_place_node ci sts p n s :
  placing s ci sts -> load (heap s) p = Some n ->
  Forall (fun q => NoDup (id_at s <$> kids s q ++ [p])) (process_list s) ->
  exists s', place_node p s = (Ret tt, s', []) /\ placing s' ci sts /\
    heap s' = update p (set_status (status_for sts n)) (heap s) /\
    view s' (process_list s') =
      (fun x => (fst x, if wanted ci sts (fst x) n then snd x ++ [p] else snd x)) <$> view s (process_list s).
Proof using.
  intros (Hst & Hci & Hf & Ha & Hpr) Hn Hids. unfold place_node.
  rewrite (bind_run_silent _ _ _ _ _ (run_get s)). rewrite Hst. cbn [deref].
  rewrite (bind_run_silent _ _ s sts s eq_refl), (bind_run_silent _ _ _ _ _ (run_catalog_node s p n Hn)).
  set (s1 := with_heap (update p (set_status (status_for sts n)) (heap s)) s).
  rewrite (bind_run_silent _ _ s tt s1 eq_refl), (bind_run_silent _ _ _ _ _ (run_info s1 ci Hci)).
  fold (status_on sts n).
  assert (Step : exists s2, when (in_affinity ci n) (set_children_ (status_on sts n) p) s1 = (Ret tt, s2, []) /\
    placing s2 ci sts /\ heap s2 = heap s1 /\
    view s2 (process_list s2) =
      (fun x => (fst x, if wanted ci sts (fst x) n then snd x ++ [p] else snd x)) <$> view s (process_list s)).
  { unfold wanted. destruct (in_affinity ci n); simpl.
    - destruct (run_set_children (status_on sts n) p s1) as (s2 & E & H1 & H2 & H3 & H4 & H5 & H6); try done.
      { eapply Forall_impl; [exact Hids|]. intros q Hq.
        rewrite (list_fmap_ext _ (id_at s)); [exact Hq|]. intros i x _. apply id_at_status. }
      change (view s1 (process_list s1)) with (view s (process_list s)) in H6.
      rewrite (offered_view _ _ _ Hpr) in H6.
      exists s2. split; [done|]. split; [|done]. split; [by rewrite H1|]. split; [by rewrite H2|].
      split; [done|]. split; [done|]. rewrite H6. apply Forall_fmap. eapply Forall_impl; [exact Hpr | done].
    - exists s1. split; [done|]. split; [done|]. split; [done|].
      symmetry. etransitivity; [|apply list_fmap_id]. apply list_fmap_ext. by intros i [? ?] _. }
  destruct Step as (s2 & E & (H1 & H2 & H3 & H4) & Hh & Hv).
  rewrite (bind_run_silent _ _ _ _ _ E).
  destruct (node_type n === SERVICE_VALUE); eexists; (split; [reflexivity|]); by split.
Qed.

Definition wants (s : CatalogPageComponent) (ci : ChartInfoClass) (sts : list StatusClass)
    (process : string) (p : loc) : bool :=
  match load (heap s) p with Some n => wanted ci sts process n | None => false end.

Lemma wanted_status ci sts process n st : wanted ci sts process (set_status st n) = wanted ci sts process n.
Proof using. done. Qed.

Lemma run_place_nodes ci sts ps s :
  placing s ci sts -> NoDup ps -> Forall (fun p => is_Some (load (heap s) p)) ps ->
  Forall (fun q => NoDup (id_at s <$> kids s q ++ ps)) (process_list s) ->
  exists s', for_each ps place_node s = (Ret tt, s', []) /\ placing s' ci sts /\
    (forall p n, p ∈ ps -> load (heap s) p = Some n ->
       load (heap s') p = Some (set_status (status_for sts n) n)) /\
    view s' (process_list s') =
      (fun x => (fst x, snd x ++ filter (fun p => wants s ci sts (fst x) p = true) ps))
      <$> view s (process_list s).
Proof using.
  intros Hpl Hnd Hload Hids.
  assert (G : forall s0, placing s0 ci sts ->
    (forall p, p ∈ ps -> load (heap s0) p = load (heap s) p) ->
    (forall q, id_at s0 q = id_at s q) ->
    Forall (fun q => NoDup (id_at s <$> snd q ++ ps)) (view s0 (process_list s0)) ->
    exists s', for_each ps place_node s0 = (Ret tt, s', []) /\ placing s' ci sts /\
    (forall p n, p ∈ ps -> load (heap s) p = Some n ->
       load (heap s') p = Some (set_status (status_for sts n) n)) /\
    (forall p, p ∉ ps -> load (heap s') p = load (heap s0) p) /\
    view s' (process_list s') =
      (fun x => (fst x, snd x ++ filter (fun p => wants s ci sts (fst x) p = true) ps))
      <$> view s0 (process_list s0)).
  { clear Hids Hpl. induction ps as [|p ps IH]; intros s0 Hpl Hsame Hid Hids.
    - exists s0. split; [done|]. split; [done|]. split; [by intros p n ?%not_elem_of_nil|]. split; [done|].
      symmetry. etransitivity; [|apply list_fmap_id]. apply list_fmap_ext.
      intros i [? ?] _. simpl. by rewrite app_nil_r.
    - apply NoDup_cons in Hnd as [Hp Hnd]. apply Forall_cons in Hload as [[n Hn] Hload].
      destruct (run_place_node ci sts p n s0 Hpl) as (s1 & E1 & Hpl1 & Hh1 & Hv1).
      { rewrite Hsame by left. exact Hn. }
      { apply Forall_forall. intros q Hq. rewrite Forall_forall in Hids.
        specialize (Hids _ (list_elem_of_fmap_2 (fun p => (process p, kids s0 p)) _ _ Hq)). simpl in Hids.
        rewrite (list_fmap_ext _ (id_at s)) by (intros; apply Hid).
        rewrite fmap_app in Hids |- *. simpl in *. apply (sublist_NoDup _ _ Hids).
        apply sublist_app; [done|]. apply sublist_skip, sublist_nil_l. }
      destruct (IH Hnd Hload s1 Hpl1) as (s' & E' & Hpl' & Hload' & Hrest' & Hv').
      { intros q Hq. rewrite Hh1, load_update_ne by (intros ->; done). apply Hsame. by right. }
      { intros q. rewrite <- Hid. unfold id_at. rewrite Hh1. destruct (decide (p = q)) as [->|Hne];
          [rewrite load_update_eq; by destruct (load (heap s0) q) | by rewrite load_update_ne]. }
      { rewrite Hv1. apply Forall_fmap. eapply Forall_impl; [exact Hids|]. intros [nm l] Hl. simpl in *.
        destruct (wanted ci sts nm n); [by rewrite <- app_assoc|].
        rewrite fmap_app in Hl |- *. apply (sublist_NoDup _ _ Hl).
        apply sublist_app; [done|]. apply sublist_cons. done. }
      exists s'. cbn [for_each]. rewrite (bind_run_silent _ _ _ _ _ E1).
      split; [exact E'|]. split; [exact Hpl'|].
      split; [|split].
      + intros q m Hq Hm. apply elem_of_cons in Hq as [->|Hq]; [|by apply Hload'].
        rewrite Hrest' by done. rewrite Hh1, load_update_eq, Hsame by left. rewrite Hm. simpl. congruence.
      + intros q [Hq1 Hq2]%not_elem_of_cons. rewrite Hrest' by done. by rewrite Hh1, load_update_ne.
      + rewrite Hv', Hv1, <- list_fmap_compose. apply list_fmap_ext. intros i [nm l] _. simpl.
        assert (Hw : wants s ci sts nm p = wanted ci sts nm n) by (unfold wants; by rewrite Hn).
        rewrite filter_cons, Hw. f_equal.
        destruct (wanted ci sts nm n); simpl; [by rewrite <- app_assoc | done]. }
  destruct (G s Hpl) as (s' & E & H1 & H2 & _ & H4); try done; [|by exists s'].
  unfold view. by apply Forall_fmap.
Qed.

(** The nodes a process offers after [l] was received, by host name. *)
Definition placed (ci : ChartInfoClass) (sts : list StatusClass) (l : list NodeClass) (process : string)
    : list NodeClass :=
  (fun n => set_status (status_for sts n) n) <$>
  base.filter (fun n => wanted ci sts process n = true) (js_sort node_alphanum l).

(** The processes of the page with the nodes they offer. *)
Definition shown (s : CatalogPageComponent) : list (string * list NodeClass) :=
  (fun p => (process p, omap (load (heap s)) (kids s p))) <$> process_list s.

(** The page before the nodes arrive: no process has nodes yet. *)
Definition fresh (s : CatalogPageComponent) (ci : ChartInfoClass) (sts : list StatusClass) : Prop :=
  placing s ci sts /\ Forall (fun p => kids s p = []) (process_list s).

Lemma alloc_refers l h ps h' :
  alloc_list l h = (ps, h') -> Forall2 (fun (p : loc) (n : NodeClass) => load h' p = Some n) ps l.
Proof using.
  intros E. destruct (alloc_list_fresh _ _ _ _ E) as [-> _].
  apply Forall2_same_length_lookup_2; [by rewrite length_seq|].
  intros i p n Hp Hn. apply lookup_seq in Hp as [-> _]. by apply (alloc_list_new _ _ _ _ _ _ E).
Qed.

Lemma ids_refer s ps l :
  Forall2 (fun p n => load (heap s) p = Some n) ps l -> id_at s <$> ps = Data._id <$> l.
Proof using. induction 1 as [|p n ps l Hp _ IH]; [done|]. rewrite !fmap_cons, IH. unfold id_at at 1. by rewrite Hp. Qed.

Lemma placed_refer s s' ci sts nm ps l :
  Forall2 (fun p n => load (heap s) p = Some n) ps l ->
  (forall p n, p ∈ ps -> load (heap s) p = Some n -> load (heap s') p = Some (set_status (status_for sts n) n)) ->
  omap (load (heap s')) (base.filter (fun p => wants s ci sts nm p = true) ps) =
  (fun n => set_status (status_for sts n) n) <$> base.filter (fun n => wanted ci sts nm n = true) l.
Proof using.
  intros H Hl. induction H as [|p n ps l Hp H IH]; [done|].
  assert (Hw : wants s ci sts nm p = wanted ci sts nm n) by (unfold wants; by rewrite Hp).
  rewrite !filter_cons, Hw. assert (IH' := IH (fun q m Hq => Hl q m (list_elem_of_further _ _ _ Hq))).
  destruct (decide (wanted ci sts nm n = true)); [|exact IH']. simpl.
  rewrite (Hl p n (list_elem_of_here _ _) Hp). by f_equal.
Qed.

Lemma filter_shown {A} (f : A -> string * list loc) (g : A -> string * list NodeClass)
    (o : list loc -> list NodeClass) (L : list A) :
  (forall a, a ∈ L -> g a = (fst (f a), o (snd (f a))) /\ (o (snd (f a)) = [] <-> snd (f a) = [])) ->
  (fun x : string * list loc => (fst x, o (snd x))) <$> base.filter (fun x => snd x <> []) (f <$> L) =
  base.filter (fun x => snd x <> []) (g <$> L).
Proof using.
  induction L as [|a L IH]; intros H; [done|]. rewrite !fmap_cons, !filter_cons.
  destruct (H a (list_elem_of_here _ _)) as [Hg Ho].
  assert (IH' := IH (fun b Hb => H b (list_elem_of_further _ _ _ Hb))).
  rewrite Hg. simpl. destruct (decide (snd (f a) <> [])) as [Hx|Hx].
  - rewrite decide_True by (by rewrite Ho). rewrite fmap_cons. by f_equal.
  - rewrite decide_False by (by rewrite Ho). exact IH'.
Qed.

Lemma shown_view s :
  let s' := with_process_list (base.filter (fun p => has_children s p = true) (process_list s)) s in
  shown s' = (fun x : string * list loc => (fst x, omap (load (heap s)) (snd x))) <$>
             base.filter (fun x => snd x <> []) (view s (process_list s)).
Proof using.
  unfold shown. simpl. generalize (process_list s) as L. induction L as [|p L IH]; [done|].
  unfold view. rewrite fmap_cons, !filter_cons. cbn [snd].
  assert (Hw : has_children s p = true <-> kids s p <> []).
  { unfold has_children. fold (kids s p). by destruct (kids s p). }
  destruct (decide (kids s p <> [])) as [Hk|Hk].
  - rewrite decide_True by (by apply Hw). rewrite !fmap_cons. f_equal. exact IH.
  - rewrite decide_False by (by rewrite Hw). exact IH.
Qed.

(** C4: after the nodes of the kit are received, the page shows exactly the
    processes that can be run on some node, in the order of the list, each with
    the nodes of its eligible kinds: sorted by host name, in the affinity of the
    chart, and in a status that allows the process; each node carries the status
    of its deployment. *)
Theorem process_lists s ci sts l :
  fresh s ci sts -> NoDup (Data._id <$> l) ->
  let s' := state_of (api_get_catalog_nodes_answer (Next l) s) in
  shown s' = base.filter (fun x => snd x <> [])
    ((fun p => (process p, placed ci sts l (process p))) <$> process_list s).
Proof using.
  intros [(Hst & Hci & Hf & Ha & Hpr) Hempty] Hid. cbv zeta. unfold api_get_catalog_nodes_answer.
  destruct (alloc_list l (heap s)) as [ps h] eqn:E.
  rewrite (bind_run_silent _ _ s ps (with_heap h s)) by (unfold receive; by rewrite E).
  set (s1 := with_heap h s). set (qs := js_sort (compare_nodes s1) ps).
  set (s2 := with_nodes (Some qs) s1).
  assert (Hrel : Forall2 (fun p n => load (heap s2) p = Some n) qs (js_sort node_alphanum l)).
  { apply (js_sort_related (fun p n => load h p = Some n)); [|by apply (alloc_refers l (heap s))].
    intros a a' b b' H1 H2. unfold compare_nodes. simpl. by rewrite H1, H2. }
  assert (Hids : NoDup (id_at s2 <$> qs)).
  { rewrite (ids_refer s2 _ _ Hrel). by rewrite (js_sort_permutation _ l). }
  destruct (run_place_nodes ci sts qs s2) as (s' & E' & Hpl & Hload & Hview).
  { by split. }
  { by apply NoDup_fmap_1 in Hids. }
  { apply Forall_forall. intros q Hq. apply list_elem_of_lookup in Hq as [i Hi].
    destruct (Forall2_lookup_l _ _ _ _ _ Hrel Hi) as (n & _ & Hn). by exists n. }
  { eapply Forall_impl; [exact Hempty|]. intros q Hq. unfold kids in *. simpl. by rewrite Hq. }
  unfold set_process_list_children_.
  set (s3 := with_process_list (base.filter (fun p => has_children s' p = true) (process_list s')) s').
  match goal with |- shown (state_of ?m) = _ => assert (Em : m = (Ret tt, s3, [])) end.
  { rewrite (bind_run_silent _ _ s1 (base.filter (fun p => has_children s' p = true) (process_list s')) s');
      [done|].
    rewrite (bind_run_silent _ _ s1 tt s2 eq_refl), (bind_run_silent _ _ _ _ _ (run_get s2)).
    change (default [] (nodes s2)) with qs. rewrite (bind_run_silent _ _ _ _ _ E'). done. }
  rewrite Em. cbn [state_of fst snd]. unfold s3. rewrite shown_view, Hview. unfold view.
  rewrite <- list_fmap_compose. apply filter_shown. intros p Hp. simpl.
  rewrite Forall_forall in Hempty. specialize (Hempty p Hp). unfold kids in Hempty |- *. simpl.
  rewrite Hempty. simpl. rewrite (placed_refer s2 s' ci sts (process p) qs _ Hrel Hload).
  split; [done|]. rewrite <- (placed_refer s2 s' ci sts (process p) qs _ Hrel Hload).
  split; [|by intros ->].
  assert (Hall : Forall (fun q => is_Some (load (heap s') q)) (base.filter (fun p0 => wants s2 ci sts (process p) p0 = true) qs)).
  { apply Forall_forall. intros q [_ Hq]%list_elem_of_filter. apply list_elem_of_lookup in Hq as Hi.
    destruct Hi as [i Hi]. destruct (Forall2_lookup_l _ _ _ _ _ Hrel Hi) as (n & _ & Hn).
    exists (set_status (status_for sts n) n). by apply Hload. }
  destruct (base.filter _ qs) as [|q qs']; [done|]. apply Forall_cons in Hall as [[n Hn] _].
  simpl. by rewrite Hn.
Qed.

(** ** Only the user's last step changes the kit *)

Create HintDb catalog.
#[local] Hint Unfold get set_selected_nodes info form node_at assign set_form selected_nodes selected_process raw_process
  group_at set_group hostname_form_group navigate_to_catalog api_get_chart_info_ api_get_chart_statuses_
  api_get_catalog_nodes_ api_get_saved_values_ check_chart_dependencies_ api_generate_values_file_
  api_get_iface_states_ filter_nodes_by_process is_config_ready control_of checkbox_set_value
  get_value_form_group_json_object get_iface_states initialize_process_form_group_
  set_deployment_name_ get_deployment_name_ reset_config_form_group_
  handle_checkbox_dependent_apps_ set_value_form_group_ compare_values_
  selection_change_process open_text_editor parse_text
  parse_value_of make_values_array_ push_child set_children_ place_node set_process_list_children_
  open_confirm_mat_dialog_ api_get_catalog_nodes_answer api_get_chart_info_answer
  api_get_chart_statuses_answer check_chart_dependencies_answer api_get_saved_values_answer
  receive_values api_generate_values_file_answer queued api_catalog_install_answer
  api_catalog_reinstall_answer api_catalog_uninstall_answer api_get_iface_states_answer ngOnInit
  confirm_dependency_closed text_editor_closed parse_net : catalog.

(** The requests that change the kit. *)
Definition action_of (c : call) : option (string * CatalogHelmActionInterface) :=
  match c with
  | CInstall a => Some (INSTALL, a)
  | CReinstall a => Some (REINSTALL, a)
  | CUninstall a => Some (UNINSTALL, a)
  | _ => None
  end.

Definition quiet (e : effect call page) : Prop := only (fun c => action_of c = None) e.

(** An invariant [I] of the values form, and effects [P] that are allowed. *)
Section Safety.
Context (I : CatalogPageComponent -> Prop) (P : effect call page -> Prop).
Hypothesis frame : forall s s', value_form_group s' = value_form_group s -> I s -> I s'.
Hypothesis values_set : forall s k v, I s ->
  I (with_value_form_group (update_control k (setValue v) (value_form_group s)) s).
Hypothesis values_disable : forall s k, I s ->
  I (with_value_form_group (update_control k disable (value_form_group s)) s).
Hypothesis values_add : forall s k v p, I s ->
  I (with_value_form_group (addControl k (disable (new_control v false p)) (value_form_group s)) s).
Hypothesis allowed : forall e, quiet e -> P e.

Lemma safe_new_group g : safe I P (new_group g).
Proof using frame. intros s Hs. unfold new_group, alloc. split; [by eapply frame; [|exact Hs] | constructor]. Qed.

Lemma safe_array l : safe I P (new_array l).
Proof using frame. intros s Hs. unfold new_array, alloc. split; [by eapply frame; [|exact Hs] | constructor]. Qed.

Lemma safe_receive l : safe I P (receive l).
Proof using frame.
  intros s Hs. unfold receive. destruct (alloc_list l (heap s)) as [p h].
  split; [by eapply frame; [|exact Hs] | constructor].
Qed.

Lemma safe_quiet e : quiet e -> safe I P (emit e).
Proof using allowed. intros H. by apply safe_emit, allowed. Qed.

Local Ltac settle :=
  match goal with
  | |- quiet _ => solve [by intros ? [= <-] | by intros ?]
  | H : I ?s |- I _ =>
      solve [ apply values_set, H | apply values_disable, H | apply values_add, H
            | by (eapply frame; [|exact H])
            | destruct (controls _ _); [apply values_set, H | apply values_add, H] ]
  end.
Local Ltac walk :=
  repeat autounfold with catalog;
  unfold on_error_message, on_error, displaySnackBar, generate_return_error_snackbar_message;
  repeat first [ apply safe_new_group | apply safe_array | apply safe_receive | (apply safe_quiet; settle)
               | settle | safe_step ].

Lemma safe_select_control_plane ps selected : safe I P (select_control_plane ps selected).
Proof using frame.
  revert selected. induction ps as [|p ps IH]; intros selected; simpl; [apply safe_ret|].
  unfold set_selected_nodes. walk; apply IH.
Qed.

Lemma safe_server_any_value_check : safe I P server_any_value_check_.
Proof using frame. unfold server_any_value_check_. walk; apply safe_select_control_plane. Qed.

Lemma safe_push_children wanted node l : safe I P (push_children wanted node l).
Proof using frame. induction l as [|p l IH]; simpl; walk. all: apply IH. Qed.

Lemma safe_initialize_config_form_control h v : safe I P (initialize_config_form_control h v).
Proof using frame. unfold initialize_config_form_control. walk. Qed.

Lemma safe_initialize_config_form_group : safe I P initialize_config_form_group_.
Proof using frame allowed.
  unfold initialize_config_form_group_. walk; try apply safe_initialize_config_form_control.
  match goal with |- safe _ _ (_ ?svs ?x) => revert x; induction svs as [|sv l IH]; intros x end.
  - apply safe_ret.
  - walk; first [apply safe_initialize_config_form_control | apply IH].
Qed.

Lemma safe_config_objects g l : safe I P (config_objects g l).
Proof using. clear. induction l as [|k l IH]; simpl; [apply safe_ret|]. walk. all: apply IH. Qed.

Lemma safe_get_values_file : safe I P get_values_file_.
Proof using frame values_set values_add allowed.
  unfold get_values_file_. walk; try apply safe_config_objects.
Qed.

Lemma safe_make_values_array : safe I P make_values_array_.
Proof using frame values_set values_disable. unfold make_values_array_. walk. Qed.

Lemma safe_raw_process : safe I P raw_process.
Proof using. clear. walk. Qed.

Lemma safe_run_chart_action : (forall e, P e) -> safe I P run_chart_action.
Proof using frame values_set values_disable allowed.
  intros HP. unfold run_chart_action, api_catalog_install_, api_catalog_reinstall_, api_catalog_uninstall_.
  walk; first [ apply safe_server_any_value_check | apply HP ].
Qed.

Lemma run_or_not (l : label event Ans) : l = Event RunChartAction \/ l <> Event RunChartAction.
Proof using. clear. destruct l as [e|]; [destruct e; (by right) || (by left) | by right]. Qed.

Lemma safe_react l : l <> Event (Ans := Ans) RunChartAction -> safe I P (react l).
Proof using frame values_set values_add allowed.
  intros Hl. destruct l as [e|c a]; [destruct e | destruct c]; simpl in *; try done;
    unfold selection_change_stepper; walk;
    first [ apply safe_server_any_value_check | apply safe_initialize_config_form_group
          | apply safe_get_values_file | apply safe_push_children ].
Qed.
End Safety.

(** A request that changes the kit comes from the turn of the Run button, and
    asks for the process that was chosen. *)
Definition asked (l : label event Ans) (e : effect call page) : Prop :=
  forall c nm a, e = Subscribe c -> action_of c = Some (nm, a) ->
  l = Event RunChartAction /\ Services.selectedProcess (cha_process a) = JStr nm /\
  (cha_values a = None <-> nm = UNINSTALL).

Lemma quiet_asked l e : quiet e -> asked l e.
Proof using. intros H c nm a -> Ha. by rewrite (H c eq_refl) in Ha. Qed.

(** The chosen process is [nm]. *)
Definition chosen (nm : string) (s : CatalogPageComponent) : Prop :=
  match process_form_group s with Some f => control_value (pf_selectedProcess f) = nm | None => True end.

Lemma chosen_frame nm s s' : process_form_group s' = process_form_group s -> chosen nm s -> chosen nm s'.
Proof using. unfold chosen. by intros ->. Qed.

Lemma quiet_set_selected_nodes nm l : safe (chosen nm) quiet (set_selected_nodes l).
Proof using.
  intros s Hs. unfold set_selected_nodes, form, get, set_form, bind, gets, deref, modify, chosen in *.
  destruct (process_form_group s) as [f|] eqn:E; cbn; rewrite ?E; (split; [done | apply Forall_nil_2]).
Qed.

Local Ltac chosen_walk :=
  unfold selected_nodes, node_at, assign, form, info, get;
  repeat first [ apply quiet_set_selected_nodes | safe_step
               | match goal with H : chosen _ _ |- chosen _ _ => exact H end ].

Lemma quiet_server_any nm : safe (chosen nm) quiet server_any_value_check_.
Proof using.
  unfold server_any_value_check_.
  assert (H : forall ps selected, safe (chosen nm) quiet (select_control_plane ps selected)).
  { induction ps as [|p ps IH]; intros selected; simpl; [apply safe_ret|].
    chosen_walk; try apply IH. }
  chosen_walk; apply H.
Qed.

Lemma quiet_set_deployment_name nm : safe (chosen nm) quiet set_deployment_name_.
Proof using. unfold set_deployment_name_. chosen_walk. Qed.

Lemma asked_raw_process nm (k : ProcessFromFormGroup -> M unit) :
  (forall p, Services.selectedProcess p = JStr nm -> safe (chosen nm) (asked (Event RunChartAction)) (k p)) ->
  safe (chosen nm) (asked (Event RunChartAction)) (p <- raw_process ;; k p).
Proof using.
  intros Hk s Hs. unfold chosen in Hs. destruct (process_form_group s) as [f|] eqn:E.
  - rewrite (bind_run_silent _ _ _ _ _ (run_raw_process s f E)). apply Hk; [|by unfold chosen; rewrite E].
    simpl. by rewrite Hs.
  - unfold raw_process, form, get, bind, gets, deref. cbn. rewrite E. cbn.
    split; [unfold chosen; by rewrite E | apply Forall_nil_2].
Qed.

Lemma asked_emit c nm a :
  action_of c = Some (nm, a) -> Services.selectedProcess (cha_process a) = JStr nm ->
  (cha_values a = None <-> nm = UNINSTALL) ->
  safe (fun _ : CatalogPageComponent => True) (asked (Event RunChartAction)) (emit (Subscribe c)).
Proof using. intros Hc Hp Hv. apply safe_emit. intros ? ? ? [= <-] Hc'. by simplify_eq. Qed.

Lemma asked_run s : Forall (asked (Event RunChartAction)) (effects_of (run_chart_action s)).
Proof using.
  unfold run_chart_action. destruct (chart_info s) as [ci|] eqn:Hci.
  2:{ unfold info, get, bind, gets, deref. rewrite Hci. constructor. }
  rewrite (bind_run_silent _ _ _ _ _ (run_info s ci Hci)).
  destruct (process_form_group s) as [f|] eqn:Hf.
  2:{ unfold raw_process, form, get, bind, gets, deref. rewrite Hf. constructor. }
  rewrite (bind_run_silent _ _ _ _ _ (run_raw_process s f Hf)).
  rewrite (bind_run_silent _ _ _ _ _ (run_selected_process s f Hf)).
  assert (Hmake : safe (fun _ : CatalogPageComponent => True) (asked (Event RunChartAction)) make_values_array_)
    by (apply safe_make_values_array; done).
  set (p := control_value (pf_selectedProcess f)).
  destruct (p === INSTALL) eqn:E1; [|destruct (p === REINSTALL) eqn:E2; [|destruct (p === UNINSTALL) eqn:E3]].
  - apply (safe_bind _ _ _ _ Hmake); [|done]. intros v.
    eapply asked_emit; [reflexivity | | done]. simpl. f_equal. by apply seqb_eq.
  - apply (safe_bind _ _ _ _ Hmake); [|done]. intros v.
    eapply asked_emit; [reflexivity | | done]. simpl. f_equal. by apply seqb_eq.
  - apply seqb_eq in E3. assert (Hq : forall A (m : M A), safe (chosen UNINSTALL) quiet m ->
      safe (chosen UNINSTALL) (asked (Event RunChartAction)) m).
    { intros A m Hm s0 Hs0. destruct (Hm s0 Hs0) as [? Hq]. split; [done|].
      eapply Forall_impl; [exact Hq|]. intros e. apply quiet_asked. }
    refine (proj2 (safe_bind _ _ _ _ (Hq _ _ (quiet_server_any _)) _ s _));
      [|unfold chosen; by rewrite Hf]. intros _.
    apply safe_bind; [apply Hq, quiet_set_deployment_name | intros _].
    apply asked_raw_process. intros q Hp s0 Hs0.
    split; [done|]. by eapply asked_emit.
  - apply Forall_cons_2; [by intros ? ? ? [=] | apply Forall_nil_2].
Qed.

(** C7: installations, reinstallations and removals are sent only when the user
    runs the action of the last step.  In every interleaving of user actions,
    answers and dialogs, the turn that sends such a request is that of the Run
    button, the process form it carries names the very process the request is
    for, and it carries values unless it is a removal. *)
Theorem kit_changes_only_by_run tr w l es c nm a :
  trace (fun _ : label event Ans => True) tr w -> (l, es) ∈ tr -> Subscribe c ∈ es ->
  action_of c = Some (nm, a) ->
  l = Event RunChartAction /\ Services.selectedProcess (cha_process a) = JStr nm /\
  (cha_values a = None <-> nm = UNINSTALL).
Proof using.
  intros Htr Hin Hc Ha.
  destruct (trace_invariant (fun _ => True) (fun _ => True) asked I) with (tr := tr) (w := w) as [_ HF];
    [|done|].
  - intros l' _. destruct (run_or_not l') as [->|Hne].
    + intros s _. split; [done|]. apply asked_run.
    + apply safe_react; try done. apply quiet_asked.
  - rewrite Forall_forall in HF. specialize (HF _ Hin). simpl in HF. rewrite Forall_forall in HF.
    by apply (HF _ Hc c nm a).
Qed.

(** ** The texts of the values are not edited in place *)

Section Locked.
Context {CL : ControlsLaws Ctl} {GL : GroupsLaws Grp}.

Definition locked (s : CatalogPageComponent) : Prop :=
  forall k c, controls (value_form_group s) k = Some c -> control_disabled c = true.

(** In every reachable state, whatever the user did and whichever answers
    arrived, every control of the values form is disabled: the inputs of the
    last step take no edits, only the text editor dialog changes a value. *)
Theorem values_locked tr w :
  trace (fun _ : label event Ans => True) tr w -> locked (component w).
Proof using CL GL.
  intros Htr.
  assert (Hset : forall s k (f : control jsval -> control jsval),
    (forall c, control_disabled c = true -> control_disabled (f c) = true) -> locked s ->
    locked (with_value_form_group (update_control k f (value_form_group s)) s)).
  { intros s k f Hf Hs j c. simpl. rewrite controls_update. destruct (k === j); [|by apply Hs].
    destruct (controls _ j) as [c'|] eqn:Hj; [|done]. intros [= <-]. apply Hf. by apply (Hs j). }
  destruct (trace_invariant (fun _ => True) locked (fun _ _ => True)) with (tr := tr) (w := w) as [Hl _];
    [| |done|done].
  - intros k c. simpl. by rewrite controls_empty.
  - intros l _. assert (Hframe : forall s s', value_form_group s' = value_form_group s -> locked s -> locked s')
      by (unfold locked; by intros s s' ->).
    assert (Hadd : forall s k (v : jsval) p, locked s -> locked
      (with_value_form_group (addControl k (disable (new_control v false p)) (value_form_group s)) s)).
    { intros s k v p Hs j c. simpl. rewrite controls_add. destruct (k === j); [|by apply Hs].
      destruct (controls _ k) as [c'|] eqn:Hk; intros [= <-]; [by apply (Hs k)|].
      apply disabled_set_disabled. }
    destruct (run_or_not l) as [->|Hne]; [apply safe_run_chart_action | apply safe_react]; try done; intros;
      apply Hset; try done; intros c Hc; unfold disable; by rewrite ?disabled_setValue, ?disabled_set_disabled.
Qed.
End Locked.
End Catalog.

(** ** Witnesses *)

Definition witness_chart : ChartInfoClass :=
  {| ci_appVersion := ""; ci_description := ""; formControls := []; ci_id := "arkime";
     node_affinity := "Sensor"; ci_type := "chart"; ci_version := "1"; devDependent := None |}.

Definition witness_node (i host kind : string) : NodeClass :=
  {| Data._id := Some i; deployment_name := None; deployment_type := "Virtual"; hostname := host;
     ip_address := "10.0.0.1"; is_remote := None; Data.jobs := None; mac_address := ""; node_type := kind;
     raid0_override := None; virtual_cpu := 1; virtual_data := None; virtual_mem := 1; virtual_os := 1;
     vpn_status := None; isDeployed := None; isRemoving := None; Data.status := None; deviceFacts := None |}.

Definition witness_status : StatusClass :=
  {| s_appVersion := ""; s_application := "arkime"; s_deployment_name := "s1-arkime";
     s_hostname := Some "s1.lan"; s_node_type := "Sensor"; s_status := DEPLOYED |}.

Definition witness_nodes : list NodeClass :=
  [witness_node "2" "s2.lan" "Sensor"; witness_node "1" "s1.lan" "Sensor"; witness_node "3" "m.lan" "MIP"].

Abbreviation Page := (@CatalogPageComponent form_control form_group).

(** The page when the status of the application is known. *)
Definition witness_fresh : Page :=
  state_of (api_get_chart_statuses_answer false (Next [witness_status])
    (state_of (api_get_chart_info_answer (Next witness_chart) constructor))).

Definition host_names (l : list (string * list NodeClass)) : list (string * list string) :=
  (fun x : string * list NodeClass => (fst x, hostname <$> snd x)) <$> l.

(** s2, where the application is not deployed, can get it; on s1 it can be
    installed again or removed; the MIP is in no list. *)
Example process_lists_witness :
  host_names (shown (state_of (api_get_catalog_nodes_answer (Next witness_nodes) witness_fresh))) =
  [(INSTALL, ["s2.lan"]); (REINSTALL, ["s1.lan"]); (UNINSTALL, ["s1.lan"])].
Proof.
  rewrite (process_lists witness_fresh witness_chart [witness_status] witness_nodes).
  - vm_compute. reflexivity.
  - split; [|by repeat constructor]. split; [reflexivity|]. split; [reflexivity|].
    split; [by eexists|]. split; [split|].
    + apply (proj1 (bool_decide_eq_true (NoDup [0; 1; 2]))). vm_compute. reflexivity.
    + repeat (constructor; [split; [vm_compute; lia | by eexists] |]). constructor.
    + apply Forall_cons_2; [by left|]. apply Forall_cons_2; [by right; left|].
      apply Forall_cons_2; [by right; right | apply Forall_nil_2].
  - apply (proj1 (bool_decide_eq_true (NoDup [Some "2"; Some "1"; Some "3"]))). vm_compute. reflexivity.
Defined.

(** The page with s1 and s2 selected for an installation. *)
Definition witness_chosen : Page :=
  state_of (set_selected_nodes [0; 1]
    (state_of (on_ev (ChooseProcess INSTALL)
      (state_of (api_get_catalog_nodes_answer (Next witness_nodes) witness_fresh))))).

Definition witness_values (d : string) : jsval := JObj [("deployment_name", JStr d); ("cpu", JNum 4)].
Definition witness_answers : list (string * jsval) :=
  [("s1.lan", witness_values "s1-arkime"); ("s2.lan", witness_values "s2-arkime")].
Definition witness_installed : list (string * jsval) :=
  [("s2-arkime", witness_values "s2-arkime"); ("s1-arkime", witness_values "s1-arkime")].

Definition witness_form : @process_form form_control :=
  match process_form_group witness_chosen with
  | Some f => f
  | None => {| pf_selectedProcess := new_control "" false (fun _ => true);
               pf_selectedNodes := new_control [] false (fun _ => true);
               pf_node_affinity := new_control "" false (fun _ => true) |}
  end.

Example generated_values_are_installed_witness : exists a l,
  effects_of (run_chart_action (state_of (api_generate_values_file_answer (Next (responses witness_answers))
    witness_chosen))) = [Subscribe (CInstall a)] /\
  cha_values a = Some l /\ JObj [("s2-arkime", witness_values "s2-arkime")] ∈ l.
Proof.
  destruct (generated_values_are_installed witness_chosen witness_chart witness_form
    witness_answers [0; 1] witness_installed) as (a & l & H1 & H2 & H3).
  - reflexivity.
  - reflexivity.
  - reflexivity.
  - reflexivity.
  - apply (proj1 (bool_decide_eq_true (NoDup ["s1.lan"; "s2.lan"]))). vm_compute. reflexivity.
  - apply (proj1 (bool_decide_eq_true (NoDup [0; 1]))). vm_compute. reflexivity.
  - apply (proj1 (bool_decide_eq_true (NoDup ["s2-arkime"; "s1-arkime"]))). vm_compute. reflexivity.
  - constructor; [|constructor; [|constructor]]; (eexists; split; [reflexivity|]; split;
      [by repeat first [left | right] | split; [discriminate | split; reflexivity]]).
  - exists a, l. split; [exact H1|]. split; [exact H2 | apply H3; left].
Defined.

(** The page with the generated values, before the installation. *)
Definition witness_page : Page :=
  state_of (api_generate_values_file_answer (Next (responses witness_answers)) witness_chosen).

Lemma witness_ready : ready witness_page INSTALL witness_chart witness_form [0; 1] witness_installed.
Proof.
  split; [reflexivity|]. split; [reflexivity|]. split; [reflexivity|]. split; [reflexivity|]. split.
  - constructor; [|constructor; [|constructor]]; do 3 eexists; (split; [reflexivity|]); (split; [reflexivity|]);
      (split; [reflexivity|]); (split; [reflexivity|]); vm_compute; reflexivity.
  - apply (proj1 (bool_decide_eq_true (NoDup ["s2-arkime"; "s1-arkime"]))). vm_compute. reflexivity.
Qed.

Example install_sends_the_values_witness : exists a,
  effects_of (run_chart_action witness_page) = [Subscribe (CInstall a)] /\ cha_role a = "arkime" /\
  cha_values a = Some [JObj [("s2-arkime", witness_values "s2-arkime")];
                       JObj [("s1-arkime", witness_values "s1-arkime")]].
Proof.
  destruct (install_sends_the_values witness_page witness_chart witness_form [0; 1] witness_installed
    witness_ready) as (_ & a & H1 & H2 & _ & H3).
  exists a. split; [exact H1|]. split; [exact H2|]. rewrite H3. vm_compute. reflexivity.
Defined.

(** The server says the connection failed; the user presses the button again. *)
Example install_cannot_be_retried_witness :
  let s1 := state_of (run_chart_action witness_page) in
  let s2 := state_of (api_catalog_install_answer (Error (HttpFailure None)) s1) in
  fst (fst (run_chart_action s2)) = Exn "SyntaxError" /\ effects_of (run_chart_action s2) = [].
Proof.
  destruct witness_installed as [|kx kxs] eqn:E; [discriminate E|].
  apply (install_cannot_be_retried witness_page witness_chart witness_form 0 [1] kx kxs (HttpFailure None)).
  - vm_compute. reflexivity.
  - rewrite <- E. exact witness_ready.
  - injection E as <- _. eexists. reflexivity.
Defined.

(** A whole session, from the address to the button. *)
Example kit_changes_only_by_run_witness : exists tr w l es a,
  trace (K := @CatalogPage code_collation bits_json _ plain_controls _ association_groups plain_validators)
    (fun _ => True) tr w /\ (l, es) ∈ tr /\ Subscribe (CUninstall a) ∈ es /\
  l = Event RunChartAction /\ Services.selectedProcess (cha_process a) = JStr UNINSTALL.
Proof.
  pose proof (trace_start
    (K := @CatalogPage code_collation bits_json _ plain_controls _ association_groups plain_validators)
    (fun _ => True)) as T.
  apply (trace_event _ _ _ (NgOnInit "https://controller/catalog/arkime")) in T; [|exact I].
  apply (trace_answer _ _ _ [] (CGetChartInfo "arkime") [] (Next witness_chart)) in T; [|exact I|reflexivity].
  apply (trace_answer _ _ _ [] (CGetChartStatuses false "arkime") [] (Next [witness_status])) in T;
    [|exact I|reflexivity].
  apply (trace_answer _ _ _ [] CGetCatalogNodes [CGetSavedValues "arkime"] (Next witness_nodes)) in T;
    [|exact I|reflexivity].
  apply (trace_event _ _ _ (ChooseProcess UNINSTALL)) in T; [|exact I].
  apply (trace_event _ _ _ (ChooseNodes [1])) in T; [|exact I].
  apply (trace_event _ _ _ RunChartAction) in T; [|exact I].
  match type of T with trace _ (?tr1 ++ [(?l, ?es)]) ?w =>
    assert (Hin : exists a, Subscribe (CUninstall a) ∈ es) by (eexists; vm_compute; left);
    destruct Hin as [a Hin]; exists (tr1 ++ [(l, es)]), w, l, es, a;
    assert (Hl : (l, es) ∈ tr1 ++ [(l, es)]) by (apply elem_of_app; right; left);
    destruct (kit_changes_only_by_run _ _ _ _ _ UNINSTALL a T Hl Hin eq_refl) as (H1 & H2 & _)
  end.
  split; [exact T|]. split; [exact Hl|]. split; [exact Hin|]. split; [exact H1 | exact H2].
Defined.

Example values_locked_witness : exists tr w,
  trace (K := @CatalogPage code_collation bits_json _ plain_controls _ association_groups plain_validators)
    (fun _ => True) tr w /\
  control_keys (value_form_group (component w)) = ["s1-arkime"] /\ locked (component w).
Proof.
  pose proof (trace_start
    (K := @CatalogPage code_collation bits_json _ plain_controls _ association_groups plain_validators)
    (fun _ => True)) as T.
  apply (trace_event _ _ _ (NgOnInit "https://controller/catalog/arkime")) in T; [|exact I].
  apply (trace_answer _ _ _ [] (CGetChartInfo "arkime") [] (Next witness_chart)) in T; [|exact I|reflexivity].
  apply (trace_answer _ _ _ [] (CGetChartStatuses false "arkime") [] (Next [witness_status])) in T;
    [|exact I|reflexivity].
  apply (trace_answer _ _ _ [] CGetCatalogNodes [CGetSavedValues "arkime"] (Next witness_nodes)) in T;
    [|exact I|reflexivity].
  apply (trace_event _ _ _ (ChooseProcess INSTALL)) in T; [|exact I].
  apply (trace_event _ _ _ (ChooseNodes [1])) in T; [|exact I].
  apply (trace_event _ _ _ (SelectionChangeStepper 1)) in T; [|exact I].
  apply (trace_event _ _ _ (SelectionChangeStepper 2)) in T; [|exact I].
  match type of T with trace _ _ ?w =>
    assert (P : exists g, pending w = [CGetSavedValues "arkime"; CGenerateValuesFile g])
      by (eexists; vm_compute; reflexivity) end.
  destruct P as [g P].
  apply (trace_answer _ _ _ [CGetSavedValues "arkime"] (CGenerateValuesFile g) []
    (Next (responses [("s1.lan", witness_values "s1-arkime")]))) in T; [|exact I|exact P].
  match type of T with trace _ ?tr ?w => exists tr, w end.
  split; [exact T|]. split; [vm_compute; reflexivity | exact (values_locked _ _ T)].
Defined.
