(* ===== verification/Alerts.v ===== *)
(** modules/security-alerts/security-alerts.component.ts: the page of the grouped
    alerts, and modules/security-alerts/services/alerts.service.ts.

    Rows of the table, column lists and the value of the time form are objects:
    the list of default columns is a constant of the module that the page may
    hold itself, and the value of the form is one object, to which an escalation
    adds properties and which requests carry, until a control changes. *)
From S2P Require Import Prelude Handler JsValue Json Runtime Data Api Services Net.
From Stdlib Require Import Ascii.

Definition SECURITY_ALERTS_COMPONENT_TITLE : string := "Security Alerts".
Definition ACTIONS_COLUMN_NAME : string := "actions".
Definition COUNT_COLUMN_NAME : string := "count".
Definition FORM_COLUMN_NAME : string := "form".
Definition LINKS_COLUMN_NAME : string := "links".
Definition RULE_NAME_COLUMN_NAME : string := "rule.name".
Definition EVENT_MODULE_COLUMN_NAME : string := "event.module".
Definition EVENT_KIND_COLUMN_NAME : string := "event.kind".
Definition ALL_COLUMNS_START_VALUES : list string := [ACTIONS_COLUMN_NAME; COUNT_COLUMN_NAME].
Definition DYNAMIC_COLUMNS_DEFAULT_VALUES : list string :=
  [EVENT_MODULE_COLUMN_NAME; EVENT_KIND_COLUMN_NAME; RULE_NAME_COLUMN_NAME].
Definition TIMESTAMP_SOURCE : string := "@timestamp".
Definition SIGNAL_KIND : string := "signal".
Definition ALERT_KIND : string := "alert".
Definition ENDGAME_MODULE : string := "endgame".
Definition SURICATA_MODULE : string := "suricata".
Definition ZEEK_MODULE : string := "zeek".
Definition SYSTEM_MODULE : string := "system".
Definition SYSMON_MODULE : string := "sysmon".
Definition KIBANA : string := "kibana".
Definition ARKIME : string := "arkime".
Definition HIVE : string := "hive".
Definition DAYS : string := "days".
Definition HOURS : string := "hours".
Definition MINUTES : string := "minutes".
Definition ARKIME_FIELD_LOOKUP : list (string * string) :=
  [("source.address", "ip.src"); ("source.ip", "ip.src"); ("source.port", "port.src");
   ("destination.port", "port.dst"); ("destination.address", "ip.dst"); ("destination.ip", "ip.dst")].
Definition TIME_FORM_GROUP_COOKIE : string := "time_form_group".
Definition AUTO_REFRESH_COOKIE : string := "auto_refresh".
Definition DYNAMIC_COLUMNS_COOKIE : string := "dynamic_columns".
Definition ACKNOWLEDGE_ALERTS_WINDOW_TITLE : string := "Acknowledge Alerts".
Definition UNACKNOWLEDGED_ALERTS_WINDOW_TITLE : string := "Unacknowledged Alerts".
Definition REMOVE_ALERTS_WINDOW_TITLE : string := "Remove Alerts".
Definition NA : string := "N/A".
Definition NA_FAILED_ARKIME_NOT_INSTALLED : string := "N/A - Failed to create because Arkime is not installed.".
Definition MODIFY_API_SWITCH : string := "modify".
Definition REMOVE_API_SWITCH : string := "remove".
Definition HIVE_ORG_ADMIN_TEXT : string := "org_admin_api_key".
Definition ARKIME_NOT_INSTALLED : string :=
  "Arkime is not installed. Please go to the catalog page and install it if you want this capability to work.".
Definition START_DATE_TIME_LARGE : string :=
  "Zero results returned because start datetime cannot be larger than end datetime.".
Definition HIVE_NOT_CONFIGURED : string :=
  "Hive is not configured. Please navigate to System Settings -> Hive Settings to set your Hive API Keys.".
Definition ALERT_LIST_FAILED : string := "Failed to get event details for the selected Alert group.".
Definition KIBANA_DETECTIONS_PAGE : string := "detections".
Definition KIBANA_NETWORK_EXTERNAL_PAGE : string := "network/external-alerts".
Definition KIBANA_HOSTS_ALERTS_PAGE : string := "hosts/alerts".

(** A [Date]: milliseconds, or invalid. *)
Definition date : Type := option Z.

(** The dates of the language's library: local time and its printed form belong
    to the platform. *)
Class Dates := {
  (** [d.setDate(d.getDate() - amount)] and its companions for hours and minutes *)
  set_back : string -> Z -> jsval -> date;
  toISOString : Z -> string;
  (** [new Date(v)] *)
  new_Date : jsval -> date;
}.

Class DatesLaws (D : Dates) := {
  set_back_before interval d n : (0 <= n)%Z -> exists e, set_back interval d (JNum n) = Some e /\ (e <= d)%Z;
}.

(** interfaces/alert-form.interface.ts: a missing date is null, an optional
    property may be absent. *)
Record AlertFormInterface := {
  acknowledged : jsval;
  escalated : jsval;
  showClosed : jsval;
  timeInterval : jsval;
  timeAmount : jsval;
  performEscalation : option bool;
  hiveForm : option jsval;
  startDatetime : option date;
  endDatetime : option date;
  absoluteTime : jsval;
}.

(** A row of the table: the columns it was grouped by with its count, and what
    the page adds to it. *)
Record update_alert := {
  columns : list (string * jsval);
  alert_form : option loc;
  links : option (list PortalLinkClass);
}.

(** A row as a request carries it. *)
Record sent_alert := {
  sent_columns : list (string * jsval);
  sent_form : option AlertFormInterface;
  sent_links : option (list PortalLinkClass);
}.

(** The first hits of an alert list; classes/alert-list.class.ts. *)
Record AlertListClass := { hits : list jsval }.

(** The part of classes/modify-remove-return.class.ts the page reads. *)
Record ModifyRemoveReturnClass := { total : Z }.

(** interfaces/fork-join-hive-settings-and-alert-list.interface.ts *)
Record ForkJoinHiveSettingsAndAlertListInterface := {
  hive_settings : HiveSettingsClass;
  alert_list : option AlertListClass;
}.

(** The form of the escalation dialog, with the values it opens with. *)
Record escalate_form := {
  event_title : jsval;
  event_severity : string;
  event_description : string;
}.

Inductive call : Type :=
| CGetFields
| CGetPortalLinks
| CGetAlerts (display_message : bool) (url : string)
| CGetAlertList (u : sent_alert)
| CModifyAlert (u : sent_alert)
| CRemoveAlerts (u : sent_alert)
| CHiveSettingsAndAlertList (row : loc) (u : sent_alert) (kibana_link arkime_link : string)
| DConfirm (row : loc) (data : ConfirmDialogMatDialogDataInterface) (api_switch : string)
| DEscalate (row : loc) (message : string) (form : escalate_form).

(** The two readings of the clock a turn makes, in their order. *)
Definition now : Type := Z * Z.

(** What the escalation dialog closes with: a valid form with its value, or a
    form that is not, or nothing. *)
Record dialog_form := { valid : bool; form_values : jsval }.

Definition Ans (c : call) : Type :=
  match c with
  | CGetFields => answer (list string)
  | CGetPortalLinks => answer (list PortalLinkClass)
  | CGetAlerts _ _ => answer (list (list (string * jsval)))
  | CGetAlertList _ => answer AlertListClass
  | CModifyAlert _ | CRemoveAlerts _ => now * answer ModifyRemoveReturnClass
  | CHiveSettingsAndAlertList _ _ _ _ => answer ForkJoinHiveSettingsAndAlertListInterface
  | DConfirm _ _ _ => option string
  | DEscalate _ _ _ => option dialog_form
  end.

Inductive page : Type := DrillDown (row : loc).

(** ** Text *)

(** [s.replace(/c/g, r)] for one character. *)
Fixpoint replace_all (c : Ascii.ascii) (r s : string) : string :=
  match s with
  | EmptyString => EmptyString
  | String d t => if Ascii.eqb d c then r +:+ replace_all c r t else String d (replace_all c r t)
  end.

(** [s.slice(0, s.length - n)]: a negative end counts from the end. *)
Definition drop_last (n : nat) (s : string) : string :=
  let len := String.length s in
  if (n <=? len)%nat then String.substring 0 (len - n) s else String.substring 0 (len - (n - len)) s.

(** [value.toLowerCase().indexOf(filter.toLowerCase()) === 0] *)
Definition starts_with (filter option : string) : bool := String.prefix filter (toLowerCase option).

(** ** The service *)

Definition yes_no (v : jsval) : string := if js_truthy v then "yes" else "no".

Definition get_fields : service unit (list string) (list string) :=
  Service GET "/api/alerts/fields" tt "get fields" copied.

Definition alerts_url (fields start_time end_time : string) (acknowledged escalated show_closed : jsval) : string :=
  "/api/alerts/" +:+ yes_no acknowledged +:+ "/" +:+ yes_no escalated +:+ "/" +:+ yes_no show_closed +:+ "/" +:+
  start_time +:+ "/" +:+ end_time +:+ "/" +:+ fields.

Definition get_alerts (fields start_time end_time : string) (acknowledged escalated show_closed : jsval)
    : service unit (list (list (string * jsval))) (list (list (string * jsval))) :=
  Service GET (alerts_url fields start_time end_time acknowledged escalated show_closed) tt "get alerts" copied.

Definition get_alert_list (u : sent_alert) (size : string)
    : service sent_alert AlertListClass AlertListClass :=
  Service POST ("/api/alerts/list/" +:+ size) u "get alert list" copied.

Definition modify_alert (u : sent_alert) : service sent_alert ModifyRemoveReturnClass ModifyRemoveReturnClass :=
  Service POST "/api/alerts/modify" u "modify alert" copied.

Definition remove_alerts (u : sent_alert) : service sent_alert ModifyRemoveReturnClass ModifyRemoveReturnClass :=
  Service POST "/api/alerts/remove" u "remove alerts" copied.

(** ** State *)

Section Alerts.
Context {J : JSON} {D : Dates}.

(** The values of the controls, and the object [time_form_group.value] is. *)
Record time_form := {
  tf_values : AlertFormInterface;
  tf_object : loc;
}.

(** [arrays] holds the columns; its first array is the module's constant. *)
Record SecurityAlertsComponent := {
  auto_refresh : option bool;
  dynamic_columns : option loc;
  all_columns : list string;
  time_form_group : option time_form;
  all_chip_options_ : list string;
  portal_links_ : list PortalLinkClass;
  alert_interval_ : bool;
  data : list loc;
  rows : store update_alert;
  forms : store AlertFormInterface;
  arrays : store (list string);
}.

Definition with_auto_refresh v (s : SecurityAlertsComponent) :=
  {| auto_refresh := v; dynamic_columns := dynamic_columns s; all_columns := all_columns s;
     time_form_group := time_form_group s; all_chip_options_ := all_chip_options_ s;
     portal_links_ := portal_links_ s; alert_interval_ := alert_interval_ s; data := data s;
     rows := rows s; forms := forms s; arrays := arrays s |}.
Definition with_columns v w (s : SecurityAlertsComponent) :=
  {| auto_refresh := auto_refresh s; dynamic_columns := v; all_columns := w;
     time_form_group := time_form_group s; all_chip_options_ := all_chip_options_ s;
     portal_links_ := portal_links_ s; alert_interval_ := alert_interval_ s; data := data s;
     rows := rows s; forms := forms s; arrays := arrays s |}.
Definition with_time_form v h (s : SecurityAlertsComponent) :=
  {| auto_refresh := auto_refresh s; dynamic_columns := dynamic_columns s; all_columns := all_columns s;
     time_form_group := v; all_chip_options_ := all_chip_options_ s;
     portal_links_ := portal_links_ s; alert_interval_ := alert_interval_ s; data := data s;
     rows := rows s; forms := h; arrays := arrays s |}.
Definition with_chip_options v (s : SecurityAlertsComponent) :=
  {| auto_refresh := auto_refresh s; dynamic_columns := dynamic_columns s; all_columns := all_columns s;
     time_form_group := time_form_group s; all_chip_options_ := v;
     portal_links_ := portal_links_ s; alert_interval_ := alert_interval_ s; data := data s;
     rows := rows s; forms := forms s; arrays := arrays s |}.
Definition with_portal_links v (s : SecurityAlertsComponent) :=
  {| auto_refresh := auto_refresh s; dynamic_columns := dynamic_columns s; all_columns := all_columns s;
     time_form_group := time_form_group s; all_chip_options_ := all_chip_options_ s;
     portal_links_ := v; alert_interval_ := alert_interval_ s; data := data s;
     rows := rows s; forms := forms s; arrays := arrays s |}.
Definition with_interval v (s : SecurityAlertsComponent) :=
  {| auto_refresh := auto_refresh s; dynamic_columns := dynamic_columns s; all_columns := all_columns s;
     time_form_group := time_form_group s; all_chip_options_ := all_chip_options_ s;
     portal_links_ := portal_links_ s; alert_interval_ := v; data := data s;
     rows := rows s; forms := forms s; arrays := arrays s |}.
Definition with_data v h (s : SecurityAlertsComponent) :=
  {| auto_refresh := auto_refresh s; dynamic_columns := dynamic_columns s; all_columns := all_columns s;
     time_form_group := time_form_group s; all_chip_options_ := all_chip_options_ s;
     portal_links_ := portal_links_ s; alert_interval_ := alert_interval_ s; data := v;
     rows := h; forms := forms s; arrays := arrays s |}.
Definition with_arrays v (s : SecurityAlertsComponent) :=
  {| auto_refresh := auto_refresh s; dynamic_columns := dynamic_columns s; all_columns := all_columns s;
     time_form_group := time_form_group s; all_chip_options_ := all_chip_options_ s;
     portal_links_ := portal_links_ s; alert_interval_ := alert_interval_ s; data := data s;
     rows := rows s; forms := forms s; arrays := v |}.

Abbreviation M := (handler SecurityAlertsComponent (effect call page)).

(** The page is built when the module was loaded. *)
Definition constructor : SecurityAlertsComponent :=
  {| auto_refresh := None; dynamic_columns := None; all_columns := []; time_form_group := None;
     all_chip_options_ := []; portal_links_ := []; alert_interval_ := false; data := [];
     rows := store_empty; forms := store_empty;
     arrays := snd (alloc DYNAMIC_COLUMNS_DEFAULT_VALUES store_empty) |}.

Definition get : M SecurityAlertsComponent := gets (fun s => s).
Definition form : M time_form := s <- get ;; deref (time_form_group s).
Definition values_of_form : M AlertFormInterface := f <- form ;; ret (tf_values f).

(** [this.time_form_group.value]: the object of the form. *)
Definition form_value : M AlertFormInterface := f <- form ;; s <- get ;; deref (load (forms s) (tf_object f)).

(** Setting a control gives the form a new value object, made of its controls. *)
Definition set_controls (g : AlertFormInterface -> AlertFormInterface) : M unit :=
  f <- form ;;
  s <- get ;;
  let v := g (tf_values f) in
  let '(p, h) := alloc v (forms s) in
  modify (with_time_form (Some {| tf_values := v; tf_object := p |}) h).

Definition row_at (p : loc) : M update_alert := s <- get ;; deref (load (rows s) p).
Definition assign (p : loc) (g : update_alert -> update_alert) : M unit :=
  modify (fun s => with_data (data s) (update p g (rows s)) s).

(** [this.dynamic_columns], when it is there. *)
Definition columns_at : M (list string) :=
  s <- get ;; p <- deref (dynamic_columns s) ;; deref (load (arrays s) p).
Definition set_columns (g : list string -> list string) : M unit :=
  s <- get ;; p <- deref (dynamic_columns s) ;; modify (with_arrays (update p g (arrays s))).
Definition set_all_columns (g : list string -> list string) : M unit :=
  modify (fun s => with_columns (dynamic_columns s) (g (all_columns s)) s).

(** ** Setters of the form's value *)

Definition set_value (x : string) (v : jsval) (a : AlertFormInterface) : AlertFormInterface :=
  let at_ k old := if x === k then v else old in
  {| acknowledged := at_ "acknowledged" (acknowledged a); escalated := at_ "escalated" (escalated a);
     showClosed := at_ "showClosed" (showClosed a); timeInterval := at_ "timeInterval" (timeInterval a);
     timeAmount := at_ "timeAmount" (timeAmount a); performEscalation := performEscalation a;
     hiveForm := hiveForm a; startDatetime := startDatetime a; endDatetime := endDatetime a;
     absoluteTime := at_ "absoluteTime" (absoluteTime a) |}.

Definition set_dates (start_ end_ : option date) (a : AlertFormInterface) : AlertFormInterface :=
  {| acknowledged := acknowledged a; escalated := escalated a; showClosed := showClosed a;
     timeInterval := timeInterval a; timeAmount := timeAmount a; performEscalation := performEscalation a;
     hiveForm := hiveForm a; startDatetime := start_; endDatetime := end_; absoluteTime := absoluteTime a |}.

Definition set_escalation (b : bool) (a : AlertFormInterface) : AlertFormInterface :=
  {| acknowledged := acknowledged a; escalated := escalated a; showClosed := showClosed a;
     timeInterval := timeInterval a; timeAmount := timeAmount a; performEscalation := Some b;
     hiveForm := hiveForm a; startDatetime := startDatetime a; endDatetime := endDatetime a;
     absoluteTime := absoluteTime a |}.

Definition set_hive_form (v : jsval) (a : AlertFormInterface) : AlertFormInterface :=
  {| acknowledged := acknowledged a; escalated := escalated a; showClosed := showClosed a;
     timeInterval := timeInterval a; timeAmount := timeAmount a; performEscalation := performEscalation a;
     hiveForm := Some v; startDatetime := startDatetime a; endDatetime := endDatetime a;
     absoluteTime := absoluteTime a |}.

(** [date.toISOString()] of the value of a control. *)
Definition iso (d : option date) : M string :=
  match d with
  | None => throw "TypeError"
  | Some None => throw "RangeError"
  | Some (Some t) => ret (toISOString t)
  end.

(** What [JSON.stringify] prints of the form's value. *)
Definition date_json (d : option date) : jsval :=
  match d with Some (Some t) => JStr (toISOString t) | _ => JNull end.

Definition form_json (a : AlertFormInterface) : jsval :=
  JObj ([("acknowledged", acknowledged a); ("escalated", escalated a); ("showClosed", showClosed a);
         ("timeInterval", timeInterval a); ("timeAmount", timeAmount a);
         ("startDatetime", date_json (startDatetime a)); ("endDatetime", date_json (endDatetime a));
         ("absoluteTime", absoluteTime a)] ++
        match performEscalation a with Some b => [("performEscalation", JBool b)] | None => [] end ++
        match hiveForm a with Some v => [("hiveForm", v)] | None => [] end).

(** ** Links *)

(** The last link whose address holds the name. *)
Definition get_link_ (search : string) : M string :=
  s <- get ;;
  ret (fold_left (fun link portal_link => if includes_text (dns portal_link) search then dns portal_link else link)
         (portal_links_ s) "").

Definition is_column (field : string) : bool :=
  negb ((field === COUNT_COLUMN_NAME) || (field === FORM_COLUMN_NAME) || (field === LINKS_COLUMN_NAME)).

Definition get_fields_ (u : update_alert) : list string :=
  base.filter (fun k => is_column k = true) (columns u).*1.

Definition column (u : update_alert) (name : string) : jsval := default JUndefined (assoc name (columns u)).

(** One term of the query with the ["and"] that follows. *)
Definition kibana_term (u : update_alert) (field : string) : string :=
  (if strict_eq (column u "event.kind") (JStr SIGNAL_KIND) && (field === RULE_NAME_COLUMN_NAME)
   then "signal.rule.name" else field) +:+
  " : " +:+ String "034"%char (js_to_string (column u field)) +:+ String "034"%char " and ".

Definition get_kibana_query_ (u : update_alert) : M string :=
  a <- values_of_form ;;
  let ret_val := fold_left (fun text field => text +:+ kibana_term u field) (get_fields_ u) "" in
  ret (drop_last 5 ret_val +:+ (if js_truthy (escalated a) then " and event.escalated : true" else "")).

Definition kibana_page (u : update_alert) : string :=
  let module := column u "event.module" in
  let module_is name := strict_eq module (JStr name) in
  if strict_eq (column u "event.kind") (JStr SIGNAL_KIND) then KIBANA_DETECTIONS_PAGE
  else if strict_eq (column u "event.kind") (JStr ALERT_KIND) then
    if js_truthy module then
      if module_is ZEEK_MODULE || module_is SURICATA_MODULE then KIBANA_NETWORK_EXTERNAL_PAGE
      else if module_is SYSTEM_MODULE || module_is SYSMON_MODULE then KIBANA_HOSTS_ALERTS_PAGE else "overview"
    else "overview"
  else "overview".

Definition is_endgame (u : update_alert) : bool :=
  negb (strict_eq (column u "event.kind") (JStr SIGNAL_KIND)) &&
  strict_eq (column u "event.kind") (JStr ALERT_KIND) &&
  strict_eq (column u "event.module") (JStr ENDGAME_MODULE).

Definition escape_url (url : string) : string :=
  replace_all ")"%char "%29" (replace_all "("%char "%28"
    (replace_all " "%char "%20" (replace_all "'"%char "%27" url))).

Definition get_kibana_link_ (u : update_alert) : M string :=
  prefix <- get_link_ KIBANA ;;
  query <- get_kibana_query_ u ;;
  a <- values_of_form ;;
  start_date_time <- iso (startDatetime a) ;;
  end_date_time <- iso (endDatetime a) ;;
  if is_endgame u then
    ret (prefix +:+ "/app/discover#/?_g=(filters:!(),query:(language:kuery,query:''),refreshInterval:(pause:!t,value:0),time:(from:%27"
         +:+ start_date_time +:+ "%27,to:%27" +:+ end_date_time
         +:+ "%27))&_a=(columns:!(),filters:!(),index:endgame-dashboard-index-pattern,interval:auto,query:(language:kuery,query:'"
         +:+ query +:+ "'),sort:!(!('@timestamp',desc)))")
  else
    let range := "from:%27" +:+ start_date_time +:+ "%27,kind:absolute,to:%27" +:+ end_date_time +:+ "%27" in
    ret (escape_url (prefix +:+ "/app/security/" +:+ kibana_page u +:+ "?query=(language:kuery,query:'" +:+ query
         +:+ "')&timerange=(global:(linkTo:!(timeline),timerange:(" +:+ range
         +:+ ")),timeline:(linkTo:!(global),timerange:(" +:+ range +:+ ")))")).

Definition arkime_lookup (field : string) : option string :=
  head ((fun x : string * string => snd x) <$> base.filter (fun x => fst x = field) ARKIME_FIELD_LOOKUP).

(** One term of the expression with the separator that follows. *)
Definition arkime_term (u : update_alert) (field : string) : string :=
  match arkime_lookup field with
  | Some arkime_field =>
      if defined (column u field)
      then arkime_field +:+ "%20%3D%3D" +:+ js_to_string (column u field) +:+ "%26%26%20" else ""
  | None => ""
  end.

Definition build_arkime_expression_ (u : update_alert) : string :=
  drop_last 9 (fold_left (fun text field => text +:+ arkime_term u field) (get_fields_ u) "").

Definition arkime_fields : string := join_with ", " ((fun x : string * string => fst x) <$> ARKIME_FIELD_LOOKUP).

(** [Math.floor(date.getTime() / 1000)]; an invalid date gives NaN. *)
Definition seconds (d : option date) : M string :=
  match d with
  | None => throw "TypeError"
  | Some None => ret "NaN"
  | Some (Some t) => ret (pretty (t / 1000)%Z)
  end.

Definition get_arkime_link_ (arkime_prefix arkime_expression : string) : M string :=
  if arkime_prefix === "" then ret NA_FAILED_ARKIME_NOT_INSTALLED
  else if arkime_expression === "" then
    ret ("N/A - Failed to create Arkime link because you need one of the following Group By fields: " +:+ arkime_fields)
  else
    (a <- values_of_form ;;
     startTime <- seconds (startDatetime a) ;;
     stopTime <- seconds (endDatetime a) ;;
     ret (arkime_prefix +:+ "/sessions?graphType=lpHisto&seriesType=bars&expression=" +:+ arkime_expression +:+
          "&startTime=" +:+ startTime +:+ "&stopTime=" +:+ stopTime)).

(** ** Cookies *)

(** What is printed of an array of columns. *)
Definition columns_json (l : list string) : jsval := JArr (JStr <$> l).

Definition save_cookies_ : M unit :=
  s <- get ;;
  match dynamic_columns s with
  | Some _ => l <- columns_at ;; emit (SetCookie DYNAMIC_COLUMNS_COOKIE (stringify (columns_json l)))
  | None => emit (SetCookie DYNAMIC_COLUMNS_COOKIE "undefined")
  end ;;;
  match time_form_group s with
  | Some _ => v <- form_value ;; emit (SetCookie TIME_FORM_GROUP_COOKIE (stringify (form_json v)))
  | None => ret tt
  end ;;;
  b <- deref (auto_refresh s) ;;
  emit (SetCookie AUTO_REFRESH_COOKIE (if b : bool then "true" else "false")).

(** ** The table *)

(** The dates are the last [timeAmount] units before now. *)
Definition set_date_times_ (t : now) : M unit :=
  a <- values_of_form ;;
  let start_ :=
    match timeInterval a with
    | JStr i => if (i === DAYS) || (i === HOURS) || (i === MINUTES)
                then set_back i (fst t) (timeAmount a) else Some (fst t)
    | _ => Some (fst t)
    end in
  set_controls (set_dates (Some start_) (endDatetime a)) ;;;
  set_controls (set_dates (Some start_) (Some (Some (snd t)))).

(** The dates of an order relation: [null] counts as 0, an invalid date is in
    no relation. *)
Definition date_ge (x y : option date) : bool :=
  match default (Some 0%Z) x, default (Some 0%Z) y with
  | Some a, Some b => (b <=? a)%Z
  | _, _ => false
  end.

Definition validate_date_times_ : M unit :=
  a <- values_of_form ;;
  when (date_ge (startDatetime a) (endDatetime a)) (displaySnackBar START_DATE_TIME_LARGE None).

Definition api_get_alerts_ (display_message : bool) (acknowledge escalated show_closed : jsval) : M unit :=
  l <- columns_at ;;
  a <- values_of_form ;;
  start_ <- iso (startDatetime a) ;;
  end_ <- iso (endDatetime a) ;;
  emit (Subscribe (CGetAlerts display_message
    (url (get_alerts (join_with "," l) start_ end_ acknowledge escalated show_closed)))).

Definition update_alerts_table_ (display_message : bool) (t : now) : M unit :=
  l <- columns_at ;;
  if Nat.ltb 0 (length l) then
    (a <- values_of_form ;;
     when (negb (js_truthy (absoluteTime a))) (set_date_times_ t) ;;;
     a <- values_of_form ;;
     api_get_alerts_ display_message (acknowledged a) (escalated a) (showClosed a) ;;;
     save_cookies_)
  else modify (fun s => with_data [] (rows s) s).

(** ** Opening the page *)

(** [new FormControl(undefined)] holds null. *)
Definition control_value (v : jsval) : jsval := match v with JUndefined => JNull | _ => v end.

Definition parse_cookie (text : string) : M jsval :=
  match parse text with Some v => ret v | None => throw "SyntaxError" end.

Definition initialize_time_form_group_ (cookie : string -> string) : M unit :=
  v <- (if negb (cookie TIME_FORM_GROUP_COOKIE === "") then
          (c <- parse_cookie (cookie TIME_FORM_GROUP_COOKIE) ;;
           _ <- deref (get_property c "acknowledged") ;;
           let field k := control_value (prop c k) in
           ret {| acknowledged := field "acknowledged"; escalated := field "escalated";
                  showClosed := field "showClosed"; timeInterval := field "timeInterval";
                  timeAmount := field "timeAmount"; performEscalation := None; hiveForm := None;
                  startDatetime := Some (new_Date (prop c "startDatetime"));
                  endDatetime := Some (new_Date (prop c "endDatetime"));
                  absoluteTime := field "absoluteTime" |})
        else
          ret {| acknowledged := JBool false; escalated := JBool false; showClosed := JBool false;
                 timeInterval := JStr HOURS; timeAmount := JNum 24; performEscalation := None;
                 hiveForm := None; startDatetime := None; endDatetime := None;
                 absoluteTime := JBool false |}) ;;
  s <- get ;;
  let '(p, h) := alloc v (forms s) in
  modify (with_time_form (Some {| tf_values := v; tf_object := p |}) h).

Definition get_auto_refresh_ (cookie : string -> string) : M unit :=
  let c := cookie AUTO_REFRESH_COOKIE in
  modify (with_auto_refresh (Some (if negb (c === "") then c === "true" else true))).

(** The elements of a parsed array of columns, which is what the page writes. *)
Definition columns_of (v : jsval) : list string := match v with JArr l => js_to_string <$> l | _ => [] end.

(** The default is the constant itself, not a copy of it. *)
Definition get_dynamic_columns_ (cookie : string -> string) : M unit :=
  let c := cookie DYNAMIC_COLUMNS_COOKIE in
  p <- (if negb (c === "") then
          (v <- parse_cookie c ;;
           s <- get ;;
           let '(p, h) := alloc (columns_of v) (arrays s) in
           modify (with_arrays h) ;;; ret p)
        else ret 0) ;;
  s <- get ;;
  l <- deref (load (arrays s) p) ;;
  modify (with_columns (Some p) (ALL_COLUMNS_START_VALUES ++ l)).

Definition api_get_fields_ : M unit := emit (Subscribe CGetFields).
Definition api_get_portal_links_ : M unit := emit (Subscribe CGetPortalLinks).

Definition ngOnInit (cookie : string -> string) (t : now) : M unit :=
  emit (SetTitle SECURITY_ALERTS_COMPONENT_TITLE) ;;;
  initialize_time_form_group_ cookie ;;;
  get_auto_refresh_ cookie ;;;
  get_dynamic_columns_ cookie ;;;
  update_alerts_table_ false t ;;;
  api_get_fields_ ;;;
  api_get_portal_links_ ;;;
  modify (with_interval true).

Definition ngOnDestroy : M unit := save_cookies_ ;;; modify (with_interval false).

(** ** Controls *)

(** The timer of 15 seconds. *)
Definition tick (t : now) : M unit :=
  s <- get ;;
  when (alert_interval_ s && default false (auto_refresh s)) (update_alerts_table_ false t).

Definition toggle_auto_refresh : M unit :=
  modify (fun s => with_auto_refresh (Some (negb (default false (auto_refresh s)))) s).
Definition refresh_alerts (t : now) : M unit := update_alerts_table_ true t.

(** The value of the target of the event. *)
Definition change_query_time_amount (target_value : jsval) (t : now) : M unit :=
  when (defined target_value && negb (strict_eq target_value (JStr ""))) (update_alerts_table_ false t).

Definition time_interval_selection_change (t : now) : M unit := update_alerts_table_ false t.

(** The second reading of the clock is by the update of the table. *)
Definition toggle_absolute_time_controls (t t' : now) : M unit :=
  a <- values_of_form ;;
  set_controls (set_value "absoluteTime" (JBool (negb (js_truthy (absoluteTime a))))) ;;;
  set_date_times_ t ;;;
  update_alerts_table_ false t'.

Definition use_absolute_time : M jsval :=
  s <- get ;;
  ret (match time_form_group s with Some f => absoluteTime (tf_values f) | None => JBool false end).

Definition date_time_change (t : now) : M unit := validate_date_times_ ;;; update_alerts_table_ false t.

Definition filter_acknowledged (checked : bool) (t : now) : M unit :=
  when checked (set_controls (set_value "escalated" (JBool false))) ;;;
  set_controls (set_value "showClosed" (JBool false)) ;;;
  update_alerts_table_ false t.

Definition filter_escalated (checked : bool) (t : now) : M unit :=
  when checked (set_controls (set_value "acknowledged" (JBool false))) ;;;
  set_controls (set_value "showClosed" (JBool false)) ;;;
  update_alerts_table_ false t.

Definition filter_closed_alerts (t : now) : M unit := update_alerts_table_ false t.

(** ** Columns *)

Definition add_alert_chip (text : string) (t : now) : M unit :=
  let value := trim text in
  when (value !== "")
    (s <- get ;;
     l <- columns_at ;;
     when (includes (all_chip_options_ s) value && negb (includes l value))
       (set_columns (fun l => l ++ [value]) ;;;
        set_all_columns (fun l => l ++ [value]) ;;;
        update_alerts_table_ false t)).

Definition remove_alert_chip (column_name : string) (t : now) : M unit :=
  l <- columns_at ;;
  s <- get ;;
  let index_from_dynamic_columns := indexOf l column_name in
  let index_from_all_columns := indexOf (all_columns s) column_name in
  when ((0 <=? index_from_dynamic_columns)%Z && (0 <=? index_from_all_columns)%Z)
    (set_columns (splice1 index_from_dynamic_columns) ;;;
     set_all_columns (splice1 index_from_all_columns) ;;;
     update_alerts_table_ false t).

Definition autocomplete_selection_chip (viewValue : string) (t : now) : M unit :=
  l <- columns_at ;;
  when (negb (includes l viewValue))
    (set_columns (fun l => l ++ [viewValue]) ;;;
     set_all_columns (fun l => l ++ [viewValue]) ;;;
     update_alerts_table_ false t).

Definition filter_chip_options_ (value : string) : M (list string) :=
  s <- get ;;
  ret (base.filter (fun o => starts_with (toLowerCase value) o = true) (all_chip_options_ s)).

Definition is_dynamic_column_name (column_name : string) : bool :=
  negb ((column_name === ACTIONS_COLUMN_NAME) || (column_name === COUNT_COLUMN_NAME)).

Definition get_alert_count (u : option update_alert) : jsval :=
  match u with
  | Some u => if defined (column u "count") then column u "count" else JNum 0
  | None => JNum 0
  end.

Definition get_column_value (u : update_alert) (column_name : string) : M jsval :=
  if defined (column u column_name) then
    if column_name === TIMESTAMP_SOURCE
    then (text <- iso (Some (new_Date (column u column_name))) ;; ret (JStr text))
    else ret (column u column_name)
  else ret (JStr "").

(** ** Actions on a row *)

Definition open_confirm_dialog_ (row : loc) (title_ message_ api_switch : string) : M unit :=
  emit (Subscribe (DConfirm row
    {| title := title_; message := message_; option1 := CANCEL_DIALOG_OPTION;
       option2 := CONFIRM_DIALOG_OPTION; message_double_confirm := None |} api_switch)).

Definition count_text (u : update_alert) : string := js_to_string (column u "count").

Definition acknowledge_event (row : loc) : M unit :=
  u <- row_at row ;;
  open_confirm_dialog_ row ACKNOWLEDGE_ALERTS_WINDOW_TITLE
    ("Are you sure you want to acknowledge " +:+ count_text u +:+ " alerts?                              " +:+
     newline +:+ newline +:+
     "Doing so will turn these alerts into a false positive                              which will not appear anymore on your alerts page.")
    MODIFY_API_SWITCH.

Definition unacknowledged_event (row : loc) : M unit :=
  u <- row_at row ;;
  open_confirm_dialog_ row UNACKNOWLEDGED_ALERTS_WINDOW_TITLE
    ("Are you sure you want to undo " +:+ count_text u +:+ " acknowledged alerts?                              " +:+
     newline +:+ newline +:+
     "Doing so will return the selected events back to their original state.")
    MODIFY_API_SWITCH.

Definition remove_alerts_confirm_dialog (row : loc) : M unit :=
  u <- row_at row ;;
  open_confirm_dialog_ row REMOVE_ALERTS_WINDOW_TITLE
    ("Are you sure you want to remove " +:+ count_text u +:+ " alerts?                              " +:+
     newline +:+ newline +:+
     "Doing so will turn these alerts into a false positive                              which will not appear anymore on your alerts page. Also,                              the hive case for these alerts shall be deleted.                              It is advised to close out cases in the hive application itself.")
    REMOVE_API_SWITCH.

Definition set_alert_form (p : loc) (u : update_alert) : update_alert :=
  {| columns := columns u; alert_form := Some p; links := links u |}.
Definition set_links (l : list PortalLinkClass) (u : update_alert) : update_alert :=
  {| columns := columns u; alert_form := alert_form u; links := Some l |}.
Definition set_column (k : string) (v : jsval) (u : update_alert) : update_alert :=
  {| columns := assoc_set k v (columns u); alert_form := alert_form u; links := links u |}.

(** [update_alert['form'] = this.time_form_group.getRawValue()]: a new object. *)
Definition assign_raw_form (row : loc) : M unit :=
  f <- form ;;
  s <- get ;;
  let '(p, h) := alloc (tf_values f) (forms s) in
  modify (with_time_form (Some f) h) ;;;
  assign row (set_alert_form p).

(** [update_alert['form'] = this.time_form_group.value]: the form's own object. *)
Definition assign_form (row : loc) : M unit := f <- form ;; assign row (set_alert_form (tf_object f)).

(** [update_alert['form'][...] = ...] *)
Definition assign_to_form (row : loc) (g : AlertFormInterface -> AlertFormInterface) : M unit :=
  u <- row_at row ;;
  p <- deref (alert_form u) ;;
  modify (fun s => with_time_form (time_form_group s) (update p g (forms s)) s).

Definition assign_links (row : loc) : M unit := s <- get ;; assign row (set_links (portal_links_ s)).

(** The body of a request. *)
Definition sent (row : loc) : M sent_alert :=
  u <- row_at row ;;
  s <- get ;;
  ret {| sent_columns := columns u; sent_form := p ← alert_form u; load (forms s) p; sent_links := links u |}.

Definition open_alert_drilldown_dialog (row : loc) : M unit :=
  assign_raw_form row ;;; assign_links row ;;; emit (Page (DrillDown row)).

Definition escalate_alert (row : loc) : M unit :=
  assign row (set_column "event.escalated" (JBool true)) ;;;
  assign_raw_form row ;;;
  assign_links row ;;;
  u <- row_at row ;;
  kibana_link <- get_kibana_link_ u ;;
  arkime_prefix <- get_link_ ARKIME ;;
  arkime_link <- get_arkime_link_ arkime_prefix (build_arkime_expression_ u) ;;
  b <- sent row ;;
  emit (Subscribe (CHiveSettingsAndAlertList row b kibana_link arkime_link)).

Definition open_alert_in_kibana_tab (row : loc) : M unit :=
  u <- row_at row ;; url <- get_kibana_link_ u ;; emit (OpenInNewTab url).

Definition open_alert_in_arkime_tab (row : loc) : M unit :=
  u <- row_at row ;;
  arkime_prefix <- get_link_ ARKIME ;;
  let arkime_expression := build_arkime_expression_ u in
  if arkime_prefix === "" then displaySnackBar ARKIME_NOT_INSTALLED None
  else if arkime_expression === "" then
    displaySnackBar ("Failed to pivot to Arkime because you need one of the following Group By fields: " +:+ arkime_fields) None
  else (url <- get_arkime_link_ arkime_prefix arkime_expression ;; emit (OpenInNewTab url)).

Definition api_get_alert_list_ (row : loc) : M unit := b <- sent row ;; emit (Subscribe (CGetAlertList b)).
Definition api_modify_alert_ (row : loc) : M unit := b <- sent row ;; emit (Subscribe (CModifyAlert b)).
Definition api_remove_alerts_ (row : loc) : M unit := b <- sent row ;; emit (Subscribe (CRemoveAlerts b)).

Definition open_alert_in_hive_tab (row : loc) : M unit :=
  assign_form row ;;; assign_links row ;;; api_get_alert_list_ row.

(** ** Answers *)

Definition confirm_dialog_closed (row : loc) (api_switch : string) (response : option string) : M unit :=
  when (response ?=== CONFIRM_DIALOG_OPTION)
    (assign_form row ;;;
     if api_switch === MODIFY_API_SWITCH then (assign_to_form row (set_escalation false) ;;; api_modify_alert_ row)
     else when (api_switch === REMOVE_API_SWITCH) (api_remove_alerts_ row)).

Definition escalate_dialog_closed (row : loc) (response : option dialog_form) : M unit :=
  match response with
  | Some r =>
      when (valid r)
        (assign_form row ;;;
         assign_to_form row (set_escalation true) ;;;
         assign_to_form row (set_hive_form (form_values r)) ;;;
         api_modify_alert_ row)
  | None => ret tt
  end.

Definition success_modify_remove_alerts_ (modify_remove_return : ModifyRemoveReturnClass) (t : now) : M unit :=
  generate_return_success_snackbar_message
    ("performed operation on " +:+ pretty (total modify_remove_return) +:+ " Alerts.")
    (Some MAT_SNACKBAR_CONFIGURATION_60000_DUR) ;;;
  update_alerts_table_ false t.

Definition api_get_fields_answer (a : answer (list string)) : M unit :=
  match a with
  | Next response => modify (with_chip_options response)
  | Error e => on_error "retrieving fields for chip options" e
  end.

Definition api_get_portal_links_answer (a : answer (list PortalLinkClass)) : M unit :=
  match a with
  | Next response => modify (with_portal_links response)
  | Error e => on_error "retrieving portal links" e
  end.

Definition new_row (c : list (string * jsval)) : update_alert :=
  {| columns := c; alert_form := None; links := None |}.

Definition api_get_alerts_answer (display_message : bool) (a : answer (list (list (string * jsval)))) : M unit :=
  match a with
  | Next response =>
      s <- get ;;
      let '(ps, h) := alloc_list (new_row <$> response) (rows s) in
      modify (with_data ps h) ;;;
      when display_message
        (generate_return_success_snackbar_message "updated Alerts table!" (Some MAT_SNACKBAR_CONFIGURATION_60000_DUR))
  | Error e => on_error_message "retrieving alerts check logs for more details" e
  end.

Definition api_modify_alert_answer (x : now * answer ModifyRemoveReturnClass) : M unit :=
  match snd x with
  | Next response => success_modify_remove_alerts_ response (fst x)
  | Error e => on_error_message "modifying alert" e
  end.

Definition api_remove_alerts_answer (x : now * answer ModifyRemoveReturnClass) : M unit :=
  match snd x with
  | Next response => success_modify_remove_alerts_ response (fst x)
  | Error e => on_error_message "removing alert" e
  end.

(** [Math.abs(v)] as it is printed. *)
Definition abs_text (v : jsval) : string :=
  match v with
  | JNum n => pretty (Z.abs n)
  | JNull => "0"
  | JBool b => if b then "1" else "0"
  | JUndefined => "NaN"
  | _ => match Number (js_to_string v) with Some n => pretty (Z.abs n) | None => "NaN" end
  end.

(** [v[k]], which throws when [v] is undefined or null. *)
Definition member (v : jsval) (k : string) : M jsval := deref (get_property v k).
Definition first_hit (l : AlertListClass) : jsval := default JUndefined (head (hits l)).

Definition api_get_alert_list_answer (a : answer AlertListClass) : M unit :=
  match a with
  | Next response =>
      source <- member (first_hit response) "_source" ;;
      event <- member source "event" ;;
      hive_id <- member event "hive_id" ;;
      prefix <- get_link_ HIVE ;;
      emit (OpenInNewTab (prefix +:+ "/index.html#!/case/~~" +:+ abs_text hive_id +:+ "/details"))
  | Error e => on_error "retrieving alert list" e
  end.

(** The title and the severity of the case the dialog starts with. *)
Definition case_title (source : jsval) : M jsval :=
  if strict_eq (prop (prop source "event") "kind") (JStr SIGNAL_KIND) then
    (signal <- member source "signal" ;; rule <- member signal "rule" ;; member rule "name")
  else
    let name := prop (prop source "rule") "name" in
    ret (if defined name then name else JStr "").

Definition case_severity (source : jsval) : string :=
  let severity := prop (prop source "event") "severity" in
  if defined severity then js_to_string severity else "2".

Definition api_fork_join_answer (row : loc) (kibana_link arkime_link : string)
    (a : answer ForkJoinHiveSettingsAndAlertListInterface) : M unit :=
  match a with
  | Next response =>
      let key := admin_api_key (hive_settings response) in
      if (key === "") || (key === HIVE_ORG_ADMIN_TEXT) then displaySnackBar HIVE_NOT_CONFIGURED None
      else match alert_list response with
      | None => displaySnackBar ALERT_LIST_FAILED None
      | Some l =>
          source <- member (first_hit l) "_source" ;;
          let has_event := defined source && defined (prop source "event") in
          case_name <- (if has_event then case_title source else ret (JStr "")) ;;
          u <- row_at row ;;
          emit (Subscribe (DEscalate row
            ("Are you sure you want to escalate " +:+ count_text u +:+
             " alerts?                                      " +:+ newline +:+ newline +:+
             "Doing so will create hive ticket.")
            {| event_title := case_name;
               event_severity := if has_event then case_severity source else "2";
               event_description := "[Kibana SIEM Link](" +:+ kibana_link +:+ ")" +:+ newline +:+ newline +:+
                                    "[Arkime Link](" +:+ arkime_link +:+ ")" |}))
      end
  | Error e => on_error "retrieving hive settings or alert list" e
  end.

(** ** The component *)

Inductive event : Type :=
| NgOnInit (cookie : string -> string) (t : now)
| NgOnDestroy
| Tick (t : now)
| ToggleAutoRefresh
| RefreshAlerts (t : now)
| ChangeQueryTimeAmount (v : jsval) (t : now)
| TimeIntervalSelectionChange (v : jsval) (t : now)
| ToggleAbsoluteTime (t t' : now)
| DateTimeChange (start_ end_ : option date) (t : now)
| FilterAcknowledged (checked : bool) (t : now)
| FilterEscalated (checked : bool) (t : now)
| FilterClosed (checked : bool) (t : now)
| AddAlertChip (text : string) (t : now)
| RemoveAlertChip (column_name : string) (t : now)
| AutocompleteSelectionChip (viewValue : string) (t : now)
| AcknowledgeEvent (row : loc)
| UnacknowledgedEvent (row : loc)
| RemoveAlertsConfirmDialog (row : loc)
| OpenAlertDrilldown (row : loc)
| EscalateAlert (row : loc)
| OpenInKibana (row : loc)
| OpenInArkime (row : loc)
| OpenInHive (row : loc).

(** An input of the form sets its control before its event is handled. *)
Definition on_ev (e : event) : M unit :=
  match e with
  | NgOnInit cookie t => ngOnInit cookie t
  | NgOnDestroy => ngOnDestroy
  | Tick t => tick t
  | ToggleAutoRefresh => toggle_auto_refresh
  | RefreshAlerts t => refresh_alerts t
  | ChangeQueryTimeAmount v t => set_controls (set_value "timeAmount" v) ;;; change_query_time_amount v t
  | TimeIntervalSelectionChange v t =>
      set_controls (set_value "timeInterval" v) ;;; time_interval_selection_change t
  | ToggleAbsoluteTime t t' => toggle_absolute_time_controls t t'
  | DateTimeChange a b t => set_controls (set_dates a b) ;;; date_time_change t
  | FilterAcknowledged b t => set_controls (set_value "acknowledged" (JBool b)) ;;; filter_acknowledged b t
  | FilterEscalated b t => set_controls (set_value "escalated" (JBool b)) ;;; filter_escalated b t
  | FilterClosed b t => set_controls (set_value "showClosed" (JBool b)) ;;; filter_closed_alerts t
  | AddAlertChip x t => add_alert_chip x t
  | RemoveAlertChip x t => remove_alert_chip x t
  | AutocompleteSelectionChip x t => autocomplete_selection_chip x t
  | AcknowledgeEvent p => acknowledge_event p
  | UnacknowledgedEvent p => unacknowledged_event p
  | RemoveAlertsConfirmDialog p => remove_alerts_confirm_dialog p
  | OpenAlertDrilldown p => open_alert_drilldown_dialog p
  | EscalateAlert p => escalate_alert p
  | OpenInKibana p => open_alert_in_kibana_tab p
  | OpenInArkime p => open_alert_in_arkime_tab p
  | OpenInHive p => open_alert_in_hive_tab p
  end.

Definition on_ans (c : call) : Ans c -> M unit :=
  match c return Ans c -> M unit with
  | CGetFields => api_get_fields_answer
  | CGetPortalLinks => api_get_portal_links_answer
  | CGetAlerts b _ => api_get_alerts_answer b
  | CGetAlertList _ => api_get_alert_list_answer
  | CModifyAlert _ => api_modify_alert_answer
  | CRemoveAlerts _ => api_remove_alerts_answer
  | CHiveSettingsAndAlertList p _ k a => api_fork_join_answer p k a
  | DConfirm p _ w => confirm_dialog_closed p w
  | DEscalate p _ _ => escalate_dialog_closed p
  end.

#[export] Instance SecurityAlerts : Component SecurityAlertsComponent call page event Ans := {|
  initial := constructor;
  on_event := on_ev;
  on_answer := on_ans;
|}.

(** ** Queries *)

Lemma drop_last_append (a b : string) : drop_last (String.length b) (a +:+ b) = a.
Proof using.
  unfold drop_last. rewrite text_length_app.
  destruct (Nat.leb_spec (String.length b) (String.length a + String.length b)); [|lia].
  replace (String.length a + String.length b - String.length b)%nat with (String.length a) by lia.
  apply text_substring_app.
Qed.

(** A loop that appends texts. *)
Lemma fold_append {A} (g : A -> string) (l : list A) (acc : string) :
  fold_left (fun text x => text +:+ g x) l acc = acc +:+ fold_left (fun text x => text +:+ g x) l "".
Proof using.
  revert acc. induction l as [|x l IH]; intros acc; simpl; [by rewrite text_app_nil|].
  rewrite (IH (acc +:+ g x)), (IH ("" +:+ g x)). change ("" +:+ g x) with (g x). by rewrite text_app_assoc.
Qed.

Lemma fold_append_cons {A} (g : A -> string) (x : A) (l : list A) :
  fold_left (fun text x => text +:+ g x) (x :: l) "" = g x +:+ fold_left (fun text x => text +:+ g x) l "".
Proof using. exact (fold_append g l (g x)). Qed.

(** Dropping the separator after the last part leaves the parts joined. *)
Lemma drop_last_join (sep : string) (parts : list string) :
  drop_last (String.length sep) (fold_left (fun text x => text +:+ (x +:+ sep)) parts "") = join_with sep parts.
Proof using.
  assert (H : forall x l, fold_left (fun text x => text +:+ (x +:+ sep)) (x :: l) "" = join_with sep (x :: l) +:+ sep).
  { intros x l. revert x. induction l as [|y l IH]; intros x; [done|].
    rewrite (fold_append_cons (fun x => x +:+ sep)), IH.
    change (join_with sep (x :: y :: l)) with (x +:+ (sep +:+ join_with sep (y :: l))).
    by rewrite !text_app_assoc. }
  destruct parts as [|x l]; [unfold drop_last; simpl; by destruct (String.length sep)|].
  rewrite H. apply drop_last_append.
Qed.

(** The parts of the Arkime expression: one for each column of the row that
    Arkime knows under a name. *)
Definition arkime_part (u : update_alert) (field : string) : option string :=
  arkime_field ← arkime_lookup field;
  if defined (column u field) then Some (arkime_field +:+ "%20%3D%3D" +:+ js_to_string (column u field)) else None.

Lemma fold_omap {A} (g : A -> string) (h : A -> option string) (sep : string) (l : list A) :
  (forall x, g x = match h x with Some t => t +:+ sep | None => "" end) ->
  fold_left (fun text x => text +:+ g x) l "" = fold_left (fun text x => text +:+ (x +:+ sep)) (omap h l) "".
Proof using.
  intros H. induction l as [|x l IH]; [done|]. rewrite fold_append_cons, IH, H. cbn [omap list_omap].
  destruct (h x); [by rewrite (fold_append_cons (fun x => x +:+ sep)) | done].
Qed.

(** The Arkime expression of a row joins, with the encoded [&&], one
    equation for each of its columns that has an Arkime name and a value, in the
    order of the columns; it is empty exactly when there is none. *)
Theorem arkime_expression_joins (u : update_alert) :
  build_arkime_expression_ u = join_with "%26%26%20" (omap (arkime_part u) (get_fields_ u)) /\
  (build_arkime_expression_ u = "" <-> omap (arkime_part u) (get_fields_ u) = []).
Proof using.
  assert (E : build_arkime_expression_ u = join_with "%26%26%20" (omap (arkime_part u) (get_fields_ u))).
  { unfold build_arkime_expression_. rewrite <- drop_last_join. f_equal. apply fold_omap. intros field.
    unfold arkime_term, arkime_part. destruct (arkime_lookup field); simpl; [|done].
    destruct (defined _); [|done]. by rewrite <- !text_app_assoc. }
  split; [exact E|]. rewrite E. split; [|by intros ->].
  destruct (omap (arkime_part u) (get_fields_ u)) as [|x l] eqn:El; [done|]. intros Hj. exfalso.
  assert (Hx : x <> "").
  { assert (Hin : x ∈ omap (arkime_part u) (get_fields_ u)) by (rewrite El; left).
    apply list_elem_of_omap in Hin as (field & _ & Hp). unfold arkime_part in Hp.
    destruct (arkime_lookup field) as [a|] eqn:Ea; [|done]. simpl in Hp.
    destruct (defined _); [|done]. injection Hp as <-. by destruct a. }
  apply Hx. destruct x; [done|]. by destruct l.
Qed.

Lemma run_time_form s f : time_form_group s = Some f -> form s = (Ret f, s, []).
Proof using. intros H. unfold form, get, gets, bind. by rewrite H. Qed.

Lemma run_values s f : time_form_group s = Some f -> values_of_form s = (Ret (tf_values f), s, []).
Proof using. intros H. unfold values_of_form. by rewrite (bind_run_silent _ _ _ _ _ (run_time_form s f H)). Qed.

Lemma run_set_controls s f g :
  time_form_group s = Some f -> exists p h, load h p = Some (g (tf_values f)) /\
  set_controls g s = (Ret tt, with_time_form (Some {| tf_values := g (tf_values f); tf_object := p |}) h s, []).
Proof using.
  intros Hf. unfold set_controls. rewrite (bind_run_silent _ _ _ _ _ (run_time_form s f Hf)).
  eexists _, _. split; [|reflexivity]. unfold load; simpl. by rewrite lookup_insert_eq.
Qed.

(** The equation of the Kibana query for a column. *)
Definition kibana_part (u : update_alert) (field : string) : string :=
  (if strict_eq (column u "event.kind") (JStr SIGNAL_KIND) && (field === RULE_NAME_COLUMN_NAME)
   then "signal.rule.name" else field) +:+
  " : " +:+ String "034"%char (js_to_string (column u field)) +:+ String "034"%char "".

Lemma kibana_term_part u field : kibana_term u field = kibana_part u field +:+ " and ".
Proof using. unfold kibana_term, kibana_part. rewrite <- !text_app_assoc. do 2 f_equal. Qed.

(** The Kibana query of a row joins with [and] one equation for each of its
    columns, where the rule name of a signal is looked up under another name;
    when the escalated alerts are shown it asks for those only. *)
Theorem kibana_query_joins (u : update_alert) (f : time_form) (s : SecurityAlertsComponent) :
  time_form_group s = Some f ->
  get_kibana_query_ u s =
    (Ret (join_with " and " (kibana_part u <$> get_fields_ u) +:+
          (if js_truthy (escalated (tf_values f)) then " and event.escalated : true" else "")), s, []).
Proof using.
  intros Hf. unfold get_kibana_query_. rewrite (bind_run_silent _ _ _ _ _ (run_values s f Hf)).
  unfold ret. do 3 f_equal.
  rewrite <- drop_last_join. f_equal. f_equal.
  rewrite (fold_omap _ (fun x => Some (kibana_part u x)) " and " _ (kibana_term_part u)).
  f_equal.
Qed.

Definition unsafe : list ascii := ["'"%char; " "%char; "("%char; ")"%char].

Lemma replace_all_chars c r s x :
  x ∈ String.list_ascii_of_string (replace_all c r s) ->
  (x <> c /\ x ∈ String.list_ascii_of_string s) \/ x ∈ String.list_ascii_of_string r.
Proof using.
  induction s as [|d t IH]; [by intros ?%not_elem_of_nil|]. cbn [replace_all].
  destruct (Ascii.eqb_spec d c) as [->|Hne].
  - rewrite list_ascii_app, elem_of_app. intros [Hx|Hx]; [by right|].
    destruct (IH Hx) as [[H1 H2]|H]; [left; split; [done | by right] | by right].
  - intros [->|Hx]%elem_of_cons; [left; split; [done | left]|].
    destruct (IH Hx) as [[H1 H2]|H]; [left; split; [done | by right] | by right].
Qed.

Lemma escape_url_safe url x : x ∈ String.list_ascii_of_string (escape_url url) -> x ∉ unsafe.
Proof using.
  unfold escape_url, unsafe. rewrite !not_elem_of_cons.
  intros [[H1 [[H2 [[H3 [[H4 _]|H]%replace_all_chars]|H]%replace_all_chars]|H]%replace_all_chars]|H]%replace_all_chars;
    try (repeat (apply elem_of_cons in H as [->|H]; [by split_and!; try done; apply not_elem_of_nil|]);
         by apply not_elem_of_nil in H).
  split_and!; try done. apply not_elem_of_nil.
Qed.

(** The form has both dates. *)
Definition dated (s : SecurityAlertsComponent) (f : time_form) (a b : Z) : Prop :=
  time_form_group s = Some f /\ startDatetime (tf_values f) = Some (Some a) /\
  endDatetime (tf_values f) = Some (Some b).

Definition characters (s : string) : list ascii := String.list_ascii_of_string s.

(** C23: the Kibana link of a row.  While both dates of the form are valid, every row
    has one.  Except for the alerts of Endgame no apostrophe, blank or parenthesis is
    left in it, whatever the row holds (a double quote is not escaped, and the
    quotes of the query are double); the link of an Endgame alert is returned before
    it is escaped and has both apostrophes and parentheses. *)
Theorem kibana_link_is_escaped u s f a b :
  dated s f a b ->
  exists url, get_kibana_link_ u s = (Ret url, s, []) /\
  (is_endgame u = false -> forall c, c ∈ characters url -> c ∉ unsafe) /\
  (is_endgame u = true -> "("%char ∈ characters url /\ "'"%char ∈ characters url).
Proof using.
  intros (Hf & Ha & Hb). unfold get_kibana_link_.
  rewrite (bind_run_silent _ _ s (fold_left (fun link portal_link =>
    if includes_text (dns portal_link) KIBANA then dns portal_link else link) (portal_links_ s) "") s eq_refl).
  rewrite (bind_run_silent _ _ _ _ _ (kibana_query_joins u f s Hf)).
  rewrite (bind_run_silent _ _ _ _ _ (run_values s f Hf)).
  rewrite (bind_run_silent _ _ s (toISOString a) s) by (by rewrite Ha).
  rewrite (bind_run_silent _ _ s (toISOString b) s) by (by rewrite Hb).
  destruct (is_endgame u); (eexists; split; [reflexivity|]); (split; [|try done]); [done | |].
  - intros _. unfold characters. rewrite !list_ascii_app, !elem_of_app.
    split; right; left; apply (bool_decide_eq_true_1 _); vm_compute; reflexivity.
  - intros _ c Hc. exact (escape_url_safe _ _ Hc).
Qed.

(** ** What the operations leave alone *)

(** The requests that change alerts. *)
Definition changes (c : call) : bool :=
  match c with CModifyAlert _ | CRemoveAlerts _ => true | _ => false end.
Definition harmless (e : effect call page) : Prop := only (fun c => changes c = false) e.

Create HintDb alerts.
#[local] Hint Unfold get form values_of_form form_value row_at columns_at assign get_link_ get_kibana_query_
  get_kibana_link_ iso seconds get_arkime_link_ save_cookies_ validate_date_times_ api_get_alerts_
  update_alerts_table_ parse_cookie api_get_fields_ api_get_portal_links_ tick toggle_auto_refresh
  refresh_alerts change_query_time_amount time_interval_selection_change date_time_change
  filter_closed_alerts open_confirm_dialog_ acknowledge_event unacknowledged_event
  remove_alerts_confirm_dialog assign_form assign_to_form assign_links sent open_alert_drilldown_dialog
  escalate_alert open_alert_in_kibana_tab open_alert_in_arkime_tab api_get_alert_list_ api_modify_alert_
  api_remove_alerts_ open_alert_in_hive_tab confirm_dialog_closed escalate_dialog_closed
  success_modify_remove_alerts_ api_get_portal_links_answer api_modify_alert_answer
  api_remove_alerts_answer member case_title api_get_alert_list_answer api_fork_join_answer : alerts.

(** [I] speaks of the columns and of the controls of the form; setting the dates
    keeps it. *)
Section Frame.
Context (I : SecurityAlertsComponent -> Prop) (P : effect call page -> Prop).
Hypothesis frame : forall s s', arrays s' = arrays s -> dynamic_columns s' = dynamic_columns s ->
  all_columns s' = all_columns s -> all_chip_options_ s' = all_chip_options_ s ->
  tf_values <$> time_form_group s' = tf_values <$> time_form_group s -> I s -> I s'.
Hypothesis dates : forall s f p h a b, time_form_group s = Some f -> I s ->
  I (with_time_form (Some {| tf_values := set_dates a b (tf_values f); tf_object := p |}) h s).
Hypothesis values : forall s f p h k v, time_form_group s = Some f ->
  k <> "acknowledged" -> k <> "escalated" -> I s ->
  I (with_time_form (Some {| tf_values := set_value k v (tf_values f); tf_object := p |}) h s).
Hypothesis allowed : forall e, harmless e -> P e.

Lemma safe_harmless e : harmless e -> safe I P (emit e).
Proof using allowed. intros H. by apply safe_emit, allowed. Qed.

Lemma safe_set_dates a b : safe I P (set_controls (set_dates a b)).
Proof using dates.
  intros s Hs. unfold set_controls. destruct (time_form_group s) as [f|] eqn:E.
  - rewrite (bind_run_silent _ _ _ _ _ (run_time_form s f E)). split; [by apply dates | apply Forall_nil_2].
  - unfold form, get, bind, gets, deref. cbn. rewrite E. by split; [|apply Forall_nil_2].
Qed.

Lemma safe_set_value k v :
  k <> "acknowledged" -> k <> "escalated" -> safe I P (set_controls (set_value k v)).
Proof using values.
  intros H1 H2 s Hs. unfold set_controls. destruct (time_form_group s) as [f|] eqn:E.
  - rewrite (bind_run_silent _ _ _ _ _ (run_time_form s f E)). split; [by apply values | apply Forall_nil_2].
  - unfold form, get, bind, gets, deref. cbn. rewrite E. by split; [|apply Forall_nil_2].
Qed.

Lemma safe_assign_raw_form row : safe I P (assign_raw_form row).
Proof using frame.
  intros s Hs. unfold assign_raw_form. destruct (time_form_group s) as [f|] eqn:E.
  - rewrite (bind_run_silent _ _ _ _ _ (run_time_form s f E)). split; [|apply Forall_nil_2].
    apply (frame s); try done. simpl. by rewrite E.
  - unfold form, get, bind, gets, deref. cbn. rewrite E. by split; [|apply Forall_nil_2].
Qed.

Local Ltac settle :=
  match goal with
  | |- harmless _ => solve [by intros ? [= <-] | by intros ?]
  | H : I ?s |- I _ => solve [by (eapply frame; [..|exact H])]
  end.
Local Ltac walk :=
  repeat autounfold with alerts;
  unfold on_error_message, on_error, displaySnackBar, generate_return_error_snackbar_message,
    generate_return_success_snackbar_message;
  repeat first [ apply safe_set_dates | apply safe_assign_raw_form | (apply safe_harmless; settle)
               | settle | safe_step ].

Lemma safe_set_date_times t : safe I P (set_date_times_ t).
Proof using dates. unfold set_date_times_. walk. Qed.

Lemma safe_update_alerts_table b t : safe I P (update_alerts_table_ b t).
Proof using frame dates allowed. walk. all: apply safe_set_date_times. Qed.

Lemma safe_get_alerts_answer b a : safe I P (api_get_alerts_answer b a).
Proof using frame allowed. unfold api_get_alerts_answer. walk. Qed.

(** The closing of a dialog changes alerts; the first turn, the filters and the
    columns change what [I] is about. *)
Definition plain (l : label event Ans) : Prop :=
  match l with
  | Event (NgOnInit _ _ | FilterAcknowledged _ _ | FilterEscalated _ _ | AddAlertChip _ _ |
           RemoveAlertChip _ _ | AutocompleteSelectionChip _ _) => False
  | Answered (CGetFields | DConfirm _ _ _ | DEscalate _ _ _) _ => False
  | _ => True
  end.

Lemma safe_plain l : plain l -> safe I P (react l).
Proof using frame dates values allowed.
  intros Hl. destruct l as [e|c a]; [destruct e | destruct c]; simpl in *; try done;
    unfold ngOnDestroy, toggle_absolute_time_controls, api_get_portal_links_answer;
    try apply safe_get_alerts_answer; walk; 
    first [ by apply safe_set_value | apply safe_set_date_times | apply safe_update_alerts_table ].
Qed.

Lemma safe_confirm_closed row w r : (forall e, P e) -> safe I P (confirm_dialog_closed row w r).
Proof using frame. intros HP. walk. all: apply HP. Qed.

Lemma safe_escalate_closed row r : (forall e, P e) -> safe I P (escalate_dialog_closed row r).
Proof using frame. intros HP. walk. all: apply HP. Qed.
End Frame.

(** ** Who changes alerts *)

(** Which turn subscribes to what. *)
Definition causes (l : label event Ans) (c : call) : Prop :=
  match c with
  | CModifyAlert _ =>
      (exists row d, l = Answered (Ans := Ans) (DConfirm row d MODIFY_API_SWITCH) (Some CONFIRM_DIALOG_OPTION)) \/
      (exists row m f r, l = Answered (Ans := Ans) (DEscalate row m f) (Some r) /\ valid r = true)
  | CRemoveAlerts _ =>
      exists row d, l = Answered (Ans := Ans) (DConfirm row d REMOVE_API_SWITCH) (Some CONFIRM_DIALOG_OPTION)
  | DConfirm row _ w =>
      (w = MODIFY_API_SWITCH /\ (l = Event (AcknowledgeEvent row) \/ l = Event (UnacknowledgedEvent row))) \/
      (w = REMOVE_API_SWITCH /\ l = Event (RemoveAlertsConfirmDialog row))
  | DEscalate row _ _ =>
      exists u k a r, l = Answered (Ans := Ans) (CHiveSettingsAndAlertList row u k a) (Next r)
  | CHiveSettingsAndAlertList row _ _ _ => l = Event (EscalateAlert row)
  | _ => True
  end.

Lemma safe_any_controls (P : effect call page -> Prop) g : safe (fun _ => True) P (set_controls g).
Proof using.
  intros s _. split; [done|]. unfold set_controls. destruct (time_form_group s) as [f|] eqn:E.
  - rewrite (bind_run_silent _ _ _ _ _ (run_time_form s f E)). apply Forall_nil_2.
  - unfold form, get, bind, gets, deref. cbn. rewrite E. apply Forall_nil_2.
Qed.

Lemma alerts_react_causes l : safe (fun _ => True) (only (causes l)) (react l).
Proof using.
  destruct l as [e|c a]; [destruct e | destruct c]; simpl in *;
    unfold ngOnInit, ngOnDestroy, initialize_time_form_group_, get_auto_refresh_, get_dynamic_columns_,
      toggle_absolute_time_controls, filter_acknowledged, filter_escalated, add_alert_chip, remove_alert_chip,
      autocomplete_selection_chip, set_columns, set_all_columns, api_get_fields_answer, api_get_alerts_answer;
    repeat autounfold with alerts; unfold set_date_times_; repeat autounfold with alerts;
    repeat first [ match goal with |- safe _ _ (set_controls _) => apply safe_any_controls
                                 | |- safe _ _ (assign_raw_form _) => apply safe_assign_raw_form; done end
                 | safe_step ];
    try done; try (intros ? [= <-]; simpl; eauto 8).
  all: repeat match goal with
         | H : (_ ?=== _) = true |- _ => apply oseqb_eq in H; subst
         | H : (_ === _) = true |- _ => apply seqb_eq in H; subst
         end; eauto.
Qed.

Definition anything (l : label event Ans) : Prop := True.

Lemma alerts_caused tr w l es c : trace anything tr w -> (l, es) ∈ tr -> Subscribe c ∈ es -> causes l c.
Proof using.
  intros Htr. apply (trace_caused anything (fun _ => True) causes tr w); [done| |done].
  intros l' _. apply alerts_react_causes.
Qed.

(** What the earlier turns of the trace hold. *)
Definition earlier (l : label event Ans) (tr : list (label event Ans * list (effect call page))) : Prop :=
  exists u es v, tr = u ++ (l, es) :: v.

(** C22: alerts are changed only by a user who asked for it and confirmed.  In
    every interleaving of user actions, timer ticks and answers, the turn that
    sends a removal answers with Confirm the dialog of a removal, which an earlier
    turn opened when the user asked to remove that row; the turn that sends a
    modification answers with Confirm the dialog of an acknowledgement or its
    undoing the user asked for, or answers the escalation dialog with a valid form
    after the user escalated the row. *)
Theorem alert_changes_need_confirmation tr w tr1 (l : label event Ans) es tr2 :
  trace (K := SecurityAlerts) anything tr w -> tr = tr1 ++ (l, es) :: tr2 ->
  (forall u, Subscribe (CRemoveAlerts u) ∈ es ->
     exists row d, l = Answered (Ans := Ans) (DConfirm row d REMOVE_API_SWITCH) (Some CONFIRM_DIALOG_OPTION) /\ earlier (Event (RemoveAlertsConfirmDialog row)) tr1) /\ (forall u, Subscribe (CModifyAlert u) ∈ es ->
     (exists row d, l = Answered (Ans := Ans) (DConfirm row d MODIFY_API_SWITCH) (Some CONFIRM_DIALOG_OPTION) /\ (earlier (Event (AcknowledgeEvent row)) tr1 \/ earlier (Event (UnacknowledgedEvent row)) tr1)) \/
     (exists row m f r, l = Answered (Ans := Ans) (DEscalate row m f) (Some r) /\ valid r = true /\ earlier (Event (EscalateAlert row)) tr1)).
Proof using.
  intros Htr Heq. assert (Hc := fun l0 es0 c => alerts_caused tr w l0 es0 c Htr).
  assert (Hin : (l, es) ∈ tr) by (rewrite Heq; set_solver).
  assert (Hback : forall u l' es' v c a, tr = u ++ (l', es') :: v -> l' = Answered c a ->
    exists p l3 es3 q, u = p ++ (l3, es3) :: q /\ causes l3 c).
  { intros u l' es' v c a E ->.
    destruct (answered_subscribed _ _ _ _ _ _ _ _ Htr E) as (p & l3 & es3 & q & -> & Hd).
    exists p, l3, es3, q. split; [done|]. apply (Hc l3 es3); [rewrite E; set_solver | done]. }
  split; intros x Hx.
  - destruct (Hc l es _ Hin Hx) as (row & d & Hl).
    destruct (Hback _ _ _ _ _ _ Heq Hl) as (p & l3 & es3 & q & -> & [[? _]|[_ ->]]); [done|].
    exists row, d. split; [done | by exists p, es3, q].
  - destruct (Hc l es _ Hin Hx) as [(row & d & Hl)|(row & m & f & r & Hl & Hr)];
      destruct (Hback _ _ _ _ _ _ Heq Hl) as (p & l3 & es3 & q & -> & H3).
    + left. exists row, d. split; [done|]. destruct H3 as [[_ H3]|[? _]]; [|done].
      destruct H3 as [-> | ->]; [left | right]; by exists p, es3, q.
    + right. exists row, m, f, r. split; [done|]. split; [done|]. destruct H3 as (b & k & a & r' & H3).
      rewrite <- app_assoc in Heq. simpl in Heq.
      destruct (Hback _ _ _ _ _ _ Heq H3) as (p' & l4 & es4 & q' & -> & ->).
      exists p', es4, (q' ++ (l3, es3) :: q). by rewrite <- app_assoc.
Qed.

(** ** The columns *)

Definition dynamic (x : string) : Prop := is_dynamic_column_name x = true.
Definition free (l : list string) : Prop := NoDup l /\ Forall dynamic l.

Definition columns_ok (s : SecurityAlertsComponent) : Prop :=
  (forall p l, load (arrays s) p = Some l -> free l) /\ Forall dynamic (all_chip_options_ s) /\
  match dynamic_columns s with
  | Some p => exists l, load (arrays s) p = Some l /\ all_columns s = ALL_COLUMNS_START_VALUES ++ l
  | None => all_columns s = []
  end.

(** The fields the server knows, the options of the autocompletion and the saved
    columns are not the two columns every table has. *)
Definition fair (l : label event Ans) : Prop :=
  match l with
  | Event (NgOnInit cookie _) =>
      forall v, parse (cookie DYNAMIC_COLUMNS_COOKIE) = Some v -> free (columns_of v)
  | Event (AutocompleteSelectionChip x _) => dynamic x
  | Answered CGetFields (Next l) => Forall dynamic l
  | _ => True
  end.

Lemma columns_ok_frame s s' :
  arrays s' = arrays s -> dynamic_columns s' = dynamic_columns s -> all_columns s' = all_columns s ->
  all_chip_options_ s' = all_chip_options_ s -> columns_ok s -> columns_ok s'.
Proof using. unfold columns_ok. by intros -> -> -> ->. Qed.

Lemma free_snoc l x : free l -> x ∉ l -> dynamic x -> free (l ++ [x]).
Proof using.
  intros [Hn Hd] Hx Hdx. split.
  - apply NoDup_app. split; [done|]. split; [|apply NoDup_singleton].
    by intros y Hy ->%list_elem_of_singleton.
  - apply Forall_app. by split; [|apply Forall_singleton].
Qed.

Lemma dynamic_start x : dynamic x -> x ∉ ALL_COLUMNS_START_VALUES.
Proof using.
  unfold dynamic, is_dynamic_column_name, ALL_COLUMNS_START_VALUES.
  rewrite negb_true_iff, orb_false_iff, !seqb_neq. intros [H1 H2]. rewrite !not_elem_of_cons.
  split; [done|]. split; [done | apply not_elem_of_nil].
Qed.

(** Removing a column from both lists. *)
Lemma splice_columns l x :
  free l -> x ∈ l ->
  splice1 (indexOf l x) l = filter (fun y => y <> x) l /\
  splice1 (indexOf (ALL_COLUMNS_START_VALUES ++ l) x) (ALL_COLUMNS_START_VALUES ++ l) =
  ALL_COLUMNS_START_VALUES ++ filter (fun y => y <> x) l.
Proof using.
  intros [Hn Hd] Hx. rewrite Forall_forall in Hd. split; [by apply splice1_indexOf|].
  rewrite splice1_indexOf.
  - rewrite filter_app. f_equal. apply filter_ne_id, dynamic_start, Hd, Hx.
  - apply NoDup_app. split; [|split; [|done]].
    + apply (proj1 (bool_decide_eq_true (NoDup ALL_COLUMNS_START_VALUES))). vm_compute. reflexivity.
    + intros y Hy1 Hy2. by apply (dynamic_start y (Hd y Hy2)).
  - apply elem_of_app. by right.
Qed.

Lemma free_filter l x : free l -> free (filter (fun y => y <> x) l).
Proof using.
  intros [Hn Hd]. split; [by apply NoDup_filter|]. apply Forall_forall. rewrite Forall_forall in Hd.
  intros y [_ Hy]%list_elem_of_filter. by apply Hd.
Qed.

(** Both lists are changed before the table is updated. *)
Lemma safe_columns_step (P : effect call page -> Prop) g h (k : M unit) s p l :
  dynamic_columns s = Some p -> load (arrays s) p = Some l -> columns_ok s ->
  free (g l) -> h (all_columns s) = ALL_COLUMNS_START_VALUES ++ g l -> safe columns_ok P k ->
  let x := (set_columns g ;;; set_all_columns h ;;; k) s in
  columns_ok (state_of x) /\ Forall P (effects_of x).
Proof using.
  intros Hp Hl (H1 & H2 & H3) Hg Hh Hk. cbv zeta.
  set (s1 := with_columns (Some p) (h (all_columns s)) (with_arrays (update p g (arrays s)) s)).
  assert (E : (set_columns g ;;; set_all_columns h ;;; k) s = k s1).
  { unfold set_columns, set_all_columns. rewrite (bind_run_silent _ _ s tt (with_arrays (update p g (arrays s)) s)).
    - rewrite (bind_run_silent _ _ _ tt s1); [done|]. unfold s1, modify. by rewrite <- Hp.
    - unfold get, bind, gets, deref, modify. by rewrite Hp. }
  rewrite E. apply Hk. split; [|split; [done|]].
  - intros q m Hm. simpl in Hm. destruct (decide (p = q)) as [->|Hne].
    + rewrite load_update_eq, Hl in Hm. by injection Hm as <-.
    + rewrite load_update_ne in Hm by done. by apply (H1 q).
  - simpl. exists (g l). by rewrite load_update_eq, Hl.
Qed.

Lemma run_columns_at s p l :
  dynamic_columns s = Some p -> load (arrays s) p = Some l -> columns_at s = (Ret l, s, []).
Proof using. intros Hp Hl. unfold columns_at, get, bind, gets, deref. cbn. rewrite Hp. cbn. by rewrite Hl. Qed.

(** A handler that starts by reading the columns. *)
Lemma safe_with_columns (P : effect call page -> Prop) (k : list string -> M unit) :
  (forall s p l, columns_ok s -> dynamic_columns s = Some p -> load (arrays s) p = Some l ->
     all_columns s = ALL_COLUMNS_START_VALUES ++ l -> free l ->
     columns_ok (state_of (k l s)) /\ Forall P (effects_of (k l s))) ->
  safe columns_ok P (l <- columns_at ;; k l).
Proof using.
  intros Hk s Hs. pose proof Hs as (H1 & H2 & H3). destruct (dynamic_columns s) as [p|] eqn:Hp.
  - destruct H3 as (l & Hl & Ha). rewrite (bind_run_silent _ _ _ _ _ (run_columns_at s p l Hp Hl)).
    by apply (Hk s p); [..|by apply (H1 p)].
  - unfold columns_at, get, bind, gets, deref. cbn. rewrite Hp. by split; [|apply Forall_nil_2].
Qed.

Section ColumnsInvariant.
Context (P : effect call page -> Prop).
Hypothesis everything : forall e, P e.

Lemma columns_update b t : safe columns_ok P (update_alerts_table_ b t).
Proof using everything. apply safe_update_alerts_table; try done. intros. by eapply columns_ok_frame. Qed.

Lemma columns_add_chip text t : safe columns_ok P (add_alert_chip text t).
Proof using everything.
  unfold add_alert_chip. apply safe_when. intros _ s0 Hs0. unfold get.
  rewrite (bind_run_silent _ _ s0 s0 s0 eq_refl).
  apply (safe_with_columns P (fun l => when (includes (all_chip_options_ s0) (trim text) && _) _)); [|done].
  intros s p l Hs Hp Hl Ha Hfree. destruct (_ && _) eqn:E; [|by split; [|apply Forall_nil_2]].
  apply andb_true_iff in E as [E1 E2%negb_true_iff]. apply includes_elem_of in E1. apply includes_false in E2.
  apply (safe_columns_step P _ _ _ _ p l Hp Hl Hs); [| |apply columns_update].
  - apply free_snoc; [done | done |]. destruct Hs0 as (_ & Hopt & _). rewrite Forall_forall in Hopt. by apply Hopt.
  - by rewrite Ha, <- app_assoc.
Qed.

Lemma columns_autocomplete x t : dynamic x -> safe columns_ok P (autocomplete_selection_chip x t).
Proof using everything.
  intros Hx. apply safe_with_columns. intros s p l Hs Hp Hl Ha Hfree.
  destruct (includes l x) eqn:E; [by split; [|apply Forall_nil_2]|]. apply includes_false in E.
  apply (safe_columns_step P _ _ _ _ p l Hp Hl Hs); [by apply free_snoc | by rewrite Ha, <- app_assoc |].
  apply columns_update.
Qed.

Lemma columns_remove_chip x t : safe columns_ok P (remove_alert_chip x t).
Proof using everything.
  apply safe_with_columns. intros s p l Hs Hp Hl Ha Hfree. unfold get.
  rewrite (bind_run_silent _ _ s s s eq_refl). rewrite Ha.
  destruct (_ && _) eqn:E; [|by split; [|apply Forall_nil_2]]. apply andb_true_iff in E as [E1 _].
  assert (Hx : x ∈ l).
  { destruct (decide (x ∈ l)) as [|Hn]; [done|]. exfalso. apply Z.leb_le in E1.
    assert (indexOf l x = (-1)%Z) as Hi; [|lia]. apply findIndex_none, Forall_forall.
    intros y Hy. apply seqb_neq. by intros ->. }
  destruct (splice_columns l x Hfree Hx) as [S1 S2].
  apply (safe_columns_step P _ _ _ _ p l Hp Hl Hs); [| |apply columns_update].
  - rewrite S1. by apply free_filter.
  - by rewrite Ha, S1.
Qed.

Lemma columns_open cookie :
  (forall v, parse (cookie DYNAMIC_COLUMNS_COOKIE) = Some v -> free (columns_of v)) ->
  safe columns_ok P (get_dynamic_columns_ cookie).
Proof using.
  intros Hc s Hs. unfold get_dynamic_columns_. pose proof Hs as (H1 & H2 & _).
  assert (Hopen : forall p s1, (load (arrays s1) p = None -> columns_ok s1) ->
    (forall q l, load (arrays s1) q = Some l -> free l) -> Forall dynamic (all_chip_options_ s1) ->
    let x := (s <- get ;; l <- deref (load (arrays s) p) ;;
              modify (with_columns (Some p) (ALL_COLUMNS_START_VALUES ++ l))) s1 in
    columns_ok (state_of x) /\ Forall P (effects_of x)).
  { intros p s1 Hp Hall Hopt. unfold get, bind, gets, deref, modify. cbn.
    destruct (load (arrays s1) p) as [l|] eqn:El; cbn; (split; [|apply Forall_nil_2]); [|by apply Hp].
    split; [done|]. split; [done|]. by exists l. }
  destruct (cookie DYNAMIC_COLUMNS_COOKIE === "") eqn:E.
  - rewrite (bind_run_silent _ _ s 0 s eq_refl). by apply Hopen.
  - unfold parse_cookie. destruct (parse (cookie DYNAMIC_COLUMNS_COOKIE)) as [v|] eqn:Ev;
      [|by split; [|apply Forall_nil_2]].
    set (s1 := with_arrays (snd (alloc (columns_of v) (arrays s))) s).
    rewrite (bind_run_silent _ _ s (next_loc (arrays s)) s1) by done.
    apply Hopen; [|intros q l|done]; unfold s1, load, alloc; simpl.
    + by rewrite lookup_insert_eq.
    + intros [[<- <-]|[_ Hl]]%lookup_insert_Some; [by apply Hc | by apply (H1 q)].
Qed.

Lemma columns_controls g : safe columns_ok P (set_controls g).
Proof using.
  intros s Hs. unfold set_controls. destruct (time_form_group s) as [f|] eqn:E.
  - rewrite (bind_run_silent _ _ _ _ _ (run_time_form s f E)). split; [exact Hs | apply Forall_nil_2].
  - unfold form, get, bind, gets, deref. cbn. rewrite E. by split; [|apply Forall_nil_2].
Qed.

Lemma columns_init_form cookie : safe columns_ok P (initialize_time_form_group_ cookie).
Proof using.
  unfold initialize_time_form_group_, parse_cookie, get. repeat safe_step.
  all: match goal with H : columns_ok _ |- _ => exact H end.
Qed.

Lemma columns_react l : fair l -> safe columns_ok P (react l).
Proof using everything.
  intros Hl. assert (Hplain : plain l -> safe columns_ok P (react l)).
  { intros Hp. apply safe_plain; try done. intros. by eapply columns_ok_frame. }
  destruct l as [e|c a]; [destruct e | destruct c]; try (by apply Hplain); simpl in *.
  - unfold ngOnInit, get_auto_refresh_, api_get_fields_, api_get_portal_links_.
    repeat first [ apply columns_init_form | apply columns_open | apply columns_update | safe_step ]; done.
  - unfold filter_acknowledged. repeat first [ apply columns_controls | apply columns_update | safe_step ].
  - unfold filter_escalated. repeat first [ apply columns_controls | apply columns_update | safe_step ].
  - apply columns_add_chip.
  - apply columns_remove_chip.
  - by apply columns_autocomplete.
  - unfold api_get_fields_answer, on_error. destruct a as [response|e]; [|apply safe_emit, everything].
    apply safe_modify. intros s (H1 & H2 & H3). by split.
  - apply safe_confirm_closed; try done. intros. by eapply columns_ok_frame.
  - apply safe_escalate_closed; try done. intros. by eapply columns_ok_frame.
Qed.
End ColumnsInvariant.

(** In every reachable state the columns of the table are the two fixed ones
    followed by the chips the user sees, without repetition: whatever chips were
    added and removed, saved and read back, both lists say the same, provided
    the fields the server and the cookies offer are not the fixed columns. *)
Theorem columns_agree tr w p :
  trace (K := SecurityAlerts) fair tr w -> dynamic_columns (component w) = Some p ->
  exists l, load (arrays (component w)) p = Some l /\
    all_columns (component w) = ALL_COLUMNS_START_VALUES ++ l /\ NoDup (all_columns (component w)).
Proof using.
  intros Htr Hp.
  destruct (trace_invariant fair columns_ok (fun _ _ => True)) with (tr := tr) (w := w) as [(H1 & _ & H3) _];
    [| |done|].
  - split; [|split; [constructor | done]]. intros q l. simpl. unfold load, alloc; simpl.
    intros [[<- <-]|[_ Hl]]%lookup_insert_Some; [|by rewrite lookup_empty in Hl].
    split; [apply (proj1 (bool_decide_eq_true (NoDup DYNAMIC_COLUMNS_DEFAULT_VALUES))) |
            apply (proj1 (bool_decide_eq_true (Forall dynamic DYNAMIC_COLUMNS_DEFAULT_VALUES)))];
      vm_compute; reflexivity.
  - intros l Hl. by apply columns_react.
  - rewrite Hp in H3. destruct H3 as (l & Hl & Ha). exists l. split; [done|]. split; [done|]. rewrite Ha.
    destruct (H1 p l Hl) as [Hn Hd]. rewrite Forall_forall in Hd. apply NoDup_app.
    split; [|split; [|done]].
    + apply (proj1 (bool_decide_eq_true (NoDup ALL_COLUMNS_START_VALUES))). vm_compute. reflexivity.
    + intros y Hy1 Hy2. by apply (dynamic_start y (Hd y Hy2)).
Qed.

(** ** The filters *)

Definition both (a : AlertFormInterface) : bool := js_truthy (acknowledged a) && js_truthy (escalated a).

Definition exclusive (s : SecurityAlertsComponent) : Prop :=
  forall f, time_form_group s = Some f -> both (tf_values f) = false.

(** The saved form does not hold both filters. *)
Definition fair_form (l : label event Ans) : Prop :=
  match l with
  | Event (NgOnInit cookie _) =>
      forall c, parse (cookie TIME_FORM_GROUP_COOKIE) = Some c ->
      js_truthy (prop c "acknowledged") && js_truthy (prop c "escalated") = false
  | _ => True
  end.

Lemma exclusive_frame s s' :
  tf_values <$> time_form_group s' = tf_values <$> time_form_group s -> exclusive s -> exclusive s'.
Proof using.
  intros E H f Hf. rewrite Hf in E. destruct (time_form_group s) as [f0|] eqn:E0; [|done].
  injection E as ->. by apply H.
Qed.

Lemma exclusive_set s g p h :
  (forall f, time_form_group s = Some f -> both (g (tf_values f)) = false) -> forall f,
  time_form_group s = Some f -> exclusive (with_time_form (Some {| tf_values := g (tf_values f); tf_object := p |}) h s).
Proof using. intros H f Hf f' [= <-]. by apply H. Qed.


(** Setting one filter and, when it is on, clearing the other one. *)
Definition sets_filter (k k' : string) (b : bool) : M unit :=
  set_controls (set_value k (JBool b)) ;;; when b (set_controls (set_value k' (JBool false))).

Section FilterInvariant.
Context (P : effect call page -> Prop).
Hypothesis everything : forall e, P e.

Lemma exclusive_values s f p h k v :
  time_form_group s = Some f -> k <> "acknowledged" -> k <> "escalated" -> exclusive s ->
  exclusive (with_time_form (Some {| tf_values := set_value k v (tf_values f); tf_object := p |}) h s).
Proof using.
  intros Hf H1 H2 Hs f' [= <-]. simpl. unfold both, set_value. simpl.
  rewrite (proj2 (seqb_neq k "acknowledged") H1), (proj2 (seqb_neq k "escalated") H2). by apply (Hs f).
Qed.

Lemma exclusive_plain l : plain l -> safe exclusive P (react l).
Proof using everything.
  intros Hl. apply safe_plain; [|..|done|done].
  - intros s s' _ _ _ _. apply exclusive_frame.
  - intros s f p h a b Hf Hs f' [= <-]. exact (Hs f Hf).
  - intros. by apply exclusive_values.
Qed.

Lemma exclusive_update b t : safe exclusive P (update_alerts_table_ b t).
Proof using everything.
  apply safe_update_alerts_table; [| |done].
  - intros s s' _ _ _ _. apply exclusive_frame.
  - intros s f p h a c Hf Hs f' [= <-]. exact (Hs f Hf).
Qed.

Lemma exclusive_filter k k' b :
  (k = "acknowledged" /\ k' = "escalated") \/ (k = "escalated" /\ k' = "acknowledged") ->
  safe exclusive P (sets_filter k k' b).
Proof using.
  intros Hk s Hs. unfold sets_filter. destruct (time_form_group s) as [f|] eqn:Hf.
  2:{ unfold set_controls, form, get, bind, gets, deref. cbn. rewrite Hf. by split; [|apply Forall_nil_2]. }
  destruct (run_set_controls s f (set_value k (JBool b)) Hf) as (p & h & _ & E).
  rewrite (bind_run_silent _ _ _ _ _ E). destruct b; simpl when.
  - set (s1 := with_time_form _ _ s).
    destruct (run_set_controls s1 _ (set_value k' (JBool false)) eq_refl) as (p' & h' & _ & ->).
    split; [|apply Forall_nil_2]. intros f' [= <-]. unfold both.
    by destruct Hk as [[-> ->]|[-> ->]]; simpl; rewrite ?andb_false_r.
  - split; [|apply Forall_nil_2]. intros f' [= <-]. unfold both.
    by destruct Hk as [[-> ->]|[-> ->]]; simpl; rewrite ?andb_false_r.
Qed.

Lemma exclusive_show_closed : safe exclusive P (set_controls (set_value "showClosed" (JBool false))).
Proof using. apply safe_set_value; [|done|done]. intros. by apply exclusive_values. Qed.

Lemma exclusive_toggle k k' b t :
  (k = "acknowledged" /\ k' = "escalated") \/ (k = "escalated" /\ k' = "acknowledged") ->
  safe exclusive P
    (set_controls (set_value k (JBool b)) ;;;
     (when b (set_controls (set_value k' (JBool false))) ;;;
      (set_controls (set_value "showClosed" (JBool false)) ;;; update_alerts_table_ false t))).
Proof using everything.
  intros Hk s Hs. rewrite <- (bind_assoc (set_controls (set_value k (JBool b)))
    (fun _ => when b (set_controls (set_value k' (JBool false)))) _ s).
  apply (safe_bind _ _ _ _ (exclusive_filter k k' b Hk)); [|done]. intros _.
  apply safe_bind; [apply exclusive_show_closed | intros _; apply exclusive_update].
Qed.

Lemma exclusive_columns_step g h (k : M unit) : safe exclusive P k ->
  safe exclusive P (set_columns g ;;; set_all_columns h ;;; k).
Proof using.
  intros Hk. unfold set_columns, set_all_columns, get. repeat safe_step; done.
Qed.

Lemma exclusive_init_form cookie :
  fair_form (Event (NgOnInit cookie (0, 0)%Z)) -> safe exclusive P (initialize_time_form_group_ cookie).
Proof using.
  intros Hc. unfold initialize_time_form_group_.
  set (m := if negb (cookie TIME_FORM_GROUP_COOKIE === "") then _ else _).
  intros s Hs.
  assert (Hm : (exists v, m s = (Ret v, s, []) /\ both v = false) \/ (exists e, m s = (Exn e, s, []))).
  { unfold m. destruct (_ === "") eqn:E; simpl; [left; by eexists|]. unfold parse_cookie.
    destruct (parse _) as [c|] eqn:Ec; [|right; by eexists]. rewrite (bind_run_silent _ _ s c s eq_refl).
    destruct (get_property c "acknowledged") as [x|] eqn:Ex; [|right; by eexists].
    left. eexists. split; [reflexivity|]. specialize (Hc c Ec). unfold both, control_value. simpl.
    destruct (prop c "acknowledged"), (prop c "escalated"); exact Hc. }
  destruct Hm as [(v & Em & Hv)|(e & Em)].
  - rewrite (bind_run_silent _ _ _ _ _ Em). split; [|apply Forall_nil_2]. by intros f [= <-].
  - rewrite (bind_run_throw _ _ _ _ _ _ Em). by split; [|apply Forall_nil_2].
Qed.

Lemma exclusive_columns cookie : safe exclusive P (get_dynamic_columns_ cookie).
Proof using. unfold get_dynamic_columns_, parse_cookie, get. repeat safe_step; done. Qed.

Lemma exclusive_react l : fair_form l -> safe exclusive P (react l).
Proof using everything.
  intros Hl. assert (Hframe : forall s s', tf_values <$> time_form_group s' = tf_values <$> time_form_group s ->
    exclusive s -> exclusive s') by apply exclusive_frame.
  assert (Hplain : plain l -> safe exclusive P (react l)) by apply exclusive_plain.
  destruct l as [e|c a]; [destruct e | destruct c]; try (by apply Hplain); simpl in *.
  - unfold ngOnInit, get_auto_refresh_, api_get_fields_, api_get_portal_links_.
    repeat first [ (apply exclusive_init_form; exact Hl) | apply exclusive_columns | apply exclusive_update
                 | safe_step ]; done.
  - apply exclusive_toggle. auto.
  - apply exclusive_toggle. auto.
  - unfold add_alert_chip, columns_at, get.
    repeat first [ apply exclusive_columns_step, exclusive_update | safe_step ].
  - unfold remove_alert_chip, columns_at, get.
    repeat first [ apply exclusive_columns_step, exclusive_update | safe_step ].
  - unfold autocomplete_selection_chip, columns_at, get.
    repeat first [ apply exclusive_columns_step, exclusive_update | safe_step ].
  - unfold api_get_fields_answer, on_error. destruct a as [response|e]; [|apply safe_emit, everything].
    by apply safe_modify.
  - apply safe_confirm_closed; [|done]. intros s s' _ _ _ _. apply Hframe.
  - apply safe_escalate_closed; [|done]. intros s s' _ _ _ _. apply Hframe.
Qed.
End FilterInvariant.

(** In every reachable state the acknowledged and the escalated alerts are
    never both asked for: switching one filter on switches the other one off, and
    no other operation touches them; the saved form may be any that does not hold
    both. *)
Theorem filters_exclude_each_other tr w f :
  trace (K := SecurityAlerts) fair_form tr w -> time_form_group (component w) = Some f ->
  js_truthy (acknowledged (tf_values f)) && js_truthy (escalated (tf_values f)) = false.
Proof using.
  intros Htr Hf.
  destruct (trace_invariant fair_form exclusive (fun _ _ => True)) with (tr := tr) (w := w) as [H _];
    [done | | done | by apply (H f)].
  intros l Hl. by apply exclusive_react.
Qed.

(** ** Updating the table *)

Definition request (display_message : bool) (l : list string) (v : AlertFormInterface) (a z : Z) : effect call page :=
  Subscribe (CGetAlerts display_message
    (alerts_url (join_with "," l) (toISOString a) (toISOString z) (acknowledged v) (escalated v) (showClosed v))).

Definition cookies (l : list string) (v : AlertFormInterface) (b : bool) : list (effect call page) :=
  [SetCookie DYNAMIC_COLUMNS_COOKIE (stringify (columns_json l));
   SetCookie TIME_FORM_GROUP_COOKIE (stringify (form_json v));
   SetCookie AUTO_REFRESH_COOKIE (if b then "true" else "false")].

(** The page was opened. *)
Definition opened (s : SecurityAlertsComponent) (l : list string) (f : time_form) (v : AlertFormInterface)
    (b : bool) : Prop :=
  (exists p, dynamic_columns s = Some p /\ load (arrays s) p = Some l) /\ time_form_group s = Some f /\
  load (forms s) (tf_object f) = Some v /\ auto_refresh s = Some b.

Lemma run_opened_columns s l f v b : opened s l f v b -> columns_at s = (Ret l, s, []).
Proof using. intros ((p & Hp & Hl) & _). by apply (run_columns_at s p). Qed.

Lemma run_save_cookies s l f v b : opened s l f v b -> save_cookies_ s = (Ret tt, s, cookies l v b).
Proof using.
  intros H. pose proof (run_opened_columns s l f v b H) as Hc. destruct H as ((p & Hp & Hl) & Hf & Hv & Hb).
  unfold save_cookies_, get. rewrite (bind_run_silent _ _ s s s eq_refl). rewrite Hp, Hf, Hb.
  assert (E : form_value s = (Ret v, s, [])).
  { unfold form_value. rewrite (bind_run_silent _ _ _ _ _ (run_time_form s f Hf)). unfold get, bind, gets, deref. cbn.
    by rewrite Hv. }
  unfold bind at 1 2. rewrite Hc. cbn. unfold bind. rewrite E. reflexivity.
Qed.

Lemma run_request d s l f v b a z :
  opened s l f v b -> startDatetime (tf_values f) = Some (Some a) -> endDatetime (tf_values f) = Some (Some z) ->
  (a0 <- values_of_form ;;
   api_get_alerts_ d (acknowledged a0) (escalated a0) (showClosed a0) ;;;
   save_cookies_) s = (Ret tt, s, request d l (tf_values f) a z :: cookies l v b).
Proof using.
  intros H Ha Hz. pose proof H as (_ & Hf & _).
  rewrite (bind_run_silent _ _ _ _ _ (run_values s f Hf)).
  assert (E : api_get_alerts_ d (acknowledged (tf_values f)) (escalated (tf_values f)) (showClosed (tf_values f)) s =
              (Ret tt, s, [request d l (tf_values f) a z])).
  { unfold api_get_alerts_. rewrite (bind_run_silent _ _ _ _ _ (run_opened_columns s l f v b H)).
    rewrite (bind_run_silent _ _ _ _ _ (run_values s f Hf)), Ha, Hz. reflexivity. }
  rewrite (bind_run _ _ _ _ _ _ E), (run_save_cookies s l f v b H). reflexivity.
Qed.

(** The form asks for the last [n] units of time. *)
Definition relative (v : AlertFormInterface) (i : string) (n : Z) : Prop :=
  js_truthy (absoluteTime v) = false /\ timeInterval v = JStr i /\
  (i = DAYS \/ i = HOURS \/ i = MINUTES) /\ timeAmount v = JNum n /\ (0 <= n)%Z.

Lemma run_set_date_times s f i n a t :
  time_form_group s = Some f -> relative (tf_values f) i n -> set_back i (fst t) (JNum n) = Some a ->
  exists p h, let v := set_dates (Some (Some a)) (Some (Some (snd t))) (tf_values f) in
  load h p = Some v /\
  set_date_times_ t s = (Ret tt, with_time_form (Some {| tf_values := v; tf_object := p |}) h s, []).
Proof using.
  intros Hf (_ & Hi & Hk & Hn & _) Ha. unfold set_date_times_.
  rewrite (bind_run_silent _ _ _ _ _ (run_values s f Hf)), Hi, Hn.
  assert (E : (i === DAYS) || (i === HOURS) || (i === MINUTES) = true) by (destruct Hk as [-> | [-> | ->]]; done).
  rewrite E, Ha. cbv zeta.
  destruct (run_set_controls s f (set_dates (Some (Some a)) (endDatetime (tf_values f))) Hf) as (p & h & _ & E1).
  rewrite (bind_run_silent _ _ _ _ _ E1). set (s1 := with_time_form _ _ s).
  destruct (run_set_controls s1 _ (set_dates (Some (Some a)) (Some (Some (snd t)))) eq_refl) as (p' & h' & Hl & E2).
  exists p', h'. split; [exact Hl | exact E2].
Qed.

Lemma run_update_absolute d t s l f v b a z :
  opened s l f v b -> l <> [] -> js_truthy (absoluteTime (tf_values f)) = true ->
  startDatetime (tf_values f) = Some (Some a) -> endDatetime (tf_values f) = Some (Some z) ->
  update_alerts_table_ d t s = (Ret tt, s, request d l (tf_values f) a z :: cookies l v b).
Proof using.
  intros H Hl Habs Ha Hz. unfold update_alerts_table_.
  rewrite (bind_run_silent _ _ _ _ _ (run_opened_columns s l f v b H)). pose proof H as (_ & Hf & _).
  destruct l as [|x l]; [done|]. change (Nat.ltb 0 (length (x :: l))) with true. cbv iota.
  rewrite (bind_run_silent _ _ _ _ _ (run_values s f Hf)), Habs.
  rewrite (bind_run_silent _ _ s tt s eq_refl). by apply run_request.
Qed.

(** Updating the table.  Without columns the table is emptied and nothing
    is asked for.  Otherwise exactly one request is made, for the alerts grouped
    by the columns under the chosen filters, and the cookies are written; its
    window is the last [n] units before the present, which become the dates of
    the form, or in the absolute mode the dates of the form, which stay. *)
Theorem update_asks_for_the_window {DL : DatesLaws D} d t s l f v b :
  opened s l f v b ->
  let x := update_alerts_table_ d t s in
  (l = [] -> effects_of x = [] /\ data (state_of x) = []) /\
  (forall i n, l <> [] -> relative (tf_values f) i n ->
     exists a, set_back i (fst t) (JNum n) = Some a /\ (a <= fst t)%Z /\
     let v' := set_dates (Some (Some a)) (Some (Some (snd t))) (tf_values f) in
     effects_of x = request d l (tf_values f) a (snd t) :: cookies l v' b /\
     tf_values <$> time_form_group (state_of x) = Some v') /\
  (forall a z, l <> [] -> js_truthy (absoluteTime (tf_values f)) = true ->
     startDatetime (tf_values f) = Some (Some a) -> endDatetime (tf_values f) = Some (Some z) ->
     effects_of x = request d l (tf_values f) a z :: cookies l v b /\ state_of x = s).
Proof using.
  intros H. cbv zeta. pose proof H as (Hp & Hf & _ & Hb). split; [|split].
  - intros ->. unfold update_alerts_table_. by rewrite (bind_run_silent _ _ _ _ _ (run_opened_columns s [] f v b H)).
  - intros i n Hl Hr. unfold update_alerts_table_.
    rewrite (bind_run_silent _ _ _ _ _ (run_opened_columns s l f v b H)). pose proof Hr as (Habs & _ & _ & _ & Hn).
    destruct (set_back_before i (fst t) n Hn) as (a & Ha & Hle). exists a. split; [done|]. split; [done|].
    destruct (run_set_date_times s f i n a t Hf Hr Ha) as (p & h & Hv & E).
    destruct l as [|x l]; [done|]. change (Nat.ltb 0 (length (x :: l))) with true. cbv iota.
    rewrite (bind_run_silent _ _ _ _ _ (run_values s f Hf)), Habs.
    simpl when. rewrite (bind_run_silent _ _ _ _ _ E).
    set (s1 := with_time_form _ _ s). set (v' := set_dates _ _ _) in *.
    assert (H1 : opened s1 (x :: l) {| tf_values := v'; tf_object := p |} v' b) by done.
    rewrite (run_request d s1 _ _ _ b a (snd t) H1 eq_refl eq_refl). done.
  - intros a z Hl Habs Ha Hz. by rewrite (run_update_absolute d t s l f v b a z).
Qed.

(** ** One object for every request *)

Lemma run_row_at s p u : load (rows s) p = Some u -> row_at p s = (Ret u, s, []).
Proof using. intros H. unfold row_at, get, bind, gets, deref. cbn. by rewrite H. Qed.

(** The row after [assign_form]. *)
Definition with_row_form (s : SecurityAlertsComponent) (row p : loc) : SecurityAlertsComponent :=
  with_data (data s) (update row (set_alert_form p) (rows s)) s.

Lemma run_assign_form s f row :
  time_form_group s = Some f -> assign_form row s = (Ret tt, with_row_form s row (tf_object f), []).
Proof using. intros Hf. unfold assign_form. by rewrite (bind_run_silent _ _ _ _ _ (run_time_form s f Hf)). Qed.

Lemma run_assign_to_form s row u p g :
  load (rows s) row = Some u -> alert_form u = Some p ->
  assign_to_form row g s = (Ret tt, with_time_form (time_form_group s) (update p g (forms s)) s, []).
Proof using.
  intros Hu Hp. unfold assign_to_form. rewrite (bind_run_silent _ _ _ _ _ (run_row_at s row u Hu)), Hp.
  by rewrite (bind_run_silent _ _ s p s eq_refl).
Qed.

Lemma run_sent s row u p v :
  load (rows s) row = Some u -> alert_form u = Some p -> load (forms s) p = Some v ->
  sent row s = (Ret {| sent_columns := columns u; sent_form := Some v; sent_links := links u |}, s, []).
Proof using.
  intros Hu Hp Hv. unfold sent. rewrite (bind_run_silent _ _ _ _ _ (run_row_at s row u Hu)), Hp.
  unfold get. rewrite (bind_run_silent _ _ s s s eq_refl). simpl. by rewrite Hv.
Qed.

Lemma load_row_form s row p u :
  load (rows s) row = Some u -> load (rows (with_row_form s row p)) row = Some (set_alert_form p u).
Proof using. intros Hu. simpl. by rewrite load_update_eq, Hu. Qed.

(** The escalation writes into the value object of the form. *)
Lemma run_escalate s l f v b row u values :
  opened s l f v b -> load (rows s) row = Some u ->
  let v1 := set_hive_form values (set_escalation true v) in
  exists s1, escalate_dialog_closed row (Some {| valid := true; form_values := values |}) s =
    (Ret tt, s1, [Subscribe (CModifyAlert
       {| sent_columns := columns u; sent_form := Some v1; sent_links := links u |})]) /\
  opened s1 l f v1 b /\ (forall r w, load (rows s) r = Some w -> is_Some (load (rows s1) r)).
Proof using.
  intros H Hu. cbv zeta. destruct H as (Hp & Hf & Hv & Hb). set (p := tf_object f) in *.
  set (s1 := with_row_form s row p).
  set (s2 := with_time_form (time_form_group s1) (update p (set_escalation true) (forms s1)) s1).
  set (s3 := with_time_form (time_form_group s2) (update p (set_hive_form values) (forms s2)) s2).
  assert (Hu1 : load (rows s1) row = Some (set_alert_form p u)) by (by apply load_row_form).
  assert (Hv3 : load (forms s3) p = Some (set_hive_form values (set_escalation true v)))
    by (simpl; by rewrite !load_update_eq, Hv).
  exists s3. split; [|split].
  - unfold escalate_dialog_closed. simpl when.
    rewrite (bind_run_silent _ _ _ _ _ (run_assign_form s f row Hf)). fold p. fold s1.
    rewrite (bind_run_silent _ _ _ _ _ (run_assign_to_form s1 row _ p _ Hu1 eq_refl)). fold s2.
    rewrite (bind_run_silent _ _ _ _ _ (run_assign_to_form s2 row (set_alert_form p u) p _ Hu1 eq_refl)). fold s3.
    unfold api_modify_alert_.
    by rewrite (bind_run_silent _ _ _ _ _ (run_sent s3 row (set_alert_form p u) p _ Hu1 eq_refl Hv3)).
  - split; [exact Hp|]. split; [exact Hf|]. split; [exact Hv3 | exact Hb].
  - intros r w Hr. simpl. destruct (decide (row = r)) as [->|Hne];
      [rewrite load_update_eq, Hr; by eexists | rewrite load_update_ne by done; by eexists].
Qed.

(** In the absolute mode a removal repeats the escalation before it.  When
    an escalation was sent, was answered, and the user then confirms to remove
    another row, or the same one, the request of the removal still says that an
    escalation is performed and carries the form of the case: requests carry the
    form's own value object, to which the escalation added these properties, and
    only a changed control replaces that object. *)
Theorem removal_repeats_the_escalation s l f v b a z row row' u u' values t res :
  opened s l f v b -> l <> [] -> js_truthy (absoluteTime (tf_values f)) = true ->
  startDatetime (tf_values f) = Some (Some a) -> endDatetime (tf_values f) = Some (Some z) ->
  load (rows s) row = Some u -> load (rows s) row' = Some u' ->
  let s1 := state_of (escalate_dialog_closed row (Some {| valid := true; form_values := values |}) s) in
  let s2 := state_of (api_modify_alert_answer (t, Next res) s1) in
  exists q w, effects_of (confirm_dialog_closed row' REMOVE_API_SWITCH (Some CONFIRM_DIALOG_OPTION) s2) =
    [Subscribe (CRemoveAlerts q)] /\ sent_form q = Some w /\
    performEscalation w = Some true /\ hiveForm w = Some values.
Proof using.
  intros H Hl Habs Ha Hz Hu Hu'. cbv zeta.
  destruct (run_escalate s l f v b row u values H Hu) as (s1 & E1 & H1 & Hrows). 
  assert (Es : state_of (escalate_dialog_closed row (Some {| valid := true; form_values := values |}) s) = s1)
    by (by rewrite E1).
  rewrite Es.
  assert (E2 : state_of (api_modify_alert_answer (t, Next res) s1) = s1).
  { unfold api_modify_alert_answer, success_modify_remove_alerts_. simpl fst. simpl snd. cbv iota.
    unfold bind. simpl. by rewrite (run_update_absolute false t s1 l f _ b a z H1). }
  rewrite E2. destruct (Hrows row' u' Hu') as [w Hw]. destruct H1 as (_ & Hf1 & Hv1 & _).
  unfold confirm_dialog_closed. simpl when.
  rewrite (bind_run_silent _ _ _ _ _ (run_assign_form s1 f row' Hf1)). unfold api_remove_alerts_.
  rewrite (bind_run_silent _ _ _ _ _ (run_sent _ row' _ (tf_object f) _ (load_row_form s1 row' _ w Hw) eq_refl Hv1)).
  eexists _, _. split; [reflexivity|]. by split.
Qed.

(** The default columns are not constant.  On a page that was opened
    without saved columns, choosing a column appends it to the very array the
    module exports as the default columns; the next page that is opened without
    a cookie starts with it. *)
Theorem chosen_column_becomes_default s l x t cookie :
  dynamic_columns s = Some 0 -> load (arrays s) 0 = Some l -> x ∉ l -> cookie DYNAMIC_COLUMNS_COOKIE = "" ->
  let s1 := state_of (autocomplete_selection_chip x t s) in
  let s2 := state_of (get_dynamic_columns_ cookie s1) in
  load (arrays s1) 0 = Some (l ++ [x]) /\ all_columns s2 = ALL_COLUMNS_START_VALUES ++ l ++ [x].
Proof using.
  intros Hp Hl Hx Hc. cbv zeta.
  assert (H1 : load (arrays (state_of (autocomplete_selection_chip x t s))) 0 = Some (l ++ [x])).
  { unfold autocomplete_selection_chip. rewrite (bind_run_silent _ _ _ _ _ (run_columns_at s 0 l Hp Hl)).
    rewrite (proj2 (includes_false l x) Hx). simpl when.
    set (s1 := with_arrays (update 0 (fun l => l ++ [x]) (arrays s)) s).
    rewrite (bind_run_silent _ _ s tt s1).
    2:{ unfold set_columns, get, bind, gets, deref, modify. by rewrite Hp. }
    unfold set_all_columns. rewrite (bind_run_silent _ _ s1 tt (with_columns (dynamic_columns s1) (all_columns s1 ++ [x]) s1) eq_refl).
    apply (safe_update_alerts_table (fun s => load (arrays s) 0 = Some (l ++ [x])) (fun _ => True)); try done.
    - intros s' s'' Ha _ _ _ _. by rewrite Ha.
    - simpl. by rewrite load_update_eq, Hl. }
  split; [exact H1|]. unfold get_dynamic_columns_. rewrite Hc. simpl negb. cbv iota.
  set (s1 := state_of (autocomplete_selection_chip x t s)) in *.
  rewrite (bind_run_silent _ _ s1 0 s1 eq_refl). unfold get. rewrite (bind_run_silent _ _ s1 s1 s1 eq_refl).
  by rewrite H1.
Qed.
End Alerts.

(** ** Witnesses *)

(** A clock without time zones, to evaluate the definitions with. *)
#[export] Instance plain_dates : Dates := {|
  set_back interval d amount :=
    match amount with
    | JNum n => Some (d - n * (if interval === DAYS then 86400000 else if interval === HOURS then 3600000 else 60000))%Z
    | _ => None
    end;
  toISOString t := pretty t;
  new_Date v := match v with JNum n => Some n | JNull => Some 0%Z | _ => None end;
|}.

#[export] Instance plain_dates_laws : DatesLaws plain_dates.
Proof.
  split. intros interval d n Hn. simpl. eexists. split; [reflexivity|].
  destruct (interval === DAYS), (interval === HOURS); lia.
Qed.

Definition no_cookies : string -> string := fun _ => "".

(** The page that was opened without cookies, with two rows. *)
Definition witness_page : SecurityAlertsComponent :=
  state_of (api_get_alerts_answer false
      (Next [[("event.kind", JStr "alert"); ("event.module", JStr "zeek"); ("source.ip", JStr "10.0.0.1"); ("count", JNum 3)];
             [("event.kind", JStr "alert"); ("event.module", JStr "endgame"); ("count", JNum 5)]])
    (state_of (ngOnInit no_cookies (100000000, 100000001)%Z constructor))).

Definition witness_form (s : SecurityAlertsComponent) : time_form :=
  match time_form_group s with
  | Some f => f
  | None => {| tf_values := set_dates None None
                 {| acknowledged := JNull; escalated := JNull; showClosed := JNull; timeInterval := JNull;
                    timeAmount := JNull; performEscalation := None; hiveForm := None; startDatetime := None;
                    endDatetime := None; absoluteTime := JNull |}; tf_object := 0 |}
  end.

Definition witness_row (i : nat) : update_alert := default (new_row []) (load (rows witness_page) i).

Example kibana_query_joins_witness :
  get_kibana_query_ (witness_row 1) witness_page =
  (Ret ("event.kind : " +:+ String "034"%char "alert" +:+ String "034"%char " and event.module : " +:+
        String "034"%char "endgame" +:+ String "034"%char ""), witness_page, []).
Proof.
  rewrite (kibana_query_joins (witness_row 1) (witness_form witness_page) witness_page eq_refl).
  reflexivity.
Defined.

Example kibana_link_is_escaped_witness : exists url,
  get_kibana_link_ (witness_row 1) witness_page = (Ret url, witness_page, []) /\ "'"%char ∈ characters url.
Proof.
  destruct (kibana_link_is_escaped (witness_row 1) witness_page (witness_form witness_page)
    (100000000 - 24 * 3600000) 100000001) as (url & H1 & _ & H2).
  - split; [reflexivity|]. split; reflexivity.
  - exists url. split; [exact H1 | exact (proj2 (H2 eq_refl))].
Defined.

Lemma witness_page_opened :
  opened witness_page DYNAMIC_COLUMNS_DEFAULT_VALUES (witness_form witness_page)
    (tf_values (witness_form witness_page)) true.
Proof. split; [by exists 0|]. split; [reflexivity|]. split; reflexivity. Qed.

Example update_asks_for_the_window_witness : exists a v,
  (a <= 200000000)%Z /\
  effects_of (update_alerts_table_ true (200000000, 200000001)%Z witness_page) =
    request true DYNAMIC_COLUMNS_DEFAULT_VALUES (tf_values (witness_form witness_page)) a 200000001
      :: cookies DYNAMIC_COLUMNS_DEFAULT_VALUES v true.
Proof.
  destruct (update_asks_for_the_window true (200000000, 200000001)%Z witness_page DYNAMIC_COLUMNS_DEFAULT_VALUES
    (witness_form witness_page) (tf_values (witness_form witness_page)) true witness_page_opened) as (_ & H & _).
  destruct (H HOURS 24%Z) as (a & _ & Ha & E & _).
  - discriminate.
  - split; [reflexivity|]. split; [reflexivity|]. split; [right; by left|]. split; [reflexivity | lia].
  - eexists a, _. split; [exact Ha | exact E].
Defined.

(** The page in the absolute mode. *)
Definition witness_absolute : SecurityAlertsComponent :=
  state_of (toggle_absolute_time_controls (100000000, 100000001)%Z (100000002, 100000003)%Z witness_page).

Example removal_repeats_the_escalation_witness :
  let values := JObj [("event_title", JStr "case")] in
  let s1 := state_of (escalate_dialog_closed 0 (Some {| valid := true; form_values := values |}) witness_absolute) in
  let s2 := state_of (api_modify_alert_answer ((5, 6)%Z, Next {| total := 3 |}) s1) in
  exists q w, effects_of (confirm_dialog_closed 1 REMOVE_API_SWITCH (Some CONFIRM_DIALOG_OPTION) s2) =
    [Subscribe (CRemoveAlerts q)] /\ sent_form q = Some w /\
    performEscalation w = Some true /\ hiveForm w = Some values.
Proof.
  apply (removal_repeats_the_escalation witness_absolute DYNAMIC_COLUMNS_DEFAULT_VALUES
    (witness_form witness_absolute) (tf_values (witness_form witness_absolute)) true
    (100000000 - 24 * 3600000) 100000001 0 1 (witness_row 0) (witness_row 1)); try reflexivity.
  - split; [by exists 0|]. split; [reflexivity|]. split; reflexivity.
  - discriminate.
Defined.

Example chosen_column_becomes_default_witness :
  load (arrays (state_of (autocomplete_selection_chip "host.name" (5, 6)%Z witness_page))) 0 =
  Some (DYNAMIC_COLUMNS_DEFAULT_VALUES ++ ["host.name"]).
Proof.
  destruct (chosen_column_becomes_default witness_page DYNAMIC_COLUMNS_DEFAULT_VALUES "host.name" (5, 6)%Z no_cookies)
    as [H _].
  - reflexivity.
  - reflexivity.
  - apply (proj1 (bool_decide_eq_true ("host.name" ∉ DYNAMIC_COLUMNS_DEFAULT_VALUES))). vm_compute. reflexivity.
  - reflexivity.
  - exact H.
Defined.

Abbreviation Alerts_ := (@SecurityAlerts bits_json plain_dates).

Example columns_agree_witness : exists tr w l,
  trace (K := Alerts_) fair tr w /\ dynamic_columns (component w) = Some 0 /\
  all_columns (component w) = ALL_COLUMNS_START_VALUES ++ l /\ NoDup (all_columns (component w)).
Proof.
  pose proof (trace_start (K := Alerts_) fair) as T.
  apply (trace_event _ _ _ (NgOnInit no_cookies (1, 2)%Z)) in T; [|intros v H; vm_compute in H; discriminate H].
  apply (trace_event _ _ _ (AutocompleteSelectionChip "host.name" (3, 4)%Z)) in T; [|reflexivity].
  apply (trace_event _ _ _ (RemoveAlertChip "event.kind" (5, 6)%Z)) in T; [|exact I].
  destruct (columns_agree _ _ 0 T) as (l & _ & H1 & H2); [reflexivity|].
  match type of T with trace _ ?tr ?w => exists tr, w, l end.
  split; [exact T|]. split; [reflexivity|]. split; [exact H1 | exact H2].
Defined.

Example filters_exclude_each_other_witness : exists tr w f,
  trace (K := Alerts_) fair_form tr w /\ time_form_group (component w) = Some f /\
  js_truthy (escalated (tf_values f)) = true /\
  js_truthy (acknowledged (tf_values f)) && js_truthy (escalated (tf_values f)) = false.
Proof.
  pose proof (trace_start (K := Alerts_) fair_form) as T.
  apply (trace_event _ _ _ (NgOnInit no_cookies (1, 2)%Z)) in T; [|intros v H; vm_compute in H; discriminate H].
  apply (trace_event _ _ _ (FilterAcknowledged true (3, 4)%Z)) in T; [|exact I].
  apply (trace_event _ _ _ (FilterEscalated true (5, 6)%Z)) in T; [|exact I].
  match type of T with trace _ ?tr ?w =>
    destruct (time_form_group (component w)) as [f|] eqn:E; [|vm_compute in E; discriminate E]; exists tr, w, f end.
  split; [exact T|]. split; [exact E|].
  pose proof (filters_exclude_each_other _ _ f T E) as H.
  split; [|exact H]. vm_compute in E. injection E as <-. reflexivity.
Defined.

(** The user asks to remove a row and confirms. *)
Example alert_changes_need_confirmation_witness : exists tr w tr1 es u d,
  trace (K := Alerts_) anything tr w /\
  tr = tr1 ++ [(Answered (DConfirm 0 d REMOVE_API_SWITCH) (Some CONFIRM_DIALOG_OPTION), es)] /\
  Subscribe (CRemoveAlerts u) ∈ es /\ earlier (Event (RemoveAlertsConfirmDialog 0)) tr1.
Proof.
  pose proof (trace_start (K := Alerts_) anything) as T.
  apply (trace_event _ _ _ (NgOnInit no_cookies (1, 2)%Z)) in T; [|exact I].
  match type of T with trace _ _ ?w =>
    assert (P : exists c, pending w = [CGetAlerts false c; CGetFields; CGetPortalLinks])
      by (eexists; vm_compute; reflexivity) end.
  destruct P as [c P].
  apply (trace_answer _ _ _ [] (CGetAlerts false c) [CGetFields; CGetPortalLinks] (Next [[("count", JNum 3)]])) in T;
    [|exact I|exact P].
  apply (trace_event _ _ _ (RemoveAlertsConfirmDialog 0)) in T; [|exact I].
  match type of T with trace _ _ ?w =>
    assert (Q : exists d, pending w = [CGetFields; CGetPortalLinks; DConfirm 0 d REMOVE_API_SWITCH])
      by (eexists; vm_compute; reflexivity) end.
  destruct Q as [d Q].
  apply (trace_answer _ _ _ [CGetFields; CGetPortalLinks] (DConfirm 0 d REMOVE_API_SWITCH) []
    (Some CONFIRM_DIALOG_OPTION)) in T; [|exact I|exact Q].
  match type of T with trace _ (?tr1 ++ [(_, ?es)]) ?w =>
    assert (Hin : exists u, Subscribe (CRemoveAlerts u) ∈ es) by (eexists; vm_compute; left);
    destruct Hin as [u Hin];
    destruct (proj1 (alert_changes_need_confirmation _ _ tr1 _ es [] T eq_refl) u Hin) as (row & d' & Hl & He);
    exists (tr1 ++ [(Answered (DConfirm 0 d REMOVE_API_SWITCH) (Some CONFIRM_DIALOG_OPTION), es)]), w, tr1, es, u, d
  end.
  injection Hl as <- _ || (inversion Hl; subst).
  split; [exact T|]. split; [reflexivity|]. split; [exact Hin | exact He].
Defined.
