(* ===== verification/Notifications.v ===== *)
(** modules/notifications: the bell of the navigation bar
    (notifications.component.ts), the dialog it opens
    (components/notifications-dialog.component.ts) and the lists they share.

    The buttons are objects of the module constant NOTIFICATION_BUTTON_LIST: both
    components copy the array but not the objects, so they write the same lists.
    A dialog has a reference of its own; its handlers run while it is open. *)
From S2P Require Import Prelude Handler JsValue Runtime Data Api Services.

(** ** Data *)

(** interfaces/notification.interface.ts *)
Record NotificationInterface := {
  nti__id : option string;
  nti_role : string;
  nti_message : string;
  nti_status : string;
  nti_exception : string;
  nti_timestamp : option string;
  nti_displayTime : option string;
  nti_action : option string;
  nti_application : string;
  nti_data : option (list (string * StatusClass));
}.

(** classes/notification-data.class.ts: the statuses by their keys. *)
Definition NotificationDataClass : Type := list (string * StatusClass).

Definition new_NotificationDataClass (d : list (string * StatusClass)) : NotificationDataClass :=
  (fun x : string * StatusClass => (fst x, snd x)) <$> d.

(** classes/notification.class.ts *)
Record NotificationClass := {
  nt__id : option string;
  nt_role : string;
  nt_message : string;
  nt_status : string;
  nt_exception : string;
  timestamp : option string;
  displayTime : option string;
  nt_action : option string;
  nt_application : string;
  nt_data : option NotificationDataClass;
}.

Definition new_NotificationClass (n : NotificationInterface) : NotificationClass :=
  {| nt__id := nti__id n; nt_role := nti_role n; nt_message := nti_message n; nt_status := nti_status n;
     nt_exception := nti_exception n; timestamp := nti_timestamp n; displayTime := nti_displayTime n;
     nt_action := nti_action n; nt_application := nti_application n;
     nt_data := new_NotificationDataClass <$> nti_data n |}.

Definition set_displayTime (t : option string) (n : NotificationClass) : NotificationClass :=
  {| nt__id := nt__id n; nt_role := nt_role n; nt_message := nt_message n; nt_status := nt_status n;
     nt_exception := nt_exception n; timestamp := timestamp n; displayTime := t;
     nt_action := nt_action n; nt_application := nt_application n; nt_data := nt_data n |}.

(** interface/notification-button.interface.ts: [notifications] are references. *)
Record NotificationButtonInterface := {
  nb_name : string;
  selected : bool;
  nb_title : string;
  nb_role : string;
  notifications : list loc;
  nb_icon : string;
}.

Definition set_notifications (l : list loc) (b : NotificationButtonInterface) :=
  {| nb_name := nb_name b; selected := selected b; nb_title := nb_title b; nb_role := nb_role b;
     notifications := l; nb_icon := nb_icon b |}.
Definition set_selected (v : bool) (b : NotificationButtonInterface) :=
  {| nb_name := nb_name b; selected := v; nb_title := nb_title b; nb_role := nb_role b;
     notifications := notifications b; nb_icon := nb_icon b |}.

Definition button (name : string) (sel : bool) (title role icon : string) : NotificationButtonInterface :=
  {| nb_name := name; selected := sel; nb_title := title; nb_role := role; notifications := [];
     nb_icon := icon |}.

Definition NOTIFICATION_BUTTON_LIST : list NotificationButtonInterface :=
  [button "All" true "All Messages" "all" "dashboard";
   button "Catalog" false "Catalog Messages" "catalog" "apps";
   button "Settings" false "Settings Messages" "settings" "layers";
   button "Nodes" false "Nodes Messages" "nodes" "storage";
   button "RuleSync" false "RuleSync Messages" "rulesync" "swap_horiz";
   button "ES-Scale" false "ES-Scale Messages" "scale" "tune";
   button "Agent" false "Agent Messages" "agent" "desktop_windows";
   button "PCAP" false "PCAP Replay" "pcap" "network_check";
   button "Cold Log Ingest" false "Cold Log Ingest" "process_logs" "archive";
   button "Tools" false "Tools Messages" "tools" "build";
   button "Index Management" false "Index Management Messages" "curator" "timeline"].

Definition NUMBER_OF_NOTIFICATION_ITEMS : Z := 30.
Definition NOTIFICATION_DIALOG_TITLE : string := "Notifications".
Definition PRIMARY_BUTTON_COLOR : string := "primary".
Definition ACCENT_BUTTON_COLOR : string := "accent".
Definition DELETE_ALL_NOTIFICATIONS_CONFIRM_DIALOG : ConfirmDialogMatDialogDataInterface :=
  {| title := "Delete All Notifications";
     message := "Are you sure you want to delete all notifications?";
     option1 := CANCEL_DIALOG_OPTION; option2 := CONFIRM_DIALOG_OPTION; message_double_confirm := None |}.
Definition MAT_SNACKBAR_CONFIGURATION_3000_DUR : MatSnackbarConfigurationClass :=
  {| timeInMS := Some 3000%Z; actionLabel := Some "Close"; action := None; panelClass := None |}.

(** ** The service *)

Definition get_notifications (offset : Z) (role : string)
    : service unit (list NotificationInterface) (list NotificationClass) :=
  Service GET ("/api/notifications/" +:+ pretty offset +:+ "/" +:+ role) tt "get notifications"
    (fun response => Ret (new_NotificationClass <$> response)).

(** A missing identifier is printed in the path. *)
Definition delete_notification_request (id : option string) : service unit unit unit :=
  Service DELETE ("/api/notifications/" +:+ default "undefined" id) tt "delete notification" copied.

Definition delete_all_notifications : service unit unit unit :=
  Service DELETE "/api/notifications" tt "delete all notifications" copied.

(** ** Time *)

(** What the age of a notification reads as.  [new Date(date.toUTCString())]
    keeps the whole seconds of the clock.  The code divides milliseconds by 1000
    and by the length of the unit in floating point; for dates of the calendar
    (up to 100,000 years from now) comparisons and floors are those of the exact
    quotients. *)
Definition display_time (clock : Z) (posted : option Z) : string :=
  match posted with
  | None => "??"
  | Some d2 =>
      let difference := (clock / 1000 * 1000 - d2)%Z in
      let ago n unit := pretty (difference / (n * 1000))%Z +:+ unit in
      if (difference <? 60000)%Z then "Now"
      else if (difference <? 3600000)%Z then ago 60%Z " minute(s) ago"
      else if (difference <? 86400000)%Z then ago 3600%Z " hour(s) ago"
      else if (difference <? 604800000)%Z then ago 86400%Z " day(s) ago"
      else ago 604800%Z " week(s) ago"
  end.

(** ** State *)

(** The part of a scrolled element the dialog reads. *)
Record scroll_target := {
  offsetHeight : option Z;
  scrollTop : option Z;
  scrollHeight : option Z;
}.

(** Subscriptions; those of a dialog carry its reference. *)
Inductive call : Type :=
| CBellNotifications
| DNotifications (dialog : loc)
| CNotifications (dialog : loc) (offset : Z) (role : string) (scrolled : bool)
| CDeleteNotification (dialog : loc) (id : option string)
| CDeleteAll (dialog : loc)
| DDeleteAll (dialog : loc) (data : ConfirmDialogMatDialogDataInterface).

(** The answer to a request made by scrolling finds the element with its present
    scroll position, if it has one. *)
Definition Ans (c : call) : Type :=
  match c with
  | CBellNotifications => answer (list NotificationClass)
  | DNotifications _ => unit
  | CNotifications _ _ _ _ => option Z * answer (list NotificationClass)
  | CDeleteNotification _ _ | CDeleteAll _ => answer unit
  | DDeleteAll _ _ => option string
  end.

Inductive page : Type := SetScrollTop (v : Z).

Record NotificationsComponent := {
  new_notifications : list loc;
  bell_button_list : list loc;
  mat_dialog_ref_ : option loc;
}.

Record NotificationsDialogComponent := {
  dialog_title : string;
  selected_notification_button : option loc;
  notification_button_list : list loc;
  controller_maintainer : bool;
  offset_ : Z;
  end_of_scroll_ : bool;
  button_select_gate_active_ : bool;
}.

(** [buttons] holds the constant, [items] the notifications received; [dialogs]
    are the open dialogs in the order they were opened, [opened] counts them;
    [reads] counts the readings of the clock. *)
Record App := {
  bell : NotificationsComponent;
  dialogs : list (loc * NotificationsDialogComponent);
  opened : loc;
  buttons : store NotificationButtonInterface;
  items : store NotificationClass;
  reads : nat;
}.

Definition with_bell v (s : App) :=
  {| bell := v; dialogs := dialogs s; opened := opened s; buttons := buttons s; items := items s; reads := reads s |}.
Definition with_dialogs v n (s : App) :=
  {| bell := bell s; dialogs := v; opened := n; buttons := buttons s; items := items s; reads := reads s |}.
Definition with_buttons v (s : App) :=
  {| bell := bell s; dialogs := dialogs s; opened := opened s; buttons := v; items := items s; reads := reads s |}.
Definition with_items v (s : App) :=
  {| bell := bell s; dialogs := dialogs s; opened := opened s; buttons := buttons s; items := v; reads := reads s |}.
Definition with_reads v (s : App) :=
  {| bell := bell s; dialogs := dialogs s; opened := opened s; buttons := buttons s; items := items s; reads := v |}.

Definition set_new_notifications v (b : NotificationsComponent) :=
  {| new_notifications := v; bell_button_list := bell_button_list b; mat_dialog_ref_ := mat_dialog_ref_ b |}.
Definition set_bell_button_list v (b : NotificationsComponent) :=
  {| new_notifications := new_notifications b; bell_button_list := v; mat_dialog_ref_ := mat_dialog_ref_ b |}.
Definition set_mat_dialog_ref v (b : NotificationsComponent) :=
  {| new_notifications := new_notifications b; bell_button_list := bell_button_list b; mat_dialog_ref_ := v |}.

Definition set_scrolling o e g (d : NotificationsDialogComponent) :=
  {| dialog_title := dialog_title d; selected_notification_button := selected_notification_button d;
     notification_button_list := notification_button_list d; controller_maintainer := controller_maintainer d;
     offset_ := o; end_of_scroll_ := e; button_select_gate_active_ := g |}.
Definition set_selected_button v (d : NotificationsDialogComponent) :=
  {| dialog_title := dialog_title d; selected_notification_button := v;
     notification_button_list := notification_button_list d; controller_maintainer := controller_maintainer d;
     offset_ := offset_ d; end_of_scroll_ := end_of_scroll_ d;
     button_select_gate_active_ := button_select_gate_active_ d |}.

Abbreviation M := (handler App (effect call page)).

(** [NOTIFICATION_BUTTON_LIST.map((nb) => nb)]: the same objects. *)
Definition constant_buttons : list loc := seq 0 (length NOTIFICATION_BUTTON_LIST).

Definition constructor : App :=
  {| bell := {| new_notifications := []; bell_button_list := constant_buttons; mat_dialog_ref_ := None |};
     dialogs := []; opened := 0;
     buttons := snd (alloc_list NOTIFICATION_BUTTON_LIST store_empty); items := store_empty; reads := 0 |}.

Section Notifications.
(** The successive readings of the clock; the parser of dates of the language,
    which follows the standard only on its own formats; whether the user is a
    controller maintainer. *)
Variables (clock : nat -> Z) (parse_date : string -> option Z) (isControllerMaintainer : bool).

Definition get : M App := gets (fun s => s).
Definition modify_bell (f : NotificationsComponent -> NotificationsComponent) : M unit :=
  modify (fun s => with_bell (f (bell s)) s).
Definition modify_button (p : loc) (f : NotificationButtonInterface -> NotificationButtonInterface) : M unit :=
  modify (fun s => with_buttons (update p f (buttons s)) s).
Definition button_at (p : loc) : M NotificationButtonInterface := s <- get ;; deref (load (buttons s) p).
Definition item_at (p : loc) : M NotificationClass := s <- get ;; deref (load (items s) p).
Definition new_item (n : NotificationClass) : M loc :=
  s <- get ;; (let '(p, h) := alloc n (items s) in modify (with_items h) ;;; ret p).
Fixpoint new_items (l : list NotificationClass) : M (list loc) :=
  match l with
  | [] => ret []
  | n :: r => p <- new_item n ;; (ps <- new_items r ;; ret (p :: ps))
  end.

(** [new Date()] *)
Definition read_clock : M Z := s <- get ;; (modify (with_reads (S (reads s))) ;;; ret (clock (reads s))).

Fixpoint find_dialog (d : loc) (l : list (loc * NotificationsDialogComponent)) : option NotificationsDialogComponent :=
  match l with
  | [] => None
  | (e, c) :: r => if Nat.eqb e d then Some c else find_dialog d r
  end.
Definition change_dialog (d : loc) (f : NotificationsDialogComponent -> NotificationsDialogComponent)
    (l : list (loc * NotificationsDialogComponent)) : list (loc * NotificationsDialogComponent) :=
  (fun x : loc * NotificationsDialogComponent => if Nat.eqb (fst x) d then (fst x, f (snd x)) else x) <$> l.

Definition dialog (d : loc) : M NotificationsDialogComponent := s <- get ;; deref (find_dialog d (dialogs s)).

(** [this.notification_button_list] of the bell and of a dialog *)
Definition bell_lists : M (list loc) := gets (fun s => bell_button_list (bell s)).
Definition dialog_lists (d : loc) : M (list loc) := c <- dialog d ;; ret (notification_button_list c).

Definition modify_dialog (d : loc) (f : NotificationsDialogComponent -> NotificationsDialogComponent) : M unit :=
  modify (fun s => with_dialogs (change_dialog d f (dialogs s)) (opened s) s).

(** The subscriptions of a dialog end with it. *)
Definition while_open (d : loc) (m : M unit) : M unit :=
  s <- get ;; (if notUndefNull (find_dialog d (dialogs s)) then m else ret tt).

(** ** classes/notifications-static-methods.class.ts *)

Definition set_notification_display_time (notification : loc) : M unit :=
  date <- read_clock ;;
  n <- item_at notification ;;
  (let d2 := parse_date (default "undefined" (timestamp n) +:+ "Z") in
   modify (fun s => with_items (update notification (set_displayTime (Some (display_time date d2))) (items s)) s)).

Definition add_notification_to_button_list (notification : loc) (button_list : list loc) (from_websocket : bool) : M unit :=
  for_each button_list (fun nb =>
    set_notification_display_time notification ;;;
    b <- button_at nb ;;
    n <- item_at notification ;;
    when ((nb_role b === nt_role n) || (nb_role b === "all"))
      (if from_websocket then modify_button nb (fun b => set_notifications (notification :: notifications b) b)
       else modify_button nb (fun b => set_notifications (notifications b ++ [notification]) b))).

(** ** notifications.component.ts *)

Definition bell_api_get_notifications_ : M unit := emit (Subscribe CBellNotifications).

Definition bell_ngOnInit : M unit := bell_api_get_notifications_.

(** The response arrives as new objects. *)
Definition bell_get_notifications_answer (a : answer (list NotificationClass)) : M unit :=
  match a with
  | Next response =>
      ps <- new_items response ;;
      for_each ps (fun ni => l <- bell_lists ;; add_notification_to_button_list ni l false)
  | Error e => on_error "getting all notifications" e
  end.

(** The socket's message to the bell: ignored while it holds a dialog. *)
Definition bell_onbroadcast (n : NotificationInterface) : M unit :=
  response <- new_item (new_NotificationClass n) ;;
  s <- get ;;
  when (negb (notUndefNull (mat_dialog_ref_ (bell s))))
    (modify_bell (fun b => set_new_notifications (new_notifications b ++ [response]) b) ;;;
     l <- bell_lists ;; add_notification_to_button_list response l true).

(** ** components/notifications-dialog.component.ts *)

Definition check_title_defined (title : option string) : bool := notUndefNull title.

Definition get_selected_button_color (d : loc) (notification_button : loc) : M string :=
  c <- dialog d ;;
  b <- button_at notification_button ;;
  q <- deref (selected_notification_button c) ;;
  sel <- button_at q ;;
  ret (if nb_name b === nb_name sel then ACCENT_BUTTON_COLOR else PRIMARY_BUTTON_COLOR).

Definition api_get_notifications_ (d : loc) (scroll_element : bool) : M unit :=
  c <- dialog d ;;
  q <- deref (selected_notification_button c) ;;
  b <- button_at q ;;
  emit (Subscribe (CNotifications d (offset_ c) (nb_role b) scroll_element)).

(** [scroll] is the scroll position of the element, when the request had an
    element and the element has one. *)
Definition api_get_notifications_answer (d : loc) (scrolled : bool)
    (x : option Z * answer (list NotificationClass)) : M unit :=
  let add ps := for_each ps (fun ni => l <- dialog_lists d ;; add_notification_to_button_list ni l false) in
  match snd x with
  | Next response =>
      ps <- new_items response ;;
      match (if scrolled then fst x else None) with
      | Some old_scroll_top =>
          emit (Page (SetScrollTop (old_scroll_top - 100))) ;;;
          add ps ;;;
          emit (Page (SetScrollTop old_scroll_top)) ;;;
          modify_dialog d (fun c => set_scrolling (offset_ c) (Nat.eqb (length response) 0)
                                      (button_select_gate_active_ c) c)
      | None => add ps
      end
  | Error e => on_error "getting all notifications" e
  end.

(** [button_select]: empties every list, not only the one that is shown. *)
Definition button_select (d : loc) (notification_button : loc) : M unit :=
  modify_dialog d (set_scrolling 0 false true) ;;;
  l <- dialog_lists d ;;
  for_each l (fun nb =>
    modify_button nb (set_notifications []) ;;;
    (if Nat.eqb nb notification_button then
       modify_button nb (set_selected true) ;;; modify_dialog d (set_selected_button (Some nb))
     else modify_button nb (set_selected false))) ;;;
  api_get_notifications_ d false.

(** The window's scroll event comes without an argument, the element's with the
    event. *)
Definition host_listener_on_scroll (d : loc) (event : option (option scroll_target)) : M unit :=
  c <- dialog d ;;
  if button_select_gate_active_ c then
    modify_dialog d (fun c => set_scrolling (offset_ c) (end_of_scroll_ c) false c)
  else
    when (negb (end_of_scroll_ c))
      match event with
      | Some (Some {| offsetHeight := Some h; scrollTop := Some t; scrollHeight := Some total |}) =>
          when (total <=? h + t)%Z
            (modify_dialog d (fun c => set_scrolling (offset_ c + NUMBER_OF_NOTIFICATION_ITEMS) (end_of_scroll_ c)
                                         (button_select_gate_active_ c) c) ;;;
             api_get_notifications_ d true)
      | _ => ret tt
      end.

(** The first element of the list; without one it is undefined and the request
    reads a property of undefined. *)
Definition dialog_ngOnInit (d : loc) : M unit :=
  c <- dialog d ;;
  match notification_button_list c with
  | first :: _ => button_select d first
  | [] => throw "TypeError"
  end.

Definition delete_notification (d : loc) (notification : loc) : M unit :=
  n <- item_at notification ;; emit (Subscribe (CDeleteNotification d (nt__id n))).

Definition other_id (id : option string) (n : NotificationClass) : bool := negb (bool_decide (nt__id n = id)).

(** The identifier of a notification never changes, so the callback's reading is
    that of the request. *)
Definition api_delete_notification_answer (d : loc) (id : option string) (a : answer unit) : M unit :=
  match a with
  | Next _ =>
      l <- dialog_lists d ;;
      for_each l (fun nb =>
        s <- get ;;
        modify_button nb (fun b => set_notifications
          (List.filter (fun p => match load (items s) p with Some n => other_id id n | None => true end)
             (notifications b)) b)) ;;;
      generate_return_success_snackbar_message "deleted notification" (Some MAT_SNACKBAR_CONFIGURATION_3000_DUR)
  | Error e => on_error "deleting notification" e
  end.

Definition open_delete_all_notification_dialog_window (d : loc) : M unit :=
  emit (Subscribe (DDeleteAll d DELETE_ALL_NOTIFICATIONS_CONFIRM_DIALOG)).

Definition api_delete_all_notifications_ (d : loc) : M unit := emit (Subscribe (CDeleteAll d)).

Definition delete_all_closed (d : loc) (response : option string) : M unit :=
  when (response ?=== option2 DELETE_ALL_NOTIFICATIONS_CONFIRM_DIALOG) (api_delete_all_notifications_ d).

Definition api_delete_all_notifications_answer (d : loc) (a : answer unit) : M unit :=
  match a with
  | Next _ =>
      l <- dialog_lists d ;;
      for_each l (fun nb => modify_button nb (set_notifications [])) ;;;
      generate_return_success_snackbar_message "deleted all notifications" (Some MAT_SNACKBAR_CONFIGURATION_3000_DUR)
  | Error e => on_error "deleting all notifications" e
  end.

Definition dialog_onbroadcast (d : loc) (n : NotificationInterface) : M unit :=
  response <- new_item (new_NotificationClass n) ;;
  l <- dialog_lists d ;; add_notification_to_button_list response l true.

(** ** The bell opens the dialog *)

Definition new_dialog (title : string) (button_list : list loc) : NotificationsDialogComponent :=
  {| dialog_title := title; selected_notification_button := None; notification_button_list := button_list;
     controller_maintainer := isControllerMaintainer; offset_ := 0; end_of_scroll_ := false;
     button_select_gate_active_ := false |}.

(** The dialog is built by [open]; the change detection that ends the turn
    initialises it. *)
Definition open_notification_dialog_window : M unit :=
  modify_bell (set_new_notifications []) ;;;
  s <- get ;;
  modify (with_dialogs (dialogs s ++ [(opened s, new_dialog NOTIFICATION_DIALOG_TITLE (bell_button_list (bell s)))])
            (S (opened s))) ;;;
  modify_bell (set_mat_dialog_ref (Some (opened s))) ;;;
  emit (Subscribe (DNotifications (opened s))) ;;;
  dialog_ngOnInit (opened s).

(** The dialog is destroyed before its [afterClosed] emits. *)
Definition dialog_closed (d : loc) : M unit :=
  modify (fun s => with_dialogs (List.filter (fun x => negb (Nat.eqb (fst x) d)) (dialogs s)) (opened s) s) ;;;
  modify_bell (set_bell_button_list constant_buttons) ;;;
  bell_api_get_notifications_ ;;;
  modify_bell (set_mat_dialog_ref None).

(** ** The component *)

Inductive event : Type :=
| NgOnInit
| OpenDialog
| Broadcast (n : NotificationInterface)
| Scroll (d : loc) (event : option (option scroll_target))
| ButtonSelect (d notification_button : loc)
| DeleteNotification (d notification : loc)
| DeleteAll (d : loc).

Definition on_event (e : event) : M unit :=
  match e with
  | NgOnInit => bell_ngOnInit
  | OpenDialog => open_notification_dialog_window
  | Broadcast n =>
      bell_onbroadcast n ;;;
      s <- get ;; for_each (fst <$> dialogs s) (fun d => dialog_onbroadcast d n)
  | Scroll d event => while_open d (host_listener_on_scroll d event)
  | ButtonSelect d nb => while_open d (button_select d nb)
  | DeleteNotification d n => while_open d (delete_notification d n)
  | DeleteAll d => while_open d (open_delete_all_notification_dialog_window d)
  end.

Definition on_answer (c : call) : Ans c -> M unit :=
  match c with
  | CBellNotifications => bell_get_notifications_answer
  | DNotifications d => fun _ => dialog_closed d
  | CNotifications d _ _ scrolled => fun x => while_open d (api_get_notifications_answer d scrolled x)
  | CDeleteNotification d id => fun a => while_open d (api_delete_notification_answer d id a)
  | CDeleteAll d => fun a => while_open d (api_delete_all_notifications_answer d a)
  | DDeleteAll d _ => fun response => while_open d (delete_all_closed d response)
  end.

#[export] Instance NotificationCentre : Component App call page event Ans := {|
  initial := constructor;
  Runtime.on_event := on_event;
  Runtime.on_answer := on_answer;
|}.
End Notifications.

(** ** The age of a notification *)

Definition units : list (Z * Z * string) :=
  [(60000%Z, 3600000%Z, " minute(s) ago"); (3600000%Z, 86400000%Z, " hour(s) ago");
   (86400000%Z, 604800000%Z, " day(s) ago")].

(** The age shown for a notification is right and never zero.  It is unknown
    exactly without a valid time stamp, "Now" exactly below a minute (the future
    included), and else the number of whole units that have passed, at least one
    and fewer than make the next unit; only weeks are not bounded. *)
Theorem display_time_bounds clock d :
  let age := (clock / 1000 * 1000 - d)%Z in
  display_time clock None = "??" /\
  ((age < 60000)%Z -> display_time clock (Some d) = "Now") /\
  ((60000 <= age)%Z -> exists n unit text,
     display_time clock (Some d) = pretty n +:+ text /\ (1 <= n)%Z /\ (n * unit <= age < (n + 1) * unit)%Z /\
     (unit = 604800000%Z /\ text = " week(s) ago" \/
      exists limit, (unit, limit, text) ∈ units /\ (unit <= age < limit)%Z)).
Proof.
  cbv zeta. set (age := (clock / 1000 * 1000 - d)%Z). split; [done|]. split.
  - intros H. unfold display_time. fold age. by rewrite (proj2 (Z.ltb_lt age 60000) H).
  - intros H. unfold display_time. fold age. rewrite (proj2 (Z.ltb_ge age 60000) H).
    assert (Hdiv : forall u, (0 < u <= age)%Z -> (1 <= age / u /\ age / u * u <= age < (age / u + 1) * u)%Z).
    { intros u Hu. pose proof (Z.div_le_lower_bound age u 1 ltac:(lia) ltac:(lia)).
      pose proof (Z.mul_div_le age u ltac:(lia)). pose proof (Z.mul_succ_div_gt age u ltac:(lia)). lia. }
    assert (Hbelow : forall limit unit text, (unit, limit, text) ∈ units -> (unit <= age < limit)%Z -> (0 < unit)%Z ->
      exists n unit' text', pretty (age / unit)%Z +:+ text = pretty n +:+ text' /\ (1 <= n)%Z /\
        (n * unit' <= age < (n + 1) * unit')%Z /\
        (unit' = 604800000%Z /\ text' = " week(s) ago" \/
         exists limit, (unit', limit, text') ∈ units /\ (unit' <= age < limit)%Z)).
    { intros limit unit text Hin Hage Hpos. exists (age / unit)%Z, unit, text.
      destruct (Hdiv unit ltac:(lia)) as [H1 H2]. split_and!; try done; try lia. right. by exists limit. }
    destruct (Z.ltb_spec age 3600000); [apply (Hbelow 3600000%Z); [left | lia..]|].
    destruct (Z.ltb_spec age 86400000); [apply (Hbelow 86400000%Z); [right; left | lia..]|].
    destruct (Z.ltb_spec age 604800000); [apply (Hbelow 604800000%Z); [right; right; left | lia..]|].
    exists (age / 604800000)%Z, 604800000%Z, " week(s) ago". change (604800 * 1000)%Z with 604800000%Z.
    destruct (Hdiv 604800000%Z ltac:(lia)) as [H4 H5]. split_and!; try done; try lia. by left.
Qed.

Section Feed.
Implicit Types (s : App) (n : NotificationClass) (p q : loc).

(** ** What the lists show

    The abstract notification centre: one list of notifications, which windows
    are open, and whether the bell ignores messages. *)

(** A notification without the text of its age. *)
Definition content n : NotificationClass := set_displayTime None n.

Definition in_category (role : string) n : bool := (role === nt_role n) || (role === "all").

Record feed := {
  entries : list NotificationClass;
  windows : list loc;
  count : loc;
  muted : bool;
}.

Definition with_entries (f : list NotificationClass -> list NotificationClass) (a : feed) : feed :=
  {| entries := f (entries a); windows := windows a; count := count a; muted := muted a |}.

Definition received (a : answer (list NotificationClass)) : list NotificationClass :=
  match a with Next response => content <$> response | Error _ => [] end.

(** [in_window d a f]: only an open window changes the list. *)
Definition in_window (d : loc) (a : feed) (f : list NotificationClass -> list NotificationClass) : feed :=
  if bool_decide (d ∈ windows a) then with_entries f a else a.

Definition spec (a : feed) (l : label event Ans) : feed :=
  match l with
  | Event OpenDialog =>
      {| entries := []; windows := windows a ++ [count a]; count := S (count a); muted := true |}
  | Event (Broadcast n) =>
      with_entries (fun es => replicate (length (windows a) + if muted a then 0 else 1)
                                (content (new_NotificationClass n)) ++ es) a
  | Event (ButtonSelect d _) => in_window d a (fun _ => [])
  | Event _ => a
  | Answered c x =>
      (match c return Ans c -> feed with
       | CBellNotifications => fun x => with_entries (fun es => es ++ received x) a
       | DNotifications d => fun _ =>
           {| entries := entries a; windows := List.filter (fun e => negb (Nat.eqb e d)) (windows a);
              count := count a; muted := false |}
       | CNotifications d _ _ _ => fun x => in_window d a (fun es => es ++ received (snd x))
       | CDeleteNotification d id => fun x =>
           match x with Next _ => in_window d a (List.filter (other_id id)) | Error _ => a end
       | CDeleteAll d => fun x => match x with Next _ => in_window d a (fun _ => []) | Error _ => a end
       | DDeleteAll _ _ => fun _ => a
       end) x
  end.

(** ** The relation *)

Definition loaded s p n : Prop := exists m, load (items s) p = Some m /\ content m = n.
Definition showing s (ps : list loc) (ns : list NotificationClass) : Prop := Forall2 (loaded s) ps ns.
Definition has s p (role : string) ns : Prop :=
  exists b, load (buttons s) p = Some b /\ nb_role b = role /\ showing s (notifications b) ns.
Definition role_of p : string := default "" ((nb_role <$> NOTIFICATION_BUTTON_LIST) !! p).

(** Every button lists the notifications of its category in their order. *)
Definition holds s (es : list NotificationClass) : Prop :=
  forall p, p ∈ constant_buttons -> has s p (role_of p) (List.filter (in_category (role_of p)) es).

Definition lists_of s : list (loc * list loc) :=
  (fun x : loc * NotificationsDialogComponent => (fst x, notification_button_list (snd x))) <$> dialogs s.

(** What the handlers of one turn keep while they change the lists. *)
Definition frame s s' : Prop :=
  bell s' = bell s /\ opened s' = opened s /\ lists_of s' = lists_of s /\
  (store_wf (items s) -> store_wf (items s')) /\ (forall p n, loaded s p n -> loaded s' p n).

Definition shows s (a : feed) : Prop :=
  holds s (entries a) /\ store_wf (items s) /\
  lists_of s = (fun d => (d, constant_buttons)) <$> windows a /\ opened s = count a /\
  notUndefNull (mat_dialog_ref_ (bell s)) = muted a /\ bell_button_list (bell s) = constant_buttons.

#[local] Instance frame_preorder : PreOrder frame.
Proof.
  split; [intros s; unfold frame; tauto|].
  intros s1 s2 s3 (? & ? & ? & ? & ?) (? & ? & ? & ? & ?). unfold frame. split_and!; try congruence; auto.
Qed.

Lemma has_frame s s' p role ns :
  frame s s' -> load (buttons s') p = load (buttons s) p -> has s p role ns -> has s' p role ns.
Proof.
  intros (_ & _ & _ & _ & Hl) Hb (b & Hp & Hr & Hs). exists b. rewrite Hb. split_and!; [done..|].
  eapply Forall2_impl; [exact Hs|]. auto.
Qed.

Lemma shows_frame s s' a f :
  frame s s' -> shows s a -> holds s' (f (entries a)) -> shows s' (with_entries f a).
Proof.
  intros (H1 & H2 & H3 & H4 & _) (_ & G2 & G3 & G4 & G5 & G6) Hh. unfold shows. simpl.
  rewrite H1, H2, H3. split_and!; auto.
Qed.

(** A loop over the buttons, one button at a time. *)
Lemma each_button (Inv : App -> Prop) (f : loc -> M unit) (H : string -> list NotificationClass -> list NotificationClass) :
  (forall s s', frame s s' -> Inv s -> Inv s') ->
  (forall s p role ns, Inv s -> has s p role ns -> exists s', f p s = (Ret tt, s', []) /\ frame s s' /\
     has s' p role (H role ns) /\ forall q, q <> p -> load (buttons s') q = load (buttons s) q) ->
  forall l (V : loc -> list NotificationClass) (R : loc -> string) s, NoDup l -> Inv s -> (forall p, p ∈ l -> has s p (R p) (V p)) ->
  exists s', for_each l f s = (Ret tt, s', []) /\ frame s s' /\
    (forall p, p ∈ l -> has s' p (R p) (H (R p) (V p))) /\
    forall q, q ∉ l -> load (buttons s') q = load (buttons s) q.
Proof.
  intros HI Hf l V R. induction l as [|p l IH]; intros s Hnd Hs Hl.
  { exists s. split_and!; [done | reflexivity | | done]. by intros p ?%not_elem_of_nil. }
  apply NoDup_cons in Hnd as [Hp Hnd].
  destruct (Hf s p (R p) (V p) Hs (Hl p ltac:(left))) as (s1 & E1 & F1 & G1 & O1).
  destruct (IH s1 Hnd (HI _ _ F1 Hs)) as (s2 & E2 & F2 & G2 & O2).
  { intros q Hq. apply (has_frame s); [done | apply O1; by intros -> | apply Hl; by right]. }
  exists s2. simpl. rewrite (bind_run_silent _ _ _ _ _ E1). split_and!; [done | by transitivity s1 | |].
  - intros q [->|Hq]%elem_of_cons; [|by apply G2]. by apply (has_frame s1); [|apply O2|].
  - intros q [Hq1 Hq2]%not_elem_of_cons. rewrite O2 by done. by apply O1.
Qed.

Lemma all_buttons (Inv : App -> Prop) (f : loc -> M unit) H es es' s :
  (forall s s', frame s s' -> Inv s -> Inv s') ->
  (forall s p role ns, Inv s -> has s p role ns -> exists s', f p s = (Ret tt, s', []) /\ frame s s' /\
     has s' p role (H role ns) /\ forall q, q <> p -> load (buttons s') q = load (buttons s) q) ->
  (forall role, H role (List.filter (in_category role) es) = List.filter (in_category role) es') ->
  Inv s -> holds s es ->
  exists s', for_each constant_buttons f s = (Ret tt, s', []) /\ frame s s' /\ holds s' es'.
Proof.
  intros HI Hf HH Hs Hes.
  destruct (each_button Inv f H HI Hf constant_buttons
    (fun p => List.filter (in_category (role_of p)) es) role_of s) as (s' & E & F & G & _); try done.
  { apply NoDup_seq. }
  exists s'. split_and!; [done..|]. intros p Hp. specialize (G p Hp). by rewrite HH in G.
Qed.

(** ** The turns *)

Section Turns.
Variables (clock : nat -> Z) (parse_date : string -> option Z) (isControllerMaintainer : bool).

Abbreviation add := (add_notification_to_button_list clock parse_date).

Lemma filter_commute {A} (f g : A -> bool) l :
  List.filter f (List.filter g l) = List.filter g (List.filter f l).
Proof.
  induction l as [|x l IH]; [done|]. simpl.
  destruct (g x) eqn:G, (f x) eqn:F; simpl; rewrite ?G, ?F, ?IH; done.
Qed.

Lemma frame_display s p t :
  frame s (with_items (update p (set_displayTime t) (items s)) s).
Proof.
  unfold frame, loaded. simpl. split_and!; [done..|apply update_wf|].
  intros q n (m & Hm & <-). destruct (decide (p = q)) as [->|Hne].
  - rewrite load_update_eq, Hm. simpl. by eexists.
  - rewrite load_update_ne by done. by exists m.
Qed.

(** Writing the list of a button. *)
Lemma set_list s p role ns (g : list loc -> list loc) ns' :
  has s p role ns -> (forall ps, showing s ps ns -> showing s (g ps) ns') ->
  let s' := with_buttons (update p (fun b => set_notifications (g (notifications b)) b) (buttons s)) s in
  frame s s' /\ has s' p role ns' /\ forall q, q <> p -> load (buttons s') q = load (buttons s) q.
Proof.
  intros (b & Hp & Hr & Hs) Hg. cbv zeta. split_and!.
  - unfold frame. by split_and!.
  - exists (set_notifications (g (notifications b)) b). simpl. rewrite load_update_eq, Hp. split_and!; [done..|].
    exact (Hg _ Hs).
  - intros q Hq. simpl. by rewrite load_update_ne.
Qed.

(** One notification is added to every list of its category. *)
Lemma add_to_lists s p n es from_websocket :
  holds s es -> loaded s p n ->
  exists s', add p constant_buttons from_websocket s = (Ret tt, s', []) /\ frame s s' /\
    holds s' (if from_websocket then n :: es else es ++ [n]).
Proof.
  intros Hes Hp.
  apply (all_buttons (fun s => loaded s p n) _
    (fun role ns => if in_category role n then (if from_websocket then n :: ns else ns ++ [n]) else ns) es); try done.
  - intros s1 s2 (_ & _ & _ & _ & H). apply H.
  - clear s es Hes Hp. intros s q role ns Hn Hq. pose proof Hn as (m & Hm & Hc).
    unfold set_notification_display_time, read_clock.
    pose proof (frame_display (with_reads (S (reads s)) s) p
      (Some (display_time (clock (reads s)) (parse_date (default "undefined" (timestamp m) +:+ "Z"))))) as F1.
    match type of F1 with frame _ ?s1 => set (s2 := s1) in F1 end.
    assert (F2 : frame s s2) by (transitivity (with_reads (S (reads s)) s); [by repeat split; auto | done]). clear F1.
    assert (E : set_notification_display_time clock parse_date p s = (Ret tt, s2, [])).
    { unfold set_notification_display_time, read_clock, bind, get, gets, modify, ret, item_at, deref. simpl.
      unfold bind, gets, ret. simpl. by rewrite Hm. }
    assert (Hq2 : has s2 q role ns) by (by apply (has_frame s)).
    pose proof F2 as F0. assert (B2 : buttons s2 = buttons s) by done. clearbody s2. destruct F2 as (K1 & K2 & K3 & K4 & K5). destruct (K5 p n Hn) as (m2 & Hm2 & Hc2).
    pose proof Hq2 as (b & Hb & Hr & _).
    assert (E2 : button_at q s2 = (Ret b, s2, [])) by (unfold button_at, get, bind, gets; simpl; by rewrite Hb).
    assert (E3 : item_at p s2 = (Ret m2, s2, [])) by (unfold item_at, get, bind, gets; simpl; by rewrite Hm2).
    rewrite (bind_run_silent _ _ _ _ _ E), (bind_run_silent _ _ _ _ _ E2), (bind_run_silent _ _ _ _ _ E3).
    assert (Hcat : (nb_role b === nt_role m2) || (nb_role b === "all") = in_category role n)
      by (by rewrite Hr, <- Hc2).
    cbv beta. rewrite Hcat. destruct (in_category role n); simpl when.
    + assert (Hadd : forall ps, showing s2 ps ns ->
        showing s2 (if from_websocket then p :: ps else ps ++ [p]) (if from_websocket then n :: ns else ns ++ [n])).
      { intros ps Hps. destruct from_websocket; [by constructor; [exists m2|] |].
        apply Forall2_app; [done|]. constructor; [by exists m2 | constructor]. }
      destruct (set_list s2 q role ns (fun ps => if from_websocket then p :: ps else ps ++ [p]) _ Hq2 Hadd)
        as (G1 & G2 & G3).
      match type of G1 with frame _ ?s' => exists s' end.
      rewrite <- B2. split_and!; [by destruct from_websocket | by transitivity s2 | done | done].
    + exists s2. rewrite B2. by split_and!.
  - intros role. destruct from_websocket; simpl.
    + by destruct (in_category role n).
    + rewrite List.filter_app. simpl. destruct (in_category role n); [done | by rewrite app_nil_r].
Qed.

Lemma run_new_item n s :
  store_wf (items s) ->
  exists p s', new_item n s = (Ret p, s', []) /\ frame s s' /\ buttons s' = buttons s /\ store_wf (items s') /\
    loaded s' p (content n).
Proof.
  intros Hwf. unfold new_item, get, bind, gets, modify, ret. cbn. eexists _, _. split; [reflexivity|].
  unfold frame, loaded, load. cbn.
  assert (Hwf' : store_wf (Store (<[next_loc (items s) := n]> (objects (items s))) (S (next_loc (items s))))).
  { intros q [m Hm]. unfold load in Hm. cbn in *.
    apply lookup_insert_Some in Hm as [[<- _]|[_ Hm]]; [lia|]. pose proof (Hwf q (ex_intro _ m Hm)). lia. }
  split_and!; try done.
  - intros q k (m & Hm & <-). exists m. split; [|done]. rewrite lookup_insert_ne; [done|].
    intros E; rewrite <- E in Hm. pose proof (Hwf _ (ex_intro _ m Hm)). lia.
  - exists n. by rewrite lookup_insert_eq.
Qed.

Lemma run_new_items l s :
  store_wf (items s) ->
  exists ps s', new_items l s = (Ret ps, s', []) /\ frame s s' /\ buttons s' = buttons s /\ store_wf (items s') /\
    showing s' ps (content <$> l).
Proof.
  revert s. induction l as [|n l IH]; intros s Hwf; simpl.
  { exists [], s. split_and!; [done | reflexivity | done | done | constructor]. }
  destruct (run_new_item n s Hwf) as (p & s1 & E1 & F1 & B1 & W1 & L1).
  destruct (IH s1 W1) as (ps & s2 & E2 & F2 & B2 & W2 & L2).
  exists (p :: ps), s2. rewrite (bind_run_silent _ _ _ _ _ E1), (bind_run_silent _ _ _ _ _ E2).
  split_and!; [done | by transitivity s1 | congruence | done |].
  constructor; [|done]. destruct F2 as (_ & _ & _ & _ & H). by apply H.
Qed.

Lemma holds_buttons s s' es : frame s s' -> buttons s' = buttons s -> holds s es -> holds s' es.
Proof. intros F B H p Hp. apply (has_frame s); [done | by rewrite B | by apply H]. Qed.

(** A page of notifications goes to the end of the lists; [list_of] is how the
    component finds its buttons. *)
Lemma add_page (list_of : M (list loc)) ps ns s es :
  (forall s', lists_of s' = lists_of s -> bell s' = bell s -> list_of s' = (Ret constant_buttons, s', [])) ->
  holds s es -> showing s ps ns ->
  exists s', for_each ps (fun ni => l <- list_of ;; add ni l false) s = (Ret tt, s', []) /\ frame s s' /\
    holds s' (es ++ ns).
Proof.
  intros Hlist Hes Hps. revert s es Hlist Hes Hps. revert ns.
  induction ps as [|p ps IH]; intros ns s es Hlist Hes Hps.
  { inversion Hps; subst. exists s. split_and!; [done | reflexivity | by rewrite app_nil_r]. }
  inversion Hps as [|? n ? ns' Hn Hns]; subst.
  destruct (add_to_lists s p n es false Hes Hn) as (s1 & E1 & F1 & G1).
  pose proof F1 as (K1 & K2 & K3 & K4 & K5).
  destruct (IH ns' s1 (es ++ [n])) as (s2 & E2 & F2 & G2).
  { intros s' H1 H2. apply Hlist; congruence. }
  { done. }
  { eapply Forall2_impl; [exact Hns | auto]. }
  exists s2. split_and!; [|by transitivity s1 | by rewrite <- (assoc_L (++)) in G2].
  assert (E : bind list_of (fun l => add p l false) s = (Ret tt, s1, []))
    by (by rewrite (bind_run_silent _ _ _ _ _ (Hlist s eq_refl eq_refl))).
  cbn [for_each]. by rewrite (bind_run_silent _ _ _ _ _ E).
Qed.

(** Dialogs *)
Lemma find_window s ws d :
  lists_of s = (fun d => (d, constant_buttons)) <$> ws ->
  if bool_decide (d ∈ ws) then exists c, find_dialog d (dialogs s) = Some c /\ notification_button_list c = constant_buttons
  else find_dialog d (dialogs s) = None.
Proof.
  unfold lists_of. revert ws. induction (dialogs s) as [|[e c] ds IH]; intros ws Hl;
    destruct ws as [|w ws]; simpl in Hl; try done.
  injection Hl as -> Hc Hl. specialize (IH ws Hl). simpl.
  destruct (Nat.eqb_spec w d) as [->|Hne].
  - rewrite bool_decide_eq_true_2 by left. by exists c.
  - destruct (decide (d ∈ ws)).
    + rewrite bool_decide_eq_true_2 in IH by done. by rewrite bool_decide_eq_true_2 by (by right).
    + rewrite bool_decide_eq_false_2 in IH by done. rewrite bool_decide_eq_false_2; [done | set_solver].
Qed.

Lemma run_dialog_lists s s' a d :
  shows s a -> d ∈ windows a -> lists_of s' = lists_of s -> dialog_lists d s' = (Ret constant_buttons, s', []).
Proof.
  intros (_ & _ & Ha & _) Hd Hl. rewrite <- Hl in Ha. pose proof (find_window s' _ d Ha) as H.
  rewrite bool_decide_eq_true_2 in H by done.
  destruct H as (c & Hc & <-). unfold dialog_lists, dialog, get, bind, gets. simpl. by rewrite Hc.
Qed.

Lemma run_while_open s a d m f :
  shows s a -> (d ∈ windows a -> shows (state_of (m s)) (with_entries f a)) ->
  shows (state_of (while_open d m s)) (in_window d a f).
Proof.
  intros Ha Hm. pose proof (find_window s _ d (proj1 (proj2 (proj2 Ha)))) as H. unfold while_open, get, in_window.
  rewrite (bind_state _ _ s s s [] eq_refl). destruct (bool_decide_reflect (d ∈ windows a)) as [Hd|Hd].
  - destruct H as (c & -> & _). by apply Hm.
  - by rewrite H.
Qed.

Lemma with_entries_id a : with_entries (fun es => es) a = a.
Proof. by destruct a. Qed.
Lemma in_window_id d a : in_window d a (fun es => es) = a.
Proof. unfold in_window. by case_bool_decide; rewrite ?with_entries_id. Qed.

Lemma frame_dialogs d f s :
  (forall c, notification_button_list (f c) = notification_button_list c) ->
  frame s (with_dialogs (change_dialog d f (dialogs s)) (opened s) s).
Proof.
  intros Hf. unfold frame, lists_of, change_dialog. simpl. split_and!; try done.
  rewrite <- list_fmap_compose. apply list_fmap_ext. intros i [e c] _. simpl.
  by destruct (Nat.eqb e d); simpl; rewrite ?Hf.
Qed.

Lemma shows_modify_dialog d f s a :
  (forall c, notification_button_list (f c) = notification_button_list c) ->
  shows s a -> shows (with_dialogs (change_dialog d f (dialogs s)) (opened s) s) a.
Proof.
  intros Hf Ha. rewrite <- (with_entries_id a). apply (shows_frame s); [by apply frame_dialogs | done |].
  apply (holds_buttons s); [by apply frame_dialogs | done | apply Ha].
Qed.

(** The handlers that change no list. *)
Lemma keeps_request d scroll a : safe (fun s => shows s a) (fun _ => True) (api_get_notifications_ d scroll).
Proof. unfold api_get_notifications_, dialog, button_at, get. safe_auto; done. Qed.

Lemma keeps_scroll d e a : safe (fun s => shows s a) (fun _ => True) (host_listener_on_scroll d e).
Proof.
  unfold host_listener_on_scroll, dialog, modify_dialog, get.
  repeat (safe_step || (apply shows_modify_dialog; done) || apply keeps_request).
Qed.

Lemma shows_button_select s a d nb :
  shows s a -> d ∈ windows a -> shows (state_of (button_select d nb s)) (with_entries (fun _ => []) a).
Proof.
  intros Ha Hd. unfold button_select. unfold modify_dialog at 1.
  set (s1 := with_dialogs (change_dialog d (set_scrolling 0 false true) (dialogs s)) (opened s) s).
  rewrite (bind_state _ _ s tt s1 []) by done.
  assert (H1 : shows s1 a) by (by apply shows_modify_dialog).
  rewrite (bind_state _ _ _ _ _ _ (run_dialog_lists s1 s1 a d H1 Hd eq_refl)).
  destruct (all_buttons (fun _ => True) (fun nb0 =>
      modify_button nb0 (set_notifications []) ;;;
      (if Nat.eqb nb0 nb then modify_button nb0 (set_selected true) ;;; modify_dialog d (set_selected_button (Some nb0))
       else modify_button nb0 (set_selected false))) (fun _ _ => []) (entries a) [] s1)
    as (s2 & E2 & F2 & G2); try done; [|by apply H1|].
  - clear. intros s p role ns _ (b & Hp & Hr & Hs).
    assert (HL : forall h (v : bool), h = update p (set_selected v) (update p (set_notifications []) (buttons s)) ->
      load h p = Some (set_selected v (set_notifications [] b)) /\ forall q, q <> p -> load h q = load (buttons s) q).
    { intros h v ->. split; [by rewrite !load_update_eq, Hp|]. intros q Hq. by rewrite !load_update_ne. }
    destruct (Nat.eqb p nb); unfold modify_button, modify_dialog, bind, modify; cbn; eexists; (split; [reflexivity|]);
      split_and!.
    + match goal with |- frame s (with_dialogs _ _ ?s0) =>
        transitivity s0; [by repeat split | by apply (frame_dialogs d (set_selected_button (Some p)) s0)] end.
    + eexists. split; [exact (proj1 (HL _ true eq_refl))|]. split; [done | constructor].
    + exact (proj2 (HL _ true eq_refl)).
    + by repeat split.
    + eexists. split; [exact (proj1 (HL _ false eq_refl))|]. split; [done | constructor].
    + exact (proj2 (HL _ false eq_refl)).
  - rewrite (bind_state _ _ _ _ _ _ E2).
    apply (keeps_request d false (with_entries (fun _ => []) a)). by apply (shows_frame s1).
Qed.

(** A notification the socket brings. *)
Lemma shows_broadcast_bell s a (n : NotificationInterface) :
  shows s a -> exists s', bell_onbroadcast clock parse_date n s = (Ret tt, s', []) /\
  shows s' (with_entries (fun es => (if muted a then [] else [content (new_NotificationClass n)]) ++ es) a).
Proof.
  intros Ha. pose proof Ha as (Hes & Hwf & _ & _ & Hm & Hb).
  destruct (run_new_item (new_NotificationClass n) s Hwf) as (p & s1 & E1 & F1 & B1 & W1 & L1).
  assert (H1 : shows s1 a).
  { rewrite <- (with_entries_id a). apply (shows_frame s); [done..|]. by apply (holds_buttons s). }
  unfold bell_onbroadcast, get. rewrite (bind_run_silent _ _ _ _ _ E1).
  rewrite (bind_run_silent _ _ s1 s1 s1 eq_refl).
  pose proof H1 as (_ & _ & _ & _ & Hm1 & Hb1). rewrite Hm1. destruct (muted a); simpl when.
  - exists s1. rewrite with_entries_id. done.
  - unfold modify_bell.
    set (s2 := with_bell (set_new_notifications (new_notifications (bell s1) ++ [p]) (bell s1)) s1). rewrite (bind_run_silent _ _ s1 tt s2) by done.
    assert (Hb2 : bell_lists s2 = (Ret constant_buttons, s2, [])) by (by rewrite <- Hb1).
    rewrite (bind_run_silent _ _ _ _ _ Hb2).
    destruct (add_to_lists s2 p (content (new_NotificationClass n)) (entries a) true) as (s3 & E3 & F3 & G3).
    + apply H1.
    + exact L1.
    + exists s3. split; [exact E3|]. apply (shows_frame s2); [done| |done]. exact H1.
Qed.

Lemma replicate_shift {A} k (x : A) l : x :: replicate k x ++ l = replicate k x ++ x :: l.
Proof. induction k as [|k IH]; [done|]. simpl. by rewrite IH. Qed.

Lemma shows_broadcast_dialogs (n : NotificationInterface) ds s a :
  shows s a -> (forall d, d ∈ ds -> d ∈ windows a) -> exists s',
  for_each ds (fun d => dialog_onbroadcast clock parse_date d n) s = (Ret tt, s', []) /\
  shows s' (with_entries (fun es => replicate (length ds) (content (new_NotificationClass n)) ++ es) a).
Proof.
  revert s a. induction ds as [|d ds IH]; intros s a Ha Hds.
  { exists s. split; [done|]. by rewrite with_entries_id. }
  pose proof Ha as (Hes & Hwf & _).
  destruct (run_new_item (new_NotificationClass n) s Hwf) as (p & s1 & E1 & F1 & B1 & W1 & L1).
  assert (H1 : shows s1 a).
  { rewrite <- (with_entries_id a). apply (shows_frame s); [done..|]. by apply (holds_buttons s). }
  destruct (add_to_lists s1 p (content (new_NotificationClass n)) (entries a) true (proj1 H1) L1) as (s2 & E2 & F2 & G2).
  pose proof (shows_frame s1 s2 a (fun es => content (new_NotificationClass n) :: es) F2 H1 G2) as H2.
  destruct (IH s2 _ H2) as (s3 & E3 & H3); [intros e He; simpl; apply Hds; by right|].
  exists s3. cbn [for_each]. split.
  - assert (E : dialog_onbroadcast clock parse_date d n s = (Ret tt, s2, [])).
    { unfold dialog_onbroadcast. rewrite (bind_run_silent _ _ _ _ _ E1).
      by rewrite (bind_run_silent _ _ _ _ _ (run_dialog_lists s1 s1 a d H1 (Hds d ltac:(left)) eq_refl)). }
    by rewrite (bind_run_silent _ _ _ _ _ E).
  - unfold with_entries in *. simpl in *. by rewrite replicate_shift.
Qed.

Lemma windows_ids s a : shows s a -> (fst <$> dialogs s) = windows a.
Proof.
  intros (_ & _ & Hl & _). apply (f_equal (fmap fst)) in Hl. unfold lists_of in Hl.
  rewrite <- !list_fmap_compose in Hl. unfold compose in Hl. simpl in Hl. by rewrite list_fmap_id in Hl.
Qed.

Lemma shows_broadcast s a (n : NotificationInterface) :
  shows s a -> shows (state_of (on_event clock parse_date isControllerMaintainer (Broadcast n) s))
                 (spec a (Event (Broadcast n))).
Proof.
  intros Ha. destruct (shows_broadcast_bell s a n Ha) as (s1 & E1 & H1).
  destruct (shows_broadcast_dialogs n (fst <$> dialogs s1) s1 _ H1) as (s2 & E2 & H2).
  { intros d. by rewrite (windows_ids s1 _ H1). }
  unfold on_event, get. rewrite (bind_state _ _ _ _ _ _ E1), (bind_state _ _ s1 s1 s1 [] eq_refl), E2.
  pose proof (f_equal length (windows_ids s1 _ H1)) as Hlen. simpl in Hlen. rewrite Hlen in H2.
  cbn [spec]. unfold with_entries in *. simpl in *. destruct (muted a); simpl in *.
  - by rewrite Nat.add_0_r.
  - rewrite Nat.add_1_r. simpl. by rewrite replicate_shift.
Qed.

(** A page of notifications from the server. *)
Lemma shows_page (list_of : M (list loc)) response s a (k : M unit) :
  shows s a ->
  (forall s', lists_of s' = lists_of s -> bell s' = bell s -> list_of s' = (Ret constant_buttons, s', [])) ->
  safe (fun s => shows s (with_entries (fun es => es ++ (content <$> response)) a)) (fun _ => True) k ->
  shows (state_of ((ps <- new_items response ;;
                    (for_each ps (fun ni => l <- list_of ;; add ni l false) ;;; k)) s))
    (with_entries (fun es => es ++ (content <$> response)) a).
Proof.
  intros Ha Hlist Hk. pose proof Ha as (Hes & Hwf & _).
  destruct (run_new_items response s Hwf) as (ps & s1 & E1 & F1 & B1 & W1 & L1).
  assert (H1 : shows s1 a).
  { rewrite <- (with_entries_id a). apply (shows_frame s); [done..|]. by apply (holds_buttons s). }
  pose proof F1 as (K1 & K2 & K3 & _).
  destruct (add_page list_of ps (content <$> response) s1 (entries a)) as (s2 & E2 & F2 & G2); [|apply H1|done|].
  { intros s' G1 G2. apply Hlist; congruence. }
  rewrite (bind_state _ _ _ _ _ _ E1), (bind_state _ _ _ _ _ _ E2).
  apply Hk. by apply (shows_frame s1).
Qed.

Lemma bind_ret_state (m : M unit) s : state_of ((m ;;; ret tt) s) = state_of (m s).
Proof. unfold bind, ret. destruct (m s) as [[[[]|e] s1] es]; done. Qed.

Lemma bind_ret_page (list_of : M (list loc)) response s :
  state_of ((ps <- new_items response ;; for_each ps (fun ni => l <- list_of ;; add ni l false)) s) =
  state_of ((ps <- new_items response ;;
             (for_each ps (fun ni => l <- list_of ;; add ni l false) ;;; ret tt)) s).
Proof.
  unfold bind at 1 3. destruct (new_items response s) as [[[ps|e] s1] es]; [|done].
  pose proof (bind_ret_state (for_each ps (fun ni => l <- list_of ;; add ni l false)) s1) as H.
  destruct ((for_each ps _ ;;; ret tt) s1) as [[? ?] ?], (for_each ps _ s1) as [[? ?] ?]. exact (eq_sym H).
Qed.

Lemma shows_bell_answer s a x :
  shows s a -> shows (state_of (bell_get_notifications_answer clock parse_date x s))
                 (with_entries (fun es => es ++ received x) a).
Proof.
  intros Ha. destruct x as [response|e]; [|simpl; unfold with_entries; rewrite app_nil_r; by destruct a].
  unfold bell_get_notifications_answer. rewrite bind_ret_page. apply shows_page; [done| |apply safe_ret].
  intros s' _ Hb. unfold bell_lists, gets. rewrite Hb. by destruct Ha as (_ & _ & _ & _ & _ & ->).
Qed.


Lemma shows_dialog_answer s a d scrolled x :
  shows s a -> d ∈ windows a ->
  shows (state_of (api_get_notifications_answer clock parse_date d scrolled x s))
    (with_entries (fun es => es ++ received (snd x)) a).
Proof.
  intros Ha Hd. unfold api_get_notifications_answer. cbv zeta.
  assert (Hlist : forall s', lists_of s' = lists_of s -> bell s' = bell s ->
    dialog_lists d s' = (Ret constant_buttons, s', [])) by (intros; by apply (run_dialog_lists s s' a)).
  destruct x as [scroll [response|e]]; simpl snd; [|simpl; unfold with_entries; rewrite app_nil_r; by destruct a].
  cbn [snd fst]. destruct (if scrolled then scroll else None) as [old|].
  - assert (E : forall (k : list loc -> M unit) ps s0,
      state_of ((emit (Page (SetScrollTop (old - 100))) ;;; k ps) s0) = state_of (k ps s0))
      by (intros k ps s0; exact (bind_state _ (fun _ => k ps) s0 tt s0 [Page (SetScrollTop (old - 100))] eq_refl)).
    assert (E2 : forall k : list loc -> M unit,
      state_of ((ps <- new_items response ;; (emit (Page (SetScrollTop (old - 100))) ;;; k ps)) s) =
      state_of ((ps <- new_items response ;; k ps) s)).
    { intros k. destruct (run_new_items response s ltac:(apply Ha)) as (ps & s1 & E1 & _).
      rewrite !(bind_state _ _ _ _ _ _ E1). apply E. }
    rewrite (E2 (fun ps => for_each ps (fun ni => l <- dialog_lists d ;; add ni l false) ;;;
      emit (Page (SetScrollTop old)) ;;;
      modify_dialog d (fun c => set_scrolling (offset_ c) (Nat.eqb (length response) 0)
                                  (button_select_gate_active_ c) c))).
    apply shows_page; [done..|]. unfold modify_dialog.
    repeat (safe_step || (apply shows_modify_dialog; done) || done).
  - rewrite bind_ret_page. by apply shows_page; [| |apply safe_ret].
Qed.

Lemma load_showing s ps ns (keep : NotificationClass -> bool) :
  (forall m, keep (content m) = keep m) -> showing s ps ns ->
  showing s (List.filter (fun p => match load (items s) p with Some n => keep n | None => true end) ps)
    (List.filter keep ns).
Proof.
  intros Hk. induction 1 as [|p n ps ns (m & Hm & <-) _ IH]; [constructor|]. simpl. rewrite Hm, Hk.
  destruct (keep m); [constructor; [by exists m | done] | done].
Qed.

Lemma shows_deleted s a d id x :
  shows s a -> d ∈ windows a ->
  shows (state_of (api_delete_notification_answer d id x s))
    (match x with Next _ => with_entries (List.filter (other_id id)) a | Error _ => a end).
Proof.
  intros Ha Hd. destruct x as [[]|e]; [|exact Ha]. unfold api_delete_notification_answer.
  rewrite (bind_state _ _ _ _ _ _ (run_dialog_lists s s a d Ha Hd eq_refl)).
  destruct (all_buttons (fun _ => True) (fun nb => s <- get ;; modify_button nb (fun b => set_notifications
      (List.filter (fun p => match load (items s) p with Some n => other_id id n | None => true end)
         (notifications b)) b)) (fun _ => List.filter (other_id id)) (entries a)
      (List.filter (other_id id) (entries a)) s) as (s1 & E & F & G); try done.
  - clear. intros s p role ns _ Hp. unfold get. rewrite (bind_run_silent _ _ s s s eq_refl).
    eexists. split; [reflexivity|].
    apply (set_list s p role ns (List.filter (fun p => match load (items s) p with Some n => other_id id n | None => true end))); [done|].
    intros ps. by apply load_showing.
  - intros role. apply filter_commute.
  - apply Ha.
  - rewrite (bind_state _ _ _ _ _ _ E). simpl. by apply (shows_frame s).
Qed.

Lemma shows_all_deleted s a d x :
  shows s a -> d ∈ windows a ->
  shows (state_of (api_delete_all_notifications_answer d x s))
    (match x with Next _ => with_entries (fun _ => []) a | Error _ => a end).
Proof.
  intros Ha Hd. destruct x as [[]|e]; [|exact Ha]. unfold api_delete_all_notifications_answer.
  rewrite (bind_state _ _ _ _ _ _ (run_dialog_lists s s a d Ha Hd eq_refl)).
  destruct (all_buttons (fun _ => True) (fun nb => modify_button nb (set_notifications []))
      (fun _ _ => []) (entries a) [] s) as (s1 & E & F & G); try done.
  - clear. intros s p role ns _ Hp. eexists. split; [reflexivity|].
    apply (set_list s p role ns (fun _ => []) []); [done | constructor].
  - apply Ha.
  - rewrite (bind_state _ _ _ _ _ _ E). simpl. by apply (shows_frame s).
Qed.

(** A window opens with empty lists. *)
Lemma shows_opened s a :
  shows s a -> shows (state_of (open_notification_dialog_window isControllerMaintainer s)) (spec a (Event OpenDialog)).
Proof.
  intros (Hes & Hwf & Hl & Hc & Hm & Hb).
  unfold open_notification_dialog_window, modify_bell, get.
  set (s1 := with_bell (set_new_notifications [] (bell s)) s). rewrite (bind_state _ _ s tt s1 []) by done.
  rewrite (bind_state _ _ s1 s1 s1 [] eq_refl).
  set (s2 := with_dialogs (dialogs s1 ++ [(opened s1, new_dialog isControllerMaintainer NOTIFICATION_DIALOG_TITLE
    (bell_button_list (bell s1)))]) (S (opened s1)) s1). rewrite (bind_state _ _ s1 tt s2 []) by done.
  set (s3 := with_bell (set_mat_dialog_ref (Some (opened s1)) (bell s2)) s2).
  rewrite (bind_state _ _ s2 tt s3 []) by done.
  rewrite (bind_state _ _ s3 tt s3 [Subscribe (DNotifications (opened s1))]) by done.
  set (a3 := {| entries := entries a; windows := windows a ++ [count a]; count := S (count a); muted := true |}).
  assert (H3 : shows s3 a3).
  { unfold shows, lists_of. simpl. rewrite !fmap_app. simpl. rewrite Hb, Hc. unfold lists_of in Hl. rewrite Hl.
    by split_and!. }
  assert (Hin : opened s1 ∈ windows a3) by (simpl; rewrite Hc, elem_of_app; right; left).
  pose proof (find_window s3 _ (opened s1) (proj1 (proj2 (proj2 H3)))) as H.
  rewrite bool_decide_eq_true_2 in H by done. destruct H as (c & Hf & Hlist).
  unfold dialog_ngOnInit. rewrite (bind_state _ _ s3 c s3 []).
  2: { unfold dialog, get, bind, gets. simpl in *. by rewrite Hf. }
  rewrite Hlist. simpl. exact (shows_button_select s3 a3 (opened s1) 0 H3 Hin).
Qed.

Lemma shows_closed s a d :
  shows s a -> shows (state_of (dialog_closed d s)) (spec a (Answered (DNotifications d) tt)).
Proof.
  intros (Hes & Hwf & Hl & Hc & Hm & Hb). unfold shows, lists_of. simpl.
  split_and!; try done. unfold lists_of in Hl. clear -Hl. revert Hl. generalize (windows a).
  induction (dialogs s) as [|[e c] ds IH]; intros ws Hl; destruct ws as [|w ws]; simpl in Hl; try done.
  injection Hl as -> Hc Hl. simpl. destruct (Nat.eqb w d); simpl; [|rewrite Hc; f_equal]; by apply IH.
Qed.

Lemma shows_turn l s a :
  shows s a -> shows (state_of (react (K := NotificationCentre clock parse_date isControllerMaintainer) l s)) (spec a l).
Proof.
  intros Ha. destruct l as [e|c x].
  - destruct e as [| |n|d event|d nb|d n|d]; cbn [react Runtime.on_event NotificationCentre on_event].
    + exact Ha.
    + by apply shows_opened.
    + by apply shows_broadcast.
    + rewrite <- (in_window_id d a). apply run_while_open; [done|]. intros _. rewrite with_entries_id.
      by apply (keeps_scroll d event a).
    + apply run_while_open; [done|]. intros Hd. by apply shows_button_select.
    + rewrite <- (in_window_id d a). apply run_while_open; [done|]. intros _. rewrite with_entries_id.
      assert (K : safe (fun s => shows s a) (fun _ => True) (delete_notification d n))
        by (unfold delete_notification, item_at, get; safe_auto; done).
      by apply K.
    + rewrite <- (in_window_id d a). apply run_while_open; [done|]. intros _. by rewrite with_entries_id.
  - destruct c as [|d|d o role scrolled|d id|d|d data]; cbn [react Runtime.on_answer NotificationCentre on_answer spec].
    + by apply shows_bell_answer.
    + destruct x. by apply shows_closed.
    + apply run_while_open; [done|]. intros Hd. by apply shows_dialog_answer.
    + destruct x as [[]|err]; [|rewrite <- (in_window_id d a)]; (apply run_while_open; [done|]); intros Hd;
        rewrite ?with_entries_id; [by apply (shows_deleted s a d id (Next tt)) | by apply (shows_deleted s a d id (Error err))].
    + destruct x as [[]|err]; [|rewrite <- (in_window_id d a)]; (apply run_while_open; [done|]); intros Hd;
        rewrite ?with_entries_id; [by apply (shows_all_deleted s a d (Next tt)) | by apply (shows_all_deleted s a d (Error err))].
    + rewrite <- (in_window_id d a). apply run_while_open; [done|]. intros _. rewrite with_entries_id.
      unfold delete_all_closed, api_delete_all_notifications_. by destruct (x ?=== _).
Qed.

Definition no_notifications : feed := {| entries := []; windows := []; count := 0; muted := false |}.

Lemma shows_constructor : shows constructor no_notifications.
Proof.
  unfold shows. split_and!; try done.
  - intros p Hp. apply elem_of_seq in Hp as [_ Hp].
    destruct (alloc_list NOTIFICATION_BUTTON_LIST store_empty) as [ps h] eqn:E.
    destruct (lookup_lt_is_Some_2 NOTIFICATION_BUTTON_LIST p Hp) as [b Hb].
    exists b. unfold role_of. rewrite list_lookup_fmap, Hb. split_and!; [|done|].
    + unfold constructor. cbn [buttons]. rewrite E. exact (alloc_list_new _ _ _ _ p b E Hb).
    + assert (H : Forall (fun b => notifications b = []) NOTIFICATION_BUTTON_LIST) by (repeat constructor).
      rewrite (Forall_lookup_1 _ _ _ _ H Hb). constructor.
  - apply store_empty_wf.
Qed.

(** C10: the two components and their eleven shared lists implement one feed of
    notifications.  In every interleaving of messages, answers and actions the
    list of each button is the feed restricted to the button's category, in its
    order, where the feed is what the abstract machine [spec] makes of the
    events alone: messages come to its front, pages of the server to its end,
    a deletion removes by identifier, opening a window or choosing a category
    empties it. *)
Theorem lists_refine_the_feed tr w :
  trace (K := NotificationCentre clock parse_date isControllerMaintainer) (fun _ => True) tr w ->
  let a := fold_left spec (fst <$> tr) no_notifications in
  holds (component w) (entries a) /\ (fst <$> dialogs (component w)) = windows a.
Proof.
  intros Htr. pose proof (trace_refines (K := NotificationCentre clock parse_date isControllerMaintainer) (fun _ => True) spec shows no_notifications shows_constructor
    (fun l s a _ => shows_turn l s a) tr w Htr) as H.
  split; [apply H | by apply windows_ids].
Qed.

(** Opening the dialog races with the request of the bell.  The dialog starts
    from empty lists and asks for the notifications; when a request of the bell
    was on its way, both answers go to the end of the shared lists, and every
    category shows the notifications of the server twice. *)
Theorem opening_races_with_the_bell tr w ns :
  trace (K := NotificationCentre clock parse_date isControllerMaintainer) (fun _ => True) tr w ->
  let d := opened (component w) in
  let s1 := state_of (open_notification_dialog_window isControllerMaintainer (component w)) in
  let s2 := state_of (bell_get_notifications_answer clock parse_date (Next ns) s1) in
  let s3 := state_of (on_answer clock parse_date (CNotifications d 0 "all" false) (None, Next ns) s2) in
  holds s3 ((content <$> ns) ++ (content <$> ns)).
Proof.
  intros Htr. cbv zeta.
  pose proof (trace_refines (K := NotificationCentre clock parse_date isControllerMaintainer) (fun _ => True) spec shows
    no_notifications shows_constructor (fun l s a _ => shows_turn l s a) tr w Htr) as H.
  pose proof (shows_turn (Event OpenDialog) _ _ H) as H1.
  pose proof (shows_turn (Answered CBellNotifications (Next ns)) _ _ H1) as H2.
  pose proof (shows_turn (Answered (CNotifications (opened (component w)) 0 "all" false) (None, Next ns)) _ _ H2) as H3.
  destruct H as (_ & _ & _ & Hc & _). revert H3. cbn [spec]. unfold in_window. simpl windows.
  rewrite bool_decide_eq_true_2 by (rewrite Hc, elem_of_app; right; left). intros H3. apply H3.
Qed.
End Turns.
End Feed.

(** ** Witnesses *)

Definition witness_notification (id role : string) : NotificationInterface :=
  {| nti__id := Some id; nti_role := role; nti_message := "m"; nti_status := "STARTED"; nti_exception := "";
     nti_timestamp := Some "0"; nti_displayTime := None; nti_action := None; nti_application := "a";
     nti_data := None |}.

Definition witness_entry (id role : string) : NotificationClass :=
  content (new_NotificationClass (witness_notification id role)).

Abbreviation Centre := (NotificationCentre (fun n => Z.of_nat n) (fun _ => Some 0%Z) true).

(** A message arrives, the dialog is opened before the bell has its answer. *)
Example lists_refine_the_feed_witness : exists tr w,
  trace (K := Centre) (fun _ => True) tr w /\
  holds (component w) [witness_entry "2" "nodes"; witness_entry "1" "agent"] /\
  (fst <$> dialogs (component w)) = [0].
Proof.
  pose proof (trace_start (K := Centre) (fun _ => True)) as T.
  apply (trace_event _ _ _ NgOnInit) in T; [|exact I].
  apply (trace_event _ _ _ (Broadcast (witness_notification "3" "scale"))) in T; [|exact I].
  apply (trace_event _ _ _ OpenDialog) in T; [|exact I].
  apply (trace_answer _ _ _ [] CBellNotifications [DNotifications 0; CNotifications 0 0 "all" false]
    (Next [new_NotificationClass (witness_notification "1" "agent")])) in T; [|exact I|vm_compute; reflexivity].
  apply (trace_event _ _ _ (Broadcast (witness_notification "2" "nodes"))) in T; [|exact I].
  match type of T with trace _ ?tr ?w => exists tr, w end.
  split; [exact T|]. destruct (lists_refine_the_feed _ _ _ _ _ T) as [H1 H2].
  split; [exact H1 | exact H2].
Defined.

Example opening_races_with_the_bell_witness : exists tr w,
  trace (K := Centre) (fun _ => True) tr w /\ CBellNotifications ∈ pending w /\
  let s1 := state_of (open_notification_dialog_window true (component w)) in
  let s2 := state_of (bell_get_notifications_answer (fun n => Z.of_nat n) (fun _ => Some 0%Z)
              (Next [witness_entry "1" "nodes"]) s1) in
  holds (state_of (on_answer (fun n => Z.of_nat n) (fun _ => Some 0%Z) (CNotifications 0 0 "all" false)
          (None, Next [witness_entry "1" "nodes"]) s2)) [witness_entry "1" "nodes"; witness_entry "1" "nodes"].
Proof.
  pose proof (trace_start (K := Centre) (fun _ => True)) as T.
  apply (trace_event _ _ _ NgOnInit) in T; [|exact I].
  match type of T with trace _ ?tr ?w => exists tr, w end.
  split; [exact T|]. split; [left|].
  exact (opening_races_with_the_bell _ _ _ _ _ [witness_entry "1" "nodes"] T).
Defined.

Example display_time_bounds_witness :
  display_time 7260999 (Some 0%Z) = "2 hour(s) ago" /\
  exists n unit text, display_time 7260999 (Some 0%Z) = pretty n +:+ text /\ (1 <= n)%Z /\
    (n * unit <= 7260000 < (n + 1) * unit)%Z /\
    (unit = 604800000%Z /\ text = " week(s) ago" \/
     exists limit, (unit, limit, text) ∈ units /\ (unit <= 7260000 < limit)%Z).
Proof.
  split; [vm_compute; reflexivity|].
  exact (proj2 (proj2 (display_time_bounds 7260999 0)) ltac:(vm_compute; discriminate)).
Defined.
