(* ===== verification/AddNode.v ===== *)
(** modules/node-mng/components/add-node-dialog/add-node-dialog.component.ts with
    global-components/components/virtual-node-form: the dialog that adds nodes.

    A validator is attached to a control with the array of values it forbids; the
    arrays are objects, which the dialog goes on filling after the validators
    were made.  Of the controls of @angular/forms the model keeps what the source
    sets and reads: value, validators and the two marks.  The names of the fields
    of the form's record carry the prefix [f_]. *)
From S2P Require Import Prelude Handler JsValue Runtime Data Api Services SettingsData Messages Net NodeMng Regex Validators.
From stdpp Require Import pretty.
From Stdlib Require Import Ascii.

Definition BAREMETAL : string := "Baremetal".
Definition VIRTUAL : string := "Virtual".
Definition VIRTUAL_MACHINE : string := "Virtual Machine".
Definition ISO_REMOTE_SENSOR_DOWNLOAD : string := "Iso Remote Sensor Download".

(** interfaces/mat-option.interface.ts *)
Record MatOptionInterface := { mo_name : string; mo_value : string; mo_disabled : bool }.

Definition option_baremetal : MatOptionInterface := {| mo_name := BAREMETAL; mo_value := BAREMETAL; mo_disabled := false |}.
Definition option_virtual (disabled : bool) : MatOptionInterface :=
  {| mo_name := VIRTUAL_MACHINE; mo_value := VIRTUAL; mo_disabled := disabled |}.
Definition option_iso : MatOptionInterface :=
  {| mo_name := ISO_REMOTE_SENSOR_DOWNLOAD; mo_value := ISO; mo_disabled := false |}.
Definition DEPLOYMENT_OPTIONS_NODE : list MatOptionInterface :=
  [option_baremetal; option_virtual false; option_virtual true; option_iso].

(** The rule of validators/add-node.validator.ts that only this form uses. *)
Definition addNodeValidators_virtual_data_drive : list ValidatorObjectInterface :=
  [plain "required" (Text "Data drive is required") None;
   plain "pattern" (Text "You must enter a valid number for disk. A minimum of 50GB is required.")
     (Some drive_pattern)].

(** [ObjectUtilitiesClass.remove_duplicate_entries] *)
Definition remove_duplicate_entries (array : list jsval) : list jsval :=
  omap (fun x : nat * jsval =>
    if Z.eqb (findIndex (fun y => strict_eq y (snd x)) array) (Z.of_nat (fst x)) then Some (snd x) else None)
    (imap pair array).

(** ** The form *)

(** [validateFromArray(rules, { uniqueArray })] *)
Record check := { rules : list ValidatorObjectInterface; forbidden : option loc }.

(** What it says of a value and a mark, with the present contents of the arrays;
    the validators of these forms do not look at the status. *)
Definition check_verdict (h : store (list jsval)) (k : option check) (v : jsval) (t : bool)
    : outcome (option validation_error) :=
  match k with
  | None => Ret None
  | Some k =>
      let ops := option_map (fun p =>
        {| uniqueArray := UArray (default [] (load h p)); formControlName := None; index := None;
           parentControl := None; parentFormGroup := None; minRequiredArray := None; minRequireControl := "";
           minRequiredValue := JUndefined; minRequired := 0; error_message_subject := None |}) (forbidden k) in
      validateFromArray (rules k) ops {| value := v; touched := t; status := VALID |}
  end.

Record control := {
  c_value : jsval;
  c_touched : bool;
  c_dirty : bool;
  c_validator : option check;
}.

(** [new FormControl(value, validators)] *)
Definition new_FormControl (v : jsval) (k : option check) : control :=
  {| c_value := v; c_touched := false; c_dirty := false; c_validator := k |}.
Definition setValue (v : jsval) (c : control) : control :=
  {| c_value := v; c_touched := c_touched c; c_dirty := c_dirty c; c_validator := c_validator c |}.
Definition setValidators (k : option check) (c : control) : control :=
  {| c_value := c_value c; c_touched := c_touched c; c_dirty := c_dirty c; c_validator := k |}.
Definition marked (t d : bool) (c : control) : control :=
  {| c_value := c_value c; c_touched := t; c_dirty := d; c_validator := c_validator c |}.
(** [reset]: null, pristine and untouched. *)
Definition reset (c : control) : control := setValue JNull (marked false false c).

Record node_form := {
  f_hostname : control;
  f_ip_address : control;
  f_node_type : control;
  f_deployment_type : control;
  f_mac_address : control;
  f_raid0_override : control;
  f_virtual_cpu : control;
  f_virtual_mem : control;
  f_virtual_os : control;
  f_virtual_data : option control;
}.

Definition on_hostname g (f : node_form) :=
  {| f_hostname := g (f_hostname f); f_ip_address := f_ip_address f; f_node_type := f_node_type f;
     f_deployment_type := f_deployment_type f; f_mac_address := f_mac_address f;
     f_raid0_override := f_raid0_override f; f_virtual_cpu := f_virtual_cpu f; f_virtual_mem := f_virtual_mem f;
     f_virtual_os := f_virtual_os f; f_virtual_data := f_virtual_data f |}.
Definition on_ip_address g (f : node_form) :=
  {| f_hostname := f_hostname f; f_ip_address := g (f_ip_address f); f_node_type := f_node_type f;
     f_deployment_type := f_deployment_type f; f_mac_address := f_mac_address f;
     f_raid0_override := f_raid0_override f; f_virtual_cpu := f_virtual_cpu f; f_virtual_mem := f_virtual_mem f;
     f_virtual_os := f_virtual_os f; f_virtual_data := f_virtual_data f |}.
Definition on_node_type g (f : node_form) :=
  {| f_hostname := f_hostname f; f_ip_address := f_ip_address f; f_node_type := g (f_node_type f);
     f_deployment_type := f_deployment_type f; f_mac_address := f_mac_address f;
     f_raid0_override := f_raid0_override f; f_virtual_cpu := f_virtual_cpu f; f_virtual_mem := f_virtual_mem f;
     f_virtual_os := f_virtual_os f; f_virtual_data := f_virtual_data f |}.
Definition on_deployment_type g (f : node_form) :=
  {| f_hostname := f_hostname f; f_ip_address := f_ip_address f; f_node_type := f_node_type f;
     f_deployment_type := g (f_deployment_type f); f_mac_address := f_mac_address f;
     f_raid0_override := f_raid0_override f; f_virtual_cpu := f_virtual_cpu f; f_virtual_mem := f_virtual_mem f;
     f_virtual_os := f_virtual_os f; f_virtual_data := f_virtual_data f |}.
Definition on_mac_address g (f : node_form) :=
  {| f_hostname := f_hostname f; f_ip_address := f_ip_address f; f_node_type := f_node_type f;
     f_deployment_type := f_deployment_type f; f_mac_address := g (f_mac_address f);
     f_raid0_override := f_raid0_override f; f_virtual_cpu := f_virtual_cpu f; f_virtual_mem := f_virtual_mem f;
     f_virtual_os := f_virtual_os f; f_virtual_data := f_virtual_data f |}.
Definition on_raid0_override g (f : node_form) :=
  {| f_hostname := f_hostname f; f_ip_address := f_ip_address f; f_node_type := f_node_type f;
     f_deployment_type := f_deployment_type f; f_mac_address := f_mac_address f;
     f_raid0_override := g (f_raid0_override f); f_virtual_cpu := f_virtual_cpu f; f_virtual_mem := f_virtual_mem f;
     f_virtual_os := f_virtual_os f; f_virtual_data := f_virtual_data f |}.
(** The fields of the virtual machine, the last of which may be removed. *)
Definition on_virtual g h (f : node_form) :=
  {| f_hostname := f_hostname f; f_ip_address := f_ip_address f; f_node_type := f_node_type f;
     f_deployment_type := f_deployment_type f; f_mac_address := f_mac_address f;
     f_raid0_override := f_raid0_override f; f_virtual_cpu := g 0%nat (f_virtual_cpu f);
     f_virtual_mem := g 1%nat (f_virtual_mem f); f_virtual_os := g 2%nat (f_virtual_os f);
     f_virtual_data := h (f_virtual_data f) |}.

(** [getRawValue()]: a control that was removed is not in it. *)
Definition getRawValue (f : node_form) : jsval :=
  JObj ([("hostname", c_value (f_hostname f)); ("ip_address", c_value (f_ip_address f));
         ("node_type", c_value (f_node_type f)); ("deployment_type", c_value (f_deployment_type f));
         ("mac_address", c_value (f_mac_address f)); ("raid0_override", c_value (f_raid0_override f));
         ("virtual_cpu", c_value (f_virtual_cpu f)); ("virtual_mem", c_value (f_virtual_mem f));
         ("virtual_os", c_value (f_virtual_os f))] ++
        match f_virtual_data f with Some c => [("virtual_data", c_value c)] | None => [] end).

(** ** virtual-node-form.component.ts *)

Definition set_virtual_group_values_ (cpu_cores memory_size os_drive_size : Z) (data_drive_size : option Z)
    : node_form -> node_form :=
  on_virtual (fun i => setValue (JNum (match i with 0 => cpu_cores | 1 => memory_size | _ => os_drive_size end)))
    (fun _ => match data_drive_size with Some n => Some (new_FormControl (JNum n) None) | None => None end).

Definition set_default_values (node_type : option string) : node_form -> node_form :=
  if (node_type ?=== SERVER) || (node_type ?=== SENSOR) then set_virtual_group_values_ 16 32 100 (Some 500%Z)
  else if node_type ?=== SERVICE then set_virtual_group_values_ 16 24 100 (Some 500%Z)
  else if node_type ?=== MIP then set_virtual_group_values_ 8 8 500 None
  else if node_type ?=== MINIO then set_virtual_group_values_ 8 8 100 (Some 10000%Z)
  else if node_type ?=== CONTROL_PLANE then set_virtual_group_values_ 8 8 50 None
  else fun f => f.

Definition rules_of (l : list ValidatorObjectInterface) : option check := Some {| rules := l; forbidden := None |}.

(** [event.value] is the value of the radio button that was chosen, whichever
    group it belongs to. *)
Definition set_virtual_form_validation (event : string) : node_form -> node_form :=
  let set k c := marked false false (setValidators (if event === VIRTUAL then rules_of k else None) c) in
  on_virtual
    (fun i => set (match i with
                   | 0 => addNodeValidators_virtual_cpu
                   | 1 => addNodeValidators_virtual_mem
                   | _ => addNodeValidators_virtual_os_drive
                   end))
    (fmap (set addNodeValidators_virtual_data_drive)).

Definition has_data_drive (f : node_form) : bool := notUndefNull (f_virtual_data f).

(** ** The dialog *)

Inductive call : Type :=
| CGetKitStatus
| CGetGeneralSettings
| CGetUnused (controller_interface netmask : option string) (initialize_node_form_group_after_call : bool)
| CGetUsed (controller_interface netmask : option string) (initialize_node_form_group_after_call : bool)
| CAddNode (payload : jsval).

Definition Ans (c : call) : Type :=
  match c with
  | CGetKitStatus => answer KitStatusClass
  | CGetGeneralSettings => answer (option GeneralSettingsClass)
  | CGetUnused _ _ _ | CGetUsed _ _ _ => answer (list string)
  | CAddNode _ => answer GenericJobAndKeyClass
  end.

Inductive page : Type := CloseDialog.

(** [validation_hostnames_], [validation_ips_] and [validation_macs_] are
    references to arrays; [closed] ends the subscriptions. *)
Record AddNodeDialogComponent := {
  node_form_group : option node_form;
  control_plane_node_detected : bool;
  minio_node_detected : bool;
  available_ips : list string;
  used_ips_ : option (list jsval);
  node_type : option string;
  deployment_options : list MatOptionInterface;
  create_duplicate_ : bool;
  settings_ : option GeneralSettingsClass;
  kit_status_ : KitStatusClass;
  kit_settings_ : option KitSettingsClass;
  nodes_ : list NodeClass;
  setup_nodes_ : list NodeClass;
  validation_hostnames_ : loc;
  validation_ips_ : loc;
  validation_k8_ips_ : list string;
  validation_macs_ : loc;
  wait_for_new_ips_ : bool;
  arrays : store (list jsval);
  closed : bool;
}.

Definition with_form v (s : AddNodeDialogComponent) :=
  {| node_form_group := v; control_plane_node_detected := control_plane_node_detected s;
     minio_node_detected := minio_node_detected s; available_ips := available_ips s;
     used_ips_ := used_ips_ s; node_type := node_type s; deployment_options := deployment_options s;
     create_duplicate_ := create_duplicate_ s; settings_ := settings_ s; kit_status_ := kit_status_ s;
     kit_settings_ := kit_settings_ s; nodes_ := nodes_ s; setup_nodes_ := setup_nodes_ s;
     validation_hostnames_ := validation_hostnames_ s; validation_ips_ := validation_ips_ s;
     validation_k8_ips_ := validation_k8_ips_ s; validation_macs_ := validation_macs_ s;
     wait_for_new_ips_ := wait_for_new_ips_ s; arrays := arrays s; closed := closed s |}.
Definition with_detected v w (s : AddNodeDialogComponent) :=
  {| node_form_group := node_form_group s; control_plane_node_detected := v; minio_node_detected := w;
     available_ips := available_ips s; used_ips_ := used_ips_ s; node_type := node_type s;
     deployment_options := deployment_options s; create_duplicate_ := create_duplicate_ s;
     settings_ := settings_ s; kit_status_ := kit_status_ s; kit_settings_ := kit_settings_ s;
     nodes_ := nodes_ s; setup_nodes_ := setup_nodes_ s; validation_hostnames_ := validation_hostnames_ s;
     validation_ips_ := validation_ips_ s; validation_k8_ips_ := validation_k8_ips_ s;
     validation_macs_ := validation_macs_ s; wait_for_new_ips_ := wait_for_new_ips_ s; arrays := arrays s;
     closed := closed s |}.
Definition with_available v (s : AddNodeDialogComponent) :=
  {| node_form_group := node_form_group s; control_plane_node_detected := control_plane_node_detected s;
     minio_node_detected := minio_node_detected s; available_ips := v; used_ips_ := used_ips_ s;
     node_type := node_type s; deployment_options := deployment_options s;
     create_duplicate_ := create_duplicate_ s; settings_ := settings_ s; kit_status_ := kit_status_ s;
     kit_settings_ := kit_settings_ s; nodes_ := nodes_ s; setup_nodes_ := setup_nodes_ s;
     validation_hostnames_ := validation_hostnames_ s; validation_ips_ := validation_ips_ s;
     validation_k8_ips_ := validation_k8_ips_ s; validation_macs_ := validation_macs_ s;
     wait_for_new_ips_ := wait_for_new_ips_ s; arrays := arrays s; closed := closed s |}.
Definition with_used v (s : AddNodeDialogComponent) :=
  {| node_form_group := node_form_group s; control_plane_node_detected := control_plane_node_detected s;
     minio_node_detected := minio_node_detected s; available_ips := available_ips s; used_ips_ := v;
     node_type := node_type s; deployment_options := deployment_options s;
     create_duplicate_ := create_duplicate_ s; settings_ := settings_ s; kit_status_ := kit_status_ s;
     kit_settings_ := kit_settings_ s; nodes_ := nodes_ s; setup_nodes_ := setup_nodes_ s;
     validation_hostnames_ := validation_hostnames_ s; validation_ips_ := validation_ips_ s;
     validation_k8_ips_ := validation_k8_ips_ s; validation_macs_ := validation_macs_ s;
     wait_for_new_ips_ := wait_for_new_ips_ s; arrays := arrays s; closed := closed s |}.
Definition with_type v w (s : AddNodeDialogComponent) :=
  {| node_form_group := node_form_group s; control_plane_node_detected := control_plane_node_detected s;
     minio_node_detected := minio_node_detected s; available_ips := available_ips s;
     used_ips_ := used_ips_ s; node_type := v; deployment_options := w;
     create_duplicate_ := create_duplicate_ s; settings_ := settings_ s; kit_status_ := kit_status_ s;
     kit_settings_ := kit_settings_ s; nodes_ := nodes_ s; setup_nodes_ := setup_nodes_ s;
     validation_hostnames_ := validation_hostnames_ s; validation_ips_ := validation_ips_ s;
     validation_k8_ips_ := validation_k8_ips_ s; validation_macs_ := validation_macs_ s;
     wait_for_new_ips_ := wait_for_new_ips_ s; arrays := arrays s; closed := closed s |}.
Definition with_duplicate v (s : AddNodeDialogComponent) :=
  {| node_form_group := node_form_group s; control_plane_node_detected := control_plane_node_detected s;
     minio_node_detected := minio_node_detected s; available_ips := available_ips s;
     used_ips_ := used_ips_ s; node_type := node_type s; deployment_options := deployment_options s;
     create_duplicate_ := v; settings_ := settings_ s; kit_status_ := kit_status_ s;
     kit_settings_ := kit_settings_ s; nodes_ := nodes_ s; setup_nodes_ := setup_nodes_ s;
     validation_hostnames_ := validation_hostnames_ s; validation_ips_ := validation_ips_ s;
     validation_k8_ips_ := validation_k8_ips_ s; validation_macs_ := validation_macs_ s;
     wait_for_new_ips_ := wait_for_new_ips_ s; arrays := arrays s; closed := closed s |}.
Definition with_settings v (s : AddNodeDialogComponent) :=
  {| node_form_group := node_form_group s; control_plane_node_detected := control_plane_node_detected s;
     minio_node_detected := minio_node_detected s; available_ips := available_ips s;
     used_ips_ := used_ips_ s; node_type := node_type s; deployment_options := deployment_options s;
     create_duplicate_ := create_duplicate_ s; settings_ := v; kit_status_ := kit_status_ s;
     kit_settings_ := kit_settings_ s; nodes_ := nodes_ s; setup_nodes_ := setup_nodes_ s;
     validation_hostnames_ := validation_hostnames_ s; validation_ips_ := validation_ips_ s;
     validation_k8_ips_ := validation_k8_ips_ s; validation_macs_ := validation_macs_ s;
     wait_for_new_ips_ := wait_for_new_ips_ s; arrays := arrays s; closed := closed s |}.
Definition with_kit_status v (s : AddNodeDialogComponent) :=
  {| node_form_group := node_form_group s; control_plane_node_detected := control_plane_node_detected s;
     minio_node_detected := minio_node_detected s; available_ips := available_ips s;
     used_ips_ := used_ips_ s; node_type := node_type s; deployment_options := deployment_options s;
     create_duplicate_ := create_duplicate_ s; settings_ := settings_ s; kit_status_ := v;
     kit_settings_ := kit_settings_ s; nodes_ := nodes_ s; setup_nodes_ := setup_nodes_ s;
     validation_hostnames_ := validation_hostnames_ s; validation_ips_ := validation_ips_ s;
     validation_k8_ips_ := validation_k8_ips_ s; validation_macs_ := validation_macs_ s;
     wait_for_new_ips_ := wait_for_new_ips_ s; arrays := arrays s; closed := closed s |}.
Definition with_k8 v (s : AddNodeDialogComponent) :=
  {| node_form_group := node_form_group s; control_plane_node_detected := control_plane_node_detected s;
     minio_node_detected := minio_node_detected s; available_ips := available_ips s;
     used_ips_ := used_ips_ s; node_type := node_type s; deployment_options := deployment_options s;
     create_duplicate_ := create_duplicate_ s; settings_ := settings_ s; kit_status_ := kit_status_ s;
     kit_settings_ := kit_settings_ s; nodes_ := nodes_ s; setup_nodes_ := setup_nodes_ s;
     validation_hostnames_ := validation_hostnames_ s; validation_ips_ := validation_ips_ s;
     validation_k8_ips_ := v; validation_macs_ := validation_macs_ s;
     wait_for_new_ips_ := wait_for_new_ips_ s; arrays := arrays s; closed := closed s |}.
Definition with_refs p q r h (s : AddNodeDialogComponent) :=
  {| node_form_group := node_form_group s; control_plane_node_detected := control_plane_node_detected s;
     minio_node_detected := minio_node_detected s; available_ips := available_ips s;
     used_ips_ := used_ips_ s; node_type := node_type s; deployment_options := deployment_options s;
     create_duplicate_ := create_duplicate_ s; settings_ := settings_ s; kit_status_ := kit_status_ s;
     kit_settings_ := kit_settings_ s; nodes_ := nodes_ s; setup_nodes_ := setup_nodes_ s;
     validation_hostnames_ := p; validation_ips_ := q; validation_k8_ips_ := validation_k8_ips_ s;
     validation_macs_ := r; wait_for_new_ips_ := wait_for_new_ips_ s; arrays := h; closed := closed s |}.
Definition with_arrays h (s : AddNodeDialogComponent) :=
  {| node_form_group := node_form_group s; control_plane_node_detected := control_plane_node_detected s;
     minio_node_detected := minio_node_detected s; available_ips := available_ips s;
     used_ips_ := used_ips_ s; node_type := node_type s; deployment_options := deployment_options s;
     create_duplicate_ := create_duplicate_ s; settings_ := settings_ s; kit_status_ := kit_status_ s;
     kit_settings_ := kit_settings_ s; nodes_ := nodes_ s; setup_nodes_ := setup_nodes_ s;
     validation_hostnames_ := validation_hostnames_ s; validation_ips_ := validation_ips_ s;
     validation_k8_ips_ := validation_k8_ips_ s; validation_macs_ := validation_macs_ s;
     wait_for_new_ips_ := wait_for_new_ips_ s; arrays := h; closed := closed s |}.
Definition with_wait v (s : AddNodeDialogComponent) :=
  {| node_form_group := node_form_group s; control_plane_node_detected := control_plane_node_detected s;
     minio_node_detected := minio_node_detected s; available_ips := available_ips s;
     used_ips_ := used_ips_ s; node_type := node_type s; deployment_options := deployment_options s;
     create_duplicate_ := create_duplicate_ s; settings_ := settings_ s; kit_status_ := kit_status_ s;
     kit_settings_ := kit_settings_ s; nodes_ := nodes_ s; setup_nodes_ := setup_nodes_ s;
     validation_hostnames_ := validation_hostnames_ s; validation_ips_ := validation_ips_ s;
     validation_k8_ips_ := validation_k8_ips_ s; validation_macs_ := validation_macs_ s;
     wait_for_new_ips_ := v; arrays := arrays s; closed := closed s |}.
Definition with_closed v (s : AddNodeDialogComponent) :=
  {| node_form_group := node_form_group s; control_plane_node_detected := control_plane_node_detected s;
     minio_node_detected := minio_node_detected s; available_ips := available_ips s;
     used_ips_ := used_ips_ s; node_type := node_type s; deployment_options := deployment_options s;
     create_duplicate_ := create_duplicate_ s; settings_ := settings_ s; kit_status_ := kit_status_ s;
     kit_settings_ := kit_settings_ s; nodes_ := nodes_ s; setup_nodes_ := setup_nodes_ s;
     validation_hostnames_ := validation_hostnames_ s; validation_ips_ := validation_ips_ s;
     validation_k8_ips_ := validation_k8_ips_ s; validation_macs_ := validation_macs_ s;
     wait_for_new_ips_ := wait_for_new_ips_ s; arrays := arrays s; closed := v |}.

Abbreviation M := (handler AddNodeDialogComponent (effect call page)).

(** [new AddNodeDialogComponent(...)] with the data of the page; the three empty
    arrays are distinct. *)
Definition constructor (kit_settings : option KitSettingsClass) (nodes setup_nodes : list NodeClass)
    : AddNodeDialogComponent :=
  let '(ps, h) := alloc_list [[]; []; []] store_empty in
  {| node_form_group := None; control_plane_node_detected := false; minio_node_detected := false;
     available_ips := []; used_ips_ := None; node_type := None; deployment_options := [];
     create_duplicate_ := false; settings_ := Some empty_settings; kit_status_ := empty_kit_status;
     kit_settings_ := kit_settings; nodes_ := nodes; setup_nodes_ := setup_nodes;
     validation_hostnames_ := nth 0 ps 0; validation_ips_ := nth 1 ps 0; validation_k8_ips_ := [];
     validation_macs_ := nth 2 ps 0; wait_for_new_ips_ := true; arrays := h; closed := false |}.

(** The dialog the page opens, on the nodes its tables hold. *)
Definition opened_by (p : NodeManagementComponent) : AddNodeDialogComponent :=
  constructor (NodeMng.kit_settings_ p) (omap (load (heap p)) (nodes p)) (omap (load (heap p)) (setup_nodes p)).

Definition get : M AddNodeDialogComponent := gets (fun s => s).
(** [this.node_form_group], when it is there. *)
Definition form : M node_form := s <- get ;; deref (node_form_group s).
Definition change_form (g : node_form -> node_form) : M unit :=
  f <- form ;; modify (with_form (Some (g f))).
Definition array_at (p : loc) : M (list jsval) := s <- get ;; deref (load (arrays s) p).
Definition push (p : loc) (v : jsval) : M unit :=
  modify (fun s => with_arrays (update p (fun l => l ++ [v]) (arrays s)) s).

Definition checked (rules : list ValidatorObjectInterface) (array : loc) : option check :=
  Some {| rules := rules; forbidden := Some array |}.

(** What a validator says of its control now. *)
Definition validate (s : AddNodeDialogComponent) (c : control) : outcome (option validation_error) :=
  check_verdict (arrays s) (c_validator c) (c_value c) (c_touched c).

(** *** Questions of the template *)

(** [get('deployment_type')] exists in every form of the dialog. *)
Definition deployment_is (t : string) (s : AddNodeDialogComponent) : bool :=
  match node_form_group s with
  | Some f => strict_eq (c_value (f_deployment_type f)) (JStr t)
  | None => false
  end.
Definition is_baremetal_deployment : AddNodeDialogComponent -> bool := deployment_is BAREMETAL.
Definition is_virtual_machine_deployment : AddNodeDialogComponent -> bool := deployment_is VIRTUAL.
Definition is_iso_sensor_deployment : AddNodeDialogComponent -> bool := deployment_is ISO.
Definition can_display_ips (s : AddNodeDialogComponent) : bool := wait_for_new_ips_ s.
Definition check_not_node_type (s : AddNodeDialogComponent) : bool :=
  negb (node_type s ?=== CONTROL_PLANE) && negb (node_type s ?=== MINIO).

(** *** Forms *)

Definition initialize_node_form_group_ (previous : option node_form) : M unit :=
  s <- get ;;
  match previous with
  | None =>
      let f :=
        {| f_hostname := new_FormControl (JStr "") (checked addNodeValidators_hostname (validation_hostnames_ s));
           f_ip_address := new_FormControl (JStr "") (checked addNodeValidators_ip_address (validation_ips_ s));
           f_node_type := new_FormControl JUndefined (rules_of COMMON_VALIDATORS_required);
           f_deployment_type := new_FormControl JUndefined (rules_of COMMON_VALIDATORS_required);
           f_mac_address := new_FormControl JUndefined None;
           f_raid0_override := new_FormControl (JBool false) None;
           f_virtual_cpu := new_FormControl JUndefined None;
           f_virtual_mem := new_FormControl JUndefined None;
           f_virtual_os := new_FormControl JUndefined None;
           f_virtual_data := Some (new_FormControl JUndefined None) |} in
      modify (with_form (Some f))
  | Some p =>
      (* the previous form may have lost its data drive *)
      data <- deref (f_virtual_data p) ;;
      let again c k := marked true false (new_FormControl (c_value c) k) in
      let mac := if strict_eq (c_value (f_deployment_type p)) (JStr BAREMETAL)
                 then checked addNodeValidators_mac_address (validation_macs_ s) else None in
      let f :=
        {| f_hostname := again (f_hostname p) (checked addNodeValidators_hostname (validation_hostnames_ s));
           f_ip_address := marked true false
             (new_FormControl (JStr "") (checked addNodeValidators_ip_address (validation_ips_ s)));
           f_node_type := again (f_node_type p) (rules_of COMMON_VALIDATORS_required);
           f_deployment_type := marked true true
             (new_FormControl (c_value (f_deployment_type p)) (rules_of COMMON_VALIDATORS_required));
           f_mac_address := again (f_mac_address p) mac;
           f_raid0_override := again (f_raid0_override p) None;
           f_virtual_cpu := again (f_virtual_cpu p) None;
           f_virtual_mem := again (f_virtual_mem p) None;
           f_virtual_os := again (f_virtual_os p) None;
           f_virtual_data := Some (again data None) |} in
      modify (with_form (Some f))
  end.

Definition update_node_type_radio_options_ : M unit :=
  s <- get ;;
  modify (with_detected
    (control_plane_node_detected s || existsb (fun n => Data.node_type n === CONTROL_PLANE) (setup_nodes_ s))
    (minio_node_detected s || existsb (fun n => Data.node_type n === MINIO) (nodes_ s))).

Definition set_baremetal_validation_ (event : string) : M unit :=
  s <- get ;;
  change_form (on_mac_address (fun c => marked false false (setValidators
    (if event === BAREMETAL then checked addNodeValidators_mac_address (validation_macs_ s) else None) c))).

(** *** Addresses *)

(** [k8s_ip[i]] printed in a concatenation. *)
Definition part (l : list string) (i : nat) : string := default "undefined" (l !! i).

(** The addresses from the last octet of the service network on; the loop does
    not start when that octet is no number. *)
Definition k8_ips (cidr : string) : list string :=
  let k8s_ip := split_on "." cidr in
  match (k8s_ip !! 3) ≫= parseInt10 with
  | Some start_ip =>
      (fun i => part k8s_ip 0 +:+ "." +:+ part k8s_ip 1 +:+ "." +:+ part k8s_ip 2 +:+ "." +:+
                pretty (start_ip + Z.of_nat i)%Z) <$> seq 0 32
  | None => []
  end.

Definition save_k8_ips_ : M unit :=
  modify (with_k8 []) ;;;
  s <- get ;;
  k <- deref (kit_settings_ s) ;;
  modify (with_k8 (k8_ips (kubernetes_services_cidr k))).

(** [s.substring(0, s.lastIndexOf('.') + 1)] *)
Fixpoint to_last_dot (s : string) : string :=
  match s with
  | EmptyString => EmptyString
  | String c r => match to_last_dot r with
                  | EmptyString => if Ascii.eqb c "." then String c "" else ""
                  | r' => String c r'
                  end
  end.

(** The addresses the dialog offers for a type of node in the network of the
    controller. *)
Definition candidate_ips (controller_interface : string) (node_type : string) : list string :=
  let last := (node_type === SENSOR) || (node_type === MINIO) in
  let offset := if last then 50%Z else 40%Z in
  let number_of_addrs := if last then 46 else 10 in
  (fun i => to_last_dot controller_interface +:+ pretty (Z.of_nat i + offset)%Z) <$> seq 0 number_of_addrs.

Definition update_available_hostname_ip_and_mac_addresses_ : M unit :=
  s <- get ;;
  match settings_ s ≫= controller_interface, node_type s with
  | Some ci, Some t =>
      if (ci === "") || (t === "") then ret tt
      else
        change_form (on_hostname (setValidators (checked addNodeValidators_hostname (validation_hostnames_ s)))) ;;;
        change_form (on_ip_address (fun c =>
          marked false false (setValidators (checked addNodeValidators_ip_address (validation_ips_ s)) (reset c)))) ;;;
        when (is_baremetal_deployment s)
          (change_form (on_mac_address (fun c =>
            marked false false (setValidators (checked addNodeValidators_mac_address (validation_macs_ s)) (reset c))))) ;;;
        l <- array_at (validation_ips_ s) ;;
        modify (with_available
          (List.filter (fun ip => negb (existsb (fun v => strict_eq v (JStr ip)) l)) (candidate_ips ci t))) ;;;
        modify (with_wait false)
  | _, _ => ret tt
  end.

Definition update_validation_refs_ (call_initialize_node_form_group : bool) : M unit :=
  s <- get ;;
  used <- deref (used_ips_ s) ;;
  let names := (fun n => JStr (part (split_on "." (hostname n)) 0)) <$> nodes_ s in
  let ips := remove_duplicate_entries
    (((fun n => JStr (ip_address n)) <$> nodes_ s) ++ (JStr <$> validation_k8_ips_ s) ++ used) in
  let macs := (fun n => JStr (mac_address n)) <$> nodes_ s in
  let '(ps, h) := alloc_list [names; ips; macs] (arrays s) in
  modify (with_refs (nth 0 ps 0) (nth 1 ps 0) (nth 2 ps 0) h) ;;;
  if call_initialize_node_form_group then initialize_node_form_group_ None
  else update_available_hostname_ip_and_mac_addresses_.

(** *** Requests *)

Definition api_get_kit_status_ : M unit := emit (Subscribe CGetKitStatus).
Definition api_get_general_settings_ : M unit := emit (Subscribe CGetGeneralSettings).

(** Settings that are undefined throw. *)
Definition api_get_unused_ip_addresses_ (initialize : bool) : M unit :=
  s <- get ;;
  g <- deref (settings_ s) ;;
  emit (Subscribe (CGetUnused (controller_interface g) (gs_netmask g) initialize)).
Definition api_get_used_ip_addresses_ (initialize : bool) : M unit :=
  s <- get ;;
  g <- deref (settings_ s) ;;
  emit (Subscribe (CGetUsed (controller_interface g) (gs_netmask g) initialize)).

Definition api_get_kit_status_answer (a : answer KitStatusClass) : M unit :=
  match a with
  | Next response => modify (with_kit_status response) ;;; api_get_general_settings_
  | Error e => on_error_message "retrieving kit status" e
  end.

Definition api_get_general_settings_answer (a : answer (option GeneralSettingsClass)) : M unit :=
  match a with
  | Next response =>
      modify (with_settings response) ;;; modify (with_wait true) ;;; api_get_unused_ip_addresses_ true
  | Error e => on_error_message "retrieving general settings" e
  end.

Definition api_get_unused_ip_addresses_answer (initialize : bool) (a : answer (list string)) : M unit :=
  match a with
  | Next response => modify (with_available response) ;;; api_get_used_ip_addresses_ initialize
  | Error e => on_error_message "retrieving unused ip addresses" e
  end.

Definition api_get_used_ip_addresses_answer (initialize : bool) (a : answer (list string)) : M unit :=
  match a with
  | Next response => modify (with_used (Some (JStr <$> response))) ;;; update_validation_refs_ initialize
  | Error e => on_error_message "retrieving unused ip addresses" e
  end.

Definition api_add_node_ : M unit := f <- form ;; emit (Subscribe (CAddNode (getRawValue f))).

Definition cancel : M unit := modify (with_closed true) ;;; emit (Page CloseDialog).

Definition api_add_node_answer (a : answer GenericJobAndKeyClass) : M unit :=
  match a with
  | Next _ =>
      s <- get ;;
      (if create_duplicate_ s then
         f <- form ;;
         let ip := c_value (f_ip_address f) in
         modify (fun s => with_available (List.filter (fun x => negb (strict_eq (JStr x) ip)) (available_ips s)) s) ;;;
         used <- deref (used_ips_ s) ;;
         modify (with_used (Some (used ++ [ip]))) ;;;
         push (validation_ips_ s) ip ;;;
         push (validation_hostnames_ s) (c_value (f_hostname f)) ;;;
         when (defined (c_value (f_mac_address f))) (push (validation_macs_ s) (c_value (f_mac_address f))) ;;;
         initialize_node_form_group_ (Some f)
       else cancel) ;;;
      f <- form ;;
      generate_return_success_snackbar_message
        ("started node creation job for " +:+ js_to_string (c_value (f_hostname f)) +:+ ".")
        (Some MAT_SNACKBAR_CONFIGURATION_60000_DUR_DISMISS)
  | Error (ErrorMessageClass m) => displaySnackBar (js_to_string m) (Some MAT_SNACKBAR_CONFIGURATION_60000_DUR)
  | Error (PostValidationClass v) => show_post_validation v
  | Error e => on_error "adding node" e
  end.

(** *** Actions *)

Definition ngOnInit : M unit :=
  update_node_type_radio_options_ ;;; save_k8_ips_ ;;; api_get_kit_status_.

Definition change_node_type (event : string) : M unit :=
  s <- get ;;
  let options := [option_baremetal; option_virtual (negb (truthy (esxi_settings_configured (kit_status_ s))))] ++
                 (if event === SENSOR then [option_iso] else []) in
  change_form (on_node_type (fun c => marked true (c_dirty c) c)) ;;;
  modify (with_type (Some event) options) ;;;
  when ((event === CONTROL_PLANE) || (event === MINIO)) (modify (with_duplicate false)) ;;;
  s <- get ;;
  when (is_virtual_machine_deployment s)
    (change_form (set_default_values (node_type s)) ;;; change_form (set_virtual_form_validation event)) ;;;
  update_available_hostname_ip_and_mac_addresses_.

Definition change_deployment_type (event : string) : M unit :=
  modify (with_wait true) ;;;
  api_get_unused_ip_addresses_ false ;;;
  set_baremetal_validation_ event ;;;
  s <- get ;;
  when (event === VIRTUAL)
    (change_form (set_default_values (node_type s)) ;;; change_form (set_virtual_form_validation event)).

Definition add : M unit := api_add_node_.
Definition change_duplicate_node (checked : bool) : M unit := modify (with_duplicate checked).

(** What the user does to a control; a radio button sets its control before the
    dialog's handler runs. *)
Inductive field := Hostname | IpAddress | MacAddress | Raid0Override | VirtualField (i : nat) | VirtualData.

Definition fill (x : field) (v : jsval) : node_form -> node_form :=
  let input c := marked true true (setValue v c) in
  match x with
  | Hostname => on_hostname input
  | IpAddress => on_ip_address input
  | MacAddress => on_mac_address input
  | Raid0Override => on_raid0_override input
  | VirtualField i => on_virtual (fun j => if Nat.eqb i j then input else id) id
  | VirtualData => on_virtual (fun _ => id) (fmap input)
  end.

Inductive event : Type :=
| NgOnInit
| ChangeNodeType (v : string)
| ChangeDeploymentType (v : string)
| Fill (x : field) (v : jsval)
| ChangeDuplicateNode (checked : bool)
| Add
| Cancel.

Definition while_open (m : M unit) : M unit := s <- get ;; (if closed s then ret tt else m).

Definition on_ev (e : event) : M unit :=
  match e with
  | NgOnInit => ngOnInit
  | ChangeNodeType v => change_form (on_node_type (fun c => marked (c_touched c) true (setValue (JStr v) c))) ;;; change_node_type v
  | ChangeDeploymentType v =>
      change_form (on_deployment_type (fun c => marked (c_touched c) true (setValue (JStr v) c))) ;;; change_deployment_type v
  | Fill x v => change_form (fill x v)
  | ChangeDuplicateNode b => change_duplicate_node b
  | Add => add
  | Cancel => cancel
  end.

Definition on_ans (c : call) : Ans c -> M unit :=
  match c with
  | CGetKitStatus => api_get_kit_status_answer
  | CGetGeneralSettings => api_get_general_settings_answer
  | CGetUnused _ _ b => api_get_unused_ip_addresses_answer b
  | CGetUsed _ _ b => api_get_used_ip_addresses_answer b
  | CAddNode _ => api_add_node_answer
  end.

#[export] Instance AddNodeDialog (kit_settings : option KitSettingsClass) (nodes setup_nodes : list NodeClass)
    : Component AddNodeDialogComponent call page event Ans := {|
  initial := constructor kit_settings nodes setup_nodes;
  on_event e := while_open (on_ev e);
  on_answer c a := while_open (on_ans c a);
|}.

(** ** Messages *)

(** What the user reads when the controller refuses a node.  Errors by field
    are one line each, fields apart by an empty line, in the order of the
    response; but a list of messages starts with the text "undefined", because
    the text is built by appending to a variable that was never assigned. *)
Theorem post_validation_messages (s : AddNodeDialogComponent) (fields : list (string * list jsval)) m l :
  api_add_node_answer (Error (PostValidationClass
    (JObj ((fun x : string * list jsval => (fst x, JArr (snd x))) <$> fields)))) s =
    (Ret tt, s, [DisplaySnackBar (join_with (newline +:+ newline)
       ((fun x : string * list jsval => join_with newline
           ((fun e => fst x +:+ ":     " +:+ js_to_string e) <$> snd x)) <$> fields))
       (Some MAT_SNACKBAR_CONFIGURATION_60000_DUR)]) /\
  api_add_node_answer (Error (PostValidationClass (JArr (m :: l)))) s =
    (Ret tt, s, [DisplaySnackBar ("undefined" +:+ join_with newline (js_to_string <$> m :: l))
       (Some MAT_SNACKBAR_CONFIGURATION_60000_DUR)]).
Proof.
  split; unfold api_add_node_answer, show_post_validation.
  - unfold construct_post_validation_error_message_. by rewrite append_keys_join.
  - cbn [append_messages default]. rewrite append_messages_join. cbn [default].
    unfold displaySnackBar, emit. repeat f_equal.
    destruct l as [|x l]; cbn [fmap list_fmap join_with]; [by rewrite text_app_nil|].
    by rewrite <- !text_app_assoc.
Qed.

(** ** Addresses *)

Lemma to_last_dot_app a d : contains "." d = false -> to_last_dot (a +:+ String "." d) = a +:+ ".".
Proof.
  intros Hd. induction a as [|c a IH].
  - change (to_last_dot (String "." d) = "."). simpl.
    assert (to_last_dot d = "") as ->; [|done]. revert Hd. unfold contains.
    induction d as [|c d IH]; [done|]. cbn [String.list_ascii_of_string existsb to_last_dot].
    intros [H1 H2]%orb_false_iff. rewrite (IH H2). by rewrite Ascii.eqb_sym, H1.
  - change (to_last_dot (String c (a +:+ String "." d)) = String c (a +:+ ".")). cbn [to_last_dot].
    rewrite IH. by destruct a.
Qed.

Lemma octets_last x n : (0 <= n < 256)%Z ->
  octets (x / 256 * 256 + n) = [octet x 3; octet x 2; octet x 1; n].
Proof.
  intros Hn. assert (E : forall k, (0 <= k)%Z ->
    ((x / 256 * 256 + n) / 2 ^ (8 + k) = x / 2 ^ (8 + k))%Z).
  { intros k Hk. rewrite Z.pow_add_r by lia. change (2 ^ 8)%Z with 256%Z.
    pose proof (Z.pow_pos_nonneg 2 k). rewrite <- !Z.div_div by lia.
    by rewrite Z.div_add_l, (Z.div_small n), Z.add_0_r by lia. }
  unfold octets, octet. change (8 * 3)%Z with (8 + 16)%Z. change (8 * 2)%Z with (8 + 8)%Z.
  change (8 * 1)%Z with (8 + 0)%Z. rewrite !E by lia. change (2 ^ (8 * 0))%Z with 1%Z.
  do 3 f_equal. f_equal. rewrite Z.div_1_r, (Z.add_comm _ n), Z.mod_add by lia. by apply Z.mod_small.
Qed.

(** The text before the last octet. *)
Definition network_text (x : Z) : string :=
  pretty (octet x 3) +:+ "." +:+ pretty (octet x 2) +:+ "." +:+ pretty (octet x 1) +:+ ".".

Lemma dotted_last x n : (0 <= n < 256)%Z -> dotted (x / 256 * 256 + n) = network_text x +:+ pretty n.
Proof.
  intros Hn. unfold dotted. rewrite octets_last by done. unfold network_text. cbn [fmap list_fmap join_with].
  by rewrite <- !text_app_assoc.
Qed.

Lemma last_octet_eq x : (x / 256 * 256 + octet x 0 = x)%Z.
Proof. unfold octet. change (2 ^ (8 * 0))%Z with 1%Z. rewrite Z.div_1_r. pose proof (Z.div_mod x 256). lia. Qed.

Lemma last_octet_range x i : (0 <= octet x i < 256)%Z.
Proof. unfold octet. apply Z.mod_pos_bound. lia. Qed.

Lemma to_last_dot_dotted x : to_last_dot (dotted x) = network_text x.
Proof.
  pose proof (last_octet_range x 0) as H0. rewrite <- (last_octet_eq x) at 1. rewrite dotted_last by done.
  unfold network_text. rewrite <- !text_app_assoc.
  assert (E : forall a b c d, a +:+ "." +:+ b +:+ "." +:+ c +:+ "." +:+ d = (a +:+ "." +:+ b +:+ "." +:+ c) +:+ String "." d)
    by (intros; by rewrite <- !text_app_assoc).
  rewrite E, to_last_dot_app by apply octet_reads, H0. by rewrite <- !text_app_assoc.
Qed.

(** The last octets offered to a type of node. *)
Definition last_octets (node_type : string) (n : Z) : Prop :=
  if (node_type === SENSOR) || (node_type === MINIO) then (50 <= n < 96)%Z else (40 <= n < 50)%Z.

Lemma candidate_ips_spec x t ip :
  ip ∈ candidate_ips (dotted x) t <-> exists n, last_octets t n /\ ip = dotted (x / 256 * 256 + n).
Proof.
  unfold candidate_ips, last_octets. rewrite to_last_dot_dotted, list_elem_of_fmap.
  assert (H : forall (k : Z) (m : nat), (0 <= k)%Z -> (k + Z.of_nat m <= 256)%Z ->
    (exists i, ip = network_text x +:+ pretty (Z.of_nat i + k)%Z /\ i ∈ seq 0 m) <->
    exists n, (k <= n < k + Z.of_nat m)%Z /\ ip = dotted (x / 256 * 256 + n)).
  { intros k m Hk Hm. split.
    - intros (i & -> & Hi%elem_of_seq). exists (Z.of_nat i + k)%Z. rewrite dotted_last by lia. split; [lia | done].
    - intros (n & Hn & ->). exists (Z.to_nat (n - k)). rewrite dotted_last by lia. rewrite elem_of_seq.
      split; [|lia]. do 2 f_equal. lia. }
  destruct ((t === SENSOR) || (t === MINIO)); rewrite H by lia; done.
Qed.

Lemma forbidden_text l ip :
  existsb (fun v => strict_eq v (JStr ip)) l = true <-> JStr ip ∈ l.
Proof.
  rewrite existsb_exists. setoid_rewrite list_elem_of_In. split.
  - intros (v & Hin & Hv). destruct v; try done. apply seqb_eq in Hv as ->. done.
  - intros Hin. exists (JStr ip). split; [done|]. simpl. apply String.eqb_refl.
Qed.

Lemma run_change_form g s f :
  node_form_group s = Some f -> change_form g s = (Ret tt, with_form (Some (g f)) s, []).
Proof.
  intros Hf. unfold change_form, form, get, bind, gets, deref, modify. cbn. by rewrite Hf.
Qed.

Lemma run_change_form_again g s f :
  change_form g (with_form (Some f) s) = (Ret tt, with_form (Some (g f)) s, []).
Proof. done. Qed.

(** What a ready dialog offers. *)
Lemma update_available_run s f g ci t l :
  node_form_group s = Some f -> settings_ s = Some g -> controller_interface g = Some ci -> ci <> "" ->
  node_type s = Some t -> t <> "" -> load (arrays s) (validation_ips_ s) = Some l ->
  exists f', update_available_hostname_ip_and_mac_addresses_ s =
    (Ret tt, with_wait false (with_available
      (List.filter (fun ip => negb (existsb (fun v => strict_eq v (JStr ip)) l)) (candidate_ips ci t))
      (with_form (Some f') s)), []) /\
    f_virtual_cpu f' = f_virtual_cpu f /\ f_virtual_mem f' = f_virtual_mem f /\ f_virtual_os f' = f_virtual_os f /\
    c_validator (f_hostname f') = checked addNodeValidators_hostname (validation_hostnames_ s) /\
    c_validator (f_ip_address f') = checked addNodeValidators_ip_address (validation_ips_ s).
Proof.
  intros Hf Hg Hci Hne Ht Hnt Hl. unfold update_available_hostname_ip_and_mac_addresses_, get.
  rewrite (bind_run_silent _ _ s s s eq_refl). 
  assert (settings_ s ≫= controller_interface = Some ci) as -> by (rewrite Hg; exact Hci). rewrite Ht.
  rewrite (proj2 (seqb_neq ci "") Hne), (proj2 (seqb_neq t "") Hnt). cbn [orb].
  rewrite (bind_run_silent _ _ _ _ _ (run_change_form _ _ _ Hf)).
  rewrite (bind_run_silent _ _ _ _ _ (run_change_form_again _ _ _)).
  destruct (is_baremetal_deployment s); simpl when.
  - rewrite (bind_run_silent _ _ _ _ _ (run_change_form_again _ _ _)).
    unfold array_at, get, bind, gets, modify. simpl. rewrite Hl. simpl. eexists. split; [reflexivity|]. done.
  - unfold ret at 1. unfold array_at, get, bind, gets, modify. simpl. rewrite Hl. simpl. eexists.
    split; [reflexivity|]. done.
Qed.

Lemma change_node_type_run s f g ci event l :
  node_form_group s = Some f -> settings_ s = Some g -> controller_interface g = Some ci -> ci <> "" ->
  event <> "" -> load (arrays s) (validation_ips_ s) = Some l ->
  exists f' d options, change_node_type event s =
    (Ret tt, with_wait false (with_available
      (List.filter (fun ip => negb (existsb (fun v => strict_eq v (JStr ip)) l)) (candidate_ips ci event))
      (with_form (Some f') (with_duplicate d (with_type (Some event) options s)))), []) /\
    (c_value (f_deployment_type f) = JStr VIRTUAL -> event <> VIRTUAL ->
     c_validator (f_virtual_cpu f') = None /\ c_validator (f_virtual_mem f') = None /\
     c_validator (f_virtual_os f') = None).
Proof.
  intros Hf Hg Hci Hne Hev Hl. unfold change_node_type, get. rewrite (bind_run_silent _ _ s s s eq_refl).
  rewrite (bind_run_silent _ _ _ _ _ (run_change_form _ _ _ Hf)).
  set (f1 := on_node_type _ f).
  set (options := _ ++ _).
  set (d := if (event === CONTROL_PLANE) || (event === MINIO) then false else create_duplicate_ s).
  set (s2 := with_form (Some f1) (with_duplicate d (with_type (Some event) options s))).
  rewrite (bind_run_silent _ _ (with_form (Some f1) s) tt (with_type (Some event) options (with_form (Some f1) s))) by done.
  rewrite (bind_run_silent _ _ (with_type (Some event) options (with_form (Some f1) s)) tt s2)
    by (unfold s2, d; by destruct ((event === CONTROL_PLANE) || (event === MINIO))).
  rewrite (bind_run_silent _ _ s2 s2 s2 eq_refl).
  assert (Hv : is_virtual_machine_deployment s2 = strict_eq (c_value (f_deployment_type f)) (JStr VIRTUAL)) by done.
  set (f2 := if is_virtual_machine_deployment s2
             then set_virtual_form_validation event (set_default_values (node_type s2) f1) else f1).
  rewrite (bind_run_silent _ _ s2 tt (with_form (Some f2) s2)).
  2: { unfold f2. destruct (is_virtual_machine_deployment s2); [|done]. simpl when.
       rewrite (bind_run_silent _ _ _ _ _ (run_change_form _ s2 f1 eq_refl)).
       apply run_change_form_again. }
  destruct (update_available_run (with_form (Some f2) s2) f2 g ci event l) as (f' & E & E1 & E2 & E3 & _); try done.
  rewrite E. exists f', d, options. split; [reflexivity|]. intros Hd He. rewrite E1, E2, E3.
  unfold f2. rewrite Hv, Hd. cbn [strict_eq jsval_eqb]. rewrite String.eqb_refl.
  unfold set_virtual_form_validation. rewrite (proj2 (seqb_neq event VIRTUAL) He). done.
Qed.

Lemma dotted_ne x : dotted x <> "".
Proof.
  rewrite <- (last_octet_eq x), dotted_last by apply last_octet_range. unfold network_text.
  intros H. apply (f_equal String.length) in H. rewrite !text_length_app in H. simpl in H. lia.
Qed.

(** C25: the addresses offered for a new node.  Once a type was chosen, the list
    contains exactly the addresses of the controller's last-octet network from
    .50 to .95 for a sensor or MinIO node and from .40 to .49 for the others,
    less the ones in use; every last octet is a byte, and no address in use is
    offered. *)
Theorem offered_addresses s f g x event l :
  node_form_group s = Some f -> settings_ s = Some g -> controller_interface g = Some (dotted x) ->
  event <> "" -> load (arrays s) (validation_ips_ s) = Some l ->
  let s' := state_of (change_node_type event s) in
  wait_for_new_ips_ s' = false /\
  forall ip, ip ∈ available_ips s' <->
    JStr ip ∉ l /\ exists n, last_octets event n /\ ip = dotted (x / 256 * 256 + n).
Proof.
  intros Hf Hg Hci Hev Hl. cbv zeta.
  destruct (change_node_type_run s f g _ event l Hf Hg Hci (dotted_ne x) Hev Hl) as (f' & d & o & E & _).
  rewrite E. split; [done|]. intros ip. cbn [state_of fst snd with_wait with_available available_ips].
  rewrite list_elem_of_In, filter_In, <- list_elem_of_In, candidate_ips_spec, negb_true_iff.
  rewrite <- not_true_iff_false, forbidden_text. tauto.
Qed.

(** Choosing a node type again drops the checks of a virtual machine.  When
    the deployment type is a virtual machine and the user changes the type of
    the node, the handler asks for the validators of the value of that radio
    button, which is never the virtual one: the fields for processors, memory
    and system drive lose their validators, and any value passes. *)
Theorem node_type_change_drops_validators s f g ci event l v :
  node_form_group s = Some f -> settings_ s = Some g -> controller_interface g = Some ci -> ci <> "" ->
  event <> "" -> event <> VIRTUAL -> load (arrays s) (validation_ips_ s) = Some l ->
  c_value (f_deployment_type f) = JStr VIRTUAL ->
  let s' := state_of (change_node_type event s) in
  exists f', node_form_group s' = Some f' /\
    validate s' (setValue v (f_virtual_cpu f')) = Ret None /\
    validate s' (setValue v (f_virtual_mem f')) = Ret None /\
    validate s' (setValue v (f_virtual_os f')) = Ret None.
Proof.
  intros Hf Hg Hci Hne Hev Hev' Hl Hd. cbv zeta.
  destruct (change_node_type_run s f g ci event l Hf Hg Hci Hne Hev Hl) as (f' & d & o & E & H).
  destruct (H Hd Hev') as (H1 & H2 & H3). rewrite E. exists f'. split; [done|].
  unfold validate. cbn [setValue c_validator]. by rewrite H1, H2, H3.
Qed.

(** The addresses kept for the services of the cluster. *)

Lemma contains_app c a b : contains c (a +:+ b) = contains c a || contains c b.
Proof. unfold contains. by rewrite list_ascii_app, existsb_app. Qed.

Lemma digits_stop base acc s c t v :
  digits base acc s = (v, "") -> digit_in base c = None -> digits base acc (s +:+ String c t) = (v, String c t).
Proof.
  intros Hs Hc. revert acc Hs. induction s as [|x s IH]; intros acc Hs.
  - injection Hs as <-. change ("" +:+ String c t) with (String c t). simpl. by rewrite Hc.
  - change (String x s +:+ String c t) with (String x (s +:+ String c t)). simpl in *.
    destruct (digit_in base x); [by apply IH | done].
Qed.

(** The decimal notation of an octet is read up to a slash. *)
Lemma octet_before_slash o r : (0 <= o < 256)%Z -> parseInt10 (pretty o +:+ String "/" r) = Some o.
Proof.
  intros Ho.
  pose proof (forall_below (fun o =>
    bool_decide (sign (trim_start (pretty o)) = (1%Z, pretty o)) && bool_decide (digits 10 None (pretty o) = (Some o, "")) &&
    match pretty o with String c _ => negb (is_space c) && negb (Ascii.eqb c "-") && negb (Ascii.eqb c "+") | _ => false end)
    256 o) as H. cbv beta in H.
  rewrite !andb_true_iff, !bool_decide_eq_true in H. destruct H as [[H1 H2] H3]; [vm_compute; reflexivity | done |].
  unfold parseInt10. assert (sign (trim_start (pretty o +:+ String "/" r)) = (1%Z, pretty o +:+ String "/" r)) as ->.
  { destruct (pretty o) as [|c s]; [done|]. rewrite !andb_true_iff, !negb_true_iff in H3. destruct H3 as [[H3 H4] H5].
    change (String c s +:+ String "/" r) with (String c (s +:+ String "/" r)). simpl. rewrite H3.
    unfold sign. clear -H4 H5. destruct c as [[] [] [] [] [] [] [] []]; done. }
  rewrite (digits_stop _ _ _ _ _ _ H2) by done. simpl. f_equal. lia.
Qed.

Lemma no_dot n : (0 <= n < 512)%Z -> contains "." (pretty n) = false.
Proof.
  intros Hn. pose proof (forall_below (fun n => negb (contains "." (pretty n))) 512 n) as H. cbv beta in H.
  apply negb_true_iff, H; [vm_compute; reflexivity | done].
Qed.

Lemma split_address x last :
  contains "." last = false ->
  split_on "." (network_text x +:+ last) = [pretty (octet x 3); pretty (octet x 2); pretty (octet x 1); last].
Proof.
  intros H. pose proof (fun i => proj1 (octet_reads _ (last_octet_range x i))) as Ho.
  rewrite <- (split_on_join "." [pretty (octet x 3); pretty (octet x 2); pretty (octet x 1); last]);
    [|done | by repeat constructor].
  f_equal. unfold network_text. cbn [join_with]. by rewrite <- !text_app_assoc.
Qed.

(** The reserved addresses run past the last octet.  For a service network
    written as an address, with a prefix length or without, the 32 texts
    reserved are the address and its successors with the last octet counted on:
    the i-th is the address [x + i] as long as the last octet is a byte, and
    beyond it is not an address at all, so that nothing is reserved there. *)
Theorem reserved_addresses x suffix i :
  (0 <= x < 2 ^ 32)%Z -> (i < 32)%nat ->
  (suffix = "" \/ exists r, suffix = String "/" r /\ contains "." r = false) ->
  exists text, k8_ips (dotted x +:+ suffix) !! i = Some text /\
    ((octet x 0 + Z.of_nat i < 256)%Z -> text = dotted (x + Z.of_nat i)) /\
    ((256 <= octet x 0 + Z.of_nat i)%Z -> forall y, text <> dotted y).
Proof.
  intros Hx Hi Hs. pose proof (last_octet_range x 0) as H0.
  assert (Hp : parseInt10 (pretty (octet x 0) +:+ suffix) = Some (octet x 0) /\
               contains "." (pretty (octet x 0) +:+ suffix) = false).
  { rewrite contains_app, no_dot by lia. destruct Hs as [->|(r & -> & Hr)].
    - rewrite text_app_nil. split; [apply octet_reads, H0 | done].
    - split; [by apply octet_before_slash | exact Hr]. }
  destruct Hp as [Hp Hc]. unfold k8_ips.
  assert (Ed : dotted x = network_text x +:+ pretty (octet x 0))
    by (rewrite <- (dotted_last x) by done; by rewrite last_octet_eq).
  rewrite Ed.
  rewrite <- text_app_assoc, split_address by done. cbn [lookup list_lookup mbind option_bind]. rewrite Hp.
  rewrite list_lookup_fmap, lookup_seq_lt by done. cbn [fmap option_fmap option_map].
  eexists. split; [reflexivity|].
  assert (E : part [pretty (octet x 3); pretty (octet x 2); pretty (octet x 1); pretty (octet x 0) +:+ suffix] 0 +:+ "." +:+
              part [pretty (octet x 3); pretty (octet x 2); pretty (octet x 1); pretty (octet x 0) +:+ suffix] 1 +:+ "." +:+
              part [pretty (octet x 3); pretty (octet x 2); pretty (octet x 1); pretty (octet x 0) +:+ suffix] 2 +:+ "." +:+
              pretty (octet x 0 + Z.of_nat (0 + i))%Z = network_text x +:+ pretty (octet x 0 + Z.of_nat i)%Z)
    by (unfold network_text; by rewrite <- !text_app_assoc).
  rewrite E. split.
  - intros Hb. rewrite <- (dotted_last x) by lia. f_equal. pose proof (last_octet_eq x). lia.
  - intros Hb y Hy. apply (f_equal (split_on ".")) in Hy. rewrite split_address in Hy by (apply no_dot; lia).
    rewrite split_dotted in Hy. injection Hy as _ _ _ Hy.
    pose proof (last_octet_range y 0). simpl in Hy.
    assert (octet x 0 + Z.of_nat i = octet y 0)%Z by (by apply (inj pretty)). lia.
Qed.

(** ** Names and addresses in use *)

Section Free.
Variables (kit_settings : option KitSettingsClass) (nodes setup_nodes : list NodeClass).

Definition reserved : list string :=
  match kit_settings with Some k => k8_ips (kubernetes_services_cidr k) | None => [] end.
Definition name_taken (v : jsval) : Prop :=
  exists n, n ∈ nodes /\ v = JStr (part (split_on "." (hostname n)) 0).
Definition ip_taken (v : jsval) : Prop :=
  (exists n, n ∈ nodes /\ v = JStr (ip_address n)) \/ exists ip, ip ∈ reserved /\ v = JStr ip.

(** The array [p] contains the values [need] wants. *)
Definition listed (s : AddNodeDialogComponent) (p : loc) (need : jsval -> Prop) : Prop :=
  exists l, load (arrays s) p = Some l /\ forall v, need v -> v ∈ l.

(** The validators of a form forbid what is in use. *)
Definition guarded (s : AddNodeDialogComponent) (f : node_form) : Prop :=
  (exists p, c_validator (f_hostname f) = checked addNodeValidators_hostname p /\ listed s p name_taken) /\
  (exists q, c_validator (f_ip_address f) = checked addNodeValidators_ip_address q /\ listed s q ip_taken).

Definition filled (s : AddNodeDialogComponent) : Prop :=
  listed s (validation_hostnames_ s) name_taken /\ listed s (validation_ips_ s) ip_taken.

Definition sound (s : AddNodeDialogComponent) : Prop :=
  nodes_ s = nodes /\ kit_settings_ s = kit_settings /\ store_wf (arrays s) /\
  match node_form_group s with Some f => guarded s f /\ filled s | None => True end.

Definition loaded (s : AddNodeDialogComponent) : Prop := sound s /\ validation_k8_ips_ s = reserved.

(** Arrays only grow. *)
Definition grows (s s' : AddNodeDialogComponent) : Prop :=
  forall p l, load (arrays s) p = Some l -> exists r, load (arrays s') p = Some (l ++ r).

Lemma listed_grows s s' p need : grows s s' -> listed s p need -> listed s' p need.
Proof using.
  intros G (l & Hl & Hn). destruct (G p l Hl) as [r Hr]. exists (l ++ r). split; [done|].
  intros v Hv. apply elem_of_app. left. auto.
Qed.

Lemma guarded_grows s s' f : grows s s' -> guarded s f -> guarded s' f.
Proof using.
  intros G [(p & Hp & Hl) (q & Hq & Hl')]. split; [exists p | exists q]; (split; [done|]);
    by apply (listed_grows s).
Qed.

Lemma grows_same s s' : arrays s' = arrays s -> grows s s'.
Proof using. intros E p l Hl. exists []. by rewrite E, app_nil_r. Qed.

(** A form whose two validators are kept, or renewed with the present arrays. *)
Definition keeps_guards (g : node_form -> node_form) : Prop :=
  forall f, c_validator (f_hostname (g f)) = c_validator (f_hostname f) /\
            c_validator (f_ip_address (g f)) = c_validator (f_ip_address f).

Lemma safe_change_form g : keeps_guards g -> safe loaded (fun _ => True) (change_form g).
Proof using.
  intros Hg s Hs. destruct (node_form_group s) as [f|] eqn:E.
  - rewrite (run_change_form _ _ _ E). split; [|constructor]. destruct (Hg f) as [H1 H2].
    destruct Hs as [(H3 & H4 & H5 & H6) H7]. rewrite E in H6. destruct H6 as [[(p & Hp & Hl) (q & Hq & Hl')] H6].
    split; [|done]. split_and!; try done. split; [|done].
    split; [exists p; rewrite H1 | exists q; rewrite H2]; done.
  - unfold change_form, form, get, bind, gets, deref. cbn. rewrite E. by split; [|constructor].
Qed.

Lemma safe_push p v : safe loaded (fun _ => True) (push p v).
Proof using.
  intros s [(H1 & H2 & H3 & H4) H5]. unfold push, modify. cbn [state_of effects_of fst snd].
  set (s' := with_arrays _ s). split; [|constructor]. split; [|done]. split_and!; [done | done | by apply update_wf |].
  assert (G : grows s s').
  { intros q l Hl. unfold s'. cbn [with_arrays arrays]. destruct (decide (p = q)) as [->|Hne].
    - rewrite load_update_eq, Hl. by exists [v].
    - rewrite load_update_ne, Hl by done. exists []. by rewrite app_nil_r. }
  change (node_form_group s') with (node_form_group s). destruct (node_form_group s) as [f|]; [|done].
  destruct H4 as [H4 [H6 H7]]. split; [by apply (guarded_grows s)|].
  split; by apply (listed_grows s).
Qed.

Lemma safe_update_available : safe loaded (fun _ => True) update_available_hostname_ip_and_mac_addresses_.
Proof using.
  intros s Hs. destruct (node_form_group s) as [f|] eqn:E; cycle 1.
  { assert (Eh : forall g, change_form g s = (Exn "TypeError", s, [])).
    { intros g. unfold change_form, form, get, bind, gets, deref. cbn. by rewrite E. }
    unfold update_available_hostname_ip_and_mac_addresses_, get. rewrite (bind_run_silent _ _ s s s eq_refl).
    destruct (settings_ s ≫= controller_interface) as [ci|], (node_type s) as [t|]; try (by split; [|constructor]).
    destruct ((ci === "") || (t === "")); [by split; [|constructor]|].
    rewrite (bind_run_throw _ _ _ _ _ _ (Eh _)). by split; [|constructor]. }
  pose proof Hs as [(H1 & H2 & H3 & H4) H5]. rewrite E in H4. destruct H4 as [H4 [H6 (l & Hl & H7)]].
  destruct (settings_ s) as [g|] eqn:Eg; [|by unfold update_available_hostname_ip_and_mac_addresses_, get, bind, gets; rewrite Eg; split; [|constructor]].
  destruct (controller_interface g) as [ci|] eqn:Eci;
    [|by unfold update_available_hostname_ip_and_mac_addresses_, get, bind, gets; rewrite Eg; simpl; rewrite Eci; split; [|constructor]].
  destruct (node_type s) as [t|] eqn:Et;
    [|by unfold update_available_hostname_ip_and_mac_addresses_, get, bind, gets; rewrite Eg, Et; simpl; rewrite Eci; split; [|constructor]].
  destruct (decide (ci <> "" /\ t <> "")) as [[Hci Ht]|Hne].
  - destruct (update_available_run s f g ci t l) as (f' & -> & _ & _ & _ & V1 & V2); try done.
    split; [|constructor]. split; [|done]. split_and!; try done. split; [|split; [done | by exists l]].
    split; [exists (validation_hostnames_ s) | exists (validation_ips_ s)]; (split; [done|]); [done | by exists l].
  - assert (Hb : (ci === "") || (t === "") = true).
    { destruct (ci === "") eqn:E1; [done|]. destruct (t === "") eqn:E2; [done|].
      apply seqb_neq in E1. apply seqb_neq in E2. tauto. }
    unfold update_available_hostname_ip_and_mac_addresses_, get, bind, gets. rewrite Eg, Et. simpl.
    rewrite Eci, Hb. by split; [|constructor].
Qed.

(** A new form takes the present arrays. *)
Lemma safe_initialize s previous :
  loaded s -> filled s -> loaded (state_of (initialize_node_form_group_ previous s)).
Proof using.
  intros Hs H6. pose proof Hs as [(H1 & H2 & H3 & _) H5]. unfold initialize_node_form_group_, get.
  rewrite (bind_run_silent _ _ s s s eq_refl).
  assert (G : forall f, c_validator (f_hostname f) = checked addNodeValidators_hostname (validation_hostnames_ s) ->
    c_validator (f_ip_address f) = checked addNodeValidators_ip_address (validation_ips_ s) ->
    loaded (with_form (Some f) s)).
  { intros f E1 E2. split; [|done]. split_and!; [done..|]. split; [|done].
    split; [exists (validation_hostnames_ s) | exists (validation_ips_ s)]; (split; [done | apply H6]). }
  destruct previous as [f|]; [|by apply G].
  destruct (f_virtual_data f) as [d|] eqn:Ed.
  - rewrite (bind_run_silent _ _ s d s) by done. by apply G.
  - by rewrite (bind_run_throw _ _ s "TypeError" s []).
Qed.

Lemma remove_duplicate_entries_elem x l : JStr x ∈ l -> JStr x ∈ remove_duplicate_entries l.
Proof using.
  intros Hx. assert (exists i, findIndex (fun y => strict_eq y (JStr x)) l = Z.of_nat i) as [i Hi].
  { pose proof (findIndex_bounds (fun y => strict_eq y (JStr x)) l) as Hb.
    destruct (Z.eq_dec (findIndex (fun y => strict_eq y (JStr x)) l) (-1)%Z) as [E|];
      [|exists (Z.to_nat (findIndex (fun y => strict_eq y (JStr x)) l)); lia].
    apply findIndex_none in E. rewrite Forall_forall in E. specialize (E _ Hx). simpl in E.
    by rewrite String.eqb_refl in E. }
  destruct (findIndex_some _ _ _ Hi) as (y & Hy & Hp & _).
  destruct y; try done. apply seqb_eq in Hp as ->.
  unfold remove_duplicate_entries. apply list_elem_of_omap. exists (i, JStr x). split.
  - apply (list_elem_of_lookup_2 _ i). by rewrite list_lookup_imap, Hy.
  - cbn [fst snd]. by rewrite Hi, Z.eqb_refl.
Qed.

Lemma safe_update_validation_refs b : safe loaded (fun _ => True) (update_validation_refs_ b).
Proof using.
  intros s Hs. split; [|by apply Forall_true]. unfold update_validation_refs_, get.
  rewrite (bind_run_silent _ _ s s s eq_refl).
  destruct (used_ips_ s) as [used|]; [|by rewrite (bind_run_throw _ _ s "TypeError" s [])].
  rewrite (bind_run_silent _ _ s used s) by done. cbv zeta.
  destruct (alloc_list _ (arrays s)) as [ps h] eqn:E.
  rewrite (bind_state _ _ s tt (with_refs (nth 0 ps 0) (nth 1 ps 0) (nth 2 ps 0) h s) []) by done.
  set (s1 := with_refs _ _ _ h s). destruct (alloc_list_fresh _ _ _ _ E) as [-> Hn].
  pose proof Hs as [(H1 & H2 & H3 & H4) H5].
  assert (G : grows s s1).
  { intros p l Hl. exists []. rewrite app_nil_r. unfold s1. cbn [with_refs arrays].
    rewrite (alloc_list_old _ _ _ _ p E); [done|]. apply H3. by exists l. }
  assert (F : filled s1).
  { split; eexists; (split; [cbn [with_refs arrays validation_hostnames_ validation_ips_]; simpl nth|]).
    - pose proof (alloc_list_new _ _ _ _ 0 _ E eq_refl) as Hl. by rewrite Nat.add_0_r in Hl.
    - intros v (n & Hin & ->). apply list_elem_of_fmap. exists n. by rewrite H1.
    - pose proof (alloc_list_new _ _ _ _ 1 _ E eq_refl) as Hl. by rewrite Nat.add_1_r in Hl.
    - intros v Hv. assert (exists x, v = JStr x /\ JStr x ∈
        (((fun n => JStr (ip_address n)) <$> nodes_ s) ++ (JStr <$> validation_k8_ips_ s) ++ used)) as (x & -> & Hx).
      { destruct Hv as [(n & Hin & ->)|(ip & Hin & ->)]; eexists; (split; [reflexivity|]); rewrite !elem_of_app.
        - left. apply list_elem_of_fmap. exists n. by rewrite H1.
        - right. left. apply list_elem_of_fmap. exists ip. by rewrite H5. }
      by apply remove_duplicate_entries_elem. }
  assert (L : loaded s1).
  { split; [|done]. split_and!; [done | done | by apply (alloc_list_wf _ _ _ _ E) |].
    change (node_form_group s1) with (node_form_group s). destruct (node_form_group s) as [f|]; [|done].
    split; [|done]. by apply (guarded_grows s); [|apply H4]. }
  destruct b; [by apply safe_initialize | by apply safe_update_available].
Qed.

Ltac keep := intros; match goal with H : loaded _ |- _ => exact H end.
Ltac step_loaded :=
  first [ safe_step
        | match goal with
          | |- loaded _ => solve [keep]
          | |- safe _ _ (change_form _) => apply safe_change_form; intros ?; split; reflexivity
          | |- safe _ _ (push _ _) => apply safe_push
          | |- safe _ _ update_available_hostname_ip_and_mac_addresses_ => apply safe_update_available
          | |- safe _ _ (update_validation_refs_ _) => apply safe_update_validation_refs
          end
        | done ].

Lemma keeps_default t : keeps_guards (set_default_values t).
Proof using.
  intros f. unfold set_default_values.
  repeat match goal with |- context [if ?b then _ else _] => destruct b end; done.
Qed.

Lemma safe_change_node_type v : safe loaded (fun _ => True) (change_node_type v).
Proof using.
  unfold change_node_type, get. repeat (step_loaded || (apply safe_change_form, keeps_default)).
Qed.

Lemma safe_change_deployment_type v : safe loaded (fun _ => True) (change_deployment_type v).
Proof using.
  unfold change_deployment_type, api_get_unused_ip_addresses_, set_baremetal_validation_, get.
  repeat (step_loaded || (apply safe_change_form, keeps_default)).
Qed.

(** With the arrays of the present references. *)
Definition stocked (s : AddNodeDialogComponent) : Prop := loaded s /\ filled s.

Lemma stocked_push p v : safe stocked (fun _ => True) (push p v).
Proof using.
  intros s [Hs [F1 F2]]. split; [|by apply Forall_true]. split; [by apply safe_push|].
  assert (G : grows s (state_of (push p v s))).
  { intros q l Hl. cbn [push modify state_of fst snd with_arrays arrays].
    destruct (decide (p = q)) as [->|Hne].
    - rewrite load_update_eq, Hl. by exists [v].
    - rewrite load_update_ne, Hl by done. exists []. by rewrite app_nil_r. }
  split; by apply (listed_grows s).
Qed.

Lemma stocked_initialize previous : leads stocked (fun _ => True) (initialize_node_form_group_ previous) loaded.
Proof using. intros s [Hs Hf]. split; [by apply safe_initialize | by apply Forall_true]. Qed.

Lemma safe_add_answer a : safe loaded (fun _ => True) (api_add_node_answer a).
Proof using.
  destruct a as [r|e].
  2: { unfold api_add_node_answer, show_post_validation. destruct e; repeat step_loaded. }
  intros s Hs. unfold api_add_node_answer, get. rewrite (bind_run_silent _ _ s s s eq_refl).
  assert (K : safe loaded (fun _ => True) (f <- form ;; generate_return_success_snackbar_message
      (C := call) (D := page) ("started node creation job for " +:+ js_to_string (c_value (f_hostname f)) +:+ ".")
      (Some MAT_SNACKBAR_CONFIGURATION_60000_DUR_DISMISS))) by (unfold form, get; repeat step_loaded).
  destruct (create_duplicate_ s).
  2: { assert (K' : safe loaded (fun _ => True) (cancel ;;; f <- form ;; generate_return_success_snackbar_message
      (C := call) (D := page) ("started node creation job for " +:+ js_to_string (c_value (f_hostname f)) +:+ ".")
      (Some MAT_SNACKBAR_CONFIGURATION_60000_DUR_DISMISS))); [|by apply K'].
       unfold cancel. repeat (apply K || step_loaded). }
  match goal with |- loaded (state_of (bind ?m _ s)) /\ _ =>
    assert (Hm : loaded (state_of (m s)))
  end.
  - destruct (node_form_group s) as [f|] eqn:Ef.
    + assert (Hst : stocked s) by (split; [done|]; destruct Hs as [(_ & _ & _ & H) _]; rewrite Ef in H; apply H).
      assert (Efm : form s = (Ret f, s, [])) by (unfold form, get, bind, gets, deref; cbn; by rewrite Ef).
      rewrite (bind_state _ _ _ _ _ _ Efm).
      match goal with |- loaded (state_of (?m s)) =>
        assert (Hl : leads stocked (fun _ => True) m loaded); [|by apply Hl] end.
      repeat match goal with
        | |- leads _ _ (initialize_node_form_group_ _) _ => apply stocked_initialize
        | |- leads _ _ (bind _ _) _ => apply (leads_bind stocked stocked loaded);
            [ | by intros ? [? _] | intros ?]
        | |- leads _ _ (push _ _) _ => intros ? ?; by apply stocked_push
        | |- leads _ _ (modify _) _ => intros ? H; split; [exact H | by apply Forall_true]
        | |- leads _ _ (deref ?o) _ => destruct o; intros ? H; (split; [exact H | by apply Forall_true])
        | |- leads _ _ (when ?b _) _ => destruct b; simpl when
        | |- leads _ _ (ret _) _ => intros ? H; split; [exact H | by apply Forall_true]
        end.
    + assert (Efm : form s = (Exn "TypeError", s, [])) by (unfold form, get, bind, gets, deref; cbn; by rewrite Ef).
      by rewrite (bind_run_throw _ _ _ _ _ _ Efm).
  - split; [|by apply Forall_true]. unfold bind at 1.
    match type of Hm with loaded (state_of ?x) => destruct x as [[[[]|e] s1] es] end; [|exact Hm].
    cbn [state_of fst snd] in Hm. destruct (K s1 Hm) as [K1 _]. 
    match goal with |- context [bind form ?k s1] => destruct (bind form k s1) as [[? ?] ?] end. exact K1.
Qed.

Lemma safe_answer c (a : Ans c) : safe loaded (fun _ => True) (on_ans c a).
Proof using.
  destruct c; cbn [on_ans]; try apply safe_add_answer; destruct a as [r|e];
    unfold api_get_kit_status_answer, api_get_general_settings_answer, api_get_unused_ip_addresses_answer,
      api_get_used_ip_addresses_answer, api_get_general_settings_, api_get_unused_ip_addresses_,
      api_get_used_ip_addresses_, get; repeat step_loaded.
Qed.

(** Opening computes the reserved addresses. *)
Lemma ngOnInit_loads s : sound s -> loaded (state_of (ngOnInit s)).
Proof using.
  intros (H1 & H2 & H3 & H4). unfold ngOnInit.
  erewrite (bind_state update_node_type_radio_options_ _ s tt _ []) by reflexivity.
  match goal with |- context [bind save_k8_ips_ _ ?x] => set (s1 := x) end.
  assert (E : kit_settings_ s1 = kit_settings) by exact H2.
  unfold loaded, reserved. destruct kit_settings as [k|] eqn:Ek.
  - erewrite (bind_state save_k8_ips_ _ s1 tt (with_k8 (k8_ips (kubernetes_services_cidr k)) (with_k8 [] s1)) []).
    + split; [exact (conj H1 (conj (eq_trans H2 (eq_sym Ek)) (conj H3 H4))) | done].
    + unfold save_k8_ips_, get, bind, gets, modify, deref. cbn -[s1]. by rewrite E.
  - assert (E2 : save_k8_ips_ s1 = (Exn "TypeError", with_k8 [] s1, [])).
    { unfold save_k8_ips_, get, bind, gets, modify, deref. cbn -[s1]. by rewrite E. }
    rewrite (bind_run_throw _ _ _ _ _ _ E2). split; [exact (conj H1 (conj (eq_trans H2 (eq_sym Ek)) (conj H3 H4))) | done].
Qed.

Lemma safe_event e : e <> NgOnInit -> safe loaded (fun _ => True) (on_ev e).
Proof using.
  destruct e as [|v|v|x v|b| |]; intros Hne; [done|..]; cbn [on_ev];
    unfold add, api_add_node_, cancel, change_duplicate_node, form, get;
    repeat first [ apply safe_change_node_type | apply safe_change_deployment_type | step_loaded ].
  apply safe_change_form. intros f. unfold fill. destruct x; done.
Qed.

Lemma safe_while_open m : safe loaded (fun _ => True) m -> safe loaded (fun _ => True) (while_open m).
Proof using. intros Hm. unfold while_open, get. repeat (apply Hm || step_loaded). Qed.

Abbreviation Dialog := (AddNodeDialog kit_settings nodes setup_nodes).

#[local] Instance is_init e : Decision (e = NgOnInit).
Proof using. destruct e; (by left) || (by right). Defined.

(** Without a form no event but the first subscribes to anything or makes one. *)
Lemma idle e s :
  sound s -> node_form_group s = None -> e <> NgOnInit ->
  let x := while_open (on_ev e) s in
  sound (state_of x) /\ node_form_group (state_of x) = None /\ subscriptions (effects_of x) = [].
Proof using.
  intros Hs Hf Hne. unfold while_open, get, bind, gets. cbn. destruct (closed s); [done|].
  destruct e as [|v|v|x v|b| |]; [done|..]; cbn [on_ev];
    unfold add, api_add_node_, change_form, form, get, bind, gets, deref; cbn; rewrite ?Hf; cbn; try done.
Qed.

(** The dialog is ready, or nothing was asked yet. *)
Definition waiting (w : world AddNodeDialogComponent call) : Prop :=
  loaded (component w) \/
  (sound (component w) /\ node_form_group (component w) = None /\ pending w = []).

Lemma reachable_waiting tr w : trace (K := Dialog) (fun _ => True) tr w -> waiting w.
Proof using.
  apply trace_worlds.
  - right. unfold sound. cbn [component initial AddNodeDialog]. split_and!; try done.
    apply store_wfb_wf. vm_compute. reflexivity.
  - intros w0 l w' Hw _ Hstep. destruct Hstep as [e|p1 c p2 a Hp].
    + destruct Hw as [Hw|(Hs & Hf & Hp)].
      * left. unfold after. cbn [component react on_event AddNodeDialog].
        destruct (decide (e = NgOnInit)) as [->|Hne]; [|by apply (safe_while_open _ (safe_event e Hne))].
        unfold while_open, get. rewrite (bind_state _ _ (component w0) (component w0) (component w0) [] eq_refl).
        destruct (closed (component w0)); [done | apply ngOnInit_loads, Hw].
      * destruct (decide (e = NgOnInit)) as [->|Hne].
        -- unfold after, waiting. cbn [component pending react on_event AddNodeDialog].
           unfold while_open, get. rewrite (bind_run_silent _ _ (component w0) (component w0) (component w0) eq_refl).
           destruct (closed (component w0)); [right; by rewrite Hp | left; by apply ngOnInit_loads].
        -- right. destruct (idle e (component w0) Hs Hf Hne) as (H1 & H2 & H3).
           unfold after. cbn [component pending react on_event AddNodeDialog]. rewrite Hp. split_and!; [done..|].
           exact H3.
    + destruct Hw as [Hw|(_ & _ & Hq)]; [|rewrite Hq in Hp; by destruct p1].
      left. unfold after. cbn [component react on_answer AddNodeDialog].
      by apply (safe_while_open _ (safe_answer c a)).
Qed.
End Free.

(** What an accepted value is. *)

Lemma valid_means l ops c :
  validateFromArray l ops c = Ret None -> Forall (fun r => validate_one ops c r = Ret None) l.
Proof.
  unfold validateFromArray. destruct (construct_all (validate_one ops c) l) as [errors|e] eqn:E; [|done].
  simpl. intros [= H]. apply head_omap_none in H. revert l E.
  induction H as [|x errors -> _ IH]; intros [|r l] E; simpl in E; try done.
  - destruct (validate_one ops c r), (construct_all (validate_one ops c) l); done.
  - destruct (validate_one ops c r) as [y|] eqn:Er; [|done].
    destruct (construct_all (validate_one ops c) l) as [ys|] eqn:El; [|done].
    injection E as -> ->. constructor; [done | by apply IH].
Qed.

Lemma find_duplicate_in v l i : v <> "" -> JStr v ∈ l -> find_duplicate None (JStr v) None i l = Ret true.
Proof.
  intros Hv. revert i. induction l as [|x l IH]; intros i Hin; [by apply not_elem_of_nil in Hin|].
  cbn [find_duplicate length_of obind]. assert (Validators.positive (Some (Z.of_nat (String.length v))) = true) as -> by (by destruct v).
  cbn [obind]. rewrite bool_decide_eq_false_2 by done. rewrite andb_true_r.
  destruct (strict_eq x (JStr v)) eqn:E; [done|].
  apply elem_of_cons in Hin as [<-|Hin]; [|by apply IH]. simpl in E. by rewrite String.eqb_refl in E.
Qed.

(** A field with the rules unique, pattern and required, whatever their order:
    accepted means a text of the pattern that is not forbidden. *)
Lemma check_accepts h l array x t f m m' pat :
  check_verdict h (checked l array) (JStr x) t = Ret None ->
  plain "unique" (Builder f) None ∈ l -> plain "pattern" m (Some pat) ∈ l -> plain "required" m' None ∈ l ->
  x <> "" /\ test pat x = true /\ JStr x ∉ default [] (load h array).
Proof.
  intros Hok Hu Hp Hr. cbn [check_verdict checked option_map forbidden rules] in Hok.
  apply valid_means in Hok. rewrite Forall_forall in Hok.
  pose proof (Hok _ Hu) as Eu. pose proof (Hok _ Hp) as Ep. pose proof (Hok _ Hr) as Er. clear Hok.
  assert (Hx : x <> "").
  { intros ->. unfold validate_one, requiredField in Er. simpl in Er. by destruct t. }
  split; [done|]. split.
  - change (patternValidator (plain "pattern" m (Some pat)) {| value := JStr x; touched := t; status := VALID |} =
      Ret None) in Ep. rewrite (pattern_string m pat _ x) in Ep by done. by destruct (test pat x).
  - intros Hin. unfold validate_one in Eu. cbn -[find_duplicate] in Eu. unfold uniqueValidator in Eu.
    cbn -[find_duplicate] in Eu. by rewrite (find_duplicate_in x _ 0 Hx Hin) in Eu.
Qed.

Lemma accepted_means s c l array x f m m' pat :
  c_validator c = checked l array -> c_value c = JStr x -> validate s c = Ret None ->
  plain "unique" (Builder f) None ∈ l -> plain "pattern" m (Some pat) ∈ l -> plain "required" m' None ∈ l ->
  x <> "" /\ test pat x = true /\ JStr x ∉ default [] (load (arrays s) array).
Proof. unfold validate. intros -> ->. apply check_accepts. Qed.

(** C11: the names and addresses the dialog accepts.  For a dialog opened on any
    state of the node page and every interleaving after it, when the fields for the
    name and the address are valid, the name has the shape of a host name and is not
    the first label of the name of a node of the page, so it is no name of a node
    without a domain; and the address is an address the pattern accepts, is no node's
    and is not reserved for the services of the cluster.  The whole name of a node
    with a domain is not excluded ([whole_name_is_accepted]). *)
Theorem accepted_values_are_free (p : NodeManagementComponent) tr w f s t :
  let nodes := omap (load (heap p)) (NodeMng.nodes p) in
  trace (K := AddNodeDialog (NodeMng.kit_settings_ p) nodes (omap (load (heap p)) (NodeMng.setup_nodes p)))
    (fun _ => True) tr w ->
  node_form_group (component w) = Some f ->
  c_value (f_hostname f) = JStr s -> validate (component w) (f_hostname f) = Ret None ->
  c_value (f_ip_address f) = JStr t -> validate (component w) (f_ip_address f) = Ret None ->
  hostname_ok s /\ test IP_CONSTRAINT t = true /\
  (forall n, n ∈ nodes -> s <> part (split_on "." (hostname n)) 0 /\ t <> ip_address n /\
     (contains "." (hostname n) = false -> s <> hostname n)) /\
  t ∉ reserved (NodeMng.kit_settings_ p).
Proof.
  intros nodes Htr Hf Hs Vs Ht Vt.
  destruct (reachable_waiting _ _ _ tr w Htr) as [[(_ & _ & _ & H) _]|(_ & H & _)]; [|congruence].
  rewrite Hf in H. destruct H as [[(a & Ea & la & Hla & Na) (b & Eb & lb & Hlb & Nb)] _].
  destruct (accepted_means _ _ _ a s
    (fun value => "Duplicate hostnames found: " +:+ value +:+ ". Node must have a unique hostname.")
    (Text "The Hostname must be alphanumeric between 5 and 40 characters. Special characters are not allowed except for the minus sign (-) and the period (.). The Hostname may not begin or end with either special character.")
    (Text "Hostname is required") hostname_pattern Ea Hs Vs) as (_ & Ps & Fs);
    [by left | by right; left | by right; right; left |].
  destruct (accepted_means _ _ _ b t
    (fun value => "Used IP Address found: " +:+ value +:+ ". Node must have a unique IP Address.")
    (Text "You must enter a valid IP address.") (Text "IP Address is required.") IP_CONSTRAINT Eb Ht Vt) as (_ & Pt & Ft);
    [by left | by right; right; left | by right; left |].
  rewrite Hla in Fs. rewrite Hlb in Ft. cbn [default] in Fs, Ft.
  split_and!; [by apply hostname_pattern_spec | done | |].
  - intros n Hn. assert (Hp : s <> part (split_on "." (hostname n)) 0) by (intros ->; apply Fs, Na; by exists n).
    split; [exact Hp|]. split; [intros ->; apply Ft, Nb; left; by exists n|].
    intros Hd ->. apply Hp. by rewrite (split_on_none _ _ Hd).
  - intros Hin. apply Ft, Nb. right. by exists t.
Qed.

(** ** Opening *)

Section Opening.
Variables (settings : KitSettingsClass) (nodes setup_nodes : list NodeClass).

Abbreviation Dialog := (AddNodeDialog (Some settings) nodes setup_nodes).

(** The successful answers; general settings that were never saved are none. *)
Definition succeeds (l : label event Ans) : Prop :=
  match l with
  | Event _ => False
  | Answered c a =>
      (match c return Ans c -> Prop with
       | CGetGeneralSettings => fun a => exists g, a = Next (Some g)
       | CGetKitStatus => fun a => exists r, a = Next r
       | CGetUnused _ _ _ | CGetUsed _ _ _ => fun a => exists r, a = Next r
       | CAddNode _ => fun a => exists r, a = Next r
       end) a
  end.

(** The state after [n] answers. *)
Definition stage (n : nat) (w : world AddNodeDialogComponent call) : Prop :=
  let s := component w in
  closed s = false /\ nodes_ s = nodes /\
  match n with
  | 0 => pending w = [CGetKitStatus] /\ node_form_group s = None
  | 1 => pending w = [CGetGeneralSettings] /\ node_form_group s = None
  | 2 => node_form_group s = None /\ exists g, settings_ s = Some g /\
         pending w = [CGetUnused (controller_interface g) (gs_netmask g) true]
  | 3 => node_form_group s = None /\ exists g, settings_ s = Some g /\
         pending w = [CGetUsed (controller_interface g) (gs_netmask g) true]
  | 4 => pending w = [] /\ exists f, node_form_group s = Some f /\ c_value (f_hostname f) = JStr "" /\
         c_value (f_ip_address f) = JStr "" /\ c_value (f_node_type f) = JUndefined
  | _ => False
  end.

Lemma singleton_split {A} (p1 p2 : list A) c d : [d] = p1 ++ c :: p2 -> p1 = [] /\ p2 = [] /\ c = d.
Proof using. destruct p1 as [|x [|y p1]]; simpl; [intros [= -> <-] | intros [= _ ?] | intros [= _ ?]]; done. Qed.

Lemma stage_step n w l w' : stage n w -> step (K := Dialog) w l w' -> succeeds l -> stage (S n) w'.
Proof using.
  intros (Hc & Hn & H) Hstep Hl. destruct Hstep as [e|p1 c p2 a Hp]; [done|].
  destruct w as [s q]. unfold after, stage. cbn [component pending react on_answer AddNodeDialog] in *.
  assert (Ew : forall m : M unit, while_open m s = m s).
  { intros m. unfold while_open, get. rewrite (bind_run_silent _ _ s s s eq_refl). by rewrite Hc. }
  rewrite Ew. destruct n as [|[|[|[|[|n]]]]]; [| | | | |done].
  - destruct H as [-> Hf]. apply singleton_split in Hp as (-> & -> & ->). destruct Hl as [r ->]. by split_and!.
  - destruct H as [-> Hf]. apply singleton_split in Hp as (-> & -> & ->). destruct Hl as [g ->].
    split_and!; try done. by exists g.
  - destruct H as [Hf (g & Hg & ->)]. apply singleton_split in Hp as (-> & -> & ->). destruct Hl as [r ->].
    unfold on_ans, api_get_unused_ip_addresses_answer, api_get_used_ip_addresses_, get, bind, gets, modify, deref.
    cbn. rewrite Hg. cbn. split_and!; try done. by exists g.
  - destruct H as [Hf (g & Hg & ->)]. apply singleton_split in Hp as (-> & -> & ->). destruct Hl as [r ->].
    split_and!; try done. eexists. split; [reflexivity|]. done.
  - destruct H as [-> _]. by destruct p1.
Qed.

(** C24: opening the dialog never gets stuck by itself.  After the dialog was
    initialised and as long as requests succeed, exactly one request waits for
    its answer; the fourth answer ends the chain, with a form whose name,
    address and type are empty and nothing left to wait for. *)
Theorem opening_completes es rest w :
  trace (K := Dialog) (fun _ => True) ((Event NgOnInit, es) :: rest) w -> Forall (fun x => succeeds (fst x)) rest ->
  (length rest < 4 /\ exists c, pending w = [c])%nat \/
  (length rest = 4 /\ pending w = [] /\ exists f, node_form_group (component w) = Some f /\
     c_value (f_hostname f) = JStr "" /\ c_value (f_ip_address f) = JStr "" /\ c_value (f_node_type f) = JUndefined).
Proof using.
  intros Htr Hrest. assert (S : stage (length rest) w).
  { remember ((Event NgOnInit, es) :: rest) as tr eqn:E. revert es rest E Hrest.
    induction Htr as [|tr w l w' Htr IH _ Hstep]; intros es rest E Hrest; [done|].
    destruct tr as [|x tr].
    - injection E as -> _ <-. inversion Htr as [|]; subst; [|by destruct tr].
      inversion Hstep; subst. by repeat split.
    - injection E as -> <-. apply Forall_app in Hrest as [Hrest Hl]. rewrite length_app, Nat.add_1_r.
      apply Forall_cons in Hl as [Hl _]. by apply (stage_step _ w l); [apply (IH es tr) | |]. }
  destruct S as (_ & _ & S). destruct rest as [|a [|b [|c [|d [|e rest]]]]]; cbn [length] in *.
  - left. split; [lia|]. destruct S as [-> _]. by eexists.
  - left. split; [lia|]. destruct S as [-> _]. by eexists.
  - left. split; [lia|]. destruct S as [_ (g & _ & ->)]. by eexists.
  - left. split; [lia|]. destruct S as [_ (g & _ & ->)]. by eexists.
  - right. split; [done | exact S].
  - done.
Qed.
End Opening.

(** ** Witnesses *)

Definition witness_settings : KitSettingsClass :=
  {| ks__id := "1"; kubernetes_services_cidr := "10.0.0.240/27"; ks_password := ""; upstream_dns := "";
     upstream_ntp := ""; ks_job_id := ""; job_completed := true; is_gip := None;
     Data.controller_interface := None; netmask := None; gateway := None; domain := None;
     dhcp_range := None |}.

Definition witness_general : GeneralSettingsClass :=
  {| gs__id := None; controller_interface := Some (dotted 167772165); gs_netmask := None; gs_gateway := None;
     gs_domain := None; gs_job_id := None; gs_job_completed := None; gs_dhcp_range := None |}.

(** The page when its nodes and settings have arrived. *)
Definition witness_page : NodeManagementComponent :=
  NodeMng.with_kit_settings (Some witness_settings)
    (state_of (api_get_nodes_answer (Next [witness_node SERVER None "server1.lan"]) NodeMng.constructor)).

Abbreviation WitnessDialog :=
  (AddNodeDialog (NodeMng.kit_settings_ witness_page) (omap (load (heap witness_page)) (NodeMng.nodes witness_page))
     (omap (load (heap witness_page)) (NodeMng.setup_nodes witness_page))).

(** The dialog after its four answers. *)
Definition witness_ready : AddNodeDialogComponent :=
  let a := state_of (ngOnInit (opened_by witness_page)) in
  let b := state_of (api_get_general_settings_answer (Next (Some witness_general)) a) in
  let c := state_of (api_get_unused_ip_addresses_answer true (Next ["10.0.0.9"]) b) in
  state_of (api_get_used_ip_addresses_answer true (Next ["10.0.0.51"]) c).

Definition witness_form (s : AddNodeDialogComponent) : node_form :=
  match node_form_group s with
  | Some f => f
  | None =>
      let c := new_FormControl JUndefined None in
      {| f_hostname := c; f_ip_address := c; f_node_type := c; f_deployment_type := c; f_mac_address := c;
         f_raid0_override := c; f_virtual_cpu := c; f_virtual_mem := c; f_virtual_os := c; f_virtual_data := None |}
  end.

Definition witness_used : list jsval := default [] (load (arrays witness_ready) (validation_ips_ witness_ready)).

Example offered_addresses_witness :
  "10.0.0.52" ∈ available_ips (state_of (change_node_type SENSOR witness_ready)) /\
  wait_for_new_ips_ (state_of (change_node_type SENSOR witness_ready)) = false.
Proof.
  destruct (offered_addresses witness_ready (witness_form witness_ready) witness_general 167772165 SENSOR witness_used)
    as [H1 H2]; try (vm_compute; reflexivity); [done|].
  split; [|exact H1]. apply H2. split.
  - intros H%forbidden_text. revert H. vm_compute. discriminate.
  - exists 52%Z. split; [split; lia | vm_compute; reflexivity].
Defined.

(** A virtual machine was chosen before the type of the node. *)
Definition witness_virtual : AddNodeDialogComponent :=
  state_of (while_open (on_ev (ChangeDeploymentType VIRTUAL)) witness_ready).

Example node_type_change_drops_validators_witness :
  validate witness_virtual (setValue (JStr "no number") (f_virtual_cpu (witness_form witness_virtual))) <> Ret None /\
  exists f', node_form_group (state_of (change_node_type SENSOR witness_virtual)) = Some f' /\
    validate (state_of (change_node_type SENSOR witness_virtual)) (setValue (JStr "no number") (f_virtual_cpu f')) =
      Ret None.
Proof.
  split; [vm_compute; discriminate|].
  destruct (node_type_change_drops_validators witness_virtual (witness_form witness_virtual) witness_general
    (dotted 167772165) SENSOR witness_used (JStr "no number")) as (f' & H1 & H2 & _);
    [vm_compute; reflexivity | vm_compute; reflexivity | reflexivity | vm_compute; discriminate | discriminate
    | discriminate | vm_compute; reflexivity | vm_compute; reflexivity |].
  exists f'. split; [exact H1 | exact H2].
Defined.

Example reserved_addresses_witness :
  k8_ips "10.0.0.240/27" !! 15 = Some "10.0.0.255" /\ k8_ips "10.0.0.240/27" !! 16 = Some "10.0.0.256" /\
  forall y, "10.0.0.256" <> dotted y.
Proof.
  split; [vm_compute; reflexivity|]. split; [vm_compute; reflexivity|].
  destruct (reserved_addresses 167772400 "/27" 16) as (t & Ht & _ & H);
    [lia | lia | right; exists "27"; split; reflexivity |].
  change (Some "10.0.0.256" = Some t) in Ht. injection Ht as <-. apply H. vm_compute. discriminate.
Defined.

Example accepted_values_are_free_witness : exists tr w,
  trace (K := WitnessDialog) (fun _ => True) tr w /\
  hostname_ok "sensor2.lan" /\ "10.0.0.52" ∉ reserved (NodeMng.kit_settings_ witness_page).
Proof.
  pose proof (trace_start (K := WitnessDialog) (fun _ => True)) as T.
  apply (trace_event _ _ _ NgOnInit) in T; [|exact I].
  apply (trace_answer _ _ _ [] CGetKitStatus [] (Next empty_kit_status)) in T; [|exact I | vm_compute; reflexivity].
  apply (trace_answer _ _ _ [] CGetGeneralSettings [] (Next (Some witness_general))) in T; [|exact I | vm_compute; reflexivity].
  apply (trace_answer _ _ _ [] (CGetUnused (Some (dotted 167772165)) None true) [] (Next ["10.0.0.9"])) in T;
    [|exact I | vm_compute; reflexivity].
  apply (trace_answer _ _ _ [] (CGetUsed (Some (dotted 167772165)) None true) [] (Next ["10.0.0.51"])) in T;
    [|exact I | vm_compute; reflexivity].
  apply (trace_event _ _ _ (ChangeNodeType SENSOR)) in T; [|exact I].
  apply (trace_event _ _ _ (Fill Hostname (JStr "sensor2.lan"))) in T; [|exact I].
  apply (trace_event _ _ _ (Fill IpAddress (JStr "10.0.0.52"))) in T; [|exact I].
  match type of T with trace _ ?tr ?w => exists tr, w end. split; [exact T|].
  match type of T with trace _ _ ?w =>
    destruct (accepted_values_are_free witness_page _ w (witness_form (component w)) "sensor2.lan" "10.0.0.52" T)
      as (H1 & _ & _ & H2); try (vm_compute; reflexivity) end.
  by split.
Defined.

(** Only first labels are compared: with a node server1.lan the name server1.lan is
    accepted. *)
Lemma whole_name_is_accepted : exists tr w f,
  trace (K := WitnessDialog) (fun _ => True) tr w /\ node_form_group (component w) = Some f /\
  c_value (f_hostname f) = JStr "server1.lan" /\ validate (component w) (f_hostname f) = Ret None /\
  exists n, n ∈ omap (load (heap witness_page)) (NodeMng.nodes witness_page) /\ hostname n = "server1.lan".
Proof.
  pose proof (trace_start (K := WitnessDialog) (fun _ => True)) as T.
  apply (trace_event _ _ _ NgOnInit) in T; [|exact I].
  apply (trace_answer _ _ _ [] CGetKitStatus [] (Next empty_kit_status)) in T; [|exact I | vm_compute; reflexivity].
  apply (trace_answer _ _ _ [] CGetGeneralSettings [] (Next (Some witness_general))) in T; [|exact I | vm_compute; reflexivity].
  apply (trace_answer _ _ _ [] (CGetUnused (Some (dotted 167772165)) None true) [] (Next ["10.0.0.9"])) in T;
    [|exact I | vm_compute; reflexivity].
  apply (trace_answer _ _ _ [] (CGetUsed (Some (dotted 167772165)) None true) [] (Next ["10.0.0.51"])) in T;
    [|exact I | vm_compute; reflexivity].
  apply (trace_event _ _ _ (ChangeNodeType SENSOR)) in T; [|exact I].
  apply (trace_event _ _ _ (Fill Hostname (JStr "server1.lan"))) in T; [|exact I].
  match type of T with trace _ ?tr ?w => exists tr, w, (witness_form (component w)) end.
  split_and!; [exact T | vm_compute; reflexivity | vm_compute; reflexivity | vm_compute; reflexivity |].
  eexists. split; [vm_compute; left | reflexivity].
Qed.

Example opening_completes_witness : exists w : world AddNodeDialogComponent call,
  pending w = [] /\ exists f, node_form_group (component w) = Some f /\ c_value (f_hostname f) = JStr "".
Proof.
  pose proof (trace_start (K := WitnessDialog) (fun _ => True)) as T.
  apply (trace_event _ _ _ NgOnInit) in T; [|exact I].
  apply (trace_answer _ _ _ [] CGetKitStatus [] (Next empty_kit_status)) in T; [|exact I | vm_compute; reflexivity].
  apply (trace_answer _ _ _ [] CGetGeneralSettings [] (Next (Some witness_general))) in T; [|exact I | vm_compute; reflexivity].
  apply (trace_answer _ _ _ [] (CGetUnused (Some (dotted 167772165)) None true) [] (Next ["10.0.0.9"])) in T;
    [|exact I | vm_compute; reflexivity].
  apply (trace_answer _ _ _ [] (CGetUsed (Some (dotted 167772165)) None true) [] (Next ["10.0.0.51"])) in T;
    [|exact I | vm_compute; reflexivity].
  match type of T with trace _ _ ?w => exists w end.
  cbn [app] in T.
  destruct (opening_completes witness_settings _ _ _ _ _ T) as [[H _]|(_ & H1 & f & H2 & H3 & _)].
  - repeat constructor; by eexists.
  - simpl in H. lia.
  - split; [exact H1|]. by exists f.
Defined.
