(* ===== verification/AgentData.v ===== *)
(** The data of modules/agent-builder-chooser: classes, constants and
    services/agent-builder.service.ts with services/endgame.service.ts.

    The fields of an installer configuration are values of form controls, which
    may be null; lists of targets are objects whose hosts are objects too, so the
    record is written over the type of its hosts, values in a response and
    references in the page. *)
From S2P Require Import Prelude Handler JsValue Runtime Data Api Regex Validators.

(** ** Constants *)

Definition AGENT_BUILDER_CHOOSER_TITLE : string := "Windows Agent Deployer".
Definition INSTALL_WINDOWS_HOSTS : string := "Install Windows hosts".
Definition UNINSTALL_WINDOWS_HOSTS : string := "Uninstall Windows hosts".
Definition UNINSTALL_WINDOWS_HOST : string := "Uninstall Windows host".
Definition REINSTALL_WINDOWS_HOST : string := "Reinstall Windows host".
Definition DOMAIN_PASSWORD_LABEL : string := "Domain Password".
Definition INSTALL : string := "install".
Definition UNINSTALL : string := "uninstall".
Definition UNINSTALLS : string := "uninstalls".
Definition REINSTALL : string := "reinstall".
Definition FORM_ELEMENTS : list string := ["textinput"; "checkbox"].
Definition WINRM_PORT : string := "5985".
Definition WINRM_PORT_SSL : string := "5986".
Definition SMB_PORT : string := "445".
Definition LOGSTASH_NOT_DEPLOYED_STATE_MESSAGE : string :=
  "Logstash is not in a deployed state. Please check the system health page or try to reinstall Logstash on the catalog page.".
Definition LOGSTASH_NO_DATA_MESSAGE : string :=
  "Before using this page, it is recommended that you install Logstash on your Kubernetes cluster. " +:+
  "Please go to the Catalog page and install it. Failing to install it will cause Winlogbeats and " +:+
  "Endgame agent data capture to Elasticsearch to fail.".

Definition SAVE_CONFIRM_ACTION_CONFIGURATION : ConfirmActionConfigurationInterface :=
  {| ca_title := "Close and save"; ca_message := "Are you sure you want to save this configuration?";
     confirmButtonText := "Save"; successText := "Successfully saved the config."; failText := "Could not save";
     useGeneralActionFunc := true |}.
Definition CLOSE_CONFIRM_ACTION_CONFIGURATION : ConfirmActionConfigurationInterface :=
  {| ca_title := "Close without updating";
     ca_message := "Are you sure you want to close this editor? All changes will be discarded.";
     confirmButtonText := "Close"; successText := "Closed without updating"; failText := "";
     useGeneralActionFunc := true |}.

(** ** Classes *)

Record HostClass := {
  hostname : option string;
  state : option string;
  last_state_change : option string;
  target_config_id : option string;
}.

(** The interface has the fields of the class. *)
Definition HostInterface : Type := HostClass.
Definition new_HostClass (host_interface : HostInterface) (config_id : option string) : HostClass :=
  {| hostname := hostname host_interface; state := state host_interface;
     last_state_change := last_state_change host_interface; target_config_id := config_id |}.

Record NTLMClass := { ntlm_domain_name : jsval; is_ssl : jsval; ntlm_port : jsval }.
Definition new_NTLMClass (ntlm_interface : option NTLMClass) : NTLMClass :=
  match ntlm_interface with
  | Some i => {| ntlm_domain_name := ntlm_domain_name i; is_ssl := is_ssl i; ntlm_port := ntlm_port i |}
  | None => {| ntlm_domain_name := JStr ""; is_ssl := JBool false; ntlm_port := JStr "" |}
  end.

Record SMBClass := { smb_domain_name : jsval; smb_port : jsval }.
Definition new_SMBClass (smb_interface : option SMBClass) : SMBClass :=
  match smb_interface with
  | Some i => {| smb_domain_name := smb_domain_name i; smb_port := smb_port i |}
  | None => {| smb_domain_name := JStr ""; smb_port := JStr "" |}
  end.

Record IPTargetListInterface := {
  it__id : option string;
  it_name : jsval;
  it_protocol : jsval;
  it_ntlm : option NTLMClass;
  it_smb : option SMBClass;
  it_targets : option (list HostInterface);
}.

Record IPTargetListOf (H : Type) := IPTargetList {
  ip__id : option string;
  ip_name : jsval;
  protocol : jsval;
  ntlm : NTLMClass;
  smb : SMBClass;
  targets : option (list H);
}.
Arguments IPTargetList {H}.
Arguments ip__id {H}.
Arguments ip_name {H}.
Arguments protocol {H}.
Arguments ntlm {H}.
Arguments smb {H}.
Arguments targets {H}.
Definition IPTargetListClass : Type := IPTargetListOf HostClass.

Definition set_targets {H K} (v : option (list K)) (t : IPTargetListOf H) : IPTargetListOf K :=
  {| ip__id := ip__id t; ip_name := ip_name t; protocol := protocol t; ntlm := ntlm t; smb := smb t; targets := v |}.

Definition new_IPTargetListClass (ip_target_list_interface : option IPTargetListInterface) : IPTargetListClass :=
  match ip_target_list_interface with
  | Some i =>
      {| ip__id := it__id i; ip_name := it_name i; protocol := it_protocol i; ntlm := new_NTLMClass (it_ntlm i);
         smb := new_SMBClass (it_smb i);
         targets := match it_targets i with
                    | Some l => Some ((fun h => new_HostClass h (it__id i)) <$> l)
                    | None => None
                    end |}
  | None =>
      {| ip__id := Some ""; ip_name := JStr ""; protocol := JStr ""; ntlm := new_NTLMClass None;
         smb := new_SMBClass None; targets := Some [] |}
  end.

Record AgentInstallerConfigurationClass := {
  ai__id : jsval;
  config_name : jsval;
  install_endgame : jsval;
  endgame_sensor_id : jsval;
  endgame_sensor_name : jsval;
  endgame_server_ip : jsval;
  endgame_port : jsval;
  endgame_user_name : jsval;
  endgame_password : jsval;
  customPackages : option (list (string * jsval));
}.

(** The packages are an object by name. *)
Definition new_AgentInstallerConfigurationClass (i : jsval) : AgentInstallerConfigurationClass :=
  {| ai__id := prop i "_id"; config_name := prop i "config_name"; install_endgame := prop i "install_endgame";
     endgame_sensor_id := prop i "endgame_sensor_id"; endgame_sensor_name := prop i "endgame_sensor_name";
     endgame_server_ip := prop i "endgame_server_ip"; endgame_port := prop i "endgame_port";
     endgame_user_name := prop i "endgame_user_name"; endgame_password := prop i "endgame_password";
     customPackages := match prop i "customPackages" with
                       | JObj fields => Some fields
                       | v => if defined v then Some [] else None
                       end |}.

Record ElementSpecClass := {
  es_name : string;
  es_type : string;
  description : option string;
  es_default_value : jsval;
  es_required : option bool;
  es_regexp : option string;
  es_error_message : option string;
  es_label : option string;
  placeholder : option string;
}.

Record AppConfigInterface := {
  ac_name : string;
  ac_form : option (list ElementSpecClass);
  ac_hasEditableConfig : option bool;
  ac_configLocation : option string;
}.

Record AppConfigClass := {
  name : string;
  form : list ElementSpecClass;
  hasEditableConfig : option bool;
  configLocation : option string;
}.
Definition new_AppConfigClass (i : AppConfigInterface) : AppConfigClass :=
  {| name := ac_name i; form := default [] (ac_form i); hasEditableConfig := ac_hasEditableConfig i;
     configLocation := ac_configLocation i |}.

Record AppConfigContentClass := { filename : string; content : string }.

Record WindowsCredentialsClass := { user_name : jsval; password : jsval }.
Definition new_WindowsCredentialsClass (i : jsval) : WindowsCredentialsClass :=
  {| user_name := prop i "user_name"; password := prop i "password" |}.

Record EndgameSensorProfileClass := { sp_id : string; sp_name : string }.

(** AgentInterface and AgentTargetInterface as they are sent. *)
Record agent_request := {
  rq_installer_config : option AgentInstallerConfigurationClass;
  rq_target_config : option IPTargetListClass;
  rq_windows_domain_creds : option WindowsCredentialsClass;
  rq_target : option HostClass;
}.

Record EndgameLoginInterface := {
  el_server_ip : jsval;
  el_port : jsval;
  el_user_name : jsval;
  el_password : jsval;
}.

(** What the page opens the installer dialog with. *)
Record AgentInstallerDialogDataInterface := {
  dialog_app_configs : list AppConfigClass;
  app_names : list string;
  app_name_app_config_pair : gmap string AppConfigClass;
}.

(** ** Services *)

Definition target_lists (response : list IPTargetListInterface) : outcome (list IPTargetListClass) :=
  Ret ((fun i => new_IPTargetListClass (Some i)) <$> response).
Definition configurations (response : list jsval) : outcome (list AgentInstallerConfigurationClass) :=
  Ret (new_AgentInstallerConfigurationClass <$> response).

Definition agent_generate (agent : agent_request) : service agent_request string string :=
  Service POST "/api/agent/generate" agent "post/get agent generate" copied.
Definition agent_save_config (c : AgentInstallerConfigurationClass) :=
  Service POST "/api/agent/config" c "agent save config" configurations.
Definition agent_delete_config (agent_configuration_id : jsval) :=
  Service DELETE ("/api/agent/config/" +:+ js_to_string agent_configuration_id) tt "agent delete config" configurations.
Definition agent_get_configs := Service GET "/api/agent/config" tt "agent get configs" configurations.
Definition agent_get_ip_target_list := Service GET "/api/agent/targets" tt "agent get ip target list" target_lists.
Definition agent_save_ip_target_list (ip_target_list : IPTargetListClass) :=
  Service POST "/api/agent/targets" ip_target_list "agent save ip taget list" target_lists.
Definition agent_add_host_to_ip_target_list (target_config_id : option string) (host : jsval) :=
  Service POST ("/api/agent/host/" +:+ default "undefined" target_config_id) host "agent add host to ip target list"
    (fun response => Ret (new_IPTargetListClass response)).
Definition agent_remove_host_from_ip_target_list (target_config_id : option string) (host : HostClass)
    : service unit SuccessMessageClass SuccessMessageClass :=
  Service DELETE ("/api/agent/host/" +:+ default "undefined" (hostname host) +:+ "/" +:+ default "undefined" target_config_id)
    tt "agent remove host from ip target list" copied.
Definition agent_delete_ip_target_list (ip_target_list_name : jsval) :=
  Service DELETE ("/api/agent/targets/" +:+ js_to_string ip_target_list_name) tt "agent delete ip target list" target_lists.
Definition agents_install (agent : agent_request) : service agent_request SuccessMessageClass SuccessMessageClass :=
  Service POST "/api/agent/install" agent "agents install" copied.
Definition agents_uninstall (agent : agent_request) : service agent_request SuccessMessageClass SuccessMessageClass :=
  Service POST "/api/agent/uninstall" agent "agents uninstall" copied.
Definition agent_uninstall (agent_target : agent_request) : service agent_request SuccessMessageClass SuccessMessageClass :=
  Service POST "/api/agent/uninstall" agent_target "agent uninstall" copied.
Definition agent_reinstall (agent_target : agent_request) : service agent_request SuccessMessageClass SuccessMessageClass :=
  Service POST "/api/agent/reinstall" agent_target "agent reinstall" copied.
Definition get_app_configs := Service GET "/api/agent/configs" tt "get app configs"
  (fun response : list AppConfigInterface => Ret (new_AppConfigClass <$> response)).
Definition get_config_content (config_name : jsval) (config_type : string)
    : service unit AppConfigContentClass AppConfigContentClass :=
  Service GET ("/api/agent/config_content/" +:+ js_to_string config_name +:+ "/" +:+ config_type) tt "get app configs" copied.
Definition post_config_content (config_name : jsval) (config_type config_content : string)
    : service string SuccessMessageClass SuccessMessageClass :=
  Service POST ("/api/agent/config_content/" +:+ js_to_string config_name +:+ "/" +:+ config_type) config_content
    "get app configs" copied.

Definition endgame_sensor_profiles (endgame_login : EndgameLoginInterface)
    : service EndgameLoginInterface (list EndgameSensorProfileClass) (list EndgameSensorProfileClass) :=
  Service POST "/api/agent/endgame/profiles" endgame_login "post endgame sensor profile" copied.

(** ** Dialogs with a form of controls *)

(** enums/dialog-control-types.enum.ts *)
Inductive DialogControlTypesEnum : Type :=
| Text_control | Password_control | Textarea_control | Date_control | Dropdown_control | Timezone_control
| Checkbox_control | Chips_control.

(** DialogFormControlConfigClass, the fields the page sets; the constructor of
    the class gives no tooltip and a text control. *)
Record DialogFormControlConfigClass := {
  dfc_label : string;
  formState : jsval;
  validatorOrOpts : list ValidatorObjectInterface;
  tooltip : option string;
  controlType : DialogControlTypesEnum;
}.

Record BackingObjectInterface := {
  bo_title : string;
  instructions : string;
  dialogForm : list (string * DialogFormControlConfigClass);
  confirmBtnText : string;
}.

(** What a form group that a dialog returns is read for. *)
Record dialog_form := DialogForm { valid : bool; rawValue : jsval }.

Definition credentials_dialog (title instructions : string) : BackingObjectInterface :=
  {| bo_title := title; instructions := instructions;
     dialogForm :=
       [("user_name", {| dfc_label := "Domain username"; formState := JStr ""; validatorOrOpts := COMMON_VALIDATORS_required;
                         tooltip := None; controlType := Text_control |});
        ("password", {| dfc_label := DOMAIN_PASSWORD_LABEL; formState := JStr ""; validatorOrOpts := COMMON_VALIDATORS_required;
                        tooltip := None; controlType := Password_control |})];
     confirmBtnText := "Execute" |}.

Definition add_hosts_dialog : BackingObjectInterface :=
  {| bo_title := "Add new Windows hosts";
     instructions := "Enter a Windows hostname for each line or copy and paste from a text file.";
     dialogForm :=
       [("hostnames", {| dfc_label := "Windows Hostname"; formState := JStr ""; validatorOrOpts := COMMON_VALIDATORS_required;
                         tooltip := Some "The application will attempt to install agents to the Windows machines specified.";
                         controlType := Textarea_control |})];
     confirmBtnText := "Add Windows Hosts" |}.
