(* ===== verification/Agents.v ===== *)
(** modules/agent-builder-chooser/agent-builder-chooser.component.ts: the page
    that installs the Windows agents.

    A list of targets, its hosts, the data source of its table of hosts and the
    row that joins them are objects: the dialogs and callbacks hold references to
    them while answers replace the tables.  The array of hosts of a list and the
    array of its table are never changed in place, so they are values. *)
From S2P Require Import Prelude Handler JsValue Runtime Data Api Regex Validators AgentData.

(** MatTableDataSource of @angular/material, the properties that are assigned. *)
Record MatTableDataSource (A : Type) := DataSource { data : option (list A); paginator : option nat }.
Arguments DataSource {A}.
Arguments data {A}.
Arguments paginator {A}.

Definition with_data {A} (v : option (list A)) (d : MatTableDataSource A) : MatTableDataSource A :=
  DataSource v (paginator d).
Definition with_paginator {A} (v : option nat) (d : MatTableDataSource A) : MatTableDataSource A :=
  DataSource (data d) v.

(** interfaces/mat-table-row-ip-target-list.interface.ts *)
Record MatTableRowIPTargetListInterface := { config : loc; host_list : loc; expanded : bool }.

(** AgentInterface and AgentTargetInterface before they are sent. *)
Record AgentInterface := {
  installer_config : option AgentInstallerConfigurationClass;
  target_config : option loc;
  target : option loc;
}.

Record AgentDetailsDialogDataInterface := {
  dd_app_configs : list AppConfigClass;
  dd_agent_installer_configuration : AgentInstallerConfigurationClass;
}.

Inductive call : Type :=
| CGetChartStatus
| CGenerate (agent : agent_request)
| CSaveConfig (c : AgentInstallerConfigurationClass)
| CDeleteConfig (c : AgentInstallerConfigurationClass)
| CGetConfigs
| CGetIPTargetList (refresh : bool)
| CSaveIPTargetList (l : IPTargetListClass)
| CAddHost (ip_target_list : loc) (_id : option string) (host : jsval) (host_list : loc)
| CRemoveHost (ip_target_list : loc) (_id : option string) (host : HostClass) (host_list : loc) (host_index : nat)
| CDeleteIPTargetList (name : jsval)
| CAgentsInstall (agent : agent_request)
| CAgentsUninstall (agent : agent_request)
| CAgentUninstall (agent : agent_request)
| CAgentReinstall (agent : agent_request)
| CGetAppConfigs
| CGetConfigContent (c : AgentInstallerConfigurationClass) (config_type : string) (is_editable : jsval)
| CPostConfigContent (c : AgentInstallerConfigurationClass) (config_type text : string)
| DDeleteConfig (c : AgentInstallerConfigurationClass) (d : ConfirmDialogMatDialogDataInterface)
| DDeleteIPTargetList (ip_target_list : loc) (d : ConfirmDialogMatDialogDataInterface)
| DNewConfig (d : AgentInstallerDialogDataInterface)
| DNewIPTargetList
| DAddHosts (ip_target_list host_list : loc) (d : BackingObjectInterface)
| DRemoveHost (ip_target_list host_list host : loc) (host_index : nat) (d : ConfirmDialogMatDialogDataInterface)
| DCredentials (d : BackingObjectInterface) (action : string) (agent : AgentInterface)
| DTextEditor (c : AgentInstallerConfigurationClass) (config_type : string) (d : TextEditorConfigurationInterface).

Definition Ans (c : call) : Type :=
  match c with
  | CGetChartStatus => answer (option (list StatusClass))
  | CGenerate _ => answer string
  | CSaveConfig _ | CDeleteConfig _ | CGetConfigs => answer (list AgentInstallerConfigurationClass)
  | CGetIPTargetList _ | CSaveIPTargetList _ | CDeleteIPTargetList _ => answer (list IPTargetListClass)
  | CAddHost _ _ _ _ => answer IPTargetListClass
  | CRemoveHost _ _ _ _ _ | CAgentsInstall _ | CAgentsUninstall _ | CAgentUninstall _ | CAgentReinstall _
  | CPostConfigContent _ _ _ => answer SuccessMessageClass
  | CGetAppConfigs => answer (list AppConfigClass)
  | CGetConfigContent _ _ _ => answer AppConfigContentClass
  | DDeleteConfig _ _ | DDeleteIPTargetList _ _ | DRemoveHost _ _ _ _ _ | DTextEditor _ _ _ => option string
  | DNewConfig _ => option AgentInstallerConfigurationClass
  | DNewIPTargetList => option IPTargetListClass
  | DAddHosts _ _ _ | DCredentials _ _ _ => option dialog_form
  end.

Inductive page : Type :=
| DetectChanges
| RenderRows
| OpenDetails (d : AgentDetailsDialogDataInterface)
| SaveAs (blob filename : string).

Record AgentBuilderChooserComponent := {
  installer_config_paginator_ : option nat;
  target_config_paginator_ : option nat;
  agent_installer_configs_mat_table_data : option (MatTableDataSource AgentInstallerConfigurationClass);
  ip_target_configs_mat_table_data : option (MatTableDataSource loc);
  agent_installer_configuration_selection : option AgentInstallerConfigurationClass;
  ip_target_selection : option loc;
  app_configs : option (list AppConfigClass);
  is_downloading_agent_installer_configs : bool;
  lists : store (IPTargetListOf loc);
  hosts : store HostClass;
  sources : store (MatTableDataSource loc);
  rows : store MatTableRowIPTargetListInterface;
}.

Definition with_paginators p q (s : AgentBuilderChooserComponent) :=
  {| installer_config_paginator_ := p; target_config_paginator_ := q;
     agent_installer_configs_mat_table_data := agent_installer_configs_mat_table_data s;
     ip_target_configs_mat_table_data := ip_target_configs_mat_table_data s;
     agent_installer_configuration_selection := agent_installer_configuration_selection s;
     ip_target_selection := ip_target_selection s; app_configs := app_configs s;
     is_downloading_agent_installer_configs := is_downloading_agent_installer_configs s;
     lists := lists s; hosts := hosts s; sources := sources s; rows := rows s |}.
Definition with_configs d c (s : AgentBuilderChooserComponent) :=
  {| installer_config_paginator_ := installer_config_paginator_ s; target_config_paginator_ := target_config_paginator_ s;
     agent_installer_configs_mat_table_data := d;
     ip_target_configs_mat_table_data := ip_target_configs_mat_table_data s;
     agent_installer_configuration_selection := c;
     ip_target_selection := ip_target_selection s; app_configs := app_configs s;
     is_downloading_agent_installer_configs := is_downloading_agent_installer_configs s;
     lists := lists s; hosts := hosts s; sources := sources s; rows := rows s |}.
Definition with_targets d p (s : AgentBuilderChooserComponent) :=
  {| installer_config_paginator_ := installer_config_paginator_ s; target_config_paginator_ := target_config_paginator_ s;
     agent_installer_configs_mat_table_data := agent_installer_configs_mat_table_data s;
     ip_target_configs_mat_table_data := d;
     agent_installer_configuration_selection := agent_installer_configuration_selection s;
     ip_target_selection := p; app_configs := app_configs s;
     is_downloading_agent_installer_configs := is_downloading_agent_installer_configs s;
     lists := lists s; hosts := hosts s; sources := sources s; rows := rows s |}.
Definition with_app_configs v (s : AgentBuilderChooserComponent) :=
  {| installer_config_paginator_ := installer_config_paginator_ s; target_config_paginator_ := target_config_paginator_ s;
     agent_installer_configs_mat_table_data := agent_installer_configs_mat_table_data s;
     ip_target_configs_mat_table_data := ip_target_configs_mat_table_data s;
     agent_installer_configuration_selection := agent_installer_configuration_selection s;
     ip_target_selection := ip_target_selection s; app_configs := v;
     is_downloading_agent_installer_configs := is_downloading_agent_installer_configs s;
     lists := lists s; hosts := hosts s; sources := sources s; rows := rows s |}.
Definition with_downloading v (s : AgentBuilderChooserComponent) :=
  {| installer_config_paginator_ := installer_config_paginator_ s; target_config_paginator_ := target_config_paginator_ s;
     agent_installer_configs_mat_table_data := agent_installer_configs_mat_table_data s;
     ip_target_configs_mat_table_data := ip_target_configs_mat_table_data s;
     agent_installer_configuration_selection := agent_installer_configuration_selection s;
     ip_target_selection := ip_target_selection s; app_configs := app_configs s;
     is_downloading_agent_installer_configs := v;
     lists := lists s; hosts := hosts s; sources := sources s; rows := rows s |}.
Definition with_stores l h d r (s : AgentBuilderChooserComponent) :=
  {| installer_config_paginator_ := installer_config_paginator_ s; target_config_paginator_ := target_config_paginator_ s;
     agent_installer_configs_mat_table_data := agent_installer_configs_mat_table_data s;
     ip_target_configs_mat_table_data := ip_target_configs_mat_table_data s;
     agent_installer_configuration_selection := agent_installer_configuration_selection s;
     ip_target_selection := ip_target_selection s; app_configs := app_configs s;
     is_downloading_agent_installer_configs := is_downloading_agent_installer_configs s;
     lists := l; hosts := h; sources := d; rows := r |}.

Definition constructor : AgentBuilderChooserComponent :=
  {| installer_config_paginator_ := None; target_config_paginator_ := None;
     agent_installer_configs_mat_table_data := None; ip_target_configs_mat_table_data := None;
     agent_installer_configuration_selection := None; ip_target_selection := None; app_configs := None;
     is_downloading_agent_installer_configs := false;
     lists := store_empty; hosts := store_empty; sources := store_empty; rows := store_empty |}.

Abbreviation M := (handler AgentBuilderChooserComponent (effect call page)).
Abbreviation DUR := (Some MAT_SNACKBAR_CONFIGURATION_60000_DUR).

Definition get : M AgentBuilderChooserComponent := gets (fun s => s).
Definition list_at (p : loc) : M (IPTargetListOf loc) := s <- get ;; deref (load (lists s) p).
Definition host_at (p : loc) : M HostClass := s <- get ;; deref (load (hosts s) p).
Definition source_at (p : loc) : M (MatTableDataSource loc) := s <- get ;; deref (load (sources s) p).
Definition row_at (p : loc) : M MatTableRowIPTargetListInterface := s <- get ;; deref (load (rows s) p).

Definition change_list (p : loc) f : M unit :=
  modify (fun s => with_stores (update p f (lists s)) (hosts s) (sources s) (rows s) s).
Definition change_host (p : loc) f : M unit :=
  modify (fun s => with_stores (lists s) (update p f (hosts s)) (sources s) (rows s) s).
Definition change_source (p : loc) f : M unit :=
  modify (fun s => with_stores (lists s) (hosts s) (update p f (sources s)) (rows s) s).
Definition change_row (p : loc) f : M unit :=
  modify (fun s => with_stores (lists s) (hosts s) (sources s) (update p f (rows s)) s).

(** The objects of the hosts of a response. *)
Definition receive_hosts (l : list HostClass) : M (list loc) := fun s =>
  let '(ps, h) := alloc_list l (hosts s) in
  (Ret ps, with_stores (lists s) h (sources s) (rows s) s, []).
Definition receive_targets (o : option (list HostClass)) : M (option (list loc)) :=
  match o with
  | Some l => ps <- receive_hosts l ;; ret (Some ps)
  | None => ret None
  end.

(** An object as it is sent. *)
Definition sent_list (s : AgentBuilderChooserComponent) (p : loc) : option IPTargetListClass :=
  option_map (fun l => set_targets (option_map (omap (load (hosts s))) (targets l)) l) (load (lists s) p).

Definition sent (s : AgentBuilderChooserComponent) (agent : AgentInterface) (c : option WindowsCredentialsClass)
    : agent_request :=
  {| rq_installer_config := installer_config agent;
     rq_target_config := target_config agent ≫= sent_list s;
     rq_windows_domain_creds := c;
     rq_target := target agent ≫= load (hosts s) |}.

(** ** Requests *)

Definition api_get_chart_status_ : M unit := emit (Subscribe CGetChartStatus).
Definition api_agent_generate_ (agent : AgentInterface) : M unit :=
  s <- get ;; emit (Subscribe (CGenerate (sent s agent None))).
Definition api_agent_save_config_ c : M unit := emit (Subscribe (CSaveConfig c)).
Definition api_agent_delete_config_ c : M unit := emit (Subscribe (CDeleteConfig c)).
Definition api_agent_get_configs_ : M unit := emit (Subscribe CGetConfigs).
Definition api_agent_get_ip_target_list_ (refresh : bool) : M unit := emit (Subscribe (CGetIPTargetList refresh)).
Definition api_agent_save_ip_target_list_ l : M unit := emit (Subscribe (CSaveIPTargetList l)).
Definition api_agent_add_host_to_ip_target_list_ (ip_target_list : loc) (host : jsval) (host_list : loc) : M unit :=
  l <- list_at ip_target_list ;; emit (Subscribe (CAddHost ip_target_list (ip__id l) host host_list)).
Definition api_agent_remove_host_from_ip_target_list (ip_target_list host host_list : loc) (host_index : nat) : M unit :=
  l <- list_at ip_target_list ;; h <- host_at host ;;
  emit (Subscribe (CRemoveHost ip_target_list (ip__id l) h host_list host_index)).
Definition api_delete_ip_target_list_ (ip_target_list : loc) : M unit :=
  l <- list_at ip_target_list ;; emit (Subscribe (CDeleteIPTargetList (ip_name l))).
Definition api_get_app_configs_ : M unit := emit (Subscribe CGetAppConfigs).

(** [perform_agent_action_] with the four requests it chooses from. *)
Definition perform_agent_action_ (action : string) (agent : agent_request) : M unit :=
  if action === "install" then emit (Subscribe (CAgentsInstall agent))
  else if action === "reinstall" then emit (Subscribe (CAgentReinstall agent))
  else if action === "uninstall" then emit (Subscribe (CAgentUninstall agent))
  else if action === "uninstalls" then emit (Subscribe (CAgentsUninstall agent))
  else ret tt.

(** ** Actions *)

(** The listener of the socket is registered; its messages are events. *)
Definition ngOnInit : M unit :=
  emit (SetTitle AGENT_BUILDER_CHOOSER_TITLE) ;;;
  api_get_chart_status_ ;;; api_agent_get_configs_ ;;; api_agent_get_ip_target_list_ false ;;; api_get_app_configs_.

Definition get_app_configs_with_custom_packages_ (c : AgentInstallerConfigurationClass) : M (list AppConfigClass) :=
  s <- get ;;
  l <- deref (app_configs s) ;;
  let package_names := fst <$> default [] (customPackages c) in
  ret (List.filter (fun ac => includes package_names (name ac)) l).

Definition check_custom_packages (c : AgentInstallerConfigurationClass) : M bool :=
  l <- get_app_configs_with_custom_packages_ c ;; ret (Nat.ltb 0 (length l)).

Definition update_selected_agent_installer_config (c : AgentInstallerConfigurationClass) : M unit :=
  modify (fun s => with_configs (agent_installer_configs_mat_table_data s) (Some c) s).
Definition update_selected_ip_target (row : loc) : M unit :=
  r <- row_at row ;; modify (fun s => with_targets (ip_target_configs_mat_table_data s) (Some (config r)) s).
Definition toggle_host_list_expansion (row : loc) : M unit :=
  change_row row (fun r => {| config := config r; host_list := host_list r; expanded := negb (expanded r) |}).
Definition is_host_list_expanded (row : loc) : M bool := r <- row_at row ;; ret (expanded r).

Definition set_host_list_paginator (host_list : loc) (p : option nat) : M unit :=
  d <- source_at host_list ;;
  when (negb (notUndefNull (paginator d))) (when (notUndefNull p) (change_source host_list (with_paginator p))).

Definition show_agent_installer_configuration (c : AgentInstallerConfigurationClass) : M unit :=
  l <- get_app_configs_with_custom_packages_ c ;;
  emit (Page (OpenDetails {| dd_app_configs := l; dd_agent_installer_configuration := c |})).

Definition download_agent_installer (c : AgentInstallerConfigurationClass) : M unit :=
  modify (with_downloading true) ;;;
  displaySnackBar ("Initiated executable download for " +:+ js_to_string (config_name c) +:+
                   ". Please wait until it is completed.") None ;;;
  api_agent_generate_ {| installer_config := Some c; target_config := None; target := None |}.

Definition dialog_message_ (software_action : string) (host_name : option string) : string :=
  let middle_message := match host_name with
    | None => " configuration on all Windows hosts within your target configuration. "
    | Some n => " on " +:+ n
    end in
  "Executing this form will attempt to " +:+ software_action +:+ " the selected executable" +:+ newline +:+
  "           " +:+ middle_message +:+ ". Are you sure you want to do this?".

Definition get_credentials_ (title instructions action : string) (agent : AgentInterface) : M unit :=
  emit (Subscribe (DCredentials (credentials_dialog title instructions) action agent)).

Definition agents_install (c : option AgentInstallerConfigurationClass) (ip_target_list : option loc) : M unit :=
  get_credentials_ INSTALL_WINDOWS_HOSTS (dialog_message_ INSTALL None) INSTALL
    {| installer_config := c; target_config := ip_target_list; target := None |}.
Definition agents_uninstall (c : option AgentInstallerConfigurationClass) (ip_target_list : option loc) : M unit :=
  get_credentials_ UNINSTALL_WINDOWS_HOSTS (dialog_message_ UNINSTALLS None) UNINSTALLS
    {| installer_config := c; target_config := ip_target_list; target := None |}.

(** [targets.filter((h) => h.hostname === host.hostname)] *)
Fixpoint hosts_named (n : option string) (h : store HostClass) (l : list loc) : list loc :=
  match l with
  | [] => []
  | p :: r => if bool_decide ((load h p ≫= hostname) = n) then p :: hosts_named n h r else hosts_named n h r
  end.

(** The assignment the two actions on one host share: the list keeps the hosts
    with that name. *)
Definition single_host (title action : string) (c : option AgentInstallerConfigurationClass)
    (ip_target_list host : loc) : M unit :=
  h <- host_at host ;;
  let message := dialog_message_ action (hostname h) in
  l <- list_at ip_target_list ;;
  ts <- deref (targets l) ;;
  s <- get ;;
  change_list ip_target_list (set_targets (Some (hosts_named (hostname h) (hosts s) ts))) ;;;
  get_credentials_ (title +:+ " " +:+ default "undefined" (hostname h)) message action
    {| installer_config := c; target_config := Some ip_target_list; target := Some host |}.
Definition agent_uninstall := single_host UNINSTALL_WINDOWS_HOST UNINSTALL.
Definition agent_reinstall := single_host REINSTALL_WINDOWS_HOST REINSTALL.

Definition confirm_dialog (title message : string) : ConfirmDialogMatDialogDataInterface :=
  {| title := title; message := message; option1 := CANCEL_DIALOG_OPTION; option2 := CONFIRM_DIALOG_OPTION;
     message_double_confirm := None |}.

Definition delete_agent_installer_configuration_confirm_dialog (c : AgentInstallerConfigurationClass) : M unit :=
  emit (Subscribe (DDeleteConfig c (confirm_dialog
    ("Remove configuration " +:+ js_to_string (config_name c) +:+ "?")
    ("Are you sure you want to delete " +:+ js_to_string (config_name c) +:+ "?")))).

Definition open_config_text_editor_ (c : AgentInstallerConfigurationClass) (config_type : string) (sub_config : jsval) : M unit :=
  is_editable <- deref (get_property sub_config "hasEditableConfig") ;;
  emit (Subscribe (CGetConfigContent c config_type is_editable)).

(** A double quote. *)
Definition quote : string := String (Ascii.ascii_of_nat 34) EmptyString.

Definition delete_ip_target_list_confirm_dialog (ip_target_list : loc) : M unit :=
  l <- list_at ip_target_list ;;
  emit (Subscribe (DDeleteIPTargetList ip_target_list (confirm_dialog
    ("Remove configuration " +:+ js_to_string (ip_name l) +:+ "?")
    ("Before deleting this target configuration, it is strongly advised to first do a " +:+ quote +:+
     "Batch Uninstall" +:+ quote +:+ ". " +:+
     "Please make sure all agents have been uninstalled successfully. This action cannot be undone.")))).

Definition new_agent_installer_configuration : M unit :=
  s <- get ;;
  l <- deref (app_configs s) ;;
  emit (Subscribe (DNewConfig {|
    dialog_app_configs := l; app_names := name <$> l;
    app_name_app_config_pair := fold_left (fun m ac => <[name ac := ac]> m) l ∅ |})).

Definition new_ip_target_list : M unit := emit (Subscribe DNewIPTargetList).

Definition smb_protocol (l : IPTargetListOf loc) : bool := strict_eq (protocol l) (JStr "smb").
Definition get_ip_target_list_port (l : IPTargetListOf loc) : jsval :=
  if smb_protocol l then smb_port (smb l) else ntlm_port (ntlm l).
Definition get_ip_target_list_domain_name (l : IPTargetListOf loc) : jsval :=
  if smb_protocol l then smb_domain_name (smb l) else ntlm_domain_name (ntlm l).

Definition add_hosts_to_ip_target_list (ip_target_list host_list : loc) : M unit :=
  emit (Subscribe (DAddHosts ip_target_list host_list add_hosts_dialog)).

Definition remove_hosts_from_ip_target_list (ip_target_list host_list host : loc) (host_index : nat) : M unit :=
  h <- host_at host ;;
  let n := default "undefined" (hostname h) in
  emit (Subscribe (DRemoveHost ip_target_list host_list host host_index (confirm_dialog
    ("Remove configuration " +:+ n +:+ "?")
    ("Before deleting this " +:+ n +:+ ", it is strongly advised to uninstall first. This action cannot be undone.")))).

(** ** The tables *)

Definition set_agent_installer_configuration_mat_table_data_ (l : list AgentInstallerConfigurationClass) : M unit :=
  modify (fun s => with_configs (Some (DataSource (Some l) (installer_config_paginator_ s))) None s) ;;;
  emit (Page DetectChanges).

(** A row with its objects; a data source made without an array starts with an
    empty one. *)
Definition new_row (l : IPTargetListClass) : M loc :=
  ts <- receive_targets (targets l) ;;
  fun s =>
    let '(p, ls) := alloc (set_targets ts l) (lists s) in
    let '(d, ds) := alloc (DataSource (Some (default [] ts)) None) (sources s) in
    let '(r, rs) := alloc {| config := p; host_list := d; expanded := false |} (rows s) in
    (Ret r, with_stores ls (hosts s) ds rs s, []).

Fixpoint new_rows (l : list IPTargetListClass) : M (list loc) :=
  match l with
  | [] => ret []
  | x :: r => p <- new_row x ;; ps <- new_rows r ;; ret (p :: ps)
  end.

Definition set_ip_target_config_mat_table_data_ (ip_target_lists : list IPTargetListClass) : M unit :=
  rs <- new_rows ip_target_lists ;;
  modify (fun s => with_targets (Some (DataSource (Some rs) (target_config_paginator_ s))) None s) ;;;
  emit (Page DetectChanges).

(** The element of [l] a [for] loop stops at. *)
Fixpoint first {A} (p : A -> bool) (l : list A) : option A :=
  match l with
  | [] => None
  | x :: r => if p x then Some x else first p r
  end.

(** The array of the response is read once for each target. *)
Definition update_ip_targets_list_targets_ (ip_target_list : loc) (updated : IPTargetListClass) : M unit :=
  l <- list_at ip_target_list ;;
  ts <- deref (targets l) ;;
  for_each ts (fun p =>
    h <- host_at p ;;
    updated_targets <- deref (targets updated) ;;
    match first (fun u => bool_decide (hostname h = hostname u)) updated_targets with
    | Some u => change_host p (fun h =>
        {| hostname := hostname h; state := state u; last_state_change := last_state_change u;
           target_config_id := target_config_id h |})
    | None => ret tt
    end).

(** The turn of one row of the table. *)
Definition refresh_row (response : list IPTargetListClass) (k : loc) : M unit :=
  r <- row_at k ;;
  l <- list_at (config r) ;;
  match first (fun u => bool_decide (ip__id l = ip__id u)) response with
  | Some updated => update_ip_targets_list_targets_ (config r) updated
  | None => ret tt
  end.
Definition refresh_rows (rs : list loc) (response : list IPTargetListClass) : M unit :=
  for_each rs (refresh_row response).

(** ** Answers *)

Definition api_get_chart_status_answer (a : answer (option (list StatusClass))) : M unit :=
  match a with
  | Next (Some (x :: _)) =>
      when (negb (s_status x === "DEPLOYED")) (displaySnackBar LOGSTASH_NOT_DEPLOYED_STATE_MESSAGE DUR)
  | Next _ => displaySnackBar LOGSTASH_NO_DATA_MESSAGE DUR
  | Error e => on_error "retrieving logstash installation status" e
  end.

Definition api_agent_generate_answer (a : answer string) : M unit :=
  match a with
  | Next response =>
      emit (Page (SaveAs response "agents.zip")) ;;;
      generate_return_success_snackbar_message
        "downloaded agent installer configuration. Check your Downloads directory for the file." DUR ;;;
      modify (with_downloading false)
  | Error e => on_error "downloading or generating agent installer config" e ;;; modify (with_downloading false)
  end.

Definition api_agent_save_config_answer (a : answer (list AgentInstallerConfigurationClass)) : M unit :=
  match a with
  | Next response =>
      set_agent_installer_configuration_mat_table_data_ response ;;;
      generate_return_success_snackbar_message "saved agent installer configuration" DUR
  | Error e => on_error_message "saving agent installer configuration" e
  end.

Definition api_agent_delete_config_answer (a : answer (list AgentInstallerConfigurationClass)) : M unit :=
  match a with
  | Next response =>
      set_agent_installer_configuration_mat_table_data_ response ;;;
      generate_return_success_snackbar_message "deleted agent installer configuration" DUR
  | Error e => on_error "deleting agent installer configuration" e
  end.

Definition api_agent_get_configs_answer (a : answer (list AgentInstallerConfigurationClass)) : M unit :=
  match a with
  | Next response => set_agent_installer_configuration_mat_table_data_ response
  | Error e => on_error "retrieving agent installer configurations" e
  end.

Definition api_agent_get_ip_target_list_answer (refresh : bool) (a : answer (list IPTargetListClass)) : M unit :=
  match a with
  | Next response =>
      s <- get ;;
      match ip_target_configs_mat_table_data s ≫= data with
      | Some rs =>
          if refresh then refresh_rows rs response ;;; emit (Page RenderRows)
          else set_ip_target_config_mat_table_data_ response
      | None => set_ip_target_config_mat_table_data_ response
      end
  | Error e => on_error "retrieving ip target configurations" e
  end.

Definition api_agent_save_ip_target_list_answer (a : answer (list IPTargetListClass)) : M unit :=
  match a with
  | Next response =>
      set_ip_target_config_mat_table_data_ response ;;;
      generate_return_success_snackbar_message "saved ip target configuration" DUR
  | Error e => on_error "saving ip target configuration" e
  end.

(** [is_host_index_zero_] on the objects of an array: the host is the first of
    its name, in any case. *)
Definition same_name (h x : HostClass) : bool :=
  match hostname x, hostname h with
  | Some a, Some b => toLowerCase a === toLowerCase b
  | _, _ => false
  end.
Definition is_host_index_zero_ (host : HostClass) (host_index : nat) (l : list HostClass) : bool :=
  Z.eqb (findIndex (same_name host) l) (Z.of_nat host_index).

(** [l.filter(this.is_host_index_zero_)] *)
Definition distinct_hosts (h : store HostClass) (l : list loc) : list loc :=
  let objects := omap (load h) l in
  omap (fun x : nat * loc => match load h (snd x) with
                  | Some o => if is_host_index_zero_ o (fst x) objects then Some (snd x) else None
                  | None => None
                  end) (imap pair l).

Definition api_agent_add_host_answer (ip_target_list host_list : loc) (a : answer IPTargetListClass) : M unit :=
  match a with
  | Next response =>
      response_targets <- receive_targets (targets response) ;;
      l <- list_at ip_target_list ;;
      match targets l with
      | Some ts =>
          s <- get ;;
          (* undefined would be appended as an element, and reading its name throws *)
          r <- deref response_targets ;;
          let distinct := distinct_hosts (hosts s) (ts ++ r) in
          change_source host_list (with_data (Some distinct)) ;;;
          change_list ip_target_list (set_targets (Some distinct))
      | None =>
          change_source host_list (with_data response_targets) ;;;
          change_list ip_target_list (set_targets response_targets)
      end ;;;
      generate_return_success_snackbar_message "added host to ip target configuration" DUR
  | Error e => on_error_message "adding host to ip target list" e
  end.

Definition api_agent_remove_host_answer (ip_target_list host_list : loc) (host_index : nat)
    (a : answer SuccessMessageClass) : M unit :=
  match a with
  | Next response =>
      d <- source_at host_list ;;
      l <- deref (data d) ;;
      let new_host_list := take host_index l ++ drop (S host_index) l in
      change_source host_list (with_data (Some new_host_list)) ;;;
      change_list ip_target_list (set_targets (Some new_host_list)) ;;;
      displaySnackBar (success_message response) DUR
  | Error e => on_error_message "removing host from ip target list" e
  end.

Definition api_delete_ip_target_list_answer (a : answer (list IPTargetListClass)) : M unit :=
  match a with
  | Next response =>
      set_ip_target_config_mat_table_data_ response ;;;
      generate_return_success_snackbar_message "deleted ip target configuration" DUR
  | Error e => on_error "deleting ip target configuration" e
  end.

Definition api_agents_install_answer (a : answer SuccessMessageClass) : M unit :=
  match a with
  | Next response => displaySnackBar (success_message response) DUR
  | Error e => on_error_message "initiating install task for an unknown reason" e
  end.

Definition api_agents_uninstall_answer (a : answer SuccessMessageClass) : M unit :=
  match a with
  | Next response => displaySnackBar (success_message response) DUR
  | Error e => on_error_message "executing uninstall action as this Agent is already uninstalled on target host" e
  end.

Definition api_agent_uninstall_answer (a : answer SuccessMessageClass) : M unit :=
  match a with
  | Next response => displaySnackBar (success_message response) DUR
  | Error e => on_error_message "executing uninstall action as this Agent is already uninstalled on target host" e
  end.

Definition api_agent_reinstall_answer (a : answer SuccessMessageClass) : M unit :=
  match a with
  | Next response => displaySnackBar (success_message response) DUR
  | Error e => on_error "initiating reinstall task for an unknown reason" e
  end.

Definition api_get_app_configs_answer (a : answer (list AppConfigClass)) : M unit :=
  match a with
  | Next response => modify (with_app_configs (Some response))
  | Error e => on_error "retrieving app configs" e
  end.

(** The two subscriptions of the text editor have no callback for errors: rxjs
    throws them. *)
Definition get_config_content_answer (c : AgentInstallerConfigurationClass) (config_type : string) (is_editable : jsval)
    (a : answer AppConfigContentClass) : M unit :=
  match a with
  | Next x =>
      emit (Subscribe (DTextEditor c config_type
        {| show_options := true; is_read_only := negb (js_truthy is_editable);
           te_title := "Editing " +:+ config_type +:+ ".yml"; te_text := content x; use_language := "yaml";
           display_save := is_editable; disable_save := Some (negb (js_truthy is_editable));
           confirm_save := Some SAVE_CONFIRM_ACTION_CONFIGURATION; confirm_close := Some CLOSE_CONFIRM_ACTION_CONFIGURATION |}))
  | Error _ => throw "unhandled"
  end.

Definition text_editor_closed (c : AgentInstallerConfigurationClass) (config_type : string) (response : option string) : M unit :=
  match response with
  | Some text => emit (Subscribe (CPostConfigContent c config_type text))
  | None => ret tt
  end.

Definition post_config_content_answer (a : answer SuccessMessageClass) : M unit :=
  match a with
  | Next x => displaySnackBar (success_message x) None
  | Error _ => throw "unhandled"
  end.

Definition confirmed (response : option string) : bool := response ?=== CONFIRM_DIALOG_OPTION.

Definition delete_config_closed c (response : option string) : M unit :=
  when (confirmed response) (api_agent_delete_config_ c).
Definition delete_ip_target_list_closed (p : loc) (response : option string) : M unit :=
  when (confirmed response) (api_delete_ip_target_list_ p).
Definition remove_host_closed (ip_target_list host_list host : loc) (host_index : nat) (response : option string) : M unit :=
  when (confirmed response) (api_agent_remove_host_from_ip_target_list ip_target_list host host_list host_index).
Definition new_config_closed (response : option AgentInstallerConfigurationClass) : M unit :=
  match response with Some c => api_agent_save_config_ c | None => ret tt end.
Definition new_ip_target_list_closed (response : option IPTargetListClass) : M unit :=
  match response with Some l => api_agent_save_ip_target_list_ l | None => ret tt end.
Definition add_hosts_closed (ip_target_list host_list : loc) (response : option dialog_form) : M unit :=
  match response with
  | Some f => when (valid f) (api_agent_add_host_to_ip_target_list_ ip_target_list (rawValue f) host_list)
  | None => ret tt
  end.
Definition credentials_closed (action : string) (agent : AgentInterface) (response : option dialog_form) : M unit :=
  match response with
  | Some f =>
      when (valid f)
        (s <- get ;; perform_agent_action_ action (sent s agent (Some (new_WindowsCredentialsClass (rawValue f)))))
  | None => ret tt
  end.

(** ** The component *)

(** What the template and the socket call; the menu of a host acts with the
    installer configuration selected. *)
Inductive event : Type :=
| NgOnInit
| ViewReady (p q : option nat)
| SocketRefresh
| SelectConfig (c : AgentInstallerConfigurationClass)
| SelectTarget (row : loc)
| ToggleHosts (row : loc)
| SetPaginator (row : loc) (p : option nat)
| CheckCustomPackages (c : AgentInstallerConfigurationClass)
| ShowConfig (c : AgentInstallerConfigurationClass)
| Download (c : AgentInstallerConfigurationClass)
| InstallAll
| UninstallAll
| UninstallHost (row host : loc)
| ReinstallHost (row host : loc)
| DeleteConfig (c : AgentInstallerConfigurationClass)
| EditConfig (c : AgentInstallerConfigurationClass) (config_type : string) (sub_config : jsval)
| DeleteTargets (row : loc)
| NewConfig
| NewTargets
| AddHosts (row : loc)
| RemoveHost (row host : loc) (host_index : nat).

Definition on_ev (e : event) : M unit :=
  match e with
  | NgOnInit => ngOnInit
  | ViewReady p q => modify (with_paginators p q)
  | SocketRefresh => api_agent_get_ip_target_list_ true
  | SelectConfig c => update_selected_agent_installer_config c
  | SelectTarget row => update_selected_ip_target row
  | ToggleHosts row => toggle_host_list_expansion row
  | SetPaginator row p => r <- row_at row ;; set_host_list_paginator (host_list r) p
  | CheckCustomPackages c => check_custom_packages c ;;; ret tt
  | ShowConfig c => show_agent_installer_configuration c
  | Download c => download_agent_installer c
  | InstallAll => s <- get ;; agents_install (agent_installer_configuration_selection s) (ip_target_selection s)
  | UninstallAll => s <- get ;; agents_uninstall (agent_installer_configuration_selection s) (ip_target_selection s)
  | UninstallHost row host =>
      s <- get ;; r <- row_at row ;; agent_uninstall (agent_installer_configuration_selection s) (config r) host
  | ReinstallHost row host =>
      s <- get ;; r <- row_at row ;; agent_reinstall (agent_installer_configuration_selection s) (config r) host
  | DeleteConfig c => delete_agent_installer_configuration_confirm_dialog c
  | EditConfig c t sub => open_config_text_editor_ c t sub
  | DeleteTargets row => r <- row_at row ;; delete_ip_target_list_confirm_dialog (config r)
  | NewConfig => new_agent_installer_configuration
  | NewTargets => new_ip_target_list
  | AddHosts row => r <- row_at row ;; add_hosts_to_ip_target_list (config r) (host_list r)
  | RemoveHost row host i => r <- row_at row ;; remove_hosts_from_ip_target_list (config r) (host_list r) host i
  end.

Definition on_ans (c : call) : Ans c -> M unit :=
  match c with
  | CGetChartStatus => api_get_chart_status_answer
  | CGenerate _ => api_agent_generate_answer
  | CSaveConfig _ => api_agent_save_config_answer
  | CDeleteConfig _ => api_agent_delete_config_answer
  | CGetConfigs => api_agent_get_configs_answer
  | CGetIPTargetList b => api_agent_get_ip_target_list_answer b
  | CSaveIPTargetList _ => api_agent_save_ip_target_list_answer
  | CAddHost p _ _ d => api_agent_add_host_answer p d
  | CRemoveHost p _ _ d i => api_agent_remove_host_answer p d i
  | CDeleteIPTargetList _ => api_delete_ip_target_list_answer
  | CAgentsInstall _ => api_agents_install_answer
  | CAgentsUninstall _ => api_agents_uninstall_answer
  | CAgentUninstall _ => api_agent_uninstall_answer
  | CAgentReinstall _ => api_agent_reinstall_answer
  | CGetAppConfigs => api_get_app_configs_answer
  | CGetConfigContent c t b => get_config_content_answer c t b
  | CPostConfigContent _ _ _ => post_config_content_answer
  | DDeleteConfig c _ => delete_config_closed c
  | DDeleteIPTargetList p _ => delete_ip_target_list_closed p
  | DNewConfig _ => new_config_closed
  | DNewIPTargetList => new_ip_target_list_closed
  | DAddHosts p d _ => add_hosts_closed p d
  | DRemoveHost p d h i _ => remove_host_closed p d h i
  | DCredentials _ action agent => credentials_closed action agent
  | DTextEditor c t _ => text_editor_closed c t
  end.

#[export] Instance AgentBuilder : Component AgentBuilderChooserComponent call page event Ans := {|
  initial := constructor;
  on_event := on_ev;
  on_answer := on_ans;
|}.

(** ** Well-formed states

    A row, its list of targets and its data source are made together, so they
    have the same position in their stores: the references of a row determine
    each other. *)

Definition shown (s : AgentBuilderChooserComponent) (r : loc) : list loc :=
  default [] (load (sources s) r ≫= data).
Definition targeted (s : AgentBuilderChooserComponent) (r : loc) : list loc :=
  default [] (load (lists s) r ≫= targets).

Definition row_sound (s : AgentBuilderChooserComponent) (r : loc) : Prop :=
  (exists b, load (rows s) r = Some {| config := r; host_list := r; expanded := b |}) /\
  is_Some (load (lists s) r) /\ is_Some (load (sources s) r) /\
  targeted s r `sublist_of` shown s r /\
  (forall p, p ∈ shown s r -> is_Some (load (hosts s) p)).

Definition sound (s : AgentBuilderChooserComponent) : Prop :=
  next_loc (lists s) = next_loc (rows s) /\ next_loc (sources s) = next_loc (rows s) /\
  store_wf (hosts s) /\ (store_wf (lists s) /\ store_wf (sources s) /\ store_wf (rows s)) /\
  (forall r, (r < next_loc (rows s))%nat -> row_sound s r) /\
  (forall r r' p, p ∈ shown s r -> p ∈ shown s r' -> (r < next_loc (rows s))%nat -> (r' < next_loc (rows s))%nat -> r = r') /\
  (forall d rs r, ip_target_configs_mat_table_data s = Some d -> data d = Some rs -> r ∈ rs -> (r < next_loc (rows s))%nat).

(** The subscriptions that write to a list and its table. *)
Definition same_row (c : call) : Prop :=
  match c with
  | CAddHost p _ _ d | CRemoveHost p _ _ d _ | DAddHosts p d _ | DRemoveHost p d _ _ _ => p = d
  | _ => True
  end.

Lemma sound_constructor : sound constructor.
Proof.
  unfold sound. split_and!; try done; try apply store_empty_wf.
  - intros r Hr. simpl in Hr. lia.
  - intros r r' p _ _ Hr. simpl in Hr. lia.
Qed.

(** What [sound] reads. *)
Lemma sound_same s s' :
  lists s' = lists s -> hosts s' = hosts s -> sources s' = sources s -> rows s' = rows s ->
  ip_target_configs_mat_table_data s' = ip_target_configs_mat_table_data s -> sound s -> sound s'.
Proof.
  intros E1 E2 E3 E4 E5. unfold sound, row_sound, shown, targeted. by rewrite E1, E2, E3, E4, E5.
Qed.

Lemma next_loc_update {A} p f (h : store A) : next_loc (update p f h) = next_loc h.
Proof. done. Qed.

Lemma is_Some_update {A} p q f (h : store A) : is_Some (load (update p f h) q) <-> is_Some (load h q).
Proof.
  destruct (decide (p = q)) as [->|Hne]; [rewrite load_update_eq | by rewrite load_update_ne].
  by rewrite fmap_is_Some.
Qed.

(** Hosts change in place. *)
Lemma sound_change_host p f : safe sound (only same_row) (change_host p f).
Proof.
  apply safe_modify. intros s (H1 & H2 & H3 & H4 & H5 & H6 & H7). unfold sound. cbn [with_stores lists hosts sources rows].
  split_and!; try done; try apply H4; [by apply update_wf|]. intros r Hr. destruct (H5 r Hr) as (Hb & Hl & Hd & Hs & Hh).
  split_and!; try done. intros q Hq. apply is_Some_update. by apply Hh.
Qed.

(** A list and its table are given hosts that exist and belong to no other row. *)
Lemma sound_write s r f g :
  sound s -> (r < next_loc (rows s))%nat ->
  let s' := with_stores (update r f (lists s)) (hosts s) (update r g (sources s)) (rows s) s in
  targeted s' r `sublist_of` shown s' r ->
  (forall p, p ∈ shown s' r -> is_Some (load (hosts s) p) /\
     forall r', (r' < next_loc (rows s))%nat -> p ∈ shown s r' -> r' = r) ->
  sound s'.
Proof.
  intros (H1 & H2 & H3 & H4 & H5 & H6 & H7) Hr s' Hts Hsh.
  assert (Es : forall r', r' <> r -> shown s' r' = shown s r').
  { intros r' Hne. unfold shown, s'. cbn [with_stores sources]. by rewrite load_update_ne. }
  assert (Et : forall r', r' <> r -> targeted s' r' = targeted s r').
  { intros r' Hne. unfold targeted, s'. cbn [with_stores lists]. by rewrite load_update_ne. }
  unfold sound. split_and!; try done; try (apply update_wf, H4); try apply H4.
  - intros r' Hr'. destruct (H5 r' Hr') as (Hb' & Hl' & Hd' & Hs' & Hh'). unfold row_sound.
    split_and!; [exact Hb' | by apply is_Some_update | by apply is_Some_update | |];
      (destruct (decide (r' = r)) as [->|Hne]; [|rewrite ?Es, ?Et by done]).
    + exact Hts.
    + exact Hs'.
    + intros p Hp. by apply Hsh.
    + exact Hh'.
  - intros r1 r2 p. change (rows s') with (rows s).
    destruct (decide (r1 = r)) as [->|N1], (decide (r2 = r)) as [->|N2]; [done | | |rewrite !Es by done; by apply H6].
    + rewrite (Es r2) by done. intros Hp1 Hp2 _ Hr2. symmetry. by apply (Hsh p Hp1).
    + rewrite (Es r1) by done. intros Hp1 Hp2 Hr1 _. by apply (Hsh p Hp2).
Qed.

(** New hosts belong to no row yet. *)
Lemma sound_receive_hosts s l ps h :
  sound s -> alloc_list l (hosts s) = (ps, h) ->
  let s1 := with_stores (lists s) h (sources s) (rows s) s in
  sound s1 /\ (forall p, p ∈ ps -> is_Some (load h p) /\ forall r, (r < next_loc (rows s))%nat -> p ∉ shown s r).
Proof.
  intros (H1 & H2 & H3 & H4 & H5 & H6 & H7) E. destruct (alloc_list_fresh _ _ _ _ E) as [-> Hn].
  assert (Hold : forall p, is_Some (load (hosts s) p) -> is_Some (load h p)).
  { intros p Hp. rewrite (alloc_list_old _ _ _ _ p E); [done | by apply H3]. }
  cbv zeta. split.
  - unfold sound. cbn [with_stores lists hosts sources rows]. split_and!; try done; try apply H4; [by apply (alloc_list_wf _ _ _ _ E)|].
    intros r Hr. destruct (H5 r Hr) as (Hb & Hl & Hd & Hs & Hh). split_and!; try done.
    intros p Hp. by apply Hold, Hh.
  - intros p Hp. apply elem_of_seq in Hp as [Hp1 Hp2]. split.
    + destruct (lookup_lt_is_Some_2 l (p - next_loc (hosts s)) ltac:(lia)) as [x Hx].
      pose proof (alloc_list_new _ _ _ _ _ _ E Hx) as H.
      replace (next_loc (hosts s) + (p - next_loc (hosts s)))%nat with p in H by lia. by exists x.
    + intros r Hr Hin. destruct (H5 r Hr) as (_ & _ & _ & _ & Hh). specialize (H3 _ (Hh _ Hin)). lia.
Qed.

Lemma new_row_run s l :
  sound s -> exists s1, new_row l s = (Ret (next_loc (rows s)), s1, []) /\ sound s1 /\
    next_loc (rows s1) = S (next_loc (rows s)) /\
    ip_target_configs_mat_table_data s1 = ip_target_configs_mat_table_data s.
Proof.
  intros Hs. set (hs := default [] (targets l)). destruct (alloc_list hs (hosts s)) as [ps h] eqn:E.
  pose proof (sound_receive_hosts s hs ps h Hs E) as [Hs1 Hps]. set (s1 := with_stores _ h _ _ s) in Hs1.
  set (ts := match targets l with Some _ => Some ps | None => None end).
  assert (Er : receive_targets (targets l) s = (Ret ts, s1, []) \/ receive_targets (targets l) s = (Ret ts, s, []) /\ ps = []).
  { unfold ts, hs in *. destruct (targets l) as [x|]; simpl in E.
    - left. unfold receive_targets, receive_hosts, bind, ret. by rewrite E.
    - right. injection E as <- <-. by split. }
  (* the state in which the three objects are made *)
  assert (exists s0, receive_targets (targets l) s = (Ret ts, s0, []) /\ sound s0 /\ rows s0 = rows s /\
      lists s0 = lists s /\ sources s0 = sources s /\
      ip_target_configs_mat_table_data s0 = ip_target_configs_mat_table_data s /\
      (forall p, p ∈ default [] ts -> is_Some (load (hosts s0) p) /\
         forall r, (r < next_loc (rows s))%nat -> p ∉ shown s r)) as (s0 & E0 & Hs0 & Er0 & El0 & Ed0 & Et0 & Hp0).
  { destruct Er as [Er|[Er ->]].
    - exists s1. split_and!; try done. intros p Hp. apply Hps. unfold ts in Hp.
      destruct (targets l); [exact Hp | by apply not_elem_of_nil in Hp].
    - exists s. split_and!; try done. intros p Hp. unfold ts in Hp. destruct (targets l); by apply not_elem_of_nil in Hp. }
  clear Er Hps Hs1 s1 E. unfold new_row. rewrite (bind_run_silent _ _ _ _ _ E0). clear E0.
  destruct Hs0 as (H1 & H2 & H3 & H4 & H5 & H6 & H7). eexists.
  cbn [alloc]. rewrite <- Er0. split; [reflexivity|].
  set (r := next_loc (rows s0)) in *. rewrite H1, H2.
  match goal with |- sound ?x /\ _ => set (s2 := x) end.
  assert (Es : forall r', shown s2 r' = if decide (r' = r) then default [] ts else shown s0 r').
  { intros r'. unfold shown, load, s2. cbn [with_stores sources objects]. case_decide as Hd.
    - by rewrite Hd, lookup_insert_eq.
    - by rewrite lookup_insert_ne. }
  assert (Et : forall r', targeted s2 r' = if decide (r' = r) then default [] ts else targeted s0 r').
  { intros r'. unfold targeted, load, s2. cbn [with_stores lists objects]. case_decide as Hd.
    - by rewrite Hd, lookup_insert_eq.
    - by rewrite lookup_insert_ne. }
  assert (Ehs : forall r', shown s r' = shown s0 r') by (intros; unfold shown; by rewrite Ed0).
  split_and!; [|done|done]. unfold sound, s2. cbn [with_stores lists hosts sources rows next_loc].
  assert (W : forall A (h : store A) x, store_wf h -> next_loc h = r -> store_wf (Store (<[r := x]> (objects h)) (S r))).
  { intros A h' x Hw Hn p Hp. unfold load in Hp. cbn [objects] in Hp. destruct (decide (p = r)) as [->|Hne]; [simpl; lia|].
    rewrite lookup_insert_ne in Hp by done. specialize (Hw p Hp). simpl. lia. }
  destruct H4 as (W1 & W2 & W3).
  split_and!; try done; [by apply W | by apply W | by apply W | | |].
  - intros r' Hr'. unfold row_sound. fold s2. rewrite Es, Et.
    change (load (hosts s2)) with (load (hosts s0)). unfold s2, load. cbn [with_stores lists sources rows objects].
    case_decide as Hd.
    + subst r'. rewrite !lookup_insert_eq. split_and!; [by eexists | by eexists | by eexists | done |].
      intros p Hp. by apply Hp0.
    + destruct (H5 r' ltac:(unfold r in *; lia)) as (Hb' & Hl' & Hd' & Hs' & Hh').
      rewrite !lookup_insert_ne by done. by split_and!.
  - intros r1 r2 p. fold s2. rewrite !Es.
    destruct (decide (r1 = r)) as [->|N1], (decide (r2 = r)) as [->|N2]; intros Hp1 Hp2 Hr1 Hr2; [done | | |].
    + exfalso. apply (proj2 (Hp0 p Hp1) r2); [rewrite <- Er0; unfold r in *; lia | by rewrite Ehs].
    + exfalso. apply (proj2 (Hp0 p Hp2) r1); [rewrite <- Er0; unfold r in *; lia | by rewrite Ehs].
    + apply (H6 r1 r2 p); try done; unfold r in *; lia.
  - intros d rs r' Hd Hrs Hr'. specialize (H7 d rs r' Hd Hrs Hr'). lia.
Qed.

Lemma new_rows_run s l :
  sound s -> exists s1 ps, new_rows l s = (Ret ps, s1, []) /\ sound s1 /\
    ps = seq (next_loc (rows s)) (length l) /\ next_loc (rows s1) = (next_loc (rows s) + length l)%nat /\
    ip_target_configs_mat_table_data s1 = ip_target_configs_mat_table_data s.
Proof.
  revert s. induction l as [|x l IH]; intros s Hs.
  - exists s, []. split_and!; try done; simpl; lia.
  - destruct (new_row_run s x Hs) as (s1 & E1 & Hs1 & Hn1 & Ht1).
    destruct (IH s1 Hs1) as (s2 & ps & E2 & Hs2 & -> & Hn2 & Ht2).
    exists s2, (seq (next_loc (rows s)) (S (length l))). cbn [new_rows].
    rewrite (bind_run_silent _ _ _ _ _ E1), (bind_run_silent _ _ _ _ _ E2). rewrite Hn1 in *.
    split_and!; try done; try congruence. cbn [length]. lia.
Qed.

Lemma sound_set_targets l : safe sound (only same_row) (set_ip_target_config_mat_table_data_ l).
Proof.
  intros s Hs. unfold set_ip_target_config_mat_table_data_.
  destruct (new_rows_run s l Hs) as (s1 & ps & E & Hs1 & Eps & Hn & _).
  rewrite (bind_run_silent _ _ _ _ _ E). split; [|by repeat constructor].
  destruct Hs1 as (H1 & H2 & H3 & H4 & H5 & H6 & _). unfold sound. split_and!; try done; try apply H4.
  intros d rs r [= <-] [= <-] Hr. rewrite Eps in Hr. apply elem_of_seq in Hr. simpl. lia.
Qed.

Lemma sound_row s r : sound s -> is_Some (load (rows s) r) ->
  exists b, load (rows s) r = Some {| config := r; host_list := r; expanded := b |}.
Proof. intros Hs Hr. apply Hs, Hs, Hr. Qed.

Lemma hosts_named_sublist n h l : hosts_named n h l `sublist_of` l.
Proof. induction l as [|p l IH]; simpl; [done|]. case_bool_decide; by constructor. Qed.

Lemma distinct_hosts_sublist h l : distinct_hosts h l `sublist_of` l.
Proof.
  unfold distinct_hosts. generalize (omap (load h) l). intros objects.
  assert (G : forall k, omap (fun x : nat * loc => match load h (snd x) with
      | Some o => if is_host_index_zero_ o (fst x) objects then Some (snd x) else None
      | None => None end) (imap (fun i p => (k + i, p)%nat) l) `sublist_of` l).
  { induction l as [|p l IH]; intros k; [done|]. cbn [imap omap list_omap fst snd].
    assert (E : imap ((fun i p => (k + i, p)%nat) ∘ S) l = imap (fun i p => (S k + i, p)%nat) l)
      by (apply imap_ext; intros i x _; simpl; f_equal; lia).
    rewrite E. specialize (IH (S k)). simpl.
    destruct (load h p) as [o|]; [|by constructor]. destruct (is_host_index_zero_ o (k + 0) objects); by constructor. }
  exact (G 0).
Qed.

Lemma sublist_in {A} (l k : list A) x : l `sublist_of` k -> x ∈ l -> x ∈ k.
Proof. intros H Hx. eapply elem_of_submseteq; [exact Hx | by apply sublist_submseteq]. Qed.

(** The two actions on one host. *)
Definition narrowed (s : AgentBuilderChooserComponent) (r : loc) (ts : list loc) : AgentBuilderChooserComponent :=
  with_stores (update r (set_targets (Some ts)) (lists s)) (hosts s) (sources s) (rows s) s.

Lemma single_host_run t a c r host s h l ts :
  load (hosts s) host = Some h -> load (lists s) r = Some l -> targets l = Some ts ->
  single_host t a c r host s =
    (Ret tt, narrowed s r (hosts_named (hostname h) (hosts s) ts),
     [Subscribe (DCredentials
        (credentials_dialog (t +:+ " " +:+ default "undefined" (hostname h)) (dialog_message_ a (hostname h)))
        a {| installer_config := c; target_config := Some r; target := Some host |})]).
Proof.
  intros Hh Hl Ht. unfold single_host, host_at, list_at, get, bind, gets, deref. rewrite Hh. simpl. rewrite Hl. simpl.
  by rewrite Ht.
Qed.

Lemma single_host_throws t a c r host s :
  load (hosts s) host = None \/ load (lists s) r ≫= targets = None ->
  single_host t a c r host s = (Exn "TypeError", s, []).
Proof.
  unfold single_host, host_at, list_at, get, bind, gets, deref. intros H.
  destruct (load (hosts s) host); [|done]. simpl. destruct (load (lists s) r) as [l|]; [|done]. simpl.
  destruct H as [H|H]; [done|]. simpl in H. by rewrite H.
Qed.

Lemma sound_single_host t a c r host : safe sound (only same_row) (single_host t a c r host).
Proof.
  intros s Hs. destruct (load (hosts s) host) as [h|] eqn:Hh;
    [|rewrite single_host_throws by auto; by split; [|constructor]].
  destruct (load (lists s) r) as [l|] eqn:Hl;
    [|rewrite single_host_throws by (rewrite Hl; auto); by split; [|constructor]].
  destruct (targets l) as [ts|] eqn:Ht;
    [|rewrite single_host_throws by (rewrite Hl; auto); by split; [|constructor]].
  rewrite (single_host_run _ _ _ _ _ _ _ _ _ Hh Hl Ht). split; [|repeat constructor; by intros ? [= <-]].
  pose proof Hs as (H1 & H2 & H3 & H4 & H5 & H6 & H7).
  assert (Hr : (r < next_loc (rows s))%nat) by (rewrite <- H1; apply H4; by eexists).
  destruct (H5 r Hr) as (_ & _ & [d Hd] & Hsub & Hex).
  assert (Ew : narrowed s r (hosts_named (hostname h) (hosts s) ts) =
    with_stores (update r (set_targets (Some (hosts_named (hostname h) (hosts s) ts))) (lists s)) (hosts s)
      (update r (fun d => d) (sources s)) (rows s) s).
  { unfold narrowed. do 2 f_equal. destruct (sources s) as [m n]. unfold update. cbn [objects next_loc]. f_equal.
    by rewrite alter_id. }
  cbn [state_of fst snd]. rewrite Ew.
  assert (Esh : forall f, shown (with_stores (update r f (lists s)) (hosts s) (update r (fun d => d) (sources s)) (rows s) s) r = shown s r).
  { intros f. unfold shown. cbn [with_stores sources]. by rewrite load_update_eq, Hd. }
  apply sound_write; [done | done | |].
  - rewrite Esh. unfold targeted at 1. cbn [with_stores lists]. rewrite load_update_eq, Hl. simpl.
    transitivity ts; [apply hosts_named_sublist|]. unfold targeted in Hsub. rewrite Hl in Hsub. simpl in Hsub. by rewrite Ht in Hsub.
  - rewrite Esh. intros p Hp. split; [by apply Hex|]. intros r' Hr' Hp'. by apply (H6 r' r p).
Qed.

(** Both arrays of a row are replaced by one. *)
Lemma sound_replace r l : 
  forall s, sound s -> (r < next_loc (rows s))%nat ->
  (forall p, p ∈ default [] l -> is_Some (load (hosts s) p) /\
     forall r', (r' < next_loc (rows s))%nat -> p ∈ shown s r' -> r' = r) ->
  sound (state_of ((change_source r (with_data l) ;;; change_list r (set_targets l)) s)).
Proof.
  intros s Hs Hr Hp. change (sound (with_stores (update r (set_targets l) (lists s)) (hosts s) (update r (with_data l) (sources s)) (rows s) s)).
  destruct Hs as (H1 & H2 & H3 & H4 & H5 & H6 & H7). destruct (H5 r Hr) as (_ & [x Hx] & [d Hd] & _ & _).
  assert (Esh : forall f, shown (with_stores (update r f (lists s)) (hosts s) (update r (with_data l) (sources s)) (rows s) s) r = default [] l).
  { intros f. unfold shown. cbn [with_stores sources]. by rewrite load_update_eq, Hd. }
  apply sound_write; [done | done | |].
  - rewrite Esh. unfold targeted. cbn [with_stores lists]. by rewrite load_update_eq, Hx.
  - rewrite Esh. exact Hp.
Qed.

Lemma sound_add_answer r a : safe sound (only same_row) (api_agent_add_host_answer r r a).
Proof.
  destruct a as [x|e]; [|apply only_on_error_message]. intros s Hs. unfold api_agent_add_host_answer.
  (* the hosts of the response *)
  assert (exists s1 o, receive_targets (targets x) s = (Ret o, s1, []) /\ sound s1 /\ rows s1 = rows s /\
      (forall p, p ∈ default [] o -> is_Some (load (hosts s1) p) /\
         forall r, (r < next_loc (rows s1))%nat -> p ∉ shown s1 r)) as (s1 & o & E & Hs1 & Er & Ho).
  { destruct (targets x) as [hs|].
    - destruct (alloc_list hs (hosts s)) as [ps h] eqn:E. destruct (sound_receive_hosts s hs ps h Hs E) as [Hs1 Hps].
      eexists _, (Some ps). split_and!; [unfold receive_targets, receive_hosts, bind, ret; by rewrite E | exact Hs1 | done | exact Hps].
    - exists s, None. split_and!; try done. intros p Hp. by apply not_elem_of_nil in Hp. }
  rewrite (bind_run_silent _ _ _ _ _ E). clear E Hs s Er. unfold list_at, get.
  destruct (load (lists s1) r) as [l|] eqn:Hl.
  2: { unfold bind, gets, deref. rewrite Hl. by split; [|constructor]. }
  rewrite (bind_run_silent _ _ s1 l s1) by (unfold bind, gets, deref, ret; by rewrite Hl).
  pose proof Hs1 as (H1 & H2 & H3 & H4 & H5 & H6 & H7).
  assert (Hr : (r < next_loc (rows s1))%nat) by (rewrite <- H1; apply H4; by eexists).
  assert (G : forall l', (forall p, p ∈ default [] l' -> is_Some (load (hosts s1) p) /\
      forall r', (r' < next_loc (rows s1))%nat -> p ∈ shown s1 r' -> r' = r) ->
      let m := (change_source r (with_data l') ;;; change_list r (set_targets l')) ;;;
        generate_return_success_snackbar_message "added host to ip target configuration" DUR in
      sound (state_of (m s1)) /\ Forall (only same_row) (effects_of (m s1))).
  { intros l' Hl'. split; [exact (sound_replace r l' s1 Hs1 Hr Hl') | by repeat constructor; intros ?]. }
  destruct (targets l) as [ts|] eqn:Ht.
  - rewrite (bind_assoc _ _ _ s1). rewrite (bind_run_silent _ _ s1 s1 s1) by done.
    destruct o as [ps|]; [|by split; [|constructor]]. rewrite (bind_assoc _ _ _ s1).
    rewrite (bind_run_silent _ _ s1 ps s1) by done. apply G. intros p Hp.
    apply (sublist_in _ _ _ (distinct_hosts_sublist _ _)), elem_of_app in Hp as [Hp|Hp].
    + destruct (H5 r Hr) as (_ & _ & _ & Hsub & Hex).
      assert (Hin : p ∈ shown s1 r).
      { eapply sublist_in; [exact Hsub|]. unfold targeted. rewrite Hl. simpl. by rewrite Ht. }
      split; [by apply Hex|]. intros r' Hr' Hp'. by apply (H6 r' r p).
    + destruct (Ho p Hp) as [He Hn]. split; [done|]. intros r' Hr' Hp'. by destruct (Hn r' Hr').
  - apply G. intros p Hp. destruct (Ho p Hp) as [He Hn]. split; [done|]. intros r' Hr' Hp'. by destruct (Hn r' Hr').
Qed.

Lemma sound_remove_answer r i a : safe sound (only same_row) (api_agent_remove_host_answer r r i a).
Proof.
  destruct a as [m|e]; [|apply only_on_error_message]. intros s Hs. unfold api_agent_remove_host_answer, source_at, get.
  destruct (load (sources s) r) as [d|] eqn:Hd.
  2: { unfold bind, gets, deref. rewrite Hd. by split; [|constructor]. }
  rewrite (bind_run_silent _ _ s d s) by (unfold bind, gets, deref, ret; by rewrite Hd).
  destruct (data d) as [l|] eqn:Hl; [|by split; [|constructor]].
  rewrite (bind_run_silent _ _ s l s) by done.
  split; [|repeat constructor; by intros ?].
  change (sound (state_of ((change_source r (with_data (Some (take i l ++ drop (S i) l))) ;;;
    change_list r (set_targets (Some (take i l ++ drop (S i) l)))) s))).
  pose proof Hs as (H1 & H2 & H3 & H4 & H5 & H6 & H7).
  assert (Hr : (r < next_loc (rows s))%nat) by (rewrite <- H2; apply H4; by eexists).
  apply sound_replace; [done | done |]. intros p Hp.
  assert (Hin : p ∈ shown s r).
  { unfold shown. rewrite Hd. simpl. rewrite Hl. simpl. simpl in Hp. apply elem_of_app in Hp as [Hp|Hp];
      (eapply sublist_in; [|exact Hp]); [apply sublist_take | apply sublist_drop]. }
  split; [by apply (H5 r Hr)|]. intros r' Hr' Hp'. by apply (H6 r' r p).
Qed.

Lemma sound_change_row r f :
  (forall x, config (f x) = config x /\ host_list (f x) = host_list x) -> safe sound (only same_row) (change_row r f).
Proof.
  intros Hf. apply safe_modify. intros s (H1 & H2 & H3 & H4 & H5 & H6 & H7). unfold sound. split_and!; try done; try apply H4.
  - apply update_wf, H4.
  - intros r' Hr'. destruct (H5 r' Hr') as ((b & Hb) & H). split; [|exact H]. cbn [with_stores rows].
    destruct (decide (r = r')) as [->|Hne]; [|rewrite load_update_ne by done; by exists b].
    rewrite load_update_eq, Hb. destruct (Hf {| config := r'; host_list := r'; expanded := b |}) as [E1 E2].
    exists (expanded (f {| config := r'; host_list := r'; expanded := b |})). simpl.
    destruct (f {| config := r'; host_list := r'; expanded := b |}). simpl in *. by subst.
Qed.

Lemma sound_paginator r p : safe sound (only same_row) (change_source r (with_paginator p)).
Proof.
  apply safe_modify. intros s (H1 & H2 & H3 & H4 & H5 & H6 & H7).
  set (s' := with_stores _ _ _ _ s).
  assert (Es : forall r', shown s' r' = shown s r').
  { intros r'. unfold shown, s'. cbn [with_stores sources]. destruct (decide (r = r')) as [->|Hne].
    - rewrite load_update_eq. by destruct (load (sources s) r').
    - by rewrite load_update_ne. }
  unfold sound. split_and!; try done; try apply H4; [apply update_wf, H4 | |].
  - intros r' Hr'. destruct (H5 r' Hr') as (Hb & Hl & Hd & Hs & Hh). unfold row_sound. rewrite Es.
    split_and!; try done. by apply is_Some_update.
  - intros r1 r2 q. rewrite !Es. apply H6.
Qed.

Lemma sound_refresh_rows rs response : safe sound (only same_row) (refresh_rows rs response).
Proof.
  unfold refresh_rows, refresh_row, update_ip_targets_list_targets_, row_at, list_at, host_at, get.
  repeat first [apply sound_change_host | safe_step].
Qed.

(** A row names itself in every callback. *)
Lemma row_at_cases s r : sound s ->
  row_at r s = (Exn "TypeError", s, []) \/
  exists b, row_at r s = (Ret {| config := r; host_list := r; expanded := b |}, s, []).
Proof.
  intros Hs. unfold row_at, get, bind, gets, deref. destruct (load (rows s) r) as [x|] eqn:E; [right | by left].
  destruct (sound_row s r Hs) as [b Hb]; [by eexists|]. rewrite E in Hb. injection Hb as ->. by exists b.
Qed.

Lemma safe_row {A} r (k : MatTableRowIPTargetListInterface -> M A) :
  (forall b, safe sound (only same_row) (k {| config := r; host_list := r; expanded := b |})) ->
  safe sound (only same_row) (bind (row_at r) k).
Proof.
  intros Hk s Hs. destruct (row_at_cases s r Hs) as [E|[b E]].
  - rewrite (bind_run_throw _ _ _ _ _ _ E). by split; [|constructor].
  - rewrite (bind_run_silent _ _ _ _ _ E). by apply Hk.
Qed.

Create HintDb agents.
#[local] Hint Unfold api_get_chart_status_ api_agent_generate_ api_agent_save_config_ api_agent_delete_config_
  api_agent_get_configs_ api_agent_get_ip_target_list_ api_agent_save_ip_target_list_
  api_agent_add_host_to_ip_target_list_ api_agent_remove_host_from_ip_target_list api_delete_ip_target_list_
  api_get_app_configs_ perform_agent_action_ ngOnInit get_app_configs_with_custom_packages_ check_custom_packages
  update_selected_agent_installer_config show_agent_installer_configuration download_agent_installer get_credentials_
  agents_install agents_uninstall delete_agent_installer_configuration_confirm_dialog open_config_text_editor_
  delete_ip_target_list_confirm_dialog new_agent_installer_configuration new_ip_target_list add_hosts_to_ip_target_list
  remove_hosts_from_ip_target_list set_agent_installer_configuration_mat_table_data_ api_get_chart_status_answer
  api_agent_generate_answer api_agent_save_config_answer api_agent_delete_config_answer api_agent_get_configs_answer
  api_agent_get_ip_target_list_answer api_agent_save_ip_target_list_answer api_delete_ip_target_list_answer
  api_agents_install_answer api_agents_uninstall_answer api_agent_uninstall_answer api_agent_reinstall_answer
  api_get_app_configs_answer get_config_content_answer text_editor_closed post_config_content_answer
  delete_config_closed delete_ip_target_list_closed remove_host_closed new_config_closed new_ip_target_list_closed
  add_hosts_closed credentials_closed set_host_list_paginator list_at host_at source_at get : agents.

Ltac agents_step :=
  first [ apply sound_set_targets | apply sound_refresh_rows | apply sound_single_host | apply sound_paginator
        | apply sound_add_answer | apply sound_remove_answer
        | apply sound_change_row; intros ?; split; reflexivity
        | match goal with H : sound ?s |- sound _ => exact (sound_same s _ eq_refl eq_refl eq_refl eq_refl eq_refl H) end
        | safe_step ].
Ltac agents_walk :=
  repeat first [apply safe_row; intros ?; cbn [config host_list] | progress autounfold with agents | agents_step];
  try (by intros ?); try (by intros ? [= <-]).

Lemma sound_event e : safe sound (only same_row) (on_ev e).
Proof.
  destruct e; cbn [on_ev]; unfold agent_uninstall, agent_reinstall, update_selected_ip_target, toggle_host_list_expansion;
    agents_walk.
Qed.

Lemma sound_answer c (a : Ans c) : same_row c -> safe sound (only same_row) (on_ans c a).
Proof.
  destruct c; cbn [on_ans same_row]; intros Hrow; try subst; agents_walk.
Qed.

Lemma reachable_sound tr w :
  trace (K := AgentBuilder) (fun _ => True) tr w -> sound (component w) /\ Forall same_row (pending w).
Proof.
  intros Htr. revert tr w Htr.
  apply (trace_worlds (K := AgentBuilder) (fun _ => True) (fun w => sound (component w) /\ Forall same_row (pending w))).
  - split; [apply sound_constructor | constructor].
  - intros w0 l w' [Hs Hp] _ Hstep.
    assert (G : forall waiting, Forall same_row waiting -> (match l with Event _ => True | Answered c _ => same_row c end) ->
      sound (component (after (K := AgentBuilder) l waiting w0)) /\ Forall same_row (pending (after (K := AgentBuilder) l waiting w0))).
    { intros waiting Hw Hl. unfold after. cbn [component pending].
      assert (Hsafe : safe sound (only same_row) (react (K := AgentBuilder) l))
        by (destruct l; [apply sound_event | by apply sound_answer]).
      destruct (Hsafe _ Hs) as [Hs' He]. split; [done|]. apply Forall_app. split; [done|].
      unfold subscriptions. apply Forall_forall. intros c Hc. apply list_elem_of_omap in Hc as (x & Hx & Hxc).
      rewrite Forall_forall in He. destruct x; try done. injection Hxc as ->. by apply (He _ Hx). }
    destruct Hstep as [e|p1 c p2 a Hq].
    + by apply G.
    + rewrite Hq in Hp. apply Forall_app in Hp as [Hp1 Hp2]. apply Forall_cons in Hp2 as [Hc Hp2].
      apply G; [by apply Forall_app|done].
Qed.

(** C18: the hosts an action reaches are hosts the page shows.  In every reachable
    state the references of each row of the table lead to objects, the hosts of
    its list of targets are, in this order, among the hosts of its table, every
    host shown exists, and no host is shown in two rows. *)
Theorem targets_are_shown tr w d rs :
  trace (K := AgentBuilder) (fun _ => True) tr w ->
  ip_target_configs_mat_table_data (component w) = Some d -> data d = Some rs ->
  let s := component w in
  forall r, r ∈ rs -> exists row l src,
    load (rows s) r = Some row /\ load (lists s) (config row) = Some l /\ load (sources s) (host_list row) = Some src /\
    default [] (targets l) `sublist_of` default [] (data src) /\
    (forall p, p ∈ default [] (data src) -> is_Some (load (hosts s) p)) /\
    forall r' row' src', r' ∈ rs -> load (rows s) r' = Some row' -> load (sources s) (host_list row') = Some src' ->
      forall p, p ∈ default [] (data src) -> p ∈ default [] (data src') -> r' = r.
Proof.
  intros Htr Hd Hrs s r Hr. destruct (proj1 (reachable_sound tr w Htr)) as (H1 & H2 & H3 & H4 & H5 & H6 & H7).
  fold s in H1, H2, H3, H4, H5, H6, H7. pose proof (H7 d rs r Hd Hrs Hr) as Hlt.
  destruct (H5 r Hlt) as ([b Hb] & [l Hl] & [src Hsrc] & Hsub & Hex).
  exists {| config := r; host_list := r; expanded := b |}, l, src. cbn [config host_list].
  unfold shown, targeted in Hsub, Hex. rewrite Hl, Hsrc in Hsub. rewrite Hsrc in Hex.
  split_and!; try done. intros r' row' src' Hr' Hrow' Hsrc' p Hp Hp'.
  pose proof (H7 d rs r' Hd Hrs Hr') as Hlt'. destruct (H5 r' Hlt') as ([b' Hb'] & _). rewrite Hrow' in Hb'.
  injection Hb' as ->. cbn [host_list] in Hsrc'. apply (H6 r' r p); try done; unfold shown; [by rewrite Hsrc' | by rewrite Hsrc].
Qed.

(** ** What is sent to the hosts *)




Section Causes.
Variable P : effect call page -> Prop.


End Causes.

#[local] Hint Unfold agent_uninstall agent_reinstall single_host update_selected_ip_target toggle_host_list_expansion row_at
  api_agent_add_host_answer api_agent_remove_host_answer set_ip_target_config_mat_table_data_ refresh_rows refresh_row
  update_ip_targets_list_targets_ change_list change_source change_host change_row : agents.













(** ** One host and the batch *)

Lemma hosts_named_objects n h l :
  omap (load h) (hosts_named n h l) = List.filter (fun x => bool_decide (hostname x = n)) (omap (load h) l).
Proof.
  induction l as [|p l IH]; [done|]. cbn [hosts_named omap list_omap]. fold (omap (M := list) (A := loc) (B := HostClass)).
  destruct (load h p) as [x|] eqn:E; simpl.
  - case_bool_decide; [|exact IH]. cbn [omap list_omap]. rewrite E. f_equal. exact IH.
  - case_bool_decide; [|exact IH]. cbn [omap list_omap]. rewrite E. exact IH.
Qed.

(** Asking to uninstall one host changes what the batch reaches.  Opening the
    credentials form for one host cuts the list of targets down to the hosts of
    that name, and closing the form without an answer does not bring the others
    back: the table still shows them, but a batch uninstallation of the list is
    sent for the one host only. *)
Theorem one_host_narrows_the_batch s row r l ts host h d agent d' c f :
  load (rows s) row = Some r -> load (lists s) (config r) = Some l -> targets l = Some ts ->
  load (hosts s) host = Some h -> valid f = true ->
  let s1 := state_of (on_ev (UninstallHost row host) s) in
  let s2 := state_of (on_ans (DCredentials d UNINSTALL agent) None s1) in
  let batch := {| installer_config := c; target_config := Some (config r); target := None |} in
  sources s2 = sources s /\
  effects_of (on_ans (DCredentials d' UNINSTALLS batch) (Some f) s2) =
    [Subscribe (CAgentsUninstall
       {| rq_installer_config := c;
          rq_target_config := Some (set_targets
            (Some (List.filter (fun x => bool_decide (hostname x = hostname h)) (omap (load (hosts s)) ts))) l);
          rq_windows_domain_creds := Some (new_WindowsCredentialsClass (rawValue f)); rq_target := None |})].
Proof.
  intros Hrow Hl Ht Hh Hv. cbn [on_ev on_ans]. unfold agent_uninstall, get, row_at.
  rewrite (bind_run_silent _ _ s s s) by done.
  rewrite (bind_run_silent _ _ s r s) by (unfold get, bind, gets, deref, ret; by rewrite Hrow).
  rewrite (single_host_run _ _ _ _ _ _ _ _ _ Hh Hl Ht). cbv zeta. cbn [state_of fst snd credentials_closed ret].
  split; [done|]. rewrite Hv. cbn [when]. rewrite (bind_run_silent _ _ (narrowed s (config r) (hosts_named (hostname h) (hosts s) ts)) _ _ eq_refl).
  unfold sent, sent_list. cbn [installer_config target_config target mbind option_bind narrowed with_stores lists hosts].
  rewrite load_update_eq, Hl. cbn [fmap option_fmap option_map set_targets targets ip__id ip_name protocol ntlm smb].
  by rewrite hosts_named_objects.
Qed.

(** ** Refreshing the states *)

(** What the response of a refresh makes of a host of the list [l]. *)
Definition refreshed_host (response : list IPTargetListClass) (l : IPTargetListOf loc) (h : HostClass) : HostClass :=
  match first (fun u => bool_decide (ip__id l = ip__id u)) response with
  | Some updated =>
      match first (fun u => bool_decide (hostname h = hostname u)) (default [] (targets updated)) with
      | Some u => {| hostname := hostname h; state := state u; last_state_change := last_state_change u;
                     target_config_id := target_config_id h |}
      | None => h
      end
  | None => h
  end.

Lemma refreshed_host_twice response l h :
  refreshed_host response l (refreshed_host response l h) = refreshed_host response l h.
Proof.
  unfold refreshed_host.
  destruct (first (fun u => bool_decide (ip__id l = ip__id u)) response) as [u|]; [|done].
  destruct (first (fun x => bool_decide (hostname h = hostname x)) _) as [x|] eqn:E; [|by rewrite E].
  cbn [hostname]. rewrite E. done.
Qed.

Lemma first_elem {A} (p : A -> bool) l x : first p l = Some x -> x ∈ l /\ p x = true.
Proof.
  induction l as [|y l IH]; [done|]. simpl. destruct (p y) eqn:E; [intros [= ->]; by split; [left|]|].
  intros H. destruct (IH H). by split; [right|].
Qed.

(** The hosts after the targets [ts] of one list were refreshed. *)
Definition refreshed_in (response : list IPTargetListClass) (l : IPTargetListOf loc) (ts : list loc)
    (h h' : store HostClass) : Prop :=
  forall p, load h' p = if decide (p ∈ ts) then refreshed_host response l <$> load h p else load h p.

Definition with_hosts h (s : AgentBuilderChooserComponent) := with_stores (lists s) h (sources s) (rows s) s.

Lemma update_targets_run response l updated ts s :
  first (fun u => bool_decide (ip__id l = ip__id u)) response = Some updated -> is_Some (targets updated) ->
  (forall p, p ∈ ts -> is_Some (load (hosts s) p)) ->
  exists h', for_each ts (fun p =>
    h <- host_at p ;;
    updated_targets <- deref (targets updated) ;;
    match first (fun u => bool_decide (hostname h = hostname u)) updated_targets with
    | Some u => change_host p (fun h =>
        {| hostname := hostname h; state := state u; last_state_change := last_state_change u;
           target_config_id := target_config_id h |})
    | None => ret tt
    end) s = (Ret tt, with_hosts h' s, []) /\ refreshed_in response l ts (hosts s) h'.
Proof.
  intros Hf [us Hus]. revert s. induction ts as [|p ts IH]; intros s Hex.
  - exists (hosts s). split; [by destruct s|]. intros p. rewrite decide_False; [done|]. apply not_elem_of_nil.
  - destruct (Hex p) as [x Hx]; [left|]. cbn [for_each].
    set (h1 := update p (refreshed_host response l) (hosts s)).
    assert (E1 : (h <- host_at p ;;
      updated_targets <- deref (targets updated) ;;
      match first (fun u => bool_decide (hostname h = hostname u)) updated_targets with
      | Some u => change_host p (fun h =>
          {| hostname := hostname h; state := state u; last_state_change := last_state_change u;
             target_config_id := target_config_id h |})
      | None => ret tt
      end) s = (Ret tt, with_hosts h1 s, [])).
    { unfold host_at, get, bind, gets, deref. rewrite Hx. simpl. rewrite Hus. simpl.
      assert (Eu : forall f : HostClass -> HostClass, f x = refreshed_host response l x -> update p f (hosts s) = h1).
      { intros f Hfx. unfold h1, update. f_equal. apply alter_ext. intros y Hy. unfold load in Hx. rewrite Hx in Hy. by injection Hy as <-. }
      unfold refreshed_host in Eu at 1. rewrite Hf, Hus in Eu. simpl in Eu.
      destruct (first (fun u => bool_decide (hostname x = hostname u)) us) as [u|].
      - unfold change_host, modify. rewrite (Eu _ eq_refl). done.
      - rewrite <- (Eu (fun y => y) eq_refl). unfold ret, with_hosts. do 2 f_equal.
        destruct s as [? ? ? ? ? ? ? ? ? [m n] ? ?]. unfold with_stores, update. cbn. by rewrite alter_id. }
    rewrite (bind_run_silent _ _ _ _ _ E1).
    destruct (IH (with_hosts h1 s)) as (h' & E & H).
    { intros q Hq. cbn [with_hosts with_stores hosts]. apply is_Some_update, Hex. by right. }
    exists h'. split; [exact E|]. intros q. rewrite (H q). cbn [with_hosts with_stores hosts].
    destruct (decide (q = p)) as [->|Hne].
    + unfold h1. rewrite load_update_eq. rewrite (decide_True (P := p ∈ p :: ts)) by left. destruct (decide (p ∈ ts)); [|done].
      destruct (load (hosts s) p); [|done]. simpl. by rewrite refreshed_host_twice.
    + unfold h1. rewrite load_update_ne by done. destruct (decide (q ∈ ts)) as [Hq|Hq].
      * by rewrite (decide_True (P := q ∈ p :: ts)) by (by right).
      * rewrite (decide_False (P := q ∈ p :: ts)); [done|]. intros [->|?]%elem_of_cons; done.
Qed.

Lemma refresh_row_run response s h r b l ts :
  Forall (fun u => is_Some (targets u)) response ->
  load (rows s) r = Some {| config := r; host_list := r; expanded := b |} ->
  load (lists s) r = Some l -> targets l = Some ts -> (forall p, p ∈ ts -> is_Some (load h p)) ->
  exists h', refresh_row response r (with_hosts h s) = (Ret tt, with_hosts h' s, []) /\ refreshed_in response l ts h h'.
Proof.
  intros Hresp Hb Hl Hts Hex. unfold refresh_row, row_at, list_at, get. set (s1 := with_hosts h s).
  rewrite (bind_run_silent _ _ s1 {| config := r; host_list := r; expanded := b |} s1)
    by (unfold bind, gets, deref, ret; simpl; by rewrite Hb).
  cbn [config]. rewrite (bind_run_silent _ _ s1 l s1) by (unfold bind, gets, deref, ret; simpl; by rewrite Hl).
  destruct (first (fun u => bool_decide (ip__id l = ip__id u)) response) as [updated|] eqn:Ef.
  - unfold update_ip_targets_list_targets_, list_at, get.
    rewrite (bind_run_silent _ _ s1 l s1) by (unfold bind, gets, deref, ret; simpl; by rewrite Hl).
    rewrite (bind_run_silent _ _ s1 ts s1) by (rewrite Hts; done).
    destruct (update_targets_run response l updated ts s1 Ef) as (h' & Eh & Hh'); [|exact Hex|].
    + rewrite Forall_forall in Hresp. by apply Hresp, (first_elem _ _ _ Ef).
    + exists h'. split; [exact Eh | exact Hh'].
  - exists h. split; [done|]. intros p. unfold refreshed_host. rewrite Ef. case_decide; [|done]. by destruct (load h p).
Qed.

(** What a refresh of the rows [rs] makes of the hosts of [s]. *)
Definition refreshed (response : list IPTargetListClass) (s : AgentBuilderChooserComponent) (rs : list loc)
    (h : store HostClass) : Prop := forall p,
  (forall r l, r ∈ rs -> load (lists s) r = Some l -> p ∈ targeted s r ->
     load h p = refreshed_host response l <$> load (hosts s) p) /\
  ((forall r, r ∈ rs -> p ∉ targeted s r) -> load h p = load (hosts s) p).

Lemma targeted_row s r r' p :
  sound s -> (r < next_loc (rows s))%nat -> (r' < next_loc (rows s))%nat ->
  p ∈ targeted s r -> p ∈ targeted s r' -> r' = r.
Proof.
  intros (_ & _ & _ & _ & H5 & H6 & _) Hr Hr' Hp Hp'. destruct (H5 r Hr) as (_ & _ & _ & Hsub & _).
  destruct (H5 r' Hr') as (_ & _ & _ & Hsub' & _). apply (H6 r' r p); try done; by eapply sublist_in.
Qed.

Lemma refreshed_exist response s rs h r p :
  sound s -> (forall r, r ∈ rs -> is_Some (load (lists s) r ≫= targets)) -> (r < next_loc (rows s))%nat ->
  refreshed response s rs h -> p ∈ targeted s r -> is_Some (load h p).
Proof.
  intros Hs Hrs Hr Hh Hp. destruct (proj1 (proj2 (proj2 (proj2 (proj2 Hs)))) r Hr) as (_ & _ & _ & Hsub & Hex).
  destruct (Hex p (sublist_in _ _ _ Hsub Hp)) as [x Hx]. destruct (Hh p) as [Hin Hout].
  destruct (decide (Exists (fun r' => p ∈ targeted s r') rs)) as [Hd|Hd].
  - apply Exists_exists in Hd as (r' & Hr' & Hp'). pose proof (Hrs r' Hr') as Ht.
    destruct (load (lists s) r') as [l'|] eqn:El; [|by destruct Ht]. rewrite (Hin r' l' Hr' El Hp'), Hx. by eexists.
  - rewrite Hout, Hx; [by eexists|]. intros r' Hr' Hp'. apply Hd, Exists_exists. by exists r'.
Qed.

(** One row more. *)
Lemma refreshed_step response s rs r l h h' :
  sound s -> (forall k, k ∈ rs ++ [r] -> (k < next_loc (rows s))%nat) -> load (lists s) r = Some l ->
  refreshed response s rs h -> refreshed_in response l (targeted s r) h h' -> refreshed response s (rs ++ [r]) h'.
Proof.
  intros Hs Hlt Hl Hh H' p. destruct (Hh p) as [Hin Hout].
  assert (Hr : r ∈ rs ++ [r]) by (apply elem_of_app; right; left). split.
  - intros r' l' Hr' Hl' Hp'. rewrite (H' p). destruct (decide (p ∈ targeted s r)) as [Hp|Hp].
    + assert (r' = r) as -> by (apply (targeted_row s r r' p); auto).
      rewrite Hl in Hl'. injection Hl' as <-. destruct (decide (r ∈ rs)) as [Hd|Hd].
      * rewrite (Hin r l Hd Hl Hp'). destruct (load (hosts s) p); [|done]. simpl. by rewrite refreshed_host_twice.
      * rewrite Hout; [done|]. intros r' Hr'' Hp''. apply Hd.
        rewrite <- (targeted_row s r r' p); auto. apply Hlt, elem_of_app. by left.
    + apply elem_of_app in Hr' as [Hr'|Hr']; [by apply (Hin r')|]. by apply list_elem_of_singleton in Hr' as ->.
  - intros Hno. rewrite (H' p), decide_False by (by apply Hno). apply Hout. intros r' Hr'. apply Hno, elem_of_app. by left.
Qed.

Lemma refresh_rows_run response s rs :
  sound s -> Forall (fun u => is_Some (targets u)) response ->
  (forall r, r ∈ rs -> (r < next_loc (rows s))%nat /\ is_Some (load (lists s) r ≫= targets)) ->
  exists h', refresh_rows rs response s = (Ret tt, with_hosts h' s, []) /\ refreshed response s rs h'.
Proof.
  intros Hs Hresp. pose proof Hs as (_ & _ & _ & _ & H5 & _).
  induction rs as [|r rs IH] using rev_ind; intros Hrs.
  { exists (hosts s). split; [by destruct s|]. intros p. split; [|done]. intros r l Hr. by apply not_elem_of_nil in Hr. }
  assert (Hold : forall k, k ∈ rs -> k ∈ rs ++ [r]) by (intros; apply elem_of_app; by left).
  destruct IH as (h & E & Hh); [intros k Hk; by apply Hrs, Hold|].
  destruct (Hrs r) as [Hlt Htgt]; [apply elem_of_app; right; left|].
  destruct (H5 r Hlt) as ([b Hb] & [l Hl] & _). pose proof Htgt as [ts Hts]. rewrite Hl in Hts. simpl in Hts.
  assert (Etg : targeted s r = ts) by (unfold targeted; rewrite Hl; simpl; by rewrite Hts).
  destruct (refresh_row_run response s h r b l ts Hresp Hb Hl Hts) as (h' & E' & H').
  { intros p Hp. apply (refreshed_exist response s rs h r p Hs); try done; [|by rewrite Etg].
    intros k Hk. by apply Hrs, Hold. }
  exists h'. split.
  - unfold refresh_rows in *. rewrite (for_each_app _ _ _ s), (bind_run_silent _ _ _ _ _ E). cbn [for_each].
    by rewrite (bind_run_silent _ _ _ _ _ E').
  - apply (refreshed_step response s rs r l h); try done; [|by rewrite Etg]. intros k Hk. by apply Hrs.
Qed.

(** A refresh updates the states in place.  When the socket asks for it and
    the lists arrive, every host of a list of the table takes the state of the
    first host of its name in the first list of the response with its identifier,
    and nothing else of the page changes: rows, selections and opened panels stay.
    A host that the table shows and its list no longer has keeps the state it
    had. *)
Theorem refresh_updates_the_targets tr w d rs response :
  trace (K := AgentBuilder) (fun _ => True) tr w ->
  ip_target_configs_mat_table_data (component w) = Some d -> data d = Some rs ->
  let s := component w in
  (forall r, r ∈ rs -> is_Some (load (lists s) r ≫= targets)) ->
  Forall (fun u => is_Some (targets u)) response ->
  exists h', on_ans (CGetIPTargetList true) (Next response) s = (Ret tt, with_hosts h' s, [Page RenderRows]) /\ forall p,
    (forall r l, r ∈ rs -> load (lists s) r = Some l -> p ∈ targeted s r ->
       load h' p = refreshed_host response l <$> load (hosts s) p) /\
    ((forall r, r ∈ rs -> p ∉ targeted s r) -> load h' p = load (hosts s) p).
Proof.
  intros Htr Hd Hrs s Hlists Hresp. destruct (reachable_sound tr w Htr) as [Hs _].
  destruct (refresh_rows_run response s rs Hs Hresp) as (h' & E & H).
  { intros r Hr. split; [|by apply Hlists]. by apply (proj2 (proj2 (proj2 (proj2 (proj2 (proj2 Hs))))) d rs r). }
  exists h'. split; [|exact H]. cbn [on_ans]. unfold api_agent_get_ip_target_list_answer, get.
  rewrite (bind_run_silent _ _ s s s) by done. unfold s. rewrite Hd. simpl. rewrite Hrs.
  fold s. rewrite (bind_run_silent _ _ _ _ _ E). done.
Qed.

(** ** Hosts that are added *)

(** The reference: the first host of each name, in any case; a host without a
    name is dropped. *)
Definition lower_name (x : HostClass) : option string := toLowerCase <$> hostname x.

Fixpoint first_of_name (seen : list string) (l : list HostClass) : list HostClass :=
  match l with
  | [] => []
  | x :: r =>
      match lower_name x with
      | Some n => if includes seen n then first_of_name seen r else x :: first_of_name (n :: seen) r
      | None => first_of_name seen r
      end
  end.

Lemma same_name_lower h x : same_name h x = true <-> exists n, lower_name h = Some n /\ lower_name x = Some n.
Proof.
  unfold same_name, lower_name. destruct (hostname x) as [a|], (hostname h) as [b|]; simpl; split; try done;
    try (by intros (n & ? & ?)).
  - intros H%seqb_eq. exists (toLowerCase b). by rewrite H.
  - intros (n & [= <-] & [= <-]). apply seqb_refl.
Qed.

Lemma findIndex_here {A} (p : A -> bool) pre x post :
  findIndex p (pre ++ x :: post) = Z.of_nat (length pre) <-> p x = true /\ Forall (fun y => p y = false) pre.
Proof.
  induction pre as [|y pre IH]; simpl.
  - destruct (p x) eqn:E; [by split|]. pose proof (findIndex_bounds p post).
    destruct (Z.eqb_spec (findIndex p post) (-1)); split; intros H'; try lia; destruct H'; done.
  - rewrite Forall_cons. destruct (p y) eqn:E; [split; [lia | intros (_ & ? & _); done]|].
    pose proof (findIndex_bounds p (pre ++ x :: post)).
    destruct (Z.eqb_spec (findIndex p (pre ++ x :: post)) (-1)) as [En|].
    + split; [lia|]. intros (H1 & _ & H2). rewrite (proj2 IH) in En by done. lia.
    + split; [intros H'; assert (findIndex p (pre ++ x :: post) = Z.of_nat (length pre)) as H1 by lia;
        apply IH in H1; tauto | intros (H1 & _ & H2); assert (findIndex p (pre ++ x :: post) = Z.of_nat (length pre)) by (by apply IH); lia].
Qed.

Lemma is_host_index_zero_here o pre post :
  is_host_index_zero_ o (length pre) (pre ++ o :: post) =
    match lower_name o with Some n => negb (bool_decide (Some n ∈ lower_name <$> pre)) | None => false end.
Proof.
  apply eq_true_iff_eq. unfold is_host_index_zero_. rewrite Z.eqb_eq, findIndex_here, same_name_lower.
  destruct (lower_name o) as [n|] eqn:E.
  - rewrite negb_true_iff, bool_decide_eq_false, list_elem_of_fmap, Forall_forall. split.
    + intros [_ H] (y & Hy & Hin). specialize (H y Hin). apply not_true_iff_false in H. apply H, same_name_lower. exists n. by rewrite E.
    + intros H. split; [by exists n|]. intros y Hin. apply not_true_iff_false. intros Hs%same_name_lower.
      destruct Hs as (m & H1 & H2). rewrite E in H1. injection H1 as <-. apply H. by exists y.
  - split; [intros [(m & H & _) _]; done | done].
Qed.

Lemma distinct_hosts_reference h l :
  (forall p, p ∈ l -> is_Some (load h p)) -> omap (load h) (distinct_hosts h l) = first_of_name [] (omap (load h) l).
Proof.
  intros Hex. unfold distinct_hosts. set (objects := omap (load h) l).
  assert (G : forall pre seen k, objects = pre ++ omap (load h) l -> k = length pre ->
    (forall n, n ∈ seen <-> Some n ∈ lower_name <$> pre) ->
    omap (load h) (omap (fun x : nat * loc => match load h (snd x) with
      | Some o => if is_host_index_zero_ o (fst x) objects then Some (snd x) else None
      | None => None end) (imap (fun i p => (k + i, p)%nat) l)) = first_of_name seen (omap (load h) l)).
  { clearbody objects. induction l as [|p l IH]; intros pre seen k Eo Ek Hseen; [done|].
    destruct (Hex p) as [o Ho]; [left|].
    assert (E : imap ((fun i p => (k + i, p)%nat) ∘ S) l = imap (fun i p => (S k + i, p)%nat) l)
      by (apply imap_ext; intros i x _; simpl; f_equal; lia).
    cbn [imap omap list_omap fst snd] in *. rewrite Ho in *. rewrite E, Nat.add_0_r, Ek, Eo, is_host_index_zero_here.
    specialize (IH (fun p' Hp' => Hex p' (list_elem_of_further _ _ _ Hp')) (pre ++ [o])).
    assert (E1 : objects = (pre ++ [o]) ++ omap (load h) l) by (by rewrite <- app_assoc).
    assert (E2 : S k = length (pre ++ [o])) by (rewrite length_app; simpl; lia).
    rewrite <- Eo. subst k.
    cbn [first_of_name]. destruct (lower_name o) as [n|] eqn:En.
    - case_bool_decide as Hin; simpl.
      + rewrite (proj2 (includes_elem_of seen n)) by (by apply Hseen). apply (IH seen (S (length pre))); [done..|].
        intros m. rewrite Hseen, fmap_app, elem_of_app. simpl. rewrite En, list_elem_of_singleton.
        split; [tauto|]. intros [?|[= ->]]; done.
      + rewrite (proj2 (includes_false seen n)) by (by rewrite Hseen). rewrite Ho. f_equal. apply (IH (n :: seen) (S (length pre))); [done..|].
        intros m. rewrite elem_of_cons, Hseen, fmap_app, elem_of_app. simpl. rewrite En, list_elem_of_singleton.
        split; [intros [->|?]; tauto | intros [?|[= ->]]; tauto].
    - apply (IH seen (S (length pre))); [done..|]. intros m. rewrite Hseen, fmap_app, elem_of_app. simpl. rewrite En, list_elem_of_singleton.
      split; [tauto | intros [?|?]; done]. }
  exact (G [] [] 0 eq_refl eq_refl (fun n => conj (fun H => False_ind _ (not_elem_of_nil _ H)) (fun H => False_ind _ (not_elem_of_nil _ H)))).
Qed.

Lemma first_of_name_names seen l :
  NoDup (lower_name <$> first_of_name seen l) /\
  forall x, x ∈ first_of_name seen l -> exists n, lower_name x = Some n /\ n ∉ seen.
Proof.
  revert seen. induction l as [|x l IH]; intros seen; simpl.
  - split; [constructor | intros x H; by apply not_elem_of_nil in H].
  - destruct (lower_name x) as [n|] eqn:E; [|apply IH]. destruct (includes seen n) eqn:Ei; [apply IH|].
    apply includes_false in Ei. destruct (IH (n :: seen)) as [H1 H2]. split.
    + simpl. apply NoDup_cons. split; [|done]. rewrite E. intros Hin.
      apply list_elem_of_fmap in Hin as (y & Hy & Hin). destruct (H2 y Hin) as (m & Hm & Hni).
      rewrite <- Hy in Hm. injection Hm as <-. apply Hni. left.
    + intros y [->|Hy]%elem_of_cons; [by exists n|]. destruct (H2 y Hy) as (m & Hm & Hni).
      exists m. split; [done|]. intros Hin. apply Hni. by right.
Qed.

Lemma omap_load_grow {A} (h h' : store A) (l : list loc) :
  (forall p, p ∈ l -> load h' p = load h p) -> omap (load h') l = omap (load h) l.
Proof.
  induction l as [|p l IH]; intros H; [done|]. cbn [omap list_omap]. rewrite (H p) by left.
  rewrite IH; [done|]. intros q Hq. apply H. by right.
Qed.

(** Adding hosts keeps the first of each name.  In every reachable state,
    when the answer to a request that adds hosts arrives, the list of targets and
    its table hold the same hosts: the ones the list had followed by the ones of
    the response, of which the first of each name stays, whatever its case, and
    those without a name go. *)
Theorem added_hosts_keep_the_first tr w p d id host l ts x hs :
  trace (K := AgentBuilder) (fun _ => True) tr w -> CAddHost p id host d ∈ pending w ->
  let s := component w in
  load (lists s) p = Some l -> targets l = Some ts -> targets x = Some hs ->
  let s' := state_of (on_ans (CAddHost p id host d) (Next x) s) in
  exists ps, load (lists s') p = Some (set_targets (Some ps) l) /\
    (data <$> load (sources s') d) = Some (Some ps) /\
    omap (load (hosts s')) ps = first_of_name [] (omap (load (hosts s)) ts ++ hs) /\
    NoDup (lower_name <$> omap (load (hosts s')) ps).
Proof.
  intros Htr Hc s Hl Hts Hhs. destruct (reachable_sound tr w Htr) as [Hs Hp].
  rewrite Forall_forall in Hp. specialize (Hp _ Hc). simpl in Hp. subst d. fold s in Hs.
  pose proof Hs as (H1 & H2 & H3 & H4 & H5 & _).
  assert (Hlt : (p < next_loc (rows s))%nat) by (rewrite <- H1; apply H4; by eexists).
  destruct (H5 p Hlt) as (_ & _ & [src Hsrc] & Hsub & Hex).
  unfold targeted in Hsub. rewrite Hl in Hsub. simpl in Hsub. rewrite Hts in Hsub. simpl in Hsub.
  destruct (alloc_list hs (hosts s)) as [ps h] eqn:E. set (s1 := with_hosts h s).
  cbv zeta. cbn [on_ans]. unfold api_agent_add_host_answer. rewrite Hhs.
  rewrite (bind_run_silent _ _ s (Some ps) s1)
    by (unfold receive_targets, receive_hosts, bind, ret; by rewrite E).
  unfold list_at, get. rewrite (bind_run_silent _ _ s1 l s1) by (unfold bind, gets, deref, ret; simpl; by rewrite Hl).
  rewrite Hts. set (q := distinct_hosts h (ts ++ ps)). exists q.
  assert (Hold : forall k, k ∈ ts -> load h k = load (hosts s) k).
  { intros k Hk. apply (alloc_list_old _ _ _ _ k E), H3, Hex. by eapply sublist_in. }
  assert (Ho : omap (load h) (ts ++ ps) = omap (load (hosts s)) ts ++ hs).
  { rewrite omap_app. f_equal; [by apply omap_load_grow | by apply (alloc_list_loads _ _ _ _ E)]. }
  assert (Hq : omap (load h) q = first_of_name [] (omap (load (hosts s)) ts ++ hs)).
  { unfold q. rewrite distinct_hosts_reference, Ho; [done|]. intros k Hk. apply elem_of_app in Hk as [Hk|Hk].
    - rewrite (Hold k Hk). apply Hex. by eapply sublist_in.
    - by apply (sound_receive_hosts s hs ps h Hs E). }
  match goal with |- context [state_of ?y] => change (state_of y) with
    (with_stores (update p (set_targets (Some q)) (lists s)) h (update p (with_data (Some q)) (sources s)) (rows s) s) end.
  cbn [with_stores lists hosts sources]. rewrite !load_update_eq, Hl, Hsrc.
  split_and!; [done | done | exact Hq | rewrite Hq; apply first_of_name_names].
Qed.

(** ** Witnesses *)

Definition witness_host (n : string) : HostClass :=
  {| hostname := Some n; state := Some "Uninstalled"; last_state_change := None; target_config_id := None |}.
Definition witness_list (l : list HostClass) : IPTargetListClass :=
  new_IPTargetListClass (Some {| it__id := Some "1"; it_name := JStr "office"; it_protocol := JStr "smb";
    it_ntlm := None; it_smb := None; it_targets := Some l |}).
Definition witness_config : AgentInstallerConfigurationClass :=
  new_AgentInstallerConfigurationClass (JObj [("config_name", JStr "agents")]).
Definition witness_credentials : dialog_form :=
  DialogForm true (JObj [("user_name", JStr "admin"); ("password", JStr "secret")]).

(** The page with one list of two hosts. *)
Definition witness_page : AgentBuilderChooserComponent :=
  state_of (on_ans (CGetIPTargetList false) (Next [witness_list [witness_host "pc1"; witness_host "pc2"]]) constructor).

Example targets_are_shown_witness : exists tr w,
  trace (K := AgentBuilder) (fun _ => True) tr w /\
  exists row l src, load (rows (component w)) 0 = Some row /\ load (lists (component w)) (config row) = Some l /\
    load (sources (component w)) (host_list row) = Some src /\
    default [] (targets l) `sublist_of` default [] (data src).
Proof.
  pose proof (trace_start (K := AgentBuilder) (fun _ => True)) as T.
  apply (trace_event _ _ _ SocketRefresh) in T; [|exact I].
  apply (trace_answer _ _ _ [] (CGetIPTargetList true) []
    (Next [witness_list [witness_host "pc1"; witness_host "pc2"]])) in T; [|exact I | reflexivity].
  apply (trace_event _ _ _ (UninstallHost 0 1)) in T; [|exact I].
  match type of T with trace _ ?tr ?w => exists tr, w end. split; [exact T|].
  destruct (targets_are_shown _ _ _ [0] T eq_refl eq_refl 0 ltac:(left)) as (row & l & src & H1 & H2 & H3 & H4 & _).
  exists row, l, src. by split_and!.
Defined.


Example one_host_narrows_the_batch_witness :
  let form_ := DCredentials (credentials_dialog "" "") UNINSTALLS
    {| installer_config := None; target_config := Some 0; target := None |} in
  let closed := state_of (on_ans (DCredentials (credentials_dialog "" "") UNINSTALL
    {| installer_config := None; target_config := None; target := None |}) None
    (state_of (on_ev (UninstallHost 0 1) witness_page))) in
  shown closed 0 = [0; 1] /\
  exists rest, effects_of (on_ans form_ (Some witness_credentials) closed) = [Subscribe (CAgentsUninstall rest)] /\
    (targets <$> rq_target_config rest) = Some (Some [new_HostClass (witness_host "pc2") (Some "1")]).
Proof.
  split; [vm_compute; reflexivity|]. eexists. split.
  - exact (proj2 (one_host_narrows_the_batch witness_page 0 {| config := 0; host_list := 0; expanded := false |}
      (set_targets (Some [0; 1]) (witness_list [])) [0; 1] 1 (new_HostClass (witness_host "pc2") (Some "1"))
      (credentials_dialog "" "") {| installer_config := None; target_config := None; target := None |}
      (credentials_dialog "" "") None witness_credentials eq_refl eq_refl eq_refl eq_refl eq_refl)).
  - vm_compute. reflexivity.
Defined.

(** The host that only the table has left keeps its state. *)
Example refresh_updates_the_targets_witness : exists tr w h',
  trace (K := AgentBuilder) (fun _ => True) tr w /\
  let installed n := {| hostname := Some n; state := Some "Installed"; last_state_change := None; target_config_id := None |} in
  on_ans (CGetIPTargetList true) (Next [witness_list [installed "pc1"; installed "pc2"]]) (component w) =
    (Ret tt, with_hosts h' (component w), [Page RenderRows]) /\
  (state <$> load h' 1) = Some (Some "Installed") /\ load h' 0 = load (hosts (component w)) 0.
Proof.
  pose proof (trace_start (K := AgentBuilder) (fun _ => True)) as T.
  apply (trace_event _ _ _ SocketRefresh) in T; [|exact I].
  apply (trace_answer _ _ _ [] (CGetIPTargetList true) []
    (Next [witness_list [witness_host "pc1"; witness_host "pc2"]])) in T; [|exact I | reflexivity].
  apply (trace_event _ _ _ (UninstallHost 0 1)) in T; [|exact I].
  set (response := [witness_list [
    {| hostname := Some "pc1"; state := Some "Installed"; last_state_change := None; target_config_id := None |};
    {| hostname := Some "pc2"; state := Some "Installed"; last_state_change := None; target_config_id := None |}]]).
  destruct (refresh_updates_the_targets _ _ _ [0] response T eq_refl eq_refl) as (h' & E & H).
  - intros r ->%list_elem_of_singleton. by eexists.
  - by repeat constructor; eexists.
  - match type of T with trace _ ?tr ?w => exists tr, w, h' end. split; [exact T|]. split; [exact E|]. split.
    + rewrite (proj1 (H 1) 0 _ ltac:(left) eq_refl ltac:(left)). reflexivity.
    + apply (proj2 (H 0)). intros r ->%list_elem_of_singleton [=]%list_elem_of_singleton.
Defined.

Example added_hosts_keep_the_first_witness : exists tr w,
  trace (K := AgentBuilder) (fun _ => True) tr w /\
  let s' := state_of (on_ans (CAddHost 0 (Some "1") (JStr "PC1") 0)
    (Next (witness_list [witness_host "PC1"; witness_host "pc3"])) (component w)) in
  exists ps, (data <$> load (sources s') 0) = Some (Some ps) /\
    (hostname <$> omap (load (hosts s')) ps) = [Some "pc1"; Some "pc2"; Some "pc3"].
Proof.
  pose proof (trace_start (K := AgentBuilder) (fun _ => True)) as T.
  apply (trace_event _ _ _ SocketRefresh) in T; [|exact I].
  apply (trace_answer _ _ _ [] (CGetIPTargetList true) []
    (Next [witness_list [witness_host "pc1"; witness_host "pc2"]])) in T; [|exact I | reflexivity].
  apply (trace_event _ _ _ (AddHosts 0)) in T; [|exact I].
  apply (trace_answer _ _ _ [] (DAddHosts 0 0 add_hosts_dialog) [] (Some (DialogForm true (JStr "PC1")))) in T;
    [|exact I | reflexivity].
  match type of T with trace _ ?tr ?w => exists tr, w end. split; [exact T|].
  destruct (added_hosts_keep_the_first _ _ 0 0 (Some "1") (JStr "PC1") _ [0; 1]
    (witness_list [witness_host "PC1"; witness_host "pc3"]) _ T ltac:(left) eq_refl eq_refl eq_refl)
    as (ps & _ & H2 & H3 & _).
  exists ps. split; [exact H2|]. refine (eq_trans (f_equal (fun l => hostname <$> l) H3) _). vm_compute. reflexivity.
Defined.
