(* ===== verification/AgentDialogs.v ===== *)
(** modules/agent-builder-chooser/components/agent-target-dialog and
    agent-installer-dialog: the two forms that make the values the page saves.

    Groups and controls of @angular/forms are those of the interface in Forms.v;
    of a control the target dialog also reads whether the user changed it. *)
From S2P Require Import Prelude Handler JsValue Runtime Data Api Forms Regex Validators AgentData.

(** [Validators.compose([validateFromArray(rules)])] on a value.  The values of
    these controls are texts or null, for which the mark [touched] makes no
    difference. *)
Definition from_array (rules : list ValidatorObjectInterface) (v : jsval) : bool :=
  match validateFromArray rules None {| value := v; touched := false; status := VALID |} with
  | Ret None => true
  | _ => false
  end.
Definition VALIDATORS_REQUIRED_FROM_ARRAY : jsval -> bool := from_array COMMON_VALIDATORS_required.
Definition VALIDATORS_IS_VALID_IP_FROM_ARRAY : jsval -> bool := from_array COMMON_VALIDATORS_isValidIP.

(** ** agent-target-dialog.component.ts *)

Record field := { f_value : jsval; f_dirty : bool }.
Definition new_field (v : jsval) : field := {| f_value := v; f_dirty := false |}.
(** [setValue] leaves the control pristine; typing does not. *)
Definition set_value (v : jsval) (c : field) : field := {| f_value := v; f_dirty := f_dirty c |}.
Definition typed (v : jsval) : field := {| f_value := v; f_dirty := true |}.

(** The three groups, which exist after [ngOnInit]. *)
Record target_forms := {
  t_config_name : field;
  t_protocol : field;
  t_ntlm_port : field;
  t_ntlm_domain_name : field;
  t_is_ssl : field;
  t_smb_port : field;
  t_smb_domain_name : field;
}.

Record AgentTargetDialogComponent := { is_ntlm : bool; is_smb : bool; forms : option target_forms }.

Definition new_target_dialog : AgentTargetDialogComponent := {| is_ntlm := false; is_smb := false; forms := None |}.

Definition target_ngOnInit (s : AgentTargetDialogComponent) : AgentTargetDialogComponent :=
  {| is_ntlm := is_ntlm s; is_smb := is_smb s;
     forms := Some {| t_config_name := new_field (JStr ""); t_protocol := new_field JNull;
                      t_ntlm_port := new_field (JStr ""); t_ntlm_domain_name := new_field (JStr "");
                      t_is_ssl := new_field (JBool false);
                      t_smb_port := new_field (JStr ""); t_smb_domain_name := new_field (JStr "") |} |}.

Definition set_ntlm_port (v : string) (f : target_forms) : target_forms :=
  {| t_config_name := t_config_name f; t_protocol := t_protocol f; t_ntlm_port := set_value (JStr v) (t_ntlm_port f);
     t_ntlm_domain_name := t_ntlm_domain_name f; t_is_ssl := t_is_ssl f; t_smb_port := t_smb_port f;
     t_smb_domain_name := t_smb_domain_name f |}.
Definition set_smb_port (v : string) (f : target_forms) : target_forms :=
  {| t_config_name := t_config_name f; t_protocol := t_protocol f; t_ntlm_port := t_ntlm_port f;
     t_ntlm_domain_name := t_ntlm_domain_name f; t_is_ssl := t_is_ssl f; t_smb_port := set_value (JStr v) (t_smb_port f);
     t_smb_domain_name := t_smb_domain_name f |}.

Definition protocol_change_step (event : string) (s : AgentTargetDialogComponent) : AgentTargetDialogComponent :=
  if event === "ntlm" then {| is_ntlm := true; is_smb := false; forms := set_ntlm_port WINRM_PORT <$> forms s |}
  else {| is_ntlm := false; is_smb := true; forms := set_smb_port SMB_PORT <$> forms s |}.

Definition change_non_dirty_port_value (checked : bool) (s : AgentTargetDialogComponent) : AgentTargetDialogComponent :=
  {| is_ntlm := is_ntlm s; is_smb := is_smb s;
     forms := (fun f => if f_dirty (t_ntlm_port f) then f
                        else set_ntlm_port (if checked then WINRM_PORT_SSL else WINRM_PORT) f) <$> forms s |}.

Section TargetDialog.
Context {V : NgValidators}.

Definition form_groups_valid (s : AgentTargetDialogComponent) : bool :=
  match forms s with
  | None => false
  | Some f =>
      let list_valid := Validators_required (f_value (t_config_name f)) && Validators_required (f_value (t_protocol f)) in
      if is_ntlm s then VALIDATORS_REQUIRED_FROM_ARRAY (f_value (t_ntlm_port f)) && list_valid
      else if is_smb s then VALIDATORS_REQUIRED_FROM_ARRAY (f_value (t_smb_port f)) && list_valid
      else false
  end.

(** The value the dialog closes with. *)
Definition target_submit (f : target_forms) : IPTargetListClass :=
  new_IPTargetListClass (Some
    {| it__id := None; it_name := f_value (t_config_name f); it_protocol := f_value (t_protocol f);
       it_ntlm := Some {| ntlm_domain_name := f_value (t_ntlm_domain_name f); is_ssl := f_value (t_is_ssl f);
                          ntlm_port := f_value (t_ntlm_port f) |};
       it_smb := Some {| smb_domain_name := f_value (t_smb_domain_name f); smb_port := f_value (t_smb_port f) |};
       it_targets := None |}).
End TargetDialog.

(** What the user does; a radio button and a box set their control before the
    handler of the dialog runs. *)
Inductive target_event : Type :=
| ChooseProtocol (v : string)
| CheckSSL (checked : bool)
| TypeName (v : string)
| TypeNtlmPort (v : string)
| TypeSmbPort (v : string).

Definition on_forms (g : target_forms -> target_forms) (s : AgentTargetDialogComponent) : AgentTargetDialogComponent :=
  {| is_ntlm := is_ntlm s; is_smb := is_smb s; forms := g <$> forms s |}.

Definition target_step (s : AgentTargetDialogComponent) (e : target_event) : AgentTargetDialogComponent :=
  match e with
  | ChooseProtocol v =>
      protocol_change_step v (on_forms (fun f =>
        {| t_config_name := t_config_name f; t_protocol := typed (JStr v); t_ntlm_port := t_ntlm_port f;
           t_ntlm_domain_name := t_ntlm_domain_name f; t_is_ssl := t_is_ssl f; t_smb_port := t_smb_port f;
           t_smb_domain_name := t_smb_domain_name f |}) s)
  | CheckSSL b =>
      change_non_dirty_port_value b (on_forms (fun f =>
        {| t_config_name := t_config_name f; t_protocol := t_protocol f; t_ntlm_port := t_ntlm_port f;
           t_ntlm_domain_name := t_ntlm_domain_name f; t_is_ssl := typed (JBool b); t_smb_port := t_smb_port f;
           t_smb_domain_name := t_smb_domain_name f |}) s)
  | TypeName v =>
      on_forms (fun f =>
        {| t_config_name := typed (JStr v); t_protocol := t_protocol f; t_ntlm_port := t_ntlm_port f;
           t_ntlm_domain_name := t_ntlm_domain_name f; t_is_ssl := t_is_ssl f; t_smb_port := t_smb_port f;
           t_smb_domain_name := t_smb_domain_name f |}) s
  | TypeNtlmPort v =>
      on_forms (fun f =>
        {| t_config_name := t_config_name f; t_protocol := t_protocol f; t_ntlm_port := typed (JStr v);
           t_ntlm_domain_name := t_ntlm_domain_name f; t_is_ssl := t_is_ssl f; t_smb_port := t_smb_port f;
           t_smb_domain_name := t_smb_domain_name f |}) s
  | TypeSmbPort v =>
      on_forms (fun f =>
        {| t_config_name := t_config_name f; t_protocol := t_protocol f; t_ntlm_port := t_ntlm_port f;
           t_ntlm_domain_name := t_ntlm_domain_name f; t_is_ssl := t_is_ssl f; t_smb_port := typed (JStr v);
           t_smb_domain_name := t_smb_domain_name f |}) s
  end.

Definition target_run (l : list target_event) : AgentTargetDialogComponent :=
  fold_left target_step l (target_ngOnInit new_target_dialog).

Lemma target_run_snoc l e : target_run (l ++ [e]) = target_step (target_run l) e.
Proof. unfold target_run. by rewrite fold_left_app. Qed.

Lemma target_forms_exist l : is_Some (forms (target_run l)).
Proof.
  induction l as [|e l IH] using rev_ind; [eexists; reflexivity|]. rewrite target_run_snoc.
  destruct e as [v|b|v|v|v]; unfold target_step, protocol_change_step, change_non_dirty_port_value, on_forms; cbn [forms];
    [destruct (v === "ntlm"); cbn [forms]| | | |]; rewrite ?fmap_is_Some; exact IH.
Qed.

Lemma port_pristine l :
  (forall v, TypeNtlmPort v ∉ l) -> forall f, forms (target_run l) = Some f -> f_dirty (t_ntlm_port f) = false.
Proof.
  induction l as [|e l IH] using rev_ind; intros Hl f Hf; [by injection Hf as <-|].
  destruct (target_forms_exist l) as [g Hg].
  assert (Hd : f_dirty (t_ntlm_port g) = false) by (apply IH; [intros v Hin; apply (Hl v), elem_of_app; by left | done]).
  rewrite target_run_snoc in Hf.
  destruct e as [v|b|v|v|v]; unfold target_step, protocol_change_step, change_non_dirty_port_value, on_forms in Hf.
  - destruct (v === "ntlm"); cbn [forms] in Hf; rewrite Hg in Hf; by injection Hf as <-.
  - cbn [forms] in Hf. rewrite Hg in Hf. cbn [fmap option_fmap option_map t_ntlm_port] in Hf. rewrite Hd in Hf.
    by injection Hf as <-.
  - cbn [forms] in Hf. rewrite Hg in Hf. by injection Hf as <-.
  - destruct (Hl v). apply elem_of_app. right. left.
  - cbn [forms] in Hf. rewrite Hg in Hf. by injection Hf as <-.
Qed.

(** The port of the target dialog follows the SSL box, until the protocol is
    chosen again.  After any sequence of actions in which the port was not typed,
    checking or clearing the box sets the port of SSL or the other one; choosing
    the protocol sets the port without SSL and leaves the box as it is, so that a
    checked box can go with the wrong port. *)
Theorem port_forgets_the_box l b :
  (forall v, TypeNtlmPort v ∉ l) ->
  (exists f, forms (target_run (l ++ [CheckSSL b])) = Some f /\ f_value (t_is_ssl f) = JBool b /\
     f_value (t_ntlm_port f) = JStr (if b then WINRM_PORT_SSL else WINRM_PORT)) /\
  (exists f, forms (target_run (l ++ [CheckSSL b; ChooseProtocol "ntlm"])) = Some f /\ f_value (t_is_ssl f) = JBool b /\
     f_value (t_ntlm_port f) = JStr WINRM_PORT).
Proof.
  intros Hl. destruct (target_forms_exist l) as [g Hg]. pose proof (port_pristine l Hl g Hg) as Hd.
  assert (E : l ++ [CheckSSL b; ChooseProtocol "ntlm"] = (l ++ [CheckSSL b]) ++ [ChooseProtocol "ntlm"]) by (by rewrite <- app_assoc).
  rewrite E, (target_run_snoc (l ++ _)), !target_run_snoc. unfold target_step, protocol_change_step, change_non_dirty_port_value, on_forms.
  cbn [forms]. rewrite seqb_refl. cbn [forms]. rewrite Hg. cbn [fmap option_fmap option_map t_ntlm_port]. rewrite Hd.
  split; (eexists; split; [reflexivity|]; split; [reflexivity|]); by destruct b.
Qed.

(** ** agent-installer-dialog.component.ts *)

Record option_interface := { mo_name : string; mo_value : string }.

Inductive installer_call : Type := CEndgameSensorProfiles (login : EndgameLoginInterface).
Definition InstallerAns (c : installer_call) : Type := answer (list EndgameSensorProfileClass).

Inductive installer_page : Type :=
| NextStep
| CloseDialog (response : option AgentInstallerConfigurationClass).

Section InstallerDialog.
Context `{Ctl : Controls control} `{Grp : Groups group} {V : NgValidators}.
Variable mat_dialog_data : AgentInstallerDialogDataInterface.

(** The controls of the form by name; those of the group [endgame_options] after
    the others.  The control [customPackages] is the object [options_form_group],
    so the form only says whether it is there. *)
Record installer_form := {
  i_config_name : control jsval;
  i_install_endgame : control jsval;
  i_endgame_sensor_id : control jsval;
  i_endgame_sensor_name : control jsval;
  i_endgame_server_ip : control jsval;
  i_endgame_user_name : control jsval;
  i_endgame_password : control jsval;
  i_endgame_port : control jsval;
  i_customPackages : bool;
}.

Record AgentInstallerDialogComponent := {
  agent_installer_configuration_form_group : option installer_form;
  custom_packages_form_group : option (group (control jsval));
  options_form_group : option (group (group (control jsval)));
  endgame_sensor_profile_options : list option_interface;
  app_configs_from_options : list (option AppConfigClass);
}.

Definition with_form v (s : AgentInstallerDialogComponent) :=
  {| agent_installer_configuration_form_group := v; custom_packages_form_group := custom_packages_form_group s;
     options_form_group := options_form_group s; endgame_sensor_profile_options := endgame_sensor_profile_options s;
     app_configs_from_options := app_configs_from_options s |}.
Definition with_boxes v (s : AgentInstallerDialogComponent) :=
  {| agent_installer_configuration_form_group := agent_installer_configuration_form_group s;
     custom_packages_form_group := v; options_form_group := options_form_group s;
     endgame_sensor_profile_options := endgame_sensor_profile_options s;
     app_configs_from_options := app_configs_from_options s |}.
Definition with_options v (s : AgentInstallerDialogComponent) :=
  {| agent_installer_configuration_form_group := agent_installer_configuration_form_group s;
     custom_packages_form_group := custom_packages_form_group s; options_form_group := v;
     endgame_sensor_profile_options := endgame_sensor_profile_options s;
     app_configs_from_options := app_configs_from_options s |}.
Definition with_profiles v (s : AgentInstallerDialogComponent) :=
  {| agent_installer_configuration_form_group := agent_installer_configuration_form_group s;
     custom_packages_form_group := custom_packages_form_group s; options_form_group := options_form_group s;
     endgame_sensor_profile_options := v; app_configs_from_options := app_configs_from_options s |}.
Definition with_app_configs_from_options v (s : AgentInstallerDialogComponent) :=
  {| agent_installer_configuration_form_group := agent_installer_configuration_form_group s;
     custom_packages_form_group := custom_packages_form_group s; options_form_group := options_form_group s;
     endgame_sensor_profile_options := endgame_sensor_profile_options s; app_configs_from_options := v |}.

Abbreviation M := (handler AgentInstallerDialogComponent (effect installer_call installer_page)).

Definition new_installer_dialog : AgentInstallerDialogComponent :=
  {| agent_installer_configuration_form_group := None; custom_packages_form_group := None; options_form_group := None;
     endgame_sensor_profile_options := []; app_configs_from_options := [] |}.

Definition get : M AgentInstallerDialogComponent := gets (fun s => s).
Definition the_form : M installer_form := s <- get ;; deref (agent_installer_configuration_form_group s).

(** No validator. *)
Definition anything (v : jsval) : bool := true.
Definition plain_control (v : jsval) : control jsval := new_control v false anything.

Definition initialize_agent_installer_configuration_form_group_ : M unit :=
  modify (with_form (Some
    {| i_config_name := new_control (JStr "") false VALIDATORS_REQUIRED_FROM_ARRAY;
       i_install_endgame := plain_control (JBool false);
       i_endgame_sensor_id := plain_control JNull;
       i_endgame_sensor_name := plain_control JNull;
       i_endgame_server_ip := plain_control JNull;
       i_endgame_user_name := plain_control JNull;
       i_endgame_password := plain_control JNull;
       i_endgame_port := new_control (JStr "443") false VALIDATORS_REQUIRED_FROM_ARRAY;
       i_customPackages := false |})).

Definition initialize_custom_packages_form_group_ (names : list string) : M unit :=
  modify (with_boxes (Some (fold_left (fun g n => addControl n (plain_control (JBool false)) g) names empty_group))).

Definition installer_ngOnInit : M unit :=
  initialize_agent_installer_configuration_form_group_ ;;;
  initialize_custom_packages_form_group_ (app_names mat_dialog_data).

(** The five controls of Endgame. *)
Definition endgame_validators (id ip port user password : jsval -> bool) (f : installer_form) : installer_form :=
  {| i_config_name := i_config_name f; i_install_endgame := i_install_endgame f;
     i_endgame_sensor_id := setValidators id (i_endgame_sensor_id f);
     i_endgame_sensor_name := i_endgame_sensor_name f;
     i_endgame_server_ip := setValidators ip (i_endgame_server_ip f);
     i_endgame_user_name := setValidators user (i_endgame_user_name f);
     i_endgame_password := setValidators password (i_endgame_password f);
     i_endgame_port := setValidators port (i_endgame_port f);
     i_customPackages := i_customPackages f |}.

Definition toggle_endgame_validators (checked : bool) : M unit :=
  f <- the_form ;;
  let r := VALIDATORS_REQUIRED_FROM_ARRAY in
  modify (with_form (Some
    (if checked then endgame_validators r VALIDATORS_IS_VALID_IP_FROM_ARRAY r r r f
     else endgame_validators anything anything anything anything anything f))).

Definition install_endgame : M jsval := f <- the_form ;; ret (control_value (i_install_endgame f)).

Definition api_endgame_sensor_profiles_ (login : EndgameLoginInterface) : M unit :=
  emit (Subscribe (CEndgameSensorProfiles login)).

Definition connect_endgame : M unit :=
  f <- the_form ;;
  when (control_valid (i_endgame_server_ip f) && control_valid (i_endgame_port f) &&
        control_valid (i_endgame_user_name f) && control_valid (i_endgame_password f))
    (api_endgame_sensor_profiles_
       {| el_server_ip := control_value (i_endgame_server_ip f); el_port := control_value (i_endgame_port f);
          el_user_name := control_value (i_endgame_user_name f); el_password := control_value (i_endgame_password f) |}).

Definition default_or_null (v : jsval) : jsval := if defined v then v else JNull.

(** A specification that says whether the field is required, even to deny it,
    makes it required. *)
Definition create_element_spec_textinput_form_control_ (es : ElementSpecClass) : control jsval :=
  new_control (default_or_null (es_default_value es)) false (fun v =>
    match es_regexp es with Some r => Validators_pattern r v | None => true end &&
    match es_required es with Some _ => Validators_required v | None => true end).
Definition create_element_spec_checkbox_form_control_ (es : ElementSpecClass) : control jsval :=
  plain_control (default_or_null (es_default_value es)).
Definition get_element_spec_form_control_ (es : ElementSpecClass) : option (control jsval) :=
  if es_type es === "textinput" then Some (create_element_spec_textinput_form_control_ es)
  else if es_type es === "checkbox" then Some (create_element_spec_checkbox_form_control_ es)
  else None.

Definition initialize_element_spec_form_group_ (app_config : AppConfigClass) : group (control jsval) :=
  fold_left (fun g es => match get_element_spec_form_control_ es with Some c => addControl (es_name es) c g | None => g end)
    (List.filter (fun es => includes FORM_ELEMENTS (es_type es)) (form app_config)) empty_group.

Definition app_element_group (app_config : AppConfigClass) : group (control jsval) :=
  let g := initialize_element_spec_form_group_ app_config in
  let g := match configLocation app_config with
           | Some p => if p === "" then g else addControl "configLocation" (plain_control (JStr p)) g
           | None => g
           end in
  addControl "hasEditableConfig" (plain_control (JBool (truthy (hasEditableConfig app_config)))) g.

Definition set_customPackages (b : bool) (f : installer_form) : installer_form :=
  {| i_config_name := i_config_name f; i_install_endgame := i_install_endgame f;
     i_endgame_sensor_id := i_endgame_sensor_id f; i_endgame_sensor_name := i_endgame_sensor_name f;
     i_endgame_server_ip := i_endgame_server_ip f; i_endgame_user_name := i_endgame_user_name f;
     i_endgame_password := i_endgame_password f; i_endgame_port := i_endgame_port f; i_customPackages := b |}.

Definition option_keys (s : AgentInstallerDialogComponent) : list string :=
  match options_form_group s with Some g => control_keys g | None => [] end.

Definition app_config_change (checked : bool) (app_config : AppConfigClass) : M unit :=
  s <- get ;;
  (if checked then
     match options_form_group s with
     | Some g => modify (with_options (Some (addControl (name app_config) (app_element_group app_config) g)))
     | None =>
         modify (with_options (Some (addControl (name app_config) (app_element_group app_config) empty_group))) ;;;
         f <- the_form ;; modify (with_form (Some (set_customPackages true f)))
     end
   else
     match options_form_group s with
     | Some g =>
         let g := removeControl (name app_config) g in
         match control_keys g with
         | [] => modify (with_options None) ;;; f <- the_form ;; modify (with_form (Some (set_customPackages false f)))
         | _ => modify (with_options (Some g))
         end
     | None => ret tt
     end) ;;;
  s <- get ;;
  modify (with_app_configs_from_options
    ((fun k => app_name_app_config_pair mat_dialog_data !! k) <$> option_keys s)).

Definition installer_close : M unit := emit (Page (CloseDialog None)).

(** The form is valid when every control is, and the validator of the form. *)
Definition group_valid (g : group (control jsval)) : bool :=
  forallb (fun k => match controls g k with Some c => control_valid c | None => true end) (control_keys g).
Definition options_valid (s : AgentInstallerDialogComponent) : bool :=
  match options_form_group s with
  | Some g => forallb (fun k => match controls g k with Some e => group_valid e | None => true end) (control_keys g)
  | None => true
  end.
Definition form_level_validations_ (f : installer_form) : bool :=
  js_truthy (control_value (i_install_endgame f)) || i_customPackages f.
Definition form_valid (s : AgentInstallerDialogComponent) (f : installer_form) : bool :=
  forallb control_valid [i_config_name f; i_install_endgame f; i_endgame_sensor_id f; i_endgame_sensor_name f;
                         i_endgame_server_ip f; i_endgame_user_name f; i_endgame_password f; i_endgame_port f] &&
  (negb (i_customPackages f) || options_valid s) && form_level_validations_ f.

Definition raw_group (g : group (control jsval)) : jsval :=
  JObj (map (fun k => (k, match controls g k with Some c => control_value c | None => JUndefined end)) (control_keys g)).
Definition raw_options (s : AgentInstallerDialogComponent) : jsval :=
  match options_form_group s with
  | Some g => JObj ((fun k => (k, match controls g k with Some e => raw_group e | None => JUndefined end)) <$> control_keys g)
  | None => JUndefined
  end.

(** The last option with the identifier chosen. *)
Definition get_sensor_profile_name_ (options : list option_interface) (id : jsval) : jsval :=
  fold_left (fun profile_name o => if strict_eq (JStr (mo_value o)) id then JStr (mo_name o) else profile_name) options JNull.

(** [getRawValue()] less [endgame_options], which are merged into it. *)
Definition form_data (s : AgentInstallerDialogComponent) (f : installer_form) : jsval :=
  JObj (object_assign
    ([("config_name", control_value (i_config_name f)); ("install_endgame", control_value (i_install_endgame f));
      ("endgame_sensor_id", control_value (i_endgame_sensor_id f));
      ("endgame_sensor_name", control_value (i_endgame_sensor_name f))] ++
     (if i_customPackages f then [("customPackages", raw_options s)] else []))
    [("endgame_server_ip", control_value (i_endgame_server_ip f)); ("endgame_user_name", control_value (i_endgame_user_name f));
     ("endgame_password", control_value (i_endgame_password f)); ("endgame_port", control_value (i_endgame_port f))]).

Definition set_sensor_name (v : jsval) (f : installer_form) : installer_form :=
  {| i_config_name := i_config_name f; i_install_endgame := i_install_endgame f;
     i_endgame_sensor_id := i_endgame_sensor_id f; i_endgame_sensor_name := setValue v (i_endgame_sensor_name f);
     i_endgame_server_ip := i_endgame_server_ip f; i_endgame_user_name := i_endgame_user_name f;
     i_endgame_password := i_endgame_password f; i_endgame_port := i_endgame_port f;
     i_customPackages := i_customPackages f |}.

Definition installer_submit : M unit :=
  s <- get ;;
  match agent_installer_configuration_form_group s with
  | Some f =>
      if form_valid s f then
        let f := set_sensor_name
          (get_sensor_profile_name_ (endgame_sensor_profile_options s) (control_value (i_endgame_sensor_id f))) f in
        modify (with_form (Some f)) ;;;
        emit (Page (CloseDialog (Some (new_AgentInstallerConfigurationClass (form_data s f)))))
      else displaySnackBar "The form contains invalid entries. Please double check values and try again."
             (Some MAT_SNACKBAR_CONFIGURATION_60000_DUR)
  | None => displaySnackBar "The form contains invalid entries. Please double check values and try again."
             (Some MAT_SNACKBAR_CONFIGURATION_60000_DUR)
  end.

Definition api_endgame_sensor_profiles_answer (a : answer (list EndgameSensorProfileClass)) : M unit :=
  match a with
  | Next response =>
      modify (with_profiles ((fun sp => {| mo_name := sp_name sp; mo_value := sp_id sp |}) <$> response)) ;;;
      emit (Page NextStep) ;;;
      generate_return_success_snackbar_message "connected to Endgame" (Some MAT_SNACKBAR_CONFIGURATION_60000_DUR)
  | Error e => on_error_message "connecting to endgame" e
  end.

(** The controls the user types into or chooses from. *)
Inductive installer_field : Type := ConfigName | SensorId | ServerIp | UserName | Password | Port.

Definition edit (x : installer_field) (v : jsval) (f : installer_form) : installer_form :=
  let input (b : bool) (c : control jsval) := if b then setValue v c else c in
  let hit y := match x, y with
    | ConfigName, ConfigName | SensorId, SensorId | ServerIp, ServerIp | UserName, UserName | Password, Password
    | Port, Port => true
    | _, _ => false
    end in
  {| i_config_name := input (hit ConfigName) (i_config_name f); i_install_endgame := i_install_endgame f;
     i_endgame_sensor_id := input (hit SensorId) (i_endgame_sensor_id f);
     i_endgame_sensor_name := i_endgame_sensor_name f;
     i_endgame_server_ip := input (hit ServerIp) (i_endgame_server_ip f);
     i_endgame_user_name := input (hit UserName) (i_endgame_user_name f);
     i_endgame_password := input (hit Password) (i_endgame_password f);
     i_endgame_port := input (hit Port) (i_endgame_port f); i_customPackages := i_customPackages f |}.

(** What the user does; a box sets its control before the handler runs. *)
Inductive installer_event : Type :=
| EditField (x : installer_field) (v : jsval)
| CheckEndgame (checked : bool)
| CheckApp (checked : bool) (app_config : AppConfigClass)
| EditOption (app_name option_name : string) (v : jsval)
| ConnectEndgame
| Close
| Submit.

Definition installer_on_event (e : installer_event) : M unit :=
  match e with
  | EditField x v => f <- the_form ;; modify (with_form (Some (edit x v f)))
  | CheckEndgame b =>
      f <- the_form ;;
      modify (with_form (Some
        {| i_config_name := i_config_name f; i_install_endgame := setValue (JBool b) (i_install_endgame f);
           i_endgame_sensor_id := i_endgame_sensor_id f; i_endgame_sensor_name := i_endgame_sensor_name f;
           i_endgame_server_ip := i_endgame_server_ip f; i_endgame_user_name := i_endgame_user_name f;
           i_endgame_password := i_endgame_password f; i_endgame_port := i_endgame_port f;
           i_customPackages := i_customPackages f |})) ;;;
      toggle_endgame_validators b
  | CheckApp b app_config =>
      s <- get ;;
      g <- deref (custom_packages_form_group s) ;;
      modify (with_boxes (Some (update_control (name app_config) (setValue (JBool b)) g))) ;;;
      app_config_change b app_config
  | EditOption a o v =>
      s <- get ;;
      g <- deref (options_form_group s) ;;
      modify (with_options (Some (update_control a (update_control o (setValue v)) g)))
  | ConnectEndgame => connect_endgame
  | Close => installer_close
  | Submit => installer_submit
  end.

Definition installer_on_answer (c : installer_call) : InstallerAns c -> M unit :=
  match c with CEndgameSensorProfiles _ => api_endgame_sensor_profiles_answer end.

(** The dialog after [ngOnInit]. *)
#[local] Instance InstallerDialog : Component AgentInstallerDialogComponent installer_call installer_page installer_event InstallerAns := {|
  initial := state_of (installer_ngOnInit new_installer_dialog);
  on_event := installer_on_event;
  on_answer := installer_on_answer;
|}.

(** *** The boxes and the options *)

Section Boxes.
Context {CL : ControlsLaws Ctl} {GL : GroupsLaws Grp}.

(** The box of [n] is checked. *)
Definition checked (s : AgentInstallerDialogComponent) (n : string) : Prop :=
  exists g c, custom_packages_form_group s = Some g /\ controls g n = Some c /\ control_value c = JBool true.

(** What keeps the form, its options and the boxes together. *)
Definition in_step (s : AgentInstallerDialogComponent) : Prop :=
  (exists f, agent_installer_configuration_form_group s = Some f /\
     i_customPackages f = notUndefNull (options_form_group s)) /\
  (exists g, custom_packages_form_group s = Some g /\ forall n, n ∈ app_names mat_dialog_data -> is_Some (controls g n)) /\
  (forall g, options_form_group s = Some g -> control_keys g <> []) /\
  (forall n, n ∈ option_keys s <-> checked s n) /\
  app_configs_from_options s = (fun k => app_name_app_config_pair mat_dialog_data !! k) <$> option_keys s.

(** The template has a box for each application of the data. *)
Definition possible (l : label installer_event InstallerAns) : Prop :=
  match l with
  | Event (CheckApp _ a) => name a ∈ app_names mat_dialog_data
  | _ => True
  end.

Lemma boxes_controls names n :
  controls (fold_left (fun g n => addControl n (plain_control (JBool false)) g) names empty_group) n =
    if bool_decide (n ∈ names) then Some (plain_control (JBool false)) else None.
Proof using CL GL.
  induction names as [|m names IH] using rev_ind; [cbn [fold_left]; by rewrite controls_empty|].
  rewrite fold_left_app. cbn [fold_left]. rewrite controls_add. destruct (m === n) eqn:E.
  - apply seqb_eq in E as ->. rewrite IH, (bool_decide_eq_true_2 (n ∈ names ++ [n])) by (apply elem_of_app; right; left).
    by case_bool_decide.
  - apply seqb_neq in E. rewrite IH. repeat case_bool_decide; try done; exfalso;
      rewrite elem_of_app, list_elem_of_singleton in *; naive_solver.
Qed.

Lemma in_step_initial : in_step (initial (Component := InstallerDialog)).
Proof using CL GL.
  cbn. split_and!; try done.
  - eexists. by split.
  - eexists. split; [done|]. intros n Hn. rewrite boxes_controls, bool_decide_eq_true_2 by done. by eexists.
  - intros n. cbn. split; [intros H; by apply not_elem_of_nil in H|]. intros (g & c & [= <-] & Hc & Hv).
    rewrite boxes_controls in Hc. case_bool_decide; [|done]. injection Hc as <-.
    unfold plain_control in Hv. by rewrite value_new in Hv.
Qed.

(** The state before the handler of a box: the box has its new value. *)
Definition boxed (b : bool) (n : string) (s : AgentInstallerDialogComponent) : AgentInstallerDialogComponent :=
  with_boxes (option_map (update_control n (setValue (JBool b))) (custom_packages_form_group s)) s.

Lemma checked_boxed b n s m :
  in_step s -> n ∈ app_names mat_dialog_data ->
  (checked (boxed b n s) m <-> if decide (m = n) then b = true else checked s m).
Proof using CL GL.
  intros (_ & (g & Hg & Hboxes) & _) Hn. unfold checked, boxed. cbn [with_boxes custom_packages_form_group]. rewrite Hg. simpl.
  destruct (Hboxes n Hn) as [c Hc]. case_decide as Hd.
  - subst m. split.
    + intros (g' & c' & [= <-] & Hc' & Hv). rewrite controls_update, seqb_refl, Hc in Hc'. injection Hc' as <-.
      rewrite value_setValue in Hv. by injection Hv.
    + intros ->. eexists _, _. split; [done|]. rewrite controls_update, seqb_refl, Hc. split; [done | apply value_setValue].
  - assert (E : controls (update_control n (setValue (JBool b)) g) m = controls g m).
    { rewrite controls_update. by rewrite (proj2 (seqb_neq n m)). }
    split; intros (g' & c' & [= <-] & Hc' & Hv); eexists _, c'; (split; [done|]); [rewrite <- E | rewrite E]; done.
Qed.

(** What every branch of the handler has to establish. *)
Lemma in_step_after b n s s' :
  in_step s -> n ∈ app_names mat_dialog_data -> custom_packages_form_group s' = custom_packages_form_group (boxed b n s) ->
  (exists f, agent_installer_configuration_form_group s' = Some f /\
     i_customPackages f = notUndefNull (options_form_group s')) ->
  (forall g, options_form_group s' = Some g -> control_keys g <> []) ->
  (forall m, m ∈ option_keys s' <-> if decide (m = n) then b = true else m ∈ option_keys s) ->
  in_step (with_app_configs_from_options
    ((fun k => app_name_app_config_pair mat_dialog_data !! k) <$> option_keys s') s').
Proof using CL GL.
  intros Hs Hn Eb Hf Hne Hk. unfold in_step. split_and!; [exact Hf | | exact Hne | | done].
  - destruct Hs as (_ & (g & Hg & Hboxes) & _). cbn [with_app_configs_from_options custom_packages_form_group].
    rewrite Eb. cbn [boxed with_boxes custom_packages_form_group]. rewrite Hg. eexists. split; [reflexivity|].
    intros m Hm. rewrite controls_update. destruct (n === m); [apply fmap_is_Some|]; by apply Hboxes.
  - intros m. assert (Ec : forall x, checked (with_app_configs_from_options x s') m <-> checked (boxed b n s) m).
    { intros x. unfold checked. cbn [with_app_configs_from_options custom_packages_form_group]. by rewrite Eb. }
    rewrite Ec, checked_boxed by done. etransitivity; [apply Hk|]. case_decide; [done|]. apply Hs.
Qed.

Lemma removed_keys {B} n (g : group B) m : m ∈ control_keys (removeControl n g) <-> m <> n /\ m ∈ control_keys g.
Proof using GL.
  rewrite !keys_controls, controls_remove. destruct (n === m) eqn:E.
  - apply seqb_eq in E as ->. split; [by intros [? ?] | by intros [? _]].
  - apply seqb_neq in E. split; [by split | by intros [_ ?]].
Qed.

Lemma added_keys {B} n (c : B) (g : group B) m : m ∈ control_keys (addControl n c g) <-> m = n \/ m ∈ control_keys g.
Proof using GL.
  rewrite !keys_controls, controls_add. destruct (n === m) eqn:E.
  - apply seqb_eq in E as ->. destruct (controls g m); split; auto; intros _; by eexists.
  - apply seqb_neq in E. split; [by right | by intros [->|?]].
Qed.

Lemma in_step_check b a s :
  in_step s -> name a ∈ app_names mat_dialog_data -> in_step (state_of (app_config_change b a (boxed b (name a) s))).
Proof using CL GL.
  intros Hs Hn. set (s1 := boxed b (name a) s). pose proof Hs as ((f & Hf & Hc) & _ & Hne & _).
  assert (E1 : options_form_group s1 = options_form_group s) by done.
  assert (E2 : agent_installer_configuration_form_group s1 = Some f) by done.
  unfold app_config_change, get. rewrite (bind_run_silent _ _ s1 s1 s1 eq_refl). rewrite E1.
  unfold the_form, get. destruct b, (options_form_group s) as [g|] eqn:Eg.
  - rewrite (bind_run_silent _ _ s1 tt _ eq_refl). apply (in_step_after true (name a) s); try done.
    + exists f. by rewrite Hc.
    + intros g' [= <-] E. apply (not_elem_of_nil (name a)). rewrite <- E. apply added_keys. by left.
    + intros m. unfold option_keys. cbn [with_options options_form_group]. rewrite added_keys, Eg. case_decide; naive_solver.
  - rewrite (bind_run_silent _ _ s1 tt (with_form (Some (set_customPackages true f))
      (with_options (Some (addControl (name a) (app_element_group a) empty_group)) s1)))
      by (unfold bind, gets, deref, modify, ret; cbn; by rewrite Hf).
    apply (in_step_after true (name a) s); try done.
    + by eexists.
    + intros g' [= <-] E. apply (not_elem_of_nil (name a)). rewrite <- E. apply added_keys. by left.
    + intros m. unfold option_keys. cbn [with_form with_options options_form_group]. rewrite added_keys, keys_empty, Eg.
      case_decide; naive_solver.
  - destruct (control_keys (removeControl (name a) g)) as [|k ks] eqn:Ek.
    + rewrite (bind_run_silent _ _ s1 tt (with_form (Some (set_customPackages false f)) (with_options None s1)))
        by (unfold bind, gets, deref, modify, ret; cbn; by rewrite Hf).
      apply (in_step_after false (name a) s); try done; [by eexists|].
      intros m. unfold option_keys. cbn [with_form with_options options_form_group]. rewrite Eg.
      pose proof (removed_keys (name a) g m) as Hr. rewrite Ek in Hr. case_decide; [split; [intros Hin; by apply not_elem_of_nil in Hin | done]|].
      naive_solver.
    + rewrite (bind_run_silent _ _ s1 tt _ eq_refl). apply (in_step_after false (name a) s); try done.
      * exists f. by rewrite Hc.
      * intros g' [= <-]. by rewrite Ek.
      * intros m. unfold option_keys. cbn [with_options options_form_group]. rewrite removed_keys, Eg.
        case_decide; naive_solver.
  - rewrite (bind_run_silent _ _ s1 tt s1 eq_refl). apply (in_step_after false (name a) s); try done.
    + exists f. by rewrite E1.
    + intros g. by rewrite E1.
    + intros m. unfold option_keys. rewrite E1, Eg. case_decide; [split; [intros Hin; by apply not_elem_of_nil in Hin | done] | done].
Qed.

(** A new form that has the same control for the packages. *)
Lemma in_step_form s f g :
  in_step s -> agent_installer_configuration_form_group s = Some f -> i_customPackages g = i_customPackages f ->
  in_step (with_form (Some g) s).
Proof using CL GL.
  intros ((f' & Hf' & Hc) & H) Hf E. rewrite Hf in Hf'. injection Hf' as <-. split; [|exact H].
  exists g. split; [done|]. by rewrite E.
Qed.

Lemma safe_the_form {A} (k : installer_form -> M A) :
  (forall s f, in_step s -> agent_installer_configuration_form_group s = Some f -> in_step (state_of (k f s))) ->
  safe in_step (fun _ => True) (bind the_form k).
Proof using CL GL.
  intros Hk s Hs. split; [|by apply Forall_true]. pose proof Hs as ((f & Hf & _) & _).
  rewrite (bind_run_silent the_form k s f s) by (unfold the_form, get, bind, gets, deref; cbn; by rewrite Hf).
  by apply Hk.
Qed.

Lemma in_step_event e : possible (Event e) -> safe in_step (fun _ => True) (installer_on_event e).
Proof using CL GL.
  intros Hp. destruct e as [x v|b|b a|a o v| | |]; cbn [installer_on_event].
  - apply safe_the_form. intros s f Hs Hf. by apply (in_step_form s f).
  - apply safe_the_form. intros s f Hs Hf. unfold toggle_endgame_validators.
    set (f1 := {| i_config_name := _ |}). rewrite (bind_run_silent _ _ s tt (with_form (Some f1) s) eq_refl).
    rewrite (bind_run_silent the_form _ (with_form (Some f1) s) f1 (with_form (Some f1) s) eq_refl).
    change (in_step (with_form (Some (if b then endgame_validators VALIDATORS_REQUIRED_FROM_ARRAY VALIDATORS_IS_VALID_IP_FROM_ARRAY
      VALIDATORS_REQUIRED_FROM_ARRAY VALIDATORS_REQUIRED_FROM_ARRAY VALIDATORS_REQUIRED_FROM_ARRAY f1
      else endgame_validators anything anything anything anything anything f1)) s)).
    apply (in_step_form s f); [done | done | by destruct b].
  - intros s Hs. split; [|by apply Forall_true]. pose proof Hs as (_ & (g & Hg & _) & _).
    rewrite (bind_run_silent _ _ s s s eq_refl), Hg. rewrite (bind_run_silent _ _ s g s eq_refl).
    assert (E : with_boxes (Some (update_control (name a) (setValue (JBool b)) g)) s = boxed b (name a) s)
      by (unfold boxed; by rewrite Hg).
    rewrite (bind_run_silent _ _ s tt (boxed b (name a) s)) by (by rewrite <- E).
    by apply in_step_check.
  - intros s Hs. split; [|by apply Forall_true]. rewrite (bind_run_silent _ _ s s s eq_refl).
    destruct (options_form_group s) as [g|] eqn:Eg; [|by rewrite (bind_run_throw _ _ s "TypeError" s [])].
    rewrite (bind_run_silent _ _ s g s eq_refl). cbn [state_of fst snd modify].
    destruct Hs as ((f & Hf & Hc) & H2 & H3 & H4 & H5).
    unfold in_step, option_keys in *. rewrite Eg in *. cbn [with_options options_form_group app_configs_from_options].
    rewrite keys_update. split_and!; [by exists f | done | | done | done].
    intros g' [= <-]. rewrite keys_update. by apply H3.
  - apply safe_the_form. intros s f Hs _. unfold when, api_endgame_sensor_profiles_. by destruct (_ && _).
  - by apply safe_emit.
  - intros s Hs. split; [|by apply Forall_true]. unfold installer_submit. rewrite (bind_run_silent get _ s s s eq_refl).
    pose proof Hs as ((f & Hf & _) & _). rewrite Hf. destruct (form_valid s f); [|done].
    cbv zeta. rewrite (bind_run_silent _ _ s tt _ eq_refl). by apply (in_step_form s f).
Qed.

Lemma in_step_answer c a : safe in_step (fun _ => True) (installer_on_answer c a).
Proof using CL GL.
  destruct c; cbn [installer_on_answer]. destruct a as [r|e]; cbn [api_endgame_sensor_profiles_answer].
  - intros s Hs. split; [exact Hs | by apply Forall_true].
  - unfold on_error_message. destruct e; by apply safe_emit.
Qed.

(** The installer dialog offers the options of exactly the applications whose
    boxes are checked.  In every reachable state an application has a group of
    options if and only if its box is checked, the option steps are those of the
    groups in their order, and the form may be valid as a whole exactly when
    Endgame is chosen or some box is. *)
Theorem options_follow_the_boxes tr w f :
  trace (K := InstallerDialog) possible tr w ->
  let s := component w in
  agent_installer_configuration_form_group s = Some f ->
  (forall n, n ∈ option_keys s <-> checked s n) /\
  app_configs_from_options s = (fun k => app_name_app_config_pair mat_dialog_data !! k) <$> option_keys s /\
  (form_level_validations_ f = true <->
     js_truthy (control_value (i_install_endgame f)) = true \/ exists n, checked s n).
Proof using CL GL.
  intros Htr s Hf.
  assert (Hs : in_step s).
  { refine (proj1 (trace_invariant (K := InstallerDialog) possible in_step (fun _ _ => True) in_step_initial _ tr w Htr)).
    intros [e|c a] Hl; [by apply in_step_event | apply in_step_answer]. }
  destruct Hs as ((f' & Hf' & Hc) & _ & Hne & Hk & Ha). rewrite Hf in Hf'. injection Hf' as <-.
  split_and!; [exact Hk | exact Ha |]. unfold form_level_validations_. rewrite orb_true_iff, Hc.
  assert (Hx : notUndefNull (options_form_group s) = true <-> exists n, checked s n).
  { split.
    - intros Hn. destruct (options_form_group s) as [g|] eqn:Eg; [|done].
      destruct (control_keys g) as [|n ks] eqn:Ek; [by destruct (Hne g eq_refl)|].
      exists n. apply Hk. unfold option_keys. rewrite Eg, Ek. left.
    - intros [n Hn]. apply Hk in Hn. unfold option_keys in Hn. destruct (options_form_group s); [done|].
      by apply not_elem_of_nil in Hn. }
  by rewrite Hx.
Qed.
End Boxes.
End InstallerDialog.

(** ** Witnesses *)

Example port_forgets_the_box_witness :
  exists f, forms (target_run [ChooseProtocol "ntlm"; TypeName "office"; CheckSSL true; ChooseProtocol "ntlm"]) = Some f /\
    f_value (t_is_ssl f) = JBool true /\ f_value (t_ntlm_port f) = JStr "5985".
Proof.
  apply (port_forgets_the_box [ChooseProtocol "ntlm"; TypeName "office"] true).
  intros v [[=]|[[=]|[]%list_elem_of_In]%elem_of_cons]%elem_of_cons.
Defined.

Definition witness_app (n : string) : AppConfigClass :=
  {| name := n; form := []; hasEditableConfig := None; configLocation := None |}.
Definition witness_data : AgentInstallerDialogDataInterface :=
  {| dialog_app_configs := [witness_app "sysmon"; witness_app "winlogbeat"]; app_names := ["sysmon"; "winlogbeat"];
     app_name_app_config_pair := {["sysmon" := witness_app "sysmon"; "winlogbeat" := witness_app "winlogbeat"]} |}.

Abbreviation WitnessDialog := (InstallerDialog (Ctl := plain_controls) (Grp := association_groups) witness_data).

Example options_follow_the_boxes_witness : exists tr w f,
  trace (K := WitnessDialog) (possible witness_data) tr w /\
  agent_installer_configuration_form_group (component w) = Some f /\
  option_keys (component w) = ["sysmon"] /\ form_level_validations_ f = true.
Proof.
  pose proof (trace_start (K := WitnessDialog) (possible witness_data)) as T.
  apply (trace_event _ _ _ (CheckApp true (witness_app "winlogbeat"))) in T;
    [|right; left].
  apply (trace_event _ _ _ (CheckApp true (witness_app "sysmon"))) in T; [|left].
  apply (trace_event _ _ _ (CheckApp false (witness_app "winlogbeat"))) in T; [|right; left].
  match type of T with trace _ ?tr ?w =>
    destruct (agent_installer_configuration_form_group (component w)) as [f|] eqn:Ef; [|discriminate Ef];
    exists tr, w, f; split; [exact T|]; split; [exact Ef|];
    assert (Hk : option_keys (component w) = ["sysmon"]) by (vm_compute; reflexivity);
    split; [exact Hk|];
    destruct (options_follow_the_boxes witness_data tr w f T Ef) as (H1 & _ & H2) end.
  apply H2. right. exists "sysmon". apply H1. rewrite Hk. left.
Defined.
