(* ===== verification/TextEditor.v ===== *)
(** modules/ngx-monaco-text-editor: the editor (ngx-monaco-editor.component.ts),
    which other components show, and the dialog around it
    (ngx-monaco-text-editor.component.ts).

    The editor talks to the component that shows it through two outputs, emitted
    synchronously: [editor_text] when it is asked for its text through
    [return_editor_text$], [keyup_text] on every key. *)
From S2P Require Import Prelude Handler JsValue Runtime Data.

(** ** The editor *)

(** interfaces/minimap.interface.ts *)
Record MinimapInterface := { enabled : bool }.

(** interfaces/editor-options.interface.ts *)
Record EditorOptionsInterface := {
  theme : string;
  language : string;
  readOnly : bool;
  renderSideBySide : option bool;
  minimap : MinimapInterface;
  wordWrap : string;
  fontFamily : string;
  scrollBeyondLastLine : bool;
  automaticLayout : bool;
  links : bool;
  trimAutoWhitespace : bool;
  insertSpaces : bool;
}.

(** The assignments [Object.assign({}, options, { ... })] makes. *)
Definition option_fields t l r s m w (o : EditorOptionsInterface) : EditorOptionsInterface :=
  {| theme := t; language := l; readOnly := r; renderSideBySide := s; minimap := m; wordWrap := w;
     fontFamily := fontFamily o; scrollBeyondLastLine := scrollBeyondLastLine o;
     automaticLayout := automaticLayout o; links := links o; trimAutoWhitespace := trimAutoWhitespace o;
     insertSpaces := insertSpaces o |}.
Definition with_theme v o := option_fields v (language o) (readOnly o) (renderSideBySide o) (minimap o) (wordWrap o) o.
Definition with_language v o := option_fields (theme o) v (readOnly o) (renderSideBySide o) (minimap o) (wordWrap o) o.
Definition with_readOnly v o := option_fields (theme o) (language o) v (renderSideBySide o) (minimap o) (wordWrap o) o.
Definition with_sides v o := option_fields (theme o) (language o) (readOnly o) (Some v) (minimap o) (wordWrap o) o.
Definition with_minimap v o := option_fields (theme o) (language o) (readOnly o) (renderSideBySide o) {| enabled := v |} (wordWrap o) o.
Definition with_wordWrap v o := option_fields (theme o) (language o) (readOnly o) (renderSideBySide o) (minimap o) v o.

(** The [DiffEditorModel] of the library, as it is used. *)
Record diff_model := { code : string; model_language : string }.

(** A text that may be undefined. *)
Record NGXMonacoEditorComponent := {
  e_show_options : bool;
  e_is_read_only : bool;
  e_text : option string;
  e_use_language : string;
  text1 : option string;
  text2 : option string;
  compare_mode : bool;
  inline_diff : bool;
  selected_lang : string;
  selected_theme : string;
  selected_word_wrap : string;
  modified_options : EditorOptionsInterface;
  original_options : EditorOptionsInterface;
  diff_options : EditorOptionsInterface;
  original_model : diff_model;
  modified_model : diff_model;
}.

Inductive output : Type :=
| EditorText (text : option string)
| KeyupText (text : option string).
Abbreviation E := (handler NGXMonacoEditorComponent output).

Definition with_texts t1 t2 (s : NGXMonacoEditorComponent) :=
  {| e_show_options := e_show_options s; e_is_read_only := e_is_read_only s; e_text := e_text s;
     e_use_language := e_use_language s; text1 := t1; text2 := t2; compare_mode := compare_mode s;
     inline_diff := inline_diff s; selected_lang := selected_lang s; selected_theme := selected_theme s;
     selected_word_wrap := selected_word_wrap s; modified_options := modified_options s;
     original_options := original_options s; diff_options := diff_options s;
     original_model := original_model s; modified_model := modified_model s |}.
Definition with_inputs t r (s : NGXMonacoEditorComponent) :=
  {| e_show_options := e_show_options s; e_is_read_only := r; e_text := t;
     e_use_language := e_use_language s; text1 := text1 s; text2 := text2 s; compare_mode := compare_mode s;
     inline_diff := inline_diff s; selected_lang := selected_lang s; selected_theme := selected_theme s;
     selected_word_wrap := selected_word_wrap s; modified_options := modified_options s;
     original_options := original_options s; diff_options := diff_options s;
     original_model := original_model s; modified_model := modified_model s |}.
Definition with_modes c i (s : NGXMonacoEditorComponent) :=
  {| e_show_options := e_show_options s; e_is_read_only := e_is_read_only s; e_text := e_text s;
     e_use_language := e_use_language s; text1 := text1 s; text2 := text2 s; compare_mode := c;
     inline_diff := i; selected_lang := selected_lang s; selected_theme := selected_theme s;
     selected_word_wrap := selected_word_wrap s; modified_options := modified_options s;
     original_options := original_options s; diff_options := diff_options s;
     original_model := original_model s; modified_model := modified_model s |}.
Definition with_selected l t w (s : NGXMonacoEditorComponent) :=
  {| e_show_options := e_show_options s; e_is_read_only := e_is_read_only s; e_text := e_text s;
     e_use_language := e_use_language s; text1 := text1 s; text2 := text2 s; compare_mode := compare_mode s;
     inline_diff := inline_diff s; selected_lang := l; selected_theme := t; selected_word_wrap := w;
     modified_options := modified_options s; original_options := original_options s;
     diff_options := diff_options s; original_model := original_model s; modified_model := modified_model s |}.
Definition with_options m o d (s : NGXMonacoEditorComponent) :=
  {| e_show_options := e_show_options s; e_is_read_only := e_is_read_only s; e_text := e_text s;
     e_use_language := e_use_language s; text1 := text1 s; text2 := text2 s; compare_mode := compare_mode s;
     inline_diff := inline_diff s; selected_lang := selected_lang s; selected_theme := selected_theme s;
     selected_word_wrap := selected_word_wrap s; modified_options := m; original_options := o;
     diff_options := d; original_model := original_model s; modified_model := modified_model s |}.
Definition with_models o m (s : NGXMonacoEditorComponent) :=
  {| e_show_options := e_show_options s; e_is_read_only := e_is_read_only s; e_text := e_text s;
     e_use_language := e_use_language s; text1 := text1 s; text2 := text2 s; compare_mode := compare_mode s;
     inline_diff := inline_diff s; selected_lang := selected_lang s; selected_theme := selected_theme s;
     selected_word_wrap := selected_word_wrap s; modified_options := modified_options s;
     original_options := original_options s; diff_options := diff_options s;
     original_model := o; modified_model := m |}.

(** The options [ngOnInit] starts with. *)
Definition initial_options (th lang : string) (read_only : bool) : EditorOptionsInterface :=
  {| theme := th; language := lang; readOnly := read_only; renderSideBySide := None;
     minimap := {| enabled := false |}; wordWrap := "off";
     fontFamily := "Consolas, Monaco, 'Courier New', monospace"; scrollBeyondLastLine := false;
     automaticLayout := true; links := false; trimAutoWhitespace := false; insertSpaces := false |}.

(** The editor after it was made with its inputs and initialized: the constructor,
    the inputs, the first [ngOnChanges] and [ngOnInit]. *)
Definition new_editor (show read_only : bool) (t : option string) (lang : string) : NGXMonacoEditorComponent :=
  let modified := initial_options "vs-dark" lang read_only in
  let original := with_readOnly true modified in
  let model := {| code := ""; model_language := lang |} in
  {| e_show_options := show; e_is_read_only := read_only; e_text := t; e_use_language := lang;
     text1 := t; text2 := t; compare_mode := false; inline_diff := false; selected_lang := lang;
     selected_theme := "vs-dark"; selected_word_wrap := "off"; modified_options := modified;
     original_options := original; diff_options := with_sides true original;
     original_model := model; modified_model := model |}.

(** [ngOnChanges] when the parent binds other values than before: undefined is
    not a string, and the second change is only looked at when the first test
    fails. *)
Definition ngOnChanges (t : option string) (read_only : bool) : E unit :=
  s <- gets (fun s => s) ;;
  (let text_changed := negb (bool_decide (t = e_text s)) in
   let read_only_changed := negb (Bool.eqb read_only (e_is_read_only s)) in
   modify (with_inputs t read_only) ;;;
   if text_changed && notUndefNull t then modify (with_texts t t)
   else when read_only_changed
     (modify (fun s => with_options (with_readOnly read_only (modified_options s)) (original_options s)
                         (diff_options s) s))).

Definition get_edit_option_class (s : NGXMonacoEditorComponent) : list (string * bool) :=
  [("option-button", true); ("option-button-light", selected_theme s === "vs");
   ("option-button-dark", selected_theme s === "vs-dark")].

Definition on_keyup : E unit := s <- gets (fun s => s) ;; emit (KeyupText (text1 s)).

Definition selection_change_language (v : string) : E unit :=
  modify (fun s =>
    let m := with_language v (modified_options s) in
    let o := with_language v (original_options s) in
    with_models {| code := code (original_model s); model_language := v |}
                {| code := code (modified_model s); model_language := v |}
      (with_options m o (with_language v m) (with_selected v (selected_theme s) (selected_word_wrap s) s))).

Definition selection_change_theme (v : string) : E unit :=
  modify (fun s => with_options (with_theme v (modified_options s)) (with_theme v (original_options s))
                     (with_theme v (diff_options s)) (with_selected (selected_lang s) v (selected_word_wrap s) s)).

Definition selection_change_word_wrap (v : string) : E unit :=
  modify (fun s => with_options (with_wordWrap v (modified_options s)) (with_wordWrap v (original_options s))
                     (with_wordWrap v (diff_options s)) (with_selected (selected_lang s) (selected_theme s) v s)).

Definition change_minimap (v : bool) : E unit :=
  modify (fun s => with_options (with_minimap v (modified_options s)) (with_minimap v (original_options s))
                     (with_minimap v (diff_options s)) s).

Definition change_compare_mode (v : bool) : E unit := modify (with_modes v false).

(** The box is bound to [inline_diff]; undefined reads as a word in a template
    literal.  The original model gets the modified text. *)
Definition change_inline_diff (v : bool) : E unit :=
  modify (fun s =>
    let original := {| code := default "undefined" (text1 s); model_language := model_language (original_model s) |} in
    let modified := {| code := default "undefined" (text2 s); model_language := model_language original |} in
    with_modes (compare_mode s) v
      (with_models original modified
         (with_options (modified_options s) (original_options s) (with_sides (negb v) (diff_options s)) s))).

(** The parent's subject asks for the text. *)
Definition get_return_editor_text_ : E unit := s <- gets (fun s => s) ;; emit (EditorText (text1 s)).

(** What the user does in the editor.  The text is bound to [text1] except in the
    inline view, whose editor works on the models; a text can change without a
    key (the mouse, a menu). *)
Inductive editing : Type :=
| Keys (text : string)
| Paste (text : string)
| Language (v : string)
| Theme (v : string)
| WordWrap (v : string)
| Minimap (v : bool)
| Compare (v : bool)
| InlineDiff (v : bool).

Definition enter (text : string) : E unit :=
  s <- gets (fun s => s) ;;
  when (negb (e_is_read_only s) && negb (compare_mode s && inline_diff s))
    (modify (with_texts (Some text) (text2 s))).

Definition on_editing (e : editing) : E unit :=
  match e with
  | Keys text => enter text ;;; on_keyup
  | Paste text => enter text
  | Language v => selection_change_language v
  | Theme v => selection_change_theme v
  | WordWrap v => selection_change_word_wrap v
  | Minimap v => change_minimap v
  | Compare v => change_compare_mode v
  | InlineDiff v => change_inline_diff v
  end.

(** What an editing can do to the text and say to the parent. *)
Lemma on_editing_run e s :
  exists s' os, on_editing e s = (Ret tt, s', os) /\ e_text s' = e_text s /\ e_is_read_only s' = e_is_read_only s /\
    (text1 s' = text1 s \/ exists t, (e = Keys t \/ e = Paste t) /\ text1 s' = Some t) /\
    ((os = [] /\ forall t, e <> Keys t) \/ (os = [KeyupText (text1 s')] /\ exists t, e = Keys t)).
Proof.
  assert (H : forall t, exists s', enter t s = (Ret tt, s', []) /\ e_text s' = e_text s /\
            e_is_read_only s' = e_is_read_only s /\ (text1 s' = text1 s \/ text1 s' = Some t)).
  { intros t. unfold enter. rewrite (bind_run_silent _ _ s s s) by done.
    destruct (_ && _); simpl; eexists; (split; [reflexivity|]); simpl; auto. }
  destruct e as [t|t|v|v|v|v|v|v]; simpl;
    try (eexists _, []; (split; [reflexivity|]); simpl; split_and!; auto; left; by split).
  - destruct (H t) as (s' & Hr & H1 & H2 & H3). rewrite (bind_run_silent _ _ s tt s' Hr).
    exists s', [KeyupText (text1 s')]. split; [done|]. split_and!; [done|done| |by right; eauto].
    destruct H3; eauto.
  - destruct (H t) as (s' & -> & H1 & H2 & H3). exists s', []. split; [done|]. split_and!; [done|done| |by left].
    destruct H3; eauto.
Qed.

(** Showing an editor: the outputs are handled by the component that shows it,
    before the turn goes on. *)
Definition listen {S F A} (get : S -> option NGXMonacoEditorComponent) (set : NGXMonacoEditorComponent -> S -> S)
    (on_output : output -> handler S F unit) (nothing : A) (m : E A) : handler S F A :=
  fun s => match get s with
           | None => (Ret nothing, s, [])
           | Some x =>
               let '(r, y, os) := m x in
               let '(r2, s2, es) := for_each os on_output (set y s) in
               (match r2 with Ret _ => r | Exn e => Exn e end, s2, es)
           end.

Lemma safe_listen {S F A} get set (on_output : output -> handler S F unit) (nothing : A) (m : E A)
    (I : S -> Prop) (P : F -> Prop) :
  (forall x s, I s -> I (set x s)) ->
  safe (fun _ => True) (fun o => safe I P (on_output o)) m -> safe I P (listen get set on_output nothing m).
Proof.
  intros HI Hm s Hs. unfold listen. destruct (get s) as [x|]; [|by split].
  destruct (Hm x Logic.I) as [_ Ho]. destruct (m x) as [[r y] os]. simpl in Ho.
  destruct (safe_for_each I P os on_output) with (s := set y s) as [H1 H2].
  - intros o Hin. rewrite Forall_forall in Ho. by apply Ho.
  - by apply HI.
  - destruct (for_each os on_output (set y s)) as [[r2 s2] es]. by split.
Qed.

(** ** The dialog *)

Definition SAVE_DEFAULT_TOOLTIP : string := "Save and close text editor window".
Definition CLOSE_DEFAULT_TOOLTIP : string := "Close text editor window without saving".
Definition SAVE_BUTTON_TEXT : string := "Save".
Definition CLOSE_BUTTON_TEXT : string := "Close".

Record NGXMonacoTextEditorComponent := {
  d_show_options : bool;
  d_is_read_only : bool;
  d_text : string;
  d_use_language : string;
  d_title : string;
  text_changed_ : bool;
  d_display_save : jsval;
  mat_dialog_data_ : TextEditorConfigurationInterface;
  editor : NGXMonacoEditorComponent;
}.

(** classes/ConfirmActionPopup.ts opens a confirm dialog; what is done with its
    answer is captured. *)
Inductive action : Type :=
| ReturnText
| CloseDialog
| NoAction.

Inductive call : Type :=
| DConfirm (a : action) (c : ConfirmActionConfigurationInterface) (data : ConfirmDialogMatDialogDataInterface).
Definition Ans (c : call) : Type := option string.

(** The dialog ends, with the text when it was saved. *)
Inductive page : Type := Close (result : option (option string)).
Abbreviation M := (handler NGXMonacoTextEditorComponent (effect call page)).

Definition set_editor v (s : NGXMonacoTextEditorComponent) :=
  {| d_show_options := d_show_options s; d_is_read_only := d_is_read_only s; d_text := d_text s;
     d_use_language := d_use_language s; d_title := d_title s; text_changed_ := text_changed_ s;
     d_display_save := d_display_save s; mat_dialog_data_ := mat_dialog_data_ s; editor := v |}.
Definition set_changed v (s : NGXMonacoTextEditorComponent) :=
  {| d_show_options := d_show_options s; d_is_read_only := d_is_read_only s; d_text := d_text s;
     d_use_language := d_use_language s; d_title := d_title s; text_changed_ := v;
     d_display_save := d_display_save s; mat_dialog_data_ := mat_dialog_data_ s; editor := editor s |}.

(** The dialog with the editor its template shows. *)
Definition new_text_editor (data : TextEditorConfigurationInterface) : NGXMonacoTextEditorComponent :=
  {| d_show_options := show_options data; d_is_read_only := is_read_only data; d_text := te_text data;
     d_use_language := use_language data; d_title := te_title data; text_changed_ := false;
     d_display_save := if defined (display_save data) then display_save data else JBool false;
     mat_dialog_data_ := data;
     editor := new_editor (show_options data) (is_read_only data) (Some (te_text data)) (use_language data) |}.

Definition get : M NGXMonacoTextEditorComponent := gets (fun s => s).

Definition get_action_button_text (s : NGXMonacoTextEditorComponent) : string :=
  match confirm_save (mat_dialog_data_ s) with Some c => confirmButtonText c | None => SAVE_BUTTON_TEXT end.
Definition get_non_action_button_text (s : NGXMonacoTextEditorComponent) : string :=
  match confirm_close (mat_dialog_data_ s) with Some c => confirmButtonText c | None => CLOSE_BUTTON_TEXT end.
Definition get_action_tooltip (s : NGXMonacoTextEditorComponent) : string :=
  match confirm_save (mat_dialog_data_ s) with Some c => ca_title c | None => SAVE_DEFAULT_TOOLTIP end.
Definition get_non_action_tooltip (s : NGXMonacoTextEditorComponent) : string :=
  match confirm_close (mat_dialog_data_ s) with Some c => ca_title c | None => CLOSE_DEFAULT_TOOLTIP end.
Definition get_disabled_save (s : NGXMonacoTextEditorComponent) : bool :=
  match disable_save (mat_dialog_data_ s) with Some b => b | None => negb (text_changed_ s) end.

Definition set_text_changed (event : option string) : M unit :=
  modify (fun s => set_changed (negb (event ?=== d_text s)) s).
Definition save (event : option string) : M unit := emit (Page (Close (Some event))).
Definition close_ : M unit := emit (Page (Close None)).

(** The outputs of the editor, as the template binds them. *)
Definition on_output (o : output) : M unit :=
  match o with
  | EditorText t => save t
  | KeyupText t => set_text_changed t
  end.
Definition in_editor (m : E unit) : M unit := listen (fun s => Some (editor s)) set_editor on_output tt m.

Definition get_return_text_ : M unit := in_editor get_return_editor_text_.

(** [confirmAction]: the dialog offers Cancel and the given button. *)
Definition confirmAction (a : action) (c : ConfirmActionConfigurationInterface) : M unit :=
  emit (Subscribe (DConfirm a c
    {| title := ca_title c; message := ca_message c; option1 := "Cancel"; option2 := confirmButtonText c;
       message_double_confirm := None |})).

Definition run_action (a : action) : M unit :=
  match a with
  | ReturnText => get_return_text_
  | CloseDialog => close_
  | NoAction => ret tt
  end.

(** The success is reported right after the action was started. *)
Definition confirmAction_closed (a : action) (c : ConfirmActionConfigurationInterface) (response : option string) : M unit :=
  when (response ?=== confirmButtonText c)
    (run_action a ;;;
     displaySnackBar (successText c) (Some MAT_SNACKBAR_CONFIGURATION_60000_DUR)).

Definition action_click : M unit :=
  s <- get ;;
  match confirm_save (mat_dialog_data_ s) with
  | Some c => confirmAction (if useGeneralActionFunc c then ReturnText else NoAction) c
  | None => get_return_text_
  end.

(** Without a general function the action of [confirm_save] is read. *)
Definition non_action_click : M unit :=
  s <- get ;;
  match js_truthy (display_save (mat_dialog_data_ s)), confirm_close (mat_dialog_data_ s) with
  | true, Some c =>
      if useGeneralActionFunc c then confirmAction CloseDialog c
      else _ <- deref (confirm_save (mat_dialog_data_ s)) ;; confirmAction NoAction c
  | _, _ => close_
  end.

(** The buttons as the template offers them. *)
Inductive event : Type :=
| Edit (e : editing)
| Save
| Leave.

Definition on_event (e : event) : M unit :=
  match e with
  | Edit e => in_editor (on_editing e)
  | Save => s <- get ;; when (js_truthy (d_display_save s) && negb (get_disabled_save s)) action_click
  | Leave => non_action_click
  end.

Definition on_answer (c : call) : Ans c -> M unit :=
  match c with DConfirm a conf _ => confirmAction_closed a conf end.

(** ** What the dialog guarantees *)

Section Dialog.
Variable data : TextEditorConfigurationInterface.

#[local] Instance text_editor_dialog : Component NGXMonacoTextEditorComponent call page event Ans :=
  {| initial := new_text_editor data; Runtime.on_event := on_event; Runtime.on_answer := on_answer |}.

(** The configuration never changes; a confirm dialog was opened for one of its
    two actions. *)
Definition configured (s : NGXMonacoTextEditorComponent) : Prop :=
  mat_dialog_data_ s = data /\ d_is_read_only s = is_read_only data /\ d_text s = te_text data.

Definition for_save (c : call) : Prop :=
  match c with
  | DConfirm ReturnText conf _ => confirm_save data = Some conf
  | DConfirm CloseDialog conf _ => confirm_close data = Some conf
  | _ => True
  end.

(** The turns that may hand out a text: the save button without a configured
    confirmation, and the confirmation of the save. *)
Definition saves (l : label event Ans) : Prop :=
  match l with
  | Event Save => confirm_save data = None
  | Answered (DConfirm ReturnText conf _) r => r = Some (confirmButtonText conf)
  | _ => False
  end.

Lemma in_editor_edit e s :
  exists s', in_editor (on_editing e) s = (Ret tt, s', []) /\ mat_dialog_data_ s' = mat_dialog_data_ s /\
    d_is_read_only s' = d_is_read_only s /\ d_text s' = d_text s /\
    ((exists t, e = Keys t) -> text_changed_ s' = negb (text1 (editor s') ?=== d_text s)).
Proof.
  unfold in_editor, listen.
  destruct (on_editing_run e (editor s)) as (y & os & -> & _ & _ & _ & [[-> Hno]|[-> [t ->]]]); simpl.
  - eexists. split; [reflexivity|]. split_and!; try done. intros [t ->]. by destruct (Hno t).
  - eexists. split; [reflexivity|]. by split_and!.
Qed.

Lemma dialog_turn l s :
  configured s ->
  configured (state_of (react l s)) /\
  (forall c, Subscribe c ∈ effects_of (react l s) -> for_save c) /\
  forall t, Page (Close (Some t)) ∈ effects_of (react l s) -> saves l /\ t = text1 (editor s).
Proof.
  intros Hc. pose proof Hc as (Hd & Hr & Ht).
  assert (Hret : forall x, get_return_text_ x = (Ret tt, set_editor (editor x) x, [Page (Close (Some (text1 (editor x))))]))
    by done.
  assert (Hnone : forall {A} (x : A), x ∉ []) by (intros; apply not_elem_of_nil).
  destruct l as [[e| |]|[a conf d] r]; simpl.
  - destruct (in_editor_edit e s) as (s' & -> & H1 & H2 & H3 & _). simpl.
    split; [unfold configured, state_of; simpl; by rewrite H1, H2, H3|]. split; intros ? H; by destruct (Hnone _ _ H).
  - unfold get. rewrite (bind_run_silent _ _ s s s) by done.
    destruct (js_truthy _ && _); simpl; [|split; [done|]; split; intros ? H; by destruct (Hnone _ _ H)].
    unfold action_click, get. rewrite (bind_run_silent _ _ s s s) by done. rewrite Hd.
    destruct (confirm_save data) as [c|] eqn:E.
    + simpl. split; [done|]. split.
      * intros c' [[= ->]|?%not_elem_of_nil]%elem_of_cons; [|done]. simpl. by destruct (useGeneralActionFunc c).
      * by intros t [?|?%not_elem_of_nil]%elem_of_cons.
    + rewrite Hret. simpl. split; [done|]. split; [by intros c [?|?%not_elem_of_nil]%elem_of_cons|].
      by intros t [[= ->]|?%not_elem_of_nil]%elem_of_cons.
  - unfold non_action_click, get. rewrite (bind_run_silent _ _ s s s) by done. rewrite Hd.
    destruct (js_truthy _); [destruct (confirm_close data) as [c|] eqn:E; [destruct (useGeneralActionFunc c)|]|];
      [| destruct (confirm_save data) | |]; simpl; (split; [done|]); split;
      try (intros ? H; by destruct (Hnone _ _ H)); try (by intros ? [?|?%not_elem_of_nil]%elem_of_cons);
      intros c' [[= ->]|?%not_elem_of_nil]%elem_of_cons; try done.
  - unfold on_answer, confirmAction_closed.
    destruct (r ?=== confirmButtonText conf) eqn:E; [|split; [done|]; split; intros ? H; by destruct (Hnone _ _ H)].
    apply oseqb_eq in E. destruct a; simpl; (split; [done|]); split;
      intros ? H; repeat (apply elem_of_cons in H as [H|H]; [try done|]); try (by destruct (Hnone _ _ H)).
    injection H as ->. by split.
Qed.

(** C26: a text leaves the dialog only when the save was confirmed with the button
    of its configuration, or through the save button when no confirmation is
    configured; it is the text the editor holds at that moment, with all changes
    that came without a key. *)
Theorem text_is_returned_on_confirmation tr w l w' t :
  trace (K := text_editor_dialog) (fun _ => True) tr w -> step (K := text_editor_dialog) w l w' ->
  Page (Close (Some t)) ∈ made (K := text_editor_dialog) l w ->
  t = text1 (editor (component w)) /\
  (l = Event Save /\ confirm_save data = None \/
   exists conf d, l = Answered (DConfirm ReturnText conf d) (Some (confirmButtonText conf)) /\ confirm_save data = Some conf).
Proof.
  intros Htr Hstep Hin.
  destruct (trace_invariant (fun _ => True) configured (fun _ e => forall c, e = Subscribe c -> for_save c))
    with (tr := tr) (w := w) as [Hok HF]; [done| |done|].
  { intros l' _ s Hs. destruct (dialog_turn l' s Hs) as (H1 & H2 & _). split; [done|].
    apply Forall_forall. intros e He c ->. by apply H2. }
  destruct (dialog_turn l _ Hok) as (_ & _ & H). destruct (H t Hin) as [Hl ->]. split; [done|].
  destruct l as [[e| |]|[[] conf d] r]; simpl in Hl; try done; [by left|]. subst r. right. exists conf, d.
  split; [done|].
  assert (Htr' := trace_step _ _ _ _ _ Htr I Hstep).
  destruct (answered_subscribed (K := text_editor_dialog) _ _ _ tr _ _ _ [] Htr' eq_refl) as (u & l & es & v & -> & Hc).
  rewrite Forall_app, Forall_cons in HF. destruct HF as (_ & HF & _). simpl in HF. rewrite Forall_forall in HF.
  by apply (HF _ Hc (DConfirm ReturnText conf d)).
Qed.

(** A dialog whose save button is disabled never hands out a text. *)
Lemma disabled_save_keeps_the_text tr w l w' t :
  disable_save data = Some true ->
  trace (K := text_editor_dialog) (fun _ => True) tr w -> step (K := text_editor_dialog) w l w' ->
  Page (Close t) ∈ made (K := text_editor_dialog) l w -> t = None.
Proof.
  intros Hdis Htr Hstep Hin. destruct t as [t|]; [exfalso|done].
  assert (Hno : forall l' s c, configured s -> Subscribe c ∈ effects_of (react (K := text_editor_dialog) l' s) ->
            match c with DConfirm ReturnText _ _ => False | _ => True end /\ l' <> Event Save).
  { assert (Hnone : forall {A} (x : A), x ∉ []) by (intros; apply not_elem_of_nil).
    intros l' s c (Hd & _ & _) Hc. destruct l' as [[e| |]|[a conf d] r]; simpl in Hc.
    - destruct (in_editor_edit e s) as (s' & He & _). rewrite He in Hc. by destruct (Hnone _ _ Hc).
    - unfold get in Hc. rewrite (bind_run_silent _ _ s s s) in Hc by done.
      unfold get_disabled_save in Hc. rewrite Hd, Hdis, andb_false_r in Hc. by destruct (Hnone _ _ Hc).
    - unfold non_action_click, get in Hc. rewrite (bind_run_silent _ _ s s s) in Hc by done.
      destruct (js_truthy _); [destruct (confirm_close _) as [k|]; [destruct (useGeneralActionFunc k)|]|];
        [| destruct (confirm_save (mat_dialog_data_ s))| |]; simpl in Hc; try (by destruct (Hnone _ _ Hc));
        apply elem_of_cons in Hc as [Hc|Hc]; try (by destruct (Hnone _ _ Hc)); try done; by injection Hc as ->.
    - unfold on_answer, confirmAction_closed in Hc.
      destruct (r ?=== confirmButtonText conf); [|by destruct (Hnone _ _ Hc)].
      destruct a; simpl in Hc; repeat (apply elem_of_cons in Hc as [Hc|Hc]; [done|]); by destruct (Hnone _ _ Hc). }
  destruct (trace_invariant (K := text_editor_dialog) (fun _ => True) configured
    (fun _ e => forall c, e = Subscribe c -> match c with DConfirm ReturnText _ _ => False | _ => True end))
    with (tr := tr) (w := w) as [Hok HF]; [done| |done|].
  { intros l' _ s Hs. destruct (dialog_turn l' s Hs) as (H1 & _). split; [done|].
    apply Forall_forall. intros e He c ->. by apply (Hno l' s c). }
  destruct (dialog_turn l _ Hok) as (_ & _ & H). destruct (H t Hin) as [Hl _].
  destruct l as [[e| |]|[[] conf d] r]; simpl in Hl; try done.
  - unfold made in Hin. simpl in Hin. unfold get in Hin. rewrite (bind_run_silent _ _ (component w) (component w) (component w)) in Hin by done.
    destruct Hok as (Hd & _). unfold get_disabled_save in Hin. rewrite Hd, Hdis, andb_false_r in Hin.
    by apply not_elem_of_nil in Hin.
  - assert (Htr' := trace_step _ _ _ _ _ Htr I Hstep).
    destruct (answered_subscribed (K := text_editor_dialog) _ _ _ tr _ _ _ [] Htr' eq_refl) as (u & l & es & v & -> & Hc).
    rewrite Forall_app, Forall_cons in HF. destruct HF as (_ & HF & _). simpl in HF. rewrite Forall_forall in HF.
    exact (HF _ Hc _ eq_refl).
Qed.
End Dialog.

(** A text pasted with the mouse is returned after the confirmation. *)
Definition witness_save : ConfirmActionConfigurationInterface :=
  {| ca_title := "Close and save"; ca_message := "?"; confirmButtonText := "Save"; successText := "Saved";
     failText := "Could not save"; useGeneralActionFunc := true |}.
Definition witness_config : TextEditorConfigurationInterface :=
  {| show_options := true; is_read_only := false; te_title := "Editing"; te_text := "a"; use_language := "yaml";
     display_save := JBool true; disable_save := Some false; confirm_save := Some witness_save; confirm_close := None |}.

Lemma text_is_returned_on_confirmation_witness : exists tr w,
  trace (K := text_editor_dialog witness_config) (fun _ => True) tr w /\ text1 (editor (component w)) = Some "b" /\
  exists conf d, confirm_save witness_config = Some conf /\
    Page (Close (Some (Some "b"))) ∈
      made (K := text_editor_dialog witness_config) (Answered (DConfirm ReturnText conf d) (Some "Save")) w.
Proof.
  pose proof (trace_start (K := text_editor_dialog witness_config) (fun _ => True)) as T.
  apply (trace_event _ _ _ (Edit (Paste "b"))) in T; [|exact I].
  apply (trace_event _ _ _ Save) in T; [|exact I].
  match type of T with trace _ ?tr ?w => set (w1 := w) in T; exists tr, w1 end.
  assert (Hp : exists d, pending w1 = [DConfirm ReturnText witness_save d]) by (by eexists).
  destruct Hp as [d Hp].
  pose proof (step_answer (K := text_editor_dialog witness_config) w1 [] _ [] (Some "Save") Hp) as Hs.
  assert (Hin : Page (Close (Some (Some "b"))) ∈
    made (K := text_editor_dialog witness_config) (Answered (DConfirm ReturnText witness_save d) (Some "Save")) w1)
    by (vm_compute; left).
  split; [exact T|].
  destruct (text_is_returned_on_confirmation witness_config _ _ _ _ _ T Hs Hin) as [H _].
  split; [by symmetry|]. exists witness_save, d. by split.
Defined.
