(* ===== verification/RuleEditor.v ===== *)
(** modules/policy-management/components/rule-add-edit/rule-add-edit.component.ts:
    the dialog that adds or edits a rule, with the text editor its template
    shows.

    The text lives in three places: [text], which the dialog hands to the editor,
    the editor's [text1], and the control [rule] of the form.  After every turn
    the template is checked ([detect_changes]). *)
From S2P Require Import Prelude Handler JsValue Runtime Data Api Forms TextEditor.

Definition EDIT : string := "edit".

(** interfaces/dialog-data.interface.ts *)
Record DialogDataInterface := {
  dd_rule_set : option RuleSetClass;
  dd_rule : option RuleClass;
  dd_action : option string;
}.

(** classes/pcap.class.ts *)
Record PCAPClass := {
  created_date : string;
  sha256 : string;
  pcap_name : string;
  pcap_size : Z;
  first_packet_date : string;
  last_packet_date : string;
}.

(** services/global-pcap.service.ts and the method of services/rules.service.ts
    no other component calls; the result of a test is a blob. *)
Definition get_pcaps : service unit (list PCAPClass) (list PCAPClass) :=
  Service GET "/api/policy/pcaps" tt "get pcaps" copied.

Record blob := { blob_message : jsval; blob_type : string }.

Definition test_rule_against_pcap (payload : jsval) : service jsval blob blob :=
  Service POST "/api/policy/pcap/rule/test" payload "test rule against pcap" copied.

(** The values of the controls of [rule_form_group]. *)
Record rule_form := {
  f_ruleName : jsval;
  f_rule : jsval;
  f_isEnabled : jsval;
  f__id : jsval;
  f_byPassValidation : jsval;
  f_rule_set_id : jsval;
}.
Definition set_f_rule v (f : rule_form) :=
  {| f_ruleName := f_ruleName f; f_rule := v; f_isEnabled := f_isEnabled f; f__id := f__id f;
     f_byPassValidation := f_byPassValidation f; f_rule_set_id := f_rule_set_id f |}.
Definition set_f_byPass v (f : rule_form) :=
  {| f_ruleName := f_ruleName f; f_rule := f_rule f; f_isEnabled := f_isEnabled f; f__id := f__id f;
     f_byPassValidation := v; f_rule_set_id := f_rule_set_id f |}.
Definition set_f_ruleName v (f : rule_form) :=
  {| f_ruleName := v; f_rule := f_rule f; f_isEnabled := f_isEnabled f; f__id := f__id f;
     f_byPassValidation := f_byPassValidation f; f_rule_set_id := f_rule_set_id f |}.
Definition set_f_isEnabled v (f : rule_form) :=
  {| f_ruleName := f_ruleName f; f_rule := f_rule f; f_isEnabled := v; f__id := f__id f;
     f_byPassValidation := f_byPassValidation f; f_rule_set_id := f_rule_set_id f |}.

(** [rule_form_group.value] with the identifier of the rule set assigned. *)
Definition form_value (rule_set_id : jsval) (f : rule_form) : jsval :=
  JObj [("ruleName", f_ruleName f); ("rule", f_rule f); ("isEnabled", f_isEnabled f); ("_id", f__id f);
        ("byPassValidation", f_byPassValidation f); ("rule_set_id", rule_set_id)].

Definition text_value (t : option string) : jsval := match t with Some t => JStr t | None => JUndefined end.

(** The form the confirmation returns. *)
Record bypass_form := { bf_valid : bool; bf_byPassValidation : jsval }.

Inductive call : Type :=
| CPcaps
| CRuleContent (id : jsval)
| CUpdateRule (rule : jsval)
| CCreateRule (rule : jsval)
| CTestRule (payload : jsval)
| CValidateRule (rule : jsval)
| DBypass (heading instructions confirm : string)
| DClose (data : ConfirmDialogMatDialogDataInterface).

Definition Ans (c : call) : Type :=
  match c with
  | CPcaps => answer (list PCAPClass)
  | CRuleContent _ | CUpdateRule _ | CCreateRule _ => answer (instance RuleClass)
  | CTestRule _ => answer blob
  | CValidateRule _ => answer (instance SuccessMessageClass)
  | DBypass _ _ _ => option bypass_form
  | DClose _ => option string
  end.

Inductive page : Type :=
| CloseRuleDialog (result : option RuleClass)
| SaveFile (name : string).

Record RuleAddEditComponent := {
  started_up : bool;
  text : option string;
  rule_form_group : option rule_form;
  pcaps : option (list PCAPClass);
  selected_pcap : option string;
  rule_editor : option NGXMonacoEditorComponent;
}.
Abbreviation M := (handler RuleAddEditComponent (effect call page)).

Definition with_parts i t f p sp e :=
  {| started_up := i; text := t; rule_form_group := f; pcaps := p; selected_pcap := sp; rule_editor := e |}.
Definition set_started s := with_parts true (text s) (rule_form_group s) (pcaps s) (selected_pcap s) (rule_editor s).
Definition with_text v s := with_parts (started_up s) v (rule_form_group s) (pcaps s) (selected_pcap s) (rule_editor s).
Definition with_form v s := with_parts (started_up s) (text s) v (pcaps s) (selected_pcap s) (rule_editor s).
Definition with_pcaps v s := with_parts (started_up s) (text s) (rule_form_group s) v (selected_pcap s) (rule_editor s).
Definition with_selected_pcap v s := with_parts (started_up s) (text s) (rule_form_group s) (pcaps s) v (rule_editor s).
Definition with_editor v s := with_parts (started_up s) (text s) (rule_form_group s) (pcaps s) (selected_pcap s) v.

(** Fields are assigned by the constructor in the source. *)
Definition constructor : RuleAddEditComponent := with_parts false (Some "") None None (Some "") None.

Abbreviation DUR := (Some MAT_SNACKBAR_CONFIGURATION_60000_DUR).

Section RuleEditor.
Context {V : NgValidators}.
Variable dialog_data : DialogDataInterface.

Definition get : M RuleAddEditComponent := gets (fun s => s).
Definition the_form : M rule_form := s <- get ;; deref (rule_form_group s).
Definition modify_form (f : rule_form -> rule_form) : M unit :=
  v <- the_form ;; modify (with_form (Some (f v))).

Definition is_editing : bool := dd_action dialog_data ?=== EDIT.

Definition close_editor_ : M unit := emit (Page (CloseRuleDialog None)).
Definition save_close_editor_ (r : RuleClass) : M unit := emit (Page (CloseRuleDialog (Some r))).

(** The dialog was opened without something it needs. *)
Definition not_passed (message : string) : M unit :=
  close_editor_ ;;; generate_return_error_snackbar_message message DUR.

Definition set_text_ (rule_content : option string) : M unit :=
  match dd_action dialog_data with
  | Some a => if a === EDIT then modify (with_text rule_content) else modify (with_text (Some ""))
  | None => not_passed "rule action not passed to rule dialog window"
  end.

Definition is_rule_enabled : M jsval := f <- the_form ;; ret (f_isEnabled f).
Definition set_rule_data_ (t : option string) : M unit := modify_form (set_f_rule (text_value t)).
Definition update_form_control_rule_text (t : option string) : M unit := set_rule_data_ t.
Definition is_pcap_selected (s : RuleAddEditComponent) : bool :=
  match selected_pcap s with Some p => p !== "" | None => false end.

(** *** The requests *)

Definition api_get_pcaps_ : M unit := emit (Subscribe CPcaps).
Definition api_get_rule_content_ (id : jsval) : M unit := emit (Subscribe (CRuleContent id)).
Definition api_update_rule_ (rule : jsval) : M unit := emit (Subscribe (CUpdateRule rule)).
Definition api_create_rule_ (rule : jsval) : M unit := emit (Subscribe (CCreateRule rule)).
Definition api_test_rule_against_pcap_ (payload : jsval) : M unit := emit (Subscribe (CTestRule payload)).
Definition api_validate_rule_ (rule : jsval) : M unit := emit (Subscribe (CValidateRule rule)).

(** Without a rule set the dialog is closed, and the result is undefined. *)
Definition get_rule_data_ : M jsval :=
  match dd_rule_set dialog_data with
  | Some rs => f <- the_form ;; ret (form_value (JNum (rs__id rs)) f)
  | None => not_passed "rule set not passed to dialog window" ;;; ret JUndefined
  end.

Definition close_and_save_ : M unit :=
  match dd_action dialog_data with
  | Some a => rule <- get_rule_data_ ;; if a === EDIT then api_update_rule_ rule else api_create_rule_ rule
  | None => not_passed "rule action not passed to dialog window"
  end.

Definition editor_text_save (t : option string) : M unit := set_rule_data_ t ;;; close_and_save_.

(** *** The editor of the template *)

Definition on_output (o : output) : M unit :=
  match o with
  | EditorText t => editor_text_save t
  | KeyupText t => update_form_control_rule_text t
  end.
Definition in_editor (m : E unit) : M unit := listen rule_editor (fun x => with_editor (Some x)) on_output tt m.

(** [get_return_text$.next()]: only the editor listens. *)
Definition get_return_text_ : M unit := in_editor get_return_editor_text_.

(** *** The methods *)

(** The values [initialize_form_] reads of a rule or of a form. *)
Definition rule_values (r : RuleClass) : rule_form :=
  {| f_ruleName := JStr (ruleName r); f_rule := JStr (rule r); f_isEnabled := JBool (r_isEnabled r);
     f__id := JNum (r__id r); f_byPassValidation := JBool (byPassValidation r); f_rule_set_id := JNum (rule_set_id r) |}.

Definition set_rule_form_group_ (f : rule_form) : M unit := modify (with_form (Some f)).

Definition initialize_form_ (rule : option rule_form) : M unit :=
  set_rule_form_group_
    {| f_ruleName := match rule with Some r => f_ruleName r | None => JStr "" end;
       f_rule := match rule with Some r => f_rule r | None => JStr "" end;
       f_isEnabled := match rule with Some r => f_isEnabled r | None => JBool true end;
       f__id := match rule with Some r => f__id r | None => JStr "" end;
       f_byPassValidation := JBool false; f_rule_set_id := JNull |} ;;;
  match rule with Some r => api_get_rule_content_ (f__id r) | None => ret tt end.

Definition get_is_user_adding_ : M unit :=
  match dd_action dialog_data with
  | Some a =>
      if a === EDIT then
        match dd_rule dialog_data with
        | Some r => initialize_form_ (Some (rule_values r))
        | None => not_passed "rule not passed to dialog window"
        end
      else s <- get ;; initialize_form_ (rule_form_group s)
  | None => not_passed "rule not passed to dialog window"
  end.

Definition ngOnInit : M unit := set_text_ None ;;; get_is_user_adding_ ;;; api_get_pcaps_.

Definition bypass_instructions : string :=
  "Only check the box below if the suricata rules or zeek scripts in question have validation issues." +:+
     newline +:+ "                     As an example, this can occur if you are using variables in suricata that are unknown" +:+
     newline +:+ "                     to the validation container performing the syntax check.".
Definition confirm_submission : call := DBypass "Confirm Rule Submission" bypass_instructions CONFIRM_DIALOG_OPTION.
Definition save : M unit := emit (Subscribe confirm_submission).

Definition save_closed (response : option bypass_form) : M unit :=
  match response with
  | Some f => when (bf_valid f) (modify_form (set_f_byPass (bf_byPassValidation f)) ;;; get_return_text_)
  | None => ret tt
  end.

Definition close : M unit :=
  emit (Subscribe (DClose
    {| title := "Close without saving";
       message := "Are you sure you want to close this editor? All changes will be discarded.";
       option1 := CANCEL_DIALOG_OPTION; option2 := CONFIRM_DIALOG_OPTION; message_double_confirm := None |})).

Definition close_closed (response : option string) : M unit :=
  when (response ?=== CONFIRM_DIALOG_OPTION) close_editor_.

Definition test_rule : M unit :=
  match dd_rule_set dialog_data with
  | Some rs =>
      s <- get ;; f <- the_form ;;
      api_test_rule_against_pcap_
        (JObj [("pcap_name", text_value (selected_pcap s)); ("rule_content", f_rule f); ("ruleType", JStr (appType rs))])
  | None => generate_return_error_snackbar_message "rule set not passed to dialog window" DUR
  end.

Definition validate : M unit := rule <- get_rule_data_ ;; api_validate_rule_ rule.

(** *** The answers *)

Definition api_get_pcaps_answer (a : answer (list PCAPClass)) : M unit :=
  match a with
  | Next response => modify (with_pcaps (Some response))
  | Error e => on_error "getting pcaps" e
  end.

Definition api_get_rule_content_answer (a : answer (instance RuleClass)) : M unit :=
  match a with
  | Next (Some response) => modify_form (set_f_rule (JStr (rule response))) ;;; set_text_ (Some (rule response))
  | Next None => generate_return_fail_snackbar_message "to get rule content" DUR
  | Error e => on_error_message "getting rule content" e
  end.

Definition api_update_rule_answer (a : answer (instance RuleClass)) : M unit :=
  match a with
  | Next (Some response) =>
      generate_return_success_snackbar_message ("updated rule " +:+ ruleName response) DUR ;;;
      save_close_editor_ response
  | Next None => generate_return_fail_snackbar_message "to update rule" DUR
  | Error e => on_error_message "updating rule" e
  end.

Definition api_create_rule_answer (a : answer (instance RuleClass)) : M unit :=
  match a with
  | Next (Some response) =>
      generate_return_success_snackbar_message ("created rule " +:+ ruleName response) DUR ;;;
      save_close_editor_ response
  | Next None => generate_return_fail_snackbar_message "to create rule" DUR
  | Error e => on_error_message "creating rule" e
  end.

Definition api_validate_rule_answer (a : answer (instance SuccessMessageClass)) : M unit :=
  match a with
  | Next (Some response) => displaySnackBar (success_message response) DUR
  | Next None => generate_return_fail_snackbar_message "to validate rule" DUR
  | Error e => on_error_message "validating rule" e
  end.

(** The properties of a failure the callback reads: [status] and [error]; an
    undefined failure has none. *)
Definition failure_fields (e : api_error) : option (jsval * jsval) :=
  match e with
  | ErrorMessageClass _ | PostValidationClass _ => Some (JUndefined, JUndefined)
  | ValidationErrorClass status _ => Some (status, JUndefined)
  | HttpFailure (Some r) => Some (http_status r, error r)
  | HttpFailure None => None
  end.

(** A string that is not empty. *)
Definition some_text (v : jsval) : option string :=
  match v with JStr s => if s === "" then None else Some s | _ => None end.

Definition api_test_rule_answer (a : answer blob) : M unit :=
  match a with
  | Next response =>
      if js_truthy (blob_message response) then displaySnackBar (js_to_string (blob_message response)) DUR
      else if blob_type response === "application/tar+gzip" then emit (Page (SaveFile "pcap_test_results.tar.gz"))
      else if blob_type response === "application/zip" then emit (Page (SaveFile "pcap_test_results.zip"))
      else emit (Page (SaveFile "pcap_test_results.json"))
  | Error e =>
      fields <- deref (failure_fields e) ;;
      (let '(status, err) := fields in
       if strict_eq status (JNum 501) then
         displaySnackBar ("Validation failed for testing against PCAP. " +:+
           "                                     Please make sure you have selected a PCAP and your rules validate.") DUR
       else if strict_eq status (JNum 403) then generate_return_error_snackbar_message "exec module prohibited" DUR
       else match some_text err with
            | Some s => displaySnackBar s DUR
            | None =>
                match (if defined err then some_text (prop err "error_message") else None) with
                | Some s => displaySnackBar s DUR
                | None => generate_return_error_snackbar_message "testing rule against PCAP" DUR
                end
            end)
  end.

(** *** The template and the turns *)

(** The editor is made when there is a form, and gets the text that was set. *)
Definition detect_changes : M unit :=
  s <- get ;;
  match rule_editor s, rule_form_group s with
  | Some _, _ => in_editor (TextEditor.ngOnChanges (text s) false)
  | None, Some _ => modify (with_editor (Some (new_editor true false (text s) "txt")))
  | None, None => ret tt
  end.

(** [rule_form_group.valid]: the name and the text are required. *)
Definition form_is_valid (s : RuleAddEditComponent) : bool :=
  match rule_form_group s with
  | Some f => Validators_required (f_ruleName f) && Validators_required (f_rule f)
  | None => false
  end.

(** The framework initializes a component once. *)
Inductive event : Type :=
| Init
| Edit (e : editing)
| TypeName (v : string)
| TickEnabled (v : bool)
| SelectPcap (v : option string)
| SaveClick
| CloseClick
| TestClick
| ValidateClick.

Definition turn_of (e : event) : M unit :=
  s <- get ;;
  match e with
  | Init => when (negb (started_up s)) (modify set_started ;;; ngOnInit)
  | Edit e => in_editor (on_editing e)
  | TypeName v => modify_form (set_f_ruleName (JStr v))
  | TickEnabled v => modify_form (set_f_isEnabled (JBool v))
  | SelectPcap v => modify (with_selected_pcap v)
  | SaveClick => when (form_is_valid s) save
  | CloseClick => close
  | TestClick => when (form_is_valid s && is_pcap_selected s) test_rule
  | ValidateClick => when (form_is_valid s) validate
  end.

Definition answer_of (c : call) : Ans c -> M unit :=
  match c with
  | CPcaps => api_get_pcaps_answer
  | CRuleContent _ => api_get_rule_content_answer
  | CUpdateRule _ => api_update_rule_answer
  | CCreateRule _ => api_create_rule_answer
  | CTestRule _ => api_test_rule_answer
  | CValidateRule _ => api_validate_rule_answer
  | DBypass _ _ _ => save_closed
  | DClose _ => close_closed
  end.

Definition on_event (e : event) : M unit := finally (turn_of e) detect_changes.
Definition on_answer (c : call) (a : Ans c) : M unit := finally (answer_of c a) detect_changes.

Definition rule_dialog : Component RuleAddEditComponent call page event Ans :=
  {| initial := constructor; Runtime.on_event := on_event; Runtime.on_answer := on_answer |}.
End RuleEditor.

(** ** What the dialog guarantees *)

Section Facts.
Context {V : NgValidators}.
Variable dialog_data : DialogDataInterface.
Abbreviation Dialog := (rule_dialog dialog_data).

Definition is_save (c : call) : bool :=
  match c with CUpdateRule _ | CCreateRule _ => true | _ => false end.
Definition is_bypass (c : call) : bool := match c with DBypass _ _ _ => true | _ => false end.
(** Neither a save nor its confirmation. *)
Definition harmless (e : effect call page) : Prop := only (fun c => is_save c = false /\ is_bypass c = false) e.
Definition anything (s : RuleAddEditComponent) : Prop := True.

Lemma harmless_call c : is_save c = false -> is_bypass c = false -> harmless (Subscribe c).
Proof. by intros H H' ? [= <-]. Qed.
Lemma harmless_page d : harmless (Page d).
Proof. by intros ?. Qed.
#[local] Hint Resolve harmless_call harmless_page : handler.

Lemma quiet_form f : safe anything harmless (modify_form f).
Proof. unfold modify_form, the_form, get. safe_auto; done. Qed.
Lemma quiet_not_passed m : safe anything harmless (not_passed m).
Proof. unfold not_passed, close_editor_. safe_auto. by apply harmless_page. Qed.
#[local] Hint Resolve quiet_form quiet_not_passed : handler.

Lemma quiet_text t : safe anything harmless (set_text_ dialog_data t).
Proof. unfold set_text_. safe_auto; done. Qed.
#[local] Hint Resolve quiet_text : handler.

Lemma quiet_initialize v : safe anything harmless (initialize_form_ v).
Proof.
  unfold initialize_form_, set_rule_form_group_, api_get_rule_content_.
  safe_auto; try done; by apply harmless_call.
Qed.
#[local] Hint Resolve quiet_initialize : handler.

Lemma quiet_rule_data : safe anything harmless (get_rule_data_ dialog_data).
Proof. unfold get_rule_data_, the_form, get. safe_auto; done. Qed.
#[local] Hint Resolve quiet_rule_data : handler.

(** The editor asks for a save only when it is asked for its text. *)
Lemma quiet_edit e : safe anything harmless (in_editor dialog_data (on_editing e)).
Proof.
  apply safe_listen; [done|]. intros x _. split; [done|].
  destruct (on_editing_run e x) as (y & os & -> & _ & _ & _ & [[-> _]|[-> _]]); simpl; [constructor|].
  constructor; [|constructor]. apply quiet_form.
Qed.

Lemma quiet_detect : safe anything harmless (detect_changes dialog_data).
Proof.
  unfold detect_changes, get. safe_auto; try done.
  apply safe_listen; [done|]. intros x _. split; [done|]. unfold TextEditor.ngOnChanges.
  rewrite (bind_run_silent _ _ x x x) by done. simpl. destruct (_ && _); [constructor|]. simpl.
  destruct (negb _); constructor.
Qed.

Lemma quiet_turn e : e <> SaveClick -> safe anything harmless (turn_of dialog_data e).
Proof.
  intros He. unfold turn_of, get. apply safe_bind; [apply safe_gets|]. intros s. destruct e.
  - unfold ngOnInit, get_is_user_adding_, get, api_get_pcaps_. safe_auto; try done; by apply harmless_call.
  - apply quiet_edit.
  - apply quiet_form.
  - apply quiet_form.
  - by apply safe_modify.
  - done.
  - unfold close. safe_auto. by apply harmless_call.
  - unfold test_rule, the_form, get, api_test_rule_against_pcap_. safe_auto; try done. by apply harmless_call.
  - unfold validate, api_validate_rule_. safe_auto; try done. by apply harmless_call.
Qed.

Lemma quiet_answer c a : (forall h i b, c <> DBypass h i b) -> safe anything harmless (answer_of dialog_data c a).
Proof.
  intros Hc. destruct c; try (by destruct (Hc heading instructions confirm)); simpl in *;
    [destruct a|destruct a as [[r|]|]|destruct a as [[r|]|]|destruct a as [[r|]|]|destruct a|destruct a as [[r|]|]|];
    simpl; unfold save_close_editor_, close_closed, close_editor_; safe_auto; try done; by apply harmless_page.
Qed.

(** What a save sends: the form with the answer of the confirmation and the text
    of the editor, under the identifier of the rule set; nothing at all without a
    rule set. *)
Definition sent_rule (b : jsval) (x : NGXMonacoEditorComponent) (f : rule_form) : jsval :=
  match dd_rule_set dialog_data with
  | Some rs => form_value (JNum (rs__id rs)) (set_f_rule (text_value (text1 x)) (set_f_byPass b f))
  | None => JUndefined
  end.

Lemma save_closed_sends response s c :
  Subscribe c ∈ effects_of (save_closed dialog_data response s) -> is_save c = true ->
  exists b f x a, response = Some {| bf_valid := true; bf_byPassValidation := b |} /\
    rule_form_group s = Some f /\ rule_editor s = Some x /\ dd_action dialog_data = Some a /\
    c = if a === EDIT then CUpdateRule (sent_rule b x f) else CCreateRule (sent_rule b x f).
Proof.
  intros Hin Hsave. assert (Hnone : forall e : effect call page, e ∉ []) by (intros; apply not_elem_of_nil).
  destruct response as [[v b]|]; [|by destruct (Hnone _ Hin)]. simpl in Hin.
  destruct v; [|by destruct (Hnone _ Hin)]. simpl in Hin.
  unfold modify_form, the_form, get in Hin.
  destruct s as [st t fo pc sp ed]. destruct fo as [f|]; [|by destruct (Hnone _ Hin)].
  unfold bind, gets, modify, ret, deref in Hin. simpl in Hin.
  unfold get_return_text_, in_editor, listen in Hin. simpl in Hin.
  destruct ed as [x|]; [|by destruct (Hnone _ Hin)]. simpl in Hin.
  unfold editor_text_save, set_rule_data_, modify_form, the_form, get, close_and_save_, bind, gets, modify, ret,
    deref in Hin. simpl in Hin.
  destruct (dd_action dialog_data) as [a|] eqn:Ea.
  - exists b, f, x, a. do 4 (split; [done|]). unfold sent_rule.
    unfold get_rule_data_, the_form, get, bind, gets, ret, deref, not_passed, close_editor_, emit in Hin.
    destruct (dd_rule_set dialog_data) as [rs|]; simpl in Hin; destruct (a === EDIT); simpl in Hin;
      repeat (apply elem_of_cons in Hin as [Hin|Hin]; [try (by injection Hin as <-); try done|]);
      by destruct (Hnone _ Hin).
  - simpl in Hin. repeat (apply elem_of_cons in Hin as [Hin|Hin]; [done|]). by destruct (Hnone _ Hin).
Qed.

Lemma quiet_effect (e : effect call page) c : harmless e -> e = Subscribe c -> is_save c = false /\ is_bypass c = false.
Proof. by intros H ->; apply H. Qed.

(** Only the confirmed dialog saves, and only the save button opens it. *)
Lemma turn_subscribes l s c :
  Subscribe c ∈ effects_of (react (K := Dialog) l s) ->
  (is_bypass c = true -> l = Event SaveClick) /\
  (is_save c = true -> exists h i m r, l = Answered (DBypass h i m) r /\
     Subscribe c ∈ effects_of (save_closed dialog_data r s)).
Proof.
  assert (Hq : forall (m : M unit), safe anything harmless m ->
    Subscribe c ∈ effects_of (finally m (detect_changes dialog_data) s) -> is_save c = false /\ is_bypass c = false).
  { intros m Hm Hin. destruct (safe_finally anything harmless m _ Hm quiet_detect s I) as [_ HF].
    rewrite Forall_forall in HF. by apply (quiet_effect (Subscribe c)); [apply HF|]. }
  destruct l as [e|d a]; simpl; intros Hin.
  - assert (e = SaveClick \/ e <> SaveClick) as [->|He] by (destruct e; auto; by right).
    + split; [done|]. intros Hs. exfalso. revert Hin. unfold on_event, finally, turn_of, get.
      rewrite (bind_run_silent _ _ s s s) by done.
      pose proof (quiet_detect s I) as [_ HF].
      destruct (form_is_valid s); simpl; destruct (detect_changes dialog_data s) as [[r s2] es]; simpl in *;
        rewrite Forall_forall in HF; intros Hin; repeat (apply elem_of_cons in Hin as [Hin|Hin]; [injection Hin as ->; done|]);
        destruct (HF _ Hin c eq_refl); congruence.
    + destruct (Hq _ (quiet_turn e He) Hin) as [H1 H2]. split; intros; congruence.
  - destruct (is_bypass d) eqn:Hd.
    + destruct d; try done. unfold on_answer, finally in Hin. simpl in Hin.
      destruct (save_closed dialog_data a s) as [[r s1] es1] eqn:E.
      pose proof (quiet_detect s1 I) as [_ HF]. rewrite Forall_forall in HF.
      destruct (detect_changes dialog_data s1) as [[r2 s2] es2]. simpl in *. apply elem_of_app in Hin as [Hin|Hin].
      * split; [|intros _; exists heading, instructions, confirm, a; by rewrite E].
        intros Hb. exfalso. assert (Hq2 : safe anything (only (fun c => is_bypass c = false)) (save_closed dialog_data a)).
        { clear. unfold save_closed. destruct a as [f|]; [|apply safe_ret]. apply safe_when. intros _.
          apply safe_bind; [unfold modify_form, the_form, get; safe_auto; done|]. intros _.
          unfold get_return_text_, in_editor. apply safe_listen; [done|]. intros x _. split; [done|].
          simpl. constructor; [|constructor]. simpl.
          unfold editor_text_save, set_rule_data_, modify_form, close_and_save_, get_rule_data_, not_passed,
            close_editor_, the_form, get, api_update_rule_, api_create_rule_.
          safe_auto; try done; try (by intros ?); by intros ? [= <-]. }
        destruct (Hq2 s I) as [_ HF2]. rewrite E in HF2. simpl in HF2. rewrite Forall_forall in HF2.
        specialize (HF2 _ Hin c eq_refl). congruence.
      * destruct (HF _ Hin c eq_refl). split; intros; congruence.
    + assert (Hd' : forall h i b, d <> DBypass h i b) by (intros ? ? ? ->; done).
      destruct (Hq _ (quiet_answer d a Hd') Hin) as [H1 H2]. split; intros; congruence.
Qed.

(** C16: a rule is created or updated only by the turn that receives a valid
    answer of the confirmation the save button opened; what is sent is the form
    with that answer and the text the editor holds at that moment, under the
    identifier of the rule set, to the operation the dialog was opened for.
    Without a rule set the dialog is closed and an undefined rule is sent. *)
Theorem saved_rule_is_the_editors tr w l w' c :
  trace (K := Dialog) (fun _ => True) tr w -> step (K := Dialog) w l w' ->
  Subscribe c ∈ made (K := Dialog) l w -> is_save c = true ->
  (exists u es v, tr = u ++ (Event SaveClick, es) :: v) /\
  exists h i m b f x a, l = Answered (DBypass h i m) (Some {| bf_valid := true; bf_byPassValidation := b |}) /\
    rule_form_group (component w) = Some f /\ rule_editor (component w) = Some x /\
    dd_action dialog_data = Some a /\
    c = if a === EDIT then CUpdateRule (sent_rule b x f) else CCreateRule (sent_rule b x f).
Proof.
  intros Htr Hstep Hin Hs. destruct (turn_subscribes l _ c Hin) as [_ H].
  destruct (H Hs) as (h & i & m & r & -> & Hc). split.
  - assert (Htr' := trace_step _ _ _ _ _ Htr I Hstep).
    destruct (answered_subscribed (K := Dialog) _ _ _ tr _ _ _ [] Htr' eq_refl) as (u & l & es & v & -> & Hd).
    assert (l = Event SaveClick) as ->; [|by exists u, es, v].
    destruct (trace_invariant (K := Dialog) (fun _ => True) (fun _ => True)
      (fun l e => forall d, e = Subscribe d -> is_bypass d = true -> l = Event SaveClick)) with
      (tr := u ++ (l, es) :: v) (w := w) as [_ HF]; [done| |done|].
    { intros l' _ s _. split; [done|]. apply Forall_forall. intros e He d ->. by apply (turn_subscribes l' s d). }
    rewrite Forall_app, Forall_cons in HF. destruct HF as (_ & HF & _). simpl in HF.
    rewrite Forall_forall in HF. by apply (HF _ Hd (DBypass h i m)).
  - destruct (save_closed_sends r _ c Hc Hs) as (b & f & x & a & -> & ? & ? & ? & ->).
    by exists h, i, m, b, f, x, a.
Qed.

(** *** The form and the editor *)

(** After a turn there is an editor when there is a form, which there is only
    after the start; it was given [text], and once there is a text to edit the control has the text of the editor. *)
Definition in_step (s : RuleAddEditComponent) : Prop :=
  match rule_form_group s, rule_editor s with
  | Some f, Some x => e_text x = text s /\ e_is_read_only x = false /\ started_up s = true /\
                      (notUndefNull (text s) = true -> f_rule f = text_value (text1 x))
  | None, None => True
  | _, _ => False
  end.

Definition kept t b (s : RuleAddEditComponent) : Prop := in_step s /\ text s = t /\ started_up s = b.

Definition is_content (c : call) : bool := match c with CRuleContent _ => true | _ => false end.
Definition no_content (e : effect call page) : Prop := only (fun c => is_content c = false) e.

Lemma no_content_call c : is_content c = false -> no_content (Subscribe c).
Proof. by intros H ? [= <-]. Qed.
Lemma no_content_page d : no_content (Page d).
Proof. by intros ?. Qed.

Lemma detect_kept t b : safe (kept t b) no_content (detect_changes dialog_data).
Proof.
  intros s (Hs & Ht & Hb). unfold detect_changes, get. rewrite (bind_run_silent _ _ s s s) by done.
  unfold in_step in Hs. destruct (rule_editor s) as [x|] eqn:Ex.
  - destruct (rule_form_group s) as [f|] eqn:Ef; [|done]. destruct Hs as (H1 & H2 & H3 & H4).
    unfold in_editor, listen. rewrite Ex. unfold TextEditor.ngOnChanges.
    rewrite (bind_run_silent _ _ x x x) by done. rewrite H1, H2, bool_decide_eq_true_2 by done. simpl.
    split; [|constructor]. split; [|by split]. unfold in_step. simpl. by rewrite Ef.
  - destruct (rule_form_group s) eqn:Ef; [done|]. split; [|constructor].
    change (kept t b s). unfold kept, in_step. by rewrite Ef, Ex.
Qed.

Lemma form_kept t b f : (forall v, f_rule (f v) = f_rule v) -> safe (kept t b) no_content (modify_form f).
Proof.
  intros Hf s Hs. unfold modify_form, the_form, get, bind, gets, modify, deref, ret, throw. simpl.
  destruct (rule_form_group s) as [v|] eqn:E; simpl; (split; [|constructor]); [|exact Hs].
  destruct Hs as (Hs & Ht & Hb). split; [|by split]. unfold in_step in *. rewrite E in Hs. simpl.
  destruct (rule_editor s); [|done]. by rewrite Hf.
Qed.

Lemma not_passed_kept t b m : safe (kept t b) no_content (not_passed m).
Proof. unfold not_passed, close_editor_. safe_auto. by apply no_content_page. Qed.

Lemma rule_data_kept t b : safe (kept t b) no_content (get_rule_data_ dialog_data).
Proof. unfold get_rule_data_, the_form, get. safe_auto. apply not_passed_kept. Qed.

Lemma close_and_save_kept t b : safe (kept t b) no_content (close_and_save_ dialog_data).
Proof.
  unfold close_and_save_, api_update_rule_, api_create_rule_. safe_auto;
    try apply rule_data_kept; try apply not_passed_kept; by apply no_content_call.
Qed.

(** Setting the control to the text of the editor. *)
Lemma rule_from_editor s x y f :
  rule_form_group s = Some f -> rule_editor s = Some x -> e_text y = e_text x ->
  e_is_read_only y = e_is_read_only x -> in_step s ->
  set_rule_data_ (text1 y) (with_editor (Some y) s) =
    (Ret tt, with_form (Some (set_f_rule (text_value (text1 y)) f)) (with_editor (Some y) s), []) /\
  kept (text s) (started_up s) (with_form (Some (set_f_rule (text_value (text1 y)) f)) (with_editor (Some y) s)).
Proof.
  intros Hf Hx H1 H2 Hs. unfold in_step in Hs. rewrite Hf, Hx in Hs. destruct Hs as (H3 & H4 & H5 & _). split.
  - unfold set_rule_data_, modify_form, the_form, get, bind, gets, modify, deref, ret. simpl. by rewrite Hf.
  - split; [|done]. unfold in_step. simpl. split_and!; [congruence..|done].
Qed.

Lemma edit_kept t b e : (forall p, e <> Paste p) -> safe (kept t b) no_content (in_editor dialog_data (on_editing e)).
Proof.
  intros Hp s (Hs & Ht & Hb). unfold in_editor, listen. pose proof Hs as Hs'. unfold in_step in Hs'.
  destruct (rule_editor s) as [x|] eqn:Ex; [|by repeat split].
  destruct (rule_form_group s) as [f|] eqn:Ef; [|done].
  destruct (on_editing_run e x) as (y & os & -> & H1 & H2 & Htext & Hos).
  destruct Hos as [[-> Hk]|[-> _]]; cbn [for_each].
  - assert (text1 y = text1 x) as Hy by (destruct Htext as [?|(v & [He|He] & _)]; [done|by apply Hk in He|by apply Hp in He]).
    simpl. split; [|constructor]. split; [|by split]. unfold in_step. simpl. rewrite Ef, Hy, H1, H2. apply Hs'.
  - destruct (rule_from_editor s x y f Ef Ex H1 H2 Hs) as [Hr Hk].
    rewrite (bind_run_silent _ _ _ tt _ Hr). simpl. split; [|constructor]. by rewrite <- Ht, <- Hb.
Qed.

Lemma save_closed_kept t b r : safe (kept t b) no_content (save_closed dialog_data r).
Proof.
  unfold save_closed. destruct r as [v|]; [|apply safe_ret]. apply safe_when. intros _.
  apply safe_bind; [by apply form_kept|]. intros _ s (Hs & Ht & Hb). unfold get_return_text_, in_editor, listen.
  pose proof Hs as Hs'. unfold in_step in Hs'.
  destruct (rule_editor s) as [x|] eqn:Ex; [|by repeat split].
  destruct (rule_form_group s) as [f|] eqn:Ef; [|done].
  destruct (rule_from_editor s x x f Ef Ex eq_refl eq_refl Hs) as [Hr Hk].
  change (get_return_editor_text_ x) with (Ret tt, x, [EditorText (text1 x)]). cbn [for_each on_output].
  unfold editor_text_save. rewrite Ht, Hb in Hk. destruct (close_and_save_kept t b _ Hk) as [H1 H2].
  unfold bind. rewrite Hr.
  destruct (close_and_save_ dialog_data _) as [[[v'|e] s2] es]; simpl in *; rewrite ?app_nil_r; by split.
Qed.

Lemma steady_turn t b e : e <> Init -> (forall p, e <> Edit (Paste p)) -> safe (kept t b) no_content (turn_of dialog_data e).
Proof.
  intros Hi Hp. unfold turn_of, get. apply safe_bind; [apply safe_gets|]. intros s. destruct e; [done|..].
  - apply edit_kept. by intros p ->; apply (Hp p).
  - by apply form_kept.
  - by apply form_kept.
  - by apply safe_modify.
  - apply safe_when. intros _. apply safe_emit. by apply no_content_call.
  - apply safe_emit. by apply no_content_call.
  - apply safe_when. intros _. unfold test_rule, the_form, get, api_test_rule_against_pcap_.
    safe_auto; by apply no_content_call.
  - apply safe_when. intros _. unfold validate, api_validate_rule_.
    apply safe_bind; [apply rule_data_kept|]. intros ?. apply safe_emit. by apply no_content_call.
Qed.

Lemma steady_answer t b c a : is_content c = false -> safe (kept t b) no_content (answer_of dialog_data c a).
Proof.
  intros Hc. destruct c; [|done|..]; simpl in *; [destruct a|destruct a as [[r|]|]|destruct a as [[r|]|]|destruct a
    |destruct a as [[r|]|]| |]; simpl; unfold save_close_editor_, close_closed, close_editor_;
    try apply save_closed_kept; safe_auto; try by apply no_content_page. done.
Qed.

(** The requests for the text that wait. *)
Definition contents (w : world RuleAddEditComponent call) : nat := length (List.filter is_content (pending w)).

(** What holds between the turns, the subscriptions that wait included. *)
Definition in_order (w : world RuleAddEditComponent call) : Prop :=
  in_step (component w) /\ (contents w <= 1)%nat /\
  (contents w <> 0 -> text (component w) = None /\ dd_action dialog_data = Some EDIT /\ started_up (component w) = true).

Lemma no_new_contents es : Forall no_content es -> List.filter is_content (subscriptions es) = [].
Proof.
  induction 1 as [|e es He _ IH]; [done|]. destruct e; try done. simpl. by rewrite (He c eq_refl).
Qed.

Lemma steady_react t b l :
  l <> Event Init -> (forall p, l <> Event (Edit (Paste p))) -> (forall c a, l = Answered c a -> is_content c = false) ->
  safe (kept t b) no_content (react (K := Dialog) l).
Proof.
  intros H1 H2 H3. destruct l as [e|c a]; apply safe_finally; try apply detect_kept.
  - apply steady_turn; [by intros ->|by intros p ->; apply (H2 p)].
  - apply steady_answer. by apply (H3 c a).
Qed.

(** The start of the dialog: the only turn that asks for the text. *)
Lemma start_in_step s : in_step s -> started_up s = false ->
  let x := react (K := Dialog) (Event Init) s in
  in_step (state_of x) /\ started_up (state_of x) = true /\
  ((List.filter is_content (subscriptions (effects_of x)) = []) \/
   (exists c, List.filter is_content (subscriptions (effects_of x)) = [c]) /\
   text (state_of x) = None /\ dd_action dialog_data = Some EDIT).
Proof.
  intros Hs Hb. destruct s as [st t f pc sp ed]. simpl in Hb. subst st.
  unfold in_step in Hs. simpl in Hs. destruct f as [f|], ed as [ed|]; try done; [by destruct Hs as (_ & _ & ? & _)|].
  simpl. unfold on_event, finally, turn_of, when, ngOnInit, set_text_, get_is_user_adding_, initialize_form_,
    set_rule_form_group_, api_get_rule_content_, api_get_pcaps_, not_passed, close_editor_, detect_changes, get,
    bind, gets, modify, emit, ret, in_step. simpl.
  destruct (dd_action dialog_data) as [a|] eqn:Ea; [|simpl; auto 6].
  destruct (a === EDIT) eqn:E; simpl.
  - apply seqb_eq in E as ->. destruct (dd_rule dialog_data) as [r|]; simpl; [|by auto].
    split_and!; try done. right. split; [by eexists|done].
  - by auto.
Qed.

(** The text that arrives: it goes to the form, to [text] and to the editor. *)
Lemma content_in_step s id a : in_step s -> text s = None -> dd_action dialog_data = Some EDIT -> started_up s = true ->
  let x := react (K := Dialog) (Answered (CRuleContent id) a) s in
  in_step (state_of x) /\ Forall no_content (effects_of x).
Proof.
  intros Hs Ht Ha Hb. destruct s as [st t f pc sp ed]. simpl in Ht, Hb. subst t st.
  destruct a as [[r|]|e].
  - unfold in_step in Hs. simpl in Hs. simpl. unfold on_answer, finally. simpl.
    unfold modify_form, the_form, set_text_, detect_changes, get, bind, gets, modify, deref, ret, throw. rewrite Ha. simpl.
    destruct f as [f|], ed as [ed|]; try done; simpl.
    destruct Hs as (H1 & H2 & _ & _). unfold in_editor, listen. simpl. unfold TextEditor.ngOnChanges, bind, gets, modify, ret.
    rewrite H1, H2. simpl. by split_and!.
  - destruct (safe_finally (kept None true) no_content (generate_return_fail_snackbar_message "to get rule content" DUR)
      (detect_changes dialog_data)) with (s := with_parts true None f pc sp ed) as [[H _] HF];
      [apply only_fail|apply detect_kept|by split_and!|by split].
  - destruct (safe_finally (kept None true) no_content (on_error_message "getting rule content" e)
      (detect_changes dialog_data)) with (s := with_parts true None f pc sp ed) as [[H _] HF];
      [apply only_on_error_message|apply detect_kept|by split_and!|by split].
Qed.

Lemma contents_app (p q : list call) :
  length (List.filter is_content (p ++ q)) = (length (List.filter is_content p) + length (List.filter is_content q))%nat.
Proof. by rewrite List.filter_app, length_app. Qed.

Lemma in_order_step w l w' :
  in_order w -> (forall p, l <> Event (Edit (Paste p))) -> step (K := Dialog) w l w' -> in_order w'.
Proof.
  intros (Hs & Hle & Hw) Hp Hstep.
  (* a turn that neither starts the dialog nor receives the text *)
  assert (Hsteady : forall waiting, l <> Event Init -> (forall c a, l = Answered c a -> is_content c = false) ->
    length (List.filter is_content waiting) = contents w -> in_order (after (K := Dialog) l waiting w)).
  { intros waiting H1 H2 H3. destruct (steady_react (text (component w)) (started_up (component w)) l H1 Hp H2
      (component w)) as [(Hk & Ht & Hb) He]; [by split|].
    unfold in_order, contents, after. simpl. rewrite contents_app, (no_new_contents _ He), H3, Ht, Hb. simpl.
    rewrite Nat.add_0_r. by split_and!. }
  destruct Hstep as [e|p1 c p2 a Hq].
  - assert (e = Init \/ e <> Init) as [->|He] by (destruct e; auto; by right); [|by apply Hsteady; [intros [= ->]|..]].
    destruct (started_up (component w)) eqn:Hb.
    + assert (react (K := Dialog) (Event Init) (component w) =
        let '(_, s, es) := detect_changes dialog_data (component w) in (Ret tt, s, es)) as Hr.
        { change (finally (turn_of dialog_data Init) (detect_changes dialog_data) (component w) =
            let '(_, s, es) := detect_changes dialog_data (component w) in (Ret tt, s, es)).
          unfold finally, turn_of, get. rewrite (bind_run_silent _ _ _ (component w) (component w)) by done.
          rewrite Hb. simpl.
          by destruct (detect_changes dialog_data (component w)) as [[? ?] ?]. }
      destruct (detect_kept (text (component w)) true (component w)) as [(Hk & Ht & Hb') He]; [by split|].
      unfold in_order, contents, after. rewrite Hr.
      destruct (detect_changes dialog_data (component w)) as [[r s2] es]. simpl in *.
      rewrite contents_app, (no_new_contents _ He). change (state_of _) with s2 in *.
      rewrite Ht, Hb'. simpl. rewrite Nat.add_0_r. by split_and!.
    + destruct (start_in_step (component w) Hs Hb) as (H1 & H2 & H3).
      assert (contents w = 0) as Hc by (destruct (contents w); [done|by destruct Hw as (_ & _ & ?)]).
      unfold in_order, contents, after in *. simpl in *. rewrite contents_app, Hc.
      destruct H3 as [->|([c ->] & H4 & H5)]; simpl; [by split_and!; [|lia|]|by split_and!; [|lia|]].
  - destruct (is_content c) eqn:Hc; [|apply Hsteady; [done|by intros ? ? [= <-]|]].
    + assert (contents w = S (length (List.filter is_content (p1 ++ p2)))) as Hn
        by (unfold contents; rewrite Hq, !contents_app; simpl; rewrite Hc; simpl; lia).
      destruct Hw as (H1 & H2 & H3); [lia|]. destruct c; try done.
      destruct (content_in_step (component w) id a Hs H1 H2 H3) as [H4 He].
      unfold in_order, contents, after. simpl in *. rewrite contents_app, (no_new_contents _ He). simpl.
      by split_and!; [|lia|lia].
    + unfold contents. rewrite Hq, !contents_app. simpl. by rewrite Hc.
Qed.

(** C15: as long as the text is changed by typing, the form follows the editor:
    after every turn, once the dialog has a text to edit, the control [rule] of
    the form holds exactly the text the editor holds, whatever the order of the
    answers; so what is validated or tested is what a save would send. *)
Theorem form_follows_the_keys tr w f x :
  trace (K := Dialog) (fun l => forall p, l <> Event (Edit (Paste p))) tr w ->
  rule_form_group (component w) = Some f -> rule_editor (component w) = Some x ->
  notUndefNull (text (component w)) = true -> f_rule f = text_value (text1 x).
Proof.
  intros Htr Hf Hx Ht.
  destruct (trace_worlds (K := Dialog) (fun l => forall p, l <> Event (Edit (Paste p))) in_order) with (tr := tr) (w := w)
    as [H _]; [by split_and!; [|apply Nat.le_0_l|]|exact in_order_step|done|].
  unfold in_step in H. rewrite Hf, Hx in H. destruct H as (_ & _ & _ & H). by apply H.
Qed.
End Facts.

(** A rule opened for editing: its text arrives, is changed and saved. *)
Definition witness_rule : RuleClass :=
  {| r__id := 7; ruleName := "scan"; rule := ""; r_createdDate := ""; r_lastModifiedDate := ""; r_isEnabled := true;
     byPassValidation := false; rule_set_id := 3 |}.
Definition with_rule_text (t : string) (r : RuleClass) : RuleClass :=
  {| r__id := r__id r; ruleName := ruleName r; rule := t; r_createdDate := r_createdDate r;
     r_lastModifiedDate := r_lastModifiedDate r; r_isEnabled := r_isEnabled r;
     byPassValidation := byPassValidation r; rule_set_id := rule_set_id r |}.
Definition witness_data : DialogDataInterface :=
  {| dd_rule_set := Some (RuleSet 3 None "suricata" "TS" "set" [] "Dirty" [] "" "" true);
     dd_rule := Some witness_rule; dd_action := Some EDIT |}.
Abbreviation Witness := (rule_dialog witness_data).

Lemma form_follows_the_keys_witness : exists tr w f x,
  trace (K := Witness) (fun l => forall p, l <> Event (Edit (Paste p))) tr w /\
  rule_form_group (component w) = Some f /\ rule_editor (component w) = Some x /\
  text1 x = Some "drop tcp" /\ f_rule f = text_value (text1 x).
Proof.
  pose proof (trace_start (K := Witness) (fun l => forall p, l <> Event (Edit (Paste p)))) as T.
  apply (trace_event _ _ _ Init) in T; [|done].
  apply (trace_answer _ _ _ [] (CRuleContent (JNum 7)) [CPcaps] (Next (Some (with_rule_text "alert tcp" witness_rule)))) in T;
    [|done|reflexivity].
  apply (trace_event _ _ _ (Edit (Keys "drop tcp"))) in T; [|by intros p [=]].
  match type of T with trace _ ?tr ?w => exists tr, w end. do 2 eexists. split; [exact T|].
  split; [reflexivity|]. split; [reflexivity|]. split; [reflexivity|].
  apply (form_follows_the_keys witness_data _ _ _ _ T); reflexivity.
Defined.

Lemma saved_rule_is_the_editors_witness : exists tr w c,
  trace (K := Witness) (fun _ => True) tr w /\
  Subscribe c ∈ made (K := Witness) (Answered confirm_submission
    (Some {| bf_valid := true; bf_byPassValidation := JBool false |})) w /\
  exists u es v, tr = u ++ (Event SaveClick, es) :: v.
Proof.
  pose proof (trace_start (K := Witness) (fun _ => True)) as T.
  apply (trace_event _ _ _ Init) in T; [|done].
  apply (trace_answer _ _ _ [] (CRuleContent (JNum 7)) [CPcaps] (Next (Some (with_rule_text "alert tcp" witness_rule)))) in T;
    [|done|reflexivity].
  apply (trace_event _ _ _ (Edit (Keys "drop tcp"))) in T; [|done].
  apply (trace_event _ _ _ SaveClick) in T; [|done].
  match type of T with trace _ ?tr ?w => set (w1 := w) in T; exists tr, w1 end.
  eexists. split; [exact T|].
  assert (Hp : exists c, pending w1 = [CPcaps; c] /\ c = confirm_submission)
    by (eexists; split; reflexivity).
  destruct Hp as (c & Hp & ->).
  pose proof (step_answer (K := Witness) w1 [CPcaps] confirm_submission []
    (Some {| bf_valid := true; bf_byPassValidation := JBool false |}) Hp) as Hs.
  assert (Hin : Subscribe (CUpdateRule (sent_rule witness_data (JBool false)
     (match rule_editor (component w1) with Some x => x | None => new_editor true false None "" end)
     (match rule_form_group (component w1) with Some f => f | None => rule_values witness_rule end))) ∈
    effects_of (react (K := Witness) (Answered confirm_submission (Some {| bf_valid := true; bf_byPassValidation := JBool false |}))
      (component w1))) by (vm_compute; left).
  split; [exact Hin|].
  by destruct (saved_rule_is_the_editors witness_data _ _ _ _ _ T Hs Hin eq_refl) as [H _].
Defined.
