(* ===== verification/Scale.v ===== *)
(** modules/elasticsearch-scale: the sliders for the numbers of pods and the
    editor of the whole configuration.

    The timer before the deployment and the editor dialog are subscriptions; the
    editor itself is the dialog of TextEditor.v, opened with the configuration
    this page makes for the roles of the user. *)
From S2P Require Import Prelude Handler JsValue Runtime Data Api TextEditor.

(** ** The classes *)

(** classes/elasticsearch-node-return.class.ts: a number that was not assigned is
    undefined. *)
Record ElasticsearchNodeReturnClass := {
  er_data : option Z;
  er_master : option Z;
  er_ml : option Z;
  er_ingest : option Z;
}.

(** classes/elasticsearch-node.class.ts *)
Record ElasticsearchNodeClass := {
  en_return : ElasticsearchNodeReturnClass;
  max_scale_count_data : option Z;
  max_scale_count_master : option Z;
  max_scale_count_ml : option Z;
  max_scale_count_ingest : option Z;
  en_server_node_count : option Z;
}.

Record ElasticsearchConfigurationClass := { elastic : string }.
Record ElasticsearchCheckClass := { ec_status : string }.

(** enums/node-title.enum.ts: the keys with their titles. *)
Definition NodeTitleEnum : list (string * string) :=
  [("master", "Master"); ("data", "Data"); ("ml", "Machine Learning"); ("ingest", "Ingest")].

Definition SLIDER_PROGRAMMING_ERROR_TITLE : string := "Unsupported or programming error".

(** [elasticsearch_node[type]] and [elasticsearch_node[`max_scale_count_${type}`]]
    for the types of the enumeration. *)
Definition count_of (type : string) (n : ElasticsearchNodeReturnClass) : option Z :=
  if type === "master" then er_master n
  else if type === "data" then er_data n
  else if type === "ml" then er_ml n
  else if type === "ingest" then er_ingest n else None.

Definition max_of (type : string) (n : ElasticsearchNodeClass) : option Z :=
  if type === "master" then max_scale_count_master n
  else if type === "data" then max_scale_count_data n
  else if type === "ml" then max_scale_count_ml n
  else if type === "ingest" then max_scale_count_ingest n else None.

(** classes/slider-control.class.ts; [max_node_count_per] is never assigned. *)
Record SliderControlClass := {
  s_title : string;
  s_type : string;
  current_count : Z;
  min_count : Z;
  max_count : Z;
  hidden : bool;
}.

Definition new_SliderControlClass (type : string) (n : ElasticsearchNodeClass) : SliderControlClass :=
  let current := default 0%Z (count_of type (en_return n)) in
  {| s_title := default SLIDER_PROGRAMMING_ERROR_TITLE ((list_to_map NodeTitleEnum : gmap string string) !! type);
     s_type := type;
     current_count := current;
     min_count := 1;
     max_count := default 0%Z (max_of type n);
     hidden := (current =? 0)%Z |}.

Definition set_current v (s : SliderControlClass) : SliderControlClass :=
  {| s_title := s_title s; s_type := s_type s; current_count := v; min_count := min_count s;
     max_count := max_count s; hidden := hidden s |}.

(** [node_return[type] = count] *)
Definition assign_count (type : string) (v : Z) (r : ElasticsearchNodeReturnClass) : ElasticsearchNodeReturnClass :=
  if type === "master" then {| er_data := er_data r; er_master := Some v; er_ml := er_ml r; er_ingest := er_ingest r |}
  else if type === "data" then {| er_data := Some v; er_master := er_master r; er_ml := er_ml r; er_ingest := er_ingest r |}
  else if type === "ml" then {| er_data := er_data r; er_master := er_master r; er_ml := Some v; er_ingest := er_ingest r |}
  else if type === "ingest" then {| er_data := er_data r; er_master := er_master r; er_ml := er_ml r; er_ingest := Some v |}
  else r.

Definition no_counts : ElasticsearchNodeReturnClass :=
  {| er_data := None; er_master := None; er_ml := None; er_ingest := None |}.

Definition node_return (sliders : list SliderControlClass) : ElasticsearchNodeReturnClass :=
  fold_left (fun r s => assign_count (s_type s) (current_count s) r) sliders no_counts.

(** ** The services; a deployment sends the options of the request as its body *)

Definition get_elastic_nodes : service unit ElasticsearchNodeClass ElasticsearchNodeClass :=
  Service GET "/api/scale/elastic/nodes" tt "elasticsearch get nodes" copied.
Definition post_elastic_nodes (n : ElasticsearchNodeReturnClass)
    : service ElasticsearchNodeReturnClass SuccessMessageClass SuccessMessageClass :=
  Service POST "/api/scale/elastic" n "elasticsearch post nodes" copied.
Definition get_elastic_full_config : service unit ElasticsearchConfigurationClass ElasticsearchConfigurationClass :=
  Service GET "/api/scale/elastic/advanced" tt "elasticsearch get full configuration" copied.
Definition post_elastic_full_config (c : ElasticsearchConfigurationClass)
    : service ElasticsearchConfigurationClass SuccessMessageClass SuccessMessageClass :=
  Service POST "/api/scale/elastic/advanced" c "elasticsearch post full configuration" copied.
Definition deploy_elastic (options : jsval) : service jsval unit unit :=
  Service POST "/api/tools/elastic/deploy" options "elasticsearch deploy" copied.
Definition check_elastic : service unit ElasticsearchCheckClass ElasticsearchCheckClass :=
  Service GET "/api/scale/check" tt "elasticsearch check" copied.

(** ** The page *)

Definition ELASTICSEARCH_SCALE_TITLE : string := "ES Scale".
Definition ELASTICSEARCH_SCALING : string := "Elasticsearch Scaling".
Definition WEBSOCKET_STATUS_COMPLETED_ELASTIC_MESSAGE : string := "Elastic scaling completed successfully.".
Definition ELASTICSEARCH_KIT_DEPLOYED_ERROR_MESSAGE : string :=
  "- You cannot scale Elasticsearch until you have a Kit deployed and Elastic is installed".
Definition ELASTICSEARCH_UNKNOWN_ERROR_MESSAGE : string := "- Unknown Elasticsearch Status".

Definition SAVE_CONFIRM_ACTION_CONFIGURATION : ConfirmActionConfigurationInterface :=
  {| ca_title := "Close and save";
     ca_message := "Are you sure you want to save this configuration? " +:+
                   "Doing so will update the Elasticsearch configuration " +:+
                   "and may cause interuption to services for a few minutes.";
     confirmButtonText := "Save"; successText := "Saved Elastic Configuration"; failText := "Could not save";
     useGeneralActionFunc := true |}.
Definition CLOSE_CONFIRM_ACTION_CONFIGURATION : ConfirmActionConfigurationInterface :=
  {| ca_title := "Close without saving";
     ca_message := "Are you sure you want to close this editor? All changes will be discarded.";
     confirmButtonText := "Close"; successText := "Closed without saving"; failText := "";
     useGeneralActionFunc := true |}.

Definition RUN_CONFIRM_MAT_DIALOG : ConfirmDialogMatDialogDataInterface :=
  {| title := ELASTICSEARCH_SCALING;
     message := "Are you sure that you want to change the " +:+ ELASTICSEARCH_SCALING +:+
                " configuration. This will take some time for operation to complete.";
     option1 := CANCEL_DIALOG_OPTION; option2 := CONFIRM_DIALOG_OPTION; message_double_confirm := None |}.
(** The dialogs that only tell something have one button. *)
Definition CANT_RUN_CONFIRM_MAT_DIALOG : string :=
  ELASTICSEARCH_SCALING +:+ " is currently in progress so you can not change the configuration at this time".
Definition ELASTICSEARCH_SCALE_IN_PROGRESS_CONFIRM_MAT_DIALOG : string :=
  ELASTICSEARCH_SCALING +:+ " is currently in progress".

Inductive call : Type :=
| CCheckElastic
| CElasticNodes
| CPostElasticNodes (n : ElasticsearchNodeReturnClass)
| CElasticFullConfig
| CPostElasticFullConfig (c : ElasticsearchConfigurationClass)
| CDeployElastic
| TDeployElastic
| DRun (data : ConfirmDialogMatDialogDataInterface)
| DEditor (data : TextEditorConfigurationInterface).

Definition Ans (c : call) : Type :=
  match c with
  | CCheckElastic => answer ElasticsearchCheckClass
  | CElasticNodes => answer ElasticsearchNodeClass
  | CPostElasticNodes _ | CPostElasticFullConfig _ => answer SuccessMessageClass
  | CElasticFullConfig => answer ElasticsearchConfigurationClass
  | CDeployElastic => answer unit
  | TDeployElastic => unit
  | DRun _ | DEditor _ => option string
  end.

Inductive page : Type := OpenInfo (title message : string).

Record ElasticsearchScaleComponent := {
  node_sliders : list SliderControlClass;
  server_node_count : option Z;
  status : bool;
  loading : bool;
  controller_maintainer_ : bool;
  controller_admin_ : bool;
}.
Abbreviation M := (handler ElasticsearchScaleComponent (effect call page)).

Definition with_sliders v s :=
  {| node_sliders := v; server_node_count := server_node_count s; status := status s; loading := loading s;
     controller_maintainer_ := controller_maintainer_ s; controller_admin_ := controller_admin_ s |}.
Definition with_server_node_count v s :=
  {| node_sliders := node_sliders s; server_node_count := v; status := status s; loading := loading s;
     controller_maintainer_ := controller_maintainer_ s; controller_admin_ := controller_admin_ s |}.
Definition with_status v s :=
  {| node_sliders := node_sliders s; server_node_count := server_node_count s; status := v; loading := loading s;
     controller_maintainer_ := controller_maintainer_ s; controller_admin_ := controller_admin_ s |}.
Definition with_loading v s :=
  {| node_sliders := node_sliders s; server_node_count := server_node_count s; status := status s; loading := v;
     controller_maintainer_ := controller_maintainer_ s; controller_admin_ := controller_admin_ s |}.

(** The roles are those of the user service. *)
Definition constructor (isControllerMaintainer isControllerAdmin : bool) : ElasticsearchScaleComponent :=
  {| node_sliders := []; server_node_count := Some 0%Z; status := false; loading := true;
     controller_maintainer_ := isControllerMaintainer; controller_admin_ := isControllerAdmin |}.

Definition get : M ElasticsearchScaleComponent := gets (fun s => s).

(** *** The requests *)

Definition api_get_elastic_nodes_ : M unit := emit (Subscribe CElasticNodes).
Definition api_post_elastic_nodes_ (n : ElasticsearchNodeReturnClass) : M unit := emit (Subscribe (CPostElasticNodes n)).
Definition api_get_elastic_full_config_ : M unit := emit (Subscribe CElasticFullConfig).
Definition api_post_elastic_full_config_ (response : string) : M unit :=
  emit (Subscribe (CPostElasticFullConfig {| elastic := response |})).
(** [setTimeout]: nothing stops the timer when the page is left. *)
Definition api_deploy_elastic_ : M unit := emit (Subscribe TDeployElastic).
Definition api_check_elastic_ : M unit := emit (Subscribe CCheckElastic).

(** *** The methods *)

Definition ngOnInit : M unit := emit (SetTitle ELASTICSEARCH_SCALE_TITLE) ;;; api_check_elastic_ ;;; api_get_elastic_nodes_.

Definition open_run_confirm_dialog : M unit := emit (Subscribe (DRun RUN_CONFIRM_MAT_DIALOG)).
Definition edit_elasticsearch_configuration : M unit := api_get_elastic_full_config_.
Definition open_cant_run_dialog_ : M unit := emit (Page (OpenInfo ELASTICSEARCH_SCALING CANT_RUN_CONFIRM_MAT_DIALOG)).
Definition open_elasticsearch_scale_in_progress_dialog_ : M unit :=
  emit (Page (OpenInfo ELASTICSEARCH_SCALING ELASTICSEARCH_SCALE_IN_PROGRESS_CONFIRM_MAT_DIALOG)).

Definition run_elasticsearch_scale_ : M unit :=
  modify (with_loading true) ;;;
  s <- get ;;
  api_post_elastic_nodes_ (node_return (node_sliders s)).

Definition run_closed (response : option string) : M unit :=
  when (response ?=== CONFIRM_DIALOG_OPTION)
    (s <- get ;; if status s then open_cant_run_dialog_ else run_elasticsearch_scale_).

(** What the editor is opened with: saving is offered to both roles, and possible
    for a user who has both. *)
Definition text_editor_configuration (s : ElasticsearchScaleComponent) (c : ElasticsearchConfigurationClass)
    : TextEditorConfigurationInterface :=
  {| show_options := controller_maintainer_ s || controller_admin_ s;
     is_read_only := negb (controller_maintainer_ s) || negb (controller_admin_ s);
     te_title := "Elasticsearch Configuration";
     te_text := elastic c;
     use_language := "yaml";
     display_save := JBool (controller_maintainer_ s || controller_admin_ s);
     disable_save := Some (negb (controller_maintainer_ s) || negb (controller_admin_ s));
     confirm_save := Some SAVE_CONFIRM_ACTION_CONFIGURATION;
     confirm_close := Some CLOSE_CONFIRM_ACTION_CONFIGURATION |}.

Definition open_text_editor_ (c : ElasticsearchConfigurationClass) : M unit :=
  s <- get ;; emit (Subscribe (DEditor (text_editor_configuration s c))).

Definition editor_closed (response : option string) : M unit :=
  match response with
  | Some text => api_post_elastic_full_config_ text
  | None => ret tt
  end.

(** The two properties of a notification the handler reads. *)
Definition onbroadcast (n_status n_message : string) : M unit :=
  when ((n_status === "COMPLETED") && (n_message === WEBSOCKET_STATUS_COMPLETED_ELASTIC_MESSAGE))
    (modify (with_status false) ;;; modify (with_loading false) ;;; api_get_elastic_nodes_).

(** *** The answers *)

Definition api_get_elastic_nodes_answer (a : answer ElasticsearchNodeClass) : M unit :=
  match a with
  | Next response =>
      modify (with_server_node_count (en_server_node_count response)) ;;;
      modify (with_sliders ((fun v => new_SliderControlClass v response) <$> (fst <$> NodeTitleEnum)))
  | Error e => on_error "getting elasticsearch nodes" e
  end.

Definition api_post_elastic_nodes_answer (a : answer SuccessMessageClass) : M unit :=
  match a with
  | Next _ => api_deploy_elastic_ ;;; modify (with_sliders [])
  | Error e => on_error "changing elasticsearch nodes" e
  end.

Definition api_get_elastic_full_config_answer (a : answer ElasticsearchConfigurationClass) : M unit :=
  match a with
  | Next response => open_text_editor_ response
  | Error e => on_error "getting elasticsearch" e
  end.

Definition api_post_elastic_full_config_answer (a : answer SuccessMessageClass) : M unit :=
  match a with
  | Next _ => api_deploy_elastic_ ;;; modify (with_sliders [])
  | Error e => on_error "changing elasticsearch configuration" e
  end.

Definition deploy_timeout : M unit := emit (Subscribe CDeployElastic).

Definition api_deploy_elastic_answer (a : answer unit) : M unit :=
  match a with
  | Next _ => modify (with_status true)
  | Error e => on_error "deloying elasticsearch" e
  end.

Definition api_check_elastic_answer (a : answer ElasticsearchCheckClass) : M unit :=
  match a with
  | Next response =>
      if (ec_status response !== "Ready") && (ec_status response !== "Unknown") && (ec_status response !== "None") then
        open_elasticsearch_scale_in_progress_dialog_ ;;; modify (with_status true)
      else if ec_status response === "None" then
        generate_return_error_snackbar_message ELASTICSEARCH_KIT_DEPLOYED_ERROR_MESSAGE
          (Some {| timeInMS := Some 60000%Z; actionLabel := Some "Kit Config"; Runtime.action := Some "/kit_configuration";
                   panelClass := None |}) ;;;
        modify (with_loading false)
      else if ec_status response === "Unknown" then
        generate_return_error_snackbar_message ELASTICSEARCH_UNKNOWN_ERROR_MESSAGE
          (Some MAT_SNACKBAR_CONFIGURATION_60000_DUR_DISMISS) ;;;
        modify (with_loading false)
      else modify (with_loading false)
  | Error e => on_error "checking elasticsearch status" e
  end.

(** *** The turns *)

(** A slider that is shown moves in steps of one between its bounds. *)
Inductive event : Type :=
| NgOnInit
| OnBroadcast (n_status n_message : string)
| Slide (i : nat) (v : Z)
| RunClick
| EditClick.

Definition slide (i : nat) (v : Z) : M unit :=
  s <- get ;;
  match node_sliders s !! i with
  | Some x => when (negb (hidden x) && negb (status s) && (min_count x <=? v)%Z && (v <=? max_count x)%Z)
                (modify (with_sliders (<[i := set_current v x]> (node_sliders s))))
  | None => ret tt
  end.

Definition on_event (e : event) : M unit :=
  match e with
  | NgOnInit => ngOnInit
  | OnBroadcast n_status n_message => onbroadcast n_status n_message
  | Slide i v => slide i v
  | RunClick => s <- get ;; when (negb (status s)) open_run_confirm_dialog
  | EditClick => s <- get ;; when (negb (status s)) edit_elasticsearch_configuration
  end.

Definition on_answer (c : call) : Ans c -> M unit :=
  match c with
  | CCheckElastic => api_check_elastic_answer
  | CElasticNodes => api_get_elastic_nodes_answer
  | CPostElasticNodes _ => api_post_elastic_nodes_answer
  | CElasticFullConfig => api_get_elastic_full_config_answer
  | CPostElasticFullConfig _ => api_post_elastic_full_config_answer
  | CDeployElastic => api_deploy_elastic_answer
  | TDeployElastic => fun _ => deploy_timeout
  | DRun _ => run_closed
  | DEditor _ => editor_closed
  end.

Definition scale_page (maintainer admin : bool) : Component ElasticsearchScaleComponent call page event Ans :=
  {| initial := constructor maintainer admin; Runtime.on_event := on_event; Runtime.on_answer := on_answer |}.

(** ** What is sent *)

Lemma count_of_assign t u v r c :
  count_of t (assign_count u v r) = Some c -> (u = t /\ c = v) \/ count_of t r = Some c.
Proof.
  unfold assign_count, count_of.
  destruct (u === "master") eqn:E1; [|destruct (u === "data") eqn:E2; [|destruct (u === "ml") eqn:E3;
    [|destruct (u === "ingest") eqn:E4; [|by right]]]];
    destruct (t === "master") eqn:F1, (t === "data") eqn:F2, (t === "ml") eqn:F3, (t === "ingest") eqn:F4;
    rewrite ?seqb_eq in *; subst; simpl; try done; auto; intros [= <-]; by left.
Qed.

(** A number that is sent is the count of a slider of that type. *)
Lemma count_of_node_return sliders t c :
  count_of t (node_return sliders) = Some c -> exists x, x ∈ sliders /\ s_type x = t /\ current_count x = c.
Proof.
  unfold node_return. assert (H0 : count_of t no_counts = None) by (unfold count_of; by repeat destruct (_ === _)).
  revert H0. generalize no_counts. induction sliders as [|x l IH] using rev_ind; intros r H0; simpl; [congruence|].
  rewrite fold_left_app. simpl. intros [[Ht ->]|H]%count_of_assign; [exists x; set_solver|].
  destruct (IH r H0 H) as (y & ? & ? & ?). exists y. set_solver.
Qed.

(** A slider whose count is between nought and its maximum, and cannot be moved
    below one. *)
Definition slider_ok (x : SliderControlClass) : Prop :=
  (0 <= current_count x <= max_count x)%Z /\ min_count x = 1%Z.

(** What the server reports: no count above its maximum, none negative. *)
Definition reported_ok (n : ElasticsearchNodeClass) : Prop :=
  forall t, (0 <= default 0%Z (count_of t (en_return n)) <= default 0%Z (max_of t n))%Z.
Definition reports_ok (l : label event Ans) : Prop :=
  match l with Answered CElasticNodes (Next n) => reported_ok n | _ => True end.

Definition sliders_ok (s : ElasticsearchScaleComponent) : Prop := Forall slider_ok (node_sliders s).

(** The page posts nothing. *)
Definition is_post (c : call) : bool :=
  match c with CPostElasticNodes _ | CPostElasticFullConfig _ => true | _ => false end.
Definition no_post (e : effect call page) : Prop := only (fun c => is_post c = false) e.

Lemma no_post_call c : is_post c = false -> no_post (Subscribe c).
Proof. by intros H ? [= <-]. Qed.
Lemma no_post_page d : no_post (Page d).
Proof. by intros ?. Qed.
Lemma no_post_title t : no_post (SetTitle t).
Proof. by intros ?. Qed.
#[local] Hint Resolve no_post_call no_post_page no_post_title : handler.

Lemma safe_slide i v : safe sliders_ok no_post (slide i v).
Proof.
  intros s Hs. unfold slide, get. rewrite (bind_run_silent _ _ s s s) by done.
  destruct (node_sliders s !! i) as [x|] eqn:E; [|by split].
  destruct (_ && _) eqn:Eb; [|by split]. split; [|constructor]. rewrite !andb_true_iff in Eb.
  destruct Eb as [[_ Hmin] Hmax]. unfold sliders_ok. simpl. apply Forall_insert; [done|].
  unfold sliders_ok in Hs. rewrite Forall_lookup in Hs. specialize (Hs i x E). unfold slider_ok in *. simpl. lia.
Qed.

Lemma safe_on_event e : safe sliders_ok no_post (on_event e).
Proof.
  destruct e; simpl; [| |apply safe_slide| |];
    unfold ngOnInit, onbroadcast, open_run_confirm_dialog, edit_elasticsearch_configuration, api_check_elastic_,
      api_get_elastic_nodes_, api_get_elastic_full_config_, get; safe_auto; try done; auto with handler.
Qed.

(** What a turn may post, and from which sliders. *)
Definition posts (l : label event Ans) (s : ElasticsearchScaleComponent) (c : call) : Prop :=
  match c with
  | CPostElasticNodes n => exists d, l = Answered (DRun d) (Some CONFIRM_DIALOG_OPTION) /\ status s = false /\
                             n = node_return (node_sliders s)
  | CPostElasticFullConfig c => exists d, l = Answered (DEditor d) (Some (elastic c))
  | _ => True
  end.

Lemma safe_answers c a : reports_ok (Answered c a) -> (forall d, c <> DRun d) -> (forall d, c <> DEditor d) ->
  safe sliders_ok no_post (on_answer c a).
Proof.
  intros Hok Hr He. destruct c; simpl in *; try (by destruct (Hr data)); try (by destruct (He data)); try destruct a as [a|e];
    simpl; unfold api_deploy_elastic_, open_text_editor_, open_elasticsearch_scale_in_progress_dialog_, deploy_timeout, get;
    safe_auto; try done; auto with handler; try (by constructor).
  unfold sliders_ok. simpl. repeat constructor; unfold slider_ok; simpl; try done; apply Hok.
Qed.

Lemma scale_turn l s : reports_ok l -> sliders_ok s ->
  sliders_ok (state_of (react (K := scale_page true true) l s)) /\
  forall c, Subscribe c ∈ effects_of (react (K := scale_page true true) l s) -> posts l s c.
Proof.
  intros Hok Hs.
  assert (Hq : forall m : M unit, react (K := scale_page true true) l = m -> safe sliders_ok no_post m ->
    sliders_ok (state_of (react (K := scale_page true true) l s)) /\
    forall c, Subscribe c ∈ effects_of (react (K := scale_page true true) l s) -> posts l s c).
  { intros m -> Hm. destruct (Hm s Hs) as [H1 H2]. split; [done|]. intros c Hc.
    rewrite Forall_forall in H2. specialize (H2 _ Hc c eq_refl). by destruct c. }
  destruct l as [e|c a]; [apply (Hq _ eq_refl), safe_on_event|].
  destruct c; try (by apply (Hq _ eq_refl), safe_answers).
  - simpl. unfold run_closed. destruct (a ?=== CONFIRM_DIALOG_OPTION) eqn:E; simpl;
      [|split; [done|]; by intros c ?%not_elem_of_nil].
    apply oseqb_eq in E as ->. unfold get. rewrite (bind_run_silent _ _ s s s) by done.
    destruct (status s) eqn:Est; simpl; (split; [done|]); intros c [[= ->]|?%not_elem_of_nil]%elem_of_cons; try done.
    simpl. by exists data.
  - simpl. destruct a as [t|]; simpl; (split; [done|]); intros c Hc; [|by apply not_elem_of_nil in Hc].
    apply elem_of_cons in Hc as [[= ->]|?%not_elem_of_nil]; [|done]. simpl. by exists data.
Qed.

Section Page.
Variables maintainer admin : bool.
Abbreviation Scale := (scale_page maintainer admin).

Lemma sliders_trace tr w : trace (K := Scale) reports_ok tr w -> sliders_ok (component w).
Proof.
  intros Htr. apply (trace_invariant (K := Scale) reports_ok sliders_ok (fun _ _ => True)) with (tr := tr); [by constructor| |done].
  intros l Hl s Hs. split; [by apply (scale_turn l s)|]. by apply Forall_true.
Qed.

(** What the page is told about a scaling: a deployment was started, the check
    found one, or a message reports its end. *)
Definition told (b : bool) (l : label event Ans) : bool :=
  match l with
  | Event (OnBroadcast n_status n_message) =>
      if (n_status === "COMPLETED") && (n_message === WEBSOCKET_STATUS_COMPLETED_ELASTIC_MESSAGE) then false else b
  | Event _ => b
  | Answered c a =>
      match c return Ans c -> bool with
      | CDeployElastic => fun a => match a with Next _ => true | Error _ => b end
      | CCheckElastic => fun a =>
          match a with
          | Next r => ((ec_status r !== "Ready") && (ec_status r !== "Unknown") && (ec_status r !== "None")) || b
          | Error _ => b
          end
      | _ => fun _ => b
      end a
  end.
Definition scaling_known (tr : list (label event Ans * list (effect call page))) : bool :=
  fold_left (fun b x => told b (fst x)) tr false.

Lemma status_turn l s : status (state_of (react (K := Scale) l s)) = told (status s) l.
Proof using.
  destruct l as [e|c a]; [destruct e | destruct c]; simpl in *; try done;
    try (destruct a as [r|[]]; done); unfold slide, edit_elasticsearch_configuration, run_closed, editor_closed, onbroadcast, get.
  - by destruct (_ && _).
  - rewrite (bind_state _ _ s s s []) by done. destruct (_ !! _); [|done]. by destruct (_ && _).
  - rewrite (bind_state _ _ s s s []) by done. by destruct (negb _).
  - rewrite (bind_state _ _ s s s []) by done. by destruct (negb _).
  - destruct a as [r|e]; [|by destruct e]. simpl.
    destruct (_ && _); [done|]. destruct (_ === _); [done|]. by destruct (_ === _).
  - destruct (a ?=== CONFIRM_DIALOG_OPTION); [|done]. cbn [when]. rewrite (bind_state _ _ s s s []) by done.
    by destruct (status s) eqn:E.
Qed.

Lemma status_trace env tr w : trace (K := Scale) env tr w -> status (component w) = scaling_known tr.
Proof using.
  induction 1 as [|tr w l w' _ IH _ Hstep]; [done|].
  rewrite (step_component _ _ _ Hstep), status_turn, IH. unfold scaling_known. by rewrite fold_left_app.
Qed.

(** C27: new numbers of pods are posted only by the confirmation of the run dialog
    and never while the page knows of a scaling: from the answer that a deployment
    was started, or that the check found one, to the message that it ended.  (Between
    the request and that answer the page does not know of it.)  Each number that is
    sent is the count of a slider and lies between nought and the maximum of that
    slider, however the sliders were moved before, provided that the server reports
    no count above its maximum. *)
Theorem posted_counts_are_bounded tr w l w' n :
  trace (K := Scale) reports_ok tr w -> reports_ok l -> step (K := Scale) w l w' ->
  Subscribe (CPostElasticNodes n) ∈ made (K := Scale) l w ->
  (exists d, l = Answered (DRun d) (Some CONFIRM_DIALOG_OPTION)) /\ scaling_known tr = false /\
  forall t c, count_of t n = Some c ->
    exists x, x ∈ node_sliders (component w) /\ s_type x = t /\ current_count x = c /\ (0 <= c <= max_count x)%Z.
Proof.
  intros Htr Hl _ Hin. assert (Hs := sliders_trace tr w Htr).
  destruct (scale_turn l _ Hl Hs) as [_ H]. destruct (H _ Hin) as (d & -> & Hst & ->).
  split; [by exists d|]. split; [by rewrite <- (status_trace _ _ _ Htr)|]. intros t c (x & Hx & Ht & Hc)%count_of_node_return.
  exists x. unfold sliders_ok in Hs. rewrite Forall_forall in Hs. destruct (Hs x Hx) as [Hb _]. by rewrite <- Hc.
Qed.

Definition roles (s : ElasticsearchScaleComponent) : Prop :=
  controller_maintainer_ s = maintainer /\ controller_admin_ s = admin.
Definition disabled_without_roles (e : effect call page) : Prop :=
  forall d, e = Subscribe (DEditor d) -> disable_save d = Some (negb maintainer || negb admin).

Lemma roles_kept l : safe roles disabled_without_roles (react (K := Scale) l).
Proof.
  assert (Hs : forall m c, disabled_without_roles (DisplaySnackBar m c)) by (intros ? ? ?; done).
  destruct l as [e|c a]; simpl.
  - destruct e; simpl; unfold ngOnInit, onbroadcast, slide, open_run_confirm_dialog, edit_elasticsearch_configuration,
      api_check_elastic_, api_get_elastic_nodes_, api_get_elastic_full_config_, get; safe_auto; done.
  - destruct c; simpl in *; try destruct a as [a|e]; simpl; unfold api_deploy_elastic_, deploy_timeout,
      open_elasticsearch_scale_in_progress_dialog_, run_closed, run_elasticsearch_scale_, open_cant_run_dialog_,
      api_post_elastic_nodes_, api_post_elastic_full_config_, get; safe_auto; try done; auto with handler.
    intros s [H1 H2]. split; [done|]. simpl. constructor; [|constructor]. intros d [= <-]. simpl. by rewrite H1, H2.
Qed.

(** The configuration can be changed by a user with both roles only: whatever
    happens in an editor this page has opened, a text leaves that editor only if
    the user is maintainer and administrator, although the save button is shown
    to a user who has one of the roles. *)
Theorem editing_needs_both_roles tr w data tr' w1 l w2 t :
  trace (K := Scale) (fun _ => True) tr w -> DEditor data ∈ pending w ->
  trace (K := text_editor_dialog data) (fun _ => True) tr' w1 -> step (K := text_editor_dialog data) w1 l w2 ->
  Page (Close (Some t)) ∈ made (K := text_editor_dialog data) l w1 ->
  maintainer = true /\ admin = true.
Proof.
  intros Htr Hp Htr' Hstep Hin.
  destruct (pending_subscribed _ _ _ _ Htr Hp) as (u & l' & es & v & -> & Hc).
  destruct (trace_invariant (K := Scale) (fun _ => True) roles (fun _ => disabled_without_roles))
    with (tr := u ++ (l', es) :: v) (w := w) as [_ HF]; [done|intros ? _; apply roles_kept|done|].
  rewrite Forall_app, Forall_cons in HF. destruct HF as (_ & HF & _). simpl in HF. rewrite Forall_forall in HF.
  specialize (HF _ Hc data eq_refl).
  destruct maintainer, admin; try done; simpl in HF;
    by assert (Some t = None) by (by eapply disabled_save_keeps_the_text).
Qed.
End Page.

(** Three masters of five, and a run with four. *)
Definition witness_node : ElasticsearchNodeClass :=
  {| en_return := {| er_data := Some 1%Z; er_master := Some 3%Z; er_ml := None; er_ingest := Some 1%Z |};
     max_scale_count_data := Some 3%Z; max_scale_count_master := Some 5%Z; max_scale_count_ml := None;
     max_scale_count_ingest := Some 3%Z; en_server_node_count := Some 2%Z |}.

Lemma witness_reported : reported_ok witness_node.
Proof.
  intros t. unfold count_of, max_of.
  destruct (t === "master"), (t === "data"), (t === "ml"), (t === "ingest"); simpl; lia.
Qed.

Lemma posted_counts_are_bounded_witness : exists tr w n,
  trace (K := scale_page true true) reports_ok tr w /\
  Subscribe (CPostElasticNodes n) ∈
    made (K := scale_page true true) (Answered (DRun RUN_CONFIRM_MAT_DIALOG) (Some CONFIRM_DIALOG_OPTION)) w /\
  er_master n = Some 4%Z /\ exists x, x ∈ node_sliders (component w) /\ s_type x = "master" /\ (4 <= max_count x)%Z.
Proof.
  pose proof (trace_start (K := scale_page true true) reports_ok) as T.
  apply (trace_event _ _ _ NgOnInit) in T; [|exact I].
  apply (trace_answer _ _ _ [CCheckElastic] CElasticNodes [] (Next witness_node)) in T;
    [|exact witness_reported|reflexivity].
  apply (trace_event _ _ _ (Slide 0 4)) in T; [|exact I].
  apply (trace_event _ _ _ RunClick) in T; [|exact I].
  match type of T with trace _ ?tr ?w => set (w1 := w) in T; exists tr, w1 end.
  assert (Hp : pending w1 = [CCheckElastic; DRun RUN_CONFIRM_MAT_DIALOG]) by reflexivity.
  pose proof (step_answer (K := scale_page true true) w1 [CCheckElastic]
    (DRun RUN_CONFIRM_MAT_DIALOG) [] (Some CONFIRM_DIALOG_OPTION) Hp) as Hs.
  exists {| er_data := Some 1%Z; er_master := Some 4%Z; er_ml := Some 0%Z; er_ingest := Some 1%Z |}.
  split; [exact T|].
  assert (Hin : Subscribe (CPostElasticNodes
      {| er_data := Some 1%Z; er_master := Some 4%Z; er_ml := Some 0%Z; er_ingest := Some 1%Z |}) ∈
    made (K := scale_page true true) (Answered (DRun RUN_CONFIRM_MAT_DIALOG) (Some CONFIRM_DIALOG_OPTION)) w1)
    by (vm_compute; left).
  split; [exact Hin|]. split; [reflexivity|].
  destruct (posted_counts_are_bounded true true _ _
    (Answered (DRun RUN_CONFIRM_MAT_DIALOG) (Some CONFIRM_DIALOG_OPTION)) _ _ T I Hs Hin) as (_ & _ & H).
  destruct (H "master" 4%Z eq_refl) as (x & H1 & H2 & _ & H3). exists x. by split_and!; [| |apply H3].
Defined.

Lemma editing_needs_both_roles_witness : exists tr w data tr' w1 l,
  trace (K := scale_page true true) (fun _ => True) tr w /\ DEditor data ∈ pending w /\
  trace (K := text_editor_dialog data) (fun _ => True) tr' w1 /\
  Page (Close (Some (Some "b: 2"))) ∈ made (K := text_editor_dialog data) l w1 /\ true = true /\ true = true.
Proof.
  pose proof (trace_start (K := scale_page true true) (fun _ => True)) as T.
  apply (trace_event _ _ _ EditClick) in T; [|exact I].
  apply (trace_answer _ _ _ [] CElasticFullConfig [] (Next {| elastic := "a: 1" |})) in T; [|exact I|reflexivity].
  match type of T with trace _ ?tr ?w => exists tr, w end.
  set (data := text_editor_configuration (constructor true true) {| elastic := "a: 1" |}). exists data.
  pose proof (trace_start (K := text_editor_dialog data) (fun _ => True)) as E.
  apply (trace_event _ _ _ (Edit (Keys "b: 2"))) in E; [|exact I].
  apply (trace_event _ _ _ Save) in E; [|exact I].
  match type of E with trace _ ?tr ?w => set (w1 := w) in E; exists tr, w1 end.
  assert (Hp : exists d, pending w1 = [DConfirm ReturnText SAVE_CONFIRM_ACTION_CONFIGURATION d]) by (by eexists).
  destruct Hp as [d Hp].
  pose proof (step_answer (K := text_editor_dialog data) w1 [] _ [] (Some "Save") Hp) as Hs.
  exists (Answered (DConfirm ReturnText SAVE_CONFIRM_ACTION_CONFIGURATION d) (Some "Save")).
  assert (Hd : DEditor data ∈ [DEditor data]) by left.
  assert (Hin : Page (Close (Some (Some "b: 2"))) ∈ made (K := text_editor_dialog data)
    (Answered (DConfirm ReturnText SAVE_CONFIRM_ACTION_CONFIGURATION d) (Some "Save")) w1) by (vm_compute; left).
  split; [exact T|]. split; [exact Hd|]. split; [exact E|]. split; [exact Hin|].
  exact (editing_needs_both_roles true true _ _ _ _ _ _ _ _ T Hd E Hs Hin).
Defined.
