(* ===== verification/IndexManagement.v ===== *)
(** modules/elasticsearch-index-management: the page that closes, backs up or
    deletes indices in two steps.

    The stepper is the one of Angular Material: linear, its steps not editable.
    It reports a change of the selected step while it makes it; whether a reset
    that stays on the first step is reported as well is left open
    ([reset_reports]).  [reset_form_] also resets the form directives, which hold
    the groups that were just replaced. *)
From S2P Require Import Prelude Handler JsValue Runtime Data Api.

Definition ELASTICSEARCH_INDEX_MANAGEMENT_TITLE : string := "Index Management".
Definition CLOSE_INDICES : string := "CloseIndices".
Definition BACKUP_INDICES : string := "BackupIndices".
Definition DELETE_INDICES : string := "DeleteIndices".

(** interfaces/mat-option-alt.interface.ts *)
Record MatOptionAltInterface := {
  value : string;
  name : string;
  isDisabled : bool;
  toolTip : string;
}.

(** The constant as the module defines it; the page writes into it, so a second
    page starts from what the first one left. *)
Definition MAT_OPTION_ACTIONS : list MatOptionAltInterface :=
  [ {| value := CLOSE_INDICES; name := "Close"; isDisabled := false; toolTip := "" |};
    {| value := BACKUP_INDICES; name := "Backup and close"; isDisabled := true;
       toolTip := "MinIO is not configured." |};
    {| value := DELETE_INDICES; name := "Delete"; isDisabled := false; toolTip := "" |} ].

(** interfaces/index-management-option.interface.ts; the action is the value of a
    control, which starts as null. *)
Record IndexManagementOptionInterface := { im_action : option string; im_index_list : list string }.

(** An entry of a list of indices, as the template reads it. *)
Record indice := { index : string; size : string }.

(** services/index-management.service.ts *)
Definition index_management (o : IndexManagementOptionInterface)
    : service IndexManagementOptionInterface SuccessMessageClass SuccessMessageClass :=
  Service POST "/api/curator/process" o "index management" copied.
Definition get_closed_indices : service unit (list indice) (list indice) :=
  Service GET "/api/curator/indices/close" tt "get closed indices" copied.
Definition minio_check : service unit SuccessMessageClass SuccessMessageClass :=
  Service GET "/api/curator/minio_check" tt "minio check" copied.
Definition get_all_indices : service unit (list indice) (list indice) :=
  Service GET "/api/curator/indices/open" tt "get indices" copied.

Inductive call : Type :=
| CIndexManagement (o : IndexManagementOptionInterface)
| CClosedIndices
| CMinioCheck
| CAllIndices.

Definition Ans (c : call) : Type :=
  match c with
  | CIndexManagement _ => answer (instance SuccessMessageClass)
  | CClosedIndices | CAllIndices => answer (list indice)
  | CMinioCheck => answer SuccessMessageClass
  end.

(** [action] and [index_list] are the values of the two groups; [selectedIndex] is
    the stepper's. *)
Record ElasticsearchIndexManagementComponent := {
  action : option string;
  index_list : list string;
  indices : list indice;
  is_loading : bool;
  actions : list MatOptionAltInterface;
  instructions : option string;
  next_triggered_ : bool;
  selectedIndex : nat;
}.
Abbreviation M := (handler ElasticsearchIndexManagementComponent (effect call False)).

Definition with_groups a l s :=
  {| action := a; index_list := l; indices := indices s; is_loading := is_loading s; actions := actions s;
     instructions := instructions s; next_triggered_ := next_triggered_ s; selectedIndex := selectedIndex s |}.
Definition with_indices v s :=
  {| action := action s; index_list := index_list s; indices := v; is_loading := is_loading s; actions := actions s;
     instructions := instructions s; next_triggered_ := next_triggered_ s; selectedIndex := selectedIndex s |}.
Definition with_loading v s :=
  {| action := action s; index_list := index_list s; indices := indices s; is_loading := v; actions := actions s;
     instructions := instructions s; next_triggered_ := next_triggered_ s; selectedIndex := selectedIndex s |}.
Definition with_actions v s :=
  {| action := action s; index_list := index_list s; indices := indices s; is_loading := is_loading s; actions := v;
     instructions := instructions s; next_triggered_ := next_triggered_ s; selectedIndex := selectedIndex s |}.
Definition with_instructions v s :=
  {| action := action s; index_list := index_list s; indices := indices s; is_loading := is_loading s;
     actions := actions s; instructions := Some v; next_triggered_ := next_triggered_ s;
     selectedIndex := selectedIndex s |}.
Definition with_triggered v s :=
  {| action := action s; index_list := index_list s; indices := indices s; is_loading := is_loading s;
     actions := actions s; instructions := instructions s; next_triggered_ := v; selectedIndex := selectedIndex s |}.
Definition with_selectedIndex v s :=
  {| action := action s; index_list := index_list s; indices := indices s; is_loading := is_loading s;
     actions := actions s; instructions := instructions s; next_triggered_ := next_triggered_ s; selectedIndex := v |}.

Definition constructor (options : list MatOptionAltInterface) : ElasticsearchIndexManagementComponent :=
  {| action := None; index_list := []; indices := []; is_loading := false; actions := options; instructions := None;
     next_triggered_ := false; selectedIndex := 0 |}.

Section IndexManagement.
Variable reset_reports : bool.

Definition get : M ElasticsearchIndexManagementComponent := gets (fun s => s).

(** *** The requests *)

Definition api_index_management_ (o : IndexManagementOptionInterface) : M unit := emit (Subscribe (CIndexManagement o)).
Definition api_get_closed_indices_ : M unit := emit (Subscribe CClosedIndices).
Definition api_minio_check_ : M unit := emit (Subscribe CMinioCheck).
Definition api_get_all_indices_ : M unit := emit (Subscribe CAllIndices).

(** *** The methods *)

(** The loop stops at the first option that is the backup. *)
Fixpoint set_backup_in (is_disabled : bool) (tip : string) (l : list MatOptionAltInterface) : list MatOptionAltInterface :=
  match l with
  | [] => []
  | a :: r => if value a === BACKUP_INDICES
              then {| value := value a; name := name a; isDisabled := is_disabled; toolTip := tip |} :: r
              else a :: set_backup_in is_disabled tip r
  end.

Definition set_backup_option_ (is_disabled : bool) (error : option api_error) : M unit :=
  modify (fun s => with_actions (set_backup_in is_disabled
    match error with Some (ErrorMessageClass m) => js_to_string m | _ => "" end (actions s)) s).

Definition initialize_form_groups_ : M unit := modify (with_groups None []).

Definition is_index_list_empty (s : ElasticsearchIndexManagementComponent) : bool :=
  match index_list s with [] => true | _ => false end.

(** The report of the stepper inside a reset: the first step is selected. *)
Definition stepper_reset : M unit :=
  s <- get ;;
  when (reset_reports || negb (Nat.eqb (selectedIndex s) 0)) (modify (with_triggered false)) ;;;
  modify (with_selectedIndex 0).

Definition reset_form_ : M unit :=
  modify (with_loading false) ;;;
  modify (with_indices []) ;;;
  stepper_reset ;;;
  initialize_form_groups_.

Definition ask_for (text : string) (request : M unit) : M unit :=
  modify (with_instructions text) ;;; modify (with_loading true) ;;; request.

Definition next : M unit :=
  s <- get ;;
  match action s with
  | Some a =>
      if a === DELETE_INDICES then
        ask_for "Select one or more Index to delete and click Update." api_get_closed_indices_
      else if a === CLOSE_INDICES then
        ask_for "Select one or more Index to close and click Update." api_get_all_indices_
      else if a === BACKUP_INDICES then
        ask_for "Select one or more Index to backup and click Update." api_get_all_indices_
      else reset_form_
  | None => reset_form_
  end.

Definition stepper_change (event_selectedIndex : nat) : M unit :=
  s <- get ;;
  if Nat.eqb event_selectedIndex 1 && negb (next_triggered_ s) then next else modify (with_triggered false).

(** The stepper goes to the second step when the form of the first one is valid;
    it reports the change before its index is the new one. *)
Definition stepper_forward : M unit :=
  s <- get ;;
  when (Nat.eqb (selectedIndex s) 0 && match action s with Some _ => true | None => false end)
    (stepper_change 1 ;;; modify (with_selectedIndex 1)).

Definition back : M unit := reset_form_.

Definition update : M unit :=
  s <- get ;; api_index_management_ {| im_action := action s; im_index_list := index_list s |}.

Definition indices_return_actions_ (response : list indice) : M unit :=
  modify (with_indices response) ;;;
  modify (with_loading false) ;;;
  modify (with_triggered true) ;;;
  stepper_forward.

Definition ngOnInit : M unit :=
  emit (SetTitle ELASTICSEARCH_INDEX_MANAGEMENT_TITLE) ;;;
  initialize_form_groups_ ;;;
  set_backup_option_ true None ;;;
  api_minio_check_.

(** *** The answers *)

Definition api_index_management_answer (a : answer (instance SuccessMessageClass)) : M unit :=
  match a with
  | Next (Some response) =>
      displaySnackBar (success_message response) (Some MAT_SNACKBAR_CONFIGURATION_60000_DUR) ;;; reset_form_
  | Next None => ret tt
  | Error e => on_error_message "calling elasticsearch index management" e
  end.

Definition api_get_closed_indices_answer (a : answer (list indice)) : M unit :=
  match a with
  | Next response => indices_return_actions_ response
  | Error e => modify (with_loading false) ;;; on_error_message "getting closed indices" e
  end.

Definition api_get_all_indices_answer (a : answer (list indice)) : M unit :=
  match a with
  | Next response => indices_return_actions_ response
  | Error e => modify (with_loading false) ;;; on_error_message "getting indices" e
  end.

Definition api_minio_check_answer (a : answer SuccessMessageClass) : M unit :=
  match a with
  | Next _ => set_backup_option_ false None
  | Error (ErrorMessageClass m) =>
      set_backup_option_ true (Some (ErrorMessageClass m)) ;;;
      displaySnackBar (js_to_string m) (Some MAT_SNACKBAR_CONFIGURATION_60000_DUR)
  | Error e => on_error "checking minio" e
  end.

(** *** The turns: what the template offers on each step *)

Inductive event : Type :=
| NgOnInit
| ChooseAction (v : string)
| NextClick
| HeaderClick
| SelectIndices (l : list string)
| BackClick
| UpdateClick.

Definition on_step (i : nat) (s : ElasticsearchIndexManagementComponent) : bool := Nat.eqb (selectedIndex s) i.
Definition offered (v : string) (s : ElasticsearchIndexManagementComponent) : bool :=
  existsb (fun a => (value a === v) && negb (isDisabled a)) (actions s).

Definition on_event (e : event) : M unit :=
  s <- get ;;
  match e with
  | NgOnInit => ngOnInit
  | ChooseAction v => when (on_step 0 s && offered v s) (modify (with_groups (Some v) (index_list s)))
  | NextClick => when (on_step 0 s && match action s with Some _ => true | None => false end) next
  | HeaderClick => stepper_forward
  | SelectIndices l => when (on_step 1 s && forallb (includes (index <$> indices s)) l) (modify (with_groups (action s) l))
  | BackClick => when (on_step 1 s) back
  | UpdateClick => when (on_step 1 s && negb (is_index_list_empty s)) update
  end.

Definition on_answer (c : call) : Ans c -> M unit :=
  match c with
  | CIndexManagement _ => api_index_management_answer
  | CClosedIndices => api_get_closed_indices_answer
  | CMinioCheck => api_minio_check_answer
  | CAllIndices => api_get_all_indices_answer
  end.

Definition index_page : Component ElasticsearchIndexManagementComponent call False event Ans :=
  {| initial := constructor MAT_OPTION_ACTIONS; Runtime.on_event := on_event; Runtime.on_answer := on_answer |}.
End IndexManagement.

(** ** What an update names *)

Section Facts.
Variable reset_reports : bool.
Abbreviation Page := (index_page reset_reports).

Definition ACTIONS : list string := [CLOSE_INDICES; BACKUP_INDICES; DELETE_INDICES].

(** Every index the page knows satisfies [P]; the action is one of the three. *)
Definition knows (P : string -> Prop) (s : ElasticsearchIndexManagementComponent) : Prop :=
  Forall P (index_list s) /\ Forall P (index <$> indices s) /\ value <$> actions s = ACTIONS /\
  forall a, action s = Some a -> a ∈ ACTIONS.

Definition is_update (c : call) : bool := match c with CIndexManagement _ => true | _ => false end.
Definition no_update (e : effect call False) : Prop := only (fun c => is_update c = false) e.
Lemma no_update_call c : is_update c = false -> no_update (Subscribe c).
Proof. by intros H ? [= <-]. Qed.
Lemma no_update_title t : no_update (SetTitle t).
Proof. by intros ?. Qed.
#[local] Hint Resolve no_update_call no_update_title : handler.

Lemma set_backup_values b t l : value <$> set_backup_in b t l = value <$> l.
Proof.
  induction l as [|a l IH]; [done|]. cbn [set_backup_in]. destruct (value a === BACKUP_INDICES); [done|].
  by rewrite !fmap_cons, IH.
Qed.

Lemma knows_fresh P l s : Forall P l -> knows P s ->
  knows P (with_groups (action s) l s).
Proof. by intros Hl (_ & H2 & H3 & H4). Qed.

Section Known.
Variable P : string -> Prop.
Lemma safe_reset : safe (knows P) no_update (reset_form_ reset_reports).
Proof.
  unfold reset_form_, stepper_reset, initialize_form_groups_, get.
  safe_auto; unfold knows in *; simpl; intuition; by constructor.
Qed.
#[local] Hint Resolve safe_reset : handler.

Lemma safe_next : safe (knows P) no_update (next reset_reports).
Proof.
  unfold next, ask_for, get, api_get_closed_indices_, api_get_all_indices_.
  safe_auto; try done; auto with handler.
Qed.
#[local] Hint Resolve safe_next : handler.

Lemma safe_forward : safe (knows P) no_update (stepper_forward reset_reports).
Proof. unfold stepper_forward, stepper_change, get. safe_auto; done. Qed.
#[local] Hint Resolve safe_forward : handler.

Lemma safe_backup b e : safe (knows P) no_update (set_backup_option_ b e).
Proof.
  unfold set_backup_option_. safe_auto. unfold knows, with_actions in *. cbn [action index_list indices actions].
  rewrite set_backup_values. intuition.
Qed.
#[local] Hint Resolve safe_backup : handler.

Lemma safe_received l : Forall P (index <$> l) -> safe (knows P) no_update (indices_return_actions_ reset_reports l).
Proof. intros Hl. unfold indices_return_actions_. safe_auto; unfold knows in *; simpl; intuition. Qed.

Lemma safe_page_event e : e <> UpdateClick -> safe (knows P) no_update (on_event reset_reports e).
Proof.
  intros He s Hs. unfold on_event, get. rewrite (bind_run_silent _ _ s s s) by done.
  assert (Hq : forall m : M unit, safe (knows P) no_update m ->
    knows P (state_of (m s)) /\ Forall no_update (effects_of (m s))) by (intros m Hm; by apply Hm).
  destruct e; [| | | | | |done].
  - apply Hq. unfold ngOnInit, initialize_form_groups_, api_minio_check_. safe_auto; auto with handler.
    unfold knows in *. simpl. intuition. by constructor.
  - destruct (_ && _) eqn:E; [|by split]. split; [|constructor]. apply andb_true_iff in E as [_ E].
    destruct Hs as (H1 & H2 & H3 & H4). split_and!; try done. intros a [= <-].
    unfold offered in E. apply existsb_exists in E as (x & Hx & [Hv _]%andb_true_iff). apply seqb_eq in Hv as <-.
    rewrite <- H3. apply list_elem_of_fmap. exists x. split; [done|]. by apply list_elem_of_In.
  - apply Hq. safe_auto.
  - apply Hq. safe_auto.
  - destruct (_ && _) eqn:E; [|by split]. split; [|constructor]. apply knows_fresh; [|done].
    apply andb_true_iff in E as [_ E]. apply Forall_forall. intros i Hi. rewrite forallb_forall in E.
    rewrite list_elem_of_In in Hi. apply E, includes_elem_of in Hi.
    destruct Hs as (_ & H2 & _). rewrite Forall_forall in H2. by apply H2.
  - apply Hq. unfold back. safe_auto.
Qed.

(** The indices an answer brings. *)
Definition brought (l : label event Ans) : list string :=
  match l with
  | Answered CClosedIndices (Next r) | Answered CAllIndices (Next r) => index <$> r
  | _ => []
  end.

Lemma safe_answered c a : Forall P (brought (Answered c a)) -> safe (knows P) no_update (on_answer reset_reports c a).
Proof.
  intros Hb. destruct c; simpl in *.
  - destruct a as [[r|]|e]; simpl; safe_auto.
  - destruct a as [r|e]; simpl; [by apply safe_received|]. safe_auto; done.
  - destruct a as [r|e]; simpl; [safe_auto|]. destruct e; safe_auto.
  - destruct a as [r|e]; simpl; [by apply safe_received|]. safe_auto; done.
Qed.
End Known.

Lemma turn_knows P l s : Forall P (brought l) -> knows P s -> knows P (state_of (react (K := Page) l s)).
Proof.
  intros Hb Hs. destruct l as [e|c a]; [|by apply (safe_answered P c a Hb)].
  assert (e = UpdateClick \/ e <> UpdateClick) as [->|He] by (destruct e; auto; by right); [|by apply (safe_page_event P e He)].
  simpl. unfold on_event, get. rewrite (bind_run_silent _ _ s s s) by done. by destruct (_ && _).
Qed.

(** An index some earlier turn has brought. *)
Definition reported (tr : list (label event Ans * list (effect call False))) (i : string) : Prop := exists l es, (l, es) ∈ tr /\ i ∈ brought l.

Lemma trace_knows tr w : trace (K := Page) (fun _ => True) tr w -> knows (reported tr) (component w).
Proof.
  induction 1 as [|tr w l w' Htr IH _ Hstep].
  - split_and!; [constructor|constructor|done|done].
  - rewrite (step_component _ _ _ Hstep). apply turn_knows.
    + apply Forall_forall. intros i Hi. exists l, (made (K := Page) l w). split; [set_solver|done].
    + assert (Hm : forall i, reported tr i -> reported (tr ++ [(l, made (K := Page) l w)]) i)
        by (intros i (l' & es & ? & ?); exists l', es; set_solver).
      destruct IH as (H1 & H2 & H3 & H4). split_and!; [by eapply Forall_impl|by eapply Forall_impl|done|done].
Qed.

(** An update is requested only by its button, on the second step; it names
    one of the three actions and at least one index, and every index it names was
    brought by the answer of an earlier request for indices, however the answers,
    the steps and the choices were interleaved. *)
Theorem updates_name_reported_indices tr w l w' o :
  trace (K := Page) (fun _ => True) tr w -> step (K := Page) w l w' ->
  Subscribe (CIndexManagement o) ∈ made (K := Page) l w ->
  l = Event UpdateClick /\ selectedIndex (component w) = 1 /\
  (forall a, im_action o = Some a -> a ∈ ACTIONS) /\ im_index_list o <> [] /\ Forall (reported tr) (im_index_list o).
Proof.
  intros Htr _ Hin. destruct (trace_knows tr w Htr) as (H1 & H2 & H3 & H4). set (s := component w) in *.
  assert (Hl : l = Event UpdateClick).
  { destruct l as [e|c a].
    - assert (e = UpdateClick \/ e <> UpdateClick) as [->|He] by (destruct e; auto; by right); [done|].
      destruct (safe_page_event (reported tr) e He s) as [_ HF]; [by split_and!|]. rewrite Forall_forall in HF.
      by specialize (HF _ Hin (CIndexManagement o) eq_refl).
    - destruct (safe_answered (fun _ => True) c a) with (s := s) as [_ HF]; [by apply Forall_true| |].
      { split_and!; [by apply Forall_true|by apply Forall_true|done|done]. }
      rewrite Forall_forall in HF. by specialize (HF _ Hin (CIndexManagement o) eq_refl). }
  subst l. unfold made in Hin. simpl in Hin. unfold on_event, get in Hin.
  rewrite (bind_run_silent _ _ s s s) in Hin by done.
  destruct (on_step 1 s) eqn:E1; [|by apply not_elem_of_nil in Hin].
  destruct (is_index_list_empty s) eqn:E2; [by apply not_elem_of_nil in Hin|]. simpl in Hin.
  apply elem_of_cons in Hin as [[= ->]|?%not_elem_of_nil]; [|done]. simpl.
  split_and!; [done|by apply Nat.eqb_eq in E1|done| |done]. intros E. unfold is_index_list_empty in E2. by rewrite E in E2.
Qed.

(** A list that arrives after the user went back stays, and marks the next step as
    made by the page: the indices that were asked for to be closed are offered,
    and deleted, under another action, without a new request. *)
Lemma late_list_is_deleted : exists tr w,
  trace (K := Page) (fun _ => True) tr w /\ Forall (fun x => Subscribe CClosedIndices ∉ snd x) tr /\
  Subscribe (CIndexManagement {| im_action := Some DELETE_INDICES; im_index_list := ["logs"] |}) ∈
    made (K := Page) (Event UpdateClick) w.
Proof.
  pose proof (trace_start (K := Page) (fun _ => True)) as T.
  apply (trace_event _ _ _ (ChooseAction CLOSE_INDICES)) in T; [|exact I].
  apply (trace_event _ _ _ HeaderClick) in T; [|exact I].
  apply (trace_event _ _ _ BackClick) in T; [|exact I].
  apply (trace_answer _ _ _ [] CAllIndices [] (Next [{| index := "logs"; size := "1gb" |}])) in T;
    [|exact I|by destruct reset_reports].
  apply (trace_event _ _ _ (ChooseAction DELETE_INDICES)) in T; [|exact I].
  apply (trace_event _ _ _ HeaderClick) in T; [|exact I].
  apply (trace_event _ _ _ (SelectIndices ["logs"])) in T; [|exact I].
  match type of T with trace _ ?tr ?w => exists tr, w end. split; [exact T|].
  clear T. destruct reset_reports; vm_compute.
  all: split; [repeat constructor; intros H; repeat (apply elem_of_cons in H as [H|H]; [done|]);
               by apply not_elem_of_nil in H | left].
Qed.
End Facts.

Lemma updates_name_reported_indices_witness : exists tr w,
  trace (K := index_page true) (fun _ => True) tr w /\
  Subscribe (CIndexManagement {| im_action := Some CLOSE_INDICES; im_index_list := ["logs"] |}) ∈
    made (K := index_page true) (Event UpdateClick) w /\ Forall (reported tr) ["logs"].
Proof.
  pose proof (trace_start (K := index_page true) (fun _ => True)) as T.
  apply (trace_event _ _ _ NgOnInit) in T; [|exact I].
  apply (trace_event _ _ _ (ChooseAction CLOSE_INDICES)) in T; [|exact I].
  apply (trace_event _ _ _ NextClick) in T; [|exact I].
  apply (trace_answer _ _ _ [CMinioCheck] CAllIndices [] (Next [{| index := "logs"; size := "1gb" |}])) in T;
    [|exact I|reflexivity].
  apply (trace_event _ _ _ (SelectIndices ["logs"])) in T; [|exact I].
  match type of T with trace _ ?tr ?w => set (w1 := w) in T; exists tr, w1 end.
  assert (Hin : Subscribe (CIndexManagement {| im_action := Some CLOSE_INDICES; im_index_list := ["logs"] |}) ∈
    made (K := index_page true) (Event UpdateClick) w1) by (vm_compute; left).
  split; [exact T|]. split; [exact Hin|].
  by destruct (updates_name_reported_indices true _ _ _ _ _ T (step_event (K := index_page true) w1 UpdateClick) Hin)
    as (_ & _ & _ & _ & H).
Defined.
