(* ===== verification/ConfigMap.v ===== *)
(** modules/config-map: the table of the config maps and the editing of their data.

    The rows, the editor and the callbacks share the objects: a config map lives
    in a store, and an edit changes the object the table shows.  Its data are an
    object from file names to texts, kept as the list of its properties in the
    order of their creation; the names of inherited properties are left aside. *)
From S2P Require Import Prelude Handler JsValue Runtime Data Api Sorting TextEditor.

(** ** Objects from texts to texts *)

Abbreviation KeyStringValueStringPairInterface := (list (string * string)).

Fixpoint text_get (k : string) (o : KeyStringValueStringPairInterface) : option string :=
  match o with
  | [] => None
  | (j, v) :: r => if j === k then Some v else text_get k r
  end.
Fixpoint text_set (k v : string) (o : KeyStringValueStringPairInterface) : KeyStringValueStringPairInterface :=
  match o with
  | [] => [(k, v)]
  | (j, w) :: r => if j === k then (j, v) :: r else (j, w) :: text_set k v r
  end.
Definition text_delete (k : string) (o : KeyStringValueStringPairInterface) : KeyStringValueStringPairInterface :=
  List.filter (fun x => negb (fst x === k)) o.

(** [Object.entries] *)
Definition text_entries (o : KeyStringValueStringPairInterface) : list (string * string) :=
  omap (fun k => (fun v => (k, v)) <$> text_get k o) (keys_in_order o.*1).

Lemma text_get_set k v j o : text_get j (text_set k v o) = if k === j then Some v else text_get j o.
Proof.
  induction o as [|[i w] o IH]; simpl; [done|].
  destruct (i === k) eqn:E; simpl.
  - apply seqb_eq in E as ->. by destruct (k === j).
  - destruct (i === j) eqn:E'; [|done]. apply seqb_eq in E' as ->. apply seqb_neq in E.
    by rewrite (proj2 (seqb_neq k j)) by congruence.
Qed.

Lemma text_set_keys k v o : (text_set k v o).*1 = if includes o.*1 k then o.*1 else o.*1 ++ [k].
Proof.
  unfold includes. induction o as [|[j w] o IH]; [done|].
  cbn [text_set]. rewrite fmap_cons. cbn [fst existsb].
  destruct (j === k); rewrite fmap_cons; cbn [orb fst]; [done|].
  rewrite IH. by destruct (existsb _ o.*1).
Qed.

Lemma text_set_NoDup k v o : NoDup o.*1 -> NoDup (text_set k v o).*1.
Proof.
  intros H. rewrite text_set_keys. destruct (includes o.*1 k) eqn:E; [done|].
  apply NoDup_app. split_and!; [done| |apply NoDup_singleton].
  intros j Hj ->%list_elem_of_singleton. apply includes_elem_of in Hj. congruence.
Qed.

Lemma text_get_elem k v o : NoDup o.*1 -> text_get k o = Some v <-> (k, v) ∈ o.
Proof.
  induction o as [|[j w] o IH]; simpl; [intros _; split; [done|by intros ?%not_elem_of_nil]|].
  intros [Hj Hnd]%NoDup_cons. rewrite elem_of_cons. destruct (j === k) eqn:E.
  - apply seqb_eq in E as ->. split; [intros [= ->]; by left|]. intros [[= ->]|Hin]; [done|].
    exfalso. apply Hj, list_elem_of_fmap. by exists (k, v).
  - apply seqb_neq in E. rewrite IH by done. split; [by right|]. by intros [[= -> ->]|].
Qed.

(** ** The classes *)

Record ConfigMapMetadataClass := {
  cmm_name : string;
  cmm_namespace : string;
  creation_timestamp : string;
  cmm_uid : string;
}.

(** classes/config-map.class.ts: [data] may be missing and is set to null. *)
Record ConfigMapClass := {
  data : option KeyStringValueStringPairInterface;
  metadata : ConfigMapMetadataClass;
}.
Definition set_data v (c : ConfigMapClass) : ConfigMapClass := {| data := v; metadata := metadata c |}.

Record KubernetesConfigClass := { items : list ConfigMapClass }.
Record AssociatedPodClass := { podName : string; ap_namespace : string }.
Record ConfigMapEditClass := { cme_name : string }.
Record ConfigMapSaveInterface := { configMap : ConfigMapClass; associatedPods : list AssociatedPodClass }.

Definition get_config_maps : service unit KubernetesConfigClass KubernetesConfigClass :=
  Service GET "/api/kubernetes/configmaps" tt "get config maps" copied.
Definition edit_config_map (c : ConfigMapSaveInterface) : service ConfigMapSaveInterface ConfigMapEditClass ConfigMapEditClass :=
  Service PUT "/api/kubernetes/configmap" c "edit config map" copied.
Definition get_associated_pods (config_map_name : string) : service unit (list AssociatedPodClass) (list AssociatedPodClass) :=
  Service GET ("/api/kubernetes/associated/pods/" +:+ config_map_name) tt "get associated pods" copied.

Definition CONFIG_MAPS_TITLE : string := "Config Maps".
Definition CLOSE_CONFIRM_ACTION_CONFIGURATION : ConfirmActionConfigurationInterface :=
  {| ca_title := "Close without saving";
     ca_message := "Are you sure you want to close this editor? All changes will be discarded.";
     confirmButtonText := "Close"; successText := "Closed without saving"; failText := "";
     useGeneralActionFunc := true |}.

(** ** The page *)

(** The dialog that asks for a file name returns its form. *)
Record name_form := { nf_valid : bool; nf_name : string }.

(** The subscriptions with what their callbacks captured; a request carries the
    body it was sent with. *)
Inductive call : Type :=
| CConfigMaps
| CEditConfigMap (body : ConfigMapSaveInterface) (config_map : loc) (ced_success ced_error name : string)
| CAssociatedPods (config_map_data : option string) (name : string) (config_map : loc) (config_map_name : string)
| DName (config_map : loc)
| DDelete (name : string) (config_map : loc) (dialog : ConfirmDialogMatDialogDataInterface)
| DEditor (configuration : TextEditorConfigurationInterface) (name : string) (config_map : loc)
    (pods : list AssociatedPodClass).

Definition Ans (c : call) : Type :=
  match c with
  | CConfigMaps => answer KubernetesConfigClass
  | CEditConfigMap _ _ _ _ _ => answer ConfigMapEditClass
  | CAssociatedPods _ _ _ _ => answer (list AssociatedPodClass)
  | DName _ => option name_form
  | DDelete _ _ _ | DEditor _ _ _ _ => option string
  end.

(** [loading] is assigned when the page starts. *)
Record ConfigmapsComponent := {
  loading : option bool;
  config_maps : list loc;
  config_map_visible : list bool;
  controller_maintainer : bool;
  controller_admin_ : bool;
  objects_ : store ConfigMapClass;
}.
Abbreviation M := (handler ConfigmapsComponent (effect call False)).

Definition with_loading v s :=
  {| loading := Some v; config_maps := config_maps s; config_map_visible := config_map_visible s;
     controller_maintainer := controller_maintainer s; controller_admin_ := controller_admin_ s; objects_ := objects_ s |}.
Definition with_maps m h s :=
  {| loading := loading s; config_maps := m; config_map_visible := config_map_visible s;
     controller_maintainer := controller_maintainer s; controller_admin_ := controller_admin_ s; objects_ := h |}.
Definition with_visible v s :=
  {| loading := loading s; config_maps := config_maps s; config_map_visible := v;
     controller_maintainer := controller_maintainer s; controller_admin_ := controller_admin_ s; objects_ := objects_ s |}.
Definition with_objects h s := with_maps (config_maps s) h s.

Definition constructor (isControllerMaintainer isControllerAdmin : bool) : ConfigmapsComponent :=
  {| loading := None; config_maps := []; config_map_visible := [];
     controller_maintainer := isControllerMaintainer; controller_admin_ := isControllerAdmin; objects_ := store_empty |}.

Definition get : M ConfigmapsComponent := gets (fun s => s).
Definition map_at (p : loc) : M ConfigMapClass := s <- get ;; deref (load (objects_ s) p).
Definition change_map (p : loc) (f : ConfigMapClass -> ConfigMapClass) : M unit :=
  modify (fun s => with_objects (update p f (objects_ s)) s).

(** *** Methods without effects *)

Definition config_map_data_keys (d : KeyStringValueStringPairInterface) : list string := keys_in_order d.*1.
Definition is_config_map_data_defined (config : ConfigMapClass) : bool := notUndefNull (data config).

Definition get_config_map_index_ (p : loc) (s : ConfigmapsComponent) : Z :=
  findIndex (fun q => Nat.eqb q p) (config_maps s).

(** Reading and writing a list at an index that may be -1: an array takes the
    latter as a property that is no element. *)
Definition visible_at (i : Z) (l : list bool) : bool :=
  if (i <? 0)%Z then false else default false (l !! Z.to_nat i).
Definition set_visible (i : Z) (v : bool) (l : list bool) : list bool :=
  if (i <? 0)%Z then l else <[Z.to_nat i := v]> l.

Definition is_config_map_expansion_row_visible (p : loc) (s : ConfigmapsComponent) : bool :=
  visible_at (get_config_map_index_ p s) (config_map_visible s).

Definition toggle_table_row_expansion (p : loc) : M unit :=
  modify (fun s => let i := get_config_map_index_ p s in
                   with_visible (set_visible i (negb (visible_at i (config_map_visible s))) (config_map_visible s)) s).

(** What the editor is opened with. *)
Definition save_confirmation (name save_message : string) : ConfirmActionConfigurationInterface :=
  {| ca_title := "Close and save"; ca_message := save_message; confirmButtonText := "Save";
     successText := "Saved config map data: " +:+ name; failText := "Could not save"; useGeneralActionFunc := true |}.
Definition text_editor_configuration (s : ConfigmapsComponent) (name : string) (c : ConfigMapClass)
    (save_message : string) : TextEditorConfigurationInterface :=
  {| show_options := controller_maintainer s || controller_admin_ s;
     is_read_only := negb (controller_maintainer s) || negb (controller_admin_ s);
     te_title := (if negb (controller_maintainer s) then "Viewing" else "Editing") +:+ " config map data: " +:+ name;
     te_text := match data c with Some d => default "" (text_get name d) | None => "" end;
     use_language := if endsWith name ".yml" || endsWith name ".yaml" then "yaml" else "txt";
     display_save := JBool (controller_maintainer s || controller_admin_ s);
     disable_save := Some (negb (controller_maintainer s) || negb (controller_admin_ s));
     confirm_save := Some (save_confirmation name save_message);
     confirm_close := Some CLOSE_CONFIRM_ACTION_CONFIGURATION |}.

Definition open_text_editor_ (name : string) (p : loc) (save_message : string) (pods : list AssociatedPodClass) : M unit :=
  c <- map_at p ;; s <- get ;;
  emit (Subscribe (DEditor (text_editor_configuration s name c save_message) name p pods)).

(** *** The requests *)

Definition api_get_config_maps_ : M unit := emit (Subscribe CConfigMaps).

Definition api_get_associated_pods_ (config_map_data : option string) (name : string) (p : loc) : M unit :=
  c <- map_at p ;; emit (Subscribe (CAssociatedPods config_map_data name p (cmm_name (metadata c)))).

(** The data of a config map after an edit, with the word for what was done. *)
Definition edited_data (config_map_data : option string) (name : string) (d : option KeyStringValueStringPairInterface)
    : outcome (option KeyStringValueStringPairInterface * string * string) :=
  match config_map_data with
  | Some text =>
      match d with
      | Some d =>
          match text_get name d with
          | Some _ => Ret (Some (text_set name text d), "edited", "editing")
          | None => Ret (Some (text_set name text d), "created", "creating")
          end
      | None => Ret (Some [(name, text)], "created", "creating")
      end
  | None =>
      match d with
      | Some d =>
          let d := text_delete name d in
          Ret (match config_map_data_keys d with [] => None | _ => Some d end, "deleted", "deleting")
      | None => Exn "TypeError"
      end
  end.

(** The copy the method makes is of the array around the config map: the object
    itself is changed, and sent. *)
Definition api_edit_config_map_ (config_map_data : option string) (name : string) (p : loc)
    (pods : list AssociatedPodClass) : M unit :=
  c <- map_at p ;;
  match edited_data config_map_data name (data c) with
  | Exn e => throw e
  | Ret (d, success, error) =>
      change_map p (set_data d) ;;;
      c <- map_at p ;;
      emit (Subscribe (CEditConfigMap {| configMap := c; associatedPods := pods |} p success error name))
  end.

(** *** The methods of the table *)

Definition ngOnInit : M unit :=
  emit (SetTitle CONFIG_MAPS_TITLE) ;;; modify (with_loading true) ;;; api_get_config_maps_.

Definition edit_config_map_data (name : string) (p : loc) : M unit :=
  c <- map_at p ;; d <- deref (data c) ;; api_get_associated_pods_ (text_get name d) name p.
Definition view_config_map_data (name : string) (p : loc) : M unit := open_text_editor_ name p "" [].
Definition create_config_map_data (p : loc) : M unit := emit (Subscribe (DName p)).
Definition create_closed (p : loc) (response : option name_form) : M unit :=
  match response with
  | Some f => when (nf_valid f) (api_get_associated_pods_ (Some "") (nf_name f) p)
  | None => ret tt
  end.

Definition delete_config_map_data (name : string) (p : loc) : M unit :=
  emit (Subscribe (DDelete name p
    {| title := "Delete config map data: " +:+ name;
       message := "Are you sure you want to remove this data entry from the config map?";
       option1 := CANCEL_DIALOG_OPTION; option2 := "Delete"; message_double_confirm := None |})).
Definition delete_closed (name : string) (p : loc) (response : option string) : M unit :=
  when (response ?=== "Delete")
    (api_get_associated_pods_ None name p ;;;
     displaySnackBar ("Deleting config map data: " +:+ name) (Some MAT_SNACKBAR_CONFIGURATION_60000_DUR)).

Definition editor_closed (name : string) (p : loc) (pods : list AssociatedPodClass) (response : option string) : M unit :=
  match response with
  | Some text => api_edit_config_map_ (Some text) name p pods
  | None => ret tt
  end.

(** *** The answers *)

Definition api_get_config_maps_answer (a : answer KubernetesConfigClass) : M unit :=
  match a with
  | Next response =>
      modify (fun s => let '(ps, h) := alloc_list (items response) (objects_ s) in
                       with_visible (replicate (length ps) false) (with_maps ps h s)) ;;;
      modify (with_loading false)
  | Error e => on_error "getting config maps" e
  end.

(** [Object.entries(data).sort().reduce(...)]: entries are compared as the texts
    "name,value". *)
Definition entry_compare (a b : string * string) : Z :=
  code_compare (fst a +:+ "," +:+ snd a) (fst b +:+ "," +:+ snd b).
Definition sorted_data (d : KeyStringValueStringPairInterface) : KeyStringValueStringPairInterface :=
  fold_left (fun o x => text_set (fst x) (snd x) o) (js_sort entry_compare (text_entries d)) [].

Definition sort_data (c : ConfigMapClass) : ConfigMapClass :=
  match data c with
  | Some d => if Nat.ltb 1 (length (config_map_data_keys d)) then set_data (Some (sorted_data d)) c else c
  | None => c
  end.

Definition api_edit_config_map_answer (p : loc) (success error name : string) (a : answer ConfigMapEditClass) : M unit :=
  match a with
  | Next _ =>
      c <- map_at p ;;
      change_map p sort_data ;;;
      modify (fun s => with_visible (set_visible (get_config_map_index_ p s) true (config_map_visible s)) s) ;;;
      generate_return_success_snackbar_message (success +:+ " config map data: " +:+ name) None
  | Error e => on_error (error +:+ " config map data: " +:+ name) e
  end.

Definition bounce_message (pods : list AssociatedPodClass) : string :=
  "Are you sure you want to save this configuration? Doing so will cause " +:+
  join_with ", " (podName <$> pods) +:+
  " to bounce on your Kubernetes cluster which will bring certain services down for a couple of minutes.".

Definition api_get_associated_pods_answer (config_map_data : option string) (name : string) (p : loc)
    (config_map_name : string) (a : answer (list AssociatedPodClass)) : M unit :=
  match a with
  | Next response =>
      match config_map_data with
      | Some _ => open_text_editor_ name p (bounce_message response) response
      | None => api_edit_config_map_ None name p response
      end
  | Error e => on_error ("getting associated pods: " +:+ config_map_name) e
  end.

(** *** The turns: the buttons of a row and of a file the table shows *)

Inductive event : Type :=
| NgOnInit
| Toggle (p : loc)
| EditClick (name : string) (p : loc)
| ViewClick (name : string) (p : loc)
| CreateClick (p : loc)
| DeleteClick (name : string) (p : loc).

Definition listed (p : loc) (s : ConfigmapsComponent) : bool := existsb (Nat.eqb p) (config_maps s).
Definition file_listed (name : string) (p : loc) (s : ConfigmapsComponent) : bool :=
  listed p s && match load (objects_ s) p with
                | Some c => match data c with Some d => includes (config_map_data_keys d) name | None => false end
                | None => false
                end.

Definition on_event (e : event) : M unit :=
  s <- get ;;
  match e with
  | NgOnInit => ngOnInit
  | Toggle p => when (listed p s) (toggle_table_row_expansion p)
  | EditClick name p => when (file_listed name p s && controller_maintainer s) (edit_config_map_data name p)
  | ViewClick name p => when (file_listed name p s && negb (controller_maintainer s)) (view_config_map_data name p)
  | CreateClick p => when (listed p s && controller_maintainer s) (create_config_map_data p)
  | DeleteClick name p => when (file_listed name p s && controller_maintainer s) (delete_config_map_data name p)
  end.

Definition on_answer (c : call) : Ans c -> M unit :=
  match c with
  | CConfigMaps => api_get_config_maps_answer
  | CEditConfigMap _ p success error name => api_edit_config_map_answer p success error name
  | CAssociatedPods d name p n => api_get_associated_pods_answer d name p n
  | DName p => create_closed p
  | DDelete name p _ => delete_closed name p
  | DEditor _ name p pods => editor_closed name p pods
  end.

Definition config_map_page (maintainer admin : bool) : Component ConfigmapsComponent call False event Ans :=
  {| initial := constructor maintainer admin; Runtime.on_event := on_event; Runtime.on_answer := on_answer |}.

(** ** Sorting keeps the data *)

Lemma text_entries_permutation d : NoDup d.*1 -> text_entries d ≡ₚ d.
Proof.
  intros Hnd. unfold text_entries. rewrite keys_in_order_permutation.
  assert (H : forall l, l ⊆ d -> omap (fun k => (fun v => (k, v)) <$> text_get k d) l.*1 = l).
  { induction l as [|[k v] l IH]; intros Hl; [done|]. rewrite fmap_cons. simpl.
    rewrite (proj2 (text_get_elem k v d Hnd)) by (apply Hl; left). simpl. f_equal. apply IH. set_solver. }
  by rewrite H.
Qed.

Lemma fold_set_entries l acc : NoDup (acc ++ l).*1 ->
  fold_left (fun o x => text_set (fst x) (snd x) o) l acc = acc ++ l.
Proof.
  revert acc. induction l as [|[k v] l IH]; intros acc Hnd; simpl; [by rewrite app_nil_r|].
  assert (Hset : text_set k v acc = acc ++ [(k, v)]).
  { rewrite fmap_app, fmap_cons in Hnd. apply NoDup_app in Hnd as (_ & Hd & _).
    assert (Hk : k ∉ acc.*1) by (intros Hk; by apply (Hd k Hk), elem_of_cons; left).
    clear -Hk. induction acc as [|[j w] acc IH]; [done|]. rewrite fmap_cons in Hk. apply not_elem_of_cons in Hk as [Hne Hk].
    simpl. rewrite (proj2 (seqb_neq j k)) by (simpl in Hne; congruence). by rewrite IH. }
  rewrite Hset, IH by (by rewrite <- app_assoc). by rewrite <- app_assoc.
Qed.

Lemma sorted_data_permutation d : NoDup d.*1 -> sorted_data d ≡ₚ d /\ NoDup (sorted_data d).*1.
Proof.
  intros Hnd. assert (Hp : js_sort entry_compare (text_entries d) ≡ₚ d)
    by (by rewrite js_sort_permutation, text_entries_permutation).
  unfold sorted_data. assert (Hs : NoDup (js_sort entry_compare (text_entries d)).*1) by (by rewrite Hp).
  rewrite (fold_set_entries _ []) by done. done.
Qed.

Lemma sorted_data_get k d : NoDup d.*1 -> text_get k (sorted_data d) = text_get k d.
Proof.
  intros Hnd. destruct (sorted_data_permutation d Hnd) as [Hp Hs]. apply option_eq. intros v.
  by rewrite !text_get_elem, Hp by done.
Qed.

Lemma entry_compare_sorted l : StronglySorted (cmp_le entry_compare) (js_sort entry_compare l).
Proof.
  apply js_sort_sorted; [intros; apply code_compare_antisym|intros x y z; apply code_compare_trans].
Qed.

Lemma sorted_data_sorted d : NoDup d.*1 -> StronglySorted (cmp_le entry_compare) (sorted_data d).
Proof.
  intros Hnd. unfold sorted_data. rewrite (fold_set_entries _ []); [apply entry_compare_sorted|].
  simpl. by rewrite js_sort_permutation, text_entries_permutation.
Qed.

(** The data a config map has after an edit, as a function of the names. *)
Lemma edited_data_get config_map_data name d d' success error k :
  edited_data config_map_data name d = Ret (d', success, error) ->
  (d' ≫= text_get k) = if name === k then config_map_data else (d ≫= text_get k).
Proof.
  unfold edited_data. destruct config_map_data as [text|].
  - destruct d as [d|]; [destruct (text_get name d)|]; intros [= <- _ _]; simpl; rewrite ?text_get_set; try done.
  - destruct d as [d|]; [|done]. intros [= Hd _ _].
    assert (Hdel : text_get k (text_delete name d) = if name === k then None else text_get k d).
    { clear. unfold text_delete. induction d as [|[j w] d IH]; simpl; [by destruct (name === k)|].
      destruct (j === name) eqn:E; simpl.
      - apply seqb_eq in E as ->. rewrite IH. by destruct (name === k).
      - destruct (j === k) eqn:E'; [|done]. apply seqb_eq in E' as ->. apply seqb_neq in E.
        by rewrite (proj2 (seqb_neq name k)) by congruence. }
    simpl. rewrite <- Hdel. subst d'. unfold config_map_data_keys.
    destruct (text_delete name d) as [|[j w] r]; [done|]. destruct (keys_in_order ((j, w) :: r).*1) eqn:E; [|done].
    pose proof (keys_in_order_permutation ((j, w) :: r).*1) as Hp. rewrite E in Hp.
    by apply Permutation_nil in Hp.
Qed.

(** An edit changes the object the table shows when it is sent, so the table
    shows it before the request is answered, and still after the request failed;
    a request that succeeds leaves every file as it was sent, with the entries in
    the order of their texts. *)
Theorem edits_show_before_they_are_saved config_map_data name p pods s c d success error :
  load (objects_ s) p = Some c -> edited_data config_map_data name (data c) = Ret (Some d, success, error) ->
  NoDup d.*1 ->
  exists s1, api_edit_config_map_ config_map_data name p pods s =
    (Ret tt, s1, [Subscribe (CEditConfigMap {| configMap := set_data (Some d) c; associatedPods := pods |} p success error name)]) /\
  load (objects_ s1) p = Some (set_data (Some d) c) /\
  (forall e, state_of (api_edit_config_map_answer p success error name (Error e) s1) = s1) /\
  exists d2, load (objects_ (state_of (api_edit_config_map_answer p success error name
                    (Next {| cme_name := name |}) s1))) p = Some (set_data (Some d2) c) /\
    (forall k, text_get k d2 = text_get k d) /\ (1 < length d -> StronglySorted (cmp_le entry_compare) d2).
Proof.
  intros Hl He Hnd. unfold api_edit_config_map_, map_at, get.
  exists (with_objects (update p (set_data (Some d)) (objects_ s)) s).
  assert (Hl1 : load (update p (set_data (Some d)) (objects_ s)) p = Some (set_data (Some d) c))
    by (by rewrite load_update_eq, Hl).
  split_and!.
  - unfold bind, gets, deref, ret, change_map, modify, emit. rewrite Hl. simpl. rewrite He. simpl. by rewrite Hl1.
  - exact Hl1.
  - done.
  - unfold api_edit_config_map_answer, map_at, get, bind, gets, deref, change_map, modify. simpl. rewrite Hl1. simpl.
    exists (if Nat.ltb 1 (length (config_map_data_keys d)) then sorted_data d else d).
    rewrite load_update_eq, Hl1. unfold sort_data. simpl. split_and!.
    + by destruct (length (config_map_data_keys d)) as [|[|]].
    + intros k. destruct (Nat.ltb 1 _); [by apply sorted_data_get|done].
    + intros Hlen. assert (Hk : length (config_map_data_keys d) = length d)
        by (unfold config_map_data_keys; by rewrite keys_in_order_permutation, length_fmap).
      rewrite Hk. destruct (Nat.ltb_spec 1 (length d)); [by apply sorted_data_sorted|lia].
Qed.

(** ** What changes a config map *)

(** The body of an edit: the config map with one file set or removed. *)
Definition sends (t : option string) (name : string) (p : loc) (pods : list AssociatedPodClass)
    (s : ConfigmapsComponent) (body : ConfigMapSaveInterface) : Prop :=
  exists c, load (objects_ s) p = Some c /\ metadata (configMap body) = metadata c /\ associatedPods body = pods /\
    forall k, (data (configMap body) ≫= text_get k) = if name === k then t else (data c ≫= text_get k).

(** An editor whose save button is disabled closes without a text, which
    TextEditor.v proves of the dialog. *)
Definition editors_respected (l : label event Ans) : Prop :=
  match l with
  | Answered (DEditor configuration _ _ _) (Some _) => disable_save configuration <> Some true
  | _ => True
  end.

Section Page.
Variables maintainer admin : bool.
Abbreviation ConfigMaps := (config_map_page maintainer admin).

Definition roles (s : ConfigmapsComponent) : Prop :=
  controller_maintainer s = maintainer /\ controller_admin_ s = admin.

(** What a turn may subscribe to. *)
Definition allowed (l : label event Ans) (s : ConfigmapsComponent) (c : call) : Prop :=
  match c with
  | DDelete _ _ _ => maintainer = true
  | DEditor configuration _ _ _ => disable_save configuration = Some (negb maintainer || negb admin)
  | CAssociatedPods None name p _ => exists d, l = Answered (DDelete name p d) (Some "Delete")
  | CEditConfigMap body p _ _ name =>
      (exists cfg text pods, l = Answered (DEditor cfg name p pods) (Some text) /\ sends (Some text) name p pods s body) \/
      (exists n pods, l = Answered (CAssociatedPods None name p n) (Next pods) /\ sends None name p pods s body)
  | _ => True
  end.

Definition lawful (l : label event Ans) (s : ConfigmapsComponent) (m : M unit) : Prop :=
  roles (state_of (m s)) /\ forall c, Subscribe c ∈ effects_of (m s) -> allowed l s c.

Lemma lawful_quiet l s m : safe roles (fun e => forall c, e <> Subscribe c) m -> roles s -> lawful l s m.
Proof.
  intros Hm Hs. destruct (Hm s Hs) as [H1 H2]. split; [done|]. intros c Hc.
  rewrite Forall_forall in H2. by destruct (H2 _ Hc c).
Qed.

Lemma lawful_one l s m c :
  safe roles (fun e => forall c', e = Subscribe c' -> c' = c) m -> roles s -> allowed l s c -> lawful l s m.
Proof.
  intros Hm Hs Hc. destruct (Hm s Hs) as [H1 H2]. split; [done|]. intros c' Hc'.
  rewrite Forall_forall in H2. by rewrite (H2 _ Hc' c' eq_refl).
Qed.

Lemma lawful_pods l s t name p :
  roles s -> (t = None -> exists d, l = Answered (DDelete name p d) (Some "Delete")) ->
  lawful l s (api_get_associated_pods_ t name p).
Proof.
  intros Hs Ht. unfold lawful, api_get_associated_pods_, map_at, get, bind, gets, deref, emit. simpl.
  destruct (load (objects_ s) p) as [c|]; simpl; (split; [done|]); intros c' Hc; [|by apply not_elem_of_nil in Hc].
  apply elem_of_cons in Hc as [[= ->]|?%not_elem_of_nil]; [|done]. destruct t; [done|]. by apply Ht.
Qed.

Lemma lawful_editor l s name p m pods : roles s -> lawful l s (open_text_editor_ name p m pods).
Proof.
  intros Hs. unfold lawful, open_text_editor_, map_at, get, bind, gets, deref, emit. simpl.
  destruct (load (objects_ s) p) as [c|]; simpl; (split; [done|]); intros c' Hc; [|by apply not_elem_of_nil in Hc].
  apply elem_of_cons in Hc as [[= ->]|?%not_elem_of_nil]; [|done]. simpl. destruct Hs as [-> ->]. done.
Qed.

Lemma lawful_edit l s t name p pods :
  roles s -> (forall body, sends t name p pods s body -> forall su er, allowed l s (CEditConfigMap body p su er name)) ->
  lawful l s (api_edit_config_map_ t name p pods).
Proof.
  intros Hs Ha. unfold lawful, api_edit_config_map_, map_at, get, bind, gets, deref, ret, throw, change_map, modify, emit.
  destruct (load (objects_ s) p) as [c|] eqn:El; simpl; [|split; [done|]; by intros c Hc%not_elem_of_nil].
  destruct (edited_data t name (data c)) as [[[d su] er]|e] eqn:Ed; simpl; [|split; [done|]; by intros c' Hc%not_elem_of_nil].
  rewrite load_update_eq, El. simpl. split; [done|]. intros c' Hc.
  apply elem_of_cons in Hc as [[= ->]|?%not_elem_of_nil]; [|done]. apply Ha. exists c. split; [done|]. split; [done|].
  split; [done|]. intros k. simpl. by apply (edited_data_get _ _ _ _ su er).
Qed.

Lemma file_listed_some name p s : file_listed name p s = true ->
  exists c d t, load (objects_ s) p = Some c /\ data c = Some d /\ text_get name d = Some t.
Proof.
  unfold file_listed. intros [_ H]%andb_true_iff.
  destruct (load (objects_ s) p) as [c|]; [|done]. destruct (data c) as [d|] eqn:Ed; [|done].
  unfold config_map_data_keys in H. apply includes_elem_of in H. rewrite keys_in_order_permutation in H.
  exists c, d. assert (Hs : is_Some (text_get name d)).
  { clear -H. induction d as [|[j w] d IH]; [by apply not_elem_of_nil in H|]. rewrite fmap_cons in H. simpl.
    destruct (j === name) eqn:E; [by eexists|]. apply seqb_neq in E. apply elem_of_cons in H as [H|H]; [|by apply IH].
    simpl in H. congruence. }
  destruct Hs as [t Ht]. by exists t.
Qed.

Lemma config_map_turn l s : roles s -> lawful l s (react (K := ConfigMaps) l).
Proof.
  intros Hs. assert (Hnil : forall m, m s = (Ret tt, s, []) -> lawful l s m).
  { intros m Hm. unfold lawful. rewrite Hm. split; [done|]. by intros c Hc%not_elem_of_nil. }
  destruct l as [e|c a].
  - simpl. assert (He : forall m, lawful (Event e) s m -> on_event e s = m s -> lawful (Event e) s (on_event e))
      by (intros m Hm Hr; unfold lawful in *; by rewrite Hr).
    destruct e; (eapply He; [|unfold on_event, get; by rewrite (bind_run_silent _ _ s s s)]).
    + apply lawful_one with (c := CConfigMaps); [|done|done].
      unfold ngOnInit, api_get_config_maps_. safe_auto; try done. by intros ? [= <-].
    + apply lawful_quiet; [|done]. unfold toggle_table_row_expansion. safe_auto. done.
    + destruct (file_listed name p s && controller_maintainer s) eqn:E; [|by apply Hnil].
      apply andb_true_iff in E as [(c & d & t & Hl & Hd & Ht)%file_listed_some _].
      assert (Hr : edit_config_map_data name p s = api_get_associated_pods_ (Some t) name p s)
        by (unfold edit_config_map_data, map_at, get, bind, gets, deref, ret; rewrite Hl; simpl; rewrite Hd; simpl; rewrite Ht;
            by destruct (api_get_associated_pods_ _ _ _ _) as [[[] ?] ?]).
      unfold lawful. cbn [when]. rewrite Hr. by apply lawful_pods.
    + destruct (_ && _); [|by apply Hnil]. by apply lawful_editor.
    + apply lawful_one with (c := DName p); [|done|done].
      unfold create_config_map_data. safe_auto. by intros ? [= <-].
    + destruct (file_listed name p s && controller_maintainer s) eqn:E; [|by apply Hnil].
      apply andb_true_iff in E as [_ E]. eapply lawful_one; [|done|].
      * cbn [when]. unfold delete_config_map_data. apply safe_emit. by intros ? [= <-].
      * simpl. destruct Hs as [<- _]. done.
  - simpl. destruct c; simpl in *.
    + apply lawful_quiet; [|done]. destruct a; simpl; [|by apply safe_emit].
      unfold api_get_config_maps_answer. safe_auto; try done.
      destruct (alloc_list (items a) (objects_ s0)) as [ps h]. done.
    + apply lawful_quiet; [|done]. destruct a; simpl; [|by apply safe_emit].
      unfold map_at, get, change_map, generate_return_success_snackbar_message, displaySnackBar. safe_auto; done.
    + destruct a as [r|e]; simpl; [|apply lawful_quiet; [by apply safe_emit|done]].
      destruct config_map_data as [t|]; [by apply lawful_editor|]. apply lawful_edit; [done|].
      intros body Hb su er. right. by exists config_map_name, r.
    + destruct a as [f|]; simpl; [|by apply Hnil]. destruct (nf_valid f); [|by apply Hnil]. by apply lawful_pods.
    + unfold delete_closed. destruct (a ?=== "Delete") eqn:E; [|by apply Hnil]. apply oseqb_eq in E as ->. cbn [when].
      destruct (lawful_pods (Answered (DDelete name config_map dialog) (Some "Delete")) s None name config_map) as [H1 H2];
        [done|by exists dialog|].
      unfold lawful, bind. destruct (api_get_associated_pods_ None name config_map s) as [[[[]|e] s1] es]; simpl in *; [|by split].
      split; [done|]. intros c Hc. apply elem_of_app in Hc as [Hc|Hc]; [by apply H2|].
      by apply elem_of_cons in Hc as [?|?%not_elem_of_nil].
    + destruct a as [t|]; simpl; [|by apply Hnil]. apply lawful_edit; [done|].
      intros body Hb su er. left. by exists configuration, t, pods.
Qed.

Lemma config_map_trace tr w : trace (K := ConfigMaps) editors_respected tr w ->
  roles (component w) /\
  forall l es c, (l, es) ∈ tr -> Subscribe c ∈ es -> exists s, allowed l s c.
Proof.
  intros Htr. destruct (trace_invariant (K := ConfigMaps) editors_respected roles
    (fun l e => forall c, e = Subscribe c -> exists s, allowed l s c)) with (tr := tr) (w := w) as [H1 H2]; [done| |done|].
  - intros l _ s Hs. destruct (config_map_turn l s Hs) as [Hr Hc]. split; [done|]. apply Forall_forall.
    intros e He c ->. exists s. by apply Hc.
  - split; [done|]. intros l es c Hin Hc. rewrite Forall_forall in H2. specialize (H2 _ Hin). simpl in H2.
    rewrite Forall_forall in H2. by apply (H2 _ Hc).
Qed.

(** C28: a config map is changed on the server for a maintainer only, and only by
    the text of an editor, which needs an administrator too, or by the pods that
    were asked for after the deletion was confirmed; the request carries the config
    map as the table has it, with exactly the named file set or removed, and the
    pods of the last answer. *)
Theorem config_maps_change_by_confirmation tr w l w' body p success error name :
  trace (K := ConfigMaps) editors_respected tr w -> editors_respected l -> step (K := ConfigMaps) w l w' ->
  Subscribe (CEditConfigMap body p success error name) ∈ made (K := ConfigMaps) l w ->
  maintainer = true /\
  ((exists configuration text pods, l = Answered (DEditor configuration name p pods) (Some text) /\ admin = true /\
      sends (Some text) name p pods (component w) body) \/
   (exists n pods, l = Answered (CAssociatedPods None name p n) (Next pods) /\
      (exists u d es v, tr = u ++ (Answered (DDelete name p d) (Some "Delete"), es) :: v) /\
      sends None name p pods (component w) body)).
Proof.
  intros Htr Hl Hstep Hin. destruct (config_map_trace tr w Htr) as [Hr Hs].
  assert (Htr' := trace_step _ _ _ _ _ Htr Hl Hstep).
  assert (Hearlier : forall c (a : Ans c), l = Answered c a -> exists u l' es v s, tr = u ++ (l', es) :: v /\ allowed l' s c).
  { intros c a ->. destruct (answered_subscribed (K := ConfigMaps) _ _ _ tr _ _ _ [] Htr' eq_refl)
      as (u & l' & es & v & -> & Hc). destruct (Hs l' es c) as [s0 Ha]; [set_solver|done|]. by exists u, l', es, v, s0. }
  destruct (config_map_turn l _ Hr) as [_ H].
  destruct (H _ Hin) as [(cfg & text & pods & -> & Hb)|(n & pods & -> & Hb)].
  - destruct (Hearlier _ _ eq_refl) as (u & l' & es & v & s0 & -> & Ha). simpl in Ha, Hl. rewrite Ha in Hl.
    destruct maintainer, admin; try done. split; [done|]. left. by exists cfg, text, pods.
  - destruct (Hearlier _ _ eq_refl) as (u & l' & es & v & s0 & -> & d & ->).
    assert (Hd : exists s, allowed (Event NgOnInit) s (DDelete name p d)); [|destruct Hd as [s1 Hd]].
    { assert (Hu : exists u' l0 es0 v' s, u ++ (Answered (DDelete name p d) (Some "Delete"), es) :: v = u' ++ (l0, es0) :: v' /\
        allowed l0 s (DDelete name p d)).
      { destruct (answered_subscribed (K := ConfigMaps) _ _ _ u _ _ es v Htr eq_refl) as (u' & l0 & es0 & v' & -> & Hc).
        destruct (Hs l0 es0 (DDelete name p d)) as [s2 Ha]; [set_solver|done|].
        exists u', l0, es0, (v' ++ (Answered (DDelete name p d) (Some "Delete"), es) :: v), s2.
        by rewrite <- app_assoc. }
      destruct Hu as (u1 & l1 & es1 & v1 & s2 & _ & Ha). by exists s2. }
    simpl in Hd. split; [done|]. right. exists n, pods. split; [done|]. split; [by exists u, d, es, v|done].
Qed.
End Page.

(** A file is edited by a user with both roles. *)
Definition witness_map : ConfigMapClass :=
  {| data := Some [("b.yml", "x: 1"); ("a.txt", "y")];
     metadata := {| cmm_name := "zeek"; cmm_namespace := "default"; creation_timestamp := ""; cmm_uid := "u" |} |}.

Lemma config_maps_change_by_confirmation_witness : exists tr w cfg body,
  trace (K := config_map_page true true) editors_respected tr w /\
  Subscribe (CEditConfigMap body 0 "edited" "editing" "b.yml") ∈
    made (K := config_map_page true true) (Answered (DEditor cfg "b.yml" 0 []) (Some "x: 2")) w /\
  (data (configMap body) ≫= text_get "b.yml") = Some "x: 2" /\ true = true.
Proof.
  pose proof (trace_start (K := config_map_page true true) editors_respected) as T.
  apply (trace_event _ _ _ NgOnInit) in T; [|exact I].
  apply (trace_answer _ _ _ [] CConfigMaps [] (Next {| items := [witness_map] |})) in T; [|exact I|reflexivity].
  apply (trace_event _ _ _ (EditClick "b.yml" 0)) in T; [|exact I].
  apply (trace_answer _ _ _ [] (CAssociatedPods (Some "x: 1") "b.yml" 0 "zeek") [] (Next [])) in T; [|exact I|reflexivity].
  match type of T with trace _ ?tr ?w => set (w1 := w) in T; exists tr, w1 end.
  set (cfg := text_editor_configuration (constructor true true) "b.yml" witness_map (bounce_message [])).
  assert (Hp : pending w1 = [DEditor cfg "b.yml" 0 []]) by reflexivity.
  assert (Hl : editors_respected (Answered (DEditor cfg "b.yml" 0 []) (Some "x: 2"))) by (simpl; discriminate).
  pose proof (step_answer (K := config_map_page true true) w1 [] (DEditor cfg "b.yml" 0 []) [] (Some "x: 2") Hp) as Hs.
  set (body := {| configMap := set_data (Some [("b.yml", "x: 2"); ("a.txt", "y")]) witness_map; associatedPods := [] |}).
  exists cfg, body.
  assert (Hin : Subscribe (CEditConfigMap body 0 "edited" "editing" "b.yml") ∈
    made (K := config_map_page true true) (Answered (DEditor cfg "b.yml" 0 []) (Some "x: 2")) w1) by (vm_compute; left).
  split; [exact T|]. split; [exact Hin|].
  destruct (config_maps_change_by_confirmation true true _ _ _ _ _ _ _ _ _ T Hl Hs Hin) as [Hm _].
  split; [reflexivity | exact Hm].
Defined.

Lemma edits_show_before_they_are_saved_witness : exists s s1,
  api_edit_config_map_ (Some "new") "c.txt" 0 [] s =
    (Ret tt, s1, [Subscribe (CEditConfigMap {| configMap := set_data (Some [("b.yml", "x: 1"); ("a.txt", "y"); ("c.txt", "new")])
                                                    witness_map; associatedPods := [] |} 0 "created" "creating" "c.txt")]) /\
  load (objects_ s1) 0 = Some (set_data (Some [("b.yml", "x: 1"); ("a.txt", "y"); ("c.txt", "new")]) witness_map).
Proof.
  set (s := with_maps [0] (snd (alloc witness_map store_empty)) (constructor true true)). exists s.
  destruct (edits_show_before_they_are_saved (Some "new") "c.txt" 0 [] s witness_map
    [("b.yml", "x: 1"); ("a.txt", "y"); ("c.txt", "new")] "created" "creating") as (s1 & H1 & H2 & _);
    [reflexivity|reflexivity|by apply (bool_decide_unpack _); vm_compute|].
  exists s1. by split.
Defined.
