(* ===== verification/KitSettings.v ===== *)
(** modules/system-settings/components/kit-settings: the form of the kit, which
    follows the inputs its page binds and the job that saves it.

    A [Bind] is one change detection of the page: the inputs that changed, all
    assigned before [ngOnChanges] runs.  A key is an [input] event followed by
    the [keyup] that re-evaluates the passwords; text pasted with the mouse makes
    the [input] event only. *)
From S2P Require Import Prelude Handler JsValue Runtime Data Api Services SettingsData Net Regex Validators Fields.
From Stdlib Require Import Ascii.

Definition SUBNET : string := "255.255.255.224".

(** ** The form *)

Inductive kit_field : Type := Password | UpstreamNtp | UpstreamDns | KubernetesServicesCidr | IsGip | RePassword.
#[export] Instance kit_field_eq : EqDecision kit_field.
Proof. solve_decision. Defined.

(** The names in the order of the group; the retyped password is added last. *)
Definition first_names : list kit_field := [Password; UpstreamNtp; UpstreamDns; KubernetesServicesCidr; IsGip].
Definition names : list kit_field := first_names ++ [RePassword].

Definition rule (g : form kit_field) (k : kit_field) (c : AbstractControl) : outcome (option validation_error) :=
  match k with
  | Password => root_password c
  | UpstreamNtp => validateFromArray kitSettingsValidators_upstream_ntp None c
  | UpstreamDns => validateFromArray kitSettingsValidators_upstream_dns None c
  | KubernetesServicesCidr => validateFromArray kitSettingsValidators_kubernetes_services_cidr None c
  | IsGip => Ret None
  | RePassword => repeated (control_of (g Password)) c
  end.

Definition text_or (v : jsval) (t : option string) : jsval := match t with Some t => JStr t | None => v end.
Definition as_text (v : jsval) : option string := match v with JStr t => Some t | _ => None end.

(** The values a new form has, before the validators run. *)
Definition initial_fields (k : option PartialKitSettingsClass) : form kit_field := fun name =>
  raw_field match name with
            | Password | RePassword => text_or (JStr "") (k ≫= pk_password)
            | UpstreamNtp => text_or JNull (k ≫= pk_upstream_ntp)
            | UpstreamDns => text_or JNull (k ≫= pk_upstream_dns)
            | KubernetesServicesCidr => text_or (JStr "") (k ≫= pk_kubernetes_services_cidr)
            | IsGip => JStr (if truthy (k ≫= pk_is_gip) then "GIP" else "DIP")
            end.

Definition new_kit_form (k : option PartialKitSettingsClass) : outcome (form kit_field) :=
  let* g := new_group rule first_names (initial_fields k) in
  updateValueAndValidity rule RePassword g.

(** [new KitSettingsClass(form.getRawValue())] without the retyped password. *)
Definition settings_of (g : form kit_field) : PartialKitSettingsClass :=
  {| pk__id := None;
     pk_kubernetes_services_cidr := as_text (fc_value (g KubernetesServicesCidr));
     pk_password := as_text (fc_value (g Password));
     pk_upstream_dns := as_text (fc_value (g UpstreamDns));
     pk_upstream_ntp := as_text (fc_value (g UpstreamNtp));
     pk_job_id := None; pk_job_completed := None;
     pk_is_gip := Some (strict_eq (fc_value (g IsGip)) (JStr "GIP"));
     pk_controller_interface := None; pk_netmask := None; pk_gateway := None; pk_domain := None;
     pk_dhcp_range := None |}.

(** ** The service ranges *)

(** The loop that takes an element out of the array it walks over: the index goes
    on after [splice]. *)
Fixpoint splice_loop (fuel x : nat) (l : list string) : list string :=
  match fuel with
  | O => l
  | S n =>
      match l !! x with
      | None => l
      | Some v => splice_loop n (S x) (if endsWith v ".32" then delete x l else l)
      end
  end.

(** [l.indexOf(v)] and [l.splice(index, 1)] *)
Definition splice_value (v : option string) (l : list string) : list string :=
  let i := findIndex (fun x => v ?=== x) l in
  if (i =? -1)%Z then l else delete (Z.to_nat i) l.

Definition dhcp_range_options (unused : list string) (dhcp_range : option string) : list string :=
  splice_value dhcp_range (splice_loop (length unused) 0 unused).

(** ** The component *)

Inductive call : Type :=
| CUsedIpAddresses (kubernetes_services_cidr : jsval)
| CUpdateKitSettings (kit_settings : PartialKitSettingsClass)
| CJobGet (job_id : option string).

Definition Ans (c : call) : Type :=
  match c with
  | CUsedIpAddresses _ => answer (list string)
  | CUpdateKitSettings _ => answer GenericJobAndKeyClass
  | CJobGet _ => answer BackgroundJobClass
  end.

Inductive page : Type :=
| UpdateKitSettings (kit_settings : option PartialKitSettingsClass)
| UpdateDisableButtons (b : bool)
| OpenPasswordMessage
| OpenServerStdout (job_id : option string)
| OnKitStatusChange.

(** [dhcp_range] stays as the constructor sets it and is not read. *)
Record KitSettingsComponent := {
  general_settings : option GeneralSettingsClass;
  kit_status : KitStatusClass;
  controller_info : option ControllerInfoClass;
  kit_settings : option PartialKitSettingsClass;
  kit_settings_form_group : option (form kit_field);
  job_id : option string;
  kube_svc_used_ips : string;
  button_save_tooltip : string;
  kit_job_running : bool;
  kubernetes_ip_options : list string;
  unused_ip_addresses_ : list string;
  cidr_ranges_ : option (gmap string IPSetFirstLastClass);
}.
Abbreviation M := (handler KitSettingsComponent (effect call page)).

Definition with_inputs g k c s :=
  {| general_settings := g; kit_status := k; controller_info := c; kit_settings := kit_settings s;
     kit_settings_form_group := kit_settings_form_group s; job_id := job_id s;
     kube_svc_used_ips := kube_svc_used_ips s; button_save_tooltip := button_save_tooltip s;
     kit_job_running := kit_job_running s; kubernetes_ip_options := kubernetes_ip_options s;
     unused_ip_addresses_ := unused_ip_addresses_ s; cidr_ranges_ := cidr_ranges_ s |}.
Definition with_kit_status k s := with_inputs (general_settings s) k (controller_info s) s.
Definition with_kit_settings v s :=
  {| general_settings := general_settings s; kit_status := kit_status s; controller_info := controller_info s;
     kit_settings := v; kit_settings_form_group := kit_settings_form_group s; job_id := job_id s;
     kube_svc_used_ips := kube_svc_used_ips s; button_save_tooltip := button_save_tooltip s;
     kit_job_running := kit_job_running s; kubernetes_ip_options := kubernetes_ip_options s;
     unused_ip_addresses_ := unused_ip_addresses_ s; cidr_ranges_ := cidr_ranges_ s |}.
Definition with_form v s :=
  {| general_settings := general_settings s; kit_status := kit_status s; controller_info := controller_info s;
     kit_settings := kit_settings s; kit_settings_form_group := v; job_id := job_id s;
     kube_svc_used_ips := kube_svc_used_ips s; button_save_tooltip := button_save_tooltip s;
     kit_job_running := kit_job_running s; kubernetes_ip_options := kubernetes_ip_options s;
     unused_ip_addresses_ := unused_ip_addresses_ s; cidr_ranges_ := cidr_ranges_ s |}.
Definition with_job_id v s :=
  {| general_settings := general_settings s; kit_status := kit_status s; controller_info := controller_info s;
     kit_settings := kit_settings s; kit_settings_form_group := kit_settings_form_group s; job_id := v;
     kube_svc_used_ips := kube_svc_used_ips s; button_save_tooltip := button_save_tooltip s;
     kit_job_running := kit_job_running s; kubernetes_ip_options := kubernetes_ip_options s;
     unused_ip_addresses_ := unused_ip_addresses_ s; cidr_ranges_ := cidr_ranges_ s |}.
Definition with_used_ips v s :=
  {| general_settings := general_settings s; kit_status := kit_status s; controller_info := controller_info s;
     kit_settings := kit_settings s; kit_settings_form_group := kit_settings_form_group s; job_id := job_id s;
     kube_svc_used_ips := v; button_save_tooltip := button_save_tooltip s;
     kit_job_running := kit_job_running s; kubernetes_ip_options := kubernetes_ip_options s;
     unused_ip_addresses_ := unused_ip_addresses_ s; cidr_ranges_ := cidr_ranges_ s |}.
Definition with_running b t s :=
  {| general_settings := general_settings s; kit_status := kit_status s; controller_info := controller_info s;
     kit_settings := kit_settings s; kit_settings_form_group := kit_settings_form_group s; job_id := job_id s;
     kube_svc_used_ips := kube_svc_used_ips s; button_save_tooltip := t;
     kit_job_running := b; kubernetes_ip_options := kubernetes_ip_options s;
     unused_ip_addresses_ := unused_ip_addresses_ s; cidr_ranges_ := cidr_ranges_ s |}.
Definition with_options o u r s :=
  {| general_settings := general_settings s; kit_status := kit_status s; controller_info := controller_info s;
     kit_settings := kit_settings s; kit_settings_form_group := kit_settings_form_group s; job_id := job_id s;
     kube_svc_used_ips := kube_svc_used_ips s; button_save_tooltip := button_save_tooltip s;
     kit_job_running := kit_job_running s; kubernetes_ip_options := o;
     unused_ip_addresses_ := u; cidr_ranges_ := r |}.

Definition constructor : KitSettingsComponent :=
  {| general_settings := Some empty_settings; kit_status := empty_kit_status;
     controller_info := Some empty_controller_info; kit_settings := None; kit_settings_form_group := None;
     job_id := None; kube_svc_used_ips := ""; button_save_tooltip := ""; kit_job_running := false;
     kubernetes_ip_options := []; unused_ip_addresses_ := []; cidr_ranges_ := Some ∅ |}.

Definition get : M KitSettingsComponent := gets (fun s => s).
Definition the_form : M (form kit_field) := s <- get ;; deref (kit_settings_form_group s).
(** A method of the form or of one of its controls. *)
Definition on_form (op : form kit_field -> outcome (form kit_field)) : M unit :=
  g <- the_form ;; g' <- lift (op g) ;; modify (with_form (Some g')).

(** *** The requests *)

Definition api_get_used_ip_addresses_ (cidr : jsval) : M unit := emit (Subscribe (CUsedIpAddresses cidr)).
Definition api_update_kit_settings_ (k : PartialKitSettingsClass) : M unit := emit (Subscribe (CUpdateKitSettings k)).
Definition api_job_get_ : M unit := s <- get ;; emit (Subscribe (CJobGet (job_id s))).

(** *** The methods *)

Definition re_evaluate : M unit :=
  s <- get ;;
  when (notUndefNull (kit_settings_form_group s))
    (on_form (updateValueAndValidity rule Password) ;;; on_form (updateValueAndValidity rule RePassword)).

Definition get_error_message (f : field) : option error_text :=
  match fc_errors f with
  | None => Some (Text "")
  | Some (PatternError _ m) => Some m
  | Some (PasswordError _ t) => Some (Text t)
  | Some (ErrorObject m) => Some m
  end.

(** The hint under the select box; the answer of the controller may lack the
    ranges. *)
Definition get_kubernetes_service_range (s : KitSettingsComponent) : outcome string :=
  let* g := deref_o (kit_settings_form_group s) in
  let v := fc_value (g KubernetesServicesCidr) in
  if strict_eq v (JStr "") then Ret ""
  else
    let* ranges := deref_o (cidr_ranges_ s) in
    Ret (match ranges !! js_to_string v with
         | Some r => "Kubernetes services range will be: " +:+ first r +:+ " - " +:+ last r
         | None => ""
         end).

Definition check_kubernetes_service_range : M unit :=
  s <- get ;;
  match kit_settings_form_group s with
  | Some g => when (field_valid (g KubernetesServicesCidr))
                (api_get_used_ip_addresses_ (fc_value (g KubernetesServicesCidr)))
  | None => ret tt
  end.

Definition click_button_save : M unit :=
  g <- the_form ;;
  let k := settings_of g in
  modify (with_kit_settings (Some k)) ;;;
  api_update_kit_settings_ k.

Definition open_server_stdout_dialog_window_ : M unit := s <- get ;; emit (Page (OpenServerStdout (job_id s))).
Definition click_button_open_console : M unit := open_server_stdout_dialog_window_.
Definition open_password_dialog_window : M unit := emit (Page OpenPasswordMessage).

Definition initialize_kit_settings_form_group_ : M unit :=
  s <- get ;;
  g <- lift (new_kit_form (kit_settings s)) ;;
  modify (with_form (Some g)).

Definition check_job_ : M unit :=
  s <- get ;;
  modify (with_job_id (kit_settings s ≫= pk_job_id)) ;;;
  when (notUndefNull (kit_settings_form_group s))
    (if truthy (general_settings_configured (kit_status s)) then
       on_form (enable rule names) ;;;
       emit (Page (UpdateDisableButtons false)) ;;;
       when (match kit_settings s ≫= pk_job_id with Some j => j !== "" | None => false end) api_job_get_
     else
       on_form (fun g => Ret (disable g)) ;;;
       emit (Page (UpdateDisableButtons true))).

Definition set_kubernetes_dhcp_range_ (dhcp_range : option string) : M unit :=
  modify (fun s => with_options (dhcp_range_options (unused_ip_addresses_ s) dhcp_range)
                     (unused_ip_addresses_ s) (cidr_ranges_ s) s).

(** The list of unused addresses is never undefined. *)
Definition gather_controller_facts_ : M unit :=
  s <- get ;;
  match controller_info s with
  | Some c => match cidrs c with
              | Some l => modify (with_options l l (cidr_ranges c))
              | None => ret tt
              end
  | None => ret tt
  end ;;;
  match general_settings s with
  | Some g => set_kubernetes_dhcp_range_ (gs_dhcp_range g)
  | None => ret tt
  end.

Definition websocket_get_socket_on_kit_status_change : M unit := emit (Page OnKitStatusChange).
Definition ngOnInit : M unit := websocket_get_socket_on_kit_status_change.

Definition kit_status_change (data : KitStatusClass) : M unit :=
  modify (with_kit_status data) ;;; check_job_.

(** The changed inputs: [None] is an input that did not change. *)
Record Changes := {
  ch_general_settings : option (option GeneralSettingsClass);
  ch_kit_status : option KitStatusClass;
  ch_controller_info : option (option ControllerInfoClass);
  ch_kit_settings : option (option PartialKitSettingsClass);
}.

Definition assign_inputs (ch : Changes) (s : KitSettingsComponent) : KitSettingsComponent :=
  with_kit_settings (default (kit_settings s) (ch_kit_settings ch))
    (with_inputs (default (general_settings s) (ch_general_settings ch))
       (default (kit_status s) (ch_kit_status ch))
       (default (controller_info s) (ch_controller_info ch)) s).

Definition ngOnChanges (ch : Changes) : M unit :=
  when (notUndefNull (ch_kit_settings ch)) (initialize_kit_settings_form_group_ ;;; check_job_) ;;;
  when (notUndefNull (ch_kit_status ch)) check_job_ ;;;
  when (notUndefNull (ch_controller_info ch)) gather_controller_facts_.

(** *** The answers *)

Definition api_get_used_ip_addresses_answer (a : answer (list string)) : M unit :=
  match a with
  | Next response =>
      modify (with_used_ips (join_with (String "010"%char "") (split_on "," (join_with "," response))))
  | Error e => on_error_message "retrieving used ip addresses" e
  end.

Definition api_update_kit_settings_answer (a : answer GenericJobAndKeyClass) : M unit :=
  match a with
  | Next response =>
      modify (with_job_id (Some (gj_job_id response))) ;;;
      s <- get ;;
      k <- deref (kit_settings s) ;;
      modify (with_kit_settings (Some (set_pk_job_id (Some (gj_job_id response)) k))) ;;;
      on_form (fun g => Ret (disable g)) ;;;
      check_job_
  | Error e => on_error "updating kit settings" e
  end.

Definition lock_deployed (g : form kit_field) : form kit_field :=
  disable_control RePassword (disable_control Password (disable_control KubernetesServicesCidr g)).

Definition api_job_get_answer (a : answer BackgroundJobClass) : M unit :=
  match a with
  | Next response =>
      if bj_status response ?=== "started" then
        modify (with_running true "Job is running...") ;;;
        on_form (fun g => Ret (disable g)) ;;;
        emit (Page (UpdateDisableButtons true))
      else
        modify (with_job_id None) ;;;
        modify (with_running false "") ;;;
        on_form (enable rule names) ;;;
        emit (Page (UpdateDisableButtons false)) ;;;
        s <- get ;;
        emit (Page (UpdateKitSettings (kit_settings s))) ;;;
        when (truthy (control_plane_deployed (kit_status s))) (on_form (fun g => Ret (lock_deployed g)))
  | Error e => on_error_message "retrieving job get" e
  end.

(** *** The turns *)

Inductive event : Type :=
| NgOnInit
| Bind (ch : Changes)
| KitStatusChange (data : KitStatusClass)
| Keys (k : kit_field) (v : string)
| Paste (k : kit_field) (v : string)
| SelectCidr (v : string)
| ChooseKit (v : string)
| Blur (k : kit_field)
| SaveClick
| ConsoleClick
| PasswordInfoClick.

(** The inputs the user types in. *)
Definition typed_in (k : kit_field) : bool :=
  match k with Password | UpstreamNtp | UpstreamDns | RePassword => true | _ => false end.
Definition evaluates (k : kit_field) : bool := match k with Password | RePassword => true | _ => false end.

(** The value of a control that is shown and enabled changes. *)
Definition user_sets (k : kit_field) (v : string) (rest : M unit) : M unit :=
  s <- get ;;
  match kit_settings_form_group s with
  | Some g => when (negb (fc_disabled (g k))) (on_form (type_in rule k (JStr v)) ;;; rest)
  | None => ret tt
  end.

Definition save_enabled (s : KitSettingsComponent) : bool :=
  match kit_settings_form_group s with
  | Some g => group_valid names g && group_touched names g &&
              truthy (general_settings_configured (kit_status s)) && negb (kit_job_running s)
  | None => false
  end.

Definition on_event (e : event) : M unit :=
  match e with
  | NgOnInit => ngOnInit
  | Bind ch => modify (assign_inputs ch) ;;; ngOnChanges ch
  | KitStatusChange data => kit_status_change data
  | Keys k v => when (typed_in k) (user_sets k v (when (evaluates k) re_evaluate))
  | Paste k v => when (typed_in k) (user_sets k v (ret tt))
  | SelectCidr v => user_sets KubernetesServicesCidr v check_kubernetes_service_range
  | ChooseKit v => user_sets IsGip v (ret tt)
  | Blur k => s <- get ;; when (notUndefNull (kit_settings_form_group s)) (on_form (fun g => Ret (markAsTouched k g)))
  | SaveClick => s <- get ;; when (save_enabled s) click_button_save
  | ConsoleClick => s <- get ;; when (match job_id s with Some j => j !== "" | None => false end) click_button_open_console
  | PasswordInfoClick => s <- get ;; when (notUndefNull (kit_settings_form_group s)) open_password_dialog_window
  end.

Definition on_answer (c : call) : Ans c -> M unit :=
  match c with
  | CUsedIpAddresses _ => api_get_used_ip_addresses_answer
  | CUpdateKitSettings _ => api_update_kit_settings_answer
  | CJobGet _ => api_job_get_answer
  end.

#[export] Instance kit_settings_form : Component KitSettingsComponent call page event Ans :=
  {| initial := constructor; Runtime.on_event := on_event; Runtime.on_answer := on_answer |}.

(** ** The verdicts of the form *)

Definition reads (k : kit_field) : list kit_field := match k with RePassword => [Password] | _ => [] end.

Lemma rule_reads g g' k c c' :
  (forall j, j ∈ reads k -> control_of (g j) = control_of (g' j)) ->
  value c = value c' -> touched c = touched c' -> rule g k c = rule g' k c'.
Proof.
  intros Hr Hv Ht. destruct c as [v t st], c' as [v' t' st']; simpl in *; subst.
  destruct k; try reflexivity. unfold rule. rewrite (Hr Password) by left. reflexivity.
Qed.
Lemma reads_others k : k ∉ reads k.
Proof. destruct k; set_solver. Qed.
Lemma names_ordered : ordered reads names.
Proof. repeat split; set_solver. Qed.

(** What the controls hold: texts, and null for the two addresses. *)
Definition value_ok (k : kit_field) (v : jsval) : Prop :=
  (exists t, v = JStr t) \/ (v = JNull /\ (k = UpstreamNtp \/ k = UpstreamDns)).

Lemma address_rule g k c : k = UpstreamNtp \/ k = UpstreamDns -> value_ok k (value c) ->
  exists e, rule g k c = Ret e /\
    (e = None -> value c = JNull \/ exists t, value c = JStr t /\ (t = "" \/ test IP_CONSTRAINT t = true)).
Proof.
  intros Hk Hv.
  assert (Er : rule g k c = validateFromArray kitSettingsValidators_upstream_dns None c) by (by destruct Hk as [-> | ->]).
  rewrite Er. unfold kitSettingsValidators_upstream_dns.
  destruct (validate_pattern (Text "You must enter a valid IP address.") IP_CONSTRAINT None c) as [H1 H2].
  destruct Hv as [[t E]|[E _]]; [|eexists; split; [by apply H2 | auto]].
  eexists. split; [by apply H1|]. destruct ((t === "") || test IP_CONSTRAINT t) eqn:Et; [|done]. intros _. right.
  exists t. split; [done|]. apply orb_true_iff in Et as [->%seqb_eq|]; auto.
Qed.

Lemma cidr_rule g c t : value c = JStr t -> exists e, rule g KubernetesServicesCidr c = Ret e /\ (e = None -> t <> "").
Proof.
  intros E. eexists. split; [by apply validate_required|]. destruct (t === "") eqn:Et; [done|]. by apply seqb_neq in Et.
Qed.

Lemma rule_returns g k c : value_ok k (value c) -> exists e, rule g k c = Ret e.
Proof.
  intros [[t E]|[E Hk]].
  - destruct k.
    + destruct (root_password_strong c t E) as (e & H & _). by exists e.
    + destruct (address_rule g UpstreamNtp c) as (e & -> & _); [by left | by left; exists t | by exists e].
    + destruct (address_rule g UpstreamDns c) as (e & -> & _); [by right | by left; exists t | by exists e].
    + destruct (cidr_rule g c t E) as (e & -> & _). by exists e.
    + by exists None.
    + destruct (repeated_same (control_of (g Password)) c t E) as (e & H & _). by exists e.
  - destruct (address_rule g k c Hk) as (e & -> & _); [by right | by exists e].
Qed.

(** ** The forms of the component *)

Definition locks_ok (g : form kit_field) : Prop :=
  fc_disabled (g Password) = fc_disabled (g RePassword) /\
  forall j k, j = UpstreamNtp \/ j = UpstreamDns -> fc_disabled (g j) = true -> fc_disabled (g k) = true.
Definition current (g : form kit_field) : Prop :=
  (forall k, value_ok k (fc_value (g k))) /\ (forall k, k <> RePassword -> checked rule g k) /\ locks_ok g.
(** With the verdict of the retyped password up to date as well. *)
Definition form_ok (g : form kit_field) : Prop := current g /\ checked rule g RePassword.

(** An operation that returns, and keeps the form so. *)
Definition keeps (op : form kit_field -> outcome (form kit_field)) : Prop :=
  forall g, form_ok g -> exists g', op g = Ret g' /\ form_ok g'.

Lemma refresh_checked g g' k : (forall j, j <> k -> g' j = g j) -> checked rule g' k ->
  (forall j, j <> RePassword -> checked rule g j) -> forall j, j <> RePassword -> checked rule g' j.
Proof.
  intros Ho Hk Hg j Hj. destruct (decide (j = k)) as [->|Hjk]; [done|].
  apply (checked_agree rule reads rule_reads g); [by apply Ho| |by apply Hg].
  intros i Hi. destruct j; simpl in Hi; try by apply not_elem_of_nil in Hi. done.
Qed.

Lemma locks_same g g' : (forall k, fc_disabled (g' k) = fc_disabled (g k)) -> locks_ok g -> locks_ok g'.
Proof. intros E [H1 H2]. split; [by rewrite !E|]. intros j k Hj. rewrite !E. by apply H2. Qed.

(** An operation on [k] that leaves its verdict up to date. *)
Lemma changed_current k g g2 : current g -> (forall j, j <> k -> g2 j = g j) -> value_ok k (fc_value (g2 k)) ->
  fc_disabled (g2 k) = fc_disabled (g k) -> checked rule g2 k ->
  current g2 /\ (k = RePassword -> checked rule g2 RePassword) /\
  (k <> Password -> checked rule g RePassword -> checked rule g2 RePassword).
Proof.
  intros (Hv & Hc & Hd) Ho Hvk Hdk Hk.
  assert (Hdj : forall j, fc_disabled (g2 j) = fc_disabled (g j)) by
    (intros j; destruct (decide (j = k)) as [->|Hj]; [done | by rewrite Ho]).
  split; [split_and!|split].
  - intros j. destruct (decide (j = k)) as [->|Hj]; [done | by rewrite Ho].
  - by apply (refresh_checked g g2 k).
  - by apply (locks_same g).
  - by intros <-.
  - intros Hp Hr. destruct (decide (RePassword = k)) as [<-|Hj]; [done|].
    apply (checked_agree rule reads rule_reads g); [by apply Ho| |done].
    intros i ->%list_elem_of_singleton. by apply Ho.
Qed.

(** A control that the user changes. *)
Lemma type_in_current k t g : current g ->
  exists g', type_in rule k (JStr t) g = Ret g' /\ current g' /\
    (k = RePassword -> checked rule g' RePassword) /\
    (k <> Password -> checked rule g RePassword -> checked rule g' RePassword).
Proof.
  intros Hg. unfold type_in, setValue.
  set (g0 := put k (with_marks (fc_touched (g k)) true (g k)) g).
  set (g1 := put k (with_value (JStr t) (g0 k)) g0).
  destruct (update_returns rule k g1) as [g2 E2].
  { apply rule_returns. left. exists t. unfold g1. by rewrite put_same. }
  exists g2. split; [done|].
  destruct (update_same rule _ _ _ E2) as (Hv2 & Hd2 & _).
  unfold g1, g0 in Hv2, Hd2. rewrite !put_same in Hv2, Hd2. simpl in Hv2, Hd2.
  apply (changed_current k g g2 Hg); [|left; by exists t|done|by eapply (update_checked rule reads rule_reads reads_others)].
  intros j Hj. rewrite (update_other rule _ _ _ _ E2 Hj). unfold g1, g0. by rewrite !put_other.
Qed.

Lemma update_current k g : current g ->
  exists g', updateValueAndValidity rule k g = Ret g' /\ current g' /\
    (k = RePassword -> checked rule g' RePassword) /\
    (k <> Password -> checked rule g RePassword -> checked rule g' RePassword).
Proof.
  intros Hg. destruct (update_returns rule k g) as [g2 E2]; [apply rule_returns, Hg|]. exists g2. split; [done|].
  destruct (update_same rule _ _ _ E2) as (Hv2 & Hd2 & _).
  apply (changed_current k g g2 Hg); [intros j Hj; by apply (update_other rule _ _ _ _ E2 Hj)|rewrite Hv2; apply Hg|done|
    by eapply (update_checked rule reads rule_reads reads_others)].
Qed.

Lemma type_in_keeps k t : k <> Password -> keeps (type_in rule k (JStr t)).
Proof.
  intros Hk g [Hg Hr]. destruct (type_in_current k t g Hg) as (g' & E & H1 & H2 & H3). exists g'. split; [done|].
  split; [done|]. auto.
Qed.

(** [enable] runs every validator, those that read others after them. *)
Lemma refreshed_ok op g g' : refreshes rule op -> each op names g = Ret g' ->
  (forall k, value_ok k (fc_value (g k))) -> (forall k, fc_disabled (g' k) = false) -> form_ok g'.
Proof.
  intros Hop E Hv Hd.
  assert (Hc : forall k, checked rule g' k).
  { intros k. apply (each_checked rule reads rule_reads op names g g' Hop names_ordered E). destruct k; set_solver. }
  split; [|done]. split_and!; [|done|split; [by rewrite !Hd | intros j k _; by rewrite Hd]].
  intros k. by rewrite (each_values rule op names g g' Hop E).
Qed.

Lemma enabled_all g g' : enable rule names g = Ret g' -> forall k, fc_disabled (g' k) = false.
Proof. intros E k. apply (enable_enables rule names g g' k E). left. destruct k; set_solver. Qed.

Lemma enable_keeps : keeps (enable rule names).
Proof.
  intros g [[Hv _] _].
  assert (Hop := refreshes_enable rule reads rule_reads reads_others).
  destruct (each_returns rule (enable_control rule) names g value_ok Hop) as [g' E]; [|done|].
  - intros k h Hh. unfold enable_control. apply update_returns, rule_returns. rewrite put_same. apply Hh.
  - exists g'. split; [done|]. apply (refreshed_ok _ g g' Hop E Hv), (enabled_all g g' E).
Qed.

Lemma new_kit_form_ok k : exists g, new_kit_form k = Ret g /\ form_ok g.
Proof.
  assert (Hop := refreshes_update rule reads rule_reads reads_others).
  assert (Hv : forall j, value_ok j (fc_value (initial_fields k j))).
  { intros j. unfold initial_fields, raw_field, value_ok. destruct j; simpl; destruct k as [k|]; simpl; eauto.
    all: match goal with |- context [text_or _ ?x] => destruct x end; simpl; eauto 6. }
  assert (E0 : new_kit_form k = each (updateValueAndValidity rule) names (initial_fields k)).
  { unfold names. rewrite each_app. unfold new_kit_form, new_group.
    destruct (each _ first_names _) as [g|]; [|done]. simpl. by destruct (updateValueAndValidity rule RePassword g). }
  destruct (each_returns rule (updateValueAndValidity rule) names (initial_fields k) value_ok Hop) as [g E]; [|done|].
  { intros j h Hh. apply update_returns, rule_returns, Hh. }
  exists g. rewrite E0. split; [done|]. apply (refreshed_ok _ (initial_fields k) g Hop E Hv).
  intros j. by rewrite (each_update_disabled rule _ _ _ j E).
Qed.

Lemma disable_keeps : keeps (fun g => Ret (disable g)).
Proof. intros g [[Hv _] _]. eexists. split; [done|]. split; [split_and!; [apply Hv | by intros ? ? ? | by split] | by intros ?]. Qed.

Lemma lock_keeps : keeps (fun g => Ret (lock_deployed g)).
Proof.
  intros g [(Hv & Hc & _ & Hl) _]. eexists. split; [done|].
  split; [split_and!|by intros ?]; [|intros k Hk|split; [done|]].
  - intros k. specialize (Hv k). by destruct k.
  - specialize (Hc k Hk). destruct k; try done; unfold checked in *; simpl in *; intros H; exact (Hc H).
  - intros j k Hj Hd. assert (Hd' : fc_disabled (g j) = true) by (by destruct Hj as [-> | ->]).
    specialize (Hl j k Hj Hd'). by destruct k.
Qed.

(** The mark [touched] makes no difference for these values. *)
Lemma rule_marks g k c c' : value c = value c' -> value_ok k (value c) -> rule g k c = rule g k c'.
Proof.
  destruct c as [v t st], c' as [v' t' st']. simpl. intros <- [[x ->]|[-> [-> | ->]]]; [|reflexivity|reflexivity].
  destruct k; try reflexivity; [by apply (root_password_marks _ _ x)| |by apply (repeated_marks _ _ _ _ x)].
  unfold rule, kitSettingsValidators_kubernetes_services_cidr. by rewrite !(validate_required _ _ _ x).
Qed.

Lemma touch_keeps k : keeps (fun g => Ret (markAsTouched k g)).
Proof.
  intros g [(Hv & Hc & Hd) Hr]. eexists. split; [done|].
  assert (Hf := markAsTouched_fields k g).
  assert (Hk : forall j, checked rule g j -> checked rule (markAsTouched k g) j).
  { intros j Hj Hdj. destruct (Hf j) as (E1 & E2 & E3). rewrite E2 in Hdj. specialize (Hj Hdj). rewrite E3, <- Hj.
    transitivity (rule g j (control_of (markAsTouched k g j))); [|by apply rule_marks; simpl; rewrite E1; [|apply Hv]].
    destruct j; try reflexivity. destruct (Hf Password) as (P1 & P2 & P3). unfold rule.
    destruct (Hv RePassword) as [[x Ex]|[_ [?|?]]]; [|done|done].
    apply (repeated_marks _ _ _ _ x); simpl; [done | unfold field_status; by rewrite P2, P3 | by rewrite E1 | by rewrite E1]. }
  split; [split_and!|]; [|auto|apply (locks_same g); [apply Hf | done]|auto].
  intros j. rewrite (proj1 (Hf j)). apply Hv.
Qed.

(** ** The turns keep the form *)

Definition state_ok (s : KitSettingsComponent) : Prop :=
  match kit_settings_form_group s with Some g => form_ok g | None => True end.

Definition is_save (c : call) : bool := match c with CUpdateKitSettings _ => true | _ => false end.
Definition no_save (e : effect call page) : Prop := only (fun c => is_save c = false) e.

Lemma no_save_call c : is_save c = false -> no_save (Subscribe c).
Proof. by intros H ? [= <-]. Qed.
Lemma no_save_page d : no_save (Page d).
Proof. by intros ?. Qed.
#[local] Hint Resolve no_save_call no_save_page : handler.

Lemma on_form_run op s g g' : kit_settings_form_group s = Some g -> op g = Ret g' ->
  on_form op s = (Ret tt, with_form (Some g') s, []).
Proof. intros E Eop. unfold on_form, the_form, get, bind, gets, deref, lift, modify. rewrite E. cbn. by rewrite Eop. Qed.
Lemma on_form_none op s : kit_settings_form_group s = None -> on_form op s = (Exn "TypeError", s, []).
Proof. intros E. unfold on_form, the_form, get, bind, gets, deref. by rewrite E. Qed.

Lemma safe_on_form op (P : effect call page -> Prop) : keeps op -> safe state_ok P (on_form op).
Proof.
  intros Hop s Hs. destruct (kit_settings_form_group s) as [g|] eqn:E; [|by rewrite (on_form_none _ _ E)].
  unfold state_ok in Hs. rewrite E in Hs. destruct (Hop g Hs) as (g' & Eg & Hg').
  rewrite (on_form_run op s g g' E Eg). by split; [|constructor].
Qed.
#[local] Hint Resolve safe_on_form enable_keeps disable_keeps lock_keeps touch_keeps : handler.

Lemma safe_check_job : safe state_ok no_save check_job_.
Proof.
  unfold check_job_, api_job_get_, get. safe_auto; try done; auto with handler.
Qed.

#[local] Hint Resolve safe_check_job : handler.

Lemma safe_check_range : safe state_ok no_save check_kubernetes_service_range.
Proof. unfold check_kubernetes_service_range, api_get_used_ip_addresses_, get. safe_auto. auto with handler. Qed.
#[local] Hint Resolve safe_check_range type_in_keeps : handler.

Lemma safe_user_sets k t rest : k <> Password -> safe state_ok no_save rest ->
  safe state_ok no_save (user_sets k t rest).
Proof. intros Hk Hr. unfold user_sets, get. safe_auto. Qed.

Lemma re_evaluate_run s g : kit_settings_form_group s = Some g -> current g ->
  exists g', re_evaluate s = (Ret tt, with_form (Some g') s, []) /\ form_ok g'.
Proof.
  intros E Hg. unfold re_evaluate, get. rewrite (bind_run_silent _ _ s s s) by done. rewrite E. simpl when.
  destruct (update_current Password g Hg) as (g2 & E2 & H2 & _).
  destruct (update_current RePassword g2 H2) as (g3 & E3 & H3 & H4 & _).
  rewrite (bind_run_silent _ _ _ tt (with_form (Some g2) s)) by (by apply on_form_run with g).
  erewrite on_form_run with (g := g2); [|done|exact E3]. exists g3. by split; [|split; auto].
Qed.

Lemma safe_re_evaluate : safe state_ok no_save re_evaluate.
Proof.
  intros s Hs. destruct (kit_settings_form_group s) as [g|] eqn:E.
  - unfold state_ok in Hs. rewrite E in Hs. destruct Hs as [Hg _].
    destruct (re_evaluate_run s g E Hg) as (g' & -> & H). by split; [|constructor].
  - unfold re_evaluate, get. rewrite (bind_run_silent _ _ s s s) by done. rewrite E. by split.
Qed.

(** The keys of the password and the evaluation that follows them. *)
Lemma safe_keys_password t : safe state_ok no_save (user_sets Password t re_evaluate).
Proof.
  intros s Hs. unfold user_sets, get. rewrite (bind_run_silent _ _ s s s) by done.
  destruct (kit_settings_form_group s) as [g|] eqn:E; [|by split]. destruct (negb _); [|by split].
  unfold state_ok in Hs. rewrite E in Hs. destruct Hs as [Hg _].
  destruct (type_in_current Password t g Hg) as (g1 & E1 & H1 & _).
  simpl when. rewrite (bind_run_silent _ _ s tt (with_form (Some g1) s)) by (by apply on_form_run with g).
  destruct (re_evaluate_run (with_form (Some g1) s) g1 eq_refl H1) as (g' & -> & H). by split; [|constructor].
Qed.

Lemma safe_new_form : safe state_ok no_save initialize_kit_settings_form_group_.
Proof.
  intros s Hs. unfold initialize_kit_settings_form_group_, get. rewrite (bind_run_silent _ _ s s s) by done.
  destruct (new_kit_form_ok (kit_settings s)) as (g & E & Hg). rewrite E. simpl. by split.
Qed.
#[local] Hint Resolve safe_re_evaluate safe_new_form : handler.

Lemma state_ok_form s s' : kit_settings_form_group s' = kit_settings_form_group s -> state_ok s -> state_ok s'.
Proof. unfold state_ok. by intros ->. Qed.
#[local] Hint Extern 1 (state_ok (_ _)) => eapply state_ok_form; [|eassumption]; reflexivity : handler.

(** Whether the verdict on the retyped password follows what is typed. *)
Definition keys_only (l : label event Ans) : Prop :=
  match l with Event (Paste k _) => evaluates k = false | _ => True end.

Lemma safe_form_turn l : keys_only l -> l <> Event SaveClick -> safe state_ok no_save (react l).
Proof.
  intros Hk Hs. destruct l as [e|c a]; simpl.
  - destruct e; simpl in *; try (by destruct Hs).
    + apply safe_emit. auto with handler.
    + unfold ngOnChanges, gather_controller_facts_, set_kubernetes_dhcp_range_, get.
      safe_auto; auto with handler.
    + unfold kit_status_change. safe_auto; auto with handler.
    + destruct k; simpl; try apply safe_keys_password; try apply safe_user_sets; safe_auto; done.
    + destruct k; simpl in *; try done; try apply safe_user_sets; safe_auto; done.
    + apply safe_user_sets; auto with handler.
    + apply safe_user_sets; auto with handler.
    + unfold get. safe_auto.
    + unfold get, click_button_open_console, open_server_stdout_dialog_window_, get. safe_auto; auto with handler.
    + unfold get, open_password_dialog_window. safe_auto; auto with handler.
  - destruct c; simpl in *; destruct a as [a|e]; simpl;
      unfold api_get_used_ip_addresses_answer, api_update_kit_settings_answer, api_job_get_answer, get;
      safe_auto; auto with handler.
Qed.

Lemma form_trace tr w : trace keys_only tr w -> state_ok (component w).
Proof.
  intros Htr. apply (trace_invariant keys_only state_ok (fun _ _ => True)) with (tr := tr); [done| |done].
  intros l Hl s Hs. split; [|by apply Forall_true]. revert s Hs.
  enough (H : safe state_ok (fun _ => True) (react l)) by (intros s Hs; by apply (H s Hs)).
  destruct l as [e|c a]; [destruct e|]; try (intros s Hs; split; [by apply safe_form_turn|by apply Forall_true]).
  simpl. unfold get, click_button_save, the_form, get, api_update_kit_settings_. safe_auto; auto with handler.
Qed.

(** What a form that may be saved holds. *)
Lemma valid_form g : form_ok g -> group_valid names g = true ->
  (fc_disabled (g Password) = false ->
     exists p, fc_value (g Password) = JStr p /\ strong p /\ fc_value (g RePassword) = JStr p) /\
  (fc_disabled (g KubernetesServicesCidr) = false -> exists c, fc_value (g KubernetesServicesCidr) = JStr c /\ c <> "") /\
  forall j, j = UpstreamNtp \/ j = UpstreamDns ->
    fc_value (g j) = JNull \/ exists t, fc_value (g j) = JStr t /\ (t = "" \/ test IP_CONSTRAINT t = true).
Proof.
  intros [(Hv & Hc & Hl1 & Hl2) Hr] Hg.
  assert (Hin : forall k, k ∈ names) by (intros k; destruct k; set_solver).
  assert (Hok : forall k, fc_disabled (g k) = false -> rule g k (control_of (g k)) = Ret None).
  { intros k Hd. rewrite <- (group_valid_field names g k Hg (Hin k) Hd).
    destruct (decide (k = RePassword)) as [->|Hk]; [by apply Hr | by apply Hc]. }
  assert (Htext : forall k, k <> UpstreamNtp -> k <> UpstreamDns -> exists t, fc_value (g k) = JStr t).
  { intros k H1 H2. destruct (Hv k) as [H|[_ [H|H]]]; done. }
  split_and!.
  - intros Hd. destruct (Htext Password) as [p Ep]; [done|done|]. destruct (Htext RePassword) as [q Eq]; [done|done|].
    destruct (root_password_strong (control_of (g Password)) p Ep) as (e & E & Hs).
    assert (E' := Hok Password Hd). unfold rule in E'. rewrite E in E'.
    injection E' as ->. destruct (repeated_same (control_of (g Password)) (control_of (g RePassword)) q Eq) as (e & E2 & Hm).
    assert (E'' := Hok RePassword ltac:(congruence)). unfold rule in E''. rewrite E2 in E''. injection E'' as ->.
    destruct (Hm eq_refl) as [_ Em].
    exists p. split_and!; [done | by apply Hs | simpl in Em; congruence].
  - intros Hd. destruct (Htext KubernetesServicesCidr) as [c Ec]; [done|done|].
    destruct (cidr_rule g (control_of (g KubernetesServicesCidr)) c Ec) as (e & E & Hne).
    rewrite (Hok _ Hd) in E. injection E as <-. exists c. auto.
  - intros j Hj. destruct (fc_disabled (g j)) eqn:Hd.
    + exfalso. unfold group_valid in Hg. apply andb_true_iff in Hg as [(k & _ & Hk)%existsb_exists _].
      by rewrite (Hl2 j k Hj Hd) in Hk.
    + destruct (address_rule g j (control_of (g j)) Hj (Hv j)) as (e & E & H). rewrite (Hok _ Hd) in E.
      injection E as <-. by apply H.
Qed.

Lemma save_run s g : kit_settings_form_group s = Some g ->
  click_button_save s = (Ret tt, with_kit_settings (Some (settings_of g)) s, [Subscribe (CUpdateKitSettings (settings_of g))]).
Proof.
  intros E. unfold click_button_save, the_form, get, bind, gets, deref, ret. by rewrite E.
Qed.

(** C17: settings are saved by a click on the button only, once the general settings
    exist and no job is known to run, and with the passwords typed on the keyboard:
    unless its field is locked, the password that is posted meets the requirements
    and is the one that was retyped; unless its field is locked, a service range is
    chosen; and the two servers are empty or addresses the pattern accepts; whatever
    the page bound before and the jobs and the kit status did.  What a locked field
    holds is posted unchecked ([locked_password_is_posted]). *)
Theorem saved_settings_were_checked tr w l w' k :
  trace keys_only tr w -> keys_only l -> step w l w' -> Subscribe (CUpdateKitSettings k) ∈ made l w ->
  l = Event SaveClick /\ truthy (general_settings_configured (kit_status (component w))) = true /\
  kit_job_running (component w) = false /\
  exists g, kit_settings_form_group (component w) = Some g /\
    (fc_disabled (g Password) = false ->
       exists p, pk_password k = Some p /\ strong p /\ fc_value (g RePassword) = JStr p) /\
    (fc_disabled (g KubernetesServicesCidr) = false -> exists c, pk_kubernetes_services_cidr k = Some c /\ c <> "") /\
    forall a, pk_upstream_ntp k = Some a \/ pk_upstream_dns k = Some a -> a = "" \/ test IP_CONSTRAINT a = true.
Proof.
  intros Htr Hl _ Hin. assert (Hs := form_trace tr w Htr).
  destruct (decide_rel (fun b c : bool => b = c) (match l with Event SaveClick => true | _ => false end) true) as [El|El].
  - destruct l as [[]|]; try done. simpl in Hin. unfold made in Hin. simpl in Hin.
    unfold get in Hin. rewrite (bind_run_silent _ _ _ (component w) (component w)) in Hin by done.
    destruct (save_enabled (component w)) eqn:Es; [|by apply not_elem_of_nil in Hin].
    unfold save_enabled in Es. unfold state_ok in Hs.
    destruct (kit_settings_form_group (component w)) as [g|] eqn:Eg; [|done].
    rewrite !andb_true_iff, negb_true_iff in Es. destruct Es as [[[Hv Ht] Hgen] Hrun].
    simpl when in Hin. rewrite (save_run _ g Eg) in Hin. apply elem_of_cons in Hin as [[= ->]|?%not_elem_of_nil]; [|done].
    split_and!; [done|done|done|]. exists g. split; [done|].
    destruct (valid_form g Hs Hv) as (H1 & H2 & H3). split_and!.
    + intros Hd. destruct (H1 Hd) as (p & Ep & Hp & Er). exists p. cbn. by rewrite Ep.
    + intros Hd. destruct (H2 Hd) as (c & Ec & Hc). exists c. cbn. by rewrite Ec.
    + cbn. intros a [Ha|Ha]; [destruct (H3 UpstreamNtp (or_introl eq_refl)) as [E|(t & E & H)] |
        destruct (H3 UpstreamDns (or_intror eq_refl)) as [E|(t & E & H)]]; rewrite E in Ha; simpl in Ha; try done; by injection Ha as <-.
  - exfalso. assert (Hne : l <> Event SaveClick) by (intros ->; done).
    destruct (safe_form_turn l Hl Hne (component w) Hs) as [_ HF]. rewrite Forall_forall in HF.
    by specialize (HF _ Hin _ eq_refl).
Qed.


(** A first change detection, and the settings typed in. *)
Lemma saved_settings_were_checked_witness : exists tr w k,
  trace keys_only tr w /\ Subscribe (CUpdateKitSettings k) ∈ made (Event SaveClick) w /\
  pk_password k = Some "Correct-Horse-42" /\ pk_upstream_dns k = Some "10.0.0.1" /\ pk_is_gip k = Some true /\
  truthy (general_settings_configured (kit_status (component w))) = true.
Proof.
  pose proof (trace_start keys_only) as T.
  apply (trace_event _ _ _ NgOnInit) in T; [|exact I].
  apply (trace_event _ _ _ (Bind {| ch_general_settings := None; ch_kit_status := Some configured;
    ch_controller_info := None; ch_kit_settings := Some None |})) in T; [|exact I].
  apply (trace_event _ _ _ (ChooseKit "GIP")) in T; [|exact I].
  apply (trace_event _ _ _ (Keys RePassword "Correct-Horse-42")) in T; [|exact I].
  apply (trace_event _ _ _ (Keys Password "Correct-Horse-42")) in T; [|exact I].
  apply (trace_event _ _ _ (Paste UpstreamDns "10.0.0.1")) in T; [|reflexivity].
  apply (trace_event _ _ _ (SelectCidr "10.0.0.96")) in T; [|exact I].
  apply (trace_event _ _ _ (Blur KubernetesServicesCidr)) in T; [|exact I].
  match type of T with trace _ ?tr ?w => set (w1 := w) in T; exists tr, w1 end.
  pose proof (step_event w1 SaveClick) as Hs.
  eexists. split; [exact T|].
  assert (Hin : Subscribe (CUpdateKitSettings {| pk__id := None; pk_kubernetes_services_cidr := Some "10.0.0.96";
      pk_password := Some "Correct-Horse-42"; pk_upstream_dns := Some "10.0.0.1"; pk_upstream_ntp := None;
      pk_job_id := None; pk_job_completed := None; pk_is_gip := Some true; pk_controller_interface := None;
      pk_netmask := None; pk_gateway := None; pk_domain := None; pk_dhcp_range := None |}) ∈ made (Event SaveClick) w1)
    by (vm_compute; left).
  split; [exact Hin|]. split_and!; [reflexivity|reflexivity|reflexivity|].
  by destruct (saved_settings_were_checked _ _ (Event SaveClick) _ _ T I Hs Hin) as (_ & H & _).
Defined.

(** ** The offered ranges *)

(** What the loop leaves: the element after one it takes out is not looked at. *)
Fixpoint without_32 (l : list string) : list string :=
  match l with
  | [] => []
  | v :: r => if endsWith v ".32" then match r with [] => [] | u :: r' => u :: without_32 r' end
              else v :: without_32 r
  end.

Lemma splice_loop_run n l1 l2 : (length l2 <= n)%nat -> splice_loop n (length l1) (l1 ++ l2) = l1 ++ without_32 l2.
Proof.
  revert l1 l2. induction n as [n IH] using (well_founded_induction lt_wf). intros l1 l2 Hn.
  destruct n as [|n]; [destruct l2; [done | simpl in Hn; lia]|]. simpl.
  rewrite lookup_app_r, Nat.sub_diag by lia. destruct l2 as [|v r]; [done|]. cbn [lookup list_lookup].
  assert (E : forall u, S (length l1) = length (l1 ++ [u : string])) by (intros u; rewrite length_app; simpl; lia).
  destruct (endsWith v ".32") eqn:Ev; cbn [without_32]; rewrite Ev.
  - rewrite delete_middle. destruct r as [|u r].
    + destruct n as [|n]; [done|]. simpl. by rewrite lookup_ge_None_2 by (rewrite length_app; simpl; lia).
    + rewrite (cons_middle u l1 r), (app_assoc l1), (E u). rewrite IH; [by rewrite <- app_assoc|lia|simpl in Hn; lia].
  - rewrite (cons_middle v l1 r), (app_assoc l1), (E v). rewrite IH; [by rewrite <- app_assoc|lia|simpl in Hn; lia].
Qed.

(** No two neighbours end with [.32]. *)
Fixpoint apart (l : list string) : Prop :=
  match l with
  | v :: r => (endsWith v ".32" = true -> match r with u :: _ => endsWith u ".32" = false | [] => True end) /\ apart r
  | [] => True
  end.

Lemma without_32_filter l : apart l -> without_32 l = base.filter (fun v => endsWith v ".32" = false) l.
Proof.
  induction l as [l IH] using (induction_ltof1 _ length). unfold ltof in IH.
  destruct l as [|v r]; [done|]. cbn [without_32]. intros [Hv Hr]. rewrite filter_cons.
  destruct (endsWith v ".32") eqn:Ev.
  - rewrite decide_False by congruence. destruct r as [|u r]; [done|]. specialize (Hv eq_refl).
    rewrite filter_cons, decide_True by done. f_equal. apply IH; [simpl; lia | apply Hr].
  - rewrite decide_True by done. f_equal. apply IH; [simpl; lia | done].
Qed.

Lemma splice_value_filter v l : NoDup l -> splice_value v l = base.filter (fun x => v <> Some x) l.
Proof.
  unfold splice_value. induction l as [|x l IH]; intros Hl; [done|]. apply NoDup_cons in Hl as [Hx Hl].
  specialize (IH Hl). simpl findIndex. rewrite filter_cons. destruct (v ?=== x) eqn:E.
  - simpl. rewrite decide_False by (apply oseqb_eq in E; naive_solver). apply oseqb_eq in E as ->.
    symmetry. clear IH. induction l as [|y l IHl]; [done|]. rewrite filter_cons.
    rewrite not_elem_of_cons in Hx. rewrite decide_True by naive_solver. f_equal. apply IHl; [naive_solver|].
    by apply NoDup_cons in Hl as [_ Hl].
  - rewrite decide_True by (intros ->; by rewrite (proj2 (oseqb_eq _ _) eq_refl) in E).
    pose proof (findIndex_bounds (fun x => v ?=== x) l). destruct (Z.eqb_spec (findIndex (fun x => v ?=== x) l) (-1)) as [Ei|Ei].
    + rewrite Ei in *. simpl in IH |- *. by rewrite <- IH.
    + destruct (Z.eqb_spec (findIndex (fun x => v ?=== x) l + 1) (-1)); [lia|]. rewrite <- IH.
      replace (Z.to_nat (findIndex (fun x => v ?=== x) l + 1)) with (S (Z.to_nat (findIndex (fun x => v ?=== x) l))) by lia.
      done.
Qed.

Lemma without_32_sublist l : without_32 l `sublist_of` l.
Proof.
  induction l as [l IH] using (induction_ltof1 _ length). unfold ltof in IH. destruct l as [|v r]; [done|].
  cbn [without_32]. destruct (endsWith v ".32").
  - destruct r as [|u r]; [by constructor|]. do 2 constructor. apply IH. simpl. lia.
  - constructor. apply IH. simpl. lia.
Qed.

(** The ranges that end with [.32] are counted from the last one that does not: the
    first, the third and so on are taken out. *)
Fixpoint every_second_32 (run : nat) (l : list string) : list string :=
  match l with
  | [] => []
  | v :: r => if endsWith v ".32" then (if Nat.odd run then [v] else []) ++ every_second_32 (S run) r
              else v :: every_second_32 0 r
  end.

Lemma every_second_even run l : every_second_32 (S (S run)) l = every_second_32 run l.
Proof.
  revert run. induction l as [|v r IH]; intros run; [done|]. cbn [every_second_32]. by rewrite IH.
Qed.

Lemma without_32_counts l : without_32 l = every_second_32 0 l.
Proof.
  induction l as [l IH] using (induction_ltof1 _ length). unfold ltof in IH. destruct l as [|v r]; [done|].
  cbn [without_32 every_second_32]. destruct (endsWith v ".32") eqn:Ev; [|f_equal; apply IH; simpl; lia].
  destruct r as [|u r]; [done|]. rewrite IH by (simpl; lia). simpl.
  destruct (endsWith u ".32") eqn:Eu; [by rewrite every_second_even | done].
Qed.

(** C29: the loop that takes ranges out of the list it walks over ends.  When the
    server names no range twice, the select box offers the unused ranges in their
    order, without the range of the address server and without the first, the third
    and so on of every uninterrupted run of ranges that end with [.32]; the second,
    the fourth and so on of such a run stay.  When no two neighbours end with [.32]
    that is every range that does not end so. *)
Theorem offered_ranges unused dhcp_range : NoDup unused ->
  dhcp_range_options unused dhcp_range =
    base.filter (fun v => dhcp_range <> Some v) (every_second_32 0 unused) /\
  (apart unused -> every_second_32 0 unused = base.filter (fun v => endsWith v ".32" = false) unused).
Proof.
  intros Hn. rewrite <- without_32_counts. split; [|apply without_32_filter].
  transitivity (splice_value dhcp_range (without_32 unused)).
  - unfold dhcp_range_options. f_equal. by apply (splice_loop_run (length unused) [] unused).
  - apply splice_value_filter. eapply sublist_NoDup; [exact Hn | apply without_32_sublist].
Qed.

Lemma offered_ranges_witness :
  dhcp_range_options ["10.0.0.0"; "10.0.0.32"; "10.0.0.64"; "10.0.0.96"] (Some "10.0.0.96") = ["10.0.0.0"; "10.0.0.64"] /\
  dhcp_range_options ["10.0.0.32"; "10.0.1.32"; "10.0.2.32"; "10.0.3.0"] None = ["10.0.1.32"; "10.0.3.0"].
Proof.
  split.
  - destruct (offered_ranges ["10.0.0.0"; "10.0.0.32"; "10.0.0.64"; "10.0.0.96"] (Some "10.0.0.96")) as [H _];
      [apply (bool_decide_unpack _); reflexivity|]. rewrite H. reflexivity.
  - destruct (offered_ranges ["10.0.0.32"; "10.0.1.32"; "10.0.2.32"; "10.0.3.0"] None) as [H _];
      [apply (bool_decide_unpack _); reflexivity|]. rewrite H. reflexivity.
Defined.

Definition witness_kit : PartialKitSettingsClass :=
  {| pk__id := Some "1"; pk_kubernetes_services_cidr := Some "10.0.0.96"; pk_password := Some "Correct-Horse-42";
     pk_upstream_dns := None; pk_upstream_ntp := None; pk_job_id := Some "7"; pk_job_completed := Some true;
     pk_is_gip := Some false; pk_controller_interface := None; pk_netmask := None; pk_gateway := None;
     pk_domain := None; pk_dhcp_range := None |}.

(** A weak password that was typed before the answer of the job locked its field is
    posted. *)
Lemma locked_password_is_posted : exists tr w k,
  trace keys_only tr w /\ Subscribe (CUpdateKitSettings k) ∈ made (Event SaveClick) w /\ pk_password k = Some "weak".
Proof.
  pose proof (trace_start keys_only) as T.
  apply (trace_event _ _ _ (Bind {| ch_general_settings := None; ch_kit_status := None;
    ch_controller_info := None; ch_kit_settings := Some (Some witness_kit) |})) in T; [|exact I].
  apply (trace_event _ _ _ (Bind {| ch_general_settings := None; ch_kit_status := Some deployed;
    ch_controller_info := None; ch_kit_settings := None |})) in T; [|exact I].
  apply (trace_event _ _ _ (Keys Password "weak")) in T; [|exact I].
  apply (trace_event _ _ _ (Blur UpstreamDns)) in T; [|exact I].
  apply (trace_answer _ _ _ [] (CJobGet (Some "7")) [] (Next (job_with_status (Some "finished")))) in T;
    [|exact I|reflexivity].
  match type of T with trace _ ?tr ?w => set (w1 := w) in T; exists tr, w1 end.
  eexists. split; [exact T|]. split; [vm_compute; left | reflexivity].
Qed.

(** The fields that a deployed control plane locks are locked by the answer of
    the job only: the next message about the kit status enables every field of
    the form again. *)
Theorem status_message_unlocks tr w g data :
  trace keys_only tr w -> kit_settings_form_group (component w) = Some g ->
  truthy (general_settings_configured data) = true ->
  exists g', kit_settings_form_group (component (after (Event (KitStatusChange data)) (pending w) w)) = Some g' /\
    forall k, fc_disabled (g' k) = false.
Proof.
  intros Htr Hg Hd. assert (Hs := form_trace tr w Htr). unfold state_ok in Hs. rewrite Hg in Hs.
  destruct (enable_keeps g Hs) as (g' & E & _). exists g'. split; [|exact (enabled_all g g' E)].
  unfold after. simpl. unfold kit_status_change.
  rewrite (bind_state _ _ _ tt (with_kit_status data (component w)) []) by done.
  unfold check_job_, get. set (s1 := with_kit_status data (component w)).
  rewrite (bind_state _ _ _ s1 s1 []) by done.
  set (s2 := with_job_id (kit_settings s1 ≫= pk_job_id) s1).
  rewrite (bind_state _ _ _ tt s2 []) by done. simpl. rewrite Hg, Hd. simpl.
  rewrite (bind_state _ _ s2 tt (with_form (Some g') s2) []) by (by apply on_form_run with g).
  rewrite (bind_state _ _ _ tt (with_form (Some g') s2) [Page (UpdateDisableButtons false)]) by done.
  by destruct (match kit_settings _ ≫= pk_job_id with Some _ => _ | None => _ end).
Qed.

(** The password of a deployed kit, locked by the answer and free again. *)
Lemma status_message_unlocks_witness : exists tr w g g',
  trace keys_only tr w /\ kit_settings_form_group (component w) = Some g /\ fc_disabled (g Password) = true /\
  kit_settings_form_group (component (after (Event (KitStatusChange deployed)) (pending w) w)) = Some g' /\
  fc_disabled (g' Password) = false.
Proof.
  pose proof (trace_start keys_only) as T.
  apply (trace_event _ _ _ (Bind {| ch_general_settings := None; ch_kit_status := None;
    ch_controller_info := None; ch_kit_settings := Some (Some witness_kit) |})) in T; [|exact I].
  apply (trace_event _ _ _ (Bind {| ch_general_settings := None; ch_kit_status := Some deployed;
    ch_controller_info := None; ch_kit_settings := None |})) in T; [|exact I].
  apply (trace_answer _ _ _ [] (CJobGet (Some "7")) [] (Next (job_with_status (Some "finished")))) in T;
    [|exact I|reflexivity].
  match type of T with trace _ ?tr ?w => set (w1 := w) in T; exists tr, w1 end.
  assert (Hf : exists g, kit_settings_form_group (component w1) = Some g /\ fc_disabled (g Password) = true)
    by (vm_compute; by eexists).
  destruct Hf as (g & Eg & Hd). destruct (status_message_unlocks _ w1 g deployed T Eg eq_refl) as (g' & E' & H').
  exists g, g'. split_and!; [exact T|exact Eg|exact Hd|exact E'|apply H'].
Defined.
