(* ===== verification/AddMip.v ===== *)
(** modules/mip-mng/components/add-mip-dialog: the dialog that adds MIPs.

    The validators of the controls hold the arrays of the names and addresses they
    forbid, as in AddNode.v; they can be exchanged while the dialog is open, so the
    form is a group of controls (Fields.v) with the validator that each of them has
    now.  A control keeps the verdict of the last run of its validator. *)
From S2P Require Import Prelude Handler JsValue Runtime Data Api Services SettingsData Messages Net NodeMng Regex Validators AddNode Fields.
From Stdlib Require Import Ascii.

Inductive mip_control : Type := Hostname | IpAddress | DeploymentType | MacAddress | VirtualCpu | VirtualMem | VirtualOs.
#[export] Instance mip_control_eq : EqDecision mip_control.
Proof. intros x y. unfold Decision. decide equality. Defined.

(** The controls in the order of the group. *)
Definition mip_controls : list mip_control :=
  [Hostname; IpAddress; DeploymentType; MacAddress; VirtualCpu; VirtualMem; VirtualOs].

Record mip_form := { controls : form mip_control; validators : mip_control -> option check }.

Definition with_controls v (f : mip_form) : mip_form := {| controls := v; validators := validators f |}.
Definition setValidators (k : mip_control) (v : option check) (f : mip_form) : mip_form :=
  {| controls := controls f; validators := fun j => if decide (j = k) then v else validators f j |}.
Definition markAs (touched dirty : bool) (k : mip_control) (f : mip_form) : mip_form :=
  with_controls (put k (with_marks touched dirty (controls f k)) (controls f)) f.

(** The validator of a control with the present contents of the arrays. *)
Definition mip_rule (h : store (list jsval)) (f : mip_form)
    (_ : form mip_control) (k : mip_control) (c : AbstractControl) : outcome (option validation_error) :=
  check_verdict h (validators f k) (value c) (touched c).

Definition mip_value (f : mip_form) (k : mip_control) : jsval := fc_value (controls f k).
Definition mip_valid (f : mip_form) : bool := group_valid mip_controls (controls f).

Definition mip_raw_value (f : mip_form) : jsval :=
  JObj [("hostname", mip_value f Hostname); ("ip_address", mip_value f IpAddress);
        ("deployment_type", mip_value f DeploymentType); ("mac_address", mip_value f MacAddress);
        ("virtual_cpu", mip_value f VirtualCpu); ("virtual_mem", mip_value f VirtualMem);
        ("virtual_os", mip_value f VirtualOs)].

(** ** The dialog *)

Definition DEPLOYMENT_OPTIONS : list MatOptionInterface := [option_baremetal; option_virtual false].

Inductive call : Type :=
| CGetGeneralSettings
| CGetUnused (controller_interface netmask : option string)
| CGetNodes (call_initialize_node_form_group : bool)
| CAddMip (hostname : jsval) (payload : jsval).
Definition Ans (c : call) : Type :=
  match c with
  | CGetGeneralSettings => answer (option GeneralSettingsClass)
  | CGetUnused _ _ => answer (list string)
  | CGetNodes _ => answer (list NodeClass)
  | CAddMip _ _ => answer GenericJobAndKeyClass
  end.

(** Closing returns the form, of which the page reads the validity and the value. *)
Inductive page : Type := CloseDialog (node_form_group : option (bool * jsval)).

Record AddMipDialogComponent := {
  node_form_group : option mip_form;
  available_ips : list string;
  deployment_options : list MatOptionInterface;
  create_duplicate_ : bool;
  settings_ : option GeneralSettingsClass;
  validation_hostnames_ : loc;
  validation_ips_ : loc;
  validation_macs_ : loc;
  arrays : store (list jsval);
  closed : bool;
}.
Abbreviation M := (handler AddMipDialogComponent (effect call page)).

Definition with_form v (s : AddMipDialogComponent) :=
  {| node_form_group := v; available_ips := available_ips s; deployment_options := deployment_options s;
     create_duplicate_ := create_duplicate_ s; settings_ := settings_ s;
     validation_hostnames_ := validation_hostnames_ s; validation_ips_ := validation_ips_ s;
     validation_macs_ := validation_macs_ s; arrays := arrays s; closed := closed s |}.
Definition with_available v (s : AddMipDialogComponent) :=
  {| node_form_group := node_form_group s; available_ips := v; deployment_options := deployment_options s;
     create_duplicate_ := create_duplicate_ s; settings_ := settings_ s;
     validation_hostnames_ := validation_hostnames_ s; validation_ips_ := validation_ips_ s;
     validation_macs_ := validation_macs_ s; arrays := arrays s; closed := closed s |}.
Definition with_duplicate v (s : AddMipDialogComponent) :=
  {| node_form_group := node_form_group s; available_ips := available_ips s; deployment_options := deployment_options s;
     create_duplicate_ := v; settings_ := settings_ s;
     validation_hostnames_ := validation_hostnames_ s; validation_ips_ := validation_ips_ s;
     validation_macs_ := validation_macs_ s; arrays := arrays s; closed := closed s |}.
Definition with_settings v (s : AddMipDialogComponent) :=
  {| node_form_group := node_form_group s; available_ips := available_ips s; deployment_options := deployment_options s;
     create_duplicate_ := create_duplicate_ s; settings_ := v;
     validation_hostnames_ := validation_hostnames_ s; validation_ips_ := validation_ips_ s;
     validation_macs_ := validation_macs_ s; arrays := arrays s; closed := closed s |}.
Definition with_refs p q r h (s : AddMipDialogComponent) :=
  {| node_form_group := node_form_group s; available_ips := available_ips s; deployment_options := deployment_options s;
     create_duplicate_ := create_duplicate_ s; settings_ := settings_ s;
     validation_hostnames_ := p; validation_ips_ := q; validation_macs_ := r; arrays := h; closed := closed s |}.
Definition with_arrays h (s : AddMipDialogComponent) :=
  with_refs (validation_hostnames_ s) (validation_ips_ s) (validation_macs_ s) h s.
Definition with_closed v (s : AddMipDialogComponent) :=
  {| node_form_group := node_form_group s; available_ips := available_ips s; deployment_options := deployment_options s;
     create_duplicate_ := create_duplicate_ s; settings_ := settings_ s;
     validation_hostnames_ := validation_hostnames_ s; validation_ips_ := validation_ips_ s;
     validation_macs_ := validation_macs_ s; arrays := arrays s; closed := v |}.

(** The three empty arrays are distinct; the flag of the duplicates starts
    undefined. *)
Definition constructor : AddMipDialogComponent :=
  let '(ps, h) := alloc_list [[]; []; []] store_empty in
  {| node_form_group := None; available_ips := []; deployment_options := DEPLOYMENT_OPTIONS;
     create_duplicate_ := false; settings_ := Some empty_settings;
     validation_hostnames_ := nth 0 ps 0; validation_ips_ := nth 1 ps 0; validation_macs_ := nth 2 ps 0;
     arrays := h; closed := false |}.

Definition get : M AddMipDialogComponent := gets (fun s => s).
Definition the_form : M mip_form := s <- get ;; deref (node_form_group s).
Definition push (p : loc) (v : jsval) : M unit :=
  modify (fun s => with_arrays (update p (fun l => l ++ [v]) (arrays s)) s).

Definition set_node_form_group_ (f : mip_form) : M unit := modify (with_form (Some f)).
(** A method of the form that changes it or throws. *)
Definition on_form (op : store (list jsval) -> mip_form -> outcome mip_form) : M unit :=
  f <- the_form ;; s <- get ;; f' <- lift (op (arrays s) f) ;; set_node_form_group_ f'.

(** [updateValueAndValidity], [setValue] and a key, on one control. *)
Definition update_control (k : mip_control) (h : store (list jsval)) (f : mip_form) : outcome mip_form :=
  let* g := updateValueAndValidity (mip_rule h f) k (controls f) in Ret (with_controls g f).
Definition set_control (k : mip_control) (v : jsval) (h : store (list jsval)) (f : mip_form) : outcome mip_form :=
  let* g := setValue (mip_rule h f) k v (controls f) in Ret (with_controls g f).
Definition type_control (k : mip_control) (v : jsval) (h : store (list jsval)) (f : mip_form) : outcome mip_form :=
  let* g := type_in (mip_rule h f) k v (controls f) in Ret (with_controls g f).

(** [setValidators], the two marks and [updateValueAndValidity] *)
Definition renew_control (k : mip_control) (v : option check) (h : store (list jsval)) (f : mip_form) : outcome mip_form :=
  update_control k h (markAs false false k (setValidators k v f)).

(** *** Questions of the template *)

Definition deployment_is (t : string) (s : AddMipDialogComponent) : bool :=
  match node_form_group s with Some f => strict_eq (mip_value f DeploymentType) (JStr t) | None => false end.
Definition is_virtual_machine_deployment : AddMipDialogComponent -> bool := deployment_is VIRTUAL.
Definition is_baremetal_deployment : AddMipDialogComponent -> bool := deployment_is BAREMETAL.

Definition get_error_message (f : field) : option error_text :=
  match fc_errors f with
  | None => Some (Text "")
  | Some (PatternError _ m) => Some m
  | Some (PasswordError _ t) => Some (Text t)
  | Some (ErrorObject m) => Some m
  end.

(** *** The form of the virtual machine

    The component of AddNode.v reads and changes the three controls of this form
    that its own form has, too. *)

Definition virtual_control (f : mip_form) (k : mip_control) : control :=
  {| c_value := mip_value f k; c_touched := fc_touched (controls f k); c_dirty := fc_dirty (controls f k);
     c_validator := validators f k |}.
Definition virtual_view (f : mip_form) : node_form :=
  let none := new_FormControl JUndefined None in
  {| f_hostname := virtual_control f Hostname; f_ip_address := virtual_control f IpAddress; f_node_type := none;
     f_deployment_type := virtual_control f DeploymentType; f_mac_address := virtual_control f MacAddress;
     f_raid0_override := none; f_virtual_cpu := virtual_control f VirtualCpu;
     f_virtual_mem := virtual_control f VirtualMem; f_virtual_os := virtual_control f VirtualOs; f_virtual_data := None |}.

(** Every change it makes to a control ends in the validation of that control. *)
Definition take_control (k : mip_control) (c : control) (h : store (list jsval)) (f : mip_form) : outcome mip_form :=
  set_control k (c_value c) h (markAs (c_touched c) (c_dirty c) k (setValidators k (c_validator c) f)).
Definition on_virtual_form (op : node_form -> node_form) (h : store (list jsval)) (f : mip_form) : outcome mip_form :=
  let v := op (virtual_view f) in
  let* f1 := take_control VirtualCpu (f_virtual_cpu v) h f in
  let* f2 := take_control VirtualMem (f_virtual_mem v) h f1 in
  take_control VirtualOs (f_virtual_os v) h f2.

(** *** Forms *)

(** The validators of the new controls. *)
Definition new_validators (s : AddMipDialogComponent) (k : mip_control) : option check :=
  match k with
  | Hostname => AddNode.checked addNodeValidators_hostname (validation_hostnames_ s)
  | IpAddress => AddNode.checked addNodeValidators_ip_address (validation_ips_ s)
  | DeploymentType => rules_of COMMON_VALIDATORS_required
  | MacAddress => AddNode.checked addNodeValidators_mac_address (validation_macs_ s)
  | _ => None
  end.
(** The values that a duplicate takes over. *)
Definition taken_over (previous : option mip_form) (k : mip_control) : jsval :=
  match k, previous with
  | Hostname, _ | IpAddress, _ | _, None => JUndefined
  | _, Some f => mip_value f k
  end.

(** The condition asks whether a comparison is defined, and a boolean is: every
    duplicate loses the validator of its hardware address.  The verdict that the
    control has from its creation stays. *)
Definition initialize_node_form_group_ (previous : option mip_form) : M unit :=
  s <- get ;;
  let f := {| controls := fun k => raw_field (taken_over previous k); validators := new_validators s |} in
  g <- lift (new_group (mip_rule (arrays s) f) mip_controls (controls f)) ;;
  let f := with_controls g f in
  set_node_form_group_ (match previous with Some _ => setValidators MacAddress None f | None => f end).

(** *** Requests *)

Definition api_get_general_settings_ : M unit := emit (Subscribe CGetGeneralSettings).
(** Settings that are undefined throw. *)
Definition api_get_unused_ip_addresses_ : M unit :=
  s <- get ;; g <- deref (settings_ s) ;;
  emit (Subscribe (CGetUnused (controller_interface g) (gs_netmask g))).
Definition api_get_nodes_ (call_initialize_node_form_group : bool) : M unit :=
  emit (Subscribe (CGetNodes call_initialize_node_form_group)).
Definition api_add_mip_ (hostname : jsval) : M unit :=
  f <- the_form ;; emit (Subscribe (CAddMip hostname (mip_raw_value f))).

Definition api_get_general_settings_answer (a : answer (option GeneralSettingsClass)) : M unit :=
  match a with
  | Next response => modify (with_settings response) ;;; api_get_unused_ip_addresses_
  | Error e => on_error_message "retrieving general settings" e
  end.
Definition api_get_unused_ip_addresses_answer (a : answer (list string)) : M unit :=
  match a with
  | Next response => modify (with_available response)
  | Error e => on_error_message "retrieving unused ip addresses" e
  end.

Definition host_label (n : NodeClass) : string := part (split_on "." (hostname n)) 0.

Definition api_get_nodes_answer (call_initialize_node_form_group : bool) (a : answer (list NodeClass)) : M unit :=
  match a with
  | Next response =>
      s <- get ;;
      let '(ps, h) := alloc_list [(fun n => JStr (host_label n)) <$> response; (fun n => JStr (ip_address n)) <$> response;
                                  (fun n => JStr (mac_address n)) <$> response] (arrays s) in
      modify (with_refs (nth 0 ps 0) (nth 1 ps 0) (nth 2 ps 0) h) ;;;
      when call_initialize_node_form_group (initialize_node_form_group_ None)
  | Error e => on_error_message "retrieving nodes" e
  end.

(** The lists take the values that the form has when the answer arrives. *)
Definition api_add_mip_answer (hostname : jsval) (a : answer GenericJobAndKeyClass) : M unit :=
  match a with
  | Next _ =>
      f <- the_form ;; s <- get ;;
      modify (with_available (List.filter (fun ip => negb (strict_eq (JStr ip) (mip_value f IpAddress))) (available_ips s))) ;;;
      push (validation_ips_ s) (mip_value f IpAddress) ;;;
      push (validation_hostnames_ s) (mip_value f Hostname) ;;;
      when (defined (mip_value f MacAddress)) (push (validation_macs_ s) (mip_value f MacAddress)) ;;;
      initialize_node_form_group_ (Some f) ;;;
      generate_return_success_snackbar_message ("started node creation job for " +:+ js_to_string hostname +:+ ".")
        (Some MAT_SNACKBAR_CONFIGURATION_60000_DUR_DISMISS)
  | Error (ErrorMessageClass m) => displaySnackBar (js_to_string m) (Some MAT_SNACKBAR_CONFIGURATION_60000_DUR)
  | Error (ValidationErrorClass _ messages) => show_validation_errors messages
  | Error (PostValidationClass v) => show_post_validation v
  | Error e => on_error "adding mip" e
  end.

(** *** Actions *)

Definition ngOnInit : M unit := api_get_general_settings_ ;;; api_get_nodes_ true.

Definition change_deployment_type (event : string) : M unit :=
  api_get_nodes_ false ;;;
  s <- get ;;
  on_form (renew_control MacAddress
    (if event === BAREMETAL then AddNode.checked addNodeValidators_mac_address (validation_macs_ s) else None)) ;;;
  s <- get ;;
  when (is_virtual_machine_deployment s)
    (on_form (on_virtual_form (set_default_values (Some MIP))) ;;;
     on_form (on_virtual_form (set_virtual_form_validation event))).

Definition close (v : option (bool * jsval)) : M unit := modify (with_closed true) ;;; emit (Page (CloseDialog v)).
Definition cancel : M unit := close None.
Definition add : M unit :=
  s <- get ;;
  f <- the_form ;;
  if create_duplicate_ s then api_add_mip_ (mip_value f Hostname) else close (Some (mip_valid f, mip_raw_value f)).
Definition duplicate_node_change (checked : bool) : M unit := modify (with_duplicate checked).

(** The template shows its controls when there is a form; a radio button sets its
    control before the dialog's handler runs. *)
Inductive event : Type :=
| NgOnInit
| TypeText (k : mip_control) (t : string)
| Blur (k : mip_control)
| ChooseDeployment (i : nat)
| DuplicateClick (checked : bool)
| AddClick
| CancelClick.

Definition when_form (s : AddMipDialogComponent) (m : M unit) : M unit :=
  match node_form_group s with Some _ => m | None => ret tt end.
(** The text fields in the template. *)
Definition is_shown (s : AddMipDialogComponent) (k : mip_control) : bool :=
  match k with
  | Hostname | IpAddress => notUndefNull (node_form_group s)
  | DeploymentType => false
  | MacAddress => is_baremetal_deployment s
  | _ => is_virtual_machine_deployment s
  end.
Definition add_enabled (s : AddMipDialogComponent) : bool :=
  match node_form_group s with Some f => mip_valid f | None => false end.

Definition on_ev (e : event) : M unit :=
  s <- get ;;
  match e with
  | NgOnInit => ngOnInit
  | TypeText k t => when (is_shown s k) (on_form (type_control k (JStr t)))
  | Blur k => when_form s (on_form (fun _ f => Ret (with_controls (markAsTouched k (controls f)) f)))
  | ChooseDeployment i =>
      match deployment_options s !! i with
      | Some o => when_form s (on_form (type_control DeploymentType (JStr (mo_value o))) ;;; change_deployment_type (mo_value o))
      | None => ret tt
      end
  | DuplicateClick checked => when_form s (duplicate_node_change checked)
  | AddClick => when (add_enabled s) add
  | CancelClick => when_form s cancel
  end.
Definition on_ans (c : call) : Ans c -> M unit :=
  match c with
  | CGetGeneralSettings => api_get_general_settings_answer
  | CGetUnused _ _ => api_get_unused_ip_addresses_answer
  | CGetNodes b => api_get_nodes_answer b
  | CAddMip hostname _ => api_add_mip_answer hostname
  end.
(** A dialog that was closed hears nothing any more. *)
Definition while_open (m : M unit) : M unit := s <- get ;; (if closed s then ret tt else m).

#[export] Instance AddMipDialog : Component AddMipDialogComponent call page event Ans :=
  {| initial := constructor; on_event e := while_open (on_ev e); on_answer c a := while_open (on_ans c a) |}.

(** ** What is added *)

(** A verdict without error on a control that must be filled in. *)
Lemma check_defined h rules array v t m :
  check_verdict h (Some {| rules := rules; forbidden := array |}) v t = Ret None ->
  plain "required" m None ∈ rules -> v <> JUndefined.
Proof.
  intros H Hin ->. cbn [check_verdict AddNode.rules] in H. apply valid_means in H. rewrite Forall_forall in H.
  specialize (H _ Hin). unfold validate_one, requiredField in H. by destruct t.
Qed.

Section Added.
(** A node that the server reports whenever it is asked. *)
Variable n : NodeClass.

Definition reports (l : label event Ans) : Prop :=
  match l with
  | Answered c a =>
      match c return Ans c -> Prop with
      | CGetNodes _ => fun a => forall response, a = Next response -> n ∈ response
      | _ => fun _ => True
      end a
  | Event _ => True
  end.

(** The array [p] contains [x]. *)
Definition holds (h : store (list jsval)) (p : loc) (x : string) : Prop :=
  exists l, load h p = Some l /\ JStr x ∈ l.

Definition pattern_of (k : mip_control) : RegExp :=
  match k with Hostname => hostname_pattern | _ => IP_CONSTRAINT end.
Definition rules_for (k : mip_control) : list ValidatorObjectInterface :=
  match k with Hostname => addNodeValidators_hostname | _ => addNodeValidators_ip_address end.
Definition taken (k : mip_control) : string :=
  match k with Hostname => host_label n | _ => ip_address n end.
Definition named (k : mip_control) : Prop := k = Hostname \/ k = IpAddress.

(** The verdict of a name or an address without errors means a text of the
    pattern which is not the node's. *)
Definition free (k : mip_control) (f : field) : Prop :=
  fc_disabled f = false /\ (fc_errors f = None ->
    exists x, fc_value f = JStr x /\ test (pattern_of k) x = true /\ x <> taken k).
Definition typed (v : jsval) : Prop := v = JUndefined \/ exists x, v = JStr x.
Definition chosen (f : field) : Prop :=
  fc_disabled f = false /\ (fc_value f = JUndefined \/ fc_value f = JStr BAREMETAL \/ fc_value f = JStr VIRTUAL) /\
  (fc_errors f = None -> fc_value f <> JUndefined).

Definition guards (h : store (list jsval)) (v : mip_control -> option check) : Prop :=
  (forall k, named k -> exists p, v k = AddNode.checked (rules_for k) p /\ holds h p (taken k)) /\
  v DeploymentType = rules_of COMMON_VALIDATORS_required.
Definition form_ok (h : store (list jsval)) (f : mip_form) : Prop :=
  guards h (validators f) /\ (forall k, named k -> free k (controls f k)) /\ chosen (controls f DeploymentType).
Definition refs_ok (s : AddMipDialogComponent) : Prop :=
  holds (arrays s) (validation_hostnames_ s) (host_label n) /\ holds (arrays s) (validation_ips_ s) (ip_address n).
Definition dialog_ok (s : AddMipDialogComponent) : Prop :=
  store_wf (arrays s) /\ deployment_options s = DEPLOYMENT_OPTIONS /\
  match node_form_group s with Some f => form_ok (arrays s) f /\ refs_ok s | None => True end.

Lemma verdict_free h k p x t : named k -> holds h p (taken k) ->
  check_verdict h (AddNode.checked (rules_for k) p) (JStr x) t = Ret None ->
  test (pattern_of k) x = true /\ x <> taken k.
Proof using.
  intros Hk (l & Hl & Hx) H. destruct Hk as [-> | ->]; cbn [rules_for pattern_of] in *.
  - destruct (check_accepts h _ p x t
      (fun value => "Duplicate hostnames found: " +:+ value +:+ ". Node must have a unique hostname.")
      (Text "The Hostname must be alphanumeric between 5 and 40 characters. Special characters are not allowed except for the minus sign (-) and the period (.). The Hostname may not begin or end with either special character.")
      (Text "Hostname is required") hostname_pattern H) as (_ & H1 & H2);
      [by left | by right; left | by right; right; left |].
    split; [done|]. rewrite Hl in H2. intros ->. by apply H2.
  - destruct (check_accepts h _ p x t
      (fun value => "Used IP Address found: " +:+ value +:+ ". Node must have a unique IP Address.")
      (Text "You must enter a valid IP address.") (Text "IP Address is required.") IP_CONSTRAINT H) as (_ & H1 & H2);
      [by left | by right; right; left | by right; left |].
    split; [done|]. rewrite Hl in H2. intros ->. by apply H2.
Qed.

Lemma verdict_named h k p v t : named k -> typed v -> holds h p (taken k) ->
  check_verdict h (AddNode.checked (rules_for k) p) v t = Ret None ->
  exists x, v = JStr x /\ test (pattern_of k) x = true /\ x <> taken k.
Proof using.
  intros Hk [->|[x ->]] Hp H; [|exists x; split; [done|]; by apply (verdict_free h k p x t)].
  exfalso. destruct Hk as [-> | ->].
  - apply (check_defined _ _ _ _ _ (Text "Hostname is required")) in H; [done|by right; right; left].
  - apply (check_defined _ _ _ _ _ (Text "IP Address is required.")) in H; [done|by right; left].
Qed.

(** The controls after [updateValueAndValidity]. *)
Lemma update_control_run k h f f' : update_control k h f = Ret f' ->
  validators f' = validators f /\ (forall j, j <> k -> controls f' j = controls f j) /\
  fc_value (controls f' k) = fc_value (controls f k) /\ fc_disabled (controls f' k) = fc_disabled (controls f k) /\
  (fc_disabled (controls f k) = false ->
   check_verdict h (validators f k) (fc_value (controls f k)) (fc_touched (controls f k)) = Ret (fc_errors (controls f' k))).
Proof using.
  unfold update_control. destruct (updateValueAndValidity _ k (controls f)) as [g|] eqn:E; [|done]. intros [= <-].
  split_and!; [done|intros j Hj; by apply (update_other _ _ _ _ _ E)| | |];
    try by destruct (update_same _ _ _ _ E) as (H1 & H2 & _).
  intros Hd. unfold updateValueAndValidity in E. rewrite Hd in E. unfold mip_rule in E. cbn [control_of value touched] in E.
  destruct (check_verdict _ _ _ _) as [e|]; [|done]. injection E as <-. cbn. by rewrite put_same.
Qed.

(** The controls of [todo] have no verdict yet. *)
Definition ready (h : store (list jsval)) (todo : list mip_control) (f : mip_form) : Prop :=
  guards h (validators f) /\
  (forall k, named k -> if decide (k ∈ todo)
             then fc_disabled (controls f k) = false /\ typed (fc_value (controls f k)) else free k (controls f k)) /\
  (if decide (DeploymentType ∈ todo)
   then fc_disabled (controls f DeploymentType) = false /\
        (mip_value f DeploymentType = JUndefined \/ mip_value f DeploymentType = JStr BAREMETAL \/
         mip_value f DeploymentType = JStr VIRTUAL)
   else chosen (controls f DeploymentType)).

Lemma ready_all h f : form_ok h f <-> ready h [] f.
Proof using.
  unfold form_ok, ready. split; intros (H1 & H2 & H3); (split; [done|]); split.
  - intros k Hk. rewrite decide_False by apply not_elem_of_nil. by apply H2.
  - by rewrite decide_False by apply not_elem_of_nil.
  - intros k Hk. specialize (H2 k Hk). by rewrite decide_False in H2 by apply not_elem_of_nil.
  - by rewrite decide_False in H3 by apply not_elem_of_nil.
Qed.

Lemma ready_step h k l f f' : ready h (k :: l) f -> k ∉ l -> update_control k h f = Ret f' -> ready h l f'.
Proof using.
  intros (Hg & Hn & Hd) Hk E. destruct (update_control_run _ _ _ _ E) as (Ev & Eo & Evl & Eds & Ech).
  split; [by rewrite Ev|]. split.
  - intros j Hj. specialize (Hn j Hj). destruct (decide (j = k)) as [->|Hne].
    + rewrite decide_True in Hn by left. rewrite decide_False by done. destruct Hn as [H1 H2].
      split; [by rewrite Eds|]. intros He. rewrite Evl. specialize (Ech H1). rewrite He in Ech.
      destruct (proj1 Hg k Hj) as (p & Ep & Hp). rewrite Ep in Ech.
      exact (verdict_named h k p _ _ Hj H2 Hp Ech).
    + rewrite (Eo j Hne). destruct (decide (j ∈ l)) as [H|H].
      * by rewrite decide_True in Hn by by right.
      * rewrite decide_False in Hn; [done|]. by intros [?|?]%elem_of_cons.
  - destruct (decide (DeploymentType = k)) as [<-|Hne].
    + rewrite decide_True in Hd by left. rewrite decide_False by done. destruct Hd as [H1 H2]. unfold mip_value in H2.
      split; [by rewrite Eds|]. split; [by rewrite Evl|]. intros He. rewrite Evl. specialize (Ech H1). rewrite He in Ech.
      rewrite (proj2 Hg) in Ech. apply (check_defined _ _ _ _ _ (Text "Required field")) in Ech; [done|left].
    + unfold mip_value. rewrite (Eo _ Hne). destruct (decide (DeploymentType ∈ l)) as [H|H].
      * by rewrite decide_True in Hd by by right.
      * rewrite decide_False in Hd; [done|]. by intros [?|?]%elem_of_cons.
Qed.

Lemma ready_each h l f g : ready h l f -> NoDup l ->
  each (updateValueAndValidity (mip_rule h f)) l (controls f) = Ret g -> form_ok h (with_controls g f).
Proof using.
  revert f. induction l as [|k l IH]; intros f Hr Hl E; simpl in E.
  - injection E as <-. apply ready_all in Hr. by destruct f.
  - apply NoDup_cons in Hl as [Hk Hl]. destruct (updateValueAndValidity _ k (controls f)) as [g1|] eqn:E1; [|done].
    apply (IH (with_controls g1 f)); [|done|exact E].
    apply (ready_step h k l f); [done|done|]. unfold update_control. by rewrite E1.
Qed.

(** A change to one control that is neither a name nor the deployment type. *)
Lemma ready_other k h f f' : ~ named k -> k <> DeploymentType -> form_ok h f ->
  (forall j, j <> k -> controls f' j = controls f j) -> (forall j, j <> k -> validators f' j = validators f j) ->
  ready h [k] f'.
Proof using.
  intros Hn Hd (Hg & Hf & Hc) Ec Ev. assert (Hd' : DeploymentType <> k) by congruence. split; [|split].
  - split; [intros j Hj | rewrite Ev by done; apply Hg]. rewrite Ev; [by apply (proj1 Hg)|]. by intros ->.
  - intros j Hj. assert (j <> k) by (by intros ->). rewrite decide_False by (by intros ?%list_elem_of_singleton).
    rewrite Ec by done. by apply Hf.
  - rewrite decide_False by (by intros ?%list_elem_of_singleton). by rewrite Ec.
Qed.

Lemma type_ok k t h f f' : form_ok h f -> (k = DeploymentType -> t = BAREMETAL \/ t = VIRTUAL) ->
  type_control k (JStr t) h f = Ret f' -> form_ok h f'.
Proof using.
  intros (Hg & Hf & Hc) Hk E. apply ready_all. set (f1 := with_controls (put k (with_value (JStr t)
    (with_marks (fc_touched (controls f k)) true (controls f k))) (put k (with_marks (fc_touched (controls f k)) true (controls f k)) (controls f))) f).
  assert (E1 : update_control k h f1 = Ret f').
  { rewrite <- E. unfold type_control, type_in, setValue, update_control, f1. cbn [controls with_controls].
    by rewrite put_same. }
  apply (ready_step h k [] f1); [|apply not_elem_of_nil|exact E1].
  assert (Eo : forall j, j <> k -> controls f1 j = controls f j).
  { intros j Hj. unfold f1. cbn [controls with_controls]. by rewrite !put_other. }
  assert (Es : fc_value (controls f1 k) = JStr t /\ fc_disabled (controls f1 k) = fc_disabled (controls f k)).
  { unfold f1. cbn [controls with_controls]. by rewrite put_same. }
  split; [exact Hg|]. split.
  - intros j Hj. case_decide as Hin.
    + apply list_elem_of_singleton in Hin as ->. destruct Es as [-> ->]. split; [apply (Hf k Hj)|]. right. by exists t.
    + rewrite Eo; [by apply Hf|]. intros ->. by apply Hin, list_elem_of_singleton.
  - case_decide as Hin.
    + apply list_elem_of_singleton in Hin as <-. unfold mip_value. destruct Es as [-> ->]. split; [apply Hc|].
      right. by destruct (Hk eq_refl) as [-> | ->]; [left | right].
    + rewrite Eo; [exact Hc|]. intros <-. by apply Hin, list_elem_of_singleton.
Qed.

Lemma blur_ok k h f : form_ok h f -> form_ok h (with_controls (markAsTouched k (controls f)) f).
Proof using.
  intros (Hg & Hf & Hc). split; [exact Hg|]. cbn [controls with_controls]. split.
  - intros j Hj. specialize (Hf j Hj). destruct (markAsTouched_fields k (controls f) j) as (E1 & E2 & E3).
    unfold free. by rewrite E1, E2, E3.
  - destruct (markAsTouched_fields k (controls f) DeploymentType) as (E1 & E2 & E3). unfold chosen. by rewrite E1, E2, E3.
Qed.

Lemma markAs_frame t d k f : (forall j, j <> k -> controls (markAs t d k f) j = controls f j) /\
  validators (markAs t d k f) = validators f.
Proof using. split; [intros j Hj; by apply put_other | done]. Qed.
Lemma setValidators_frame k v f : controls (setValidators k v f) = controls f /\
  forall j, j <> k -> validators (setValidators k v f) j = validators f j.
Proof using. split; [done|]. intros j Hj. cbn. by rewrite decide_False. Qed.

Lemma renew_ok k v h f f' : ~ named k -> k <> DeploymentType -> form_ok h f ->
  renew_control k v h f = Ret f' -> form_ok h f'.
Proof using.
  intros Hn Hd Hf E. apply ready_all. apply (ready_step h k [] _ _) in E; [done| |apply not_elem_of_nil].
  apply (ready_other k h f); try done; intros j Hj.
  - by rewrite (proj1 (markAs_frame _ _ _ _)).
  - cbn. by rewrite decide_False.
Qed.

Lemma take_ok k c h f f' : ~ named k -> k <> DeploymentType -> form_ok h f ->
  take_control k c h f = Ret f' -> form_ok h f'.
Proof using.
  intros Hn Hd Hf E. apply ready_all.
  set (f1 := markAs (c_touched c) (c_dirty c) k (setValidators k (c_validator c) f)) in *.
  set (f2 := with_controls (put k (with_value (c_value c) (controls f1 k)) (controls f1)) f1).
  apply (ready_step h k [] f2); [|apply not_elem_of_nil|exact E].
  apply (ready_other k h f); try done; intros j Hj.
  - unfold f2, f1. cbn [controls with_controls]. rewrite put_other by done. by rewrite (proj1 (markAs_frame _ _ _ _)).
  - unfold f2, f1. cbn. by rewrite decide_False.
Qed.

Lemma virtual_ok op h f f' : form_ok h f -> on_virtual_form op h f = Ret f' -> form_ok h f'.
Proof using.
  intros Hf E. unfold on_virtual_form in E.
  destruct (take_control VirtualCpu _ h f) as [f1|] eqn:E1; [|done].
  apply take_ok in E1; [| by intros [|] | done | done]. cbn [obind] in E.
  destruct (take_control VirtualMem _ h f1) as [f2|] eqn:E2; [|done].
  apply take_ok in E2; [| by intros [|] | done | done]. cbn [obind] in E.
  by apply take_ok in E; [| by intros [|] | done |].
Qed.

(** The arrays only grow. *)
Definition grown (h h' : store (list jsval)) : Prop :=
  forall p l, load h p = Some l -> exists r, load h' p = Some (l ++ r).

Lemma holds_grown h h' p x : grown h h' -> holds h p x -> holds h' p x.
Proof using.
  intros G (l & Hl & Hx). destruct (G p l Hl) as [r Hr]. exists (l ++ r). split; [done|]. apply elem_of_app. by left.
Qed.
Lemma form_ok_grown h h' f : grown h h' -> form_ok h f -> form_ok h' f.
Proof using.
  intros G ((Hg & Hd) & Hf & Hc). split; [|done]. split; [|done]. intros k Hk. destruct (Hg k Hk) as (p & Ep & Hp).
  exists p. split; [done|]. by apply (holds_grown h).
Qed.
Lemma grown_update p v h : grown h (update p (fun l => l ++ [v]) h).
Proof using.
  intros q l Hl. destruct (decide (p = q)) as [->|Hne].
  - rewrite load_update_eq, Hl. by exists [v].
  - rewrite load_update_ne, Hl by done. exists []. by rewrite app_nil_r.
Qed.

(** What closing and adding return. *)
Definition payload_ok (v : jsval) : Prop :=
  exists s t, prop v "hostname" = JStr s /\ prop v "ip_address" = JStr t /\
    hostname_ok s /\ test IP_CONSTRAINT t = true /\ s <> host_label n /\ t <> ip_address n /\
    (prop v "deployment_type" = JStr BAREMETAL \/ prop v "deployment_type" = JStr VIRTUAL).
Definition by_add (l : label event Ans) (e : effect call page) : Prop :=
  match e with
  | Subscribe (CAddMip _ v) | Page (CloseDialog (Some (_, v))) => l = Event AddClick /\ payload_ok v
  | _ => True
  end.

Lemma valid_payload h f : form_ok h f -> mip_valid f = true -> payload_ok (mip_raw_value f).
Proof using.
  intros (_ & Hf & (Hd & Hv & He)) Hm.
  assert (Hn : forall k, named k -> exists x, mip_value f k = JStr x /\ test (pattern_of k) x = true /\ x <> taken k).
  { intros k Hk. destruct (Hf k Hk) as [H1 H2]. apply H2.
    apply (group_valid_field mip_controls (controls f)); [done| |done]. destruct Hk as [-> | ->]; by repeat constructor. }
  destruct (Hn Hostname) as (x & Ex & Px & Nx); [by left|].
  destruct (Hn IpAddress) as (y & Ey & Py & Ny); [by right|].
  exists x, y. unfold mip_raw_value. cbn -[BAREMETAL VIRTUAL]. rewrite Ex, Ey.
  split_and!; try done; [by apply hostname_pattern_spec|]. destruct Hv as [Hv|Hv]; [|exact Hv].
  exfalso. apply He; [|done]. apply (group_valid_field mip_controls (controls f)); [done| |done]. by repeat constructor.
Qed.

(** ** Every turn *)

Section Turn.
Variable P : effect call page -> Prop.
Hypothesis quiet : forall e, (match e with Subscribe (CAddMip _ _) | Page (CloseDialog (Some _)) => False | _ => True end) -> P e.

Lemma quiet_on_form op : (forall h f f', form_ok h f -> op h f = Ret f' -> form_ok h f') -> safe dialog_ok P (on_form op).
Proof using.
  intros Hop s Hs. split; unfold on_form, the_form, get, bind, gets, deref; cbn.
  - destruct (node_form_group s) as [f|] eqn:E; [|done]. cbn. destruct (op (arrays s) f) as [f'|] eqn:Ef; [|done].
    destruct Hs as (Hw & Ho & H). rewrite E in H. destruct H as [Hf Hr]. split_and!; [done|done|]. cbn.
    split; [by apply (Hop _ f)|exact Hr].
  - destruct (node_form_group s) as [f|]; [|constructor]. cbn. destruct (op (arrays s) f); constructor.
Qed.

Lemma quiet_emit e : (match e with Subscribe (CAddMip _ _) | Page (CloseDialog (Some _)) => False | _ => True end) ->
  safe dialog_ok P (emit e).
Proof using quiet. intros He s Hs. split; [exact Hs|]. constructor; [by apply quiet | constructor]. Qed.

Lemma quiet_new_form previous s : store_wf (arrays s) -> deployment_options s = DEPLOYMENT_OPTIONS -> refs_ok s ->
  match node_form_group s with Some f => form_ok (arrays s) f | None => True end ->
  match previous with Some f => form_ok (arrays s) f | None => True end ->
  dialog_ok (state_of (initialize_node_form_group_ previous s)) /\ Forall P (effects_of (initialize_node_form_group_ previous s)).
Proof using.
  intros Hw Ho Hr Hold Hprev. unfold initialize_node_form_group_, get.
  rewrite (bind_run_silent _ _ s s s) by done. set (f0 := {| controls := _; validators := _ |}).
  assert (Hs : dialog_ok s).
  { split_and!; [done|done|]. destruct (node_form_group s); done. }
  destruct (new_group (mip_rule (arrays s) f0) mip_controls (controls f0)) as [g|] eqn:E; [|by split].
  rewrite (bind_run_silent _ _ s g s) by done.
  assert (Hf : form_ok (arrays s) (with_controls g f0)).
  { apply (ready_each (arrays s) mip_controls f0 g); [|apply (bool_decide_unpack _); vm_compute; exact I|exact E].
    split; [|split].
    - split; [|done]. intros k [-> | ->]; eexists; (split; [reflexivity|]); apply Hr.
    - intros k Hk. rewrite decide_True by (destruct Hk as [-> | ->]; by repeat constructor).
      split; [done|]. left. by destruct Hk as [-> | ->].
    - rewrite decide_True by by repeat constructor. split; [done|]. unfold mip_value, f0. cbn.
      destruct previous as [f|]; [apply Hprev | by left]. }
  split; [|constructor]. split_and!; [done|done|]. cbn. split; [|exact Hr].
  destruct previous; [|exact Hf]. destruct Hf as ((Hg & Hd) & Hrest). split; [|exact Hrest]. split; [|exact Hd].
  intros k Hk. destruct (Hg k Hk) as (p & Ep & Hp). exists p. split; [|done]. cbn.
  rewrite decide_False; [exact Ep|]. by destruct Hk as [-> | ->].
Qed.

(** The form that an answer finds. *)
Definition with_the (f : mip_form) (s : AddMipDialogComponent) : Prop := dialog_ok s /\ node_form_group s = Some f.

Lemma push_keeps f p v : safe (with_the f) P (push p v).
Proof using.
  intros s [(Hw & Ho & H) Ef]. split; [|constructor]. cbn [push modify state_of fst snd].
  pose proof (grown_update p v (arrays s)) as G. split; [|exact Ef].
  split_and!; [by apply update_wf|done|]. rewrite Ef in H. cbn. rewrite Ef. destruct H as [Hf [H1 H2]].
  split; [by apply (form_ok_grown (arrays s))|]. split; by apply (holds_grown (arrays s)).
Qed.

Lemma available_keeps f v : safe (with_the f) P (modify (with_available v)).
Proof using. intros s [H E]. split; [|constructor]. by split. Qed.

Lemma initialize_leads f : leads (with_the f) P (initialize_node_form_group_ (Some f)) dialog_ok.
Proof using.
  intros s [(Hw & Ho & H) E]. rewrite E in H. destruct H as [Hf Hr].
  apply quiet_new_form; try done. by rewrite E.
Qed.

Lemma quiet_snack m c : safe dialog_ok P (displaySnackBar m c).
Proof using quiet. by apply quiet_emit. Qed.
Lemma quiet_errors m e : safe dialog_ok P (on_error m e).
Proof using quiet. by apply quiet_emit. Qed.
Lemma quiet_messages m e : safe dialog_ok P (on_error_message m e).
Proof using quiet. destruct e; by apply quiet_emit. Qed.

Lemma the_form_run s f : node_form_group s = Some f -> the_form s = (Ret f, s, []).
Proof using. intros E. unfold the_form, get, bind, gets, deref. cbn. by rewrite E. Qed.

Lemma add_answer_quiet hostname a : safe dialog_ok P (api_add_mip_answer hostname a).
Proof using quiet.
  destruct a as [r|e].
  - intros s Hs. unfold api_add_mip_answer. destruct (node_form_group s) as [f|] eqn:E.
    + rewrite (bind_run_silent _ _ _ _ _ (the_form_run s f E)), (bind_run_silent _ _ s s s) by done.
      match goal with |- dialog_ok (state_of (?m s)) /\ _ => assert (H : leads (with_the f) P m dialog_ok); [|by apply H] end.
      apply (leads_bind (with_the f) (with_the f) dialog_ok); [apply available_keeps | by intros ? [? _] | intros _].
      apply (leads_bind (with_the f) (with_the f) dialog_ok); [apply push_keeps | by intros ? [? _] | intros _].
      apply (leads_bind (with_the f) (with_the f) dialog_ok); [apply push_keeps | by intros ? [? _] | intros _].
      apply (leads_bind (with_the f) (with_the f) dialog_ok); [apply safe_when; intros _; apply push_keeps | by intros ? [? _] | intros _].
      apply (leads_bind (with_the f) dialog_ok dialog_ok); [apply initialize_leads | done | intros _].
      by apply quiet_emit.
    + rewrite (bind_run_throw _ _ s "TypeError" s []); [by split|]. unfold the_form, get, bind, gets, deref. cbn. by rewrite E.
  - unfold api_add_mip_answer. destruct e; first
      [ apply quiet_snack | apply safe_show_validation_errors; intros ? ?; by apply quiet
      | apply safe_show_post_validation; intros ? ?; by apply quiet | apply quiet_errors ].
Qed.

(** The arrays of an answer are new ones. *)
Lemma nodes_answer_quiet b response : n ∈ response -> safe dialog_ok P (api_get_nodes_answer b (Next response)).
Proof using quiet.
  intros Hn s (Hw & Ho & H). unfold api_get_nodes_answer, get. rewrite (bind_run_silent _ _ s s s) by done.
  destruct (alloc_list _ (arrays s)) as [ps h] eqn:E. pose proof (alloc_list_fresh _ _ _ _ E) as [-> _].
  set (s1 := with_refs (nth 0 (seq (next_loc (arrays s)) 3) 0) (nth 1 (seq (next_loc (arrays s)) 3) 0) (nth 2 (seq (next_loc (arrays s)) 3) 0) h s).
  rewrite (bind_run_silent _ _ s tt s1) by done.
  assert (Hw1 : store_wf h) by by apply (alloc_list_wf _ _ _ _ E).
  assert (Hr : refs_ok s1).
  { split; eexists; (split; [unfold s1; cbn [with_refs arrays validation_hostnames_ validation_ips_ nth seq]|]).
    - pose proof (alloc_list_new _ _ _ _ 0 _ E eq_refl) as Hl. by rewrite Nat.add_0_r in Hl.
    - apply list_elem_of_fmap. by exists n.
    - pose proof (alloc_list_new _ _ _ _ 1 _ E eq_refl) as Hl. by rewrite Nat.add_1_r in Hl.
    - apply list_elem_of_fmap. by exists n. }
  assert (Hf : match node_form_group s1 with Some f => form_ok (arrays s1) f | None => True end).
  { change (node_form_group s1) with (node_form_group s). destruct (node_form_group s) as [f|]; [|done].
    apply (form_ok_grown (arrays s)); [|apply H]. intros p l Hl. exists []. rewrite app_nil_r.
    change (arrays s1) with h. rewrite (alloc_list_old _ _ _ _ p E); [done|]. apply Hw. by exists l. }
  destruct b; simpl when; [by apply quiet_new_form|]. split; [|constructor]. split_and!; [done|done|].
  cbn [state_of ret fst snd]. destruct (node_form_group s1); done.
Qed.

Lemma general_answer_quiet r : safe dialog_ok P (api_get_general_settings_answer (Next r)).
Proof using quiet.
  unfold api_get_general_settings_answer, api_get_unused_ip_addresses_, get.
  repeat (safe_step || by apply quiet); assumption.
Qed.

Lemma nodes_error_quiet b e : safe dialog_ok P (api_get_nodes_answer b (Error e)).
Proof using quiet. apply quiet_messages. Qed.

Lemma deployment_quiet t : safe dialog_ok P (change_deployment_type t).
Proof using quiet.
  unfold change_deployment_type, get.
  repeat first
    [ safe_step
    | match goal with
      | |- safe _ _ (on_form (renew_control _ _)) => apply quiet_on_form; intros ? ? ?; apply renew_ok; [by intros [|]|done]
      | |- safe _ _ (on_form (on_virtual_form _)) => apply quiet_on_form; intros ? ? ?; apply virtual_ok
      | |- safe _ _ (api_get_nodes_ _) => by apply quiet_emit
      end ].
Qed.
End Turn.

Lemma add_run s f : node_form_group s = Some f ->
  add s = if create_duplicate_ s then (Ret tt, s, [Subscribe (CAddMip (mip_value f Hostname) (mip_raw_value f))])
          else (Ret tt, with_closed true s, [Page (CloseDialog (Some (mip_valid f, mip_raw_value f)))]).
Proof using.
  intros E. unfold add, api_add_mip_, close, the_form, get, bind, gets, deref, modify, emit. cbn. rewrite E. cbn.
  destruct (create_duplicate_ s); cbn; by rewrite ?E.
Qed.

Lemma add_turn : safe dialog_ok (by_add (Event AddClick)) (on_ev AddClick).
Proof using.
  intros s Hs. unfold on_ev, get. rewrite (bind_run_silent _ _ s s s) by done.
  destruct (add_enabled s) eqn:Ea; [|by split]. unfold add_enabled in Ea.
  destruct (node_form_group s) as [f|] eqn:E; [|done]. simpl when. rewrite (add_run s f E).
  pose proof Hs as (_ & _ & H). rewrite E in H. destruct H as [Hf _].
  assert (Hp := valid_payload _ _ Hf Ea).
  destruct (create_duplicate_ s); (split; [exact Hs|]); constructor; by try constructor.
Qed.

Lemma deployment_option i o : DEPLOYMENT_OPTIONS !! i = Some o -> mo_value o = BAREMETAL \/ mo_value o = VIRTUAL.
Proof using. destruct i as [|[|i]]; intros [= <-]; [by left | by right]. Qed.

Lemma mip_turn l : reports l -> safe dialog_ok (by_add l) (react l).
Proof using.
  intros Hl.
  assert (Q : forall e, (match e with Subscribe (CAddMip _ _) | Page (CloseDialog (Some _)) => False | _ => True end) -> by_add l e)
    by (intros e; destruct e as [ |[]| | | | |[[[b v]|]]]; done).
  destruct l as [e|c a]; cbn [react on_event on_answer AddMipDialog]; intros s Hs; unfold while_open, get;
    rewrite (bind_run_silent _ _ s s s) by done; (destruct (closed s); [by split|]).
  - destruct e as [|k t|k|i|b| |]; try (by apply add_turn);
      unfold on_ev, get; rewrite (bind_run_silent _ _ s s s) by done.
    + apply (safe_bind dialog_ok _); [by apply quiet_emit | intros _; by apply quiet_emit | exact Hs].
    + destruct (is_shown s k) eqn:Ek; [|by split]. simpl when. revert s Hs Ek. intros s Hs Ek.
      apply quiet_on_form; [|exact Hs]. intros h f f' Hf. apply type_ok; [exact Hf|]. by intros ->.
    + unfold when_form. destruct (node_form_group s); [|by split]. apply quiet_on_form; [|exact Hs].
      intros h f f' Hf [= <-]. by apply blur_ok.
    + pose proof Hs as (_ & Ho & _). destruct (deployment_options s !! i) as [o|] eqn:Ei; [|by split].
      rewrite Ho in Ei. apply deployment_option in Ei. unfold when_form. destruct (node_form_group s); [|by split].
      apply (safe_bind dialog_ok _); [| intros _; by apply deployment_quiet | exact Hs].
      apply quiet_on_form. intros h f f' Hf. by apply type_ok.
    + unfold when_form. destruct (node_form_group s); [|by split]. split; [exact Hs | constructor].
    + unfold when_form. destruct (node_form_group s); [|by split]. split; [exact Hs|]. by repeat constructor.
  - destruct c as [|ci nm|b|hn v]; cbn [on_ans].
    + destruct a as [r|e]; [|by apply quiet_messages].
      by apply general_answer_quiet.
    + destruct a as [r|e]; [|by apply quiet_messages]. split; [exact Hs | constructor].
    + destruct a as [r|e]; [|by apply nodes_error_quiet]. apply nodes_answer_quiet; [exact Q | by apply Hl | exact Hs].
    + by apply add_answer_quiet.
Qed.

Lemma initial_ok : dialog_ok constructor.
Proof using. split; [apply store_wfb_wf; vm_compute; reflexivity|]. by split. Qed.
End Added.

(** The dialog adds no MIP twice.  In every interleaving, a request that adds
    a MIP, and a form returned by closing, comes from the Add button and carries
    the name of a host, an address that the pattern accepts and one of the two
    types of deployment; and neither the name nor the address is that of a node
    that the server reports whenever the dialog asks for the nodes. *)
Theorem added_mips_are_new n tr w l w' v :
  trace (reports n) tr w -> reports n l -> step w l w' ->
  (exists hostname, Subscribe (CAddMip hostname v) ∈ made l w) \/ (exists b, Page (CloseDialog (Some (b, v))) ∈ made l w) ->
  l = Event AddClick /\ payload_ok n v.
Proof.
  intros Htr Hl _ Hin.
  destruct (trace_invariant (reports n) (dialog_ok n) (by_add n)) with (tr := tr) (w := w) as [Hs _];
    [exact (initial_ok n) | exact (mip_turn n) | done |].
  destruct (mip_turn n l Hl (component w) Hs) as [_ HF]. rewrite Forall_forall in HF.
  destruct Hin as [[h Hin]|[b Hin]]; exact (HF _ Hin).
Qed.

(** ** Duplicates *)

Lemma find_duplicate_returns v i l : typed v -> v <> JUndefined -> exists b, find_duplicate None v None i l = Ret b.
Proof.
  intros [->|[x ->]] Hv; [done|]. clear Hv. revert i. induction l as [|y l IH]; intros i; [by exists false|].
  cbn [find_duplicate length_of obind]. destruct (Validators.positive _); cbn [obind]; [|apply IH].
  destruct (strict_eq y (JStr x) && _); [by exists true | apply IH].
Qed.

Lemma check_returns h rules p v t : typed v -> (v = JUndefined -> t = false) ->
  Forall (fun r => (exists f, r = plain "unique" (Builder f) None) \/ (exists m, r = plain "required" m None) \/
                   exists m q, r = plain "pattern" m (Some q)) rules ->
  exists e, check_verdict h (AddNode.checked rules p) v t = Ret e.
Proof.
  intros Hv Ht Hr. cbn [check_verdict AddNode.checked AddNode.rules forbidden option_map].
  unfold validateFromArray. set (ops := Some _). set (c := {| value := v; touched := t; status := VALID |}).
  assert (E : exists es, construct_all (validate_one ops c) rules = Ret es).
  { induction Hr as [|r rules Hr _ [es IH]]; [by eexists|]. simpl.
    assert (E1 : exists e, validate_one ops c r = Ret e).
    { destruct Hr as [[f ->]|[[m ->]|(m & q & ->)]].
      - unfold validate_one. cbn -[find_duplicate]. unfold uniqueValidator. cbn -[find_duplicate].
        destruct (defined v) eqn:Ed; [|by eexists]. cbn -[find_duplicate].
        destruct (find_duplicate_returns v 0 (default [] (load h p)) Hv) as [b ->]; [by intros ->|].
        destruct b; by eexists.
      - unfold validate_one. cbn. unfold requiredField. cbn. destruct Hv as [->|[x ->]].
        + rewrite (Ht eq_refl). by eexists.
        + destruct t, x as [|a x]; by eexists.
      - unfold validate_one. cbn -[test]. unfold patternValidator. cbn -[test]. destruct Hv as [->|[x ->]]; [by eexists|].
        destruct x as [|a x]; by eexists. }
    destruct E1 as [e ->]. simpl. rewrite IH. by eexists. }
  destruct E as [es ->]. by eexists.
Qed.

Lemma each_update_returns h f l g : NoDup l -> (forall k, fc_disabled (g k) = false) ->
  (forall k, k ∈ l -> exists e, check_verdict h (validators f k) (fc_value (g k)) (fc_touched (g k)) = Ret e) ->
  exists g', each (updateValueAndValidity (mip_rule h f)) l g = Ret g' /\ (forall j, fc_value (g' j) = fc_value (g j)) /\
    forall j, fc_disabled (g' j) = false.
Proof.
  revert g. induction l as [|k l IH]; intros g Hl Hd Hr; [by exists g|]. apply NoDup_cons in Hl as [Hk Hl].
  destruct (Hr k) as [e E]; [by left|]. simpl. unfold updateValueAndValidity at 1, mip_rule at 1. rewrite Hd.
  cbn [value touched control_of]. rewrite E. simpl. set (g1 := put k _ g).
  assert (Ev : forall j, fc_value (g1 j) = fc_value (g j) /\ fc_disabled (g1 j) = fc_disabled (g j) /\ fc_touched (g1 j) = fc_touched (g j)).
  { intros j. unfold g1. destruct (decide (j = k)) as [->|Hj]; [by rewrite put_same | by rewrite put_other]. }
  destruct (IH g1 Hl) as (g' & E' & V & D).
  - intros j. destruct (Ev j) as (_ & -> & _). apply Hd.
  - intros j Hj. destruct (Ev j) as (-> & _ & ->). apply Hr. by right.
  - exists g'. split; [exact E'|]. split; [|exact D]. intros j. rewrite V. apply Ev.
Qed.

Local Ltac rules_known :=
  repeat (apply Forall_cons; split; [first [left; by eexists | right; left; by eexists | right; right; by eexists _, _]|]);
  constructor.

Lemma initialize_run s f : typed (mip_value f DeploymentType) -> typed (mip_value f MacAddress) ->
  exists f', initialize_node_form_group_ (Some f) s = (Ret tt, with_form (Some f') s, []) /\
    (forall k, mip_value f' k = taken_over (Some f) k) /\ (forall k, fc_disabled (controls f' k) = false) /\
    validators f' MacAddress = None /\ (forall k, k <> MacAddress -> validators f' k = new_validators s k).
Proof.
  intros Hd Hm. unfold initialize_node_form_group_, get. rewrite (bind_run_silent _ _ s s s) by done.
  set (f0 := {| controls := _; validators := _ |}).
  destruct (each_update_returns (arrays s) f0 mip_controls (controls f0)) as (g & E & V & D);
    [apply (bool_decide_unpack _); vm_compute; exact I | done | |].
  { intros k _. destruct k; cbn [f0 validators controls new_validators].
    - apply check_returns; [by left | done | rules_known].
    - apply check_returns; [by left | done | rules_known].
    - cbn. destruct Hd as [->|[[|a y] ->]]; by eexists.
    - apply check_returns; [exact Hm | done | rules_known].
    - by eexists.
    - by eexists.
    - by eexists. }
  unfold new_group. rewrite E. simpl lift. rewrite (bind_run_silent _ _ s g s) by done.
  eexists. split; [reflexivity|]. split_and!; [exact V | exact D | done |].
  intros k Hk. cbn. by rewrite decide_False.
Qed.

(** What a duplicate is not asked for.  When a MIP was added with the box for
    duplicates checked, the dialog goes on with a form that keeps the type of the
    deployment and has an empty name and address; in that form every text is
    accepted as the hardware address and as the sizes of the virtual machine,
    because their validators are gone until the type is chosen again. *)
Theorem duplicates_lose_their_checks hostname r s f :
  node_form_group s = Some f -> typed (mip_value f DeploymentType) -> typed (mip_value f MacAddress) ->
  let x := api_add_mip_answer hostname (Next r) s in
  fst (fst x) = Ret tt /\
  exists f', node_form_group (state_of x) = Some f' /\
    mip_value f' Hostname = JUndefined /\ mip_value f' IpAddress = JUndefined /\
    mip_value f' DeploymentType = mip_value f DeploymentType /\
    forall k t h, k ∈ [MacAddress; VirtualCpu; VirtualMem; VirtualOs] ->
      exists f'', type_control k (JStr t) h f' = Ret f'' /\ fc_errors (controls f'' k) = None /\ mip_value f'' k = JStr t.
Proof.
  intros E Hd Hm x. set (K := fun s' => node_form_group s' = Some f).
  assert (Hrun : exists s1, x = (initialize_node_form_group_ (Some f) ;;; generate_return_success_snackbar_message
      ("started node creation job for " +:+ js_to_string hostname +:+ ".")
      (Some MAT_SNACKBAR_CONFIGURATION_60000_DUR_DISMISS)) s1).
  { unfold x, api_add_mip_answer. rewrite (bind_run_silent _ _ _ _ _ (the_form_run s f E)), (bind_run_silent _ _ s s s) by done.
    do 3 (erewrite (bind_run_silent _ _ _ tt); [|reflexivity]).
    destruct (defined (mip_value f MacAddress)); simpl when; (erewrite (bind_run_silent _ _ _ tt); [|reflexivity]); by eexists. }
  destruct Hrun as [s1 ->]. destruct (initialize_run s1 f Hd Hm) as (f' & E' & V & D & M1 & M2).
  rewrite (bind_run_silent _ _ _ _ _ E'). split; [done|]. exists f'. split_and!; [done | apply V..|].
  intros k t h Hk. assert (Hv : validators f' k = None).
  { repeat (apply elem_of_cons in Hk as [->|Hk]); [exact M1 | by rewrite M2.. | by apply not_elem_of_nil in Hk]. }
  unfold type_control, type_in, setValue, updateValueAndValidity, mip_rule. rewrite !put_same. cbn. rewrite D. cbn.
  rewrite Hv. cbn. eexists. split; [reflexivity|]. cbn. unfold mip_value. cbn. by rewrite put_same.
Qed.

(** ** Witnesses *)

Definition witness_mip_node : NodeClass := witness_node MIP None "mip-one.lan".

Lemma added_mips_are_new_witness : exists tr w l w' v,
  trace (reports witness_mip_node) tr w /\ reports witness_mip_node l /\ step w l w' /\
  (exists b, Page (CloseDialog (Some (b, v))) ∈ made l w) /\ l = Event AddClick /\ payload_ok witness_mip_node v.
Proof.
  pose proof (trace_start (reports witness_mip_node)) as T.
  apply (trace_event _ _ _ NgOnInit) in T; [|exact I].
  apply (trace_answer _ _ _ [CGetGeneralSettings] (CGetNodes true) [] (Next [witness_mip_node])) in T;
    [|intros r [= <-]; left | vm_compute; reflexivity].
  apply (trace_event _ _ _ (TypeText Hostname "mip-two")) in T; [|exact I].
  apply (trace_event _ _ _ (TypeText IpAddress "10.0.0.52")) in T; [|exact I].
  apply (trace_event _ _ _ (ChooseDeployment 1)) in T; [|exact I].
  match type of T with trace _ ?tr ?w => set (w1 := w) in T; exists tr, w1 end.
  pose proof (step_event w1 AddClick) as Hs.
  assert (Hin : exists b, Page (CloseDialog (Some (b, JObj [("hostname", JStr "mip-two"); ("ip_address", JStr "10.0.0.52");
    ("deployment_type", JStr VIRTUAL); ("mac_address", JUndefined); ("virtual_cpu", JNum 8); ("virtual_mem", JNum 8);
    ("virtual_os", JNum 500)]))) ∈ made (Event AddClick) w1) by (exists true; vm_compute; left).
  exists (Event AddClick). eexists _, _. split; [exact T|]. split; [exact I|]. split; [exact Hs|]. split; [exact Hin|].
  exact (added_mips_are_new witness_mip_node _ _ (Event AddClick) _ _ T I Hs (or_intror Hin)).
Defined.

(** The dialog when a duplicate was asked for. *)
Definition witness_duplicate : AddMipDialogComponent :=
  fold_left (fun s e => state_of (on_ev e s))
    [TypeText Hostname "mip-two"; TypeText IpAddress "10.0.0.52"; ChooseDeployment 0;
     TypeText MacAddress "aa:bb:cc:dd:ee:01"; DuplicateClick true; AddClick]
    (state_of (api_get_nodes_answer true (Next [witness_mip_node]) (state_of (ngOnInit constructor)))).
Definition witness_mip_form : mip_form :=
  match node_form_group witness_duplicate with
  | Some f => f
  | None => {| controls := fun _ => raw_field JUndefined; validators := fun _ => None |}
  end.

Lemma duplicates_lose_their_checks_witness :
  mip_value witness_mip_form MacAddress = JStr "aa:bb:cc:dd:ee:01" /\
  exists f' f'', node_form_group (state_of (api_add_mip_answer (JStr "mip-two")
      (Next {| gj_job_id := "1"; redis_key := "" |}) witness_duplicate)) = Some f' /\
    type_control MacAddress (JStr "no address") (arrays witness_duplicate) f' = Ret f'' /\
    fc_errors (controls f'' MacAddress) = None.
Proof.
  split; [vm_compute; reflexivity|].
  destruct (duplicates_lose_their_checks (JStr "mip-two") {| gj_job_id := "1"; redis_key := "" |} witness_duplicate
    witness_mip_form) as (_ & f' & E & _ & _ & _ & H).
  - unfold witness_mip_form. destruct (node_form_group witness_duplicate) eqn:E; [done|]. exfalso. revert E. vm_compute. discriminate.
  - right. exists BAREMETAL. vm_compute. reflexivity.
  - right. exists "aa:bb:cc:dd:ee:01". vm_compute. reflexivity.
  - destruct (H MacAddress "no address" (arrays witness_duplicate)) as (f'' & E1 & E2 & _); [left|].
    exists f', f''. split; [exact E|]. split; [exact E1 | exact E2].
Defined.
