(* ===== verification/MipMng.v ===== *)
(** modules/mip-mng/mip-mng.component.ts: the MIP management page.

    As on the node management page (NodeMng.v) the nodes of a response are fresh
    objects of the component's store; the table, the dialogs and the callbacks hold
    references to them. *)
From S2P Require Import Prelude Handler JsValue Runtime Data Api Services SettingsData Messages NodeMng.

Definition CREATE : string := "create".
Definition MIP_MANAGEMENT_TITLE : string := "MIP Management".
Definition MIP_TABLE_COLUMNS : list string := ["hostname"; "ip_address"; "deployment_type"; "state"; "actions"].

(** The settings start as an object without keys; an object of the class has keys,
    and null has none. *)
Inductive mip_settings : Type := NoKeys | Received (response : option MipSettingsClass).

(** The add dialog returns the validity of its form and its value. *)
Inductive call : Type :=
| CGetNodes
| CGetMipSettings
| CAddMip (payload : jsval)
| CDeleteNode (node : loc) (hostname : string)
| DDeleteNode (mip : loc) (data : ConfirmDialogMatDialogDataInterface)
| DAddMip.
Definition Ans (c : call) : Type :=
  match c with
  | CGetNodes => answer (list NodeClass)
  | CGetMipSettings => answer (option MipSettingsClass)
  | CAddMip _ | CDeleteNode _ _ => answer GenericJobAndKeyClass
  | DDeleteNode _ _ => option string
  | DAddMip => option (bool * jsval)
  end.

Inductive page : Type :=
| ListenNodeStateChange
| OpenNodeInfoDialog (mip : loc).

Record MipManagementComponent := {
  mip_columns : list string;
  mips : list loc;
  mip_settings_ : mip_settings;
  heap : store NodeClass;
}.
Abbreviation M := (handler MipManagementComponent (effect call page)).

Definition with_mips v (s : MipManagementComponent) :=
  {| mip_columns := mip_columns s; mips := v; mip_settings_ := mip_settings_ s; heap := heap s |}.
Definition with_mip_settings v (s : MipManagementComponent) :=
  {| mip_columns := mip_columns s; mips := mips s; mip_settings_ := v; heap := heap s |}.
Definition with_heap v (s : MipManagementComponent) :=
  {| mip_columns := mip_columns s; mips := mips s; mip_settings_ := mip_settings_ s; heap := v |}.

Definition constructor : MipManagementComponent :=
  {| mip_columns := MIP_TABLE_COLUMNS; mips := []; mip_settings_ := NoKeys; heap := store_empty |}.

Definition get : M MipManagementComponent := gets (fun s => s).
Definition node_at (p : loc) : M NodeClass := s <- get ;; deref (load (heap s) p).
Definition assign (p : loc) (f : NodeClass -> NodeClass) : M unit :=
  modify (fun s => with_heap (update p f (heap s)) s).

(** ** Questions of the template *)

(** The first job that creates the node decides; jobs that are undefined throw. *)
Definition can_delete_node (node : NodeClass) : outcome bool :=
  match jobs node with
  | None => Exn "TypeError"
  | Some l =>
      match List.find (fun job => j_name job === CREATE) l with
      | Some job => Ret (j_complete job || j_error job)
      | None => Ret true
      end
  end.

Definition disable_add_mip_button (s : MipManagementComponent) : bool :=
  match mip_settings_ s with Received (Some _) => false | _ => true end.

(** ** The table *)

Definition set_mips_ (v : list loc) : M unit := modify (with_mips v).

Definition deploy_job (p : loc) (job : JobClass) : M unit :=
  when (j_name job === DEPLOY) (assign p (set_isDeployed (j_complete job))).
Fixpoint update_mips_loop (ps new_mips : list loc) : M (list loc) :=
  match ps with
  | [] => ret new_mips
  | p :: r =>
      node <- node_at p ;;
      for_each (default [] (jobs node)) (deploy_job p) ;;;
      update_mips_loop r (if node_type node === MIP then new_mips ++ [p] else new_mips)
  end.
Definition update_mips_data_ (ps : list loc) : M unit := new_mips <- update_mips_loop ps [] ;; set_mips_ new_mips.

Definition receive (l : list NodeClass) : M (list loc) :=
  fun s => let '(ps, h) := alloc_list l (heap s) in (Ret ps, with_heap h s, []).

(** ** Requests *)

Definition websocket_get_socket_on_node_state_change_ : M unit := emit (Page ListenNodeStateChange).
Definition api_get_nodes_ : M unit := emit (Subscribe CGetNodes).
Definition api_get_mip_settings_ : M unit := emit (Subscribe CGetMipSettings).
Definition api_add_mip_ (payload : jsval) : M unit := emit (Subscribe (CAddMip payload)).
Definition api_delete_node_ (node : loc) : M unit :=
  n <- node_at node ;; emit (Subscribe (CDeleteNode node (hostname n))).

Definition api_get_nodes_answer (a : answer (list NodeClass)) : M unit :=
  match a with
  | Next response => ps <- receive response ;; update_mips_data_ ps
  | Error e => on_error_message "retrieving nodes" e
  end.
Definition api_get_mip_settings_answer (a : answer (option MipSettingsClass)) : M unit :=
  match a with
  | Next response => modify (with_mip_settings (Received response))
  | Error e => on_error_message "retrieving mip settings" e
  end.
Definition api_add_mip_answer (a : answer GenericJobAndKeyClass) : M unit :=
  match a with
  | Next _ => generate_return_success_snackbar_message "requested add mip" (Some MAT_SNACKBAR_CONFIGURATION_60000_DUR)
  | Error (ErrorMessageClass m) => displaySnackBar (js_to_string m) (Some MAT_SNACKBAR_CONFIGURATION_60000_DUR)
  | Error (ValidationErrorClass _ messages) => show_validation_errors messages
  | Error (PostValidationClass v) => show_post_validation v
  | Error e => on_error "adding mip" e
  end.
Definition api_delete_node_answer (a : answer GenericJobAndKeyClass) : M unit :=
  match a with
  | Next _ => generate_return_success_snackbar_message "requested delete node" (Some MAT_SNACKBAR_CONFIGURATION_60000_DUR)
  | Error e => on_error_message "deleting nodes" e
  end.

(** ** Dialogs *)

Definition open_mip_info_dialog_window (mip : loc) : M unit := emit (Page (OpenNodeInfoDialog mip)).

Definition delete_dialog (n : NodeClass) : ConfirmDialogMatDialogDataInterface :=
  {| title := "Delete " +:+ hostname n +:+ "?"; message := "Are you sure you want delete " +:+ hostname n +:+ "?";
     option1 := CANCEL_DIALOG_OPTION; option2 := CONFIRM_DIALOG_OPTION; message_double_confirm := None |}.
Definition open_delete_node_confirm_dialog_window (mip : loc) : M unit :=
  n <- node_at mip ;; emit (Subscribe (DDeleteNode mip (delete_dialog n))).
(** The row is marked before the request. *)
Definition delete_confirm_closed (mip : loc) (response : option string) : M unit :=
  when (confirmed response) (assign mip (set_isRemoving true) ;;; api_delete_node_ mip).

Definition open_add_mip_dialog_window : M unit := emit (Subscribe DAddMip).
Definition add_mip_closed (response : option (bool * jsval)) : M unit :=
  match response with
  | Some (valid, payload) => when valid (api_add_mip_ payload)
  | None => ret tt
  end.

Definition ngOnInit : M unit :=
  emit (SetTitle MIP_MANAGEMENT_TITLE) ;;;
  websocket_get_socket_on_node_state_change_ ;;; api_get_nodes_ ;;; api_get_mip_settings_.

(** ** The component *)

Inductive event : Type :=
| NgOnInit
| NodeStateChange (data : list NodeClass)
| InfoClick (i : nat)
| DeleteClick (i : nat)
| AddMipClick.

Definition on_row (i : nat) (m : loc -> M unit) : M unit :=
  s <- get ;; match mips s !! i with Some p => m p | None => ret tt end.
(** The button is there when the node can be deleted, and disabled while it is
    removed. *)
Definition delete_enabled (n : NodeClass) : bool :=
  match can_delete_node n with Ret b => b && negb (truthy (isRemoving n)) | Exn _ => false end.

Definition on_ev (e : event) : M unit :=
  match e with
  | NgOnInit => ngOnInit
  | NodeStateChange data => ps <- receive data ;; update_mips_data_ ps
  | InfoClick i => on_row i open_mip_info_dialog_window
  | DeleteClick i => on_row i (fun p => n <- node_at p ;; when (delete_enabled n) (open_delete_node_confirm_dialog_window p))
  | AddMipClick => s <- get ;; when (negb (disable_add_mip_button s)) open_add_mip_dialog_window
  end.
Definition on_ans (c : call) : Ans c -> M unit :=
  match c with
  | CGetNodes => api_get_nodes_answer
  | CGetMipSettings => api_get_mip_settings_answer
  | CAddMip _ => api_add_mip_answer
  | CDeleteNode _ _ => api_delete_node_answer
  | DDeleteNode p _ => delete_confirm_closed p
  | DAddMip => add_mip_closed
  end.

#[export] Instance MipManagement : Component MipManagementComponent call page event Ans :=
  {| initial := constructor; on_event := on_ev; on_answer := on_ans |}.

(** ** The table *)

Definition settle_deploy (n : NodeClass) (job : JobClass) : NodeClass :=
  if j_name job === DEPLOY then set_isDeployed (j_complete job) n else n.
(** A node after the loop over its jobs. *)
Definition settle_mip (n : NodeClass) : NodeClass := fold_left settle_deploy (default [] (jobs n)) n.

Lemma settle_mip_frame n : node_type (settle_mip n) = node_type n /\ hostname (settle_mip n) = hostname n.
Proof.
  unfold settle_mip. generalize (default [] (jobs n)). intros l. revert n. induction l as [|j l IH]; intros n; [done|].
  simpl. destruct (IH (settle_deploy n j)) as [-> ->]. unfold settle_deploy. by destruct (_ === _).
Qed.

Lemma mip_heap_id s : with_heap (heap s) s = s.
Proof. by destruct s. Qed.
Lemma node_at_run p s n : load (heap s) p = Some n -> node_at p s = (Ret n, s, []).
Proof. unfold node_at, get, bind, gets. cbn. by intros ->. Qed.

Lemma deploy_jobs_run p l s :
  exists h', for_each l (deploy_job p) s = (Ret tt, with_heap h' s, []) /\
    touched [p] (fun n => fold_left settle_deploy l n) (heap s) h'.
Proof.
  revert s. induction l as [|j l IH]; intros s; simpl.
  - exists (heap s). rewrite mip_heap_id. split; [done|]. split_and!; [|done|done]. intros q _. by destruct (load _ q).
  - assert (H : exists h1, deploy_job p j s = (Ret tt, with_heap h1 s, []) /\ touched [p] (fun n => settle_deploy n j) (heap s) h1).
    { unfold deploy_job, settle_deploy, assign. destruct (j_name j === DEPLOY).
      - eexists. split; [reflexivity|]. apply touched_update.
      - exists (heap s). rewrite mip_heap_id. split; [done|]. split_and!; [|done|done]. intros q _. by destruct (load _ q). }
    destruct H as (h1 & E1 & T1). destruct (IH (with_heap h1 s)) as (h2 & E2 & T2). exists h2.
    rewrite (bind_run_silent _ _ _ _ _ E1), E2. split; [done|]. exact (touched_same _ _ _ _ _ _ T1 T2).
Qed.

Definition is_mip (n : NodeClass) : Prop := node_type n = MIP.
#[export] Instance is_mip_dec n : Decision (is_mip n).
Proof. unfold is_mip. apply _. Defined.

(** The loop settles the nodes it visits and collects the MIPs. *)
Lemma update_mips_loop_run ps l acc s :
  NoDup ps -> Forall2 (fun p n => load (heap s) p = Some n) ps l ->
  exists h', update_mips_loop ps acc s =
      (Ret (acc ++ (filter (fun x => is_mip (snd x)) (zip ps l)).*1), with_heap h' s, []) /\
    touched ps settle_mip (heap s) h'.
Proof.
  intros Hnd HF. revert l acc s Hnd HF. induction ps as [|p ps IH]; intros l acc s Hnd HF.
  - apply Forall2_nil_inv_l in HF as ->. exists (heap s). rewrite mip_heap_id. cbn. rewrite app_nil_r.
    split; [done | apply touched_id].
  - apply Forall2_cons_inv_l in HF as (n & l' & Hn & HF & ->). apply NoDup_cons in Hnd as [Hp Hnd]. cbn [update_mips_loop].
    rewrite (bind_run_silent _ _ _ _ _ (node_at_run _ _ _ Hn)).
    destruct (deploy_jobs_run p (default [] (jobs n)) s) as (h1 & E1 & T1). rewrite (bind_run_silent _ _ _ _ _ E1).
    assert (HF' : Forall2 (fun p n => load (heap (with_heap h1 s)) p = Some n) ps l').
    { apply Forall2_same_length_lookup. apply Forall2_same_length_lookup in HF as [Hlen HF]. split; [done|].
      intros i q m Hq Hm. cbn. destruct T1 as (_ & B & _). rewrite B; [by apply (HF i)|].
      intros ->%list_elem_of_singleton. apply Hp. by apply list_elem_of_lookup_2 in Hq. }
    set (acc' := if node_type n === MIP then acc ++ [p] else acc).
    destruct (IH l' acc' (with_heap h1 s) Hnd HF') as (h' & E & T). exists h'. rewrite E. split.
    + f_equal. f_equal. f_equal. unfold acc'. cbn [zip zip_with]. destruct (node_type n === MIP) eqn:Em.
      * apply seqb_eq in Em. rewrite filter_cons_True by exact Em. cbn [fmap list_fmap fst]. by rewrite <- app_assoc.
      * apply seqb_neq in Em. by rewrite filter_cons_False by exact Em.
    + apply (touched_cons _ _ _ _ h1); [exact Hp | | exact T].
      destruct T1 as (A & B & C). split_and!; [|exact B | exact C]. intros q ->%list_elem_of_singleton.
      rewrite A by by apply list_elem_of_singleton. by rewrite Hn.
Qed.

(** A response, as an answer or over the socket, is shown. *)
Lemma show_mips_run l s : exists h ps,
  (ps <- receive l ;; update_mips_data_ ps) s =
    (Ret tt, with_mips (filter (fun x => is_mip (snd x)) (zip ps l)).*1 (with_heap h s), []) /\
  length ps = length l /\ (forall q n, (q, n) ∈ zip ps l -> load h q = Some (settle_mip n)) /\
  (forall p, (p < next_loc (heap s))%nat -> load h p = load (heap s) p) /\
  (store_wf (heap s) -> store_wf h).
Proof.
  destruct (alloc_list l (heap s)) as [ps h1] eqn:E. pose proof (alloc_list_fresh _ _ _ _ E) as [Eps Hnext].
  assert (Er : receive l s = (Ret ps, with_heap h1 s, [])) by (unfold receive; by rewrite E).
  assert (Hnd : NoDup ps) by (rewrite Eps; apply NoDup_seq).
  assert (HF : Forall2 (fun p n => load h1 p = Some n) ps l).
  { apply Forall2_same_length_lookup. rewrite Eps, length_seq. split; [done|]. intros i p n Hp Hn.
    apply lookup_seq in Hp as [-> _]. by apply (alloc_list_new _ _ _ _ _ _ E). }
  destruct (update_mips_loop_run ps l [] (with_heap h1 s) Hnd HF) as (h & E2 & A & B & C).
  exists h, ps. split_and!.
  - rewrite (bind_run_silent _ _ _ _ _ Er). unfold update_mips_data_. by rewrite (bind_run_silent _ _ _ _ _ E2).
  - by rewrite Eps, length_seq.
  - intros q n Hq. rewrite A by (by apply elem_of_zip_l in Hq). cbn.
    apply list_elem_of_lookup in Hq as [i Hi]. apply lookup_zip_with_Some in Hi as (q' & n' & [= <- <-] & Hq & Hn).
    apply Forall2_same_length_lookup in HF as [_ HF]. by rewrite (HF i q n Hq Hn).
  - intros p Hp. rewrite B; [by apply (alloc_list_old _ _ _ _ p E)|]. rewrite Eps, elem_of_seq. lia.
  - intros Hw p [x Hx]. rewrite C. apply (alloc_list_wf _ _ _ _ E Hw). cbn in A, B.
    destruct (decide (p ∈ ps)) as [Hp|Hp]; [rewrite A in Hx by done|rewrite B in Hx by done; by exists x].
    destruct (load h1 p) eqn:Ep; [by eexists|done].
Qed.

(** ** The turns *)

Definition confirmed_delete (p : loc) (d : ConfirmDialogMatDialogDataInterface) : label event Ans :=
  Answered (DDeleteNode p d) (Some CONFIRM_DIALOG_OPTION).

(** Objects stay, with their names and types. *)
Definition keeps (h h' : store NodeClass) : Prop :=
  (store_wf h -> store_wf h') /\
  forall p n, load h p = Some n -> (p < next_loc h)%nat ->
    exists n', load h' p = Some n' /\ hostname n' = hostname n /\ node_type n' = node_type n.
Definition table_ok (s : MipManagementComponent) : Prop :=
  store_wf (heap s) /\ forall p, p ∈ mips s -> exists n, load (heap s) p = Some n /\ is_mip n.

Lemma keeps_refl h : keeps h h.
Proof. split; [done|]. intros p n Hn _. by exists n. Qed.

Definition opens (l : label event Ans) (s : MipManagementComponent) (p : loc)
    (d : ConfirmDialogMatDialogDataInterface) : Prop :=
  exists i n, l = Event (DeleteClick i) /\ mips s !! i = Some p /\ load (heap s) p = Some n /\ d = delete_dialog n /\
    delete_enabled n = true /\ state_of (react l s) = s.
Definition deletes (l : label event Ans) (s : MipManagementComponent) (p : loc) (h : string) : Prop :=
  exists d n, l = confirmed_delete p d /\ load (heap s) p = Some n /\ h = hostname n /\
    load (heap (state_of (react l s))) p = Some (set_isRemoving true n).

(** What a turn does. *)
Definition lawful (l : label event Ans) (s : MipManagementComponent) (x : outcome unit * MipManagementComponent * list (effect call page)) : Prop :=
  table_ok (state_of x) /\ keeps (heap s) (heap (state_of x)) /\
  (forall p d, Subscribe (DDeleteNode p d) ∈ effects_of x -> opens l s p d) /\
  (forall p h, Subscribe (CDeleteNode p h) ∈ effects_of x -> deletes l s p h).

(** Turns that leave the table and the objects and ask for nothing. *)
Lemma lawful_still l s x : table_ok s -> heap (state_of x) = heap s -> mips (state_of x) = mips s ->
  (forall e, e ∈ effects_of x -> match e with Subscribe (DDeleteNode _ _) | Subscribe (CDeleteNode _ _) => False | _ => True end) ->
  lawful l s x.
Proof.
  intros Ht Eh Em Hq. split; [unfold table_ok; by rewrite Eh, Em|]. rewrite Eh. split; [apply keeps_refl|].
  split; intros p v Hin; by destruct (Hq _ Hin).
Qed.

Lemma lawful_show l s data : table_ok s -> lawful l s ((ps <- receive data ;; update_mips_data_ ps) s).
Proof.
  intros [Hw Ht]. destruct (show_mips_run data s) as (h & ps & E & _ & A & B & C). rewrite E.
  split; [split; [by apply C|]|].
  - intros p Hp. cbn in Hp. apply list_elem_of_fmap in Hp as ([q n] & -> & [Hm Hin]%list_elem_of_filter).
    exists (settle_mip n). split; [by apply A|]. unfold is_mip. by destruct (settle_mip_frame n) as [-> _].
  - split; [split; [exact C|] | by split; intros p v Hin%not_elem_of_nil].
    intros p n Hn Hp. exists n. split; [|done]. cbn. by rewrite B.
Qed.

Local Ltac quiet :=
  apply lawful_still; [assumption | reflexivity | reflexivity |];
  intros ? Hin; repeat (apply elem_of_cons in Hin as [->|Hin]; [done|]); by apply not_elem_of_nil in Hin.

Definition plain_effect (e : effect call page) : Prop :=
  match e with Subscribe (DDeleteNode _ _) | Subscribe (CDeleteNode _ _) => False | _ => True end.
Lemma lawful_safe l s m : table_ok s -> safe (fun s' => s' = s) plain_effect m -> lawful l s (m s).
Proof.
  intros Hs Hm. destruct (Hm s eq_refl) as [E HF]. rewrite Forall_forall in HF.
  apply lawful_still; [exact Hs | by rewrite E | by rewrite E | exact HF].
Qed.

Lemma delete_click_run i p n s : mips s !! i = Some p -> load (heap s) p = Some n -> delete_enabled n = true ->
  on_ev (DeleteClick i) s = (Ret tt, s, [Subscribe (DDeleteNode p (delete_dialog n))]).
Proof.
  intros Ei Hn Ed. unfold on_ev, on_row, get. rewrite (bind_run_silent _ _ s s s) by done. rewrite Ei.
  rewrite (bind_run_silent _ _ _ _ _ (node_at_run _ _ _ Hn)), Ed. simpl when.
  unfold open_delete_node_confirm_dialog_window. by rewrite (bind_run_silent _ _ _ _ _ (node_at_run _ _ _ Hn)).
Qed.

(** The confirmation marks the row and asks for the deletion under its name. *)
Lemma confirm_run p n s : load (heap s) p = Some n ->
  delete_confirm_closed p (Some CONFIRM_DIALOG_OPTION) s =
    (Ret tt, with_heap (update p (set_isRemoving true) (heap s)) s, [Subscribe (CDeleteNode p (hostname n))]).
Proof.
  intros Hn. unfold delete_confirm_closed, confirmed, assign, api_delete_node_. simpl when.
  rewrite (bind_run_silent _ _ s tt (with_heap (update p (set_isRemoving true) (heap s)) s)) by done.
  rewrite (bind_run_silent _ _ _ (set_isRemoving true n) (with_heap (update p (set_isRemoving true) (heap s)) s)); [done|].
  apply node_at_run. cbn. by rewrite load_update_eq, Hn.
Qed.

Lemma lawful_delete p d s : table_ok s ->
  lawful (confirmed_delete p d) s (delete_confirm_closed p (Some CONFIRM_DIALOG_OPTION) s).
Proof.
  intros [Hw Ht]. assert (K : keeps (heap s) (update p (set_isRemoving true) (heap s))).
  { split; [apply update_wf|]. intros q n Hn _. destruct (decide (p = q)) as [->|Hne].
    - rewrite load_update_eq, Hn. by eexists.
    - rewrite load_update_ne by done. by exists n. }
  assert (T : table_ok (with_heap (update p (set_isRemoving true) (heap s)) s)).
  { split; [by apply K|]. intros q Hq. destruct (Ht q Hq) as (n & Hn & Hm).
    destruct (proj2 K q n Hn) as (n' & Hn' & _ & Et); [by apply Hw; eexists|]. exists n'. split; [exact Hn'|].
    unfold is_mip. by rewrite Et. }
  destruct (load (heap s) p) as [n|] eqn:En.
  - rewrite (confirm_run p n s En). split; [exact T|]. split; [exact K|].
    split; intros q v Hin; apply elem_of_cons in Hin as [Hin|?%not_elem_of_nil]; try done.
    injection Hin as -> ->. exists d, n. split_and!; try done. cbn [react on_answer MipManagement on_ans confirmed_delete].
    rewrite (confirm_run p n s En). cbn. by rewrite load_update_eq, En.
  - unfold delete_confirm_closed, confirmed, assign, api_delete_node_. simpl when.
    rewrite (bind_run_silent _ _ s tt (with_heap (update p (set_isRemoving true) (heap s)) s)) by done.
    rewrite (bind_run_throw _ _ _ "TypeError" (with_heap (update p (set_isRemoving true) (heap s)) s) []).
    + split; [exact T|]. split; [exact K|]. by split; intros q v Hin%not_elem_of_nil.
    + unfold node_at, get, bind, gets. cbn. by rewrite load_update_eq, En.
Qed.

Lemma turn_lawful l s : table_ok s -> lawful l s (react l s).
Proof.
  intros Hs. destruct l as [e|c a]; [destruct e as [|data|i|i|]|destruct c as [| |v|p h|p d|]]; cbn [react on_event on_answer MipManagement on_ev on_ans].
  - quiet.
  - by apply lawful_show.
  - unfold on_row, get. rewrite (bind_run_silent _ _ s s s) by done. destruct (mips s !! i); quiet.
  - unfold on_row, get. rewrite (bind_run_silent _ _ s s s) by done. destruct (mips s !! i) as [p|] eqn:Ei; [|quiet].
    destruct (proj2 Hs p) as (n & Hn & Hm); [by eapply list_elem_of_lookup_2|].
    destruct (delete_enabled n) eqn:Ed;
      [|rewrite (bind_run_silent _ _ _ _ _ (node_at_run _ _ _ Hn)), Ed; quiet].
    pose proof (delete_click_run i p n s Ei Hn Ed) as E. pose proof E as E'. cbn [on_ev] in E. unfold on_row, get in E.
    rewrite (bind_run_silent _ _ s s s), Ei in E by done. rewrite E.
    split; [exact Hs|]. split; [apply keeps_refl|].
    split; intros q v Hin; apply elem_of_cons in Hin as [Hin|?%not_elem_of_nil]; try done.
    injection Hin as -> ->. exists i, n. split_and!; try done. cbn [react on_event MipManagement]. by rewrite E'.
  - unfold get. rewrite (bind_run_silent _ _ s s s) by done. destruct (negb _); quiet.
  - destruct a as [r|e]; [by apply lawful_show|]. destruct e; quiet.
  - destruct a as [r|e]; [quiet|]. destruct e; quiet.
  - apply lawful_safe; [exact Hs|].
    destruct a as [r|[m|m|f m|m]]; cbn [api_add_mip_answer]; first
      [ by apply safe_emit | by apply safe_show_validation_errors | by apply safe_show_post_validation ].
  - destruct a as [r|e]; [quiet|]. destruct e; quiet.
  - destruct (confirmed a) eqn:Eo; [|unfold delete_confirm_closed; rewrite Eo; quiet].
    apply oseqb_eq in Eo as ->. by apply lawful_delete.
  - destruct a as [[b v]|];[destruct b|]; quiet.
Qed.

(** ** Deletions *)

Abbreviation any := (fun _ : label event Ans => True).

(** The dialogs that wait name a MIP. *)
Definition dialogs_ok (w : world MipManagementComponent call) : Prop :=
  table_ok (component w) /\ forall p d, DDeleteNode p d ∈ pending w ->
    exists n, load (heap (component w)) p = Some n /\ d = delete_dialog n /\ is_mip n.

Lemma reachable_dialogs tr w : trace any tr w -> dialogs_ok w.
Proof.
  apply trace_worlds.
  - split; [split; [apply store_empty_wf | by intros p ?%not_elem_of_nil] | by intros p d ?%not_elem_of_nil].
  - intros w0 l w1 [Ht Hd] _ Hstep. destruct (turn_lawful l _ Ht) as (T & [_ K] & Ho & _).
    pose proof (step_component _ _ _ Hstep) as Ec. split; [by rewrite Ec|]. intros p d Hin. rewrite Ec.
    assert (H : exists n, load (heap (component w0)) p = Some n /\ d = delete_dialog n /\ is_mip n).
    { destruct (step_waiting _ _ _ _ Hstep Hin) as [Hw|Hm]; [by apply Hd|].
      destruct (Ho p d Hm) as (i & n & _ & Hi & Hn & -> & _). exists n. split_and!; [done|done|].
      destruct (proj2 Ht p) as (n' & Hn' & Hm'); [by eapply list_elem_of_lookup_2|]. by simplify_eq. }
    destruct H as (n & Hn & -> & Hm). destruct (K p n Hn) as (n' & Hn' & Eh & Et); [by apply Ht; eexists|].
    exists n'. split_and!; [done| |by unfold is_mip; rewrite Et]. unfold delete_dialog. by rewrite Eh.
Qed.

Lemma clicked tr w l es p d : trace any tr w -> (l, es) ∈ tr -> Subscribe (DDeleteNode p d) ∈ es ->
  exists i, l = Event (DeleteClick i).
Proof.
  intros Htr Hin Hs.
  refine (trace_caused any table_ok (fun l c => match c with DDeleteNode _ _ => exists i, l = Event (DeleteClick i) | _ => True end)
    tr w _ _ Htr l es _ Hin Hs).
  - split; [apply store_empty_wf | by intros q ?%not_elem_of_nil].
  - intros l0 _ s0 Ht. destruct (turn_lawful l0 s0 Ht) as (T & _ & Ho & _). split; [exact T|].
    apply Forall_forall. intros e He c ->. destruct c; try done. destruct (Ho _ _ He) as (i & _ & -> & _). by exists i.
Qed.

(** A MIP is deleted only by the user who confirmed its deletion.  In every
    interleaving, the turn that asks the server to delete a node answers a dialog
    with Confirm; an earlier click on the delete button opened that dialog; its
    text names the node as the request does, the node is a MIP, and with the
    request its row is marked as being removed. *)
Theorem mip_deletions_are_confirmed tr w l w' p h :
  trace any tr w -> step w l w' -> Subscribe (CDeleteNode p h) ∈ made l w ->
  exists d node,
    l = Answered (DDeleteNode p d) (Some CONFIRM_DIALOG_OPTION) /\ title d = "Delete " +:+ h +:+ "?" /\
    load (heap (component w)) p = Some node /\ hostname node = h /\ node_type node = MIP /\
    load (heap (component w')) p = Some (set_isRemoving true node) /\
    exists tr1 i es tr2, tr = tr1 ++ (Event (DeleteClick i), es) :: tr2 /\ Subscribe (DDeleteNode p d) ∈ es.
Proof.
  intros Htr Hstep Hin. destruct (reachable_dialogs _ _ Htr) as [Ht Hd].
  destruct (turn_lawful l _ Ht) as (_ & _ & _ & Hc). destruct (Hc p h Hin) as (d & n & -> & Hn & -> & Hn').
  pose proof (answered_pending _ _ _ Hstep) as Hp. destruct (Hd p d Hp) as (n' & E & -> & Hm).
  assert (n' = n) as -> by congruence. exists (delete_dialog n), n. split_and!; try done.
  - by rewrite (step_component _ _ _ Hstep).
  - destruct (pending_subscribed _ _ _ _ Htr Hp) as (tr1 & l0 & es & tr2 & Etr & Hs).
    assert (H0 : (l0, es) ∈ tr) by (rewrite Etr; apply elem_of_app; right; left).
    destruct (clicked _ _ _ _ _ _ Htr H0 Hs) as [i ->]. by exists tr1, i, es, tr2.
Qed.

(** The table after a response: the MIPs, in its order, with their state. *)
Definition rows (s : MipManagementComponent) : list NodeClass := omap (load (heap s)) (mips s).

(** C42: a response replaces the table by its MIPs, in its order; a MIP counts as
    deployed when the last deploy job it lists is complete, and nothing else of it
    changes; rows that an earlier response created are left as they are. *)
Theorem mips_are_shown (l : list NodeClass) s :
  let x := api_get_nodes_answer (Next l) s in
  fst (fst x) = Ret tt /\ effects_of x = [] /\ rows (state_of x) = settle_mip <$> filter is_mip l /\
  forall p, (p < next_loc (heap s))%nat -> load (heap (state_of x)) p = load (heap s) p.
Proof.
  cbv zeta. cbn [api_get_nodes_answer]. destruct (show_mips_run l s) as (h & ps & -> & Hlen & A & B & _).
  split_and!; [done|done| |exact B]. unfold rows. cbn [state_of fst snd with_mips with_heap mips heap].
  clear B. revert ps Hlen A. induction l as [|n l IH]; intros [|p ps] Hlen A; try done.
  cbn [zip zip_with]. assert (IH' := IH ps (f_equal pred Hlen) (fun q m H => A q m (list_elem_of_further _ _ _ H))).
  destruct (decide (is_mip n)) as [Hm|Hm].
  - rewrite (filter_cons_True _ (p, n)), (filter_cons_True _ n) by exact Hm. cbn [fmap list_fmap fst omap list_omap].
    rewrite (A p n (list_elem_of_here _ _)). by f_equal.
  - by rewrite (filter_cons_False _ (p, n)), (filter_cons_False _ n) by exact Hm.
Qed.

(** ** A witness *)

Definition witness_mip : NodeClass := witness_node MIP (Some []) "mip-one.lan".

Lemma mip_deletions_are_confirmed_witness : exists tr w l w',
  trace any tr w /\ step w l w' /\ Subscribe (CDeleteNode 0 "mip-one.lan") ∈ made l w /\
  exists d node, l = Answered (DDeleteNode 0 d) (Some CONFIRM_DIALOG_OPTION) /\ title d = "Delete mip-one.lan?" /\
    node_type node = MIP /\ load (heap (component w')) 0 = Some (set_isRemoving true node).
Proof.
  pose proof (trace_start any) as T.
  apply (trace_event _ _ _ NgOnInit) in T; [|exact I].
  apply (trace_answer _ _ _ [] CGetNodes [CGetMipSettings] (Next [witness_mip])) in T; [|exact I|reflexivity].
  apply (trace_event _ _ _ (DeleteClick 0)) in T; [|exact I].
  match type of T with trace _ ?tr ?w => set (w1 := w) in T; exists tr, w1 end.
  assert (Hp : pending w1 = [CGetMipSettings] ++ DDeleteNode 0 (delete_dialog witness_mip) :: []) by (vm_compute; reflexivity).
  pose proof (step_answer w1 [CGetMipSettings] _ [] (Some CONFIRM_DIALOG_OPTION : Ans (DDeleteNode 0 (delete_dialog witness_mip))) Hp) as Hs.
  assert (Hin : Subscribe (CDeleteNode 0 "mip-one.lan") ∈
    made (Answered (DDeleteNode 0 (delete_dialog witness_mip)) (Some CONFIRM_DIALOG_OPTION)) w1) by (vm_compute; left).
  eexists _, _. split; [exact T|]. split; [exact Hs|]. split; [exact Hin|].
  destruct (mip_deletions_are_confirmed _ _ _ _ _ _ T Hs Hin) as (d & node & H1 & H2 & _ & _ & H3 & H4 & _).
  exists d, node. by repeat split.
Defined.
