(* ===== verification/ConfirmDialog.v ===== *)
(** modules/global-components/components/confirm-dialog: a question with two
    options.  With [message_double_confirm] the second option is enabled by typing
    that text.  The dialog is a component of its own, made for the data it is
    opened with; what it is closed with is what the page that opened it hears. *)
From S2P Require Import Prelude Handler JsValue Runtime.

Definition no_call : Type := Empty_set.
Definition no_answer (c : no_call) : Type := Empty_set.
Inductive page : Type := CloseWith (option : option string).

Record ConfirmDialogComponent := { double_confirm_value : string; mat_dialog_data : ConfirmDialogMatDialogDataInterface }.
Abbreviation M := (handler ConfirmDialogComponent (effect no_call page)).

Definition constructor (mat_dialog_data : ConfirmDialogMatDialogDataInterface) : ConfirmDialogComponent :=
  {| double_confirm_value := ""; mat_dialog_data := mat_dialog_data |}.

Definition check_variable_value_defined {A} (variable_value : option A) : bool := notUndefNull variable_value.

(** The template asks only when there is a text to type. *)
Definition is_double_confirm_message_typed (s : ConfirmDialogComponent) : outcome bool :=
  match message_double_confirm (mat_dialog_data s) with
  | Some m => Ret (toLowerCase (double_confirm_value s) === toLowerCase m)
  | None => Exn "TypeError"
  end.

Definition close (selected_option : string) : M unit :=
  s <- gets (fun s => s) ;;
  emit (Page (CloseWith (Some
    (if selected_option === option1 (mat_dialog_data s) then option1 (mat_dialog_data s) else option2 (mat_dialog_data s))))).

(** [Dismiss] is the key, or the click beside the dialog, that closes it without
    an option. *)
Inductive event : Type := TypeText (t : string) | Option1Click | Option2Click | Dismiss.

(** The button of the second option. *)
Definition option2_enabled (s : ConfirmDialogComponent) : bool :=
  if check_variable_value_defined (message_double_confirm (mat_dialog_data s))
  then match is_double_confirm_message_typed s with Ret b => b | Exn _ => false end
  else true.

Definition on_event (e : event) : M unit :=
  s <- gets (fun s => s) ;;
  match e with
  | TypeText t =>
      when (check_variable_value_defined (message_double_confirm (mat_dialog_data s)))
        (modify (fun s => {| double_confirm_value := t; mat_dialog_data := mat_dialog_data s |}))
  | Option1Click => close (option1 (mat_dialog_data s))
  | Option2Click => when (option2_enabled s) (close (option2 (mat_dialog_data s)))
  | Dismiss => emit (Page (CloseWith None))
  end.

#[export] Instance ConfirmDialog (d : ConfirmDialogMatDialogDataInterface)
    : Component ConfirmDialogComponent no_call page event no_answer :=
  {| initial := constructor d; Runtime.on_event := on_event; Runtime.on_answer := fun c => match c with end |}.

(** ** What closes the dialog *)

Section Closing.
Variable d : ConfirmDialogMatDialogDataInterface.
Abbreviation any := (fun _ : label event no_answer => True).

(** The text that was typed last. *)
Definition last_typed (tr : list (label event no_answer * list (effect no_call page))) : string :=
  fold_left (fun t x => match fst x with Event (TypeText u) => u | _ => t end) tr "".
(** It is in the field, when there is a field. *)
Definition field_typed (tr : list (label event no_answer * list (effect no_call page))) (s : ConfirmDialogComponent) : Prop :=
  mat_dialog_data s = d /\ (is_Some (message_double_confirm d) -> double_confirm_value s = last_typed tr).

Lemma reachable_typed tr w : trace (K := ConfirmDialog d) any tr w -> field_typed tr (component w).
Proof using.
  induction 1 as [|tr w l w' Htr [Hd IH] _ Hstep]; [done|].
  rewrite (step_component _ _ _ Hstep). unfold field_typed, last_typed in *. rewrite fold_left_app. cbn [fold_left fst].
  destruct l as [e|[]]. cbn [react Runtime.on_event ConfirmDialog]. unfold on_event.
  rewrite (bind_run_silent _ _ (component w) (component w) (component w)) by done. destruct e as [t| | |]; try (by split).
  - rewrite Hd. unfold check_variable_value_defined. destruct (message_double_confirm d) as [m|] eqn:E; [by split|].
    split; [exact Hd|]. by intros [? ?].
  - destruct (option2_enabled (component w)); by split.
Qed.

Lemma closed_by tr w l o : trace (K := ConfirmDialog d) any tr w ->
  Page (CloseWith (Some o)) ∈ made (K := ConfirmDialog d) l w ->
  (l = Event Option1Click /\ o = option1 d) \/
  (l = Event Option2Click /\ option2_enabled (component w) = true /\ o = if option2 d === option1 d then option1 d else option2 d).
Proof using.
  intros Htr Hin. destruct (reachable_typed tr w Htr) as [Hd _].
  destruct l as [e|[]]. unfold made in Hin. cbn [react Runtime.on_event ConfirmDialog] in Hin. unfold on_event in Hin.
  rewrite (bind_run_silent _ _ (component w) (component w) (component w)) in Hin by done.
  assert (Hc : forall x, Page (CloseWith (Some o)) ∈ effects_of (close x (component w)) ->
    o = if x === option1 d then option1 d else option2 d).
  { intros x Hx. unfold close, gets, bind in Hx. cbn in Hx. rewrite Hd in Hx.
    apply elem_of_cons in Hx as [[= Hx]|?%not_elem_of_nil]; [exact Hx | done]. }
  destruct e as [t| | |].
  - destruct (check_variable_value_defined _); by apply not_elem_of_nil in Hin.
  - left. split; [done|]. apply Hc in Hin as ->. rewrite Hd. by rewrite seqb_refl.
  - right. split; [done|]. destruct (option2_enabled (component w)); [|by apply not_elem_of_nil in Hin].
    split; [done|]. apply Hc in Hin as ->. by rewrite Hd.
  - apply elem_of_cons in Hin as [?|?%not_elem_of_nil]; done.
Qed.

(** The dialog of a double confirmation is closed with its second option only by the
    button of this option, while the text that was typed last is the one to type, in
    whatever case. *)
Lemma second_option_is_typed tr w l m : trace (K := ConfirmDialog d) any tr w ->
  Page (CloseWith (Some (option2 d))) ∈ made (K := ConfirmDialog d) l w -> option1 d <> option2 d ->
  message_double_confirm d = Some m ->
  l = Event Option2Click /\ toLowerCase (last_typed tr) = toLowerCase m.
Proof using.
  intros Htr Hin Hne Hm. destruct (reachable_typed tr w Htr) as [Hd Ht].
  destruct (closed_by tr w l _ Htr Hin) as [[_ H]|(-> & He & _)]; [congruence|]. split; [done|].
  unfold option2_enabled, is_double_confirm_message_typed in He. rewrite Hd, Hm in He. cbn in He. apply seqb_eq in He.
  by rewrite <- Ht by (rewrite Hm; by eexists).
Qed.
End Closing.
