(* ===== verification/Rebuild.v ===== *)
(** The node management page with the confirm dialogs it opens: what a user has to
    do before the kit is rebuilt.  The page's theorems take the answers of the
    dialogs as they come; here the answer is the one the dialog of ConfirmDialog.v
    was closed with, after the turns that were made in it. *)
From S2P Require Import Prelude Handler JsValue Runtime Data ConfirmDialog NodeMng.

(** What was done in a dialog. *)
Abbreviation dialog_run := (list (label ConfirmDialog.event no_answer * list (effect no_call ConfirmDialog.page))).

(** The dialog made for [d] was closed with [o] after the turns [run]. *)
Definition closed_after (d : ConfirmDialogMatDialogDataInterface) (o : string) (run : dialog_run) : Prop :=
  exists w l, trace (K := ConfirmDialog d) (fun _ => True) run w /\ Page (CloseWith (Some o)) ∈ made (K := ConfirmDialog d) l w.

(** [run] is what was done in the dialog whose answer [l] is. *)
Definition answered_by (l : label NodeMng.event NodeMng.Ans) (run : dialog_run) : Prop :=
  match l with
  | Answered c a =>
      match c return NodeMng.Ans c -> Prop with
      | DRefreshKit d | DRedeployKit d => fun a => forall o, a = Some o -> closed_after d o run
      | _ => fun _ => True
      end a
  | Event _ => True
  end.

(** The word stood in the field at the end, in whatever case. *)
Definition word_typed (run : dialog_run) (word : string) : Prop := toLowerCase (last_typed run) = toLowerCase word.

(** The page opens the two dialogs with their constants. *)
Definition asks (c : NodeMng.call) : Prop :=
  match c with
  | DRefreshKit d => d = MAT_DIALOG_CONFIG__REFRESH_KIT
  | DRedeployKit d => d = MAT_DIALOG_CONFIG__REDEPLOY_KIT
  | _ => True
  end.

Lemma react_asks l : safe (fun _ => True) (fun e => forall c, e = Subscribe c -> asks c) (react (K := NodeManagement) l).
Proof.
  assert (Hq : forall e : effect NodeMng.call NodeMng.page, (forall c, e <> Subscribe c) ->
                 forall c, e = Subscribe c -> asks c) by (intros e He c ->; by destruct (He c)).
  destruct l as [e|c a]; [destruct e | destruct c]; simpl in *; repeat autounfold with node_mng;
    repeat first [ apply safe_show_nodes; done | safe_step | intros ? [= <-]; done ]; try done.
Qed.

Lemma pending_asks env tr w c : trace (K := NodeManagement) env tr w -> c ∈ pending w -> asks c.
Proof.
  intros Htr Hc. destruct (pending_subscribed env tr w c Htr Hc) as (tr1 & l & es & tr2 & -> & Hs).
  apply (trace_caused (K := NodeManagement) env (fun _ => True) (fun _ c => asks c) (tr1 ++ (l, es) :: tr2) w) with (l := l) (es := es);
    [done | intros l0 _; apply react_asks | exact Htr | apply elem_of_app; right; left | exact Hs].
Qed.

Lemma confirmed_word d m run : closed_after d CONFIRM_DIALOG_OPTION run -> option1 d = CANCEL_DIALOG_OPTION ->
  option2 d = CONFIRM_DIALOG_OPTION -> message_double_confirm d = Some m -> word_typed run m.
Proof.
  intros (w & l & Htr & Hin) H1 H2 Hm. rewrite <- H2 in Hin.
  by destruct (second_option_is_typed d run w l m Htr Hin) as [_ H]; [rewrite H1, H2| |].
Qed.

(** C33: a kit is destroyed and built again only after its user typed the word.  In
    every interleaving of the page, the turn that asks the server to refresh the kit
    answers the refresh dialog, and in whatever was done in that very dialog up to
    the click that gave the answer, the last text typed is REFRESH, in whatever
    case; the turn that asks to deploy a kit that is deployed answers the redeploy
    dialog, in which REDEPLOY was typed last; only a kit that is not deployed is
    deployed by the click itself. *)
Theorem kit_is_rebuilt_by_typing tr w l w' run :
  trace (K := NodeManagement) (fun _ => True) tr w -> step w l w' -> answered_by l run ->
  (Subscribe CRefreshKit ∈ made l w ->
     l = Answered (DRefreshKit MAT_DIALOG_CONFIG__REFRESH_KIT) (Some CONFIRM_DIALOG_OPTION) /\ word_typed run "REFRESH") /\
  (Subscribe CDeployKit ∈ made l w ->
     (l = Event DeployKit /\ truthy (base_kit_deployed (kit_status_ (component w))) = false) \/
     (l = Answered (DRedeployKit MAT_DIALOG_CONFIG__REDEPLOY_KIT) (Some CONFIRM_DIALOG_OPTION) /\ word_typed run "REDEPLOY")).
Proof.
  intros Htr Hstep Hrun. pose proof (answered_pending _ _ _ Hstep) as Hp.
  assert (Hc : forall c, Subscribe c ∈ made l w -> causes l c).
  { intros c Hin. destruct (react_causes l (component w) I) as [_ HF]. rewrite Forall_forall in HF. by apply (HF _ Hin). }
  split; intros Hin; specialize (Hc _ Hin); simpl in Hc.
  - destruct Hc as [d ->]. pose proof (pending_asks _ _ _ _ Htr Hp) as Ed. simpl in Ed. subst d. split; [done|].
    by apply (confirmed_word _ _ _ (Hrun _ eq_refl)).
  - destruct Hc as [->|[d ->]].
    + left. split; [done|]. unfold made in Hin. cbn [react Runtime.on_event NodeManagement on_ev] in Hin. unfold deploy_kit in Hin.
      rewrite (bind_run_silent _ _ (component w) (component w) (component w)) in Hin by done.
      destruct (truthy _); [|done]. apply elem_of_cons in Hin as [?|?%not_elem_of_nil]; done.
    + right. pose proof (pending_asks _ _ _ _ Htr Hp) as Ed. simpl in Ed. subst d. split; [done|].
      by apply (confirmed_word _ _ _ (Hrun _ eq_refl)).
Qed.

(** The dialog of a user who typed the word in lower case. *)
Lemma refresh_typed : exists run, closed_after MAT_DIALOG_CONFIG__REFRESH_KIT CONFIRM_DIALOG_OPTION run.
Proof.
  pose proof (trace_start (K := ConfirmDialog MAT_DIALOG_CONFIG__REFRESH_KIT) (fun _ => True)) as T.
  apply (trace_event _ _ _ (TypeText "refresh")) in T; [|exact I].
  match type of T with trace _ ?tr ?w => exists tr, w, (Event Option2Click) end.
  split; [exact T|]. vm_compute. left.
Qed.

Lemma kit_is_rebuilt_by_typing_witness : exists tr w l w' run,
  trace (K := NodeManagement) (fun _ => True) tr w /\ step w l w' /\ answered_by l run /\ Subscribe CRefreshKit ∈ made l w /\
  word_typed run "REFRESH".
Proof.
  pose proof (trace_start (K := NodeManagement) (fun _ => True)) as T.
  apply (trace_event _ _ _ RefreshKit) in T; [|exact I].
  match type of T with trace _ ?tr ?w => set (w1 := w) in T; exists tr, w1 end.
  assert (Hp : pending w1 = [] ++ DRefreshKit MAT_DIALOG_CONFIG__REFRESH_KIT :: []) by reflexivity.
  pose proof (step_answer w1 [] _ [] (Some CONFIRM_DIALOG_OPTION : NodeMng.Ans (DRefreshKit MAT_DIALOG_CONFIG__REFRESH_KIT)) Hp) as Hs.
  destruct refresh_typed as [run Hrun].
  assert (Hl : answered_by (Answered (DRefreshKit MAT_DIALOG_CONFIG__REFRESH_KIT) (Some CONFIRM_DIALOG_OPTION)) run)
    by (intros o [= <-]; exact Hrun).
  assert (Hin : Subscribe CRefreshKit ∈
    made (Answered (DRefreshKit MAT_DIALOG_CONFIG__REFRESH_KIT) (Some CONFIRM_DIALOG_OPTION)) w1) by (vm_compute; left).
  eexists _, _, run. split; [exact T|]. split; [exact Hs|]. split; [exact Hl|]. split; [exact Hin|].
  exact (proj2 (proj1 (kit_is_rebuilt_by_typing _ _ _ _ _ T Hs Hl) Hin)).
Defined.
