(* ===== verification/ModalDialog.v ===== *)
(** modules/global-components/components/modal-dialog-mat and
    unused-ipaddress-autocomplete-ctrl: the dialog with a form of controls, one of
    which may be a list of chips, and the list of addresses that a text filters.

    A control of the dialog is its value with the predicate its validators make;
    the form is the list of its controls. *)
From S2P Require Import Prelude Handler JsValue Runtime Data Net Validators AgentData.

#[export] Instance control_type_eq : EqDecision DialogControlTypesEnum.
Proof. intros x y. unfold Decision. decide equality. Defined.

Record dialog_control := {
  dc_name : string;
  dc_type : DialogControlTypesEnum;
  dc_value : jsval;
  isDisabled : bool;
  dc_accepts : jsval -> bool;
}.
Definition dc_setValue (v : jsval) (c : dialog_control) : dialog_control :=
  {| dc_name := dc_name c; dc_type := dc_type c; dc_value := v; isDisabled := isDisabled c;
     dc_accepts := dc_accepts c |}.
(** A group whose controls are all disabled is neither valid nor invalid. *)
Definition dialog_valid (l : list dialog_control) : bool :=
  (match l with [] => true | _ => false end || existsb (fun c => negb (isDisabled c)) l) &&
  forallb (fun c => isDisabled c || dc_accepts c (dc_value c)) l.
(** [getRawValue()] *)
Definition dialog_value (l : list dialog_control) : jsval := JObj ((fun c => (dc_name c, dc_value c)) <$> l).

Definition no_call : Type := Empty_set.
Definition no_answer (c : no_call) : Type := Empty_set.
(** Closing returns the form, of which the pages read the validity and the value. *)
Inductive page : Type := CloseForm (form : option (bool * jsval)).

Record ModalDialogMatComponent := {
  m_title : string;
  m_instructions : string;
  dialog_form_group : list dialog_control;
  confirm_button_text : string;
  chips : list string;
}.
Abbreviation M := (handler ModalDialogMatComponent (effect no_call page)).

Definition with_group v (s : ModalDialogMatComponent) :=
  {| m_title := m_title s; m_instructions := m_instructions s; dialog_form_group := v;
     confirm_button_text := confirm_button_text s; chips := chips s |}.
Definition with_chips v (s : ModalDialogMatComponent) :=
  {| m_title := m_title s; m_instructions := m_instructions s; dialog_form_group := dialog_form_group s;
     confirm_button_text := confirm_button_text s; chips := v |}.

Definition constructor (title instructions : string) (dialogForm : list dialog_control) (confirmBtnText : string)
    : ModalDialogMatComponent :=
  {| m_title := title; m_instructions := instructions; dialog_form_group := dialogForm;
     confirm_button_text := confirmBtnText; chips := [] |}.

Definition get_dialog_form_controls (dialog_form_group : list dialog_control) : list dialog_control := dialog_form_group.
Definition is_type (t : DialogControlTypesEnum) (c : dialog_control) : bool := bool_decide (dc_type c = t).
Definition is_text_input : dialog_control -> bool := is_type Text_control.
Definition is_textarea : dialog_control -> bool := is_type Textarea_control.
Definition is_password_input : dialog_control -> bool := is_type Password_control.
Definition is_dropdown : dialog_control -> bool := is_type Dropdown_control.
Definition is_checkbox : dialog_control -> bool := is_type Checkbox_control.
Definition is_date_input : dialog_control -> bool := is_type Date_control.
Definition is_chips : dialog_control -> bool := is_type Chips_control.
Definition get_timezone_control (s : ModalDialogMatComponent) : option dialog_control :=
  List.find (fun c => dc_name c === "timezone") (dialog_form_group s).

(** The input is emptied, but not its control. *)
Definition add_alert_chip (text : string) : M unit :=
  let value := trim text in
  when (value !== "") (modify (fun s => with_chips (chips s ++ [value]) s)).

(** The first of the chips with that text. *)
Fixpoint splice_first (x : string) (l : list string) : list string :=
  match l with
  | [] => []
  | y :: r => if y === x then r else y :: splice_first x r
  end.
Definition remove_alert_chip (chip : string) : M unit := modify (fun s => with_chips (splice_first chip (chips s)) s).

Definition close (v : option (bool * jsval)) : M unit := emit (Page (CloseForm v)).
Definition cancel : M unit := close None.
Definition submit : M unit :=
  modify (fun s => with_group
    ((fun c => if is_chips c then dc_setValue (JStr (join_with "," (chips s))) c else c) <$> dialog_form_group s) s) ;;;
  s <- gets (fun s => s) ;;
  close (Some (dialog_valid (dialog_form_group s), dialog_value (dialog_form_group s))).

Inductive event : Type :=
| Enter (i : nat) (v : jsval)
| ChipEnd (text : string)
| ChipRemoved (chip : string)
| CancelClick
| SubmitClick.

Definition on_event (e : event) : M unit :=
  match e with
  | Enter i v => modify (fun s => with_group (alter (dc_setValue v) i (dialog_form_group s)) s)
  | ChipEnd text => add_alert_chip text
  | ChipRemoved chip => remove_alert_chip chip
  | CancelClick => cancel
  | SubmitClick => s <- gets (fun s => s) ;; when (dialog_valid (dialog_form_group s)) submit
  end.

#[export] Instance ModalDialogMat (title instructions : string) (dialogForm : list dialog_control) (confirmBtnText : string)
    : Component ModalDialogMatComponent no_call page event no_answer :=
  {| initial := constructor title instructions dialogForm confirmBtnText; Runtime.on_event := on_event;
     Runtime.on_answer := fun c => match c with end |}.

(** What is submitted: the controls as they were filled in, and for the chips the
    texts of the list; the list is not validated again before the dialog closes,
    but what the page hears of its validity is. *)
Lemma submitted s : exists l,
  submit s = (Ret tt, with_group l s, [Page (CloseForm (Some (dialog_valid l, dialog_value l)))]) /\
  l = (fun c => if is_chips c then dc_setValue (JStr (join_with "," (chips s))) c else c) <$> dialog_form_group s.
Proof. by eexists. Qed.

(** A chip that was added and removed leaves the list as it was, unless an equal
    one stands before it. *)
Lemma removed_chip x l : x ∉ l -> splice_first x (l ++ [x]) = l.
Proof.
  induction l as [|y l IH]; intros H; simpl; [by rewrite seqb_refl|].
  apply not_elem_of_cons in H as [H1 H2]. rewrite (proj2 (seqb_neq y x)) by congruence. by rewrite IH.
Qed.

(** ** unused-ipaddress-autocomplete-ctrl *)

(** [option.toLowerCase().includes(value.toLowerCase())]; a value that is undefined
    or null keeps all options. *)
Fixpoint includes (part text : string) : bool :=
  String.prefix part text || match text with String _ r => includes part r | EmptyString => false end.
Definition filter_ (options : list string) (value : option string) : list string :=
  match value with
  | Some v => List.filter (fun option => includes (toLowerCase v) (toLowerCase option)) options
  | None => options
  end.
