(* ===== verification/ProgressBar.v ===== *)
(** modules/global-components/components/node-state-progress-bar: the stages of a
    node on the pages NodeMng.v and MipMng.v, with the details that a click opens.

    A page shows a bar for each of its nodes and holds the list of them; the other
    page, which the bars are given too, is an object without a view.  The state
    here is the list of the bars of the page.  A click runs the handlers of the
    elements from the inside to the outside and then the listener that every bar
    has put on the window. *)
From S2P Require Import Prelude Handler JsValue Runtime Data SettingsData.
From Stdlib Require Import Ascii.

Definition ERROR : string := "Error".
Definition COMPLETE : string := "Complete".
Definition IN_PROGRESS : string := "In Progress".
Definition PENDING : string := "Pending".
Definition UNKNOWN : string := "Unknown".
Definition CANCEL : string := "cancel".
Definition DEFAULT_STEP_CLASSES : list string := ["step"; "tooltip"].
Definition CHECK_CIRCLE : string := "check_circle".
Definition TIMELAPSE : string := "timelapse".
Definition RADIO_BUTTON_CHECKED : string := "radio_button_checked".
Definition RETRY_DISABLED : string := "Retry Disabled".
Definition RETRY : string := "Retry".

Inductive call : Type := CRetry (job_id : string).
Definition Ans (c : call) : Type := answer GenericJobAndKeyClass.
Inductive page : Type := OpenServerStdout (job_id : string).

Record bar := {
  jobs : list JobClass;
  toggle_drop_down : bool;
  step_classes_ : list string;
  current_toggle_job_ : option string;
}.
Abbreviation M := (handler (list bar) (effect call page)).

Definition with_toggle t c (b : bar) : bar :=
  {| jobs := jobs b; toggle_drop_down := t; step_classes_ := step_classes_ b; current_toggle_job_ := c |}.

Definition constructor (jobs : list JobClass) : bar :=
  {| jobs := jobs; toggle_drop_down := false; step_classes_ := DEFAULT_STEP_CLASSES; current_toggle_job_ := None |}.

(** ** What a bar shows *)

Definition get_status (job : JobClass) : string :=
  if j_error job then ERROR else if j_complete job then COMPLETE else if j_inprogress job then IN_PROGRESS
  else if j_pending job then PENDING else UNKNOWN.

(** [status.replace(' ', '')]: the first blank. *)
Fixpoint remove_blank (s : string) : string :=
  match s with
  | EmptyString => EmptyString
  | String c r => if Ascii.eqb c " "%char then r else String c (remove_blank r)
  end.
Definition get_classes (b : bar) (job : JobClass) : list string :=
  step_classes_ b ++ [toLowerCase (remove_blank (get_status job))].

Definition get_icon (job : JobClass) : option string :=
  if j_error job then Some CANCEL else if j_complete job then Some CHECK_CIRCLE
  else if j_inprogress job then Some TIMELAPSE else if j_pending job then Some RADIO_BUTTON_CHECKED else None.

Definition retry_button_tooltip (job : JobClass) : string := if j_error job then RETRY_DISABLED else RETRY.

Definition validate_drop_down_job (b : bar) (job : JobClass) : bool :=
  match current_toggle_job_ b with Some c => j__id job === c | None => false end.

(** ** Clicks *)

Definition close_drop_down_ (b : bar) : bar := with_toggle false (current_toggle_job_ b) b.

(** The bar itself, after the bars of the page were closed. *)
Definition toggle_job (job : JobClass) (b : bar) : bar :=
  let none := match current_toggle_job_ b with Some c => c === "" | None => true end in
  let t := if none || validate_drop_down_job b job then negb (toggle_drop_down b) else toggle_drop_down b in
  with_toggle t (Some (if t then j__id job else "")) b.
Definition click_job_state (i : nat) (job : JobClass) : M unit :=
  modify (fun bars => alter (toggle_job job) i (close_drop_down_ <$> bars)).

Definition open_job_server_std_out_console (job : JobClass) : M unit := emit (Page (OpenServerStdout (j_job_id job))).
Definition api_job_retry_ (job : JobClass) : M unit := emit (Subscribe (CRetry (j_job_id job))).
Definition retry (job : JobClass) : M unit := api_job_retry_ job.
Definition api_job_retry_answer (a : answer GenericJobAndKeyClass) : M unit :=
  match a with
  | Next _ => generate_return_success_snackbar_message "requested system to retry job."
                (Some MAT_SNACKBAR_CONFIGURATION_60000_DUR)
  | Error e => on_error_message "requesting retry job" e
  end.

(** The listener of a bar; [target] is the element that was clicked. *)
Definition window_click_bar (target : string) (b : bar) : bar :=
  if toggle_drop_down b && (target !== "mat-icon") then with_toggle false (Some "") b else b.
Definition window_click (target : string) : M unit := modify (fun bars => window_click_bar target <$> bars).

(** A click beside the bars, on a stage, on the details that are open, and on the
    button in them, which is disabled for a job that failed. *)
Inductive event : Type :=
| PageClick (target : string)
| StageClick (i k : nat) (target : string)
| DetailsClick (i k : nat) (target : string)
| RetryClick (i k : nat).

Definition on_job (i k : nat) (m : bar -> JobClass -> M unit) : M unit :=
  bars <- gets (fun bars => bars) ;;
  match bars !! i with
  | Some b => match jobs b !! k with Some job => m b job | None => ret tt end
  | None => ret tt
  end.
Definition details_shown (b : bar) (job : JobClass) : bool := toggle_drop_down b && validate_drop_down_job b job.

Definition on_event (e : event) : M unit :=
  match e with
  | PageClick target => window_click target
  | StageClick i k target => on_job i k (fun _ job => click_job_state i job ;;; window_click target)
  | DetailsClick i k target => on_job i k (fun b job =>
      when (details_shown b job)
        (open_job_server_std_out_console job ;;; click_job_state i job ;;; window_click target))
  | RetryClick i k => on_job i k (fun b job =>
      when (details_shown b job && negb (j_error job))
        (retry job ;;; open_job_server_std_out_console job ;;; click_job_state i job ;;; window_click "button"))
  end.

#[export] Instance NodeStateProgressBar (l : list (list JobClass)) : Component (list bar) call page event Ans :=
  {| initial := constructor <$> l; Runtime.on_event := on_event; Runtime.on_answer := fun _ => api_job_retry_answer |}.

(** ** One bar is open at most *)

(** All bars but the [i]-th are closed. *)
Definition closed_but (i : nat) (bars : list bar) : Prop :=
  forall j b, bars !! j = Some b -> j <> i -> toggle_drop_down b = false.

Lemma click_closes i job bars : closed_but i (alter (toggle_job job) i (close_drop_down_ <$> bars)).
Proof.
  intros j b Hb Hj. rewrite list_lookup_alter_ne in Hb by done. rewrite list_lookup_fmap in Hb.
  destruct (bars !! j) as [b'|]; [|done]. by injection Hb as <-.
Qed.

Lemma window_keeps target i bars : closed_but i bars -> closed_but i (window_click_bar target <$> bars).
Proof.
  intros H j b Hb Hj. rewrite list_lookup_fmap in Hb. destruct (bars !! j) as [b'|] eqn:E; [|done].
  injection Hb as <-. pose proof (H j b' E Hj) as Ht. unfold window_click_bar. by rewrite Ht.
Qed.

Lemma window_closes target bars : target <> "mat-icon" ->
  Forall (fun b => toggle_drop_down b = false) (window_click_bar target <$> bars).
Proof.
  intros Ht. apply Forall_fmap, Forall_true. intros b. unfold compose, window_click_bar.
  apply seqb_neq in Ht. rewrite Ht. simpl. by destruct (toggle_drop_down b) eqn:E.
Qed.

(** The element of a click. *)
Definition target_of (e : event) : string :=
  match e with PageClick t | StageClick _ _ t | DetailsClick _ _ t => t | RetryClick _ _ => "button" end.

Lemma event_bars e bars : state_of (on_event e bars) = bars \/
  (exists t, state_of (on_event e bars) = window_click_bar (target_of e) <$> bars /\ e = PageClick t) \/
  exists i job, state_of (on_event e bars) =
    window_click_bar (target_of e) <$> alter (toggle_job job) i (close_drop_down_ <$> bars).
Proof.
  destruct e as [t|i k t|i k t|i k]; simpl; [right; left; by exists t|..];
    unfold on_job; rewrite (bind_run_silent _ _ bars bars bars) by done;
    (destruct (bars !! i) as [b|] eqn:Eb; [|by left]); (destruct (jobs b !! k) as [job|] eqn:Ek; [|by left]).
  - right. right. by exists i, job.
  - destruct (details_shown b job); [|by left]. right. right. by exists i, job.
  - destruct (details_shown b job && negb (j_error job)); [|by left]. right. right. by exists i, job.
Qed.

(** In every state of the page the details of one node are open at most. *)
Lemma one_bar_open l tr w : trace (K := NodeStateProgressBar l) (fun _ => True) tr w -> exists i, closed_but i (component w).
Proof.
  intros Htr. destruct (trace_invariant (K := NodeStateProgressBar l) (fun _ => True)
    (fun bars => exists i, closed_but i bars) (fun _ _ => True)) with (tr := tr) (w := w) as [H _]; [| |done|exact H].
  - exists 0%nat. intros j b Hb _. change (initial (Component := NodeStateProgressBar l)) with (constructor <$> l) in Hb.
    rewrite list_lookup_fmap in Hb. destruct (l !! j); [|done]. by injection Hb as <-.
  - intros lab _ bars [i Hi]. split; [|by apply Forall_true]. destruct lab as [e|c a].
    + cbn [react Runtime.on_event NodeStateProgressBar].
      destruct (event_bars e bars) as [->|[(t & -> & _)|(j & job & ->)]]; [by exists i | |].
      * exists i. by apply window_keeps.
      * exists j. apply window_keeps, click_closes.
    + exists i. destruct a as [r|[]]; exact Hi.
Qed.

(** A click on the icon of a stage opens its details, and so does the next one on
    it, unless the details of another stage of the node were open or were closed
    by opening those of another node: then it closes them.  A click on the text of
    a stage opens nothing, since the listener on the window closes what it opened. *)
Theorem stage_click l tr w i k target w' b job :
  trace (K := NodeStateProgressBar l) (fun _ => True) tr w ->
  step (K := NodeStateProgressBar l) w (Event (StageClick i k target)) w' ->
  component w !! i = Some b -> jobs b !! k = Some job -> j__id job <> "" ->
  closed_but i (component w') /\
  exists b', component w' !! i = Some b' /\
    details_shown b' job =
      (target === "mat-icon") && (bool_decide (current_toggle_job_ b ∈ [None; Some ""; Some (j__id job)])).
Proof.
  intros Htr Hstep Hb Hk Hid. rewrite (step_component _ _ _ Hstep). cbn [react Runtime.on_event NodeStateProgressBar on_event].
  unfold on_job. rewrite (bind_run_silent _ _ (component w) (component w) (component w)) by done. rewrite Hb, Hk.
  rewrite (bind_run_silent _ _ (component w) tt (alter (toggle_job job) i (close_drop_down_ <$> component w))) by done.
  cbn [window_click modify state_of fst snd]. split; [apply window_keeps, click_closes|].
  exists (window_click_bar target (toggle_job job (close_drop_down_ b))). split.
  { rewrite list_lookup_fmap, list_lookup_alter, list_lookup_fmap, Hb. by case_decide. }
  unfold window_click_bar, details_shown, toggle_job, close_drop_down_, validate_drop_down_job, with_toggle. cbn.
  destruct (current_toggle_job_ b) as [c|] eqn:Ec.
  - destruct (decide (c = "")) as [->|Hc]; [|destruct (decide (c = j__id job)) as [->|Hj]].
    + rewrite bool_decide_eq_true_2 by by repeat constructor. cbn. destruct (target === "mat-icon"); cbn; [|done]. apply seqb_refl.
    + rewrite bool_decide_eq_true_2 by by repeat constructor. rewrite (proj2 (seqb_neq _ _) Hid), seqb_refl. cbn.
      destruct (target === "mat-icon"); cbn; [|done]. by rewrite seqb_refl.
    + rewrite bool_decide_eq_false_2, andb_false_r.
      * rewrite (proj2 (seqb_neq _ _) Hc), (proj2 (seqb_neq (j__id job) c)) by congruence. cbn.
        by destruct (target === "mat-icon").
      * intros H. repeat (apply elem_of_cons in H as [H|H]; [congruence|]). by apply not_elem_of_nil in H.
  - rewrite bool_decide_eq_true_2 by by repeat constructor. cbn. destruct (target === "mat-icon"); cbn; [|done]. apply seqb_refl.
Qed.
