(* ===== verification/Passwords.v ===== *)
(** Forms that ask for each of several passwords twice: the kit password of the
    tools page, the passwords of the MIPs.

    The validator of a repetition reads the password, so its verdict is out of date
    when the password changes; a key in any of the fields runs all the validators
    again, those of the repetitions after those of the passwords. *)
From S2P Require Import Prelude Handler JsValue Validators Fields.

(** [password] and its [re_password], for each of the accounts. *)
Inductive pw_field (A : Type) : Type := Pw (a : A) | Re (a : A).
Arguments Pw {A} a.
Arguments Re {A} a.
#[export] Instance pw_field_eq {A} `{EqDecision A} : EqDecision (pw_field A).
Proof. solve_decision. Defined.

Section Passwords.
Context {A : Type} {accounts_eq : EqDecision A}.
Implicit Types g : form (pw_field A).

Definition pw_rule g (k : pw_field A) (c : AbstractControl) : outcome (option validation_error) :=
  match k with
  | Pw _ => root_password c
  | Re a => repeated (control_of (g (Pw a))) c
  end.
Definition pw_reads (k : pw_field A) : list (pw_field A) := match k with Re a => [Pw a] | Pw _ => [] end.

(** The controls of the group in their order, and the order of the evaluation. *)
Definition pw_names (accounts : list A) : list (pw_field A) := (Pw <$> accounts) ++ (Re <$> accounts).
Definition evaluated (accounts : list A) : list (pw_field A) := accounts ≫= (fun a => [Pw a; Re a]).

Lemma pw_rule_reads g g' k c c' :
  (forall j, j ∈ pw_reads k -> control_of (g j) = control_of (g' j)) ->
  value c = value c' -> touched c = touched c' -> pw_rule g k c = pw_rule g' k c'.
Proof using.
  intros Hr Hv Ht. destruct c as [v t st], c' as [v' t' st']; simpl in *; subst.
  destruct k as [a|a]; [reflexivity|]. unfold pw_rule. rewrite (Hr (Pw a)) by left. reflexivity.
Qed.
Lemma pw_reads_others k : k ∉ pw_reads k.
Proof using. destruct k; set_solver. Qed.

Lemma pw_rule_returns g k c t : value c = JStr t -> exists e, pw_rule g k c = Ret e.
Proof using.
  intros E. destruct k as [a|a].
  - destruct (root_password_strong c t E) as (e & H & _). by exists e.
  - destruct (repeated_same (control_of (g (Pw a))) c t E) as (e & H & _). by exists e.
Qed.

Abbreviation refreshed := (refreshes pw_rule).
Lemma pw_update_refreshes : refreshed (updateValueAndValidity pw_rule).
Proof using. apply (refreshes_update pw_rule pw_reads pw_rule_reads pw_reads_others). Qed.
Lemma pw_enable_refreshes : refreshed (enable_control pw_rule).
Proof using. apply (refreshes_enable pw_rule pw_reads pw_rule_reads pw_reads_others). Qed.

(** ** Forms whose verdicts are up to date *)

Definition all_texts g : Prop := forall k, exists t, fc_value (g k) = JStr t.
Definition all_same g : Prop := forall j k, fc_disabled (g j) = fc_disabled (g k).
Definition passwords_ok g : Prop := all_texts g /\ all_same g /\ forall k, checked pw_rule g k.

Variable accounts : list A.
Hypothesis all_accounts : forall a, a ∈ accounts.
Hypothesis accounts_once : NoDup accounts.

Lemma in_pw_names k : k ∈ pw_names accounts.
Proof using all_accounts. apply elem_of_app. destruct k as [a|a]; [left|right]; by apply list_elem_of_fmap_2. Qed.
Lemma in_evaluated k : k ∈ evaluated accounts.
Proof using all_accounts.
  apply list_elem_of_bind. destruct k as [a|a]; exists a; (split; [|done]); [left | right; left].
Qed.

Lemma ordered_app l1 l2 : ordered pw_reads l1 -> ordered pw_reads l2 ->
  (forall k, k ∈ l1 -> k ∉ l2 /\ forall j, j ∈ pw_reads k -> j ∉ l2) -> ordered pw_reads (l1 ++ l2).
Proof using.
  induction l1 as [|k l IH]; simpl; [done|]. intros (Hk & Hr & Ho) H2 Hc.
  destruct (Hc k) as [Hk2 Hr2]; [by left|]. split_and!.
  - intros [?|?]%elem_of_app; done.
  - intros j Hj [?|?]%elem_of_app; [by apply (Hr j) | by apply (Hr2 j)].
  - apply IH; [done|done|]. intros j Hj. apply Hc. by right.
Qed.

Lemma pw_ordered : ordered pw_reads (pw_names accounts).
Proof using accounts_once.
  assert (H : forall l, NoDup l -> ordered pw_reads (Pw (A := A) <$> l) /\ ordered pw_reads (Re (A := A) <$> l)).
  { induction 1 as [|a l Ha Hl [IH1 IH2]]; [done|]. simpl. split; split_and!; try done.
    - intros (b & [= <-] & Hb)%list_elem_of_fmap; done.
    - intros j Hj. by apply not_elem_of_nil in Hj.
    - intros (b & [= <-] & Hb)%list_elem_of_fmap; done.
    - intros j ->%list_elem_of_singleton (b & ? & _)%list_elem_of_fmap. done. }
  destruct (H accounts accounts_once) as [H1 H2]. apply ordered_app; [done|done|].
  intros k (a & -> & _)%list_elem_of_fmap. split.
  - by intros (b & ? & _)%list_elem_of_fmap.
  - intros j Hj. by apply not_elem_of_nil in Hj.
Qed.

Lemma evaluated_account l k : k ∈ evaluated l -> (match k with Pw a | Re a => a end) ∈ l.
Proof using.
  unfold evaluated. intros (a & Hk & Ha)%list_elem_of_bind.
  apply elem_of_cons in Hk as [->|[->|Hk%not_elem_of_nil]%elem_of_cons]; done.
Qed.
Lemma evaluated_ordered : ordered pw_reads (evaluated accounts).
Proof using accounts_once.
  clear all_accounts. induction accounts_once as [|a l Ha Hl IH]; [done|]. simpl. split_and!; [| | | |exact (IH Hl)].
  - intros [?|H%evaluated_account]%elem_of_cons; done.
  - intros j Hj. by apply not_elem_of_nil in Hj.
  - by intros H%evaluated_account.
  - by intros j ->%list_elem_of_singleton H%evaluated_account.
Qed.

(** Running the validators of all the controls in such an order. *)
Lemma each_passwords op l g : refreshed op -> ordered pw_reads l -> (forall k, k ∈ l) -> all_texts g ->
  (forall k h, (exists t, fc_value (h k) = JStr t) -> exists h', op k h = Ret h') ->
  (forall g', each op l g = Ret g' -> all_same g') ->
  exists g', each op l g = Ret g' /\ passwords_ok g' /\ forall k, fc_value (g' k) = fc_value (g k).
Proof using accounts_eq.
  intros Hop Ho Hl Hg Hr Hs.
  destruct (each_returns pw_rule op l g (fun _ v => exists t, v = JStr t) Hop) as [g' E]; [|done|].
  { intros k h Hh. apply Hr, Hh. }
  assert (Hv := each_values pw_rule op l g g' Hop E).
  exists g'. split; [done|]. split; [|exact Hv]. split_and!.
  - intros k. rewrite Hv. apply Hg.
  - by apply Hs.
  - intros k. apply (each_checked pw_rule pw_reads pw_rule_reads op l g g' Hop Ho E), Hl.
Qed.

Lemma new_passwords_ok (v : pw_field A -> string) : exists g,
  new_group pw_rule (pw_names accounts) (fun k => raw_field (JStr (v k))) = Ret g /\ passwords_ok g /\
  forall k, fc_value (g k) = JStr (v k).
Proof using all_accounts accounts_once.
  unfold new_group. apply each_passwords; [apply pw_update_refreshes|apply pw_ordered|apply in_pw_names| | |].
  - intros k. by exists (v k).
  - intros k h [t Ht]. by apply update_returns, (pw_rule_returns h k (control_of (h k)) t).
  - intros g' E j k. by rewrite !(each_update_disabled pw_rule _ _ _ _ E).
Qed.

Lemma enable_passwords_ok g : passwords_ok g -> exists g', enable pw_rule (pw_names accounts) g = Ret g' /\ passwords_ok g'.
Proof using all_accounts accounts_once.
  intros [Hg _]. unfold enable. destruct (each_passwords (enable_control pw_rule) (pw_names accounts) g) as (g' & E & H & _);
    [apply pw_enable_refreshes|apply pw_ordered|apply in_pw_names|done| | |by exists g'].
  - intros k h [t Ht]. unfold enable_control. apply update_returns, (pw_rule_returns _ _ _ t). by rewrite put_same.
  - intros g' E j k. by rewrite !(enable_enables pw_rule (pw_names accounts) g g' _ E) by (left; apply in_pw_names).
Qed.

Lemma disable_passwords_ok g : passwords_ok g -> passwords_ok (disable g).
Proof using. intros [Hg _]. split_and!; [exact Hg | by intros ? ? | by intros ? ?]. Qed.

Lemma touch_passwords_ok k g : passwords_ok g -> passwords_ok (markAsTouched k g).
Proof using.
  intros (Hv & Hd & Hc). assert (Hf := markAsTouched_fields k g). split_and!.
  - intros j. destruct (Hf j) as (-> & _). apply Hv.
  - intros i j. destruct (Hf i) as (_ & -> & _), (Hf j) as (_ & -> & _). apply Hd.
  - intros j Hdj. destruct (Hf j) as (E1 & E2 & E3). rewrite E2 in Hdj. rewrite E3, <- (Hc j Hdj).
    destruct (Hv j) as [t Et]. destruct j as [a|a]; simpl.
    + apply (root_password_marks _ _ t); simpl; [by rewrite E1 | done].
    + destruct (Hf (Pw a)) as (P1 & P2 & P3).
      apply (repeated_marks _ _ _ _ t); simpl; [done | unfold field_status; by rewrite P2, P3 | by rewrite E1 | done].
Qed.

(** A key and the evaluation after it. *)
Lemma typed_password_ok k t g : passwords_ok g ->
  exists g1, type_in pw_rule k (JStr t) g = Ret g1 /\
    exists g2, each (updateValueAndValidity pw_rule) (evaluated accounts) g1 = Ret g2 /\ passwords_ok g2.
Proof using all_accounts accounts_once.
  intros (Hv & Hd & _). unfold type_in.
  set (g0 := put k (with_marks (fc_touched (g k)) true (g k)) g).
  assert (H0 : forall j, fc_value (g0 j) = fc_value (g j) /\ fc_disabled (g0 j) = fc_disabled (g j)).
  { intros j. unfold g0. destruct (decide (j = k)) as [->|Hj]; [by rewrite put_same | by rewrite put_other]. }
  destruct (update_returns pw_rule k (put k (with_value (JStr t) (g0 k)) g0)) as [g1 E1].
  { apply (pw_rule_returns _ _ _ t). by rewrite put_same. }
  exists g1. split; [exact E1|].
  destruct (setValue_same pw_rule k (JStr t) g0 g1 E1) as (V1 & D1 & _).
  assert (Hf : forall j, (exists t, fc_value (g1 j) = JStr t) /\ fc_disabled (g1 j) = fc_disabled (g j)).
  { intros j. destruct (decide (j = k)) as [->|Hj].
    - split; [by exists t|]. rewrite D1. apply H0.
    - rewrite (setValue_other pw_rule k j (JStr t) g0 g1 E1 Hj). destruct (H0 j) as [-> ->]. split; [apply Hv | done]. }
  destruct (each_passwords (updateValueAndValidity pw_rule) (evaluated accounts) g1) as (g2 & E & H & _);
    [apply pw_update_refreshes|apply evaluated_ordered|apply in_evaluated| | | |by exists g2].
  - intros j. apply Hf.
  - intros j h [u Hu]. by apply update_returns, (pw_rule_returns h j (control_of (h j)) u).
  - intros g' E i j. rewrite !(each_update_disabled pw_rule _ _ _ _ E).
    destruct (Hf i) as [_ ->], (Hf j) as [_ ->]. apply Hd.
Qed.

(** In a valid group every password meets the requirements and stands there twice. *)
Lemma valid_passwords g : passwords_ok g -> group_valid (pw_names accounts) g = true ->
  forall a, exists t, fc_value (g (Pw a)) = JStr t /\ strong t /\ fc_value (g (Re a)) = JStr t.
Proof using all_accounts.
  intros (Ht & Hd & Hc) Hv a.
  assert (He : forall k, fc_disabled (g k) = false).
  { unfold group_valid in Hv. apply andb_true_iff in Hv as [(j & _ & Hj%negb_true_iff)%existsb_exists _].
    intros k. by rewrite (Hd k j). }
  destruct (Ht (Pw a)) as [t Et], (Ht (Re a)) as [u Eu].
  assert (Hok : forall k, pw_rule g k (control_of (g k)) = Ret None).
  { intros k. rewrite (Hc k (He k)). f_equal. apply (group_valid_field (pw_names accounts) g k Hv (in_pw_names k) (He k)). }
  destruct (root_password_strong (control_of (g (Pw a))) t Et) as (e & E1 & H1).
  destruct (repeated_same (control_of (g (Pw a))) (control_of (g (Re a))) u Eu) as (e2 & E2 & H2).
  assert (O1 := Hok (Pw a)). assert (O2 := Hok (Re a)). simpl in O1, O2. rewrite E1 in O1. rewrite E2 in O2.
  injection O1 as ->. injection O2 as ->. destruct (H2 eq_refl) as [_ E3]. simpl in E3.
  exists t. split_and!; [done | by apply H1 | congruence].
Qed.
End Passwords.
