(* ===== verification/MipSettings.v ===== *)
(** modules/system-settings/components/mip-settings: three passwords with their
    repetitions.  As in KitSettings.v, a key is an [input] event with the [keyup]
    that evaluates the passwords again, and pasting makes the [input] event only. *)
From S2P Require Import Prelude Handler JsValue Runtime Data Api SettingsData Messages Validators Fields Passwords.

Inductive account : Type := Root | User | Luks.
#[export] Instance account_eq : EqDecision account.
Proof. solve_decision. Defined.

(** [password], [user_password], [luks_password] and their [re_password]s. *)
Abbreviation mip_field := (pw_field account).
Definition mip_accounts : list account := [Root; User; Luks].
Lemma all_mip_accounts a : a ∈ mip_accounts.
Proof. destruct a; set_solver. Qed.
Lemma mip_accounts_once : NoDup mip_accounts.
Proof. repeat constructor; set_solver. Qed.

Definition setting (m : option MipSettingsClass) (a : account) : string :=
  match m ≫= match a with Root => mp_password | User => user_password | Luks => luks_password end with
  | Some t => t
  | None => ""
  end.

Definition new_mip_form (m : option MipSettingsClass) : outcome (form mip_field) :=
  new_group pw_rule (pw_names mip_accounts) (fun k => raw_field (JStr (setting m match k with Pw a | Re a => a end))).

Definition mip_text (g : form mip_field) (a : account) : option string :=
  match fc_value (g (Pw a)) with JStr t => Some t | _ => None end.

(** [getRawValue()] without the repetitions. *)
Definition mip_settings_of (g : form mip_field) : MipSettingsClass :=
  {| mp__id := None; mp_password := mip_text g Root; user_password := mip_text g User; luks_password := mip_text g Luks |}.

(** ** The component *)

Inductive call : Type := CGetMip | CUpdateMip (mip_settings : MipSettingsClass).
Definition Ans (c : call) : Type :=
  match c with CGetMip => answer (option MipSettingsClass) | CUpdateMip _ => answer SuccessMessageClass end.

Inductive page : Type := OpenPasswordMessage | OnKitStatusChange.

Record MIPSettingsComponent := {
  kit_status : KitStatusClass;
  mip_settings_form_group : option (form mip_field);
}.
Abbreviation M := (handler MIPSettingsComponent (effect call page)).

Definition with_kit_status k (s : MIPSettingsComponent) :=
  {| kit_status := k; mip_settings_form_group := mip_settings_form_group s |}.
Definition with_form g (s : MIPSettingsComponent) := {| kit_status := kit_status s; mip_settings_form_group := g |}.

(** The page binds the kit status before [ngOnInit]; it is an empty object then. *)
Definition constructor : MIPSettingsComponent := {| kit_status := empty_kit_status; mip_settings_form_group := None |}.

Definition get : M MIPSettingsComponent := gets (fun s => s).
Definition the_form : M (form mip_field) := s <- get ;; deref (mip_settings_form_group s).
Definition on_form (op : form mip_field -> outcome (form mip_field)) : M unit :=
  g <- the_form ;; g' <- lift (op g) ;; modify (with_form (Some g')).

Definition re_evaluate : M unit :=
  s <- get ;;
  when (notUndefNull (mip_settings_form_group s))
    (on_form (each (updateValueAndValidity pw_rule) (evaluated mip_accounts))).

Definition open_password_dialog_window : M unit := emit (Page OpenPasswordMessage).

Definition initialize_mip_settings_form_group_ (m : option MipSettingsClass) : M unit :=
  g <- lift (new_mip_form m) ;; modify (with_form (Some g)).

Definition check_job_ : M unit :=
  s <- get ;;
  if negb (truthy (general_settings_configured (kit_status s))) then on_form (fun g => Ret (disable g))
  else on_form (enable pw_rule (pw_names mip_accounts)).

Definition construct_post_validation_error_message_ : list (string * jsval) -> outcome string :=
  Messages.construct_post_validation_error_message_.

Definition websocket_get_socket_on_kit_status_change : M unit := emit (Page OnKitStatusChange).
Definition kit_status_change (data : KitStatusClass) : M unit := modify (with_kit_status data) ;;; check_job_.

Definition api_get_mip_settings_ : M unit := emit (Subscribe CGetMip).
Definition api_get_mip_settings_answer (a : answer (option MipSettingsClass)) : M unit :=
  match a with
  | Next response => initialize_mip_settings_form_group_ response
  | Error e => on_error_message "retrieving mip settings" e
  end.

Definition api_update_mip_settings_ : M unit :=
  g <- the_form ;; emit (Subscribe (CUpdateMip (mip_settings_of g))).
Definition api_update_mip_settings_answer (mip_settings : MipSettingsClass) (a : answer SuccessMessageClass) : M unit :=
  match a with
  | Next _ =>
      initialize_mip_settings_form_group_ (Some mip_settings) ;;;
      generate_return_success_snackbar_message "saved Mip settings" (Some MAT_SNACKBAR_CONFIGURATION_60000_DUR)
  | Error (ErrorMessageClass m) => displaySnackBar (js_to_string m) (Some MAT_SNACKBAR_CONFIGURATION_60000_DUR)
  | Error (ValidationErrorClass _ messages) => show_validation_errors messages
  | Error (PostValidationClass v) => show_post_validation v
  | Error e => on_error "adding mip" e
  end.

Definition click_button_save : M unit := api_update_mip_settings_.

Definition ngOnInit : M unit :=
  initialize_mip_settings_form_group_ None ;;; websocket_get_socket_on_kit_status_change ;;; api_get_mip_settings_.

Definition ngOnChanges : M unit := s <- get ;; when (notUndefNull (mip_settings_form_group s)) check_job_.

(** ** The turns *)

Inductive event : Type :=
| NgOnInit
| Bind (k : KitStatusClass)
| KitStatusChange (data : KitStatusClass)
| Keys (k : mip_field) (t : string)
| Paste (k : mip_field) (t : string)
| Blur (k : mip_field)
| SaveClick
| PasswordInfoClick.

Definition user_sets (k : mip_field) (t : string) (rest : M unit) : M unit :=
  s <- get ;;
  match mip_settings_form_group s with
  | Some g => when (negb (fc_disabled (g k))) (on_form (type_in pw_rule k (JStr t)) ;;; rest)
  | None => ret tt
  end.

Definition save_enabled (s : MIPSettingsComponent) : bool :=
  match mip_settings_form_group s with
  | Some g => group_valid (pw_names mip_accounts) g && group_dirty (pw_names mip_accounts) g && truthy (general_settings_configured (kit_status s))
  | None => false
  end.

Definition on_event (e : event) : M unit :=
  match e with
  | NgOnInit => ngOnInit
  | Bind k => modify (with_kit_status k) ;;; ngOnChanges
  | KitStatusChange data => kit_status_change data
  | Keys k t => user_sets k t re_evaluate
  | Paste k t => user_sets k t (ret tt)
  | Blur k => s <- get ;; when (notUndefNull (mip_settings_form_group s)) (on_form (fun g => Ret (markAsTouched k g)))
  | SaveClick => s <- get ;; when (save_enabled s) click_button_save
  | PasswordInfoClick => s <- get ;; when (notUndefNull (mip_settings_form_group s)) open_password_dialog_window
  end.

Definition on_answer (c : call) : Ans c -> M unit :=
  match c with CGetMip => api_get_mip_settings_answer | CUpdateMip m => api_update_mip_settings_answer m end.

#[export] Instance mip_settings_component : Component MIPSettingsComponent call page event Ans :=
  {| initial := constructor; Runtime.on_event := on_event; Runtime.on_answer := on_answer |}.

(** ** The turns keep the form *)

Definition mip_state_ok (s : MIPSettingsComponent) : Prop :=
  match mip_settings_form_group s with Some g => passwords_ok g | None => True end.

Definition is_update (c : call) : bool := match c with CUpdateMip _ => true | CGetMip => false end.
Definition no_update (e : effect call page) : Prop := only (fun c => is_update c = false) e.

Lemma on_mip_run op s g g' : mip_settings_form_group s = Some g -> op g = Ret g' ->
  on_form op s = (Ret tt, with_form (Some g') s, []).
Proof. intros E Eop. unfold on_form, the_form, get, bind, gets, deref, lift, modify. rewrite E. cbn. by rewrite Eop. Qed.

Lemma safe_on_mip op (P : effect call page -> Prop) :
  (forall g, passwords_ok g -> exists g', op g = Ret g' /\ passwords_ok g') -> safe mip_state_ok P (on_form op).
Proof.
  intros Hop s Hs. destruct (mip_settings_form_group s) as [g|] eqn:E.
  - unfold mip_state_ok in Hs. rewrite E in Hs. destruct (Hop g Hs) as (g' & Eg & Hg').
    rewrite (on_mip_run op s g g' E Eg). by split; [|constructor].
  - unfold on_form, the_form, get, bind, gets, deref. rewrite E. by split.
Qed.

Lemma safe_check_mip : safe mip_state_ok no_update check_job_.
Proof.
  unfold check_job_, get. safe_auto; apply safe_on_mip; intros g Hg.
  - eexists. split; [done|]. by apply disable_passwords_ok.
  - by apply (enable_passwords_ok mip_accounts all_mip_accounts mip_accounts_once).
Qed.

Lemma safe_init_mip m : safe mip_state_ok no_update (initialize_mip_settings_form_group_ m).
Proof.
  intros s Hs. unfold initialize_mip_settings_form_group_. 
  destruct (new_passwords_ok mip_accounts all_mip_accounts mip_accounts_once (fun k => setting m match k with Pw a | Re a => a end))
    as (g & E & Hg & _). unfold new_mip_form. rewrite E. by split.
Qed.

Lemma safe_mip_keys k t : safe mip_state_ok no_update (user_sets k t re_evaluate).
Proof.
  intros s Hs. unfold user_sets, get. rewrite (bind_run_silent _ _ s s s) by done.
  destruct (mip_settings_form_group s) as [g|] eqn:E; [|by split]. destruct (negb _); [|by split].
  unfold mip_state_ok in Hs. rewrite E in Hs. destruct (typed_password_ok mip_accounts all_mip_accounts mip_accounts_once k t g Hs) as (g1 & E1 & g2 & E2 & Hg).
  simpl when. rewrite (bind_run_silent _ _ s tt (with_form (Some g1) s)) by (by apply on_mip_run with g).
  unfold re_evaluate, get. rewrite (bind_run_silent _ _ _ (with_form (Some g1) s) (with_form (Some g1) s)) by done.
  cbn [when notUndefNull mip_settings_form_group with_form].
  rewrite (on_mip_run _ (with_form (Some g1) s) g1 g2 eq_refl E2). by split.
Qed.

Lemma no_update_page d : no_update (Page d).
Proof. by intros ?. Qed.
Lemma no_update_get : no_update (Subscribe CGetMip).
Proof. by intros ? [= <-]. Qed.
Lemma mip_state_status k s : mip_state_ok s -> mip_state_ok (with_kit_status k s).
Proof. done. Qed.
#[local] Hint Resolve safe_check_mip safe_init_mip no_update_page no_update_get mip_state_status : handler.

Definition typed_passwords (l : label event Ans) : Prop := match l with Event (Paste _ _) => False | _ => True end.

Lemma safe_mip_turn l : typed_passwords l -> l <> Event SaveClick -> safe mip_state_ok no_update (react l).
Proof.
  intros Hk Hs. destruct l as [e|c a]; simpl.
  - destruct e; simpl in *; try done.
    + unfold ngOnInit, websocket_get_socket_on_kit_status_change, api_get_mip_settings_. safe_auto; auto with handler.
    + unfold ngOnChanges, get. safe_auto; auto with handler.
    + unfold kit_status_change. safe_auto; auto with handler.
    + apply safe_mip_keys.
    + unfold get. safe_auto. apply safe_on_mip. intros g Hg. eexists. split; [done|]. by apply touch_passwords_ok.
    + unfold get, open_password_dialog_window. safe_auto; auto with handler.
  - destruct c; simpl in *; destruct a as [a|e]; simpl; [apply safe_init_mip|apply only_on_error_message| |].
    + safe_auto; try apply only_success.
    + destruct e; try apply only_snack; try apply only_on_error;
        [apply safe_show_post_validation | apply safe_show_validation_errors]; by intros ? ? ?.
Qed.

Lemma mip_trace tr w : trace typed_passwords tr w -> mip_state_ok (component w).
Proof.
  intros Htr. apply (trace_invariant typed_passwords mip_state_ok (fun _ _ => True)) with (tr := tr); [done| |done].
  intros l Hl s Hs. split; [|by apply Forall_true].
  destruct l as [e|c a]; [destruct e|]; try (by apply safe_mip_turn). simpl. unfold get.
  rewrite (bind_state _ _ s s s []) by done. destruct (save_enabled s) eqn:E; [|done]. unfold save_enabled in E.
  simpl when. unfold click_button_save, api_update_mip_settings_, the_form, get, bind, gets, deref.
  by destruct (mip_settings_form_group s) as [g|] eqn:Eg.
Qed.

(** The passwords of the MIPs are posted by the save button only, with the
    general settings in place; when they were typed with the keyboard, all three
    that are posted meet the requirements and stand in the form twice, whatever
    was bound, answered or reported before. *)
Theorem saved_mip_passwords_were_repeated tr w l w' m :
  trace typed_passwords tr w -> typed_passwords l -> step w l w' -> Subscribe (CUpdateMip m) ∈ made l w ->
  l = Event SaveClick /\ truthy (general_settings_configured (kit_status (component w))) = true /\
  exists g root user luks, mip_settings_form_group (component w) = Some g /\
    m = {| mp__id := None; mp_password := Some root; user_password := Some user; luks_password := Some luks |} /\
    strong root /\ strong user /\ strong luks /\
    fc_value (g (Re Root)) = JStr root /\ fc_value (g (Re User)) = JStr user /\ fc_value (g (Re Luks)) = JStr luks.
Proof.
  intros Htr Hl _ Hin. assert (Hs := mip_trace tr w Htr).
  destruct (decide_rel (fun b c : bool => b = c) (match l with Event SaveClick => true | _ => false end) true) as [El|El].
  - destruct l as [[]|]; try done. unfold made in Hin. simpl in Hin.
    unfold get in Hin. rewrite (bind_run_silent _ _ _ (component w) (component w)) in Hin by done.
    destruct (save_enabled (component w)) eqn:Es; [|by apply not_elem_of_nil in Hin].
    unfold save_enabled, mip_state_ok in *. destruct (mip_settings_form_group (component w)) as [g|] eqn:Eg; [|done].
    rewrite !andb_true_iff in Es. destruct Es as [[Hv _] Hgen]. simpl when in Hin.
    unfold click_button_save, api_update_mip_settings_, the_form, get, bind, gets, deref in Hin. rewrite Eg in Hin.
    apply elem_of_cons in Hin as [[= ->]|?%not_elem_of_nil]; [|done].
    assert (Hp := valid_passwords mip_accounts all_mip_accounts g Hs Hv).
    destruct (Hp Root) as (r & R1 & R2 & R3), (Hp User) as (u & U1 & U2 & U3), (Hp Luks) as (k & K1 & K2 & K3).
    split_and!; [done|done|]. exists g, r, u, k. split_and!; try done.
    unfold mip_settings_of, mip_text. by rewrite R1, U1, K1.
  - exfalso. assert (Hne : l <> Event SaveClick) by (intros ->; done).
    destruct (safe_mip_turn l Hl Hne (component w) Hs) as [_ HF]. rewrite Forall_forall in HF.
    by specialize (HF _ Hin _ eq_refl).
Qed.

Lemma saved_mip_passwords_were_repeated_witness : exists tr w m,
  trace typed_passwords tr w /\ Subscribe (CUpdateMip m) ∈ made (Event SaveClick) w /\
  luks_password m = Some "Correct-Horse-44" /\ truthy (general_settings_configured (kit_status (component w))) = true.
Proof.
  pose proof (trace_start typed_passwords) as T.
  apply (trace_event _ _ _ NgOnInit) in T; [|exact I].
  apply (trace_event _ _ _ (Bind configured)) in T; [|exact I].
  apply (trace_event _ _ _ (Keys (Pw Root) "Correct-Horse-42")) in T; [|exact I].
  apply (trace_event _ _ _ (Keys (Re Root) "Correct-Horse-42")) in T; [|exact I].
  apply (trace_event _ _ _ (Keys (Re User) "Correct-Horse-43")) in T; [|exact I].
  apply (trace_event _ _ _ (Keys (Pw User) "Correct-Horse-43")) in T; [|exact I].
  apply (trace_event _ _ _ (Keys (Pw Luks) "Correct-Horse-44")) in T; [|exact I].
  apply (trace_event _ _ _ (Keys (Re Luks) "Correct-Horse-44")) in T; [|exact I].
  match type of T with trace _ ?tr ?w => set (w1 := w) in T; exists tr, w1 end.
  pose proof (step_event w1 SaveClick) as Hs.
  eexists. split; [exact T|].
  assert (Hin : Subscribe (CUpdateMip {| mp__id := None; mp_password := Some "Correct-Horse-42";
      user_password := Some "Correct-Horse-43"; luks_password := Some "Correct-Horse-44" |}) ∈ made (Event SaveClick) w1)
    by (vm_compute; left).
  split; [exact Hin|]. split; [reflexivity|].
  by destruct (saved_mip_passwords_were_repeated _ _ (Event SaveClick) _ _ T I Hs Hin) as (_ & H & _).
Defined.
