(* ===== verification/GeneralSettings.v ===== *)
(** modules/system-settings/components/general-settings: the domain of the kit,
    with the addresses of the controller in locked fields. *)
From S2P Require Import Prelude Handler JsValue Runtime Data Api SettingsData Regex Validators Fields.
From Stdlib Require Import Ascii.

Inductive general_field : Type := Domain | ControllerInterface | Netmask | Gateway.
#[export] Instance general_field_eq : EqDecision general_field.
Proof. solve_decision. Defined.
Definition general_names : list general_field := [Domain; ControllerInterface; Netmask; Gateway].

Definition general_rule (g : form general_field) (k : general_field) (c : AbstractControl)
    : outcome (option validation_error) :=
  match k with
  | Domain => validateFromArray kitSettingsValidators_domain None c
  | _ => Ret None
  end.

(** The settings of the page: an empty object until they are there. *)
Inductive general_input : Type := EmptyObject | Settings (g : GeneralSettingsClass).
Definition the_settings (x : option general_input) : option GeneralSettingsClass :=
  match x with Some (Settings g) => Some g | _ => None end.

Definition text_or (d : string) (t : option string) : jsval := JStr (default d t).

Definition lock_addresses (g : form general_field) : form general_field :=
  disable_control Netmask (disable_control Gateway (disable_control ControllerInterface g)).

Definition initial_general (x : option GeneralSettingsClass) : form general_field := fun k =>
  raw_field match k with
            | Domain => text_or "" (x ≫= gs_domain)
            | ControllerInterface => text_or "" (x ≫= controller_interface)
            | Netmask => text_or "255.255.255.0" (x ≫= gs_netmask)
            | Gateway => text_or "" (x ≫= gs_gateway)
            end.

Definition new_general_form (x : option GeneralSettingsClass) : outcome (form general_field) :=
  let* g := new_group general_rule general_names (initial_general x) in Ret (lock_addresses g).

Definition general_text (g : form general_field) (k : general_field) : option string :=
  match fc_value (g k) with JStr t => Some t | _ => None end.

(** [new GeneralSettingsClass(form.getRawValue())] *)
Definition general_settings_of (g : form general_field) : GeneralSettingsClass :=
  {| gs__id := None; controller_interface := general_text g ControllerInterface; gs_netmask := general_text g Netmask;
     gs_gateway := general_text g Gateway; gs_domain := general_text g Domain; gs_job_id := None;
     gs_job_completed := None; gs_dhcp_range := None |}.
Definition set_gs_job_id v (g : GeneralSettingsClass) : GeneralSettingsClass :=
  {| gs__id := gs__id g; controller_interface := controller_interface g; gs_netmask := gs_netmask g;
     gs_gateway := gs_gateway g; gs_domain := gs_domain g; gs_job_id := v; gs_job_completed := gs_job_completed g;
     gs_dhcp_range := gs_dhcp_range g |}.

(** ** The component *)

(** The answer of the console is the output [job_deleted] of its dialog. *)
Inductive call : Type :=
| CUpdateGeneral (g : GeneralSettingsClass)
| CJobGet (job_id : option string)
| DConsole (job_id : option string).
Definition Ans (c : call) : Type :=
  match c with
  | CUpdateGeneral _ => answer GenericJobAndKeyClass
  | CJobGet _ => answer BackgroundJobClass
  | DConsole _ => unit
  end.

Inductive page : Type :=
| UpdateGeneralSettings (x : option general_input)
| OnKitStatusChange
| CloseConsole.

Record GeneralSettingsComponent := {
  general_settings : option general_input;
  kit_status : KitStatusClass;
  controller_info : option ControllerInfoClass;
  general_settings_form_group : option (form general_field);
  job_id : option string;
  job_running : bool;
  button_save_tooltip : string;
}.
Abbreviation M := (handler GeneralSettingsComponent (effect call page)).

Definition with_inputs x k c s :=
  {| general_settings := x; kit_status := k; controller_info := c;
     general_settings_form_group := general_settings_form_group s; job_id := job_id s; job_running := job_running s;
     button_save_tooltip := button_save_tooltip s |}.
Definition with_settings x s := with_inputs x (kit_status s) (controller_info s) s.
Definition with_kit_status k s := with_inputs (general_settings s) k (controller_info s) s.
Definition with_form v s :=
  {| general_settings := general_settings s; kit_status := kit_status s; controller_info := controller_info s;
     general_settings_form_group := v; job_id := job_id s; job_running := job_running s;
     button_save_tooltip := button_save_tooltip s |}.
Definition with_job v s :=
  {| general_settings := general_settings s; kit_status := kit_status s; controller_info := controller_info s;
     general_settings_form_group := general_settings_form_group s; job_id := v; job_running := job_running s;
     button_save_tooltip := button_save_tooltip s |}.
Definition with_running b t s :=
  {| general_settings := general_settings s; kit_status := kit_status s; controller_info := controller_info s;
     general_settings_form_group := general_settings_form_group s; job_id := job_id s; job_running := b;
     button_save_tooltip := t |}.

Definition constructor : GeneralSettingsComponent :=
  {| general_settings := Some EmptyObject; kit_status := empty_kit_status; controller_info := Some empty_controller_info;
     general_settings_form_group := None; job_id := None; job_running := false; button_save_tooltip := "" |}.

Definition get : M GeneralSettingsComponent := gets (fun s => s).
Definition the_form : M (form general_field) := s <- get ;; deref (general_settings_form_group s).
Definition on_form (op : form general_field -> outcome (form general_field)) : M unit :=
  g <- the_form ;; g' <- lift (op g) ;; modify (with_form (Some g')).
Definition on_form_if_any (op : form general_field -> outcome (form general_field)) : M unit :=
  s <- get ;; when (notUndefNull (general_settings_form_group s)) (on_form op).

(** *** The requests *)

Definition api_update_general_settings_ (g : GeneralSettingsClass) : M unit := emit (Subscribe (CUpdateGeneral g)).
Definition api_job_get_ : M unit := s <- get ;; emit (Subscribe (CJobGet (job_id s))).

(** *** The methods *)

Definition initialize_general_settings_form_group_ : M unit :=
  s <- get ;; g <- lift (new_general_form (the_settings (general_settings s))) ;; modify (with_form (Some g)).

Definition check_job_ : M unit := s <- get ;; when (notUndefNull (job_id s)) api_job_get_.

Definition controller_values (c : ControllerInfoClass) (g : form general_field) : outcome (form general_field) :=
  let v t := match t with Some t => JStr t | None => JUndefined end in
  let* g := setValue general_rule ControllerInterface (v (ci_ip_address c)) g in
  let* g := setValue general_rule Gateway (v (ci_gateway c)) (disable_control ControllerInterface g) in
  let* g := setValue general_rule Netmask (v (ci_netmask c)) (disable_control Gateway g) in
  Ret (disable_control Netmask g).

Definition gather_controller_facts_ : M unit :=
  s <- get ;;
  match controller_info s with
  | Some c => on_form_if_any (controller_values c)
  | None => ret tt
  end.

Definition websocket_get_socket_on_kit_status_change : M unit := emit (Page OnKitStatusChange).
Definition kit_status_change (data : KitStatusClass) : M unit := modify (with_kit_status data) ;;; check_job_.

Definition click_button_save : M unit :=
  g <- the_form ;;
  let k := general_settings_of g in
  modify (with_settings (Some (Settings k))) ;;;
  api_update_general_settings_ k.

Definition open_server_stdout_dialog_window_ : M unit := s <- get ;; emit (Subscribe (DConsole (job_id s))).
Definition click_button_open_console : M unit := open_server_stdout_dialog_window_.
Definition job_deleted : M unit :=
  emit (Page CloseConsole) ;;; api_job_get_ ;;; on_form (enable_control general_rule Domain).

Definition ngOnInit : M unit := websocket_get_socket_on_kit_status_change ;;; initialize_general_settings_form_group_.

(** The changed inputs. *)
Record Changes := {
  ch_general_settings : option (option general_input);
  ch_kit_status : option KitStatusClass;
  ch_controller_info : option (option ControllerInfoClass);
}.
Definition assign_inputs (ch : Changes) (s : GeneralSettingsComponent) : GeneralSettingsComponent :=
  with_inputs (default (general_settings s) (ch_general_settings ch)) (default (kit_status s) (ch_kit_status ch))
    (default (controller_info s) (ch_controller_info ch)) s.

(** [Object.keys] of undefined throws; an empty object has no keys. *)
Definition settings_changed : M unit :=
  s <- get ;;
  when (notUndefNull (the_settings (general_settings s) ≫= gs_job_id))
    (modify (with_job (the_settings (general_settings s) ≫= gs_job_id)) ;;; check_job_) ;;;
  x <- deref (general_settings s) ;;
  match x with
  | Settings _ => initialize_general_settings_form_group_
  | EmptyObject => ret tt
  end.

Definition ngOnChanges (ch : Changes) : M unit :=
  when (notUndefNull (ch_general_settings ch)) settings_changed ;;;
  s <- get ;;
  when (notUndefNull (ch_kit_status ch) && truthy (control_plane_deployed (kit_status s)))
    (on_form (fun g => Ret (disable_control Domain g))) ;;;
  when (notUndefNull (ch_controller_info ch)) gather_controller_facts_.

(** *** The answers *)

Definition api_update_general_settings_answer (a : answer GenericJobAndKeyClass) : M unit :=
  match a with
  | Next response =>
      modify (with_job (Some (gj_job_id response))) ;;;
      modify (fun s => match general_settings s with
                       | Some (Settings g) => with_settings (Some (Settings (set_gs_job_id (Some (gj_job_id response)) g))) s
                       | Some EmptyObject =>
                           with_settings (Some (Settings (set_gs_job_id (Some (gj_job_id response)) empty_settings))) s
                       | None => s
                       end) ;;;
      on_form (fun g => Ret (disable g)) ;;;
      check_job_ ;;;
      s <- get ;;
      emit (Page (UpdateGeneralSettings (general_settings s)))
  | Error e => on_error "updating general settings" e
  end.

Definition api_job_get_answer (a : answer BackgroundJobClass) : M unit :=
  match a with
  | Next response =>
      if bj_status response ?=== "started" then
        modify (with_running true "Job is running...") ;;;
        on_form_if_any (fun g => Ret (disable g))
      else
        modify (with_job None) ;;;
        modify (with_running false "") ;;;
        s <- get ;;
        when (truthy (control_plane_deployed (kit_status s))) (on_form_if_any (fun g => Ret (disable_control Domain g)))
  | Error e => on_error_message "retrieving job get" e
  end.

(** *** The turns *)

Inductive event : Type :=
| NgOnInit
| Bind (ch : Changes)
| KitStatusChange (data : KitStatusClass)
| TypeDomain (t : string)
| Blur (k : general_field)
| SaveClick
| ConsoleClick.

Definition save_enabled (s : GeneralSettingsComponent) : bool :=
  match general_settings_form_group s with
  | Some g => negb (group_invalid general_names g) && group_dirty general_names g && negb (job_running s)
  | None => false
  end.

Definition on_event (e : event) : M unit :=
  match e with
  | NgOnInit => ngOnInit
  | Bind ch => modify (assign_inputs ch) ;;; ngOnChanges ch
  | KitStatusChange data => kit_status_change data
  | TypeDomain t =>
      s <- get ;;
      match general_settings_form_group s with
      | Some g => when (negb (fc_disabled (g Domain))) (on_form (type_in general_rule Domain (JStr t)))
      | None => ret tt
      end
  | Blur k => on_form_if_any (fun g => Ret (markAsTouched k g))
  | SaveClick => s <- get ;; when (save_enabled s) click_button_save
  | ConsoleClick => s <- get ;; when (match job_id s with Some j => j !== "" | None => false end) click_button_open_console
  end.

Definition on_answer (c : call) : Ans c -> M unit :=
  match c with
  | CUpdateGeneral _ => api_update_general_settings_answer
  | CJobGet _ => api_job_get_answer
  | DConsole _ => fun _ => job_deleted
  end.

#[export] Instance general_settings_component : Component GeneralSettingsComponent call page event Ans :=
  {| initial := constructor; Runtime.on_event := on_event; Runtime.on_answer := on_answer |}.

(** ** The domain *)

(** A lowercase letter and 2 to 39 lowercase letters, digits and minus signs. *)
Definition domain_ok (t : string) : Prop :=
  exists c w, String.list_ascii_of_string t = c :: w /\ c ∈ lower /\ (2 <= length w <= 39)%nat /\
    Forall (fun x => x ∈ lower ++ digits10 ++ ["-"%char]) w.

Lemma domain_pattern_spec t : test domain_pattern t = true <-> domain_ok t.
Proof.
  unfold domain_pattern. rewrite test_anchored, matches_cat. setoid_rewrite matches_class.
  setoid_rewrite matches_from_to; [|lia]. unfold domain_ok. split.
  - intros (w1 & w2 & E & (c & -> & Hc) & Hl & Hw). exists c, w2. by rewrite E.
  - intros (c & w & E & Hc & Hl & Hw). exists [c], w. rewrite E. split_and!; [done | by exists c | lia | lia | done].
Qed.

Definition domain_message : error_text :=
  Text "The Domain must be alphanumeric between 3 and 40 characters. Special characters are not allowed except for the minus sign (-) and the period (.). The Domain may not begin or end with either special character.".

Lemma domain_rule_run g c t : value c = JStr t ->
  general_rule g Domain c =
  Ret (if t === "" then Some (errorObject (Text "Domain is required"))
       else if test domain_pattern t then None else Some (PatternError (JStr t) domain_message)).
Proof.
  intros E. unfold general_rule, kitSettingsValidators_domain.
  assert (E1 := pattern_text domain_message domain_pattern c t E).
  assert (E2 := required_one (Text "Domain is required") None c t E).
  erewrite (validate_two _ _ None c); [|exact E1|exact E2]. by destruct (t === ""), (test domain_pattern t).
Qed.

Lemma domain_rule g c t : value c = JStr t ->
  exists e, general_rule g Domain c = Ret e /\ (e = None <-> domain_ok t).
Proof.
  intros E. eexists. split; [by apply domain_rule_run|]. rewrite <- domain_pattern_spec.
  destruct (t === "") eqn:Et.
  - apply seqb_eq in Et as ->. split; [done|]. vm_compute. done.
  - by destruct (test domain_pattern t).
Qed.

(** ** The forms of the component *)

Definition general_ok (g : form general_field) : Prop :=
  (exists t, fc_value (g Domain) = JStr t) /\ checked general_rule g Domain /\
  forall k, k <> Domain -> fc_disabled (g k) = true.

Definition general_state_ok (s : GeneralSettingsComponent) : Prop :=
  match general_settings_form_group s with Some g => general_ok g | None => True end.

Definition is_update (c : call) : bool := match c with CUpdateGeneral _ => true | _ => false end.
Definition no_update (e : effect call page) : Prop := only (fun c => is_update c = false) e.

Definition general_reads (k : general_field) : list general_field := [].
Lemma general_rule_reads g g' k c c' :
  (forall j, j ∈ general_reads k -> control_of (g j) = control_of (g' j)) ->
  value c = value c' -> touched c = touched c' -> general_rule g k c = general_rule g' k c'.
Proof.
  intros _ Hv Ht. destruct c as [v t st], c' as [v' t' st']; simpl in *; subst. destruct k; reflexivity.
Qed.
Lemma general_reads_others k : k ∉ general_reads k.
Proof. apply not_elem_of_nil. Qed.

(** The verdict on the domain reads the domain only. *)
Lemma domain_checked g g' : g' Domain = g Domain -> checked general_rule g Domain -> checked general_rule g' Domain.
Proof.
  intros E. apply (checked_agree general_rule general_reads general_rule_reads); [done|].
  intros i Hi. by apply not_elem_of_nil in Hi.
Qed.

Lemma setValue_address g k v : k <> Domain -> fc_disabled (g k) = true ->
  setValue general_rule k v g = Ret (put k (with_value v (g k)) g).
Proof. intros Hk Hd. unfold setValue, updateValueAndValidity. rewrite put_same. simpl. by rewrite Hd. Qed.

Lemma controller_values_run c g : general_ok g -> exists g', controller_values c g = Ret g' /\ general_ok g' /\ g' Domain = g Domain.
Proof.
  intros (Hv & Hc & Hd). unfold controller_values.
  rewrite setValue_address by (done || by apply Hd). simpl obind.
  rewrite setValue_address by (done || (unfold disable_control, put; simpl; by apply Hd)). simpl obind.
  rewrite setValue_address by (done || (unfold disable_control, put; simpl; by apply Hd)). simpl obind.
  eexists. split; [done|]. split; [split_and!|done]; [exact Hv | by apply (domain_checked g) |].
  intros [] Hk; try done; unfold disable_control, put; simpl; done.
Qed.

Lemma new_general_ok x : exists g, new_general_form x = Ret g /\ general_ok g.
Proof.
  assert (Hop := refreshes_update general_rule general_reads general_rule_reads general_reads_others).
  assert (Hv : forall k, exists t, fc_value (initial_general x k) = JStr t).
  { intros k. unfold initial_general, raw_field, text_or. destruct k; by eexists. }
  destruct (each_returns general_rule (updateValueAndValidity general_rule) general_names (initial_general x)
    (fun _ v => exists t, v = JStr t) Hop) as [g E]; [|exact Hv|].
  { intros k h Hh. apply update_returns. destruct k; [|by exists None..]. destruct (Hh Domain) as [t Et].
    destruct (domain_rule h (control_of (h Domain)) t Et) as (e & Ee & _). by exists e. }
  exists (lock_addresses g). unfold new_general_form, new_group. rewrite E. split; [done|].
  assert (Hord : ordered general_reads general_names) by (repeat split; set_solver).
  split_and!.
  - destruct (Hv Domain) as [t Et]. exists t. rewrite <- Et. exact (each_values general_rule _ _ _ _ Hop E Domain).
  - apply (domain_checked g); [done|].
    apply (each_checked general_rule general_reads general_rule_reads _ _ _ _ Hop Hord E). left.
  - intros [] Hk; try done; reflexivity.
Qed.

Lemma disable_general_ok g : general_ok g -> general_ok (disable g).
Proof. intros (Hv & _ & _). split_and!; [exact Hv | by intros ? | done]. Qed.
Lemma lock_domain_ok g : general_ok g -> general_ok (disable_control Domain g).
Proof.
  intros (Hv & _ & Hd). split_and!; [exact Hv | by intros ? |].
  intros k Hk. unfold disable_control. rewrite put_other by done. by apply Hd.
Qed.

Lemma domain_update_ok g h : general_ok g -> (forall j, j <> Domain -> h j = g j) ->
  (exists t, fc_value (h Domain) = JStr t) ->
  exists g', updateValueAndValidity general_rule Domain h = Ret g' /\ general_ok g'.
Proof.
  intros (_ & _ & Hd) Ho [t Et].
  destruct (domain_rule h (control_of (h Domain)) t Et) as (e & Ee & _).
  destruct (update_returns general_rule Domain h) as [g' E']; [by exists e|]. exists g'. split; [done|].
  destruct (update_same general_rule _ _ _ E') as (V & _ & _). split_and!.
  - exists t. by rewrite V.
  - by apply (update_checked general_rule general_reads general_rule_reads general_reads_others Domain h).
  - intros k Hk. rewrite (update_other general_rule _ _ _ _ E' Hk), Ho by done. by apply Hd.
Qed.

Lemma enable_domain_ok g : general_ok g -> exists g', enable_control general_rule Domain g = Ret g' /\ general_ok g'.
Proof.
  intros Hg. apply (domain_update_ok g); [done | intros j Hj; by apply put_other|]. rewrite put_same. apply Hg.
Qed.
Lemma type_domain_ok t g : general_ok g -> exists g', type_in general_rule Domain (JStr t) g = Ret g' /\ general_ok g'.
Proof.
  intros Hg. unfold type_in, setValue. apply (domain_update_ok g); [done | intros j Hj; by rewrite !put_other|].
  rewrite put_same. by exists t.
Qed.

Lemma touch_general_ok k g : general_ok g -> general_ok (markAsTouched k g).
Proof.
  intros ([t Et] & Hc & Hd). assert (Hf := markAsTouched_fields k g). destruct (Hf Domain) as (E1 & E2 & E3).
  split_and!.
  - exists t. by rewrite E1.
  - intros Hdd. rewrite E2 in Hdd. rewrite E3, <- (Hc Hdd).
    by rewrite !(domain_rule_run _ _ t) by (simpl; congruence).
  - intros j Hj. destruct (Hf j) as (_ & -> & _). by apply Hd.
Qed.

(** ** The turns keep the form, and a locked domain *)

Section Turns.
(** Whether the domain is known to be locked. *)
Variable locked : bool.

Definition form_inv (g : form general_field) : Prop :=
  general_ok g /\ (locked = true -> fc_disabled (g Domain) = true).
Definition inv (s : GeneralSettingsComponent) : Prop :=
  match general_settings_form_group s with Some g => form_inv g | None => locked = false end.

Lemma on_general_run op s g g' : general_settings_form_group s = Some g -> op g = Ret g' ->
  on_form op s = (Ret tt, with_form (Some g') s, []).
Proof. intros E Eop. unfold on_form, the_form, get, bind, gets, deref, lift, modify. rewrite E. cbn. by rewrite Eop. Qed.

Lemma safe_on_general op : (forall g, form_inv g -> exists g', op g = Ret g' /\ form_inv g') -> safe inv no_update (on_form op).
Proof.
  intros Hop s Hs. destruct (general_settings_form_group s) as [g|] eqn:E.
  - unfold inv in Hs. rewrite E in Hs. destruct (Hop g Hs) as (g' & Eg & Hg').
    rewrite (on_general_run op s g g' E Eg). by split; [|constructor].
  - unfold on_form, the_form, get, bind, gets, deref. rewrite E. by split.
Qed.
Lemma safe_on_any op : (forall g, form_inv g -> exists g', op g = Ret g' /\ form_inv g') -> safe inv no_update (on_form_if_any op).
Proof. intros Hop. unfold on_form_if_any, get. safe_auto. by apply safe_on_general. Qed.

Lemma keeps_disable g : form_inv g -> exists g', Ret (disable g) = Ret g' /\ form_inv g'.
Proof. intros [Hg Hl]. eexists. split; [done|]. split; [by apply disable_general_ok | done]. Qed.
Lemma keeps_lock g : form_inv g -> exists g', Ret (disable_control Domain g) = Ret g' /\ form_inv g'.
Proof. intros [Hg Hl]. eexists. split; [done|]. split; [by apply lock_domain_ok | done]. Qed.
Lemma keeps_touch k g : form_inv g -> exists g', Ret (markAsTouched k g) = Ret g' /\ form_inv g'.
Proof.
  intros [Hg Hl]. eexists. split; [done|]. split; [by apply touch_general_ok|]. intros H.
  destruct (markAsTouched_fields k g Domain) as (_ & -> & _). auto.
Qed.
Lemma keeps_controller c g : form_inv g -> exists g', controller_values c g = Ret g' /\ form_inv g'.
Proof.
  intros [Hg Hl]. destruct (controller_values_run c g Hg) as (g' & E & H1 & H2). exists g'. split; [done|].
  split; [done|]. by rewrite H2.
Qed.

Lemma safe_check_general : safe inv no_update check_job_.
Proof. unfold check_job_, api_job_get_, get. safe_auto. intros ? [= <-]. done. Qed.

Lemma safe_gather : safe inv no_update gather_controller_facts_.
Proof. unfold gather_controller_facts_, get. safe_auto. apply safe_on_any, keeps_controller. Qed.

Lemma safe_init_general : locked = false -> safe inv no_update initialize_general_settings_form_group_.
Proof.
  intros Hl s Hs. unfold initialize_general_settings_form_group_, get. rewrite (bind_run_silent _ _ s s s) by done.
  destruct (new_general_ok (the_settings (general_settings s))) as (g & E & Hg). rewrite E. split; [|done].
  split; [done|]. by rewrite Hl.
Qed.

Lemma no_update_other d : no_update (Page d).
Proof. by intros ?. Qed.
Lemma no_update_job j : no_update (Subscribe (CJobGet j)).
Proof. by intros ? [= <-]. Qed.
Lemma no_update_console j : no_update (Subscribe (DConsole j)).
Proof. by intros ? [= <-]. Qed.
Lemma inv_form s s' : general_settings_form_group s' = general_settings_form_group s -> inv s -> inv s'.
Proof. unfold inv. by intros ->. Qed.
#[local] Hint Resolve safe_check_general safe_gather safe_init_general no_update_other no_update_job no_update_console
  safe_on_general safe_on_any keeps_disable keeps_lock keeps_touch : handler.
#[local] Hint Extern 1 (inv (_ _)) => eapply inv_form; [|eassumption]; reflexivity : handler.

(** The turns that make a new form or unlock the domain. *)
Definition unlocks (l : label event Ans) : bool :=
  match l with
  | Event NgOnInit | Answered (DConsole _) _ => true
  | Event (Bind ch) => notUndefNull (ch_general_settings ch)
  | _ => false
  end.

Lemma safe_settings_changed : locked = false -> safe inv no_update settings_changed.
Proof. intros Hl. unfold settings_changed, get. safe_auto; auto with handler. Qed.

Lemma safe_general_turn l : l <> Event SaveClick -> (locked = true -> unlocks l = false) -> safe inv no_update (react l).
Proof.
  intros Hs Hu. destruct l as [e|c a]; simpl.
  - destruct e; simpl in *; try done.
    + destruct locked eqn:El; [by specialize (Hu eq_refl)|].
      unfold ngOnInit, websocket_get_socket_on_kit_status_change. safe_auto; auto with handler.
    + apply safe_bind; [apply safe_modify; intros ? ?; auto with handler|]. intros _. unfold ngOnChanges, get.
      safe_auto; auto with handler.
      apply safe_settings_changed. destruct locked eqn:El; [|done]. specialize (Hu eq_refl). congruence.
    + unfold kit_status_change. safe_auto; auto with handler.
    + intros s Hi. unfold get. rewrite (bind_run_silent _ _ s s s) by done.
      destruct (general_settings_form_group s) as [g|] eqn:E; [|by split].
      destruct (fc_disabled (g Domain)) eqn:Ed; [by split|]. unfold inv in Hi. rewrite E in Hi. destruct Hi as [Hg Hl].
      destruct (type_domain_ok t g Hg) as (g' & E' & Hg'). cbn [when negb]. rewrite (on_general_run _ s g g' E E').
      split; [|constructor]. split; [done|]. intros H. specialize (Hl H). congruence.
    + unfold get. safe_auto. 
    + unfold get, click_button_open_console, open_server_stdout_dialog_window_, get. safe_auto; auto with handler.
  - destruct c; simpl in *.
    + destruct a as [a|e]; simpl; [|apply only_on_error]. unfold get. safe_auto; auto with handler.
      intros. destruct (general_settings _) as [[|]|]; auto with handler.
    + destruct a as [a|e]; simpl; [|apply only_on_error_message]. unfold get. safe_auto; auto with handler.
    + destruct locked eqn:El; [by specialize (Hu eq_refl)|]. unfold job_deleted, api_job_get_, get.
      safe_auto; auto with handler. apply safe_on_general. intros g [Hg _].
      destruct (enable_domain_ok g Hg) as (g' & E & Hg'). exists g'. split; [done|]. split; [done|]. by rewrite El.
Qed.
End Turns.

Abbreviation any := (fun _ : label event Ans => True).

Lemma save_run_general s : save_enabled s = true ->
  exists g, general_settings_form_group s = Some g /\ group_invalid general_names g = false /\ job_running s = false /\
    react (Event SaveClick) s =
      (Ret tt, with_settings (Some (Settings (general_settings_of g))) s, [Subscribe (CUpdateGeneral (general_settings_of g))]).
Proof.
  intros Es. simpl. unfold get. rewrite (bind_run_silent _ _ s s s), Es by done. unfold save_enabled in Es. cbn [when].
  destruct (general_settings_form_group s) as [g|] eqn:E; [|done]. rewrite !andb_true_iff, !negb_true_iff in Es.
  destruct Es as [[H1 _] H2]. exists g. split_and!; [done|done|done|].
  unfold click_button_save, the_form, get, bind, gets, deref, ret. by rewrite E.
Qed.

Lemma general_trace tr w : trace any tr w -> inv false (component w).
Proof.
  intros Htr. apply (trace_invariant any (inv false) (fun _ _ => True)) with (tr := tr); [done| |done].
  intros l _ s Hs. split; [|by apply Forall_true].
  destruct l as [e|c a]; [destruct e|]; try (by apply safe_general_turn).
  destruct (save_enabled s) eqn:Es.
  - destruct (save_run_general s Es) as (g & _ & _ & _ & E). rewrite E. exact Hs.
  - simpl. unfold get. by rewrite (bind_run_silent _ _ s s s), Es by done.
Qed.

(** The general settings are posted by the save button only, while no job is
    known to run; the addresses of the controller stand in locked fields then,
    and a domain that is not locked has 3 to 40 lowercase letters, digits and
    minus signs and starts with a letter: periods, which the message of the
    field allows, are refused, and a minus sign at the end, which it forbids, is
    not. *)
Theorem saved_domain_is_valid tr w l w' g :
  trace any tr w -> step w l w' -> Subscribe (CUpdateGeneral g) ∈ made l w ->
  l = Event SaveClick /\ job_running (component w) = false /\
  exists f d, general_settings_form_group (component w) = Some f /\ (forall k, k <> Domain -> fc_disabled (f k) = true) /\
    gs_domain g = Some d /\ (fc_disabled (f Domain) = false -> domain_ok d).
Proof.
  intros Htr _ Hin. assert (Hs := general_trace tr w Htr).
  destruct (decide_rel (fun b c : bool => b = c) (match l with Event SaveClick => true | _ => false end) true) as [El|El].
  - destruct l as [[]|]; try done. destruct (save_enabled (component w)) eqn:Es.
    + destruct (save_run_general (component w) Es) as (f & Ef & Hv & Hr & E). unfold made in Hin. rewrite E in Hin.
      apply elem_of_cons in Hin as [[= ->]|?%not_elem_of_nil]; [|done].
      unfold inv in Hs. rewrite Ef in Hs. destruct Hs as [([d Ed] & Hc & Hd) _].
      split_and!; [done|done|]. exists f, d. split_and!; [done|done|unfold general_settings_of, general_text; simpl; by rewrite Ed|].
      intros Hf. destruct (domain_rule f (control_of (f Domain)) d Ed) as (e & Ee & He). apply He.
      specialize (Hc Hf). rewrite Ee in Hc. injection Hc as ->.
      destruct (fc_errors (f Domain)) eqn:E1; [|done]. unfold group_invalid in Hv. simpl in Hv.
      unfold field_invalid, field_status in Hv. by rewrite Hf, E1 in Hv.
    + unfold made in Hin. simpl in Hin. unfold get in Hin.
      rewrite (bind_run_silent _ _ _ (component w) (component w)), Es in Hin by done. by apply not_elem_of_nil in Hin.
  - exfalso. assert (Hne : l <> Event SaveClick) by (intros ->; done).
    destruct (safe_general_turn false l Hne (fun H => match H with eq_refl => I end) (component w) Hs) as [_ HF].
    rewrite Forall_forall in HF. by specialize (HF _ Hin _ eq_refl).
Qed.

(** C30: a domain that is locked, by a control plane that is deployed or by a job
    that was seen to run, is unlocked only when the page binds other settings,
    when the console reports that the job was deleted, or when the component
    starts: the end of the job and the kit status do not unlock it. *)
Theorem domain_stays_locked tr w l w' f f' :
  trace (K := general_settings_component) any tr w -> step (K := general_settings_component) w l w' ->
  general_settings_form_group (component w) = Some f -> fc_disabled (f Domain) = true ->
  general_settings_form_group (component w') = Some f' -> fc_disabled (f' Domain) = false ->
  l = Event NgOnInit \/ (exists ch, l = Event (Bind ch) /\ is_Some (ch_general_settings ch)) \/
  exists j, l = Answered (DConsole j) tt.
Proof.
  intros Htr Hstep Hf Hd Hf' Hd'. rewrite (step_component _ _ _ Hstep) in Hf'.
  destruct (unlocks l) eqn:Hu.
  - destruct l as [[]|[] a]; try done; simpl in Hu; [by left| |destruct a; right; right; by eexists].
    right. left. exists ch. split; [done|]. by destruct (ch_general_settings ch).
  - exfalso. assert (Hi : inv true (component w)).
    { assert (Hs := general_trace tr w Htr). unfold inv in *. rewrite Hf in *. split; [apply Hs | done]. }
    destruct (decide_rel (fun b c : bool => b = c) (match l with Event SaveClick => true | _ => false end) true) as [El|El].
    + destruct l as [[]|]; try done. destruct (save_enabled (component w)) eqn:Es.
      * destruct (save_run_general (component w) Es) as (g & _ & _ & _ & E). rewrite E in Hf'.
        change (general_settings_form_group (component w) = Some f') in Hf'. congruence.
      * simpl in Hf'. unfold get in Hf'. rewrite (bind_run_silent _ _ _ (component w) (component w)), Es in Hf' by done.
        change (general_settings_form_group (component w) = Some f') in Hf'. congruence.
    + assert (Hne : l <> Event SaveClick) by (intros ->; done).
      destruct (safe_general_turn true l Hne (fun _ => Hu) (component w) Hi) as [HI _].
      unfold inv in HI. rewrite Hf' in HI. destruct HI as [_ H]. specialize (H eq_refl). congruence.
Qed.

Definition witness_general_settings : GeneralSettingsClass :=
  {| gs__id := Some "1"; controller_interface := Some "10.0.0.5"; gs_netmask := Some "255.255.255.0";
     gs_gateway := Some "10.0.0.1"; gs_domain := Some "lan"; gs_job_id := Some "7"; gs_job_completed := None;
     gs_dhcp_range := None |}.

Lemma saved_domain_is_valid_witness : exists tr w g,
  trace any tr w /\ Subscribe (CUpdateGeneral g) ∈ made (Event SaveClick) w /\ gs_domain g = Some "kit-1-" /\
  job_running (component w) = false /\ domain_ok "kit-1-".
Proof.
  pose proof (trace_start any) as T.
  apply (trace_event _ _ _ NgOnInit) in T; [|exact I].
  apply (trace_event _ _ _ (TypeDomain "kit-1-")) in T; [|exact I].
  match type of T with trace _ ?tr ?w => set (w1 := w) in T; exists tr, w1 end.
  pose proof (step_event w1 SaveClick) as Hs. eexists. split; [exact T|].
  assert (Hin : Subscribe (CUpdateGeneral {| gs__id := None; controller_interface := Some "";
      gs_netmask := Some "255.255.255.0"; gs_gateway := Some ""; gs_domain := Some "kit-1-"; gs_job_id := None;
      gs_job_completed := None; gs_dhcp_range := None |}) ∈ made (Event SaveClick) w1) by (vm_compute; left).
  split; [exact Hin|]. split; [reflexivity|].
  destruct (saved_domain_is_valid _ _ _ _ _ T Hs Hin) as (_ & Hr & f & d & Hf & _ & Hd & Hok).
  injection Hd as <-. split; [exact Hr|]. apply Hok.
  assert (Hw : exists f0, general_settings_form_group (component w1) = Some f0 /\ fc_disabled (f0 Domain) = false)
    by (vm_compute; eexists; split; reflexivity).
  destruct Hw as (f0 & E0 & H0). congruence.
Defined.

Lemma domain_stays_locked_witness : exists tr w f,
  trace any tr w /\ general_settings_form_group (component w) = Some f /\ fc_disabled (f Domain) = true /\
  exists f', general_settings_form_group (component (after (Event (Bind {| ch_general_settings :=
      Some (Some (Settings witness_general_settings)); ch_kit_status := None; ch_controller_info := None |}))
      (pending w) w)) = Some f' /\ fc_disabled (f' Domain) = false.
Proof.
  pose proof (trace_start any) as T.
  apply (trace_event _ _ _ NgOnInit) in T; [|exact I].
  apply (trace_event _ _ _ (Bind {| ch_general_settings := None; ch_kit_status := Some deployed;
    ch_controller_info := None |})) in T; [|exact I].
  match type of T with trace _ ?tr ?w => set (w1 := w) in T; exists tr, w1 end.
  set (ch := {| ch_general_settings := Some (Some (Settings witness_general_settings)); ch_kit_status := None;
                ch_controller_info := None |}).
  assert (Hf : exists f, general_settings_form_group (component w1) = Some f /\ fc_disabled (f Domain) = true)
    by (vm_compute; eexists; split; reflexivity).
  assert (Hf' : exists f, general_settings_form_group (component (after (Event (Bind ch)) (pending w1) w1)) = Some f /\
      fc_disabled (f Domain) = false) by (vm_compute; eexists; split; reflexivity).
  destruct Hf as (f & Ef & Hd), Hf' as (f' & Ef' & Hd'). exists f. split_and!; [exact T|exact Ef|exact Hd|].
  destruct (domain_stays_locked _ _ _ _ _ _ T (step_event w1 (Bind ch)) Ef Hd Ef' Hd') as [H|[_|[j H]]];
    [discriminate H| |discriminate H].
  by exists f'.
Defined.
