(* ===== verification/SystemSettings.v ===== *)
(** modules/system-settings/system-settings.component.ts: the page that asks for
    the settings, binds them to its parts and takes what they emit. *)
From S2P Require Import Prelude Handler JsValue Runtime Data Api SettingsData GeneralSettings.

Definition SYSTEM_SETTINGS_TITLE : string := "System Settings".

Inductive call : Type := CGeneralSettings | CKitStatus | CControllerInfo | CKitSettings.
Definition Ans (c : call) : Type :=
  match c with
  | CGeneralSettings => answer (option GeneralSettingsClass)
  | CKitStatus => answer KitStatusClass
  | CControllerInfo => answer ControllerInfoClass
  | CKitSettings => answer (option PartialKitSettingsClass)
  end.
Inductive page : Type := .

Record SystemSettingsComponent := {
  general_settings : option general_input;
  kit_settings : option PartialKitSettingsClass;
  kit_status : KitStatusClass;
  controller_info : ControllerInfoClass;
  disable_add_kit_button : bool;
}.
Abbreviation M := (handler SystemSettingsComponent (effect call page)).

Definition with_general v s :=
  {| general_settings := v; kit_settings := kit_settings s; kit_status := kit_status s;
     controller_info := controller_info s; disable_add_kit_button := disable_add_kit_button s |}.
Definition with_kit_settings v s :=
  {| general_settings := general_settings s; kit_settings := v; kit_status := kit_status s;
     controller_info := controller_info s; disable_add_kit_button := disable_add_kit_button s |}.
Definition with_kit_status v s :=
  {| general_settings := general_settings s; kit_settings := kit_settings s; kit_status := v;
     controller_info := controller_info s; disable_add_kit_button := disable_add_kit_button s |}.
Definition with_controller_info v s :=
  {| general_settings := general_settings s; kit_settings := kit_settings s; kit_status := kit_status s;
     controller_info := v; disable_add_kit_button := disable_add_kit_button s |}.
Definition with_add_kit v s :=
  {| general_settings := general_settings s; kit_settings := kit_settings s; kit_status := kit_status s;
     controller_info := controller_info s; disable_add_kit_button := v |}.

Definition constructor : SystemSettingsComponent :=
  {| general_settings := Some EmptyObject; kit_settings := None; kit_status := empty_kit_status;
     controller_info := empty_controller_info; disable_add_kit_button := true |}.

Definition api_get_general_settings_ : M unit := emit (Subscribe CGeneralSettings).
Definition api_get_kit_status_ : M unit := emit (Subscribe CKitStatus).
Definition api_get_controller_info_ : M unit := emit (Subscribe CControllerInfo).
Definition api_get_kit_settings_ : M unit := emit (Subscribe CKitSettings).

Definition ngOnInit : M unit :=
  emit (SetTitle SYSTEM_SETTINGS_TITLE) ;;;
  api_get_general_settings_ ;;; api_get_kit_status_ ;;; api_get_controller_info_ ;;; api_get_kit_settings_.

(** The outputs of the parts. *)
Definition update_general_settings (value : option general_input) : M unit := modify (with_general value).
Definition update_kit_settings (value : option PartialKitSettingsClass) : M unit := modify (with_kit_settings value).
Definition update_add_kit_button (event : bool) : M unit := modify (with_add_kit event).

(** Bound to the kit tokens. *)
Definition check_is_gip (s : SystemSettingsComponent) : option bool := kit_settings s ≫= pk_is_gip.

Definition api_get_general_settings_answer (a : answer (option GeneralSettingsClass)) : M unit :=
  match a with
  | Next response => modify (with_general (Settings <$> response))
  | Error e => on_error_message "retrieving general settings" e
  end.
Definition api_get_kit_status_answer (a : answer KitStatusClass) : M unit :=
  match a with
  | Next response => modify (with_kit_status response)
  | Error e => on_error_message "retrieving kit status" e
  end.
Definition api_get_controller_info_answer (a : answer ControllerInfoClass) : M unit :=
  match a with
  | Next response => modify (with_controller_info response)
  | Error e => on_error "retrieving controller info" e
  end.
Definition api_get_kit_settings_answer (a : answer (option PartialKitSettingsClass)) : M unit :=
  match a with
  | Next response => modify (with_kit_settings response) ;;; modify (with_add_kit false)
  | Error e => on_error_message "retrieving kit settings" e
  end.

Inductive event : Type :=
| NgOnInit
| GeneralEmits (value : option general_input)
| KitEmits (value : option PartialKitSettingsClass)
| KitEmitsDisable (b : bool).

Definition on_event (e : event) : M unit :=
  match e with
  | NgOnInit => ngOnInit
  | GeneralEmits value => update_general_settings value
  | KitEmits value => update_kit_settings value
  | KitEmitsDisable b => update_add_kit_button b
  end.
Definition on_answer (c : call) : Ans c -> M unit :=
  match c with
  | CGeneralSettings => api_get_general_settings_answer
  | CKitStatus => api_get_kit_status_answer
  | CControllerInfo => api_get_controller_info_answer
  | CKitSettings => api_get_kit_settings_answer
  end.

#[export] Instance system_settings_page : Component SystemSettingsComponent call page event Ans :=
  {| initial := constructor; Runtime.on_event := on_event; Runtime.on_answer := on_answer |}.
