(* ===== verification/VMWareSettings.v ===== *)
(** modules/system-settings/components/vmware-settings: the connection to the
    hypervisor, which is tested and saved by separate requests.

    The group has a validator of its own, that the password is confirmed.  Every
    change of one of the two runs it again: the password notifies the
    confirmation and the confirmation the group. *)
From S2P Require Import Prelude Handler JsValue Runtime Data Api SettingsData Messages Regex Validators Fields.

Inductive vm_field : Type :=
| IpAddress | Username | Password | PasswordConfirm | Vcenter | Folder | Datacenter | Cluster | Portgroup | Datastore.
#[export] Instance vm_field_eq : EqDecision vm_field.
Proof. solve_decision. Defined.
Definition vm_names : list vm_field :=
  [IpAddress; Username; Password; PasswordConfirm; Vcenter; Folder; Datacenter; Cluster; Portgroup; Datastore].

(** [VMWARE_SETTINGS_VALIDATOR_CONFIGS] *)
Definition vmware_ip_address : list ValidatorObjectInterface :=
  [plain "required" (Text "IP Address is required.") None;
   plain "pattern" (Text "You must enter a valid IP address.") (Some IP_CONSTRAINT)].
Definition vmware_username : list ValidatorObjectInterface := [plain "required" (Text "Username is required.") None].
Definition vmware_password : list ValidatorObjectInterface := [plain "required" (Text "Password is a required.") None].

Definition vm_rule (g : form vm_field) (k : vm_field) (c : AbstractControl) : outcome (option validation_error) :=
  match k with
  | IpAddress => validateFromArray vmware_ip_address None c
  | Username => validateFromArray vmware_username None c
  | Password => validateFromArray vmware_password None c
  | _ => Ret None
  end.

(** [ConfirmPasswordValidator.match('password', 'password_confirm')] *)
Definition match_ (g : form vm_field) : bool := strict_eq (fc_value (g Password)) (fc_value (g PasswordConfirm)).
Definition vm_valid (g : form vm_field) : bool := group_valid vm_names g && match_ g.

Definition text_or (v : jsval) (t : option string) : jsval := match t with Some t => JStr t | None => v end.

Definition initial_vm (x : option VMWareSettingsClass) : form vm_field := fun k =>
  raw_field match k with
            | IpAddress => text_or (JStr "") (x ≫= vm_ip_address)
            | Username => text_or (JStr "") (x ≫= username)
            | Password | PasswordConfirm => text_or (JStr "") (x ≫= vm_password)
            | Vcenter => JBool (default false (x ≫= vcenter))
            | Folder => text_or JNull (x ≫= folder)
            | Datacenter => text_or JNull (x ≫= datacenter)
            | Cluster => text_or JNull (x ≫= cluster)
            | Portgroup => text_or JNull (x ≫= portgroup)
            | Datastore => text_or JNull (x ≫= datastore)
            end.

Definition vm_text (g : form vm_field) (k : vm_field) : option string :=
  match fc_value (g k) with JStr t => Some t | _ => None end.

(** [getRawValue()]; the service deletes the confirmation from it. *)
Definition vm_settings_of (g : form vm_field) : VMWareSettingsClass :=
  {| vm__id := None; vm_ip_address := vm_text g IpAddress; username := vm_text g Username;
     vm_password := vm_text g Password; datastore := vm_text g Datastore;
     vcenter := match fc_value (g Vcenter) with JBool b => Some b | _ => None end;
     folder := vm_text g Folder; datacenter := vm_text g Datacenter; portgroup := vm_text g Portgroup;
     cluster := vm_text g Cluster |}.

(** ** The component *)

(** A test carries whether its success is shown and the settings the form is made
    from again. *)
Inductive call : Type :=
| CGetVmware
| CSaveVmware (payload : VMWareSettingsClass)
| CTestVmware (display_message : bool) (vmware_settings : option VMWareSettingsClass) (payload : VMWareSettingsClass).
Definition Ans (c : call) : Type :=
  match c with
  | CGetVmware => answer VMWareSettingsClass
  | CSaveVmware _ => answer bool
  | CTestVmware _ _ _ => answer VMWareDataClass
  end.

Inductive page : Type := DetectChanges.

Record VMWareSettingsComponent := {
  vmware_settings_form_group : option (form vm_field);
  isTestVmwareSettingsBtnEnabled : bool;
  isSaveVmwareSettingsBtnEnabled : bool;
  vmware_data : VMWareDataClass;
}.
Abbreviation M := (handler VMWareSettingsComponent (effect call page)).

Definition with_form v s :=
  {| vmware_settings_form_group := v; isTestVmwareSettingsBtnEnabled := isTestVmwareSettingsBtnEnabled s;
     isSaveVmwareSettingsBtnEnabled := isSaveVmwareSettingsBtnEnabled s; vmware_data := vmware_data s |}.
Definition with_test v s :=
  {| vmware_settings_form_group := vmware_settings_form_group s; isTestVmwareSettingsBtnEnabled := v;
     isSaveVmwareSettingsBtnEnabled := isSaveVmwareSettingsBtnEnabled s; vmware_data := vmware_data s |}.
Definition with_save v s :=
  {| vmware_settings_form_group := vmware_settings_form_group s;
     isTestVmwareSettingsBtnEnabled := isTestVmwareSettingsBtnEnabled s; isSaveVmwareSettingsBtnEnabled := v;
     vmware_data := vmware_data s |}.
Definition with_data v s :=
  {| vmware_settings_form_group := vmware_settings_form_group s;
     isTestVmwareSettingsBtnEnabled := isTestVmwareSettingsBtnEnabled s;
     isSaveVmwareSettingsBtnEnabled := isSaveVmwareSettingsBtnEnabled s; vmware_data := v |}.

Definition constructor : VMWareSettingsComponent :=
  {| vmware_settings_form_group := None; isTestVmwareSettingsBtnEnabled := true; isSaveVmwareSettingsBtnEnabled := true;
     vmware_data := {| portgroups := None; datacenters := None; datastores := None; folders := None; clusters := None |} |}.

Definition get : M VMWareSettingsComponent := gets (fun s => s).
Definition the_form : M (form vm_field) := s <- get ;; deref (vmware_settings_form_group s).
Definition on_form (op : form vm_field -> outcome (form vm_field)) : M unit :=
  g <- the_form ;; g' <- lift (op g) ;; modify (with_form (Some g')).

Definition is_wmware_checked (s : VMWareSettingsComponent) : bool :=
  match vmware_settings_form_group s with
  | Some g => if notUndefNull (match fc_value (g Vcenter) with JUndefined | JNull => None | v => Some v end)
              then js_truthy (fc_value (g Vcenter)) else false
  | None => false
  end.

(** The subscriptions of the new form to its two passwords are described above. *)
Definition initialize_vmware_settings_form_group_ (x : option VMWareSettingsClass) : M unit :=
  g <- lift (new_group vm_rule vm_names (initial_vm x)) ;; modify (with_form (Some g)).

Definition selects : list vm_field := [Folder; Datacenter; Cluster; Portgroup; Datastore].

Definition input_control_ (disable : bool) : M unit :=
  _ <- the_form ;;
  emit (Page DetectChanges) ;;;
  on_form (if disable then (fun g => Ret (fold_left (fun g k => disable_control k g) selects g))
           else enable vm_rule selects).

(** [control.reset()] *)
Definition reset (k : vm_field) (g : form vm_field) : outcome (form vm_field) :=
  setValue vm_rule k JNull (put k (with_marks false false (g k)) g).
Definition reset_if_empty (k : vm_field) (g : form vm_field) : outcome (form vm_field) :=
  match fc_value (g k) with JUndefined | JNull => reset k g | _ => Ret g end.
Definition input_control_reset_ : M unit := on_form (each reset_if_empty selects).

Definition construct_post_validation_error_message_ : list (string * jsval) -> outcome string :=
  Messages.construct_post_validation_error_message_.

Definition api_get_vmware_settings_ : M unit := emit (Subscribe CGetVmware).
Definition api_save_vmware_settings_ : M unit := g <- the_form ;; emit (Subscribe (CSaveVmware (vm_settings_of g))).
Definition api_test_vmware_settings_ (display_message : bool) (x : option VMWareSettingsClass) : M unit :=
  g <- the_form ;; emit (Subscribe (CTestVmware display_message x (vm_settings_of g))).

Definition ngOnInit : M unit := api_get_vmware_settings_.
Definition click_button_test_connection : M unit :=
  modify (with_test false) ;;;
  displaySnackBar "Testing VMWare settings please wait." None ;;;
  api_test_vmware_settings_ true None.
Definition click_button_save : M unit :=
  modify (with_save false) ;;;
  displaySnackBar "Saving VMWare settings please wait." None ;;;
  api_save_vmware_settings_.

Definition api_get_vmware_settings_answer (a : answer VMWareSettingsClass) : M unit :=
  match a with
  | Next response =>
      initialize_vmware_settings_form_group_ (Some response) ;;;
      input_control_ true ;;;
      when (notUndefNull (vm_ip_address response) && notUndefNull (username response) && notUndefNull (vm_password response))
        (api_test_vmware_settings_ false (Some response))
  | Error e => on_error_message "retrieving vmware settings" e
  end.

(** What both requests show of an error of the server. *)
Definition show_error (message : string) (e : api_error) : M unit :=
  match e with
  | ValidationErrorClass _ messages => show_validation_errors messages
  | PostValidationClass v => show_post_validation v
  | _ => on_error message e
  end.

Definition api_save_vmware_settings_answer (vmware_settings : VMWareSettingsClass) (a : answer bool) : M unit :=
  match a with
  | Next _ =>
      initialize_vmware_settings_form_group_ (Some vmware_settings) ;;;
      modify (with_save true) ;;;
      displaySnackBar "VMWare settings saved successfully." None
  | Error e => modify (with_save true) ;;; show_error "saving esxi settings" e
  end.

Definition api_test_vmware_settings_answer (display_message : bool) (vmware_settings : option VMWareSettingsClass)
    (a : answer VMWareDataClass) : M unit :=
  match a with
  | Next response =>
      modify (with_test true) ;;;
      modify (with_data response) ;;;
      when display_message (displaySnackBar "VMWare settings tested successfully." None) ;;;
      (match vmware_settings with
       | Some x => initialize_vmware_settings_form_group_ (Some x)
       | None => input_control_reset_
       end) ;;;
      input_control_ false
  | Error e =>
      modify (with_test true) ;;;
      match e with
      | ErrorMessageClass m => displaySnackBar (js_to_string m) (Some MAT_SNACKBAR_CONFIGURATION_60000_DUR)
      | _ => show_error "testing esxi settings" e
      end
  end.

(** ** The turns *)

Inductive event : Type :=
| NgOnInit
| TypeText (k : vm_field) (t : string)
| Select (k : vm_field) (t : string)
| Check (b : bool)
| TestClick
| SaveClick.

Definition typed_in (k : vm_field) : bool :=
  match k with IpAddress | Username | Password | PasswordConfirm => true | _ => false end.
Definition is_select (k : vm_field) : bool :=
  match k with Folder | Datacenter | Cluster | Portgroup | Datastore => true | _ => false end.

Definition user_sets (k : vm_field) (v : jsval) : M unit :=
  s <- get ;;
  match vmware_settings_form_group s with
  | Some g => when (negb (fc_disabled (g k))) (on_form (type_in vm_rule k v))
  | None => ret tt
  end.

Definition test_enabled (s : VMWareSettingsComponent) : bool :=
  match vmware_settings_form_group s with Some g => vm_valid g && isTestVmwareSettingsBtnEnabled s | None => false end.
Definition save_enabled (s : VMWareSettingsComponent) : bool :=
  match vmware_settings_form_group s with
  | Some g => vm_valid g && group_dirty vm_names g && isSaveVmwareSettingsBtnEnabled s
  | None => false
  end.

Definition on_event (e : event) : M unit :=
  match e with
  | NgOnInit => ngOnInit
  | TypeText k t => when (typed_in k) (user_sets k (JStr t))
  | Select k t => when (is_select k) (user_sets k (JStr t))
  | Check b => user_sets Vcenter (JBool b)
  | TestClick => s <- get ;; when (test_enabled s) click_button_test_connection
  | SaveClick => s <- get ;; when (save_enabled s) click_button_save
  end.
Definition on_answer (c : call) : Ans c -> M unit :=
  match c with
  | CGetVmware => api_get_vmware_settings_answer
  | CSaveVmware payload => api_save_vmware_settings_answer payload
  | CTestVmware d x _ => api_test_vmware_settings_answer d x
  end.

#[export] Instance vmware_settings : Component VMWareSettingsComponent call page event Ans :=
  {| initial := constructor; Runtime.on_event := on_event; Runtime.on_answer := on_answer |}.

(** ** The forms of the component *)

Definition vm_reads (k : vm_field) : list vm_field := [].
Lemma vm_rule_reads g g' k c c' :
  (forall j, j ∈ vm_reads k -> control_of (g j) = control_of (g' j)) ->
  value c = value c' -> touched c = touched c' -> vm_rule g k c = vm_rule g' k c'.
Proof.
  intros _ Hv Ht. destruct c as [v t st], c' as [v' t' st']; simpl in *; subst. destruct k; reflexivity.
Qed.
Lemma vm_reads_others k : k ∉ vm_reads k.
Proof. apply not_elem_of_nil. Qed.
Lemma in_vm_names k : k ∈ vm_names.
Proof. destruct k; set_solver. Qed.
Lemma vm_ordered : ordered vm_reads vm_names.
Proof. repeat split; set_solver. Qed.

Definition vm_value_ok (k : vm_field) (v : jsval) : Prop := typed_in k = true -> exists t, v = JStr t.

Definition vm_ok (g : form vm_field) : Prop :=
  (forall k, vm_value_ok k (fc_value (g k))) /\ (forall k, checked vm_rule g k) /\
  (forall k, typed_in k = true -> fc_disabled (g k) = false).

(** What an accepted value is. *)
Definition vm_accepts (k : vm_field) (t : string) : Prop :=
  match k with
  | IpAddress => test IP_CONSTRAINT t = true
  | Username | Password => t <> ""
  | _ => True
  end.

Lemma vm_rule_texts g k c : vm_value_ok k (value c) ->
  exists e, vm_rule g k c = Ret e /\ (e = None -> forall t, value c = JStr t -> vm_accepts k t).
Proof.
  intros Hv. destruct k; try (by exists None); destruct (Hv eq_refl) as [t E]; unfold vm_rule.
  - assert (E1 := required_one (Text "IP Address is required.") None c t E).
    assert (E2 := pattern_text (Text "You must enter a valid IP address.") IP_CONSTRAINT c t E).
    eexists. split; [unfold vmware_ip_address; by erewrite validate_two; [|exact E1|exact E2]|].
    destruct (t === "") eqn:Et; cbn [orb]; [done|]. destruct (test IP_CONSTRAINT t) eqn:Ep; [|done].
    intros _ u Hu. rewrite E in Hu. injection Hu as <-. exact Ep.
  - eexists. split; [by apply validate_required|]. destruct (t === "") eqn:Et; [done|]. apply seqb_neq in Et.
    intros _ u Hu. rewrite E in Hu. injection Hu as <-. exact Et.
  - eexists. split; [by apply validate_required|]. destruct (t === "") eqn:Et; [done|]. apply seqb_neq in Et.
    intros _ u Hu. rewrite E in Hu. injection Hu as <-. exact Et.
Qed.

(** An operation on [k] that leaves its verdict up to date. *)
Lemma vm_changed k g g2 : vm_ok g -> (forall j, j <> k -> g2 j = g j) -> vm_value_ok k (fc_value (g2 k)) ->
  (typed_in k = true -> fc_disabled (g2 k) = false) -> checked vm_rule g2 k -> vm_ok g2.
Proof.
  intros (Hv & Hc & Hd) Ho Hvk Hdk Hk. split_and!; intros j; destruct (decide (j = k)) as [->|Hj]; try done;
    try (rewrite Ho by done; auto).
  apply (checked_agree vm_rule vm_reads vm_rule_reads g); [by apply Ho | |done]. intros i Hi. by apply not_elem_of_nil in Hi.
Qed.

Lemma vm_update k g h : vm_ok g -> (forall j, j <> k -> h j = g j) -> vm_value_ok k (fc_value (h k)) ->
  (typed_in k = true -> fc_disabled (h k) = false) ->
  exists g', updateValueAndValidity vm_rule k h = Ret g' /\ vm_ok g'.
Proof.
  intros Hg Ho Hv Hd. destruct (vm_rule_texts h k (control_of (h k)) Hv) as (e & Ee & _).
  destruct (update_returns vm_rule k h) as [g' E]; [by exists e|]. exists g'. split; [done|].
  destruct (update_same vm_rule _ _ _ E) as (V & D & _).
  apply (vm_changed k g); [done| |by rewrite V|by rewrite D|by apply (update_checked vm_rule vm_reads vm_rule_reads vm_reads_others k h)].
  intros j Hj. by rewrite (update_other vm_rule _ _ _ _ E Hj), Ho.
Qed.

Lemma vm_type k v g : vm_ok g -> vm_value_ok k v -> exists g', type_in vm_rule k v g = Ret g' /\ vm_ok g'.
Proof.
  intros Hg Hv. unfold type_in, setValue. apply (vm_update k g); [done|intros j Hj; by rewrite !put_other|by rewrite put_same|].
  rewrite !put_same. simpl. apply Hg.
Qed.

Lemma vm_enable k g : vm_ok g -> exists g', enable_control vm_rule k g = Ret g' /\ vm_ok g'.
Proof.
  intros Hg. apply (vm_update k g); [done|intros j Hj; by rewrite put_other|rewrite put_same; apply Hg|by rewrite put_same].
Qed.

Lemma vm_reset_if_empty k g : is_select k = true -> vm_ok g -> exists g', reset_if_empty k g = Ret g' /\ vm_ok g'.
Proof.
  intros Hk Hg. unfold reset_if_empty. assert (Ht : typed_in k = false) by (by destruct k).
  assert (Hr : exists g', reset k g = Ret g' /\ vm_ok g').
  { unfold reset, setValue. apply (vm_update k g); [done|intros j Hj; by rewrite !put_other| |]; intros H; congruence. }
  destruct (fc_value (g k)); try done; by exists g.
Qed.

Lemma vm_disable k g : is_select k = true -> vm_ok g -> vm_ok (disable_control k g).
Proof.
  intros Hk Hg. assert (Ht : typed_in k = false) by (by destruct k). unfold disable_control.
  apply (vm_changed k g); [done|intros j Hj; by rewrite put_other| | |].
  - intros H. congruence.
  - intros H. congruence.
  - intros H. by rewrite put_same in H.
Qed.

(** One operation after the other. *)
Lemma vm_each op l g : (forall k g, k ∈ l -> vm_ok g -> exists g', op k g = Ret g' /\ vm_ok g') -> vm_ok g ->
  exists g', each op l g = Ret g' /\ vm_ok g'.
Proof.
  revert g. induction l as [|k l IH]; intros g Hop Hg; [by exists g|]. simpl.
  destruct (Hop k g) as (g1 & E1 & H1); [by left|done|]. rewrite E1. simpl. apply IH; [|done].
  intros j h Hj. apply Hop. by right.
Qed.

Lemma new_vm_ok x : exists g, new_group vm_rule vm_names (initial_vm x) = Ret g /\ vm_ok g.
Proof.
  assert (Hop := refreshes_update vm_rule vm_reads vm_rule_reads vm_reads_others).
  assert (Hv : forall k, vm_value_ok k (fc_value (initial_vm x k))).
  { intros k Hk. unfold initial_vm, raw_field. destruct k; try done; simpl; destruct (_ ≫= _); by eexists. }
  destruct (each_returns vm_rule (updateValueAndValidity vm_rule) vm_names (initial_vm x) vm_value_ok Hop) as [g E]; [|done|].
  { intros k h Hh. apply update_returns. destruct (vm_rule_texts h k (control_of (h k)) (Hh k)) as (e & Ee & _). by exists e. }
  exists g. split; [done|]. split_and!.
  - intros k. rewrite (each_values vm_rule _ _ _ _ Hop E). apply Hv.
  - intros k. apply (each_checked vm_rule vm_reads vm_rule_reads _ _ _ _ Hop vm_ordered E), in_vm_names.
  - intros k _. by rewrite (each_update_disabled vm_rule _ _ _ k E).
Qed.

Lemma selects_locked g : vm_ok g -> vm_ok (fold_left (fun g k => disable_control k g) selects g).
Proof. intros Hg. unfold selects. simpl. by repeat apply vm_disable. Qed.

(** ** The turns keep the form and the save button *)

(** [b]: whether the save button is enabled. *)
Definition state_ok (b : bool) (s : VMWareSettingsComponent) : Prop :=
  match vmware_settings_form_group s with Some g => vm_ok g | None => True end /\ isSaveVmwareSettingsBtnEnabled s = b.

Definition is_save (c : call) : bool := match c with CSaveVmware _ => true | _ => false end.
Definition no_save (e : effect call page) : Prop := only (fun c => is_save c = false) e.

Lemma on_vm_run op s g g' : vmware_settings_form_group s = Some g -> op g = Ret g' ->
  on_form op s = (Ret tt, with_form (Some g') s, []).
Proof. intros E Eop. unfold on_form, the_form, get, bind, gets, deref, lift, modify. rewrite E. cbn. by rewrite Eop. Qed.

Section Turns.
Variable b : bool.

Lemma safe_on_vm op : (forall g, vm_ok g -> exists g', op g = Ret g' /\ vm_ok g') -> safe (state_ok b) no_save (on_form op).
Proof.
  intros Hop s [Hs Hb]. destruct (vmware_settings_form_group s) as [g|] eqn:E.
  - destruct (Hop g Hs) as (g' & Eg & Hg'). rewrite (on_vm_run op s g g' E Eg). by split; [|constructor].
  - unfold on_form, the_form, get, bind, gets, deref. rewrite E. split; [|done].
    change (state_ok b s). unfold state_ok. by rewrite E.
Qed.

Lemma safe_init_vm x : safe (state_ok b) no_save (initialize_vmware_settings_form_group_ x).
Proof.
  intros s [_ Hb]. unfold initialize_vmware_settings_form_group_. destruct (new_vm_ok x) as (g & E & Hg). by rewrite E.
Qed.

Lemma no_vm_save_page d : no_save (Page d).
Proof. by intros ?. Qed.
Lemma no_save_snack m c : no_save (DisplaySnackBar m c).
Proof. by intros ?. Qed.
Lemma no_save_get : no_save (Subscribe CGetVmware).
Proof. by intros ? [= <-]. Qed.
Lemma no_save_test d x p : no_save (Subscribe (CTestVmware d x p)).
Proof. by intros ? [= <-]. Qed.

Lemma safe_input_control d : safe (state_ok b) no_save (input_control_ d).
Proof.
  unfold input_control_, the_form, get. safe_auto; [apply no_vm_save_page|]. apply safe_on_vm. intros g Hg. destruct d.
  - eexists. split; [done|]. by apply selects_locked.
  - apply vm_each; [|done]. intros k h _. by apply vm_enable.
Qed.

Lemma safe_reset_vm : safe (state_ok b) no_save input_control_reset_.
Proof.
  apply safe_on_vm. intros g Hg. apply vm_each; [|done]. intros k h Hk. apply vm_reset_if_empty.
  unfold selects in Hk. set_solver.
Qed.

Lemma safe_api_test d x : safe (state_ok b) no_save (api_test_vmware_settings_ d x).
Proof. unfold api_test_vmware_settings_, the_form, get. safe_auto. apply no_save_test. Qed.

Lemma safe_show_error m e : safe (state_ok b) no_save (show_error m e).
Proof.
  unfold show_error. destruct e; try apply only_on_error;
    [apply safe_show_post_validation | apply safe_show_validation_errors]; intros; apply no_save_snack.
Qed.

Lemma vm_state_test v s : state_ok b s -> state_ok b (with_test v s).
Proof. done. Qed.
Lemma vm_state_data v s : state_ok b s -> state_ok b (with_data v s).
Proof. done. Qed.
#[local] Hint Resolve safe_init_vm no_vm_save_page no_save_snack no_save_get no_save_test safe_input_control safe_reset_vm
  safe_api_test safe_show_error vm_state_test vm_state_data : handler.

Lemma safe_user_vm k v : vm_value_ok k v -> safe (state_ok b) no_save (user_sets k v).
Proof. intros Hv. unfold user_sets, get. safe_auto. apply safe_on_vm. intros g Hg. by apply vm_type. Qed.

Definition about_saving (l : label event Ans) : bool :=
  match l with Event SaveClick | Answered (CSaveVmware _) _ => true | _ => false end.

Lemma safe_vm_turn l : about_saving l = false -> safe (state_ok b) no_save (react l).
Proof.
  intros Hl. destruct l as [e|c a]; simpl.
  - destruct e; simpl in *; try done.
    + unfold ngOnInit, api_get_vmware_settings_. safe_auto; auto with handler.
    + destruct (typed_in k); [|apply safe_ret]. apply safe_user_vm. intros _. by exists t.
    + destruct (is_select k) eqn:Ek; [|apply safe_ret]. apply safe_user_vm. intros H. by destruct k.
    + by apply safe_user_vm.
    + unfold get, click_button_test_connection. safe_auto; auto with handler.
  - destruct c; simpl in *; try done.
    + destruct a as [a|e]; simpl; [|apply only_on_error_message]. safe_auto; auto with handler.
    + destruct a as [a|e]; simpl; safe_auto; auto with handler.
Qed.
End Turns.

(** ** Saving *)

Definition saves (l : list call) : nat := length (List.filter is_save l).

Lemma saves_app l1 l2 : saves (l1 ++ l2) = (saves l1 + saves l2)%nat.
Proof. unfold saves. by rewrite List.filter_app, length_app. Qed.

Lemma no_save_none es : Forall no_save es -> saves (subscriptions es) = 0%nat.
Proof.
  induction 1 as [|e es He _ IH]; [done|]. unfold subscriptions in *. simpl. destruct e; simpl; try done.
  unfold saves in *. simpl. by rewrite (He c eq_refl).
Qed.

Lemma save_run_vm s : save_enabled s = true -> exists g, vmware_settings_form_group s = Some g /\ vm_valid g = true /\
  isSaveVmwareSettingsBtnEnabled s = true /\
  react (Event SaveClick) s = (Ret tt, with_save false s,
    [DisplaySnackBar "Saving VMWare settings please wait." None; Subscribe (CSaveVmware (vm_settings_of g))]).
Proof.
  intros Es. simpl. unfold get. rewrite (bind_run_silent _ _ s s s), Es by done. unfold save_enabled in Es. cbn [when].
  destruct (vmware_settings_form_group s) as [g|] eqn:E; [|done]. rewrite !andb_true_iff in Es.
  destruct Es as [[H1 _] H2]. exists g. split_and!; [done|done|done|].
  unfold click_button_save, api_save_vmware_settings_, the_form, get, displaySnackBar, emit, modify, bind, gets, deref, ret.
  simpl. by rewrite E.
Qed.

Lemma save_idle s : save_enabled s = false -> react (Event SaveClick) s = (Ret tt, s, []).
Proof. intros Es. simpl. unfold get. by rewrite (bind_run_silent _ _ s s s), Es by done. Qed.

(** The answer of a save gives the button back, whatever it is. *)
Lemma save_answered b p a s : state_ok b s ->
  state_ok true (state_of (react (Answered (CSaveVmware p) a) s)) /\
  Forall no_save (effects_of (react (Answered (CSaveVmware p) a) s)).
Proof.
  intros Hs. destruct a as [a|e]; simpl.
  - unfold initialize_vmware_settings_form_group_, bind, lift, modify, displaySnackBar, emit, ret.
    destruct (new_vm_ok (Some p)) as (g & E & Hg). rewrite E. simpl. split; [by split|]. by repeat constructor.
  - rewrite (bind_run_silent _ _ _ tt (with_save true s)) by done. apply (safe_show_error true). by split; [apply Hs|].
Qed.

Abbreviation any := (fun _ : label event Ans => True).

Definition saving_ok (w : world VMWareSettingsComponent call) : Prop :=
  exists b, state_ok b (component w) /\ saves (pending w) = if b : bool then 0%nat else 1%nat.

(** The waiting requests other than the one that is answered. *)
Lemma saves_without (w : world VMWareSettingsComponent call) p1 c p2 : pending w = p1 ++ c :: p2 ->
  saves (pending w) = (saves (p1 ++ p2) + if is_save c then 1 else 0)%nat.
Proof. intros ->. rewrite !saves_app. unfold saves at 2. simpl. destruct (is_save c); simpl; fold (saves p2); lia. Qed.

Lemma saves_after l waiting (w : world VMWareSettingsComponent call) :
  saves (pending (after l waiting w)) = (saves waiting + saves (subscriptions (effects_of (react l (component w)))))%nat.
Proof. apply saves_app. Qed.

Lemma saving_preserved w l w' : saving_ok w -> step w l w' -> saving_ok w'.
Proof.
  intros (b & Hs & Hp) Hstep. destruct Hstep as [e|p1 c p2 a Hpend].
  - destruct (about_saving (Event e)) eqn:El.
    + destruct e; try done. unfold after. destruct (save_enabled (component w)) eqn:Es.
      * destruct (save_run_vm _ Es) as (g & _ & _ & Hb & ->). exists false. destruct Hs as [Hs Hb']. split; [by split|].
        rewrite Hb in Hb'. subst b. simpl. by rewrite saves_app, Hp.
      * rewrite (save_idle _ Es). exists b. split; [done|]. simpl. by rewrite app_nil_r.
    + destruct (safe_vm_turn b _ El (component w) Hs) as [H1 H2]. exists b. split; [exact H1|].
      rewrite saves_after, (no_save_none _ H2), Hp. lia.
  - rewrite (saves_without w p1 c p2 Hpend) in Hp. destruct (about_saving (Answered c a)) eqn:El.
    + destruct c; try done. destruct (save_answered b payload a (component w) Hs) as [H1 H2].
      exists true. split; [exact H1|]. rewrite saves_after, (no_save_none _ H2). simpl in Hp.
      destruct b; lia.
    + destruct (safe_vm_turn b _ El (component w) Hs) as [H1 H2]. exists b. split; [exact H1|].
      rewrite saves_after, (no_save_none _ H2), <- Hp. destruct c; done || (simpl; lia).
Qed.

Lemma saving_trace tr w : trace any tr w -> saving_ok w.
Proof.
  apply trace_worlds; [by exists true|]. intros w0 l w1 H _ Hstep. by apply (saving_preserved w0 l).
Qed.

(** C31: one save of the VMware settings at a time.  Whatever the user and the server
    do, at most one save waits for its answer; the flag of the save button is set
    exactly when none does, and the button is enabled exactly when none does and the
    form is valid and was changed; a save is posted by the button only, with a user
    name, an address the pattern accepts and a password that is confirmed. *)
Theorem one_save_at_a_time tr w :
  trace any tr w ->
  saves (pending w) = (if isSaveVmwareSettingsBtnEnabled (component w) then 0 else 1)%nat /\
  (save_enabled (component w) = true <-> saves (pending w) = 0%nat /\
     exists g, vmware_settings_form_group (component w) = Some g /\ vm_valid g = true /\ group_dirty vm_names g = true) /\
  forall l w' v, step w l w' -> Subscribe (CSaveVmware v) ∈ made l w ->
    l = Event SaveClick /\ exists g a u p, vmware_settings_form_group (component w) = Some g /\
      vm_ip_address v = Some a /\ username v = Some u /\ vm_password v = Some p /\
      test IP_CONSTRAINT a = true /\ u <> "" /\ p <> "" /\ fc_value (g PasswordConfirm) = JStr p.
Proof.
  intros Htr. destruct (saving_trace tr w Htr) as (b & Hs & Hp). split; [destruct Hs as [_ ->]; exact Hp|].
  split.
  { rewrite Hp. unfold save_enabled. destruct Hs as [_ ->].
    destruct (vmware_settings_form_group (component w)) as [g|]; [|by split; [|intros (_ & g & ? & _)]].
    rewrite !andb_true_iff. destruct b; naive_solver. }
  intros l w' v Hstep Hin. destruct (about_saving l) eqn:El.
  - destruct l as [[]|[] a]; try done.
    + destruct (save_enabled (component w)) eqn:Es.
      * destruct (save_run_vm _ Es) as (g & Eg & Hv & _ & E). unfold made in Hin. rewrite E in Hin.
        apply elem_of_cons in Hin as [?|[[= ->]|?%not_elem_of_nil]%elem_of_cons]; try done.
        split; [done|]. exists g. destruct Hs as [Hs _]. rewrite Eg in Hs. destruct Hs as (Ht & Hc & Hd).
        unfold vm_valid in Hv. apply andb_true_iff in Hv as [Hv Hm].
        assert (Hok : forall k t, typed_in k = true -> fc_value (g k) = JStr t -> vm_accepts k t).
        { intros k t Hk Hv'. destruct (vm_rule_texts g k (control_of (g k)) (Ht k)) as (e & Ee & He).
          rewrite (Hc k (Hd k Hk)) in Ee. injection Ee as <-. apply He; [|exact Hv'].
          by apply (group_valid_field vm_names g k Hv (in_vm_names k)), Hd. }
        destruct (Ht IpAddress eq_refl) as [a Ea], (Ht Username eq_refl) as [u Eu],
          (Ht Password eq_refl) as [p Ep], (Ht PasswordConfirm eq_refl) as [q Eq].
        exists a, u, p. unfold vm_settings_of, vm_text. simpl. rewrite Ea, Eu, Ep, Eq.
        unfold match_ in Hm. rewrite Ep, Eq in Hm. apply strict_eq_string in Hm; [|by eexists]. injection Hm as ->.
        split_and!; try done; [by apply (Hok IpAddress) | by apply (Hok Username) | by apply (Hok Password)].
      * unfold made in Hin. rewrite (save_idle _ Es) in Hin. by apply not_elem_of_nil in Hin.
    + destruct (save_answered b payload a (component w) Hs) as [_ H2]. rewrite Forall_forall in H2.
      by specialize (H2 _ Hin _ eq_refl).
  - destruct (safe_vm_turn b _ El (component w) Hs) as [_ H2]. rewrite Forall_forall in H2.
    by specialize (H2 _ Hin _ eq_refl).
Qed.

Definition witness_vmware : VMWareSettingsClass :=
  {| vm__id := None; vm_ip_address := Some "10.0.0.9"; username := Some "root"; vm_password := Some "secret";
     datastore := None; vcenter := None; folder := None; datacenter := None; portgroup := None; cluster := None |}.

Lemma one_save_at_a_time_witness : exists tr w v,
  trace any tr w /\ saves (pending w) = 0%nat /\ Subscribe (CSaveVmware v) ∈ made (Event SaveClick) w /\
  (exists u, username v = Some u /\ u <> "") /\ saves (pending (after (Event SaveClick) (pending w) w)) = 1%nat.
Proof.
  pose proof (trace_start any) as T.
  apply (trace_event _ _ _ NgOnInit) in T; [|exact I].
  apply (trace_answer _ _ _ [] CGetVmware [] (Next witness_vmware)) in T; [|exact I|reflexivity].
  apply (trace_event _ _ _ (TypeText Username "admin")) in T; [|exact I].
  match type of T with trace _ ?tr ?w => set (w1 := w) in T; exists tr, w1 end.
  pose proof (step_event w1 SaveClick) as Hs.
  assert (Hin : Subscribe (CSaveVmware {| vm__id := None; vm_ip_address := Some "10.0.0.9"; username := Some "admin";
      vm_password := Some "secret"; datastore := None; vcenter := Some false; folder := None; datacenter := None;
      portgroup := None; cluster := None |}) ∈ made (Event SaveClick) w1) by (vm_compute; right; left).
  eexists. split; [exact T|]. destruct (one_save_at_a_time _ _ T) as (H1 & _ & H2).
  split; [rewrite H1; reflexivity|]. split; [exact Hin|].
  destruct (H2 (Event SaveClick) _ _ Hs Hin) as (_ & g & a & u & p & _ & _ & Hu & _ & _ & Hn & _).
  split; [by exists u|].
  apply (trace_event _ _ _ SaveClick) in T; [|exact I]. destruct (one_save_at_a_time _ _ T) as [H3 _].
  rewrite H3. reflexivity.
Defined.
