(* ===== verification/HiveSettings.v ===== *)
(** modules/system-settings/components/hive-settings: the two keys of the Hive.

    The validators of the length are those of @angular/forms, which are an
    interface with the laws its documentation states. *)
From S2P Require Import Prelude Handler JsValue Runtime Data Api.

Class LengthValidators := {
  Validators_minLength : nat -> string -> bool;
  Validators_maxLength : nat -> string -> bool;
  Validators_required_text : string -> bool;
}.

(** An empty text passes the validators of the length; the required one refuses it. *)
Class LengthValidatorsLaws (V : LengthValidators) := {
  minLength_text n t : Validators_minLength n t = true -> t = "" \/ (n <= String.length t)%nat;
  maxLength_text n t : Validators_maxLength n t = true -> (String.length t <= n)%nat;
  required_text_text t : Validators_required_text t = true -> t <> "";
}.

#[export] Instance plain_lengths : LengthValidators := {|
  Validators_minLength n t := (t === "") || Nat.leb n (String.length t);
  Validators_maxLength n t := Nat.leb (String.length t) n;
  Validators_required_text t := t !== "";
|}.
#[export] Instance plain_lengths_laws : LengthValidatorsLaws plain_lengths.
Proof.
  split; simpl.
  - intros n t [->%seqb_eq|H%Nat.leb_le]%orb_true_iff; auto.
  - by intros n t H%Nat.leb_le.
  - by intros t H%negb_true_iff%seqb_neq.
Qed.

(** services/hive-settings.service.ts *)
Definition save_hive_settings (h : HiveSettingsClass) : service HiveSettingsClass HiveSettingsClass HiveSettingsClass :=
  Service POST "/api/alerts/settings" h "save hive settings" copied.

Record hive_form := { h_admin : string; h_org_admin : string; h_dirty : bool; h_touched : bool }.

Inductive call : Type := CGetHive | CSaveHive (h : HiveSettingsClass).
(** The answer of the request may be null. *)
Definition Ans (c : call) : Type :=
  match c with CGetHive => answer (option HiveSettingsClass) | CSaveHive _ => answer HiveSettingsClass end.
Inductive page : Type := .

Record HiveSettingsComponent := { hive_settings_form_group : option hive_form }.
Abbreviation M := (handler HiveSettingsComponent (effect call page)).

Definition constructor : HiveSettingsComponent := {| hive_settings_form_group := None |}.

Section Hive.
Context {V : LengthValidators}.

Definition get : M HiveSettingsComponent := gets (fun s => s).
Definition the_form : M hive_form := s <- get ;; deref (hive_settings_form_group s).
Definition set_hive_settings_form_group_ (f : hive_form) : M unit :=
  modify (fun _ => {| hive_settings_form_group := Some f |}).

(** [Validators.compose([minLength(32), maxLength(32), required])] *)
Definition key_valid (t : string) : bool :=
  Validators_minLength 32 t && Validators_maxLength 32 t && Validators_required_text t.
Definition hive_valid (f : hive_form) : bool := key_valid (h_admin f) && key_valid (h_org_admin f).

Definition api_get_hive_settings_ : M unit := emit (Subscribe CGetHive).
Definition api_get_hive_settings_answer (a : answer (option HiveSettingsClass)) : M unit :=
  match a with
  | Next response =>
      set_hive_settings_form_group_
        {| h_admin := match response with Some h => admin_api_key h | None => "" end;
           h_org_admin := match response with Some h => org_admin_api_key h | None => "" end;
           h_dirty := false; h_touched := false |}
  | Error e => on_error "retrieving hive settings" e
  end.

Definition api_save_hive_settings_ (h : HiveSettingsClass) : M unit := emit (Subscribe (CSaveHive h)).
Definition api_save_hive_settings_answer (a : answer HiveSettingsClass) : M unit :=
  match a with
  | Next _ =>
      generate_return_success_snackbar_message " saved Hive API Key." (Some MAT_SNACKBAR_CONFIGURATION_60000_DUR)
  | Error e =>
      on_error_message "saving Hive API key for an unknown reason. Please check the /var/log/tfplenum logs for more information" e
  end.

Definition ngOnInit : M unit := api_get_hive_settings_.
Definition click_button_save : M unit :=
  f <- the_form ;; api_save_hive_settings_ {| admin_api_key := h_admin f; org_admin_api_key := h_org_admin f |}.

Inductive event : Type :=
| NgOnInit
| TypeAdmin (t : string)
| TypeOrgAdmin (t : string)
| Blur
| SaveClick.

Definition change_form (g : hive_form -> hive_form) : M unit :=
  s <- get ;;
  match hive_settings_form_group s with Some f => set_hive_settings_form_group_ (g f) | None => ret tt end.

Definition save_enabled (s : HiveSettingsComponent) : bool :=
  match hive_settings_form_group s with Some f => hive_valid f && h_dirty f && h_touched f | None => false end.

Definition on_event (e : event) : M unit :=
  match e with
  | NgOnInit => ngOnInit
  | TypeAdmin t => change_form (fun f =>
      {| h_admin := t; h_org_admin := h_org_admin f; h_dirty := true; h_touched := h_touched f |})
  | TypeOrgAdmin t => change_form (fun f =>
      {| h_admin := h_admin f; h_org_admin := t; h_dirty := true; h_touched := h_touched f |})
  | Blur => change_form (fun f =>
      {| h_admin := h_admin f; h_org_admin := h_org_admin f; h_dirty := h_dirty f; h_touched := true |})
  | SaveClick => s <- get ;; when (save_enabled s) click_button_save
  end.
Definition on_answer (c : call) : Ans c -> M unit :=
  match c with CGetHive => api_get_hive_settings_answer | CSaveHive _ => api_save_hive_settings_answer end.

#[export] Instance hive_settings : Component HiveSettingsComponent call page event Ans :=
  {| initial := constructor; Runtime.on_event := on_event; Runtime.on_answer := on_answer |}.

(** Keys that are saved have 32 characters. *)
Lemma saved_keys_have_their_length {L : LengthValidatorsLaws V} (w w' : world HiveSettingsComponent call) l h :
  step w l w' -> Subscribe (CSaveHive h) ∈ made l w ->
  l = Event SaveClick /\ String.length (admin_api_key h) = 32 /\ String.length (org_admin_api_key h) = 32.
Proof.
  intros _ Hin. assert (Hk : forall t, key_valid t = true -> String.length t = 32).
  { intros t [[H1%minLength_text H2%maxLength_text]%andb_true_iff H3%required_text_text]%andb_true_iff.
    destruct H1; [done|lia]. }
  unfold made in Hin. destruct l as [e|[] [a|e]]; simpl in Hin.
  - destruct e; simpl in Hin;
      try (unfold change_form, get in Hin; rewrite (bind_run_silent _ _ _ (component w) (component w)) in Hin by done;
           destruct (hive_settings_form_group (component w)); by apply not_elem_of_nil in Hin).
    + apply elem_of_cons in Hin as [?|?%not_elem_of_nil]; done.
    + unfold get in Hin. rewrite (bind_run_silent _ _ _ (component w) (component w)) in Hin by done.
      unfold save_enabled in Hin. destruct (hive_settings_form_group (component w)) as [f|] eqn:Ef;
        [|by apply not_elem_of_nil in Hin].
      destruct (hive_valid f) eqn:Ev; [|by apply not_elem_of_nil in Hin]. cbn [andb] in Hin.
      destruct (h_dirty f && h_touched f); [|by apply not_elem_of_nil in Hin].
      assert (E : click_button_save (component w) = (Ret tt, component w, [Subscribe (CSaveHive
        {| admin_api_key := h_admin f; org_admin_api_key := h_org_admin f |})]))
        by (unfold click_button_save, the_form, get, bind, gets, deref, ret; by rewrite Ef).
      cbn [when] in Hin. rewrite E in Hin.
      apply elem_of_cons in Hin as [[= ->]|?%not_elem_of_nil]; [|done].
      unfold hive_valid in Ev. apply andb_true_iff in Ev as [H1 H2]. split_and!; [done|by apply Hk|by apply Hk].
  - by apply not_elem_of_nil in Hin.
  - apply elem_of_cons in Hin as [?|?%not_elem_of_nil]; done.
  - apply elem_of_cons in Hin as [?|?%not_elem_of_nil]; done.
  - destruct e; apply elem_of_cons in Hin as [?|?%not_elem_of_nil]; done.
Qed.
End Hive.
