(* ===== verification/ColdLog.v ===== *)
(** modules/elasticsearch-cold-log-ingest: the upload of a log file and the setup
    of Winlogbeat.

    The validators of the suffix are those of @angular/forms, an interface with
    the laws its documentation states.  The text of the patterns allows a dash and
    an underscore. *)
From S2P Require Import Prelude Handler JsValue Runtime Data Api Regex Validators HiveSettings.
From Stdlib Require Import Ascii.

(** ** Classes and services *)

(** classes/file-set.class.ts, filebeat-module.class.ts and
    winlogbeat-configuration.class.ts; the last may lack what was never set. *)
Record FileSetClass := { fs_value : string; fs_name : string; fs_tooltip : string }.
Record FilebeatModuleClass := { fm_value : string; fm_name : string; filesets : list FileSetClass }.
Record WinlogbeatConfigurationClass := {
  wb_username : option string;
  wb_password : option string;
  windows_host : option string;
  winrm_port : option Z;
  winrm_scheme : option string;
  winrm_transport : option string;
}.

Definition post_cold_log_file (cold_log_file : File) (cold_log_form : jsval)
    : service (File * string * jsval) GenericJobAndKeyClass GenericJobAndKeyClass :=
  Service POST "/api/coldlog/upload" (cold_log_file, file_name cold_log_file, cold_log_form) "post file" copied.
Definition get_winlogbeat_configuration : service unit WinlogbeatConfigurationClass WinlogbeatConfigurationClass :=
  Service GET "/api/coldlog/winlogbeat/configure" tt "get winlogbeat configuration" copied.
Definition post_winlogbeat (winlogbeat_setup_form : jsval) : service jsval GenericJobAndKeyClass GenericJobAndKeyClass :=
  Service POST "/api/coldlog/winlogbeat/install" winlogbeat_setup_form "post file" copied.
Definition get_module_info : service unit (list FilebeatModuleClass) (list FilebeatModuleClass) :=
  Service GET "/api/coldlog/module/info" tt "get module info" copied.

(** ** The form *)

Definition ELASTICSEARCH_COLD_LOG_INGEST_TITLE : string := "Cold Log Ingest".
Definition WINLOGBEAT_DEFAULT_PASSWORD_LABEL : string := "Password".

(** [^[a-zA-Z0-9\-\_]+$] *)
Definition suffix_chars : list ascii := range "a" "z" ++ range "A" "Z" ++ range "0" "9" ++ ["-"; "_"]%char.
Definition suffix_pattern : RegExp :=
  [Alternative true true (Cat (Class_ suffix_chars) (Many (Class_ suffix_chars)))].

Class PatternValidators := { Validators_pattern_text : RegExp -> string -> bool }.
(** An empty text passes. *)
Class PatternValidatorsLaws (V : PatternValidators) := {
  pattern_text_test p t : Validators_pattern_text p t = true -> t = "" \/ test p t = true;
}.
#[export] Instance plain_patterns : PatternValidators := {| Validators_pattern_text p t := (t === "") || test p t |}.
#[export] Instance plain_patterns_laws : PatternValidatorsLaws plain_patterns.
Proof. split. by intros p t [->%seqb_eq|?]%orb_true_iff; [left | right]. Qed.

Record cold_log_form := { module : string; index_suffix : string; send_to_logstash : bool; fileset : string }.
Definition initial_form : cold_log_form :=
  {| module := ""; index_suffix := "cold-log"; send_to_logstash := false; fileset := "" |}.
(** [cold_log_ingest_form_group.value] *)
Definition form_value (f : cold_log_form) : jsval :=
  JObj [("module", JStr (module f)); ("index_suffix", JStr (index_suffix f));
        ("send_to_logstash", JBool (send_to_logstash f)); ("fileset", JStr (fileset f))].

(** ** The dialog of Winlogbeat *)

Inductive winlogbeat_control : Type := TextInput | PasswordInput | Dropdown (options : list string).
Record winlogbeat_field := { wf_label : string; wf_state : jsval; wf_type : winlogbeat_control }.
Record winlogbeat_dialog := { wd_title : string; wd_instructions : string; wd_fields : list (string * winlogbeat_field); wd_button : string }.

Definition text_or (o : option string) (d : string) : jsval :=
  JStr match o with Some s => if s === "" then d else s | None => d end.
Definition port_or (o : option Z) (d : Z) : jsval :=
  JNum match o with Some n => if Z.eqb n 0 then d else n | None => d end.

Definition SUBMIT_DIALOG_OPTION : string := "Submit".
Definition winlogbeat_setup_dialog (c : WinlogbeatConfigurationClass) : winlogbeat_dialog :=
  {| wd_title := "Setup Winlog Beat";
     wd_instructions := if match windows_host c with Some h => h !== "" | None => false end
                        then "Winlogbeat is already setup but you may re-run the setup if there is a problem"
                        else "Please fill out the form";
     wd_fields :=
       [("windows_host", {| wf_label := "Hostname or IP Address"; wf_state := text_or (windows_host c) ""; wf_type := TextInput |});
        ("username", {| wf_label := "Username"; wf_state := text_or (wb_username c) ""; wf_type := TextInput |});
        ("password", {| wf_label := WINLOGBEAT_DEFAULT_PASSWORD_LABEL; wf_state := text_or (wb_password c) "";
                        wf_type := PasswordInput |});
        ("winrm_port", {| wf_label := "WinRM Port"; wf_state := port_or (winrm_port c) 5985; wf_type := TextInput |});
        ("winrm_scheme", {| wf_label := "WinRM Scheme"; wf_state := text_or (winrm_scheme c) "http";
                            wf_type := Dropdown ["http"; "https"] |});
        ("winrm_transport", {| wf_label := "WinRM Transport"; wf_state := text_or (winrm_transport c) "ntlm";
                               wf_type := Dropdown ["ntlm"; "basic"] |})];
     wd_button := SUBMIT_DIALOG_OPTION |}.

(** ** The component *)

Inductive call : Type :=
| CUpload (cold_log_file : File) (cold_log_form : jsval)
| CGetWinlogbeat
| CPostWinlogbeat (form : jsval)
| CModuleInfo
| CLogstash
| DWinlogbeat (dialog : winlogbeat_dialog).
(** The dialog returns the validity of its form and its value. *)
Definition Ans (c : call) : Type :=
  match c with
  | CUpload _ _ | CPostWinlogbeat _ => answer GenericJobAndKeyClass
  | CGetWinlogbeat => answer WinlogbeatConfigurationClass
  | CModuleInfo => answer (list FilebeatModuleClass)
  | CLogstash => answer (option (list StatusClass))
  | DWinlogbeat _ => option (bool * jsval)
  end.
Inductive page : Type := .

Record ColdLogIngestComponent := {
  cold_log_file : option File;
  cold_log_ingest_form_group : option cold_log_form;
  file_name_form_control : option string;
  file_sets : list FileSetClass;
  modules : list FilebeatModuleClass;
  logstash_deployed : option bool;
}.
Abbreviation M := (handler ColdLogIngestComponent (effect call page)).

Definition with_file v (s : ColdLogIngestComponent) :=
  {| cold_log_file := v; cold_log_ingest_form_group := cold_log_ingest_form_group s;
     file_name_form_control := file_name_form_control s; file_sets := file_sets s; modules := modules s;
     logstash_deployed := logstash_deployed s |}.
Definition with_form v (s : ColdLogIngestComponent) :=
  {| cold_log_file := cold_log_file s; cold_log_ingest_form_group := v;
     file_name_form_control := file_name_form_control s; file_sets := file_sets s; modules := modules s;
     logstash_deployed := logstash_deployed s |}.
Definition with_name v (s : ColdLogIngestComponent) :=
  {| cold_log_file := cold_log_file s; cold_log_ingest_form_group := cold_log_ingest_form_group s;
     file_name_form_control := v; file_sets := file_sets s; modules := modules s;
     logstash_deployed := logstash_deployed s |}.
Definition with_file_sets v (s : ColdLogIngestComponent) :=
  {| cold_log_file := cold_log_file s; cold_log_ingest_form_group := cold_log_ingest_form_group s;
     file_name_form_control := file_name_form_control s; file_sets := v; modules := modules s;
     logstash_deployed := logstash_deployed s |}.
Definition with_modules v (s : ColdLogIngestComponent) :=
  {| cold_log_file := cold_log_file s; cold_log_ingest_form_group := cold_log_ingest_form_group s;
     file_name_form_control := file_name_form_control s; file_sets := file_sets s; modules := v;
     logstash_deployed := logstash_deployed s |}.
Definition with_logstash v (s : ColdLogIngestComponent) :=
  {| cold_log_file := cold_log_file s; cold_log_ingest_form_group := cold_log_ingest_form_group s;
     file_name_form_control := file_name_form_control s; file_sets := file_sets s; modules := modules s;
     logstash_deployed := v |}.

(** The group starts without controls. *)
Definition constructor : ColdLogIngestComponent :=
  {| cold_log_file := None; cold_log_ingest_form_group := None; file_name_form_control := None; file_sets := [];
     modules := []; logstash_deployed := None |}.

Section ColdLog.
Context {L : LengthValidators} {V : PatternValidators}.

Definition get : M ColdLogIngestComponent := gets (fun s => s).

(** [Validators.required] on the module, [maxLength(50)] and the pattern on the
    suffix. *)
Definition form_valid (f : cold_log_form) : bool :=
  Validators_required_text (module f) && Validators_maxLength 50 (index_suffix f) &&
  Validators_pattern_text suffix_pattern (index_suffix f).

Definition is_file_sets_empty (s : ColdLogIngestComponent) : bool := bool_decide (length (file_sets s) = 0%nat).

Definition set_form_group_ (f : cold_log_form) : M unit := modify (with_form (Some f)).
Definition initialize_form_group_ : M unit := set_form_group_ initial_form.
Definition set_form_control_ (name : string) : M unit := modify (with_name (Some name)).
Definition initialize_form_control_ : M unit := set_form_control_ "".

(** The dialog of the browser may be closed without a file. *)
Definition file_input_change (file_list : list File) : M unit :=
  modify (with_file (head file_list)) ;;;
  s <- get ;;
  f <- deref (cold_log_file s) ;;
  _ <- deref (file_name_form_control s) ;;
  set_form_control_ (file_name f).

Definition module_change (value : string) : M unit :=
  s <- get ;;
  m <- deref (List.find (fun f => fm_value f === value) (modules s)) ;;
  modify (with_file_sets (filesets m)).

(** *** Requests *)

(** The service reads the name of the file when it is called. *)
Definition api_post_cold_log_file : M unit :=
  s <- get ;;
  f <- deref (cold_log_file s) ;;
  emit (Subscribe (CUpload f (match cold_log_ingest_form_group s with Some g => form_value g | None => JObj [] end))).
Definition api_get_winlogbeat_configuration_ : M unit := emit (Subscribe CGetWinlogbeat).
Definition api_post_winlogbeat_ (form : jsval) : M unit := emit (Subscribe (CPostWinlogbeat form)).
Definition api_get_module_info_ : M unit := emit (Subscribe CModuleInfo).
Definition api_check_logstash_installed_ : M unit := emit (Subscribe CLogstash).

Definition open_winlogbeat_setup_dialog_ (c : WinlogbeatConfigurationClass) : M unit :=
  emit (Subscribe (DWinlogbeat (winlogbeat_setup_dialog c))).
Definition winlogbeat_closed (response : option (bool * jsval)) : M unit :=
  match response with
  | Some (valid, form) => when valid (api_post_winlogbeat_ form)
  | None => ret tt
  end.

(** The message names the file that is chosen when the answer arrives. *)
Definition api_post_cold_log_file_answer (a : answer GenericJobAndKeyClass) : M unit :=
  match a with
  | Next _ =>
      s <- get ;;
      f <- deref (cold_log_file s) ;;
      generate_return_success_snackbar_message
        ("uploaded " +:+ file_name f +:+ "." +:+ newline +:+ "          Open the notification manager to track its progress.")
        (Some MAT_SNACKBAR_CONFIGURATION_60000_DUR)
  | Error e => on_error_message "uploading cold log file" e
  end.
Definition api_get_winlogbeat_configuration_answer (a : answer WinlogbeatConfigurationClass) : M unit :=
  match a with
  | Next response => open_winlogbeat_setup_dialog_ response
  | Error e => on_error "getting winlogbeat configuration" e
  end.
Definition api_post_winlogbeat_answer (a : answer GenericJobAndKeyClass) : M unit :=
  match a with
  | Next _ =>
      generate_return_success_snackbar_message
        ("started job Winlogbeat setup for Cold Log Ingest." +:+ newline +:+
         "          Open the notification manager to track its progress.") (Some MAT_SNACKBAR_CONFIGURATION_60000_DUR)
  | Error e => on_error "setting up winlogbeat" e
  end.
Definition api_get_module_info_answer (a : answer (list FilebeatModuleClass)) : M unit :=
  match a with
  | Next response => modify (with_modules response)
  | Error e => on_error "getting modules" e
  end.
Definition api_check_logstash_installed_answer (a : answer (option (list StatusClass))) : M unit :=
  match a with
  | Next response =>
      modify (with_logstash (Some match response with Some (x :: _) => s_status x === "DEPLOYED" | _ => false end))
  | Error e => on_error "checking logstash installed" e
  end.

(** *** Events *)

Definition ngOnInit : M unit :=
  emit (SetTitle ELASTICSEARCH_COLD_LOG_INGEST_TITLE) ;;;
  initialize_form_group_ ;;; initialize_form_control_ ;;; api_get_module_info_ ;;; api_check_logstash_installed_.
Definition upload : M unit := api_post_cold_log_file.
Definition setup_winlogbeat : M unit := api_get_winlogbeat_configuration_.

(** A selection in a list is one of its options and sets the control before the
    handler of the page runs. *)
Inductive event : Type :=
| NgOnInit
| SetupClick
| ModuleSelect (i : nat)
| FileSetSelect (i : nat)
| TypeSuffix (t : string)
| LogstashClick (checked : bool)
| FileChosen (file_list : list File)
| UploadClick.

Definition change_form (g : cold_log_form -> cold_log_form) : M unit :=
  s <- get ;; match cold_log_ingest_form_group s with Some f => set_form_group_ (g f) | None => ret tt end.
(** An empty group is valid. *)
Definition upload_enabled (s : ColdLogIngestComponent) : bool :=
  notUndefNull (cold_log_file s) && match cold_log_ingest_form_group s with Some f => form_valid f | None => true end.

Definition on_event (e : event) : M unit :=
  match e with
  | NgOnInit => ngOnInit
  | SetupClick => setup_winlogbeat
  | ModuleSelect i =>
      s <- get ;;
      match modules s !! i with
      | Some m =>
          change_form (fun f => {| module := fm_value m; index_suffix := index_suffix f;
                                   send_to_logstash := send_to_logstash f; fileset := fileset f |}) ;;;
          module_change (fm_value m)
      | None => ret tt
      end
  | FileSetSelect i =>
      s <- get ;;
      match file_sets s !! i with
      | Some x => change_form (fun f => {| module := module f; index_suffix := index_suffix f;
                                           send_to_logstash := send_to_logstash f; fileset := fs_value x |})
      | None => ret tt
      end
  | TypeSuffix t => change_form (fun f => {| module := module f; index_suffix := t;
                                             send_to_logstash := send_to_logstash f; fileset := fileset f |})
  | LogstashClick b =>
      s <- get ;;
      when (truthy (logstash_deployed s))
        (change_form (fun f => {| module := module f; index_suffix := index_suffix f; send_to_logstash := b;
                                  fileset := fileset f |}))
  | FileChosen l => file_input_change l
  | UploadClick => s <- get ;; when (upload_enabled s) upload
  end.
Definition on_answer (c : call) : Ans c -> M unit :=
  match c with
  | CUpload _ _ => api_post_cold_log_file_answer
  | CGetWinlogbeat => api_get_winlogbeat_configuration_answer
  | CPostWinlogbeat _ => api_post_winlogbeat_answer
  | CModuleInfo => api_get_module_info_answer
  | CLogstash => api_check_logstash_installed_answer
  | DWinlogbeat _ => winlogbeat_closed
  end.

#[export] Instance cold_log_ingest : Component ColdLogIngestComponent call page event Ans :=
  {| initial := constructor; Runtime.on_event := on_event; Runtime.on_answer := on_answer |}.

(** ** What is uploaded *)

Lemma matches_class_star cs w : matches (Many (Class_ cs)) w -> Forall (fun c => c ∈ cs) w.
Proof using.
  remember (Many (Class_ cs)) as r eqn:E. intros H. revert E.
  induction H as [| | | | |r|r w1 w2 H1 _ _ IH]; intros E; try done. injection E as ->.
  apply Forall_app. split; [|by apply IH]. apply matches_class in H1 as (c & -> & Hc). by constructor.
Qed.

Lemma suffix_characters {LV : PatternValidatorsLaws V} t : Validators_pattern_text suffix_pattern t = true ->
  Forall (fun c => c ∈ suffix_chars) (String.list_ascii_of_string t).
Proof using.
  intros [->|H]%pattern_text_test; [constructor|]. unfold suffix_pattern in H. rewrite test_anchored in H.
  apply matches_cat in H as (u & v & -> & Hu & Hv). apply Forall_app. split; [|by apply matches_class_star].
  apply matches_class in Hu as (c & -> & Hc). by constructor.
Qed.

Lemma answers_upload_nothing c (a : Ans c) :
  safe (fun _ => True) (fun e => forall f v, e <> Subscribe (CUpload f v)) (react (Answered c a)).
Proof using.
  destruct c; cbn [react Runtime.on_answer cold_log_ingest on_answer]; try destruct a as [r|[]];
    unfold api_post_cold_log_file_answer, api_get_winlogbeat_configuration_answer, open_winlogbeat_setup_dialog_,
      api_post_winlogbeat_answer, api_get_module_info_answer, api_check_logstash_installed_answer, winlogbeat_closed,
      api_post_winlogbeat_, get, on_error, on_error_message, generate_return_success_snackbar_message,
      generate_return_error_snackbar_message, displaySnackBar; safe_auto; done.
Qed.

(** Files are uploaded by the button only: the one that was chosen, with a module,
    and a suffix of at most 50 of the characters that are allowed, or none. *)
Lemma uploads_are_checked {LL : LengthValidatorsLaws L} {LV : PatternValidatorsLaws V}
    (w w' : world ColdLogIngestComponent call) l f v g :
  step w l w' -> Subscribe (CUpload f v) ∈ made l w -> cold_log_ingest_form_group (component w) = Some g ->
  l = Event UploadClick /\ cold_log_file (component w) = Some f /\ v = form_value g /\ module g <> "" /\
  (String.length (index_suffix g) <= 50)%nat /\
  Forall (fun c => c ∈ suffix_chars) (String.list_ascii_of_string (index_suffix g)).
Proof using.
  intros _ Hin Hg. unfold made in Hin. set (s := component w) in *.
  assert (Hc : forall h, Subscribe (CUpload f v) ∉ effects_of (change_form h s)).
  { intros h. unfold change_form, get. rewrite (bind_run_silent _ _ s s s) by done. rewrite Hg. by intros ?%not_elem_of_nil. }
  destruct l as [e|c a].
  - destruct e; cbn [react Runtime.on_event cold_log_ingest on_event] in Hin.
    + repeat (apply elem_of_cons in Hin as [?|Hin]; [done|]). by apply not_elem_of_nil in Hin.
    + apply elem_of_cons in Hin as [?|?%not_elem_of_nil]; done.
    + unfold get in Hin. rewrite (bind_run_silent _ _ s s s) in Hin by done. destruct (modules s !! i) as [m|]; [|by apply not_elem_of_nil in Hin].
      exfalso. revert Hin. unfold change_form, module_change, get, bind, gets, deref. cbn. rewrite Hg. cbn.
      destruct (List.find _ _); cbn; by intros ?%not_elem_of_nil.
    + unfold get in Hin. rewrite (bind_run_silent _ _ s s s) in Hin by done. destruct (file_sets s !! i); [|by apply not_elem_of_nil in Hin].
      by apply Hc in Hin.
    + by apply Hc in Hin.
    + unfold get in Hin. rewrite (bind_run_silent _ _ s s s) in Hin by done. destruct (truthy _); [|by apply not_elem_of_nil in Hin].
      by apply Hc in Hin.
    + exfalso. revert Hin. unfold file_input_change, get, bind, gets, deref. cbn. destruct (head file_list); cbn; [|by intros ?%not_elem_of_nil].
      destruct (file_name_form_control s); cbn; by intros ?%not_elem_of_nil.
    + unfold get in Hin. rewrite (bind_run_silent _ _ s s s) in Hin by done. destruct (upload_enabled s) eqn:Eu; [|by apply not_elem_of_nil in Hin].
      unfold upload_enabled in Eu. rewrite Hg in Eu. apply andb_true_iff in Eu as [_ Ev].
      simpl when in Hin. unfold upload, api_post_cold_log_file, get in Hin. rewrite (bind_run_silent _ _ s s s) in Hin by done.
      destruct (cold_log_file s) as [f'|]; [|by apply not_elem_of_nil in Hin]. rewrite Hg in Hin.
      apply elem_of_cons in Hin as [[= -> ->]|?%not_elem_of_nil]; [|done].
      unfold form_valid in Ev. rewrite !andb_true_iff in Ev. destruct Ev as [[H1%required_text_text H2%maxLength_text] H3].
      split_and!; try done. by apply suffix_characters.
  - destruct (answers_upload_nothing c a s I) as [_ HF]. rewrite Forall_forall in HF. by destruct (HF _ Hin f v).
Qed.

(** A selected log type changes the file sets that are offered, but not the one
    that was selected for the type before. *)
Lemma module_change_keeps_the_fileset s g i m : cold_log_ingest_form_group s = Some g -> modules s !! i = Some m ->
  exists m', List.find (fun f => fm_value f === fm_value m) (modules s) = Some m' /\
    on_event (ModuleSelect i) s =
      (Ret tt, with_file_sets (filesets m') (with_form (Some {| module := fm_value m; index_suffix := index_suffix g;
         send_to_logstash := send_to_logstash g; fileset := fileset g |}) s), []).
Proof using.
  intros Hg Hi. assert (exists m', List.find (fun f => fm_value f === fm_value m) (modules s) = Some m') as [m' E].
  { destruct (List.find _ (modules s)) as [m'|] eqn:E; [by exists m'|].
    pose proof (List.find_none _ _ E m (proj1 (list_elem_of_In _ _) (list_elem_of_lookup_2 _ _ _ Hi))) as H.
    cbv beta in H. by rewrite seqb_refl in H. }
  exists m'. split; [done|]. cbn [on_event]. unfold get, change_form, module_change, bind, gets, deref. cbn. rewrite Hi. cbn.
  rewrite Hg. cbn. by rewrite E.
Qed.
End ColdLog.
