(* ===== verification/AddKitToken.v ===== *)
(** modules/system-settings/components/add-kit-token-dialog: the dialog that asks
    for the address of a kit, and the pattern of the address. *)
From S2P Require Import Prelude Handler JsValue Runtime Data Api Net Regex Validators Fields.
From stdpp Require Import pretty.
From Stdlib Require Import Ascii.

(** ** The address of a kit *)

(** [IP_ADDRESS_PATTERN] of constants/system-settings.constant.ts *)
Definition token_octet : regex :=
  alts [lit "0"; Cat (span "1" "9") (opt digit); cats [lit "1"; digit; digit];
        cats [lit "2"; span "0" "5"; span "0" "5"]].
Definition IP_ADDRESS_PATTERN : RegExp :=
  [Alternative true true (cats [token_octet; dot; token_octet; dot; token_octet; dot; token_octet])].

(** validators/kit-token.validator.ts *)
Definition addToken_ip_address : list ValidatorObjectInterface :=
  [plain "required" (Text "IP Address is required.") None;
   plain "pattern" (Text "You must enter a valid IP address.") (Some IP_ADDRESS_PATTERN)].

(** ** components/add-kit-token-dialog *)

Inductive page : Type := Close (ipaddress : option jsval).
Definition no_call : Type := Empty_set.
Definition no_answer (c : no_call) : Type := Empty_set.

(** The group has one control. *)
Record AddKitTokenDialogComponent := { kit_token_settings_form_group : option field }.
Abbreviation M := (handler AddKitTokenDialogComponent (effect no_call page)).

Definition the_field : M field := s <- gets (fun s => s) ;; deref (kit_token_settings_form_group s).
Definition set_kit_token_settings_form_group_ (f : field) : M unit :=
  modify (fun _ => {| kit_token_settings_form_group := Some f |}).

Definition verdict (f : field) : outcome (option validation_error) :=
  validateFromArray addToken_ip_address None (control_of f).

Definition initialize_kit_token_settings_form_group_ : M unit :=
  e <- lift (verdict (raw_field JNull)) ;;
  set_kit_token_settings_form_group_ (with_errors e (raw_field JNull)).

Definition ngOnInit : M unit := initialize_kit_token_settings_form_group_.
Definition get_error_message (f : field) : option error_text :=
  match fc_errors f with
  | None => Some (Text "")
  | Some (PatternError _ m) => Some m
  | Some (PasswordError _ t) => Some (Text t)
  | Some (ErrorObject m) => Some m
  end.
(** The raw value of the group has the one property. *)
Definition submit : M unit := f <- the_field ;; emit (Page (Close (Some (fc_value f)))).
Definition click_button_close : M unit := emit (Page (Close None)).

Inductive event : Type := NgOnInit | TypeAddress (t : string) | Blur | AddClick | CancelClick.

Definition add_enabled (s : AddKitTokenDialogComponent) : bool :=
  match kit_token_settings_form_group s with Some f => field_valid f && fc_dirty f | None => false end.

Definition on_event (e : event) : M unit :=
  match e with
  | NgOnInit => ngOnInit
  | TypeAddress t =>
      s <- gets (fun s => s) ;;
      match kit_token_settings_form_group s with
      | Some f =>
          let f' := with_value (JStr t) (with_marks (fc_touched f) true f) in
          e <- lift (verdict f') ;; set_kit_token_settings_form_group_ (with_errors e f')
      | None => ret tt
      end
  | Blur =>
      s <- gets (fun s => s) ;;
      match kit_token_settings_form_group s with
      | Some f => set_kit_token_settings_form_group_ (with_marks true (fc_dirty f) f)
      | None => ret tt
      end
  | AddClick => s <- gets (fun s => s) ;; when (add_enabled s) submit
  | CancelClick => click_button_close
  end.

#[export] Instance add_token_dialog : Component AddKitTokenDialogComponent no_call page event no_answer :=
  {| initial := {| kit_token_settings_form_group := None |}; Runtime.on_event := on_event;
     Runtime.on_answer := fun c => match c with end |}.

(** ** What the pattern accepts *)

(** The octets up to 199, and those from 200 on whose last two digits are at most
    5. *)
Definition token_octet_ok (o : Z) : bool := (o <? 200)%Z || ((o mod 10 <=? 5)%Z && (o / 10 mod 10 <=? 5)%Z).

Lemma token_octet_language : octet_language token_octet token_octet_ok = true.
Proof. vm_compute. reflexivity. Qed.

Lemma token_octet_words w : matches token_octet w <->
  exists o, (0 <= o < 256)%Z /\ token_octet_ok o = true /\ w = String.list_ascii_of_string (pretty o).
Proof. apply octet_language_spec, token_octet_language. Qed.

Lemma token_address_words w :
  matches (cats [token_octet; dot; token_octet; dot; token_octet; dot; token_octet]) w <->
  exists a b c d, Forall (fun o => (0 <= o < 256)%Z /\ token_octet_ok o = true) [a; b; c; d] /\
    w = String.list_ascii_of_string (join_with "." [pretty a; pretty b; pretty c; pretty d]).
Proof.
  assert (E : forall a b c d : Z,
    String.list_ascii_of_string (join_with "." [pretty a; pretty b; pretty c; pretty d]) =
    String.list_ascii_of_string (pretty a) ++ ["."%char] ++ String.list_ascii_of_string (pretty b) ++ ["."%char] ++
    String.list_ascii_of_string (pretty c) ++ ["."%char] ++ String.list_ascii_of_string (pretty d) ++ []).
  { intros. cbn [join_with]. rewrite !list_ascii_app, !app_nil_r. done. }
  setoid_rewrite E. unfold cats. cbn [foldr]. split.
  - intros H.
    repeat match goal with
      | H : matches (Cat _ _) _ |- _ => apply matches_cat in H as (? & ? & -> & ? & ?)
      | H : matches Epsilon _ |- _ => apply matches_epsilon in H as ->
      | H : matches dot _ |- _ => apply matches_lit in H as ->
      | H : matches token_octet _ |- _ => apply token_octet_words in H as (? & ? & ? & ->)
      end.
    eexists _, _, _, _. split; cycle 1; [reflexivity|]. by rewrite !Forall_cons.
  - intros (a & b & c & d & H & ->). rewrite !Forall_cons in H. destruct H as ([Ha1 Ha2] & [Hb1 Hb2] & [Hc1 Hc2] & [Hd1 Hd2] & _).
    assert (Ho : forall o, (0 <= o < 256)%Z -> token_octet_ok o = true ->
      matches token_octet (String.list_ascii_of_string (pretty o))) by (intros o H1 H2; apply token_octet_words; by exists o).
    repeat (apply matches_cat; eexists _, _; split; [reflexivity|]; split; [by apply Ho || by apply matches_lit|]).
    by apply matches_epsilon.
Qed.

(** The dotted notation of an address whose octets the pattern accepts. *)
Definition token_address_ok (t : string) : Prop :=
  exists x, (0 <= x < 2 ^ 32)%Z /\ t = dotted x /\ Forall (fun o => token_octet_ok o = true) (octets x).

Lemma token_pattern_accepts t : test IP_ADDRESS_PATTERN t = true <-> token_address_ok t.
Proof.
  unfold IP_ADDRESS_PATTERN. rewrite test_anchored, token_address_words. split.
  - intros (a & b & c & d & H & ->%list_ascii_inj). rewrite !Forall_cons in H.
    destruct H as ([Ha1 Ha2] & [Hb1 Hb2] & [Hc1 Hc2] & [Hd1 Hd2] & _).
    destruct (octets_of_octets a b c d) as [E Hx]; try done. exists (of_octets a b c d). unfold dotted. rewrite E.
    split_and!; [lia|lia|done|]. by rewrite !Forall_cons.
  - intros (x & Hx & -> & H). pose proof (octets_range x) as R.
    exists (octet x 3), (octet x 2), (octet x 1), (octet x 0). split; [|done].
    apply Forall_and. split; [exact R | exact H].
Qed.

Lemma addToken_accepts c t e : value c = JStr t -> validateFromArray addToken_ip_address None c = Ret e ->
  e = None -> token_address_ok t.
Proof.
  intros E Ev He. apply token_pattern_accepts.
  assert (E1 := required_one (Text "IP Address is required.") None c t E).
  assert (E2 := pattern_text (Text "You must enter a valid IP address.") IP_ADDRESS_PATTERN c t E).
  destruct (test IP_ADDRESS_PATTERN t) eqn:Ep; [done|]. exfalso. rewrite orb_false_r in E2.
  unfold addToken_ip_address in Ev. erewrite validate_two in Ev; [|exact E1|exact E2]. injection Ev as <-.
  by destruct (t === "").
Qed.

(** ** The dialog *)

Abbreviation any := (fun _ : label event no_answer => True).

(** The control is empty, and invalid, or holds a text with its verdict. *)
Definition field_ok (f : field) : Prop :=
  fc_disabled f = false /\
  ((fc_value f = JNull /\ fc_errors f <> None) \/
   exists t, fc_value f = JStr t /\ (fc_errors f = None -> token_address_ok t)).
Definition dialog_ok (s : AddKitTokenDialogComponent) : Prop :=
  match kit_token_settings_form_group s with Some f => field_ok f | None => True end.
Definition closes_ok (e : effect no_call page) : Prop :=
  forall v, e = Page (Close (Some v)) -> exists t, v = JStr t /\ token_address_ok t.

Lemma verdict_run f t : fc_value f = JStr t -> exists e, verdict f = Ret e /\ (e = None -> token_address_ok t).
Proof.
  intros E. unfold verdict.
  assert (E1 := required_one (Text "IP Address is required.") None (control_of f) t E).
  assert (E2 := pattern_text (Text "You must enter a valid IP address.") IP_ADDRESS_PATTERN (control_of f) t E).
  eexists. split; [unfold addToken_ip_address; by erewrite validate_two; [|exact E1|exact E2]|].
  apply (addToken_accepts (control_of f)); [exact E|]. unfold addToken_ip_address.
  by erewrite validate_two; [|exact E1|exact E2].
Qed.

Lemma add_token_turn (l : label event no_answer) : safe dialog_ok closes_ok (react l).
Proof.
  destruct l as [e|[]]. intros s Hs. pose proof Hs as H0. destruct e; simpl.
  - split; [|by constructor]. split; [done|]. by left.
  - rewrite (bind_run_silent _ _ s s s) by done. unfold dialog_ok in Hs.
    destruct (kit_token_settings_form_group s) as [f|] eqn:E; [|split; [exact H0 | constructor]].
    destruct (verdict_run (with_value (JStr t) (with_marks (fc_touched f) true f)) t eq_refl) as (e & -> & He).
    split; [|by constructor]. split; [by apply Hs|]. right. by exists t.
  - rewrite (bind_run_silent _ _ s s s) by done. unfold dialog_ok in Hs.
    destruct (kit_token_settings_form_group s) as [f|] eqn:E; [|split; [exact H0 | constructor]].
    split; [exact Hs | constructor].
  - rewrite (bind_run_silent _ _ s s s) by done.
    destruct (add_enabled s) eqn:Ea; [|by split]. unfold add_enabled in Ea. unfold dialog_ok in Hs.
    destruct (kit_token_settings_form_group s) as [f|] eqn:E; [|done]. apply andb_true_iff in Ea as [Ev _].
    assert (Er : submit s = (Ret tt, s, [Page (Close (Some (fc_value f)))]))
      by (unfold submit, the_field, bind, gets, deref, ret; by rewrite E).
    cbn [when]. rewrite Er. split; [exact H0|]. constructor; [|constructor].
    intros v [= <-]. destruct Hs as [Hd [[Hn He]|(t & Et & He)]].
    + unfold field_valid, field_status in Ev. rewrite Hd in Ev. by destruct (fc_errors f).
    + exists t. split; [done|]. apply He. unfold field_valid, field_status in Ev. rewrite Hd in Ev.
      by destruct (fc_errors f).
  - split; [exact Hs|]. constructor; [by intros ?|constructor].
Qed.

Lemma dialog_closes tr w l w' v : trace any tr w -> step w l w' -> Page (Close (Some v)) ∈ made l w ->
  exists t, v = JStr t /\ token_address_ok t.
Proof.
  intros Htr _ Hin. destruct (trace_invariant any dialog_ok (fun _ => closes_ok)) with (tr := tr) (w := w) as [Hs _];
    [done|intros l0 _; apply add_token_turn|done|].
  destruct (add_token_turn l (component w) Hs) as [_ HF]. rewrite Forall_forall in HF. by apply (HF _ Hin).
Qed.
