(* ===== verification/HealthData.v ===== *)
(** modules/health-dashboard: the classes, the constants and the services of the
    health page (health.service.ts, health-dashboard-status.service.ts), and what
    the page and its parts share. *)
From S2P Require Import Prelude Handler JsValue Number Runtime Data Api.

(** ** Classes

    A class whose constructor copies every field is the record of its fields. *)

(** classes/kit-token.class.ts (src/app/classes) *)
Record KitTokenClass := {
  kit_token_id : option string;
  ipaddress : string;
  token : option string;
  elasticsearch_status : option string;
  kibana_status : option string;
  kt_hostname : option string;
}.

(** classes/key-value.class.ts *)
Record KeyValueClass := { kv_key : string; kv_value : string }.

(** classes/datastore.class.ts *)
Record DatastoreClass := {
  datastore : string;
  ds_name : string;
  ds_type : string;
  free_space : number;
  capacity : number;
}.

(** classes/describe-pod.class.ts *)
Record DescribePodNodeClass := { stdout : string; stderr : string }.

(** classes/elasticsearch-object.class.ts *)
Record ElasticsearchObjectClass := {
  eo_node_name : string;
  eo_name : string;
  active : string;
  eo_queue : string;
  rejected : string;
}.

(** classes/memory.class.ts *)
Record MemoryClass := { available : number; mem_percent : number }.

(** classes/storage.class.ts *)
Record StorageClass := { st_name : string; free : number; st_percent : number }.

(** classes/packet-stats.class.ts *)
Record PacketStatsClass := {
  app : string;
  pk_node_name : string;
  packets_received : number;
  packets_dropped : number;
}.

(** classes/capacity-allocatable-remaining.class.ts *)
Record CapacityAllocatableRemainingClass := {
  ca_cpu : string;
  ephermeral_storage : option string;
  ca_memory : string;
  ca_pods : option string;
}.

(** The [node_info] of a node *)
Record node_info_fields := {
  architecture : string;
  boot_id : string;
  container_runtime_version : string;
  kernel_version : string;
  kube_proxy_version : string;
  kubelet_version : string;
  machine_id : string;
  operating_system : string;
  os_image : string;
  system_uuid : string;
}.

(** interfaces/node-status.interface.ts *)
Record NodeStatusInterface := {
  nsi_name : string;
  nsi_address : string;
  nsi_ready : bool;
  nsi_type : string;
  nsi_storage : option (list StorageClass);
  nsi_memory : option MemoryClass;
  nsi_cpu : option number;
  nsi_capacity : CapacityAllocatableRemainingClass;
  nsi_allocatable : CapacityAllocatableRemainingClass;
  nsi_remaining : CapacityAllocatableRemainingClass;
  nsi_node_info : node_info_fields;
  nsi_app_data : option (list PacketStatsClass);
  nsi_write_rejects : option (list ElasticsearchObjectClass);
}.

(** classes/node-status.class.ts *)
Record NodeStatusClass := {
  ns_name : string;
  ns_address : string;
  ready : bool;
  ns_type : string;
  storage : option (list StorageClass);
  ns_memory : option MemoryClass;
  cpu : option number;
  ns_capacity : CapacityAllocatableRemainingClass;
  allocatable : CapacityAllocatableRemainingClass;
  remaining : CapacityAllocatableRemainingClass;
  node_info : node_info_fields;
  app_data : option (list PacketStatsClass);
  write_rejects : option (list ElasticsearchObjectClass);
}.

(** The packets and the rejects of the response are not kept. *)
Definition new_NodeStatusClass (n : NodeStatusInterface) : NodeStatusClass :=
  {| ns_name := nsi_name n; ns_address := nsi_address n; ready := nsi_ready n; ns_type := nsi_type n;
     storage := match nsi_storage n with Some l => Some l | None => None end;
     ns_memory := match nsi_memory n with Some m => Some m | None => None end;
     cpu := match nsi_cpu n with Some c => Some c | None => None end;
     ns_capacity := nsi_capacity n; allocatable := nsi_allocatable n; remaining := nsi_remaining n;
     node_info := nsi_node_info n; app_data := None; write_rejects := None |}.

Definition set_app_data (l : list PacketStatsClass) (n : NodeStatusClass) : NodeStatusClass :=
  {| ns_name := ns_name n; ns_address := ns_address n; ready := ready n; ns_type := ns_type n;
     storage := storage n; ns_memory := ns_memory n; cpu := cpu n; ns_capacity := ns_capacity n;
     allocatable := allocatable n; remaining := remaining n; node_info := node_info n;
     app_data := Some l; write_rejects := write_rejects n |}.

Definition set_write_rejects (l : list ElasticsearchObjectClass) (n : NodeStatusClass) : NodeStatusClass :=
  {| ns_name := ns_name n; ns_address := ns_address n; ready := ready n; ns_type := ns_type n;
     storage := storage n; ns_memory := ns_memory n; cpu := cpu n; ns_capacity := ns_capacity n;
     allocatable := allocatable n; remaining := remaining n; node_info := node_info n;
     app_data := app_data n; write_rejects := Some l |}.

(** classes/pod-log.class.ts *)
Record PodLogClass := { logs : string; pl_name : string }.

(** classes/pod-status-resource.class.ts *)
Record PodStatusResourceClass := { psr_name : string; limits : jsval; requests : jsval }.

(** classes/status-condition.class.ts *)
Record StatusConditionClass := { last_transition_time : string; sc_status : string; sc_type : string }.

(** classes/status-container-status.class.ts *)
Record StatusContainerStatusClass := {
  container_id : string;
  image : string;
  image_id : string;
  last_state : jsval;
  scs_name : string;
  scs_ready : bool;
  scs_restart_count : number;
  started : bool;
  state : jsval;
}.

(** classes/status-pod-ips.class.ts *)
Record StatusPodIPSClass := { ip : string }.

(** interfaces/pod-status-status.interface.ts: the arrays may be missing, and the
    constructor of classes/pod-status-status.class.ts leaves them unset then. *)
Record PodStatusStatusClass := {
  conditions : option (list StatusConditionClass);
  container_statuses : option (list StatusContainerStatusClass);
  host_ip : string;
  phase : string;
  pod_ip : string;
  pod_i_ps : option (list StatusPodIPSClass);
  qos_class : string;
  start_time : string;
}.

(** classes/pod-status.class.ts; a pod no node runs has no node name. *)
Record PodStatusClass := {
  namespace : string;
  pod_name : string;
  node_name : option string;
  status_brief : string;
  restart_count : number;
  states : list string;
  resources : list PodStatusResourceClass;
  pod_status : PodStatusStatusClass;
  warnings : number;
}.

(** ** constants/health-dashboard.constant.ts and constants/cvah.constants.ts *)

Definition HEALTH_DASHBOARD_TITLE : string := "Health".
Definition LOCALHOST : string := "localhost".
Definition BYTES_PER_GIB : Z := 1024 * 1024 * 1024.
Definition COLUMNS_FOR_DATASTORE_TABLE : list string := ["name"; "free"; "capacity"; "percent_full"].
Definition COLUMNS_FOR_SENSOR_TABLE : list string := ["app"; "total_packets"; "total_packets_dropped"].
Definition COLUMNS_FOR_SERVER_TABLE : list string := ["node_name"; "thread_pool_name"; "rejects"].
Definition COLUMNS_FOR_GROUP_HEADER_TABLE : list string := ["node_name"; "group_status"].
Record ColumnDefinitionsLocalhostInterface := { cdl_def : string; localhost_only : bool }.
Definition COLUMN_DEFINITIONS_LOCALHOST_DASHBOARD : list ColumnDefinitionsLocalhostInterface :=
  [Build_ColumnDefinitionsLocalhostInterface "hostname" false;
   Build_ColumnDefinitionsLocalhostInterface "ipaddress" true;
   Build_ColumnDefinitionsLocalhostInterface "elasticsearch_status" true;
   Build_ColumnDefinitionsLocalhostInterface "kibana_status" true;
   Build_ColumnDefinitionsLocalhostInterface "actions" false].
Record ColumnDefinitionsInterface := { cd_def : string; remote_access : bool }.
Definition COLUMN_DEFINITIONS_NODES : list ColumnDefinitionsInterface :=
  [Build_ColumnDefinitionsInterface "name" true; Build_ColumnDefinitionsInterface "address" true;
   Build_ColumnDefinitionsInterface "ready" true; Build_ColumnDefinitionsInterface "type" true;
   Build_ColumnDefinitionsInterface "storage" true; Build_ColumnDefinitionsInterface "memory" true;
   Build_ColumnDefinitionsInterface "cpu" true; Build_ColumnDefinitionsInterface "actions" false;
   Build_ColumnDefinitionsInterface "expand_col" true].
Definition COLUMN_DEFINITIONS_PODS : list ColumnDefinitionsInterface :=
  [Build_ColumnDefinitionsInterface "namespace" true; Build_ColumnDefinitionsInterface "name" true;
   Build_ColumnDefinitionsInterface "container_states" true;
   Build_ColumnDefinitionsInterface "restart_count" true; Build_ColumnDefinitionsInterface "actions" false].
Definition CHART_TYPE_PIE : string := "pie".
Definition TITLE_FONT_COLOR : string := "#cfcfcf".
Definition SUFFIX_SELECTIONS : list string := [""; "KiB"; "MiB"; "GiB"; "TiB"].
Definition UNASSIGNED : string := "Unassigned".
Definition CLOSE_CONFIRM_ACTION_CONFIGURATION : ConfirmActionConfigurationInterface :=
  {| ca_title := "Close"; ca_message := ""; confirmButtonText := "Close"; successText := ""; failText := "";
     useGeneralActionFunc := true |}.
Definition KIT_UNAVAILABLE : string :=
  "No data present or data is too old. Check that the remote health agent is running on the selected kit.".
Definition KIBANA_LOGIN : string := "Kibana Login".

Definition RUNNING : string := "running".
Definition TERMINATED : string := "terminated".
Definition WAITING : string := "waiting".
Definition STATE_REASON : string := "reason".
Definition STATUS_RUNNING : string := "Running".
Definition STATUS_SUCCEEDED : string := "Succeeded".
Definition STATUS_COMPLETED : string := "Completed".
Definition STATUS_PENDING : string := "Pending".
Definition STATUS_CONTAINER_CREATING : string := "ContainerCreating".
Definition STATUS_TERMINATING : string := "Terminating".
Definition STATUS_FAILED : string := "Failed".
Definition STATUS_ERROR : string := "Error".
Definition STATUS_NOT_READY : string := "NotReady".
Definition STATUS_UNKNOWN : string := "Unknown".
Definition POD_STATUS_VALUES : list string := ["check_circle"; "circle"; "warning"; "error"; "sync_problem"].

(** ** services/health.service.ts *)

Definition get_datastores : service unit (list DatastoreClass) (list DatastoreClass) :=
  Service GET "/api/health/datastores" tt "get datastores" copied.

(** A path for the selected kit, the local one without a selection. *)
Definition for_kit (kit_token : option KitTokenClass) (remote : KitTokenClass -> string) (here : string) : string :=
  match kit_token with Some t => remote t | None => here end.

Definition write_rejects_request (kit_token : option KitTokenClass)
    : service unit (list ElasticsearchObjectClass) (list ElasticsearchObjectClass) :=
  Service GET (for_kit kit_token (fun t => "/api/app/elasticsearch/rejects/remote/" +:+ ipaddress t)
                 "/api/app/elasticsearch/rejects") tt "elasticsearch write rejects" copied.

Definition zeek_pckt_stats (kit_token : option KitTokenClass)
    : service unit (list PacketStatsClass) (list PacketStatsClass) :=
  Service GET (for_kit kit_token (fun t => "/api/app/zeek/packets/remote/" +:+ ipaddress t)
                 "/api/app/zeek/packets") tt "zeek pckt stats" copied.

Definition suricata_pckt_stats (kit_token : option KitTokenClass)
    : service unit (list PacketStatsClass) (list PacketStatsClass) :=
  Service GET (for_kit kit_token (fun t => "/api/app/suricata/packets/remote/" +:+ ipaddress t)
                 "/api/app/suricata/packets") tt "suricata pckt stats" copied.

Definition get_nodes_status (kit_token : option KitTokenClass)
    : service unit (list NodeStatusInterface) (list NodeStatusClass) :=
  Service GET (for_kit kit_token
                 (fun t => "/api/kubernetes/remote/" +:+ default "undefined" (kit_token_id t) +:+ "/nodes/status")
                 "/api/kubernetes/nodes/status") tt "get nodes status"
    (fun response => Ret (new_NodeStatusClass <$> response)).

Definition get_pods_status (kit_token : option KitTokenClass)
    : service unit (list PodStatusClass) (list PodStatusClass) :=
  Service GET (for_kit kit_token
                 (fun t => "/api/kubernetes/remote/" +:+ default "undefined" (kit_token_id t) +:+ "/pods/status")
                 "/api/kubernetes/pods/status") tt "get pods status" copied.

Definition describe_node_request (node : string) : service unit DescribePodNodeClass DescribePodNodeClass :=
  Service GET ("/api/kubernetes/node/describe/" +:+ node) tt "describe node" copied.

Definition describe_pod_request (pod ns : string) : service unit DescribePodNodeClass DescribePodNodeClass :=
  Service GET ("/api/kubernetes/pod/describe/" +:+ pod +:+ "/" +:+ ns) tt "describe pod" copied.

Definition pod_logs_request (pod ns : string) : service unit (list PodLogClass) (list PodLogClass) :=
  Service GET ("/api/kubernetes/pod/logs/" +:+ pod +:+ "/" +:+ ns) tt "pod logs" copied.

(** ** services/health-dashboard-status.service.ts *)

Definition get_health_dashboard_status : service unit (list KitTokenClass) (list KitTokenClass) :=
  Service GET "/api/health/dashboard/status" tt "get health dashboard status" copied.

Definition get_remote_health_dashboard_status : service unit (list KitTokenClass) (list KitTokenClass) :=
  Service GET "/api/health/remote/dashboard/status" tt "get remote health dashboard status" copied.

Definition get_health_dashboard_status_kibana_info_remote (ip_address : string)
    : service unit (list KeyValueClass) (list KeyValueClass) :=
  Service GET ("/api/app/kibana/info/remote/" +:+ ip_address) tt
    "get health dashboard status kibana info remote" copied.

(** ** What the page and its parts share *)

(** interfaces/health-dashboard-dialog-data.interface.ts *)
Record HealthDashboardDialogDataInterface := { hdd_title : string; info : list KeyValueClass }.
(** interfaces/pod-log-dialog-data.interface.ts *)
Record PodLogDialogDataInterface := { pld_title : string; pod_log_info : list PodLogClass }.

(** What the page and its parts do to the window. *)
Inductive page : Type :=
| OpenTextEditor (d : TextEditorConfigurationInterface)
| OpenPodLogs (d : PodLogDialogDataInterface)
| OpenInformation (d : HealthDashboardDialogDataInterface)
| DestroySnackBar
| StartInterval (period : Z)
| StopInterval.

(** The text a description is shown with, in both tables. *)
Definition read_only_text (name text : string) : TextEditorConfigurationInterface :=
  {| show_options := false; is_read_only := true; te_title := name; te_text := text;
     use_language := "plaintext"; display_save := JBool false; disable_save := Some true;
     confirm_save := None; confirm_close := Some CLOSE_CONFIRM_ACTION_CONFIGURATION |}.

(** The changes of an input as [ngOnChanges] receives them.  [isFirstChange] is
    a method: reading it without calling it gives a function, which is truthy. *)
Record SimpleChange := {
  currentValue : option (nat * KitTokenClass);
  previousValue : option (nat * KitTokenClass);
}.
Definition isFirstChange_member : bool := true.

(** The condition of both tables; objects are compared by their identity. *)
Definition token_changed (token_changes : option SimpleChange) : bool :=
  match token_changes with
  | Some c =>
      (negb (bool_decide (fst <$> currentValue c = fst <$> previousValue c)) &&
       notUndefNull (previousValue c)) || isFirstChange_member
  | None => false
  end.

(** [this.token && this.token.token == null] *)
Definition kit_is_silent (t : option KitTokenClass) : bool :=
  match t with Some k => negb (notUndefNull (token k)) | None => false end.
