(* ===== verification/KitTokens.v ===== *)
(** modules/system-settings/components/kit-token-settings: the tokens of the kits
    and the dialog that shows one. *)
From S2P Require Import Prelude Handler JsValue Runtime Data Api Fields HealthData AddKitToken.

(** ** services/kit-token-settings.service.ts *)

Definition get_kit_tokens : service unit (list KitTokenClass) (list KitTokenClass) :=
  Service GET "/api/kit-token" tt "get kit tokens" copied.
Definition create_kit_token (kit_token : jsval) : service jsval KitTokenClass KitTokenClass :=
  Service POST "/api/kit-token" kit_token "create kit_token" copied.
Definition delete_kit_token (kit_token_id : string) : service unit SuccessMessageClass SuccessMessageClass :=
  Service DELETE ("/api/kit-token/" +:+ kit_token_id) tt "delete kit_token" copied.

(** ** components/copy-token-dialog: [copied] is what the clipboard returned. *)

Definition click_button_copy_token {S C D} (copied : bool) : handler S (effect C D) unit :=
  when copied (displaySnackBar "Token copied to clipboard!" (Some MAT_SNACKBAR_CONFIGURATION_60000_DUR_OK)).

Inductive copy_page : Type := CloseCopy.
Definition close_copy_dialog {S C} : handler S (effect C copy_page) unit := emit (Page CloseCopy).

(** ** The component *)

Inductive call : Type :=
| CTokens
| CCreate (ipaddress : jsval)
| CDelete (kit_token : KitTokenClass)
| DAdd.
Definition Ans (c : call) : Type :=
  match c with
  | CTokens => answer (list KitTokenClass)
  | CCreate _ => answer KitTokenClass
  | CDelete _ => answer SuccessMessageClass
  | DAdd => option jsval
  end.

Inductive page : Type :=
| OpenCopyToken (title : string) (token : option string)
| RenderRows.

Record KitTokenSettingsComponent := {
  gip_build : option bool;
  disable_add_kit_button : bool;
  kit_tokens : list KitTokenClass;
}.
Abbreviation M := (handler KitTokenSettingsComponent (effect call page)).

Definition with_tokens v s :=
  {| gip_build := gip_build s; disable_add_kit_button := disable_add_kit_button s; kit_tokens := v |}.

Definition constructor : KitTokenSettingsComponent :=
  {| gip_build := None; disable_add_kit_button := false; kit_tokens := [] |}.

Definition get : M KitTokenSettingsComponent := gets (fun s => s).

Definition disabled_button_add_kit (s : KitTokenSettingsComponent) : bool :=
  negb (truthy (gip_build s)) || disable_add_kit_button s.

Definition api_get_kit_tokens_ : M unit := emit (Subscribe CTokens).
Definition api_create_kit_token_ (ipaddress : jsval) : M unit := emit (Subscribe (CCreate ipaddress)).
Definition api_delete_kit_token_ (kit_token : KitTokenClass) : M unit := emit (Subscribe (CDelete kit_token)).

Definition ngOnInit : M unit := api_get_kit_tokens_.
Definition click_button_delete (kit_token : KitTokenClass) : M unit := api_delete_kit_token_ kit_token.
Definition open_copy_token_dialog (kit_token : KitTokenClass) : M unit :=
  emit (Page (OpenCopyToken ("Kit Token: " +:+ ipaddress kit_token) (token kit_token))).
Definition open_add_kit_token_dialog : M unit := emit (Subscribe DAdd).
Definition add_closed (response : option jsval) : M unit :=
  match response with Some ip => api_create_kit_token_ ip | None => ret tt end.

Definition api_get_kit_tokens_answer (a : answer (list KitTokenClass)) : M unit :=
  match a with
  | Next response => modify (with_tokens response)
  | Error e => on_error_message "retrieving kit tokens" e
  end.
Definition api_create_kit_token_answer (ip : jsval) (a : answer KitTokenClass) : M unit :=
  match a with
  | Next response =>
      modify (fun s => with_tokens (kit_tokens s ++ [response]) s) ;;;
      emit (Page RenderRows) ;;;
      displaySnackBar ("Token Generated for Kit " +:+ js_to_string ip) (Some MAT_SNACKBAR_CONFIGURATION_60000_DUR_OK)
  | Error e => on_error_message "creating kit token" e
  end.
Definition same_id (a b : KitTokenClass) : bool := bool_decide (kit_token_id a = kit_token_id b).
Definition api_delete_kit_token_answer (kit_token : KitTokenClass) (a : answer SuccessMessageClass) : M unit :=
  match a with
  | Next response =>
      generate_return_success_snackbar_message (success_message response) (Some MAT_SNACKBAR_CONFIGURATION_60000_DUR_OK) ;;;
      modify (fun s => with_tokens (List.filter (fun kt => negb (same_id kt kit_token)) (kit_tokens s)) s)
  | Error e => on_error_message "deleting kit token" e
  end.

Inductive event : Type :=
| NgOnInit
| Bind (gip_build : option bool) (disable_add_kit_button : bool)
| DeleteClick (i : nat)
| ViewClick (i : nat)
| AddKitClick.

(** A click on the button of a row that is shown. *)
Definition on_row (i : nat) (m : KitTokenClass -> M unit) : M unit :=
  s <- get ;; match kit_tokens s !! i with Some kt => m kt | None => ret tt end.

Definition on_event (e : event) : M unit :=
  match e with
  | NgOnInit => ngOnInit
  | Bind gip d => modify (fun s => {| gip_build := gip; disable_add_kit_button := d; kit_tokens := kit_tokens s |})
  | DeleteClick i => on_row i click_button_delete
  | ViewClick i => on_row i (fun kt =>
      when (match token kt with Some t => t !== "" | None => false end) (open_copy_token_dialog kt))
  | AddKitClick => s <- get ;; when (negb (disabled_button_add_kit s)) open_add_kit_token_dialog
  end.
Definition on_answer (c : call) : Ans c -> M unit :=
  match c with
  | CTokens => api_get_kit_tokens_answer
  | CCreate ip => api_create_kit_token_answer ip
  | CDelete kt => api_delete_kit_token_answer kt
  | DAdd => add_closed
  end.

#[export] Instance kit_token_settings : Component KitTokenSettingsComponent call page event Ans :=
  {| initial := constructor; Runtime.on_event := on_event; Runtime.on_answer := on_answer |}.

(** A dialog that the page opened returns an address only by closing with it. *)
Definition from_dialogs (l : label event Ans) : Prop :=
  match l with
  | Answered c a =>
      match c return Ans c -> Prop with
      | DAdd => fun r => forall v, r = Some v -> exists tr w l' w',
          trace (fun _ : label AddKitToken.event AddKitToken.no_answer => True) tr w /\ step w l' w' /\
          Page (AddKitToken.Close (Some v)) ∈ made l' w
      | _ => fun _ => True
      end a
  | Event _ => True
  end.

(** C32: a token is created only for the address that the dialog was closed with,
    and that is an address in dotted notation whose octets are below 200, or from
    200 on with both last digits at most 5, whatever was typed in the dialog
    before; so 10.0.0.206 is no address for the dialog. *)
Theorem tokens_are_created_for_addresses tr w l w' v :
  trace from_dialogs tr w -> from_dialogs l -> step w l w' -> Subscribe (CCreate v) ∈ made l w ->
  l = Answered DAdd (Some v) /\ exists t, v = JStr t /\ token_address_ok t.
Proof.
  intros _ Hl _ Hin. assert (H : l = Answered DAdd (Some v)).
  { unfold made in Hin. destruct l as [e|c a]; simpl in Hin.
    - exfalso. destruct e; simpl in Hin; unfold on_row, get in Hin; try (by apply elem_of_cons in Hin as [?|?%not_elem_of_nil]);
        try (by apply not_elem_of_nil in Hin);
        rewrite (bind_run_silent _ _ _ (component w) (component w)) in Hin by done.
      + destruct (kit_tokens (component w) !! i); [|by apply not_elem_of_nil in Hin].
        by apply elem_of_cons in Hin as [?|?%not_elem_of_nil].
      + destruct (kit_tokens (component w) !! i) as [kt|]; [|by apply not_elem_of_nil in Hin].
        destruct (match token kt with Some _ => _ | None => _ end); [|by apply not_elem_of_nil in Hin].
        by apply elem_of_cons in Hin as [?|?%not_elem_of_nil].
      + destruct (negb _); [|by apply not_elem_of_nil in Hin]. by apply elem_of_cons in Hin as [?|?%not_elem_of_nil].
    - destruct c; try destruct a as [a|e]; simpl in Hin; try destruct e;
        repeat (apply elem_of_cons in Hin as [Hin|Hin]; [try done|]); try (by apply not_elem_of_nil in Hin).
      injection Hin as ->. done. }
  subst l. split; [done|]. simpl in Hl. destruct (Hl v eq_refl) as (tr' & w1 & l' & w2 & T & S & I).
  exact (AddKitToken.dialog_closes tr' w1 l' w2 v T S I).
Qed.

Lemma tokens_are_created_for_addresses_witness : exists tr w l w' v,
  trace from_dialogs tr w /\ from_dialogs l /\ step w l w' /\ Subscribe (CCreate v) ∈ made l w /\
  l = Answered DAdd (Some v) /\ exists t, v = JStr t /\ token_address_ok t.
Proof.
  assert (Hl : from_dialogs (Answered DAdd (Some (JStr "10.0.0.5")))).
  { intros v [= <-]. pose proof (trace_start (fun _ : label AddKitToken.event AddKitToken.no_answer => True)) as T.
    apply (trace_event _ _ _ AddKitToken.NgOnInit) in T; [|exact I].
    apply (trace_event _ _ _ (AddKitToken.TypeAddress "10.0.0.5")) in T; [|exact I].
    match type of T with trace _ ?tr ?w => exists tr, w, (Event AddKitToken.AddClick); eexists end.
    split; [exact T|]. split; [apply step_event|]. vm_compute. left. }
  pose proof (trace_start from_dialogs) as T.
  apply (trace_event _ _ _ (Bind (Some true) false)) in T; [|exact I].
  apply (trace_event _ _ _ AddKitClick) in T; [|exact I].
  match type of T with trace _ ?tr ?w => set (w1 := w) in T; exists tr, w1 end.
  exists (Answered DAdd (Some (JStr "10.0.0.5"))).
  pose proof (step_answer w1 [] DAdd [] (Some (JStr "10.0.0.5")) eq_refl) as Hs.
  assert (Hin : Subscribe (CCreate (JStr "10.0.0.5")) ∈ made (Answered DAdd (Some (JStr "10.0.0.5"))) w1)
    by (vm_compute; left).
  eexists _, _. split; [exact T|]. split; [exact Hl|]. split; [exact Hs|]. split; [exact Hin|].
  exact (tokens_are_created_for_addresses _ _ _ _ _ T Hl Hs Hin).
Defined.
