(* ===== verification/Datastores.v ===== *)
(** components/datastores/datastores.component.ts: the datastores of the health
    page, and the unit a number of bytes is shown in. *)
From S2P Require Import Prelude Handler JsValue Number Runtime Data Api HealthData.

Record CalculatedSpaceInterface := { space : number; space_with_suffix : string }.

Record HealthDashboardDatastoresComponent := {
  columns_for_datastores : list string;
  is_card_visible : bool;
  is_table_visibile : bool;
  datastores : list DatastoreClass;
  expanded_table : option string;
  pie_chart_type : string;
  title_font_color : string;
}.

Inductive call : Type := CDatastores.
Definition Ans (c : call) : Type := answer (list DatastoreClass).
Abbreviation M := (handler HealthDashboardDatastoresComponent (effect call page)).

Definition constructor : HealthDashboardDatastoresComponent :=
  {| columns_for_datastores := COLUMNS_FOR_DATASTORE_TABLE; is_card_visible := true; is_table_visibile := false;
     datastores := []; expanded_table := None; pie_chart_type := CHART_TYPE_PIE; title_font_color := TITLE_FONT_COLOR |}.

Definition with_view v l t (s : HealthDashboardDatastoresComponent) :=
  {| columns_for_datastores := columns_for_datastores s; is_card_visible := v; is_table_visibile := is_table_visibile s;
     datastores := l; expanded_table := t; pie_chart_type := pie_chart_type s; title_font_color := title_font_color s |}.
Definition set_is_card_visible v s := with_view v (datastores s) (expanded_table s) s.
Definition set_datastores v s := with_view (is_card_visible s) v (expanded_table s) s.
Definition set_expanded_table v s := with_view (is_card_visible s) (datastores s) v s.

(** [Math.round((x + Number.EPSILON) * 100) / 100] *)
Definition round2 (x : number) : number :=
  (Math_round ((x + EPSILON) * number_of_Z 100) / number_of_Z 100)%number.

(** The loop stops when the next factor would show at most one. *)
Definition next_space (bytes factor : number) : number := round2 (bytes / (factor * number_of_Z 1024))%number.

Fixpoint space_loop (fuel : nat) (bytes factor : number) (count : nat) : option (number * nat) :=
  match fuel with
  | O => None
  | S k =>
      if (factor <? number_of_Z 1099511627776)%number then
        if (next_space bytes factor <=? number_of_Z 1)%number then Some (factor, count)
        else space_loop k bytes (factor * number_of_Z 1024)%number (S count)
      else Some (factor, count)
  end.

Definition calculate_space_ (fuel : nat) (bytes : number) : option CalculatedSpaceInterface :=
  match space_loop fuel bytes (number_of_Z 1) 0 with
  | Some (factor, count) =>
      let space := round2 (bytes / factor)%number in
      Some {| space := space;
              space_with_suffix :=
                number_to_string space +:+ " " +:+ default "undefined" (SUFFIX_SELECTIONS !! count) |}
  | None => None
  end.

(** The loop multiplies the factor at most four times. *)
Definition SPACE_FUEL : nat := 5.

Definition to_si (bytes : number) : option string :=
  space_with_suffix <$> calculate_space_ SPACE_FUEL bytes.

Definition chart_data (d : DatastoreClass) : option (list number) :=
  match calculate_space_ SPACE_FUEL (free_space d), calculate_space_ SPACE_FUEL (capacity d) with
  | Some free, Some cap => Some [(space cap - space free)%number; space cap]
  | _, _ => None
  end.

Definition api_get_datastores_ : M unit := emit (Subscribe CDatastores).

Definition api_get_datastores_answer (a : answer (list DatastoreClass)) : M unit :=
  match a with
  | Next response => modify (set_datastores response)
  | Error e => modify (set_datastores []) ;;; on_error "retrieving datastore" e
  end.

Definition ngOnInit : M unit := api_get_datastores_.
Definition toggle_card : M unit := modify (fun s => set_is_card_visible (negb (is_card_visible s)) s).
Definition reload : M unit := api_get_datastores_.

(** A click on the only row of the outer table, the text Title. *)
Definition row_click (row : string) : M unit :=
  modify (fun s => set_expanded_table (if expanded_table s ?=== row then None else Some row) s).

Definition on_answer (c : call) : Ans c -> M unit := match c with CDatastores => api_get_datastores_answer end.

Definition GiB (n : Z) : number := number_of_Z (n * 1024 * 1024 * 1024).
Example spaces_shown :
  to_si (number_of_Z 512) = Some "512 " /\ to_si (number_of_Z 1024) = Some "1024 " /\
  to_si (number_of_Z 1536) = Some "1.5 KiB" /\ to_si (GiB 500) = Some "500 GiB" /\
  to_si (GiB 4096) = Some "4 TiB" /\ to_si NaN = Some "NaN TiB" /\ to_si (number_of_Z (-5)) = Some "-5 ".
Proof. vm_compute. done. Qed.

(** The free space and the capacity are counted in different units. *)
Example chart_mixes_units :
  (map number_to_string <$>
     chart_data {| datastore := "ds"; ds_name := "ds"; ds_type := "VMFS"; free_space := GiB 500; capacity := GiB 2048 |})
  = Some ["-498"; "2"].
Proof. vm_compute. done. Qed.

(** ** What the part guarantees *)

(** The factors of the loop, powers of 1024. *)
Lemma factor_grows i :
  (i < 4)%nat -> (number_of_Z (1024 ^ Z.of_nat i) * number_of_Z 1024)%number = number_of_Z (1024 ^ Z.of_nat (S i)).
Proof. intros H. do 4 (destruct i as [|i]; [by vm_compute|]). lia. Qed.

Lemma factor_bound i :
  (i <= 4)%nat -> (number_of_Z (1024 ^ Z.of_nat i) <? number_of_Z 1099511627776)%number = Nat.ltb i 4.
Proof. intros H. do 5 (destruct i as [|i]; [by vm_compute|]). lia. Qed.

(** The unit [i] is passed over: the next one would show more than one, or not a
    number. *)
Definition passed (bytes : number) (i : nat) : bool :=
  negb (next_space bytes (number_of_Z (1024 ^ Z.of_nat i)) <=? number_of_Z 1)%number.

Lemma space_loop_stops fuel bytes i :
  (i <= 4)%nat -> (4 - i < fuel)%nat ->
  exists count, (i <= count <= 4)%nat /\
    space_loop fuel bytes (number_of_Z (1024 ^ Z.of_nat i)) i = Some (number_of_Z (1024 ^ Z.of_nat count), count) /\
    (forall j, (i <= j < count)%nat -> passed bytes j = true) /\
    ((count < 4)%nat -> passed bytes count = false).
Proof.
  revert i. induction fuel as [|fuel IH]; intros i Hi Hf; [lia|]. cbn [space_loop].
  rewrite factor_bound by done. destruct (Nat.ltb_spec i 4) as [Hlt|Hge].
  - destruct (passed bytes i) eqn:Hp; pose proof Hp as Hp'; unfold passed in Hp'.
    + apply negb_true_iff in Hp' as ->. rewrite factor_grows by done.
      destruct (IH (S i)) as (count & Hc & -> & Hall & Hlast); [lia|lia|].
      exists count. split_and!; [lia|lia|done| |done].
      intros j Hj. destruct (decide (j = i)) as [->|]; [done | apply Hall; lia].
    + apply negb_false_iff in Hp' as ->. exists i. split_and!; [lia|lia|done|lia|done].
  - exists i. assert (i = 4%nat) as -> by lia. split_and!; [lia|lia|done|lia|lia].
Qed.

(** C19: whatever number of bytes is shown, NaN and the infinities included, the
    loop of [calculate_space_] ends within five tests; the space is counted in
    the first unit whose successor would show at most one, or in TiB, so there
    is always a suffix. *)
Theorem calculate_space_terminates fuel bytes :
  (SPACE_FUEL <= fuel)%nat ->
  exists count suffix, SUFFIX_SELECTIONS !! count = Some suffix /\
    (forall j, (j < count)%nat -> passed bytes j = true) /\ ((count < 4)%nat -> passed bytes count = false) /\
    let space := round2 (bytes / number_of_Z (1024 ^ Z.of_nat count))%number in
    calculate_space_ fuel bytes =
      Some {| space := space; space_with_suffix := number_to_string space +:+ " " +:+ suffix |}.
Proof.
  intros Hf. unfold SPACE_FUEL in Hf.
  destruct (space_loop_stops fuel bytes 0) as (count & Hc & Hloop & Hall & Hlast); [lia|lia|].
  destruct (lookup_lt_is_Some_2 SUFFIX_SELECTIONS count) as [suffix Hs]; [simpl; lia|].
  exists count, suffix. split_and!; [done | intros; apply Hall; lia | done |].
  unfold calculate_space_. change (number_of_Z 1) with (number_of_Z (1024 ^ Z.of_nat 0)) at 1.
  by rewrite Hloop, Hs.
Qed.

Lemma calculate_space_terminates_witness :
  (exists count suffix, SUFFIX_SELECTIONS !! count = Some suffix /\
    (forall j, (j < count)%nat -> passed NaN j = true) /\ ((count < 4)%nat -> passed NaN count = false) /\
    let space := round2 (NaN / number_of_Z (1024 ^ Z.of_nat count))%number in
    calculate_space_ 5 NaN =
      Some {| space := space; space_with_suffix := number_to_string space +:+ " " +:+ suffix |}) /\
  to_si NaN = Some "NaN TiB".
Proof. split; [apply (calculate_space_terminates 5 NaN); unfold SPACE_FUEL; lia | by vm_compute]. Defined.
