(* ===== verification/NodeTable.v ===== *)
(** components/node-table/node-table.component.ts: the node table of the health
    page, a part with its own state, subscriptions and handlers. *)
From S2P Require Import Prelude Handler JsValue Number Runtime Data Api HealthData.

(** [expanded_element] is the row of a node or the empty array; a node has no
    [length], so only the empty array has length zero. *)
Record HealthDashboardNodeTableComponent := {
  node_token : option KitTokenClass;
  is_nodes_visible : bool;
  nodes : option (list NodeStatusClass);
  expanded_element : option NodeStatusClass;
  column_definitions_nodes_ : list ColumnDefinitionsInterface;
  write_rejects_ : list ElasticsearchObjectClass;
  suricata_data_ : list PacketStatsClass;
  zeek_data_ : list PacketStatsClass;
}.

(** A request carries the kit that was selected when it was made. *)
Inductive call : Type :=
| CDescribeNode (node : string)
| CNodesStatus (kit : option KitTokenClass)
| CWriteRejects (kit : option KitTokenClass)
| CSuricata (kit : option KitTokenClass)
| CZeek (kit : option KitTokenClass).

Definition Ans (c : call) : Type :=
  match c with
  | CDescribeNode _ => answer DescribePodNodeClass
  | CNodesStatus _ => answer (list NodeStatusClass)
  | CWriteRejects _ => answer (list ElasticsearchObjectClass)
  | CSuricata _ | CZeek _ => answer (list PacketStatsClass)
  end.
Abbreviation M := (handler HealthDashboardNodeTableComponent (effect call page)).

Definition constructor : HealthDashboardNodeTableComponent :=
  {| node_token := None; is_nodes_visible := true; nodes := None; expanded_element := None;
     column_definitions_nodes_ := COLUMN_DEFINITIONS_NODES; write_rejects_ := []; suricata_data_ := [];
     zeek_data_ := [] |}.

Definition with_all k v n e w su z (s : HealthDashboardNodeTableComponent) :=
  {| node_token := k; is_nodes_visible := v; nodes := n; expanded_element := e;
     column_definitions_nodes_ := column_definitions_nodes_ s; write_rejects_ := w; suricata_data_ := su;
     zeek_data_ := z |}.
Definition set_token v s := with_all v (is_nodes_visible s) (nodes s) (expanded_element s) (write_rejects_ s) (suricata_data_ s) (zeek_data_ s) s.
Definition set_is_nodes_visible v s := with_all (node_token s) v (nodes s) (expanded_element s) (write_rejects_ s) (suricata_data_ s) (zeek_data_ s) s.
Definition set_nodes v s := with_all (node_token s) (is_nodes_visible s) v (expanded_element s) (write_rejects_ s) (suricata_data_ s) (zeek_data_ s) s.
Definition set_expanded_element v s := with_all (node_token s) (is_nodes_visible s) (nodes s) v (write_rejects_ s) (suricata_data_ s) (zeek_data_ s) s.
Definition set_write_rejects_ v s := with_all (node_token s) (is_nodes_visible s) (nodes s) (expanded_element s) v (suricata_data_ s) (zeek_data_ s) s.
Definition set_suricata_data_ v s := with_all (node_token s) (is_nodes_visible s) (nodes s) (expanded_element s) (write_rejects_ s) v (zeek_data_ s) s.
Definition set_zeek_data_ v s := with_all (node_token s) (is_nodes_visible s) (nodes s) (expanded_element s) (write_rejects_ s) (suricata_data_ s) v s.

Definition get : M HealthDashboardNodeTableComponent := gets (fun s => s).

Definition api_get_node_status_ : M unit := s <- get ;; emit (Subscribe (CNodesStatus (node_token s))).
Definition api_write_rejects_ : M unit := s <- get ;; emit (Subscribe (CWriteRejects (node_token s))).
Definition api_suricata_pckt_stats_ : M unit := s <- get ;; emit (Subscribe (CSuricata (node_token s))).
Definition api_zeek_pckt_stats_ : M unit := s <- get ;; emit (Subscribe (CZeek (node_token s))).
Definition api_describe_node_ (node : string) : M unit := emit (Subscribe (CDescribeNode node)).

Definition reload : M unit :=
  s <- get ;;
  when (negb (notUndefNull (expanded_element s)))
    (if kit_is_silent (node_token s) then modify (set_nodes (Some [])) else api_get_node_status_).

Definition ngOnChanges (token_changes : option SimpleChange) : M unit :=
  when (token_changed token_changes) reload.

Definition node_displayed_cols : M (list string) :=
  s <- get ;;
  ret (cd_def <$> List.filter (fun cd => if notUndefNull (node_token s) then remote_access cd else true)
                    (column_definitions_nodes_ s)).

Definition describe_node (node : string) : M unit := api_describe_node_ node.
Definition toggle_nodes_card : M unit := modify (fun s => set_is_nodes_visible (negb (is_nodes_visible s)) s).

(** The click on a row, in the template: the empty array has no name. *)
Definition row_click (row : NodeStatusClass) : M unit :=
  modify (fun s => set_expanded_element
    (if (ns_name <$> expanded_element s) ?=== ns_name row then None else Some row) s).

(** The objects of the response are only held by [nodes]; the row that is
    expanded is read for its name and type, which nothing changes. *)
Definition update_node_statuses_ : M unit :=
  s <- get ;;
  l <- deref (nodes s) ;;
  (let of_node node := List.filter (fun d => pk_node_name d === ns_name node) in
   modify (set_nodes (Some ((fun node =>
     let node1 := set_app_data (of_node node (suricata_data_ s) ++ of_node node (zeek_data_ s)) node in
     if ns_type node === "server" then set_write_rejects (write_rejects_ s) node1 else node1) <$> l)))).

Definition open_dialog_window_ (name text : string) : M unit := emit (Page (OpenTextEditor (read_only_text name text))).

Definition api_describe_node_answer (node : string) (a : answer DescribePodNodeClass) : M unit :=
  match a with
  | Next response => open_dialog_window_ node (stdout response)
  | Error e => on_error "retrieving describe node" e
  end.
Definition api_get_node_status_answer (a : answer (list NodeStatusClass)) : M unit :=
  match a with
  | Next response => modify (set_nodes (Some response)) ;;; api_write_rejects_
  | Error e => modify (set_nodes (Some [])) ;;; on_error_message "retrieving node status" e
  end.
Definition api_write_rejects_answer (a : answer (list ElasticsearchObjectClass)) : M unit :=
  match a with
  | Next response => modify (set_write_rejects_ response) ;;; api_suricata_pckt_stats_
  | Error e => on_error_message "retrieving write rejects" e
  end.
Definition api_suricata_pckt_stats_answer (a : answer (list PacketStatsClass)) : M unit :=
  match a with
  | Next response => modify (set_suricata_data_ response) ;;; api_zeek_pckt_stats_
  | Error e => on_error_message "retrieving suricata pckt stats" e
  end.
Definition api_zeek_pckt_stats_answer (a : answer (list PacketStatsClass)) : M unit :=
  match a with
  | Next response => modify (set_zeek_data_ response) ;;; update_node_statuses_
  | Error e => on_error_message "retrieving zeek pckt stats" e
  end.

Definition on_answer (c : call) : Ans c -> M unit :=
  match c with
  | CDescribeNode node => api_describe_node_answer node
  | CNodesStatus _ => api_get_node_status_answer
  | CWriteRejects _ => api_write_rejects_answer
  | CSuricata _ => api_suricata_pckt_stats_answer
  | CZeek _ => api_zeek_pckt_stats_answer
  end.
