(* ===== verification/PodTable.v ===== *)
(** components/pod-table/pod-table.component.ts: the pod table of the health
    page, its groups and their status. *)
From S2P Require Import Prelude Handler JsValue Number Runtime Data Api Sorting HealthData.

(** The status of a group is a text, or what the reduction left. *)
Definition group_status_value : Type := PodStatusClass + string.
Record GroupDataInterface := { group_name : string; group_status : group_status_value }.

Record HealthDashboardPodTableComponent := {
  pod_token : option KitTokenClass;
  column_for_group_header_table : list string;
  is_pods_visible : bool;
  expanded_group : option string;
  group_data : list GroupDataInterface;
  filtered_group_data : list (list PodStatusClass);
  column_definitions_pods_ : list ColumnDefinitionsInterface;
}.

Inductive call : Type :=
| CDescribePod (pod ns : string)
| CPodLogs (pod ns : string)
| CPodsStatus (kit : option KitTokenClass).

Definition Ans (c : call) : Type :=
  match c with
  | CDescribePod _ _ => answer DescribePodNodeClass
  | CPodLogs _ _ => answer (list PodLogClass)
  | CPodsStatus _ => answer (list PodStatusClass)
  end.
Abbreviation M := (handler HealthDashboardPodTableComponent (effect call page)).

Definition constructor : HealthDashboardPodTableComponent :=
  {| pod_token := None; column_for_group_header_table := COLUMNS_FOR_GROUP_HEADER_TABLE; is_pods_visible := true;
     expanded_group := None; group_data := []; filtered_group_data := [];
     column_definitions_pods_ := COLUMN_DEFINITIONS_PODS |}.

Definition with_all k v e g f (s : HealthDashboardPodTableComponent) :=
  {| pod_token := k; column_for_group_header_table := column_for_group_header_table s; is_pods_visible := v;
     expanded_group := e; group_data := g; filtered_group_data := f;
     column_definitions_pods_ := column_definitions_pods_ s |}.
Definition set_token v s := with_all v (is_pods_visible s) (expanded_group s) (group_data s) (filtered_group_data s) s.
Definition set_is_pods_visible v s := with_all (pod_token s) v (expanded_group s) (group_data s) (filtered_group_data s) s.
Definition set_expanded v s := with_all (pod_token s) (is_pods_visible s) v (group_data s) (filtered_group_data s) s.
Definition set_group_data v s := with_all (pod_token s) (is_pods_visible s) (expanded_group s) v (filtered_group_data s) s.
Definition set_filtered_group_data v s := with_all (pod_token s) (is_pods_visible s) (expanded_group s) (group_data s) v s.

Definition get : M HealthDashboardPodTableComponent := gets (fun s => s).

Definition pod_displayed_cols : M (list string) :=
  s <- get ;;
  ret (cd_def <$> List.filter (fun cd => if notUndefNull (pod_token s) then remote_access cd else true)
                    (column_definitions_pods_ s)).
Definition toggle_pods_card : M unit := modify (fun s => set_is_pods_visible (negb (is_pods_visible s)) s).
Definition api_describe_pod_ (pod ns : string) : M unit := emit (Subscribe (CDescribePod pod ns)).
Definition api_pod_logs_ (pod ns : string) : M unit := emit (Subscribe (CPodLogs pod ns)).
Definition describe_pod (pod ns : string) : M unit := api_describe_pod_ pod ns.
Definition pod_logs (pod ns : string) : M unit := api_pod_logs_ pod ns.
Definition set_expanded_group (name : string) : M unit :=
  modify (fun s => set_expanded (if expanded_group s ?=== name then None else Some name) s).

Definition get_group (name : string) : M (option GroupDataInterface) :=
  s <- get ;; ret (List.find (fun g => name === group_name g) (group_data s)).

(** [state] is read three times; without a state reading fails. *)
Definition get_container_status (container_status : StatusContainerStatusClass) : M string :=
  let with_reason (word : string) (v : jsval) :=
    let reason := prop v STATE_REASON in
    if js_truthy reason then word +:+ ": " +:+ js_to_string reason else word in
  running <- deref (get_property (state container_status) RUNNING) ;;
  terminated <- deref (get_property (state container_status) TERMINATED) ;;
  waiting <- deref (get_property (state container_status) WAITING) ;;
  ret (if defined running then RUNNING
       else if defined terminated then with_reason TERMINATED terminated
       else if defined waiting then with_reason WAITING waiting
       else "").

(** *** The groups *)

(** The names every object inherits, none of them an array: pushing to one of
    them is a TypeError. *)
Definition INHERITED : list string :=
  ["constructor"; "__defineGetter__"; "__defineSetter__"; "hasOwnProperty"; "__lookupGetter__";
   "__lookupSetter__"; "isPrototypeOf"; "propertyIsEnumerable"; "toString"; "valueOf"; "__proto__";
   "toLocaleString"].

(** interfaces/accumulator.interface.ts *)
Definition AccumulatorInterface : Type := list (string * list PodStatusClass).

(** [accumulator[k].push(x)], on a new array when the object has no [k]. *)
Fixpoint push_to (k : string) (x : PodStatusClass) (acc : list (string * list PodStatusClass))
    : list (string * list PodStatusClass) :=
  match acc with
  | [] => [(k, [x])]
  | (j, l) :: r => if j === k then (j, l ++ [x]) :: r else (j, l) :: push_to k x r
  end.

Definition current_group (p : PodStatusClass) : string := default UNASSIGNED (node_name p).

Definition group_reducer (accumulator : AccumulatorInterface) (current_value : PodStatusClass)
    : outcome AccumulatorInterface :=
  if includes INHERITED (current_group current_value) then Exn "TypeError"
  else Ret (push_to (current_group current_value) current_value accumulator).

Fixpoint reduce_pods (pods : list PodStatusClass) (accumulator : AccumulatorInterface) : outcome AccumulatorInterface :=
  match pods with
  | [] => Ret accumulator
  | p :: r => match group_reducer accumulator p with
              | Ret acc => reduce_pods r acc
              | Exn e => Exn e
              end
  end.

Definition is_pod_error_state_ (sb : string) (warnings : number) : bool :=
  ((sb === STATUS_FAILED) || (sb === STATUS_ERROR)) ||
  ((number_of_Z 0 <? warnings)%number &&
   ((sb !== STATUS_PENDING) && (sb !== STATUS_NOT_READY) && (sb !== STATUS_TERMINATING) &&
    (sb !== STATUS_UNKNOWN) && (sb !== STATUS_CONTAINER_CREATING))).

Definition pod_status_value (i : nat) : string := default "" (POD_STATUS_VALUES !! i).

Definition get_pod_icon_status_ (sb : string) (warnings : number) : string :=
  if (sb === STATUS_RUNNING) || (sb === STATUS_SUCCEEDED) || (sb === STATUS_COMPLETED) then pod_status_value 0
  else if (sb === STATUS_PENDING) || (sb === STATUS_CONTAINER_CREATING) then pod_status_value 2
  else if sb === STATUS_TERMINATING then pod_status_value 1
  else if is_pod_error_state_ sb warnings then pod_status_value 3
  else pod_status_value 4.

Definition icon_of (p : PodStatusClass) : string := get_pod_icon_status_ (status_brief p) (warnings p).

(** [POD_STATUS_VALUES.indexOf]: a pod is not among the texts. *)
Definition value_index (v : group_status_value) : Z :=
  match v with inl _ => (-1)%Z | inr s => indexOf POD_STATUS_VALUES s end.

Definition status_reducer (status : group_status_value) (pod : PodStatusClass) : group_status_value :=
  let pod_status := inr (icon_of pod) in
  if (value_index status <? value_index pod_status)%Z then pod_status else status.

(** [reduce] without an initial value starts from the first element itself, and
    fails on an empty array. *)
Definition generate_group_status_ (group : list PodStatusClass) : outcome group_status_value :=
  match group with
  | [p] => Ret (inr (icon_of p))
  | p :: r => Ret (fold_left status_reducer r (inl p))
  | [] => Exn "TypeError"
  end.

Section Groups.
Context `{Col : Collation}.

(** The index of a group that exists; the status is computed from the groups
    just assigned. *)
Fixpoint push_groups (names : list string) (index : nat) : M unit :=
  match names with
  | [] => ret tt
  | name :: r =>
      s <- get ;;
      group <- deref (filtered_group_data s !! index) ;;
      match generate_group_status_ group with
      | Ret st => modify (set_group_data (group_data s ++ [{| group_name := name; group_status := st |}])) ;;;
                  push_groups r (S index)
      | Exn e => throw e
      end
  end.

Definition generate_groups_ (pods : option (list PodStatusClass)) : M unit :=
  match pods with
  | None => modify (set_group_data []) ;;; modify (set_filtered_group_data [])
  | Some pods =>
      match reduce_pods pods [] with
      | Exn e => throw e
      | Ret groups =>
          let group_names := js_sort alphanum (keys_in_order groups.*1) in
          let group_of key := match List.find (fun g : string * list PodStatusClass => fst g === key) groups with
                              | Some g => snd g
                              | None => []
                              end in
          modify (set_filtered_group_data (group_of <$> group_names)) ;;;
          modify (set_group_data []) ;;;
          push_groups group_names 0
      end
  end.

Definition api_get_pod_status_ : M unit := s <- get ;; emit (Subscribe (CPodsStatus (pod_token s))).

Definition reload : M unit :=
  s <- get ;; if kit_is_silent (pod_token s) then generate_groups_ (Some []) else api_get_pod_status_.

Definition ngOnChanges (token_changes : option SimpleChange) : M unit :=
  when (token_changed token_changes) reload.

Definition open_dialog_window_ (name text : string) : M unit := emit (Page (OpenTextEditor (read_only_text name text))).
Definition open_pod_logs_dialog_window_ (name : string) (l : list PodLogClass) : M unit :=
  emit (Page (OpenPodLogs {| pld_title := name; pod_log_info := l |})).

Definition api_describe_pod_answer (pod : string) (a : answer DescribePodNodeClass) : M unit :=
  match a with
  | Next response => open_dialog_window_ pod (stdout response)
  | Error e => on_error "retrieving describe pod" e
  end.
Definition api_pod_logs_answer (pod : string) (a : answer (list PodLogClass)) : M unit :=
  match a with
  | Next response => open_pod_logs_dialog_window_ pod response
  | Error e => on_error "retrieving pod logs" e
  end.
Definition api_get_pod_status_answer (a : answer (list PodStatusClass)) : M unit :=
  match a with
  | Next response => generate_groups_ (Some response)
  | Error e => generate_groups_ (Some []) ;;; on_error_message "retrieving pods status" e
  end.

Definition on_answer (c : call) : Ans c -> M unit :=
  match c with
  | CDescribePod pod _ => api_describe_pod_answer pod
  | CPodLogs pod _ => api_pod_logs_answer pod
  | CPodsStatus _ => api_get_pod_status_answer
  end.
End Groups.

(** ** What the part guarantees *)

Section PodGroups.
Context `{Col : Collation}.

(** The names of the groups are those of the pods, in the order of their first
    pods; each group has its pods in the order of the response. *)
Definition group_members (k : string) (pods : list PodStatusClass) : list PodStatusClass :=
  List.filter (fun p => current_group p === k) pods.

Definition grouped (acc : list (string * list PodStatusClass)) (pods : list PodStatusClass) : Prop :=
  NoDup acc.*1 /\ (forall k l, (k, l) ∈ acc <-> l = group_members k pods /\ l <> []).

Lemma push_to_keys k x acc : (push_to k x acc).*1 = if includes acc.*1 k then acc.*1 else acc.*1 ++ [k].
Proof.
  unfold includes in *. induction acc as [|[j l] acc IH]; [done|].
  cbn [push_to]. rewrite fmap_cons. cbn [fst existsb].
  destruct (j === k); rewrite fmap_cons; cbn [orb fst]; [done|].
  rewrite IH. by destruct (existsb _ acc.*1).
Qed.

Lemma push_to_in k x acc j l :
  NoDup acc.*1 ->
  (j, l) ∈ push_to k x acc <->
  (j <> k /\ (j, l) ∈ acc) \/
  (j = k /\ ((exists l', (k, l') ∈ acc /\ l = l' ++ [x]) \/ (k ∉ acc.*1 /\ l = [x]))).
Proof.
  induction acc as [|[i l0] acc IH]; simpl.
  - intros _. rewrite list_elem_of_singleton. split.
    + intros [= -> ->]. right. split; [done|]. right. split; [apply not_elem_of_nil | done].
    + intros [[_ H]|[-> [(l' & H & _)|[_ ->]]]]; [by apply not_elem_of_nil in H | by apply not_elem_of_nil in H | done].
  - intros [Hi Hnd]%NoDup_cons. destruct (i === k) eqn:E.
    + apply seqb_eq in E as ->. rewrite !elem_of_cons. split.
      * intros [[= -> ->]|Hin].
        -- right. split; [done|]. left. exists l0. split; [by left | done].
        -- left. split; [intros ->; apply Hi, list_elem_of_fmap; by exists (k, l) | by right].
      * intros [[Hne [[= ? ?]|Hin]]|[-> [(l' & [[= ->]|Hin]%elem_of_cons & ->)|[Hni _]]]]; [done|by right|by left| |].
        -- exfalso. apply Hi, list_elem_of_fmap. by exists (k, l').
        -- exfalso. apply Hni. by left.
    + apply seqb_neq in E. rewrite elem_of_cons, IH by done. setoid_rewrite elem_of_cons. split.
      * intros [[= -> ->]|[[? ?]|[-> [(l' & ? & ->)|[? ->]]]]]; [left; auto|left; auto| |].
        -- right. split; [done|]. left. eauto.
        -- right. split; [done|]. right. split; [by intros [->|?] | done].
      * intros [[? [[= -> ->]|?]]|[-> [(l' & [[= <- <-]|?] & ->)|[Hn ->]]]]; [auto|auto|done|eauto 8|].
        right. right. split; [done|]. right. split; [|done]. intros ?. apply Hn. by right.
Qed.

Lemma grouped_push acc pods p :
  grouped acc pods -> grouped (push_to (current_group p) p acc) (pods ++ [p]).
Proof.
  intros [Hnd Hacc]. split.
  - rewrite push_to_keys. destruct (includes acc.*1 (current_group p)) eqn:E; [done|].
    apply includes_false in E. apply NoDup_app. split_and!; [done| |apply NoDup_singleton].
    by intros k Hk ->%list_elem_of_singleton.
  - intros k l. rewrite push_to_in by done. unfold group_members. rewrite List.filter_app. simpl.
    destruct (current_group p === k) eqn:E.
    + apply seqb_eq in E as <-. split.
      * intros [[? _]|[_ [(l' & Hin & ->)|[Hni ->]]]]; [done| |].
        -- apply Hacc in Hin as [-> ?]. split; [done | by destruct (group_members _ _)].
        -- split; [|done]. destruct (group_members (current_group p) pods) as [|y r] eqn:G.
           ++ unfold group_members in G. by rewrite G.
           ++ exfalso. apply Hni, list_elem_of_fmap. exists (current_group p, y :: r). split; [done|].
              apply Hacc. by rewrite G.
      * intros [-> _]. right. split; [done|].
        destruct (group_members (current_group p) pods) as [|y r] eqn:G; unfold group_members in G; rewrite G.
        -- right. split; [|done]. intros ((k' & l') & Heq & Hin)%list_elem_of_fmap. simpl in Heq. subst k'.
           apply Hacc in Hin as [-> Hne]. by apply Hne.
        -- left. exists (y :: r). split; [|done]. apply Hacc. unfold group_members. by rewrite G.
    + apply seqb_neq in E. rewrite app_nil_r. rewrite Hacc. split; [|intros; left; by split].
      intros [[_ ?]|[-> _]]; done.
Qed.

Lemma reduce_pods_groups pods acc done_ :
  (forall p, p ∈ pods -> current_group p ∉ INHERITED) -> grouped acc done_ ->
  exists groups, reduce_pods pods acc = Ret groups /\ grouped groups (done_ ++ pods).
Proof.
  revert acc done_. induction pods as [|p pods IH]; intros acc d Hok Hacc; simpl.
  - exists acc. by rewrite app_nil_r.
  - unfold group_reducer. rewrite (proj2 (includes_false _ _)) by (apply Hok; left).
    destruct (IH (push_to (current_group p) p acc) (d ++ [p])) as (g & -> & Hg);
      [intros; apply Hok; by right | by apply grouped_push | ].
    exists g. by rewrite <- app_assoc in Hg.
Qed.

Lemma reduce_pods_inherited pods acc p :
  p ∈ pods -> current_group p ∈ INHERITED -> exists e, reduce_pods pods acc = Exn e /\ e = "TypeError".
Proof.
  revert acc. induction pods as [|q pods IH]; intros acc Hp Hin; [by apply not_elem_of_nil in Hp|]. simpl.
  unfold group_reducer. destruct (includes INHERITED (current_group q)) eqn:E; [eauto|].
  apply elem_of_cons in Hp as [->|Hp]; [by apply includes_false in E | by apply IH].
Qed.

(** The status of a group, as a reference: the worst icon of its only pod, or of
    its pods but the first. *)
Definition worse (a b : string) : string :=
  if (indexOf POD_STATUS_VALUES a <? indexOf POD_STATUS_VALUES b)%Z then b else a.
Definition worst (icons : list string) : string :=
  match icons with [] => "" | i :: r => fold_left worse r i end.
Definition shown_icons (group : list PodStatusClass) : list string :=
  match group with [p] => [icon_of p] | _ :: r => icon_of <$> r | [] => [] end.

Lemma icon_index p : (0 <= indexOf POD_STATUS_VALUES (icon_of p))%Z.
Proof.
  unfold icon_of, get_pod_icon_status_.
  repeat match goal with |- context [if ?b then _ else _] => destruct b end; by vm_compute.
Qed.

Lemma group_status_worst group :
  group <> [] -> generate_group_status_ group = Ret (inr (worst (shown_icons group))).
Proof.
  destruct group as [|p [|q r]]; [done|done|]. intros _. cbn [generate_group_status_]. f_equal. simpl.
  unfold status_reducer at 2. simpl. pose proof (icon_index q) as Hq.
  destruct (Z.ltb_spec (-1) (indexOf POD_STATUS_VALUES (icon_of q))); [|lia]. clear.
  generalize (icon_of q). induction r as [|x r IH]; intros i; [done|]. simpl. rewrite <- IH.
  f_equal. unfold status_reducer, worse. simpl. by destruct (_ <? _)%Z.
Qed.

Definition group_row (name : string) (group : list PodStatusClass) : GroupDataInterface :=
  {| group_name := name; group_status := inr (worst (shown_icons group)) |}.

Lemma push_groups_run names groups before s :
  filtered_group_data s = before ++ groups -> length groups = length names ->
  Forall (fun g => g <> []) groups ->
  push_groups names (length before) s =
    (Ret tt, set_group_data (group_data s ++ zip_with group_row names groups) s, []).
Proof.
  revert groups before s. induction names as [|name names IH]; intros [|g groups] before s Hf Hl HF; try done.
  - simpl. rewrite app_nil_r. by destruct s.
  - apply Forall_cons in HF as [Hg HF]. cbn [push_groups].
    rewrite (bind_run_silent _ _ s s s) by done.
    rewrite (bind_run_silent _ _ s g s);
      [|by rewrite Hf, lookup_app_r, Nat.sub_diag by lia].
    rewrite group_status_worst by done.
    rewrite (bind_run_silent _ _ s tt _ eq_refl).
    replace (S (length before)) with (length (before ++ [g])) by (rewrite length_app; simpl; lia).
    rewrite (IH groups); [|by rewrite <- app_assoc | by injection Hl | done].
    f_equal. f_equal. destruct s. unfold set_group_data, with_all; simpl. by rewrite <- app_assoc.
Qed.

Lemma group_row_names names groups :
  length groups = length names -> group_name <$> zip_with group_row names groups = names.
Proof.
  revert groups. induction names as [|k names IH]; intros [|g groups] [=]; [done|].
  exact (f_equal (cons k) (IH groups ltac:(done))).
Qed.

Lemma find_group (groups : list (string * list PodStatusClass)) k l :
  NoDup groups.*1 -> (k, l) ∈ groups -> List.find (fun g : string * list PodStatusClass => fst g === k) groups = Some (k, l).
Proof.
  induction groups as [|[j m] groups IH]; [by intros _ ?%not_elem_of_nil|]. simpl.
  intros [Hj Hnd]%NoDup_cons [[= <- <-]|Hin]%elem_of_cons; [by rewrite seqb_refl|].
  rewrite (proj2 (seqb_neq j k)); [by apply IH|]. intros ->. apply Hj, list_elem_of_fmap. by exists (k, l).
Qed.

(** C14: the groups of the pod table.  When no node has the name of a member
    every object inherits, there is one group for each node that runs a pod (and
    for the pods without node), sorted by name; it holds the pods of its node in
    the order of the response, and shows the worst icon of its only pod or, with
    several pods, of all pods but the first.  With such a name the table stays as
    it was. *)
Theorem pods_are_grouped pods s :
  ((exists p, p ∈ pods /\ current_group p ∈ INHERITED) /\
   generate_groups_ (Some pods) s = (Exn "TypeError", s, [])) \/
  exists s', generate_groups_ (Some pods) s = (Ret tt, s', []) /\
    let names := group_name <$> group_data s' in
    NoDup names /\ StronglySorted (cmp_le alphanum) names /\
    (forall k, k ∈ names <-> exists p, p ∈ pods /\ current_group p = k) /\
    filtered_group_data s' = (fun k => group_members k pods) <$> names /\
    group_data s' = zip_with group_row names (filtered_group_data s').
Proof.
  destruct (decide (Exists (fun p => current_group p ∈ INHERITED) pods)) as [HE|HE].
  { left. apply Exists_exists in HE as (p & Hp & Hin). split; [by exists p|].
    unfold generate_groups_. by destruct (reduce_pods_inherited pods [] p Hp Hin) as (e & -> & ->). }
  right. rewrite <- Forall_Exists_neg, Forall_forall in HE.
  destruct (reduce_pods_groups pods [] [] HE) as (groups & Hr & Hnd & Hg);
    [split; [constructor|]; intros k l; split; [by intros ?%not_elem_of_nil | by intros [-> ?]]|].
  simpl in Hg. set (names := js_sort alphanum (keys_in_order groups.*1)).
  assert (Hperm : names ≡ₚ groups.*1)
    by (unfold names; by rewrite js_sort_permutation, keys_in_order_permutation).
  assert (Hnames : forall k, k ∈ names <-> group_members k pods <> []).
  { intros k. rewrite Hperm, list_elem_of_fmap. split.
    - intros ([k' l] & -> & Hin). apply Hg in Hin as [-> ?]. done.
    - intros Hne. exists (k, group_members k pods). split; [done|]. by apply Hg. }
  set (lists := (fun k => group_members k pods) <$> names).
  exists (set_group_data (zip_with group_row names lists) (set_filtered_group_data lists s)).
  assert (Hzip : group_name <$> zip_with group_row names lists = names)
    by (apply group_row_names; unfold lists; by rewrite length_fmap).
  split; [|cbn [group_data set_group_data with_all filtered_group_data set_filtered_group_data]; rewrite Hzip; split_and!].
  - unfold generate_groups_. rewrite Hr. fold names.
    rewrite (bind_run_silent _ _ s tt (set_filtered_group_data lists s)).
    2:{ unfold modify, lists. do 3 f_equal. apply list_fmap_ext. intros i k Hk.
        apply list_elem_of_lookup_2, Hnames in Hk.
        rewrite (find_group groups k (group_members k pods)); [done|done|]. by apply Hg. }
    rewrite (bind_run_silent _ _ _ tt (set_group_data [] (set_filtered_group_data lists s))) by done.
    rewrite (push_groups_run names lists []); [done|done| |].
    + unfold lists. by rewrite length_fmap.
    + apply Forall_forall. intros g (k & -> & Hk)%list_elem_of_fmap. by apply Hnames.
  - by rewrite Hperm.
  - apply js_sort_sorted; [apply (by_text_antisym (fun x => x)) | apply (by_text_trans (fun x => x))].
  - intros k. rewrite Hnames. unfold group_members. split.
    + destruct (List.filter _ pods) as [|p r] eqn:E; [done|]. intros _. exists p.
      assert (Hp : p ∈ List.filter (fun p => current_group p === k) pods) by (rewrite E; left).
      apply list_elem_of_In, filter_In in Hp as [Hp Hk]. apply seqb_eq in Hk. by rewrite list_elem_of_In.
    + intros (p & Hp & Hk) Hnil. apply list_elem_of_In in Hp.
      assert (Hin : In p (List.filter (fun p => current_group p === k) pods))
        by (apply filter_In; split; [done | by apply seqb_eq]).
      by rewrite Hnil in Hin.
  - done.
  - done.
Qed.
End PodGroups.
