(* ===== verification/Health.v ===== *)
(** modules/health-dashboard/health-dashboard.component.ts: the health page with
    the parts its template shows.

    The page hands the selected kit to both tables through their inputs; the
    datastores are shown for a GIP kit while no remote kit is selected, and a new
    instance of them is made each time they appear.  After every turn the
    template is checked against the state ([detect_changes]), as the framework
    does, also when the turn threw. *)
From S2P Require Import Prelude Handler JsValue Number Runtime Data Api Sorting HealthData Datastores NodeTable PodTable.

(** Kits are objects: [n] is the identity of the one the response made. *)
Definition kit_ref : Type := nat * KitTokenClass.

Record HealthDashboardComponent := {
  dashboard_status : list kit_ref;
  remote_dashboard_status : list kit_ref;
  selected_kit : option kit_ref;
  health_is_gip : option bool;
  kit_selected : string;
  column_defintion_ : list ColumnDefinitionsLocalhostInterface;
  update_subscription_ : bool;
}.

(** [bound_token] is the kit the tables were given last; [datastores_component_]
    the datastores that are shown with their number; [datastores_made] and
    [kits_made] count instances. *)
Record App := {
  dashboard : HealthDashboardComponent;
  node_component_ : NodeTable.HealthDashboardNodeTableComponent;
  pod_component_ : PodTable.HealthDashboardPodTableComponent;
  datastores_component_ : option (nat * Datastores.HealthDashboardDatastoresComponent);
  bound_token : option kit_ref;
  datastores_made : nat;
  kits_made : nat;
}.

Inductive call : Type :=
| CNode (c : NodeTable.call)
| CPod (c : PodTable.call)
| CStores (instance : nat) (c : Datastores.call)
| CStatus
| CRemoteStatus
| CKibanaInfo (ip_address : string)
| CKitSettings.

Definition Ans (c : call) : Type :=
  match c with
  | CNode c => NodeTable.Ans c
  | CPod c => PodTable.Ans c
  | CStores _ c => Datastores.Ans c
  | CStatus | CRemoteStatus => answer (list KitTokenClass)
  | CKibanaInfo _ => answer (list KeyValueClass)
  | CKitSettings => answer (option KitSettingsClass)
  end.

Abbreviation M := (handler App (effect call page)).

Definition set_dashboard v (s : App) :=
  {| dashboard := v; node_component_ := node_component_ s; pod_component_ := pod_component_ s;
     datastores_component_ := datastores_component_ s; bound_token := bound_token s;
     datastores_made := datastores_made s; kits_made := kits_made s |}.
Definition set_node_component v (s : App) :=
  {| dashboard := dashboard s; node_component_ := v; pod_component_ := pod_component_ s;
     datastores_component_ := datastores_component_ s; bound_token := bound_token s;
     datastores_made := datastores_made s; kits_made := kits_made s |}.
Definition set_pod_component v (s : App) :=
  {| dashboard := dashboard s; node_component_ := node_component_ s; pod_component_ := v;
     datastores_component_ := datastores_component_ s; bound_token := bound_token s;
     datastores_made := datastores_made s; kits_made := kits_made s |}.
Definition set_datastores_component v n (s : App) :=
  {| dashboard := dashboard s; node_component_ := node_component_ s; pod_component_ := pod_component_ s;
     datastores_component_ := v; bound_token := bound_token s; datastores_made := n; kits_made := kits_made s |}.
Definition set_bound_token v (s : App) :=
  {| dashboard := dashboard s; node_component_ := node_component_ s; pod_component_ := pod_component_ s;
     datastores_component_ := datastores_component_ s; bound_token := v;
     datastores_made := datastores_made s; kits_made := kits_made s |}.
Definition set_kits_made v (s : App) :=
  {| dashboard := dashboard s; node_component_ := node_component_ s; pod_component_ := pod_component_ s;
     datastores_component_ := datastores_component_ s; bound_token := bound_token s;
     datastores_made := datastores_made s; kits_made := v |}.

Definition with_status d r (s : HealthDashboardComponent) :=
  {| dashboard_status := d; remote_dashboard_status := r; selected_kit := selected_kit s;
     health_is_gip := health_is_gip s; kit_selected := kit_selected s; column_defintion_ := column_defintion_ s;
     update_subscription_ := update_subscription_ s |}.
Definition with_kit t k (s : HealthDashboardComponent) :=
  {| dashboard_status := dashboard_status s; remote_dashboard_status := remote_dashboard_status s;
     selected_kit := t; health_is_gip := health_is_gip s; kit_selected := k;
     column_defintion_ := column_defintion_ s; update_subscription_ := update_subscription_ s |}.
Definition with_interval g u (s : HealthDashboardComponent) :=
  {| dashboard_status := dashboard_status s; remote_dashboard_status := remote_dashboard_status s;
     selected_kit := selected_kit s; health_is_gip := g; kit_selected := kit_selected s;
     column_defintion_ := column_defintion_ s; update_subscription_ := u |}.

Definition constructor : App :=
  {| dashboard := {| dashboard_status := []; remote_dashboard_status := []; selected_kit := None;
                     health_is_gip := Some false; kit_selected := LOCALHOST;
                     column_defintion_ := COLUMN_DEFINITIONS_LOCALHOST_DASHBOARD; update_subscription_ := false |};
     node_component_ := NodeTable.constructor; pod_component_ := PodTable.constructor;
     datastores_component_ := None; bound_token := None; datastores_made := 0; kits_made := 0 |}.

Definition get : M App := gets (fun s => s).
Definition modify_page (f : HealthDashboardComponent -> HealthDashboardComponent) : M unit :=
  modify (fun s => set_dashboard (f (dashboard s)) s).

(** The handlers of the parts, inside the page.  A part is undefined while it is
    not shown; the subscriptions of the datastores end with their instance. *)
Definition in_nodes {A} : NodeTable.M A -> M A :=
  zoom (fun s => Some (node_component_ s)) set_node_component CNode.
Definition in_pods {A} : PodTable.M A -> M A :=
  zoom (fun s => Some (pod_component_ s)) set_pod_component CPod.
Definition in_stores {A} (i : nat) : Datastores.M A -> M A :=
  zoom (fun s => snd <$> datastores_component_ s)
    (fun v s => set_datastores_component ((fun x => (fst x, v)) <$> datastores_component_ s) (datastores_made s) s)
    (CStores i).
Definition while_shown (i : nat) (m : M unit) : M unit :=
  s <- get ;; when (bool_decide (fst <$> datastores_component_ s = Some i)) m.

Section Page.
Context `{Col : Collation}.

(** *** The requests *)

Definition api_get_health_dashboard_status_ : M unit := emit (Subscribe CStatus).
Definition api_get_remote_health_dashboard_status_ : M unit := emit (Subscribe CRemoteStatus).
Definition api_get_health_dashboard_status_kibana_info_remote_ (ip_address : string) : M unit :=
  emit (Subscribe (CKibanaInfo ip_address)).
Definition api_get_kit_settings_ : M unit := emit (Subscribe CKitSettings).

(** The objects of a response are new. *)
Definition new_kits (response : list KitTokenClass) : M (list kit_ref) :=
  s <- get ;;
  modify (set_kits_made (kits_made s + length response)) ;;;
  ret (zip (seq (kits_made s) (length response)) response).

(** *** The methods *)

Definition ngOnInit : M unit :=
  emit (SetTitle HEALTH_DASHBOARD_TITLE) ;;;
  api_get_health_dashboard_status_ ;;;
  api_get_remote_health_dashboard_status_ ;;;
  api_get_kit_settings_.

(** Without an interval there is nothing to unsubscribe from. *)
Definition ngOnDestroy : M unit :=
  s <- get ;;
  (if update_subscription_ (dashboard s) then emit (Page StopInterval) else throw "TypeError") ;;;
  emit (Page DestroySnackBar).

(** [event] is the index of the tab, when there is an event. *)
Definition selected_tab_change (event : option Z) : M unit :=
  s <- get ;;
  match event, remote_dashboard_status (dashboard s) with
  | Some index, initial_token :: _ =>
      if (0 <? index)%Z then modify_page (with_kit (Some initial_token) (ipaddress (snd initial_token)))
      else modify_page (with_kit None LOCALHOST)
  | _, _ => modify_page (with_kit None LOCALHOST)
  end.

Definition kibana_info (ip_address : string) : M unit :=
  api_get_health_dashboard_status_kibana_info_remote_ ip_address.

Definition get_elasticsearch_status_mat_tooltip (kit_token : option KitTokenClass) : option string :=
  match kit_token with Some k => elasticsearch_status k | None => Some KIT_UNAVAILABLE end.
Definition get_kibana_status_mat_tooltip (kit_token : option KitTokenClass) : option string :=
  match kit_token with Some k => kibana_status k | None => Some KIT_UNAVAILABLE end.

(** The row of the local kit passes null. *)
Definition kit_select (t : option kit_ref) : M unit :=
  emit (Page DestroySnackBar) ;;;
  match t with
  | None => modify_page (with_kit None LOCALHOST)
  | Some k =>
      modify_page (with_kit (Some k) (ipaddress (snd k))) ;;;
      when (default "" (token (snd k)) === "")
        (displaySnackBar KIT_UNAVAILABLE (Some MAT_SNACKBAR_CONFIGURATION_60000_DUR_DISMISS))
  end.

Definition get_column_definitions (remote : bool) : M (list string) :=
  s <- get ;;
  ret (cdl_def <$> List.filter (fun cd => if remote then remote else localhost_only cd)
                     (column_defintion_ (dashboard s))).

(** The interval's turn: every 30 seconds while it is subscribed. *)
Definition create_reload_interval_ : M unit :=
  s <- get ;;
  when (update_subscription_ (dashboard s)) (emit (Page StopInterval)) ;;;
  emit (Page (StartInterval 30000)) ;;;
  modify_page (fun d => with_interval (health_is_gip d) true d).

Definition interval_tick : M unit :=
  s <- get ;;
  when (update_subscription_ (dashboard s))
    (when (truthy (health_is_gip (dashboard s)) && negb (notUndefNull (selected_kit (dashboard s))))
       (i <- deref (fst <$> datastores_component_ s) ;; in_stores i Datastores.reload) ;;;
     in_nodes NodeTable.reload ;;;
     in_pods PodTable.reload ;;;
     api_get_health_dashboard_status_ ;;;
     api_get_remote_health_dashboard_status_).

Definition open_dialog_window_ (key_values : list KeyValueClass) : M unit :=
  emit (Page (OpenInformation {| hdd_title := KIBANA_LOGIN; info := key_values |})).

(** *** The answers *)

Definition api_get_health_dashboard_status_answer (a : answer (list KitTokenClass)) : M unit :=
  match a with
  | Next response => l <- new_kits response ;; modify_page (fun d => with_status l (remote_dashboard_status d) d)
  | Error e => on_error "retrieving health dashboard status" e
  end.
Definition api_get_remote_health_dashboard_status_answer (a : answer (list KitTokenClass)) : M unit :=
  match a with
  | Next response => l <- new_kits response ;; modify_page (fun d => with_status (dashboard_status d) l d)
  | Error e => on_error "retrieving remote health dashboard status" e
  end.
Definition api_kibana_info_answer (a : answer (list KeyValueClass)) : M unit :=
  match a with
  | Next response => open_dialog_window_ response
  | Error e => on_error "retrieving health dashboard status kibana info remote" e
  end.
Definition api_get_kit_settings_answer (a : answer (option KitSettingsClass)) : M unit :=
  match a with
  | Next response =>
      r <- deref response ;;
      modify_page (fun d => with_interval (is_gip r) (update_subscription_ d) d) ;;;
      create_reload_interval_
  | Error e => on_error_message "retrieving kit settings" e
  end.

(** *** The template *)

(** The bindings of the template in their order: the input of both tables, then
    the datastores. *)
Definition bind_token : M unit :=
  s <- get ;;
  (let t := selected_kit (dashboard s) in
   when (negb (bool_decide (fst <$> bound_token s = fst <$> t)))
     (let changes := Some {| currentValue := t; previousValue := bound_token s |} in
      modify (set_bound_token t) ;;;
      finally (in_nodes (modify (NodeTable.set_token (snd <$> t)) ;;; NodeTable.ngOnChanges changes))
        (in_pods (modify (PodTable.set_token (snd <$> t)) ;;; PodTable.ngOnChanges changes)))).

Definition show_datastores : M unit :=
  s <- get ;;
  let wanted := truthy (health_is_gip (dashboard s)) && negb (notUndefNull (selected_kit (dashboard s))) in
  match datastores_component_ s with
  | None => when wanted
      (modify (set_datastores_component (Some (datastores_made s, Datastores.constructor)) (S (datastores_made s))) ;;;
       in_stores (datastores_made s) Datastores.ngOnInit)
  | Some _ => when (negb wanted) (modify (set_datastores_component None (datastores_made s)))
  end.

Definition detect_changes : M unit := finally bind_token show_datastores.

(** The first check also gives the tables their input for the first time. *)
Definition first_check : M unit :=
  let changes := Some {| currentValue := None; previousValue := None |} in
  finally (finally (in_nodes (NodeTable.ngOnChanges changes)) (in_pods (PodTable.ngOnChanges changes)))
    show_datastores.

(** *** The turns *)

(** A click on the row of the local kit, or on a row of the remote kits. *)
Definition kit_row_click (row : option nat) : M unit :=
  match row with
  | None => kit_select None
  | Some i => s <- get ;; match remote_dashboard_status (dashboard s) !! i with
                          | Some k => kit_select (Some k)
                          | None => ret tt
                          end
  end.

Inductive event : Type :=
| Init
| Tick
| TabChange (index : option Z)
| KitSelect (row : option nat)
| KibanaInfo (ip_address : string)
| DescribeNode (name : string)
| ToggleNodes
| ExpandNode (row : NodeStatusClass)
| DescribePod (pod ns : string)
| PodLogs (pod ns : string)
| TogglePods
| ExpandGroup (name : string)
| ToggleStores (i : nat)
| ClickStores (i : nat) (row : string).

Definition on_event (e : event) : M unit :=
  match e with
  | Init => finally ngOnInit first_check
  | Tick => finally interval_tick detect_changes
  | TabChange i => finally (selected_tab_change i) detect_changes
  | KitSelect row => finally (kit_row_click row) detect_changes
  | KibanaInfo ip => finally (kibana_info ip) detect_changes
  | DescribeNode n => finally (in_nodes (NodeTable.describe_node n)) detect_changes
  | ToggleNodes => finally (in_nodes NodeTable.toggle_nodes_card) detect_changes
  | ExpandNode n => finally (in_nodes (NodeTable.row_click n)) detect_changes
  | DescribePod p n => finally (in_pods (PodTable.describe_pod p n)) detect_changes
  | PodLogs p n => finally (in_pods (PodTable.pod_logs p n)) detect_changes
  | TogglePods => finally (in_pods PodTable.toggle_pods_card) detect_changes
  | ExpandGroup n => finally (in_pods (PodTable.set_expanded_group n)) detect_changes
  | ToggleStores i => finally (while_shown i (in_stores i Datastores.toggle_card)) detect_changes
  | ClickStores i row => finally (while_shown i (in_stores i (Datastores.row_click row))) detect_changes
  end.

Definition answer_of (c : call) : Ans c -> M unit :=
  match c with
  | CNode c => fun a => in_nodes (NodeTable.on_answer c a)
  | CPod c => fun a => in_pods (PodTable.on_answer c a)
  | CStores i c => fun a => while_shown i (in_stores i (Datastores.on_answer c a))
  | CStatus => api_get_health_dashboard_status_answer
  | CRemoteStatus => api_get_remote_health_dashboard_status_answer
  | CKibanaInfo _ => api_kibana_info_answer
  | CKitSettings => api_get_kit_settings_answer
  end.

Definition on_answer (c : call) (a : Ans c) : M unit := finally (answer_of c a) detect_changes.

#[export] Instance health_page : Component App call page event Ans :=
  {| initial := constructor; Runtime.on_event := on_event; Runtime.on_answer := on_answer |}.
End Page.

(** ** What the page guarantees *)

Section Facts.
Context `{Col : Collation}.

(** The requests for the state of nodes and pods go to kits that report. *)
Definition to_reporting_node (c : NodeTable.call) : Prop :=
  match c with NodeTable.CNodesStatus k => kit_is_silent k = false | _ => True end.
Definition to_reporting_pod (c : PodTable.call) : Prop :=
  match c with PodTable.CPodsStatus k => kit_is_silent k = false | _ => True end.
Definition to_reporting (c : call) : Prop :=
  match c with CNode c => to_reporting_node c | CPod c => to_reporting_pod c | _ => True end.
Definition P (e : effect call page) : Prop := only to_reporting e.

Definition has_node_token t (x : NodeTable.HealthDashboardNodeTableComponent) : Prop := NodeTable.node_token x = t.
Definition has_pod_token t (x : PodTable.HealthDashboardPodTableComponent) : Prop := PodTable.pod_token x = t.

Lemma safe_node_reload t : safe (has_node_token t) (only to_reporting_node) NodeTable.reload.
Proof.
  intros x Hx. unfold NodeTable.reload, NodeTable.get, NodeTable.api_get_node_status_.
  rewrite (bind_run_silent _ _ x x x) by done.
  destruct (notUndefNull _); [by split|]. simpl. destruct (kit_is_silent (NodeTable.node_token x)) eqn:E.
  - by split.
  - split; [done|]. constructor; [|done]. by intros c [= <-].
Qed.

Lemma safe_node_answer t c a : safe (has_node_token t) (only to_reporting_node) (NodeTable.on_answer c a).
Proof.
  assert (Hrest : forall c, to_reporting_node c -> only to_reporting_node (Subscribe c : effect NodeTable.call page))
    by (intros ? ? ? [= <-]; done).
  destruct c, a; simpl; unfold NodeTable.api_describe_node_answer, NodeTable.open_dialog_window_,
    NodeTable.api_write_rejects_, NodeTable.api_suricata_pckt_stats_, NodeTable.api_zeek_pckt_stats_,
    NodeTable.update_node_statuses_, NodeTable.get; safe_auto; try done; try (by apply Hrest); by intros ?.
Qed.

Lemma safe_push_groups t names i : safe (has_pod_token t) (only to_reporting_pod) (PodTable.push_groups names i).
Proof.
  revert i. induction names as [|n names IH]; intros i; simpl; [apply safe_ret|].
  unfold PodTable.get. safe_auto. done.
Qed.

Lemma safe_generate_groups t l : safe (has_pod_token t) (only to_reporting_pod) (PodTable.generate_groups_ l).
Proof.
  unfold PodTable.generate_groups_. safe_auto; try done. apply safe_push_groups.
Qed.
#[local] Hint Resolve safe_generate_groups safe_push_groups : handler.

Lemma safe_pod_reload t : safe (has_pod_token t) (only to_reporting_pod) PodTable.reload.
Proof.
  intros x Hx. unfold PodTable.reload, PodTable.get, PodTable.api_get_pod_status_.
  rewrite (bind_run_silent _ _ x x x) by done.
  destruct (kit_is_silent (PodTable.pod_token x)) eqn:E; [by apply safe_generate_groups|].
  split; [done|]. constructor; [|done]. by intros c [= <-].
Qed.

Lemma safe_pod_answer t c a : safe (has_pod_token t) (only to_reporting_pod) (PodTable.on_answer c a).
Proof.
  destruct c, a; simpl; unfold PodTable.open_dialog_window_, PodTable.open_pod_logs_dialog_window_;
    safe_auto; try done; by intros ?.
Qed.

(** Between the turns and in them: the tables have the kit they were given last;
    the heading names the selected kit; a kit is known by its identity. *)
Definition known (s : App) : list kit_ref :=
  dashboard_status (dashboard s) ++ remote_dashboard_status (dashboard s) ++
  option_list (selected_kit (dashboard s)) ++ option_list (bound_token s).

Definition heading (t : option kit_ref) : string :=
  match t with Some k => ipaddress (snd k) | None => LOCALHOST end.

Record between (s : App) : Prop := {
  node_given : has_node_token (snd <$> bound_token s) (node_component_ s);
  pod_given : has_pod_token (snd <$> bound_token s) (pod_component_ s);
  heading_ok : kit_selected (dashboard s) = heading (selected_kit (dashboard s));
  kits_old : Forall (fun k => (fst k < kits_made s)%nat) (known s);
  kits_one : forall k k', k ∈ known s -> k' ∈ known s -> fst k = fst k' -> k = k';
}.

Lemma between_subset s s' :
  between s -> node_component_ s' = node_component_ s -> pod_component_ s' = pod_component_ s ->
  bound_token s' = bound_token s -> kits_made s' = kits_made s ->
  kit_selected (dashboard s') = heading (selected_kit (dashboard s')) ->
  (forall k, k ∈ known s' -> k ∈ known s) -> between s'.
Proof.
  intros [H1 H2 _ H4 H5] E1 E2 E3 E4 Hh Hk. split; [by rewrite E1, E3 | by rewrite E2, E3 | done | |].
  - rewrite E4. apply Forall_forall. intros k Hin. rewrite Forall_forall in H4. by apply H4, Hk.
  - intros k k' Hin Hin'. by apply H5; apply Hk.
Qed.

Lemma in_option_list {A} (o : option A) x : x ∈ option_list o <-> o = Some x.
Proof.
  destruct o; simpl; [rewrite list_elem_of_singleton; naive_solver | split; [by intros ?%not_elem_of_nil | done]].
Qed.

Lemma in_known s k :
  k ∈ known s <-> k ∈ dashboard_status (dashboard s) \/ k ∈ remote_dashboard_status (dashboard s) \/
                  selected_kit (dashboard s) = Some k \/ bound_token s = Some k.
Proof. unfold known. by rewrite !elem_of_app, !in_option_list. Qed.

Lemma numbered_kits n (response : list KitTokenClass) k :
  k ∈ zip (seq n (length response)) response -> exists i, fst k = (n + i)%nat /\ response !! i = Some (snd k).
Proof.
  revert n. induction response as [|x r IH]; intros n; simpl; [by intros ?%not_elem_of_nil|].
  intros [->|Hk]%elem_of_cons; [by exists 0%nat; rewrite Nat.add_0_r|].
  destruct (IH _ Hk) as (i & Hi & Hx). exists (S i). split; [lia | done].
Qed.

Lemma between_new s s' response :
  between s -> node_component_ s' = node_component_ s -> pod_component_ s' = pod_component_ s ->
  bound_token s' = bound_token s -> kits_made s' = (kits_made s + length response)%nat ->
  kit_selected (dashboard s') = heading (selected_kit (dashboard s')) ->
  (forall k, k ∈ known s' -> k ∈ known s \/ k ∈ zip (seq (kits_made s) (length response)) response) -> between s'.
Proof.
  intros [H1 H2 _ H4 H5] E1 E2 E3 E4 Hh Hk. rewrite Forall_forall in H4.
  split; [by rewrite E1, E3 | by rewrite E2, E3 | done | |].
  - rewrite E4. apply Forall_forall. intros k [Hin|Hin]%Hk; [specialize (H4 k Hin); lia|].
    apply numbered_kits in Hin as (i & -> & Hi%lookup_lt_Some). lia.
  - intros k k' [Hin|Hin]%Hk [Hin'|Hin']%Hk Heq; [by apply H5| | |].
    + specialize (H4 k Hin). apply numbered_kits in Hin' as (i & ? & _). lia.
    + specialize (H4 k' Hin'). apply numbered_kits in Hin as (i & ? & _). lia.
    + apply numbered_kits in Hin as (i & Ei & Hi), Hin' as (i' & Ei' & Hi').
      destruct k as [n x], k' as [n' x']. simpl in *. assert (i' = i) by lia. subst.
      by simplify_eq.
Qed.

Lemma safe_in_nodes (m : NodeTable.M unit) :
  (forall t, safe (has_node_token t) (only to_reporting_node) m) -> safe between P (in_nodes m).
Proof.
  intros Hm s Hs. destruct (Hm _ _ (node_given s Hs)) as [H1 H2]. unfold in_nodes, zoom.
  destruct (m (node_component_ s)) as [[r y] es]. simpl in *. split.
  - destruct Hs. by split.
  - apply Forall_fmap. eapply Forall_impl; [exact H2|]. intros e He c. destruct e; try done.
    intros [= <-]. by apply He.
Qed.

Lemma safe_in_pods (m : PodTable.M unit) :
  (forall t, safe (has_pod_token t) (only to_reporting_pod) m) -> safe between P (in_pods m).
Proof.
  intros Hm s Hs. destruct (Hm _ _ (pod_given s Hs)) as [H1 H2]. unfold in_pods, zoom.
  destruct (m (pod_component_ s)) as [[r y] es]. simpl in *. split.
  - destruct Hs. by split.
  - apply Forall_fmap. eapply Forall_impl; [exact H2|]. intros e He c. destruct e; try done.
    intros [= <-]. by apply He.
Qed.

(** The datastores do not take part. *)
Lemma safe_in_stores (I : App -> Prop) i (m : Datastores.M unit) :
  (forall v n s, I s -> I (set_datastores_component v n s)) -> safe I P (in_stores i m).
Proof.
  intros HI s Hs. unfold in_stores, zoom. destruct (snd <$> datastores_component_ s) as [x|]; [|by split].
  destruct (m x) as [[r y] es]. split; [by apply HI|]. apply Forall_fmap, Forall_true.
  intros e c He. destruct e; try done. by injection He as <-.
Qed.

Lemma between_stores v n s : between s -> between (set_datastores_component v n s).
Proof. intros []. by split. Qed.

Lemma safe_while_shown (I : App -> Prop) i m : safe I P m -> safe I P (while_shown i m).
Proof. intros H. unfold while_shown, get. safe_auto; done. Qed.

Lemma safe_page (f : HealthDashboardComponent -> HealthDashboardComponent) :
  (forall s, between s ->
     kit_selected (f (dashboard s)) = heading (selected_kit (f (dashboard s))) /\
     forall k, k ∈ known (set_dashboard (f (dashboard s)) s) -> k ∈ known s) ->
  safe between P (modify_page f).
Proof.
  intros Hf s Hs. destruct (Hf s Hs). split; [|constructor]. by apply (between_subset s).
Qed.

Lemma safe_select s t :
  (t = None \/ exists k, t = Some k /\ k ∈ known s) -> between s ->
  between (set_dashboard (with_kit t (heading t) (dashboard s)) s).
Proof.
  intros Ht Hs. apply (between_subset s); try done. intros k. rewrite !in_known. simpl.
  intros [?|[?|[->|?]]]; auto. destruct Ht as [?|(k' & [= ->] & Hk)]; [done|]. by apply in_known.
Qed.

Lemma kits_preserved (f : list kit_ref -> HealthDashboardComponent -> HealthDashboardComponent) response :
  (forall l d, kit_selected (f l d) = kit_selected d /\ selected_kit (f l d) = selected_kit d /\
     forall k, k ∈ dashboard_status (f l d) \/ k ∈ remote_dashboard_status (f l d) ->
       k ∈ l \/ k ∈ dashboard_status d \/ k ∈ remote_dashboard_status d) ->
  safe between P (l <- new_kits response ;; modify_page (f l)).
Proof.
  intros Hf s Hs. unfold new_kits, get, modify_page, gets, modify, ret, bind. simpl.
  split; [|constructor].
  set (news := zip (seq (kits_made s) (length response)) response).
  destruct (Hf news (dashboard s)) as (E1 & E2 & Hk).
  apply (between_new s _ response); try done.
  - simpl. rewrite E1, E2. apply Hs.
  - intros k. rewrite !in_known. simpl. rewrite E2. intros [H|[H|[H|H]]]; auto.
    + destruct (Hk k (or_introl H)) as [?|[?|?]]; auto.
    + destruct (Hk k (or_intror H)) as [?|[?|?]]; auto.
Qed.

Lemma P_quiet (e : effect call page) : (forall c, e <> Subscribe c) -> P e.
Proof. by intros H c Hc%H. Qed.

Lemma safe_request c : to_reporting c -> safe between P (emit (Subscribe c)).
Proof. intros H. apply safe_emit. by intros ? [= <-]. Qed.

Lemma safe_silent (e : effect call page) : (forall c, e <> Subscribe c) -> safe between P (emit e).
Proof. intros H. by apply safe_emit, P_quiet. Qed.

Lemma safe_kit_select t s :
  (t = None \/ exists k, t = Some k /\ k ∈ known s) -> between s ->
  between (state_of (kit_select t s)) /\ Forall P (effects_of (kit_select t s)).
Proof.
  intros Ht Hs. pose proof (safe_select s t Ht Hs) as H. unfold kit_select.
  destruct t as [k|]; simpl in *.
  - unfold emit, modify_page, modify, bind, when. simpl.
    destruct (default "" (token (snd k)) === ""); simpl; (split; [exact H|]); repeat constructor; by apply P_quiet.
  - split; [exact H|]. repeat constructor. by apply P_quiet.
Qed.

Lemma safe_kit_row_click row : safe between P (kit_row_click row).
Proof.
  intros s Hs. destruct row as [i|]; [|apply safe_kit_select; auto].
  unfold kit_row_click, get. rewrite (bind_run_silent _ _ s s s) by done.
  destruct (remote_dashboard_status (dashboard s) !! i) as [k|] eqn:E; [|by split].
  apply safe_kit_select; [|done]. right. exists k. split; [done|]. apply in_known. right; left.
  by apply list_elem_of_lookup_2 in E.
Qed.

Lemma safe_tab_change i : safe between P (selected_tab_change i).
Proof.
  intros s Hs. unfold selected_tab_change, get. rewrite (bind_run_silent _ _ s s s) by done.
  pose proof (safe_select s None (or_introl eq_refl) Hs) as H.
  destruct i as [index|]; [|by split]. destruct (remote_dashboard_status (dashboard s)) as [|k r] eqn:E; [by split|].
  destruct (0 <? index)%Z; [|by split]. split; [|constructor].
  apply (safe_select s (Some k)); [|done]. right. exists k. split; [done|]. apply in_known. right; left.
  rewrite E. left.
Qed.

(** Everything but the check of the template keeps [between]. *)
Lemma safe_interval_tick : safe between P interval_tick.
Proof.
  unfold interval_tick, get, api_get_health_dashboard_status_, api_get_remote_health_dashboard_status_.
  safe_auto; try (by intros ? [= <-]).
  - apply safe_in_stores. intros. by apply between_stores.
  - apply safe_in_nodes, safe_node_reload.
  - apply safe_in_pods, safe_pod_reload.
Qed.

Lemma safe_page_answer c a : safe between P (answer_of c a).
Proof.
  destruct c as [c|c|i c| | |ip|]; simpl in *.
  - apply safe_in_nodes. intros t. apply safe_node_answer.
  - apply safe_in_pods. intros t. apply safe_pod_answer.
  - apply safe_while_shown, safe_in_stores. intros. by apply between_stores.
  - destruct a; simpl; [|apply safe_silent; done]. apply (kits_preserved (fun l d => with_status l (remote_dashboard_status d) d)). naive_solver.
  - destruct a; simpl; [|apply safe_silent; done]. apply (kits_preserved (fun l d => with_status (dashboard_status d) l d)). naive_solver.
  - destruct a; by apply safe_silent.
  - destruct a as [r|e]; [|destruct e; by apply safe_silent].
    simpl. unfold create_reload_interval_, get. safe_auto; try done; try by apply P_quiet.
    + apply safe_page. intros s Hs. split; [apply Hs | done].
    + apply safe_page. intros s Hs. split; [apply Hs | done].
Qed.

Lemma node_input t changes x :
  let r := (modify (NodeTable.set_token t) ;;; NodeTable.ngOnChanges changes) x in
  has_node_token t (state_of r) /\ Forall (only to_reporting_node) (effects_of r).
Proof.
  simpl. rewrite (bind_run_silent _ _ x tt (NodeTable.set_token t x)) by done.
  unfold NodeTable.ngOnChanges. destruct (token_changed changes); [by apply safe_node_reload | by split].
Qed.

Lemma pod_input t changes x :
  let r := (modify (PodTable.set_token t) ;;; PodTable.ngOnChanges changes) x in
  has_pod_token t (state_of r) /\ Forall (only to_reporting_pod) (effects_of r).
Proof.
  simpl. rewrite (bind_run_silent _ _ x tt (PodTable.set_token t x)) by done.
  unfold PodTable.ngOnChanges. destruct (token_changed changes); [by apply safe_pod_reload | by split].
Qed.

Lemma P_node (es : list (effect NodeTable.call page)) :
  Forall (only to_reporting_node) es -> Forall P (map_effect CNode <$> es).
Proof.
  intros H. apply Forall_fmap. eapply Forall_impl; [exact H|]. intros e He c Hc. destruct e; try done.
  injection Hc as <-. by apply He.
Qed.
Lemma P_pod (es : list (effect PodTable.call page)) :
  Forall (only to_reporting_pod) es -> Forall P (map_effect CPod <$> es).
Proof.
  intros H. apply Forall_fmap. eapply Forall_impl; [exact H|]. intros e He c Hc. destruct e; try done.
  injection Hc as <-. by apply He.
Qed.

Definition bound_ok (s : App) : Prop := between s /\ bound_token s = selected_kit (dashboard s).

Lemma leads_bind_token : leads between P bind_token bound_ok.
Proof.
  intros s Hs. unfold bind_token, get. rewrite (bind_run_silent _ _ s s s) by done.
  destruct (bool_decide_reflect (fst <$> bound_token s = fst <$> selected_kit (dashboard s))) as [Heq|Hne]; simpl.
  - split; [split; [done|] | constructor].
    change (bound_token s = selected_kit (dashboard s)).
    destruct (bound_token s) as [k|] eqn:Eb, (selected_kit (dashboard s)) as [k'|] eqn:Es; try done.
    f_equal. apply (kits_one s Hs); [apply in_known; auto | apply in_known; auto | by injection Heq].
  - set (t := selected_kit (dashboard s)).
    rewrite (bind_run_silent _ _ s tt (set_bound_token t s)) by done.
    set (changes := Some _). unfold finally, in_nodes, in_pods, zoom.
    cbn [node_component_ pod_component_ set_bound_token set_node_component].
    pose proof (node_input (snd <$> t) changes (node_component_ s)) as HN.
    pose proof (pod_input (snd <$> t) changes (pod_component_ s)) as HP.
    destruct (bind _ _ (node_component_ s)) as [[r1 y1] es1].
    cbn [pod_component_ set_bound_token set_node_component].
    destruct (bind _ _ (pod_component_ s)) as [[r2 y2] es2]. simpl in *.
    destruct HN as [Hy1 He1], HP as [Hy2 He2]. split; [|by apply Forall_app; split; [apply P_node | apply P_pod]].
    assert (Hk : forall k, k ∈ known (set_bound_token t s) -> k ∈ known s).
    { intros k. rewrite !in_known. simpl. unfold t. intuition. }
    split; [|done]. destruct Hs as [_ _ Hh Ho H1]. split; [done|done|done| |].
    + rewrite Forall_forall in Ho |- *. intros k Hin. by apply Ho, Hk.
    + intros k k' ? ?. by apply H1; apply Hk.
Qed.

(** The datastores are wanted. *)
Definition stores_wanted (s : App) : bool :=
  truthy (health_is_gip (dashboard s)) && negb (notUndefNull (selected_kit (dashboard s))).

Definition page_ok (s : App) : Prop :=
  bound_ok s /\ notUndefNull (datastores_component_ s) = stores_wanted s.

Lemma leads_show_datastores : leads bound_ok P show_datastores page_ok.
Proof.
  intros s [Hs Hb]. unfold show_datastores, get. rewrite (bind_run_silent _ _ s s s) by done.
  fold (stores_wanted s). destruct (datastores_component_ s) as [[i x]|] eqn:E; destruct (stores_wanted s) eqn:W; simpl.
  - split; [|constructor]. split; [by split|].
    change (notUndefNull (datastores_component_ s) = stores_wanted s). by rewrite E, W.
  - split; [|constructor]. split; [split; [by apply between_stores | done]|]. done.
  - split; [|by repeat constructor; intros ? [= <-]].
    split; [split; [by apply between_stores, between_stores | done]|]. done.
  - split; [|constructor]. split; [by split|].
    change (notUndefNull (datastores_component_ s) = stores_wanted s). by rewrite E, W.
Qed.

Lemma leads_detect_changes : leads between P detect_changes page_ok.
Proof. eapply leads_finally; [apply leads_bind_token | apply leads_show_datastores]. Qed.

Lemma safe_turn {A} (m : M A) : safe between P m -> safe page_ok P (finally m detect_changes).
Proof.
  intros Hm. apply (leads_finally page_ok between page_ok); [|apply leads_detect_changes].
  intros s [[Hs _] _]. by apply Hm.
Qed.

Lemma safe_first_turn : safe page_ok P (finally ngOnInit first_check).
Proof.
  apply (leads_finally page_ok bound_ok page_ok).
  { intros s [Hs _]. split; [done|]. repeat constructor; by intros ? [= <-]. }
  unfold first_check. eapply leads_finally; [|apply leads_show_datastores]. set (changes := Some _).
  intros s [Hs Hb]. unfold finally, in_nodes, in_pods, zoom. destruct Hs as [Hn Hp Hh Ho H1].
  pose proof (safe_node_reload _ _ Hn) as HN. pose proof (safe_pod_reload _ _ Hp) as HP.
  change (NodeTable.ngOnChanges changes) with NodeTable.reload.
  destruct (NodeTable.reload (node_component_ s)) as [[r1 y1] es1].
  cbn [pod_component_ set_node_component].
  change (PodTable.ngOnChanges changes) with PodTable.reload.
  destruct (PodTable.reload (pod_component_ s)) as [[r2 y2] es2]. simpl in *.
  destruct HN as [Hy1 He1], HP as [Hy2 He2]. split; [|by apply Forall_app; split; [apply P_node | apply P_pod]].
  split; [|done]. by split.
Qed.

Lemma safe_in_nodes_quiet f : (forall t x, has_node_token t x -> has_node_token t (f x)) ->
  safe between P (in_nodes (modify f)).
Proof. intros Hf. apply safe_in_nodes. intros t. apply safe_modify. by apply Hf. Qed.

Lemma safe_in_pods_quiet f : (forall t x, has_pod_token t x -> has_pod_token t (f x)) ->
  safe between P (in_pods (modify f)).
Proof. intros Hf. apply safe_in_pods. intros t. apply safe_modify. by apply Hf. Qed.

Lemma safe_page_turn l : safe page_ok P (react (K := health_page) l).
Proof.
  destruct l as [e|c a]; [|apply safe_turn, safe_page_answer].
  destruct e; simpl; [apply safe_first_turn|..]; apply safe_turn.
  - apply safe_interval_tick.
  - apply safe_tab_change.
  - apply safe_kit_row_click.
  - by apply safe_request.
  - apply safe_in_nodes. intros t. apply safe_emit. by intros ? [= <-].
  - by apply safe_in_nodes_quiet.
  - by apply safe_in_nodes_quiet.
  - apply safe_in_pods. intros t. apply safe_emit. by intros ? [= <-].
  - apply safe_in_pods. intros t. apply safe_emit. by intros ? [= <-].
  - by apply safe_in_pods_quiet.
  - by apply safe_in_pods_quiet.
  - apply safe_while_shown, safe_in_stores. intros. by apply between_stores.
  - apply safe_while_shown, safe_in_stores. intros. by apply between_stores.
Qed.

(** The interval's turn returns: every part it reads is shown. *)
Definition returns {S E} (m : handler S E unit) (s : S) : Prop := exists s' es, m s = (Ret tt, s', es).

Lemma node_reload_returns x : exists y es, NodeTable.reload x = (Ret tt, y, es).
Proof.
  unfold NodeTable.reload, NodeTable.get. rewrite (bind_run_silent _ _ x x x) by done.
  destruct (notUndefNull _); [by do 2 eexists|]. simpl. destruct (kit_is_silent _); by do 2 eexists.
Qed.

Lemma pod_reload_returns x : exists y es, PodTable.reload x = (Ret tt, y, es).
Proof.
  unfold PodTable.reload, PodTable.get. rewrite (bind_run_silent _ _ x x x) by done.
  destruct (kit_is_silent _); [|by do 2 eexists].
  destruct (pods_are_grouped [] x) as [[(p & ?%not_elem_of_nil & _) _]|(y & -> & _)]; [done|].
  by do 2 eexists.
Qed.

Lemma tick_returns s : page_ok s -> returns (on_event Tick) s.
Proof.
  intros [_ Hd]. unfold returns. simpl. unfold finally, interval_tick, get.
  rewrite (bind_run_silent _ _ s s s) by done.
  destruct (update_subscription_ (dashboard s)); cbn [when].
  2:{ unfold ret. destruct (detect_changes s) as [[? ?] ?]. by do 2 eexists. }
  fold (stores_wanted s).
  assert (Hstores : returns (when (stores_wanted s)
            (i <- deref (fst <$> datastores_component_ s) ;; in_stores i Datastores.reload)) s).
  { destruct (stores_wanted s); [|by do 2 eexists].
    destruct (datastores_component_ s) as [[i x]|] eqn:E; [|done].
    unfold returns. cbn [when]. rewrite (bind_run_silent _ _ s i s) by done.
    unfold in_stores, zoom. rewrite E. by do 2 eexists. }
  destruct Hstores as (s1 & es1 & H1). rewrite (bind_run _ _ _ _ _ _ H1).
  destruct (node_reload_returns (node_component_ s1)) as (y & es2 & H2).
  assert (H2' : in_nodes NodeTable.reload s1 = (Ret tt, set_node_component y s1, map_effect CNode <$> es2))
    by (unfold in_nodes, zoom; by rewrite H2).
  rewrite (bind_run _ _ _ _ _ _ H2'). set (s2 := set_node_component y s1).
  destruct (pod_reload_returns (pod_component_ s2)) as (z & es3 & H3).
  assert (H3' : in_pods PodTable.reload s2 = (Ret tt, set_pod_component z s2, map_effect CPod <$> es3))
    by (unfold in_pods, zoom; by rewrite H3).
  rewrite (bind_run _ _ _ _ _ _ H3'). simpl.
  destruct (detect_changes _) as [[? ?] ?]. by do 2 eexists.
Qed.

(** A turn that changes neither the selection nor the kit settings leaves the
    template as it is. *)
Lemma detect_idle s : page_ok s -> detect_changes s = (Ret tt, s, []).
Proof.
  intros [[_ Hb] Hd]. unfold detect_changes, finally, bind_token, show_datastores, get.
  rewrite !(bind_run_silent _ _ s s s) by done. rewrite Hb, bool_decide_eq_true_2 by done. simpl.
  rewrite (bind_run_silent _ _ s s s) by done. fold (stores_wanted s).
  destruct (datastores_component_ s), (stores_wanted s); done.
Qed.

Lemma page_ok_nodes s y : page_ok s -> has_node_token (snd <$> bound_token s) y -> page_ok (set_node_component y s).
Proof. intros [[[] ?] ?] ?. split; [split; [by split | done] | done]. Qed.

(** Selecting a kit requests nothing by itself. *)
Lemma kit_row_click_run row s :
  exists r d es, kit_row_click row s = (r, set_dashboard d s, es) /\ forall c, Subscribe c ∉ es.
Proof.
  assert (Hq : forall t, exists r d es, kit_select t s = (r, set_dashboard d s, es) /\ forall c, Subscribe c ∉ es).
  { intros [k|]; unfold kit_select, modify_page, modify, emit, bind, when; simpl;
      [destruct (default "" (token (snd k)) === "")|]; do 3 eexists; (split; [reflexivity|]);
      intros c Hc; repeat (apply elem_of_cons in Hc as [?|Hc]; [done|]); by apply not_elem_of_nil in Hc. }
  destruct row as [i|]; [|apply Hq]. unfold kit_row_click, get. rewrite (bind_run_silent _ _ s s s) by done.
  destruct (remote_dashboard_status (dashboard s) !! i); [apply Hq|].
  exists (Ret tt), (dashboard s), []. split; [by destruct s | intros c; apply not_elem_of_nil].
Qed.

Lemma show_datastores_run s :
  exists r v n es, show_datastores s = (r, set_datastores_component v n s, es) /\
    forall c, Subscribe (CNode c) ∉ es.
Proof.
  unfold show_datastores, get. rewrite (bind_run_silent _ _ s s s) by done.
  destruct (datastores_component_ s) as [x|] eqn:E; destruct (_ && _) eqn:W; simpl.
  - exists (Ret tt), (Some x), (datastores_made s), []. split; [by destruct s; simpl in *; subst|].
    intros c; apply not_elem_of_nil.
  - exists (Ret tt), None, (datastores_made s), []. split; [done|]. intros c; apply not_elem_of_nil.
  - do 4 eexists. split; [reflexivity|]. by intros c [?|?%not_elem_of_nil]%elem_of_cons.
  - exists (Ret tt), None, (datastores_made s), []. split; [by destruct s; simpl in *; subst|].
    intros c; apply not_elem_of_nil.
Qed.

Lemma node_input_expanded t changes x row :
  NodeTable.expanded_element x = Some row ->
  (modify (NodeTable.set_token t) ;;; NodeTable.ngOnChanges changes) x = (Ret tt, NodeTable.set_token t x, []).
Proof.
  intros Hx. rewrite (bind_run_silent _ _ x tt (NodeTable.set_token t x)) by done.
  unfold NodeTable.ngOnChanges, NodeTable.reload, NodeTable.get. destruct (token_changed changes); [|done].
  cbn [when]. set (y := NodeTable.set_token t x). rewrite (bind_run_silent _ _ y y y) by done.
  unfold y. cbn [NodeTable.expanded_element NodeTable.set_token NodeTable.with_all]. by rewrite Hx.
Qed.

(** While a row is expanded the check of the template asks for no nodes. *)
Lemma detect_expanded s row :
  NodeTable.expanded_element (node_component_ s) = Some row ->
  NodeTable.nodes (node_component_ (state_of (detect_changes s))) = NodeTable.nodes (node_component_ s) /\
  forall c, Subscribe (CNode c) ∉ effects_of (detect_changes s).
Proof.
  intros Hx. unfold detect_changes, finally.
  assert (Hb : exists r s1 es, bind_token s = (r, s1, es) /\
            NodeTable.nodes (node_component_ s1) = NodeTable.nodes (node_component_ s) /\
            forall c, Subscribe (CNode c) ∉ es).
  { unfold bind_token, get. rewrite (bind_run_silent _ _ s s s) by done.
    destruct (bool_decide _); simpl; [do 3 eexists; split; [done|]; split; [done|]; intros c; apply not_elem_of_nil|].
    set (t := selected_kit (dashboard s)). set (changes := Some _).
    rewrite (bind_run_silent _ _ s tt (set_bound_token t s)) by done.
    unfold finally, in_nodes, in_pods, zoom. cbn [node_component_ set_bound_token].
    rewrite (node_input_expanded _ _ _ row Hx).
    destruct (bind _ _ (pod_component_ _)) as [[r2 y2] es2].
    do 3 eexists. split; [reflexivity|]. split; [done|]. intros c Hc.
    by apply list_elem_of_fmap in Hc as ([] & ? & _). }
  destruct Hb as (r & s1 & es & -> & Hn & He). destruct (show_datastores_run s1) as (r2 & v & n & es2 & -> & He2).
  simpl. split; [done|]. intros c [Hc|Hc]%elem_of_app; [by apply (He c) | by apply (He2 c)].
Qed.

Lemma reachable_page_ok tr w :
  trace (K := health_page) (fun _ => True) tr w ->
  page_ok (component w) /\ Forall (fun x => Forall P (snd x)) tr.
Proof.
  intros Htr. apply (trace_invariant (fun _ => True) page_ok (fun _ => P)); [|by intros l _; apply safe_page_turn|done].
  split; [split; [split; simpl; [done..|intros k k' ?%not_elem_of_nil; done]|done]|done].
Qed.

(** C13: the page follows the selection.  In every interleaving, after each turn
    both tables have the selected kit and the heading names it; the datastores
    are shown exactly for a GIP kit without a selected remote kit, so the turn of
    the reload interval never reads a part that is not there; and the state of
    nodes and pods is only requested from kits that report. *)
Theorem page_follows_the_selection tr w :
  trace (K := health_page) (fun _ => True) tr w ->
  let s := component w in
  let kit := snd <$> selected_kit (dashboard s) in
  NodeTable.node_token (node_component_ s) = kit /\ PodTable.pod_token (pod_component_ s) = kit /\
  kit_selected (dashboard s) = heading (selected_kit (dashboard s)) /\
  notUndefNull (datastores_component_ s) = stores_wanted s /\
  (exists s' es, react (K := health_page) (Event Tick) s = (Ret tt, s', es)) /\
  forall l es c, (l, es) ∈ tr -> Subscribe c ∈ es -> to_reporting c.
Proof.
  intros Htr.
  destruct (reachable_page_ok tr w Htr) as [Hok HF].
  pose proof Hok as [[[Hn Hp Hh _ _] Hb] Hd]. simpl. rewrite <- Hb. split_and!; [done|done|by rewrite Hb|done| |].
  - by apply tick_returns.
  - intros l es c Hin Hc. rewrite Forall_forall in HF. specialize (HF _ Hin). simpl in HF.
    rewrite Forall_forall in HF. by apply (HF _ Hc).
Qed.
(** The node table can show the nodes of a kit that is not selected.  The
    answer for the kit that was selected when the request was made is shown
    whatever is selected now, and its nodes are then joined with what the kit
    selected now answers; while a row is expanded, selecting another kit asks for
    nothing and leaves the nodes of the kit before. *)
Theorem nodes_of_another_kit tr w kit l row k :
  trace (K := health_page) (fun _ => True) tr w ->
  let s := component w in
  NodeTable.expanded_element (node_component_ s) = Some row ->
  let answered := react (K := health_page) (Answered (CNode (NodeTable.CNodesStatus kit)) (Next l)) s in
  let selected := react (K := health_page) (Event (KitSelect k)) s in
  NodeTable.nodes (node_component_ (state_of answered)) = Some l /\
  effects_of answered = [Subscribe (CNode (NodeTable.CWriteRejects (snd <$> selected_kit (dashboard s))))] /\
  NodeTable.nodes (node_component_ (state_of selected)) = NodeTable.nodes (node_component_ s) /\
  forall c, Subscribe (CNode c) ∉ effects_of selected.
Proof.
  intros Htr s Hx answered selected. pose proof (reachable_page_ok tr w Htr) as [Hok _]. fold s in Hok.
  set (s1 := set_node_component (NodeTable.set_nodes (Some l) (node_component_ s)) s).
  assert (Ha : answered = (Ret tt, s1,
                 [Subscribe (CNode (NodeTable.CWriteRejects (NodeTable.node_token (node_component_ s))))])).
  { unfold answered. change (finally (in_nodes (NodeTable.api_get_node_status_answer (Next l))) detect_changes s =
      (Ret tt, s1, [Subscribe (CNode (NodeTable.CWriteRejects (NodeTable.node_token (node_component_ s))))])).
    unfold finally. replace (in_nodes _ s) with (@Ret unit tt, s1,
      [Subscribe (CNode (NodeTable.CWriteRejects (NodeTable.node_token (node_component_ s)))) : effect call page])
      by done.
    rewrite detect_idle; [done|]. apply page_ok_nodes; [done|]. apply Hok. }
  rewrite Ha. split_and!; [done| | |].
  - destruct Hok as [[Hb Hs] _]. simpl. rewrite <- Hs. by rewrite (node_given s Hb).
  - unfold selected. change (react _ s) with (finally (kit_row_click k) detect_changes s). unfold finally.
    destruct (kit_row_click_run k s) as (r & d & es & -> & _).
    destruct (detect_expanded (set_dashboard d s) row Hx) as [Hn _].
    by destruct (detect_changes (set_dashboard d s)) as [[r2 s2] es2].
  - unfold selected. change (react _ s) with (finally (kit_row_click k) detect_changes s). unfold finally.
    destruct (kit_row_click_run k s) as (r & d & es & -> & He).
    destruct (detect_expanded (set_dashboard d s) row Hx) as [_ Hc].
    destruct (detect_changes (set_dashboard d s)) as [[r2 s2] es2]. simpl in *.
    intros c [H|H]%elem_of_app; [by apply (He (CNode c)) | by apply (Hc c)].
Qed.

End Facts.

(** A run: a remote kit that reports is selected, its nodes are on their way. *)
Definition sample_kit (id ip : string) (tok : option string) : KitTokenClass :=
  {| kit_token_id := Some id; ipaddress := ip; token := tok; elasticsearch_status := Some "green";
     kibana_status := None; kt_hostname := None |}.

Definition remote_kit : KitTokenClass := sample_kit "7" "10.0.0.7" (Some "t").

Lemma page_follows_the_selection_witness :
  exists tr w, trace (K := health_page) (fun _ => True) tr w /\
    NodeTable.node_token (node_component_ (component w)) = Some remote_kit /\
    CNode (NodeTable.CNodesStatus (Some remote_kit)) ∈ pending w /\
    exists s' es, react (K := health_page) (Event Tick) (component w) = (Ret tt, s', es).
Proof.
  pose proof (trace_start (K := health_page) (fun _ => True)) as T.
  apply (trace_event _ _ _ Init) in T; [|exact I].
  apply (trace_answer _ _ _ [CStatus] CRemoteStatus
    [CKitSettings; CNode (NodeTable.CNodesStatus None); CPod (PodTable.CPodsStatus None)]
    (Next [remote_kit])) in T; [|exact I|vm_compute; reflexivity].
  apply (trace_event _ _ _ (KitSelect (Some 0))) in T; [|exact I].
  match type of T with trace _ ?tr ?w => exists tr, w end.
  split; [exact T|]. destruct (page_follows_the_selection _ _ T) as (H1 & _ & _ & _ & H5 & _).
  split; [exact H1|]. split; [|exact H5]. by vm_compute; do 4 right; left.
Defined.

Definition sample_node : NodeStatusClass :=
  let c := {| ca_cpu := "8"; ephermeral_storage := None; ca_memory := "16Gi"; ca_pods := None |} in
  {| ns_name := "node1"; ns_address := "10.0.0.1"; ready := true; ns_type := "server"; storage := None;
     ns_memory := None; cpu := None; ns_capacity := c; allocatable := c; remaining := c;
     node_info := {| architecture := "amd64"; boot_id := ""; container_runtime_version := ""; kernel_version := "";
                     kube_proxy_version := ""; kubelet_version := ""; machine_id := ""; operating_system := "linux";
                     os_image := ""; system_uuid := "" |};
     app_data := None; write_rejects := None |}.

(** The remote kit is selected while the answer for the local one is on its way,
    and stays without nodes of its own once a row is expanded. *)
Lemma nodes_of_another_kit_witness :
  exists tr w, trace (K := health_page) (fun _ => True) tr w /\
    CNode (NodeTable.CNodesStatus None) ∈ pending w /\
    (snd <$> selected_kit (dashboard (component w))) = Some remote_kit /\
    NodeTable.nodes (node_component_ (state_of
      (react (K := health_page) (Answered (CNode (NodeTable.CNodesStatus None)) (Next [sample_node])) (component w)))) =
      Some [sample_node].
Proof.
  pose proof (trace_start (K := health_page) (fun _ => True)) as T.
  apply (trace_event _ _ _ Init) in T; [|exact I].
  apply (trace_answer _ _ _ [CStatus] CRemoteStatus
    [CKitSettings; CNode (NodeTable.CNodesStatus None); CPod (PodTable.CPodsStatus None)]
    (Next [remote_kit])) in T; [|exact I|vm_compute; reflexivity].
  apply (trace_event _ _ _ (ExpandNode sample_node)) in T; [|exact I].
  apply (trace_event _ _ _ (KitSelect (Some 0))) in T; [|exact I].
  match type of T with trace _ ?tr ?w => exists tr, w end.
  split; [exact T|]. split; [by vm_compute; do 2 right; left|]. split; [by vm_compute|].
  destruct (nodes_of_another_kit _ _ None [sample_node] sample_node None T) as [H _]; [by vm_compute|].
  exact H.
Defined.
