(* ===== verification/ServerStdout.v ===== *)
(** modules/server-stdout: the dialog that shows the output of a job.

    The lines come from one request and from the messages of the socket, whose
    listener the dialog sets up when it starts.  The pages of NodeMng.v,
    KitSettings.v and ProgressBar.v open it with the id of a job. *)
From S2P Require Import Prelude Handler JsValue Runtime Data Api SettingsData.

(** ** classes/job-log.class.ts and services/job.service.ts *)

Record JobLogClass := { color : string; jobName : string; jobid : string; log : string }.

Definition job_logs_request (job_id : string) : service unit (list JobLogClass) (list JobLogClass) :=
  Service GET ("/api/jobs/log/" +:+ job_id) tt "job logs" copied.
Definition job_delete (job_id : string) : service unit GenericJobAndKeyClass GenericJobAndKeyClass :=
  Service DELETE ("/api/jobs/" +:+ job_id) tt "job delete" copied.

Definition CONFIRM_DIALOG_MAT_DIALOG_DATA_STOP_JOB : ConfirmDialogMatDialogDataInterface :=
  {| title := "Stop"; message := "Are you sure you want to stop this job?";
     option1 := CANCEL_DIALOG_OPTION; option2 := CONFIRM_DIALOG_OPTION; message_double_confirm := None |}.
Definition CONFIRM_DIALOG_MAT_DIALOG_DATA_RETRY_JOB : ConfirmDialogMatDialogDataInterface :=
  {| title := "Retry Job"; message := "Are you sure you want to rerun this job?";
     option1 := CANCEL_DIALOG_OPTION; option2 := CONFIRM_DIALOG_OPTION; message_double_confirm := None |}.

(** ** The component *)

(** [job_get] of SettingsData.v is answered with [None] for the object without
    properties that the server sends for a job it does not know. *)
Inductive call : Type :=
| CLogs (job_id : string)
| CJob (job_id : string)
| CDelete (job_id : string)
| CRetry (job_id : string)
| DStop (data : ConfirmDialogMatDialogDataInterface)
| DRetry (data : ConfirmDialogMatDialogDataInterface).
Definition Ans (c : call) : Type :=
  match c with
  | CLogs _ => answer (list JobLogClass)
  | CJob _ => answer (option BackgroundJobClass)
  | CDelete _ | CRetry _ => answer GenericJobAndKeyClass
  | DStop _ | DRetry _ => option string
  end.

(** [JobDeleted] is the output of the component. *)
Inductive page : Type := JobDeleted | ScrollToBottom.

Record ServerStdoutComponent := {
  job_finished : bool;
  scroll_status : bool;
  allow_retry : option bool;
  job_logs : list JobLogClass;
  job_id_ : string;
}.
Abbreviation M := (handler ServerStdoutComponent (effect call page)).

Definition constructor (job_id : string) : ServerStdoutComponent :=
  {| job_finished := false; scroll_status := true; allow_retry := None; job_logs := []; job_id_ := job_id |}.

Definition with_finished v s :=
  {| job_finished := v; scroll_status := scroll_status s; allow_retry := allow_retry s; job_logs := job_logs s; job_id_ := job_id_ s |}.
Definition with_scroll v s :=
  {| job_finished := job_finished s; scroll_status := v; allow_retry := allow_retry s; job_logs := job_logs s; job_id_ := job_id_ s |}.
Definition with_retry v s :=
  {| job_finished := job_finished s; scroll_status := scroll_status s; allow_retry := v; job_logs := job_logs s; job_id_ := job_id_ s |}.
Definition with_logs v s :=
  {| job_finished := job_finished s; scroll_status := scroll_status s; allow_retry := allow_retry s; job_logs := v; job_id_ := job_id_ s |}.

Definition get : M ServerStdoutComponent := gets (fun s => s).

Definition start_scroll : M unit := modify (with_scroll true).
Definition stop_scroll : M unit := modify (with_scroll false).
Definition scroll_to_bottom_ : M unit := emit (Page ScrollToBottom).

(** The listener on the socket. *)
Definition socket_on_message_ (response : JobLogClass) : M unit :=
  s <- get ;;
  when (jobid response === job_id_ s)
    (modify (with_logs (job_logs s ++ [response])) ;;; when (scroll_status s) scroll_to_bottom_).

Definition api_job_logs_ : M unit := s <- get ;; emit (Subscribe (CLogs (job_id_ s))).
Definition api_job_get_ : M unit := s <- get ;; emit (Subscribe (CJob (job_id_ s))).
Definition api_job_delete_ : M unit := s <- get ;; emit (Subscribe (CDelete (job_id_ s))).
Definition api_job_retry_ : M unit := s <- get ;; emit (Subscribe (CRetry (job_id_ s))).

Definition confirmed (response : option string) : bool := response ?=== CONFIRM_DIALOG_OPTION.
Definition stop_job_confirm_dialog : M unit := emit (Subscribe (DStop CONFIRM_DIALOG_MAT_DIALOG_DATA_STOP_JOB)).
Definition stop_job_closed (response : option string) : M unit := when (confirmed response) api_job_delete_.
Definition retry_job_confirm_dialog : M unit := emit (Subscribe (DRetry CONFIRM_DIALOG_MAT_DIALOG_DATA_RETRY_JOB)).
Definition retry_job_closed (response : option string) : M unit := when (confirmed response) api_job_retry_.

Definition ngOnInit : M unit := api_job_logs_ ;;; api_job_get_.

Definition api_job_logs_answer (a : answer (list JobLogClass)) : M unit :=
  match a with
  | Next response => modify (with_logs response) ;;; scroll_to_bottom_
  | Error e => on_error_message "retrieving job logs" e
  end.

Definition response_status (response : option BackgroundJobClass) : option string :=
  match response with Some j => bj_status j | None => None end.
Definition api_job_get_answer (a : answer (option BackgroundJobClass)) : M unit :=
  match a with
  | Next response =>
      when (negb (notUndefNull (response_status response)) || bool_decide (response_status response = Some "started"))
        (modify (with_retry (Some false))) ;;;
      when (bool_decide (response_status response = Some "failed")) (modify (with_retry (Some true))) ;;;
      match response with
      | None =>
          modify (with_finished true) ;;;
          displaySnackBar "Job has already finished or is no longer available" (Some MAT_SNACKBAR_CONFIGURATION_60000_DUR)
      | Some _ => modify (with_finished false)
      end
  | Error e => on_error_message "retrieving job" e
  end.
Definition api_job_delete_answer (a : answer GenericJobAndKeyClass) : M unit :=
  match a with
  | Next response =>
      emit (Page JobDeleted) ;;;
      modify (with_logs []) ;;;
      generate_return_success_snackbar_message ("deleted job " +:+ gj_job_id response) (Some MAT_SNACKBAR_CONFIGURATION_60000_DUR)
  | Error e => on_error_message "requesting delete job" e
  end.
Definition api_job_retry_answer (a : answer GenericJobAndKeyClass) : M unit :=
  match a with
  | Next _ =>
      modify (with_logs []) ;;;
      api_job_get_ ;;;
      generate_return_success_snackbar_message "requested system to retry job." (Some MAT_SNACKBAR_CONFIGURATION_60000_DUR)
  | Error e => on_error_message "requesting retry job" e
  end.

(** A click reaches a handler only while its button is shown and enabled. *)
Inductive event : Type :=
| NgOnInit
| SocketMessage (response : JobLogClass)
| StartScrollClick
| StopScrollClick
| StopJobClick
| RetryJobClick.

Definition on_event (e : event) : M unit :=
  s <- get ;;
  match e with
  | NgOnInit => ngOnInit
  | SocketMessage response => socket_on_message_ response
  | StartScrollClick => when (negb (scroll_status s)) start_scroll
  | StopScrollClick => when (scroll_status s && negb (job_finished s)) stop_scroll
  | StopJobClick => when (negb (job_finished s)) stop_job_confirm_dialog
  | RetryJobClick => when (truthy (allow_retry s)) retry_job_confirm_dialog
  end.
Definition on_answer (c : call) : Ans c -> M unit :=
  match c with
  | CLogs _ => api_job_logs_answer
  | CJob _ => api_job_get_answer
  | CDelete _ => api_job_delete_answer
  | CRetry _ => api_job_retry_answer
  | DStop _ => stop_job_closed
  | DRetry _ => retry_job_closed
  end.

#[export] Instance server_stdout (id : string) : Component ServerStdoutComponent call page event Ans :=
  {| initial := constructor id; Runtime.on_event := on_event; Runtime.on_answer := on_answer |}.

(** ** The lines that are shown *)

Section Console.
Variable id : string.
Abbreviation react := (react (K := server_stdout id)).
Abbreviation any := (fun _ : label event Ans => True).

(** The lines by which a turn replaces those that are shown. *)
Definition replacement (l : label event Ans) : option (list JobLogClass) :=
  match l with
  | Answered c a =>
      match c return Ans c -> option (list JobLogClass) with
      | CLogs _ => fun a => match a with Next response => Some response | Error _ => None end
      | CDelete _ | CRetry _ => fun a => match a with Next _ => Some [] | Error _ => None end
      | _ => fun _ => None
      end a
  | Event _ => None
  end.

(** The lines of the job among the messages. *)
Definition lines_of (ls : list (label event Ans)) : list JobLogClass :=
  omap (fun l => match l with Event (SocketMessage m) => if jobid m === id then Some m else None | _ => None end) ls.

(** [shown ls logs]: after the turns [ls] the lines are those of the last turn
    that replaced them, and the ones of the job that arrived later. *)
Definition shown (ls : list (label event Ans)) (logs : list JobLogClass) : Prop :=
  exists before since base, ls = before ++ since /\
    (before = [] /\ base = [] \/ exists init l, before = init ++ [l] /\ replacement l = Some base) /\
    Forall (fun l => replacement l = None) since /\ logs = base ++ lines_of since.

Lemma shown_replaced ls l base : replacement l = Some base -> shown (ls ++ [l]) base.
Proof using.
  intros H. exists (ls ++ [l]), [], base. rewrite !app_nil_r. split; [done|]. split; [|done].
  right. by exists ls, l.
Qed.

Lemma shown_kept ls l logs : replacement l = None -> shown ls logs -> shown (ls ++ [l]) (logs ++ lines_of [l]).
Proof using.
  intros H (before & since & base & -> & Hb & Hs & ->). exists before, (since ++ [l]), base.
  rewrite <- !app_assoc. split; [done|]. split; [done|]. split; [by apply Forall_app; split; [|constructor]|].
  unfold lines_of. by rewrite omap_app.
Qed.

Lemma job_get_logs a s : let s' := state_of (api_job_get_answer a s) in job_id_ s' = job_id_ s /\ job_logs s' = job_logs s.
Proof using.
  destruct a as [r|[]]; try done. unfold api_job_get_answer.
  destruct (_ || _), (bool_decide (_ = Some "failed")), r; done.
Qed.

Lemma event_logs e s : let s' := state_of (on_event e s) in
  job_id_ s' = job_id_ s /\
  job_logs s' = job_logs s ++ match e with SocketMessage m => if jobid m === job_id_ s then [m] else [] | _ => [] end.
Proof using.
  unfold on_event, get. rewrite (bind_state _ _ s s s []) by done.
  destruct e as [|m| | | |]; [by rewrite app_nil_r | |..].
  - unfold socket_on_message_, get. rewrite (bind_state _ _ s s s []) by done.
    destruct (jobid m === job_id_ s); [|by rewrite app_nil_r]. by destruct s as [? [] ? ? ?].
  - rewrite app_nil_r. by destruct (negb _).
  - rewrite app_nil_r. by destruct (_ && _).
  - rewrite app_nil_r. by destruct (negb _).
  - rewrite app_nil_r. by destruct (truthy _).
Qed.

(** One turn, seen at the lines and the id of the job. *)
Lemma turn_lines l s : job_id_ s = id -> job_id_ (state_of (react l s)) = id /\
  job_logs (state_of (react l s)) = match replacement l with Some b => b | None => job_logs s ++ lines_of [l] end.
Proof using.
  intros Hid. destruct l as [e|c a].
  - cbn [Runtime.react Runtime.on_event server_stdout]. destruct (event_logs e s) as [E1 E2]. rewrite E1, E2, Hid.
    split; [done|]. simpl. f_equal. unfold lines_of. destruct e; try done. simpl. by destruct (jobid response === id).
  - destruct c; cbn [Runtime.react Runtime.on_answer server_stdout on_answer replacement].
    2: { destruct (job_get_logs a s) as [E1 E2]. rewrite E1, E2. by rewrite app_nil_r. }
    1-3: destruct a as [r|e]; [split; [exact Hid | done] | rewrite app_nil_r; by destruct e].
    + unfold stop_job_closed, api_job_delete_. rewrite app_nil_r. by destruct (confirmed a).
    + unfold retry_job_closed, api_job_retry_. rewrite app_nil_r. by destruct (confirmed a).
Qed.

(** C34: the console shows the lines of its job.  In every interleaving of messages,
    answers and clicks the lines are those of the turn that replaced them last (the
    answer with the lines so far, or the success of a stop or of a retry, which
    clear them) and after them, in their order, exactly the messages of the job that
    arrived since; messages of other jobs never show. *)
Theorem console_shows_its_job tr w :
  trace (K := server_stdout id) any tr w -> job_id_ (component w) = id /\ shown (fst <$> tr) (job_logs (component w)).
Proof using.
  induction 1 as [|tr w l w' Htr [IH1 IH2] _ Hstep]; [split; [done|]; exists [], [], []; naive_solver|].
  rewrite (step_component _ _ _ Hstep), fmap_app. destruct (turn_lines l _ IH1) as [H1 H2]. split; [done|].
  rewrite H2. destruct (replacement l) eqn:E; [by apply shown_replaced | by apply shown_kept].
Qed.

(** *** What is asked of the server *)

Definition causes (l : label event Ans) (c : call) : Prop :=
  match c with
  | CDelete i => i = id /\ exists d, l = Answered (DStop d) (Some CONFIRM_DIALOG_OPTION)
  | CRetry i => i = id /\ exists d, l = Answered (DRetry d) (Some CONFIRM_DIALOG_OPTION)
  | DStop d => l = Event StopJobClick
  | DRetry d => l = Event RetryJobClick
  | CLogs i => i = id /\ l = Event NgOnInit
  | CJob i => i = id
  end.
Lemma confirmed_option r : confirmed r = true -> r = Some CONFIRM_DIALOG_OPTION.
Proof using. destruct r as [r|]; [|done]. by intros ->%seqb_eq. Qed.

Lemma job_get_quiet r s e : e ∈ effects_of (api_job_get_answer (Next r) s) -> exists m, e = DisplaySnackBar m (Some MAT_SNACKBAR_CONFIGURATION_60000_DUR).
Proof using.
  unfold api_job_get_answer. destruct (_ || _), (bool_decide (_ = Some "failed")), r; cbn;
    first [by intros ?%not_elem_of_nil | intros [->|?%not_elem_of_nil]%elem_of_cons; [by eexists | done]].
Qed.

Lemma turn_causes l : safe (fun s => job_id_ s = id) (fun e => forall c, e = Subscribe c -> causes l c) (react l).
Proof using.
  intros s Hid. split; [exact (proj1 (turn_lines l s Hid))|]. destruct l as [e|c a].
  - destruct e; cbn [Runtime.react Runtime.on_event server_stdout]; unfold on_event, get;
      rewrite (bind_run_silent _ _ s s s) by done;
      unfold ngOnInit, api_job_logs_, api_job_get_, socket_on_message_, get, bind, gets, emit, modify, when; cbn; rewrite ?Hid;
      repeat match goal with |- context [if ?b then _ else _] => destruct b end; cbn; repeat constructor; by intros c [= <-].
  - destruct c; cbn [Runtime.react Runtime.on_answer server_stdout on_answer].
    1-4: destruct a as [r|e]; [|destruct e; repeat constructor; by intros c].
    + repeat constructor; by intros c.
    + rewrite Forall_forall. intros e He. by destruct (job_get_quiet r s e He) as [m ->].
    + repeat constructor; by intros c.
    + unfold api_job_retry_answer, api_job_get_, get, bind, modify, gets, emit; cbn. rewrite Hid. repeat constructor; by intros c [= <-].
    + unfold stop_job_closed, api_job_delete_, get. destruct (confirmed a) eqn:E; [|constructor].
      apply confirmed_option in E as ->. cbn. rewrite Hid. repeat constructor. intros c [= <-]. by split; [|eexists].
    + unfold retry_job_closed, api_job_retry_, get. destruct (confirmed a) eqn:E; [|constructor].
      apply confirmed_option in E as ->. cbn. rewrite Hid. repeat constructor. intros c [= <-]. by split; [|eexists].
Qed.

(** The job is stopped or started again only by its confirmed dialog, which a
    click opened before, and no other job ever is. *)
Theorem jobs_stop_by_confirmation tr w l es i :
  trace (K := server_stdout id) any tr w -> (l, es) ∈ tr ->
  (Subscribe (CDelete i) ∈ es -> i = id /\ exists d, l = Answered (DStop d) (Some CONFIRM_DIALOG_OPTION)) /\
  (Subscribe (CRetry i) ∈ es -> i = id /\ exists d, l = Answered (DRetry d) (Some CONFIRM_DIALOG_OPTION)).
Proof using.
  intros Htr Hin.
  pose proof (trace_caused (K := server_stdout id) any _ causes tr w eq_refl (fun l _ => turn_causes l) Htr l es) as H.
  split; intros Hc; exact (H _ Hin Hc).
Qed.

(** A job that waits in its queue keeps what was allowed before: after a retry
    the button offers another one until the job has started. *)
Lemma queued_keeps_retry s j : bj_status j = Some "queued" ->
  react (Answered (CJob id) (Next (Some j))) s = (Ret tt, with_finished false s, []).
Proof using. intros H. cbn. unfold api_job_get_answer, bind, when. cbn. by rewrite H. Qed.
End Console.

Lemma console_shows_its_job_witness : exists tr w, trace (K := server_stdout "7") (fun _ => True) tr w /\
  job_id_ (component w) = "7" /\ shown "7" (fst <$> tr) (job_logs (component w)) /\ length (job_logs (component w)) = 2%nat.
Proof.
  pose (line := fun j t => {| color := "#fff"; jobName := "kit"; jobid := j; log := t |}).
  pose proof (trace_start (K := server_stdout "7") (fun _ => True)) as T.
  apply (trace_event _ _ _ NgOnInit) in T; [|exact I].
  apply (trace_event _ _ _ (SocketMessage (line "8" "b"))) in T; [|exact I].
  match type of T with trace _ ?tr ?w => set (w1 := w) in T end.
  assert (Hp : pending w1 = [] ++ CLogs "7" :: [CJob "7"]) by reflexivity.
  apply (trace_answer _ _ _ [] _ [CJob "7"] (Next [line "7" "a"] : Ans (CLogs "7"))) in T; [|exact I|exact Hp].
  apply (trace_event _ _ _ (SocketMessage (line "7" "c"))) in T; [|exact I].
  match type of T with trace _ ?tr ?w => exists tr, w end.
  destruct (console_shows_its_job "7" _ _ T) as [H1 H2]. split; [exact T|]. split; [exact H1|]. split; [exact H2|]. reflexivity.
Defined.
