(* ===== verification/RuleSetDialog.v ===== *)
(** modules/policy-management/components/rule-set-add-edit: the dialog that adds or
    edits a rule set for the page of Policy.v.

    The sensors that are offered come from two requests, made again for every
    selection of a rule type.  The button of the submission also closes the dialog
    with its data before the handler runs; the page hears the last result. *)
From S2P Require Import Prelude Handler JsValue Runtime Data Api Sorting HiveSettings RuleEditor.

(** ** constants/policy-management.constant.ts *)

Definition ADD_RULE_SET_TITLE : string := "Add Rule Set".
Definition EDIT_RULE_SET_TITLE : string := "Edit Rule Set".
Definition ADD : string := "add".
Definition CLEARANCE_LEVELS : list string := ["Unclassified"; "Confidential"; "Secret"; "Top Secret"].
Definition RULE_TYPES : list string := ["Suricata"; "Zeek Scripts"; "Zeek Intel"; "Zeek Signatures"].
Definition SURICATA : string := "suricata".
Definition SURICATA_CAP_FIRST : string := "Suricata".
Definition ZEEK : string := "zeek".
Definition ZEEK_CAP_FIRST : string := "Zeek".
Definition ZEEK_SCRIPTS : string := "Zeek Scripts".
Definition ZEEK_INTEL : string := "Zeek Intel".
Definition ZEEK_SIGNATURES : string := "Zeek Signatures".
Definition CATALOG_STATUS_STATUS : string := "DEPLOYED".
Definition MAT_SNACKBAR_CONFIGURATION_3000_DUR : MatSnackbarConfigurationClass :=
  {| timeInMS := Some 3000%Z; actionLabel := Some "Close"; action := None; panelClass := None |}.

(** services/sensor-host-info.service.ts *)
Definition get_sensor_host_info : service unit (list HostInfoClass) (list HostInfoClass) :=
  Service GET "/api/policy/sensor/info" tt "sensor host info" copied.

(** ** The component *)

(** The control of the sensors holds the names until the submission puts the hosts
    there. *)
Inductive sensors_value : Type := Hostnames (l : list string) | Hosts (l : list HostInfoClass).
Record rule_set_form := {
  f__id : jsval;
  f_name : string;
  f_clearance : string;
  f_sensors : sensors_value;
  f_appType : string;
  f_appType_disabled : bool;
  f_isEnabled : bool;
}.
Definition set_name v f := {| f__id := f__id f; f_name := v; f_clearance := f_clearance f; f_sensors := f_sensors f;
  f_appType := f_appType f; f_appType_disabled := f_appType_disabled f; f_isEnabled := f_isEnabled f |}.
Definition set_clearance v f := {| f__id := f__id f; f_name := f_name f; f_clearance := v; f_sensors := f_sensors f;
  f_appType := f_appType f; f_appType_disabled := f_appType_disabled f; f_isEnabled := f_isEnabled f |}.
Definition set_sensors v f := {| f__id := f__id f; f_name := f_name f; f_clearance := f_clearance f; f_sensors := v;
  f_appType := f_appType f; f_appType_disabled := f_appType_disabled f; f_isEnabled := f_isEnabled f |}.
Definition set_appType v f := {| f__id := f__id f; f_name := f_name f; f_clearance := f_clearance f; f_sensors := f_sensors f;
  f_appType := v; f_appType_disabled := f_appType_disabled f; f_isEnabled := f_isEnabled f |}.
Definition set_enabled v f := {| f__id := f__id f; f_name := f_name f; f_clearance := f_clearance f; f_sensors := f_sensors f;
  f_appType := f_appType f; f_appType_disabled := f_appType_disabled f; f_isEnabled := v |}.
Definition disable_appType f := {| f__id := f__id f; f_name := f_name f; f_clearance := f_clearance f; f_sensors := f_sensors f;
  f_appType := f_appType f; f_appType_disabled := true; f_isEnabled := f_isEnabled f |}.

Inductive call : Type := CHosts (application : string) | CStatus (application : string) (selection : list string).
Definition Ans (c : call) : Type :=
  match c with
  | CHosts _ => answer (list HostInfoClass)
  | CStatus _ _ => answer (list CatalogStatusClass)
  end.

Inductive result : Type := DialogData (data : DialogDataInterface) | Form (rule_set_form_group : rule_set_form).
Inductive page : Type := CloseDialog (r : option result).

Record RuleSetAddEditComponent := {
  dialog_title : string;
  sensor_list_selection : option (list string);
  rule_set_form_group : option rule_set_form;
  sensor_list_ : option (list HostInfoClass);
  dialog_data : DialogDataInterface;
}.
Abbreviation M := (handler RuleSetAddEditComponent (effect call page)).

Definition with_title v s := {| dialog_title := v; sensor_list_selection := sensor_list_selection s;
  rule_set_form_group := rule_set_form_group s; sensor_list_ := sensor_list_ s; dialog_data := dialog_data s |}.
Definition with_selection v s := {| dialog_title := dialog_title s; sensor_list_selection := v;
  rule_set_form_group := rule_set_form_group s; sensor_list_ := sensor_list_ s; dialog_data := dialog_data s |}.
Definition with_group v s := {| dialog_title := dialog_title s; sensor_list_selection := sensor_list_selection s;
  rule_set_form_group := v; sensor_list_ := sensor_list_ s; dialog_data := dialog_data s |}.
Definition with_hosts v s := {| dialog_title := dialog_title s; sensor_list_selection := sensor_list_selection s;
  rule_set_form_group := rule_set_form_group s; sensor_list_ := v; dialog_data := dialog_data s |}.

Definition constructor (d : DialogDataInterface) : RuleSetAddEditComponent :=
  {| dialog_title := ""; sensor_list_selection := None; rule_set_form_group := None; sensor_list_ := None; dialog_data := d |}.

Section Dialog.
Context {L : LengthValidators} {Co : Collation}.

Definition get : M RuleSetAddEditComponent := gets (fun s => s).

Definition set_title_ (value : string) : M unit := modify (with_title value).
Definition set_rule_set_form_group_ (f : rule_set_form) : M unit := modify (with_group (Some f)).
Definition set_sensor_list_ (l : list HostInfoClass) : M unit := modify (with_hosts (Some l)).
Definition set_sensor_list_selection_ (l : list string) : M unit := modify (with_selection (Some l)).
Definition cancel : M unit := emit (Page (CloseDialog None)).

(** A disabled control is not validated. *)
Definition form_valid (f : rule_set_form) : bool :=
  Validators_required_text (f_name f) && Validators_required_text (f_clearance f) &&
  (f_appType_disabled f || Validators_required_text (f_appType f)).

Definition is_rule_set_enabled (s : RuleSetAddEditComponent) : option bool := f_isEnabled <$> rule_set_form_group s.

Definition get_sensor_type_ (app_type : string) : string :=
  if app_type === SURICATA_CAP_FIRST then SURICATA
  else if app_type === ZEEK_CAP_FIRST then ZEEK
  else if bool_decide (app_type ∈ [ZEEK_SCRIPTS; ZEEK_INTEL; ZEEK_SIGNATURES]) then ZEEK
  else "".

Definition initialize_form_ (rule_set : option RuleSetClass) (is_edit : bool) : M unit :=
  let f := match rule_set with
           | Some r => {| f__id := JNum (rs__id r); f_name := rs_name r; f_clearance := clearance r; f_sensors := Hostnames [];
                          f_appType := appType r; f_appType_disabled := false; f_isEnabled := rs_isEnabled r |}
           | None => {| f__id := JStr "0"; f_name := ""; f_clearance := ""; f_sensors := Hostnames []; f_appType := "";
                        f_appType_disabled := false; f_isEnabled := true |}
           end in
  if is_edit then
    r <- deref rule_set ;;
    set_rule_set_form_group_ (set_sensors (Hostnames (hi_hostname <$> sensors r)) (disable_appType f))
  else set_rule_set_form_group_ f.

Definition api_change_sensor_selection_ (application : string) : M unit := emit (Subscribe (CHosts application)).
Definition api_catalog_status_ (application : string) (selection : list string) : M unit :=
  emit (Subscribe (CStatus application selection)).

Definition ngOnInit : M unit :=
  s <- get ;;
  match dd_action (dialog_data s) with
  | Some action =>
      set_title_ (if action === ADD then ADD_RULE_SET_TITLE else EDIT_RULE_SET_TITLE) ;;;
      type <- (if action === EDIT then
                 match dd_rule_set (dialog_data s) with
                 | Some edit_rule_set => initialize_form_ (Some edit_rule_set) true ;;; ret (get_sensor_type_ (appType edit_rule_set))
                 | None =>
                     cancel ;;;
                     generate_return_error_snackbar_message "rule set not passed to edit dialog window"
                       (Some MAT_SNACKBAR_CONFIGURATION_60000_DUR) ;;;
                     ret SURICATA
                 end
               else initialize_form_ None false ;;; ret SURICATA) ;;
      api_change_sensor_selection_ type
  | None =>
      cancel ;;;
      generate_return_error_snackbar_message "rule set action not passed to edit dialog window"
        (Some MAT_SNACKBAR_CONFIGURATION_60000_DUR)
  end.

Definition change_sensor_list (value : string) : M unit := api_change_sensor_selection_ (get_sensor_type_ value).

(** The inner loop stops at the first host of the name. *)
Fixpoint push_host (hostname : string) (l values : list HostInfoClass) : list HostInfoClass :=
  match l with
  | [] => values
  | h :: r => if hostname === hi_hostname h then values ++ [h] else push_host hostname r values
  end.
(** A host is not equal to a text. *)
Definition push_value (x : string + HostInfoClass) (l values : list HostInfoClass) : list HostInfoClass :=
  match x with inl hostname => push_host hostname l values | inr _ => values end.
Definition entries (v : sensors_value) : list (string + HostInfoClass) :=
  match v with Hostnames l => inl <$> l | Hosts l => inr <$> l end.
(** Iterating over a list that has not arrived throws. *)
Fixpoint push_values (l : list (string + HostInfoClass)) (values : list HostInfoClass) : M (list HostInfoClass) :=
  match l with
  | [] => ret values
  | x :: r => s <- get ;; hosts <- deref (sensor_list_ s) ;; push_values r (push_value x hosts values)
  end.
Definition submit : M unit :=
  s <- get ;;
  f <- deref (rule_set_form_group s) ;;
  values <- push_values (entries (f_sensors f)) [] ;;
  set_rule_set_form_group_ (set_sensors (Hosts values) f) ;;;
  emit (Page (CloseDialog (Some (Form (set_sensors (Hosts values) f))))).

Definition api_change_sensor_selection_answer (application : string) (a : answer (list HostInfoClass)) : M unit :=
  match a with
  | Next response =>
      set_sensor_list_ response ;;;
      set_sensor_list_selection_ [] ;;;
      api_catalog_status_ application []
  | Error e => generate_return_error_snackbar_message "retrieving sensor host info" (Some MAT_SNACKBAR_CONFIGURATION_3000_DUR)
  end.
Definition api_catalog_status_answer (application : string) (selection : list string) (a : answer (list CatalogStatusClass)) : M unit :=
  match a with
  | Next response =>
      let l := selection ++ (cs_hostname <$> List.filter (fun s => cs_status s === CATALOG_STATUS_STATUS) response) in
      when (bool_decide (length l = 0%nat))
        (displaySnackBar ("No sensors have " +:+ application +:+
           " installed. To fix this go to the catalog page and install the desired application.")
           (Some MAT_SNACKBAR_CONFIGURATION_60000_DUR)) ;;;
      set_sensor_list_selection_ (if bool_decide (length l = 0%nat) then l else js_sort alphanum l)
  | Error e => generate_return_error_snackbar_message "retrieving catalog status" (Some MAT_SNACKBAR_CONFIGURATION_3000_DUR)
  end.

(** A selection of several sensors gives those of the options that are selected, in
    the order of the options. *)
Inductive event : Type :=
| NgOnInit
| TypeName (t : string)
| ClearanceSelect (i : nat)
| AppTypeSelect (i : nat)
| SensorsSelect (chosen : list string)
| EnabledClick (checked : bool)
| SubmitClick
| CancelClick.

Definition change_form (g : rule_set_form -> rule_set_form) : M unit :=
  modify (fun s => with_group (g <$> rule_set_form_group s) s).
Definition on_event (e : event) : M unit :=
  s <- get ;;
  match e with
  | NgOnInit => ngOnInit
  | TypeName t => change_form (set_name t)
  | ClearanceSelect i => match CLEARANCE_LEVELS !! i with Some v => change_form (set_clearance v) | None => ret tt end
  | AppTypeSelect i =>
      match RULE_TYPES !! i, rule_set_form_group s with
      | Some v, Some f => when (negb (f_appType_disabled f)) (change_form (set_appType v) ;;; change_sensor_list v)
      | _, _ => ret tt
      end
  | SensorsSelect chosen =>
      match sensor_list_selection s with
      | Some options => change_form (set_sensors (Hostnames (List.filter (fun o => bool_decide (o ∈ chosen)) options)))
      | None => ret tt
      end
  | EnabledClick b => change_form (set_enabled b)
  | SubmitClick =>
      match rule_set_form_group s with
      | Some f => when (form_valid f) (emit (Page (CloseDialog (Some (DialogData (dialog_data s))))) ;;; submit)
      | None => ret tt
      end
  | CancelClick => cancel
  end.
Definition on_answer (c : call) : Ans c -> M unit :=
  match c with
  | CHosts application => api_change_sensor_selection_answer application
  | CStatus application selection => api_catalog_status_answer application selection
  end.

#[export] Instance rule_set_add_edit (d : DialogDataInterface) : Component RuleSetAddEditComponent call page event Ans :=
  {| initial := constructor d; Runtime.on_event := on_event; Runtime.on_answer := on_answer |}.
End Dialog.

(** ** What is submitted *)

Definition find_host (hosts : list HostInfoClass) (hostname : string) : option HostInfoClass :=
  List.find (fun h => hostname === hi_hostname h) hosts.

Lemma push_host_find hostname hosts values :
  push_host hostname hosts values = values ++ match find_host hosts hostname with Some h => [h] | None => [] end.
Proof.
  unfold find_host. induction hosts as [|h r IH]; simpl; [by rewrite app_nil_r|]. destruct (hostname === hi_hostname h); [done | exact IH].
Qed.

Lemma find_host_name hosts name h : find_host hosts name = Some h -> hi_hostname h = name /\ h ∈ hosts.
Proof.
  intros [Hin ->%seqb_eq]%List.find_some. split; [done|]. by apply list_elem_of_In.
Qed.

(** What an entry of the control becomes. *)
Definition resolve (hosts : list HostInfoClass) (x : string + HostInfoClass) : option HostInfoClass :=
  match x with inl hostname => find_host hosts hostname | inr _ => None end.

Lemma push_values_run l hosts values s : sensor_list_ s = Some hosts ->
  push_values l values s = (Ret (values ++ omap (resolve hosts) l), s, []).
Proof.
  intros Hs. revert values. induction l as [|x r IH]; intros values; simpl; [by rewrite app_nil_r|].
  unfold get. rewrite (bind_run_silent _ _ s s s) by done. rewrite Hs. rewrite (bind_run_silent _ _ s hosts s) by done.
  rewrite IH. unfold push_value. destruct x as [name|h]; simpl; [rewrite push_host_find|done].
  rewrite <- app_assoc. by destruct (find_host hosts name).
Qed.

Lemma push_values_throws x l values s : sensor_list_ s = None -> push_values (x :: l) values s = (Exn "TypeError", s, []).
Proof. intros Hs. simpl. unfold get. rewrite (bind_run_silent _ _ s s s) by done. by rewrite Hs. Qed.

(** The loops are the lookup of each entry in the hosts; an entry without a host is
    left out. *)
Lemma submit_run s f hosts : rule_set_form_group s = Some f -> sensor_list_ s = Some hosts ->
  let f' := set_sensors (Hosts (omap (resolve hosts) (entries (f_sensors f)))) f in
  submit s = (Ret tt, with_group (Some f') s, [Page (CloseDialog (Some (Form f')))]).
Proof.
  intros Hf Hs. unfold submit, get. rewrite (bind_run_silent _ _ s s s) by done. rewrite Hf.
  rewrite (bind_run_silent _ _ s f s) by done. by rewrite (bind_run_silent _ _ s _ s (push_values_run _ _ _ _ Hs)).
Qed.

Section Submitted.
Context {L : LengthValidators} {Co : Collation}.
Variable d : DialogDataInterface.
Abbreviation react := (react (K := rule_set_add_edit d)).
Abbreviation any := (fun _ : label event Ans => True).

(** A rule set that is edited keeps its identifier and its type. *)
Definition keeps_identity (f : rule_set_form) : Prop :=
  dd_action d = Some EDIT -> forall r, dd_rule_set d = Some r ->
  f__id f = JNum (rs__id r) /\ f_appType f = appType r /\ f_appType_disabled f = true.
Definition dialog_ok (s : RuleSetAddEditComponent) : Prop :=
  dialog_data s = d /\ (forall f, rule_set_form_group s = Some f -> keeps_identity f).

Lemma change_form_ok g s : (forall f, keeps_identity f -> keeps_identity (g f)) -> dialog_ok s ->
  dialog_ok (state_of (change_form g s)).
Proof using.
  intros Hg [Hd Hf]. split; [done|]. simpl. intros f Ef. destruct (rule_set_form_group s) as [f0|]; [|done].
  injection Ef as <-. by apply Hg, Hf.
Qed.

Lemma init_ok s : dialog_ok s -> dialog_ok (state_of (ngOnInit s)).
Proof using.
  intros [Hd Hf]. unfold ngOnInit, get. rewrite (bind_state _ _ s s s []) by done. rewrite Hd.
  destruct (dd_action d) as [a|] eqn:Ea; [|done]. cbn.
  destruct (a === EDIT) eqn:Ee; [destruct (dd_rule_set d) as [r|] eqn:Er|]; (split; [done|]); intros f; simpl.
  - intros [= <-] _ r' Hr. rewrite Er in Hr. by injection Hr as <-.
  - exact (Hf f).
  - intros [= <-] HE. rewrite HE in Ea. injection Ea as <-. by rewrite seqb_refl in Ee.
Qed.

Lemma turn_ok l s : dialog_ok s -> dialog_ok (state_of (react l s)).
Proof using.
  intros H. destruct l as [e|c a].
  - cbn [Runtime.react Runtime.on_event rule_set_add_edit]. unfold on_event, get. rewrite (bind_state _ _ s s s []) by done.
    destruct e as [|t|i|i|chosen|b| |].
    + by apply init_ok.
    + by apply change_form_ok.
    + destruct (CLEARANCE_LEVELS !! i); [by apply change_form_ok | done].
    + destruct (RULE_TYPES !! i) as [v|]; [|done]. destruct (rule_set_form_group s) as [f|] eqn:Ef; [|done].
      destruct (f_appType_disabled f) eqn:Ed; [done|]. simpl. unfold change_sensor_list, api_change_sensor_selection_.
      rewrite (bind_state _ _ s tt (with_group (set_appType v <$> rule_set_form_group s) s) []) by done.
      destruct H as [Hd Hf]. split; [done|]. simpl. rewrite Ef. intros f' [= <-] HE r Hr.
      destruct (Hf f Ef HE r Hr) as (_ & _ & E). congruence.
    + destruct (sensor_list_selection s); [by apply change_form_ok | done].
    + by apply change_form_ok.
    + destruct (rule_set_form_group s) as [f|] eqn:Ef; [|done]. destruct (form_valid f); [|done]. simpl.
      rewrite (bind_state _ _ s tt s [Page (CloseDialog (Some (DialogData (dialog_data s))))]) by done.
      unfold submit, get. rewrite (bind_state _ _ s s s []) by done. rewrite Ef. rewrite (bind_state _ _ s f s []) by done.
      destruct (entries (f_sensors f)) eqn:El.
      * destruct H as [Hd Hf]. split; [done|]. simpl. intros f' [= <-]. by apply (Hf f).
      * destruct (sensor_list_ s) as [hosts|] eqn:Es.
        -- rewrite (bind_state _ _ s _ s _ (push_values_run _ _ _ _ Es)). destruct H as [Hd Hf]. split; [done|].
           simpl. intros f' [= <-]. by apply (Hf f).
        -- by rewrite (bind_run_throw _ _ s _ _ _ (push_values_throws _ _ _ _ Es)).
    + exact H.
  - destruct c as [app|app sel]; cbn [Runtime.react Runtime.on_answer rule_set_add_edit on_answer]; destruct a as [r|e]; try exact H.
    unfold api_catalog_status_answer. by destruct (bool_decide _).
Qed.

(** The hosts that the component knows are those of an answer. *)
Definition hosts_answered (tr : list (label event Ans * list (effect call page))) (s : RuleSetAddEditComponent) : Prop :=
  forall hosts, sensor_list_ s = Some hosts -> exists app es, (Answered (CHosts app) (Next hosts), es) ∈ tr.

Lemma silent_hosts e s : sensor_list_ (state_of (react (Event e) s)) = sensor_list_ s.
Proof using.
  cbn [Runtime.react Runtime.on_event rule_set_add_edit]. unfold on_event, get. rewrite (bind_state _ _ s s s []) by done.
  destruct e as [|t|i|i|chosen|b| |]; try done.
  - unfold ngOnInit, get. rewrite (bind_state _ _ s s s []) by done. destruct (dd_action (dialog_data s)) as [a|]; [|done]. cbn.
    destruct (a === EDIT); [destruct (dd_rule_set (dialog_data s))|]; done.
  - by destruct (CLEARANCE_LEVELS !! i).
  - destruct (RULE_TYPES !! i), (rule_set_form_group s) as [f|]; try done. by destruct (f_appType_disabled f).
  - by destruct (sensor_list_selection s).
  - destruct (rule_set_form_group s) as [f|] eqn:Ef; [|done]. destruct (form_valid f); [|done]. simpl.
    rewrite (bind_state _ _ s tt s [Page (CloseDialog (Some (DialogData (dialog_data s))))]) by done.
    unfold submit, get. rewrite (bind_state _ _ s s s []) by done. rewrite Ef. rewrite (bind_state _ _ s f s []) by done.
    destruct (entries (f_sensors f)) eqn:El; [done|]. destruct (sensor_list_ s) as [hosts|] eqn:Es.
    + rewrite (bind_state _ _ s _ s _ (push_values_run _ _ _ _ Es)). exact Es.
    + by rewrite (bind_run_throw _ _ s _ _ _ (push_values_throws _ _ _ _ Es)).
Qed.

Lemma submit_effects l s f : Page (CloseDialog (Some (Form f))) ∈ effects_of (react l s) ->
  l = Event SubmitClick /\ exists f0, rule_set_form_group s = Some f0 /\ form_valid f0 = true /\
    (entries (f_sensors f0) = [] /\ f = set_sensors (Hosts []) f0 \/
     exists hosts, sensor_list_ s = Some hosts /\ f = set_sensors (Hosts (omap (resolve hosts) (entries (f_sensors f0)))) f0).
Proof using.
  intros Hin. destruct l as [e|c a].
  - cbn [Runtime.react Runtime.on_event rule_set_add_edit] in Hin. unfold on_event, get in Hin.
    rewrite (bind_run_silent _ _ s s s) in Hin by done.
    destruct e as [|t|i|i|chosen|b| |].
    + exfalso. revert Hin. unfold ngOnInit, get. rewrite (bind_run_silent _ _ s s s) by done.
      destruct (dd_action (dialog_data s)) as [a|]; cbn;
        [destruct (a === EDIT); [destruct (dd_rule_set (dialog_data s))|]; cbn|];
        repeat (intros [?|?]%elem_of_cons; [done|]; revert select (_ ∈ _)); by intros ?%not_elem_of_nil.
    + by apply not_elem_of_nil in Hin.
    + destruct (CLEARANCE_LEVELS !! i); by apply not_elem_of_nil in Hin.
    + destruct (RULE_TYPES !! i), (rule_set_form_group s) as [f0|]; try (by apply not_elem_of_nil in Hin).
      destruct (f_appType_disabled f0); [by apply not_elem_of_nil in Hin|]. by apply elem_of_cons in Hin as [?|?%not_elem_of_nil].
    + destruct (sensor_list_selection s); by apply not_elem_of_nil in Hin.
    + by apply not_elem_of_nil in Hin.
    + split; [done|]. destruct (rule_set_form_group s) as [f0|] eqn:Ef; [|by apply not_elem_of_nil in Hin].
      destruct (form_valid f0) eqn:Ev; [|by apply not_elem_of_nil in Hin]. simpl when in Hin.
      rewrite (bind_run _ _ s tt s [Page (CloseDialog (Some (DialogData (dialog_data s))))]) in Hin by done.
      exists f0. split; [done|]. split; [done|]. destruct (entries (f_sensors f0)) as [|x r] eqn:El.
      * left. split; [done|]. revert Hin. unfold submit, get, bind, gets. cbn. rewrite Ef. cbn. rewrite El. cbn.
        by intros [?|[[= ->]|?%not_elem_of_nil]%elem_of_cons]%elem_of_cons.
      * right. destruct (sensor_list_ s) as [hosts|] eqn:Es.
        -- exists hosts. split; [done|]. rewrite (submit_run s f0 hosts Ef Es), El in Hin. simpl in Hin.
           by apply elem_of_cons in Hin as [?|[[= ->]|?%not_elem_of_nil]%elem_of_cons].
        -- exfalso. revert Hin. unfold submit, get, bind, gets. cbn. rewrite Ef. cbn. rewrite El. cbn. unfold get, bind, gets. cbn. rewrite Es. cbn.
           by intros [?|?%not_elem_of_nil]%elem_of_cons.
    + by apply elem_of_cons in Hin as [?|?%not_elem_of_nil].
  - exfalso. destruct c as [app|app sel]; cbn [Runtime.react Runtime.on_answer rule_set_add_edit on_answer] in Hin; destruct a as [r|e]; revert Hin.
    2,4: by intros [?|?%not_elem_of_nil]%elem_of_cons.
    + by intros [?|?%not_elem_of_nil]%elem_of_cons.
    + unfold api_catalog_status_answer. destruct (bool_decide _); cbn; [by intros [?|?%not_elem_of_nil]%elem_of_cons | by intros ?%not_elem_of_nil].
Qed.

Lemma reachable_ok tr w : trace (K := rule_set_add_edit d) any tr w -> dialog_ok (component w) /\ hosts_answered tr (component w).
Proof using.
  induction 1 as [|tr w l w' Htr [IH1 IH2] _ Hstep]; [done|].
  rewrite (step_component _ _ _ Hstep). split; [by apply turn_ok|].
  assert (G : sensor_list_ (state_of (react l (component w))) = sensor_list_ (component w) ->
              hosts_answered (tr ++ [(l, made (K := rule_set_add_edit d) l w)]) (state_of (react l (component w)))).
  { intros E hosts. rewrite E. intros (app & es & H)%IH2. exists app, es. apply elem_of_app. by left. }
  destruct l as [e|c a]; [by apply G, silent_hosts|]. destruct c as [app|app sel].
  - destruct a as [r|e]; [|by apply G]. intros hosts [= <-]. eexists app, _. apply elem_of_app. right. by left.
  - apply G. cbn [Runtime.react Runtime.on_answer rule_set_add_edit on_answer]. destruct a as [r|e]; [|done].
    unfold api_catalog_status_answer. by destruct (bool_decide _).
Qed.

(** C35: what the dialog returns.  In every interleaving of selections and answers, a
    form closes the dialog only by the button, with a name, a clearance and a type
    that are not empty; each of its sensors is a host that the server named in an
    answer; and the form of a rule set that is edited has the identifier and the
    type of that rule set. *)
Theorem submitted_rule_sets {LL : LengthValidatorsLaws L} tr w l f :
  trace (K := rule_set_add_edit d) any tr w ->
  Page (CloseDialog (Some (Form f))) ∈ made (K := rule_set_add_edit d) l w ->
  l = Event SubmitClick /\ f_name f <> "" /\ f_clearance f <> "" /\
  (f_appType_disabled f = true \/ f_appType f <> "") /\ keeps_identity f /\
  exists hosts, f_sensors f = Hosts hosts /\
    forall h, h ∈ hosts -> exists app known es, (Answered (CHosts app) (Next known), es) ∈ tr /\ h ∈ known.
Proof using.
  intros Htr Hin. destruct (reachable_ok tr w Htr) as [[_ Hf] Hh]. unfold made in Hin. set (s := component w) in *.
  apply submit_effects in Hin as (-> & f0 & Ef & Hv & Hs).
  unfold form_valid in Hv. apply andb_true_iff in Hv as [[H1%required_text_text H2%required_text_text]%andb_true_iff H3].
  assert (H3' : f_appType_disabled f0 = true \/ f_appType f0 <> "").
  { apply orb_true_iff in H3 as [?|?%required_text_text]; auto. }
  specialize (Hf f0 Ef). destruct Hs as [[_ ->]|(hosts & Es & ->)]; split_and!; try done.
  - exists []. split; [done|]. by intros h ?%not_elem_of_nil.
  - eexists. split; [reflexivity|]. intros h Hin. destruct (Hh hosts Es) as (app & es & Ha). exists app, hosts, es. split; [done|].
    apply list_elem_of_omap in Hin as ([name|x] & _ & Hr); [|done]. exact (proj2 (find_host_name _ _ _ Hr)).
Qed.
End Submitted.

Lemma hosts_are_no_names known hosts : omap (resolve known) (entries (Hosts hosts)) = [].
Proof. by induction hosts. Qed.

(** A submission that comes twice loses the sensors: the control holds the hosts of
    the first one, and the form that the page hears of is the same object. *)
Lemma second_submit_drops_sensors {L : LengthValidators} s f hosts :
  rule_set_form_group s = Some f -> f_sensors f = Hosts hosts -> sensor_list_ s <> None ->
  submit s = (Ret tt, with_group (Some (set_sensors (Hosts []) f)) s, [Page (CloseDialog (Some (Form (set_sensors (Hosts []) f))))]).
Proof.
  intros Hf Hh Hs. destruct (sensor_list_ s) as [known|] eqn:E; [|done]. rewrite (submit_run s f known Hf E), Hh.
  by rewrite hosts_are_no_names.
Qed.

(** A submission before the hosts arrived throws after the dialog was closed with its
    data: what was edited is lost. *)
Lemma early_submit_throws {L : LengthValidators} {Co : Collation} s f name names :
  rule_set_form_group s = Some f -> form_valid f = true -> f_sensors f = Hostnames (name :: names) -> sensor_list_ s = None ->
  on_event SubmitClick s = (Exn "TypeError", s, [Page (CloseDialog (Some (DialogData (dialog_data s))))]).
Proof.
  intros Hf Hv Hn Hs. unfold on_event, get. rewrite (bind_run_silent _ _ s s s) by done. rewrite Hf, Hv. simpl when.
  rewrite (bind_run _ _ s tt s [Page (CloseDialog (Some (DialogData (dialog_data s))))]) by done.
  unfold submit, get. rewrite (bind_run_silent _ _ s s s) by done. rewrite Hf. rewrite (bind_run_silent _ _ s f s) by done.
  rewrite Hn. change (entries (Hostnames (name :: names))) with (@inl string HostInfoClass name :: (inl <$> names)).
  by rewrite (bind_run_throw _ _ s _ _ _ (push_values_throws (inl name) (inl <$> names) [] s Hs)).
Qed.

(** A selection of a type keeps the sensors that were selected for the type before. *)
Lemma type_change_keeps_sensors {L : LengthValidators} {Co : Collation} i v s f :
  RULE_TYPES !! i = Some v -> rule_set_form_group s = Some f -> f_appType_disabled f = false ->
  on_event (AppTypeSelect i) s = (Ret tt, with_group (Some (set_appType v f)) s, [Subscribe (CHosts (get_sensor_type_ v))]).
Proof.
  intros Hv Hf Hd. unfold on_event, get. rewrite (bind_run_silent _ _ s s s) by done. rewrite Hv, Hf, Hd. simpl when.
  unfold change_form. by rewrite (bind_run_silent _ _ s tt (with_group (set_appType v <$> rule_set_form_group s) s)), Hf by done.
Qed.

(** A rule set that was edited with one of its two sensors known. *)
Definition edited : RuleSetClass :=
  RuleSet 4%Z None "Suricata" "Secret" "rules"
    [{| hi_hostname := "s1"; hi_management_ip := "10.0.0.1"; mac := "" |};
     {| hi_hostname := "s2"; hi_management_ip := "10.0.0.2"; mac := "" |}] "" [] "" "" true.
Lemma submitted_rule_sets_witness :
  exists (d : DialogDataInterface) tr w f, trace (K := rule_set_add_edit (L := plain_lengths) (Co := code_collation) d) (fun _ => True) tr w /\
    Page (CloseDialog (Some (Form f))) ∈ made (K := rule_set_add_edit (L := plain_lengths) (Co := code_collation) d) (Event SubmitClick) w /\
    f_sensors f = Hosts [{| hi_hostname := "s2"; hi_management_ip := "10.0.0.9"; mac := "" |}] /\ f_name f <> "" /\ keeps_identity d f.
Proof.
  pose (d := {| dd_rule_set := Some edited; dd_rule := None; dd_action := Some EDIT |}). exists d.
  pose proof (trace_start (K := rule_set_add_edit (L := plain_lengths) (Co := code_collation) d) (fun _ => True)) as T.
  apply (trace_event _ _ _ NgOnInit) in T; [|exact I].
  match type of T with trace _ ?tr ?w => set (w1 := w) in T end.
  assert (Hp : pending w1 = [] ++ CHosts "suricata" :: []) by reflexivity.
  apply (trace_answer _ _ _ [] _ [] (Next [{| hi_hostname := "s2"; hi_management_ip := "10.0.0.9"; mac := "" |}] : Ans (CHosts "suricata"))) in T;
    [|exact I|exact Hp].
  match type of T with trace _ ?tr ?w => set (w2 := w) in T; exists tr, w2 end.
  eexists. split; [exact T|].
  assert (Hin : Page (CloseDialog (Some (Form {| f__id := JNum 4; f_name := "rules"; f_clearance := "Secret";
     f_sensors := Hosts [{| hi_hostname := "s2"; hi_management_ip := "10.0.0.9"; mac := "" |}]; f_appType := "Suricata";
     f_appType_disabled := true; f_isEnabled := true |}))) ∈ made (K := rule_set_add_edit (L := plain_lengths) (Co := code_collation) d) (Event SubmitClick) w2)
    by (vm_compute; right; left).
  split; [exact Hin|]. destruct (submitted_rule_sets (LL := plain_lengths_laws) d _ _ _ _ T Hin) as (_ & Hn & _ & _ & Hk & _). done.
Defined.
