(* ===== verification/RulesUpload.v ===== *)
(** modules/policy-management/components/rules-upload: the dialog that chooses a file
    of rules for a rule set of the page of Policy.v.  As in RuleSetDialog.v the button
    closes the dialog with its data before the handler runs. *)
From S2P Require Import Prelude Handler JsValue Runtime Data RuleEditor.

Definition selection_file_name_placeholder : string := "File Name".
Definition no_selection_file_name_placeholder : string := "Select File For Upload".

Definition no_call : Type := Empty_set.
Definition no_answer (c : no_call) : Type := Empty_set.

(** The group of the identifier and the name, the control of which is disabled. *)
Record upload_form := { f__id : jsval; f_name : string }.
Inductive result : Type :=
| DialogData (data : DialogDataInterface)
| GroupUpload (form_group : option upload_form) (file_to_upload : option File).
Inductive page : Type := CloseDialog (r : option result).

Record RulesUploadComponent := {
  rule_set_form_group : option upload_form;
  file_name_form_control : option string;
  rules_file_to_upload : option File;
  dialog_data : DialogDataInterface;
}.
Abbreviation M := (handler RulesUploadComponent (effect no_call page)).

Definition with_group v s := {| rule_set_form_group := v; file_name_form_control := file_name_form_control s;
  rules_file_to_upload := rules_file_to_upload s; dialog_data := dialog_data s |}.
Definition with_name v s := {| rule_set_form_group := rule_set_form_group s; file_name_form_control := v;
  rules_file_to_upload := rules_file_to_upload s; dialog_data := dialog_data s |}.
Definition with_file v s := {| rule_set_form_group := rule_set_form_group s; file_name_form_control := file_name_form_control s;
  rules_file_to_upload := v; dialog_data := dialog_data s |}.

Definition constructor (d : DialogDataInterface) : RulesUploadComponent :=
  {| rule_set_form_group := None; file_name_form_control := None; rules_file_to_upload := None; dialog_data := d |}.

Definition get : M RulesUploadComponent := gets (fun s => s).
Definition cancel : M unit := emit (Page (CloseDialog None)).
Definition set_rule_set_form_group_ (f : upload_form) : M unit := modify (with_group (Some f)).
Definition initialize_form_ (rule_set : option RuleSetClass) : M unit :=
  set_rule_set_form_group_
    {| f__id := match rule_set with Some r => JNum (rs__id r) | None => JStr "0" end;
       f_name := match rule_set with Some r => rs_name r | None => "" end |}.
Definition set_file_name_control_ (file : option File) : M unit :=
  match file with
  | Some f => s <- get ;; _ <- deref (file_name_form_control s) ;; modify (with_name (Some (file_name f)))
  | None => modify (with_name (Some ""))
  end.
Definition set_rules_file_to_upload_ (file : option File) : M unit :=
  modify (with_file file) ;;; set_file_name_control_ file.

Definition get_file_name_place_holder (s : RulesUploadComponent) : string :=
  if notUndefNull (rules_file_to_upload s) then selection_file_name_placeholder else no_selection_file_name_placeholder.
Definition ngOnInit : M unit :=
  s <- get ;;
  match dd_rule_set (dialog_data s) with
  | Some edit_rule_set => initialize_form_ (Some edit_rule_set) ;;; set_file_name_control_ None
  | None => cancel
  end.
(** [item(0)] of an empty list is null. *)
Definition handle_file_input (files : list File) : M unit := set_rules_file_to_upload_ (head files).
Definition upload : M unit :=
  s <- get ;; emit (Page (CloseDialog (Some (GroupUpload (rule_set_form_group s) (rules_file_to_upload s))))).

(** The name of the file may be typed over. *)
Inductive event : Type :=
| NgOnInit
| TypeFileName (t : string)
| FileChosen (files : list File)
| UploadClick
| CancelClick.
Definition on_event (e : event) : M unit :=
  s <- get ;;
  match e with
  | NgOnInit => ngOnInit
  | TypeFileName t => when (notUndefNull (file_name_form_control s)) (modify (with_name (Some t)))
  | FileChosen files => handle_file_input files
  | UploadClick =>
      when (notUndefNull (rules_file_to_upload s)) (emit (Page (CloseDialog (Some (DialogData (dialog_data s))))) ;;; upload)
  | CancelClick => cancel
  end.

#[export] Instance rules_upload (d : DialogDataInterface) : Component RulesUploadComponent no_call page event no_answer :=
  {| initial := constructor d; Runtime.on_event := on_event; Runtime.on_answer := fun c => match c with end |}.

(** ** What is uploaded *)

Section Uploaded.
Variable d : DialogDataInterface.
Abbreviation any := (fun _ : label event no_answer => True).

(** The group is that of the rule set and the file is the one that was chosen last. *)
Definition chosen_file (tr : list (label event no_answer * list (effect no_call page))) : option File :=
  fold_left (fun f x => match fst x with Event (FileChosen l) => head l | _ => f end) tr None.
Definition upload_ok (tr : list (label event no_answer * list (effect no_call page))) (s : RulesUploadComponent) : Prop :=
  dialog_data s = d /\ rules_file_to_upload s = chosen_file tr /\
  (forall f, rule_set_form_group s = Some f ->
     exists r, dd_rule_set d = Some r /\ f = {| f__id := JNum (rs__id r); f_name := rs_name r |}).

Lemma reachable_upload tr w : trace (K := rules_upload d) any tr w -> upload_ok tr (component w).
Proof using.
  induction 1 as [|tr w l w' Htr (Hd & Hf & Hg) _ Hstep]; [done|]. rewrite (step_component _ _ _ Hstep).
  assert (Hc : forall x, chosen_file (tr ++ [x]) = match fst x with Event (FileChosen k) => head k | _ => chosen_file tr end).
  { intros x. unfold chosen_file. by rewrite fold_left_app. }
  destruct l as [e|[]]. cbn [react Runtime.on_event rules_upload]. unfold on_event, upload_ok, get. set (s := component w) in *.
  rewrite (bind_state _ _ s s s []) by done. rewrite Hc. simpl fst. destruct e as [|t|files| |].
  - unfold ngOnInit, get. rewrite (bind_state _ _ s s s []) by done. rewrite Hd. destruct (dd_rule_set d) as [r|] eqn:Er; [|done].
    split; [done|]. split; [done|]. intros f [= <-]. by exists r.
  - by destruct (notUndefNull _).
  - unfold handle_file_input, set_rules_file_to_upload_, bind, modify, set_file_name_control_, get, bind, gets, deref. cbn.
    destruct (head files) as [f|]; [|done]. cbn. by destruct (file_name_form_control s).
  - by destruct (notUndefNull _).
  - done.
Qed.

(** The upload is that of the file that was chosen last, for the rule set the dialog
    was opened with, whatever was typed over the file's name. *)
Theorem uploads_name_their_rule_set tr w l g f :
  trace (K := rules_upload d) any tr w -> Page (CloseDialog (Some (GroupUpload g f))) ∈ made (K := rules_upload d) l w ->
  l = Event UploadClick /\ f = chosen_file tr /\ f <> None /\
  (forall x, g = Some x -> exists r, dd_rule_set d = Some r /\ x = {| f__id := JNum (rs__id r); f_name := rs_name r |}).
Proof using.
  intros Htr Hin. destruct (reachable_upload tr w Htr) as (Hd & Hf & Hg). unfold made in Hin. set (s := component w) in *.
  destruct l as [e|[]]. cbn [react Runtime.on_event rules_upload] in Hin. unfold on_event, get in Hin.
  rewrite (bind_run_silent _ _ s s s) in Hin by done. destruct e as [|t|files| |].
  - exfalso. revert Hin. unfold ngOnInit, get. rewrite (bind_run_silent _ _ s s s) by done.
    destruct (dd_rule_set (dialog_data s)); [by intros ?%not_elem_of_nil | by intros [?|?%not_elem_of_nil]%elem_of_cons].
  - destruct (notUndefNull _); by apply not_elem_of_nil in Hin.
  - exfalso. revert Hin. unfold handle_file_input, set_rules_file_to_upload_, bind, modify, set_file_name_control_, get, bind, gets, deref. cbn.
    destruct (head files) as [x|]; [|by intros ?%not_elem_of_nil]. cbn. destruct (file_name_form_control s); by intros ?%not_elem_of_nil.
  - destruct (rules_file_to_upload s) as [x|] eqn:Ex; [|by apply not_elem_of_nil in Hin]. simpl when in Hin.
    rewrite (bind_run _ _ s tt s [Page (CloseDialog (Some (DialogData (dialog_data s))))]) in Hin by done.
    unfold upload, get in Hin. rewrite (bind_run_silent _ _ s s s) in Hin by done. rewrite Ex in Hin.
    apply elem_of_cons in Hin as [?|[[= -> ->]|?%not_elem_of_nil]%elem_of_cons]; try done.
  - by apply elem_of_cons in Hin as [?|?%not_elem_of_nil].
Qed.
End Uploaded.
