(* ===== verification/KitPassword.v ===== *)
(** modules/tools/components/change-password-form: the password of the kit.

    As in MipSettings.v a key is an [input] event with the [keyup] that evaluates the
    fields again, and pasting makes the [input] event only.  The confirm dialog is
    modal: while it is open no key reaches the form. *)
From S2P Require Import Prelude Handler JsValue Runtime Data Api Validators Fields Passwords.

Definition PASSWORD_CONFIRM_DIALOG : ConfirmDialogMatDialogDataInterface :=
  {| title := "Kit password change";
     message := "Are you sure you want to change the Kits password?             Doing this will change the root password for all servers and sensors in the Kubernetes cluster.";
     option1 := CANCEL_DIALOG_OPTION; option2 := CONFIRM_DIALOG_OPTION; message_double_confirm := None |}.

(** services/tools.service.ts *)
Definition change_kit_password (kit_password : jsval) : service jsval SuccessMessageClass SuccessMessageClass :=
  Service POST "/api/tools/change-kit-password" kit_password "change kit passowrd" copied.

(** [root_password] and [re_password] *)
Abbreviation password_field := (pw_field unit).

Inductive call : Type :=
| CChangePassword (kit_password : jsval)
| DConfirm (data : ConfirmDialogMatDialogDataInterface).
Definition Ans (c : call) : Type :=
  match c with CChangePassword _ => answer SuccessMessageClass | DConfirm _ => option string end.
Inductive page : Type := OpenPasswordMessage.

Record ChangePasswordFormComponent := { change_kit_password_form_group : option (form password_field) }.
Abbreviation M := (handler ChangePasswordFormComponent (effect call page)).
Definition with_form g (s : ChangePasswordFormComponent) := {| change_kit_password_form_group := g |}.
Definition constructor : ChangePasswordFormComponent := {| change_kit_password_form_group := None |}.

Definition get : M ChangePasswordFormComponent := gets (fun s => s).
Definition the_form : M (form password_field) := s <- get ;; deref (change_kit_password_form_group s).
Definition on_form (op : form password_field -> outcome (form password_field)) : M unit :=
  g <- the_form ;; g' <- lift (op g) ;; modify (with_form (Some g')).

Definition initialize_change_kit_password_form_group_ : M unit :=
  g <- lift (new_group pw_rule (pw_names [tt]) (fun _ => raw_field (JStr ""))) ;; modify (with_form (Some g)).
Definition ngOnInit : M unit := initialize_change_kit_password_form_group_.
Definition open_password_rules_dialog : M unit := emit (Page OpenPasswordMessage).
Definition re_evaluate : M unit :=
  s <- get ;;
  when (notUndefNull (change_kit_password_form_group s)) (on_form (each (updateValueAndValidity pw_rule) (evaluated [tt]))).

(** A builder's message is a function; the validators of this form have texts. *)
Definition get_error_message (f : field) : string :=
  match fc_errors f with
  | Some (PatternError _ (Text m)) | Some (ErrorObject (Text m)) | Some (PasswordError _ m) => m
  | _ => ""
  end.

Definition update_button_click : M unit := emit (Subscribe (DConfirm PASSWORD_CONFIRM_DIALOG)).
(** [getRawValue()] without [re_password]. *)
Definition api_change_kit_password_ : M unit :=
  g <- the_form ;; emit (Subscribe (CChangePassword (JObj [("root_password", fc_value (g (Pw tt)))]))).
Definition update_closed (response : option string) : M unit := when (response ?=== CONFIRM_DIALOG_OPTION) api_change_kit_password_.
Definition api_change_kit_password_answer (a : answer SuccessMessageClass) : M unit :=
  match a with
  | Next response => displaySnackBar (success_message response) (Some MAT_SNACKBAR_CONFIGURATION_60000_DUR)
  | Error e => on_error_message "changing kit password" e
  end.

Inductive event : Type :=
| NgOnInit
| Keys (k : password_field) (t : string)
| Paste (k : password_field) (t : string)
| Blur (k : password_field)
| SubmitClick
| PasswordInfoClick.

Definition update_enabled (s : ChangePasswordFormComponent) : bool :=
  match change_kit_password_form_group s with
  | Some g => group_valid (pw_names [tt]) g && group_touched (pw_names [tt]) g
  | None => false
  end.
Definition on_event (e : event) : M unit :=
  match e with
  | NgOnInit => ngOnInit
  | Keys k t => on_form (type_in pw_rule k (JStr t)) ;;; re_evaluate
  | Paste k t => on_form (type_in pw_rule k (JStr t))
  | Blur k => on_form (fun g => Ret (markAsTouched k g))
  | SubmitClick => s <- get ;; when (update_enabled s) update_button_click
  | PasswordInfoClick => open_password_rules_dialog
  end.
Definition on_answer (c : call) : Ans c -> M unit :=
  match c with CChangePassword _ => api_change_kit_password_answer | DConfirm _ => update_closed end.

#[export] Instance change_password_form : Component ChangePasswordFormComponent call page event Ans :=
  {| initial := constructor; Runtime.on_event := on_event; Runtime.on_answer := on_answer |}.

(** ** What is posted *)

Lemma all_units a : a ∈ [tt].
Proof. destruct a. left. Qed.
Lemma units_once : NoDup [tt].
Proof. apply NoDup_singleton. Qed.

Definition dialog_open (w : world ChangePasswordFormComponent call) : Prop := exists d, DConfirm d ∈ pending w.
(** While the dialog is open nothing is entered in the page behind it. *)
Definition modal (w : world ChangePasswordFormComponent call) (l : label event Ans) : Prop :=
  match l with
  | Event (Keys _ _ | Paste _ _ | NgOnInit) => ~ dialog_open w
  | _ => True
  end.
(** The fields are filled with the keyboard: the template validates the repetition
    again when a key is released. *)
Definition by_keys (l : label event Ans) : Prop := match l with Event (Paste _ _) => False | _ => True end.
Definition modal_by_keys (w : world ChangePasswordFormComponent call) (l : label event Ans) : Prop := modal w l /\ by_keys l.

(** Both fields hold this strong password. *)
Definition holds (s : ChangePasswordFormComponent) (t : string) : Prop :=
  exists g, change_kit_password_form_group s = Some g /\ fc_value (g (Pw tt)) = JStr t /\ strong t /\
    fc_value (g (Re tt)) = JStr t.
Definition form_ok (s : ChangePasswordFormComponent) : Prop :=
  match change_kit_password_form_group s with Some g => passwords_ok g | None => True end.
Definition page_ok (w : world ChangePasswordFormComponent call) : Prop :=
  form_ok (component w) /\ (dialog_open w -> exists t, holds (component w) t).

Lemma on_password_form_run op s g g' : change_kit_password_form_group s = Some g -> op g = Ret g' ->
  on_form op s = (Ret tt, with_form (Some g') s, []).
Proof. intros E Eop. unfold on_form, the_form, get, bind, gets, deref, lift, modify. rewrite E. cbn. by rewrite Eop. Qed.
Lemma on_no_form op s : change_kit_password_form_group s = None -> on_form op s = (Exn "TypeError", s, []).
Proof. intros E. unfold on_form, the_form, get, bind, gets, deref. by rewrite E. Qed.

(** The turns in which no value changes. *)
Lemma unchanged_turn l s : form_ok s -> match l with Event (Keys _ _ | Paste _ _ | NgOnInit) => False | _ => True end ->
  form_ok (state_of (react l s)) /\ forall t, holds s t -> holds (state_of (react l s)) t.
Proof.
  intros Hs Hl. destruct l as [e|c a].
  - destruct e as [|k t|k t|k| |]; try done; simpl.
    + destruct (change_kit_password_form_group s) as [g|] eqn:E.
      * rewrite (on_password_form_run _ s g (markAsTouched k g) E eq_refl). simpl. unfold form_ok in Hs. rewrite E in Hs. split.
        -- by apply touch_passwords_ok.
        -- intros t (g' & Eg & H1 & H2 & H3). rewrite E in Eg. injection Eg as <-. exists (markAsTouched k g).
           split; [done|]. destruct (markAsTouched_fields k g (Pw tt)) as (-> & _), (markAsTouched_fields k g (Re tt)) as (-> & _). done.
      * by rewrite (on_no_form _ s E).
    + unfold get. rewrite (bind_state _ _ s s s []) by done. by destruct (update_enabled s).
  - destruct c; simpl; [by destruct a as [a|[]]|]. unfold update_closed. destruct (_ ?=== _); [|done].
    unfold api_change_kit_password_, the_form, get, bind, gets, deref. cbn. by destruct (change_kit_password_form_group s) as [g|] eqn:E.
Qed.

Lemma fresh_form s : form_ok (state_of (initialize_change_kit_password_form_group_ s)).
Proof.
  destruct (new_passwords_ok [tt] all_units units_once (fun _ => "")) as (g & E & Hg & _).
  unfold initialize_change_kit_password_form_group_. by rewrite E.
Qed.

Lemma keys_ok k t s : form_ok s -> form_ok (state_of (on_event (Keys k t) s)) /\ effects_of (on_event (Keys k t) s) = [].
Proof.
  intros Hs. simpl. destruct (change_kit_password_form_group s) as [g|] eqn:E.
  - destruct (typed_password_ok [tt] all_units units_once k t g) as (g1 & E1 & g2 & E2 & Hg).
    { unfold form_ok in Hs. by rewrite E in Hs. }
    rewrite (bind_run_silent _ _ s tt (with_form (Some g1) s)) by (by apply on_password_form_run with g).
    unfold re_evaluate, get. rewrite (bind_run_silent _ _ _ (with_form (Some g1) s) (with_form (Some g1) s)) by done.
    cbn [when notUndefNull change_kit_password_form_group with_form].
    by rewrite (on_password_form_run _ (with_form (Some g1) s) g1 g2 eq_refl E2).
  - by rewrite (bind_run_throw _ _ s _ _ _ (on_no_form _ s E)).
Qed.

Lemma on_form_silent op s : effects_of (on_form op s) = [].
Proof.
  unfold on_form, the_form, get. destruct (change_kit_password_form_group s) as [g|] eqn:E.
  - unfold bind, gets, deref. rewrite E. unfold lift. cbn. by destruct (op g).
  - unfold bind, gets, deref. by rewrite E.
Qed.
Lemma init_silent s : effects_of (on_event NgOnInit s) = [].
Proof.
  destruct (new_passwords_ok [tt] all_units units_once (fun _ => "")) as (g & E & _).
  unfold on_event, ngOnInit, initialize_change_kit_password_form_group_. by rewrite E.
Qed.

(** The effects of a turn. *)
Lemma turn_effects l s e : form_ok s -> e ∈ effects_of (react l s) ->
  match e with
  | Subscribe (DConfirm _) => l = Event SubmitClick /\ exists t, holds s t
  | Subscribe (CChangePassword v) => (exists d, l = Answered (DConfirm d) (Some CONFIRM_DIALOG_OPTION)) /\
      exists g, change_kit_password_form_group s = Some g /\ v = JObj [("root_password", fc_value (g (Pw tt)))]
  | _ => True
  end.
Proof.
  intros Hs Hin. destruct l as [ev|c a].
  - cbn [react Runtime.on_event change_password_form] in Hin. destruct ev as [|k t|k t|k| |].
    + rewrite init_silent in Hin. by apply not_elem_of_nil in Hin.
    + rewrite (proj2 (keys_ok k t s Hs)) in Hin. by apply not_elem_of_nil in Hin.
    + unfold on_event in Hin. rewrite on_form_silent in Hin. by apply not_elem_of_nil in Hin.
    + unfold on_event in Hin. rewrite on_form_silent in Hin. by apply not_elem_of_nil in Hin.
    + simpl in Hin. unfold get in Hin. rewrite (bind_run_silent _ _ s s s) in Hin by done.
      destruct (update_enabled s) eqn:Eu; [|by apply not_elem_of_nil in Hin].
      apply elem_of_cons in Hin as [->|?%not_elem_of_nil]; [|done]. split; [done|]. unfold update_enabled, form_ok in *.
      destruct (change_kit_password_form_group s) as [g|] eqn:E; [|done]. apply andb_true_iff in Eu as [Hv _].
      destruct (valid_passwords [tt] all_units g Hs Hv tt) as (t & H1 & H2 & H3). by exists t, g.
    + by apply elem_of_cons in Hin as [->|?%not_elem_of_nil].
  - destruct c as [v|d]; simpl in Hin.
    + destruct a as [a|[]]; by apply elem_of_cons in Hin as [->|?%not_elem_of_nil].
    + unfold update_closed in Hin. destruct (a ?=== CONFIRM_DIALOG_OPTION) eqn:Ea; [|by apply not_elem_of_nil in Hin].
      assert (a = Some CONFIRM_DIALOG_OPTION) as -> by (destruct a as [r|]; [by apply seqb_eq in Ea as ->|done]).
      simpl when in Hin. unfold api_change_kit_password_, the_form, get, bind, gets, deref in Hin. cbn in Hin.
      destruct (change_kit_password_form_group s) as [g|] eqn:E; [|by apply not_elem_of_nil in Hin].
      apply elem_of_cons in Hin as [->|?%not_elem_of_nil]; [|done]. split; [by exists d | by exists g].
Qed.

Lemma page_ok_step w l w' : page_ok w -> modal_by_keys w l -> step w l w' -> page_ok w'.
Proof.
  intros [Hs Hd] [Hm Hk0] Hstep. unfold page_ok. rewrite (step_component _ _ _ Hstep).
  assert (Hw : dialog_open w' -> dialog_open w \/ exists d, Subscribe (DConfirm d) ∈ effects_of (react l (component w))).
  { intros [d [H|H]%(step_waiting w l w' _ Hstep)]; [left; by exists d | right; by exists d]. }
  assert (Hk : ~ dialog_open w -> form_ok (state_of (react l (component w))) -> ~ (l = Event SubmitClick) ->
               form_ok (state_of (react l (component w))) /\ (dialog_open w' -> exists t, holds (state_of (react l (component w))) t)).
  { intros Hno Hf Hl. split; [done|]. intros [?|[d Hin]]%Hw; [done|]. by destruct (turn_effects l _ _ Hs Hin). }
  destruct l as [e|c a]; [destruct e as [|k t|k t|k| |]|]; simpl in Hm, Hk0; try done.
  - apply Hk; [done | apply fresh_form | done].
  - apply Hk; [done | by apply (proj1 (keys_ok k t _ Hs)) | done].
  - destruct (unchanged_turn (Event (Blur k)) _ Hs I) as [H1 H2]. split; [done|]. intros [H|[d Hin]]%Hw.
    + destruct (Hd H) as [t Ht]. exists t. by apply H2.
    + by destruct (turn_effects _ _ _ Hs Hin).
  - destruct (unchanged_turn (Event SubmitClick) _ Hs I) as [H1 H2]. split; [done|]. intros [H|[d Hin]]%Hw.
    + destruct (Hd H) as [t Ht]. exists t. by apply H2.
    + destruct (turn_effects _ _ _ Hs Hin) as [_ [t Ht]]. exists t. by apply H2.
  - split; [exact Hs|]. intros [H|[d Hin]]%Hw; [by apply Hd | by destruct (turn_effects _ _ _ Hs Hin)].
  - destruct (unchanged_turn (Answered c a) _ Hs I) as [H1 H2]. split; [done|]. intros [H|[d Hin]]%Hw.
    + destruct (Hd H) as [t Ht]. exists t. by apply H2.
    + by destruct (turn_effects _ _ _ Hs Hin).
Qed.

(** C36: the password of the kit is changed by a confirmed dialog only, to a password
    that meets the requirements and stands in both fields, whatever was typed,
    answered or closed before, as long as nothing is entered behind the open dialog
    and the fields are filled with the keyboard: a password that is pasted with the
    mouse is posted although the fields differ ([pasted_password_is_posted]). *)
Theorem kit_password_is_confirmed tr w l w' v :
  guarded (fun w l => modal w l /\ by_keys l) tr w -> modal w l -> step w l w' -> Subscribe (CChangePassword v) ∈ made l w ->
  (exists d, l = Answered (DConfirm d) (Some CONFIRM_DIALOG_OPTION)) /\
  exists t, v = JObj [("root_password", JStr t)] /\ strong t /\ holds (component w) t.
Proof.
  intros Htr Hl Hstep Hin.
  assert (Hok : page_ok w).
  { apply (guarded_worlds modal_by_keys page_ok) with (tr := tr); [|exact page_ok_step|exact Htr]. split; [done|]. by intros [d ?%not_elem_of_nil]. }
  destruct Hok as [Hs Hd]. destruct (turn_effects l _ _ Hs Hin) as ((d & ->) & g & E & ->). split; [by exists d|].
  destruct (Hd (ex_intro _ d (answered_pending _ _ _ Hstep))) as (t & Ht). exists t. pose proof Ht as (g' & E' & H1 & H2 & H3).
  rewrite E in E'. injection E' as <-. by rewrite H1.
Qed.

(** The password is pasted over after it was repeated: the repetition keeps its
    verdict, and the password that is posted is not the repeated one. *)
Lemma pasted_password_is_posted : exists tr w v g,
  guarded modal tr w /\ Subscribe (CChangePassword v) ∈ made (Answered (DConfirm PASSWORD_CONFIRM_DIALOG) (Some CONFIRM_DIALOG_OPTION)) w /\
  v = JObj [("root_password", JStr "Another-Horse-42")] /\
  change_kit_password_form_group (component w) = Some g /\ fc_value (g (Re tt)) = JStr "Correct-Horse-42".
Proof.
  assert (Hno : forall w : world ChangePasswordFormComponent call, pending w = [] -> ~ dialog_open w)
    by (intros w E [d H]; rewrite E in H; by apply not_elem_of_nil in H).
  pose proof (guarded_start modal) as T.
  apply (guarded_event _ _ _ NgOnInit) in T; [|by apply Hno].
  apply (guarded_event _ _ _ (Keys (Re tt) "Correct-Horse-42")) in T; [|by apply Hno].
  apply (guarded_event _ _ _ (Keys (Pw tt) "Correct-Horse-42")) in T; [|by apply Hno].
  apply (guarded_event _ _ _ (Paste (Pw tt) "Another-Horse-42")) in T; [|by apply Hno].
  apply (guarded_event _ _ _ (Blur (Pw tt))) in T; [|exact I].
  apply (guarded_event _ _ _ SubmitClick) in T; [|exact I].
  match type of T with guarded _ ?tr ?w => set (w1 := w) in T; exists tr, w1 end. eexists _, _. split; [exact T|].
  split; [vm_compute; left|]. split; [reflexivity|]. split; [vm_compute; reflexivity | vm_compute; reflexivity].
Qed.

Lemma kit_password_is_confirmed_witness : exists tr w v,
  guarded (fun w l => modal w l /\ by_keys l) tr w /\ Subscribe (CChangePassword v) ∈ made (Answered (DConfirm PASSWORD_CONFIRM_DIALOG) (Some CONFIRM_DIALOG_OPTION)) w /\
  v = JObj [("root_password", JStr "Correct-Horse-42")] /\ exists t, holds (component w) t.
Proof.
  pose proof (guarded_start (fun w l => modal w l /\ by_keys l)) as T.
  apply (guarded_event _ _ _ NgOnInit) in T; [|by split; [intros [d ?%not_elem_of_nil]|]].
  apply (guarded_event _ _ _ (Keys (Re tt) "Correct-Horse-42")) in T; [|by split; [intros [d ?%not_elem_of_nil]|]].
  apply (guarded_event _ _ _ (Keys (Pw tt) "Correct-Horse-42")) in T; [|by split; [intros [d ?%not_elem_of_nil]|]].
  apply (guarded_event _ _ _ (Blur (Pw tt))) in T; [|by split].
  apply (guarded_event _ _ _ SubmitClick) in T; [|by split].
  match type of T with guarded _ ?tr ?w => set (w1 := w) in T; exists tr, w1 end. eexists. split; [exact T|].
  assert (Hp : pending w1 = [] ++ DConfirm PASSWORD_CONFIRM_DIALOG :: []) by reflexivity.
  pose proof (step_answer w1 [] _ [] (Some CONFIRM_DIALOG_OPTION : Ans (DConfirm PASSWORD_CONFIRM_DIALOG)) Hp) as Hs.
  assert (Hin : Subscribe (CChangePassword (JObj [("root_password", JStr "Correct-Horse-42")])) ∈
    made (Answered (DConfirm PASSWORD_CONFIRM_DIALOG) (Some CONFIRM_DIALOG_OPTION)) w1) by (vm_compute; left).
  split; [exact Hin|]. split; [reflexivity|].
  destruct (kit_password_is_confirmed _ _ (Answered (DConfirm PASSWORD_CONFIRM_DIALOG) (Some CONFIRM_DIALOG_OPTION)) _ _ T I Hs Hin)
    as (_ & t & _ & _ & Ht). by exists t.
Defined.
