(* ===== verification/NodeMaintenance.v ===== *)
(** modules/tools/components/node-maintenance-form: the interfaces of the sensors,
    put up and down by a slider for each node.

    The event of a slider is an object that the requests of its interfaces share:
    [changes] is the store of these objects.  Writing to one does not move the
    slider. *)
From S2P Require Import Prelude Handler JsValue Runtime Data Api.

(** ** classes and services/tools.service.ts *)

Record InitialDeviceStateClass := { ds_node : string; ds_interfaces : list IFACEStateClass }.
Record NetworkDeviceStateClass := { nd_node : string; nd_device : string; nd_state : string; nd_link_up : bool }.

Definition change_remote_network_device_state (hostname device state : string)
    : service unit NetworkDeviceStateClass NetworkDeviceStateClass :=
  Service PUT ("/api/tools/" +:+ hostname +:+ "/set-interface-state/" +:+ device +:+ "/" +:+ state) tt
    "change remote network device state" copied.
Definition get_initial_device_states : service unit (list InitialDeviceStateClass) (list InitialDeviceStateClass) :=
  Service GET "/api/tools/monitoring-interfaces" tt "get initial device states" copied.

Definition NODE_MAINTENANCE_TABLE_COLUMNS : list string := ["node"; "interfaces"; "actions"].
Definition UP : string := "up".
Definition DOWN : string := "down".
Definition ACTIVE : string := "Active".
Definition MAINTENANCE : string := "Maintenance".

(** ** The component *)

Inductive call : Type :=
| CStates
| CChangeState (event : nat) (hostname iface_name state : string).
Definition Ans (c : call) : Type :=
  match c with CStates => answer (list InitialDeviceStateClass) | CChangeState _ _ _ _ => answer NetworkDeviceStateClass end.
Inductive page : Type := .

Record NodeMaintenanceFormComponent := {
  table_columns : list string;
  nodes : option (list InitialDeviceStateClass);
  changes : list bool;
}.
Abbreviation M := (handler NodeMaintenanceFormComponent (effect call page)).
Definition with_nodes v s := {| table_columns := table_columns s; nodes := v; changes := changes s |}.
Definition with_changes v s := {| table_columns := table_columns s; nodes := nodes s; changes := v |}.
Definition constructor : NodeMaintenanceFormComponent :=
  {| table_columns := NODE_MAINTENANCE_TABLE_COLUMNS; nodes := None; changes := [] |}.
Definition get : M NodeMaintenanceFormComponent := gets (fun s => s).

Fixpoint none_down (l : list IFACEStateClass) : bool :=
  match l with
  | [] => true
  | iface :: r => if if_state iface === DOWN then false else none_down r
  end.
Definition is_slider_checked (node : option InitialDeviceStateClass) : bool :=
  match node with Some n => none_down (ds_interfaces n) | None => true end.
Definition get_slider_label (node : option InitialDeviceStateClass) : string :=
  if is_slider_checked node then ACTIVE else MAINTENANCE.

Definition api_get_initial_device_states_ : M unit := emit (Subscribe CStates).
Definition api_change_remote_network_device_state_ (event : nat) (hostname iface_name state : string) : M unit :=
  emit (Subscribe (CChangeState event hostname iface_name state)).

(** [event.checked] is read before the requests are made. *)
Definition set_interface_states (event : nat) (node : InitialDeviceStateClass) : M unit :=
  s <- get ;;
  is_checked <- deref (changes s !! event) ;;
  let state := if (is_checked : bool) then UP else DOWN in
  for_each (ds_interfaces node) (fun iface => api_change_remote_network_device_state_ event (ds_node node) (if_name iface) state).

Definition ngOnInit : M unit := api_get_initial_device_states_.

Definition api_change_remote_network_device_state_answer (event : nat) (a : answer NetworkDeviceStateClass) : M unit :=
  match a with
  | Next _ => api_get_initial_device_states_
  | Error e =>
      modify (fun s => with_changes (alter negb event (changes s)) s) ;;;
      on_error_message "changing remote network state" e
  end.
Definition api_get_initial_device_states_answer (a : answer (list InitialDeviceStateClass)) : M unit :=
  match a with
  | Next response => modify (with_nodes (Some response))
  | Error e => on_error "retrieving initial device states" e
  end.

(** A slider of a row that is shown. *)
Inductive event : Type := NgOnInit | Toggle (row : nat) (checked : bool).
Definition on_event (e : event) : M unit :=
  match e with
  | NgOnInit => ngOnInit
  | Toggle row checked =>
      s <- get ;;
      match nodes s ≫= (.!! row) with
      | Some node =>
          modify (with_changes (changes s ++ [checked])) ;;; set_interface_states (length (changes s)) node
      | None => ret tt
      end
  end.
Definition on_answer (c : call) : Ans c -> M unit :=
  match c with
  | CStates => api_get_initial_device_states_answer
  | CChangeState event _ _ _ => api_change_remote_network_device_state_answer event
  end.

#[export] Instance node_maintenance_form : Component NodeMaintenanceFormComponent call page event Ans :=
  {| initial := constructor; Runtime.on_event := on_event; Runtime.on_answer := on_answer |}.

(** ** The slider and its requests *)

Lemma slider_checked n : is_slider_checked (Some n) = true <-> Forall (fun i => if_state i <> DOWN) (ds_interfaces n).
Proof.
  simpl. induction (ds_interfaces n) as [|i l IH]; simpl; [done|]. rewrite Forall_cons, <- IH.
  destruct (if_state i === DOWN) eqn:E; [apply seqb_eq in E; naive_solver|apply seqb_neq in E; naive_solver].
Qed.

(** The requests of a slider: one for each interface of its node, in order, all for
    the state the slider was moved to. *)
Definition requests (event : nat) (n : InitialDeviceStateClass) (checked : bool) : list (effect call page) :=
  (fun i => Subscribe (CChangeState event (ds_node n) (if_name i) (if checked then UP else DOWN))) <$> ds_interfaces n.

Lemma for_each_requests l event host st (s : NodeMaintenanceFormComponent) :
  for_each l (fun i => api_change_remote_network_device_state_ event host (if_name i) st) s =
  (Ret tt, s, (fun i => Subscribe (CChangeState event host (if_name i) st)) <$> l).
Proof. induction l as [|i l IH]; simpl; [done|]. by rewrite (bind_run _ _ s tt s [Subscribe (CChangeState event host (if_name i) st)]), IH by done. Qed.

Lemma toggle_run row checked s n : nodes s ≫= (.!! row) = Some n ->
  on_event (Toggle row checked) s = (Ret tt, with_changes (changes s ++ [checked]) s, requests (length (changes s)) n checked).
Proof.
  intros E. simpl. unfold get. rewrite (bind_run_silent _ _ s s s) by done. rewrite E.
  rewrite (bind_run_silent _ _ s tt (with_changes (changes s ++ [checked]) s)) by done.
  set (s1 := with_changes (changes s ++ [checked]) s). unfold set_interface_states, get.
  rewrite (bind_run_silent _ _ s1 s1 s1) by done.
  assert (E1 : changes s1 !! length (changes s) = Some checked) by (simpl; by apply list_lookup_middle).
  rewrite E1. rewrite (bind_run_silent _ _ s1 checked s1) by done. apply for_each_requests.
Qed.

(** The rows are those of an answer. *)
Definition rows_answered (tr : list (label event Ans * list (effect call page))) (s : NodeMaintenanceFormComponent) : Prop :=
  forall l, nodes s = Some l -> exists es, (Answered CStates (Next l), es) ∈ tr.

Lemma reachable_rows tr w : trace (fun _ => True) tr w -> rows_answered tr (component w).
Proof.
  induction 1 as [|tr w l w' Htr IH _ Hstep]; [done|]. rewrite (step_component _ _ _ Hstep).
  assert (G : nodes (state_of (react l (component w))) = nodes (component w) ->
              rows_answered (tr ++ [(l, made l w)]) (state_of (react l (component w)))).
  { intros E k. rewrite E. intros [es H]%IH. exists es. apply elem_of_app. by left. }
  destruct l as [e|c a].
  - destruct e as [|row checked]; [by apply G|]. apply G. cbn [react Runtime.on_event node_maintenance_form].
    destruct (nodes (component w) ≫= (.!! row)) as [n|] eqn:E; [by rewrite (toggle_run _ _ _ n E)|].
    simpl. unfold get. rewrite (bind_state _ _ (component w) (component w) (component w) []) by done. by rewrite E.
  - destruct c as [|ev h i st]; simpl; destruct a as [r|e].
    + intros k [= <-]. eexists. apply elem_of_app. right. by left.
    + by apply G.
    + by apply G.
    + by apply G; destruct e.
Qed.

(** Maintenance is started and ended by a slider only.  In every interleaving a
    request that changes an interface is made by the turn of a slider, names an
    interface of the node of its row as an answer of the server listed it, and asks
    for the state of the slider; the same turn asks for all interfaces of that node. *)
Theorem sliders_change_their_node tr w l w' ev h i st :
  trace (fun _ => True) tr w -> step w l w' -> Subscribe (CChangeState ev h i st) ∈ made l w ->
  exists row checked n rows es, l = Event (Toggle row checked) /\ (Answered CStates (Next rows), es) ∈ tr /\
    rows !! row = Some n /\ h = ds_node n /\ st = (if checked then UP else DOWN) /\
    i ∈ if_name <$> ds_interfaces n /\ made l w = requests ev n checked.
Proof.
  intros Htr _ Hin. pose proof (reachable_rows tr w Htr) as Hr. unfold made in *. set (s := component w) in *.
  destruct l as [e|c a].
  - destruct e as [|row checked]; [by apply elem_of_cons in Hin as [?|?%not_elem_of_nil]|].
    cbn [react Runtime.on_event node_maintenance_form] in *.
    destruct (nodes s ≫= (.!! row)) as [n|] eqn:E.
    + rewrite (toggle_run _ _ _ n E) in *. cbn [effects_of snd] in *.
      pose proof Hin as (x & [= -> -> -> ->] & Hx)%list_elem_of_fmap.
      destruct (nodes s) as [rows|] eqn:En; [|done]. destruct (Hr rows En) as [es He].
      exists row, checked, n, rows, es. split_and!; try done. by apply list_elem_of_fmap_2.
    + revert Hin. simpl. unfold get. rewrite (bind_run_silent _ _ s s s) by done. rewrite E. by intros ?%not_elem_of_nil.
  - exfalso. destruct c as [|ev' h' i' st']; simpl in Hin; destruct a as [r|e]; try by apply not_elem_of_nil in Hin.
    + by apply elem_of_cons in Hin as [?|?%not_elem_of_nil].
    + by apply elem_of_cons in Hin as [?|?%not_elem_of_nil].
    + destruct e; by apply elem_of_cons in Hin as [?|?%not_elem_of_nil].
Qed.

(** A request that failed changes nothing that is shown: the slider stays where the
    user moved it, the rows stay as they were. *)
Lemma failed_change_keeps_the_rows ev e s :
  let s' := state_of (api_change_remote_network_device_state_answer ev (Error e) s) in
  nodes s' = nodes s /\ forall row, is_slider_checked (nodes s' ≫= (.!! row)) = is_slider_checked (nodes s ≫= (.!! row)).
Proof. by destruct e. Qed.

Lemma sliders_change_their_node_witness : exists tr w h st, trace (fun _ => True) tr w /\
  Subscribe (CChangeState 0 h "ens192" st) ∈ made (Event (Toggle 0 false)) w /\ h = "sensor1" /\ st = DOWN.
Proof.
  pose proof (trace_start (fun _ => True)) as T.
  apply (trace_event _ _ _ NgOnInit) in T; [|exact I].
  match type of T with trace _ ?tr ?w => set (w1 := w) in T end.
  assert (Hp : pending w1 = [] ++ CStates :: []) by reflexivity.
  apply (trace_answer _ _ _ [] _ [] (Next [{| ds_node := "sensor1"; ds_interfaces :=
     [{| if_name := "ens192"; if_state := "up"; link_up := true |}] |}] : Ans CStates)) in T; [|exact I|exact Hp].
  match type of T with trace _ ?tr ?w => set (w2 := w) in T; exists tr, w2 end.
  pose proof (step_event w2 (Toggle 0 false)) as Hs.
  assert (Hin : Subscribe (CChangeState 0 "sensor1" "ens192" DOWN) ∈ made (Event (Toggle 0 false)) w2) by (vm_compute; left).
  eexists _, _. split; [exact T|]. split; [exact Hin|].
  destruct (sliders_change_their_node _ _ _ _ _ _ _ _ T Hs Hin) as (row & checked & n & rows & es & _). done.
Defined.
