(* ===== verification/UpdateDocs.v ===== *)
(** modules/tools/components/update-documentation-form: the upload of a space of
    documentation. *)
From S2P Require Import Prelude Handler JsValue Runtime Data Api Regex Validators Fields.
From Stdlib Require Import Ascii.

(** [SPACE_NAME_CONSTRAINT] and [is_valid_space_name] of constants/cvah.constants.ts *)
Definition letters : list ascii := range "a" "z" ++ range "A" "Z".
Definition SPACE_NAME_CONSTRAINT : RegExp := [Alternative true true (from_to 1 50 (Class_ letters))].
Definition COMMON_VALIDATORS_is_valid_space_name : list ValidatorObjectInterface :=
  [plain "required" (Text "Required field") None;
   plain "pattern" (Text "Please enter a valid space name of 1-50 uppercase and lowercase letters.") (Some SPACE_NAME_CONSTRAINT)].

(** The entries of [FormData]. *)
Record documentation := { upload_file : File; upload_name : string; space_name : jsval }.
Definition upload_documentation (form_data : documentation) : service documentation SuccessMessageClass SuccessMessageClass :=
  Service POST "/api/tools/documentation/upload" form_data "upload documentation" copied.

(** ** The component *)

Inductive call : Type := CUploadDocumentation (form_data : documentation).
Definition Ans (c : call) : Type := answer SuccessMessageClass.
Inductive page : Type := OpenUpdateDocumentationMessage.

Record UpdateDocsFormComponent := {
  zip_for_upload : option File;
  space_name_form_control : option (form unit);
  file_name_form_control : option jsval;
}.
Abbreviation M := (handler UpdateDocsFormComponent (effect call page)).
Definition with_zip v s := {| zip_for_upload := v; space_name_form_control := space_name_form_control s; file_name_form_control := file_name_form_control s |}.
Definition with_space v s := {| zip_for_upload := zip_for_upload s; space_name_form_control := v; file_name_form_control := file_name_form_control s |}.
Definition with_name v s := {| zip_for_upload := zip_for_upload s; space_name_form_control := space_name_form_control s; file_name_form_control := v |}.
Definition constructor : UpdateDocsFormComponent :=
  {| zip_for_upload := None; space_name_form_control := None; file_name_form_control := None |}.
Definition get : M UpdateDocsFormComponent := gets (fun s => s).

(** The space name is a control of its own: a group of one. *)
Definition space_rule (g : form unit) (k : unit) (c : AbstractControl) : outcome (option validation_error) :=
  validateFromArray COMMON_VALIDATORS_is_valid_space_name None c.
Definition on_space (op : form unit -> outcome (form unit)) : M unit :=
  s <- get ;; g <- deref (space_name_form_control s) ;; g' <- lift (op g) ;; modify (with_space (Some g')).

Definition set_space_name_form_control_ (g : form unit) : M unit := modify (with_space (Some g)).
Definition set_file_name_form_control_ (v : jsval) : M unit := modify (with_name (Some v)).
Definition initialize_space_name_form_control_ : M unit :=
  g <- lift (new_group space_rule [tt] (fun _ => raw_field (JStr ""))) ;; set_space_name_form_control_ g.
Definition initialize_file_name_form_control_ : M unit := set_file_name_form_control_ (JStr "").
Definition ngOnInit : M unit := initialize_space_name_form_control_ ;;; initialize_file_name_form_control_.
Definition open_update_documentation_message_dialog : M unit := emit (Page OpenUpdateDocumentationMessage).

Definition get_error_message (f : field) : string :=
  match fc_errors f with
  | Some (PatternError _ (Text m)) | Some (ErrorObject (Text m)) | Some (PasswordError _ m) => m
  | _ => ""
  end.

(** [reset()]: no value and no marks. *)
Definition reset (g : form unit) : outcome (form unit) :=
  setValue space_rule tt JNull (put tt (with_marks false false (g tt)) g).

Definition handle_zip_file_input (files : list File) : M unit :=
  modify (with_zip (head files)) ;;;
  s <- get ;;
  f <- deref (zip_for_upload s) ;;
  _ <- deref (file_name_form_control s) ;;
  modify (with_name (Some (JStr (file_name f)))).

Definition api_upload_documentation_ (form_data : documentation) : M unit := emit (Subscribe (CUploadDocumentation form_data)).
Definition upload_button_click : M unit :=
  s <- get ;;
  f <- deref (zip_for_upload s) ;;
  displaySnackBar ("Loading " +:+ file_name f +:+ "...") (Some MAT_SNACKBAR_CONFIGURATION_60000_DUR) ;;;
  g <- deref (space_name_form_control s) ;;
  api_upload_documentation_ {| upload_file := f; upload_name := file_name f; space_name := fc_value (g tt) |}.

Definition api_upload_documentation_answer (a : answer SuccessMessageClass) : M unit :=
  match a with
  | Next response =>
      modify (with_zip None) ;;;
      on_space reset ;;;
      modify (with_name (Some JNull)) ;;;
      displaySnackBar (success_message response) (Some MAT_SNACKBAR_CONFIGURATION_60000_DUR)
  | Error e => on_error_message "uploading documentation" e
  end.

Inductive event : Type :=
| NgOnInit
| TypeSpace (t : string)
| BlurSpace
| FileChosen (files : list File)
| UploadClick
| GuideClick.
Definition upload_enabled (s : UpdateDocsFormComponent) : bool :=
  notUndefNull (zip_for_upload s) &&
  match space_name_form_control s with Some g => field_valid (g tt) && fc_touched (g tt) | None => false end.
Definition on_event (e : event) : M unit :=
  match e with
  | NgOnInit => ngOnInit
  | TypeSpace t => on_space (type_in space_rule tt (JStr t))
  | BlurSpace => on_space (fun g => Ret (markAsTouched tt g))
  | FileChosen files => handle_zip_file_input files
  | UploadClick => s <- get ;; when (upload_enabled s) upload_button_click
  | GuideClick => open_update_documentation_message_dialog
  end.
#[export] Instance update_docs_form : Component UpdateDocsFormComponent call page event Ans :=
  {| initial := constructor; Runtime.on_event := on_event; Runtime.on_answer := fun _ => api_upload_documentation_answer |}.

(** ** What is uploaded *)

Definition is_space_name (t : string) : Prop :=
  (1 <= String.length t <= 50)%nat /\ Forall (fun c => c ∈ letters) (String.list_ascii_of_string t).

Lemma space_name_accepts c t : value c = JStr t ->
  exists e, validateFromArray COMMON_VALIDATORS_is_valid_space_name None c = Ret e /\ (e = None <-> is_space_name t).
Proof.
  intros E. unfold COMMON_VALIDATORS_is_valid_space_name.
  eexists. split; [by eapply validate_two; [apply (required_text _ c t E) | apply (pattern_text _ _ c t E)]|].
  unfold is_space_name. destruct (t === "") eqn:Et.
  - apply seqb_eq in Et as ->. split; [done|]. simpl. lia.
  - rewrite orb_false_l. assert (H := test_anchored (from_to 1 50 (Class_ letters)) t). rewrite matches_from_to in H by lia.
    rewrite length_list_ascii. fold SPACE_NAME_CONSTRAINT in H.
    destruct (test SPACE_NAME_CONSTRAINT t); split; try done; [by intros _; apply H | by intros ?%H].
Qed.

(** A control that is not disabled and whose verdict is that of its value; only
    [null] is no text. *)
Definition space_ok (s : UpdateDocsFormComponent) : Prop :=
  match space_name_form_control s with
  | Some g => fc_disabled (g tt) = false /\
      (fc_errors (g tt) = None -> exists t, fc_value (g tt) = JStr t /\ is_space_name t)
  | None => True
  end.

Lemma set_text_ok t g : fc_disabled (g tt) = false ->
  exists g', setValue space_rule tt (JStr t) g = Ret g' /\ space_ok (with_space (Some g') constructor).
Proof.
  intros Hd. destruct (space_name_accepts (control_of (with_value (JStr t) (g tt))) t eq_refl) as (e & E & He).
  unfold setValue, updateValueAndValidity. rewrite put_same. simpl fc_disabled. rewrite Hd. unfold space_rule. rewrite E. simpl.
  eexists. split; [done|]. unfold space_ok. simpl. rewrite ?put_same. simpl. split; [done|]. intros ->. exists t. by rewrite <- He.
Qed.

Lemma reset_ok g : fc_disabled (g tt) = false ->
  exists g', reset g = Ret g' /\ space_ok (with_space (Some g') constructor) /\ fc_touched (g' tt) = false.
Proof.
  intros Hd. unfold reset, setValue, updateValueAndValidity. rewrite !put_same. simpl fc_disabled. rewrite Hd. simpl.
  eexists. split; [done|]. unfold space_ok. simpl. rewrite ?put_same. simpl. done.
Qed.

Lemma on_space_run op s g g' : space_name_form_control s = Some g -> op g = Ret g' ->
  on_space op s = (Ret tt, with_space (Some g') s, []).
Proof. intros E Eop. unfold on_space, get, bind, gets, deref, lift, modify. rewrite E. cbn. by rewrite Eop. Qed.
Lemma on_no_space op s : space_name_form_control s = None -> on_space op s = (Exn "TypeError", s, []).
Proof. intros E. unfold on_space, get, bind, gets, deref. by rewrite E. Qed.

Lemma on_space_silent op s : effects_of (on_space op s) = [].
Proof.
  unfold on_space, get, bind, gets, deref. destruct (space_name_form_control s) as [g|]; [|done]. unfold lift. cbn. by destruct (op g).
Qed.

Lemma init_docs s : exists g, ngOnInit s = (Ret tt, with_name (Some (JStr "")) (with_space (Some g) s), []) /\
  space_ok (with_space (Some g) constructor).
Proof.
  destruct (space_name_accepts (control_of (raw_field (JStr ""))) "" eq_refl) as (e & E & He).
  unfold ngOnInit, initialize_space_name_form_control_, new_group, each, updateValueAndValidity.
  eexists. split; [reflexivity|]. unfold space_ok. simpl. rewrite ?put_same. done.
Qed.

Lemma docs_turn l s : space_ok s -> space_ok (state_of (react l s)).
Proof.
  intros Hs. destruct l as [e|[d] a].
  - destruct e as [|t| |files| |]; cbn [react Runtime.on_event update_docs_form on_event].
    + destruct (init_docs s) as (g & -> & Hg). exact Hg.
    + destruct (space_name_form_control s) as [g|] eqn:E; [|by rewrite (on_no_space _ s E)].
      unfold space_ok in Hs. rewrite E in Hs. destruct Hs as [Hd _].
      destruct (set_text_ok t (put tt (with_marks (fc_touched (g tt)) true (g tt)) g)) as (g' & Eg & Hg); [by rewrite put_same|].
      by rewrite (on_space_run _ s g g' E Eg).
    + destruct (space_name_form_control s) as [g|] eqn:E; [|by rewrite (on_no_space _ s E)].
      rewrite (on_space_run (fun g => Ret (markAsTouched tt g)) s g _ E eq_refl). unfold space_ok in *. rewrite E in Hs. simpl.
      exact Hs.
    + unfold handle_zip_file_input, get, bind, modify, gets, deref. cbn.
      destruct (head files) as [f|]; [|exact Hs]. cbn. by destruct (file_name_form_control s).
    + unfold get. rewrite (bind_state _ _ s s s []) by done. destruct (upload_enabled s); [|exact Hs].
      unfold upload_button_click, get, bind, gets, deref. cbn. destruct (zip_for_upload s); [|exact Hs]. cbn.
      by destruct (space_name_form_control s) eqn:E.
    + exact Hs.
  - cbn [react Runtime.on_answer update_docs_form]. destruct a as [r|e]; [|by destruct e]. unfold api_upload_documentation_answer.
    rewrite (bind_state _ _ s tt (with_zip None s) []) by done.
    destruct (space_name_form_control s) as [g|] eqn:E.
    + unfold space_ok in Hs. rewrite E in Hs. destruct Hs as [Hd _]. destruct (reset_ok g Hd) as (g' & Eg & Hg & _).
      by rewrite (bind_state _ _ _ tt (with_space (Some g') (with_zip None s)) []) by (by apply on_space_run with g).
    + rewrite (bind_run_throw _ _ _ _ _ _ (on_no_space reset (with_zip None s) E)). exact Hs.
Qed.

(** Documentation is uploaded by the button only: the chosen file under its name,
    for a space name of 1 to 50 letters, whatever was typed, chosen or answered
    before. *)
Theorem uploads_name_a_space tr w l w' d :
  trace (fun _ => True) tr w -> step w l w' -> Subscribe (CUploadDocumentation d) ∈ made l w ->
  l = Event UploadClick /\ zip_for_upload (component w) = Some (upload_file d) /\ upload_name d = file_name (upload_file d) /\
  exists t, space_name d = JStr t /\ is_space_name t.
Proof.
  intros Htr _ Hin. assert (Hs : space_ok (component w)).
  { apply (trace_worlds (fun _ => True) (fun w => space_ok (component w))) with (tr := tr); [done| |exact Htr].
    intros w0 l0 w1 H _ Hst. rewrite (step_component _ _ _ Hst). by apply docs_turn. }
  unfold made in Hin. set (s := component w) in *. destruct l as [e|[d'] a].
  - destruct e as [|t| |files| |]; cbn [react Runtime.on_event update_docs_form on_event] in Hin.
    + destruct (init_docs s) as (g & E & _). rewrite E in Hin. by apply not_elem_of_nil in Hin.
    + rewrite on_space_silent in Hin. by apply not_elem_of_nil in Hin.
    + rewrite on_space_silent in Hin. by apply not_elem_of_nil in Hin.
    + exfalso. revert Hin. unfold handle_zip_file_input, get, bind, modify, gets, deref. cbn.
      destruct (head files) as [f|]; [|by intros ?%not_elem_of_nil]. cbn. destruct (file_name_form_control s); by intros ?%not_elem_of_nil.
    + unfold get in Hin. rewrite (bind_run_silent _ _ s s s) in Hin by done.
      destruct (upload_enabled s) eqn:Eu; [|by apply not_elem_of_nil in Hin]. unfold upload_enabled, space_ok in *.
      simpl when in Hin. revert Hin. unfold upload_button_click, get, bind, gets, deref. cbn.
      destruct (zip_for_upload s) as [f|]; [|by intros ?%not_elem_of_nil]. cbn.
      destruct (space_name_form_control s) as [g|]; [|done]. apply andb_true_iff in Eu as [_ Eu].
      apply andb_true_iff in Eu as [Ev _]. intros [?|[[= ->]|?%not_elem_of_nil]%elem_of_cons]%elem_of_cons; [done| |done].
      split_and!; try done. simpl. destruct Hs as [Hd He]. apply He.
      unfold field_valid, field_status in Ev. rewrite Hd in Ev. by destruct (fc_errors (g tt)).
    + by apply elem_of_cons in Hin as [?|?%not_elem_of_nil].
  - exfalso. cbn [react Runtime.on_answer update_docs_form] in Hin. destruct a as [r|e].
    + revert Hin. unfold api_upload_documentation_answer. rewrite (bind_run_silent _ _ s tt (with_zip None s)) by done.
      pose proof (on_space_silent reset (with_zip None s)) as Hq.
      destruct (on_space reset (with_zip None s)) as [[[u|x] s1] es] eqn:E; simpl in Hq; subst es.
      * rewrite (bind_run_silent _ _ _ u s1 E). by intros [?|?%not_elem_of_nil]%elem_of_cons.
      * rewrite (bind_run_throw _ _ _ _ _ _ E). by intros ?%not_elem_of_nil.
    + destruct e; by apply elem_of_cons in Hin as [?|?%not_elem_of_nil].
Qed.

Lemma uploads_name_a_space_witness : exists tr w d, trace (fun _ => True) tr w /\
  Subscribe (CUploadDocumentation d) ∈ made (Event UploadClick) w /\ space_name d = JStr "THISISCVAH" /\ upload_name d = "docs.zip".
Proof.
  pose proof (trace_start (fun _ => True)) as T.
  apply (trace_event _ _ _ NgOnInit) in T; [|exact I].
  apply (trace_event _ _ _ (TypeSpace "THISISCVAH")) in T; [|exact I].
  apply (trace_event _ _ _ BlurSpace) in T; [|exact I].
  apply (trace_event _ _ _ (FileChosen [{| file_name := "docs.zip"; file_content := [] |}])) in T; [|exact I].
  match type of T with trace _ ?tr ?w => set (w1 := w) in T; exists tr, w1 end.
  pose proof (step_event w1 UploadClick) as Hs.
  assert (Hin : Subscribe (CUploadDocumentation {| upload_file := {| file_name := "docs.zip"; file_content := [] |};
    upload_name := "docs.zip"; space_name := JStr "THISISCVAH" |}) ∈ made (Event UploadClick) w1) by (vm_compute; right; left).
  eexists. split; [exact T|]. split; [exact Hin|].
  by destruct (uploads_name_a_space _ _ (Event UploadClick) _ _ T Hs Hin) as (_ & _ & Hn & _).
Defined.
