(* ===== verification/EsLicense.v ===== *)
(** modules/tools/components/update-es-license-form: the license of Elasticsearch,
    read from a file by the browser's FileReader and posted as JSON. *)
From S2P Require Import Prelude Handler JsValue Runtime Data Api.

(** classes/elastic-license-data.class.ts and elastic-license.class.ts; the dates come
    as texts. *)
Record ElasticLicenseDataClass := {
  el_status : string;
  uid : string;
  el_type : string;
  issue_date : string;
  issue_date_in_millis : Z;
  expiry_date : string;
  expiry_date_in_millis : Z;
  max_nodes : Z;
  issued_to : string;
  issuer : string;
  start_date_in_millis : Z;
}.
Record ElasticLicenseClass := { license : ElasticLicenseDataClass }.

Definition get_elastic_license : service unit ElasticLicenseClass ElasticLicenseClass :=
  Service GET "/api/tools/es_license" tt "get elastic license" copied.
Definition upload_elastic_license (license_data : jsval) : service jsval SuccessMessageClass SuccessMessageClass :=
  Service PUT "/api/tools/es_license" license_data "upload elastic license" copied.

(** ** The component *)

(** [CRead] is the FileReader, answered with the text of the file. *)
Inductive call : Type := CLicense | CUploadLicense (license : jsval) | CRead (file : File).
Definition Ans (c : call) : Type :=
  match c with
  | CLicense => answer ElasticLicenseClass
  | CUploadLicense _ => answer SuccessMessageClass
  | CRead _ => string
  end.
Inductive page : Type := .

Record UpdateEsLicenseComponent := {
  json_for_upload : option File;
  elastic_license : option ElasticLicenseClass;
  file_name_form_control : option jsval;
}.
Abbreviation M := (handler UpdateEsLicenseComponent (effect call page)).
Definition with_file v s := {| json_for_upload := v; elastic_license := elastic_license s; file_name_form_control := file_name_form_control s |}.
Definition with_license v s := {| json_for_upload := json_for_upload s; elastic_license := v; file_name_form_control := file_name_form_control s |}.
Definition with_name v s := {| json_for_upload := json_for_upload s; elastic_license := elastic_license s; file_name_form_control := v |}.
Definition constructor : UpdateEsLicenseComponent :=
  {| json_for_upload := None; elastic_license := None; file_name_form_control := None |}.
Definition get : M UpdateEsLicenseComponent := gets (fun s => s).

Section EsLicense.
Context `{J : JSON}.

Definition set_file_name_form_control_ (v : jsval) : M unit := modify (with_name (Some v)).
Definition initialize_file_name_form_control_ : M unit := set_file_name_form_control_ (JStr "").
Definition api_get_elastic_license_ : M unit := emit (Subscribe CLicense).
Definition api_upload_elastic_license_ (license : jsval) : M unit := emit (Subscribe (CUploadLicense license)).
Definition ngOnInit : M unit := initialize_file_name_form_control_ ;;; api_get_elastic_license_.

Definition upload_button_click : M unit :=
  s <- get ;;
  f <- deref (json_for_upload s) ;;
  displaySnackBar ("Loading " +:+ file_name f +:+ "...") (Some MAT_SNACKBAR_CONFIGURATION_60000_DUR) ;;;
  emit (Subscribe (CRead f)).
(** [onload] of the reader. *)
Definition file_reader_onload (result : string) : M unit :=
  license <- match parse result with Some v => ret v | None => throw "SyntaxError" end ;;
  api_upload_elastic_license_ license.

Definition handle_json_file_input (files : list File) : M unit :=
  modify (with_file (head files)) ;;;
  s <- get ;;
  f <- deref (json_for_upload s) ;;
  _ <- deref (file_name_form_control s) ;;
  modify (with_name (Some (JStr (file_name f)))).

Definition api_get_elastic_license_answer (a : answer ElasticLicenseClass) : M unit :=
  match a with
  | Next response => modify (with_license (Some response))
  | Error e => on_error_message "retrieving elastic license" e
  end.
(** The control is reset. *)
Definition api_upload_elastic_license_answer (a : answer SuccessMessageClass) : M unit :=
  match a with
  | Next response =>
      modify (with_file None) ;;;
      s <- get ;;
      _ <- deref (file_name_form_control s) ;;
      modify (with_name (Some JNull)) ;;;
      displaySnackBar (success_message response) (Some MAT_SNACKBAR_CONFIGURATION_60000_DUR)
  | Error e => on_error_message "uploading new elastic license" e
  end.

Inductive event : Type := NgOnInit | FileChosen (files : list File) | UploadClick.
Definition on_event (e : event) : M unit :=
  match e with
  | NgOnInit => ngOnInit
  | FileChosen files => handle_json_file_input files
  | UploadClick => s <- get ;; when (notUndefNull (json_for_upload s)) upload_button_click
  end.
Definition on_answer (c : call) : Ans c -> M unit :=
  match c with
  | CLicense => api_get_elastic_license_answer
  | CUploadLicense _ => api_upload_elastic_license_answer
  | CRead _ => file_reader_onload
  end.
#[export] Instance update_es_license : Component UpdateEsLicenseComponent call page event Ans :=
  {| initial := constructor; Runtime.on_event := on_event; Runtime.on_answer := on_answer |}.

(** ** What is uploaded *)

Definition causes (l : label event Ans) (c : call) (s : UpdateEsLicenseComponent) : Prop :=
  match c with
  | CLicense => l = Event NgOnInit
  | CRead f => l = Event UploadClick /\ json_for_upload s = Some f
  | CUploadLicense v => exists f t, l = Answered (CRead f) t /\ parse t = Some v
  end.

Lemma license_effects l s c : Subscribe c ∈ effects_of (react l s) -> causes l c s.
Proof using.
  intros Hin. destruct l as [e|d a].
  - destruct e as [|files|]; cbn [react Runtime.on_event update_es_license on_event] in Hin.
    + by apply elem_of_cons in Hin as [[= ->]|?%not_elem_of_nil].
    + exfalso. revert Hin. unfold handle_json_file_input, get, bind, modify, gets, deref. cbn.
      destruct (head files); cbn; [|by intros ?%not_elem_of_nil]. destruct (file_name_form_control s); by intros ?%not_elem_of_nil.
    + unfold get in Hin. rewrite (bind_run_silent _ _ s s s) in Hin by done.
      destruct (json_for_upload s) as [f|] eqn:E; [|by apply not_elem_of_nil in Hin]. simpl when in Hin.
      revert Hin. unfold upload_button_click, get, bind, gets, deref. cbn. rewrite E. cbn.
      by intros [?|[[= ->]|?%not_elem_of_nil]%elem_of_cons]%elem_of_cons.
  - destruct d as [|v|f]; cbn [react Runtime.on_answer update_es_license on_answer] in Hin.
    + destruct a as [r|[]]; by first [apply not_elem_of_nil in Hin | apply elem_of_cons in Hin as [?|?%not_elem_of_nil]].
    + destruct a as [r|e]; [|destruct e; by apply elem_of_cons in Hin as [?|?%not_elem_of_nil]].
      exfalso. revert Hin. unfold api_upload_elastic_license_answer, get, bind, modify, gets, deref. cbn.
      destruct (file_name_form_control s); cbn; [by intros [?|?%not_elem_of_nil]%elem_of_cons | by intros ?%not_elem_of_nil].
    + unfold file_reader_onload in Hin. destruct (parse a) as [v|] eqn:E; [|by apply not_elem_of_nil in Hin].
      apply elem_of_cons in Hin as [[= ->]|?%not_elem_of_nil]; [|done]. by exists f, a.
Qed.

(** The file that is chosen, and those that are being read, were chosen in a dialog of
    the browser. *)
Definition was_chosen (tr : list (label event Ans * list (effect call page))) (f : File) : Prop :=
  exists files es, (Event (FileChosen files), es) ∈ tr /\ head files = Some f.
Lemma was_chosen_later tr x f : was_chosen tr f -> was_chosen (tr ++ [x]) f.
Proof using. intros (files & es & H & E). exists files, es. split; [|done]. apply elem_of_app. by left. Qed.

Lemma chosen_turn l s f (H : json_for_upload (state_of (react l s)) = Some f) :
  json_for_upload s = Some f \/ exists files, l = Event (FileChosen files) /\ head files = Some f.
Proof using.
  destruct l as [e|d a].
  - destruct e as [|files|]; cbn [react Runtime.on_event update_es_license on_event] in H; [by left| |].
    + right. exists files. split; [done|]. revert H.
      unfold handle_json_file_input, get, bind, modify, gets, deref. cbn. destruct (head files); cbn; [|done].
      by destruct (file_name_form_control s).
    + left. unfold get in H. rewrite (bind_state _ _ s s s []) in H by done.
      destruct (json_for_upload s) as [g|] eqn:E; [|change (json_for_upload s = Some f) in H; congruence].
      simpl when in H. revert H.
      unfold upload_button_click, get, bind, gets, deref. cbn. rewrite E. cbn. by rewrite E.
  - left. destruct d as [|v|g]; revert H; cbn [react Runtime.on_answer update_es_license on_answer].
    + by destruct a as [r|[]].
    + destruct a as [r|[]]; [|done..]. unfold api_upload_elastic_license_answer, get, bind, modify, gets, deref. cbn.
      by destruct (file_name_form_control s).
    + unfold file_reader_onload. by destruct (parse a).
Qed.

Lemma reachable_chosen tr w : trace (fun _ => True) tr w ->
  (forall f, json_for_upload (component w) = Some f -> was_chosen tr f) /\ (forall f, CRead f ∈ pending w -> was_chosen tr f).
Proof using.
  induction 1 as [|tr w l w' Htr [IH1 IH2] _ Hstep]; [split; [done | by intros f ?%not_elem_of_nil]|]. split.
  - intros f. rewrite (step_component _ _ _ Hstep). intros [H|(files & -> & H)]%chosen_turn; [by apply was_chosen_later, IH1|].
    exists files. eexists. split; [|exact H]. apply elem_of_app. right. by left.
  - intros f [H|H]%(step_waiting w l w' _ Hstep); [by apply was_chosen_later, IH2|].
    apply license_effects in H as [_ H]. by apply was_chosen_later, IH1.
Qed.

(** A license is uploaded only when a file has been read that the user chose, and
    it is what JSON.parse makes of the text of that file; in every interleaving of
    choices, clicks and answers. *)
Theorem uploaded_license_was_chosen tr w l w' v :
  trace (fun _ => True) tr w -> step w l w' -> Subscribe (CUploadLicense v) ∈ made l w ->
  exists f t, l = Answered (CRead f) t /\ parse t = Some v /\ was_chosen tr f.
Proof using.
  intros Htr Hstep Hin. apply license_effects in Hin as (f & t & -> & Hp). exists f, t. split; [done|]. split; [done|].
  apply (proj2 (reachable_chosen tr w Htr)). apply (answered_pending _ _ _ Hstep).
Qed.

(** A file that is no JSON throws in the reader's callback: nothing is shown. *)
Lemma no_json_is_not_reported f t s : parse t = None -> react (Answered (CRead f) t) s = (Exn "SyntaxError", s, []).
Proof using. intros H. cbn. unfold file_reader_onload. by rewrite H. Qed.

(** The success of an upload drops the file that is chosen by then, and the license
    that is shown stays the old one. *)
Lemma success_drops_the_choice v r s n : file_name_form_control s = Some n ->
  react (Answered (CUploadLicense v) (Next r)) s =
  (Ret tt, with_name (Some JNull) (with_file None s), [DisplaySnackBar (success_message r) (Some MAT_SNACKBAR_CONFIGURATION_60000_DUR)]).
Proof using. intros H. cbn. unfold api_upload_elastic_license_answer, get, bind, modify, gets, deref. cbn. by rewrite H. Qed.
End EsLicense.
