(* ===== verification/ReplayDialog.v ===== *)
(** modules/pcap-form/components/replay-pcap-dialog: the sensor and the interfaces a
    PCAP is replayed on.

    The validator of the interfaces is set by the first click that gives up the time
    stamps, after the control was enabled: the state has whether it is set.  A
    selection of interfaces gives the options that are selected, in their order. *)
From S2P Require Import Prelude Handler JsValue Runtime Data Api Sorting Services Validators Fields.

(** classes/host-info-redac.class.ts: no hardware address. *)
Record HostInfoRedacClass := { hr_hostname : string; hr_management_ip : string }.
Definition new_HostInfoRedacClass (h : HostInfoClass) : HostInfoRedacClass :=
  {| hr_hostname := hi_hostname h; hr_management_ip := hi_management_ip h |}.

(** ** The form *)

Inductive replay_field : Type := Pcap | SensorIp | Preserve | Ifaces.
#[export] Instance replay_field_eq : EqDecision replay_field.
Proof. solve_decision. Defined.
Definition replay_names : list replay_field := [Pcap; SensorIp; Preserve; Ifaces].

Definition required_value (c : AbstractControl) : outcome (option validation_error) :=
  validateFromArray COMMON_VALIDATORS_required None c.
Definition replay_rule (ifaces_required : bool) (g : form replay_field) (k : replay_field) (c : AbstractControl)
    : outcome (option validation_error) :=
  match k with
  | SensorIp => required_value c
  | Ifaces => if ifaces_required then required_value c else Ret None
  | Pcap | Preserve => Ret None
  end.

(** interfaces/replay-pcap.interface.ts: [getRawValue()] with the host name that the
    submission adds. *)
Record ReplayPCAPInterface := {
  r_ifaces : jsval;
  r_pcap : jsval;
  r_preserve_timestamp : jsval;
  r_sensor_hostname : option string;
  r_sensor_ip : jsval;
}.

(** ** The component *)

Inductive call : Type := CSensors | CIfaces (hostname : string).
Definition Ans (c : call) : Type :=
  match c with CSensors => answer (list HostInfoClass) | CIfaces _ => answer (list string) end.
(** What the dialog returns: the validity of the form and its values. *)
Inductive page : Type := CloseReplay (r : option (bool * ReplayPCAPInterface)).

Record ReplayPcapDialogComponent := {
  pcap_form_group : option (form replay_field);
  ifaces_required : bool;
  sensor_hostname : option string;
  selectable_sensors : list HostInfoRedacClass;
  selectable_ifaces : list string;
  pcap_name_ : string;
}.
Abbreviation M := (handler ReplayPcapDialogComponent (effect call page)).
Definition with_form v s := {| pcap_form_group := v; ifaces_required := ifaces_required s; sensor_hostname := sensor_hostname s;
  selectable_sensors := selectable_sensors s; selectable_ifaces := selectable_ifaces s; pcap_name_ := pcap_name_ s |}.
Definition with_required v s := {| pcap_form_group := pcap_form_group s; ifaces_required := v; sensor_hostname := sensor_hostname s;
  selectable_sensors := selectable_sensors s; selectable_ifaces := selectable_ifaces s; pcap_name_ := pcap_name_ s |}.
Definition with_hostname v s := {| pcap_form_group := pcap_form_group s; ifaces_required := ifaces_required s; sensor_hostname := v;
  selectable_sensors := selectable_sensors s; selectable_ifaces := selectable_ifaces s; pcap_name_ := pcap_name_ s |}.
Definition with_sensors v s := {| pcap_form_group := pcap_form_group s; ifaces_required := ifaces_required s; sensor_hostname := sensor_hostname s;
  selectable_sensors := v; selectable_ifaces := selectable_ifaces s; pcap_name_ := pcap_name_ s |}.
Definition with_ifaces v s := {| pcap_form_group := pcap_form_group s; ifaces_required := ifaces_required s; sensor_hostname := sensor_hostname s;
  selectable_sensors := selectable_sensors s; selectable_ifaces := v; pcap_name_ := pcap_name_ s |}.

Definition constructor (pcap_name : string) : ReplayPcapDialogComponent :=
  {| pcap_form_group := None; ifaces_required := false; sensor_hostname := None; selectable_sensors := [];
     selectable_ifaces := []; pcap_name_ := pcap_name |}.

Section Replay.
Context {Co : Collation}.

Definition get : M ReplayPcapDialogComponent := gets (fun s => s).
(** An operation on the controls with the validators that are set. *)
Definition on_form (op : (form replay_field -> replay_field -> AbstractControl -> outcome (option validation_error)) ->
    form replay_field -> outcome (form replay_field)) : M unit :=
  s <- get ;; g <- deref (pcap_form_group s) ;; g' <- lift (op (replay_rule (ifaces_required s)) g) ;; modify (with_form (Some g')).

Definition set_pcap_form_group_ (g : form replay_field) : M unit := modify (with_form (Some g)).
Definition initialize_pcap_form_group_ : M unit :=
  s <- get ;;
  g <- lift (new_group (replay_rule false) replay_names (fun k =>
         match k with
         | Pcap => disabled_field (raw_field (JStr (pcap_name_ s)))
         | SensorIp | Ifaces => raw_field JUndefined
         | Preserve => disabled_field (raw_field (JBool true))
         end)) ;;
  modify (with_required false) ;;; modify (with_hostname None) ;;;
  set_pcap_form_group_ g.

Definition api_get_sensor_host_info_ : M unit := emit (Subscribe CSensors).
Definition api_get_configured_ifaces_ (hostname : string) : M unit := emit (Subscribe (CIfaces hostname)).
Definition ngOnInit : M unit := api_get_sensor_host_info_ ;;; initialize_pcap_form_group_.

Definition should_preserve_timestamp (s : ReplayPcapDialogComponent) : outcome jsval :=
  match pcap_form_group s with Some g => Ret (fc_value (g Preserve)) | None => Exn "TypeError" end.
Definition change_preserve_timestamp (checked : bool) : M unit :=
  if checked then on_form (fun _ g => Ret (disable_control Ifaces g))
  else on_form (fun rule => enable_control rule Ifaces) ;;; modify (with_required true).
Definition get_error_message (f : field) : string :=
  match fc_errors f with
  | Some (PatternError _ (Text m)) | Some (ErrorObject (Text m)) | Some (PasswordError _ m) => m
  | _ => ""
  end.

(** The loops stop at the first sensor with the address. *)
Fixpoint first_with (ip : jsval) (l : list HostInfoRedacClass) : option HostInfoRedacClass :=
  match l with
  | [] => None
  | x :: r => if strict_eq (JStr (hr_management_ip x)) ip then Some x else first_with ip r
  end.
Definition selection_change_iface_value (value : jsval) : M unit :=
  on_form (fun rule => enable_control rule Preserve) ;;;
  s <- get ;;
  match first_with value (selectable_sensors s) with
  | Some sensor => api_get_configured_ifaces_ (hr_hostname sensor)
  | None => ret tt
  end ;;;
  on_form (fun rule => setValue rule Ifaces (JStr "")).

Definition raw_value (g : form replay_field) (h : option string) : ReplayPCAPInterface :=
  {| r_ifaces := fc_value (g Ifaces); r_pcap := fc_value (g Pcap); r_preserve_timestamp := fc_value (g Preserve);
     r_sensor_hostname := h; r_sensor_ip := fc_value (g SensorIp) |}.
(** [addControl] keeps a control that is there. *)
Definition add_hostname (h : string) (s : ReplayPcapDialogComponent) : ReplayPcapDialogComponent :=
  match sensor_hostname s with Some _ => s | None => with_hostname (Some h) s end.
Definition execute : M unit :=
  s <- get ;;
  g <- deref (pcap_form_group s) ;;
  match first_with (fc_value (g SensorIp)) (selectable_sensors s) with
  | Some sensor => modify (add_hostname (hr_hostname sensor))
  | None => ret tt
  end ;;;
  s <- get ;;
  emit (Page (CloseReplay (Some (group_valid replay_names g, raw_value g (sensor_hostname s))))).
Definition cancel : M unit := emit (Page (CloseReplay None)).

Definition api_get_configured_ifaces_answer (a : answer (list string)) : M unit :=
  match a with
  | Next response => modify (with_ifaces response)
  | Error e => on_error_message "retrieving configured ifaces" e
  end.
Definition node_alphanum (a b : HostInfoRedacClass) : Z := alphanum (hr_hostname a) (hr_hostname b).
Definition api_get_sensor_host_info_answer (a : answer (list HostInfoClass)) : M unit :=
  match a with
  | Next response => modify (with_sensors (js_sort node_alphanum (new_HostInfoRedacClass <$> response)))
  | Error e => on_error "retrieving sensor host info" e
  end.

Inductive event : Type :=
| NgOnInit
| SensorSelect (i : nat)
| PreserveClick (checked : bool)
| IfacesSelect (chosen : list string)
| ExecuteClick
| CancelClick.
#[export] Instance event_eq : EqDecision event.
Proof. solve_decision. Defined.

Definition when_form (k : form replay_field -> M unit) : M unit :=
  s <- get ;; match pcap_form_group s with Some g => k g | None => ret tt end.
Definition on_event (e : event) : M unit :=
  match e with
  | NgOnInit => ngOnInit
  | SensorSelect i =>
      s <- get ;;
      match selectable_sensors s !! i with
      | Some x =>
          on_form (fun rule => type_in rule SensorIp (JStr (hr_management_ip x))) ;;;
          selection_change_iface_value (JStr (hr_management_ip x))
      | None => ret tt
      end
  | PreserveClick checked =>
      when_form (fun g => when (negb (fc_disabled (g Preserve)))
        (on_form (fun rule => type_in rule Preserve (JBool checked)) ;;; change_preserve_timestamp checked))
  | IfacesSelect chosen =>
      s <- get ;;
      when_form (fun g => when (negb (js_truthy (fc_value (g Preserve))) && negb (fc_disabled (g Ifaces)))
        (on_form (fun rule => type_in rule Ifaces
           (JArr (JStr <$> List.filter (fun o => bool_decide (o ∈ chosen)) (selectable_ifaces s))))))
  | ExecuteClick => when_form (fun g => when (group_valid replay_names g) execute)
  | CancelClick => cancel
  end.
Definition on_answer (c : call) : Ans c -> M unit :=
  match c with CSensors => api_get_sensor_host_info_answer | CIfaces _ => api_get_configured_ifaces_answer end.

#[export] Instance replay_pcap_dialog (pcap_name : string) : Component ReplayPcapDialogComponent call page event Ans :=
  {| initial := constructor pcap_name; Runtime.on_event := on_event; Runtime.on_answer := on_answer |}.
End Replay.

(** ** What is replayed *)

Section Replayed.
Context {Co : Collation}.
Variable name : string.
Abbreviation react := (react (K := replay_pcap_dialog name)).
Abbreviation any := (fun _ : label event Ans => True).
Abbreviation log := (list (label event Ans * list (effect call page))).

(** The address and the name are those of a host the server listed. *)
Definition listed (tr : log) (x : HostInfoRedacClass) : Prop :=
  exists hosts h es, (Answered CSensors (Next hosts), es) ∈ tr /\ h ∈ hosts /\ x = new_HostInfoRedacClass h.
Definition form_ok (tr : log) (g : form replay_field) : Prop :=
  fc_value (g Pcap) = JStr name /\ fc_disabled (g SensorIp) = false /\
  (fc_errors (g SensorIp) = None -> exists x, fc_value (g SensorIp) = JStr (hr_management_ip x) /\ hr_management_ip x <> "" /\ listed tr x).
Definition dialog_ok (tr : log) (s : ReplayPcapDialogComponent) : Prop :=
  pcap_name_ s = name /\ (forall x, x ∈ selectable_sensors s -> listed tr x) /\
  match pcap_form_group s with Some g => form_ok tr g | None => True end.

Lemma listed_later tr e x : listed tr x -> listed (tr ++ [e]) x.
Proof using. intros (hosts & h & es & H & Hh & E). exists hosts, h, es. split; [|done]. apply elem_of_app. by left. Qed.
Lemma dialog_ok_later tr e s : dialog_ok tr s -> dialog_ok (tr ++ [e]) s.
Proof using.
  intros (Hn & Hs & Hg). split; [done|]. split; [intros x Hx; by apply listed_later, Hs|].
  destruct (pcap_form_group s) as [g|]; [|done]. destruct Hg as (H1 & H2 & H3). split; [done|]. split; [done|].
  intros He. destruct (H3 He) as (x & E & Hx & Hl). exists x. split; [done|]. split; [done|]. by apply listed_later.
Qed.

Lemma first_with_listed ip l x : first_with ip l = Some x -> x ∈ l /\ strict_eq (JStr (hr_management_ip x)) ip = true.
Proof using.
  induction l as [|y l IH]; cbn [first_with]; [done|]. destruct (strict_eq (JStr (hr_management_ip y)) ip) eqn:E.
  - intros [= ->]. split; [left|done].
  - intros H. destruct (IH H) as [H1 H2]. split; [by right|done].
Qed.

(** An operation on the controls either throws or changes the form only. *)
Lemma on_form_cases op s : exists o s', on_form op s = (o, s', []) /\
  (s' = s \/ exists g g', pcap_form_group s = Some g /\ op (replay_rule (ifaces_required s)) g = Ret g' /\ s' = with_form (Some g') s).
Proof using.
  unfold on_form, get. rewrite (bind_run_silent _ _ s s s) by done. destruct (pcap_form_group s) as [g|] eqn:E; [|by eexists _, s; split; [|left]].
  rewrite (bind_run_silent _ _ s g s) by done. destruct (op _ g) as [g'|] eqn:Eo.
  - eexists _, (with_form (Some g') s). split; [done|]. right. by exists g, g'.
  - eexists _, s. by split; [|left].
Qed.

(** The operations that leave the PCAP and the sensor alone. *)
Definition keeps (op : (form replay_field -> replay_field -> AbstractControl -> outcome (option validation_error)) ->
    form replay_field -> outcome (form replay_field)) : Prop :=
  forall rule g g', op rule g = Ret g' -> g' Pcap = g Pcap /\ g' SensorIp = g SensorIp.

Lemma type_in_other (rule : form replay_field -> replay_field -> AbstractControl -> outcome (option validation_error)) k j v g g' :
  type_in rule k v g = Ret g' -> j <> k -> g' j = g j.
Proof using. unfold type_in. intros H Hj. rewrite (setValue_other _ _ _ _ _ _ H Hj). by apply put_other. Qed.

Lemma keeps_enable k : k <> Pcap -> k <> SensorIp -> keeps (fun rule => enable_control rule k).
Proof using. intros H1 H2 rule g g' H. split; by apply (enable_other _ _ _ _ _ H). Qed.
Lemma keeps_set k v : k <> Pcap -> k <> SensorIp -> keeps (fun rule => setValue rule k v).
Proof using. intros H1 H2 rule g g' H. split; by apply (setValue_other _ _ _ _ _ _ H). Qed.
Lemma keeps_type k v : k <> Pcap -> k <> SensorIp -> keeps (fun rule => type_in rule k v).
Proof using. intros H1 H2 rule g g' H. split; by apply (type_in_other _ _ _ _ _ _ H). Qed.
Lemma keeps_disabled k : k <> Pcap -> k <> SensorIp -> keeps (fun _ g => Ret (disable_control k g)).
Proof using. intros H1 H2 rule g g' [= <-]. unfold disable_control. by rewrite !put_other. Qed.

(** Handlers that make no result: the dialog stays as it is but for the form. *)
Definition still (tr : log) (m : M unit) : Prop :=
  safe (fun s => dialog_ok tr s) (fun e => forall r, e <> Page (CloseReplay (Some r))) m.

Lemma still_keeps tr op : keeps op -> still tr (on_form op).
Proof using.
  intros Hop s Hs. destruct (on_form_cases op s) as (o & s' & E & Hc). rewrite E. simpl. split; [|constructor].
  destruct Hc as [->|(g & g' & Eg & Eo & ->)]; [done|]. destruct Hs as (Hn & Hl & Hg). split; [done|]. split; [done|].
  rewrite Eg in Hg. simpl. destruct (Hop _ _ _ Eo) as [E1 E2]. unfold form_ok. by rewrite E1, E2.
Qed.

Lemma required_text_verdict rule g t : fc_disabled (g SensorIp) = false -> exists g', setValue (replay_rule rule) SensorIp (JStr t) g = Ret g' /\
  g' Pcap = g Pcap /\ fc_value (g' SensorIp) = JStr t /\ fc_disabled (g' SensorIp) = false /\ (fc_errors (g' SensorIp) = None -> t <> "").
Proof using.
  intros Hd. unfold setValue, updateValueAndValidity. rewrite put_same. simpl fc_disabled. rewrite Hd.
  unfold replay_rule, required_value, COMMON_VALIDATORS_required. rewrite (validate_required _ _ _ t) by done. simpl.
  eexists. split; [done|]. rewrite !put_other by done. rewrite put_same. simpl. rewrite Hd.
  split_and!; try done. destruct (t === "") eqn:E; [done|]. by apply seqb_neq in E.
Qed.

Lemma still_sensor tr x : listed tr x -> still tr (on_form (fun rule => type_in rule SensorIp (JStr (hr_management_ip x)))).
Proof using.
  intros Hx s Hs. destruct (on_form_cases (fun rule => type_in rule SensorIp (JStr (hr_management_ip x))) s) as (o & s' & E & Hc).
  rewrite E. simpl. split; [|constructor].
  destruct Hc as [->|(g & g' & Eg & Eo & ->)]; [done|]. destruct Hs as (Hn & Hl & Hg). split; [done|]. split; [done|].
  rewrite Eg in Hg. destruct Hg as (H1 & H2 & _). unfold type_in in Eo.
  destruct (required_text_verdict (ifaces_required s) (put SensorIp (with_marks (fc_touched (g SensorIp)) true (g SensorIp)) g)
    (hr_management_ip x)) as (g'' & E' & P1 & P2 & P3 & P4); [by rewrite put_same|].
  rewrite Eo in E'. injection E' as <-. simpl. split; [by rewrite P1, put_other|]. split; [done|].
  intros He. exists x. by split_and!; [|apply P4|].
Qed.

Lemma still_modify tr f : (forall s, dialog_ok tr s -> dialog_ok tr (f s)) -> still tr (modify f).
Proof using. intros H s Hs. split; [by apply H|constructor]. Qed.
Lemma still_bind tr (m : M unit) k : still tr m -> still tr k -> still tr (m ;;; k).
Proof using. intros H1 H2. apply safe_bind; [exact H1|]. intros _. exact H2. Qed.
Lemma still_when tr b m : (b = true -> still tr m) -> still tr (when b m).
Proof using. intros H. destruct b; [by apply H|]. apply safe_ret. Qed.
Lemma still_emit tr e : (forall r, e <> Page (CloseReplay (Some r))) -> still tr (emit e).
Proof using. intros H s Hs. split; [done|]. by constructor. Qed.
Lemma still_read tr (k : ReplayPcapDialogComponent -> M unit) :
  (forall s, dialog_ok tr s -> still tr (k s)) -> still tr (s <- get ;; k s).
Proof using. intros H s Hs. unfold get. rewrite (bind_run_silent _ _ s s s) by done. by apply (H s Hs). Qed.

Lemma still_selection tr v : still tr (selection_change_iface_value v).
Proof using.
  unfold selection_change_iface_value. apply still_bind; [by apply still_keeps, keeps_enable|].
  apply still_read. intros s Hs. apply still_bind.
  - destruct (first_with _ _); [by apply still_emit | apply safe_ret].
  - by apply still_keeps, keeps_set.
Qed.

Lemma still_init tr : still tr ngOnInit.
Proof using.
  unfold ngOnInit. apply still_bind; [by apply still_emit|]. unfold initialize_pcap_form_group_. apply still_read. intros s Hs s0 (Hn & Hl & _).
  assert (E : exists g, new_group (replay_rule false) replay_names (fun k => match k with
         | Pcap => disabled_field (raw_field (JStr (pcap_name_ s)))
         | SensorIp | Ifaces => raw_field JUndefined
         | Preserve => disabled_field (raw_field (JBool true)) end) = Ret g /\
       fc_value (g Pcap) = JStr (pcap_name_ s) /\ fc_disabled (g SensorIp) = false /\ fc_errors (g SensorIp) <> None)
    by (eexists; split; [reflexivity|]; split_and!; done).
  destruct E as (g & E & H1 & H2 & H3). rewrite E. split; [|repeat constructor]. split; [exact Hn|]. split; [exact Hl|].
  simpl. split; [rewrite H1; f_equal; apply Hs|]. by split.
Qed.

(** The answer that lists the hosts. *)
Definition lists_hosts (l : label event Ans) : bool :=
  match l with
  | Answered c a =>
      match c return Ans c -> bool with
      | CSensors => fun a => match a with Next _ => true | Error _ => false end
      | CIfaces _ => fun _ => false
      end a
  | Event _ => false
  end.

(** Every turn but that answer and the submission. *)
Lemma still_turn tr l : l <> Event ExecuteClick -> lists_hosts l = false -> still tr (react l).
Proof using.
  intros He Ha. destruct l as [e|c a]; [destruct e as [|i|b|chosen| |]|]; cbn [Runtime.react Runtime.on_event Runtime.on_answer replay_pcap_dialog on_event on_answer].
  - apply still_init.
  - apply still_read. intros s Hs. destruct (selectable_sensors s !! i) as [x|] eqn:E; [|apply safe_ret].
    apply still_bind; [|apply still_selection]. apply still_sensor. apply Hs. by apply list_elem_of_lookup_2 in E.
  - apply still_read. intros s Hs. destruct (pcap_form_group s); [|apply safe_ret]. apply still_when. intros _.
    apply still_bind; [by apply still_keeps, keeps_type|]. unfold change_preserve_timestamp. destruct b; [by apply still_keeps, keeps_disabled|].
    apply still_bind; [by apply still_keeps, keeps_enable | by apply still_modify].
  - apply still_read. intros s Hs. apply still_read. intros s1 Hs1. destruct (pcap_form_group s1); [|apply safe_ret]. apply still_when. intros _.
    by apply still_keeps, keeps_type.
  - done.
  - by apply still_emit.
  - destruct c; simpl in a.
    + destruct a as [r|e]; [done|]. by apply still_emit.
    + destruct a as [r|e]; [by apply still_modify | destruct e; by apply still_emit].
Qed.

Lemma js_sort_member {A} (cmp : A -> A -> Z) l x : x ∈ js_sort cmp l -> x ∈ l.
Proof using. by rewrite js_sort_permutation. Qed.

(** The submission. *)
Lemma execute_run s g : pcap_form_group s = Some g -> group_valid replay_names g = true ->
  let x := first_with (fc_value (g SensorIp)) (selectable_sensors s) in
  let s' := match x with Some x => add_hostname (hr_hostname x) s | None => s end in
  react (Event ExecuteClick) s = (Ret tt, s', [Page (CloseReplay (Some (true, raw_value g (sensor_hostname s'))))]).
Proof using.
  intros E Hv. cbn [Runtime.react Runtime.on_event replay_pcap_dialog on_event]. unfold when_form, get.
  rewrite (bind_run_silent _ _ s s s) by done. rewrite E, Hv. simpl when. unfold execute, get.
  rewrite (bind_run_silent _ _ s s s) by done. rewrite E. rewrite (bind_run_silent _ _ s g s) by done.
  destruct (first_with _ _) as [x|].
  - rewrite (bind_run_silent _ _ s tt (add_hostname (hr_hostname x) s)) by done.
    set (s1 := add_hostname _ s). rewrite (bind_run_silent _ _ s1 s1 s1) by done. by rewrite Hv.
  - rewrite (bind_run_silent _ _ s tt s) by done. rewrite (bind_run_silent _ _ s s s) by done. by rewrite Hv.
Qed.

Lemma execute_idle s : (forall g, pcap_form_group s = Some g -> group_valid replay_names g = false) ->
  react (Event ExecuteClick) s = (Ret tt, s, []).
Proof using.
  intros H. cbn [Runtime.react Runtime.on_event replay_pcap_dialog on_event]. unfold when_form, get.
  rewrite (bind_run_silent _ _ s s s) by done. destruct (pcap_form_group s) as [g|]; [by rewrite (H g)|done].
Qed.

Lemma execute_ok tr s : dialog_ok tr s -> dialog_ok tr (state_of (react (Event ExecuteClick) s)).
Proof using.
  intros Hs. destruct (pcap_form_group s) as [g|] eqn:E; [destruct (group_valid replay_names g) eqn:Ev|].
  - rewrite (execute_run s g E Ev). simpl. destruct (first_with _ _) as [x|]; [|done].
    unfold add_hostname. by destruct (sensor_hostname s).
  - rewrite execute_idle; [done|]. intros g' Eg. congruence.
  - rewrite execute_idle; [done|]. intros g' Eg. congruence.
Qed.

(** The name of the host is added by the submission. *)
Definition executed (tr : log) : Prop := exists es, (Event ExecuteClick, es) ∈ tr.

Lemma hostname_kept l s : l <> Event ExecuteClick -> sensor_hostname s = None -> sensor_hostname (state_of (react l s)) = None.
Proof using.
  intros Hl Hs.
  assert (Hf : forall op s, sensor_hostname s = None -> sensor_hostname (state_of (on_form op s)) = None).
  { intros op s0 H. destruct (on_form_cases op s0) as (o & s' & E & Hc). rewrite E.
    by destruct Hc as [->|(g & g' & _ & _ & ->)]. }
  assert (G : safe (fun s => sensor_hostname s = None) (fun _ : effect call page => True) (react l)); [|exact (proj1 (G s Hs))].
  assert (Ho : forall op, safe (fun s => sensor_hostname s = None) (fun _ : effect call page => True) (on_form op)).
  { intros op s0 H0. split; [by apply Hf | by apply Forall_true]. }
  destruct l as [e|c a]; [destruct e as [|i|b|chosen| |]|]; cbn [Runtime.react Runtime.on_event Runtime.on_answer replay_pcap_dialog on_event on_answer].
  - unfold ngOnInit, api_get_sensor_host_info_, initialize_pcap_form_group_, set_pcap_form_group_, get, lift. safe_auto; done.
  - unfold selection_change_iface_value, api_get_configured_ifaces_, get. safe_auto; try apply Ho; done.
  - unfold when_form, change_preserve_timestamp, get. safe_auto; try apply Ho; done.
  - unfold when_form, get. safe_auto; try apply Ho; done.
  - done.
  - unfold cancel. safe_auto; done.
  - destruct c; destruct a as [r|[]]; simpl; unfold api_get_sensor_host_info_answer, api_get_configured_ifaces_answer, on_error,
      on_error_message, generate_return_error_snackbar_message, displaySnackBar; safe_auto; done.
Qed.

Lemma reachable_dialog tr w : trace (K := replay_pcap_dialog name) any tr w ->
  dialog_ok tr (component w) /\ (executed tr \/ sensor_hostname (component w) = None).
Proof using.
  induction 1 as [|tr w l w' Htr [IH1 IH2] _ Hstep].
  { split; [|by right]. split; [done|]. split; [by intros x ?%not_elem_of_nil | done]. }
  rewrite (step_component _ _ _ Hstep). set (s := component w) in *.
  split.
  - destruct l as [e|c a].
    + destruct (decide (e = ExecuteClick)) as [->|He]; [by apply dialog_ok_later, execute_ok|].
      apply dialog_ok_later, (still_turn tr (Event e)); [congruence|done|done].
    + destruct c; [destruct a as [r|e]|].
      * pose proof (dialog_ok_later tr (Answered CSensors (Next r), made (K := replay_pcap_dialog name) (Answered CSensors (Next r)) w) s IH1)
          as (Hn & Hl & Hg). split; [done|]. split; [|done].
        intros x Hx%js_sort_member. apply list_elem_of_fmap in Hx as (h & -> & Hh).
        eexists r, h, _. split_and!; [|done|done]. apply elem_of_app. right. by left.
      * apply dialog_ok_later. by apply (still_turn tr (Answered CSensors (Error e))).
      * apply dialog_ok_later. by apply (still_turn tr (Answered (CIfaces hostname) a)).
  - destruct IH2 as [[es H]|H]; [left; exists es; apply elem_of_app; by left|].
    destruct l as [e|c a]; [destruct (decide (e = ExecuteClick)) as [->|He]|].
    + left. eexists. apply elem_of_app. right. by left.
    + right. apply hostname_kept; [congruence|done].
    + right. by apply hostname_kept.
Qed.

(** What the dialog returns.  In every interleaving of selections and answers it is
    closed with a form only by its button; the form is valid and has the PCAP of the
    page and the address of a host the server listed. *)
Theorem replay_names_an_address tr w l v r :
  trace (K := replay_pcap_dialog name) any tr w ->
  Page (CloseReplay (Some (v, r))) ∈ made (K := replay_pcap_dialog name) l w ->
  l = Event ExecuteClick /\ v = true /\ r_pcap r = JStr name /\
  exists x, r_sensor_ip r = JStr (hr_management_ip x) /\ hr_management_ip x <> "" /\ listed tr x /\
    (~ executed tr -> forall h, r_sensor_hostname r = Some h ->
      exists y, listed tr y /\ hr_management_ip y = hr_management_ip x /\ hr_hostname y = h).
Proof using.
  intros Htr Hin. destruct (reachable_dialog tr w Htr) as [Hs Hh].
  unfold made in Hin. set (s := component w) in *.
  assert (l = Event ExecuteClick) as ->.
  { destruct l as [e|c a].
    - destruct (decide (e = ExecuteClick)) as [->|He]; [done|exfalso].
      destruct (still_turn tr (Event e) ltac:(congruence) ltac:(done) s Hs) as [_ HF]. rewrite Forall_forall in HF. by destruct (HF _ Hin (v, r)).
    - exfalso. destruct c; [destruct a as [x|e]|].
      + by apply not_elem_of_nil in Hin.
      + by apply elem_of_cons in Hin as [?|?%not_elem_of_nil].
      + destruct (still_turn tr (Answered (CIfaces hostname) a) ltac:(done) ltac:(done) s Hs) as [_ HF]. rewrite Forall_forall in HF. by destruct (HF _ Hin (v, r)). }
  split; [done|]. destruct (pcap_form_group s) as [g|] eqn:E; [destruct (group_valid replay_names g) eqn:Ev|].
  - rewrite (execute_run s g E Ev) in Hin. apply elem_of_cons in Hin as [[= -> ->]|?%not_elem_of_nil]; [|done].
    destruct Hs as (_ & Hl & Hg). rewrite E in Hg. destruct Hg as (H1 & H2 & H3). split; [done|]. split; [done|].
    destruct H3 as (x & Ex & Hx & Hlx); [by apply (group_valid_field replay_names g SensorIp Ev); [right; left|]|].
    exists x. split_and!; try done. intros Hne h. destruct Hh as [?|Hh]; [done|]. simpl. rewrite Ex.
    destruct (first_with _ _) as [y|] eqn:Ey; [|by rewrite Hh]. unfold add_hostname. rewrite Hh. intros [= <-].
    apply first_with_listed in Ey as [Hy Hq]. exists y. split; [by apply Hl|]. split; [|done].
    apply strict_eq_string in Hq; [|by eexists]. congruence.
  - rewrite execute_idle in Hin; [by apply not_elem_of_nil in Hin|]. intros g' Eg. congruence.
  - rewrite execute_idle in Hin; [by apply not_elem_of_nil in Hin|]. intros g' Eg. congruence.
Qed.

(** The first time, a host name that is returned belongs to a host with the address. *)
Theorem replay_names_a_sensor tr w l v r :
  trace (K := replay_pcap_dialog name) any tr w -> ~ executed tr ->
  Page (CloseReplay (Some (v, r))) ∈ made (K := replay_pcap_dialog name) l w ->
  l = Event ExecuteClick /\ v = true /\ r_pcap r = JStr name /\
  exists x, r_sensor_ip r = JStr (hr_management_ip x) /\ hr_management_ip x <> "" /\ listed tr x /\
    forall h, r_sensor_hostname r = Some h ->
      exists y, listed tr y /\ hr_management_ip y = hr_management_ip x /\ hr_hostname y = h.
Proof using.
  intros Htr Hne Hin. destruct (replay_names_an_address tr w l v r Htr Hin) as (H1 & H2 & H3 & x & H4 & H5 & H6 & H7).
  split_and!; try done. exists x. split_and!; try done. by apply H7.
Qed.
End Replayed.

(** ** Giving up the time stamps *)

(** The button replays at once, without an interface: the control of the interfaces
    was enabled before its validator was set. *)
Definition two_sensors : list HostInfoClass :=
  [{| hi_hostname := "sensor2"; hi_management_ip := "10.0.0.12"; mac := "" |};
   {| hi_hostname := "sensor1"; hi_management_ip := "10.0.0.11"; mac := "" |}].
Lemma replays_without_interface : exists tr w r,
  trace (K := replay_pcap_dialog (Co := code_collation) "attack.pcap") (fun _ => True) tr w /\
  Page (CloseReplay (Some (true, r))) ∈ made (K := replay_pcap_dialog (Co := code_collation) "attack.pcap") (Event ExecuteClick) w /\
  r = {| r_ifaces := JStr ""; r_pcap := JStr "attack.pcap"; r_preserve_timestamp := JBool false;
         r_sensor_hostname := Some "sensor1"; r_sensor_ip := JStr "10.0.0.11" |}.
Proof.
  pose proof (trace_start (K := replay_pcap_dialog (Co := code_collation) "attack.pcap") (fun _ => True)) as T.
  apply (trace_event _ _ _ NgOnInit) in T; [|exact I].
  match type of T with trace _ ?tr ?w => set (w1 := w) in T end.
  assert (Hp : pending w1 = [] ++ CSensors :: []) by reflexivity.
  apply (trace_answer _ _ _ [] _ [] (Next two_sensors : Ans CSensors)) in T; [|exact I|exact Hp].
  apply (trace_event _ _ _ (SensorSelect 0)) in T; [|exact I].
  apply (trace_event _ _ _ (PreserveClick false)) in T; [|exact I].
  match type of T with trace _ ?tr ?w => set (w2 := w) in T; exists tr, w2 end.
  eexists. split; [exact T|]. split; [vm_compute; left|reflexivity].
Qed.

Lemma replay_names_a_sensor_witness : exists tr w v r,
  trace (K := replay_pcap_dialog (Co := code_collation) "attack.pcap") (fun _ => True) tr w /\ ~ executed tr /\
  Page (CloseReplay (Some (v, r))) ∈ made (K := replay_pcap_dialog (Co := code_collation) "attack.pcap") (Event ExecuteClick) w /\
  r_sensor_hostname r = Some "sensor1" /\ v = true.
Proof.
  pose proof (trace_start (K := replay_pcap_dialog (Co := code_collation) "attack.pcap") (fun _ => True)) as T.
  apply (trace_event _ _ _ NgOnInit) in T; [|exact I].
  match type of T with trace _ ?tr ?w => set (w1 := w) in T end.
  assert (Hp : pending w1 = [] ++ CSensors :: []) by reflexivity.
  apply (trace_answer _ _ _ [] _ [] (Next two_sensors : Ans CSensors)) in T; [|exact I|exact Hp].
  apply (trace_event _ _ _ (SensorSelect 0)) in T; [|exact I].
  match type of T with trace _ ?tr ?w => set (w2 := w) in T; assert (Hne : ~ executed tr); [|exists tr, w2] end.
  { intros [es H]. repeat (apply elem_of_cons in H as [?|H]; [congruence|]). by apply not_elem_of_nil in H. }
  eexists true, {| r_ifaces := JStr ""; r_pcap := JStr "attack.pcap"; r_preserve_timestamp := JBool true;
         r_sensor_hostname := Some "sensor1"; r_sensor_ip := JStr "10.0.0.11" |}.
  assert (Hin : Page (CloseReplay (Some (true, {| r_ifaces := JStr ""; r_pcap := JStr "attack.pcap"; r_preserve_timestamp := JBool true;
         r_sensor_hostname := Some "sensor1"; r_sensor_ip := JStr "10.0.0.11" |}))) ∈
    made (K := replay_pcap_dialog (Co := code_collation) "attack.pcap") (Event ExecuteClick) w2) by (vm_compute; left).
  split; [exact T|]. split; [exact Hne|]. split; [exact Hin|]. split; [reflexivity|].
  exact (proj1 (proj2 (replay_names_a_sensor (Co := code_collation) "attack.pcap" _ _ _ _ _ T Hne Hin))).
Defined.
