(* ===== verification/PcapForm.v ===== *)
(** modules/pcap-form: the page of the PCAPs, with the dialog of ReplayDialog.v. *)
From S2P Require Import Prelude Handler JsValue Runtime Data Api Sorting RuleEditor ReplayDialog.

Definition PCAP_FORM_TITLE : string := "PCAP Test Files".
Definition PCAP_DISPLAY_COLUMNS : list string := ["name"; "first_date"; "last_date"; "sha256"; "size"; "action"].

(** ** services/pcap.service.ts *)

Definition upload_pcap (pcap : File) : service (File * string) SuccessMessageClass SuccessMessageClass :=
  Service POST "/api/policy/pcap/upload" (pcap, file_name pcap) "upload pcap" copied.
Definition replay_pcap (r : ReplayPCAPInterface) : service ReplayPCAPInterface GenericJobAndKeyClass GenericJobAndKeyClass :=
  Service POST "/api/policy/pcap/replay" r "replay pcap" copied.
Definition delete_pcap (pcap_name : string) : service unit SuccessMessageClass SuccessMessageClass :=
  Service DELETE ("/api/policy/pcap/" +:+ pcap_name) tt "delete pcap" copied.

(** ** The component *)

(** The confirmation has no title. *)
Definition delete_question (pcap : PCAPClass) : ConfirmDialogMatDialogDataInterface :=
  {| title := ""; message := "Are you sure you want to permanently delete " +:+ pcap_name pcap +:+ "?";
     option1 := CANCEL_DIALOG_OPTION; option2 := CONFIRM_DIALOG_OPTION; message_double_confirm := None |}.

Inductive call : Type :=
| CPcaps
| CUploadPcap (pcap : File)
| CReplay (r : ReplayPCAPInterface)
| CDeletePcap (pcap : PCAPClass)
| DReplay (name : string)
| DDelete (pcap : PCAPClass) (data : ConfirmDialogMatDialogDataInterface).
Definition Ans (c : call) : Type :=
  match c with
  | CPcaps => answer (list PCAPClass)
  | CUploadPcap _ | CDeletePcap _ => answer SuccessMessageClass
  | CReplay _ => answer GenericJobAndKeyClass
  | DReplay _ => option (bool * ReplayPCAPInterface)
  | DDelete _ _ => option string
  end.
Inductive page : Type := .

Record PcapFormComponent := { pcaps : option (list PCAPClass); display_columns : list string; pcap_for_upload : option File }.
Abbreviation M := (handler PcapFormComponent (effect call page)).
Definition with_pcaps v s := {| pcaps := v; display_columns := display_columns s; pcap_for_upload := pcap_for_upload s |}.
Definition with_upload v s := {| pcaps := pcaps s; display_columns := display_columns s; pcap_for_upload := v |}.
Definition constructor : PcapFormComponent := {| pcaps := None; display_columns := PCAP_DISPLAY_COLUMNS; pcap_for_upload := None |}.
Definition get : M PcapFormComponent := gets (fun s => s).

Definition api_get_pcaps_ : M unit := emit (Subscribe CPcaps).
Definition api_upload_pcap_ (pcap : File) : M unit := emit (Subscribe (CUploadPcap pcap)).
Definition api_replay_pcap_ (r : ReplayPCAPInterface) : M unit := emit (Subscribe (CReplay r)).
Definition api_delete_pcap_ (pcap : PCAPClass) : M unit := emit (Subscribe (CDeletePcap pcap)).

Definition ngOnInit : M unit := emit (SetTitle PCAP_FORM_TITLE) ;;; api_get_pcaps_.
Definition handle_file_input (files : list File) : M unit := modify (with_upload (head files)).
Definition upload_file : M unit :=
  s <- get ;;
  f <- deref (pcap_for_upload s) ;;
  displaySnackBar ("Loading " +:+ file_name f +:+ "...") None ;;;
  api_upload_pcap_ f.
Definition replay_pcap_dialog (pcap : PCAPClass) : M unit := emit (Subscribe (DReplay (pcap_name pcap))).
Definition replay_closed (response : option (bool * ReplayPCAPInterface)) : M unit :=
  match response with Some (valid, r) => when valid (api_replay_pcap_ r) | None => ret tt end.
Definition delete_pcap_confirm_dialog (pcap : PCAPClass) : M unit := emit (Subscribe (DDelete pcap (delete_question pcap))).
Definition delete_closed (pcap : PCAPClass) (response : option string) : M unit :=
  when (response ?=== CONFIRM_DIALOG_OPTION) (api_delete_pcap_ pcap).

Definition api_get_pcaps_answer (a : answer (list PCAPClass)) : M unit :=
  match a with
  | Next response => modify (with_pcaps (Some response))
  | Error e => on_error "retrieving pcaps" e
  end.
Definition api_upload_pcap_answer (a : answer SuccessMessageClass) : M unit :=
  match a with
  | Next response => modify (with_upload None) ;;; displaySnackBar (success_message response) None ;;; api_get_pcaps_
  | Error e => on_error_message "uploading pcap file" e
  end.
Definition api_replay_pcap_answer (r : ReplayPCAPInterface) (a : answer GenericJobAndKeyClass) : M unit :=
  match a with
  | Next _ =>
      displaySnackBar ("Replaying " +:+ js_to_string (r_pcap r) +:+ " on " +:+
        match r_sensor_hostname r with Some h => h | None => "undefined" end +:+
        ". Open the notification manager to track its progress.") None
  | Error e => on_error "replaying pcap" e
  end.
Definition api_delete_pcap_answer (a : answer SuccessMessageClass) : M unit :=
  match a with
  | Next response => displaySnackBar (success_message response) None ;;; api_get_pcaps_
  | Error e => on_error_message "deleting pcap" e
  end.

(** Clicks on the buttons of the rows. *)
Inductive event : Type := NgOnInit | FileChosen (files : list File) | UploadClick | ReplayClick (i : nat) | DeleteClick (i : nat).
Definition on_row (i : nat) (m : PCAPClass -> M unit) : M unit :=
  s <- get ;; match pcaps s ≫= (.!! i) with Some p => m p | None => ret tt end.
Definition on_event (e : event) : M unit :=
  match e with
  | NgOnInit => ngOnInit
  | FileChosen files => handle_file_input files
  | UploadClick => s <- get ;; when (notUndefNull (pcap_for_upload s)) upload_file
  | ReplayClick i => on_row i replay_pcap_dialog
  | DeleteClick i => on_row i delete_pcap_confirm_dialog
  end.
Definition on_answer (c : call) : Ans c -> M unit :=
  match c with
  | CPcaps => api_get_pcaps_answer
  | CUploadPcap _ => api_upload_pcap_answer
  | CReplay r => api_replay_pcap_answer r
  | CDeletePcap _ => api_delete_pcap_answer
  | DReplay _ => replay_closed
  | DDelete pcap _ => delete_closed pcap
  end.
#[export] Instance pcap_form : Component PcapFormComponent call page event Ans :=
  {| initial := constructor; Runtime.on_event := on_event; Runtime.on_answer := on_answer |}.

(** ** The page with its dialog *)

(** A PCAP that the server listed. *)
Definition listed_pcap (tr : list (label event Ans * list (effect call page))) (p : PCAPClass) : Prop :=
  exists l es, (Answered CPcaps (Next l), es) ∈ tr /\ p ∈ l.
Definition page_ok (tr : list (label event Ans * list (effect call page))) (w : world PcapFormComponent call) : Prop :=
  (forall l p, pcaps (component w) = Some l -> p ∈ l -> listed_pcap tr p) /\
  (forall n, DReplay n ∈ pending w -> exists p, listed_pcap tr p /\ pcap_name p = n) /\
  (forall p d, DDelete p d ∈ pending w -> listed_pcap tr p /\ d = delete_question p).

Definition made_by (l : label event Ans) (s : PcapFormComponent) (c : call) : Prop :=
  match c with
  | CReplay r => exists n, l = Answered (DReplay n) (Some (true, r))
  | CDeletePcap p => exists d, l = Answered (DDelete p d) (Some CONFIRM_DIALOG_OPTION)
  | DReplay n => exists i p, l = Event (ReplayClick i) /\ pcaps s ≫= (.!! i) = Some p /\ n = pcap_name p
  | DDelete p d => exists i, l = Event (DeleteClick i) /\ pcaps s ≫= (.!! i) = Some p /\ d = delete_question p
  | _ => True
  end.
Lemma page_effects l s c : Subscribe c ∈ effects_of (react l s) -> made_by l s c.
Proof.
  intros Hin. destruct l as [e|d a].
  - destruct e as [|files| |i|i]; cbn [react Runtime.on_event pcap_form on_event] in Hin.
    + by apply elem_of_cons in Hin as [?|[[= ->]|?%not_elem_of_nil]%elem_of_cons].
    + by apply not_elem_of_nil in Hin.
    + unfold get in Hin. rewrite (bind_run_silent _ _ s s s) in Hin by done.
      destruct (notUndefNull _); [|by apply not_elem_of_nil in Hin]. simpl when in Hin. revert Hin.
      unfold upload_file, get, bind, gets, deref. cbn. destruct (pcap_for_upload s); [|by intros ?%not_elem_of_nil].
      by intros [?|[[= ->]|?%not_elem_of_nil]%elem_of_cons]%elem_of_cons.
    + unfold on_row, get in Hin. rewrite (bind_run_silent _ _ s s s) in Hin by done.
      destruct (pcaps s ≫= _) as [p|] eqn:E; [|by apply not_elem_of_nil in Hin].
      apply elem_of_cons in Hin as [[= ->]|?%not_elem_of_nil]; [|done]. by exists i, p.
    + unfold on_row, get in Hin. rewrite (bind_run_silent _ _ s s s) in Hin by done.
      destruct (pcaps s ≫= _) as [p|] eqn:E; [|by apply not_elem_of_nil in Hin].
      apply elem_of_cons in Hin as [[= ->]|?%not_elem_of_nil]; [|done]. by exists i.
  - destruct d as [|f|r|p|n|p d]; cbn [react Runtime.on_answer pcap_form on_answer] in Hin.
    + destruct a as [x|e]; [by apply not_elem_of_nil in Hin | by apply elem_of_cons in Hin as [?|?%not_elem_of_nil]].
    + destruct a as [x|e]; [by apply elem_of_cons in Hin as [?|[[= ->]|?%not_elem_of_nil]%elem_of_cons]|].
      destruct e; by apply elem_of_cons in Hin as [?|?%not_elem_of_nil].
    + destruct a as [x|e]; by apply elem_of_cons in Hin as [?|?%not_elem_of_nil].
    + destruct a as [x|e]; [by apply elem_of_cons in Hin as [?|[[= ->]|?%not_elem_of_nil]%elem_of_cons]|].
      destruct e; by apply elem_of_cons in Hin as [?|?%not_elem_of_nil].
    + destruct a as [[v r]|]; [|by apply not_elem_of_nil in Hin]. simpl in Hin. destruct v; [|by apply not_elem_of_nil in Hin].
      apply elem_of_cons in Hin as [[= ->]|?%not_elem_of_nil]; [|done]. by exists n.
    + unfold delete_closed in Hin. destruct (a ?=== CONFIRM_DIALOG_OPTION) eqn:Ea; [|by apply not_elem_of_nil in Hin].
      destruct a as [o|]; [apply seqb_eq in Ea as ->|done].
      apply elem_of_cons in Hin as [[= ->]|?%not_elem_of_nil]; [|done]. by exists d.
Qed.

Lemma rows_turn l s : pcaps (state_of (react l s)) = pcaps s \/ exists r, l = Answered CPcaps (Next r) /\ pcaps (state_of (react l s)) = Some r.
Proof.
  destruct l as [e|d a].
  - left. destruct e as [|files| |i|i]; cbn [react Runtime.on_event pcap_form on_event]; try done.
    + unfold get. rewrite (bind_state _ _ s s s []) by done. destruct (notUndefNull _); [|done]. simpl when.
      unfold upload_file, get, bind, gets, deref. cbn. by destruct (pcap_for_upload s).
    + unfold on_row, get. rewrite (bind_state _ _ s s s []) by done. by destruct (pcaps s ≫= _).
    + unfold on_row, get. rewrite (bind_state _ _ s s s []) by done. by destruct (pcaps s ≫= _).
  - destruct d as [|f|r|p|n|p d]; cbn [react Runtime.on_answer pcap_form on_answer].
    + destruct a as [r|e]; [right; by exists r | by left].
    + left. by destruct a as [x|[]].
    + left. by destruct a as [x|e].
    + left. by destruct a as [x|[]].
    + left. destruct a as [[[] r]|]; done.
    + left. unfold delete_closed. by destruct (_ ?=== _).
Qed.

Lemma listed_pcap_later tr x p : listed_pcap tr p -> listed_pcap (tr ++ [x]) p.
Proof. intros (l & es & H & Hp). exists l, es. split; [|done]. apply elem_of_app. by left. Qed.

Lemma reachable_page env tr w : trace env tr w -> page_ok tr w.
Proof.
  induction 1 as [|tr w l w' Htr (IH1 & IH2 & IH3) _ Hstep].
  { split_and!; [done | by intros n ?%not_elem_of_nil | by intros p d ?%not_elem_of_nil]. }
  assert (Hrow : forall i p, pcaps (component w) ≫= (.!! i) = Some p -> listed_pcap (tr ++ [(l, made l w)]) p).
  { intros i p H. destruct (pcaps (component w)) as [k|] eqn:E; [|done]. apply listed_pcap_later, (IH1 k); [done|].
    by apply list_elem_of_lookup_2 in H. }
  split_and!.
  - intros k p. rewrite (step_component _ _ _ Hstep). destruct (rows_turn l (component w)) as [->|(r & -> & ->)].
    + intros Hk Hp. by apply listed_pcap_later, (IH1 k).
    + intros [= <-] Hp. eexists r, _. split; [|done]. apply elem_of_app. right. by left.
  - intros n [H|H]%(step_waiting w l w' _ Hstep).
    + destruct (IH2 n H) as (p & Hp & E). exists p. split; [by apply listed_pcap_later | done].
    + apply page_effects in H as (i & p & -> & Hi & ->). exists p. split; [by apply (Hrow i) | done].
  - intros p d [H|H]%(step_waiting w l w' _ Hstep).
    + destruct (IH3 p d H) as [Hp ->]. split; [by apply listed_pcap_later | done].
    + apply page_effects in H as (i & -> & Hi & ->). split; [by apply (Hrow i) | done].
Qed.

Section Composed.
Context {Co : Collation}.

(** What was done in a dialog. *)
Abbreviation dialog_run := (list (label ReplayDialog.event ReplayDialog.Ans * list (effect ReplayDialog.call ReplayDialog.page))).
(** The dialog for the PCAP [n] was closed with [r] after the turns [run]. *)
Definition closed_after (n : string) (r : bool * ReplayPCAPInterface) (run : dialog_run) : Prop :=
  exists w l, trace (K := ReplayDialog.replay_pcap_dialog n) (fun _ => True) run w /\
    Page (CloseReplay (Some r)) ∈ made (K := ReplayDialog.replay_pcap_dialog n) l w.
(** [run] is what was done in the dialog whose answer [l] is. *)
Definition answered_by (l : label event Ans) (run : dialog_run) : Prop :=
  match l with
  | Answered c a =>
      match c return Ans c -> Prop with
      | DReplay n => fun a => forall r, a = Some r -> closed_after n r run
      | _ => fun _ => True
      end a
  | Event _ => True
  end.

(** C37: PCAPs are replayed and deleted as the user confirmed it.  In every
    interleaving of the page a replay is requested only by the turn that answers the
    dialog of a PCAP that the server listed, for this PCAP and, whatever was done in
    that very dialog up to the click that gave the answer, at the address of a host
    that the server listed in it as a sensor.  A deletion is requested only by
    confirming the question that names the PCAP, one that the server listed. *)
Theorem pcaps_are_replayed_by_dialog tr w l w' run :
  trace (fun _ => True) tr w -> step w l w' -> answered_by l run ->
  (forall r, Subscribe (CReplay r) ∈ made l w ->
     exists p x, l = Answered (DReplay (pcap_name p)) (Some (true, r)) /\ listed_pcap tr p /\ r_pcap r = JStr (pcap_name p) /\
       listed run x /\ r_sensor_ip r = JStr (hr_management_ip x) /\ hr_management_ip x <> "") /\
  (forall p, Subscribe (CDeletePcap p) ∈ made l w ->
     l = Answered (DDelete p (delete_question p)) (Some CONFIRM_DIALOG_OPTION) /\ listed_pcap tr p).
Proof using.
  intros Htr Hstep Hrun. destruct (reachable_page _ tr w Htr) as (_ & H2 & H3).
  pose proof (answered_pending _ _ _ Hstep) as Hp. split.
  - intros r (n & ->)%page_effects. destruct (H2 n Hp) as (p & Hlp & <-).
    destruct (Hrun _ eq_refl) as (w1 & l' & Htr' & Hin).
    destruct (replay_names_an_address _ run w1 l' true r Htr' Hin) as (_ & _ & Er & x & Ex & Hx & Hlx & _).
    by exists p, x.
  - intros p (d & ->)%page_effects. by destruct (H3 p d Hp) as [Hlp ->].
Qed.
End Composed.

(** The dialog of a PCAP, in which the user chose a sensor. *)
Definition replayed : ReplayPCAPInterface :=
  {| r_ifaces := JStr ""; r_pcap := JStr "attack.pcap"; r_preserve_timestamp := JBool true;
     r_sensor_hostname := Some "sensor1"; r_sensor_ip := JStr "10.0.0.11" |}.
Lemma replay_returned : exists run, closed_after (Co := code_collation) "attack.pcap" (true, replayed) run.
Proof.
  pose proof (trace_start (K := ReplayDialog.replay_pcap_dialog (Co := code_collation) "attack.pcap") (fun _ => True)) as T.
  apply (trace_event _ _ _ ReplayDialog.NgOnInit) in T; [|exact I].
  match type of T with trace _ ?tr ?w => set (w1 := w) in T end.
  assert (Hp : pending w1 = [] ++ CSensors :: []) by reflexivity.
  apply (trace_answer _ _ _ [] _ [] (Next two_sensors : ReplayDialog.Ans CSensors)) in T; [|exact I|exact Hp].
  apply (trace_event _ _ _ (SensorSelect 0)) in T; [|exact I].
  match type of T with trace _ ?tr ?w => exists tr, w, (Event ExecuteClick) end. split; [exact T|]. vm_compute. left.
Qed.

Lemma pcaps_are_replayed_by_dialog_witness : exists tr w run p x,
  trace (fun _ => True) tr w /\
  Subscribe (CReplay replayed) ∈ made (Answered (DReplay "attack.pcap") (Some (true, replayed))) w /\
  listed_pcap tr p /\ pcap_name p = "attack.pcap" /\ listed run x /\ r_sensor_ip replayed = JStr (hr_management_ip x).
Proof.
  pose (p := {| created_date := ""; sha256 := ""; pcap_name := "attack.pcap"; pcap_size := 1; first_packet_date := ""; last_packet_date := "" |}).
  pose proof (trace_start (fun _ : label event Ans => True)) as T.
  apply (trace_event _ _ _ NgOnInit) in T; [|exact I].
  match type of T with trace _ ?tr ?w => set (w1 := w) in T end.
  assert (Hp : pending w1 = [] ++ CPcaps :: []) by reflexivity.
  apply (trace_answer _ _ _ [] _ [] (Next [p] : Ans CPcaps)) in T; [|exact I|exact Hp].
  apply (trace_event _ _ _ (ReplayClick 0)) in T; [|exact I].
  match type of T with trace _ ?tr ?w => set (w2 := w) in T; exists tr, w2 end.
  assert (Hp2 : pending w2 = [] ++ DReplay "attack.pcap" :: []) by reflexivity.
  pose proof (step_answer w2 [] _ [] (Some (true, replayed) : Ans (DReplay "attack.pcap")) Hp2) as Hs.
  destruct replay_returned as [run Hrun].
  assert (Hl : answered_by (Co := code_collation) (Answered (DReplay "attack.pcap") (Some (true, replayed))) run)
    by (intros r [= <-]; exact Hrun).
  assert (Hin : Subscribe (CReplay replayed) ∈ made (Answered (DReplay "attack.pcap") (Some (true, replayed))) w2) by (vm_compute; left).
  destruct (pcaps_are_replayed_by_dialog (Co := code_collation) _ _ _ _ _ T Hs Hl) as [H1 _].
  destruct (H1 _ Hin) as (p' & x & _ & Hlp & E & Hx & Ex & _). exists run, p', x. split_and!; try done.
  injection E as E. by rewrite E.
Defined.
