(* ===== verification/Navigation.v ===== *)
(** Who may go where: services/user.service.ts, the guards, the routes of
    modules/cvah-modules/app-routing.module.ts and the links that
    top-navbar/classes/navbar-methods.class.ts offers.

    [allSections] is a constant whose groups are changed in place: the groups go in
    and come out of [getSideNavigationButtons]. *)
From S2P Require Import Prelude Handler JsValue Runtime Data Api Net.
From Stdlib Require Import Ascii.

(** classes/user.class.ts *)
Record UserClass := {
  u_uid : string;
  givenName : string;
  surname : string;
  displayName : string;
  email : string;
  memberOf : list string;
  clientRoles : list string;
  roles : list string;
  controller_admin : bool;
  controller_maintainer : bool;
  operator : bool;
  realm_admin : bool;
}.

(** ** services/user.service.ts: the stored user *)

Record UserService := { user_ : option UserClass }.
Definition setUser (user : UserClass) (s : UserService) : UserService := {| user_ := Some user |}.
Definition getUser (s : UserService) : option UserClass := user_ s.
Definition role_of (f : UserClass -> bool) (s : UserService) : outcome bool :=
  match user_ s with Some u => Ret (f u) | None => Exn "TypeError" end.
Definition isControllerAdmin : UserService -> outcome bool := role_of controller_admin.
Definition isControllerMaintainer : UserService -> outcome bool := role_of controller_maintainer.
Definition isOperator : UserService -> outcome bool := role_of operator.
Definition isRealmAdmin : UserService -> outcome bool := role_of realm_admin.
(** The request and what its answer becomes; it has no error handler. *)
Definition getUserFromAPI : string * (UserClass -> UserClass) := ("/api/current_user", fun data => data).

(** services/app-load.service.ts: the user is stored before the application starts. *)
Definition getCurrentUser (response : UserClass) (s : UserService) : UserClass * UserService := (response, setUser response s).

(** ** guards *)

Inductive activation : Type := Activated | NavigateByUrl (url : string) (route_name : string).
Definition guarded_by (role : UserService -> outcome bool) (s : UserService) (state_url : string) : outcome activation :=
  match role s with
  | Ret b => Ret (if b then Activated else NavigateByUrl "/portal" state_url)
  | Exn e => Exn e
  end.
Definition controller_admin_canActivate := guarded_by isControllerAdmin.
Definition controller_maintainer_canActivate := guarded_by isControllerMaintainer.
Definition operator_canActivate := guarded_by isOperator.
Inductive guard : Type := ControllerAdminRequiredGuard | ControllerMaintainerRequiredGuard | OperatorRequiredGuard.
Definition canActivate (g : guard) : UserService -> string -> outcome activation :=
  match g with
  | ControllerAdminRequiredGuard => controller_admin_canActivate
  | ControllerMaintainerRequiredGuard => controller_maintainer_canActivate
  | OperatorRequiredGuard => operator_canActivate
  end.

(** ** app-routing.module.ts *)

Inductive target : Type := Component_ (name : string) | RedirectTo (path : string).
Record route := Route { path : string; shows : target; guards : list guard }.
Definition routes : list route :=
  [Route "" (RedirectTo "/portal") [];
   Route "portal" (Component_ "PortalComponent") [];
   Route "support" (Component_ "PmoSupportComponent") [];
   Route "health" (Component_ "HealthDashboardComponent") [];
   Route "alerts" (Component_ "SecurityAlertsComponent") [];
   Route "settings" (Component_ "SystemSettingsComponent") [ControllerAdminRequiredGuard];
   Route "node-mng" (Component_ "NodeManagementComponent") [ControllerAdminRequiredGuard];
   Route "mip-mng" (Component_ "MipManagementComponent") [ControllerAdminRequiredGuard];
   Route "configmaps" (Component_ "ConfigmapsComponent") [OperatorRequiredGuard];
   Route "registry" (Component_ "DockerRegistryComponent") [];
   Route "windows_agent_deployer" (Component_ "AgentBuilderChooserComponent") [OperatorRequiredGuard];
   Route "rulesets" (Component_ "PolicyManagementComponent") [OperatorRequiredGuard];
   Route "pcaps" (Component_ "PcapFormComponent") [OperatorRequiredGuard];
   Route "catalog" (Component_ "CatalogComponent") [ControllerMaintainerRequiredGuard];
   Route "tools" (Component_ "ToolsFormComponent") [ControllerMaintainerRequiredGuard];
   Route "application/:id" (Component_ "CatalogPageComponent") [ControllerMaintainerRequiredGuard];
   Route "es_scale" (Component_ "ElasticsearchScaleComponent") [ControllerMaintainerRequiredGuard];
   Route "index_management" (Component_ "ElasticsearchIndexManagementComponent") [ControllerMaintainerRequiredGuard];
   Route "logingest" (Component_ "ColdLogIngestComponent") [OperatorRequiredGuard]].

(** The router compares the parts of the paths; a part that starts with a colon is
    any one part.  The first route that fits is taken. *)
Definition part_fits (pattern part : string) : bool :=
  match pattern with String ":" _ => part !== "" | _ => pattern === part end.
Fixpoint parts_fit (pattern parts : list string) : bool :=
  match pattern, parts with
  | [], [] => true
  | p :: ps, q :: qs => part_fits p q && parts_fit ps qs
  | _, _ => false
  end.
Definition strip_slash (url : string) : string := match url with String "/" r => r | _ => url end.
Definition matched_route (url : string) : option route :=
  List.find (fun r => parts_fit (split_on "/" (path r)) (split_on "/" (strip_slash url))) routes.
(** All guards of the route admit the user. *)
Definition admitted (s : UserService) (url : string) : Prop :=
  exists r, matched_route url = Some r /\ Forall (fun g => canActivate g s url = Ret Activated) (guards r).

(** ** The links *)

(** [encodeURI] on the characters up to 255, as their UTF-8 bytes. *)
Definition hex_digit (n : nat) : ascii := match String.get n "0123456789ABCDEF" with Some c => c | None => "0"%char end.
Definition percent (n : nat) : string := String "%" (String (hex_digit (n / 16)) (String (hex_digit (n mod 16)) "")).
Definition uri_marks : list ascii := String.list_ascii_of_string ";,/?:@&=+$-_.!~*'()#".
Definition is_alphanumeric (c : ascii) : bool :=
  let n := nat_of_ascii c in
  ((48 <=? n) && (n <=? 57) || (65 <=? n) && (n <=? 90) || (97 <=? n) && (n <=? 122))%nat.
Definition encode_char (c : ascii) : string :=
  if is_alphanumeric c || bool_decide (c ∈ uri_marks) then String c ""
  else let n := nat_of_ascii c in
       if (n <? 128)%nat then percent n else percent (192 + n / 64) +:+ percent (128 + n mod 64).
Fixpoint encodeURI (s : string) : string :=
  match s with EmptyString => EmptyString | String c r => encode_char c +:+ encodeURI r end.

Record NavLinkInterface := {
  nl_label : string;
  nl_url : string;
  icon : string;
  isExternalLink : bool;
  section : string;
  privs : bool;
  nl_target : option string;
  kitStatus : bool;
}.
Record NavGroupInterface := { ng_id : string; ng_label : string; children : list NavLinkInterface }.
Definition NavGroup (id label : string) : NavGroupInterface := {| ng_id := id; ng_label := label; children := [] |}.
Definition allSections : list NavGroupInterface :=
  [NavGroup "general" ""; NavGroup "system_setup" "System Setup"; NavGroup "kubernetes" "Kubernetes";
   NavGroup "policy_mgmt" "Policy Management"; NavGroup "Elastic" "Elastic"; NavGroup "tools" "Tools";
   NavGroup "confluence" "Confluence"; NavGroup "support" "Support"].

Definition link (label url icon section : string) (privs kit : bool) : NavLinkInterface :=
  {| nl_label := label; nl_url := url; icon := icon; isExternalLink := false; section := section; privs := privs;
     nl_target := None; kitStatus := kit |}.
Definition external (label url icon section : string) (privs : bool) (target : string) : NavLinkInterface :=
  {| nl_label := label; nl_url := url; icon := icon; isExternalLink := true; section := section; privs := privs;
     nl_target := Some target; kitStatus := false |}.

Section Links.
(** [window.location.hostname] *)
Variable hostname : string.

Definition allLinks (user : UserClass) : list NavLinkInterface :=
  [external (displayName user) ("https://" +:+ hostname +:+ "/auth/realms/CVAH-SSO/account") "account_circle" "general" true "_blank";
   external "Logout" ("https://" +:+ hostname +:+ "/Shibboleth.sso/Logout") "exit_to_app" "general" true "_self";
   link "Portal" "/portal" "dashboard" "general" true false;
   external "SSO Admin" ("https://" +:+ hostname +:+ "/auth/admin/CVAH-SSO/console") "group" "system_setup" (realm_admin user) "_blank";
   link "System Settings" "/settings" "layers" "system_setup" (controller_admin user) false;
   link "Node Management" "/node-mng" "dns" "system_setup" (controller_admin user) false;
   link "MIP Management" "/mip-mng" "laptop" "system_setup" (controller_admin user) false;
   link "Remote Agents" "/windows_agent_deployer" "manage_search" "system_setup" (operator user) true;
   link "Catalog" "/catalog" "apps" "system_setup" (controller_maintainer user) true;
   link "Health" "/health" "local_hospital" "kubernetes" true true;
   link "Configuration Maps" "/configmaps" "swap_calls" "kubernetes" (operator user) true;
   link "Docker Registry" "/registry" "view_day" "kubernetes" true false;
   link "Rule Set" "/rulesets" "swap_horiz" "policy_mgmt" (operator user) true;
   link "Alerts" "/alerts" "warning" "general" (operator user) true;
   link "Test PCAP Files" "pcaps" "security" "policy_mgmt" (operator user) true;
   link "Tools" "/tools" "build" "tools" (controller_maintainer user) false;
   external "API Docs" "/api/docs" "web" "tools" (controller_maintainer user) "_blank";
   link "ES Scale" "/es_scale" "tune" "Elastic" (controller_maintainer user) true;
   link "Index Management" "/index_management" "settings" "Elastic" (controller_maintainer user) true;
   link "Cold Log Ingest" "/logingest" "cloud_download" "Elastic" (operator user) true;
   link "PMO Support" "support" "contact_phone" "support" (operator user) false].
Definition space_link (element : string) : NavLinkInterface :=
  external element (encodeURI ("http://" +:+ hostname +:+ "/docs/" +:+ element)) "book" "confluence" true "_blank".

Definition is_shown (kit_status : bool) (id : string) (l : NavLinkInterface) : bool :=
  (section l === id) && privs l && (kitStatus l && kit_status || negb (kitStatus l)).
(** The filter writes the children of the groups it keeps; a group that it drops keeps
    the children it had. *)
Definition fill (kit_status : bool) (links : list NavLinkInterface) (g : NavGroupInterface) : NavGroupInterface * bool :=
  let cs := List.filter (is_shown kit_status (ng_id g)) links in
  if bool_decide (0 < length cs)%nat then ({| ng_id := ng_id g; ng_label := ng_label g; children := cs |}, true) else (g, false).
(** The links that are returned and the constant afterwards. *)
Definition getSideNavigationButtons (s : UserService) (kit_status : bool) (html_spaces : list string)
    (sections : list NavGroupInterface) : outcome (list NavGroupInterface * list NavGroupInterface) :=
  match getUser s with
  | Some user =>
      let filled := fill kit_status (allLinks user ++ (space_link <$> html_spaces)) <$> sections in
      Ret (fst <$> List.filter snd filled, fst <$> filled)
  | None => Exn "TypeError"
  end.

(** ** What is offered *)

(** The groups of the constant, whatever their children are by now. *)
Definition same_groups (sections : list NavGroupInterface) : Prop := ng_id <$> sections = ng_id <$> allSections.
Definition offered (user : UserClass) (kit_status : bool) (html_spaces : list string) (l : NavLinkInterface) : Prop :=
  l ∈ allLinks user ++ (space_link <$> html_spaces) /\ privs l = true /\ (kitStatus l = true -> kit_status = true).

Lemma is_shown_spec kit id l : is_shown kit id l = true <-> section l = id /\ privs l = true /\ (kitStatus l = true -> kit = true).
Proof using.
  unfold is_shown. rewrite !andb_true_iff, seqb_eq, orb_true_iff, andb_true_iff, negb_true_iff.
  destruct (kitStatus l), kit; naive_solver.
Qed.

Lemma fill_id kit links g : ng_id (fst (fill kit links g)) = ng_id g.
Proof using. unfold fill. by destruct (bool_decide _). Qed.
Lemma fill_shown kit links g : snd (fill kit links g) = true ->
  children (fst (fill kit links g)) = List.filter (is_shown kit (ng_id g)) links /\ List.filter (is_shown kit (ng_id g)) links <> [].
Proof using.
  unfold fill. destruct (bool_decide _) eqn:E; [|done]. intros _. apply bool_decide_eq_true in E. split; [done|].
  intros H. rewrite H in E. simpl in E. lia.
Qed.

Lemma section_of_link user spaces l : l ∈ allLinks user ++ (space_link <$> spaces) -> section l ∈ ng_id <$> allSections.
Proof using.
  intros [H|(e & -> & _)%list_elem_of_fmap]%elem_of_app; [|set_solver].
  repeat (apply elem_of_cons in H as [->|H]; [set_solver|]). by apply not_elem_of_nil in H.
Qed.

(** The bar offers each link once, in the group of its section.  For every user,
    kit and list of spaces, and whatever the constant holds from earlier calls, a link
    is in a group that is returned exactly when the user's roles and the kit allow it,
    then in one group only, the one of its section; no group is empty, the groups are
    in the order of the constant, and the constant keeps its groups. *)
Theorem grouped_links user s kit spaces sections : getUser s = Some user -> same_groups sections ->
  exists groups sections', getSideNavigationButtons s kit spaces sections = Ret (groups, sections') /\ same_groups sections' /\
    (ng_id <$> groups) `sublist_of` (ng_id <$> allSections) /\ Forall (fun g => children g <> []) groups /\
    (forall g l, g ∈ groups -> l ∈ children g -> section l = ng_id g /\ offered user kit spaces l) /\
    (forall l, offered user kit spaces l -> exists g, g ∈ groups /\ l ∈ children g).
Proof using.
  intros Hu Hsec. unfold getSideNavigationButtons. rewrite Hu. eexists _, _. split; [reflexivity|].
  set (links := allLinks user ++ _). split_and!.
  - unfold same_groups in *. rewrite <- Hsec, <- !list_fmap_compose. apply list_fmap_ext. intros i g _. apply fill_id.
  - rewrite <- Hsec. clear Hsec. induction sections as [|g r IH]; simpl; [done|].
    destruct (snd (fill kit links g)); simpl; [rewrite fill_id; by apply sublist_skip | by apply sublist_cons].
  - apply Forall_forall. intros x (y & -> & Hy)%list_elem_of_fmap. apply list_elem_of_In, List.filter_In in Hy as [Hy%list_elem_of_In Hs].
    apply list_elem_of_fmap in Hy as (g & -> & _). by destruct (fill_shown kit links g Hs) as [-> ?].
  - intros x l (y & -> & Hy)%list_elem_of_fmap Hl. apply list_elem_of_In, List.filter_In in Hy as [Hy%list_elem_of_In Hs].
    apply list_elem_of_fmap in Hy as (g & -> & _). destruct (fill_shown kit links g Hs) as [E _]. rewrite E in Hl. rewrite fill_id.
    apply list_elem_of_In, List.filter_In in Hl as [Hl%list_elem_of_In (H1 & H2 & H3)%is_shown_spec]. by split; [|split].
  - intros l (Hl & Hp & Hk). pose proof (section_of_link user spaces l Hl) as Hin. rewrite <- Hsec in Hin.
    apply list_elem_of_fmap in Hin as (g & Eg & Hg). exists (fst (fill kit links g)).
    assert (Hf : l ∈ List.filter (is_shown kit (ng_id g)) links).
    { apply list_elem_of_In, List.filter_In. split; [by apply list_elem_of_In|]. by apply is_shown_spec. }
    assert (Hs : snd (fill kit links g) = true).
    { unfold fill. destruct (List.filter _ _) as [|x r] eqn:E; [by apply not_elem_of_nil in Hf|]. simpl. done. }
    split; [|destruct (fill_shown kit links g Hs) as [-> _]; exact Hf].
    apply list_elem_of_fmap_2, list_elem_of_In, List.filter_In. split; [|done]. apply list_elem_of_In. by apply list_elem_of_fmap_2.
Qed.

(** No link of the bar leads to a page that turns the user away.  Every link into
    the application that is offered to a user matches a route, and all guards of that
    route admit the user. *)
Theorem offered_admitted user s kit spaces l :
  getUser s = Some user -> offered user kit spaces l -> isExternalLink l = false -> admitted s (nl_url l).
Proof using.
  intros Hu (Hl & Hp & _) He.
  assert (Hg : forall r, matched_route (nl_url l) = Some r ->
    Forall (fun g => match g with ControllerAdminRequiredGuard => controller_admin user
                     | ControllerMaintainerRequiredGuard => controller_maintainer user | OperatorRequiredGuard => operator user end = true) (guards r) ->
    admitted s (nl_url l)).
  { intros r Hr H. exists r. split; [done|]. eapply Forall_impl; [exact H|]. unfold getUser in Hu.
    intros [] Hrole; simpl; unfold controller_admin_canActivate, controller_maintainer_canActivate, operator_canActivate, guarded_by, isControllerAdmin, isControllerMaintainer, isOperator, role_of; rewrite Hu; by rewrite Hrole. }
  apply elem_of_app in Hl as [H|(e & -> & _)%list_elem_of_fmap]; [|done].
  repeat (apply elem_of_cons in H as [->|H];
    [first [done | eapply Hg; [vm_compute; reflexivity | repeat constructor; exact Hp]]|]). by apply not_elem_of_nil in H.
Qed.

(** The converse fails: the routes of the alerts and of the support page have no guard,
    although their links are offered to operators only. *)
Lemma alerts_are_not_guarded s : admitted s "/alerts" /\ admitted s "/support".
Proof using. split; eexists; (split; [vm_compute; reflexivity | constructor]). Qed.

Definition nobody : UserClass :=
  {| u_uid := ""; givenName := ""; surname := ""; displayName := "nobody"; email := ""; memberOf := []; clientRoles := [];
     roles := []; controller_admin := false; controller_maintainer := false; operator := false; realm_admin := false |}.
Lemma offered_to_nobody kit spaces l : offered nobody kit spaces l -> nl_url l <> "/alerts" /\ nl_url l <> "support".
Proof using.
  intros ([H|(e & -> & _)%list_elem_of_fmap]%elem_of_app & Hp & _); [|done].
  repeat (apply elem_of_cons in H as [->|H]; [done|]). by apply not_elem_of_nil in H.
Qed.
End Links.

Definition an_operator : UserClass :=
  {| u_uid := "1"; givenName := ""; surname := ""; displayName := "op"; email := ""; memberOf := []; clientRoles := [];
     roles := []; controller_admin := false; controller_maintainer := false; operator := true; realm_admin := false |}.

(** The groups of an operator. *)
Lemma operator_groups : exists groups sections',
  getSideNavigationButtons "controller.lan" {| user_ := Some an_operator |} true ["THISISCVAH"] allSections = Ret (groups, sections') /\
  ng_id <$> groups = ["general"; "system_setup"; "kubernetes"; "policy_mgmt"; "Elastic"; "confluence"; "support"] /\
  same_groups sections'.
Proof.
  destruct (grouped_links "controller.lan" an_operator {| user_ := Some an_operator |} true ["THISISCVAH"] allSections eq_refl eq_refl)
    as (groups & sections' & E & Hs & _).
  exists groups, sections'. split; [exact E|]. split; [|exact Hs]. vm_compute in E. injection E as <- _. reflexivity.
Defined.
