(* ===== verification/TopNavbar.v ===== *)
(** top-navbar: the bar of the links (Navigation.v), the clock and the notifications.

    The stored user does not change while the application runs; it is a variable of
    the development.  The bar is never destroyed but with the page. *)
From S2P Require Import Prelude Handler JsValue Runtime Data Api Net Fields Notifications Navigation.
From Stdlib Require Import Ascii.
Local Open Scope Z_scope.

(** ** classes/dip-time.class.ts and services/navbar.service.ts *)

Record DIPTimeClass := { datetime : string; timezone : string }.
Definition getCurrentDIPTime : service unit DIPTimeClass DIPTimeClass :=
  Service GET "/api/tools/controller/datetime" tt "get_current_dip_time" copied.

(** ** [new Date(Y, M, D, h, m, s)] *)

(** The days from 1970 to a year, and from its start to a month. *)
Definition day_from_year (y : Z) : Z :=
  365 * (y - 1970) + (y - 1969) / 4 - (y - 1901) / 100 + (y - 1601) / 400.
Definition leap (y : Z) : Z := day_from_year (y + 1) - day_from_year y - 365.
Definition day_in_year (y m : Z) : Z :=
  List.nth (Z.to_nat m) [0; 31; 59; 90; 120; 151; 181; 212; 243; 273; 304; 334] 0 + if decide (m < 2) then 0 else leap y.
(** A month beyond the year counts on; a year of two digits is one of the last
    century. *)
Definition make_day (y m d : Z) : Z :=
  let y' := y + m / 12 in day_from_year y' + day_in_year y' (m mod 12) + d - 1.
Definition full_year (y : Z) : Z := if decide (0 <= y <= 99) then 1900 + y else y.
Definition time_clip (t : Z) : jsnum := if decide (Z.abs t <= 8640000000000000) then Some t else None.

Section Clock.
(** The adjustment of the browser's time zone at a local time. *)
Variable local_tza : Z -> Z.
(** [None] is an invalid date. *)
Definition returnDate (Y M D h m s : jsnum) : jsnum :=
  Y ← Y; M ← M; D ← D; h ← h; m ← m; s ← s;
  let t := make_day (full_year Y) M D * 86400000 + h * 3600000 + m * 60000 + s * 1000 in
  time_clip (t - local_tza t).

(** [parseInt(a[i], 10)]; of nothing it is not a number. *)
Definition parse_part (a : list string) (i : nat) : jsnum := a !! i ≫= parseInt10.
(** [month-day-year hours:minutes:seconds] *)
Definition date_of (datetime : string) : outcome jsnum :=
  match split_on " " datetime with
  | date :: time :: _ =>
      let dateParts := split_on "-" date in
      let timeParts := split_on ":" time in
      Ret (returnDate (parse_part dateParts 2) (js_add (parse_part dateParts 0) (Some (-1))) (parse_part dateParts 1)
             (parse_part timeParts 0) (parse_part timeParts 1) (parse_part timeParts 2))
  | _ => Exn "TypeError"
  end.

(** ** The component *)

(** [forkJoin] fails with the first of its requests; that has no callback. *)
Inductive call : Type := CBar | CTime.
Definition Ans (c : call) : Type :=
  match c with CBar => option (list string * option KitStatusClass) | CTime => option DIPTimeClass end.
Inductive page : Type := DetectChanges | OpenNotificationDialogWindow.

Record TopNavbarComponent := {
  showLinkNames : bool;
  time : option jsnum;
  zone : option string;
  sideNavigationButtons : list NavGroupInterface;
  controllerMaintainer : bool;
  kitStatus_ : bool;
  htmlSpaces : list string;
  (* whether the interval of the clock runs *)
  counting : bool;
  (* the constant of navbar.constants.ts *)
  sections_ : list NavGroupInterface;
}.
Abbreviation M := (handler TopNavbarComponent (effect call page)).
Definition with_names v s := {| showLinkNames := v; time := time s; zone := zone s; sideNavigationButtons := sideNavigationButtons s;
  controllerMaintainer := controllerMaintainer s; kitStatus_ := kitStatus_ s; htmlSpaces := htmlSpaces s; counting := counting s; sections_ := sections_ s |}.
Definition with_time v s := {| showLinkNames := showLinkNames s; time := v; zone := zone s; sideNavigationButtons := sideNavigationButtons s;
  controllerMaintainer := controllerMaintainer s; kitStatus_ := kitStatus_ s; htmlSpaces := htmlSpaces s; counting := counting s; sections_ := sections_ s |}.
Definition with_zone v s := {| showLinkNames := showLinkNames s; time := time s; zone := v; sideNavigationButtons := sideNavigationButtons s;
  controllerMaintainer := controllerMaintainer s; kitStatus_ := kitStatus_ s; htmlSpaces := htmlSpaces s; counting := counting s; sections_ := sections_ s |}.
Definition with_buttons v c s := {| showLinkNames := showLinkNames s; time := time s; zone := zone s; sideNavigationButtons := v;
  controllerMaintainer := controllerMaintainer s; kitStatus_ := kitStatus_ s; htmlSpaces := htmlSpaces s; counting := counting s; sections_ := c |}.
Definition with_kit v s := {| showLinkNames := showLinkNames s; time := time s; zone := zone s; sideNavigationButtons := sideNavigationButtons s;
  controllerMaintainer := controllerMaintainer s; kitStatus_ := v; htmlSpaces := htmlSpaces s; counting := counting s; sections_ := sections_ s |}.
Definition with_spaces v s := {| showLinkNames := showLinkNames s; time := time s; zone := zone s; sideNavigationButtons := sideNavigationButtons s;
  controllerMaintainer := controllerMaintainer s; kitStatus_ := kitStatus_ s; htmlSpaces := v; counting := counting s; sections_ := sections_ s |}.
Definition with_counting v s := {| showLinkNames := showLinkNames s; time := time s; zone := zone s; sideNavigationButtons := sideNavigationButtons s;
  controllerMaintainer := controllerMaintainer s; kitStatus_ := kitStatus_ s; htmlSpaces := htmlSpaces s; counting := v; sections_ := sections_ s |}.

Variable hostname : string.
Variable user : UserClass.
(** The cookie of the names. *)
Variable isOpen : string.
Let users : UserService := {| user_ := Some user |}.

Definition constructor : TopNavbarComponent :=
  {| showLinkNames := isOpen === "true"; time := None; zone := None; sideNavigationButtons := [];
     controllerMaintainer := controller_maintainer user; kitStatus_ := false; htmlSpaces := []; counting := false;
     sections_ := allSections |}.
Definition get : M TopNavbarComponent := gets (fun s => s).

Definition openNotifications : M unit := emit (Page OpenNotificationDialogWindow).
Definition toggleSideNavigation : M unit :=
  s <- get ;;
  modify (with_names (negb (showLinkNames s))) ;;;
  emit (SetCookie "isOpen" (if negb (showLinkNames s) then "true" else "false")).
Definition groupLabelCheck (g : NavGroupInterface) : bool := ng_label g !== "".

Definition show_buttons (kit : bool) (spaces : list string) : M unit :=
  s <- get ;;
  b <- lift (getSideNavigationButtons hostname users kit spaces (sections_ s)) ;;
  modify (with_buttons (fst b) (snd b)) ;;;
  emit (Page DetectChanges).
Definition buildNavBar : M unit := show_buttons false [] ;;; emit (Subscribe CBar).
Definition buildNavBar_answer (a : Ans CBar) : M unit :=
  match a with
  | Some (spaces, kitData) =>
      modify (with_spaces spaces) ;;;
      match kitData ≫= base_kit_deployed with
      | Some b => modify (with_kit b)
      | None => ret tt
      end ;;;
      s <- get ;;
      show_buttons (kitStatus_ s) (htmlSpaces s)
  | None => ret tt
  end.

Definition WEBSOCKET_MESSAGE_STATUS_COMPLETED : string := "COMPLETED".
Definition WEBSOCKET_MESSAGE_ROLE_DOCUMENNTATION_UPLOAD : string := "documentation upload".
Definition setup_websocket_onbroadcast_ (response : NotificationClass) : M unit :=
  when ((nt_status response === WEBSOCKET_MESSAGE_STATUS_COMPLETED) &&
        (nt_role response === WEBSOCKET_MESSAGE_ROLE_DOCUMENNTATION_UPLOAD)) buildNavBar.
Definition disk_pressure (message : string) : M unit :=
  generate_return_error_snackbar_message message (Some MAT_SNACKBAR_CONFIGURATION_60000_DUR).

Definition startClockCounter_ : M unit := modify (with_counting true).
Definition clock_tick : M unit :=
  s <- get ;; match time s with Some t => modify (with_time (Some (t ≫= fun t => time_clip (t + 1000)))) | None => ret tt end.
Definition setClock_ (data : DIPTimeClass) : M unit :=
  modify (with_zone (Some (timezone data))) ;;;
  t <- lift (date_of (datetime data)) ;;
  modify (with_time (Some t)).
Definition getCurrentDipTime_ : M unit := emit (Subscribe CTime).
Definition getCurrentDipTime_answer (a : Ans CTime) : M unit :=
  match a with Some data => setClock_ data ;;; startClockCounter_ | None => ret tt end.

Definition ngOnInit : M unit := buildNavBar ;;; getCurrentDipTime_.

Inductive event : Type :=
| NgOnInit
| Broadcast (n : NotificationClass)
| DiskPressure (message : string)
| ClockTick
| ToggleClick
| NotificationsClick.
Definition on_event (e : event) : M unit :=
  match e with
  | NgOnInit => ngOnInit
  | Broadcast n => setup_websocket_onbroadcast_ n
  | DiskPressure m => disk_pressure m
  | ClockTick => s <- get ;; when (counting s) clock_tick
  | ToggleClick => toggleSideNavigation
  | NotificationsClick => openNotifications
  end.
Definition on_answer (c : call) : Ans c -> M unit :=
  match c with CBar => buildNavBar_answer | CTime => getCurrentDipTime_answer end.
#[export] Instance top_navbar : Component TopNavbarComponent call page event Ans :=
  {| initial := constructor; Runtime.on_event := on_event; Runtime.on_answer := on_answer |}.

(** ** The links that are shown *)

Abbreviation log := (list (label event Ans * list (effect call page))).

(** What the answers so far tell of the kit: the last one that tells anything. *)
Definition told (l : label event Ans) : option bool :=
  match l with
  | Answered c a =>
      match c return Ans c -> option bool with
      | CBar => fun a => match a with Some (_, k) => k ≫= base_kit_deployed | None => None end
      | CTime => fun _ => None
      end a
  | Event _ => None
  end.
Definition kit_of (tr : log) : bool :=
  foldl (fun k x => default k (told (fst x))) false tr.

Definition shown (s : TopNavbarComponent) (l : NavLinkInterface) : Prop :=
  exists g, g ∈ sideNavigationButtons s /\ l ∈ children g.

(** The bar is one that was built from a status no better than what was told, or it
    is empty. *)
Definition bar_ok (kit : bool) (s : TopNavbarComponent) : Prop :=
  kitStatus_ s = kit /\ same_groups (sections_ s) /\
  exists k, (k = true -> kit = true) /\ forall g l, g ∈ sideNavigationButtons s -> l ∈ children g ->
    section l = ng_id g /\ exists spaces, offered hostname user k spaces l.

Lemma show_buttons_run kit spaces s : same_groups (sections_ s) -> exists b,
  show_buttons kit spaces s = (Ret tt, with_buttons (fst b) (snd b) s, [Page DetectChanges]) /\
  same_groups (snd b) /\
  (forall g l, g ∈ fst b -> l ∈ children g -> section l = ng_id g /\ offered hostname user kit spaces l) /\
  (forall l, offered hostname user kit spaces l -> exists g, g ∈ fst b /\ l ∈ children g).
Proof using.
  intros Hs. destruct (grouped_links hostname user users kit spaces (sections_ s) eq_refl Hs) as (g & c & E & Hc & _ & _ & H1 & H2).
  exists (g, c). split; [|done]. unfold show_buttons, get. rewrite (bind_run_silent _ _ s s s) by done.
  rewrite E. reflexivity.
Qed.

Lemma show_buttons_ok kit k spaces s : (k = true -> kit = true) -> bar_ok kit s -> bar_ok kit (state_of (show_buttons k spaces s)).
Proof using.
  intros Hk (H1 & H2 & _). destruct (show_buttons_run k spaces s H2) as (b & -> & Hc & Hb & _).
  split; [done|]. split; [done|]. exists k. split; [done|]. intros g l Hg Hl. destruct (Hb g l Hg Hl). eauto.
Qed.

Lemma build_ok kit s : bar_ok kit s -> bar_ok kit (state_of (buildNavBar s)).
Proof using.
  intros Hs. pose proof (show_buttons_ok kit false [] s ltac:(done) Hs) as H. unfold buildNavBar.
  destruct Hs as (_ & H2 & _). destruct (show_buttons_run false [] s H2) as (b & E & _). rewrite E in H.
  by rewrite (bind_state _ _ _ _ _ _ E).
Qed.

Lemma kit_of_app tr l es : kit_of (tr ++ [(l, es)]) = default (kit_of tr) (told l).
Proof using. unfold kit_of. by rewrite foldl_app. Qed.

Lemma answer_run spaces kitData s : same_groups (sections_ s) -> exists b kit,
  kit = default (kitStatus_ s) (kitData ≫= base_kit_deployed) /\
  state_of (buildNavBar_answer (Some (spaces, kitData)) s) = with_buttons (fst b) (snd b) (with_kit kit (with_spaces spaces s)) /\
  same_groups (snd b) /\
  (forall g l, g ∈ fst b -> l ∈ children g -> section l = ng_id g /\ offered hostname user kit spaces l) /\
  (forall l, offered hostname user kit spaces l -> exists g, g ∈ fst b /\ l ∈ children g).
Proof using.
  intros Hs. set (kit := default (kitStatus_ s) (kitData ≫= base_kit_deployed)).
  destruct (show_buttons_run kit spaces (with_kit kit (with_spaces spaces s)) Hs) as (b & E & Hb).
  exists b, kit. split; [done|]. split; [|exact Hb]. unfold buildNavBar_answer.
  rewrite (bind_state _ _ s tt (with_spaces spaces s) []) by done.
  rewrite (bind_state _ _ _ tt (with_kit kit (with_spaces spaces s)) []).
  - unfold get. rewrite (bind_run_silent _ _ _ (with_kit kit (with_spaces spaces s)) (with_kit kit (with_spaces spaces s))) by done.
    simpl kitStatus_. simpl htmlSpaces. by rewrite E.
  - subst kit. by destruct (kitData ≫= base_kit_deployed), s.
Qed.

(** The turns other than those that build the bar leave it. *)
Definition same_bar (s s' : TopNavbarComponent) : Prop :=
  sideNavigationButtons s' = sideNavigationButtons s /\ kitStatus_ s' = kitStatus_ s /\ sections_ s' = sections_ s.
Definition builds (l : label event Ans) : bool :=
  match l with Event NgOnInit | Event (Broadcast _) | Answered CBar _ => true | _ => false end.
Lemma bar_quiet_turn l s : builds l = false -> same_bar s (state_of (react l s)).
Proof using.
  intros Hl. destruct l as [[]|[] a]; try done; try (repeat split; done).
  - change (same_bar s (state_of (bind get (fun s => when (counting s) clock_tick) s))).
    rewrite (bind_state _ _ s s s []) by done. destruct (counting s); [|done]. simpl when.
    unfold clock_tick. rewrite (bind_state _ _ s s s []) by done. by destruct (time s).
  - destruct a as [data|]; [|done]. change (same_bar s (state_of (getCurrentDipTime_answer (Some data) s))). unfold getCurrentDipTime_answer, setClock_.
    destruct (date_of (datetime data)) as [t|e]; repeat split; done.
Qed.

Lemma bar_turn kit l s : bar_ok kit s -> bar_ok (default kit (told l)) (state_of (react l s)).
Proof using.
  intros Hs. destruct (builds l) eqn:El.
  2: { destruct (bar_quiet_turn l s El) as (E1 & E2 & E3). replace (told l) with (@None bool) by (by destruct l as [|[]]).
       unfold bar_ok. by rewrite E1, E2, E3. }
  destruct l as [[]|[] a]; try done.
  - change (bar_ok kit (state_of (ngOnInit s))). unfold ngOnInit. pose proof (build_ok kit s Hs) as Hb.
    destruct (buildNavBar s) as [[[[]|e] s1] es] eqn:E; [by rewrite (bind_state _ _ _ _ _ _ E) | by rewrite (bind_run_throw _ _ _ _ _ _ E)].
  - change (bar_ok kit (state_of (setup_websocket_onbroadcast_ n s))). unfold setup_websocket_onbroadcast_.
    destruct (_ && _); [by apply build_ok | done].
  - destruct a as [[spaces kitData]|]; [|exact Hs].
    change (bar_ok (default kit (kitData ≫= base_kit_deployed)) (state_of (buildNavBar_answer (Some (spaces, kitData)) s))).
    destruct Hs as (<- & Hs & _). destruct (answer_run spaces kitData s Hs) as (b & k & -> & -> & Hc & Hb & _).
    split; [done|]. split; [done|]. eexists. split; [|intros g l Hg Hl; destruct (Hb g l Hg Hl); eauto]. done.
Qed.

Lemma reachable_bar tr w : trace (fun _ => True) tr w -> bar_ok (kit_of tr) (component w).
Proof using.
  induction 1 as [|tr w l w' _ IH _ Hstep].
  - split; [done|]. split; [done|]. exists false. split; [done|]. intros g l Hg. by apply not_elem_of_nil in Hg.
  - rewrite kit_of_app, (step_component _ _ _ Hstep). by apply bar_turn.
Qed.

(** C38: the bar offers what the user may use.  In every interleaving of answers,
    messages and clicks a link that is shown is in the group of its section, the roles
    of the user allow it, and when it needs the kit, the last answer that tells of the
    kit says that it is deployed; a link into the application leads to a route whose
    guards admit the user.  After an answer the bar has all links that the roles, the
    kit and the spaces of that answer allow. *)
Theorem shown_links_are_admitted tr w :
  trace (fun _ => True) tr w ->
  (forall l, shown (component w) l ->
     (exists g, g ∈ sideNavigationButtons (component w) /\ section l = ng_id g) /\
     privs l = true /\ (kitStatus l = true -> kit_of tr = true) /\
     (isExternalLink l = false -> admitted users (nl_url l))) /\
  (forall spaces kitData w' l, step w (Answered CBar (Some (spaces, kitData))) w' ->
     shown (component w') l <-> offered hostname user (default (kit_of tr) (kitData ≫= base_kit_deployed)) spaces l).
Proof using.
  intros Htr. pose proof (reachable_bar tr w Htr) as Hw. split.
  - destruct Hw as (_ & _ & k & Hk & Hb). intros l (g & Hg & Hl). destruct (Hb g l Hg Hl) as (Es & spaces & Ho).
    split; [by exists g|]. pose proof Ho as (_ & Hp & Hkl). split; [done|]. split; [auto|].
    by apply (offered_admitted hostname user users k spaces).
  - intros spaces kitData w' l Hstep. destruct Hw as (<- & Hs & _). rewrite (step_component _ _ _ Hstep).
    destruct (answer_run spaces kitData (component w) Hs) as (b & k & <- & E & _ & H1 & H2). 
    change (react _) with (buildNavBar_answer (Some (spaces, kitData))). rewrite E. split; [|apply H2]. intros (g & Hg & Hl). by apply (H1 g l).
Qed.

(** ** The clock *)

(** After an answer the clock shows the parts of the server's time, and every tick adds
    a second. *)
Lemma clock_counts data t s : date_of (datetime data) = Ret (Some t) -> forall n, Z.abs (t + Z.of_nat n * 1000) <= 8640000000000000 -> 0 <= t ->
  time (Nat.iter n (fun s => state_of (on_event ClockTick s)) (state_of (getCurrentDipTime_answer (Some data) s))) =
  Some (Some (t + Z.of_nat n * 1000)).
Proof using.
  intros E n Hn Ht. set (s0 := state_of (getCurrentDipTime_answer (Some data) s)).
  assert (H0 : time s0 = Some (Some t) /\ counting s0 = true).
  { subst s0. unfold getCurrentDipTime_answer, setClock_, startClockCounter_, bind, modify, state_of. simpl. by rewrite E. }
  assert (Hall : time (Nat.iter n (fun s => state_of (on_event ClockTick s)) s0) = Some (Some (t + Z.of_nat n * 1000)) /\
    counting (Nat.iter n (fun s => state_of (on_event ClockTick s)) s0) = true); [|apply Hall].
  induction n as [|n IH]; simpl Nat.iter; [destruct H0 as [-> ->]; split; [do 2 f_equal; lia|done]|].
  destruct IH as [E1 E2]; [lia|]. set (s1 := Nat.iter n _ s0) in *. unfold on_event, get.
  rewrite (bind_state _ _ s1 s1 s1 []) by done. rewrite E2. simpl. unfold clock_tick, get.
  rewrite (bind_state _ _ s1 s1 s1 []) by done. rewrite E1. simpl. split; [|done]. do 2 f_equal. unfold time_clip.
  rewrite decide_True by lia. f_equal. lia.
Qed.

(** ** The bar while it is rebuilt *)

(** A message that documentation was uploaded takes the links of the kit from the bar
    until the requests are answered; when one fails they do not come back. *)
Lemma rebuild_hides_the_kit n s l : nt_status n = "COMPLETED" -> nt_role n = "documentation upload" -> same_groups (sections_ s) ->
  let s1 := state_of (on_event (Broadcast n) s) in
  (shown s1 l -> kitStatus l = false) /\ state_of (on_answer CBar None s1) = s1.
Proof using.
  intros E1 E2 Hs. split; [|done]. unfold on_event, setup_websocket_onbroadcast_. rewrite E1, E2. simpl.
  destruct (show_buttons_run false [] s Hs) as (b & E & _ & H1 & _). unfold buildNavBar. rewrite (bind_state _ _ _ _ _ _ E).
  intros (g & Hg & Hl). destruct (H1 g l Hg Hl) as (_ & _ & _ & Hk). destruct (kitStatus l); [by discriminate Hk | done].
Qed.
End Clock.

Definition deployed_kit : KitStatusClass :=
  {| esxi_settings_configured := None; kit_settings_configured := None; general_settings_configured := None;
     control_plane_deployed := None; base_kit_deployed := Some true; ready_to_deploy := None;
     jobs_running := None; deploy_kit_running := None |}.
Lemma shown_links_are_admitted_witness : exists tr w l,
  trace (K := top_navbar (fun _ => 0) "controller.lan" an_operator "true") (fun _ => True) tr w /\
  shown (component w) l /\ kitStatus l = true /\ admitted {| user_ := Some an_operator |} (nl_url l).
Proof.
  pose (K := top_navbar (fun _ => 0) "controller.lan" an_operator "true").
  pose proof (trace_start (K := K) (fun _ => True)) as T.
  apply (trace_event _ _ _ NgOnInit) in T; [|exact I].
  match type of T with trace _ ?tr ?w => set (w1 := w) in T end.
  assert (Hp : pending w1 = [] ++ CBar :: [CTime]) by reflexivity.
  apply (trace_answer _ _ _ [] _ [CTime] (Some (["THISISCVAH"], Some deployed_kit) : Ans CBar)) in T; [|exact I|exact Hp].
  match type of T with trace _ ?tr ?w => set (w2 := w) in T; exists tr, w2 end.
  exists (link "Test PCAP Files" "pcaps" "security" "policy_mgmt" true true). split; [exact T|].
  destruct (shown_links_are_admitted (fun _ => 0) "controller.lan" an_operator "true" _ _ T) as [H1 _].
  assert (Hs : shown (component w2) (link "Test PCAP Files" "pcaps" "security" "policy_mgmt" true true)).
  { exists (List.nth 3 (sideNavigationButtons (component w2)) (NavGroup "" "")). split; vm_compute; repeat first [apply list_elem_of_here | apply list_elem_of_further]. }
  split; [exact Hs|]. split; [reflexivity|]. by apply H1.
Defined.
Lemma server_time_is_shown : date_of (fun _ => 0) "11-19-2026 06:44:20" = Ret (Some 1795070660000).
Proof. reflexivity. Qed.
