(* ===== verification/Portal.v ===== *)
(** modules/portal: the page of the links, and the modal dialog (ModalDialog.v) in which
    the user adds one. *)
From S2P Require Import Prelude Handler JsValue Runtime Data Api Net Regex Validators Fields Services AgentData ModalDialog Navigation.
From Stdlib Require Import Ascii.

(** ** constants/portal.constant.ts *)

Definition PORTAL_TITLE : string := "Portal".
Definition TARGET_CONFIG_VALIDATORS_required : list ValidatorObjectInterface := [plain "required" (Text "Required field") None].
Definition url_pattern : RegExp := [Alternative true false (lit "http://"); Alternative false false (lit "https://")].
Definition TARGET_CONFIG_VALIDATORS_url : list ValidatorObjectInterface :=
  [plain "required" (Text "Required field") None;
   plain "pattern" (Text "Link must start with either 'http://' or 'https://' without quotation marks.") (Some url_pattern)].

(** The new link, as the form gives it; it has no [_id] yet. *)
Record UserPortalLinkInterface := { li_name : jsval; li_url : jsval; li_description : jsval }.
Definition raw_link (v : jsval) : UserPortalLinkInterface :=
  {| li_name := prop v "name"; li_url := prop v "url"; li_description := prop v "description" |}.

(** ** The component *)

Definition remove_question (l : UserPortalLinkClass) : ConfirmDialogMatDialogDataInterface :=
  {| title := "Remove User Link '" +:+ up_name l +:+ "'?";
     message := "Confirm deletion of link to " +:+ up_url l +:+ ". This action cannot be undone.";
     option1 := CANCEL_DIALOG_OPTION; option2 := CONFIRM_DIALOG_OPTION; message_double_confirm := None |}.
Definition dialog_control_config (label : string) (validators : list ValidatorObjectInterface) : DialogFormControlConfigClass :=
  {| dfc_label := label; formState := JStr ""; validatorOrOpts := validators; tooltip := None; controlType := Text_control |}.
Definition add_link_dialog : BackingObjectInterface :=
  {| bo_title := "Add Link"; instructions := "Please enter link data";
     dialogForm := [("name", dialog_control_config "Link Name" TARGET_CONFIG_VALIDATORS_required);
                    ("url", dialog_control_config "Link URL" TARGET_CONFIG_VALIDATORS_url);
                    ("description", dialog_control_config "Link Description" TARGET_CONFIG_VALIDATORS_required)];
     confirmBtnText := "Submit" |}.

Inductive call : Type :=
| CPortalLinks
| CUserLinks
| CAddLink (l : UserPortalLinkInterface)
| CRemoveLink (l : UserPortalLinkClass)
| DAddLink (d : BackingObjectInterface)
| DRemoveLink (l : UserPortalLinkClass) (d : ConfirmDialogMatDialogDataInterface).
(** The requests of the links have no error callback. *)
Definition Ans (c : call) : Type :=
  match c with
  | CPortalLinks => answer (list PortalLinkClass)
  | CUserLinks | CAddLink _ => answer (list UserPortalLinkClass)
  | CRemoveLink _ => answer SuccessMessageClass
  | DAddLink _ => option dialog_form
  | DRemoveLink _ _ => option string
  end.
Inductive page : Type := StopPropagation.

Record PortalComponent := {
  portal_links : list PortalLinkClass;
  user_portal_links : list UserPortalLinkClass;
  operator_ : bool;
  hidden_app_links : list string;
  app_links_to_hide_ : list string;
}.
Abbreviation M := (handler PortalComponent (effect call page)).
Definition with_links v s := {| portal_links := v; user_portal_links := user_portal_links s; operator_ := operator_ s;
  hidden_app_links := hidden_app_links s; app_links_to_hide_ := app_links_to_hide_ s |}.
Definition with_user_links v s := {| portal_links := portal_links s; user_portal_links := v; operator_ := operator_ s;
  hidden_app_links := hidden_app_links s; app_links_to_hide_ := app_links_to_hide_ s |}.
Definition with_hidden v s := {| portal_links := portal_links s; user_portal_links := user_portal_links s; operator_ := operator_ s;
  hidden_app_links := v; app_links_to_hide_ := app_links_to_hide_ s |}.
Definition get : M PortalComponent := gets (fun s => s).

Definition api_get_portal_links_ : M unit := emit (Subscribe CPortalLinks).
Definition api_get_user_portal_links_ : M unit := emit (Subscribe CUserLinks).
Definition api_add_user_portal_link_ (l : UserPortalLinkInterface) : M unit := emit (Subscribe (CAddLink l)).
Definition api_remove_user_portal_link_ (l : UserPortalLinkClass) : M unit := emit (Subscribe (CRemoveLink l)).
Definition ngOnInit : M unit := emit (SetTitle PORTAL_TITLE) ;;; api_get_portal_links_ ;;; api_get_user_portal_links_.

Definition open_add_user_portal_link : M unit := emit (Subscribe (DAddLink add_link_dialog)).
Definition add_link_closed (response : option dialog_form) : M unit :=
  match response with
  | Some f => when (valid f) (api_add_user_portal_link_ (raw_link (rawValue f)))
  | None => ret tt
  end.
Definition open_confirm_remove_user_portal_link (l : UserPortalLinkClass) : M unit :=
  emit (Page StopPropagation) ;;; emit (Subscribe (DRemoveLink l (remove_question l))).
Definition remove_link_closed (l : UserPortalLinkClass) (response : option string) : M unit :=
  when (response ?=== CONFIRM_DIALOG_OPTION) (api_remove_user_portal_link_ l).
Definition go_to_url (url : string) : M unit := emit (OpenInNewTab url).

(** [dns.split('/')[2].split('.')[0]] *)
Definition app_name (link : PortalLinkClass) : M string :=
  host <- deref (split_on "/" (dns link) !! 2) ;; deref (split_on "." host !! 0).
Definition get_hidden_app_links_ (links : list PortalLinkClass) : M unit :=
  for_each links (fun link =>
    name <- app_name link ;;
    s <- get ;;
    when (Prelude.includes (app_links_to_hide_ s) name) (modify (fun s => with_hidden (hidden_app_links s ++ [dns link]) s))).

Definition api_get_portal_links_answer (a : answer (list PortalLinkClass)) : M unit :=
  match a with
  | Next response => modify (with_links response) ;;; s <- get ;; get_hidden_app_links_ (portal_links s)
  | Error _ => ret tt
  end.
Definition api_get_user_portal_links_answer (a : answer (list UserPortalLinkClass)) : M unit :=
  match a with Next response => modify (with_user_links response) | Error _ => ret tt end.
Definition api_add_user_portal_link_answer (a : answer (list UserPortalLinkClass)) : M unit :=
  match a with
  | Next response => modify (with_user_links response)
  | Error e => on_error "adding user portal link" e
  end.
Definition without (l : UserPortalLinkClass) (links : list UserPortalLinkClass) : list UserPortalLinkClass :=
  List.filter (fun x => up__id x !== up__id l) links.
Definition api_remove_user_portal_link_answer (l : UserPortalLinkClass) (a : answer SuccessMessageClass) : M unit :=
  match a with
  | Next response =>
      modify (fun s => with_user_links (without l (user_portal_links s)) s) ;;;
      displaySnackBar (success_message response) (Some MAT_SNACKBAR_CONFIGURATION_60000_DUR)
  | Error e => on_error "removing user portal link" e
  end.

(** The buttons of the operator, and clicks on a row of the user's links. *)
Inductive event : Type := NgOnInit | AddClick | RemoveClick (i : nat) | LinkClick (i : nat).
Definition on_row (i : nat) (m : UserPortalLinkClass -> M unit) : M unit :=
  s <- get ;; match user_portal_links s !! i with Some l => m l | None => ret tt end.
Definition on_event (e : event) : M unit :=
  match e with
  | NgOnInit => ngOnInit
  | AddClick => s <- get ;; when (operator_ s) open_add_user_portal_link
  | RemoveClick i => s <- get ;; when (operator_ s) (on_row i open_confirm_remove_user_portal_link)
  | LinkClick i => on_row i (fun l => go_to_url (up_url l))
  end.
Definition on_answer (c : call) : Ans c -> M unit :=
  match c with
  | CPortalLinks => api_get_portal_links_answer
  | CUserLinks => api_get_user_portal_links_answer
  | CAddLink _ => api_add_user_portal_link_answer
  | CRemoveLink l => api_remove_user_portal_link_answer l
  | DAddLink _ => add_link_closed
  | DRemoveLink l _ => remove_link_closed l
  end.

(** The roles of the user are read once. *)
Section Portal.
Variable user : UserClass.
Definition constructor : PortalComponent :=
  {| portal_links := []; user_portal_links := []; operator_ := operator user; hidden_app_links := [];
     app_links_to_hide_ := ["arkime"; "misp"; "nifi"] |}.
#[export] Instance portal : Component PortalComponent call page event Ans :=
  {| initial := constructor; Runtime.on_event := on_event; Runtime.on_answer := on_answer |}.
End Portal.

(** ** The addresses that are accepted *)

Definition accepted_url (t : string) : Prop :=
  (exists r, t = "http://" +:+ r) \/ (exists u r, t = u +:+ "https://" +:+ r).

Lemma test_lit b l t : test_alternative (Alternative b false (lit l)) t = true <->
  exists u r, t = u +:+ l +:+ r /\ (b = true -> u = "").
Proof.
  rewrite test_alternative_spec. simpl. split.
  - intros (u & w & v & E & Hw & Hu & _). apply matches_lit in Hw as ->.
    exists (String.string_of_list_ascii u), (String.string_of_list_ascii v). split; [|by intros ->%Hu].
    apply list_ascii_inj. by rewrite !list_ascii_app, !String.list_ascii_of_string_of_list_ascii.
  - intros (u & r & -> & Hu). exists (String.list_ascii_of_string u), (String.list_ascii_of_string l), (String.list_ascii_of_string r).
    split; [by rewrite !list_ascii_app|]. split; [by apply matches_lit|]. split; [by intros ->%Hu | done].
Qed.

Lemma url_accepts c t : value c = JStr t ->
  exists e, validateFromArray TARGET_CONFIG_VALIDATORS_url None c = Ret e /\ (e = None <-> accepted_url t).
Proof.
  intros E. eexists. split; [by eapply validate_two; [apply (required_text _ c t E) | apply (pattern_text _ _ c t E)]|].
  assert (H : test url_pattern t = true <-> accepted_url t).
  { unfold test, url_pattern. cbn [existsb]. rewrite orb_false_r, orb_true_iff, !test_lit. unfold accepted_url. split.
    - intros [(u & r & -> & Hu)|(u & r & -> & _)]; [left; exists r; by rewrite Hu | right; by exists u, r].
    - intros [[r ->]|(u & r & ->)]; [left; by exists "", r | right; by exists u, r]. }
  destruct (t === "") eqn:Et.
  - apply seqb_eq in Et as ->. split; [done|]. intros [[r Hr]|(u & r & Hr)]; [done|]. by destruct u.
  - rewrite orb_false_l. rewrite <- H. by destruct (test url_pattern t).
Qed.

(** ** The dialog of a link *)

(** The controls that the modal dialog is given. *)
Definition accepts (validators : list ValidatorObjectInterface) (v : jsval) : bool :=
  match validateFromArray validators None (control_of (raw_field v)) with Ret None => true | _ => false end.
Definition opened (d : BackingObjectInterface) : list dialog_control :=
  (fun x => {| dc_name := fst x; dc_type := controlType (snd x); dc_value := formState (snd x); isDisabled := false;
               dc_accepts := accepts (validatorOrOpts (snd x)) |}) <$> dialogForm d.
Definition link_dialog : Component ModalDialogMatComponent no_call ModalDialog.page ModalDialog.event no_answer :=
  ModalDialogMat (bo_title add_link_dialog) (instructions add_link_dialog) (opened add_link_dialog) (confirmBtnText add_link_dialog).
Definition types_text (l : label ModalDialog.event no_answer) : Prop :=
  match l with Event (Enter _ v) => exists t, v = JStr t | _ => True end.
(** Values are put into controls of the form that was opened. *)
Definition filled (texts : list string) : list dialog_control :=
  zip_with (fun t c => dc_setValue (JStr t) c) texts (opened add_link_dialog).

Lemma filled_alter a b c i t :
  alter (dc_setValue (JStr t)) i (filled [a; b; c]) =
    filled [if decide (i = 0%nat) then t else a; if decide (i = 1%nat) then t else b; if decide (i = 2%nat) then t else c].
Proof. by destruct i as [|[|[|i]]]. Qed.

(** What was entered last in a field. *)
Definition entered (tr : list (label ModalDialog.event no_answer * list (effect no_call ModalDialog.page))) (i : nat) : string :=
  fold_left (fun t x => match fst x with Event (Enter j (JStr u)) => if decide (j = i) then u else t | _ => t end) tr "".

Lemma filled_chips texts x : length texts = 3%nat ->
  (fun c => if is_chips c then dc_setValue x c else c) <$> filled texts = filled texts.
Proof. by destruct texts as [|a [|b [|c [|]]]]. Qed.

Lemma entered_snoc tr l es i : entered (tr ++ [(l, es)]) i =
  match l with Event (Enter j (JStr u)) => if decide (j = i) then u else entered tr i | _ => entered tr i end.
Proof. unfold entered. by rewrite fold_left_app. Qed.

Lemma reachable_link_dialog tr w : trace (K := link_dialog) types_text tr w ->
  dialog_form_group (component w) = filled [entered tr 0; entered tr 1; entered tr 2].
Proof.
  induction 1 as [|tr w l w' _ E Hl Hstep]; [done|]. rewrite (step_component _ _ _ Hstep), !entered_snoc.
  destruct l as [[i v|t|t| |]|[]]; simpl.
  - destruct Hl as [t ->]. by rewrite E, filled_alter.
  - unfold add_alert_chip, when. by destruct (trim t !== "").
  - done.
  - done.
  - unfold bind, gets. simpl. destruct (dialog_valid _); simpl; [|done]. by rewrite E, filled_chips.
Qed.

Lemma accepts_required t : accepts TARGET_CONFIG_VALIDATORS_required (JStr t) = true <-> t <> "".
Proof.
  unfold accepts, TARGET_CONFIG_VALIDATORS_required. rewrite (validate_required _ _ _ t) by done.
  destruct (t === "") eqn:E; [apply seqb_eq in E | apply seqb_neq in E]; naive_solver.
Qed.

(** What the dialog of a link returns: what was entered in its fields. *)
Lemma link_dialog_returns tr w l v raw : trace (K := link_dialog) types_text tr w ->
  Page (CloseForm (Some (v, raw))) ∈ made (K := link_dialog) l w ->
  l = Event SubmitClick /\ v = true /\
  raw_link raw = {| li_name := JStr (entered tr 0); li_url := JStr (entered tr 1); li_description := JStr (entered tr 2) |} /\
  entered tr 0 <> "" /\ accepted_url (entered tr 1) /\ entered tr 2 <> "".
Proof.
  intros Htr. pose proof (reachable_link_dialog tr w Htr) as E. unfold made.
  set (a := entered tr 0) in *. set (b := entered tr 1) in *. set (c := entered tr 2) in *. clearbody a b c.
  destruct l as [[i x|t|t| |]|[]]; simpl.
  1,3: by intros ?%not_elem_of_nil.
  - unfold add_alert_chip, when. destruct (trim t !== ""); by intros ?%not_elem_of_nil.
  - by intros [?|?%not_elem_of_nil]%elem_of_cons.
  - unfold bind, gets. simpl. destruct (dialog_valid (dialog_form_group (component w))) eqn:Ev; simpl; [|by intros ?%not_elem_of_nil].
    rewrite E in *. rewrite filled_chips, Ev by done. intros [[= -> ->]|?%not_elem_of_nil]%elem_of_cons; [|done]. do 3 (split; [done|]).
    unfold dialog_valid in Ev. simpl in Ev. rewrite andb_true_r, !andb_true_iff in Ev. destruct Ev as (Ha & Hb & Hc).
    split; [by apply accepts_required|]. split; [|by apply accepts_required].
    unfold accepts in Hb. destruct (url_accepts (control_of (raw_field (JStr b))) b eq_refl) as (e & Ee & He). rewrite Ee in Hb.
    apply He. by destruct e.
Qed.

(** ** How the links change *)

Section Changes.
Variable user : UserClass.
Abbreviation react := (react (K := portal user)).
Abbreviation log := (list (label event Ans * list (effect call page))).

(** A link that the server listed. *)
Definition listing (l : label event Ans) (links : list UserPortalLinkClass) : Prop :=
  l = Answered CUserLinks (Next links) \/ exists x, l = Answered (CAddLink x) (Next links).
Definition listed_link (tr : log) (p : UserPortalLinkClass) : Prop :=
  exists l es links, (l, es) ∈ tr /\ listing l links /\ p ∈ links.
Definition page_ok (tr : log) (w : world PortalComponent call) : Prop :=
  operator_ (component w) = operator user /\
  (forall p, p ∈ user_portal_links (component w) -> listed_link tr p) /\
  (forall p d, DRemoveLink p d ∈ pending w -> operator user = true /\ listed_link tr p /\ d = remove_question p) /\
  (forall d, DAddLink d ∈ pending w -> operator user = true /\ d = add_link_dialog).

Definition made_by (l : label event Ans) (s : PortalComponent) (c : call) : Prop :=
  match c with
  | CAddLink x => exists d f, l = Answered (DAddLink d) (Some f) /\ valid f = true /\ x = raw_link (rawValue f)
  | CRemoveLink p => exists d, l = Answered (DRemoveLink p d) (Some CONFIRM_DIALOG_OPTION)
  | DAddLink d => operator_ s = true /\ d = add_link_dialog
  | DRemoveLink p d => operator_ s = true /\ p ∈ user_portal_links s /\ d = remove_question p
  | _ => True
  end.
(** The turns of the hidden links change nothing else. *)
Definition same_rows (s s' : PortalComponent) : Prop :=
  operator_ s' = operator_ s /\ user_portal_links s' = user_portal_links s.
Lemma hidden_links_quiet links s0 : safe (same_rows s0) (fun _ => False) (get_hidden_app_links_ links).
Proof using.
  unfold get_hidden_app_links_, app_name, get. induction links as [|x links IH]; [apply safe_ret|]. simpl for_each.
  apply safe_bind; [|intros; exact IH].
  apply safe_bind; [apply safe_bind; [destruct (_ !! _); [apply safe_ret | apply safe_throw]|] |].
  - intros host. destruct (_ !! _); [apply safe_ret | apply safe_throw].
  - intros name. apply safe_bind; [apply safe_gets|]. intros s. destruct (Prelude.includes _ _); [|apply safe_ret].
    by apply safe_modify.
Qed.

Lemma links_answer_quiet a s : same_rows s (state_of (api_get_portal_links_answer a s)) /\ effects_of (api_get_portal_links_answer a s) = [].
Proof using.
  destruct a as [r|e]; [|done]. unfold api_get_portal_links_answer.
  rewrite (bind_run_silent _ _ s tt (with_links r s)) by done. unfold get.
  rewrite (bind_run_silent _ _ _ (with_links r s) (with_links r s)) by done.
  destruct (hidden_links_quiet (portal_links (with_links r s)) s (with_links r s) ltac:(done)) as [H1 H2]. split; [done|].
  destruct (effects_of _) as [|e es]; [done|]. by apply Forall_inv in H2.
Qed.

Lemma portal_effects l s c : Subscribe c ∈ effects_of (react l s) -> made_by l s c.
Proof using.
  intros Hin. destruct l as [[| |i|i]|d a]; cbn [react Runtime.on_event Runtime.on_answer portal on_event on_answer] in Hin.
  - repeat (apply elem_of_cons in Hin as [?|Hin]; [by simplify_eq|]). by apply not_elem_of_nil in Hin.
  - unfold get in Hin. rewrite (bind_run_silent _ _ s s s) in Hin by done. destruct (operator_ s) eqn:E; [|by apply not_elem_of_nil in Hin].
    by apply elem_of_cons in Hin as [[= ->]|?%not_elem_of_nil].
  - unfold get in Hin. rewrite (bind_run_silent _ _ s s s) in Hin by done. destruct (operator_ s) eqn:E; [|by apply not_elem_of_nil in Hin].
    simpl when in Hin. unfold on_row, get in Hin. rewrite (bind_run_silent _ _ s s s) in Hin by done.
    destruct (user_portal_links s !! i) as [p|] eqn:Ei; [|by apply not_elem_of_nil in Hin].
    apply elem_of_cons in Hin as [?|[[= ->]|?%not_elem_of_nil]%elem_of_cons]; [done| |done]. by apply list_elem_of_lookup_2 in Ei.
  - unfold on_row, get in Hin. rewrite (bind_run_silent _ _ s s s) in Hin by done.
    destruct (user_portal_links s !! i); [by apply elem_of_cons in Hin as [?|?%not_elem_of_nil] | by apply not_elem_of_nil in Hin].
  - destruct d as [| |x|p|d|p d]; cbn in Hin.
    + destruct (links_answer_quiet a s) as [_ E]. rewrite E in Hin. by apply not_elem_of_nil in Hin.
    + destruct a; by apply not_elem_of_nil in Hin.
    + destruct a; [by apply not_elem_of_nil in Hin | by apply elem_of_cons in Hin as [?|?%not_elem_of_nil]].
    + destruct a; by apply elem_of_cons in Hin as [?|?%not_elem_of_nil].
    + destruct a as [f|]; [|by apply not_elem_of_nil in Hin]. simpl in Hin. destruct (valid f) eqn:E; [|by apply not_elem_of_nil in Hin].
      apply elem_of_cons in Hin as [[= ->]|?%not_elem_of_nil]; [|done]. by exists d, f.
    + unfold remove_link_closed in Hin. destruct (a ?=== CONFIRM_DIALOG_OPTION) eqn:Ea; [|by apply not_elem_of_nil in Hin].
      destruct a as [o|]; [apply seqb_eq in Ea as ->|done].
      apply elem_of_cons in Hin as [[= ->]|?%not_elem_of_nil]; [|done]. by exists d.
Qed.

Lemma portal_rows l s : operator_ (state_of (react l s)) = operator_ s /\
  forall p, p ∈ user_portal_links (state_of (react l s)) -> p ∈ user_portal_links s \/ exists links, listing l links /\ p ∈ links.
Proof using.
  assert (Hq : forall s', same_rows s s' -> operator_ s' = operator_ s /\
    forall p, p ∈ user_portal_links s' -> p ∈ user_portal_links s \/ exists links, listing l links /\ p ∈ links).
  { intros s' [-> ->]. auto. }
  destruct l as [[| |i|i]|d a]; cbn [react Runtime.on_event Runtime.on_answer portal on_event on_answer].
  - by apply Hq.
  - apply Hq. unfold get. rewrite (bind_state _ _ s s s []) by done. by destruct (operator_ s).
  - apply Hq. unfold get. rewrite (bind_state _ _ s s s []) by done. destruct (operator_ s); [|done]. simpl when.
    unfold on_row, get. rewrite (bind_state _ _ s s s []) by done. by destruct (_ !! i).
  - apply Hq. unfold on_row, get. rewrite (bind_state _ _ s s s []) by done. by destruct (_ !! i).
  - destruct d as [| |x|q|d|q d]; cbn.
    + apply Hq. apply links_answer_quiet.
    + destruct a as [r|e]; [|by apply Hq]. split; [done|]. intros p Hp. right. exists r. split; [by left | done].
    + destruct a as [r|e]; [|by apply Hq]. split; [done|]. intros p Hp. right. exists r. split; [right; by exists x | done].
    + destruct a as [r|e]; [|by apply Hq]. split; [done|]. intros p Hp. left.
      by apply list_elem_of_In, List.filter_In in Hp as [Hp%list_elem_of_In _].
    + apply Hq. destruct a as [f|]; [|done]. simpl. by destruct (valid f).
    + apply Hq. unfold remove_link_closed. by destruct (_ ?=== _).
Qed.

Lemma listed_link_later tr x p : listed_link tr p -> listed_link (tr ++ [x]) p.
Proof using. intros (l & es & links & H & Hp). exists l, es, links. split; [|done]. apply elem_of_app. by left. Qed.

Lemma reachable_portal env tr w : trace (K := portal user) env tr w -> page_ok tr w.
Proof using.
  induction 1 as [|tr w l w' Htr (IH1 & IH2 & IH3 & IH4) _ Hstep].
  { split; [done|]. split; [by intros p ?%not_elem_of_nil|]. split; [by intros p d ?%not_elem_of_nil | by intros d ?%not_elem_of_nil]. }
  destruct (portal_rows l (component w)) as [Eo Hrows]. split_and!.
  - by rewrite (step_component _ _ _ Hstep), Eo.
  - intros p. rewrite (step_component _ _ _ Hstep). intros [Hp|(links & Hl & Hp)]%Hrows; [by apply listed_link_later, IH2|].
    exists l, (made (K := portal user) l w), links. split; [|done]. apply elem_of_app. right. left.
  - intros p d [H|H]%(step_waiting w l w' _ Hstep).
    + destruct (IH3 p d H) as (Ho & Hp & ->). split; [done|]. split; [by apply listed_link_later | done].
    + apply portal_effects in H as (Ho & Hp & ->). split; [congruence|]. split; [by apply listed_link_later, IH2 | done].
  - intros d [H|H]%(step_waiting w l w' _ Hstep); [by apply (IH4 d) | apply portal_effects in H as [Ho ->]; split; [congruence|done]].
Qed.

(** What was done in a dialog. *)
Abbreviation dialog_run := (list (label ModalDialog.event no_answer * list (effect no_call ModalDialog.page))).
(** The dialog of a link was closed with [r] after the turns [run], in which the
    fields were given texts, as inputs give them. *)
Definition closed_after (r : dialog_form) (run : dialog_run) : Prop :=
  exists w l, trace (K := link_dialog) types_text run w /\
    Page (CloseForm (Some (valid r, rawValue r))) ∈ made (K := link_dialog) l w.
(** [run] is what was done in the dialog whose answer [l] is. *)
Definition answered_by (l : label event Ans) (run : dialog_run) : Prop :=
  match l with
  | Answered c a =>
      match c return Ans c -> Prop with
      | DAddLink _ => fun a => forall r, a = Some r -> closed_after r run
      | _ => fun _ => True
      end a
  | Event _ => True
  end.

(** C39: only an operator changes the links, by the dialogs.  In every interleaving of
    the page a link is added only by the turn that answers the submitted form of the
    dialog for a new link, and whatever was done in that very dialog, the link has the
    name, the address and the description that were entered last in its fields: the
    name and the description are not empty, and the address begins with http:// or
    has https:// anywhere.  A link is removed only by confirming the question that
    names it, a link that the server listed. *)
Theorem links_change_by_dialogs tr w l w' run :
  trace (K := portal user) (fun _ => True) tr w -> step (K := portal user) w l w' -> answered_by l run ->
  (forall x, Subscribe (CAddLink x) ∈ made (K := portal user) l w ->
     operator user = true /\ (exists f, l = Answered (DAddLink add_link_dialog) (Some f) /\ valid f = true) /\
     x = {| li_name := JStr (entered run 0); li_url := JStr (entered run 1); li_description := JStr (entered run 2) |} /\
     entered run 0 <> "" /\ accepted_url (entered run 1) /\ entered run 2 <> "") /\
  (forall p, Subscribe (CRemoveLink p) ∈ made (K := portal user) l w ->
     operator user = true /\ l = Answered (DRemoveLink p (remove_question p)) (Some CONFIRM_DIALOG_OPTION) /\ listed_link tr p).
Proof using.
  intros Htr Hstep Hrun. destruct (reachable_portal _ tr w Htr) as (_ & _ & H3 & H4). pose proof (answered_pending _ _ _ Hstep) as Hp. split.
  - intros x (d & f & -> & Hv & ->)%portal_effects. destruct (H4 d Hp) as [Ho ->]. split; [done|]. split; [by exists f|].
    destruct (Hrun f eq_refl) as (w1 & l' & Htr' & Hin). by destruct (link_dialog_returns run w1 l' _ _ Htr' Hin) as (_ & _ & H).
  - intros p (d & ->)%portal_effects. by destruct (H3 p d Hp) as (Ho & Hlp & ->).
Qed.
End Changes.

(** The pattern is anchored in its first alternative only: a script is accepted. *)
Lemma script_is_accepted : accepts TARGET_CONFIG_VALIDATORS_url (JStr "javascript:alert('https://')") = true.
Proof. vm_compute. reflexivity. Qed.

(** An operator adds a link. *)
Definition new_link : dialog_form :=
  DialogForm true (JObj [("name", JStr "wiki"); ("url", JStr "https://wiki.lan"); ("description", JStr "Notes")]).
Lemma link_returned : exists run, closed_after new_link run /\ entered run 1 = "https://wiki.lan".
Proof.
  pose proof (trace_start (K := link_dialog) types_text) as T.
  apply (trace_event _ _ _ (Enter 0 (JStr "wiki"))) in T; [|by eexists].
  apply (trace_event _ _ _ (Enter 1 (JStr "https://wiki.lan"))) in T; [|by eexists].
  apply (trace_event _ _ _ (Enter 2 (JStr "Notes"))) in T; [|by eexists].
  match type of T with trace _ ?tr ?w => exists tr; split; [exists w, (Event SubmitClick)|reflexivity] end.
  split; [exact T|]. vm_compute. left.
Qed.
Lemma links_change_by_dialogs_witness : exists tr w run,
  trace (K := portal an_operator) (fun _ => True) tr w /\
  Subscribe (CAddLink (raw_link (rawValue new_link))) ∈ made (K := portal an_operator) (Answered (DAddLink add_link_dialog) (Some new_link)) w /\
  li_url (raw_link (rawValue new_link)) = JStr (entered run 1) /\ entered run 1 = "https://wiki.lan" /\ accepted_url (entered run 1).
Proof.
  pose proof (trace_start (K := portal an_operator) (fun _ => True)) as T.
  apply (trace_event _ _ _ AddClick) in T; [|exact I].
  match type of T with trace _ ?tr ?w => set (w1 := w) in T; exists tr, w1 end.
  assert (Hp : pending w1 = [] ++ DAddLink add_link_dialog :: []) by reflexivity.
  pose proof (step_answer (K := portal an_operator) w1 [] _ [] (Some new_link : Ans (DAddLink add_link_dialog)) Hp) as Hs.
  destruct link_returned as (run & Hrun & Hu).
  assert (Hl : answered_by (Answered (DAddLink add_link_dialog) (Some new_link)) run) by (intros r [= <-]; exact Hrun).
  assert (Hin : Subscribe (CAddLink (raw_link (rawValue new_link))) ∈
    made (K := portal an_operator) (Answered (DAddLink add_link_dialog) (Some new_link)) w1) by (vm_compute; left).
  destruct (links_change_by_dialogs an_operator _ _ _ _ _ T Hs Hl) as [H1 _].
  destruct (H1 _ Hin) as (_ & _ & E & _ & Ha & _). exists run. split; [exact T|]. split; [exact Hin|].
  split; [by rewrite E|]. by split.
Defined.
