(* ===== verification/CatalogList.v ===== *)
(** modules/catalog: the list of the charts (catalog.component.ts), the card of an
    application and the background of the card.

    The charts are objects that the whole list and the filtered one share: a message
    about an application changes the cards that are shown. *)
From S2P Require Import Prelude Handler JsValue Json Runtime Data Api Sorting Services Notifications.

(** ** Constants *)

Definition CATALOG_TITLE : string := "Catalog".
Definition DEFAULT_SHOW_CHART : jsval := JObj [("pmo", JBool true); ("community", JBool false)].
Definition SHOW_CHART_COOKIE_NAME : string := "show_chart".
Definition WHITE : string := "#FFFFFF".
Definition RED : string := "#FF4949".
Definition GREEN : string := "#1EB980".
Definition YELLOW : string := "#FFD966".
Definition COLORS_DICT : list (string * string) :=
  [("deployed", GREEN); ("pending install", YELLOW); ("uninstalling", YELLOW); ("uninstalled", RED); ("failed", RED)].
Definition ZEEK : string := "zeek".
Definition SURICATA : string := "suricata".
Definition COMPLETED : string := "COMPLETED".
Definition DEPLOYED : string := "DEPLOYED".
Definition FAILED : string := "failed".
Definition SENSOR_VALUE : string := "Sensor".
Definition WEBSOCKET_MESSAGE_ROLE_CATALOG : string := "catalog".
Definition WEBSOCKET_MESSAGE_ROLE_NODE : string := "node".
Definition WEBSOCKET_MESSAGE_ROLE_RULE_SYNC : string := "rulesync".
Definition WEBSOCKET_MESSAGE_STATUS_STARTED : string := "STARTED".
Definition WEBSOCKET_MESSAGE_MESSAGE_REMOVE_NODE : string := "Remove Node".
Definition WEBSOCKET_MESSAGE_MESSAGE_ADD_NODE : string := "Add Node".
Definition WEBSOCKET_MESSAGE_MESSAGE_CREATE_VIRTUAL_MACHINE : string := "Create Virtual Machine".
Definition WEBSOCKET_MESSAGE_MESSAGE_PROVISION_VIRTUAL_MACHINE : string := "Provision Virtual Machine".

(** ** The component *)

Inductive call : Type := CStatuses | CNodes.
Definition Ans (c : call) : Type :=
  match c with CStatuses => answer (list ChartClass) | CNodes => answer (list NodeClass) end.
Inductive page : Type := .

Record CatalogComponent := {
  is_loading : bool;
  filtered_charts : list loc;
  show_charts : option jsval;
  rule_sync : bool;
  has_sensors_ : bool;
  charts_ : option (list loc);
  (* the objects of the charts *)
  heap : store ChartClass;
}.
Abbreviation M := (handler CatalogComponent (effect call page)).
Definition constructor : CatalogComponent :=
  {| is_loading := true; filtered_charts := []; show_charts := None; rule_sync := false; has_sensors_ := false;
     charts_ := None; heap := store_empty |}.
Definition with_loading v s := {| is_loading := v; filtered_charts := filtered_charts s; show_charts := show_charts s;
  rule_sync := rule_sync s; has_sensors_ := has_sensors_ s; charts_ := charts_ s; heap := heap s |}.
Definition with_filtered v s := {| is_loading := is_loading s; filtered_charts := v; show_charts := show_charts s;
  rule_sync := rule_sync s; has_sensors_ := has_sensors_ s; charts_ := charts_ s; heap := heap s |}.
Definition with_show v s := {| is_loading := is_loading s; filtered_charts := filtered_charts s; show_charts := v;
  rule_sync := rule_sync s; has_sensors_ := has_sensors_ s; charts_ := charts_ s; heap := heap s |}.
Definition with_sync v s := {| is_loading := is_loading s; filtered_charts := filtered_charts s; show_charts := show_charts s;
  rule_sync := v; has_sensors_ := has_sensors_ s; charts_ := charts_ s; heap := heap s |}.
Definition with_sensors v s := {| is_loading := is_loading s; filtered_charts := filtered_charts s; show_charts := show_charts s;
  rule_sync := rule_sync s; has_sensors_ := v; charts_ := charts_ s; heap := heap s |}.
Definition with_charts v h s := {| is_loading := is_loading s; filtered_charts := filtered_charts s; show_charts := show_charts s;
  rule_sync := rule_sync s; has_sensors_ := has_sensors_ s; charts_ := v; heap := h |}.
Definition get : M CatalogComponent := gets (fun s => s).

Definition api_get_all_application_statuses_ : M unit := emit (Subscribe CStatuses).
Definition api_get_catalog_nodes_ : M unit := emit (Subscribe CNodes).

Section List_.
Context {Co : Collation} {J : JSON}.

(** ** The filters *)

(** [l.filter(test)] over references; every reference is of an object. *)
Definition keep (test : ChartClass -> bool) (h : store ChartClass) (l : list loc) : list loc :=
  List.filter (fun p => match load h p with Some c => test c | None => false end) l.
Definition by_application (h : store ChartClass) (p q : loc) : Z :=
  match load h p, load h q with Some a, Some b => chart_application_alphanum a b | _, _ => 0%Z end.

Definition filter_pmo_applications_ (show_pmo : bool) : M (list loc) :=
  if show_pmo then s <- get ;; l <- deref (charts_ s) ;; ret (keep pmoSupported (heap s) l) else ret [].
Definition filter_community_applications_ (show_community : bool) : M (list loc) :=
  if show_community then s <- get ;; l <- deref (charts_ s) ;; ret (keep (fun c => negb (pmoSupported c)) (heap s) l) else ret [].
Definition filter_sensor_applications_ : M unit :=
  s <- get ;;
  when (negb (has_sensors_ s)) (modify (with_filtered (keep (fun c => negb (isSensorApp c)) (heap s) (filtered_charts s)))).
Definition cookie_set_ : M unit :=
  s <- get ;;
  emit (SetCookie SHOW_CHART_COOKIE_NAME (match show_charts s with Some v => stringify v | None => "undefined" end)).
(** [this.show_charts[k]] *)
Definition shows (k : string) : M bool :=
  s <- get ;; v <- deref (show_charts s) ;; x <- deref (get_property v k) ;; ret (js_truthy x).
Definition filter_charts : M unit :=
  show_pmo <- shows "pmo" ;;
  pmo <- filter_pmo_applications_ show_pmo ;;
  show_community <- shows "community" ;;
  community <- filter_community_applications_ show_community ;;
  s <- get ;;
  modify (with_filtered (js_sort (by_application (heap s)) (pmo ++ community))) ;;;
  filter_sensor_applications_ ;;;
  cookie_set_.

(** [create_deep_copy] prints and reads its argument. *)
Definition cookie_get_ (cookie : string) : M unit :=
  match parse (if cookie === "" then stringify DEFAULT_SHOW_CHART else cookie) with
  | Some v => modify (with_show (Some v))
  | None => throw "SyntaxError"
  end.
Definition ngOnInit (cookie : string) : M unit :=
  emit (SetTitle CATALOG_TITLE) ;;; cookie_get_ cookie ;;; api_get_all_application_statuses_.

(** ** Messages and answers *)

Definition set_nodes (l : list StatusClass) (c : ChartClass) : ChartClass :=
  {| ch_appVersion := ch_appVersion c; ch_version := ch_version c; ch_application := ch_application c;
     ch_description := ch_description c; pmoSupported := pmoSupported c; isSensorApp := isSensorApp c; ch_nodes := l |}.
Definition new_statuses (application : string) (data : NotificationDataClass) (c : ChartClass) : ChartClass :=
  if ch_application c === toLowerCase application then set_nodes (snd <$> data) c else c.
Definition reloads (n : NotificationClass) : bool :=
  (nt_status n === COMPLETED) &&
  (includes_text (nt_message n) WEBSOCKET_MESSAGE_MESSAGE_REMOVE_NODE ||
   includes_text (nt_message n) WEBSOCKET_MESSAGE_MESSAGE_CREATE_VIRTUAL_MACHINE ||
   includes_text (nt_message n) WEBSOCKET_MESSAGE_MESSAGE_PROVISION_VIRTUAL_MACHINE ||
   includes_text (nt_message n) WEBSOCKET_MESSAGE_MESSAGE_ADD_NODE).
Definition setup_websocket_onbroadcast_ (response : NotificationClass) : M unit :=
  if nt_role response === WEBSOCKET_MESSAGE_ROLE_CATALOG then
    s <- get ;;
    match nt_data response, charts_ s with
    | Some data, Some l =>
        for_each l (fun p => modify (fun s =>
          with_charts (charts_ s) (update p (new_statuses (nt_application response) data) (heap s)) s))
    | _, _ => ret tt
    end
  else if nt_role response === WEBSOCKET_MESSAGE_ROLE_NODE then
    when (reloads response)
      (modify (with_loading true) ;;; modify (with_filtered []) ;;;
       modify (fun s => with_charts (Some []) (heap s) s) ;;; modify (with_sensors false) ;;;
       api_get_all_application_statuses_)
  else if nt_role response === WEBSOCKET_MESSAGE_ROLE_RULE_SYNC then
    when (nt_status response === WEBSOCKET_MESSAGE_STATUS_STARTED) (modify (with_sync true)) ;;;
    when (nt_status response === COMPLETED) (modify (with_sync false))
  else ret tt.

Definition api_get_all_application_statuses_answer (a : answer (list ChartClass)) : M unit :=
  match a with
  | Next response =>
      modify (fun s => let '(ps, h) := alloc_list response (heap s) in with_charts (Some ps) h s) ;;;
      api_get_catalog_nodes_
  | Error e => on_error "retrieving application statuses" e
  end.
Definition api_get_catalog_nodes_answer (a : answer (list NodeClass)) : M unit :=
  match a with
  | Next response =>
      for_each response (fun node => when (node_type node === SENSOR_VALUE) (modify (with_sensors true))) ;;;
      modify (with_loading false) ;;;
      filter_charts
  | Error e => on_error "retrieving catalog nodes" e
  end.

(** The toggles of the template write the object, which the cookie holds, and filter. *)
Definition toggle (k : string) (v : bool) : M unit :=
  s <- get ;;
  match show_charts s with
  | Some (JObj fs) => modify (with_show (Some (JObj (assoc_set k (JBool v) fs))))
  | _ => throw "TypeError"
  end ;;;
  filter_charts.

Inductive event : Type :=
| NgOnInit (cookie : string)
| Broadcast (n : NotificationClass)
| TogglePmo (v : bool)
| ToggleCommunity (v : bool).
Definition on_event (e : event) : M unit :=
  match e with
  | NgOnInit cookie => ngOnInit cookie
  | Broadcast n => setup_websocket_onbroadcast_ n
  | TogglePmo v => s <- get ;; when (negb (is_loading s)) (toggle "pmo" v)
  | ToggleCommunity v => s <- get ;; when (negb (is_loading s)) (toggle "community" v)
  end.
Definition on_answer (c : call) : Ans c -> M unit :=
  match c with CStatuses => api_get_all_application_statuses_answer | CNodes => api_get_catalog_nodes_answer end.
#[export] Instance catalog_list : Component CatalogComponent call page event Ans :=
  {| initial := constructor; Runtime.on_event := on_event; Runtime.on_answer := on_answer |}.
End List_.

(** ** components/application-card *)

Inductive card_page : Type := DetectChanges.
Record ApplicationCardComponent := {
  unique_html_id : option string;
  chart : ChartClass;
  card_rule_sync : bool;
  hover_color : option string;
  hovered : bool;
}.
Abbreviation MC := (handler ApplicationCardComponent (effect Empty_set card_page)).
Definition new_card (id : option string) (c : ChartClass) (sync : bool) : ApplicationCardComponent :=
  {| unique_html_id := id; chart := c; card_rule_sync := sync; hover_color := None; hovered := false |}.
Definition with_color v s := {| unique_html_id := unique_html_id s; chart := chart s; card_rule_sync := card_rule_sync s;
  hover_color := v; hovered := hovered s |}.
Definition with_hovered v s := {| unique_html_id := unique_html_id s; chart := chart s; card_rule_sync := card_rule_sync s;
  hover_color := hover_color s; hovered := v |}.
Definition generate_unique_html_id (passed_id : string) (s : ApplicationCardComponent) : string :=
  match unique_html_id s with Some i => i +:+ "-" +:+ passed_id | None => passed_id end.
Definition mouseenter_hover_card : MC unit := modify (with_hovered true).
Definition mouseleave_hover_card : MC unit := modify (with_hovered false).

(** The loop keeps whether a status is in progress, and whether one failed. *)
Definition look_at (x : bool * bool) (st : StatusClass) : bool * bool :=
  let t := toLowerCase (s_status st) in
  if negb (t === toLowerCase DEPLOYED) && negb (t === FAILED) then (true, snd x)
  else if t === FAILED then (fst x, true) else x.
Definition card_color (nodes : list StatusClass) : string :=
  match nodes with
  | [] => WHITE
  | _ => let '(in_progress, failed) := fold_left look_at nodes (false, false) in
         if failed : bool then RED else if in_progress : bool then YELLOW else GREEN
  end.
Definition get_background_color : MC string :=
  s <- gets (fun s => s) ;;
  let color := card_color (ch_nodes (chart s)) in
  modify (with_color (Some color)) ;;;
  when (negb (bool_decide (hover_color s = Some color))) (emit (Page DetectChanges)) ;;;
  ret color.
Definition card_ngOnInit : MC unit := color <- get_background_color ;; modify (with_color (Some color)).
(** A name that every object has is not the text of a status. *)
Definition get_status_color (node : StatusClass) : string :=
  match List.find (fun x => fst x === toLowerCase (s_status node)) COLORS_DICT with Some (_, c) => c | None => WHITE end.
Definition is_disabled (c : ChartClass) (s : ApplicationCardComponent) : bool :=
  ((toLowerCase (ch_application c) === ZEEK) || (toLowerCase (ch_application c) === SURICATA)) && card_rule_sync s.
Definition card_select (c : ChartClass) : MC unit := emit (Navigate ("/application/" +:+ ch_application c)).

(** components/node-background *)
Record NodeBackgroundComponent := { size : string * string; color : option string; zoomed : bool }.
Definition DEFAULT_NODE_BACKGROUND_SIZE : string * string := ("118px", "143px").
Definition new_NodeBackgroundComponent : NodeBackgroundComponent :=
  {| size := DEFAULT_NODE_BACKGROUND_SIZE; color := None; zoomed := false |}.

(** ** What the list shows *)

Section Shown.
Context {Co : Collation} {J : JSON}.

Definition flag (v : jsval) (k : string) : bool := js_truthy (prop v k).
Definition chosen (fs : jsval) (h : store ChartClass) (l : list loc) : list loc :=
  (if flag fs "pmo" then keep pmoSupported h l else []) ++
  (if flag fs "community" then keep (fun c => negb (pmoSupported c)) h l else []).
Definition shown_charts (fs : jsval) (l : list loc) (s : CatalogComponent) : list loc :=
  let sorted := js_sort (by_application (heap s)) (chosen fs (heap s) l) in
  if has_sensors_ s then sorted else keep (fun c => negb (isSensorApp c)) (heap s) sorted.

Lemma elem_of_keep test h l p : p ∈ keep test h l <-> p ∈ l /\ exists c, load h p = Some c /\ test c = true.
Proof using.
  unfold keep. rewrite list_elem_of_In, List.filter_In, <- list_elem_of_In. split.
  - intros [H1 H2]. split; [done|]. destruct (load h p) as [c|]; [by exists c | done].
  - intros [H1 (c & -> & H2)]. done.
Qed.

Lemma keep_loads test h l cs : Forall2 (fun p c => load h p = Some c) l cs -> omap (load h) (keep test h l) = List.filter test cs.
Proof using.
  unfold keep. induction 1 as [|p c l cs Hp _ IH]; [done|].
  cbn [List.filter]. rewrite Hp. destruct (test c); [|done]. csimpl. by rewrite Hp, IH.
Qed.

Lemma loads_related (h : store ChartClass) (l : list loc) : Forall (fun p => is_Some (load h p)) l -> Forall2 (fun p c => load h p = Some c) l (omap (load h) l).
Proof using. induction 1 as [|p l [c Hc] _ IH]; [constructor|]. csimpl. rewrite Hc. by constructor. Qed.

Lemma related_loads (h : store ChartClass) (l : list loc) cs : Forall2 (fun p c => load h p = Some c) l cs -> omap (load h) l = cs.
Proof using. induction 1 as [|p c l cs Hp _ IH]; [done|]. csimpl. by rewrite Hp, IH. Qed.

Lemma sorted_filter {A} (R : A -> A -> Prop) test (l : list A) : StronglySorted R l -> StronglySorted R (List.filter test l).
Proof using.
  induction 1 as [|x l Hl IH Hx]; simpl; [constructor|]. destruct (test x); [|done]. constructor; [done|].
  apply Forall_forall. intros y [Hy _]%list_elem_of_In%List.filter_In. rewrite Forall_forall in Hx. by apply Hx, list_elem_of_In.
Qed.

Lemma shown_member fs l s p : p ∈ shown_charts fs l s <->
  p ∈ l /\ exists c, load (heap s) p = Some c /\ flag fs (if pmoSupported c then "pmo" else "community") = true /\
    (isSensorApp c = true -> has_sensors_ s = true).
Proof using.
  assert (Hc : p ∈ chosen fs (heap s) l <-> p ∈ l /\ exists c, load (heap s) p = Some c /\
    flag fs (if pmoSupported c then "pmo" else "community") = true).
  { unfold chosen. rewrite elem_of_app. split.
    - intros [H|H].
      + destruct (flag fs "pmo") eqn:E; [|by apply not_elem_of_nil in H]. apply elem_of_keep in H as [H (c & Hl & Hp)].
        split; [done|]. exists c. by rewrite Hp.
      + destruct (flag fs "community") eqn:E; [|by apply not_elem_of_nil in H]. apply elem_of_keep in H as [H (c & Hl & Hp)].
        split; [done|]. exists c. apply negb_true_iff in Hp. by rewrite Hp.
    - intros [H (c & Hl & Hf)]. destruct (pmoSupported c) eqn:E; rewrite Hf; [left|right]; apply elem_of_keep; (split; [done|]);
        exists c; by rewrite E. }
  assert (Hs : p ∈ js_sort (by_application (heap s)) (chosen fs (heap s) l) <-> p ∈ chosen fs (heap s) l) by (by rewrite js_sort_permutation).
  unfold shown_charts. destruct (has_sensors_ s); [rewrite Hs, Hc; naive_solver|].
  rewrite elem_of_keep, Hs, Hc. split.
  - intros [[H (c & Hl & Hf)] (c' & Hl' & Ht)]. rewrite Hl in Hl'. injection Hl' as <-. split; [done|]. exists c.
    split; [done|]. split; [done|]. by destruct (isSensorApp c).
  - intros [H (c & Hl & Hf & Ht)]. split; [eauto|]. exists c. split; [done|]. destruct (isSensorApp c); [by discriminate Ht | done].
Qed.

Lemma shown_sorted fs l s : Forall (fun p => is_Some (load (heap s) p)) l ->
  StronglySorted (cmp_le chart_application_alphanum) (omap (load (heap s)) (shown_charts fs l s)).
Proof using.
  intros Hl. set (k := chosen fs (heap s) l).
  assert (Hk : Forall (fun p => is_Some (load (heap s) p)) k).
  { apply Forall_forall. intros p Hp. unfold k, chosen in Hp. apply elem_of_app in Hp as [Hp|Hp];
      (destruct (flag fs _); [apply elem_of_keep in Hp as [_ (c & -> & _)]; by eexists | by apply not_elem_of_nil in Hp]). }
  assert (Hr : Forall2 (fun p c => load (heap s) p = Some c) (js_sort (by_application (heap s)) k)
    (js_sort chart_application_alphanum (omap (load (heap s)) k))).
  { apply js_sort_related; [|by apply loads_related]. intros a a' b b' H1 H2. unfold by_application. by rewrite H1, H2. }
  pose proof (js_sort_sorted chart_application_alphanum (by_text_antisym ch_application) (by_text_trans ch_application)
    (omap (load (heap s)) k)) as Hsort.
  unfold shown_charts. fold k. destruct (has_sensors_ s); [by rewrite (related_loads _ _ _ Hr)|].
  rewrite (keep_loads _ _ _ _ Hr). by apply sorted_filter.
Qed.

(** The filters: the list has the charts of the kinds that are chosen, those for
    sensors when a sensor was reported, in the order of their names, and the cookie
    keeps the choice. *)
Lemma shows_run v s k : show_charts s = Some v -> defined v = true -> shows k s = (Ret (flag v k), s, []).
Proof using.
  intros Hf Hv. unfold shows, get. rewrite (bind_run_silent _ _ s s s) by done. rewrite Hf.
  unfold flag, prop. rewrite (bind_run_silent _ _ s v s) by done. by destruct v.
Qed.
Theorem list_is_filtered v l s : show_charts s = Some v -> defined v = true ->
  (charts_ s = Some l \/ charts_ s = None /\ flag v "pmo" = false /\ flag v "community" = false) ->
  filter_charts s = (Ret tt, with_filtered (shown_charts v l s) s, [SetCookie SHOW_CHART_COOKIE_NAME (stringify v)]).
Proof using.
  intros Hf Hv Hl. pose proof (fun k => shows_run v s k Hf Hv) as Hshow.
  unfold filter_charts. rewrite (bind_run_silent _ _ s (flag v "pmo") s) by apply Hshow.
  rewrite (bind_run_silent _ _ s (if flag v "pmo" then keep pmoSupported (heap s) l else []) s).
  2: { unfold filter_pmo_applications_, get. destruct Hl as [Hl|(_ & -> & _)]; [|done]. destruct (flag v "pmo"); [|done].
       rewrite (bind_run_silent _ _ s s s) by done. by rewrite Hl. }
  rewrite (bind_run_silent _ _ s (flag v "community") s) by apply Hshow.
  rewrite (bind_run_silent _ _ s (if flag v "community" then keep (fun c => negb (pmoSupported c)) (heap s) l else []) s).
  2: { unfold filter_community_applications_, get. destruct Hl as [Hl|(_ & _ & ->)]; [|done]. destruct (flag v "community"); [|done].
       rewrite (bind_run_silent _ _ s s s) by done. by rewrite Hl. }
  unfold get. rewrite (bind_run_silent _ _ s s s) by done.
  set (sorted := js_sort _ _). rewrite (bind_run_silent _ _ s tt (with_filtered sorted s)) by done.
  rewrite (bind_run_silent _ _ _ tt (with_filtered (shown_charts v l s) s)).
  - set (s2 := with_filtered _ _). unfold cookie_set_, get. rewrite (bind_run_silent _ _ s2 s2 s2) by done. unfold s2. simpl. by rewrite Hf.
  - set (s2 := with_filtered sorted s). unfold filter_sensor_applications_, get. rewrite (bind_run_silent _ _ s2 s2 s2) by done.
    unfold shown_charts. fold sorted. simpl. by destruct (has_sensors_ s).
Qed.

(** Otherwise the filters throw and leave everything as it is. *)
Lemma filter_turn s : state_of (filter_charts s) = s \/ exists v l, state_of (filter_charts s) = with_filtered (shown_charts v l s) s.
Proof using.
  destruct (show_charts s) as [v|] eqn:Ef.
  2: { left. unfold filter_charts, shows, get, bind, gets, deref. cbn. by rewrite Ef. }
  destruct (defined v) eqn:Ev.
  2: { left. unfold filter_charts, shows, get, bind, gets, deref. cbn. rewrite Ef. by destruct v. }
  destruct (charts_ s) as [l|] eqn:El; [right; exists v, l; by rewrite (list_is_filtered v l s Ef Ev (or_introl El))|].
  pose proof (fun k => shows_run v s k Ef Ev) as Hshow.
  destruct (flag v "pmo") eqn:Ep.
  { left. unfold filter_charts. rewrite (bind_state _ _ s true s []) by (by rewrite Hshow, Ep).
    rewrite (bind_run_throw _ _ s "TypeError" s []); [done|]. unfold filter_pmo_applications_, get.
    rewrite (bind_run_silent _ _ s s s) by done. by rewrite El. }
  destruct (flag v "community") eqn:Ec.
  { left. unfold filter_charts. rewrite (bind_state _ _ s false s []) by (by rewrite Hshow, Ep).
    rewrite (bind_state _ _ s [] s []) by done. rewrite (bind_state _ _ s true s []) by (by rewrite Hshow, Ec).
    rewrite (bind_run_throw _ _ s "TypeError" s []); [done|]. unfold filter_community_applications_, get.
    rewrite (bind_run_silent _ _ s s s) by done. by rewrite El. }
  right. exists v, []. by rewrite (list_is_filtered v [] s Ef Ev (or_intror (conj El (conj Ep Ec)))).
Qed.

(** The choice is remembered: the next visit starts from what the cookie was given. *)
Lemma choice_is_remembered {JL : JSONLaws J} v s : json_safe v = true -> stringify v <> "" ->
  show_charts (state_of (cookie_get_ (stringify v) s)) = Some v.
Proof using.
  intros Hs Hne. unfold cookie_get_. rewrite (proj2 (seqb_neq _ _) Hne), parse_stringify by done. done.
Qed.
Lemma default_choice {JL : JSONLaws J} s : show_charts (state_of (cookie_get_ "" s)) = Some DEFAULT_SHOW_CHART.
Proof using. unfold cookie_get_. simpl. by rewrite parse_stringify. Qed.

(** *** Charts for sensors *)

Abbreviation log := (list (label event Ans * list (effect call page))).
(** Every card that is shown is of a chart; one for sensors is shown only after a
    sensor was reported. *)
Definition list_ok (s : CatalogComponent) : Prop :=
  store_wf (heap s) /\ forall p, p ∈ filtered_charts s -> exists c, load (heap s) p = Some c /\ (isSensorApp c = true -> has_sensors_ s = true).
Definition quiet_effect (e : effect call page) : Prop := True.

Lemma list_ok_filter s : list_ok s -> list_ok (state_of (filter_charts s)).
Proof using.
  intros [Hwf Hs]. destruct (filter_turn s) as [->|(v & l & ->)]; [done|]. split; [done|].
  intros p (_ & c & Hc & _ & Ht)%shown_member. by exists c.
Qed.
Lemma ok_filter : safe list_ok quiet_effect filter_charts.
Proof using. intros s Hs. split; [by apply list_ok_filter|]. by apply Forall_forall. Qed.

Lemma list_ok_statuses p application data s :
  list_ok s -> list_ok (with_charts (charts_ s) (update p (new_statuses application data) (heap s)) s).
Proof using.
  intros [Hwf Hs]. split; [by apply update_wf|]. intros q Hq. destruct (Hs q Hq) as (c & Hc & Ht). simpl.
  destruct (decide (p = q)) as [->|Hne]; [rewrite load_update_eq, Hc | rewrite load_update_ne by done; by exists c].
  eexists. split; [done|]. unfold new_statuses. by destruct (_ === _).
Qed.

Lemma ok_turn l : safe list_ok quiet_effect (react (K := catalog_list) l).
Proof using.
  assert (He : forall e, safe list_ok quiet_effect (emit e)) by (intros e; by apply safe_emit).
  assert (Hkeep : forall (m : M unit), (forall s, filtered_charts (state_of (m s)) = filtered_charts s /\ heap (state_of (m s)) = heap s /\
     (has_sensors_ s = true -> has_sensors_ (state_of (m s)) = true)) -> safe list_ok quiet_effect m).
  { intros m Hm s [Hwf Hs]. split; [|by apply Forall_forall]. destruct (Hm s) as (E1 & E2 & E3). split; [by rewrite E2|].
    intros p. rewrite E1. intros Hp. destruct (Hs p Hp) as (c & Hc & Ht). exists c. rewrite E2. auto. }
  destruct l as [[cookie|n|b|b]|[] a]; cbn [react Runtime.on_event Runtime.on_answer catalog_list on_event on_answer].
  - apply safe_bind; [apply He|intros _]. apply safe_bind; [|intros _; apply He]. apply Hkeep. intros s. unfold cookie_get_. by destruct (parse _).
  - unfold setup_websocket_onbroadcast_, get. destruct (_ === _).
    + apply safe_bind; [apply safe_gets|]. intros s. destruct (nt_data n) as [data|], (charts_ s) as [l|]; try apply safe_ret.
      apply safe_for_each. intros p _. intros s0 Hs0. split; [by apply list_ok_statuses | by apply Forall_forall].
    + destruct (_ === _); [|destruct (_ === _); [|apply safe_ret]].
      * destruct (reloads n); [|apply safe_ret]. intros s [Hwf _]. split; [|by apply Forall_forall]. split; [exact Hwf|].
        by intros p ?%not_elem_of_nil.
      * apply safe_bind; [|intros _]; (destruct (_ === _); [|apply safe_ret]); by apply Hkeep.
  - apply safe_bind; [apply safe_gets|]. intros s. destruct (negb _); [|apply safe_ret]. unfold toggle, get.
    apply safe_bind; [apply safe_gets|]. intros s0. apply safe_bind; [|intros _; apply ok_filter].
    destruct (show_charts s0) as [[]|]; first [apply safe_throw | by apply Hkeep].
  - apply safe_bind; [apply safe_gets|]. intros s. destruct (negb _); [|apply safe_ret]. unfold toggle, get.
    apply safe_bind; [apply safe_gets|]. intros s0. apply safe_bind; [|intros _; apply ok_filter].
    destruct (show_charts s0) as [[]|]; first [apply safe_throw | by apply Hkeep].
  - destruct a as [r|e]; [|apply He]. apply safe_bind; [|intros _; apply He]. intros s [Hwf Hs]. split; [|by apply Forall_forall].
    unfold modify, state_of. simpl. destruct (alloc_list r (heap s)) as [ps h] eqn:E. split; [by apply (alloc_list_wf _ _ _ _ E)|].
    simpl. intros p Hp. destruct (Hs p Hp) as (c & Hc & Ht). exists c. split; [|done].
    rewrite (alloc_list_old _ _ _ _ p E); [done|]. apply Hwf. by eexists.
  - destruct a as [r|e]; [|apply He]. apply safe_bind; [|intros _; apply safe_bind; [by apply Hkeep | intros _; apply ok_filter]].
    apply safe_for_each. intros x _. destruct (_ === _); [by apply Hkeep | apply safe_ret].
Qed.

(** In every interleaving a chart for sensors is shown only when a sensor was
    reported since the last reset. *)
Theorem sensor_charts_need_a_sensor tr w p : trace (K := catalog_list) (fun _ => True) tr w ->
  p ∈ filtered_charts (component w) ->
  exists c, load (heap (component w)) p = Some c /\ (isSensorApp c = true -> has_sensors_ (component w) = true).
Proof using.
  intros Htr. destruct (trace_invariant (K := catalog_list) (fun _ => True) list_ok (fun _ => quiet_effect)) with (tr := tr) (w := w) as [[_ H] _].
  - split; [apply store_empty_wf | by intros q ?%not_elem_of_nil].
  - intros l _. apply ok_turn.
  - done.
  - apply H.
Qed.
End Shown.

(** An answer that was asked for before the reset counts: the application for sensors
    stays although the last answer has no sensor. *)
Definition zeek_chart : ChartClass :=
  {| ch_appVersion := ""; ch_version := ""; ch_application := "zeek"; ch_description := ""; pmoSupported := true;
     isSensorApp := true; ch_nodes := [] |}.
Definition removed_sensor : NodeClass :=
  {| _id := None; deployment_name := None; deployment_type := ""; hostname := "sensor1.lan"; ip_address := "10.0.0.9"; is_remote := None;
     jobs := None; mac_address := ""; node_type := "Sensor"; raid0_override := None; virtual_cpu := 0; virtual_data := None;
     virtual_mem := 0; virtual_os := 0; vpn_status := None; isDeployed := None; isRemoving := None; status := None; deviceFacts := None |}.
Definition node_removed : NotificationClass :=
  {| nt__id := None; nt_role := "node"; nt_message := "Remove Node completed."; nt_status := "COMPLETED"; nt_exception := "";
     timestamp := None; displayTime := None; nt_action := None; nt_application := ""; nt_data := None |}.
Lemma stale_sensor_answer : exists tr w es p,
  trace (K := catalog_list (Co := code_collation) (J := bits_json)) (fun _ => True) (tr ++ [(Answered CNodes (Next []), es)]) w /\
  p ∈ filtered_charts (component w) /\ load (heap (component w)) p = Some zeek_chart.
Proof.
  pose (K := catalog_list (Co := code_collation) (J := bits_json)).
  pose proof (trace_start (K := K) (fun _ => True)) as T.
  apply (trace_event _ _ _ (NgOnInit "")) in T; [|exact I].
  match type of T with trace _ ?tr ?w => set (w1 := w) in T end.
  assert (Hp : pending w1 = [] ++ CStatuses :: []) by reflexivity.
  apply (trace_answer _ _ _ [] _ [] (Next [zeek_chart] : Ans CStatuses)) in T; [|exact I|exact Hp].
  apply (trace_event _ _ _ (Broadcast node_removed)) in T; [|exact I].
  match type of T with trace _ ?tr ?w => set (w2 := w) in T end.
  assert (Hp2 : pending w2 = [] ++ CNodes :: [CStatuses]) by reflexivity.
  apply (trace_answer _ _ _ [] _ [CStatuses] (Next [removed_sensor] : Ans CNodes)) in T; [|exact I|exact Hp2].
  match type of T with trace _ ?tr ?w => set (w3 := w) in T end.
  assert (Hp3 : pending w3 = [] ++ CStatuses :: []) by reflexivity.
  apply (trace_answer _ _ _ [] _ [] (Next [zeek_chart] : Ans CStatuses)) in T; [|exact I|exact Hp3].
  match type of T with trace _ ?tr ?w => set (w4 := w) in T end.
  assert (Hp4 : pending w4 = [] ++ CNodes :: []) by reflexivity.
  apply (trace_answer _ _ _ [] _ [] (Next [] : Ans CNodes)) in T; [|exact I|exact Hp4].
  match type of T with trace _ (?tr ++ [(_, ?es)]) ?w => exists tr, w, es, 1%nat end.
  split; [exact T|]. split; [vm_compute; left | vm_compute; reflexivity].
Qed.

(** ** The card *)

Definition has_status (t : string) (st : StatusClass) : Prop := toLowerCase (s_status st) = t.
#[export] Instance has_status_dec t st : Decision (has_status t st).
Proof. unfold has_status. apply _. Defined.

(** The colour of a card: red when an installation failed, green when all succeeded,
    white when there is none. *)
Theorem card_color_worst nodes :
  card_color nodes =
    if decide (nodes = []) then WHITE
    else if decide (Exists (has_status "failed") nodes) then RED
    else if decide (Forall (has_status "deployed") nodes) then GREEN else YELLOW.
Proof.
  set (failed := fun st => toLowerCase (s_status st) === "failed").
  set (deployed := fun st => toLowerCase (s_status st) === "deployed").
  assert (Hfold : forall x, fold_left look_at nodes x =
    (fst x || existsb (fun st => negb (deployed st) && negb (failed st)) nodes, snd x || existsb failed nodes)).
  { induction nodes as [|st nodes IH]; intros [a b]; simpl; [by rewrite !orb_false_r|]. rewrite IH. unfold look_at.
    change (toLowerCase DEPLOYED) with "deployed". fold (deployed st). unfold FAILED. fold (failed st).
    destruct (deployed st), (failed st); simpl; by rewrite ?orb_true_r. }
  assert (Hf : existsb failed nodes = true <-> Exists (has_status "failed") nodes).
  { rewrite existsb_exists, Exists_exists. setoid_rewrite list_elem_of_In. unfold failed. by setoid_rewrite seqb_eq. }
  unfold card_color. destruct nodes as [|st nodes]; [done|]. rewrite decide_False by done. rewrite (Hfold (false, false)), !orb_false_l.
  destruct (decide (Exists _ _)) as [He|He]; [by rewrite (proj2 Hf He)|].
  replace (existsb failed (st :: nodes)) with false by (symmetry; apply not_true_iff_false; by rewrite Hf).
  destruct (existsb _ (st :: nodes)) eqn:Ep.
  - apply existsb_exists in Ep as (x & Hx & [Hd _]%andb_true_iff). rewrite decide_False; [done|].
    intros Hall. rewrite Forall_forall in Hall. specialize (Hall x (proj2 (list_elem_of_In _ _) Hx)).
    apply negb_true_iff, seqb_neq in Hd. done.
  - rewrite decide_True; [done|]. apply Forall_forall. intros x Hx. apply not_true_iff_false in Ep. unfold has_status.
    destruct (deployed x) eqn:Hd; [by apply seqb_eq|]. exfalso. apply Ep, existsb_exists. exists x.
    split; [by apply list_elem_of_In|]. rewrite Hd. simpl. apply negb_true_iff. apply not_true_iff_false.
    intros Hx'. apply He, Exists_exists. exists x. split; [done|]. by apply seqb_eq.
Qed.

(** The views disagree on an application that was uninstalled: its label has red, its
    card has yellow. *)
Lemma uninstalled_is_yellow st : toLowerCase (s_status st) = "uninstalled" -> card_color [st] = YELLOW /\ get_status_color st = RED.
Proof. intros E. unfold card_color, get_status_color, look_at. simpl. by rewrite E. Qed.
