(* ===== verification/PmoSupport.v ===== *)
(** modules/pmo-support: the version of the system and the download of diagnostics.

    The script runs on the server, which tells every client when it has finished.  The
    download is one request with a stream of progress events: its subscription waits
    on, as [CMore], until the stream ends. *)
From S2P Require Import Prelude Handler JsValue Number Runtime Data Api.

Definition PMO_SUPPORT_TITLE : string := "PMO Support".
(** classes/system-version.class.ts *)
Record SystemVersionClass := { version : string; commit_hash : string; build_date : string }.

(** ** Services *)

Definition get_system_version : service unit SystemVersionClass SystemVersionClass :=
  Service GET "/api/version/information" tt "version" copied.
Definition start_diagnostics : service unit GenericJobAndKeyClass GenericJobAndKeyClass :=
  Service POST "/api/diagnostics" tt "post diagnostics" copied.

(** An [HttpEvent] of the download; of a blob that is saved only its content counts.
    The size of the whole is not always known. *)
Inductive HttpEvent : Type :=
| DownloadProgress (loaded : Z) (total : option Z)
| Response (body : string)
| OtherEvent.
Definition download_diagnostics (job_id : option string) : service unit HttpEvent HttpEvent :=
  Service GET ("/api/diagnostics/download/" +:+ match job_id with Some j => j | None => "null" end) tt "get diagnostics" copied.

(** ** The component *)

(** [None] is a job id that is null or undefined. *)
Inductive call : Type :=
| CVersion
| CDiagnostics
| CDownload (job_id : option string)
| CMore (job_id : option string).
Definition Ans (c : call) : Type :=
  match c with
  | CVersion => answer SystemVersionClass
  | CDiagnostics => answer GenericJobAndKeyClass
  | CDownload _ | CMore _ => answer HttpEvent
  end.
Inductive page : Type := SaveAs (body name : string).

Record PmoSupportComponent := {
  system_version : option SystemVersionClass;
  diagnostics_job_id : option string;
  diagnostics_download_progress : option number;
  running_diagnostics_script : option bool;
}.
Abbreviation M := (handler PmoSupportComponent (effect call page)).
Definition constructor : PmoSupportComponent :=
  {| system_version := None; diagnostics_job_id := None; diagnostics_download_progress := None; running_diagnostics_script := None |}.
Definition with_version v s := {| system_version := v; diagnostics_job_id := diagnostics_job_id s;
  diagnostics_download_progress := diagnostics_download_progress s; running_diagnostics_script := running_diagnostics_script s |}.
Definition with_job v s := {| system_version := system_version s; diagnostics_job_id := v;
  diagnostics_download_progress := diagnostics_download_progress s; running_diagnostics_script := running_diagnostics_script s |}.
Definition with_progress v s := {| system_version := system_version s; diagnostics_job_id := diagnostics_job_id s;
  diagnostics_download_progress := v; running_diagnostics_script := running_diagnostics_script s |}.
Definition with_running v s := {| system_version := system_version s; diagnostics_job_id := diagnostics_job_id s;
  diagnostics_download_progress := diagnostics_download_progress s; running_diagnostics_script := v |}.
Definition get : M PmoSupportComponent := gets (fun s => s).

Definition api_get_system_version_ : M unit := emit (Subscribe CVersion).
Definition api_diagnostics_ : M unit := emit (Subscribe CDiagnostics).
Definition api_download_diagnostics_ : M unit := s <- get ;; emit (Subscribe (CDownload (diagnostics_job_id s))).

Definition ngOnInit : M unit :=
  displaySnackBar "Be cognizant downloading log files and then uploading them to service now if they are from a classified network."
    (Some MAT_SNACKBAR_CONFIGURATION_60000_DUR) ;;;
  emit (SetTitle PMO_SUPPORT_TITLE) ;;;
  api_get_system_version_.
Definition is_system_version_defined (s : PmoSupportComponent) : bool := notUndefNull (system_version s).
Definition is_running_diagnostics_script_defined (s : PmoSupportComponent) : bool := notUndefNull (running_diagnostics_script s).
Definition is_diagnostics_download_progress_defined (s : PmoSupportComponent) : bool := notUndefNull (diagnostics_download_progress s).
Definition is_diagnostics_job_id_defined (s : PmoSupportComponent) : bool := notUndefNull (diagnostics_job_id s).
Definition diagnostics : M unit := api_diagnostics_.

(** The listener on the socket. *)
Definition setup_websocket_diagnostics_finished_ (rc : Z) : M unit :=
  modify (with_running None) ;;;
  if Z.eqb rc 0 then api_download_diagnostics_
  else modify (with_job None) ;;;
       generate_return_error_snackbar_message "Diagnostics script failed." (Some MAT_SNACKBAR_CONFIGURATION_60000_DUR).

Definition api_get_system_version_answer (a : answer SystemVersionClass) : M unit :=
  match a with
  | Next response => modify (with_version (Some response))
  | Error e => on_error "retrieving system version" e
  end.
Definition api_diagnostics_answer (a : answer GenericJobAndKeyClass) : M unit :=
  match a with
  | Next response => modify (with_job (Some (gj_job_id response))) ;;; modify (with_running (Some true))
  | Error e => on_error "starting diagnostics download" e
  end.
(** [100 * loaded / total] *)
Definition percent (loaded : Z) (total : option Z) : number :=
  match total with
  | Some t => (number_of_Z 100 * number_of_Z loaded / number_of_Z t)%number
  | None => NaN
  end.
Definition api_download_diagnostics_answer (job_id : option string) (a : answer HttpEvent) : M unit :=
  match a with
  | Next (DownloadProgress loaded total) => modify (with_progress (Some (percent loaded total))) ;;; emit (Subscribe (CMore job_id))
  | Next (Response body) =>
      emit (Page (SaveAs body "diagnostics.tar.gz")) ;;; modify (with_job None) ;;; modify (with_progress None)
  | Next OtherEvent => emit (Subscribe (CMore job_id))
  | Error e => on_error "downloading diagnostics" e
  end.

Inductive event : Type := NgOnInit | DownloadClick | DiagnosticsFinished (rc : Z).
Definition on_event (e : event) : M unit :=
  match e with
  | NgOnInit => ngOnInit
  | DownloadClick => s <- get ;; when (negb (is_diagnostics_job_id_defined s)) diagnostics
  | DiagnosticsFinished rc => setup_websocket_diagnostics_finished_ rc
  end.
Definition on_answer (c : call) : Ans c -> M unit :=
  match c with
  | CVersion => api_get_system_version_answer
  | CDiagnostics => api_diagnostics_answer
  | CDownload j | CMore j => api_download_diagnostics_answer j
  end.
#[export] Instance pmo_support : Component PmoSupportComponent call page event Ans :=
  {| initial := constructor; Runtime.on_event := on_event; Runtime.on_answer := on_answer |}.

(** ** The downloads *)

Abbreviation log := (list (label event Ans * list (effect call page))).
(** A job id that the server gave to this page. *)
Definition given (tr : log) (j : string) : Prop :=
  exists r es, (Answered CDiagnostics (Next r), es) ∈ tr /\ gj_job_id r = j.
Definition of_job (c : call) : option string := match c with CDownload j | CMore j => j | _ => None end.
Definition job_ok (tr : log) (w : world PmoSupportComponent call) : Prop :=
  (forall j, diagnostics_job_id (component w) = Some j -> given tr j) /\
  (forall c j, c ∈ pending w -> of_job c = Some j -> given tr j).

Lemma given_later tr x j : given tr j -> given (tr ++ [x]) j.
Proof. intros (r & es & H & E). exists r, es. split; [|done]. apply elem_of_app. by left. Qed.

(** What a turn asks for: a download of the job that the page has, by a message that
    the script succeeded, or the rest of one that waited. *)
Lemma downloads_of_turn l s c j : Subscribe c ∈ effects_of (react l s) -> of_job c = Some j ->
  (l = Event (DiagnosticsFinished 0) /\ diagnostics_job_id s = Some j) \/
  match l with Answered d _ => of_job d = Some j | Event _ => False end.
Proof.
  intros Hin Hj. destruct l as [[| |rc]|d a]; cbn [react Runtime.on_event Runtime.on_answer pmo_support on_event on_answer] in Hin.
  - repeat (apply elem_of_cons in Hin as [?|Hin]; [by simplify_eq|]). by apply not_elem_of_nil in Hin.
  - unfold get in Hin. rewrite (bind_run_silent _ _ s s s) in Hin by done. destruct (negb _); [|by apply not_elem_of_nil in Hin].
    by apply elem_of_cons in Hin as [[= ->]|?%not_elem_of_nil].
  - left. unfold setup_websocket_diagnostics_finished_ in Hin. rewrite (bind_run_silent _ _ s tt (with_running None s)) in Hin by done.
    destruct (Z.eqb_spec rc 0) as [->|_]; [|by apply elem_of_cons in Hin as [?|?%not_elem_of_nil]].
    unfold api_download_diagnostics_, get in Hin. rewrite (bind_run_silent _ _ _ (with_running None s) (with_running None s)) in Hin by done.
    by apply elem_of_cons in Hin as [[= ->]|?%not_elem_of_nil].
  - right. destruct d as [| |k|k]; simpl in Hin.
    + destruct a; [by apply not_elem_of_nil in Hin | by apply elem_of_cons in Hin as [?|?%not_elem_of_nil]].
    + destruct a; [by apply not_elem_of_nil in Hin | by apply elem_of_cons in Hin as [?|?%not_elem_of_nil]].
    + destruct a as [[]|]; by apply elem_of_cons in Hin as [?|?%not_elem_of_nil]; simplify_eq.
    + destruct a as [[]|]; by apply elem_of_cons in Hin as [?|?%not_elem_of_nil]; simplify_eq.
Qed.

(** The job id of the page is dropped or comes from an answer. *)
Lemma job_turn l s j : diagnostics_job_id (state_of (react l s)) = Some j ->
  diagnostics_job_id s = Some j \/ exists r, l = Answered CDiagnostics (Next r) /\ gj_job_id r = j.
Proof.
  destruct l as [[| |rc]|d a]; cbn [react Runtime.on_event Runtime.on_answer pmo_support on_event on_answer]; [by left| | |].
  - unfold get. rewrite (bind_state _ _ s s s []) by done. destruct (negb _); by left.
  - unfold setup_websocket_diagnostics_finished_. rewrite (bind_state _ _ s tt (with_running None s) []) by done.
    destruct (Z.eqb rc 0); [by left | done].
  - destruct d as [| |k|k]; simpl.
    + destruct a; by left.
    + destruct a as [r|e]; [|by left]. intros [= <-]. right. by exists r.
    + destruct a as [[]|]; simpl; first [by left | done].
    + destruct a as [[]|]; simpl; first [by left | done].
Qed.

(** In every interleaving with the messages of the server, those about the scripts of
    other users included, a download that names a job names one that the server gave
    to this page. *)
Theorem downloads_are_own tr w j : trace (fun _ => True) tr w -> CDownload (Some j) ∈ pending w -> given tr j.
Proof.
  intros Htr Hp. assert (Hw : job_ok tr w).
  { clear Hp. induction Htr as [|tr w l w' _ [IH1 IH2] _ Hstep]; [split; [done | by intros c k ?%not_elem_of_nil]|]. split.
    - intros k. rewrite (step_component _ _ _ Hstep). intros [Hk|(r & -> & Hr)]%job_turn; [by apply given_later, IH1|].
      eexists r, _. split; [|done]. apply elem_of_app. right. by left.
    - intros c k [Hc|Hc]%(step_waiting w l w' _ Hstep) Hk; [by apply given_later, (IH2 c)|]. apply given_later.
      destruct (downloads_of_turn _ _ _ _ Hc Hk) as [[_ Hj]|Hd]; [by apply IH1|]. pose proof (answered_pending _ _ _ Hstep) as Hp.
      destruct l as [e|d a]; [done|]. by apply (IH2 d). }
  by apply (proj2 Hw (CDownload (Some j))).
Qed.

(** A message about the script of another user makes a page without a job ask for the
    diagnostics of no job. *)
Lemma foreign_message_downloads_null s : diagnostics_job_id s = None ->
  effects_of (on_event (DiagnosticsFinished 0) s) = [Subscribe (CDownload None)].
Proof. intros E. unfold on_event, setup_websocket_diagnostics_finished_, api_download_diagnostics_, get, bind, modify, gets, emit. cbn. by rewrite E. Qed.

(** After a download that failed the button stays disabled. *)
Lemma failed_download_disables j e s : diagnostics_job_id s = Some j ->
  let s' := state_of (on_answer (CDownload (Some j)) (Error e) s) in
  diagnostics_job_id s' = Some j /\ effects_of (on_event DownloadClick s') = [].
Proof.
  intros E. split; [done|].
  change (effects_of (bind get (fun s => when (negb (is_diagnostics_job_id_defined s)) diagnostics) s) = []).
  rewrite (bind_run_silent _ _ s s s) by done. unfold is_diagnostics_job_id_defined. by rewrite E.
Qed.
