(* ===== verification/DockerRegistry.v ===== *)
(** modules/docker-registry: the table of the images. *)
From S2P Require Import Prelude Handler JsValue Runtime Data Api.

Definition DOCKER_REGISTRY_TITLE : string := "Docker Registry".
Record DockerRegistryMetadataClass := { tag : string; image_id : string; image_size : Z }.
Record DockerRegistryClass := { dr_name : string; dr_metadata : list DockerRegistryMetadataClass }.
(** What the server sends; the metadata may be missing. *)
Record DockerRegistryInterface := { dri_name : string; dri_metadata : option (list DockerRegistryMetadataClass) }.
Definition new_DockerRegistryClass (i : DockerRegistryInterface) : DockerRegistryClass :=
  {| dr_name := dri_name i; dr_metadata := default [] (dri_metadata i) |}.
Definition get_docker_registry : service unit (list DockerRegistryInterface) (list DockerRegistryClass) :=
  Service GET "/api/kubernetes/docker/registry" tt "get docker registry" (fun response => Ret (new_DockerRegistryClass <$> response)).

Inductive call : Type := CRegistry.
Definition Ans (c : call) : Type := answer (list DockerRegistryClass).
Inductive page : Type := .
Record DockerRegistryComponent := { registry : list DockerRegistryClass; loading : bool }.
Abbreviation M := (handler DockerRegistryComponent (effect call page)).
Definition columnsForImages : list string := ["name"; "tags"; "image_id"; "image_size"].
Definition constructor : DockerRegistryComponent := {| registry := []; loading := false |}.
Definition with_registry v (s : DockerRegistryComponent) := {| registry := v; loading := loading s |}.
Definition with_loading v (s : DockerRegistryComponent) := {| registry := registry s; loading := v |}.

Definition api_get_docker_registry_ : M unit := modify (with_loading true) ;;; emit (Subscribe CRegistry).
Definition api_get_docker_registry_answer (a : answer (list DockerRegistryClass)) : M unit :=
  match a with
  | Next response => modify (with_registry response) ;;; modify (with_loading false)
  | Error e => on_error "getting docker registries" e
  end.
Definition ngOnInit : M unit := emit (SetTitle DOCKER_REGISTRY_TITLE) ;;; api_get_docker_registry_.

Inductive event : Type := NgOnInit.
#[export] Instance docker_registry : Component DockerRegistryComponent call page event Ans :=
  {| initial := constructor; Runtime.on_event := fun _ => ngOnInit; Runtime.on_answer := fun _ => api_get_docker_registry_answer |}.

(** Every request ends with the table or with a message; the progress bar runs on
    after an error. *)
Lemma registry_answer_shown a s :
  match a with
  | Next r => state_of (api_get_docker_registry_answer a s) = {| registry := r; loading := false |}
  | Error _ => state_of (api_get_docker_registry_answer a s) = s /\
      effects_of (api_get_docker_registry_answer a s) = [DisplaySnackBar "Error getting docker registries" (Some MAT_SNACKBAR_CONFIGURATION_60000_DUR)]
  end.
Proof. by destruct a. Qed.
