(* ===== verification/AlertDrilldown.v ===== *)
(** modules/security-alerts/components/alert-drilldown-dialog: the alerts of a group,
    with the ways from one of them to Kibana and to Arkime.

    The dialog is given the row of the page (Alerts.v) with the values of the form and
    the links of the portal.  An alert is a document of the index. *)
From S2P Require Import Prelude Handler JsValue Json Runtime Data Api Services Net Alerts Navigation.
From Stdlib Require Import Ascii.

Definition SIGNAL_RULE_NAME_COLUMN_NAME : string := "signal.rule.name".
Definition TIMESTAMP_COLUMN_NAME : string := "timestamp".
Definition ENDGAME_INDEX : string := "endgame-dashboard-index-pattern".
Definition ARKIME_NOT_INSTALLED_MESSAGE : string :=
  "Arkime is not installed. Please go to the catalog page and install it if you want this capability to work.".
Definition ARKIME_PIVOT_FAIL_MESSAGE : string := "Failed to pivot to arkime as community ID does not exist.".

(** [encodeURIComponent] on the characters up to 255, as their UTF-8 bytes. *)
Definition component_marks : list ascii := String.list_ascii_of_string "-_.!~*'()".
Definition encode_component_char (c : ascii) : string :=
  if is_alphanumeric c || bool_decide (c ∈ component_marks) then String c ""
  else let n := nat_of_ascii c in
       if (n <? 128)%nat then percent n else percent (192 + n / 64) +:+ percent (128 + n mod 64).
Fixpoint encodeURIComponent (s : string) : string :=
  match s with EmptyString => EmptyString | String c r => encode_component_char c +:+ encodeURIComponent r end.

(** ** The component *)

Inductive call : Type := CAlertList (u : sent_alert).
Definition Ans (c : call) : Type := answer AlertListClass.
Inductive page : Type := CloseDrilldown | SetPaginatorAndSort.

Record AlertDrillDownDialogComponent := {
  dynamic_columns : list string;
  all_columns : list string;
  alerts_mat_table_data_source : list jsval;
  portal_links_ : option (list PortalLinkClass);
  update_alerts_mat_dialog_data : sent_alert;
}.
Abbreviation M := (handler AlertDrillDownDialogComponent (effect call page)).
Definition constructor (data : sent_alert) : AlertDrillDownDialogComponent :=
  {| dynamic_columns := []; all_columns := []; alerts_mat_table_data_source := []; portal_links_ := sent_links data;
     update_alerts_mat_dialog_data := data |}.
Definition with_columns d a s := {| dynamic_columns := d; all_columns := a; alerts_mat_table_data_source := alerts_mat_table_data_source s;
  portal_links_ := portal_links_ s; update_alerts_mat_dialog_data := update_alerts_mat_dialog_data s |}.
Definition with_data v s := {| dynamic_columns := dynamic_columns s; all_columns := all_columns s; alerts_mat_table_data_source := v;
  portal_links_ := portal_links_ s; update_alerts_mat_dialog_data := update_alerts_mat_dialog_data s |}.
Definition get : M AlertDrillDownDialogComponent := gets (fun s => s).

Section Drilldown.
Context {D : Dates}.

(** The fields of the row, in its order. *)
Definition set_columns_ (update_alerts : sent_alert) : M unit :=
  for_each (sent_columns update_alerts).*1 (fun field =>
    when (is_column field)
      (modify (fun s => with_columns (dynamic_columns s ++ [field]) (all_columns s) s))) ;;;
  modify (fun s => with_columns (dynamic_columns s) ([ACTIONS_COLUMN_NAME; TIMESTAMP_COLUMN_NAME] ++ dynamic_columns s) s).
Definition set_mat_table_paginator_and_sort_ : M unit := emit (Page SetPaginatorAndSort).
Definition api_get_alert_list_ : M unit := s <- get ;; emit (Subscribe (CAlertList (update_alerts_mat_dialog_data s))).
Definition ngOnInit : M unit := s <- get ;; set_columns_ (update_alerts_mat_dialog_data s) ;;; api_get_alert_list_.
Definition ngAfterViewInit : M unit := set_mat_table_paginator_and_sort_.
(** A new table with the same data. *)
Definition ngOnChanges : M unit := set_mat_table_paginator_and_sort_.
Definition close : M unit := emit (Page CloseDrilldown).

Definition is_dynamic_column (column_name : string) : bool :=
  negb ((column_name === ACTIONS_COLUMN_NAME) || (column_name === COUNT_COLUMN_NAME)).

(** [alert['_source']['event']['kind']] where all of them are there. *)
Definition kind_of (alert : jsval) : jsval := prop (prop (prop alert "_source") "event") "kind".
(** [v[i][j]...]; reading a property of undefined or null throws. *)
Fixpoint read_path (v : jsval) (path : list string) : outcome jsval :=
  match path with
  | [] => Ret v
  | i :: r => match get_property v i with Some x => read_path x r | None => Exn "TypeError" end
  end.
Definition get_column_value (alert : jsval) (column_name : string) : outcome jsval :=
  let column := if (column_name === RULE_NAME_COLUMN_NAME) && strict_eq (kind_of alert) (JStr SIGNAL_KIND)
                then SIGNAL_RULE_NAME_COLUMN_NAME else column_name in
  if defined alert then read_path alert ("_source" :: split_on "." column) else Ret (JStr "").
Definition get_timestamp (alert : jsval) : jsval :=
  let t := prop (prop alert "_source") TIMESTAMP_SOURCE in if defined t then t else JStr "".

(** The last link whose address holds the name. *)
Definition last_link (search : string) (links : list PortalLinkClass) : string :=
  fold_left (fun link portal_link => if includes_text (dns portal_link) search then dns portal_link else link) links "".
Definition get_link_ (search : string) : M string :=
  s <- get ;; links <- deref (portal_links_ s) ;; ret (last_link search links).

Definition form_of : M AlertFormInterface := s <- get ;; deref (sent_form (update_alerts_mat_dialog_data s)).
Definition iso (d : option date) : M string :=
  match d with
  | None => throw "TypeError"
  | Some None => throw "RangeError"
  | Some (Some t) => ret (toISOString t)
  end.
Definition property (v : jsval) (k : string) : M jsval := deref (get_property v k).

Definition kibana_url (prefix id start_date_time end_date_time : string) (kind module : jsval) : string :=
  if strict_eq kind (JStr SIGNAL_KIND) then
    let range := "from:%27" +:+ start_date_time +:+ "%27,kind:absolute,to:%27" +:+ end_date_time +:+ "%27" in
    prefix +:+ "/app/security/detections?query=(language:kuery,query:%27_id%20:%20%22" +:+ id
    +:+ "%22%27)&timerange=(global:(linkTo:!(timeline),timerange:(" +:+ range
    +:+ ")),timeline:(linkTo:!(global),timerange:(" +:+ range +:+ ")))"
  else
    let index := if strict_eq kind (JStr ALERT_KIND) && strict_eq module (JStr ENDGAME_MODULE) then ENDGAME_INDEX else "filebeat-*" in
    prefix +:+ "/app/discover#/?_g=(filters:!(),refreshInterval:(pause:!t,value:0),time:(from:'" +:+ start_date_time
    +:+ "',to:'" +:+ end_date_time +:+ "'))&_a=(columns:!(_source),filters:!(),index:'" +:+ index
    +:+ "',interval:auto,query:(language:kuery,query:'_id:%20%22" +:+ id +:+ "%22%20'),sort:!())".
Definition open_in_kibana (alert : jsval) : M unit :=
  id <- property alert "_id" ;;
  form <- form_of ;;
  start_date_time <- iso (startDatetime form) ;;
  end_date_time <- iso (endDatetime form) ;;
  prefix <- get_link_ KIBANA ;;
  source <- property alert "_source" ;;
  event <- property source "event" ;;
  kind <- property event "kind" ;;
  when (defined kind)
    (emit (OpenInNewTab (kibana_url prefix (js_to_string id) start_date_time end_date_time kind (prop event "module")))).

(** The control of the amount holds a number. *)
Definition amount (form : AlertFormInterface) : Z := match timeAmount form with JNum n => n | _ => 0%Z end.
Definition hour_amount (form : AlertFormInterface) : Z :=
  if strict_eq (timeInterval form) (JStr DAYS) then (amount form * 24)%Z
  else if strict_eq (timeInterval form) (JStr MINUTES) then
    if (60 <? amount form)%Z then (amount form / 60)%Z else 1%Z
  else 1%Z.
Definition arkime_url (prefix community_id : string) (hours : Z) : string :=
  prefix +:+ "/sessions?expression=communityId%20%3D%3D%20%22" +:+ encodeURIComponent community_id +:+ "%22&date=" +:+ pretty hours.
Definition open_in_arkime (alert : jsval) : M unit :=
  prefix <- get_link_ ARKIME ;;
  form <- form_of ;;
  if prefix === "" then displaySnackBar ARKIME_NOT_INSTALLED_MESSAGE None
  else
    source <- property alert "_source" ;;
    let id := prop (prop source "network") "community_id" in
    if defined id then emit (OpenInNewTab (arkime_url prefix (js_to_string id) (hour_amount form)))
    else displaySnackBar ARKIME_PIVOT_FAIL_MESSAGE None.

Definition api_get_alert_list_answer (a : answer AlertListClass) : M unit :=
  match a with
  | Next response => modify (with_data (hits response))
  | Error e => on_error "retrieving alert list" e
  end.

Inductive event : Type :=
| NgOnInit
| NgAfterViewInit
| NgOnChanges
| KibanaClick (i : nat)
| ArkimeClick (i : nat)
| CloseClick.
Definition on_row (i : nat) (m : jsval -> M unit) : M unit :=
  s <- get ;; match alerts_mat_table_data_source s !! i with Some a => m a | None => ret tt end.
Definition on_event (e : event) : M unit :=
  match e with
  | NgOnInit => ngOnInit
  | NgAfterViewInit => ngAfterViewInit
  | NgOnChanges => ngOnChanges
  | KibanaClick i => on_row i open_in_kibana
  | ArkimeClick i => on_row i open_in_arkime
  | CloseClick => close
  end.
#[export] Instance alert_drilldown (data : sent_alert) : Component AlertDrillDownDialogComponent call page event Ans :=
  {| initial := constructor data; Runtime.on_event := on_event; Runtime.on_answer := fun _ => api_get_alert_list_answer |}.

(** ** The columns *)

(** The table has the columns by which the page grouped. *)
Lemma drilldown_columns data s : dynamic_columns s = [] -> set_columns_ data s =
  (Ret tt, with_columns (List.filter is_column (sent_columns data).*1)
             ([ACTIONS_COLUMN_NAME; TIMESTAMP_COLUMN_NAME] ++ List.filter is_column (sent_columns data).*1) s, []).
Proof using.
  intros Hs. unfold set_columns_.
  assert (G : forall l s, for_each l (fun field => when (is_column field)
      (modify (fun s => with_columns (dynamic_columns s ++ [field]) (all_columns s) s))) s =
    (Ret tt, with_columns (dynamic_columns s ++ List.filter is_column l) (all_columns s) s, [] : list (effect call page))).
  { clear. induction l as [|x l IH]; intros s; simpl; [rewrite app_nil_r; by destruct s|].
    destruct (is_column x).
    - rewrite (bind_run_silent _ _ s tt (with_columns (dynamic_columns s ++ [x]) (all_columns s) s)) by done.
      rewrite IH. simpl. by rewrite <- app_assoc.
    - rewrite (bind_run_silent _ _ s tt s) by done. apply IH. }
  rewrite (bind_run_silent _ _ _ _ _ (G _ s)). rewrite Hs. reflexivity.
Qed.

(** A column whose object is missing throws while the row is shown. *)
Lemma missing_object_throws fs : JsValue.assoc "source" fs = None ->
  get_column_value (JObj [("_source", JObj fs)]) "source.ip" = Exn "TypeError".
Proof using. intros E. unfold get_column_value. simpl. by rewrite E. Qed.

(** The link of a name is the one of the last entry whose address holds it. *)
Lemma last_link_spec search links :
  (exists l1 x l2, links = l1 ++ x :: l2 /\ includes_text (dns x) search = true /\ last_link search links = dns x /\
     Forall (fun y => includes_text (dns y) search = false) l2) \/
  (last_link search links = "" /\ Forall (fun y => includes_text (dns y) search = false) links).
Proof using.
  unfold last_link. induction links as [|y links IH] using rev_ind; [right; by split|]. rewrite fold_left_app. simpl.
  destruct (includes_text (dns y) search) eqn:E.
  - left. exists links, y, []. by split_and!.
  - destruct IH as [(l1 & x & l2 & -> & Hx & -> & Hl)|[-> Hl]].
    + left. exists l1, x, (l2 ++ [y]). split_and!; [by rewrite <- app_assoc | done | done |]. apply Forall_app. by split; [|constructor].
    + right. split; [done|]. apply Forall_app. by split; [|constructor].
Qed.

(** ** The way to Arkime *)

Definition harmless_char (c : ascii) : Prop := is_alphanumeric c = true \/ c ∈ component_marks \/ c = "%"%char.

Lemma hex_alphanumeric n : (n < 16)%nat -> is_alphanumeric (hex_digit n) = true.
Proof using. intros H. do 16 (destruct n as [|n]; [reflexivity|]). lia. Qed.
Lemma percent_harmless n c : (n < 256)%nat -> c ∈ String.list_ascii_of_string (percent n) -> harmless_char c.
Proof using.
  intros Hn. unfold percent. cbn [String.list_ascii_of_string].
  intros [->|[->|[->|?%not_elem_of_nil]%elem_of_cons]%elem_of_cons]%elem_of_cons; [by right; right | left | left | done].
  - apply hex_alphanumeric. apply Nat.Div0.div_lt_upper_bound. lia.
  - apply hex_alphanumeric. apply Nat.mod_upper_bound. lia.
Qed.
Lemma encoded_harmless s c : c ∈ String.list_ascii_of_string (encodeURIComponent s) -> harmless_char c.
Proof using.
  induction s as [|x s IH]; simpl; [by intros ?%not_elem_of_nil|]. rewrite list_ascii_app, elem_of_app. intros [H|H]; [|by apply IH].
  unfold encode_component_char in H. destruct (is_alphanumeric x) eqn:Ea; cbn [orb String.list_ascii_of_string] in H.
  { apply elem_of_cons in H as [->|?%not_elem_of_nil]; [by left | done]. }
  destruct (bool_decide (x ∈ component_marks)) eqn:Em; [apply bool_decide_eq_true in Em|clear Em]; cbn [String.list_ascii_of_string] in H.
  { apply elem_of_cons in H as [->|?%not_elem_of_nil]; [by right; left | done]. }
  pose proof (nat_ascii_bounded x) as Hb.
  destruct (nat_of_ascii x <? 128)%nat eqn:E; [by apply (percent_harmless (nat_of_ascii x))|].
  rewrite list_ascii_app, elem_of_app in H. destruct H as [H|H]; (eapply percent_harmless; [|exact H]).
  - assert (nat_of_ascii x / 64 < 4)%nat by (apply Nat.Div0.div_lt_upper_bound; lia). lia.
  - assert (nat_of_ascii x mod 64 < 64)%nat by (apply Nat.mod_upper_bound; lia). lia.
Qed.

(** A click on Arkime: without a link, or without a community id, a message; else the
    sessions of the id, which is escaped: no quote, blank or ampersand of it is left. *)
Theorem arkime_pivot alert source form links s :
  portal_links_ s = Some links -> sent_form (update_alerts_mat_dialog_data s) = Some form -> get_property alert "_source" = Some source ->
  let id := prop (prop source "network") "community_id" in
  open_in_arkime alert s = (Ret tt, s,
    [if last_link ARKIME links === "" then DisplaySnackBar ARKIME_NOT_INSTALLED_MESSAGE None
     else if defined id then OpenInNewTab (arkime_url (last_link ARKIME links) (js_to_string id) (hour_amount form))
     else DisplaySnackBar ARKIME_PIVOT_FAIL_MESSAGE None]) /\
  forall c, c ∈ String.list_ascii_of_string (encodeURIComponent (js_to_string id)) ->
    c <> "034"%char /\ c <> " "%char /\ c <> "&"%char /\ c <> "#"%char.
Proof using.
  intros Hl Hf Hs id. split.
  - unfold open_in_arkime. rewrite (bind_run_silent _ _ s (last_link ARKIME links) s).
    2: { unfold get_link_, get. rewrite (bind_run_silent _ _ s s s) by done. by rewrite Hl. }
    rewrite (bind_run_silent _ _ s form s).
    2: { unfold form_of, get. rewrite (bind_run_silent _ _ s s s) by done. by rewrite Hf. }
    destruct (last_link ARKIME links === ""); [done|]. unfold property. rewrite Hs. rewrite (bind_run_silent _ _ s source s) by done.
    fold id. by destruct (defined id).
  - intros c Hc. destruct (encoded_harmless _ _ Hc) as [H|[H| ->]]; [| |by split_and!].
    + split_and!; intros ->; done.
    + split_and!; intros ->; repeat (apply elem_of_cons in H as [?|H]; [done|]); by apply not_elem_of_nil in H.
Qed.

(** The window of Arkime ends with the hour: an interval of hours counts as one hour,
    whatever its number. *)
Lemma hours_count_as_one form : timeInterval form = JStr HOURS -> hour_amount form = 1%Z.
Proof using. intros E. unfold hour_amount. by rewrite E. Qed.
Lemma hour_amount_rounds form : (0 <= amount form)%Z ->
  (timeInterval form = JStr DAYS -> hour_amount form = (24 * amount form)%Z) /\
  (timeInterval form = JStr MINUTES -> (60 <= amount form)%Z -> (60 * hour_amount form <= amount form < 60 * hour_amount form + 60)%Z).
Proof using.
  intros Hn. unfold hour_amount. split.
  - intros ->. simpl. lia.
  - intros -> H. simpl. destruct (Z.ltb_spec 60 (amount form)) as [Hlt|Hge]; [|lia].
    pose proof (Z.div_mod (amount form) 60 ltac:(lia)). pose proof (Z.mod_pos_bound (amount form) 60 ltac:(lia)). lia.
Qed.

(** ** The way to Kibana *)

(** While the form has dates and the alert has an event with a kind, a click on Kibana
    opens one page; without a kind nothing happens. *)
Theorem kibana_pivot alert id source ev form links s a b :
  portal_links_ s = Some links -> sent_form (update_alerts_mat_dialog_data s) = Some form ->
  startDatetime form = Some (Some a) -> endDatetime form = Some (Some b) ->
  get_property alert "_id" = Some id -> get_property alert "_source" = Some source -> get_property source "event" = Some ev -> defined ev = true ->
  open_in_kibana alert s = (Ret tt, s,
    if defined (prop ev "kind")
    then [OpenInNewTab (kibana_url (last_link KIBANA links) (js_to_string id) (toISOString a) (toISOString b) (prop ev "kind") (prop ev "module"))]
    else []).
Proof using.
  intros Hl Hf Ha Hb Hi Hs He Hd. unfold open_in_kibana, property. rewrite Hi. rewrite (bind_run_silent _ _ s id s) by done.
  rewrite (bind_run_silent _ _ s form s).
  2: { unfold form_of, get. rewrite (bind_run_silent _ _ s s s) by done. by rewrite Hf. }
  rewrite Ha, Hb. rewrite (bind_run_silent _ _ s (toISOString a) s) by done. rewrite (bind_run_silent _ _ s (toISOString b) s) by done.
  rewrite (bind_run_silent _ _ s (last_link KIBANA links) s).
  2: { unfold get_link_, get. rewrite (bind_run_silent _ _ s s s) by done. by rewrite Hl. }
  rewrite Hs. rewrite (bind_run_silent _ _ s source s) by done. rewrite He. rewrite (bind_run_silent _ _ s ev s) by done.
  assert (Hk : get_property ev "kind" = Some (prop ev "kind")) by (unfold prop; by destruct ev). rewrite Hk.
  rewrite (bind_run_silent _ _ s (prop ev "kind") s) by done. by destruct (defined (prop ev "kind")).
Qed.
End Drilldown.
