(* ===== verification/Browser.v ===== *)
(** services/ that stand between the components and the browser: the snackbar, the
    cookies, redirects and the socket; interceptors/unauthorized.interceptor.ts and
    pipes/capitalize-first.pipe.ts.

    The components of the other files make the effects [DisplaySnackBar], [SetCookie]
    and [OpenInNewTab]; here is what becomes of them. *)
From S2P Require Import Catalog Prelude Handler JsValue Runtime Data Api Net Notifications.
From Stdlib Require Import Ascii.

(** ** services/mat-snackbar.service.ts *)

(** A [MatSnackBarConfig]; a bar without one stays until it is dismissed. *)
Record bar_config := { duration : Z; panel_classes : list string }.
(** The calls on Material's service: a bar is known by the reference it returns. *)
Inductive bar_effect : Type :=
| OpenBar (ref : nat) (message action_label : string) (config : option bar_config)
| OnAction (ref : nat) (action : string)
| DismissBar (ref : nat)
| Unsubscribe.

Record MatSnackBarService := { matSnackBarRef_ : option nat; next_ref : nat }.
Abbreviation B := (handler MatSnackBarService bar_effect).
Definition with_ref v s := {| matSnackBarRef_ := v; next_ref := next_ref s |}.
Definition bar_open (message action_label : string) (config : option bar_config) : B nat :=
  s <- gets (fun s => s) ;;
  modify (fun s => {| matSnackBarRef_ := matSnackBarRef_ s; next_ref := S (next_ref s) |}) ;;;
  emit (OpenBar (next_ref s) message action_label config) ;;;
  ret (next_ref s).

Definition destroySnackBar : B unit :=
  s <- gets (fun s => s) ;;
  match matSnackBarRef_ s with
  | Some ref => emit (DismissBar ref) ;;; modify (with_ref None)
  | None => ret tt
  end.
Definition bar_config_of (c : MatSnackbarConfigurationClass) : bar_config :=
  {| duration := default 3000%Z (timeInMS c); panel_classes := match panelClass c with Some p => [p] | None => [] end |}.
Definition service_displaySnackBar (message : string) (c : option MatSnackbarConfigurationClass) : B unit :=
  destroySnackBar ;;;
  match c with
  | Some c =>
      let config := Some (bar_config_of c) in
      match actionLabel c, action c with
      | Some label, Some act => ref <- bar_open message label config ;; modify (with_ref (Some ref)) ;;; emit (OnAction ref act)
      | Some label, None => bar_open message label config ;;; ret tt
      | None, _ => bar_open message "Close" config ;;; ret tt
      end
  | None => bar_open message "Close" None ;;; ret tt
  end.
Definition service_ngOnDestroy : B unit := emit Unsubscribe.

Definition opened_bars (es : list bar_effect) : list string :=
  omap (fun e => match e with OpenBar _ m _ _ => Some m | _ => None end) es.

(** Every call shows one bar with its message; before it the bar with an action that is
    remembered is dismissed. *)
Theorem one_bar_is_shown m c s :
  exists s' es, service_displaySnackBar m c s = (Ret tt, s', es) /\ opened_bars es = [m] /\
    (forall ref, matSnackBarRef_ s = Some ref -> exists es', es = DismissBar ref :: es') /\
    (matSnackBarRef_ s' = None \/ matSnackBarRef_ s' = Some (next_ref s)).
Proof.
  destruct s as [[ref|] n].
  - destruct c as [[t [l|] [a|] p]|]; (eexists _, _; split; [reflexivity|]; split; [reflexivity|]; split;
      [intros r [= <-]; by eexists | simpl; auto]).
  - destruct c as [[t [l|] [a|] p]|]; (eexists _, _; split; [reflexivity|]; split; [reflexivity|]; split; [done | simpl; auto]).
Qed.

(** ** interceptors/unauthorized.interceptor.ts *)

(** The error goes on to the callbacks of the request as it is. *)
Definition intercept (err : option HttpErrorResponse) : B (option HttpErrorResponse) :=
  match err with
  | Some r =>
      if strict_eq (http_status r) (JNum 401) then
        service_displaySnackBar "Unauthorized Request. Please reload the page to re-login"
          (Some {| timeInMS := Some 10000%Z; actionLabel := Some "Reload Page"; action := Some "reload"; panelClass := None |})
      else if strict_eq (http_status r) (JNum 403) then
        service_displaySnackBar "Forbidden. You do not have permissions for this request"
          (Some {| timeInMS := Some (-1)%Z; actionLabel := Some "Dismiss"; action := None; panelClass := None |})
      else ret tt
  | None => ret tt
  end ;;;
  ret err.

(** The bar that offers to reload the page is dismissed by the next message; the
    callbacks of the failed request show one. *)
Lemma reload_is_dismissed r m c s : matSnackBarRef_ s = None -> http_status r = JNum 401 ->
  exists es1 es2 s', (intercept (Some r) ;;; service_displaySnackBar m c) s = (Ret tt, s', es1 ++ DismissBar (next_ref s) :: es2) /\
    opened_bars es1 = ["Unauthorized Request. Please reload the page to re-login"] /\ opened_bars es2 = [m].
Proof.
  intros Hs Hr. destruct s as [ref n]. simpl in Hs. subst ref. unfold intercept. rewrite Hr. cbn [strict_eq].
  set (label := "Reload Page"). set (text := "Unauthorized Request. Please reload the page to re-login").
  pose (bar := Some (bar_config_of {| timeInMS := Some 10000%Z; actionLabel := Some label; action := Some "reload"; panelClass := None |})).
  destruct c as [[t [l|] [a|] p]|];
    (eexists [OpenBar n text label bar; OnAction n "reload"], _, _; split; [reflexivity|]; split; reflexivity).
Qed.

(** ** pipes/capitalize-first.pipe.ts *)

Definition transform (value : option string) : string :=
  match value with Some v => upper_first v | None => "Not assigned" end.

(** ** services/windows_redirect_handler.service.ts and websocket.service.ts *)

Inductive window_effect : Type := WindowOpen (url : string) | WindowFocus.
(** [window.open] returns null when the browser blocks the window. *)
Definition open_in_new_tab {S} (blocked : bool) (url : string) : handler S window_effect unit :=
  emit (WindowOpen url) ;;; if blocked then throw "TypeError" else emit WindowFocus.
Definition webSocketURL (production : bool) (hostname : string) : string :=
  (if production then "https://" else "http://") +:+ hostname.
Definition onBroadcast (response : NotificationInterface) : NotificationClass := new_NotificationClass response.

(** ** services/cookies.service.ts *)

(** The cookies of the document, as the browser keeps them. *)
Class CookieStore := {
  jar : Type;
  document_cookie : jar -> string;
  set_document_cookie : string -> jar -> jar;
  decodeURIComponent : string -> outcome string;
}.

Section Cookies.
Context {CS : CookieStore}.

Definition cookie_set (key value : string) (j : jar) : jar := set_document_cookie (key +:+ "=" +:+ value) j.
(** [s.split(/;\s*/)] *)
Definition split_cookies (s : string) : list string :=
  match split_on ";" s with x :: r => x :: (trim_start <$> r) | [] => [] end.
(** The last pair that begins with the key. *)
Definition look_up (prefix : string) (pairs : list string) : string :=
  fold_left (fun found pair => if String.prefix prefix pair
    then String.substring (String.length prefix) (String.length pair - String.length prefix) pair else found) pairs "".
Definition cookie_get (key : string) (j : jar) : outcome string :=
  match decodeURIComponent (document_cookie j) with
  | Ret decoded => Ret (look_up (key +:+ "=") (split_cookies decoded))
  | Exn e => Exn e
  end.
End Cookies.

(** Texts that a browser keeps as they are. *)
Definition plain_char (c : ascii) : bool := (33 <=? nat_of_ascii c)%nat && (nat_of_ascii c <=? 126)%nat && negb (Ascii.eqb c ";").
Definition plain_text (s : string) : bool := forallb (fun c => plain_char c && negb (Ascii.eqb c "%")) (String.list_ascii_of_string s).
Definition plain_key (s : string) : bool := plain_text s && negb (s === "") && negb (contains "=" s).
Definition pair_text (x : string * string) : string := fst x +:+ "=" +:+ snd x.

(** What is documented of them: the document prints its cookies as pairs, an
    assignment sets the one of its key, and nothing is decoded of a text without
    percent signs. *)
Class CookieLaws (CS : CookieStore) := {
  listing : jar -> list (string * string);
  document_cookie_listing j : document_cookie j = join_with "; " (pair_text <$> listing j);
  set_listing k v j : plain_key k = true -> plain_text v = true ->
    (k, v) ∈ listing (set_document_cookie (k +:+ "=" +:+ v) j) /\
    forall x, x ∈ listing (set_document_cookie (k +:+ "=" +:+ v) j) -> x = (k, v) \/ fst x <> k /\ x ∈ listing j;
  decode_plain s : contains "%" s = false -> decodeURIComponent s = Ret s;
}.

Section RoundTrip.
Context {CS : CookieStore} {CL : CookieLaws CS}.

Definition plain_jar (j : jar) : Prop := Forall (fun x => plain_key (fst x) = true /\ plain_text (snd x) = true) (listing j).

Lemma plain_contains c s : plain_text s = true -> plain_char c && negb (Ascii.eqb c "%") = false -> contains c s = false.
Proof using.
  intros Hs Hc. apply not_true_iff_false. unfold contains. intros (x & Hx & ->%Ascii.eqb_eq)%existsb_exists.
  unfold plain_text in Hs. rewrite forallb_forall in Hs. specialize (Hs x Hx). congruence.
Qed.

Lemma text_contains_app c s t : contains c (s +:+ t) = contains c s || contains c t.
Proof using. unfold contains. by rewrite list_ascii_app, existsb_app. Qed.

Lemma pair_contains c x : plain_key (fst x) = true -> plain_text (snd x) = true -> c <> "="%char ->
  plain_char c && negb (Ascii.eqb c "%") = false -> contains c (pair_text x) = false.
Proof using.
  intros [[Hk _]%andb_true_iff _]%andb_true_iff Hv Hc Hp. unfold pair_text. rewrite !text_contains_app, !(plain_contains c) by done.
  simpl. destruct (Ascii.eqb_spec c "="); done.
Qed.

(** The texts of the document are split again into the pairs. *)
Lemma split_cookies_join l : l <> [] -> Forall (fun s => contains ";" s = false /\ trim_start s = s) l ->
  split_cookies (join_with "; " l) = l.
Proof using.
  intros Hne Hl. unfold split_cookies.
  assert (G : split_on ";" (join_with "; " l) = match l with [] => [""] | x :: r => x :: (String " " <$> r) end).
  { clear Hne. induction Hl as [|x l [Hx _] Hl IH]; [done|]. destruct l as [|y l].
    - simpl. by apply split_on_none.
    - change (join_with "; " (x :: y :: l)) with (x +:+ String ";" (String " " (join_with "; " (y :: l)))).
      rewrite split_on_app by done. f_equal. cbn [split_on]. change (Ascii.eqb " " ";") with false. cbn iota. by rewrite IH. }
  rewrite G. destruct l as [|x l]; [done|]. f_equal. inversion_clear Hl as [|? ? _ Hl']. rewrite <- list_fmap_compose. clear Hne G.
  induction Hl' as [|y l [_ Hy] _ IH]; [done|]. csimpl. simpl trim_start. by rewrite Hy, IH.
Qed.

Lemma contains_cons c a s : contains c (String a s) = Ascii.eqb c a || contains c s.
Proof using. done. Qed.

Lemma prefix_cons a s b t : String.prefix (String a s) (String b t) = (if ascii_dec a b then String.prefix s t else false).
Proof using. done. Qed.

Lemma prefix_pair k k' v : contains "=" k = false -> contains "=" k' = false ->
  String.prefix (k +:+ "=") (k' +:+ "=" +:+ v) = true <-> k' = k.
Proof using.
  revert k'. induction k as [|a k IH]; intros [|b k'] Hk Hk'.
  - split; [done|]. intros _. by destruct v.
  - rewrite contains_cons in Hk'. change (("" : string) +:+ "=") with (String "=" "").
    change (String b k' +:+ "=" +:+ v) with (String b (k' +:+ "=" +:+ v)). rewrite prefix_cons.
    apply orb_false_iff in Hk' as [Hb%Ascii.eqb_neq _]. destruct (ascii_dec "=" b) as [E|_]; [by destruct Hb|]. by split.
  - rewrite contains_cons in Hk. change (("" : string) +:+ "=" +:+ v) with (String "=" v).
    change (String a k +:+ "=") with (String a (k +:+ "=")). rewrite prefix_cons.
    apply orb_false_iff in Hk as [Ha%Ascii.eqb_neq _]. destruct (ascii_dec a "=") as [E|_]; [by destruct Ha|]. by split.
  - rewrite contains_cons in Hk, Hk'. apply orb_false_iff in Hk as [_ Hk], Hk' as [_ Hk'].
    change (String a k +:+ "=") with (String a (k +:+ "=")). change (String b k' +:+ "=" +:+ v) with (String b (k' +:+ "=" +:+ v)).
    rewrite prefix_cons. destruct (ascii_dec a b) as [->|Hab].
    + rewrite (IH k' Hk Hk'). split; [by intros -> | by intros [= ->]].
    + split; [done | by intros [= <- _]].
Qed.

Lemma substring_rest a b : String.substring (String.length a) (String.length (a +:+ b) - String.length a) (a +:+ b) = b.
Proof using.
  induction a as [|c a IH]; [|exact IH]. change (String.substring 0 (String.length b - 0) b = b). rewrite Nat.sub_0_r.
  pose proof (text_substring_app b "") as H. by rewrite text_app_nil in H.
Qed.

Lemma look_up_pair k v l : plain_key k = true -> Forall (fun x => plain_key (fst x) = true) l ->
  (forall x, x ∈ l -> fst x = k -> x = (k, v)) -> (k, v) ∈ l -> look_up (k +:+ "=") (pair_text <$> l) = v.
Proof using.
  intros Hk Hl Hu Hin. unfold look_up.
  set (step := fun found pair => if String.prefix (k +:+ "=") pair
    then String.substring (String.length (k +:+ "=")) (String.length pair - String.length (k +:+ "=")) pair else found).
  assert (Hkey : forall t, plain_key t = true -> contains "=" t = false) by (intros t [_ Ht]%andb_true_iff; by apply negb_true_iff).
  assert (G : forall found, fold_left step (pair_text <$> l) found = if decide (k ∈ fst <$> l) then v else found).
  { clear Hin. induction Hl as [|x l Hx Hl IH]; intros found; [by rewrite decide_False by apply not_elem_of_nil|]. csimpl. cbn [fold_left].
    rewrite IH by (intros y Hy; apply Hu; by right).
    assert (Hs : step found (pair_text x) = if decide (fst x = k) then v else found).
    { unfold step, pair_text. pose proof (prefix_pair k (fst x) (snd x) (Hkey k Hk) (Hkey _ Hx)) as Hp.
      destruct (decide (fst x = k)) as [E|E].
      - rewrite (proj2 Hp E). rewrite (Hu x (list_elem_of_here _ _) E). simpl fst. simpl snd. rewrite text_app_assoc. apply substring_rest.
      - destruct (String.prefix _ _); [by destruct (E (proj1 Hp eq_refl)) | done]. }
    rewrite Hs. repeat case_decide; set_solver. }
  rewrite G, decide_True; [done|]. apply list_elem_of_fmap. by exists (k, v).
Qed.

(** A cookie is read as it was written, while the names and values of all cookies are
    plain texts. *)
Theorem cookie_round_trip k v j : plain_key k = true -> plain_text v = true -> plain_jar j ->
  cookie_get k (cookie_set k v j) = Ret v.
Proof using CL.
  intros Hk Hv Hj. destruct (set_listing k v j Hk Hv) as [Hin Hu]. unfold cookie_get, cookie_set. rewrite document_cookie_listing.
  set (l := listing (set_document_cookie (k +:+ "=" +:+ v) j)) in *.
  assert (Hl : Forall (fun x => plain_key (fst x) = true /\ plain_text (snd x) = true) l).
  { apply Forall_forall. intros x Hx. destruct (Hu x Hx) as [->|[_ Hx']]; [done|]. unfold plain_jar in Hj. rewrite Forall_forall in Hj. by apply Hj. }
  rewrite decode_plain, split_cookies_join.
  - f_equal. apply look_up_pair; [done| | |done].
    + eapply Forall_impl; [exact Hl|]. by intros x [? _].
    + intros x Hx E. by destruct (Hu x Hx) as [->|[? _]].
  - intros E. apply (f_equal length) in E. rewrite length_fmap in E. by destruct l; [apply not_elem_of_nil in Hin|].
  - apply Forall_fmap. eapply Forall_impl; [exact Hl|]. intros x [Hx1 Hx2]. split; [by apply pair_contains|].
    pose proof Hx1 as [[Ht Hne]%andb_true_iff _]%andb_true_iff. unfold pair_text. destruct (fst x) as [|c t]; [done|].
    unfold plain_text in Ht. simpl in Ht. apply andb_true_iff in Ht as [[Hc _]%andb_true_iff _]. simpl.
    unfold plain_char in Hc. apply andb_true_iff in Hc as [[H1%Nat.leb_le H2%Nat.leb_le]%andb_true_iff _].
    unfold is_space. destruct (Nat.eqb_spec (nat_of_ascii c) 32), (Nat.leb_spec 9 (nat_of_ascii c)), (Nat.leb_spec (nat_of_ascii c) 13),
      (Nat.eqb_spec (nat_of_ascii c) 160); simpl; try done; lia.
  - clear Hin Hu Hj. induction Hl as [|x l [Hx1 Hx2] _ IH]; [done|]. destruct l as [|y l]; [by apply pair_contains|].
    change (join_with "; " (pair_text <$> x :: y :: l)) with (pair_text x +:+ "; " +:+ join_with "; " (pair_text <$> y :: l)).
    rewrite !text_contains_app, (pair_contains "%" x), IH by done. done.
Qed.
End RoundTrip.

(** A store that keeps the pairs, to evaluate the definitions with. *)
Definition pair_of (s : string) : string * string :=
  match split_on "=" s with k :: r => (k, join_with "=" r) | [] => ("", "") end.
Definition pair_store : CookieStore :=
  {| jar := list (string * string);
     document_cookie := fun j => join_with "; " (pair_text <$> j);
     set_document_cookie := fun s j => List.filter (fun x => negb (fst x === fst (pair_of s))) j ++ [pair_of s];
     decodeURIComponent := Ret |}.

Lemma split_on_values k v : contains "=" k = false -> pair_of (k +:+ "=" +:+ v) = (k, v).
Proof.
  intros H. unfold pair_of. change (k +:+ "=" +:+ v) with (k +:+ String "=" v). rewrite split_on_app by done. f_equal.
  assert (G : forall c s, join_with (String c "") (split_on c s) = s /\ split_on c s <> []).
  { clear. intros c s. induction s as [|x s [IH1 IH2]]; [done|]. simpl. destruct (Ascii.eqb_spec x c) as [->|_].
    - split; [|done]. destruct (split_on c s) as [|w ws]; [done|]. simpl in *. by rewrite IH1.
    - destruct (split_on c s) as [|w ws]; [done|]. split; [|done]. simpl in *. destruct ws; [by rewrite IH1|]. by rewrite <- IH1. }
  apply (proj1 (G "="%char v)).
Qed.

#[export] Instance pair_laws : CookieLaws pair_store.
Proof.
  refine {| listing := fun j : @jar pair_store => j |}; [done| |done].
  intros k v j [_ Hk]%andb_true_iff Hv. apply negb_true_iff in Hk. simpl. rewrite (split_on_values k v Hk). simpl. split.
  - apply elem_of_app. right. left.
  - intros x [Hx|Hx]%elem_of_app; [|left; by apply list_elem_of_singleton in Hx].
    right. apply list_elem_of_In, List.filter_In in Hx as [Hx Hn]. apply negb_true_iff, seqb_neq in Hn. split; [done|]. by apply list_elem_of_In.
Defined.

Lemma cookie_round_trip_witness : cookie_get (CS := pair_store) "isOpen" (cookie_set (CS := pair_store) "isOpen" "true" [("isOpen", "false"); ("a", "b")]) = Ret "true".
Proof.
  apply (cookie_round_trip (CS := pair_store) (CL := pair_laws) "isOpen" "true" [("isOpen", "false"); ("a", "b")]); [reflexivity|reflexivity|].
  repeat constructor.
Defined.
