(* ===== verification/DateTime.v ===== *)
(** modules/date-time: the field of a dialog that asks for a date and a time zone,
    with [getCurrentDate] and [returnDate] of classes/data-methods.class.ts.

    A date is its time value, [None] when it is invalid; the fields of a date are
    those of the local time. The controls are handed in by the dialog
    (modal-dialog-mat), which reads the text of the first one. *)
From S2P Require Import Prelude Handler JsValue Net.

Notation date := (option Z).

(** Date, Intl and the date pipe. *)
Record date_fields := { getFullYear : jsnum; getMonth : jsnum; getDate : jsnum; getHours : jsnum; getMinutes : jsnum; getSeconds : jsnum }.
Inductive date_part : Type := YearPart | MonthPart | DayPart | HourPart | MinutePart | SecondPart.
Class Platform := {
  local_fields : date -> date_fields;
  (** [new Date(Y, M, D, h, m, s)] and [new Date(text)] *)
  new_local : date_fields -> date;
  new_text : string -> date;
  (** [toLocaleString('en-US', { part, timeZone })] of a valid date *)
  toLocaleString : date_part -> string -> Z -> outcome string;
  (** [Intl.DateTimeFormat().resolvedOptions().timeZone] *)
  browserTimezone : string;
  (** The date pipe on a date and a format. *)
  pipe_transform : date -> string -> outcome string;
}.
(** The documented part that matters: UTC is known, and a valid date is printed. *)
Class PlatformLaws (P : Platform) := {
  utc_known part now : exists x, toLocaleString part "UTC" now = Ret x;
  valid_printed d f : exists x, pipe_transform (Some d) f = Ret x;
}.

(** ** classes/data-methods.class.ts *)
Section DateTime.
Context {P : Platform}.

Definition returnDate (Y M D h m s : jsnum) : date :=
  new_local {| getFullYear := Y; getMonth := M; getDate := D; getHours := h; getMinutes := m; getSeconds := s |}.

Definition from_outcome {S E A} (x : outcome A) : handler S E A := fun s => (x, s, []).
Definition getCurrentDate {S E} (timezone : string) (now : Z) : handler S E date :=
  year <- from_outcome (toLocaleString YearPart timezone now) ;;
  month <- from_outcome (toLocaleString MonthPart timezone now) ;;
  day <- from_outcome (toLocaleString DayPart timezone now) ;;
  hours <- from_outcome (toLocaleString HourPart timezone now) ;;
  minutes <- from_outcome (toLocaleString MinutePart timezone now) ;;
  seconds <- from_outcome (toLocaleString SecondPart timezone now) ;;
  ret (returnDate (parseInt10 year) (js_add (parseInt10 month) (Some (-1)%Z)) (parseInt10 day)
         (parseInt10 hours) (parseInt10 minutes) (parseInt10 seconds)).

(** ** The component *)

(** A control of the dialog; its validators give the errors of a value. *)
Record date_control := { control_text : jsval; control_off : bool; control_errors : jsval; validators : jsval -> jsval }.
Definition set_text (v : jsval) (c : date_control) : date_control :=
  {| control_text := v; control_off := control_off c; control_errors := if control_off c then JNull else validators c v;
     validators := validators c |}.
Definition set_errors (e : jsval) (c : date_control) : date_control :=
  {| control_text := control_text c; control_off := control_off c; control_errors := e; validators := validators c |}.
Definition reset_control (v : jsval) (disabled : bool) (c : date_control) : date_control :=
  set_text v {| control_text := v; control_off := disabled; control_errors := JNull; validators := validators c |}.

Record DateTimeComponent := {
  uniqueHTMLID : option string;
  datetime : option date_control;
  timezone : option date_control;
  format : string;
  timeZones : list string;
  value : option date;
  isDisabled : bool;
}.
Definition TIMEZONES : list string :=
  ["UTC"; "Browser"; "America/Chicago"; "America/Denver"; "America/Detroit"; "America/Los_Angeles"; "America/New_York"].
(** The state after the constructor, with the inputs that are bound. *)
Definition new_DateTimeComponent (id : option string) (dt tz : option date_control) : DateTimeComponent :=
  {| uniqueHTMLID := id; datetime := dt; timezone := tz; format := "MM/dd/yyyy HH:mm:ss"; timeZones := TIMEZONES;
     value := None; isDisabled := false |}.

Definition put_value (v : option date) (s : DateTimeComponent) : DateTimeComponent :=
  {| uniqueHTMLID := uniqueHTMLID s; datetime := datetime s; timezone := timezone s; format := format s; timeZones := timeZones s;
     value := v; isDisabled := isDisabled s |}.
Definition put_datetime (c : date_control) (s : DateTimeComponent) : DateTimeComponent :=
  {| uniqueHTMLID := uniqueHTMLID s; datetime := Some c; timezone := timezone s; format := format s; timeZones := timeZones s;
     value := value s; isDisabled := isDisabled s |}.
Definition put_timezone (c : date_control) (s : DateTimeComponent) : DateTimeComponent :=
  {| uniqueHTMLID := uniqueHTMLID s; datetime := datetime s; timezone := Some c; format := format s; timeZones := timeZones s;
     value := value s; isDisabled := isDisabled s |}.

Abbreviation D := (handler DateTimeComponent Empty_set).
(** A call on a control that was not handed in throws. *)
Definition on_datetime (f : date_control -> date_control) : D unit :=
  s <- gets (fun s => s) ;; c <- deref (datetime s) ;; modify (put_datetime (f c)).
Definition on_timezone (f : date_control -> date_control) : D unit :=
  s <- gets (fun s => s) ;; c <- deref (timezone s) ;; modify (put_timezone (f c)).
(** The text of the pipe: null for no date. *)
Definition transformed (v : option date) (f : string) : outcome jsval :=
  match v with
  | None => Ret JNull
  | Some d => match pipe_transform d f with Ret x => Ret (JStr x) | Exn e => Exn e end
  end.

Definition generateUniqueHTMLID (s : DateTimeComponent) (passedID : string) : string :=
  match uniqueHTMLID s with Some i => i +:+ "-" +:+ passedID | None => passedID end.
Definition writeValue_ (newDate : option date) : D unit :=
  modify (put_value newDate) ;;;
  s <- gets (fun s => s) ;;
  text <- from_outcome (transformed (value s) (format s)) ;;
  on_datetime (reset_control text (isDisabled s)).
Definition changeDateTime_ (timezonestr : string) (now : Z) : D unit :=
  (if timezonestr === "Browser" then on_timezone (set_text (JStr browserTimezone)) else ret tt) ;;;
  let timezonestr := if timezonestr === "Browser" then browserTimezone else timezonestr in
  v <- getCurrentDate timezonestr now ;;
  modify (put_value (Some v)) ;;;
  s <- gets (fun s => s) ;;
  when (match datetime s with Some _ => true | None => false end) (writeValue_ (value s)).
Definition ngOnChanges (now : Z) : D unit :=
  s <- gets (fun s => s) ;;
  when (match datetime s with Some _ => true | None => false end)
    (changeDateTime_ "UTC" now ;;; s <- gets (fun s => s) ;; writeValue_ (value s)).
Definition changeDateTime (zone : string) (now : Z) : D unit := changeDateTime_ zone now.
Definition getHoursMinutesSeconds_ (s : DateTimeComponent) : jsnum * jsnum * jsnum :=
  match value s with
  | Some d => let f := local_fields d in (getHours f, getMinutes f, getSeconds f)
  | None => (Some 0%Z, Some 0%Z, Some 0%Z)
  end.
(** [new Date(null)] is the start of 1970. *)
Definition date_or_epoch (v : option date) : date := default (Some 0%Z) v.
Definition pickerUpdate (v : option date) : D unit :=
  s <- gets (fun s => s) ;;
  let selectedDate := local_fields (date_or_epoch v) in
  let '(h, m, sec) := getHoursMinutesSeconds_ s in
  modify (put_value (Some (returnDate (getFullYear selectedDate) (getMonth selectedDate) (getDate selectedDate) h m sec))).
Definition textChange (text : string) : D unit :=
  s <- gets (fun s => s) ;;
  let prevDate := date_or_epoch (value s) in
  match new_text text with
  | Some _ as newDate =>
      let f := local_fields newDate in
      modify (put_value (Some (returnDate (getFullYear f) (getMonth f) (getDate f) (getHours f) (getMinutes f) (getSeconds f)))) ;;;
      s <- gets (fun s => s) ;;
      shown <- from_outcome (transformed (value s) (format s)) ;;
      on_datetime (set_text shown) ;;;
      on_datetime (set_errors JNull)
  | None =>
      on_datetime (set_errors (JObj [("date", JStr text)])) ;;;
      modify (put_value (Some prevDate))
  end.

(** What the user and the dialog do. The text field takes the text while it is typed;
    the change is reported when the field is left. *)
Inductive event : Type :=
| InputsChange (now : Z)
| ZoneChange (zone : string) (now : Z)
| PickDate (v : option date)
| TypeText (text : string).
Definition handle (e : event) : D unit :=
  match e with
  | InputsChange now => ngOnChanges now
  | ZoneChange zone now => changeDateTime zone now
  | PickDate v => pickerUpdate v
  | TypeText text => on_datetime (set_text (JStr text)) ;;; textChange text
  end.
Definition run (es : list event) (s : DateTimeComponent) : DateTimeComponent :=
  fold_left (fun s e => state_of (handle e s)) es s.

Definition shows_its_date (s : DateTimeComponent) : Prop :=
  exists c, datetime s = Some c /\
    (value s = Some None \/ control_errors c <> JNull \/ transformed (value s) (format s) = Ret (control_text c)).

Lemma writeValue_run v s x c : transformed v (format s) = Ret x -> datetime s = Some c ->
  writeValue_ v s = (Ret tt, put_datetime (reset_control x (isDisabled s) c) (put_value v s), []).
Proof using.
  intros Hx Hc. unfold writeValue_, on_datetime, bind, gets, modify, from_outcome. cbn [value put_value format datetime isDisabled].
  by rewrite Hx, Hc.
Qed.

Lemma writeValue_throws v s e : transformed v (format s) = Exn e -> writeValue_ v s = (Exn e, put_value v s, []).
Proof using. intros Hx. unfold writeValue_, bind, gets, modify, from_outcome. cbn [value put_value format]. by rewrite Hx. Qed.

Lemma getCurrentDate_run {E} zone now (s : DateTimeComponent) :
  exists x, getCurrentDate (E := E) zone now s = (x, s, []).
Proof using.
  unfold getCurrentDate, bind, from_outcome, ret. repeat (destruct (toLocaleString _ zone now); [|by eexists]). by eexists.
Qed.

Context {PL : PlatformLaws P}.

Lemma write_shows v s c : datetime s = Some c -> shows_its_date (state_of (writeValue_ (Some v) s)).
Proof using PL.
  intros Hc. destruct v as [d|].
  - destruct (valid_printed d (format s)) as [x Hx].
    assert (Ht : transformed (Some (Some d)) (format s) = Ret (JStr x)) by (unfold transformed; by rewrite Hx).
    rewrite (writeValue_run _ s (JStr x) c Ht Hc). eexists. split; [done|]. right. right. exact Ht.
  - destruct (transformed (Some None) (format s)) as [x|e] eqn:Hx.
    + rewrite (writeValue_run _ s x c Hx Hc). eexists. split; [done|]. by left.
    + rewrite (writeValue_throws _ s e Hx). exists c. split; [done | by left].
Qed.

(** A change of the zone writes the current date, or leaves everything but the zone. *)
Lemma zone_cases zone now s c : datetime s = Some c ->
  shows_its_date (state_of (changeDateTime_ zone now s)) \/
  exists tz, state_of (changeDateTime_ zone now s) = {| uniqueHTMLID := uniqueHTMLID s; datetime := datetime s; timezone := tz;
    format := format s; timeZones := timeZones s; value := value s; isDisabled := isDisabled s |}.
Proof using PL.
  intros Hc. unfold changeDateTime_.
  set (zone' := if zone === "Browser" then browserTimezone else zone).
  assert (G : forall s1, datetime s1 = Some c ->
    let m := (v <- getCurrentDate zone' now ;; modify (put_value (Some v)) ;;;
              s <- gets (fun s => s) ;; when (match datetime s with Some _ => true | None => false end) (writeValue_ (value s))) in
    shows_its_date (state_of (m s1)) \/ state_of (m s1) = s1).
  { intros s1 H1 m. destruct (getCurrentDate_run (E := Empty_set) zone' now s1) as [[v|e] Hx].
    - left. unfold m, bind, gets, modify, when. rewrite Hx. cbn [datetime put_value value]. rewrite H1.
      pose proof (write_shows v (put_value (Some v) s1) c H1) as W. by destruct (writeValue_ _ _) as [[[] ?] ?].
    - right. unfold m, bind. by rewrite Hx. }
  destruct (zone === "Browser").
  - destruct (timezone s) as [tz|] eqn:Htz.
    + set (s1 := put_timezone (set_text (JStr browserTimezone) tz) s).
      rewrite (bind_state _ _ s tt s1 []) by (unfold on_timezone, bind, gets; by rewrite Htz).
      destruct (G s1 Hc) as [W|W]; [by left | right; exists (Some (set_text (JStr browserTimezone) tz)); by rewrite W].
    + rewrite (bind_run_throw _ _ s "TypeError" s []) by (unfold on_timezone, bind, gets; by rewrite Htz).
      right. exists None. destruct s; simpl in *. by rewrite Htz.
  - rewrite (bind_state _ _ s tt s []) by done.
    destruct (G s Hc) as [W|W]; [by left | right; exists (timezone s); rewrite W; by destruct s].
Qed.

Lemma utc_date {E} now (s : DateTimeComponent) : exists v, getCurrentDate (E := E) "UTC" now s = (Ret v, s, []).
Proof using PL.
  unfold getCurrentDate, bind, from_outcome, ret.
  repeat (let x := fresh in let H := fresh in match goal with |- context [toLocaleString ?q "UTC" now] =>
    destruct (utc_known q now) as [x H]; rewrite H; clear H end). by eexists.
Qed.

Lemma inputs_show now s c : datetime s = Some c -> shows_its_date (state_of (ngOnChanges now s)).
Proof using PL.
  intros Hc. unfold ngOnChanges. rewrite (bind_state _ _ s s s []) by done. cbv beta. rewrite Hc. cbn [when].
  destruct (utc_date (E := Empty_set) now s) as [v Hv].
  set (s1 := put_value (Some v) s).
  assert (Hz : changeDateTime_ "UTC" now s = writeValue_ (Some v) s1).
  { unfold changeDateTime_. change ("UTC" === "Browser") with false. cbv zeta. cbn iota.
    rewrite (bind_run_silent _ _ s tt s) by done. rewrite (bind_run_silent _ _ s v s Hv), (bind_run_silent _ _ s tt s1) by done.
    rewrite (bind_run_silent _ _ s1 s1 s1) by done. cbn [datetime s1 put_value value]. by rewrite Hc. }
  destruct (transformed (Some v) (format s1)) as [x|e] eqn:Hx.
  - assert (Hw := writeValue_run _ s1 x c Hx Hc). rewrite <- Hz in Hw. rewrite (bind_state _ _ s tt _ [] Hw).
    set (s2 := put_datetime _ _). rewrite (bind_state _ _ s2 s2 s2 []) by done.
    exact (write_shows v s2 (reset_control x (isDisabled s1) c) eq_refl).
  - assert (Hw : writeValue_ (Some v) s1 = (Exn e, put_value (Some v) s1, [])).
    { by apply writeValue_throws. }
    rewrite <- Hz in Hw. rewrite (bind_run_throw _ _ s e _ [] Hw). exists c. split; [done|]. left. simpl. f_equal.
    destruct v as [d|]; [|done]. destruct (valid_printed d (format s1)) as [x H]. unfold transformed in Hx. by rewrite H in Hx.
Qed.

Lemma typing_shows text s c : datetime s = Some c -> shows_its_date (state_of (handle (TypeText text) s)).
Proof using PL.
  intros Hc. cbn [handle]. set (s1 := put_datetime (set_text (JStr text) c) s).
  rewrite (bind_state _ _ s tt s1 []) by (unfold on_datetime, bind, gets; by rewrite Hc).
  unfold textChange. rewrite (bind_state _ _ s1 s1 s1 []) by done. cbv zeta.
  destruct (new_text text) as [t|].
  - match goal with |- context [put_value (Some ?d)] => set (v := d) end. clearbody v.
    set (s2 := put_value (Some v) s1). rewrite (bind_state _ _ s1 tt s2 []), (bind_state _ _ s2 s2 s2 []) by done.
    change (value s2) with (Some v). change (format s2) with (format s).
    destruct (transformed (Some v) (format s)) as [x|e] eqn:Hx.
    + rewrite (bind_state _ _ s2 x s2 []) by done. eexists. split; [done|]. right. right. exact Hx.
    + rewrite (bind_run_throw _ _ s2 e s2 []) by done. eexists. split; [done|]. left.
      destruct v as [d|]; [|done]. destruct (valid_printed d (format s)) as [x H]. unfold transformed in Hx. by rewrite H in Hx.
  - eexists. split; [done|]. right. left. done.
Qed.

Definition picks (e : event) : bool := match e with PickDate _ => true | _ => false end.

Lemma step_shows e s : picks e = false -> shows_its_date s -> shows_its_date (state_of (handle e s)).
Proof using PL.
  intros He (c & Hc & Hs). destruct e as [now|zone now|v|text]; [by eapply inputs_show | | done | by eapply typing_shows].
  destruct (zone_cases zone now s c Hc) as [W|[tz W]]; [exact W|]. cbn [handle]. unfold changeDateTime. rewrite W. exists c. by split.
Qed.

(** Until a date is picked from the calendar, the text of the control is the date of the
    component, or the control has an error, or the date is invalid. *)
Theorem field_shows_its_date s c now es : datetime s = Some c -> forallb (fun e => negb (picks e)) es = true ->
  shows_its_date (run (InputsChange now :: es) s).
Proof using PL.
  intros Hc Hes. unfold run. cbn [fold_left handle]. generalize (inputs_show now s c Hc). generalize (state_of (ngOnChanges now s)).
  induction es as [|e es IH]; intros s1 H1; [done|]. cbn [forallb] in Hes. apply andb_true_iff in Hes as [He%negb_true_iff Hes].
  cbn [fold_left]. apply IH; [done | by apply step_shows].
Qed.

(** A date that is picked from the calendar is not written to the control: the dialog
    still reads the text from before. *)
Lemma picked_date_is_not_written v s : datetime (run [PickDate v] s) = datetime s /\
  exists d, value (run [PickDate v] s) = Some d.
Proof using. unfold run, fold_left, handle, pickerUpdate, bind, gets. destruct (getHoursMinutesSeconds_ s) as [[h m] sec]. split; [done | by eexists]. Qed.

(** A text that is not a date, in a field without one, makes the date the start of 1970. *)
Lemma typing_over_nothing text s c : datetime s = Some c -> value s = None -> new_text text = None ->
  value (run [TypeText text] s) = Some (Some 0%Z).
Proof using.
  intros Hc Hv Ht. unfold run, fold_left, handle, textChange, on_datetime, bind, gets, modify, deref. rewrite Hc. cbn. by rewrite Ht, Hv.
Qed.
End DateTime.

(** ** A platform, to evaluate the definitions with: local time is UTC, a text is a date
    when it is a number, and the hour after midnight is printed as 24, as Chrome does
    for [hour12: false]. *)
Definition days_from_civil (y m d : Z) : Z :=
  let y' := if (m <=? 2)%Z then (y - 1)%Z else y in
  let era := (y' / 400)%Z in
  let yoe := (y' - era * 400)%Z in
  let doy := ((153 * (m + (if (2 <? m)%Z then -3 else 9)) + 2) / 5 + d - 1)%Z in
  (era * 146097 + (yoe * 365 + yoe / 4 - yoe / 100 + doy) - 719468)%Z.
Definition civil_from_days (n : Z) : Z * Z * Z :=
  let z := (n + 719468)%Z in
  let era := (z / 146097)%Z in
  let doe := (z - era * 146097)%Z in
  let yoe := ((doe - doe / 1460 + doe / 36524 - doe / 146096) / 365)%Z in
  let doy := (doe - (365 * yoe + yoe / 4 - yoe / 100))%Z in
  let mp := ((5 * doy + 2) / 153)%Z in
  let m := (if mp <? 10 then mp + 3 else mp - 9)%Z in
  ((yoe + era * 400 + (if m <=? 2 then 1 else 0))%Z, m, (doy - (153 * mp + 2) / 5 + 1)%Z).
Definition utc_fields (t : Z) : date_fields :=
  let s := (t / 1000)%Z in
  let '(y, m, d) := civil_from_days (s / 86400) in
  {| getFullYear := Some y; getMonth := Some (m - 1)%Z; getDate := Some d; getHours := Some ((s / 3600) mod 24)%Z;
     getMinutes := Some ((s / 60) mod 60)%Z; getSeconds := Some (s mod 60)%Z |}.
Definition utc_new (f : date_fields) : date :=
  match getFullYear f, getMonth f, getDate f, getHours f, getMinutes f, getSeconds f with
  | Some y, Some mo, Some d, Some h, Some m, Some s => Some (((days_from_civil y (mo + 1) d * 24 + h) * 60 + m) * 60 + s)%Z
  | _, _, _, _, _, _ => None
  end.
Definition utc_print (q : date_part) (t : Z) : string :=
  let f := utc_fields t in
  pretty (default 0%Z match q with
    | YearPart => getFullYear f
    | MonthPart => (fun m => (m + 1)%Z) <$> getMonth f
    | DayPart => getDate f
    | HourPart => (fun h => if (h =? 0)%Z then 24%Z else h) <$> getHours f
    | MinutePart => getMinutes f
    | SecondPart => getSeconds f
    end).
#[export] Instance utc_platform : Platform := {|
  local_fields d := match d with Some t => utc_fields t | None => {| getFullYear := None; getMonth := None; getDate := None;
    getHours := None; getMinutes := None; getSeconds := None |} end;
  new_local f := Z.mul 1000 <$> utc_new f;
  new_text := parseInt10;
  toLocaleString q _ t := Ret (utc_print q t);
  browserTimezone := "UTC";
  pipe_transform d _ := match d with Some t => Ret (pretty t) | None => Exn "InvalidPipeArgument" end |}.
#[export] Instance utc_laws : PlatformLaws utc_platform.
Proof. split; [intros q now | intros d f]; by eexists. Qed.

(** The hour after midnight: the date of the field is a day late. *)
Lemma midnight_is_a_day_late :
  getCurrentDate (S := unit) (E := Empty_set) "UTC" 1800000 tt = (Ret (Some (1800000 + 86400000)%Z), tt, []) /\
  getCurrentDate (S := unit) (E := Empty_set) "UTC" 5400000 tt = (Ret (Some 5400000%Z), tt, []).
Proof. split; vm_compute; reflexivity. Qed.

Definition plain_control : date_control :=
  {| control_text := JStr ""; control_off := false; control_errors := JNull; validators := fun _ => JNull |}.
Lemma field_shows_its_date_witness :
  shows_its_date (run [InputsChange 5400000; TypeText "x"; ZoneChange "Browser" 7200000; TypeText "86400000"]
    (new_DateTimeComponent None (Some plain_control) (Some plain_control))).
Proof. by apply (field_shows_its_date (new_DateTimeComponent None (Some plain_control) (Some plain_control)) plain_control 5400000). Defined.
