(* ===== verification/DisplayDialogs.v ===== *)
(** The dialogs that show what they are given and close: the details of an agent
    installer (modules/agent-builder-chooser/components/agent-details-dialog), the logs
    of a pod and the information of the health page (modules/health-dashboard), an
    information text and a node (modules/global-components).

    The first one reads the configuration while it is shown; it is composed with the
    page that opens it. *)
From S2P Require Import Prelude Handler JsValue Runtime Data AgentData Agents HealthData.

(** [mat_dialog_ref_.close()] *)
Inductive window_effect : Type := CloseWindow.

(** ** agent-details-dialog.component.ts *)

Record AgentDetailsDialogComponent := { details_data : AgentDetailsDialogDataInterface }.
Definition new_AgentDetailsDialog (d : AgentDetailsDialogDataInterface) : AgentDetailsDialogComponent := {| details_data := d |}.
(** [customPackages[app_config.name][element_spec.name]] *)
Definition get_element_config (s : AgentDetailsDialogComponent) (app_config : AppConfigClass) (element_spec : ElementSpecClass) : outcome jsval :=
  match customPackages (dd_agent_installer_configuration (details_data s)) with
  | Some packages =>
      match get_property (default JUndefined (assoc (name app_config) packages)) (es_name element_spec) with
      | Some v => Ret v
      | None => Exn "TypeError"
      end
  | None => Exn "TypeError"
  end.
Definition details_close : handler AgentDetailsDialogComponent window_effect unit := emit CloseWindow.
(** The cells of the template: every element of every tab. *)
Definition details_cells (s : AgentDetailsDialogComponent) : list (list (outcome jsval)) :=
  (fun ac => get_element_config s ac <$> form ac) <$> dd_app_configs (details_data s).

Definition readable (o : outcome jsval) : Prop := exists v, o = Ret v.
Definition is_object (v : jsval) : bool := match v with JObj _ => true | _ => false end.

Lemma details_opened c s r s' es : show_agent_installer_configuration c s = (r, s', es) ->
  Forall (fun e => forall d, e = Page (OpenDetails d) ->
    dd_agent_installer_configuration d = c /\
    Forall (fun ac => name ac ∈ fst <$> default [] (customPackages c)) (dd_app_configs d)) es.
Proof.
  unfold show_agent_installer_configuration, get_app_configs_with_custom_packages_, bind, Agents.get, gets, deref.
  destruct (app_configs s) as [l|]; intros [= <- <- <-]; [|constructor].
  constructor; [|constructor]. intros d [= <-]. split; [done|]. apply Forall_forall. intros ac Hac.
  apply list_elem_of_In, List.filter_In in Hac as [_ Hin]. by apply includes_elem_of.
Qed.

(** The dialog that the page opens for a configuration can read every cell, and a
    package that was not chosen has no tab. *)
Theorem details_are_readable c s r s' es d : show_agent_installer_configuration c s = (r, s', es) ->
  Page (OpenDetails d) ∈ es -> Forall (fun p => is_object (snd p) = true) (default [] (customPackages c)) ->
  Forall (Forall readable) (details_cells (new_AgentDetailsDialog d)).
Proof.
  intros Hs Hd Hp. apply details_opened in Hs. rewrite Forall_forall in Hs. destruct (Hs _ Hd d eq_refl) as [<- Hn].
  unfold details_cells. apply Forall_fmap. eapply Forall_impl; [exact Hn|]. intros ac Hac. cbn beta in Hac.
  apply Forall_fmap, Forall_forall. intros spec _. unfold compose, readable, get_element_config. cbn [details_data new_AgentDetailsDialog].
  destruct (customPackages _) as [packages|]; [|by apply not_elem_of_nil in Hac]. cbn [default] in *.
  destruct (assoc (name ac) packages) as [v|] eqn:Hv; [|by apply assoc_None in Hv].
  apply assoc_elem_of in Hv. rewrite Forall_forall in Hp. specialize (Hp _ Hv). destruct v; try done. by eexists.
Qed.

(** Without the page's choice of the tabs the dialog could throw. *)
Lemma unchosen_package_throws s ac spec packages :
  customPackages (dd_agent_installer_configuration (details_data s)) = Some packages ->
  name ac ∉ fst <$> packages -> get_element_config s ac spec = Exn "TypeError".
Proof. intros Hp Hn. unfold get_element_config. rewrite Hp. apply assoc_None in Hn. by rewrite Hn. Qed.

(** ** pod-log-dialog.component.ts *)

Record PodLogDialogComponent := { show_options : bool; is_read_only : bool; use_language : string; pl_title : string; pod_logs : list PodLogClass }.
Definition new_PodLogDialog (d : PodLogDialogDataInterface) : PodLogDialogComponent :=
  {| show_options := false; is_read_only := true; use_language := "txt"; pl_title := pld_title d; pod_logs := pod_log_info d |}.
Definition pod_log_close : handler PodLogDialogComponent window_effect unit := emit CloseWindow.

(** ** health-dashboard-dialog.component.ts *)

Record HealthDashboardDialogComponent := { hd_title : string; hd_info : list KeyValueClass }.
Definition new_HealthDashboardDialog (d : HealthDashboardDialogDataInterface) : HealthDashboardDialogComponent :=
  {| hd_title := hdd_title d; hd_info := info d |}.
Definition health_dashboard_close : handler HealthDashboardDialogComponent window_effect unit := emit CloseWindow.

(** ** modal-dialog-display-mat and node-info-dialog *)

Record ModalDialogDisplayMatComponent := { md_title : string; md_info : string }.
Definition new_ModalDialogDisplayMat (title info : string) : ModalDialogDisplayMatComponent := {| md_title := title; md_info := info |}.
Definition display_close : handler ModalDialogDisplayMatComponent window_effect unit := emit CloseWindow.

(** The node is the object of the table. *)
Record NodeInfoDialogComponent := { shown_node : loc }.
Definition new_NodeInfoDialog (node : loc) : NodeInfoDialogComponent := {| shown_node := node |}.
Definition node_info_close : handler NodeInfoDialogComponent window_effect unit := emit CloseWindow.
